(* ===== verification/_CoqProject ===== *)
-Q . S2P
Prelude.v
Bitmap.v
Cpu.v
Pic.v
Klist.v
CString.v
Stdio.v
Screen.v
Sched.v
Sync.v
Ioqueue.v
Paging.v
PageAlloc.v
Heap.v
AddrSpace.v
Ide.v
Iface.v
Inode.v
File.v
FileIo.v
FileWrite.v
Dir.v
Node.v
Stock.v
DirWrite.v
DirDelete.v
Format.v
Mount.v
Path.v
Calls.v
Io.v
Builtin.v
Walk.v
PathCalls.v
Cwd.v
Stdout.v
Keyboard.v
Shell.v
WaitExit.v
Fork.v
Process.v
Exec.v
Segment.v
Syscall.v
Machine.v
Partition.v
Ps.v
Pipeline.v
Cat.v
Startup.v
