(* ===== verification/Prelude.v ===== *)
(** * Sparrow-OS: a verification development

    Sparrow-OS (src/sparrow) is a small kernel for the i386: threads with round-robin
    scheduling, paging with a page and a block allocator, an IDE driver, an inode file
    system, pipes, user processes and a shell. This library models its C code as
    functions on explicit states and proves what makes each part correct.

    ** How code is modelled

    Integers are [Z], wrapped to their C width where the code can leave it ([u8], [u16],
    [u32], [i8], [i32]). A function that can fail returns an [outcome]: [Done], [Panic]
    (a failed ASSERT or a PANIC: panic_spin), [Fault] (a memory access outside its
    object) or [Diverge] (a loop that ran out of fuel, or a call that never returns or
    waits for something outside of its model).
    Loops are [Fixpoint]s or [loop] with fuel; the theorems show the fuel suffices.
    Interrupt masking, blocking and context switches are steps on a scheduler state.
    Intrusive lists are related to sequences once, in Klist; the components above use
    sequences.

    ** Files

    - Prelude: machine integers, outcomes, loops, arrays, tactics (this file).
    - Bitmap: lib/kernel/bitmap.c; the interface [IdAllocator].
    - Cpu: kernel/interrupt.c (interrupt flag, IDT), userprog/tss.c (GDT descriptors).
      Pic: the interrupt controllers after pic_init.
    - Klist: lib/kernel/list.c, refined to sequences.
    - CString: lib/string.c on a byte memory. Stdio: lib/stdio.c. Screen: the functions of
      lib/kernel/print.S, refined to a terminal of 25 lines.
    - Sched: thread/thread.c, the timer handler of device/timer.c: tasks, ready queue,
      pids, creation and exit.
    - Sync: thread/sync.c; semaphore and lock as a step relation over all
      interleavings.
    - Ioqueue: device/ioqueue.c and the transfers of shell/pipe.c.
    - Paging: kernel/memory.c up to mappings: pools, page tables, an MMU walk.
      PageAlloc: the invariant of the page allocator and its theorems.
    - Heap: sys_malloc and sys_free on the interface [PageStore], which PageAlloc's
      operations implement.
    - Ide: device/ide.c, register level, and the device behind the registers.
    - Iface: the interfaces [BlockDev] and [Alloc] through which the file system sees
      the driver and the heap, with their instances.
    - Inode: fs/inode.c and the partition's bitmaps. File: file table and descriptors.
      FileIo: file_read and file_write. FileWrite: the correctness of file_write.
    - Dir: fs/dir.c, lookup and enumeration. Node: opening and closing what a path passes
      through, on any heap that has room. Stock: a heap that keeps pages in reserve, an
      instance of [Alloc] that never runs out between matching calls. DirWrite: adding an
      entry. DirDelete: removing one.
    - Format: the layout of partition_format (fs/fs.c). Mount: formatting and mounting.
    - Path: path_parse, path_depth_cnt and search_file (fs/fs.c). Calls: the calls that
      take a path, and file_create. Walk: search_file as a lookup in the tree of directories.
      PathCalls: sys_stat, sys_chdir and sys_open on that lookup, and reading a file by its
      path. Cwd: sys_getcwd. Io: the calls that take a descriptor, and sys_pipe.
    - Builtin: shell/buildin_cmd.c. Stdout: printf to descriptor 1, sys_help, the prompt.
      Shell: line editing and command parsing of shell/shell.c. Pipeline: cmd_execute and
      my_shell. Keyboard: device/keyboard.c.
    - WaitExit: userprog/wait_exit.c and the part of userprog/fork.c on tasks.
    - AddrSpace: page directories (userprog/process.c). Fork: the copy of an address
      space (copy_body_stack3 of userprog/fork.c). Process: process_execute, start_process
      and the rest of fork. Exec: userprog/exec.c. Segment: what segment_load leaves in
      memory.
    - Syscall: lib/user/syscall.c, userprog/syscall-init.c and the entry of int 0x80.
    - Machine: the rest of kernel/interrupt.c, device/timer.c and userprog/tss.c, with the
      chips' side of the port writes.
    - Partition: identify_disk, partition_scan and ide_init of device/ide.c.
    - Ps: sys_ps (thread/thread.c). Cat: command/cat.c.
    - Startup: device/console.c, printk, kernel/debug.c, lib/user/assert.c, thread_init, the
      idle thread, kernel/init.c and kernel/main.c.

    ** What the theorems show

    Sync: mutual exclusion, no lost wake-up and freedom from failed assertions in every
    reachable state. Sched: the scheduler's invariant, round robin, the time slice,
    thread creation and exit. Paging, PageAlloc, Heap: allocation hands out memory that
    nobody uses, freeing returns exactly it and the pages of an arena without blocks in use,
    no other translation changes. Ide: the sectors asked for are transferred and no others;
    the second channel, whose interrupt line is masked, waits for ever. Inode, File, FileIo: what is
    written is read back, reference counts, releasing, descriptor tables, each operation
    on every branch. FileWrite: file_write appends exactly the bytes it is given. Dir,
    DirWrite, DirDelete: a directory is a list of entries, which lookup searches,
    enumeration yields, and adding and removing change by one entry. Format, Mount: the
    sizing loop ends, and a partition that was formatted and mounted has an empty root.
    Walk, PathCalls, Cwd: on a partition whose directories are a tree, looking up a path is
    walking down the tree name by name; sys_stat, sys_chdir and sys_open answer by that
    lookup on every branch, open and read give the contents of the file the path names, and
    sys_getcwd gives the path whose lookup is the working directory. Stock: with k
    pages free, k requests of at most 1024 bytes are served, and so again after any calls
    that leave the same blocks in use as before.
    Path, Builtin, Shell: paths and command lines are split into their components, washing
    resolves . and .., the editor of the shell edits. Keyboard: keys become characters.
    Io: a pipe carries bytes. WaitExit: a parent that waits has a child that has not
    exited, and an exit wakes the parent, which reaps the child. AddrSpace, Fork,
    Segment: a new address space shares the kernel, a forked one is a copy page by page, a
    segment that was loaded is in memory byte by byte as it is in the file, and the
    allocator's invariant holds in all of them. Syscall: every stub reaches the function of
    its name with its arguments, and what the handler does with any other number. Machine: the
    interrupt lines that are open and their vectors, sleeping across the wrap of the tick
    counter, the segments a process runs in, what the screen shows of an exception. Screen:
    the text put is what a terminal shows, and put_int agrees with %x. Partition: a scan finds exactly the partitions
    the tables describe. Pipeline: where the input and output of each command of a pipeline
    lead, and that nothing of the pipe is left. Ps, Cat: what is printed, byte by byte.
    Klist, Ioqueue: refinement of sequences and FIFO queues. Bitmap, CString, Stdio, Cpu:
    the functions agree with direct specifications. The manifest names the forty theorems
    that sum these up; the others of this kind are theorems of their files.

    ** Bounds and fuel

    A bitmap scan gets 8 * length + 9 turns (each turn advances), busy_wait 30001 turns
    (it gives up after 29999), transfers one turn per sector or byte, string loops the
    size of the memory, a pipeline one turn per character of the line. [partition_scan]
    needs one level per sector of the chain of extended partitions, [mtime_sleep] one turn
    per test of the clock, [sys_getcwd] one turn per name of the path; their theorems ask for
    that much. [search_file] has one turn per character of the path, which is enough.

    ** Not modelled

    Assembly: the boot sectors, switch_to, the interrupt entries and the port instructions;
    port writes are the lists of values written. The messages of put_str at start-up and of
    printk inside the file system and the drivers. The locks of the pid bitmap, the heap and
    a partition: operations on one component's state run to their end, and interleavings are
    those of Sync, Ioqueue and WaitExit. The programs that external commands run, a parameter of the shell, but for cat. The file system is
    modelled with every sys_malloc on the kernel heap (in a process the buffers come from
    the heap of the process) and for one mounted partition. *)
From stdpp Require Import base numbers list option tactics.
From Stdlib Require Import ZArith Lia.
From Stdlib Require String Ascii.

#[global] Open Scope Z_scope.
#[global] Arguments Z.testbit : simpl never.
#[global] Arguments Z.land : simpl never.
#[global] Arguments Z.lor : simpl never.
#[global] Arguments Z.shiftl : simpl never.
#[global] Arguments Z.shiftr : simpl never.
#[global] Arguments Z.modulo : simpl never.
#[global] Arguments Z.div : simpl never.
#[global] Arguments Z.eqb : simpl nomatch.

(** ** Machine integers

    A w-bit C integer is a [Z]; conversions and arithmetic that may leave the
    range of the type go through the wrap-around functions below. *)
Definition u8 (x : Z) : Z := x mod 2 ^ 8.
Definition u16 (x : Z) : Z := x mod 2 ^ 16.
Definition u32 (x : Z) : Z := x mod 2 ^ 32.
Definition i8 (x : Z) : Z := (x + 2 ^ 7) mod 2 ^ 8 - 2 ^ 7.
Definition i16 (x : Z) : Z := (x + 2 ^ 15) mod 2 ^ 16 - 2 ^ 15.
Definition i32 (x : Z) : Z := (x + 2 ^ 31) mod 2 ^ 32 - 2 ^ 31.

Definition is_byte (x : Z) : Prop := 0 <= x < 256.
Definition is_u32 (x : Z) : Prop := 0 <= x < 2 ^ 32.

(** The bytes of a string literal. *)
Fixpoint chars (s : String.string) : list Z :=
  match s with String.EmptyString => [] | String.String a s => Z.of_N (Ascii.N_of_ascii a) :: chars s end.
#[global] Arguments chars s%_string_scope.

(** The macro [DIV_ROUND_UP] of kernel/global.h, on [uint32_t] operands. *)
Definition DIV_ROUND_UP (X STEP : Z) : Z := u32 (X + STEP - 1) / STEP.

(** ** Outcomes

    What running a piece of kernel code produces: a value, the endless loop of
    [panic_spin] (a failed [ASSERT] or a [PANIC]), a memory access outside the
    object it was meant for, or no result within the fuel given to a loop. *)
Inductive outcome (A : Type) : Type :=
| Done (a : A)
| Panic
| Fault
| Diverge.
Arguments Done {A} a.
Arguments Panic {A}.
Arguments Fault {A}.
Arguments Diverge {A}.

#[global] Instance outcome_ret : MRet outcome := fun A a => Done a.
#[global] Instance outcome_bind : MBind outcome := fun A B f m =>
  match m with
  | Done a => f a
  | Panic => Panic
  | Fault => Fault
  | Diverge => Diverge
  end.

(** kernel/debug.h: [ASSERT(CONDITION)] spins forever when the condition is false. *)
Definition ASSERT (condition : bool) : outcome unit :=
  if condition then Done () else Panic.

(** Array accesses [a[i]] and [a[i] = v]; out of range is a [Fault]. *)
Definition aget {A} (l : list A) (i : Z) : outcome A :=
  if decide (0 <= i)
  then match l !! Z.to_nat i with Some v => Done v | None => Fault end
  else Fault.

Definition aset {A} (l : list A) (i : Z) (v : A) : outcome (list A) :=
  if decide (0 <= i < Z.of_nat (length l))
  then Done (<[Z.to_nat i := v]> l)
  else Fault.

(** ** Loops

    [loop fuel body s] runs [body] until it leaves with [inr]; [body] is one
    iteration of a C loop (its test included). *)
Fixpoint loop {S R} (fuel : nat) (body : S -> outcome (S + R)) (s : S) : outcome R :=
  match fuel with
  | O => Diverge
  | Datatypes.S n =>
      r ← body s;
      match r with
      | inl s' => loop n body s'
      | inr res => Done res
      end
  end.

(** ** Hint databases and tactics *)
Create HintDb sparrow.

(** Case analysis on the boolean tests of the code. *)
Ltac zbool :=
  repeat match goal with
  | |- context [?a =? ?b] => destruct (Z.eqb_spec a b)
  | |- context [?a <? ?b] => destruct (Z.ltb_spec a b)
  | |- context [?a <=? ?b] => destruct (Z.leb_spec a b)
  | H : context [?a =? ?b] |- _ => destruct (Z.eqb_spec a b)
  | H : context [?a <? ?b] |- _ => destruct (Z.ltb_spec a b)
  | H : context [?a <=? ?b] |- _ => destruct (Z.leb_spec a b)
  end.

(** Linear arithmetic that knows division and remainder by constants. *)
Ltac zdiv := Z.div_mod_to_equations; lia.

(** Unfold the outcome monad. *)
Ltac osimpl := cbv [mbind outcome_bind mret outcome_ret] in *; simpl in *.

(** ** Lemmas on outcomes and loops *)
Lemma bind_done {A B} (a : A) (f : A -> outcome B) : (Done a ≫= f) = f a.
Proof. reflexivity. Qed.

Lemma bind_done_inv {A B} (m : outcome A) (f : A -> outcome B) (b : B) :
  (m ≫= f) = Done b -> exists a, m = Done a /\ f a = Done b.
Proof. destruct m; simpl; try discriminate. eauto. Qed.

Lemma ASSERT_true (c : bool) : c = true -> ASSERT c = Done ().
Proof. by intros ->. Qed.

Lemma ASSERT_inv (c : bool) u : ASSERT c = Done u -> c = true.
Proof. by destruct c. Qed.

(** Step over the ASSERT an operation starts with; its condition is the second goal. *)
Ltac assert_ok :=
  match goal with
  | |- context [mbind _ (ASSERT ?c)] => rewrite (ASSERT_true c); [rewrite bind_done|]
  end.

(** Total correctness of a loop: an invariant, a measure that decreases, and
    fuel above the measure give a result that satisfies the postcondition. *)
Lemma loop_total {S R} (body : S -> outcome (S + R)) (I : S -> Prop) (Q : R -> Prop)
    (measure : S -> Z) :
  (forall s, I s ->
     (exists s', body s = Done (inl s') /\ I s' /\ 0 <= measure s' < measure s) \/
     (exists r, body s = Done (inr r) /\ Q r)) ->
  forall fuel s, I s -> 0 <= measure s < Z.of_nat fuel ->
  exists r, loop fuel body s = Done r /\ Q r.
Proof.
  intros Hstep fuel. induction fuel as [|n IH]; intros s HI Hm; [lia|].
  destruct (Hstep s HI) as [(s' & Hb & HI' & Hm')|(r & Hb & HQ)]; simpl; rewrite Hb; simpl.
  - apply IH; [done|lia].
  - eauto.
Qed.

(** More fuel does not change a result. *)
Lemma loop_fuel_mono {S R} (body : S -> outcome (S + R)) n m s r :
  (n <= m)%nat -> loop n body s = Done r -> loop m body s = Done r.
Proof.
  revert m s. induction n as [|n IH]; intros m s Hle Hl; [done|].
  destruct m as [|m]; [lia|]. simpl in *.
  apply bind_done_inv in Hl as ([s'|r'] & Hb & Hl); rewrite Hb; simpl; [|done].
  apply IH; [lia|done].
Qed.

Lemma loop_done {S R} (body : S -> outcome (S + R)) n s r :
  body s = Done (inr r) -> loop (Datatypes.S n) body s = Done r.
Proof. intros Hb. simpl. by rewrite Hb. Qed.

Lemma loop_next {S R} (body : S -> outcome (S + R)) n s s' :
  body s = Done (inl s') -> loop (Datatypes.S n) body s = loop n body s'.
Proof. intros Hb. simpl. by rewrite Hb. Qed.

(** ** Lemmas on arrays *)
Lemma aget_Some {A} (l : list A) i v :
  0 <= i -> l !! Z.to_nat i = Some v -> aget l i = Done v.
Proof. intros Hi Hl. unfold aget. rewrite decide_True by done. by rewrite Hl. Qed.

Lemma aget_inv {A} (l : list A) i v :
  aget l i = Done v -> 0 <= i < Z.of_nat (length l) /\ l !! Z.to_nat i = Some v.
Proof.
  unfold aget. case_decide; [|done]. destruct (l !! Z.to_nat i) eqn:E; [|done].
  intros [= ->]. split; [|done]. apply lookup_lt_Some in E. lia.
Qed.

Lemma aget_in {A} (l : list A) i :
  0 <= i < Z.of_nat (length l) -> exists v, l !! Z.to_nat i = Some v /\ aget l i = Done v.
Proof.
  intros Hi. destruct (lookup_lt_is_Some_2 l (Z.to_nat i)) as [v Hv]; [lia|].
  exists v. split; [done|]. apply aget_Some; [lia|done].
Qed.

Lemma aset_in {A} (l : list A) i v :
  0 <= i < Z.of_nat (length l) -> aset l i v = Done (<[Z.to_nat i := v]> l).
Proof. intros Hi. unfold aset. by rewrite decide_True. Qed.

Lemma aset_out {A} (l : list A) i v : ~ 0 <= i < Z.of_nat (length l) -> aset l i v = Fault.
Proof. intros Hi. unfold aset. by rewrite decide_False. Qed.

Lemma aset_inv {A} (l l' : list A) i v :
  aset l i v = Done l' -> 0 <= i < Z.of_nat (length l) /\ l' = <[Z.to_nat i := v]> l.
Proof. unfold aset. case_decide; [|done]. by intros [= <-]. Qed.

Lemma aget_aset {A} (l l' : list A) i j v :
  aset l i v = Done l' -> aget l' j = if decide (i = j) then Done v else aget l j.
Proof.
  intros (Hi & ->)%aset_inv. unfold aget. case_decide as Hj; case_decide as Hij; try lia; try done.
  - subst j. rewrite list_lookup_insert_eq by lia. done.
  - rewrite list_lookup_insert_ne by lia. done.
Qed.

#[export] Hint Resolve aget_Some aset_in ASSERT_true : sparrow.

Lemma filter_ext_in {B} (P Q : B -> Prop) `{!forall x, Decision (P x)} `{!forall x, Decision (Q x)} (l : list B) :
  (forall x, x ∈ l -> P x <-> Q x) -> filter P l = filter Q l.
Proof.
  induction l as [|x l IH]; intros Hl; [done|]. rewrite !filter_cons. pose proof (Hl x ltac:(by left)) as Hx.
  rewrite IH by (intros y Hy; apply Hl; by right). destruct (decide (P x)), (decide (Q x)); try done; tauto.
Qed.

(** ** Lemmas on machine integers *)
Lemma u8_small x : 0 <= x < 256 -> u8 x = x.
Proof. intros. apply Z.mod_small. lia. Qed.

Lemma u16_small x : 0 <= x < 65536 -> u16 x = x.
Proof. intros. apply Z.mod_small. lia. Qed.

Lemma u32_small x : 0 <= x < 2 ^ 32 -> u32 x = x.
Proof. intros. apply Z.mod_small. lia. Qed.

Lemma i32_small x : - 2 ^ 31 <= x < 2 ^ 31 -> i32 x = x.
Proof. intros. unfold i32. rewrite Z.mod_small by lia. lia. Qed.

Lemma u32_range x : 0 <= u32 x < 2 ^ 32.
Proof. apply Z.mod_pos_bound. lia. Qed.

Lemma u8_range x : 0 <= u8 x < 256.
Proof. apply Z.mod_pos_bound. lia. Qed.

(** Masking one bit of an integer. *)
Lemma land_bit x n :
  0 <= n -> Z.land x (Z.shiftl 1 n) = if Z.testbit x n then 2 ^ n else 0.
Proof.
  intros Hn. apply Z.bits_inj'. intros k Hk.
  rewrite Z.land_spec, Z.shiftl_spec by done.
  destruct (Z.eq_dec k n) as [->|Hne].
  - rewrite Z.sub_diag. destruct (Z.testbit x n); simpl; [rewrite Z.pow2_bits_true; [done|lia]|by rewrite Z.testbit_0_l].
  - replace (Z.testbit 1 (k - n)) with false.
    + rewrite andb_false_r. destruct (Z.testbit x n).
      * rewrite Z.pow2_bits_false; [done|lia].
      * by rewrite Z.testbit_0_l.
    + destruct (Z_lt_dec k n).
      * rewrite Z.testbit_neg_r; [done|lia].
      * replace (k - n) with (Z.succ (k - n - 1)) by lia.
        change 1 with (2 * 0 + 1). rewrite Z.testbit_odd_succ by lia. by rewrite Z.testbit_0_l.
Qed.

Lemma testbit_u8 x k : 0 <= k < 8 -> Z.testbit (u8 x) k = Z.testbit x k.
Proof. intros. unfold u8. apply Z.mod_pow2_bits_low. lia. Qed.

Lemma testbit_shiftl1 n k : 0 <= n -> 0 <= k -> Z.testbit (Z.shiftl 1 n) k = bool_decide (k = n).
Proof.
  intros Hn Hk. rewrite Z.shiftl_1_l. case_bool_decide as E.
  - subst k. by apply Z.pow2_bits_true.
  - apply Z.pow2_bits_false. lia.
Qed.

(** Extracting [n] bits from position [k] with a mask and a shift. *)
Lemma field_mask x n k :
  0 <= n -> 0 <= k ->
  Z.shiftr (Z.land x (Z.shiftl (Z.ones n) k)) k = (x / 2 ^ k) mod 2 ^ n.
Proof.
  intros Hn Hk. rewrite Z.shiftr_land, Z.shiftr_shiftl_l, Z.sub_diag, Z.shiftl_0_r by lia.
  by rewrite Z.shiftr_div_pow2, Z.land_ones by lia.
Qed.

(** Clearing the low [k] bits of a [w]-bit integer with a mask. *)
Lemma high_mask x w k :
  0 <= k <= w -> Z.land x (Z.shiftl (Z.ones (w - k)) k) = (x / 2 ^ k) mod 2 ^ (w - k) * 2 ^ k.
Proof.
  intros Hk. rewrite <- Z.shiftl_mul_pow2, <- Z.shiftr_div_pow2, <- Z.land_ones by lia.
  apply Z.bits_inj'. intros i Hi.
  rewrite Z.land_spec, !Z.shiftl_spec by done.
  destruct (Z_lt_dec i k).
  - rewrite !(Z.testbit_neg_r _ (i - k)) by lia. apply andb_false_r.
  - rewrite Z.land_spec, Z.shiftr_spec by lia. by replace (i - k + k) with i by lia.
Qed.

(** Or-ing disjoint bits is addition. *)
Lemma lor_low a b k : 0 <= k -> 0 <= b < 2 ^ k -> Z.lor (a * 2 ^ k) b = a * 2 ^ k + b.
Proof.
  intros Hk Hb. rewrite <- Z.shiftl_mul_pow2 by done.
  assert (Hand : Z.land (Z.shiftl a k) b = 0).
  { apply Z.bits_inj'. intros i Hi. rewrite Z.land_spec, Z.shiftl_spec, Z.testbit_0_l by done.
    destruct (Z_lt_dec i k); [by rewrite Z.testbit_neg_r by lia|].
    rewrite <- (Z.mod_small b (2 ^ k)) by done.
    rewrite Z.mod_pow2_bits_high by lia. apply andb_false_r. }
  rewrite Z.add_nocarry_lxor, Z.lxor_lor by done. done.
Qed.
