(* ===== verification/Bitmap.v ===== *)
(** * Bitmaps (lib/kernel/bitmap.c)

    The bitmap that records which pages, pids, inodes and blocks are taken, its
    scan for a run of zero bits, and the interface [IdAllocator] that the
    physical page pools, the pid pool and the file system's inode and block
    allocation use it through. *)
From stdpp Require Import base numbers list option tactics.
From Stdlib Require Import ZArith Lia.
From S2P Require Import Prelude.

(** [struct bitmap]. [bits] is the array of [btmp_bytes_len] bytes; [past] is
    the byte that happens to follow the array in memory: [bitmap_scan] tests a
    bit before it compares the index with the length, and so reads it. *)
Record bitmap := mk_bitmap {
  btmp_bytes_len : Z;
  bits : list Z;
  past : Z
}.

Definition BITMAP_MASK : Z := 1.

(** Reading [btmp->bits[i]]. *)
Definition bits_read (b : bitmap) (i : Z) : outcome Z :=
  if i =? Z.of_nat (length (bits b)) then Done (past b) else aget (bits b) i.

(** [memset(btmp->bits, 0, btmp->btmp_bytes_len)] *)
Definition bitmap_init (b : bitmap) : outcome bitmap :=
  ASSERT true;;
  if decide (btmp_bytes_len b <= Z.of_nat (length (bits b)))
  then Done (mk_bitmap (btmp_bytes_len b)
               (replicate (Z.to_nat (btmp_bytes_len b)) 0 ++ drop (Z.to_nat (btmp_bytes_len b)) (bits b))
               (past b))
  else Fault.

(** Returns a non-zero value when the bit is set (C [bool] is [int] here). *)
Definition bitmap_scan_test (b : bitmap) (bit_idx : Z) : outcome Z :=
  let byte_idx := bit_idx / 8 in
  let bit_odd := bit_idx mod 8 in
  byte ← bits_read b byte_idx;
  Done (Z.land byte (Z.shiftl BITMAP_MASK bit_odd)).

(** while (bitmap_scan_test(bitmap, area_start) && area_start / 8 < len) area_start++; *)
Definition scan_skip (b : bitmap) (area_start : Z) : outcome (Z + Z) :=
  t ← bitmap_scan_test b area_start;
  if negb (t =? 0) && (area_start / 8 <? btmp_bytes_len b)
  then Done (inl (u32 (area_start + 1)))
  else Done (inr area_start).

(** while (area_size < cnt) ...; [None] is the early [return -1]. *)
Definition scan_grow (b : bitmap) (cnt area_start area_size : Z) : outcome (Z + option Z) :=
  if area_size <? cnt then
    if u32 (area_start + area_size) / 8 <? btmp_bytes_len b then
      t ← bitmap_scan_test b (u32 (area_start + area_size));
      if t =? 0 then Done (inl (u32 (area_size + 1))) else Done (inr (Some area_size))
    else Done (inr None)
  else Done (inr (Some area_size)).

(** One turn of the outer while (1). *)
Definition scan_turn (fuel : nat) (b : bitmap) (cnt area_start : Z) : outcome (Z + Z) :=
  area_start ← loop fuel (scan_skip b) area_start;
  if btmp_bytes_len b <=? area_start / 8 then Done (inr (-1)) else
  r ← loop fuel (scan_grow b cnt area_start) 1;
  match r with
  | None => Done (inr (-1))
  | Some area_size =>
      if area_size =? cnt then Done (inr (i32 area_start))
      else Done (inl (u32 (area_start + (area_size + 1))))
  end.

(** Every loop of the scan advances through the bits, so this fuel suffices. *)
Definition scan_fuel (b : bitmap) : nat := Z.to_nat (8 * btmp_bytes_len b + 9).

Definition bitmap_scan (b : bitmap) (cnt : Z) : outcome Z :=
  loop (scan_fuel b) (scan_turn (scan_fuel b) b cnt) 0.

Definition bitmap_set (b : bitmap) (bit_idx value : Z) : outcome bitmap :=
  ASSERT ((value =? 0) || (value =? 1));;
  let byte_idx := bit_idx / 8 in
  let bit_odd := bit_idx mod 8 in
  byte ← aget (bits b) byte_idx;
  let byte' := if negb (value =? 0)
               then u8 (Z.lor byte (Z.shiftl BITMAP_MASK bit_odd))
               else u8 (Z.land byte (Z.lnot (Z.shiftl BITMAP_MASK bit_odd))) in
  bs ← aset (bits b) byte_idx byte';
  Done (mk_bitmap (btmp_bytes_len b) bs (past b)).

(** Scan for one bit and set it: the sequence that [palloc], [allocate_pid],
    [inode_bitmap_alloc] and [block_bitmap_alloc] share. *)
Definition bitmap_take (b : bitmap) : outcome (option Z * bitmap) :=
  bit_idx ← bitmap_scan b 1;
  if bit_idx =? -1 then Done (None, b) else
  b' ← bitmap_set b bit_idx 1;
  Done (Some bit_idx, b').

(** ** Specification *)
Definition bitmap_wf (b : bitmap) : Prop :=
  btmp_bytes_len b = Z.of_nat (length (bits b)) /\ 8 * btmp_bytes_len b < 2 ^ 31.

Definition nbits (b : bitmap) : Z := 8 * btmp_bytes_len b.

Definition bit (b : bitmap) (i : Z) : bool :=
  Z.testbit (default 0 (bits b !! Z.to_nat (i / 8))) (i mod 8).

(** [cnt] clear bits from [s] on, inside the bitmap. *)
Definition free_run (b : bitmap) (s cnt : Z) : Prop :=
  0 <= s /\ s + cnt <= nbits b /\ forall i, s <= i < s + cnt -> bit b i = false.

(** First fit. *)
Definition first_fit (b : bitmap) (cnt r : Z) : Prop :=
  (r = -1 /\ forall s, ~ free_run b s cnt) \/
  (free_run b r cnt /\ forall s, free_run b s cnt -> r <= s).

(** What the clients of a bitmap rely on: a finite set of ids, an operation
    that takes the least free one, and one that gives an id back. *)
Class IdAllocator (A : Type) := {
  id_wf : A -> Prop;
  id_count : A -> Z;
  id_used : A -> Z -> bool;
  id_take : A -> outcome (option Z * A);
  id_put : A -> Z -> Z -> outcome A;
  id_take_ok : forall a, id_wf a ->
    (exists i a', id_take a = Done (Some i, a') /\ id_wf a' /\ id_count a' = id_count a /\
       0 <= i < id_count a /\ id_used a i = false /\
       (forall j, 0 <= j < i -> id_used a j = true) /\
       (forall j, 0 <= j -> id_used a' j = (bool_decide (j = i) || id_used a j))) \/
    (id_take a = Done (None, a) /\ forall i, 0 <= i < id_count a -> id_used a i = true);
  id_put_ok : forall a i v, id_wf a -> 0 <= i < id_count a -> v = 0 \/ v = 1 ->
    exists a', id_put a i v = Done a' /\ id_wf a' /\ id_count a' = id_count a /\
      forall j, 0 <= j -> id_used a' j = if decide (j = i) then bool_decide (v = 1) else id_used a j
}.

(** ** Lemmas *)
Lemma bits_read_in b i :
  bitmap_wf b -> 0 <= i < btmp_bytes_len b ->
  exists v, bits b !! Z.to_nat i = Some v /\ bits_read b i = Done v.
Proof.
  intros [Hlen _] Hi. destruct (aget_in (bits b) i) as (v & Hv & Hg); [lia|].
  exists v. split; [done|]. unfold bits_read.
  destruct (Z.eqb_spec i (Z.of_nat (length (bits b)))); [lia|done].
Qed.

Lemma scan_test_spec b i :
  bitmap_wf b -> 0 <= i < nbits b + 8 ->
  exists v, bitmap_scan_test b i = Done v /\ (i < nbits b -> (v =? 0) = negb (bit b i)).
Proof.
  intros Hwf Hi. unfold nbits in *. pose proof Hwf as [Hlen _].
  destruct (Z_lt_dec i (8 * btmp_bytes_len b)) as [Hin|Hout].
  - destruct (bits_read_in b (i / 8)) as (v & Hv & Hr); [done|zdiv|].
    eexists. unfold bitmap_scan_test. rewrite Hr. split; [reflexivity|]. intros _.
    unfold BITMAP_MASK. rewrite land_bit by (apply Z.mod_pos_bound; lia).
    unfold bit. rewrite Hv. simpl. pose proof (Z.mod_pos_bound i 8).
    destruct (Z.testbit v (i mod 8)); [|done].
    apply Z.eqb_neq. apply Z.pow_nonzero; lia.
  - eexists. unfold bitmap_scan_test, bits_read.
    replace (i / 8) with (Z.of_nat (length (bits b))) by zdiv.
    rewrite Z.eqb_refl. split; [reflexivity|lia].
Qed.

Lemma scan_skip_spec b s0 :
  bitmap_wf b -> 0 <= s0 <= nbits b ->
  exists s, loop (scan_fuel b) (scan_skip b) s0 = Done s /\
    s0 <= s <= nbits b /\ (forall i, s0 <= i < s -> bit b i = true) /\
    (s < nbits b -> bit b s = false).
Proof.
  intros Hwf Hs0. pose proof Hwf as [Hlen Hmax]. unfold nbits in *.
  apply (loop_total (scan_skip b)
    (fun s => s0 <= s <= 8 * btmp_bytes_len b /\ forall i, s0 <= i < s -> bit b i = true)
    (fun s => s0 <= s <= 8 * btmp_bytes_len b /\ (forall i, s0 <= i < s -> bit b i = true) /\
              (s < 8 * btmp_bytes_len b -> bit b s = false))
    (fun s => 8 * btmp_bytes_len b - s)).
  - intros s [Hs Hset]. destruct (scan_test_spec b s) as (v & Hv & Hv0); [done|unfold nbits; lia|].
    unfold nbits in *. unfold scan_skip. rewrite Hv. simpl.
    destruct (Z.ltb_spec (s / 8) (btmp_bytes_len b)) as [Hin|Hin].
    + rewrite Hv0 by zdiv. rewrite negb_involutive, andb_true_r.
      destruct (bit b s) eqn:Hb.
      * left. rewrite u32_small by zdiv. eexists. split; [done|].
        split; [split; [zdiv|]|zdiv].
        intros i Hi. destruct (Z.eq_dec i s) as [->|]; [done|apply Hset; lia].
      * right. eauto with lia.
    + rewrite andb_false_r. right. eexists. split; [done|]. split_and!; try done; zdiv.
  - split; [lia|]. intros; lia.
  - unfold scan_fuel. lia.
Qed.

Lemma scan_grow_spec b cnt s :
  bitmap_wf b -> 1 <= cnt < 2 ^ 32 -> 0 <= s < nbits b -> bit b s = false ->
  exists r, loop (scan_fuel b) (scan_grow b cnt s) 1 = Done r /\
    match r with
    | None => nbits b < s + cnt
    | Some sz => 1 <= sz <= cnt /\ s + sz <= nbits b /\
        (forall i, s <= i < s + sz -> bit b i = false) /\
        (sz <> cnt -> s + sz < nbits b /\ bit b (s + sz) = true)
    end.
Proof.
  intros Hwf Hcnt Hs Hb. pose proof Hwf as [Hlen Hmax]. unfold nbits in *.
  apply (loop_total (scan_grow b cnt s)
    (fun sz => 1 <= sz <= cnt /\ s + sz <= 8 * btmp_bytes_len b /\
               forall i, s <= i < s + sz -> bit b i = false)
    _ (fun sz => 8 * btmp_bytes_len b - sz)).
  - intros sz (Hsz & Hle & Hz). unfold scan_grow.
    destruct (Z.ltb_spec sz cnt); [|right; eexists; split; [done|]; split_and!; try done; lia].
    rewrite u32_small by lia.
    destruct (Z.ltb_spec ((s + sz) / 8) (btmp_bytes_len b)) as [Hin|Hin].
    + destruct (scan_test_spec b (s + sz)) as (v & Hv & Hv0); [done|unfold nbits; zdiv|].
      rewrite Hv. simpl. rewrite Hv0 by (unfold nbits; zdiv).
      destruct (bit b (s + sz)) eqn:Hbit; simpl.
      * right. eexists. split; [done|]. split_and!; try done; [lia..|]. intros _. split; [zdiv|done].
      * left. rewrite u32_small by lia. eexists. split; [done|].
        split; [split_and!; [lia..|zdiv|]|zdiv].
        intros i Hi. destruct (Z.eq_dec i (s + sz)) as [->|]; [done|apply Hz; lia].
    + right. eexists. split; [done|]. zdiv.
  - split_and!; [lia..|]. intros i Hi. replace i with s by lia. done.
  - unfold scan_fuel. lia.
Qed.

(** A run of length [cnt] cannot start where a set bit is met before its end. *)
Lemma no_run_over b s i cnt : bit b i = true -> s <= i < s + cnt -> ~ free_run b s cnt.
Proof. intros Hb Hi (_ & _ & Hr). specialize (Hr i Hi). congruence. Qed.

Lemma scan_spec b cnt :
  bitmap_wf b -> 1 <= cnt < 2 ^ 32 ->
  exists r, bitmap_scan b cnt = Done r /\ first_fit b cnt r.
Proof.
  intros Hwf Hcnt. pose proof Hwf as [Hlen Hmax].
  apply (loop_total (scan_turn (scan_fuel b) b cnt)
    (fun s => 0 <= s <= nbits b /\ forall s', s' < s -> ~ free_run b s' cnt)
    (first_fit b cnt) (fun s => nbits b - s)).
  - intros s0 [Hs0 Hno]. unfold scan_turn.
    destruct (scan_skip_spec b s0) as (s & Hl & Hs & Hset & Hclr); [done..|].
    rewrite Hl. rewrite bind_done. clear Hl.
    assert (Hno' : forall s', s' < s -> ~ free_run b s' cnt).
    { intros s' Hs'. destruct (Z_lt_dec s' s0); [by apply Hno|].
      apply (no_run_over b s' s'); [apply Hset|]; lia. }
    unfold nbits in *.
    destruct (Z.leb_spec (btmp_bytes_len b) (s / 8)) as [Hend|Hin].
    { right. eexists. split; [done|]. left. split; [done|].
      intros s' Hr. pose proof Hr as (_ & Hle & _). unfold nbits in Hle.
      apply (Hno' s'); [zdiv|done]. }
    destruct (scan_grow_spec b cnt s) as (r & Hl & Hr); [done..|unfold nbits; zdiv|apply Hclr; zdiv|].
    rewrite Hl. rewrite bind_done. clear Hl. destruct r as [sz|].
    + destruct Hr as (Hsz & Hle & Hz & Hstop). unfold nbits in *.
      destruct (Z.eqb_spec sz cnt) as [->|Hne].
      * right. eexists. split; [done|]. rewrite i32_small by lia. right. split.
        { unfold free_run, nbits. split_and!; [lia..|done]. }
        intros s' Hr'. destruct (Z_lt_dec s' s); [by destruct (Hno' s')|lia].
      * left. destruct (Hstop Hne) as [Hlt Hbit]. rewrite u32_small by lia.
        eexists. split; [done|]. split; [split; [lia|]|lia].
        intros s' Hs'. destruct (Z_lt_dec s' s); [by apply Hno'|].
        destruct (Z_le_dec (s + sz + 1) (s' + 0)); [lia|].
        apply (no_run_over b s' (s + sz)); [done|lia].
    + right. eexists. split; [done|]. left. split; [done|]. unfold nbits in *.
      intros s' Hr'. pose proof Hr' as (_ & Hle & _). unfold nbits in Hle.
      apply (Hno' s'); [lia|done].
  - unfold nbits. split; [lia|]. intros s' Hs' [? _]. lia.
  - unfold scan_fuel, nbits. lia.
Qed.

Lemma first_fit_unique b cnt r1 r2 :
  first_fit b cnt r1 -> first_fit b cnt r2 -> r1 = r2.
Proof.
  intros [[-> Hn1]|[Hf1 Hm1]] [[-> Hn2]|[Hf2 Hm2]]; try done.
  - by destruct (Hn1 r2).
  - by destruct (Hn2 r1).
  - pose proof (Hm1 _ Hf2). pose proof (Hm2 _ Hf1). lia.
Qed.

Lemma bitmap_set_spec b i v :
  bitmap_wf b -> 0 <= i < nbits b -> v = 0 \/ v = 1 ->
  exists b', bitmap_set b i v = Done b' /\ bitmap_wf b' /\ nbits b' = nbits b /\ past b' = past b /\
    forall j, 0 <= j -> bit b' j = if decide (j = i) then bool_decide (v = 1) else bit b j.
Proof.
  intros Hwf Hi Hv. pose proof Hwf as [Hlen Hmax]. unfold nbits in *.
  destruct (aget_in (bits b) (i / 8)) as (byte & Hbyte & Hget); [zdiv|].
  unfold bitmap_set. rewrite ASSERT_true by (destruct Hv as [-> | ->]; done).
  rewrite bind_done, Hget, bind_done, aset_in by zdiv. rewrite bind_done.
  eexists. split; [done|]. split.
  { split; simpl; [by rewrite length_insert|lia]. }
  split; [done|]. split; [done|].
  intros j Hj. unfold bit. simpl. pose proof (Z.mod_pos_bound j 8). pose proof (Z.mod_pos_bound i 8).
  destruct (Z.eq_dec (j / 8) (i / 8)) as [Hq|Hq].
  - rewrite Hq, list_lookup_insert_eq by zdiv. rewrite Hbyte. simpl.
    assert (Hji : j mod 8 = i mod 8 <-> j = i) by zdiv.
    destruct Hv as [-> | ->]; simpl; rewrite testbit_u8 by lia.
    + rewrite Z.land_spec, Z.lnot_spec, testbit_shiftl1 by lia.
      case_decide; case_bool_decide; try tauto; simpl; by rewrite ?andb_false_r, ?andb_true_r.
    + rewrite Z.lor_spec, testbit_shiftl1 by lia.
      case_decide; case_bool_decide; try tauto; simpl; by rewrite ?orb_false_r, ?orb_true_r.
  - rewrite list_lookup_insert_ne by zdiv. rewrite decide_False by congruence. done.
Qed.

Lemma take_spec b :
  bitmap_wf b ->
  (exists i b', bitmap_take b = Done (Some i, b') /\ bitmap_wf b' /\ nbits b' = nbits b /\
     0 <= i < nbits b /\ bit b i = false /\ (forall j, 0 <= j < i -> bit b j = true) /\
     (forall j, 0 <= j -> bit b' j = (bool_decide (j = i) || bit b j))) \/
  (bitmap_take b = Done (None, b) /\ forall i, 0 <= i < nbits b -> bit b i = true).
Proof.
  intros Hwf. destruct (scan_spec b 1) as (r & Hr & Hff); [done|lia|].
  unfold bitmap_take. rewrite Hr, bind_done.
  assert (Hone : forall s, 0 <= s < nbits b -> bit b s = false -> free_run b s 1).
  { intros s Hs Hb. split_and!; [lia..|]. intros i ?. by replace i with s by lia. }
  destruct Hff as [[-> Hno]|[(Hr0 & Hle & Hz) Hmin]].
  - right. split; [done|]. intros i Hi. destruct (bit b i) eqn:E; [done|].
    by destruct (Hno i); auto.
  - left. destruct (Z.eqb_spec r (-1)); [lia|].
    destruct (bitmap_set_spec b r 1) as (b' & Hset & Hwf' & Hn & _ & Hbits); [done|lia|auto|].
    rewrite Hset, bind_done. exists r, b'. split_and!; try done; try lia.
    + apply Hz. lia.
    + intros j Hj. destruct (bit b j) eqn:E; [done|].
      pose proof (Hmin j (Hone j ltac:(lia) E)). lia.
    + intros j Hj. rewrite Hbits by done. destruct (decide (j = r)); [by rewrite !bool_decide_true|by rewrite (bool_decide_false (j = r))].
Qed.

#[global] Instance bitmap_allocator : IdAllocator bitmap := {|
  id_wf := bitmap_wf;
  id_count := nbits;
  id_used := bit;
  id_take := bitmap_take;
  id_put := bitmap_set;
  id_take_ok := take_spec;
  id_put_ok := ltac:(intros b i v Hwf Hi Hv;
    destruct (bitmap_set_spec b i v Hwf Hi Hv) as (b' & ? & ? & ? & ? & ?); eauto 6)
|}.

(** ** Properties *)

(** C33. [bitmap_scan] always returns, and returns the start of the first run of
    [cnt] clear bits that fits in the bitmap, or -1 when there is none; the byte
    it reads after the end of the array never influences the answer. *)
Theorem bitmap_scan_first_fit b cnt :
  bitmap_wf b -> 1 <= cnt < 2 ^ 32 ->
  exists r, (forall p, bitmap_scan (mk_bitmap (btmp_bytes_len b) (bits b) p) cnt = Done r) /\
    first_fit b cnt r.
Proof.
  intros Hwf Hcnt. destruct (scan_spec b cnt Hwf Hcnt) as (r & Hr & Hff).
  exists r. split; [|done]. intros p.
  destruct (scan_spec (mk_bitmap (btmp_bytes_len b) (bits b) p) cnt) as (r' & Hr' & Hff'); [done..|].
  rewrite Hr'. f_equal. by apply (first_fit_unique b cnt).
Qed.

Definition sample_bitmap : bitmap := mk_bitmap 2 [0xb7; 0xf0] 0.

Lemma bitmap_scan_first_fit_witness :
  bitmap_scan sample_bitmap 4 = Done 8 /\ first_fit sample_bitmap 4 8.
Proof.
  split; [reflexivity|].
  destruct (bitmap_scan_first_fit sample_bitmap 4) as (r & Hr & Hf).
  - split; [reflexivity|vm_compute; reflexivity].
  - lia.
  - specialize (Hr 0). replace r with 8 in Hf; [exact Hf|].
    vm_compute in Hr. congruence.
Defined.

(** [bitmap_set] changes the addressed bit to the given value and no other
    bit, keeps the length and the memory behind the array. *)
Theorem bitmap_set_exact b i v :
  bitmap_wf b -> 0 <= i < nbits b -> v = 0 \/ v = 1 ->
  exists b', bitmap_set b i v = Done b' /\ bitmap_wf b' /\ nbits b' = nbits b /\ past b' = past b /\
    forall j, 0 <= j -> bit b' j = if decide (j = i) then bool_decide (v = 1) else bit b j.
Proof. apply bitmap_set_spec. Qed.

Lemma bitmap_set_exact_witness :
  exists b', bitmap_set sample_bitmap 3 1 = Done b' /\ bit b' 3 = true /\ bit b' 6 = false.
Proof.
  destruct (bitmap_set_exact sample_bitmap 3 1) as (b' & Hs & _ & _ & _ & Hb).
  - split; [reflexivity|vm_compute; reflexivity].
  - vm_compute. split; congruence.
  - auto.
  - exists b'. split; [exact Hs|]. rewrite !Hb by lia. split; reflexivity.
Defined.

(** Taking an id and giving it back restores every bit: the scan-and-set
    and the clear that the allocators are built of are inverse. *)
Theorem bitmap_take_put b i b1 :
  bitmap_wf b -> bitmap_take b = Done (Some i, b1) ->
  exists b2, bitmap_set b1 i 0 = Done b2 /\ bitmap_wf b2 /\ nbits b2 = nbits b /\
    forall j, 0 <= j -> bit b2 j = bit b j.
Proof.
  intros Hwf Ht. destruct (take_spec b Hwf) as [(i' & b' & Ht' & Hwf' & Hn & Hi & Hfree & _ & Hb)|[Ht' _]];
    rewrite Ht' in Ht; simplify_eq.
  destruct (bitmap_set_spec b1 i 0) as (b2 & Hs & Hwf2 & Hn2 & _ & Hb2); [done|lia|auto|].
  exists b2. split_and!; [done..|congruence|]. intros j Hj. rewrite Hb2 by done.
  destruct (decide (j = i)) as [->|]; [by rewrite bool_decide_false|].
  rewrite Hb by done. by rewrite bool_decide_false.
Qed.

Lemma bitmap_take_put_witness :
  exists b2, (bitmap_take sample_bitmap ≫= fun r => bitmap_set (snd r) 3 0) = Done b2 /\
    bit b2 3 = false.
Proof.
  destruct (bitmap_take_put sample_bitmap 3 (mk_bitmap 2 [0xbf; 0xf0] 0)) as (b2 & Hs & _ & _ & Hb).
  - split; [reflexivity|vm_compute; reflexivity].
  - reflexivity.
  - exists b2. split; [exact Hs|]. rewrite Hb by lia. reflexivity.
Defined.
