(* ===== verification/Cpu.v ===== *)
(** * Processor state the kernel keeps (kernel/interrupt.c, userprog/tss.c)

    The interrupt flag and the functions that save and restore it, the
    interrupt gates of the IDT, the handler table, and the segment
    descriptors of the GDT. *)
From stdpp Require Import base numbers list option tactics strings.
From Stdlib Require Import ZArith Lia.
From S2P Require Import Prelude.

(** ** The interrupt flag *)
Module Intr.

Inductive intr_status := INTR_OFF | INTR_ON.

#[global] Instance intr_status_eq_dec : EqDecision intr_status.
Proof. solve_decision. Defined.

Definition EFLAGS_IF : Z := 0x00000200.

(** The instructions [sti] and [cli] on the flags register. *)
Definition sti (eflags : Z) : Z := Z.lor eflags EFLAGS_IF.
Definition cli (eflags : Z) : Z := Z.land eflags (Z.lnot EFLAGS_IF).

Definition intr_get_status (eflags : Z) : intr_status :=
  if negb (Z.land EFLAGS_IF eflags =? 0) then INTR_ON else INTR_OFF.

(** The functions return the status before the call and the new flags. *)
Definition intr_enable (eflags : Z) : intr_status * Z :=
  if decide (INTR_ON = intr_get_status eflags) then (INTR_ON, eflags)
  else (INTR_OFF, sti eflags).

Definition intr_disable (eflags : Z) : intr_status * Z :=
  if decide (INTR_ON = intr_get_status eflags) then (INTR_ON, cli eflags)
  else (INTR_OFF, eflags).

Definition intr_set_status (status : intr_status) (eflags : Z) : intr_status * Z :=
  match status with
  | INTR_ON => intr_enable eflags
  | INTR_OFF => intr_disable eflags
  end.

Lemma get_status_bit eflags :
  intr_get_status eflags = if Z.testbit eflags 9 then INTR_ON else INTR_OFF.
Proof.
  unfold intr_get_status, EFLAGS_IF. rewrite Z.land_comm.
  change 0x200 with (Z.shiftl 1 9). rewrite land_bit by lia. by destruct (Z.testbit eflags 9).
Qed.

Lemma sti_bit e k : 0 <= k -> Z.testbit (sti e) k = Z.testbit e k || bool_decide (k = 9).
Proof.
  intros. unfold sti, EFLAGS_IF. change 0x200 with (Z.shiftl 1 9).
  by rewrite Z.lor_spec, testbit_shiftl1 by lia.
Qed.

Lemma cli_bit e k : 0 <= k -> Z.testbit (cli e) k = Z.testbit e k && bool_decide (k <> 9).
Proof.
  intros. unfold cli, EFLAGS_IF. change 0x200 with (Z.shiftl 1 9).
  rewrite Z.land_spec, Z.lnot_spec, testbit_shiftl1 by lia. do 2 case_bool_decide; done.
Qed.

Lemma cli_off e : intr_get_status (cli e) = INTR_OFF.
Proof.
  rewrite get_status_bit, cli_bit by lia. rewrite bool_decide_false by lia. by rewrite andb_false_r.
Qed.

Lemma intr_disable_off e : intr_get_status (snd (intr_disable e)) = INTR_OFF.
Proof.
  unfold intr_disable. rewrite (get_status_bit e). destruct (Z.testbit e 9) eqn:E; simpl.
  - rewrite get_status_bit, cli_bit by lia. by rewrite E.
  - by rewrite get_status_bit, E.
Qed.

Lemma bracket_flags e : snd (intr_set_status (fst (intr_disable e)) (snd (intr_disable e))) = e.
Proof.
  pose proof (intr_disable_off e) as Hoff. unfold intr_disable in *.
  rewrite (get_status_bit e) in *. destruct (Z.testbit e 9) eqn:E; simpl in *.
  - unfold intr_enable. rewrite Hoff. simpl. apply Z.bits_inj'. intros k Hk.
    rewrite sti_bit, cli_bit by done.
    destruct (decide (k = 9)) as [->|]; [by rewrite E|].
    rewrite bool_decide_true, bool_decide_false by done. by rewrite andb_true_r, orb_false_r.
  - unfold intr_disable. by rewrite Hoff.
Qed.

(** Every critical section of the kernel has the form
    [old = intr_disable(); ...; intr_set_status(old)]: inside it interrupts are
    off, and after it the flags register is exactly what it was before, whether
    interrupts were on or off. *)
Theorem intr_bracket_restores e :
  let '(old, e1) := intr_disable e in
  intr_get_status e1 = INTR_OFF /\ old = intr_get_status e /\
  snd (intr_set_status old e1) = e.
Proof.
  pose proof (intr_disable_off e) as Hoff. pose proof (bracket_flags e) as Hb.
  destruct (intr_disable e) as [old e1] eqn:E. simpl in *. split_and!; [done| |done].
  unfold intr_disable in E. rewrite (get_status_bit e) in *.
  destruct (Z.testbit e 9); simpl in E; by simplify_eq.
Qed.

End Intr.

(** ** Interrupt gates and the handler table *)
Module Idt.

Definition IDT_DESC_CNT : Z := 0x81.
Definition SELECTOR_K_CODE : Z := Z.shiftl 1 3 + Z.shiftl 0 2 + 0.
Definition IDT_DESC_ATTR_DPL0 : Z := Z.shiftl 1 7 + Z.shiftl 0 5 + 0xE.
Definition IDT_DESC_ATTR_DPL3 : Z := Z.shiftl 1 7 + Z.shiftl 3 5 + 0xE.

Record gate_desc := mk_gate {
  func_offset_low_word : Z;
  selector : Z;
  dcount : Z;
  attribute : Z;
  func_offset_high_word : Z
}.

Definition make_idt_desc (attr function : Z) : gate_desc := {|
  func_offset_low_word := u16 (Z.land function 0x0000FFFF);
  selector := SELECTOR_K_CODE;
  dcount := 0;
  attribute := attr;
  func_offset_high_word := u16 (Z.shiftr (Z.land function 0xFFFF0000) 16)
|}.

(** The loop over [intr_entry_table], then the gate of system call 0x80. *)
Definition idt_desc_init (intr_entry_table : list Z) (syscall_handler : Z) : outcome (list gate_desc) :=
  let lastindex := IDT_DESC_CNT - 1 in
  aset (make_idt_desc IDT_DESC_ATTR_DPL0 <$> intr_entry_table) lastindex
       (make_idt_desc IDT_DESC_ATTR_DPL3 syscall_handler).

(** The C handlers the assembly entries call: a handler is named by its address. *)
Definition exception_init (general_intr_handler : Z) : list Z :=
  replicate (Z.to_nat IDT_DESC_CNT) general_intr_handler.

Definition register_handler (idt_table : list Z) (vector_no function : Z) : outcome (list Z) :=
  aset idt_table vector_no function.

(** How the processor reads a gate: target offset and privilege level. *)
Definition gate_offset (g : gate_desc) : Z := func_offset_high_word g * 2 ^ 16 + func_offset_low_word g.
Definition gate_dpl (g : gate_desc) : Z := (attribute g / 2 ^ 5) mod 4.
Definition gate_present (g : gate_desc) : bool := Z.testbit (attribute g) 7.

Lemma make_idt_desc_offset attr f : is_u32 f -> gate_offset (make_idt_desc attr f) = f.
Proof.
  intros Hf. unfold gate_offset, make_idt_desc. simpl.
  change 0xFFFF with (Z.ones 16). change 0xFFFF0000 with (Z.shiftl (Z.ones 16) 16).
  rewrite field_mask, Z.land_ones by lia. unfold u16. rewrite !Z.mod_mod by lia.
  unfold is_u32 in Hf. zdiv.
Qed.

(** The interrupt descriptor table built at boot is right: every one of the
    0x81 gates is present, targets its entry routine, and is reachable from the
    kernel only, except gate 0x80, which targets the system-call entry and may be
    raised by user code. *)
Theorem idt_desc_init_gates tbl sysh :
  length tbl = Z.to_nat IDT_DESC_CNT -> Forall is_u32 tbl -> is_u32 sysh ->
  exists idt, idt_desc_init tbl sysh = Done idt /\ length idt = Z.to_nat IDT_DESC_CNT /\
    forall i g, idt !! i = Some g ->
      gate_present g = true /\ selector g = SELECTOR_K_CODE /\
      (if decide (i = 0x80%nat) then gate_offset g = sysh /\ gate_dpl g = 3
       else tbl !! i = Some (gate_offset g) /\ gate_dpl g = 0).
Proof.
  intros Hlen Htbl Hs. unfold idt_desc_init.
  assert (Hl : length (make_idt_desc IDT_DESC_ATTR_DPL0 <$> tbl) = 0x81%nat).
  { rewrite length_fmap. rewrite Hlen. done. }
  rewrite aset_in by (rewrite Hl; unfold IDT_DESC_CNT; lia).
  eexists. split; [done|]. rewrite length_insert, Hl. split; [done|].
  intros i g. change (Z.to_nat (IDT_DESC_CNT - 1)) with 0x80%nat.
  destruct (decide (i = 0x80%nat)) as [->|Hne].
  - rewrite list_lookup_insert_eq by lia. intros [= <-].
    split; [done|]. split; [done|]. split; [by apply make_idt_desc_offset|done].
  - rewrite list_lookup_insert_ne by done.
    rewrite list_lookup_fmap. destruct (tbl !! i) as [f|] eqn:E; [|done]. intros [= <-].
    split; [done|]. split; [done|]. split; [|done]. f_equal. symmetry.
    apply make_idt_desc_offset. by eapply Forall_lookup_1.
Qed.

Lemma idt_desc_init_gates_witness :
  exists idt, idt_desc_init (replicate 129 0xc0001500) 0xc0001777 = Done idt /\
    idt !! 0x80%nat = Some (make_idt_desc IDT_DESC_ATTR_DPL3 0xc0001777).
Proof.
  destruct (idt_desc_init_gates (replicate 129 0xc0001500) 0xc0001777) as (idt & H & _).
  - reflexivity.
  - apply Forall_replicate. unfold is_u32; lia.
  - unfold is_u32; lia.
  - exists idt. split; [exact H|]. vm_compute in H. injection H as <-. reflexivity.
Defined.

End Idt.

(** ** Segment descriptors *)
Module Gdt.

Record gdt_desc := mk_gdt {
  limit_low_word : Z;
  base_low_word : Z;
  base_mid_byte : Z;
  attr_low_byte : Z;
  limit_high_attr_high : Z;
  base_high_byte : Z
}.

Definition GDT_ATTR_HIGH : Z := Z.shiftl 1 7 + Z.shiftl 1 6 + Z.shiftl 0 5 + Z.shiftl 0 4.
Definition GDT_CODE_ATTR_LOW_DPL3 : Z := Z.shiftl 1 7 + Z.shiftl 3 5 + Z.shiftl 1 4 + 8.
Definition GDT_DATA_ATTR_LOW_DPL3 : Z := Z.shiftl 1 7 + Z.shiftl 3 5 + Z.shiftl 1 4 + 2.
Definition TSS_ATTR_HIGH : Z := Z.shiftl 1 7 + Z.shiftl 0 6 + Z.shiftl 0 5 + Z.shiftl 0 4 + 0.
Definition TSS_ATTR_LOW : Z := Z.shiftl 1 7 + Z.shiftl 0 5 + Z.shiftl 0 4 + 9.

Definition make_gdt_desc (desc_addr limit attr_low attr_high : Z) : gdt_desc :=
  let desc_base := desc_addr in
  {| limit_low_word := u16 (Z.land limit 0x0000ffff);
     base_low_word := u16 (Z.land desc_base 0x0000ffff);
     base_mid_byte := u8 (Z.shiftr (Z.land desc_base 0x00ff0000) 16);
     attr_low_byte := u8 attr_low;
     limit_high_attr_high := u8 (Z.shiftr (Z.land limit 0x000f0000) 16 + u8 attr_high);
     base_high_byte := u8 (Z.shiftr desc_base 24) |}.

(** How the processor reads a descriptor. *)
Definition seg_base (d : gdt_desc) : Z :=
  base_high_byte d * 2 ^ 24 + base_mid_byte d * 2 ^ 16 + base_low_word d.
Definition seg_limit (d : gdt_desc) : Z := (limit_high_attr_high d mod 16) * 2 ^ 16 + limit_low_word d.
Definition seg_attr (d : gdt_desc) : Z := attr_low_byte d + 256 * (limit_high_attr_high d / 16).

(** A segment descriptor built by [make_gdt_desc] decodes to the base, the
    20-bit limit and the attributes it was built from: the split into the six
    fields loses nothing, and the limit's high nibble and the attribute nibble
    that share a byte do not disturb each other. *)
Theorem make_gdt_desc_decodes base limit attr_low attr_high :
  is_u32 base -> 0 <= limit < 2 ^ 20 -> is_byte attr_low -> is_byte attr_high ->
  attr_high mod 16 = 0 ->
  let d := make_gdt_desc base limit attr_low attr_high in
  seg_base d = base /\ seg_limit d = limit /\ seg_attr d = attr_low + 256 * (attr_high / 16).
Proof.
  unfold is_u32, is_byte. intros Hb Hl Hal Hah Hnib.
  unfold seg_base, seg_limit, seg_attr, make_gdt_desc. simpl.
  change 0xffff with (Z.ones 16). change 0xff0000 with (Z.shiftl (Z.ones 8) 16).
  change 0xf0000 with (Z.shiftl (Z.ones 4) 16).
  rewrite !field_mask, !Z.land_ones, Z.shiftr_div_pow2 by lia.
  rewrite (u8_small attr_high), (u8_small attr_low) by lia.
  unfold u16, u8. rewrite !Z.mod_mod by lia.
  split_and!; zdiv.
Qed.

Lemma make_gdt_desc_decodes_witness :
  seg_limit (make_gdt_desc 0 0xfffff GDT_CODE_ATTR_LOW_DPL3 GDT_ATTR_HIGH) = 0xfffff.
Proof.
  apply (make_gdt_desc_decodes 0 0xfffff GDT_CODE_ATTR_LOW_DPL3 GDT_ATTR_HIGH);
    unfold is_u32, is_byte; vm_compute; try split; congruence.
Defined.

End Gdt.
