(* ===== verification/Pic.v ===== *)
(** * The interrupt controllers (kernel/interrupt.c: pic_init)

    The port writes of [pic_init], and how a pair of 8259A reads them: which vector the
    processor gets for an interrupt line. The disk driver (Ide) waits for such a line. *)
From stdpp Require Import base numbers list option.
From Stdlib Require Import ZArith.
From S2P Require Import Prelude.

Definition PIC_M_CTRL : Z := 0x20.
Definition PIC_M_DATA : Z := 0x21.
Definition PIC_S_CTRL : Z := 0xa0.
Definition PIC_S_DATA : Z := 0xa1.

Definition pic_init : list (Z * Z) :=
  [(PIC_M_CTRL, 0x11); (PIC_M_DATA, 0x20); (PIC_M_DATA, 0x04); (PIC_M_DATA, 0x01);
   (PIC_S_CTRL, 0x11); (PIC_S_DATA, 0x28); (PIC_S_DATA, 0x02); (PIC_S_DATA, 0x01);
   (PIC_M_DATA, 0xf8); (PIC_S_DATA, 0xbf)].

(** ** The chip

    Bit 4 at the control port begins an initialization: the data port then takes the
    vector base, the cascade and the mode, and the mask from there on. *)
Record pic := mk_pic { icw : nat; vector_base : Z; cascade : Z; mode : Z; mask : Z }.

Definition ctrl_write (b : Z) (c : pic) : pic := if Z.testbit b 4 then mk_pic 1 (vector_base c) (cascade c) (mode c) 0 else c.
Definition data_write (b : Z) (c : pic) : pic :=
  match icw c with
  | 1%nat => mk_pic 2 (b / 8 * 8) (cascade c) (mode c) (mask c)
  | 2%nat => mk_pic 3 (vector_base c) b (mode c) (mask c)
  | 3%nat => mk_pic 0 (vector_base c) (cascade c) b (mask c)
  | _ => mk_pic (icw c) (vector_base c) (cascade c) (mode c) b
  end.

(** The two chips after a sequence of port writes. *)
Definition port_write (st : pic * pic) (w : Z * Z) : pic * pic :=
  let '(m, s) := st in
  if w.1 =? PIC_M_CTRL then (ctrl_write w.2 m, s) else if w.1 =? PIC_M_DATA then (data_write w.2 m, s)
  else if w.1 =? PIC_S_CTRL then (m, ctrl_write w.2 s) else if w.1 =? PIC_S_DATA then (m, data_write w.2 s) else st.

(** The vector the processor gets for line [irq]; [None] when it is masked or the second
    chip is not wired to the line the first expects it on. *)
Definition vector (st : pic * pic) (irq : Z) : option Z :=
  let '(m, s) := st in
  if irq <? 8 then
    if Z.testbit (mask m) irq || Z.testbit (cascade m) irq then None else Some (vector_base m + irq)
  else if Z.testbit (mask m) (cascade s) || negb (Z.testbit (cascade m) (cascade s)) || Z.testbit (mask s) (irq - 8) then None
  else Some (vector_base s + (irq - 8)).

(** The vector for a line after [pic_init]; the chips start blank. *)
Definition line_vector (irq : Z) : option Z :=
  vector (fold_left port_write pic_init (mk_pic 0 0 0 0 0, mk_pic 0 0 0 0 0)) irq.
