(* ===== verification/Klist.v ===== *)
(** * Kernel lists (lib/kernel/list.c)

    The intrusive doubly linked list with a head and a tail sentinel, on a heap
    of list nodes, and the refinement that the pointer operations implement the
    operations on a Rocq [list]: push, append, pop, remove, membership,
    traversal and length. The components that keep their queues in such lists
    (ready queue, waiters, free blocks, open inodes) are modelled on the
    abstract lists. *)
From stdpp Require Import base numbers list option tactics gmap fin_maps.
From Stdlib Require Import ZArith Lia.
From S2P Require Import Prelude Cpu.
Import Intr.

(** ** Data *)
Record list_elem := mk_elem { prev : Z; next : Z }.

(** [struct list]: the addresses of its two sentinels. *)
Record klist := mk_klist { head : Z; tail : Z }.

(** The nodes in memory by address, and the flags register. *)
Record kmem := mk_kmem { heap : gmap Z list_elem; eflags : Z }.

Definition NULL : Z := 0.

Definition elem_at (h : gmap Z list_elem) (a : Z) : outcome list_elem :=
  match h !! a with Some e => Done e | None => Fault end.

Definition set_next (h : gmap Z list_elem) (a v : Z) : outcome (gmap Z list_elem) :=
  e ← elem_at h a; Done (<[a := mk_elem (prev e) v]> h).

Definition set_prev (h : gmap Z list_elem) (a v : Z) : outcome (gmap Z list_elem) :=
  e ← elem_at h a; Done (<[a := mk_elem v (next e)]> h).

(** ** Operations *)
Definition list_init (k : kmem) (l : klist) : outcome kmem :=
  h ← set_prev (heap k) (head l) NULL;
  h ← set_next h (head l) (tail l);
  h ← set_prev h (tail l) (head l);
  h ← set_next h (tail l) NULL;
  Done (mk_kmem h (eflags k)).

Definition list_insert_before (k : kmem) (before elem : Z) : outcome kmem :=
  let '(old_status, fl) := intr_disable (eflags k) in
  b ← elem_at (heap k) before;
  h ← set_next (heap k) (prev b) elem;
  b ← elem_at h before;
  h ← set_prev h elem (prev b);
  h ← set_next h elem before;
  h ← set_prev h before elem;
  Done (mk_kmem h (snd (intr_set_status old_status fl))).

Definition list_push (k : kmem) (plist : klist) (elem : Z) : outcome kmem :=
  hd ← elem_at (heap k) (head plist);
  list_insert_before k (next hd) elem.

Definition list_append (k : kmem) (plist : klist) (elem : Z) : outcome kmem :=
  list_insert_before k (tail plist) elem.

Definition list_remove (k : kmem) (pelem : Z) : outcome kmem :=
  let '(old_status, fl) := intr_disable (eflags k) in
  e ← elem_at (heap k) pelem;
  h ← set_next (heap k) (prev e) (next e);
  e ← elem_at h pelem;
  h ← set_prev h (next e) (prev e);
  Done (mk_kmem h (snd (intr_set_status old_status fl))).

Definition list_pop (k : kmem) (plist : klist) : outcome (Z * kmem) :=
  hd ← elem_at (heap k) (head plist);
  let elem := next hd in
  k' ← list_remove k elem;
  Done (elem, k').

Definition list_empty (k : kmem) (plist : klist) : outcome bool :=
  hd ← elem_at (heap k) (head plist);
  Done (next hd =? tail plist).

(** The walks visit each node of the list once. *)
Definition walk_fuel (k : kmem) : nat := S (size (heap k)).

Definition elem_find (k : kmem) (plist : klist) (obj_elem : Z) : outcome bool :=
  hd ← elem_at (heap k) (head plist);
  loop (walk_fuel k) (fun elem =>
    if elem =? tail plist then Done (inr false) else
    if elem =? obj_elem then Done (inr true) else
    e ← elem_at (heap k) elem; Done (inl (next e))) (next hd).

(** The callback may change state of its own ([St]), never the links. *)
Definition list_traversal {St} (k : kmem) (plist : klist)
    (func : Z -> Z -> St -> outcome (bool * St)) (arg : Z) (st : St) : outcome (option Z * St) :=
  hd ← elem_at (heap k) (head plist);
  empty ← list_empty k plist;
  if (empty : bool) then Done (None, st) else
  loop (walk_fuel k) (fun '(elem, st) =>
    if elem =? tail plist then Done (inr (None, st)) else
    r ← func elem arg st;
    if (r.1 : bool) then Done (inr (Some elem, r.2)) else
    e ← elem_at (heap k) elem; Done (inl (next e, r.2))) (next hd, st).

Definition list_len (k : kmem) (plist : klist) : outcome Z :=
  hd ← elem_at (heap k) (head plist);
  loop (walk_fuel k) (fun '(elem, length) =>
    if elem =? tail plist then Done (inr length) else
    e ← elem_at (heap k) elem; Done (inl (next e, u32 (length + 1)))) (next hd, 0).

(** ** Abstraction *)
Definition nxt (h : gmap Z list_elem) (a : Z) : option Z := next <$> h !! a.
Definition prv (h : gmap Z list_elem) (a : Z) : option Z := prev <$> h !! a.

(** Neighbours in [zs] point at each other. *)
Fixpoint linked (h : gmap Z list_elem) (zs : list Z) : Prop :=
  match zs with
  | a :: ((b :: _) as rest) => nxt h a = Some b /\ prv h b = Some a /\ linked h rest
  | _ => True
  end.

(** The list at [pl] holds exactly the nodes [l], in this order. *)
Definition dlist (h : gmap Z list_elem) (pl : klist) (l : list Z) : Prop :=
  let zs := head pl :: l ++ [tail pl] in
  NoDup zs /\ (forall a, a ∈ zs -> is_Some (h !! a)) /\ linked h zs.

(** What a traversal does, on the abstract list. *)
Fixpoint traverse {St} (func : Z -> Z -> St -> outcome (bool * St)) (arg : Z) (l : list Z) (st : St)
    : outcome (option Z * St) :=
  match l with
  | [] => Done (None, st)
  | x :: xs =>
      r ← func x arg st;
      if (r.1 : bool) then Done (Some x, r.2) else traverse func arg xs r.2
  end.

(** ** Lemmas on [linked] *)
Lemma elem_at_Some h a e : h !! a = Some e -> elem_at h a = Done e.
Proof. intros H. unfold elem_at. by rewrite H. Qed.

Lemma linked_split h pre p b post :
  linked h (pre ++ p :: b :: post) <->
  linked h (pre ++ [p]) /\ nxt h p = Some b /\ prv h b = Some p /\ linked h (b :: post).
Proof.
  induction pre as [|a pre IH]; [simpl; tauto|].
  destruct pre as [|a' pre]; simpl in *; tauto.
Qed.

Lemma linked_ext_front h h' pre p :
  linked h (pre ++ [p]) -> (forall a, a ∈ pre -> nxt h' a = nxt h a) ->
  (forall a, a ∈ pre ++ [p] -> prv h' a = prv h a) -> linked h' (pre ++ [p]).
Proof.
  induction pre as [|a pre IH]; [done|]. intros Hl Hn Hp.
  destruct pre as [|a' pre].
  - simpl in *. rewrite Hn, Hp by set_solver. tauto.
  - destruct Hl as (H1 & H2 & H3). change (nxt h' a = Some a' /\ prv h' a' = Some a /\ linked h' ((a' :: pre) ++ [p])).
    rewrite Hn, Hp by set_solver. split_and!; [done..|]. apply IH; [done|set_solver..].
Qed.

Lemma linked_ext_back h h' b post :
  linked h (b :: post) -> (forall a, a ∈ b :: post -> nxt h' a = nxt h a) ->
  (forall a, a ∈ post -> prv h' a = prv h a) -> linked h' (b :: post).
Proof.
  revert b. induction post as [|c post IH]; [done|]. intros b (H1 & H2 & H3) Hn Hp.
  simpl. rewrite Hn, Hp by set_solver. split_and!; [done..|]. apply IH; [done|set_solver..].
Qed.

(** One sentence per neighbour write. *)
Lemma set_next_ok h a e v :
  h !! a = Some e -> set_next h a v = Done (<[a := mk_elem (prev e) v]> h).
Proof. intros H. unfold set_next. by rewrite (elem_at_Some _ _ _ H). Qed.

Lemma set_prev_ok h a e v :
  h !! a = Some e -> set_prev h a v = Done (<[a := mk_elem v (next e)]> h).
Proof. intros H. unfold set_prev. by rewrite (elem_at_Some _ _ _ H). Qed.

(** Inserting between two neighbours. *)
Lemma insert_before_linked k pre p b post elem :
  NoDup (pre ++ p :: b :: post) ->
  (forall a, a ∈ pre ++ p :: b :: post -> is_Some (heap k !! a)) ->
  linked (heap k) (pre ++ p :: b :: post) ->
  is_Some (heap k !! elem) -> elem ∉ pre ++ p :: b :: post ->
  exists h', list_insert_before k b elem = Done (mk_kmem h' (eflags k)) /\
    linked h' (pre ++ p :: elem :: b :: post) /\
    (forall a, is_Some (heap k !! a) -> is_Some (h' !! a)) /\
    (forall a, a <> p -> a <> b -> a <> elem -> h' !! a = heap k !! a).
Proof.
  intros Hnd Hdom Hl [ee He] Hnin.
  destruct (Hdom p) as [ep Hp]; [set_solver|]. destruct (Hdom b) as [eb Hb]; [set_solver|].
  apply linked_split in Hl as (Hl1 & Hn & Hpv & Hl2).
  unfold prv in Hpv. rewrite Hb in Hpv. simpl in Hpv. injection Hpv as Hpb.
  apply NoDup_app in Hnd as (Hnd1 & Hdisj & Hnd2). apply NoDup_cons in Hnd2 as [Hp_nin Hnd2].
  apply NoDup_cons in Hnd2 as [Hb_nin Hnd2].
  assert (Hne1 : p <> b) by set_solver. assert (Hne2 : elem <> p) by set_solver.
  assert (Hne3 : elem <> b) by set_solver.
  set (h' := <[b := mk_elem elem (next eb)]> (<[elem := mk_elem p b]> (<[p := mk_elem (prev ep) elem]> (heap k)))).
  assert (Hfr : forall a, a <> p -> a <> b -> a <> elem -> h' !! a = heap k !! a).
  { intros a ???. unfold h'. by rewrite !lookup_insert_ne by congruence. }
  exists h'. split; [|split; [|split; [|done]]].
  - unfold list_insert_before.
    rewrite (surjective_pairing (intr_disable (eflags k))), bracket_flags.
    rewrite (elem_at_Some _ _ _ Hb), bind_done, Hpb, (set_next_ok _ _ _ _ Hp), bind_done.
    rewrite (elem_at_Some _ _ eb) by (by rewrite lookup_insert_ne by congruence).
    rewrite bind_done, (set_prev_ok _ _ ee) by (by rewrite lookup_insert_ne by congruence).
    rewrite bind_done, (set_next_ok _ _ _ _ (lookup_insert_eq _ _ _)), bind_done. simpl.
    rewrite (set_prev_ok _ _ eb) by (by rewrite !lookup_insert_ne by congruence).
    rewrite bind_done, insert_insert_eq, Hpb. done.
  - change (pre ++ p :: elem :: b :: post) with (pre ++ p :: elem :: (b :: post)).
    apply linked_split. split; [|split; [|split]].
    + apply (linked_ext_front (heap k)); [done|..].
      * intros a Ha. unfold nxt. rewrite Hfr; [done|set_solver..].
      * intros a Ha. unfold prv. destruct (decide (a = p)) as [->|].
        { unfold h'. rewrite lookup_insert_ne, lookup_insert_ne, lookup_insert_eq by congruence. by rewrite Hp. }
        rewrite Hfr; [done|set_solver..].
    + unfold nxt, h'. by rewrite lookup_insert_ne, lookup_insert_ne, lookup_insert_eq by congruence.
    + unfold prv, h'. by rewrite lookup_insert_ne, lookup_insert_eq by congruence.
    + change (linked h' ([] ++ elem :: b :: post)). apply linked_split. split_and!; [done| | |].
      * unfold nxt, h'. by rewrite lookup_insert_ne, lookup_insert_eq by congruence.
      * unfold prv, h'. by rewrite lookup_insert_eq.
      * apply (linked_ext_back (heap k)); [done|..].
        { intros a Ha. unfold nxt. destruct (decide (a = b)) as [->|].
          - unfold h'. rewrite lookup_insert_eq. by rewrite Hb.
          - rewrite Hfr; [done|set_solver..]. }
        intros a Ha. unfold prv. rewrite Hfr; [done|set_solver..].
  - intros a Ha. unfold h'. rewrite !lookup_insert_is_Some'. tauto.
Qed.

(** Unlinking a node. *)
Lemma remove_linked k pre p e n post :
  NoDup (pre ++ p :: e :: n :: post) ->
  (forall a, a ∈ pre ++ p :: e :: n :: post -> is_Some (heap k !! a)) ->
  linked (heap k) (pre ++ p :: e :: n :: post) ->
  exists h', list_remove k e = Done (mk_kmem h' (eflags k)) /\
    linked h' (pre ++ p :: n :: post) /\
    (forall a, is_Some (heap k !! a) -> is_Some (h' !! a)) /\
    (forall a, a <> p -> a <> n -> h' !! a = heap k !! a).
Proof.
  intros Hnd Hdom Hl.
  destruct (Hdom p) as [ep Hp]; [set_solver|]. destruct (Hdom e) as [ee He]; [set_solver|].
  destruct (Hdom n) as [en Hn]; [set_solver|].
  apply linked_split in Hl as (Hl1 & _ & Hpv & Hl2).
  change (linked (heap k) ([] ++ e :: n :: post)) in Hl2. apply linked_split in Hl2 as (_ & Hnx & _ & Hl3).
  unfold prv in Hpv. unfold nxt in Hnx. rewrite He in Hpv, Hnx. simpl in Hpv, Hnx.
  injection Hpv as Hpe. injection Hnx as Hne.
  apply NoDup_app in Hnd as (Hnd1 & Hdisj & Hnd2). apply NoDup_cons in Hnd2 as [Hp_nin Hnd2].
  apply NoDup_cons in Hnd2 as [He_nin Hnd2]. apply NoDup_cons in Hnd2 as [Hn_nin Hnd2].
  assert (Hd1 : p <> n) by set_solver. assert (Hd2 : e <> p) by set_solver.
  set (h' := <[n := mk_elem p (next en)]> (<[p := mk_elem (prev ep) n]> (heap k))).
  assert (Hfr : forall a, a <> p -> a <> n -> h' !! a = heap k !! a).
  { intros a ??. unfold h'. by rewrite !lookup_insert_ne by congruence. }
  exists h'. split; [|split; [|split; [|done]]].
  - unfold list_remove. rewrite (surjective_pairing (intr_disable (eflags k))), bracket_flags.
    rewrite (elem_at_Some _ _ _ He), bind_done, Hpe, (set_next_ok _ _ _ _ Hp), bind_done.
    rewrite (elem_at_Some _ _ ee) by (by rewrite lookup_insert_ne by congruence).
    rewrite bind_done, Hne, Hpe, (set_prev_ok _ _ en) by (by rewrite lookup_insert_ne by congruence).
    done.
  - apply linked_split. split; [|split; [|split]].
    + apply (linked_ext_front (heap k)); [done|..].
      * intros a Ha. unfold nxt. rewrite Hfr; [done|set_solver..].
      * intros a Ha. unfold prv. destruct (decide (a = p)) as [->|].
        { unfold h'. rewrite lookup_insert_ne, lookup_insert_eq by congruence. by rewrite Hp. }
        rewrite Hfr; [done|set_solver..].
    + unfold nxt, h'. by rewrite lookup_insert_ne, lookup_insert_eq by congruence.
    + unfold prv, h'. by rewrite lookup_insert_eq.
    + apply (linked_ext_back (heap k)); [done|..].
      * intros a Ha. unfold nxt. destruct (decide (a = n)) as [->|].
        { unfold h'. rewrite lookup_insert_eq. by rewrite Hn. }
        rewrite Hfr; [done|set_solver..].
      * intros a Ha. unfold prv. rewrite Hfr; [done|set_solver..].
  - intros a Ha. unfold h'. rewrite !lookup_insert_is_Some'. tauto.
Qed.

(** ** Walks *)
Definition first (l : list Z) (d : Z) : Z := match l with [] => d | x :: _ => x end.

Lemma linked_next h p l t : linked h (p :: l ++ [t]) -> nxt h p = Some (first l t).
Proof. destruct l; simpl; tauto. Qed.

Lemma linked_tail h p x l t : linked h (p :: (x :: l) ++ [t]) -> linked h (x :: l ++ [t]).
Proof. simpl. destruct l; simpl; tauto. Qed.

Lemma nxt_elem_at h a b : nxt h a = Some b -> exists e, elem_at h a = Done e /\ next e = b.
Proof. unfold nxt, elem_at. destruct (h !! a) as [e|]; simpl; [|done]. intros [= <-]. eauto. Qed.

Lemma dlist_fuel k pl l : dlist (heap k) pl l -> (length l < walk_fuel k)%nat.
Proof.
  intros (Hnd & Hdom & _). unfold walk_fuel.
  apply NoDup_cons in Hnd as [_ Hnd]. apply NoDup_app in Hnd as (Hnd & _ & _).
  rewrite <- (size_list_to_set (C := gset Z) l) by done.
  rewrite <- (size_dom (D := gset Z) (heap k)).
  apply Nat.lt_succ_r. apply subseteq_size. intros a Ha.
  apply elem_of_list_to_set in Ha. apply elem_of_dom. apply Hdom. set_solver.
Qed.

Lemma dlist_head k pl l :
  dlist (heap k) pl l -> exists e, elem_at (heap k) (head pl) = Done e /\ next e = first l (tail pl).
Proof. intros (_ & _ & Hl). apply nxt_elem_at. by apply linked_next. Qed.

Lemma find_walk k pl x p l fuel :
  linked (heap k) (p :: l ++ [tail pl]) -> tail pl ∉ l -> (length l < fuel)%nat ->
  loop fuel (fun elem =>
    if elem =? tail pl then Done (inr false) else
    if elem =? x then Done (inr true) else
    e ← elem_at (heap k) elem; Done (inl (next e))) (first l (tail pl))
  = Done (bool_decide (x ∈ l)).
Proof.
  revert p fuel. induction l as [|a l IH]; intros p fuel Hl Ht Hf; (destruct fuel as [|fuel]; [simpl in Hf; lia|]).
  - simpl. by rewrite Z.eqb_refl.
  - simpl. destruct (Z.eqb_spec a (tail pl)); [set_solver|].
    destruct (Z.eqb_spec a x) as [->|Hax]; simpl.
    + symmetry. f_equal. apply bool_decide_true. set_solver.
    + apply linked_tail in Hl. destruct (nxt_elem_at _ _ _ (linked_next _ _ _ _ Hl)) as (e & -> & Hn).
      simpl. rewrite Hn, (IH a); [|done|set_solver|simpl in Hf; lia].
      f_equal. apply bool_decide_ext. rewrite elem_of_cons. naive_solver.
Qed.

Lemma traverse_walk {St} k pl (func : Z -> Z -> St -> outcome (bool * St)) arg p l fuel st :
  linked (heap k) (p :: l ++ [tail pl]) -> tail pl ∉ l -> (length l < fuel)%nat ->
  loop fuel (fun '(elem, st) =>
    if elem =? tail pl then Done (inr (None, st)) else
    r ← func elem arg st;
    if (r.1 : bool) then Done (inr (Some elem, r.2)) else
    e ← elem_at (heap k) elem; Done (inl (next e, r.2))) (first l (tail pl), st)
  = traverse func arg l st.
Proof.
  revert p fuel st. induction l as [|a l IH]; intros p fuel st Hl Ht Hf; (destruct fuel as [|fuel]; [simpl in Hf; lia|]).
  - simpl. by rewrite Z.eqb_refl.
  - simpl. destruct (Z.eqb_spec a (tail pl)); [set_solver|].
    destruct (func a arg st) as [[b st']| | |]; simpl; try done. destruct b; [done|].
    apply linked_tail in Hl. destruct (nxt_elem_at _ _ _ (linked_next _ _ _ _ Hl)) as (e & -> & Hn).
    simpl. rewrite Hn. apply (IH a); [done|set_solver|simpl in Hf; lia].
Qed.

Lemma len_walk k pl p l fuel n :
  linked (heap k) (p :: l ++ [tail pl]) -> tail pl ∉ l -> (length l < fuel)%nat ->
  loop fuel (fun '(elem, length) =>
    if elem =? tail pl then Done (inr length) else
    e ← elem_at (heap k) elem; Done (inl (next e, u32 (length + 1)))) (first l (tail pl), u32 n)
  = Done (u32 (n + Z.of_nat (length l))).
Proof.
  revert p fuel n. induction l as [|a l IH]; intros p fuel n Hl Ht Hf; (destruct fuel as [|fuel]; [simpl in Hf; lia|]).
  - simpl. rewrite Z.eqb_refl. simpl. by rewrite Z.add_0_r.
  - simpl. destruct (Z.eqb_spec a (tail pl)); [set_solver|].
    apply linked_tail in Hl. destruct (nxt_elem_at _ _ _ (linked_next _ _ _ _ Hl)) as (e & -> & Hn).
    simpl. rewrite Hn. replace (u32 (u32 n + 1)) with (u32 (n + 1)).
    + rewrite (IH a) by (done || set_solver || (simpl in Hf; lia)). f_equal. f_equal. lia.
    + unfold u32. by rewrite Zplus_mod_idemp_l.
Qed.

(** ** Refinement of the list operations *)

(** Outside the nodes of the list nothing changes, and no node disappears. *)
Definition frame (zs : list Z) (h h' : gmap Z list_elem) : Prop :=
  (forall a, is_Some (h !! a) -> is_Some (h' !! a)) /\ (forall a, a ∉ zs -> h' !! a = h !! a).

Lemma dlist_other h h' zs pl l :
  frame zs h h' -> (forall a, a ∈ head pl :: l ++ [tail pl] -> a ∉ zs) ->
  dlist h pl l -> dlist h' pl l.
Proof.
  intros [Hdom Hfr] Hdisj (Hnd & Hd & Hl). split; [done|]. split; [naive_solver|].
  change (head pl :: l ++ [tail pl]) with ([] ++ head pl :: (l ++ [tail pl])) in *.
  assert (Hall : forall zs', (forall a, a ∈ zs' -> a ∉ zs) -> linked h zs' -> linked h' zs').
  { clear -Hfr. intros zs' Hz Hl. destruct zs' as [|b post]; [done|].
    apply (linked_ext_back h); [done|..]; intros a Ha; unfold nxt, prv; rewrite Hfr; set_solver. }
  by apply Hall.
Qed.

Lemma NoDup_insert_mid {A} (pre post : list A) (x : A) :
  NoDup (pre ++ post) -> x ∉ pre ++ post -> NoDup (pre ++ x :: post).
Proof.
  intros Hnd Hx. apply (NoDup_Permutation_proper _ (x :: pre ++ post)).
  - symmetry. apply Permutation_middle.
  - by apply NoDup_cons.
Qed.

Lemma push_spec k pl l e :
  dlist (heap k) pl l -> is_Some (heap k !! e) -> e ∉ head pl :: l ++ [tail pl] ->
  exists h', list_push k pl e = Done (mk_kmem h' (eflags k)) /\ dlist h' pl (e :: l) /\
    frame (e :: head pl :: l ++ [tail pl]) (heap k) h'.
Proof.
  intros Hd He Hn. pose proof Hd as (Hnd & Hdom & Hl).
  destruct (dlist_head k pl l Hd) as (hd & Hhd & Hnx). unfold list_push. rewrite Hhd, bind_done, Hnx.
  assert (Hzs : exists post, l ++ [tail pl] = first l (tail pl) :: post).
  { destruct l; simpl; eauto. }
  destruct Hzs as [post Hzs].
  destruct (insert_before_linked k [] (head pl) (first l (tail pl)) post e) as (h' & Hins & Hl' & Hdom' & Hfr);
    [rewrite ?app_nil_l, <- ?Hzs; done..|].
  exists h'. split; [done|]. split.
  - split; [|split].
    + rewrite app_comm_cons in Hnd. apply (NoDup_insert_mid [head pl]); [done|set_solver].
    + intros a Ha. apply Hdom'. destruct (decide (a = e)) as [->|]; [done|]. apply Hdom. set_solver.
    + rewrite <- app_comm_cons, Hzs. exact Hl'.
  - split; [done|]. intros a Ha. apply Hfr; rewrite ?Hzs in Ha; set_solver.
Qed.

Lemma append_spec k pl l e :
  dlist (heap k) pl l -> is_Some (heap k !! e) -> e ∉ head pl :: l ++ [tail pl] ->
  exists h', list_append k pl e = Done (mk_kmem h' (eflags k)) /\ dlist h' pl (l ++ [e]) /\
    frame (e :: head pl :: l ++ [tail pl]) (heap k) h'.
Proof.
  intros Hd He Hn. pose proof Hd as (Hnd & Hdom & Hl). unfold list_append.
  assert (Hzs : exists pre p, head pl :: l = pre ++ [p]).
  { destruct (exists_last (l := head pl :: l)) as (pre & p & Hp); [done|]. eauto. }
  destruct Hzs as (pre & p & Hzs).
  assert (Hz2 : head pl :: l ++ [tail pl] = pre ++ p :: tail pl :: []).
  { rewrite app_comm_cons, Hzs. by rewrite <- app_assoc. }
  destruct (insert_before_linked k pre p (tail pl) [] e) as (h' & Hins & Hl' & Hdom' & Hfr);
    [rewrite <- ?Hz2; done..|].
  assert (Hz3 : head pl :: (l ++ [e]) ++ [tail pl] = pre ++ p :: e :: tail pl :: []).
  { rewrite <- app_assoc. simpl. rewrite app_comm_cons, Hzs. by rewrite <- app_assoc. }
  exists h'. split; [done|]. split.
  - unfold dlist. rewrite Hz3. split; [|split; [|done]].
    + replace (pre ++ p :: e :: [tail pl]) with ((pre ++ [p]) ++ e :: [tail pl]) by (by rewrite <- app_assoc).
      apply NoDup_insert_mid; rewrite <- app_assoc; simpl; by rewrite <- Hz2.
    + intros a Ha. apply Hdom'. destruct (decide (a = e)) as [->|]; [done|].
      apply Hdom. rewrite Hz2. set_solver.
  - split; [done|]. intros a Ha. rewrite Hz2 in Ha. apply Hfr; set_solver.
Qed.

Lemma remove_spec k pl l1 e l2 :
  dlist (heap k) pl (l1 ++ e :: l2) ->
  exists h', list_remove k e = Done (mk_kmem h' (eflags k)) /\ dlist h' pl (l1 ++ l2) /\
    frame (head pl :: (l1 ++ e :: l2) ++ [tail pl]) (heap k) h' /\ h' !! e = heap k !! e.
Proof.
  intros Hd. pose proof Hd as (Hnd & Hdom & Hl).
  assert (Hzs : exists pre p, head pl :: l1 = pre ++ [p]).
  { destruct (exists_last (l := head pl :: l1)) as (pre & p & Hp); [done|]. eauto. }
  destruct Hzs as (pre & p & Hzs).
  assert (Hz0 : exists n post, l2 ++ [tail pl] = n :: post) by (destruct l2; simpl; eauto).
  destruct Hz0 as (n & post & Hz0).
  assert (Hz2 : head pl :: (l1 ++ e :: l2) ++ [tail pl] = pre ++ p :: e :: n :: post).
  { rewrite <- app_assoc, app_comm_cons, Hzs. rewrite <- app_assoc. simpl. by rewrite Hz0. }
  assert (Hz3 : head pl :: (l1 ++ l2) ++ [tail pl] = pre ++ p :: n :: post).
  { rewrite <- app_assoc, app_comm_cons, Hzs, Hz0. by rewrite <- app_assoc. }
  rewrite Hz2 in Hnd, Hdom, Hl.
  destruct (remove_linked k pre p e n post) as (h' & Hr & Hl' & Hdom' & Hfr); [done..|].
  assert (Hsub : NoDup (pre ++ p :: n :: post) /\ e <> p /\ e <> n).
  { apply NoDup_app in Hnd as (H1 & H2 & H3). apply NoDup_cons in H3 as [H4 H5].
    apply NoDup_cons in H5 as [H6 H7].
    split; [|set_solver]. apply NoDup_app. split; [done|]. split; [set_solver|].
    apply NoDup_cons. set_solver. }
  destruct Hsub as (Hnd' & Hep & Hen).
  exists h'. split; [done|]. split; [|split].
  - unfold dlist. rewrite Hz3. split; [done|]. split; [|done].
    intros a Ha. apply Hdom', Hdom. set_solver.
  - split; [done|]. intros a Ha. rewrite Hz2 in Ha. apply Hfr; set_solver.
  - by apply Hfr.
Qed.

Lemma init_spec k pl :
  is_Some (heap k !! head pl) -> is_Some (heap k !! tail pl) -> head pl <> tail pl ->
  exists h', list_init k pl = Done (mk_kmem h' (eflags k)) /\ dlist h' pl [] /\
    prv h' (head pl) = Some NULL /\ nxt h' (tail pl) = Some NULL /\
    frame [head pl; tail pl] (heap k) h'.
Proof.
  intros [e1 H1] [e2 H2] Hne. unfold list_init.
  rewrite (set_prev_ok _ _ _ _ H1), bind_done, (set_next_ok _ _ _ _ (lookup_insert_eq _ _ _)), bind_done.
  rewrite insert_insert_eq. simpl.
  rewrite (set_prev_ok _ _ e2) by (by rewrite lookup_insert_ne by congruence).
  rewrite bind_done, (set_next_ok _ _ _ _ (lookup_insert_eq _ _ _)), bind_done, insert_insert_eq. simpl.
  eexists. split; [done|]. unfold dlist, prv, nxt. simpl.
  split; [split; [|split]|].
  - apply NoDup_cons. split; [set_solver|apply NoDup_singleton].
  - intros a Ha. rewrite !lookup_insert_is_Some'. set_solver.
  - unfold nxt, prv. by rewrite lookup_insert_ne, !lookup_insert_eq by congruence.
  - rewrite lookup_insert_ne, !lookup_insert_eq by congruence. split_and!; [done..|].
    split; [intros a Ha; rewrite !lookup_insert_is_Some'; tauto|].
    intros a Ha. by rewrite !lookup_insert_ne by set_solver.
Qed.

Lemma pop_spec k pl x l :
  dlist (heap k) pl (x :: l) ->
  exists h', list_pop k pl = Done (x, mk_kmem h' (eflags k)) /\ dlist h' pl l /\
    frame (head pl :: (x :: l) ++ [tail pl]) (heap k) h'.
Proof.
  intros Hd. destruct (dlist_head _ _ _ Hd) as (hd & Hhd & Hn). simpl in Hn.
  destruct (remove_spec k pl [] x l Hd) as (h' & Hr & Hd' & Hfr & _).
  exists h'. split; [|done]. unfold list_pop. by rewrite Hhd, bind_done, Hn, Hr.
Qed.

(** ** Properties *)

(** C31. The pointer operations of list.c implement the operations on sequences:
    on a well-formed list holding [l], push gives [e :: l], append [l ++ [e]],
    pop returns the first element and leaves the rest, remove takes an element
    out of the middle, the emptiness test is right; the interrupt flag is as
    before and no node outside the list is touched. *)
Theorem klist_refines_list k pl l :
  dlist (heap k) pl l ->
  (forall e, is_Some (heap k !! e) -> e ∉ head pl :: l ++ [tail pl] ->
     (exists h', list_push k pl e = Done (mk_kmem h' (eflags k)) /\ dlist h' pl (e :: l) /\
        frame (e :: head pl :: l ++ [tail pl]) (heap k) h') /\
     (exists h', list_append k pl e = Done (mk_kmem h' (eflags k)) /\ dlist h' pl (l ++ [e]) /\
        frame (e :: head pl :: l ++ [tail pl]) (heap k) h')) /\
  (forall x xs, l = x :: xs ->
     exists h', list_pop k pl = Done (x, mk_kmem h' (eflags k)) /\ dlist h' pl xs /\
       frame (head pl :: l ++ [tail pl]) (heap k) h') /\
  (forall l1 e l2, l = l1 ++ e :: l2 ->
     exists h', list_remove k e = Done (mk_kmem h' (eflags k)) /\ dlist h' pl (l1 ++ l2) /\
       frame (head pl :: l ++ [tail pl]) (heap k) h') /\
  list_empty k pl = Done (bool_decide (l = [])).
Proof.
  intros Hd. split_and!.
  - intros e He Hn. split; [by apply push_spec|by apply append_spec].
  - intros x xs ->. by apply pop_spec.
  - intros l1 e l2 ->. destruct (remove_spec k pl l1 e l2 Hd) as (h' & ? & ? & ? & ?). eauto.
  - destruct (dlist_head _ _ _ Hd) as (hd & Hhd & Hn). unfold list_empty. rewrite Hhd, bind_done, Hn.
    f_equal. destruct l as [|x l]; simpl; [apply Z.eqb_refl|].
    apply Z.eqb_neq. destruct Hd as (Hnd & _). apply NoDup_cons in Hnd as [_ Hnd].
    apply NoDup_cons in Hnd as [Hx _]. set_solver.
Qed.

(** Four nodes: the sentinels 8 and 16, elements 24 and 32, list holding 24. *)
Definition sample_list : klist := mk_klist 8 16.
Definition sample_kmem : kmem :=
  mk_kmem {[8 := mk_elem 0 24; 24 := mk_elem 8 16; 16 := mk_elem 24 0; 32 := mk_elem 0 0]} 0x202.

Lemma sample_dlist : dlist (heap sample_kmem) sample_list [24].
Proof.
  split; [|split].
  - simpl. repeat (apply NoDup_cons; split; [set_solver|]). apply NoDup_nil. done.
  - intros a Ha. simpl in Ha. rewrite !elem_of_cons, elem_of_nil in Ha.
    destruct Ha as [->|[->|[->|[]]]]; vm_compute; eauto.
  - vm_compute. auto.
Qed.

Lemma klist_refines_list_witness :
  exists h', list_append sample_kmem sample_list 32 = Done (mk_kmem h' 0x202) /\
    dlist h' sample_list [24; 32].
Proof.
  destruct (klist_refines_list sample_kmem sample_list [24] sample_dlist) as (H & _).
  destruct (H 32) as [_ (h' & Ha & Hd & _)].
  - vm_compute. eauto.
  - simpl. set_solver.
  - exists h'. split; [exact Ha|exact Hd].
Defined.

(** The walks over a list terminate and compute the functions of its
    contents: membership, the length modulo 2^32, and the traversal that calls
    the callback in order and stops at the first element it accepts. *)
Theorem klist_walks {St} k pl l (func : Z -> Z -> St -> outcome (bool * St)) arg st obj :
  dlist (heap k) pl l ->
  elem_find k pl obj = Done (bool_decide (obj ∈ l)) /\
  list_len k pl = Done (u32 (Z.of_nat (length l))) /\
  list_traversal k pl func arg st = traverse func arg l st.
Proof.
  intros Hd. pose proof (dlist_fuel _ _ _ Hd) as Hf.
  destruct (dlist_head _ _ _ Hd) as (hd & Hhd & Hn). pose proof Hd as (Hnd & _ & Hl).
  assert (Ht : tail pl ∉ l).
  { apply NoDup_cons in Hnd as [_ Hnd]. apply NoDup_app in Hnd as (_ & Hx & _). set_solver. }
  split_and!.
  - unfold elem_find. rewrite Hhd, bind_done, Hn. by apply (find_walk k pl obj (head pl)).
  - unfold list_len. rewrite Hhd, bind_done, Hn. change 0 with (u32 0).
    by apply (len_walk k pl (head pl)).
  - unfold list_traversal, list_empty. rewrite Hhd, !bind_done, Hn.
    rewrite (traverse_walk k pl func arg (head pl)) by done.
    destruct l as [|x l]; [simpl; by rewrite Z.eqb_refl|].
    change (first (x :: l) (tail pl)) with x.
    destruct (Z.eqb_spec x (tail pl)); [set_solver|done].
Qed.

Lemma klist_walks_witness :
  elem_find sample_kmem sample_list 24 = Done true /\ list_len sample_kmem sample_list = Done 1.
Proof.
  destruct (klist_walks sample_kmem sample_list [24] (fun _ _ s => Done (false, s)) 0 tt 24 sample_dlist)
    as (H1 & H2 & _).
  split; [exact H1|exact H2].
Defined.

(** [list_pop] has no emptiness check: on an empty list it unlinks the tail
    sentinel and dereferences the NULL successor. Every caller has to test
    [list_empty] first. *)
Theorem list_pop_empty_faults k pl :
  dlist (heap k) pl [] -> nxt (heap k) (tail pl) = Some NULL -> heap k !! NULL = None ->
  list_pop k pl = Fault.
Proof.
  intros Hd Ht H0. pose proof Hd as (Hnd & Hdom & Hl). simpl in Hl. destruct Hl as (Hh & Hp & _).
  apply nxt_elem_at in Hh as (hd & Hhd & Hn). apply nxt_elem_at in Ht as (te & Hte & Htn).
  destruct (Hdom (head pl)) as [e1 He1]; [set_solver|].
  assert (Hne : head pl <> tail pl) by (apply NoDup_cons in Hnd; set_solver).
  unfold list_pop. rewrite Hhd, bind_done, Hn. unfold list_remove.
  rewrite (surjective_pairing (intr_disable (eflags k))). rewrite Hte, bind_done, Htn.
  assert (Hpt : prev te = head pl).
  { unfold prv in Hp. unfold elem_at in Hte. destruct (heap k !! tail pl); simplify_eq. by injection Hp. }
  rewrite Hpt, (set_next_ok _ _ _ _ He1), bind_done.
  assert (Hte' : heap k !! tail pl = Some te) by (unfold elem_at in Hte; destruct (heap k !! tail pl); by simplify_eq).
  rewrite (elem_at_Some _ _ te) by (by rewrite lookup_insert_ne by congruence).
  rewrite bind_done, Htn. unfold set_prev, elem_at.
  rewrite lookup_insert_ne by (intros Heq; rewrite Heq in He1; congruence). by rewrite H0.
Qed.

Lemma list_pop_empty_faults_witness :
  list_pop (mk_kmem {[8 := mk_elem 0 16; 16 := mk_elem 8 0]} 0) sample_list = Fault.
Proof.
  apply list_pop_empty_faults.
  - destruct (init_spec (mk_kmem {[8 := mk_elem 0 16; 16 := mk_elem 8 0]} 0) sample_list)
      as (h' & Hi & Hd & _); [vm_compute; eauto..|vm_compute; congruence|].
    vm_compute in Hi. injection Hi as <-. exact Hd.
  - reflexivity.
  - reflexivity.
Defined.
