(* ===== verification/CString.v ===== *)
(** * Memory and C strings (lib/string.c)

    The byte routines the whole kernel and the user library use, on a memory of
    bytes. [char] is signed on the i386 target, which [strcmp], [strchr],
    [strrchr] and [strchrs] depend on. *)
From stdpp Require Import base numbers list option tactics gmap fin_maps.
From Stdlib Require Import ZArith Lia.
From S2P Require Import Prelude.

(** ** Memory *)
Definition load (m : gmap Z Z) (a : Z) : outcome Z :=
  match m !! a with Some v => Done v | None => Fault end.

(** Reading through a [const char*]. *)
Definition loadc (m : gmap Z Z) (a : Z) : outcome Z := v ← load m a; Done (i8 v).

Definition store (m : gmap Z Z) (a v : Z) : outcome (gmap Z Z) :=
  match m !! a with Some _ => Done (<[a := u8 v]> m) | None => Fault end.

(** A string lies in mapped memory, so its length is below the number of mapped bytes. *)
Definition str_fuel (m : gmap Z Z) : nat := S (size m).

(** ** Operations *)
Definition memset (m : gmap Z Z) (dst_ value sz : Z) : outcome (gmap Z Z) :=
  ASSERT (negb (dst_ =? 0));;
  loop (S (Z.to_nat sz)) (fun '(dst, n, m) =>
    if 0 <? n then m' ← store m dst value; Done (inl (u32 (dst + 1), u32 (n - 1), m'))
    else Done (inr m)) (dst_, sz, m).

Definition memcpy (m : gmap Z Z) (dst_ src_ sz : Z) : outcome (gmap Z Z) :=
  ASSERT (negb (dst_ =? 0) && negb (src_ =? 0));;
  loop (S (Z.to_nat sz)) (fun '(dst, src, n, m) =>
    if 0 <? n then
      v ← load m src; m' ← store m dst v; Done (inl (u32 (dst + 1), u32 (src + 1), u32 (n - 1), m'))
    else Done (inr m)) (dst_, src_, sz, m).

Definition memcmp (m : gmap Z Z) (a_ b_ sz : Z) : outcome Z :=
  ASSERT (negb (a_ =? 0) || negb (b_ =? 0));;
  loop (S (Z.to_nat sz)) (fun '(a, b, n) =>
    if 0 <? n then
      x ← loadc m a; y ← loadc m b;
      if negb (x =? y) then Done (inr (if y <? x then 1 else -1))
      else Done (inl (u32 (a + 1), u32 (b + 1), u32 (n - 1)))
    else Done (inr 0)) (a_, b_, sz).

(** One turn of the copy loop of [strcpy] and [strcat]: copy a byte, advance both pointers, stop after a NUL. *)
Definition copy_step (s : Z * Z * gmap Z Z) : outcome (Z * Z * gmap Z Z + gmap Z Z) :=
  let '(dst, src, m) := s in
  v ← load m src; m' ← store m dst v;
  if v =? 0 then Done (inr m') else Done (inl (u32 (dst + 1), u32 (src + 1), m')).

Definition strcpy (m : gmap Z Z) (dst_ src_ : Z) : outcome (Z * gmap Z Z) :=
  ASSERT (negb (dst_ =? 0) && negb (src_ =? 0));;
  m' ← loop (str_fuel m) copy_step (dst_, src_, m);
  Done (dst_, m').

(** One turn of the loop that runs a pointer past the terminator. *)
Definition to_end (m : gmap Z Z) (p : Z) : outcome (Z + Z) :=
  v ← load m p;
  if v =? 0 then Done (inr (u32 (p + 1))) else Done (inl (u32 (p + 1))).

Definition strlen (m : gmap Z Z) (str : Z) : outcome Z :=
  ASSERT (negb (str =? 0));;
  p ← loop (str_fuel m) (to_end m) str;
  Done (u32 (p - str - 1)).

Definition strcmp (m : gmap Z Z) (a_ b_ : Z) : outcome Z :=
  ASSERT (negb (a_ =? 0) && negb (b_ =? 0));;
  loop (str_fuel m) (fun '(a, b) =>
    x ← loadc m a; y ← loadc m b;
    if negb (x =? 0) && (x =? y) then Done (inl (u32 (a + 1), u32 (b + 1)))
    else Done (inr (if x <? y then -1 else if y <? x then 1 else 0))) (a_, b_).

Definition strchr (m : gmap Z Z) (str_ ch : Z) : outcome Z :=
  ASSERT (negb (str_ =? 0));;
  loop (str_fuel m) (fun str =>
    c ← loadc m str;
    if c =? 0 then Done (inr 0) else
    if c =? ch then Done (inr str) else Done (inl (u32 (str + 1)))) str_.

Definition strrchr (m : gmap Z Z) (str_ ch : Z) : outcome Z :=
  ASSERT (negb (str_ =? 0));;
  loop (str_fuel m) (fun '(str, last_char) =>
    c ← loadc m str;
    if c =? 0 then Done (inr last_char) else
    Done (inl (u32 (str + 1), if c =? ch then str else last_char))) (str_, 0).

Definition strcat (m : gmap Z Z) (dst_ src_ : Z) : outcome (Z * gmap Z Z) :=
  ASSERT (negb (dst_ =? 0) && negb (src_ =? 0));;
  str ← loop (str_fuel m) (to_end m) dst_;
  m' ← loop (str_fuel m) copy_step (u32 (str - 1), src_, m);
  Done (dst_, m').

Definition strchrs (m : gmap Z Z) (str ch : Z) : outcome Z :=
  ASSERT (negb (str =? 0));;
  loop (str_fuel m) (fun '(p, ch_cnt) =>
    c ← loadc m p;
    if c =? 0 then Done (inr ch_cnt) else
    Done (inl (u32 (p + 1), if c =? ch then u32 (ch_cnt + 1) else ch_cnt))) (str, 0).

(** ** Specification *)
Fixpoint bytes_at (m : gmap Z Z) (p : Z) (l : list Z) : Prop :=
  match l with
  | [] => True
  | c :: l' => m !! p = Some c /\ bytes_at m (p + 1) l'
  end.

Definition is_char (c : Z) : Prop := 0 < c < 256.

(** The NUL-terminated string [s] at address [p]. *)
Definition cstr (m : gmap Z Z) (p : Z) (s : list Z) : Prop :=
  bytes_at m p (s ++ [0]) /\ Forall is_char s /\ 0 < p /\ p + Z.of_nat (length s) + 1 < 2 ^ 32.

(** Order of strings by their first differing character, as signed chars. *)
Fixpoint str_compare (a b : list Z) : Z :=
  match a, b with
  | [], [] => 0
  | [], y :: _ => if 0 <? i8 y then -1 else 1
  | x :: _, [] => if i8 x <? 0 then -1 else 1
  | x :: a', y :: b' => if x =? y then str_compare a' b' else if i8 x <? i8 y then -1 else 1
  end.

(** Offset of the last occurrence of [ch]. *)
Fixpoint last_index (ch : Z) (s : list Z) : option Z :=
  match s with
  | [] => None
  | c :: s' => match last_index ch s' with
               | Some i => Some (i + 1)
               | None => if i8 c =? ch then Some 0 else None
               end
  end.

(** ** Lemmas *)
Lemma bytes_at_app m p l1 l2 :
  bytes_at m p (l1 ++ l2) <-> bytes_at m p l1 /\ bytes_at m (p + Z.of_nat (length l1)) l2.
Proof.
  revert p. induction l1 as [|c l1 IH]; intros p; simpl.
  - rewrite Z.add_0_r. tauto.
  - rewrite IH. replace (p + Z.of_nat (S (length l1))) with (p + 1 + Z.of_nat (length l1)) by lia. tauto.
Qed.

Lemma bytes_at_ext m m' p l :
  bytes_at m p l -> (forall a, p <= a < p + Z.of_nat (length l) -> m' !! a = m !! a) -> bytes_at m' p l.
Proof.
  revert p. induction l as [|c l IH]; intros p; simpl; [done|].
  intros [H1 H2] He. split; [rewrite He; [done|lia]|]. apply IH; [done|]. intros a Ha. apply He. lia.
Qed.

Lemma bytes_at_mapped m p l a :
  bytes_at m p l -> p <= a < p + Z.of_nat (length l) -> is_Some (m !! a).
Proof.
  revert p. induction l as [|c l IH]; intros p; simpl; [lia|]. intros [H1 H2] Ha.
  destruct (decide (a = p)) as [->|]; [by rewrite H1|]. apply (IH (p + 1)); [done|lia].
Qed.

Lemma bytes_at_size m p l : bytes_at m p l -> (length l <= size m)%nat.
Proof.
  intros Hb. rewrite <- (size_dom (D := gset Z) m).
  assert (Hs : size (list_to_set (C := gset Z) (seqZ p (Z.of_nat (length l)))) = length l).
  { rewrite size_list_to_set by apply NoDup_seqZ. rewrite length_seqZ. lia. }
  rewrite <- Hs. apply subseteq_size. intros a Ha%elem_of_list_to_set. apply elem_of_seqZ in Ha.
  apply elem_of_dom. by eapply bytes_at_mapped.
Qed.

Lemma str_fuel_ok m p s : bytes_at m p (s ++ [0]) -> (length s < str_fuel m)%nat.
Proof. intros Hb%bytes_at_size. rewrite length_app in Hb. simpl in Hb. unfold str_fuel. lia. Qed.

Lemma i8_eq0 c : is_char c -> i8 c <> 0.
Proof. unfold is_char, i8. intros. zdiv. Qed.

Lemma i8_inj a b : 0 <= a < 256 -> 0 <= b < 256 -> i8 a = i8 b -> a = b.
Proof. unfold i8. intros. zdiv. Qed.

Lemma to_end_walk m p s fuel :
  bytes_at m p (s ++ [0]) -> Forall is_char s -> 0 < p -> p + Z.of_nat (length s) + 1 < 2 ^ 32 ->
  (length s < fuel)%nat ->
  loop fuel (to_end m) p = Done (p + Z.of_nat (length s) + 1).
Proof.
  revert p fuel. induction s as [|c s IH]; intros p fuel Hb Hc Hp Hlt Hf;
    (destruct fuel as [|fuel]; [simpl in Hf; lia|]); simpl in Hb, Hlt, Hf |- *;
    destruct Hb as [Hc0 Hb]; unfold to_end, load; rewrite Hc0; simpl.
  - rewrite u32_small by lia. f_equal. lia.
  - apply Forall_cons in Hc as [Hcc Hc]. unfold is_char in Hcc.
    destruct (Z.eqb_spec c 0); [lia|]. simpl. rewrite u32_small by lia.
    rewrite IH by (done || lia). f_equal. lia.
Qed.

(** The copy loop writes the string and its terminator at [dst]. *)
Lemma copy_walk m dst src s fuel :
  bytes_at m src (s ++ [0]) -> Forall is_char s ->
  0 < src -> src + Z.of_nat (length s) + 1 < 2 ^ 32 ->
  0 < dst -> dst + Z.of_nat (length s) + 1 < 2 ^ 32 ->
  (forall a, dst <= a <= dst + Z.of_nat (length s) -> is_Some (m !! a)) ->
  (dst + Z.of_nat (length s) < src \/ src + Z.of_nat (length s) < dst) ->
  (length s < fuel)%nat ->
  exists m', loop fuel copy_step (dst, src, m) = Done m' /\ bytes_at m' dst (s ++ [0]) /\
    forall a, ~ (dst <= a <= dst + Z.of_nat (length s)) -> m' !! a = m !! a.
Proof.
  revert m dst src fuel. induction s as [|c s IH]; intros m dst src fuel Hb Hc Hs Hslt Hd Hdlt Hmap Hdis Hf;
    (destruct fuel as [|fuel]; [simpl in Hf; lia|]); simpl in Hb, Hslt, Hdlt, Hf, Hmap, Hdis |- *;
    destruct Hb as [Hc0 Hb]; unfold load; rewrite Hc0; simpl;
    (destruct (Hmap dst) as [old Hold]; [lia|]); unfold store; rewrite Hold; simpl.
  - eexists. split; [done|]. split; [split; [by rewrite lookup_insert_eq|done]|].
    intros a Ha. rewrite lookup_insert_ne; [done|lia].
  - apply Forall_cons in Hc as [Hcc Hc]. unfold is_char in Hcc.
    destruct (Z.eqb_spec c 0); [lia|]. simpl. rewrite !u32_small, u8_small by lia.
    destruct (IH (<[dst := c]> m) (dst + 1) (src + 1) fuel) as (m' & Hl & Hb' & Hfr); try done; try lia.
    + apply (bytes_at_ext m); [done|]. intros a Ha. rewrite length_app in Ha. simpl in Ha.
      rewrite lookup_insert_ne; [done|lia].
    + intros a Ha. rewrite lookup_insert_is_Some'. right. apply Hmap. lia.
    + exists m'. split; [done|]. split; [split; [|done]|].
      * rewrite Hfr by lia. by rewrite lookup_insert_eq.
      * intros a Ha. rewrite Hfr by lia. rewrite lookup_insert_ne; [done|lia].
Qed.

Lemma compare_walk m a b s t fuel :
  bytes_at m a (s ++ [0]) -> bytes_at m b (t ++ [0]) -> Forall is_char s -> Forall is_char t ->
  0 < a -> a + Z.of_nat (length s) + 1 < 2 ^ 32 -> 0 < b -> b + Z.of_nat (length t) + 1 < 2 ^ 32 ->
  (length s < fuel)%nat ->
  loop fuel (fun '(a, b) =>
    x ← loadc m a; y ← loadc m b;
    if negb (x =? 0) && (x =? y) then Done (inl (u32 (a + 1), u32 (b + 1)))
    else Done (inr (if x <? y then -1 else if y <? x then 1 else 0))) (a, b)
  = Done (str_compare s t).
Proof.
  revert a b t fuel. induction s as [|c s IH]; intros a b t fuel Ha Hb Hs Ht Ha0 Ha1 Hb0 Hb1 Hf;
    (destruct fuel as [|fuel]; [simpl in Hf; lia|]); simpl in Ha, Ha1, Hf; destruct Ha as [Hca Ha].
  - destruct t as [|y t]; simpl in Hb; destruct Hb as [Hcb Hb];
      cbn [loop]; unfold loadc, load; rewrite Hca, Hcb; simpl; [done|].
    apply Forall_cons in Ht as [Hy _]. pose proof (i8_eq0 y Hy) as Hy0.
    change (i8 0) with 0. zbool; done || lia.
  - apply Forall_cons in Hs as [Hc Hs]. pose proof (i8_eq0 c Hc) as Hc0.
    destruct t as [|y t]; simpl in Hb, Hb1; destruct Hb as [Hcb Hb];
      cbn [loop]; unfold loadc, load; rewrite Hca, Hcb; simpl.
    + change (i8 0) with 0. destruct (Z.eqb_spec (i8 c) 0); [done|]. simpl.
      zbool; done || lia.
    + apply Forall_cons in Ht as [Hy Ht]. unfold is_char in *.
      destruct (Z.eqb_spec (i8 c) 0); [done|]. simpl.
      destruct (Z.eqb_spec (i8 c) (i8 y)) as [E|E].
      * apply i8_inj in E; [|lia..]. subst y. rewrite Z.eqb_refl. simpl. rewrite !u32_small by lia.
        apply IH; done || lia.
      * destruct (Z.eqb_spec c y) as [->|]; [done|]. simpl. zbool; done || lia.
Qed.

Lemma last_walk m p s ch lc fuel :
  bytes_at m p (s ++ [0]) -> Forall is_char s -> 0 < p -> p + Z.of_nat (length s) + 1 < 2 ^ 32 ->
  (length s < fuel)%nat ->
  loop fuel (fun '(str, last_char) =>
    c ← loadc m str;
    if c =? 0 then Done (inr last_char) else
    Done (inl (u32 (str + 1), if c =? ch then str else last_char))) (p, lc)
  = Done (match last_index ch s with Some i => p + i | None => lc end).
Proof.
  revert p lc fuel. induction s as [|c s IH]; intros p lc fuel Hb Hc Hp Hlt Hf;
    (destruct fuel as [|fuel]; [simpl in Hf; lia|]); simpl in Hb, Hlt, Hf; destruct Hb as [Hc0 Hb];
    cbn [loop]; unfold loadc, load; rewrite Hc0; simpl; [done|].
  apply Forall_cons in Hc as [Hcc Hc].
  destruct (Z.eqb_spec (i8 c) 0) as [E|_]; [by apply i8_eq0 in E|]. simpl. rewrite u32_small by lia.
  rewrite IH by (done || lia). destruct (last_index ch s); [f_equal; lia|].
  destruct (i8 c =? ch); [f_equal; lia|done].
Qed.

Lemma str_compare_eq s t :
  Forall is_char s -> Forall is_char t -> str_compare s t = 0 <-> s = t.
Proof.
  revert t. induction s as [|x s IH]; intros [|y t] Hs Ht; simpl; try (split; [|done]); try done.
  - zbool; done.
  - zbool; done.
  - apply Forall_cons in Hs as [Hx Hs]. apply Forall_cons in Ht as [Hy Ht].
    zbool; subst; try (split; [done|congruence]). rewrite IH by done. split; congruence.
Qed.

(** ** Properties *)

(** [strcat] on a string [s] and a disjoint string [t], with room behind [s],
    returns its destination, leaves [s ++ t] there, and changes only the bytes
    from the old terminator to the new one; [strlen] of the result is the sum. *)
Theorem strcat_appends m dst src s t :
  cstr m dst s -> cstr m src t ->
  dst + Z.of_nat (length s) + Z.of_nat (length t) + 1 < 2 ^ 32 ->
  (forall a, dst + Z.of_nat (length s) <= a <= dst + Z.of_nat (length s) + Z.of_nat (length t) ->
     is_Some (m !! a) /\ ~ (src <= a <= src + Z.of_nat (length t))) ->
  exists m', strcat m dst src = Done (dst, m') /\ cstr m' dst (s ++ t) /\
    strlen m' dst = Done (Z.of_nat (length s) + Z.of_nat (length t)) /\
    forall a, ~ (dst + Z.of_nat (length s) <= a <= dst + Z.of_nat (length s) + Z.of_nat (length t)) ->
      m' !! a = m !! a.
Proof.
  intros (Hb1 & Hc1 & Hd0 & Hd1) (Hb2 & Hc2 & Hs0 & Hs1) Hlen Hroom.
  unfold strcat. rewrite ASSERT_true by (zbool; done || lia). rewrite bind_done.
  rewrite (to_end_walk m dst s) by (done || by eapply str_fuel_ok). rewrite bind_done, u32_small by lia.
  replace (dst + Z.of_nat (length s) + 1 - 1) with (dst + Z.of_nat (length s)) by lia.
  destruct (copy_walk m (dst + Z.of_nat (length s)) src t (str_fuel m)) as (m' & Hl & Hb' & Hfr);
    try done; try lia.
  { intros a Ha. apply Hroom. lia. }
  { destruct (Hroom (dst + Z.of_nat (length s))) as [_ H1]; [lia|].
    destruct (Z_le_dec src (dst + Z.of_nat (length s))) as [Hle|]; [lia|].
    destruct (Z_le_dec src (dst + Z.of_nat (length s) + Z.of_nat (length t))) as [Hle2|]; [|lia].
    destruct (Hroom src) as [_ H2]; lia. }
  { by eapply str_fuel_ok. }
  rewrite Hl, bind_done. exists m'. split; [done|].
  assert (Hcs : cstr m' dst (s ++ t)).
  { split; [|split; [by apply Forall_app|]].
    - rewrite <- app_assoc. apply bytes_at_app. split; [|done].
      apply bytes_at_app in Hb1 as [Hb1 _]. apply (bytes_at_ext m); [done|].
      intros a Ha. apply Hfr. lia.
    - rewrite length_app. lia. }
  split; [done|]. split; [|done].
  destruct Hcs as (Hb & Hc & Hp & Hlt). rewrite length_app in Hlt. unfold strlen.
  rewrite ASSERT_true by (zbool; done || lia). rewrite bind_done.
  rewrite (to_end_walk m' dst (s ++ t)); try done;
    [|rewrite length_app; lia|by eapply str_fuel_ok].
  rewrite bind_done, u32_small; rewrite length_app; [f_equal; lia|lia].
Qed.

(** The strings "ab" at 16 and "c" at 32. *)
Definition sample_mem : gmap Z Z :=
  {[16 := 97; 17 := 98; 18 := 0; 19 := 7; 20 := 7; 32 := 99; 33 := 0]}.

Lemma sample_cstr1 : cstr sample_mem 16 [97; 98].
Proof. split; [vm_compute; auto|]. split; [repeat constructor; unfold is_char; lia|simpl; lia]. Qed.

Lemma sample_cstr2 : cstr sample_mem 32 [99].
Proof. split; [vm_compute; auto|]. split; [repeat constructor; unfold is_char; lia|simpl; lia]. Qed.

Lemma strcat_appends_witness :
  exists m', strcat sample_mem 16 32 = Done (16, m') /\ cstr m' 16 [97; 98; 99].
Proof.
  destruct (strcat_appends sample_mem 16 32 [97; 98] [99] sample_cstr1 sample_cstr2) as (m' & H & Hc & _).
  - simpl. lia.
  - simpl. intros a Ha. assert (a = 18 \/ a = 19) as [-> | ->] by lia; (split; [vm_compute; eauto|lia]).
  - exists m'. split; [exact H|exact Hc].
Defined.

(** [strcmp] terminates on NUL-terminated strings and orders them by their
    first differing character, compared as signed [char]; it returns 0 exactly
    for equal strings. *)
Theorem strcmp_orders m a b s t :
  cstr m a s -> cstr m b t ->
  exists r, strcmp m a b = Done r /\ r = str_compare s t /\ (r = 0 <-> s = t).
Proof.
  intros (Hb1 & Hc1 & Ha0 & Ha1) (Hb2 & Hc2 & Hb0 & Hb3).
  exists (str_compare s t). split; [|split; [done|by apply str_compare_eq]].
  unfold strcmp. rewrite ASSERT_true by (zbool; done || lia). rewrite bind_done.
  apply compare_walk; try done. by eapply str_fuel_ok.
Qed.

Lemma strcmp_orders_witness : strcmp sample_mem 16 32 = Done (-1).
Proof.
  destruct (strcmp_orders sample_mem 16 32 [97; 98] [99] sample_cstr1 sample_cstr2) as (r & Hr & Hc & _).
  rewrite Hr, Hc. reflexivity.
Defined.

(** [strrchr] returns the address of the last occurrence of the character,
    or NULL; as it compares a signed [char] with a [uint8_t], a character of 128
    or more is never found. *)
Theorem strrchr_last m p s ch :
  cstr m p s -> 0 <= ch < 256 ->
  strrchr m p ch = Done (match last_index ch s with Some i => p + i | None => 0 end) /\
  (128 <= ch -> strrchr m p ch = Done 0).
Proof.
  intros (Hb & Hc & Hp & Hlt) Hch.
  assert (Hr : strrchr m p ch = Done (match last_index ch s with Some i => p + i | None => 0 end)).
  { unfold strrchr. rewrite ASSERT_true by (zbool; done || lia). rewrite bind_done.
    apply last_walk; try done. by eapply str_fuel_ok. }
  split; [done|]. intros Hbig. rewrite Hr. clear Hr Hb Hlt.
  replace (last_index ch s) with (@None Z); [done|].
  induction Hc as [|c s Hcc Hc IH]; simpl; [done|]. rewrite <- IH.
  destruct (Z.eqb_spec (i8 c) ch); [|done]. unfold i8, is_char in *. zdiv.
Qed.

Lemma strrchr_last_witness : strrchr sample_mem 16 98 = Done 17 /\ strrchr sample_mem 16 200 = Done 0.
Proof.
  split.
  - destruct (strrchr_last sample_mem 16 [97; 98] 98 sample_cstr1) as [H _]; [lia|exact H].
  - destruct (strrchr_last sample_mem 16 [97; 98] 200 sample_cstr1) as [_ H]; [lia|]. apply H. lia.
Defined.
