(* ===== verification/Stdio.v ===== *)
(** * Formatted output (lib/stdio.c)

    [itoa] and [vsprintf], which write through a pointer into the caller's
    buffer. A buffer is the array from the pointer on, a position in it, and a
    write past its end is a [Fault]. *)
From stdpp Require Import base numbers list option tactics.
From Stdlib Require Import ZArith Lia.
From S2P Require Import Prelude.

(** ** Data and operations *)

(** Writing a character at a buffer position and advancing. *)
Definition putc (st : list Z * Z) (c : Z) : outcome (list Z * Z) :=
  b ← aset st.1 st.2 (u8 c); Done (b, st.2 + 1).

(** [itoa] calls itself on the quotient; 32 calls suffice for any [uint32_t] in base 2 and up. *)
Fixpoint itoa (fuel : nat) (value : Z) (st : list Z * Z) (base : Z) : outcome (list Z * Z) :=
  match fuel with
  | O => Diverge
  | S fuel =>
      let m := value mod base in
      let i := value / base in
      st ← (if negb (i =? 0) then itoa fuel i st base else Done st);
      if m <? 10 then putc st (m + 48) else putc st (m - 10 + 65)
  end.

Definition itoa_fuel : nat := 33.
#[global] Arguments itoa_fuel : simpl never.

(** The variable arguments on the stack: a word, or a pointer to a string. *)
Inductive varg := VInt (z : Z) | VStr (s : list Z).

Fixpoint put_all (st : list Z * Z) (s : list Z) : outcome (list Z * Z) :=
  match s with
  | [] => Done st
  | c :: s' => st' ← putc st c; put_all st' s'
  end.

(** strcpy(buf_ptr, arg_str); buf_ptr += strlen(arg_str); *)
Definition put_str (st : list Z * Z) (s : list Z) : outcome (list Z * Z) :=
  st' ← put_all st s; z ← putc st' 0; Done (z.1, st'.2).

Definition next_arg (ap : list varg) : outcome (varg * list varg) :=
  match ap with a :: ap' => Done (a, ap') | [] => Fault end.

Definition next_int (ap : list varg) : outcome (Z * list varg) :=
  a ← next_arg ap; match a.1 with VInt z => Done (z, a.2) | VStr _ => Fault end.

Definition next_str (ap : list varg) : outcome (list Z * list varg) :=
  a ← next_arg ap; match a.1 with VStr s => Done (s, a.2) | VInt _ => Fault end.

(** The conversion character after a percent sign; [None]: no case of the switch. *)
Definition conversion (c : Z) (st : list Z * Z) (ap : list varg)
    : option (outcome ((list Z * Z) * list varg)) :=
  if c =? 115 (* s *) then Some (a ← next_str ap; st' ← put_str st a.1; Done (st', a.2))
  else if c =? 99 (* c *) then Some (a ← next_int ap; st' ← putc st (i8 a.1); Done (st', a.2))
  else if c =? 100 (* d *) then Some
    (a ← next_int ap;
     let arg_int := i32 a.1 in
     st' ← (if arg_int <? 0 then putc st 45 else Done st);
     let arg_int := if arg_int <? 0 then i32 (0 - arg_int) else arg_int in
     st'' ← itoa itoa_fuel (u32 arg_int) st' 10; Done (st'', a.2))
  else if c =? 120 (* x *) then Some
    (a ← next_int ap;
     let arg_int := i32 a.1 in
     st' ← itoa itoa_fuel (u32 arg_int) st 16; Done (st', a.2))
  else None.

(** The loop over the format. A percent sign followed by a character without a
    case is dropped, and the character is looked at again as ordinary text. *)
Fixpoint format_loop (format : list Z) (st : list Z * Z) (ap : list varg) : outcome (list Z * Z) :=
  match format with
  | [] => Done st
  | index_char :: rest =>
      if negb (index_char =? 37) then st' ← putc st index_char; format_loop rest st' ap else
      match rest with
      | [] => Done st
      | c :: rest' =>
          match conversion c st ap with
          | Some r => x ← r; format_loop rest' x.1 x.2
          | None => format_loop rest st ap
          end
      end
  end.

Fixpoint buf_strlen (buf : list Z) : outcome Z :=
  match buf with
  | [] => Fault
  | c :: buf' => if c =? 0 then Done 0 else n ← buf_strlen buf'; Done (n + 1)
  end.

(** Returns [strlen(str)] and the buffer. *)
Definition vsprintf (str format : list Z) (ap : list varg) : outcome (Z * list Z) :=
  st ← format_loop format (str, 0) ap;
  n ← buf_strlen st.1;
  Done (u32 n, st.1).

Definition sprintf (buf format : list Z) (args : list varg) : outcome (Z * list Z) :=
  vsprintf buf format args.

(** [printf] formats into a zeroed array of 1024 and hands the text to [write(1, ..)]. *)
Definition printf (format : list Z) (args : list varg) : outcome (list Z) :=
  r ← vsprintf (replicate 1024 0) format args;
  n ← buf_strlen r.2;
  Done (take (Z.to_nat n) r.2).

(** ** Specification *)
Definition digit_char (d : Z) : Z := if d <? 10 then d + 48 else d - 10 + 65.

Fixpoint digits (fuel : nat) (base value : Z) : list Z :=
  match fuel with
  | O => []
  | S fuel => (if value / base =? 0 then [] else digits fuel base (value / base)) ++ [value mod base]
  end.

Definition digits_value (base : Z) (ds : list Z) : Z := fold_left (fun acc d => acc * base + d) ds 0.

(** The text of a conversion, and of a format. *)
Definition render_conv (c : Z) (ap : list varg) : option (option (list Z * list varg)) :=
  if c =? 115 then Some (match ap with VStr s :: ap' => Some (s, ap') | _ => None end)
  else if c =? 99 then Some (match ap with VInt z :: ap' => Some ([u8 z], ap') | _ => None end)
  else if c =? 100 then Some (match ap with
    | VInt z :: ap' =>
        Some (if i32 z <? 0 then 45 :: (digit_char <$> digits itoa_fuel 10 (- i32 z))
              else digit_char <$> digits itoa_fuel 10 (i32 z), ap')
    | _ => None end)
  else if c =? 120 then Some (match ap with
    | VInt z :: ap' => Some (digit_char <$> digits itoa_fuel 16 (u32 z), ap')
    | _ => None end)
  else None.

Fixpoint render (format : list Z) (ap : list varg) : option (list Z) :=
  match format with
  | [] => Some []
  | c :: rest =>
      if negb (c =? 37) then cons c <$> render rest ap else
      match rest with
      | [] => Some []
      | d :: rest' =>
          match render_conv d ap with
          | Some (Some (s, ap')) => app s <$> render rest' ap'
          | Some None => None
          | None => render rest ap
          end
      end
  end.

(** ** Lemmas *)

(** [bs] written at position [pos]; the rest of the buffer as it was. *)
Definition written (buf : list Z) (pos : Z) (bs : list Z) : list Z :=
  take (Z.to_nat pos) buf ++ bs ++ drop (Z.to_nat pos + length bs) buf.

Lemma putc_ok buf pos c :
  0 <= pos < Z.of_nat (length buf) -> is_byte c ->
  putc (buf, pos) c = Done (written buf pos [c], pos + 1).
Proof.
  intros Hp Hc. unfold putc. simpl. rewrite aset_in, bind_done, u8_small by done. f_equal. f_equal.
  unfold written. simpl. rewrite insert_take_drop by lia. do 2 f_equal. f_equal. lia.
Qed.

Lemma length_written buf pos bs :
  0 <= pos -> pos + Z.of_nat (length bs) <= Z.of_nat (length buf) ->
  length (written buf pos bs) = length buf.
Proof. intros. unfold written. rewrite !length_app, length_take, length_drop. lia. Qed.

Lemma written_written buf pos b1 b2 :
  0 <= pos -> pos + Z.of_nat (length b1) + Z.of_nat (length b2) <= Z.of_nat (length buf) ->
  written (written buf pos b1) (pos + Z.of_nat (length b1)) b2 = written buf pos (b1 ++ b2).
Proof.
  intros Hp Hl. unfold written.
  replace (Z.to_nat (pos + Z.of_nat (length b1))) with (Z.to_nat pos + length b1)%nat by lia.
  assert (Ht : length (take (Z.to_nat pos) buf ++ b1) = (Z.to_nat pos + length b1)%nat).
  { rewrite length_app, length_take. lia. }
  rewrite (app_assoc (take (Z.to_nat pos) buf)).
  rewrite take_app_length' by done. rewrite drop_app_ge by lia. rewrite Ht.
  rewrite drop_drop, <- !app_assoc. do 4 f_equal. rewrite length_app. lia.
Qed.

Lemma written_nil buf pos : written buf pos [] = buf.
Proof. unfold written. simpl. rewrite Nat.add_0_r. apply take_drop. Qed.

Lemma digit_char_byte d : 0 <= d < 16 -> is_byte (digit_char d).
Proof. unfold digit_char, is_byte. intros. zbool; lia. Qed.

Lemma digits_bound fuel base v :
  2 <= base <= 16 -> 0 <= v -> Forall (fun d => 0 <= d < base) (digits fuel base v).
Proof.
  revert v. induction fuel as [|fuel IH]; intros v Hb Hv; simpl; [done|].
  apply Forall_app. split.
  - destruct (v / base =? 0); [done|]. apply IH; [done|]. apply Z.div_pos; lia.
  - apply Forall_singleton. apply Z.mod_pos_bound. lia.
Qed.

Lemma digits_chars_bytes fuel base v :
  2 <= base <= 16 -> 0 <= v -> Forall is_byte (digit_char <$> digits fuel base v).
Proof.
  intros Hb Hv. apply Forall_fmap. eapply Forall_impl; [|exact (digits_bound fuel base v Hb Hv)].
  intros d Hd. simpl in *. apply digit_char_byte. lia.
Qed.

Lemma digits_value_app base l d : digits_value base (l ++ [d]) = digits_value base l * base + d.
Proof. unfold digits_value. by rewrite fold_left_app. Qed.

Lemma digits_correct fuel base v :
  2 <= base <= 16 -> 0 <= v < 2 ^ Z.of_nat fuel -> (0 < fuel)%nat ->
  digits_value base (digits fuel base v) = v.
Proof.
  revert v. induction fuel as [|fuel IH]; intros v Hb Hv Hf; [lia|]. simpl. rewrite digits_value_app.
  destruct (Z.eqb_spec (v / base) 0) as [E|E].
  - change (digits_value base []) with 0. pose proof (Z.div_mod v base). lia.
  - assert (Hq : 0 <= v / base < 2 ^ Z.of_nat fuel).
    { split; [apply Z.div_pos; lia|]. apply Z.div_lt_upper_bound; [lia|].
      replace (Z.of_nat (S fuel)) with (Z.succ (Z.of_nat fuel)) in Hv by lia.
      rewrite Z.pow_succ_r in Hv by lia. nia. }
    rewrite IH; [|done|done|].
    + pose proof (Z.div_mod v base). lia.
    + destruct fuel; [|lia]. simpl in Hq. lia.
Qed.

Lemma digits_head fuel base v :
  2 <= base <= 16 -> 0 < v < 2 ^ Z.of_nat fuel -> hd 0 (digits fuel base v) <> 0.
Proof.
  revert v. induction fuel as [|fuel IH]; intros v Hb Hv; simpl in *; [lia|].
  destruct (Z.eqb_spec (v / base) 0) as [E|E]; simpl.
  - apply Z.div_small_iff in E; [|lia]. rewrite Z.mod_small; lia.
  - assert (Hq : 0 < v / base < 2 ^ Z.of_nat fuel).
    { assert (0 <= v / base) by (apply Z.div_pos; lia). split; [lia|]. apply Z.div_lt_upper_bound; [lia|].
      replace (Z.of_nat (S fuel)) with (Z.succ (Z.of_nat fuel)) in Hv by lia.
      rewrite Z.pow_succ_r in Hv by lia. nia. }
    specialize (IH _ Hb Hq). destruct (digits fuel base (v / base)); [done|exact IH].
Qed.

Lemma itoa_ok fuel base v buf pos :
  2 <= base <= 16 -> 0 <= v < 2 ^ Z.of_nat fuel -> (0 < fuel)%nat -> 0 <= pos ->
  pos + Z.of_nat (length (digits fuel base v)) <= Z.of_nat (length buf) ->
  itoa fuel v (buf, pos) base =
    Done (written buf pos (digit_char <$> digits fuel base v), pos + Z.of_nat (length (digits fuel base v))).
Proof.
  revert v buf pos. induction fuel as [|fuel IH]; intros v buf pos Hb Hv Hf Hp Hl; [lia|].
  simpl in Hl |- *. rewrite length_app in *. simpl in Hl.
  pose proof (Z.mod_pos_bound v base).
  assert (Hput : forall st, (if v mod base <? 10 then putc st (v mod base + 48) else putc st (v mod base - 10 + 65))
                            = putc st (digit_char (v mod base))).
  { intros st. unfold digit_char. by destruct (v mod base <? 10). }
  destruct (Z.eqb_spec (v / base) 0) as [E|E]; simpl.
  - rewrite Hput, putc_ok; [done|simpl in Hl; lia|apply digit_char_byte; lia].
  - assert (Hq : 0 < v / base < 2 ^ Z.of_nat fuel).
    { assert (0 <= v / base) by (apply Z.div_pos; lia). split; [lia|]. apply Z.div_lt_upper_bound; [lia|].
      replace (Z.of_nat (S fuel)) with (Z.succ (Z.of_nat fuel)) in Hv by lia.
      rewrite Z.pow_succ_r in Hv by lia. nia. }
    rewrite IH; try done; try lia.
    2:{ destruct fuel; [|lia]. simpl in Hq. lia. }
    rewrite bind_done, Hput. set (ds := digit_char <$> digits fuel base (v / base)).
    assert (Hds : length ds = length (digits fuel base (v / base))) by (unfold ds; by rewrite length_fmap).
    rewrite <- Hds in *. rewrite putc_ok; [|rewrite length_written; lia|apply digit_char_byte; lia].
    rewrite written_written by (simpl; lia). f_equal. f_equal; [|simpl; lia].
    by rewrite fmap_app.
Qed.

(** A buffer that is zero from the writing position on. *)
Definition zbuf (pre : list Z) (n : nat) : list Z * Z := (pre ++ replicate n 0, Z.of_nat (length pre)).

Lemma written_zbuf pre n bs :
  (length bs <= n)%nat ->
  written (pre ++ replicate n 0) (Z.of_nat (length pre)) bs = (pre ++ bs) ++ replicate (n - length bs) 0.
Proof.
  intros Hl. unfold written. rewrite Nat2Z.id, take_app_length, drop_app_add, drop_replicate.
  by rewrite <- app_assoc.
Qed.

Lemma putc_zbuf pre n c :
  is_byte c -> (0 < n)%nat -> putc (zbuf pre n) c = Done (zbuf (pre ++ [c]) (n - 1)).
Proof.
  intros Hc Hn. unfold zbuf. rewrite putc_ok; [|rewrite length_app, length_replicate; lia|done].
  rewrite written_zbuf by (simpl; lia). rewrite length_app. simpl. do 2 f_equal. lia.
Qed.

Lemma put_all_zbuf pre n s :
  Forall is_byte s -> (length s <= n)%nat -> put_all (zbuf pre n) s = Done (zbuf (pre ++ s) (n - length s)).
Proof.
  intros Hs. revert pre n. induction Hs as [|c s Hc Hs IH]; intros pre n Hl; simpl in *.
  - by rewrite app_nil_r, Nat.sub_0_r.
  - rewrite putc_zbuf, bind_done, IH by (done || lia). rewrite <- app_assoc. simpl. do 2 f_equal. lia.
Qed.

Lemma put_str_zbuf pre n s :
  Forall is_byte s -> (length s < n)%nat -> put_str (zbuf pre n) s = Done (zbuf (pre ++ s) (n - length s)).
Proof.
  intros Hs Hl. unfold put_str. rewrite put_all_zbuf, bind_done by (done || lia).
  rewrite putc_zbuf, bind_done by (unfold is_byte; lia). unfold zbuf. simpl. do 2 f_equal.
  rewrite <- (app_assoc (pre ++ s)). f_equal. change [0] with (replicate 1 0).
  rewrite <- replicate_add. f_equal. lia.
Qed.

Lemma itoa_zbuf base v pre n :
  2 <= base <= 16 -> is_u32 v -> (length (digits itoa_fuel base v) <= n)%nat ->
  itoa itoa_fuel v (zbuf pre n) base =
    Done (zbuf (pre ++ (digit_char <$> digits itoa_fuel base v)) (n - length (digits itoa_fuel base v))).
Proof.
  intros Hb Hv Hl. unfold zbuf, is_u32 in *.
  rewrite itoa_ok; [|done|unfold itoa_fuel; lia|unfold itoa_fuel; lia|lia|rewrite length_app, length_replicate; lia].
  rewrite <- (length_fmap digit_char (digits itoa_fuel base v)). rewrite written_zbuf by (rewrite length_fmap; lia).
  rewrite length_app, length_fmap. do 2 f_equal. lia.
Qed.

Lemma neg_int z : i32 z < 0 -> u32 (i32 (0 - i32 z)) = - i32 z.
Proof. unfold i32, u32. intros. zdiv. Qed.

Lemma pos_int z : 0 <= i32 z -> u32 (i32 z) = i32 z.
Proof. unfold i32, u32. intros. zdiv. Qed.

Lemma hex_int z : u32 (i32 z) = u32 z.
Proof. unfold i32, u32. zdiv. Qed.

Lemma i8_byte z : u8 (i8 z) = u8 z.
Proof. unfold i8, u8. zdiv. Qed.

Lemma i32_range z : - 2 ^ 31 <= i32 z < 2 ^ 31.
Proof. unfold i32. zdiv. Qed.

Lemma putc_u8 st c : putc st (u8 c) = putc st c.
Proof. unfold putc. f_equal. unfold u8. by rewrite Z.mod_mod. Qed.

#[local] Opaque itoa digits.

(** One conversion agrees with its rendering. *)
Lemma conversion_ok c ap s ap' pre n :
  render_conv c ap = Some (Some (s, ap')) -> Forall is_byte s -> (length s < n)%nat ->
  exists r, conversion c (zbuf pre n) ap = Some r /\ r = Done (zbuf (pre ++ s) (n - length s), ap').
Proof.
  unfold render_conv, conversion, next_str, next_int, next_arg. intros Hr Hs Hl.
  destruct (c =? 115); [|destruct (c =? 99); [|destruct (c =? 100); [|destruct (c =? 120); [|done]]]];
    (destruct ap as [|[z|t] ap0]; [discriminate| |]; try discriminate;
     injection Hr as Hs_eq <-; subst s; eexists; (split; [reflexivity|]); rewrite ?bind_done; cbn [fst snd]; rewrite ?bind_done; cbn [fst snd]).
  - rewrite put_str_zbuf by done. reflexivity.
  - rewrite <- putc_u8, i8_byte, putc_zbuf; [done|apply u8_range|simpl in Hl; lia].
  - pose proof (i32_range z). destruct (Z.ltb_spec (i32 z) 0) as [Hneg|Hpos]; simpl in Hl, Hs |- *.
    + rewrite putc_zbuf, bind_done by (unfold is_byte; lia). rewrite neg_int by done.
      rewrite length_fmap in Hl |- *.
      rewrite itoa_zbuf by (unfold is_u32; lia). rewrite bind_done, <- app_assoc. simpl.
      do 3 f_equal. lia.
    + rewrite pos_int by done. rewrite length_fmap in Hl |- *.
      rewrite itoa_zbuf by (unfold is_u32; lia). done.
  - rewrite hex_int, itoa_zbuf; [|lia|apply u32_range|rewrite length_fmap in Hl; lia].
    by rewrite length_fmap.
Qed.

Lemma render_conv_none c ap st : render_conv c ap = None -> conversion c st ap = None.
Proof.
  unfold render_conv, conversion.
  by destruct (c =? 115), (c =? 99), (c =? 100), (c =? 120).
Qed.

Lemma format_ok_le k format ap out pre n :
  (length format <= k)%nat ->
  render format ap = Some out -> Forall is_byte out -> (length out < n)%nat ->
  format_loop format (zbuf pre n) ap = Done (zbuf (pre ++ out) (n - length out)).
Proof.
  revert format ap out pre n. induction k as [|k IH]; intros [|c rest] ap out pre n Hk Hr Hb Hl;
    simpl in *; try lia.
  - simplify_eq. simpl. by rewrite app_nil_r, Nat.sub_0_r.
  - simplify_eq. simpl. by rewrite app_nil_r, Nat.sub_0_r.
  - destruct (negb (c =? 37)).
    + destruct (render rest ap) as [out'|] eqn:Hr'; [|discriminate]. injection Hr as <-. simpl in Hl.
      pose proof (Forall_inv Hb) as Hc. pose proof (Forall_inv_tail Hb) as Hb'.
      rewrite putc_zbuf, bind_done by (done || lia). rewrite (IH rest ap out'); [|lia|done|done|lia].
      rewrite <- app_assoc. simpl. do 2 f_equal. lia.
    + destruct rest as [|d rest'].
      { simplify_eq. simpl. by rewrite app_nil_r, Nat.sub_0_r. }
      destruct (render_conv d ap) as [[[s ap']|]|] eqn:Hc; [|done|].
      * destruct (render rest' ap') as [out'|] eqn:Hr'; [|discriminate]. injection Hr as <-. rewrite length_app in *. apply Forall_app in Hb as [Hs Hb].
        destruct (conversion_ok d ap s ap' pre n Hc Hs) as (r & -> & ->); [lia|]. rewrite bind_done. simpl.
        rewrite (IH rest' ap' out'); [|simpl in *; lia|done|done|lia]. rewrite <- app_assoc. do 2 f_equal. lia.
      * rewrite (render_conv_none _ _ _ Hc). apply IH; [simpl in *; lia|done..].
Qed.

Lemma buf_strlen_ok out k : Forall (fun c => c <> 0) out -> (0 < k)%nat ->
  buf_strlen (out ++ replicate k 0) = Done (Z.of_nat (length out)).
Proof.
  intros Ho Hk. induction Ho as [|c out Hc Ho IH]; simpl.
  - by destruct k; [lia|].
  - destruct (Z.eqb_spec c 0); [done|]. rewrite IH, bind_done. f_equal. lia.
Qed.

(** ** Properties *)

(** [itoa] writes the numeral of a [uint32_t] in base 2 to 16, most
    significant digit first: reading the digits back gives the number, there is
    no leading zero (except for 0 itself), the position advances by the number
    of digits, and the rest of the buffer is untouched. *)
Theorem itoa_numeral base v buf pos :
  2 <= base <= 16 -> is_u32 v -> 0 <= pos ->
  pos + Z.of_nat (length (digits itoa_fuel base v)) <= Z.of_nat (length buf) ->
  exists ds, itoa itoa_fuel v (buf, pos) base =
      Done (written buf pos (digit_char <$> ds), pos + Z.of_nat (length ds)) /\
    digits_value base ds = v /\ Forall (fun d => 0 <= d < base) ds /\ (0 < v -> hd 0 ds <> 0).
Proof.
  unfold is_u32. intros Hb Hv Hp Hl. exists (digits itoa_fuel base v).
  split_and!.
  - apply itoa_ok; try done; unfold itoa_fuel; lia.
  - apply digits_correct; [done|unfold itoa_fuel; lia|unfold itoa_fuel; lia].
  - apply digits_bound; [done|lia].
  - intros. apply digits_head; [done|unfold itoa_fuel; lia].
Qed.

Lemma itoa_numeral_witness :
  itoa itoa_fuel 1987 (replicate 6 0, 1) 10 = Done ([0; 49; 57; 56; 55; 0], 5) /\
  exists ds, digits_value 10 ds = 1987.
Proof.
  split; [reflexivity|].
  destruct (itoa_numeral 10 1987 (replicate 6 0) 1) as (ds & _ & Hv & _).
  - lia.
  - unfold is_u32. lia.
  - lia.
  - vm_compute. congruence.
  - exists ds. exact Hv.
Defined.

(** Formatting into a zeroed buffer with room: [vsprintf] leaves the rendered
    text followed by zeros and returns its length; in particular the smallest
    [int], whose negation overflows, prints as the right number. *)
Theorem vsprintf_zeroed format ap out n :
  render format ap = Some out -> Forall (fun c => 0 < c < 256) out -> (length out < n)%nat ->
  Z.of_nat (length out) < 2 ^ 32 ->
  vsprintf (replicate n 0) format ap =
    Done (Z.of_nat (length out), out ++ replicate (n - length out) 0).
Proof.
  intros Hr Ho Hn Hlen. unfold vsprintf. change (replicate n 0, 0) with (zbuf [] n).
  rewrite (format_ok_le (length format) format ap out) by
    (done || (eapply Forall_impl; [|exact Ho]; unfold is_byte; simpl; lia)).
  rewrite bind_done. simpl. rewrite buf_strlen_ok; [|eapply Forall_impl; [|exact Ho]; simpl; lia|lia].
  rewrite bind_done, u32_small by lia. done.
Qed.

(** "%d %x" with INT_MIN and 255. *)
Lemma vsprintf_zeroed_witness :
  vsprintf (replicate 16 0) [37; 100; 32; 37; 120] [VInt (-2147483648); VInt 255] =
    Done (14, [45; 50; 49; 52; 55; 52; 56; 51; 54; 52; 56; 32; 70; 70; 0; 0]).
Proof.
  apply (vsprintf_zeroed [37; 100; 32; 37; 120] [VInt (-2147483648); VInt 255]
    [45; 50; 49; 52; 55; 52; 56; 51; 54; 52; 56; 32; 70; 70] 16).
  - reflexivity.
  - repeat constructor; lia.
  - simpl. lia.
  - simpl. lia.
Defined.

Lemma format_plain format st ap :
  Forall (fun c => c <> 37) format -> format_loop format st ap = put_all st format.
Proof.
  intros Hf. revert st. induction Hf as [|c f Hc Hf IH]; intros st; simpl; [done|].
  destruct (Z.eqb_spec c 37); [done|]. simpl. destruct (putc st c); simpl; [|done..]. apply IH.
Qed.

Lemma put_all_ok buf pos s :
  Forall is_byte s -> 0 <= pos -> pos + Z.of_nat (length s) <= Z.of_nat (length buf) ->
  put_all (buf, pos) s = Done (written buf pos s, pos + Z.of_nat (length s)).
Proof.
  intros Hs. revert buf pos. induction Hs as [|c s Hc Hs IH]; intros buf pos Hp Hl; simpl in *.
  - by rewrite written_nil, Z.add_0_r.
  - rewrite putc_ok, bind_done by (done || lia).
    rewrite IH; [|lia|rewrite length_written; simpl; lia].
    pose proof (written_written buf pos [c] s) as Hww. simpl in Hww. change (Z.of_nat 1) with 1 in Hww. rewrite Hww by lia.
    do 2 f_equal. lia.
Qed.

(** [vsprintf] never writes a terminator of its own: printing plain text over
    a buffer that still holds other bytes leaves those bytes attached, and the
    returned length counts them. Callers have to pass a zeroed buffer. *)
Theorem vsprintf_no_terminator format ap buf :
  Forall (fun c => 0 < c < 256 /\ c <> 37) format -> (length format <= length buf)%nat ->
  vsprintf buf format ap =
    (n ← buf_strlen (format ++ drop (length format) buf);
     Done (u32 n, format ++ drop (length format) buf)).
Proof.
  intros Hf Hl. unfold vsprintf. rewrite format_plain by (eapply Forall_impl; [|exact Hf]; simpl; tauto).
  rewrite put_all_ok; [|eapply Forall_impl; [|exact Hf]; unfold is_byte; simpl; lia|lia|lia].
  rewrite bind_done. done.
Qed.

Lemma vsprintf_no_terminator_witness :
  vsprintf [120; 120; 120; 120; 0] [111; 107] [] = Done (4, [111; 107; 120; 120; 0]).
Proof.
  rewrite (vsprintf_no_terminator [111; 107] [] [120; 120; 120; 120; 0]).
  - reflexivity.
  - repeat constructor; lia.
  - simpl. lia.
Defined.
