(* ===== verification/Screen.v ===== *)
(** * The screen (lib/kernel/print.S)

    The kernel shows text by writing into the video memory behind the selector
    [SELECTOR_VIDEO] and by moving the cursor that the CRT controller keeps. The functions
    are in assembly; a definition follows its instructions, 16-bit registers wrapping.
    Afterwards a terminal of 25 lines of 80 characters, and that the functions are one. *)
From stdpp Require Import base numbers list option tactics.
From Stdlib Require Import ZArith Lia.
From S2P Require Import Prelude Stdio.

(** ** Data and operations *)
Module Crt.

(** [cursor]: the two registers 0x0e and 0x0f of the CRT controller; [vram]: the bytes of
    the video segment, whose limit is 0x7fff (boot/loader.S). A write past it is a fault. *)
Record screen := mk_screen { cursor : Z; vram : list Z }.
Definition video_bytes : nat := Z.to_nat 0x8000.

Definition set_cursor (cursor_pos : Z) (s : screen) : screen := mk_screen (u16 cursor_pos) (vram s).

(** The word 0x0720, a blank, [n] times. *)
Definition blanks (n : nat) : list Z := concat (replicate n [0x20; 0x07]).

(** Lines 1 to 24 move up by one: 960 double words go from offset 160 to offset 0, the
    lowest first, so that each is read before it is overwritten. *)
Definition roll_screen (m : list Z) : screen :=
  let m := written m 0 (take 3840 (drop 160 m)) in
  mk_screen 1920 (written m 3840 (blanks 80)).

(** Line feed and carriage return do the same. [cmp] and [jl] compare as signed words. *)
Definition line_feed (bx : Z) (m : list Z) : screen :=
  let bx := u16 (u16 (bx - bx mod 80) + 80) in
  if i16 bx <? 2000 then mk_screen bx m else roll_screen m.

(** A character and its attribute 0x07 at the cell [bx]; the cell, from the offset. *)
Definition put_cell (bx cl : Z) (m : list Z) : outcome (Z * list Z) :=
  let bx := u16 (Z.shiftl bx 1) in
  m ← aset m bx cl;
  let bx := u16 (bx + 1) in
  m ← aset m bx 0x07;
  Done (Z.shiftr bx 1, m).

Definition put_char (char_asci : Z) (s : screen) : outcome screen :=
  let bx := cursor s in
  let cl := u8 char_asci in
  if cl =? 0xd then Done (line_feed bx (vram s))
  else if cl =? 0xa then Done (line_feed bx (vram s))
  else if cl =? 0x8 then
    r ← put_cell (u16 (bx - 1)) 0x20 (vram s);
    Done (mk_screen r.1 r.2)
  else
    r ← put_cell bx cl (vram s);
    let bx := u16 (r.1 + 1) in
    if i16 bx <? 2000 then Done (mk_screen bx r.2) else Done (line_feed bx r.2).

(** The characters of a string, the final 0 left out. *)
Fixpoint put_str (str : list Z) (s : screen) : outcome screen :=
  match str with
  | [] => Done s
  | c :: str => s ← put_char c s; put_str str s
  end.

(** The eight digits, from the last to the first; then those after the zeros in front, one
    zero where there is nothing else. *)
Fixpoint based16_4bits (n : nat) (eax : Z) (put_int_buffer : list Z) : list Z :=
  match n with
  | O => put_int_buffer
  | S n =>
      let edx := Z.land eax 0xf in
      let dl := if 9 <? edx then edx - 10 + 65 else edx + 48 in
      based16_4bits n (Z.shiftr eax 4) (dl :: put_int_buffer)
  end.
Fixpoint skip_prefix_0 (put_int_buffer : list Z) : list Z :=
  match put_int_buffer with
  | [] => [48]
  | cl :: rest => if cl =? 48 then skip_prefix_0 rest else put_int_buffer
  end.
Definition int_text (num : Z) : list Z := skip_prefix_0 (based16_4bits 8 (u32 num) []).
Definition put_int (num : Z) (s : screen) : outcome screen := put_str (int_text num) s.

Definition cls_screen (s : screen) : screen := mk_screen 0 (written (vram s) 0 (blanks 2000)).
End Crt.
Import Crt.

(** ** A terminal *)

(** A position and 2000 characters. *)
Abbreviation terminal := (Z * list Z)%type (only parsing).

Definition tty_line (t : terminal) : terminal :=
  if t.1 <? 1920 then ((t.1 / 80 + 1) * 80, t.2) else (1920, drop 80 t.2 ++ replicate 80 32).

Definition tty_char (c : Z) (t : terminal) : terminal :=
  if (c =? 13) || (c =? 10) then tty_line t
  else if c =? 8 then (t.1 - 1, <[Z.to_nat (t.1 - 1) := 32]> t.2)
  else let u := <[Z.to_nat t.1 := c]> t.2 in
       if t.1 + 1 <? 2000 then (t.1 + 1, u) else tty_line (t.1, u).

Definition tty_str (str : list Z) (t : terminal) : terminal := fold_left (fun t c => tty_char c t) str t.

(** The characters the video memory shows, and the terminal a screen is. *)
Definition cells (m : list Z) : list Z := (fun i => m !!! (2 * i)%nat) <$> seq 0 2000.
Definition view (s : screen) : terminal := (cursor s, cells (vram s)).

Definition screen_ok (s : screen) : Prop := 0 <= cursor s < 2000 /\ length (vram s) = video_bytes.

(** ** Lemmas *)
Lemma length_cells m : length (cells m) = 2000%nat.
Proof. unfold cells. by rewrite length_fmap, length_seq. Qed.

Lemma cells_lookup m i : (i < 2000)%nat -> cells m !! i = Some (m !!! (2 * i)%nat).
Proof. intros. unfold cells. rewrite list_lookup_fmap, lookup_seq_lt by lia. done. Qed.

Lemma cells_ext m l : length l = 2000%nat -> (forall i, (i < 2000)%nat -> l !! i = Some (m !!! (2 * i)%nat)) -> cells m = l.
Proof.
  intros Hl Hi. apply list_eq. intros i. destruct (decide (i < 2000)%nat).
  - by rewrite cells_lookup, Hi.
  - rewrite !lookup_ge_None_2; rewrite ?length_cells; lia || done.
Qed.

Lemma cells_put m i c : (i < 2000)%nat -> length m = video_bytes -> cells (<[(2 * i + 1)%nat := 7]> (<[(2 * i)%nat := c]> m)) = <[i := c]> (cells m).
Proof.
  intros Hi Hl. assert (Hv : (4000 <= length m)%nat) by (rewrite Hl; unfold video_bytes; lia).
  apply cells_ext; [by rewrite length_insert, length_cells|]. intros j Hj.
  rewrite list_lookup_total_insert_ne by lia. destruct (decide (i = j)) as [->|Hn].
  - rewrite list_lookup_insert_eq, list_lookup_total_insert_eq by (rewrite ?length_cells; lia). done.
  - rewrite list_lookup_insert_ne, list_lookup_total_insert_ne by lia. by apply cells_lookup.
Qed.

Lemma put_cell_ok i c m : 0 <= i < 2000 -> length m = video_bytes ->
  exists m', put_cell i c m = Done (i, m') /\ length m' = video_bytes /\ cells m' = <[Z.to_nat i := c]> (cells m).
Proof.
  intros Hi Hl. unfold put_cell. rewrite Z.shiftl_mul_pow2 by lia. change (2 ^ 1) with 2.
  rewrite !u16_small by (rewrite ?u16_small; lia). assert (Hv : Z.of_nat (length m) = 0x8000) by (rewrite Hl; done).
  rewrite aset_in, bind_done, aset_in, bind_done by (rewrite ?length_insert; lia).
  eexists. rewrite Z.shiftr_div_pow2 by lia. change (2 ^ 1) with 2. replace ((i * 2 + 1) / 2) with i by zdiv. split; [done|].
  rewrite !length_insert. split; [done|]. rewrite <- (cells_put m (Z.to_nat i) c) by (done || lia).
  replace (Z.to_nat (i * 2 + 1)) with (2 * Z.to_nat i + 1)%nat by lia. by replace (Z.to_nat (i * 2)) with (2 * Z.to_nat i)%nat by lia.
Qed.

(** The last line is blank after a roll, the others are those one below. *)
Lemma lookup_blanks n i : (i < n)%nat -> blanks n !! (2 * i)%nat = Some 32.
Proof.
  revert i. induction n as [|n IH]; intros i Hi; [lia|]. destruct i as [|i]; [done|].
  replace (2 * S i)%nat with (S (S (2 * i))) by lia. apply IH. lia.
Qed.
Lemma length_blanks n : length (blanks n) = (2 * n)%nat.
Proof. induction n as [|n IH]; [done|]. unfold blanks in *. simpl. rewrite IH. lia. Qed.

Lemma written_lookup m p bs i : 0 <= p -> p + Z.of_nat (length bs) <= Z.of_nat (length m) ->
  written m p bs !! i = if decide (Z.to_nat p <= i < Z.to_nat p + length bs)%nat then bs !! (i - Z.to_nat p)%nat else m !! i.
Proof.
  intros Hp Hl. unfold written. set (k := Z.to_nat p) in *. assert (Hk : length (take k m) = k) by (rewrite length_take; lia).
  case_decide.
  - rewrite lookup_app_r, Hk, lookup_app_l by lia. done.
  - destruct (decide (i < k)%nat).
    + rewrite lookup_app_l, lookup_take_lt by lia. done.
    + rewrite !lookup_app_r, lookup_drop by lia. rewrite Hk. f_equal. lia.
Qed.

Lemma roll_screen_ok m : length m = video_bytes -> screen_ok (roll_screen m) /\ view (roll_screen m) = (1920, drop 80 (cells m) ++ replicate 80 32).
Proof.
  intros Hl. assert (Hv : Z.of_nat (length m) = 0x8000) by (rewrite Hl; done). unfold roll_screen.
  assert (Ht : length (take 3840 (drop 160 m)) = 3840%nat) by (rewrite length_take, length_drop; lia).
  assert (Hm : length (written m 0 (take 3840 (drop 160 m))) = length m) by (apply length_written; lia).
  split; [split; [done|]; cbn [vram]; rewrite length_written; rewrite ?length_blanks, ?Hm; done || lia|].
  unfold view. cbn [cursor vram]. f_equal. apply cells_ext; [rewrite length_app, length_drop, length_cells; done|].
  intros i Hi. rewrite list_lookup_total_alt, written_lookup by (rewrite ?length_blanks, ?Hm; lia). rewrite length_blanks.
  case_decide.
  - rewrite lookup_app_r by (rewrite length_drop, length_cells; lia). rewrite length_drop, length_cells, lookup_replicate_2 by lia.
    replace (2 * i - Z.to_nat 3840)%nat with (2 * (i - 1920))%nat by lia. rewrite lookup_blanks by lia. done.
  - rewrite lookup_app_l by (rewrite length_drop, length_cells; lia). rewrite lookup_drop, cells_lookup by lia.
    rewrite written_lookup by lia. rewrite Ht, decide_True by lia. rewrite lookup_take_lt, lookup_drop by lia.
    rewrite list_lookup_total_alt. do 3 f_equal. lia.
Qed.

Lemma line_feed_ok b m : 0 <= b <= 2000 -> length m = video_bytes ->
  screen_ok (line_feed b m) /\ view (line_feed b m) = tty_line (b, cells m).
Proof.
  intros Hb Hl. unfold line_feed, tty_line. cbn [fst snd]. assert (Hq : b - b mod 80 = b / 80 * 80) by zdiv.
  assert (0 <= b / 80 <= 25) by zdiv. rewrite Hq, !u16_small by (rewrite ?u16_small; lia).
  replace (i16 (b / 80 * 80 + 80)) with (b / 80 * 80 + 80) by (unfold i16; zdiv).
  destruct (Z.ltb_spec b 1920) as [Hlt|Hge].
  - rewrite (proj2 (Z.ltb_lt _ _)) by zdiv. unfold screen_ok, view. cbn [cursor vram]. split; [split; [zdiv|done]|]. f_equal. lia.
  - rewrite (proj2 (Z.ltb_ge _ _)) by zdiv. by apply roll_screen_ok.
Qed.

(** One character: the only one that faults is a backspace in the first cell. *)
Lemma put_char_ok c s : screen_ok s -> u8 c <> 8 \/ cursor s <> 0 ->
  exists s', put_char c s = Done s' /\ screen_ok s' /\ view s' = tty_char (u8 c) (view s).
Proof.
  intros (Hc & Hl) Hb. change (view s) with (cursor s, cells (vram s)). unfold put_char, tty_char. cbv zeta. cbn [fst snd].
  destruct (Z.eqb_spec (u8 c) 13) as [E|N1]; [|destruct (Z.eqb_spec (u8 c) 10) as [E|N2]].
  1,2: eexists; split; [done|]; cbn [orb]; apply line_feed_ok; done || lia.
  cbn [orb]. destruct (Z.eqb_spec (u8 c) 8) as [E|N3].
  - rewrite (u16_small (cursor s - 1)) by lia. destruct (put_cell_ok (cursor s - 1) 32 (vram s)) as (m' & -> & Hl' & Hm'); [lia|done|].
    rewrite bind_done. eexists. split; [done|]. unfold screen_ok, view. cbn [cursor vram fst snd]. rewrite Hm'. done || (split; [split; [lia|done]|done]).
  - destruct (put_cell_ok (cursor s) (u8 c) (vram s)) as (m' & -> & Hl' & Hm'); [lia|done|]. rewrite bind_done. cbn [fst snd].
    rewrite u16_small by lia. replace (i16 (cursor s + 1)) with (cursor s + 1) by (unfold i16; zdiv). rewrite <- Hm'.
    destruct (Z.ltb_spec (cursor s + 1) 2000) as [Hlt|Hge].
    + eexists. split; [done|]. done || (split; [split; [cbn; lia|done]|done]).
    + eexists. split; [done|]. replace (cursor s + 1) with 2000 by lia. replace (cursor s) with 1999 by lia. destruct (line_feed_ok 2000 m') as (Ho & ->); done.
Qed.

Lemma put_str_ok str s : screen_ok s -> Forall (fun c => u8 c <> 8) str ->
  exists s', put_str str s = Done s' /\ screen_ok s' /\ view s' = tty_str (u8 <$> str) (view s).
Proof.
  intros Hs Hstr. revert s Hs. induction Hstr as [|c str Hc _ IH]; intros s Hs; [by exists s|].
  destruct (put_char_ok c s Hs (or_introl Hc)) as (s1 & E1 & H1 & V1). destruct (IH s1 H1) as (s2 & E2 & H2 & V2).
  exists s2. simpl. rewrite E1, bind_done, V2, V1. done.
Qed.

(** Printable text that ends before the last cell. *)
Definition plain (str : list Z) : Prop := Forall (fun c => 32 <= c < 256) str.

Lemma plain_u8 str : plain str -> u8 <$> str = str.
Proof. intros Hp. induction Hp as [|c str Hc _ IH]; [done|]. rewrite fmap_cons, IH, u8_small by lia. done. Qed.
Lemma plain_puts str : plain str -> Forall (fun c => u8 c <> 8) str.
Proof. apply Forall_impl. intros c Hc. rewrite u8_small; lia. Qed.

Lemma tty_str_app a b t : tty_str (a ++ b) t = tty_str b (tty_str a t).
Proof. apply fold_left_app. Qed.

Lemma tty_plain str p t : plain str -> 0 <= p -> p + Z.of_nat (length str) < 2000 -> length t = 2000%nat ->
  tty_str str (p, t) = (p + Z.of_nat (length str), written t p str).
Proof.
  intros Hp. revert p t. induction Hp as [|c str Hc _ IH]; intros p t H0 Hl Ht.
  - cbn. rewrite written_nil. f_equal. lia.
  - cbn [length] in Hl. change (tty_str (c :: str) (p, t)) with (tty_str str (tty_char c (p, t))). unfold tty_char. cbn [fst snd].
    rewrite !(proj2 (Z.eqb_neq _ _)) by lia. cbn [orb]. rewrite (proj2 (Z.ltb_lt _ _)) by lia.
    assert (Hw : <[Z.to_nat p := c]> t = written t p [c]).
    { unfold written. rewrite insert_take_drop by lia. do 3 f_equal. cbn [length]. lia. }
    rewrite IH by (rewrite ?length_insert; lia). rewrite Hw. change (p + 1) with (p + Z.of_nat (length [c])).
    rewrite written_written by (cbn [length]; lia). f_equal. cbn [length]. lia.
Qed.

(** The digits [put_int] shows. *)
Lemma hex_digit v : 0 <= v -> (let edx := Z.land v 0xf in if 9 <? edx then edx - 10 + 65 else edx + 48) = digit_char (v mod 16).
Proof.
  intros Hv. cbv zeta. change 0xf with (Z.ones 4). rewrite Z.land_ones by lia. change (2 ^ 4) with 16. unfold digit_char. zbool; lia.
Qed.

Lemma zeros_skipped n rest : skip_prefix_0 (based16_4bits n 0 rest) = skip_prefix_0 rest.
Proof. revert rest. induction n as [|n IH]; intros rest; [done|]. cbn [based16_4bits]. by rewrite IH. Qed.

Lemma digit_not_0 d : 0 < d < 16 -> (digit_char d =? 48) = false.
Proof. intros. apply Z.eqb_neq. unfold digit_char. zbool; lia. Qed.

Lemma digits_skipped n fuel v rest : (0 < v < 16 ^ Z.of_nat n) -> v < 2 ^ Z.of_nat fuel ->
  skip_prefix_0 (based16_4bits n v rest) = (digit_char <$> digits fuel 16 v) ++ rest.
Proof.
  revert fuel v rest. induction n as [|n IH]; intros fuel v rest Hv Hf; [lia|]. destruct fuel as [|fuel]; [lia|].
  cbn [based16_4bits digits]. rewrite hex_digit by lia. rewrite Z.shiftr_div_pow2 by lia. change (2 ^ 4) with 16.
  rewrite !Nat2Z.inj_succ, !Z.pow_succ_r in * by lia. destruct (Z.eqb_spec (v / 16) 0) as [E|E].
  - rewrite E, zeros_skipped. apply Z.div_small_iff in E; [|lia]. rewrite Z.mod_small by lia. cbn. rewrite digit_not_0 by lia. done.
  - rewrite (IH fuel) by zdiv. rewrite fmap_app, <- app_assoc. done.
Qed.

Lemma int_text_digits n : is_u32 n -> int_text n = digit_char <$> digits itoa_fuel 16 n.
Proof.
  intros Hn. unfold int_text. rewrite u32_small by done. destruct (Z.eqb_spec n 0) as [->|Hz]; [done|].
  rewrite (digits_skipped 8 itoa_fuel), app_nil_r by (unfold is_u32, itoa_fuel in *; lia). done.
Qed.

(** A line of text, filled up to 80 columns. *)
Definition text_line (str : list Z) : list Z := str ++ replicate (80 - length str) 32.

Lemma put_str_app a b s : put_str (a ++ b) s = (s ← put_str a s; put_str b s).
Proof.
  revert s. induction a as [|c a IH]; intros s; [done|]. cbn [app put_str]. destruct (put_char c s) as [s1| | |]; [|done..].
  rewrite !bind_done. apply IH.
Qed.

(** Text and a line break in the middle of blanks: [above] are the full lines above, [pre]
    what stands in the line already, in front of the cursor. *)
Lemma put_line str s j above pre n rest :
  screen_ok s -> view s = (Z.of_nat (length (above ++ pre)), (above ++ pre) ++ replicate n 32 ++ rest) ->
  length above = (80 * j)%nat -> (j < 24)%nat -> plain str -> (length (pre ++ str) < 80)%nat -> (80 - length pre <= n)%nat ->
  exists s', put_str (str ++ [10]) s = Done s' /\ screen_ok s' /\
    view s' = (Z.of_nat (length (above ++ text_line (pre ++ str))), (above ++ text_line (pre ++ str)) ++ replicate (n - (80 - length pre)) 32 ++ rest).
Proof.
  intros Hs Hv Ha Hj Hp Hl Hn. rewrite !length_app in *.
  assert (Ht : length ((above ++ pre) ++ replicate n 32 ++ rest) = 2000%nat) by (rewrite <- (length_cells (vram s)); by injection Hv as _ <-).
  destruct (put_str_ok (str ++ [10]) s Hs) as (s' & E & Hs' & V). { apply Forall_app. split; [by apply plain_puts|by repeat constructor]. }
  exists s'. split; [done|]. split; [done|]. rewrite V, Hv, fmap_app, tty_str_app, (plain_u8 str) by done.
  rewrite tty_plain by (done || lia).
  change (u8 <$> [10]) with [10]. unfold tty_str, tty_char, tty_line. cbn [fold_left fst snd Z.eqb Pos.eqb orb].
  rewrite (proj2 (Z.ltb_lt _ _)) by lia. unfold text_line. rewrite !length_app, length_replicate. f_equal.
  - replace ((Z.of_nat (length above + length pre) + Z.of_nat (length str)) / 80) with (Z.of_nat j) by zdiv. lia.
  - unfold written. rewrite Nat2Z.id, <- length_app, take_app_length, drop_app_add, drop_app_le by (rewrite length_replicate; lia).
    rewrite drop_replicate, <- !app_assoc. do 3 f_equal. rewrite app_assoc, <- replicate_add. f_equal. f_equal. lia.
Qed.

Lemma int_text_plain n : is_u32 n -> plain (int_text n) /\ (length (int_text n) <= 8)%nat.
Proof.
  intros Hn. split.
  - rewrite int_text_digits by done. apply Forall_fmap. eapply Forall_impl; [|exact (digits_bound itoa_fuel 16 n ltac:(lia) (proj1 Hn))].
    intros d Hd. cbn in *. unfold digit_char. zbool; lia.
  - unfold int_text. assert (Hs : forall l, (1 <= length l)%nat -> (length (skip_prefix_0 l) <= length l)%nat).
    { induction l as [|c l IH]; cbn; [lia|]. intros _. destruct (c =? 48); [|cbn; lia]. destruct l as [|c' l]; [done|]. specialize (IH ltac:(cbn; lia)). cbn [length] in *. lia. }
    apply (Hs (based16_4bits 8 (u32 n) [])). cbn. lia.
Qed.

(** ** Properties *)

(** C38. Showing a string: on a screen whose cursor is on it, [put_str] of a string without
    backspaces returns, the cursor stays on the screen, and the 25 lines show what a
    terminal of 80 columns shows: a line break at either of LF and CR, a wrap after the
    last column, and the lines moved up by one below the last line. *)
Theorem put_str_terminal str s : screen_ok s -> Forall (fun c => u8 c <> 8) str ->
  exists s', put_str str s = Done s' /\ screen_ok s' /\ view s' = tty_str (u8 <$> str) (view s).
Proof. apply put_str_ok. Qed.

Definition sample_screen : screen := mk_screen 1990 (blanks (Z.to_nat 0x4000)).
Lemma sample_screen_ok : screen_ok sample_screen.
Proof. split; [done|]. unfold sample_screen, video_bytes. cbn [vram]. rewrite length_blanks. lia. Qed.

Lemma put_str_terminal_witness : exists s', put_str [10; 66; 67] sample_screen = Done s' /\ screen_ok s' /\ view s' = tty_str (u8 <$> [10; 66; 67]) (view sample_screen).
Proof. apply (put_str_terminal [10; 66; 67] sample_screen); [exact sample_screen_ok|]. repeat constructor; done. Defined.

(** Showing a number: [put_int] shows the digits that the conversion %x of [vsprintf]
    produces, for every 32-bit value: in base 16, no zeros in front, one digit for 0. *)
Theorem put_int_hex n s : is_u32 n -> put_int n s = put_str (digit_char <$> digits itoa_fuel 16 n) s.
Proof. intros Hn. unfold put_int. by rewrite int_text_digits. Qed.

Lemma put_int_hex_witness : is_u32 0xc0de /\ put_int 0xc0de sample_screen = put_str (digit_char <$> digits itoa_fuel 16 0xc0de) sample_screen.
Proof. split; [done|]. apply (put_int_hex 0xc0de sample_screen). done. Defined.
