(* ===== verification/Sched.v ===== *)
(** * Threads and the scheduler (thread/thread.c, device/timer.c)

    The process control blocks, the ready queue and the list of all tasks, pid
    allocation, blocking and waking, round-robin scheduling, and the timer
    interrupt that drives it. A task is named by the address of its PCB; the two
    intrusive lists are the sequences of those addresses (see Klist). A context
    switch ends an operation: [schedule] returns the state in which the next
    task continues. *)
From stdpp Require Import base numbers list option tactics gmap fin_maps.
From Stdlib Require Import ZArith Lia.
From S2P Require Import Prelude Bitmap Cpu.
Import Intr.

(** ** Data *)
Inductive task_status :=
| TASK_RUNNING | TASK_READY | TASK_BLOCKED | TASK_WAITING | TASK_HANGING | TASK_DIED.

#[global] Instance task_status_eq_dec : EqDecision task_status.
Proof. solve_decision. Defined.

(** The frame [switch_to] pops when a new thread runs for the first time. *)
Record thread_stack := mk_thread_stack {
  ebp : Z; ebx : Z; edi : Z; esi : Z;
  eip : Z;
  function : Z;
  func_arg : Z
}.

Record task_struct := mk_task {
  self_kstack : Z;
  pid : Z;
  status : task_status;
  priority : Z;
  name : list Z;
  ticks : Z;
  elapsed_ticks : Z;
  pgdir : Z;
  fd_table : list Z;
  cwd_inode_nr : Z;
  parent_pid : Z;
  exit_status : Z;
  stack_magic : Z;
  kthread_stack : option thread_stack
}.

Definition MAX_FILES_OPEN_PER_PROC : Z := 8.
Definition TASK_NAME_LEN : Z := 16.
Definition PG_SIZE : Z := 4096.
Definition STACK_MAGIC : Z := 0x19870916.

(** The scheduler's globals: [thread_ready_list], [thread_all_list], the PCBs,
    the running task, [idle_thread], [main_thread], the flags register, the pid
    bitmap, what [process_activate] loads (the page directory in cr3, named by
    its virtual address with 0 for the kernel's, and tss.esp0), and the kernel's
    tick counter. *)
Record sched := mk_sched {
  ready : list Z;
  all : list Z;
  threads : gmap Z task_struct;
  cur : Z;
  idle_thread : Z;
  main_thread : Z;
  eflags : Z;
  pid_bitmap : bitmap;
  active_pgdir : Z;
  tss_esp0 : Z;
  kticks : Z
}.

Definition with_ready (f : list Z -> list Z) (s : sched) : sched :=
  mk_sched (f (ready s)) (all s) (threads s) (cur s) (idle_thread s) (main_thread s) (eflags s)
    (pid_bitmap s) (active_pgdir s) (tss_esp0 s) (kticks s).
Definition with_all (f : list Z -> list Z) (s : sched) : sched :=
  mk_sched (ready s) (f (all s)) (threads s) (cur s) (idle_thread s) (main_thread s) (eflags s)
    (pid_bitmap s) (active_pgdir s) (tss_esp0 s) (kticks s).
Definition with_threads (f : gmap Z task_struct -> gmap Z task_struct) (s : sched) : sched :=
  mk_sched (ready s) (all s) (f (threads s)) (cur s) (idle_thread s) (main_thread s) (eflags s)
    (pid_bitmap s) (active_pgdir s) (tss_esp0 s) (kticks s).
Definition with_flags (e : Z) (s : sched) : sched :=
  mk_sched (ready s) (all s) (threads s) (cur s) (idle_thread s) (main_thread s) e
    (pid_bitmap s) (active_pgdir s) (tss_esp0 s) (kticks s).
Definition with_pids (b : bitmap) (s : sched) : sched :=
  mk_sched (ready s) (all s) (threads s) (cur s) (idle_thread s) (main_thread s) (eflags s)
    b (active_pgdir s) (tss_esp0 s) (kticks s).
Definition with_cur (t : Z) (s : sched) : sched :=
  mk_sched (ready s) (all s) (threads s) t (idle_thread s) (main_thread s) (eflags s)
    (pid_bitmap s) (active_pgdir s) (tss_esp0 s) (kticks s).
Definition with_main (t : Z) (s : sched) : sched :=
  mk_sched (ready s) (all s) (threads s) (cur s) (idle_thread s) t (eflags s)
    (pid_bitmap s) (active_pgdir s) (tss_esp0 s) (kticks s).
Definition with_cpu (pg esp0 : Z) (s : sched) : sched :=
  mk_sched (ready s) (all s) (threads s) (cur s) (idle_thread s) (main_thread s) (eflags s)
    (pid_bitmap s) pg esp0 (kticks s).
Definition with_kticks (n : Z) (s : sched) : sched :=
  mk_sched (ready s) (all s) (threads s) (cur s) (idle_thread s) (main_thread s) (eflags s)
    (pid_bitmap s) (active_pgdir s) (tss_esp0 s) n.

Definition set_status (st : task_status) (t : task_struct) : task_struct :=
  mk_task (self_kstack t) (pid t) st (priority t) (name t) (ticks t) (elapsed_ticks t) (pgdir t)
    (fd_table t) (cwd_inode_nr t) (parent_pid t) (exit_status t) (stack_magic t) (kthread_stack t).
Definition set_ticks (n e : Z) (t : task_struct) : task_struct :=
  mk_task (self_kstack t) (pid t) (status t) (priority t) (name t) n e (pgdir t)
    (fd_table t) (cwd_inode_nr t) (parent_pid t) (exit_status t) (stack_magic t) (kthread_stack t).
Definition set_kstack (k : Z) (f : option thread_stack) (t : task_struct) : task_struct :=
  mk_task k (pid t) (status t) (priority t) (name t) (ticks t) (elapsed_ticks t) (pgdir t)
    (fd_table t) (cwd_inode_nr t) (parent_pid t) (exit_status t) (stack_magic t) f.

Definition task_at (s : sched) (t : Z) : outcome task_struct :=
  match threads s !! t with Some p => Done p | None => Fault end.

(** Writing fields of a PCB. *)
Definition upd_task (t : Z) (f : task_struct -> task_struct) (s : sched) : outcome sched :=
  p ← task_at s t; Done (with_threads (<[t := f p]>) s).

(** ** Operations *)

(** The PCB is at the start of the page the stack pointer is in. *)
Definition running_thread (esp : Z) : Z := Z.land esp 0xfffff000.

(** [elem_find] on one of the two lists. *)
Definition in_list (t : Z) (l : list Z) : bool := bool_decide (t ∈ l).

(** [bitmap_scan] fails with -1 when no pid is left, and the result is not tested. The
    [pid_lock] around the bitmap, here and in [release_pid], is left out: an operation on the
    scheduler's state runs to its end, and locks are the subject of Sync. *)
Definition allocate_pid (s : sched) : outcome (Z * sched) :=
  bit_idx ← bitmap_scan (pid_bitmap s) 1;
  b ← bitmap_set (pid_bitmap s) (u32 bit_idx) 1;
  Done (u16 (bit_idx + 1), with_pids b s).

Definition release_pid (s : sched) (p : Z) : outcome sched :=
  let bit_idx := p - 1 in
  b ← bitmap_set (pid_bitmap s) (u32 bit_idx) 0;
  Done (with_pids b s).

Definition pid_pool_init (s : sched) (p : Z) : outcome sched :=
  b ← bitmap_init (mk_bitmap 128 (replicate 128 0) p);
  Done (with_pids b s).

(** The stack pointer moves by [uint32_t*] arithmetic, so by four times the size
    of [struct intr_stack] (76) and of [struct thread_stack] (32). *)
Definition thread_create (kernel_thread : Z) (s : sched) (pthread fn arg : Z) : outcome sched :=
  upd_task pthread (fun p =>
    set_kstack (self_kstack p - 4 * 76 - 4 * 32)
      (Some {| ebp := 0; ebx := 0; edi := 0; esi := 0; eip := kernel_thread;
               function := fn; func_arg := arg |}) p) s.

Definition init_fd_table : list Z := [0; 1; 2; -1; -1; -1; -1; -1].

Definition init_thread (s : sched) (pthread : Z) (nm : list Z) (prio : Z) : outcome sched :=
  ASSERT (negb (pthread =? 0));;
  r ← allocate_pid s;
  (if Z.of_nat (length nm) <? TASK_NAME_LEN then Done () else Fault);;
  let st := if pthread =? main_thread s then TASK_RUNNING else TASK_READY in
  Done (with_threads (<[pthread :=
    {| self_kstack := u32 (pthread + PG_SIZE); pid := r.1; status := st; priority := u8 prio;
       name := nm; ticks := u8 prio; elapsed_ticks := 0; pgdir := 0; fd_table := init_fd_table;
       cwd_inode_nr := 0; parent_pid := -1; exit_status := 0; stack_magic := STACK_MAGIC;
       kthread_stack := None |}]>) r.2).

(** [thread] is the page [get_kernel_pages(1)] returned. *)
Definition thread_start (kernel_thread : Z) (s : sched) (thread : Z) (nm : list Z) (prio fn arg : Z)
    : outcome sched :=
  s ← init_thread s thread nm prio;
  s ← thread_create kernel_thread s thread fn arg;
  ASSERT (negb (in_list thread (ready s)));;
  let s := with_ready (fun q => q ++ [thread]) s in
  ASSERT (negb (in_list thread (all s)));;
  Done (with_all (fun q => q ++ [thread]) s).

Definition make_main_thread (s : sched) : outcome sched :=
  let s := with_main (cur s) s in
  s ← init_thread s (main_thread s) [109; 97; 105; 110] 31;
  ASSERT (negb (in_list (main_thread s) (all s)));;
  Done (with_all (fun q => q ++ [main_thread s]) s).

Definition thread_unblock (s : sched) (pthread : Z) : outcome sched :=
  let '(old_status, fl) := intr_disable (eflags s) in
  p ← task_at s pthread;
  ASSERT (bool_decide (status p = TASK_BLOCKED) || bool_decide (status p = TASK_WAITING) ||
          bool_decide (status p = TASK_HANGING));;
  s ← (if bool_decide (status p <> TASK_READY) then
         ASSERT (negb (in_list pthread (ready s)));;
         (if in_list pthread (ready s) then Panic else Done ());;
         upd_task pthread (set_status TASK_READY) (with_ready (cons pthread) s)
       else Done s);
  Done (with_flags (snd (intr_set_status old_status fl)) s).

(** [page_dir_activate] loads cr3; a process also gets its kernel stack into the TSS. *)
Definition process_activate (s : sched) (p_thread : Z) : outcome sched :=
  ASSERT (negb (p_thread =? 0));;
  p ← task_at s p_thread;
  Done (with_cpu (pgdir p) (if pgdir p =? 0 then tss_esp0 s else u32 (p_thread + PG_SIZE)) s).

Definition schedule (s : sched) : outcome sched :=
  ASSERT (bool_decide (intr_get_status (eflags s) = INTR_OFF));;
  c ← task_at s (cur s);
  s ← (if bool_decide (status c = TASK_RUNNING) then
         ASSERT (negb (in_list (cur s) (ready s)));;
         upd_task (cur s) (fun c => set_status TASK_READY (set_ticks (priority c) (elapsed_ticks c) c))
           (with_ready (fun q => q ++ [cur s]) s)
       else Done s);
  s ← (if bool_decide (ready s = []) then thread_unblock s (idle_thread s) else Done s);
  ASSERT (negb (bool_decide (ready s = [])));;
  match ready s with
  | [] => Fault
  | next :: rest =>
      s ← upd_task next (set_status TASK_RUNNING) (with_ready (fun _ => rest) s);
      s ← process_activate s next;
      Done (with_cur next s)
  end.

(** Returns at the context switch; [intr_set_status(old_status)] runs when the
    blocked thread is scheduled again. *)
Definition thread_block (s : sched) (stat : task_status) : outcome (intr_status * sched) :=
  ASSERT (bool_decide (stat = TASK_BLOCKED) || bool_decide (stat = TASK_WAITING) ||
          bool_decide (stat = TASK_HANGING));;
  let '(old_status, fl) := intr_disable (eflags s) in
  s ← upd_task (cur s) (set_status stat) (with_flags fl s);
  s ← schedule s;
  Done (old_status, s).

Definition thread_yield (s : sched) : outcome (intr_status * sched) :=
  let '(old_status, fl) := intr_disable (eflags s) in
  let s := with_flags fl s in
  ASSERT (negb (in_list (cur s) (ready s)));;
  s ← upd_task (cur s) (set_status TASK_READY) (with_ready (fun q => q ++ [cur s]) s);
  s ← schedule s;
  Done (old_status, s).

(** The first task of the list with this pid. *)
Definition pid2thread (s : sched) (p : Z) : option Z :=
  list_find (fun t => pid <$> threads s !! t = Some p) (all s) ≫= fun r => Some r.2.

(** What [thread_exit] hands to [mfree_page] are the pages of the page directory
    and of the PCB, in this order. The code reads the pid from the PCB after its page has
    been given back, a use after free that works only as long as the page's translation and
    contents are still there; here the contents stay in [threads]. With [need_schedule] the call
    ends in the task [schedule] picked. *)
Definition thread_exit (s : sched) (thread_over : Z) (need_schedule : bool) : outcome (list Z * sched) :=
  let s := with_flags (snd (intr_disable (eflags s))) s in
  s ← upd_task thread_over (set_status TASK_DIED) s;
  p ← task_at s thread_over;
  let s := if in_list thread_over (ready s)
           then with_ready (fun q => filter (fun t => t <> thread_over) q) s else s in
  let freed := if negb (pgdir p =? 0) then [pgdir p] else [] in
  (if in_list thread_over (all s) then Done () else Fault);;
  let s := with_all (fun q => filter (fun t => t <> thread_over) q) s in
  let freed := if negb (thread_over =? main_thread s) then freed ++ [thread_over] else freed in
  s ← release_pid s (pid p);
  if need_schedule then s ← schedule s; Done (freed, s) else Done (freed, s).

(** The handler of the timer interrupt. *)
Definition intr_timer_handler (s : sched) : outcome sched :=
  c ← task_at s (cur s);
  ASSERT (stack_magic c =? STACK_MAGIC);;
  s ← upd_task (cur s) (fun c => set_ticks (ticks c) (u32 (elapsed_ticks c + 1)) c)
        (with_kticks (u32 (kticks s + 1)) s);
  if ticks c =? 0 then schedule s
  else upd_task (cur s) (fun c => set_ticks (u8 (ticks c - 1)) (elapsed_ticks c) c) s.

(** Calling an operation [n] times. *)
Fixpoint times (n : nat) (f : sched -> outcome sched) (s : sched) : outcome sched :=
  match n with O => Done s | S n => s ← f s; times n f s end.

(** ** Invariant *)
Definition stat (s : sched) (t : Z) : option task_status := status <$> threads s !! t.

(** What holds whenever [schedule] is entered: queue and states agree, nobody
    but the current task is RUNNING, and the idle thread can be woken. *)
Record sched_pre (s : sched) : Prop := {
  pre_nodup : NoDup (ready s);
  pre_nodup_all : NoDup (all s);
  pre_mapped : forall t, t ∈ all s -> is_Some (threads s !! t);
  pre_cur : is_Some (threads s !! cur s);
  pre_ready : forall t, t ∈ ready s -> t ∈ all s;
  pre_iff : forall t, t ∈ all s -> (t ∈ ready s <-> stat s t = Some TASK_READY);
  pre_running : forall t, t ∈ all s -> stat s t = Some TASK_RUNNING -> t = cur s;
  pre_cur_all : stat s (cur s) = Some TASK_RUNNING -> cur s ∈ all s;
  pre_idle : idle_thread s ∈ all s;
  pre_idle_st : stat s (idle_thread s) = Some TASK_RUNNING \/ stat s (idle_thread s) = Some TASK_READY \/
                stat s (idle_thread s) = Some TASK_BLOCKED;
  pre_nonnull : 0 ∉ all s
}.

(** Between operations the current task is the one that is RUNNING. *)
Record sched_inv (s : sched) : Prop := {
  inv_pre : sched_pre s;
  inv_cur : cur s ∈ all s /\ stat s (cur s) = Some TASK_RUNNING
}.

(** The pids of the tasks are in range, marked used, and no two tasks share one. *)
Record pids_ok (s : sched) : Prop := {
  pids_wf : bitmap_wf (pid_bitmap s);
  pids_nbits : nbits (pid_bitmap s) = 1024;
  pids_used : forall t p, t ∈ all s -> threads s !! t = Some p ->
    1 <= pid p <= 1024 /\ bit (pid_bitmap s) (pid p - 1) = true;
  pids_inj : forall t1 t2 p1 p2, t1 ∈ all s -> t2 ∈ all s ->
    threads s !! t1 = Some p1 -> threads s !! t2 = Some p2 -> pid p1 = pid p2 -> t1 = t2
}.

(** ** Lemmas *)
Lemma upd_task_done t (f : task_struct -> task_struct) s p :
  threads s !! t = Some p -> upd_task t f s = Done (with_threads (<[t := f p]>) s).
Proof. intros H. unfold upd_task, task_at. by rewrite H. Qed.

Lemma stat_upd s t p (f : task_struct -> task_struct) t' :
  stat (with_threads (<[t := f p]>) s) t' = if decide (t' = t) then Some (status (f p)) else stat s t'.
Proof.
  unfold stat. simpl. case_decide as E.
  - subst. by rewrite lookup_insert_eq.
  - rewrite lookup_insert_ne by congruence. done.
Qed.

Lemma stat_lookup s t st : stat s t = Some st -> exists p, threads s !! t = Some p /\ status p = st.
Proof. unfold stat. destruct (threads s !! t) as [p|]; simpl; [|done]. intros [= <-]. eauto. Qed.

(** A task that becomes READY enters the queue, at whatever place. *)
Lemma pre_enqueue s t p (f : task_struct -> task_struct) q :
  sched_pre s -> t ∈ all s -> threads s !! t = Some p -> stat s t <> Some TASK_READY ->
  status (f p) = TASK_READY -> q ≡ₚ t :: ready s ->
  sched_pre (with_threads (<[t := f p]>) (with_ready (fun _ => q) s)).
Proof.
  intros Hpre Ht Hp Hns Hst Hq. destruct Hpre as [Hnd Hnda Hmap Hcur Hsub Hiff Hrun Hca Hid Hids Hnn].
  assert (Hstat : forall t', stat (with_threads (<[t := f p]>) (with_ready (fun _ => q) s)) t' =
    if decide (t' = t) then Some TASK_READY else stat s t').
  { intros t'. rewrite (stat_upd (with_ready (fun _ => q) s)), Hst. done. }
  assert (Hnin : t ∉ ready s) by (rewrite Hiff; done).
  assert (Hmem : forall t', t' ∈ q <-> t' = t \/ t' ∈ ready s).
  { intros t'. rewrite Hq. apply elem_of_cons. }
  constructor; simpl; try done.
  - rewrite Hq. by apply NoDup_cons.
  - intros t' Ht'. rewrite lookup_insert_is_Some'. right. by apply Hmap.
  - rewrite lookup_insert_is_Some'. by right.
  - intros t' Ht'. apply Hmem in Ht' as [->|]; auto.
  - intros t' Ht'. rewrite Hmem, Hstat. case_decide; [naive_solver|]. rewrite Hiff by done. naive_solver.
  - intros t' Ht'. rewrite Hstat. case_decide; [done|]. by apply Hrun.
  - rewrite Hstat. case_decide; [done|]. done.
  - rewrite Hstat. case_decide; [auto|done].
Qed.

Lemma unblock_spec s t :
  sched_pre s -> t ∈ all s ->
  stat s t = Some TASK_BLOCKED \/ stat s t = Some TASK_WAITING \/ stat s t = Some TASK_HANGING ->
  exists p, threads s !! t = Some p /\
    thread_unblock s t = Done (with_threads (<[t := set_status TASK_READY p]>) (with_ready (cons t) s)) /\
    sched_pre (with_threads (<[t := set_status TASK_READY p]>) (with_ready (cons t) s)).
Proof.
  intros Hpre Ht Hst.
  assert (Hns : stat s t <> Some TASK_READY) by (intros E; rewrite E in Hst; naive_solver).
  assert (Hnin : t ∉ ready s) by (by rewrite (pre_iff _ Hpre)).
  destruct (pre_mapped _ Hpre t Ht) as [p Hp]. exists p. split; [done|].
  assert (Hsp : stat s t = Some (status p)) by (unfold stat; by rewrite Hp).
  rewrite Hsp in Hst, Hns. split.
  - unfold thread_unblock. rewrite (surjective_pairing (intr_disable (eflags s))), bracket_flags.
    unfold task_at. rewrite Hp, bind_done.
    assert_ok; [|destruct Hst as [[= E]|[[= E]|[= E]]]; rewrite E; done].
    rewrite bool_decide_true by congruence. unfold in_list. rewrite bool_decide_false by done.
    simpl. rewrite (upd_task_done _ _ _ p) by done. done.
  - change (with_ready (cons t) s) with (with_ready (fun _ => t :: ready s) s).
    by apply (pre_enqueue s t p (set_status TASK_READY)); try done; rewrite ?Hsp.
Qed.

(** Taking the head of the queue when nobody is RUNNING. *)
Lemma pre_dispatch s n rest p pg esp0 :
  sched_pre s -> (forall t, t ∈ all s -> stat s t <> Some TASK_RUNNING) ->
  ready s = n :: rest -> threads s !! n = Some p ->
  sched_inv (with_cur n (with_cpu pg esp0 (with_threads (<[n := set_status TASK_RUNNING p]>) (with_ready (fun _ => rest) s)))).
Proof.
  intros Hpre Hnob Hq Hp. destruct Hpre as [Hnd Hnda Hmap Hcur Hsub Hiff Hrun Hca Hid Hids Hnn].
  assert (Hna : n ∈ all s) by (apply Hsub; rewrite Hq; set_solver).
  rewrite Hq in Hnd. apply NoDup_cons in Hnd as [Hnr Hnd].
  set (s' := with_cur _ _).
  assert (Hstat : forall t', stat s' t' = if decide (t' = n) then Some TASK_RUNNING else stat s t').
  { intros t'. change (stat s' t') with (stat (with_threads (<[n := set_status TASK_RUNNING p]>) (with_ready (fun _ => rest) s)) t').
    by rewrite stat_upd. }
  constructor.
  - constructor; simpl; try done.
    + intros t' Ht'. rewrite lookup_insert_is_Some'. right. by apply Hmap.
    + rewrite lookup_insert_is_Some'. by left.
    + intros t' Ht'. apply Hsub. rewrite Hq. set_solver.
    + intros t' Ht'. rewrite Hstat. case_decide as E.
      * subst. split; [done|]. naive_solver.
      * rewrite <- Hiff by done. rewrite Hq. set_solver.
    + intros t' Ht'. rewrite Hstat. case_decide; [done|]. intros E. by destruct (Hnob t').
    + rewrite Hstat. case_decide; [auto|done].
  - split; [done|]. rewrite Hstat. by rewrite decide_True.
Qed.

(** The queue [schedule] picks from. *)
Definition run_queue (s : sched) : list Z :=
  let q := if decide (stat s (cur s) = Some TASK_RUNNING) then ready s ++ [cur s] else ready s in
  match q with [] => [idle_thread s] | _ => q end.

Lemma schedule_spec s :
  sched_pre s -> intr_get_status (eflags s) = INTR_OFF ->
  exists s' next rest, run_queue s = next :: rest /\ schedule s = Done s' /\ sched_inv s' /\
    cur s' = next /\ ready s' = rest /\ all s' = all s /\ eflags s' = eflags s /\
    idle_thread s' = idle_thread s /\
    (forall t, t ∉ run_queue s -> threads s' !! t = threads s !! t).
Proof.
  intros Hpre Hoff. destruct (pre_cur _ Hpre) as [c Hc].
  assert (Hsc : stat s (cur s) = Some (status c)) by (unfold stat; by rewrite Hc).
  unfold schedule. assert_ok; [|by rewrite bool_decide_true].
  unfold task_at at 1. rewrite Hc, bind_done.
  (* the current task goes to the back of the queue *)
  assert (Hst1 : exists s1, (if bool_decide (status c = TASK_RUNNING) then
         ASSERT (negb (in_list (cur s) (ready s)));;
         upd_task (cur s) (fun c => set_status TASK_READY (set_ticks (priority c) (elapsed_ticks c) c))
           (with_ready (fun q => q ++ [cur s]) s)
       else Done s) = Done s1 /\ sched_pre s1 /\
       (forall t, t ∈ all s1 -> stat s1 t <> Some TASK_RUNNING) /\
       ready s1 = (if decide (stat s (cur s) = Some TASK_RUNNING) then ready s ++ [cur s] else ready s) /\
       all s1 = all s /\ eflags s1 = eflags s /\ idle_thread s1 = idle_thread s /\
       (forall t, t ∉ ready s1 -> threads s1 !! t = threads s !! t)).
  { rewrite Hsc. destruct (decide (status c = TASK_RUNNING)) as [Hr|Hnr].
    - rewrite bool_decide_true by done. rewrite (decide_True (P := Some _ = _)) by (by f_equal).
      assert (Hca : cur s ∈ all s) by (apply (pre_cur_all _ Hpre); rewrite Hsc; by f_equal).
      assert (Hns : stat s (cur s) <> Some TASK_READY) by (rewrite Hsc, Hr; done).
      assert_ok; [|unfold in_list; rewrite bool_decide_false; [done|]; by rewrite (pre_iff _ Hpre)].
      rewrite (upd_task_done _ _ _ c) by done. eexists. split; [done|]. split.
      + change (with_ready (fun q => q ++ [cur s]) s) with (with_ready (fun _ => ready s ++ [cur s]) s).
        apply (pre_enqueue s (cur s) c (fun c => set_status TASK_READY (set_ticks (priority c) (elapsed_ticks c) c)));
          try done. by rewrite Permutation_app_comm.
      + split; [|split_and!; try done; intros t; simpl; rewrite not_elem_of_app, list_elem_of_singleton;
          intros [_ ?]; by rewrite lookup_insert_ne]. intros t Ht. simpl in Ht.
        rewrite (stat_upd (with_ready (fun q => q ++ [cur s]) s) (cur s) c
          (fun c => set_status TASK_READY (set_ticks (priority c) (elapsed_ticks c) c))). case_decide; [done|].
        intros E. by apply (pre_running _ Hpre) in E.
    - rewrite bool_decide_false by done. rewrite (decide_False (P := Some _ = _)) by congruence.
      eexists. split; [done|]. split; [done|]. split; [|done].
      intros t Ht E. pose proof (pre_running _ Hpre t Ht E) as ->. congruence. }
  destruct Hst1 as (s1 & -> & Hpre1 & Hnob1 & Hq1 & Ha1 & He1 & Hi1 & Hf1). rewrite bind_done.
  (* an empty queue wakes the idle thread *)
  assert (Hst2 : exists s2, (if bool_decide (ready s1 = []) then thread_unblock s1 (idle_thread s1) else Done s1)
        = Done s2 /\ sched_pre s2 /\ (forall t, t ∈ all s2 -> stat s2 t <> Some TASK_RUNNING) /\
       ready s2 = run_queue s /\ all s2 = all s /\ eflags s2 = eflags s /\ idle_thread s2 = idle_thread s /\
       (forall t, t ∉ ready s2 -> threads s2 !! t = threads s !! t)).
  { unfold run_queue. rewrite <- Hq1. destruct (ready s1) as [|n rest] eqn:Hr1.
    - rewrite bool_decide_true by done. destruct (unblock_spec s1 (idle_thread s1)) as (p & Hp & -> & Hpre2).
      + done.
      + apply (pre_idle _ Hpre1).
      + left. destruct (pre_idle_st _ Hpre1) as [E|[E|E]]; [|exfalso|done].
        * by apply Hnob1 in E; [|apply (pre_idle _ Hpre1)].
        * apply (pre_iff _ Hpre1) in E; [|apply (pre_idle _ Hpre1)]. rewrite Hr1 in E. set_solver.
      + eexists. split; [done|]. split; [done|]. simpl. rewrite Hr1, Hi1.
        split; [|split_and!; try done; intros t [? ?]%not_elem_of_cons; rewrite lookup_insert_ne by done; by apply Hf1].
        intros t Ht. rewrite (stat_upd (with_ready _ s1) _ p (set_status TASK_READY)).
        destruct (decide (t = _)); [discriminate|]. by apply (Hnob1 t).
    - rewrite bool_decide_false by done. rewrite <- Hr1 in *. eauto 15. }
  destruct Hst2 as (s2 & -> & Hpre2 & Hnob2 & Hq2 & Ha2 & He2 & Hi2 & Hf2). rewrite bind_done.
  assert (Hne : exists n rest, run_queue s = n :: rest).
  { unfold run_queue. destruct (if decide _ then _ else _) as [|n rest]; eauto. }
  destruct Hne as (n & rest & Hn). rewrite Hn in Hq2.
  assert (Hna : n ∈ all s2) by (apply (pre_ready _ Hpre2); rewrite Hq2; set_solver).
  destruct (pre_mapped _ Hpre2 n Hna) as [p Hp].
  rewrite Hq2. rewrite bool_decide_false by done. simpl.
  rewrite (upd_task_done _ _ _ p) by done. rewrite bind_done. unfold process_activate.
  assert_ok; [|destruct (Z.eqb_spec n 0) as [->|]; [|done]; by destruct (pre_nonnull _ Hpre2)].
  unfold task_at. simpl. rewrite lookup_insert_eq, bind_done. simpl.
  eexists _, n, rest. split; [done|]. split; [done|].
  split; [by eapply pre_dispatch|]. split_and!; try done.
  rewrite Hn, <- Hq2. intros t Ht. simpl. rewrite lookup_insert_ne by (intros ->; rewrite Hq2 in Ht; set_solver).
  by apply Hf2.
Qed.

Lemma pre_block s p st :
  sched_inv s -> threads s !! cur s = Some p ->
  st <> TASK_RUNNING -> st <> TASK_READY -> (cur s = idle_thread s -> st = TASK_BLOCKED) ->
  sched_pre (with_threads (<[cur s := set_status st p]>) s).
Proof.
  intros [Hpre [Hca Hcs]] Hp Hn1 Hn2 Hidle.
  destruct Hpre as [Hnd Hnda Hmap Hcur Hsub Hiff Hrun Hca' Hid Hids Hnn].
  assert (Hstat : forall t', stat (with_threads (<[cur s := set_status st p]>) s) t' =
    if decide (t' = cur s) then Some st else stat s t') by (intros; apply stat_upd).
  constructor; simpl; try done.
  - intros t' Ht'. rewrite lookup_insert_is_Some'. right. by apply Hmap.
  - rewrite lookup_insert_is_Some'. by left.
  - intros t' Ht'. rewrite Hstat, Hiff by done. case_decide; [subst|done]. rewrite Hcs. naive_solver.
  - intros t' Ht'. rewrite Hstat. case_decide; [done|]. by apply Hrun.
  - rewrite Hstat. case_decide as E; [|done]. right. right. f_equal. by apply Hidle.
Qed.

(** The invariant does not depend on the flags, the pid bitmap or the counters. *)
Lemma pre_ext s s' :
  ready s' = ready s -> all s' = all s -> threads s' = threads s -> cur s' = cur s ->
  idle_thread s' = idle_thread s -> sched_pre s -> sched_pre s'.
Proof.
  intros Er Ea Et Ec Ei [Hnd Hnda Hmap Hcur Hsub Hiff Hrun Hca Hid Hids Hnn].
  constructor; unfold stat in *; rewrite ?Er, ?Ea, ?Et, ?Ec, ?Ei; done.
Qed.

Lemma inv_ext s s' :
  ready s' = ready s -> all s' = all s -> threads s' = threads s -> cur s' = cur s ->
  idle_thread s' = idle_thread s -> sched_inv s -> sched_inv s'.
Proof.
  intros Er Ea Et Ec Ei [Hpre Hcur]. constructor; [by eapply pre_ext|].
  unfold stat in *. by rewrite Ec, Ea, Et.
Qed.

(** Rewriting fields of PCBs that keep their status. *)
Lemma inv_same_status s t p (f : task_struct -> task_struct) :
  threads s !! t = Some p -> status (f p) = status p -> sched_inv s ->
  sched_inv (with_threads (<[t := f p]>) s).
Proof.
  intros Hp Hf [Hpre Hcur].
  assert (Hstat : forall t', stat (with_threads (<[t := f p]>) s) t' = stat s t').
  { intros t'. rewrite stat_upd. case_decide; [|done]. subst. unfold stat. rewrite Hp. simpl. by rewrite Hf. }
  destruct Hpre as [Hnd Hnda Hmap Hc Hsub Hiff Hrun Hca Hid Hids Hnn].
  constructor; [constructor|]; simpl; rewrite ?Hstat; try done.
  - intros t' Ht'. rewrite lookup_insert_is_Some'. right. by apply Hmap.
  - rewrite lookup_insert_is_Some'. by right.
  - intros t' Ht'. rewrite Hstat. by apply Hiff.
  - intros t' Ht'. rewrite Hstat. by apply Hrun.
Qed.

Lemma inv_run_queue s : sched_inv s -> run_queue s = ready s ++ [cur s].
Proof.
  intros [_ [_ Hc]]. unfold run_queue. rewrite decide_True by done. by destruct (ready s).
Qed.

(** One step to the left. *)
Definition rotate1 (l : list Z) : list Z := match l with [] => [] | x :: r => r ++ [x] end.

Lemma schedule_rotate1 s :
  sched_inv s -> intr_get_status (eflags s) = INTR_OFF ->
  exists s', schedule s = Done s' /\ sched_inv s' /\ eflags s' = eflags s /\
    cur s' :: ready s' = rotate1 (cur s :: ready s) /\ all s' = all s.
Proof.
  intros Hinv Hoff. destruct (schedule_spec s) as (s' & n & rest & Hq & Hs & Hi & Hc & Hr & Ha & He & _);
    [apply Hinv|done|].
  exists s'. rewrite inv_run_queue in Hq by done. simpl. rewrite Hc, Hr, Hq. done.
Qed.

Lemma rotate_S n (l : list Z) : rotate (S n) l = rotate1 (rotate n l).
Proof.
  destruct l as [|x0 l0]; [by unfold rotate; rewrite !drop_nil, !take_nil|]. set (l := x0 :: l0).
  assert (Hl : (0 < length l)%nat) by (simpl; lia). clearbody l. unfold rotate.
  set (k := (n mod length l)%nat). assert (Hk : (k < length l)%nat) by (apply Nat.mod_upper_bound; lia).
  destruct (lookup_lt_is_Some_2 l k Hk) as [x Hx].
  rewrite (drop_S l x k Hx). simpl. rewrite <- app_assoc, <- (take_S_r l k x Hx).
  replace (S n mod length l)%nat with (S k mod length l)%nat.
  - destruct (decide (S k = length l)) as [E|E].
    + rewrite E, Nat.Div0.mod_same, drop_0, take_0, drop_all, app_nil_r. by rewrite firstn_all.
    + rewrite Nat.mod_small by lia. done.
  - unfold k. rewrite <- Nat.add_1_r, <- (Nat.add_1_r n). apply Nat.Div0.add_mod_idemp_l.
Qed.

Lemma rotate_0 (l : list Z) : rotate 0 l = l.
Proof. unfold rotate. rewrite Nat.Div0.mod_0_l, drop_0, take_0. apply app_nil_r. Qed.

Lemma rotate1_rotate n (l : list Z) : rotate n (rotate1 l) = rotate (S n) l.
Proof.
  induction n as [|n IH]; [|by rewrite rotate_S, IH, <- rotate_S].
  by rewrite rotate_S, !rotate_0.
Qed.

Lemma times_schedule n s :
  sched_inv s -> intr_get_status (eflags s) = INTR_OFF ->
  exists s', times n schedule s = Done s' /\ sched_inv s' /\ all s' = all s /\
    cur s' :: ready s' = rotate n (cur s :: ready s).
Proof.
  revert s. induction n as [|n IH]; intros s Hinv Hoff; simpl times.
  - exists s. split_and!; [done..|by rewrite rotate_0].
  - destruct (schedule_rotate1 s) as (s1 & -> & Hi & He & Hq & Ha); [done..|]. simpl.
    destruct (IH s1) as (s2 & Hs2 & Hi2 & Ha2 & Hq2); [done|by rewrite He|].
    exists s2. split; [done|]. split; [done|]. split; [by rewrite Ha2|].
    by rewrite Hq2, Hq, rotate1_rotate.
Qed.

(** ** Properties *)

(** C3. Round robin: called with interrupts off, [schedule] never panics or
    faults, keeps the invariant, and [n] calls in a row rotate the sequence
    "running task, then ready queue" by [n] places; hence the task at place [k] of
    the ready queue runs after [k + 1] calls, and nobody starves. *)
Theorem schedule_round_robin s n :
  sched_inv s -> intr_get_status (eflags s) = INTR_OFF ->
  exists s', times n schedule s = Done s' /\ sched_inv s' /\ all s' = all s /\
    cur s' :: ready s' = rotate n (cur s :: ready s) /\
    (forall k t, n = S k -> ready s !! k = Some t -> cur s' = t).
Proof.
  intros Hinv Hoff. destruct (times_schedule n s) as (s' & Hs & Hi & Ha & Hq); [done..|].
  exists s'. split_and!; try done. intros k t -> Hk.
  pose proof (lookup_lt_Some _ _ _ Hk) as Hlt.
  apply (f_equal head) in Hq. unfold rotate in Hq. rewrite Nat.mod_small in Hq by (simpl; lia).
  simpl in Hq. rewrite (drop_S _ t) in Hq by done. simpl in Hq. by injection Hq.
Qed.

(** Three tasks: main runs, a worker is ready, idle is blocked. *)
Definition sample_task (p prio : Z) (st : task_status) : task_struct :=
  mk_task 0 p st prio [] prio 0 0 init_fd_table 0 (-1) 0 STACK_MAGIC None.
Definition sample_sched : sched :=
  mk_sched [0x2000] [0x1000; 0x2000; 0x3000]
    (<[0x1000 := sample_task 1 2 TASK_RUNNING]> (<[0x2000 := sample_task 2 5 TASK_READY]>
      (<[0x3000 := sample_task 3 5 TASK_BLOCKED]> ∅)))
    0x1000 0x3000 0x1000 0 (mk_bitmap 128 (7 :: replicate 127 0) 0) 0 0 0.

Lemma sample_stat t :
  t ∈ all sample_sched ->
  t = 0x1000 /\ stat sample_sched t = Some TASK_RUNNING \/
  t = 0x2000 /\ stat sample_sched t = Some TASK_READY \/
  t = 0x3000 /\ stat sample_sched t = Some TASK_BLOCKED.
Proof. simpl. rewrite !elem_of_cons, elem_of_nil. intros [->|[->|[->|[]]]]; auto. Qed.

Lemma sample_inv : sched_inv sample_sched.
Proof.
  constructor; [constructor|split]; try (simpl; by eauto);
    try (apply (bool_decide_unpack _); by vm_compute).
  - intros t Ht. apply sample_stat in Ht as [(-> & _)|[(-> & _)|(-> & _)]]; eexists; reflexivity.
  - intros t. simpl. rewrite !elem_of_cons. naive_solver.
  - intros t Ht. apply sample_stat in Ht as [(-> & ->)|[(-> & ->)|(-> & ->)]];
      simpl; rewrite elem_of_cons, elem_of_nil; naive_solver lia.
  - intros t Ht. apply sample_stat in Ht as [(-> & ->)|[(-> & ->)|(-> & ->)]]; done.
Qed.

Lemma schedule_round_robin_witness :
  exists s', times 1 schedule sample_sched = Done s' /\ cur s' = 0x2000.
Proof.
  destruct (schedule_round_robin sample_sched 1) as (s' & H1 & _ & _ & _ & H2).
  - exact sample_inv.
  - reflexivity.
  - exists s'. split; [exact H1|]. apply (H2 0%nat); reflexivity.
Defined.

(** Blocking the running task and yielding, in terms of [schedule]. *)
Lemma block_spec s st :
  sched_inv s -> st = TASK_BLOCKED \/ st = TASK_WAITING \/ st = TASK_HANGING ->
  (cur s = idle_thread s -> st = TASK_BLOCKED) ->
  exists s', thread_block s st = Done (fst (intr_disable (eflags s)), s') /\ sched_inv s' /\
    all s' = all s /\ idle_thread s' = idle_thread s /\
    eflags s' = snd (intr_disable (eflags s)) /\
    cur s' :: ready s' = match ready s with [] => [idle_thread s] | q => q end /\
    (forall t, t ∉ cur s' :: ready s' -> t <> cur s -> threads s' !! t = threads s !! t) /\
    (cur s <> idle_thread s -> stat s' (cur s) = Some st).
Proof.
  intros Hinv Hst Hid. destruct (pre_cur _ (inv_pre _ Hinv)) as [p Hp].
  unfold thread_block. assert_ok; [|by destruct Hst as [->|[->| ->]]].
  rewrite (surjective_pairing (intr_disable (eflags s))), (upd_task_done _ _ _ p), bind_done by done.
  set (s1 := with_threads _ _).
  assert (Hpre : sched_pre s1).
  { apply (pre_ext (with_threads (<[cur s := set_status st p]>) s)); try done.
    apply pre_block; try done; naive_solver. }
  destruct (schedule_spec s1) as (s' & n & rest & Hq & -> & Hi & Hc & Hr & Ha & He & Hid' & Hf).
  - done.
  - apply intr_disable_off.
  - assert (Hns : stat s1 (cur s1) = Some st).
    { unfold s1. rewrite (stat_upd _ _ p (set_status st)). by rewrite decide_True. }
    assert (Hrq : run_queue s1 = match ready s with [] => [idle_thread s] | q => q end).
    { unfold run_queue. rewrite Hns. rewrite decide_False by naive_solver. simpl. by destruct (ready s). }
    exists s'. split; [done|]. rewrite Hc, Hr, <- Hq. split_and!; try done.
    + intros t Ht Hne. rewrite Hf by done. simpl. by rewrite lookup_insert_ne.
    + intros Hci. unfold stat. rewrite Hf.
      * simpl. by rewrite lookup_insert_eq.
      * rewrite Hrq. assert (cur s ∉ ready s).
        { destruct (inv_cur _ Hinv) as [Hca E2]. intros E. apply (pre_iff _ (inv_pre _ Hinv) _ Hca) in E. congruence. }
        destruct (ready s); [by rewrite list_elem_of_singleton|done].
Qed.

Lemma yield_spec s :
  sched_inv s ->
  exists s', thread_yield s = Done (fst (intr_disable (eflags s)), s') /\ sched_inv s' /\
    all s' = all s /\ eflags s' = snd (intr_disable (eflags s)) /\
    cur s' :: ready s' = ready s ++ [cur s].
Proof.
  intros Hinv. destruct Hinv as [Hpre [Hca Hcs]]. destruct (pre_cur _ Hpre) as [p Hp].
  assert (Hnin : cur s ∉ ready s) by (rewrite (pre_iff _ Hpre) by done; congruence).
  unfold thread_yield. rewrite (surjective_pairing (intr_disable (eflags s))). simpl.
  assert_ok; [|unfold in_list; by rewrite bool_decide_false].
  rewrite (upd_task_done _ _ _ p), bind_done by done. set (s1 := with_threads _ _).
  assert (Hpre1 : sched_pre s1).
  { apply (pre_ext (with_threads (<[cur s := set_status TASK_READY p]>) (with_ready (fun _ => ready s ++ [cur s]) s)));
      try done.
    apply (pre_enqueue s (cur s) p (set_status TASK_READY)); try done; [congruence|].
    by rewrite Permutation_app_comm. }
  destruct (schedule_spec s1) as (s' & n & rest & Hq & -> & Hi & Hc & Hr & Ha & He & _); [done|apply intr_disable_off|].
  exists s'. split_and!; try done. rewrite Hc, Hr, <- Hq.
  assert (Hns : stat s1 (cur s1) = Some TASK_READY).
  { unfold s1. rewrite (stat_upd _ _ p (set_status TASK_READY)). by rewrite decide_True. }
  unfold run_queue. rewrite Hns, decide_False by done. simpl. by destruct (ready s).
Qed.

Lemma unblock_inv s t :
  sched_inv s -> t ∈ all s ->
  stat s t = Some TASK_BLOCKED \/ stat s t = Some TASK_WAITING \/ stat s t = Some TASK_HANGING ->
  exists s', thread_unblock s t = Done s' /\ sched_inv s' /\ eflags s' = eflags s /\ cur s' = cur s /\
    ready s' = t :: ready s /\ all s' = all s /\ idle_thread s' = idle_thread s /\
    (forall t', t' <> t -> threads s' !! t' = threads s !! t').
Proof.
  intros Hinv Ht Hst. destruct (unblock_spec s t) as (p & Hp & Hu & Hpre); [apply Hinv|done..|].
  eexists. split; [done|]. split; [|split_and!; try done; intros t' Hne; simpl; by rewrite lookup_insert_ne].
  constructor; [done|]. destruct Hinv as [_ [Hca Hcs]].
  split; [done|]. rewrite (stat_upd (with_ready _ s) _ p (set_status TASK_READY)).
  simpl. destruct (decide (cur s = t)) as [E|]; [subst t|done]. rewrite Hcs in Hst. naive_solver.
Qed.

(** C4. Blocking, waking and yielding: on a state that satisfies the invariant none
    panics or faults, and all keep the invariant. [thread_block] by the running task (the
    idle thread among them, which blocks as TASK_BLOCKED) leaves the processor to the head
    of the ready queue, or to the idle thread when the queue is empty; any other task then
    has the status it blocked with. [thread_unblock] puts a blocked, waiting or hanging task
    at the front of the queue with the interrupt flag as it was. [thread_yield] puts the
    running task at the back. *)
Theorem thread_ops_preserve s :
  sched_inv s ->
  (forall st, st = TASK_BLOCKED \/ st = TASK_WAITING \/ st = TASK_HANGING -> (cur s = idle_thread s -> st = TASK_BLOCKED) ->
     exists s', thread_block s st = Done (intr_get_status (eflags s), s') /\ sched_inv s' /\
       cur s' :: ready s' = match ready s with [] => [idle_thread s] | q => q end /\
       (cur s <> idle_thread s -> stat s' (cur s) = Some st)) /\
  (forall t, t ∈ all s -> stat s t = Some TASK_BLOCKED \/ stat s t = Some TASK_WAITING \/ stat s t = Some TASK_HANGING ->
     exists s', thread_unblock s t = Done s' /\ sched_inv s' /\ eflags s' = eflags s /\
       cur s' = cur s /\ ready s' = t :: ready s) /\
  (exists s', thread_yield s = Done (intr_get_status (eflags s), s') /\ sched_inv s' /\
     cur s' :: ready s' = ready s ++ [cur s]).
Proof.
  intros Hinv. assert (Hold : forall e, fst (intr_disable e) = intr_get_status e).
  { intros e. unfold intr_disable. by destruct (intr_get_status e). }
  split_and!.
  - intros st Hst Hid. destruct (block_spec s st) as (s' & Hb & Hi & _ & _ & _ & Hq & _ & Hs); [done..|]. rewrite Hold in Hb. eauto.
  - intros t Ht Hst. destruct (unblock_inv s t) as (s' & Hu & Hi & He & Hc & Hr & _); [done..|]. eauto 10.
  - destruct (yield_spec s) as (s' & Hb & Hi & _ & _ & Hq); [done..|]. rewrite Hold in Hb. eauto.
Qed.

Lemma thread_ops_preserve_witness :
  (exists s', thread_block sample_sched TASK_WAITING = Done (INTR_OFF, s') /\ cur s' = 0x2000) /\
  (exists s', thread_unblock sample_sched 0x3000 = Done s' /\ ready s' = [0x3000; 0x2000]).
Proof.
  destruct (thread_ops_preserve sample_sched sample_inv) as [Hb [Hu _]]. split.
  - destruct (Hb TASK_WAITING) as (s1 & H1 & _ & Q1 & _); [auto|vm_compute; discriminate|].
    exists s1. split; [exact H1|]. by injection Q1.
  - destruct (Hu 0x3000) as (s2 & H2 & _ & _ & _ & Q2); [apply (bool_decide_unpack _); by vm_compute|left; reflexivity|].
    exists s2. split; [exact H2|exact Q2].
Defined.

Lemma handler_tick s c :
  threads s !! cur s = Some c -> stack_magic c = STACK_MAGIC -> 1 <= ticks c < 256 -> sched_inv s ->
  exists s' c', intr_timer_handler s = Done s' /\ sched_inv s' /\ cur s' = cur s /\ ready s' = ready s /\
    eflags s' = eflags s /\ threads s' !! cur s = Some c' /\ ticks c' = ticks c - 1 /\
    stack_magic c' = STACK_MAGIC /\ elapsed_ticks c' = u32 (elapsed_ticks c + 1) /\ priority c' = priority c.
Proof.
  intros Hc Hm Ht Hinv. unfold intr_timer_handler, task_at. rewrite Hc, bind_done.
  assert_ok; [|by rewrite Hm].
  rewrite (upd_task_done _ _ _ c), bind_done by done.
  replace (ticks c =? 0) with false by (symmetry; apply Z.eqb_neq; lia).
  simpl. erewrite upd_task_done; [|simpl; by rewrite lookup_insert_eq].
  eexists _, _. split; [done|]. split.
  - apply (inv_same_status _ _ _ (fun c0 => set_ticks (u8 (ticks c0 - 1)) (elapsed_ticks c0) c0)); [simpl; by rewrite lookup_insert_eq|done|].
    apply (inv_same_status _ _ c (fun c0 => set_ticks (ticks c0) (u32 (elapsed_ticks c0 + 1)) c0)); [done..|].
    by apply (inv_ext s).
  - do 3 (split; [done|]). split; [simpl; by rewrite lookup_insert_eq|]. split; [simpl; by rewrite u8_small by lia|done].
Qed.

Lemma ticks_down n s c :
  threads s !! cur s = Some c -> stack_magic c = STACK_MAGIC -> Z.of_nat n <= ticks c < 256 -> sched_inv s ->
  exists s' c', times n intr_timer_handler s = Done s' /\ sched_inv s' /\ cur s' = cur s /\ ready s' = ready s /\
    eflags s' = eflags s /\ threads s' !! cur s = Some c' /\ ticks c' = ticks c - Z.of_nat n /\
    stack_magic c' = STACK_MAGIC /\ priority c' = priority c.
Proof.
  revert s c. induction n as [|n IH]; intros s c Hc Hm Ht Hinv; simpl times.
  - exists s, c. split_and!; try done. lia.
  - destruct (handler_tick s c) as (s1 & c1 & -> & Hi1 & Hcur1 & Hr1 & He1 & Hc1 & Ht1 & Hm1 & _ & Hp1); [done..|lia|done|].
    simpl. rewrite <- Hcur1 in Hc1.
    destruct (IH s1 c1) as (s2 & c2 & Hs2 & Hi2 & Hcur2 & Hr2 & He2 & Hc2 & Ht2 & Hm2 & Hp2); [done..|lia|done|].
    exists s2, c2. rewrite <- Hcur1, <- Hr1, <- He1. split_and!; try done; [lia|congruence].
Qed.

Lemma times_app n m f s s1 : times n f s = Done s1 -> times (n + m) f s = times m f s1.
Proof.
  revert s. induction n as [|n IH]; intros s; simpl; [by intros [= ->]|].
  intros H. apply bind_done_inv in H as (s' & -> & H). simpl. by apply IH.
Qed.

(** The time slice: a running task with [ticks] left keeps the processor for
    exactly that many timer interrupts, during which its counter goes down to 0;
    the next interrupt reloads the counter from the priority, moves the task to the
    back of the queue and gives the processor to the head. No assertion of the
    handler or of [schedule] fails on the way. *)
Theorem timer_quantum s c n :
  sched_inv s -> intr_get_status (eflags s) = INTR_OFF ->
  threads s !! cur s = Some c -> stack_magic c = STACK_MAGIC -> 0 <= ticks c < 256 ->
  Z.of_nat n = ticks c ->
  (forall k, (k <= n)%nat -> exists s' c', times k intr_timer_handler s = Done s' /\ cur s' = cur s /\
     ready s' = ready s /\ threads s' !! cur s = Some c' /\ ticks c' = ticks c - Z.of_nat k) /\
  exists s', times (S n) intr_timer_handler s = Done s' /\ sched_inv s' /\
    cur s' :: ready s' = ready s ++ [cur s].
Proof.
  intros Hinv Hoff Hc Hm Ht Hn. split.
  - intros k Hk. destruct (ticks_down k s c) as (s' & c' & ? & _ & ? & ? & _ & ? & ? & _); [done..|lia|done|]. eauto 10.
  - destruct (ticks_down n s c) as (s1 & c1 & Hs1 & Hi1 & Hcur1 & Hr1 & He1 & Hc1 & Ht1 & Hm1 & _); [done..|lia|done|].
    rewrite <- Nat.add_1_r, (times_app n 1 _ s s1) by done. simpl.
    unfold intr_timer_handler, task_at. rewrite Hcur1, Hc1, bind_done.
    assert_ok; [|by rewrite Hm1].
    rewrite (upd_task_done _ _ _ c1), bind_done by done.
    replace (ticks c1 =? 0) with true by (symmetry; apply Z.eqb_eq; lia).
    set (s2 := with_threads _ _).
    assert (Hi2 : sched_inv s2).
    { apply (inv_same_status _ _ c1 (fun c0 => set_ticks (ticks c0) (u32 (elapsed_ticks c0 + 1)) c0)); [done..|].
      by apply (inv_ext s1). }
    destruct (schedule_rotate1 s2) as (s3 & -> & Hi3 & _ & Hq3 & _); [done|by simpl; rewrite He1|].
    exists s3. split; [done|]. split; [done|]. rewrite Hq3. simpl. by rewrite Hr1, Hcur1.
Qed.

Lemma timer_quantum_witness :
  exists s', times 3 intr_timer_handler sample_sched = Done s' /\ cur s' = 0x2000.
Proof.
  destruct (timer_quantum sample_sched (sample_task 1 2 TASK_RUNNING) 2) as [_ (s' & H1 & _ & H2)].
  - exact sample_inv.
  - reflexivity.
  - reflexivity.
  - reflexivity.
  - simpl. lia.
  - reflexivity.
  - exists s'. split; [exact H1|]. by injection H2.
Defined.

(** ** Pids *)
Lemma allocate_pid_spec s :
  bitmap_wf (pid_bitmap s) -> nbits (pid_bitmap s) = 1024 ->
  (exists i b', allocate_pid s = Done (i + 1, with_pids b' s) /\ bitmap_wf b' /\ nbits b' = 1024 /\
     0 <= i < 1024 /\ bit (pid_bitmap s) i = false /\
     (forall j, 0 <= j < i -> bit (pid_bitmap s) j = true) /\
     (forall j, 0 <= j -> bit b' j = (bool_decide (j = i) || bit (pid_bitmap s) j))) \/
  (allocate_pid s = Fault /\ forall i, 0 <= i < 1024 -> bit (pid_bitmap s) i = true).
Proof.
  intros Hwf Hn. unfold allocate_pid.
  destruct (take_spec (pid_bitmap s) Hwf) as [(i & b' & Ht & Hwf' & Hn' & Hi & Hf & Hlow & Hb)|[Ht Hall]];
    unfold bitmap_take in Ht; apply bind_done_inv in Ht as (r & Hr & Ht); rewrite Hr, bind_done.
  - destruct (Z.eqb_spec r (-1)); [done|]. apply bind_done_inv in Ht as (b1 & Hb1 & [= -> ->]).
    left. exists i, b'. rewrite Hn in *. rewrite u32_small, Hb1 by lia. simpl.
    unfold u16. rewrite Z.mod_small by lia. split_and!; try done; lia.
  - right. split; [|by rewrite <- Hn].
    destruct (Z.eqb_spec r (-1)) as [->|]; [|by apply bind_done_inv in Ht as (? & _ & ?)].
    unfold bitmap_set. rewrite ASSERT_true by done. simpl. unfold aget. rewrite decide_True by (vm_compute; discriminate).
    rewrite lookup_ge_None_2; [done|]. destruct Hwf as [Hlen _]. unfold nbits in Hn.
    change (u32 (-1) / 8) with 536870911. lia.
Qed.

Lemma filter_ne_elem (t x : Z) (l : list Z) : x ∈ filter (fun t' => t' <> t) l <-> x <> t /\ x ∈ l.
Proof. by rewrite list_elem_of_filter. Qed.

(** Removing a task that is neither the running one nor idle. *)
Lemma inv_remove s t p :
  sched_inv s -> t <> cur s -> t <> idle_thread s ->
  sched_inv (with_all (filter (fun t' => t' <> t)) (with_ready (filter (fun t' => t' <> t))
    (with_threads (<[t := p]>) s))).
Proof.
  intros [[Hnd Hnda Hmap Hcur Hsub Hiff Hrun Hca Hid Hids Hnn] [Hc Hcs]] Hn1 Hn2. set (s' := with_all _ _).
  assert (Hstat : forall t', t' <> t -> stat s' t' = stat s t').
  { intros t' Hne. unfold stat. simpl. by rewrite lookup_insert_ne. }
  constructor; [constructor|]; simpl; rewrite ?Hstat by congruence; rewrite ?filter_ne_elem; try done.
  - by apply NoDup_filter.
  - by apply NoDup_filter.
  - intros t'. rewrite filter_ne_elem. intros [Hne Ht']. rewrite lookup_insert_ne by done. by apply Hmap.
  - rewrite lookup_insert_ne by done. done.
  - intros t'. rewrite !filter_ne_elem. naive_solver.
  - intros t'. rewrite !filter_ne_elem. intros [Hne Ht']. rewrite Hstat by done. rewrite <- Hiff by done. naive_solver.
  - intros t'. rewrite filter_ne_elem. intros [Hne Ht']. rewrite Hstat by done. by apply Hrun.
  - naive_solver.
Qed.

(** A new READY task at the back of both lists. *)
Lemma inv_append s s' t p :
  sched_inv s -> t ∉ all s -> t <> 0 -> status p = TASK_READY ->
  ready s' = ready s ++ [t] -> all s' = all s ++ [t] -> threads s' = <[t := p]> (threads s) ->
  cur s' = cur s -> idle_thread s' = idle_thread s -> sched_inv s'.
Proof.
  intros [[Hnd Hnda Hmap Hcur Hsub Hiff Hrun Hca Hid Hids Hnn] [Hc Hcs]] Hnew Hnz Hp Er Ea Et Ec Ei.
  assert (Hnr : t ∉ ready s) by auto.
  assert (Hlk : forall t', t' ∈ all s -> threads s' !! t' = threads s !! t').
  { intros t' Ht'. rewrite Et, lookup_insert_ne; [done|]. intros ->. done. }
  assert (Hst : forall t', t' ∈ all s -> stat s' t' = stat s t') by (intros t' Ht'; unfold stat; by rewrite Hlk).
  assert (Hnew' : threads s' !! t = Some p) by (rewrite Et; by rewrite lookup_insert_eq).
  assert (Hsn : stat s' t = Some TASK_READY) by (unfold stat; rewrite Hnew'; simpl; by rewrite Hp).
  assert (Hmem : forall t' q, t' ∈ q ++ [t] <-> t' ∈ q \/ t' = t)
    by (intros; by rewrite elem_of_app, list_elem_of_singleton).
  assert (Hndapp : forall q, NoDup q -> t ∉ q -> NoDup (q ++ [t])).
  { intros q Hq Hnq. apply NoDup_app. split_and!; [done| |apply NoDup_singleton].
    intros t' Ht' ->%list_elem_of_singleton. done. }
  constructor; [constructor|]; rewrite ?Er, ?Ea, ?Ec, ?Ei, ?Hmem, ?Hst by done; auto.
  - intros t' [Ht'| ->]%Hmem; [rewrite Hlk by done; by apply Hmap|by rewrite Hnew'].
  - by rewrite Hlk.
  - intros t'. rewrite !Hmem. naive_solver.
  - intros t'. rewrite !Hmem. intros [Ht'| ->]; [|tauto]. rewrite Hst, <- Hiff by done. naive_solver.
  - intros t' [Ht'| ->]%Hmem; [rewrite Hst by done; by apply Hrun|by rewrite Hsn].
  - naive_solver.
Qed.

Lemma pids_append s s' t p b' i :
  pids_ok s -> t ∉ all s -> pid p = i + 1 -> 0 <= i < 1024 -> bit (pid_bitmap s) i = false ->
  all s' = all s ++ [t] -> threads s' = <[t := p]> (threads s) -> pid_bitmap s' = b' ->
  bitmap_wf b' -> nbits b' = 1024 ->
  (forall j, 0 <= j -> bit b' j = (bool_decide (j = i) || bit (pid_bitmap s) j)) -> pids_ok s'.
Proof.
  intros [Hwf Hn Hused Hinj] Hnew Hp Hi Hf Ea Et Eb Hwf' Hn' Hb.
  assert (Hlk : forall t', t' ∈ all s -> threads s' !! t' = threads s !! t').
  { intros t' Ht'. rewrite Et, lookup_insert_ne; [done|]. intros ->. done. }
  assert (Hnew' : threads s' !! t = Some p) by (rewrite Et; by rewrite lookup_insert_eq).
  assert (Hmem : forall t' q, t' ∈ q ++ [t] <-> t' ∈ q \/ t' = t)
    by (intros; by rewrite elem_of_app, list_elem_of_singleton).
  assert (Hfresh : forall t q, t ∈ all s -> threads s !! t = Some q -> pid q <> i + 1).
  { intros t' q Ht' Hq E. destruct (Hused t' q Ht' Hq) as [_ Hu]. rewrite E in Hu.
    replace (i + 1 - 1) with i in Hu by lia. congruence. }
  constructor; rewrite ?Eb, ?Ea; try done.
  - intros t' p' [Ht'| ->]%Hmem.
    + rewrite Hlk by done. intros Hp'. destruct (Hused t' p') as [Hr Hu]; [done..|]. split; [done|].
      rewrite Hb, Hu by lia. by rewrite orb_true_r.
    + rewrite Hnew'. intros [= <-]. split; [lia|]. rewrite Hb by lia. rewrite bool_decide_true by lia. done.
  - intros t1 t2 p1 p2 [H1| ->]%Hmem [H2| ->]%Hmem; rewrite ?Hnew', ?Hlk by done; try done.
    + by apply Hinj.
    + intros Hp1 [= <-] E. destruct (Hfresh t1 p1); [done..|lia].
    + intros [= <-] Hp2 E. destruct (Hfresh t2 p2); [done..|lia].
Qed.

(** [thread_start] on a fresh page: while a pid is free it succeeds, keeps the
    scheduler's invariant and the uniqueness of pids, gives the thread the least
    free pid, appends it to both lists, and leaves a kernel stack frame from which
    [switch_to] enters [kernel_thread(function, func_arg)]; when all 1024 pids are
    in use the unchecked -1 of [bitmap_scan] makes it write outside the bitmap. *)
Theorem thread_start_correct kernel_thread s thread nm prio fn arg :
  sched_inv s -> pids_ok s -> main_thread s ∈ all s -> thread ∉ all s -> 0 < thread ->
  thread + PG_SIZE < 2 ^ 32 -> Z.of_nat (length nm) < TASK_NAME_LEN ->
  match thread_start kernel_thread s thread nm prio fn arg with
  | Done s' => sched_inv s' /\ pids_ok s' /\ cur s' = cur s /\
      ready s' = ready s ++ [thread] /\ all s' = all s ++ [thread] /\
      exists p, threads s' !! thread = Some p /\
        (forall j, 0 <= j < pid p - 1 -> bit (pid_bitmap s) j = true) /\
        bit (pid_bitmap s) (pid p - 1) = false /\ ticks p = u8 prio /\ status p = TASK_READY /\
        self_kstack p = thread + PG_SIZE - 4 * (76 + 32) /\
        kthread_stack p = Some (mk_thread_stack 0 0 0 0 kernel_thread fn arg)
  | Fault => forall i, 0 <= i < 1024 -> bit (pid_bitmap s) i = true
  | _ => False
  end.
Proof.
  intros Hinv Hpids Hmain Hnew Hnz Hhi Hlen.
  pose proof Hpids as [Hwf Hn _ _].
  assert (Hnr : thread ∉ ready s) by (intros E; by apply (pre_ready _ (inv_pre _ Hinv)) in E).
  unfold thread_start, init_thread. assert_ok; [|by destruct (Z.eqb_spec thread 0); [lia|]].
  destruct (allocate_pid_spec s Hwf Hn) as [(i & b' & Ha & Hwf' & Hn' & Hi & Hf & Hlow & Hb)|[-> Hall]]; [|done].
  rewrite Ha, bind_done. destruct (Z.ltb_spec (Z.of_nat (length nm)) TASK_NAME_LEN); [|lia]. simpl.
  destruct (Z.eqb_spec thread (main_thread s)) as [->|_]; [done|].
  unfold thread_create. erewrite upd_task_done; [|simpl; by rewrite lookup_insert_eq]. simpl. unfold in_list.
  rewrite !bool_decide_false by done. simpl. rewrite insert_insert_eq. rewrite u32_small by (unfold PG_SIZE in *; lia).
  split_and!; try done.
  - eapply (inv_append s _ thread); [done|done|lia| |done|done|simpl; by rewrite insert_insert_eq|done|done]. done.
  - eapply (pids_append s _ thread); [done|done| |done|done|done|simpl; by rewrite insert_insert_eq|done..]. done.
  - eexists. split; [by rewrite lookup_insert_eq|]. simpl. replace (i + 1 - 1) with i by lia. split_and!; try done. lia.
Qed.

Lemma sample_pids : pids_ok sample_sched.
Proof.
  constructor.
  - split; vm_compute; done.
  - reflexivity.
  - intros t p Ht. apply sample_stat in Ht as [(-> & _)|[(-> & _)|(-> & _)]]; intros [= <-]; vm_compute; naive_solver.
  - intros t1 t2 p1 p2 H1 H2.
    apply sample_stat in H1 as [(-> & _)|[(-> & _)|(-> & _)]]; intros E1 E2; injection E1 as <-; revert E2;
    apply sample_stat in H2 as [(-> & _)|[(-> & _)|(-> & _)]]; intros [= <-]; simpl; try reflexivity; intros E; discriminate E.
Qed.

Lemma thread_start_correct_witness :
  exists s', thread_start 0xc0001500 sample_sched 0x4000 [97] 10 0xc0001600 7 = Done s' /\
    sched_inv s' /\ ready s' = [0x2000; 0x4000].
Proof.
  assert (H := thread_start_correct 0xc0001500 sample_sched 0x4000 [97] 10 0xc0001600 7).
  destruct (thread_start 0xc0001500 sample_sched 0x4000 [97] 10 0xc0001600 7) as [s'| | |] eqn:E.
  - exists s'. split; [reflexivity|].
    destruct H as (H1 & _ & _ & H2 & _); [exact sample_inv|exact sample_pids| | | | | |].
    + apply (bool_decide_unpack _). by vm_compute.
    + apply (bool_decide_unpack _). by vm_compute.
    + lia.
    + vm_compute. reflexivity.
    + vm_compute. reflexivity.
    + split; [exact H1|exact H2].
  - vm_compute in E. discriminate.
  - vm_compute in E. discriminate.
  - vm_compute in E. discriminate.
Defined.

Lemma release_pid_spec s p :
  bitmap_wf (pid_bitmap s) -> nbits (pid_bitmap s) = 1024 -> 1 <= p <= 1024 ->
  exists b', release_pid s p = Done (with_pids b' s) /\ bitmap_wf b' /\ nbits b' = 1024 /\
    forall j, 0 <= j -> bit b' j = if decide (j = p - 1) then false else bit (pid_bitmap s) j.
Proof.
  intros Hwf Hn Hp. unfold release_pid. rewrite u32_small by lia.
  destruct (bitmap_set_spec (pid_bitmap s) (p - 1) 0) as (b' & -> & Hwf' & Hn' & _ & Hb); [done|lia|by left|].
  exists b'. split_and!; try done; lia.
Qed.

Lemma filter_not_elem (t : Z) (l : list Z) : t ∉ l -> filter (fun t' => t' <> t) l = l.
Proof.
  induction l as [|x l IH]; intros H; [done|]. apply not_elem_of_cons in H as [Hx Hl].
  rewrite filter_cons_True by done. by rewrite IH.
Qed.

Lemma thread_exit_ok s t p :
  sched_inv s -> pids_ok s -> t ∈ all s -> t <> cur s -> t <> idle_thread s ->
  threads s !! t = Some p ->
  exists s', thread_exit s t false =
      Done ((if pgdir p =? 0 then [] else [pgdir p]) ++ (if t =? main_thread s then [] else [t]), s') /\
    sched_inv s' /\ pids_ok s' /\ intr_get_status (eflags s') = INTR_OFF /\ cur s' = cur s /\
    (t ∉ all s') /\ (t ∉ ready s') /\ (forall t', t' <> t -> (t' ∈ all s' <-> t' ∈ all s)) /\
    bit (pid_bitmap s') (pid p - 1) = false /\
    (forall j, 0 <= j -> j <> pid p - 1 -> bit (pid_bitmap s') j = bit (pid_bitmap s) j) /\
    idle_thread s' = idle_thread s /\ (forall t', t' <> t -> threads s' !! t' = threads s !! t').
Proof.
  intros Hinv [Hwf Hn Hused Hinj] Ht Hnc Hni Hp. destruct (Hused t p) as [Hr Hu]; [done..|].
  unfold thread_exit. rewrite (upd_task_done _ _ _ p), bind_done by done.
  unfold task_at. simpl. rewrite lookup_insert_eq, bind_done. simpl.
  set (s1 := if in_list t (ready s) then _ else _).
  assert (Hs1 : s1 = with_flags (snd (intr_disable (eflags s)))
    (with_ready (filter (fun t' => t' <> t)) (with_threads (<[t := set_status TASK_DIED p]>) s))).
  { unfold s1, in_list. case_bool_decide; [done|]. unfold with_ready. simpl. by rewrite filter_not_elem. }
  rewrite Hs1. simpl. unfold in_list. rewrite bool_decide_true by done. rewrite bind_done.
  set (s2 := with_all _ _). destruct (release_pid_spec s2 (pid p)) as (b' & -> & Hwf' & Hn' & Hb); [done..|].
  rewrite bind_done. exists (with_pids b' s2). split_and!.
  - repeat case_match; done.
  - apply (inv_ext (with_all (filter (fun t' => t' <> t)) (with_ready (filter (fun t' => t' <> t))
      (with_threads (<[t := set_status TASK_DIED p]>) s)))); try done. by apply inv_remove.
  - constructor; try done; simpl.
    + intros t' p' [Hne Ht']%filter_ne_elem. rewrite lookup_insert_ne by done. intros Hp'.
      destruct (Hused t' p') as [Hr' Hu']; [done..|]. split; [done|]. rewrite Hb by lia.
      destruct (decide (pid p' - 1 = pid p - 1)) as [E|]; [|done].
      destruct Hne. apply (Hinj t' t p' p); try done. lia.
    + intros t1 t2 p1 p2 [Hn1 H1]%filter_ne_elem [Hn2 H2]%filter_ne_elem.
      rewrite !lookup_insert_ne by done. by apply Hinj.
  - apply intr_disable_off.
  - done.
  - simpl. rewrite filter_ne_elem. tauto.
  - simpl. rewrite filter_ne_elem. tauto.
  - intros t' Hne. simpl. rewrite filter_ne_elem. tauto.
  - simpl. rewrite Hb by lia. by rewrite decide_True.
  - intros j Hj Hne. simpl. rewrite Hb by lia. by rewrite decide_False.
  - done.
  - intros t' Hne. simpl. by rewrite lookup_insert_ne.
Qed.

(** C5. [thread_exit] of a task that is not running and not idle: interrupts are
    off afterwards, the task is in neither list, its pid is free again and no other
    pid changes, the pages handed back are its page directory (for a process) and
    its PCB (unless it is the main thread's), and the invariants are kept. *)
Theorem thread_exit_reclaims s t p :
  sched_inv s -> pids_ok s -> t ∈ all s -> t <> cur s -> t <> idle_thread s ->
  threads s !! t = Some p ->
  exists s', thread_exit s t false =
      Done ((if pgdir p =? 0 then [] else [pgdir p]) ++ (if t =? main_thread s then [] else [t]), s') /\
    sched_inv s' /\ pids_ok s' /\ intr_get_status (eflags s') = INTR_OFF /\ cur s' = cur s /\
    (t ∉ all s') /\ (t ∉ ready s') /\ (forall t', t' <> t -> (t' ∈ all s' <-> t' ∈ all s)) /\
    bit (pid_bitmap s') (pid p - 1) = false /\
    (forall j, 0 <= j -> j <> pid p - 1 -> bit (pid_bitmap s') j = bit (pid_bitmap s) j).
Proof.
  intros Hinv Hpids Ht Hc Hi Hp. destruct (thread_exit_ok s t p) as (s' & H1 & H2 & H3 & H4 & H5 & H6 & H7 & H8 & H9 & H10 & _); [done..|].
  exists s'. done.
Qed.

Lemma thread_exit_reclaims_witness :
  exists s', thread_exit sample_sched 0x2000 false = Done ([0x2000], s') /\ sched_inv s'.
Proof.
  destruct (thread_exit_reclaims sample_sched 0x2000 (sample_task 2 5 TASK_READY)) as (s' & H1 & H2 & _).
  - exact sample_inv.
  - exact sample_pids.
  - apply (bool_decide_unpack _). by vm_compute.
  - vm_compute. discriminate.
  - vm_compute. discriminate.
  - reflexivity.
  - exists s'. split; [exact H1|exact H2].
Defined.
