(* ===== verification/Sync.v ===== *)
(** * Semaphores and locks (thread/sync.c)

    [sema_down] and [sema_up] run with interrupts off, so each of their passes is
    one atomic step on the scheduler and the semaphore; a pass that finds the value
    0 ends in [thread_block], and the next pass starts when the thread runs again.
    [lock_acquire] and [lock_release] run with interrupts on around them: every
    access to the lock's fields is a step of its own, between which the timer may
    preempt the thread. *)
From stdpp Require Import functions base numbers list option tactics gmap fin_maps.
From Stdlib Require Import ZArith Lia.
From S2P Require Import Prelude Bitmap Cpu Sched.
Import Intr.

(** ** Data *)
Record semaphore := mk_semaphore { value : Z; waiters : list Z }.
Record lock := mk_lock { holder : Z; sema : semaphore; holder_repeat_nr : Z }.

(** ** Operations *)
Definition sema_init (v : Z) : semaphore := mk_semaphore (u8 v) [].
Definition lock_init : lock := mk_lock 0 (sema_init 1) 0.

(** One pass of the loop of [sema_down]: [true] when the semaphore was taken. *)
Definition sema_down (s : sched) (psema : semaphore) : outcome (bool * sched * semaphore) :=
  let '(old_status, fl) := intr_disable (eflags s) in
  let s := with_flags fl s in
  if value psema =? 0 then
    ASSERT (negb (in_list (cur s) (waiters psema)));;
    (if in_list (cur s) (waiters psema) then Panic else Done ());;
    let psema := mk_semaphore (value psema) (waiters psema ++ [cur s]) in
    r ← thread_block s TASK_BLOCKED;
    Done (false, r.2, psema)
  else
    let psema := mk_semaphore (u8 (value psema - 1)) (waiters psema) in
    ASSERT (value psema =? 0);;
    Done (true, with_flags (snd (intr_set_status old_status fl)) s, psema).

Definition sema_up (s : sched) (psema : semaphore) : outcome (sched * semaphore) :=
  let '(old_status, fl) := intr_disable (eflags s) in
  let s := with_flags fl s in
  ASSERT (value psema =? 0);;
  r ← match waiters psema with
      | thread_blocked :: rest =>
          s ← thread_unblock s thread_blocked; Done (s, mk_semaphore (value psema) rest)
      | [] => Done (s, psema)
      end;
  let '(s, psema) := r in
  let psema := mk_semaphore (u8 (value psema + 1)) (waiters psema) in
  ASSERT (value psema =? 1);;
  Done (with_flags (snd (intr_set_status old_status fl)) s, psema).

(** ** The lock as a state machine

    Where a thread is in the code: outside; in [lock_acquire] before a pass of
    [sema_down]; after [sema_down]; after [holder = running_thread()]; inside the
    critical section with [n] acquisitions; in [lock_release] after
    [holder = NULL]; after [holder_repeat_nr = 0]. *)
Inductive phase :=
| Outside
| Downing
| Downed
| HolderSet
| Inside (n : Z)
| HolderCleared
| RepeatCleared.

Record lsys := mk_lsys { sch : sched; plock : lock; at_ : Z -> phase }.

(** What can happen next: the running thread calls [lock_acquire] or
    [lock_release] or goes on with the call it is in; the timer preempts it; it
    blocks for another reason, or a thread that does not wait for this lock is woken. *)
Inductive event :=
| Acquire | Release | Continue | Preempt | BlockElsewhere (st : task_status) | WakeElsewhere (t : Z).

Definition go (x : lsys) (p : phase) (l : lock) : lsys :=
  mk_lsys (sch x) l (<[cur (sch x) := p]> (at_ x)).

(** The test [holder != running_thread()] at the start of [lock_acquire]. *)
Definition lock_acquire_enter (x : lsys) : outcome lsys :=
  let l := plock x in
  if negb (holder l =? cur (sch x)) then Done (go x Downing l)
  else Done (go x (match at_ x (cur (sch x)) with Inside n => Inside (n + 1) | p => p end)
                  (mk_lock (holder l) (sema l) (u32 (holder_repeat_nr l + 1)))).

(** [lock_release] up to [holder = NULL], or all of it when the lock is held more than once. *)
Definition lock_release_enter (x : lsys) : outcome lsys :=
  let l := plock x in
  ASSERT (holder l =? cur (sch x));;
  if 1 <? holder_repeat_nr l then
    Done (go x (match at_ x (cur (sch x)) with Inside n => Inside (n - 1) | p => p end)
               (mk_lock (holder l) (sema l) (u32 (holder_repeat_nr l - 1))))
  else
    ASSERT (holder_repeat_nr l =? 1);;
    Done (go x HolderCleared (mk_lock 0 (sema l) (holder_repeat_nr l))).

Definition lock_continue (x : lsys) : outcome lsys :=
  let l := plock x in
  match at_ x (cur (sch x)) with
  | Downing =>
      r ← sema_down (sch x) (sema l);
      let '(taken, s, sm) := r in
      Done (mk_lsys s (mk_lock (holder l) sm (holder_repeat_nr l))
        (<[cur (sch x) := if taken : bool then Downed else Downing]> (at_ x)))
  | Downed => Done (go x HolderSet (mk_lock (cur (sch x)) (sema l) (holder_repeat_nr l)))
  | HolderSet =>
      ASSERT (holder_repeat_nr l =? 0);;
      Done (go x (Inside 1) (mk_lock (holder l) (sema l) 1))
  | HolderCleared => Done (go x RepeatCleared (mk_lock (holder l) (sema l) 0))
  | RepeatCleared =>
      r ← sema_up (sch x) (sema l);
      Done (mk_lsys r.1 (mk_lock (holder l) r.2 (holder_repeat_nr l)) (<[cur (sch x) := Outside]> (at_ x)))
  | _ => Done x
  end.

Definition lstep (x : lsys) (e : event) : outcome lsys :=
  match e with
  | Acquire => lock_acquire_enter x
  | Release => lock_release_enter x
  | Continue => lock_continue x
  | Preempt =>
      s ← schedule (with_flags (cli (eflags (sch x))) (sch x)); Done (mk_lsys s (plock x) (at_ x))
  | BlockElsewhere st => r ← thread_block (sch x) st; Done (mk_lsys r.2 (plock x) (at_ x))
  | WakeElsewhere t => s ← thread_unblock (sch x) t; Done (mk_lsys s (plock x) (at_ x))
  end.

(** How the lock is meant to be used: the idle thread does not use it, a thread
    acquires from outside or from inside the critical section (less than 2^32
    times), releases only from inside, and is not blocked elsewhere while it is in
    one of the calls' waiting phases. *)
Definition allowed (x : lsys) (e : event) : Prop :=
  let t := cur (sch x) in
  match e with
  | Acquire => t <> idle_thread (sch x) /\
      match at_ x t with Outside => True | Inside n => n + 1 < 2 ^ 32 | _ => False end
  | Release => exists n, at_ x t = Inside n
  | Continue => at_ x t <> Outside /\ forall n, at_ x t <> Inside n
  | Preempt => True
  | BlockElsewhere st => (st = TASK_BLOCKED \/ st = TASK_WAITING \/ st = TASK_HANGING) /\
      (t = idle_thread (sch x) -> st = TASK_BLOCKED) /\ at_ x t <> Downing
  | WakeElsewhere t' => t' ∈ all (sch x) /\ (t' ∉ waiters (sema (plock x))) /\
      (stat (sch x) t' = Some TASK_BLOCKED \/ stat (sch x) t' = Some TASK_WAITING \/
       stat (sch x) t' = Some TASK_HANGING)
  end.

(** The states the kernel can get to from a fresh lock. *)
Inductive reachable : lsys -> Prop :=
| reach_init s : sched_inv s -> reachable (mk_lsys s lock_init (fun _ => Outside))
| reach_step x e x' : reachable x -> allowed x e -> lstep x e = Done x' -> reachable x'.

(** ** Invariant *)
Definition owns (p : phase) : bool :=
  match p with Outside | Downing => false | _ => true end.

(** The lock's fields, by its owner's place in the code. *)
Definition lock_fields (l : lock) (at_ : Z -> phase) (o : option Z) : Prop :=
  match o with
  | None => value (sema l) = 1 /\ holder l = 0 /\ holder_repeat_nr l = 0
  | Some t => value (sema l) = 0 /\
      match at_ t with
      | Downed | RepeatCleared => holder l = 0 /\ holder_repeat_nr l = 0
      | HolderSet => holder l = t /\ holder_repeat_nr l = 0
      | Inside n => holder l = t /\ holder_repeat_nr l = n /\ 1 <= n < 2 ^ 32
      | HolderCleared => holder l = 0 /\ holder_repeat_nr l = 1
      | _ => False
      end
  end.

Record linv (x : lsys) : Prop := {
  li_sched : sched_inv (sch x);
  li_owner : exists o, lock_fields (plock x) (at_ x) o /\ (forall t, owns (at_ x t) = true <-> o = Some t);
  li_known : forall t, at_ x t <> Outside -> t ∈ all (sch x) /\ t <> idle_thread (sch x);
  li_nodup : NoDup (waiters (sema (plock x)));
  li_waiters : forall t, t ∈ waiters (sema (plock x)) -> at_ x t = Downing /\ stat (sch x) t = Some TASK_BLOCKED;
  li_runnable : forall t, at_ x t = Downing -> t ∉ waiters (sema (plock x)) ->
    t = cur (sch x) \/ t ∈ ready (sch x);
  li_woken : waiters (sema (plock x)) <> [] -> value (sema (plock x)) = 1 ->
    exists t, at_ x t = Downing /\ t ∉ waiters (sema (plock x))
}.

(** ** Lemmas *)
Lemma insert_at (f : Z -> phase) c p t : (<[c := p]> f) t = if decide (t = c) then p else f t.
Proof. case_decide; [subst; apply fn_lookup_insert|by apply fn_lookup_insert_ne]. Qed.

(** Only the scheduler moves. *)
Lemma linv_sched x s' :
  linv x -> sched_inv s' -> all s' = all (sch x) -> idle_thread s' = idle_thread (sch x) ->
  (forall t, t ∈ waiters (sema (plock x)) -> stat s' t = Some TASK_BLOCKED) ->
  (forall t, at_ x t = Downing -> t ∉ waiters (sema (plock x)) ->
     t = cur (sch x) \/ t ∈ ready (sch x) -> t = cur s' \/ t ∈ ready s') ->
  linv (mk_lsys s' (plock x) (at_ x)).
Proof.
  intros [Hs Ho Hk Hnd Hw Hr Hwk] Hs' Ha Hi Hb Hq. constructor; simpl; rewrite ?Ha, ?Hi; try done.
  - intros t Ht. split; [by apply Hw|by apply Hb].
  - auto.
Qed.

(** The running thread moves on inside the lock's code, the semaphore unchanged. *)
Lemma linv_go x p l o :
  linv x -> sema l = sema (plock x) -> at_ x (cur (sch x)) <> Downing -> cur (sch x) <> idle_thread (sch x) ->
  lock_fields l (<[cur (sch x) := p]> (at_ x)) o ->
  (forall t, owns ((<[cur (sch x) := p]> (at_ x)) t) = true <-> o = Some t) ->
  linv (go x p l).
Proof.
  intros [Hs Ho Hk Hnd Hw Hr Hwk] Hsm Hnd' Hni Hf Hown. destruct (inv_cur _ Hs) as [Hca _].
  assert (Hat : forall t, at_ x t = Downing -> (<[cur (sch x) := p]> (at_ x)) t = Downing).
  { intros t Ht. rewrite insert_at. case_decide; [by subst|done]. }
  constructor; simpl; rewrite ?Hsm; eauto.
  - intros t. rewrite insert_at. case_decide; [by subst|apply Hk].
  - intros t Ht. destruct (Hw t Ht). auto.
  - intros t. rewrite insert_at. case_decide; [subst; auto|apply Hr].
  - intros H1 H2. destruct (Hwk H1 H2) as (t & Ht & Hnw). eauto.
Qed.

Lemma owner_here x :
  linv x -> owns (at_ x (cur (sch x))) = true ->
  lock_fields (plock x) (at_ x) (Some (cur (sch x))) /\
  forall p t, owns p = true -> (owns ((<[cur (sch x) := p]> (at_ x)) t) = true <-> Some (cur (sch x)) = Some t).
Proof.
  intros [_ (o & Hf & Hown) _ _ _ _ _] Hc. pose proof (proj1 (Hown _) Hc) as ->. split; [done|].
  intros p t Hp. rewrite insert_at. case_decide; [by subst|]. apply Hown.
Qed.

Lemma not_idle x : linv x -> at_ x (cur (sch x)) <> Outside -> cur (sch x) <> idle_thread (sch x).
Proof. intros Hx Ho. by apply (li_known x Hx). Qed.

(** A step of the running thread that owns the lock. *)
Lemma linv_owner x p l :
  linv x -> owns (at_ x (cur (sch x))) = true -> owns p = true -> sema l = sema (plock x) ->
  (lock_fields (plock x) (at_ x) (Some (cur (sch x))) ->
   lock_fields l (<[cur (sch x) := p]> (at_ x)) (Some (cur (sch x)))) ->
  linv (go x p l).
Proof.
  intros Hx Hc Hp Hsm Hf. destruct (owner_here x Hx Hc) as [Hf0 Hown].
  apply (linv_go x p l (Some (cur (sch x)))); auto.
  - intros E. by rewrite E in Hc.
  - apply not_idle; [done|]. intros E. by rewrite E in Hc.
Qed.

Lemma acquire_ok x :
  linv x -> allowed x Acquire -> exists x', lstep x Acquire = Done x' /\ linv x'.
Proof.
  intros Hx [Hni Hp]. simpl. unfold lock_acquire_enter.
  destruct (at_ x (cur (sch x))) as [| | | |n| |] eqn:Hat; try done.
  - (* from outside: the holder is somebody else *)
    destruct (li_owner x Hx) as (o & Hf & Hown).
    assert (Hoc : o <> Some (cur (sch x))) by (intros E; apply Hown in E; by rewrite Hat in E).
    assert (Hnz : cur (sch x) <> 0).
    { intros E. destruct (li_sched x Hx) as [Hpre [Hca _]]. apply (pre_nonnull _ Hpre). by rewrite <- E. }
    assert (Hh : holder (plock x) <> cur (sch x)).
    { destruct o as [t|]; simpl in Hf; [|destruct Hf as (_ & -> & _); auto].
      destruct Hf as [_ Hf]. destruct (at_ x t); try done; destruct Hf as [-> _]; congruence. }
    rewrite (proj2 (Z.eqb_neq _ _) Hh). simpl. eexists. split; [done|].
    apply (linv_go x Downing (plock x) o); try done.
    + by rewrite Hat.
    + destruct o as [t|]; simpl in *; [|done]. rewrite insert_at.
      rewrite decide_False by congruence. done.
    + intros t. rewrite insert_at. case_decide; [|apply Hown]. subst. simpl. split; [done|congruence].
  - (* nested *)
    destruct (owner_here x Hx) as [Hf _]; [by rewrite Hat|]. simpl in Hf. rewrite Hat in Hf.
    destruct Hf as (Hv & Hh & Hr & Hn). rewrite Hh, Z.eqb_refl. simpl. eexists. split; [done|].
    apply linv_owner; try done; [by rewrite Hat|]. intros _. simpl. rewrite insert_at, decide_True by done.
    rewrite Hr, u32_small by lia. split_and!; try done; lia.
Qed.

Lemma release_ok x :
  linv x -> allowed x Release -> exists x', lstep x Release = Done x' /\ linv x'.
Proof.
  intros Hx [n Hat]. simpl. unfold lock_release_enter.
  assert (Hc : owns (at_ x (cur (sch x))) = true) by (by rewrite Hat).
  destruct (owner_here x Hx Hc) as [Hf _]. simpl in Hf. rewrite Hat in Hf. destruct Hf as (Hv & Hh & Hr & Hn).
  assert_ok; [|by rewrite Hh, Z.eqb_refl].
  rewrite Hr, Hat. destruct (Z.ltb_spec 1 n).
  - eexists. split; [done|]. apply linv_owner; try done. intros _. simpl. rewrite insert_at, decide_True by done.
    rewrite u32_small by lia. split_and!; try done; lia.
  - assert_ok; [|apply Z.eqb_eq; lia]. eexists. split; [done|].
    apply linv_owner; try done. intros _. simpl. rewrite insert_at, decide_True by done. split_and!; try done. lia.
Qed.

(** A waiter is off the processor and off the ready queue. *)
Lemma waiter_off x t :
  linv x -> t ∈ waiters (sema (plock x)) ->
  t <> cur (sch x) /\ (t ∉ ready (sch x)) /\ t ∈ all (sch x) /\ t <> idle_thread (sch x).
Proof.
  intros Hx Ht. destruct (li_waiters x Hx t Ht) as [Hat Hst].
  destruct (li_known x Hx t) as [Hta Hni]; [by rewrite Hat|].
  destruct (li_sched x Hx) as [Hpre [Hca Hcs]]. split_and!; try done.
  - intros ->. congruence.
  - rewrite (pre_iff _ Hpre) by done. congruence.
Qed.

Lemma preempt_ok x : linv x -> exists x', lstep x Preempt = Done x' /\ linv x'.
Proof.
  intros Hx. simpl. set (s0 := with_flags (cli (eflags (sch x))) (sch x)).
  assert (Hi0 : sched_inv s0) by (apply (inv_ext (sch x)); try done; apply Hx).
  destruct (schedule_spec s0) as (s' & n & rest & Hq & -> & Hi & Hc & Hr & Ha & _ & Hid & Hf);
    [apply Hi0|apply cli_off|]. rewrite inv_run_queue in Hq, Hf by done. simpl in Hq, Hf.
  eexists. split; [done|]. apply linv_sched; try done.
  - intros t Ht. destruct (waiter_off x t Hx Ht) as (H1 & H2 & _). unfold stat. rewrite Hf; [by apply (li_waiters x Hx)|].
    by rewrite not_elem_of_app, list_elem_of_singleton.
  - intros t _ _ Hrun. rewrite Hc, Hr. apply elem_of_cons. rewrite <- Hq.
    rewrite elem_of_app, list_elem_of_singleton. tauto.
Qed.

(** Blocking leaves the waiters blocked and the other runnable threads runnable. *)
Lemma block_frame s s' st :
  sched_inv s -> cur s' :: ready s' = match ready s with [] => [idle_thread s] | q => q end ->
  (forall t, t ∉ cur s' :: ready s' -> t <> cur s -> threads s' !! t = threads s !! t) ->
  (forall t, stat s t = Some st -> st <> TASK_READY -> t ∈ all s -> t <> cur s -> t <> idle_thread s ->
     stat s' t = Some st) /\
  (forall t, t ∈ ready s -> t = cur s' \/ t ∈ ready s').
Proof.
  intros Hinv Hq Hf. split.
  - intros t Hst Hne Hta Htc Hti. unfold stat. rewrite Hf; [done| |done]. rewrite Hq.
    assert (t ∉ ready s) by (rewrite (pre_iff _ (inv_pre _ Hinv)) by done; congruence).
    destruct (ready s); [by intros ?%list_elem_of_singleton|done].
  - intros t Ht. apply elem_of_cons. rewrite Hq. destruct (ready s); [by apply elem_of_nil in Ht|done].
Qed.

Lemma block_ok x st :
  linv x -> allowed x (BlockElsewhere st) -> exists x', lstep x (BlockElsewhere st) = Done x' /\ linv x'.
Proof.
  intros Hx (Hst & Hid & Hnd). simpl.
  destruct (block_spec (sch x) st) as (s' & -> & Hi & Ha & Hidle & _ & Hq & Hf & _); [apply Hx|done..|].
  destruct (block_frame (sch x) s' TASK_BLOCKED) as [Hb Hr]; [apply Hx|done..|].
  eexists. split; [done|]. apply linv_sched; try done.
  - intros t Ht. destruct (waiter_off x t Hx Ht) as (H1 & _ & H3 & H4). apply Hb; try done.
    by apply (li_waiters x Hx).
  - intros t Hat _ [->|Ht]; [done|auto].
Qed.

Lemma wake_ok x t :
  linv x -> allowed x (WakeElsewhere t) -> exists x', lstep x (WakeElsewhere t) = Done x' /\ linv x'.
Proof.
  intros Hx (Hta & Hnw & Hst). simpl.
  destruct (unblock_inv (sch x) t) as (s' & -> & Hi & _ & Hc & Hr & Ha & Hid & Hf); [apply Hx|done..|].
  eexists. split; [done|]. apply linv_sched; try done.
  - intros t' Ht'. unfold stat. rewrite Hf by (intros ->; done). by apply (li_waiters x Hx).
  - intros t' _ _. rewrite Hc, Hr, elem_of_cons. tauto.
Qed.

Lemma down_ok x :
  linv x -> at_ x (cur (sch x)) = Downing -> exists x', lock_continue x = Done x' /\ linv x'.
Proof.
  intros Hx Hat. unfold lock_continue. rewrite Hat. unfold sema_down.
  rewrite (surjective_pairing (intr_disable (eflags (sch x)))).
  assert (Hcw : cur (sch x) ∉ waiters (sema (plock x))) by (intros E; by apply (waiter_off x _ Hx) in E as [? _]).
  destruct (li_owner x Hx) as (o & Hf & Hown).
  assert (Hoc : o <> Some (cur (sch x))) by (intros E; apply Hown in E; by rewrite Hat in E).
  assert (Hni : cur (sch x) <> idle_thread (sch x)) by (apply not_idle; [done|by rewrite Hat]).
  set (s1 := with_flags _ (sch x)). assert (Hi1 : sched_inv s1) by (apply (inv_ext (sch x)); try done; apply Hx).
  destruct (Z.eqb_spec (value (sema (plock x))) 0) as [Hv|Hv].
  - (* the semaphore is taken: join the waiters and block *)
    assert_ok; [|unfold in_list; by rewrite bool_decide_false].
    unfold in_list at 1. rewrite bool_decide_false by done. rewrite bind_done.
    destruct (block_spec s1 TASK_BLOCKED) as (s' & -> & Hi & Ha & Hidle & _ & Hq & Hfr & Hbl); [done|auto|done|].
    destruct (block_frame s1 s' TASK_BLOCKED) as [Hb Hr]; [done..|]. simpl.
    eexists. split; [done|].
    assert (Hsame : forall t, (<[cur (sch x) := Downing]> (at_ x)) t = at_ x t).
    { intros t. rewrite insert_at. case_decide; [by subst|done]. }
    constructor; simpl.
    + done.
    + exists o. split; [|intros t; by rewrite Hsame]. destruct o as [t|]; simpl in *; [by rewrite Hsame|done].
    + intros t. rewrite Hsame, Ha, Hidle. apply (li_known x Hx).
    + apply NoDup_app. split_and!; [apply Hx| |apply NoDup_singleton]. intros t Ht ->%list_elem_of_singleton. done.
    + intros t. rewrite Hsame, elem_of_app, list_elem_of_singleton. intros [Ht| ->]; [|auto].
      destruct (waiter_off x t Hx Ht) as (H1 & _ & H3 & H4). destruct (li_waiters x Hx t Ht). auto.
    + intros t. rewrite Hsame, not_elem_of_app, list_elem_of_singleton. intros Hd [Hnw Hnc].
      apply Hr. by destruct (li_runnable x Hx t Hd Hnw).
    + lia.
  - (* free: take it *)
    assert (Ho : o = None /\ value (sema (plock x)) = 1).
    { destruct o as [t|]; simpl in Hf; [by destruct Hf|]. tauto. }
    destruct Ho as [-> Hv1]. simpl. rewrite Hv1. simpl. eexists. split; [done|]. constructor; simpl.
    + by apply (inv_ext (sch x)); try done; apply Hx.
    + exists (Some (cur (sch x))). simpl. rewrite insert_at, decide_True by done. simpl in Hf. split; [tauto|].
      intros t. rewrite insert_at. case_decide; [by subst|]. rewrite Hown. split; congruence.
    + intros t. rewrite insert_at. case_decide; [|apply (li_known x Hx)]. subst.
      intros _. apply (li_known x Hx). by rewrite Hat.
    + apply Hx.
    + intros t Ht. rewrite insert_at. rewrite decide_False by (by intros ->). by apply (li_waiters x Hx).
    + intros t. rewrite insert_at. case_decide; [done|]. apply (li_runnable x Hx).
    + by vm_compute.
Qed.

Lemma up_ok x :
  linv x -> at_ x (cur (sch x)) = RepeatCleared -> exists x', lock_continue x = Done x' /\ linv x'.
Proof.
  intros Hx Hat. unfold lock_continue. rewrite Hat. unfold sema_up.
  rewrite (surjective_pairing (intr_disable (eflags (sch x)))).
  destruct (owner_here x Hx) as [Hf _]; [by rewrite Hat|]. simpl in Hf. rewrite Hat in Hf. destruct Hf as (Hv & Hh & Hrep).
  assert_ok; [|by rewrite Hv].
  set (s1 := with_flags _ (sch x)). assert (Hi1 : sched_inv s1) by (apply (inv_ext (sch x)); try done; apply Hx).
  assert (Hfree : forall v w, v = 1 -> exists o,
    lock_fields (mk_lock (holder (plock x)) (mk_semaphore v w) (holder_repeat_nr (plock x)))
      (<[cur (sch x) := Outside]> (at_ x)) o /\
    forall t, owns ((<[cur (sch x) := Outside]> (at_ x)) t) = true <-> o = Some t).
  { intros v w ->. exists None. split; [done|]. intros t. rewrite insert_at. case_decide; [done|].
    destruct (li_owner x Hx) as (o & _ & Hown). rewrite Hown.
    pose proof (proj1 (Hown (cur (sch x)))) as Ho. rewrite Hat in Ho. rewrite Ho by done. split; congruence. }
  assert (Hdn : forall t, (<[cur (sch x) := Outside]> (at_ x)) t = Downing <-> at_ x t = Downing).
  { intros t. rewrite insert_at. case_decide; [subst; rewrite Hat; done|done]. }
  assert (Hkn : forall t, (<[cur (sch x) := Outside]> (at_ x)) t <> Outside -> t ∈ all (sch x) /\ t <> idle_thread (sch x)).
  { intros t. rewrite insert_at. case_decide; [done|]. apply (li_known x Hx). }
  destruct (waiters (sema (plock x))) as [|w rest] eqn:Hw; rewrite ?bind_done; simpl; rewrite ?Hv.
  - eexists. split; [done|]. constructor; simpl; rewrite ?Hw; auto.
    + by apply (inv_ext (sch x)); try done; apply Hx.
    + by apply NoDup_nil.
    + intros t Ht. by apply elem_of_nil in Ht.
    + intros t Hd _. apply Hdn in Hd. apply (li_runnable x Hx); [done|]. rewrite Hw. apply not_elem_of_nil.
    + done.
  - pose proof (li_nodup x Hx) as Hnd. rewrite Hw in Hnd. apply NoDup_cons in Hnd as [Hwr Hnd].
    assert (Hwin : w ∈ waiters (sema (plock x))) by (rewrite Hw; by left).
    destruct (waiter_off x w Hx Hwin) as (Hwc & _ & Hwa & _). destruct (li_waiters x Hx w Hwin) as [Hwd Hwb].
    destruct (unblock_inv s1 w) as (s' & -> & Hi & _ & Hc & Hr & Ha & Hid & Hfr); [done|done|auto|].
    simpl. eexists. split; [done|]. constructor; simpl; rewrite ?Ha, ?Hid; auto.
    + by apply (inv_ext s').
    + intros t Ht. assert (Htw : t ∈ waiters (sema (plock x))) by (rewrite Hw; by right).
      destruct (li_waiters x Hx t Htw). split; [by apply Hdn|].
      unfold stat. simpl. rewrite Hfr by (by intros ->). done.
    + intros t Hd Hnr. apply Hdn in Hd. rewrite Hc, Hr, elem_of_cons. destruct (decide (t = w)); [auto|].
      destruct (li_runnable x Hx t Hd) as [|]; [by rewrite Hw; apply not_elem_of_cons| |]; auto.
    + intros _ _. exists w. split; [by apply Hdn|done].
Qed.

Lemma continue_ok x :
  linv x -> allowed x Continue -> exists x', lstep x Continue = Done x' /\ linv x'.
Proof.
  intros Hx [Hno Hni]. change (lstep x Continue) with (lock_continue x).
  destruct (at_ x (cur (sch x))) as [| | | |n| |] eqn:Hat; try done.
  - by apply down_ok.
  - unfold lock_continue. rewrite Hat. eexists. split; [done|]. apply linv_owner; try done; [by rewrite Hat|].
    intros Hf. simpl in *. rewrite Hat in Hf. rewrite insert_at, decide_True by done. tauto.
  - unfold lock_continue. rewrite Hat. destruct (owner_here x Hx) as [Hf _]; [by rewrite Hat|].
    simpl in Hf. rewrite Hat in Hf. destruct Hf as (Hv & Hh & Hr). assert_ok; [|by rewrite Hr].
    eexists. split; [done|]. apply linv_owner; try done; [by rewrite Hat|].
    intros _. simpl. rewrite insert_at, decide_True by done. split_and!; try done; lia.
  - by destruct (Hni n).
  - unfold lock_continue. rewrite Hat. eexists. split; [done|]. apply linv_owner; try done; [by rewrite Hat|].
    intros Hf. simpl in *. rewrite Hat in Hf. rewrite insert_at, decide_True by done. tauto.
  - by apply up_ok.
Qed.

Lemma step_ok x e : linv x -> allowed x e -> exists x', lstep x e = Done x' /\ linv x'.
Proof.
  intros Hx Ha. destruct e as [| | | |st|t].
  - by apply acquire_ok.
  - by apply release_ok.
  - by apply continue_ok.
  - by apply preempt_ok.
  - by apply block_ok.
  - by apply wake_ok.
Qed.

Lemma reachable_linv x : reachable x -> linv x.
Proof.
  induction 1 as [s Hs|x e x' _ IH Ha Hst].
  - constructor; simpl; try done.
    + exists None. done.
    + apply NoDup_nil_2.
    + intros t Ht. by apply elem_of_nil in Ht.
  - destruct (step_ok x e IH Ha) as (x'' & H1 & H2). rewrite Hst in H1. by injection H1 as ->.
Qed.

(** ** Properties *)

(** C1. Mutual exclusion: in every state the kernel can get to, whatever the
    interleaving of calls, preemptions, blockings and wake-ups, at most one thread is
    past its [sema_down] and before its [sema_up]; a thread in the critical section
    is the lock's holder, the repetition count is its number of acquisitions, and the
    semaphore's value is 0. *)
Theorem lock_mutual_exclusion x t1 t2 :
  reachable x -> owns (at_ x t1) = true -> owns (at_ x t2) = true ->
  t1 = t2 /\ value (sema (plock x)) = 0 /\
  forall n, at_ x t1 = Inside n -> holder (plock x) = t1 /\ holder_repeat_nr (plock x) = n.
Proof.
  intros Hx%reachable_linv H1 H2. destruct (li_owner x Hx) as (o & Hf & Hown).
  apply Hown in H1 as ->. apply Hown in H2 as [= ->]. simpl in Hf. destruct Hf as [Hv Hf].
  split_and!; try done. intros n Hn. rewrite Hn in Hf. tauto.
Qed.

(** Every ASSERT and PANIC of [sema_down], [sema_up], [lock_acquire] and
    [lock_release], and those of the scheduler below them, holds in every reachable
    state: no allowed event makes the kernel panic or fault. *)
Theorem lock_never_panics x e :
  reachable x -> allowed x e -> exists x', lstep x e = Done x' /\ reachable x'.
Proof.
  intros Hr Ha. destruct (step_ok x e (reachable_linv x Hr) Ha) as (x' & Hst & _).
  exists x'. split; [done|]. by eapply reach_step.
Qed.

(** C2. No wake-up is lost: in every reachable state a thread queued on the lock is
    blocked inside [sema_down], every other thread inside [sema_down] is running or
    in the ready queue, and while threads are queued either the lock is taken or one
    of those runnable threads is about to try again. *)
Theorem lock_no_lost_wakeup x :
  reachable x ->
  (forall t, t ∈ waiters (sema (plock x)) -> at_ x t = Downing /\ stat (sch x) t = Some TASK_BLOCKED) /\
  (forall t, at_ x t = Downing -> t ∉ waiters (sema (plock x)) -> t = cur (sch x) \/ t ∈ ready (sch x)) /\
  (waiters (sema (plock x)) <> [] ->
    (exists t, owns (at_ x t) = true) \/
    (exists t, at_ x t = Downing /\ (t ∉ waiters (sema (plock x))) /\ (t = cur (sch x) \/ t ∈ ready (sch x)))).
Proof.
  intros Hx%reachable_linv. split; [apply (li_waiters x Hx)|]. split; [apply (li_runnable x Hx)|]. intros Hne.
  destruct (li_owner x Hx) as ([t|] & Hf & Hown).
  - left. exists t. by apply Hown.
  - right. destruct Hf as [Hv _]. destruct (li_woken x Hx Hne Hv) as (t & Hd & Hnw).
    exists t. split; [done|]. split; [done|]. by apply (li_runnable x Hx).
Qed.

(** Two threads contend: main takes the lock and is preempted, the worker blocks on it. *)
Fixpoint run (x : lsys) (es : list event) : outcome lsys :=
  match es with [] => Done x | e :: es => x ← lstep x e; run x es end.

Definition sample_lsys : lsys := mk_lsys sample_sched lock_init (fun _ => Outside).
Definition after (es : list event) : lsys := match run sample_lsys es with Done x => x | _ => sample_lsys end.
Definition contend : list event := [Acquire; Continue; Continue; Continue; Preempt; Acquire; Continue].

Lemma run_snoc es e x : run sample_lsys es = Done x -> run sample_lsys (es ++ [e]) = lstep x e.
Proof.
  generalize sample_lsys. induction es as [|e' es IH]; intros x0; simpl.
  - intros [= ->]. by destruct (lstep x e).
  - intros (x1 & -> & H)%bind_done_inv. simpl. by apply IH.
Qed.

Lemma after_snoc es e :
  (exists x, run sample_lsys es = Done x /\ reachable x) -> allowed (after es) e ->
  exists x, run sample_lsys (es ++ [e]) = Done x /\ reachable x.
Proof.
  intros (x & Hr & Hx) Ha. unfold after in Ha. rewrite Hr in Ha.
  destruct (step_ok x e (reachable_linv x Hx) Ha) as (x' & Hs & _).
  exists x'. rewrite (run_snoc es e x) by done. split; [done|]. by eapply reach_step.
Qed.

Lemma contend_reachable : reachable (after contend).
Proof.
  enough (exists x, run sample_lsys contend = Done x /\ reachable x) as (x & Hr & Hx)
    by (unfold after; by rewrite Hr).
  apply (after_snoc [Acquire; Continue; Continue; Continue; Preempt; Acquire]).
  2: { vm_compute. split; [discriminate|intros; discriminate]. }
  apply (after_snoc [Acquire; Continue; Continue; Continue; Preempt]).
  2: { vm_compute. split; [discriminate|exact I]. }
  apply (after_snoc [Acquire; Continue; Continue; Continue]); [|exact I].
  apply (after_snoc [Acquire; Continue; Continue]).
  2: { vm_compute. split; [discriminate|intros; discriminate]. }
  apply (after_snoc [Acquire; Continue]).
  2: { vm_compute. split; [discriminate|intros; discriminate]. }
  apply (after_snoc [Acquire]).
  2: { vm_compute. split; [discriminate|intros; discriminate]. }
  apply (after_snoc []).
  2: { vm_compute. split; [discriminate|exact I]. }
  exists sample_lsys. split; [done|]. apply reach_init. exact sample_inv.
Qed.

Lemma lock_mutual_exclusion_witness :
  at_ (after contend) 0x1000 = Inside 1 /\ holder (plock (after contend)) = 0x1000.
Proof.
  split; [vm_compute; reflexivity|].
  destruct (lock_mutual_exclusion (after contend) 0x1000 0x1000) as (_ & _ & H).
  - exact contend_reachable.
  - vm_compute. reflexivity.
  - vm_compute. reflexivity.
  - apply (H 1). vm_compute. reflexivity.
Defined.

Lemma lock_never_panics_witness :
  exists x', lstep (after contend) Preempt = Done x' /\ reachable x'.
Proof. apply (lock_never_panics (after contend) Preempt); [exact contend_reachable|exact I]. Defined.

Lemma lock_no_lost_wakeup_witness :
  waiters (sema (plock (after contend))) = [0x2000] /\ stat (sch (after contend)) 0x2000 = Some TASK_BLOCKED.
Proof.
  split; [vm_compute; reflexivity|].
  destruct (lock_no_lost_wakeup (after contend)) as [H _].
  - exact contend_reachable.
  - destruct (H 0x2000) as [_ H2]; [|exact H2]. apply (bool_decide_unpack _). vm_compute. exact I.
Defined.
