(* ===== verification/Ioqueue.v ===== *)
(** * The ring buffer and pipes (device/ioqueue.c, shell/pipe.c)

    A queue of at most 2047 bytes in a buffer of 2048, with one producer and one
    consumer that sleep on it. All operations require interrupts off, so a call runs
    without preemption until it returns or blocks; a call that has to wait returns
    where it blocked, and [ioq_resume] followed by the call again is what the thread
    does once it is woken. *)
From stdpp Require Import base numbers list option tactics gmap fin_maps.
From Stdlib Require Import ZArith Lia.
From S2P Require Import Prelude Bitmap Cpu Sched Sync.
Import Intr.

(** ** Data *)
Definition bufsize : Z := 2048.

Record ioqueue := mk_ioqueue {
  ioq_lock : lock;
  producer : Z;
  consumer : Z;
  buf : list Z;
  head : Z;
  tail : Z
}.

(** A call of the queue's operations: it is done, or it waits for the queue's lock,
    or for the other side. *)
Inductive call (A : Type) := Ret (a : A) | WaitLock | WaitSide.
Arguments Ret {A} a.
Arguments WaitLock {A}.
Arguments WaitSide {A}.

(** ** Operations *)

(** [lock_acquire] and [lock_release] with interrupts off, where nothing can come
    between their statements; [false] when the thread blocked in [sema_down]. *)
Definition lock_acquire_off (s : sched) (l : lock) : outcome (bool * sched * lock) :=
  if negb (holder l =? cur s) then
    r ← sema_down s (sema l);
    let '(taken, s', sm) := r in
    if taken : bool then
      ASSERT (holder_repeat_nr l =? 0);;
      Done (true, s', mk_lock (cur s) sm 1)
    else Done (false, s', mk_lock (holder l) sm (holder_repeat_nr l))
  else Done (true, s, mk_lock (holder l) (sema l) (u32 (holder_repeat_nr l + 1))).

Definition lock_release_off (s : sched) (l : lock) : outcome (sched * lock) :=
  ASSERT (holder l =? cur s);;
  if 1 <? holder_repeat_nr l then
    Done (s, mk_lock (holder l) (sema l) (u32 (holder_repeat_nr l - 1)))
  else
    ASSERT (holder_repeat_nr l =? 1);;
    r ← sema_up s (sema l);
    Done (r.1, mk_lock 0 r.2 0).

(** The page the queue lives in is zeroed by [get_kernel_pages]. *)
Definition ioqueue_init (old : ioqueue) : ioqueue :=
  mk_ioqueue lock_init 0 0 (buf old) 0 0.

Definition next_pos (pos : Z) : Z := (pos + 1) mod bufsize.

Definition ioq_full (s : sched) (q : ioqueue) : outcome bool :=
  ASSERT (bool_decide (intr_get_status (eflags s) = INTR_OFF));;
  Done (next_pos (head q) =? tail q).

Definition ioq_empty (s : sched) (q : ioqueue) : outcome bool :=
  ASSERT (bool_decide (intr_get_status (eflags s) = INTR_OFF));;
  Done (head q =? tail q).

(** Both return the new contents of the pointer they were given. *)
Definition ioq_wait (s : sched) (waiter : Z) : outcome (sched * Z) :=
  ASSERT (waiter =? 0);;
  r ← thread_block s TASK_BLOCKED;
  Done (r.2, cur s).

Definition wakeup (s : sched) (waiter : Z) : outcome (sched * Z) :=
  ASSERT (negb (waiter =? 0));;
  s ← thread_unblock s waiter;
  Done (s, 0).

Definition ioq_getchar (s : sched) (q : ioqueue) : outcome (call Z * sched * ioqueue) :=
  ASSERT (bool_decide (intr_get_status (eflags s) = INTR_OFF));;
  e ← ioq_empty s q;
  if e : bool then
    r ← lock_acquire_off s (ioq_lock q);
    let '(got, s, l) := r in
    if got : bool then
      w ← ioq_wait s (consumer q);
      Done (WaitSide, w.1, mk_ioqueue l (producer q) w.2 (buf q) (head q) (tail q))
    else Done (WaitLock, s, mk_ioqueue l (producer q) (consumer q) (buf q) (head q) (tail q))
  else
    byte ← aget (buf q) (tail q);
    let tail' := next_pos (tail q) in
    w ← (if negb (producer q =? 0) then wakeup s (producer q) else Done (s, producer q));
    Done (Ret byte, w.1, mk_ioqueue (ioq_lock q) w.2 (consumer q) (buf q) (head q) tail').

Definition ioq_putchar (s : sched) (q : ioqueue) (byte : Z) : outcome (call unit * sched * ioqueue) :=
  ASSERT (bool_decide (intr_get_status (eflags s) = INTR_OFF));;
  f ← ioq_full s q;
  if f : bool then
    r ← lock_acquire_off s (ioq_lock q);
    let '(got, s, l) := r in
    if got : bool then
      w ← ioq_wait s (producer q);
      Done (WaitSide, w.1, mk_ioqueue l w.2 (consumer q) (buf q) (head q) (tail q))
    else Done (WaitLock, s, mk_ioqueue l (producer q) (consumer q) (buf q) (head q) (tail q))
  else
    b' ← aset (buf q) (head q) byte;
    let head' := next_pos (head q) in
    w ← (if negb (consumer q =? 0) then wakeup s (consumer q) else Done (s, consumer q));
    Done (Ret (), w.1, mk_ioqueue (ioq_lock q) (producer q) w.2 b' head' (tail q)).

(** What a woken thread does before it tests the queue again. *)
Definition ioq_resume (s : sched) (q : ioqueue) : outcome (sched * ioqueue) :=
  r ← lock_release_off s (ioq_lock q);
  Done (r.1, mk_ioqueue r.2 (producer q) (consumer q) (buf q) (head q) (tail q)).

Definition ioq_length (q : ioqueue) : Z :=
  if tail q <=? head q then u32 (head q - tail q) else u32 (bufsize - (tail q - head q)).

(** The loop of [pipe_read]: the bytes read so far, and where it stopped. *)
Fixpoint getchars (n : nat) (s : sched) (q : ioqueue) : outcome (list Z * call unit * sched * ioqueue) :=
  match n with
  | O => Done ([], Ret (), s, q)
  | S n =>
      r ← ioq_getchar s q;
      let '(c, s, q) := r in
      match c with
      | Ret byte => r ← getchars n s q; let '(bs, c, s, q) := r in Done (byte :: bs, c, s, q)
      | WaitLock => Done ([], WaitLock, s, q)
      | WaitSide => Done ([], WaitSide, s, q)
      end
  end.

(** The loop of [pipe_write]. *)
Fixpoint putchars (bytes : list Z) (s : sched) (q : ioqueue) : outcome (call unit * sched * ioqueue) :=
  match bytes with
  | [] => Done (Ret (), s, q)
  | b :: bs =>
      r ← ioq_putchar s q b;
      let '(c, s, q) := r in
      match c with
      | Ret _ => putchars bs s q
      | c => Done (c, s, q)
      end
  end.

(** [pipe_read] and [pipe_write] on the queue the descriptor leads to; the result
    carries the number of bytes when the call returns. *)
Definition pipe_read (s : sched) (q : ioqueue) (count : Z) : outcome (list Z * call Z * sched * ioqueue) :=
  let ioq_len := ioq_length q in
  let size := if count <? ioq_len then count else ioq_len in
  r ← getchars (Z.to_nat size) s q;
  let '(bs, c, s, q) := r in
  Done (bs, match c with Ret _ => Ret size | WaitLock => WaitLock | WaitSide => WaitSide end, s, q).

Definition pipe_write (s : sched) (q : ioqueue) (bytes : list Z) : outcome (call Z * sched * ioqueue) :=
  let count := Z.of_nat (length bytes) in
  let ioq_left := u32 (bufsize - ioq_length q) in
  let size := if count <? ioq_left then count else ioq_left in
  r ← putchars (take (Z.to_nat size) bytes) s q;
  let '(c, s, q) := r in
  Done (match c with Ret _ => Ret size | WaitLock => WaitLock | WaitSide => WaitSide end, s, q).

(** ** Specification *)
Record ioq_wf (q : ioqueue) : Prop := {
  wf_buf : Z.of_nat (length (buf q)) = bufsize;
  wf_head : 0 <= head q < bufsize;
  wf_tail : 0 <= tail q < bufsize
}.

Definition ioq_len (q : ioqueue) : Z := (head q - tail q) mod bufsize.
Definition ring (q : ioqueue) (i : Z) : Z := default 0 (buf q !! Z.to_nat ((tail q + i) mod bufsize)).

(** The queued bytes, oldest first. *)
Definition contents (q : ioqueue) : list Z := ring q <$> seqZ 0 (ioq_len q).

(** The other side sleeps on the queue, or not. *)
Definition sleeper_ok (s : sched) (w : Z) : Prop :=
  w = 0 \/ w ∈ all s /\ stat s w = Some TASK_BLOCKED.

Definition off (s : sched) : Prop := intr_get_status (eflags s) = INTR_OFF.

(** ** Lemmas *)
Lemma length_contents q : Z.of_nat (length (contents q)) = ioq_len q.
Proof.
  unfold contents. rewrite length_fmap, length_seqZ. unfold ioq_len, bufsize. pose proof (Z.mod_pos_bound (head q - tail q) 2048). lia.
Qed.

Lemma ioq_length_len q : ioq_wf q -> ioq_length q = ioq_len q.
Proof.
  intros [_ Hh Ht]. unfold ioq_length, ioq_len, bufsize in *.
  destruct (Z.leb_spec (tail q) (head q)); rewrite u32_small by lia.
  - rewrite Z.mod_small; lia.
  - rewrite <- (Z.mod_unique (head q - tail q) 2048 (-1) (2048 - (tail q - head q))); lia.
Qed.

Lemma next_pos_range p : 0 <= next_pos p < bufsize.
Proof. apply Z.mod_pos_bound. done. Qed.

Lemma full_len q : ioq_wf q -> (next_pos (head q) =? tail q) = bool_decide (ioq_len q = bufsize - 1).
Proof.
  intros [_ Hh Ht]. unfold next_pos, ioq_len, bufsize in *.
  destruct (Z.eqb_spec ((head q + 1) mod 2048) (tail q)); case_bool_decide; try done; zdiv.
Qed.

Lemma empty_len q : ioq_wf q -> (head q =? tail q) = bool_decide (ioq_len q = 0).
Proof.
  intros [_ Hh Ht]. unfold ioq_len, bufsize in *.
  destruct (Z.eqb_spec (head q) (tail q)); case_bool_decide; try done; zdiv.
Qed.

Lemma contents_get q l p c :
  ioq_wf q -> ioq_len q <> 0 ->
  exists b, aget (buf q) (tail q) = Done b /\
    contents q = b :: contents (mk_ioqueue l p c (buf q) (head q) (next_pos (tail q))).
Proof.
  intros Hwf Hne. pose proof Hwf as [Hb Hh Ht].
  destruct (aget_in (buf q) (tail q)) as (b & Hl & Hg); [lia|]. exists b. split; [done|].
  set (q' := mk_ioqueue _ _ _ _ _ _).
  assert (Hlen : ioq_len q' = ioq_len q - 1).
  { unfold ioq_len, q', next_pos, bufsize in *. simpl. zdiv. }
  pose proof (Z.mod_pos_bound (head q - tail q) bufsize).
  unfold contents. rewrite Hlen. rewrite (seqZ_cons 0 (ioq_len q)) by (unfold ioq_len, bufsize in *; lia).
  rewrite fmap_cons. f_equal.
  - unfold ring. rewrite Z.add_0_r, Z.mod_small by done. by rewrite Hl.
  - replace (Z.succ 0) with (1 + 0) by lia. rewrite <- (fmap_add_seqZ 1 0), <- list_fmap_compose.
    rewrite Z.sub_1_r. apply list_fmap_ext. intros i x _. simpl. unfold ring. simpl. do 3 f_equal.
    unfold next_pos. rewrite Zplus_mod_idemp_l. f_equal. lia.
Qed.

Lemma contents_put q l p c b :
  ioq_wf q -> ioq_len q <> bufsize - 1 ->
  exists b', aset (buf q) (head q) b = Done b' /\ Z.of_nat (length b') = bufsize /\
    contents (mk_ioqueue l p c b' (next_pos (head q)) (tail q)) = contents q ++ [b].
Proof.
  intros Hwf Hne. pose proof Hwf as [Hb Hh Ht].
  eexists. split; [apply aset_in; lia|]. split; [by rewrite length_insert|].
  set (q' := mk_ioqueue _ _ _ _ _ _). pose proof (Z.mod_pos_bound (head q - tail q) bufsize) as Hm.
  assert (Hlen : ioq_len q' = ioq_len q + 1).
  { unfold ioq_len, q', next_pos, bufsize in *. simpl. zdiv. }
  unfold contents. rewrite Hlen, seqZ_app, fmap_app by (unfold ioq_len, bufsize in *; lia).
  f_equal.
  - apply list_fmap_ext. intros i x Hx. apply lookup_seqZ in Hx as [-> Hi]. unfold ring. simpl.
    rewrite list_lookup_insert_ne; [done|]. intros E. unfold ioq_len, bufsize in *.
    rewrite Z.add_0_l in E.
    assert (head q = (tail q + Z.of_nat i) mod 2048) by (pose proof (Z.mod_pos_bound (tail q + Z.of_nat i) 2048); lia).
    zdiv.
  - simpl. f_equal. unfold ring. simpl. replace ((tail q + _) mod bufsize) with (head q).
    + by rewrite list_lookup_insert_eq by lia.
    + unfold ioq_len, bufsize in *. zdiv.
Qed.

Lemma length_wf q l p c b' h t :
  Z.of_nat (length b') = bufsize -> 0 <= h < bufsize -> 0 <= t < bufsize -> ioq_wf q -> ioq_wf (mk_ioqueue l p c b' h t).
Proof. by constructor. Qed.

(** Waking the side that sleeps, if any. *)
Lemma wake_spec s w :
  sched_inv s -> sleeper_ok s w ->
  exists s', (if negb (w =? 0) then wakeup s w else Done (s, w)) = Done (s', 0) /\ sched_inv s' /\
    cur s' = cur s /\ eflags s' = eflags s /\ all s' = all s /\
    ready s' = (if w =? 0 then [] else [w]) ++ ready s /\ idle_thread s' = idle_thread s.
Proof.
  intros Hinv [->|[Hw Hst]]; [by exists s|]. destruct (Z.eqb_spec w 0) as [->|Hnz]; simpl.
  - destruct (pre_nonnull _ (inv_pre _ Hinv)). done.
  - unfold wakeup. assert_ok; [|by apply negb_true_iff, Z.eqb_neq].
    destruct (unblock_inv s w) as (s' & -> & Hi & He & Hc & Hr & Ha & Hid & _); [done..|auto|]. simpl. by exists s'.
Qed.

Lemma getchar_spec s q :
  sched_inv s -> off s -> ioq_wf q -> sleeper_ok s (producer q) -> ioq_len q <> 0 ->
  exists b rest s' q', ioq_getchar s q = Done (Ret b, s', q') /\ contents q = b :: rest /\ contents q' = rest /\
    ioq_wf q' /\ producer q' = 0 /\ consumer q' = consumer q /\ ioq_lock q' = ioq_lock q /\ sched_inv s' /\ off s' /\ cur s' = cur s /\
    ready s' = (if producer q =? 0 then [] else [producer q]) ++ ready s.
Proof.
  intros Hinv Hoff Hwf Hs Hne. unfold ioq_getchar, ioq_empty.
  rewrite (ASSERT_true (bool_decide _)) by (by apply bool_decide_true). rewrite !bind_done.
  rewrite empty_len, bool_decide_false by done.
  destruct (contents_get q (ioq_lock q) 0 (consumer q)) as (b & -> & Hc); [done..|]. rewrite bind_done.
  destruct (wake_spec s (producer q)) as (s' & -> & Hi & Hcur & He & _ & Hr & _); [done..|].
  eexists b, _, s', _. split; [done|]. split; [done|]. simpl. split_and!; try done.
  - destruct Hwf. constructor; simpl; try done. apply next_pos_range.
  - unfold off. by rewrite He.
Qed.

Lemma putchar_spec s q b :
  sched_inv s -> off s -> ioq_wf q -> sleeper_ok s (consumer q) -> ioq_len q <> bufsize - 1 ->
  exists s' q', ioq_putchar s q b = Done (Ret (), s', q') /\ contents q' = contents q ++ [b] /\
    ioq_wf q' /\ producer q' = producer q /\ consumer q' = 0 /\ ioq_lock q' = ioq_lock q /\ sched_inv s' /\ off s' /\ cur s' = cur s /\
    ready s' = (if consumer q =? 0 then [] else [consumer q]) ++ ready s /\ idle_thread s' = idle_thread s.
Proof.
  intros Hinv Hoff Hwf Hs Hne. unfold ioq_putchar, ioq_full.
  rewrite (ASSERT_true (bool_decide _)) by (by apply bool_decide_true). rewrite !bind_done.
  rewrite full_len, bool_decide_false by done.
  destruct (contents_put q (ioq_lock q) (producer q) 0 b) as (b' & -> & Hl & Hc); [done..|]. rewrite bind_done.
  destruct (wake_spec s (consumer q)) as (s' & -> & Hi & Hcur & He & _ & Hr & Hid); [done..|].
  eexists s', _. split; [done|]. split; [done|]. simpl. split_and!; try done.
  - destruct Hwf. constructor; simpl; try done. apply next_pos_range.
  - unfold off. by rewrite He.
Qed.

(** A lock nobody holds is taken at once. *)
Definition lock_free (l : lock) : Prop := holder l = 0 /\ sema l = mk_semaphore 1 [] /\ holder_repeat_nr l = 0.

Lemma acquire_free s l :
  sched_inv s -> lock_free l ->
  exists s', lock_acquire_off s l = Done (true, s', mk_lock (cur s) (mk_semaphore 0 []) 1) /\
    sched_inv s' /\ cur s' = cur s /\ all s' = all s /\ ready s' = ready s /\ idle_thread s' = idle_thread s.
Proof.
  intros Hinv (Hh & Hsm & Hr). unfold lock_acquire_off, sema_down. rewrite Hh, Hr, Hsm. simpl.
  assert (Hnz : cur s <> 0).
  { intros E. destruct (inv_cur _ Hinv) as [Hca _]. apply (pre_nonnull _ (inv_pre _ Hinv)). by rewrite <- E. }
  replace (0 =? cur s) with false by (symmetry; apply Z.eqb_neq; lia). simpl.
  rewrite (surjective_pairing (intr_disable (eflags s))). simpl.
  eexists. split; [done|]. split_and!; try done. by apply (inv_ext s).
Qed.

Lemma wait_spec s q (waiter : Z) :
  sched_inv s -> cur s <> idle_thread s -> lock_free (ioq_lock q) -> waiter = 0 ->
  exists s1 s', lock_acquire_off s (ioq_lock q) = Done (true, s1, mk_lock (cur s) (mk_semaphore 0 []) 1) /\
    ioq_wait s1 waiter = Done (s', cur s) /\ sched_inv s' /\ stat s' (cur s) = Some TASK_BLOCKED /\
    cur s' :: ready s' = match ready s with [] => [idle_thread s] | r => r end.
Proof.
  intros Hinv Hni Hl ->. destruct (acquire_free s (ioq_lock q)) as (s1 & Ha & Hi1 & Hc1 & Ha1 & Hr1 & Hid1); [done..|].
  destruct (block_spec s1 TASK_BLOCKED) as (s' & Hb & Hi & _ & _ & _ & Hq & _ & Hst); [done|auto|done|].
  exists s1, s'. split; [done|]. unfold ioq_wait. rewrite ASSERT_true by done. rewrite bind_done, Hb. simpl.
  rewrite Hc1 in *. rewrite Hr1, Hid1 in Hq. rewrite Hid1 in Hst. auto.
Qed.

Lemma putchar_block s q b :
  sched_inv s -> off s -> ioq_wf q -> cur s <> idle_thread s -> lock_free (ioq_lock q) ->
  Z.of_nat (length (contents q)) = 2047 -> producer q = 0 -> exists s' q',
    ioq_putchar s q b = Done (WaitSide, s', q') /\ contents q' = contents q /\ producer q' = cur s /\
    sched_inv s' /\ stat s' (cur s) = Some TASK_BLOCKED /\
    cur s' :: ready s' = match ready s with [] => [idle_thread s] | r => r end.
Proof.
  intros Hinv Hoff Hwf Hni Hl Hfull Hp. pose proof (length_contents q) as Hlen. unfold ioq_putchar, ioq_full.
  rewrite (ASSERT_true (bool_decide _)) by (by apply bool_decide_true). rewrite !bind_done.
  rewrite full_len, bool_decide_true by (rewrite <- ?Hlen; done).
  destruct (wait_spec s q (producer q)) as (s1 & s' & -> & Hw & Hi & Hst & Hq); [done..|].
  rewrite bind_done, Hw. eexists s', _. split; [done|]. split_and!; try done.
Qed.

(** ** Properties *)

(** C32. The ring buffer is a FIFO queue of capacity 2047: with interrupts off its
    length is the number of queued bytes; [ioq_putchar] on a queue that is not full
    appends the byte and wakes a sleeping consumer; [ioq_getchar] on one that is not
    empty takes the oldest byte and wakes a sleeping producer. *)
Theorem ioq_fifo s q b :
  sched_inv s -> off s -> ioq_wf q -> sleeper_ok s (producer q) -> sleeper_ok s (consumer q) ->
  ioq_length q = Z.of_nat (length (contents q)) /\ 0 <= ioq_length q <= 2047 /\
  ioq_empty s q = Done (bool_decide (contents q = [])) /\
  ioq_full s q = Done (bool_decide (Z.of_nat (length (contents q)) = 2047)) /\
  (Z.of_nat (length (contents q)) <> 2047 ->
     exists s' q', ioq_putchar s q b = Done (Ret (), s', q') /\ contents q' = contents q ++ [b] /\
       ioq_wf q' /\ sched_inv s' /\ consumer q' = 0 /\
       ready s' = (if consumer q =? 0 then [] else [consumer q]) ++ ready s) /\
  (forall x rest, contents q = x :: rest ->
     exists s' q', ioq_getchar s q = Done (Ret x, s', q') /\ contents q' = rest /\
       ioq_wf q' /\ sched_inv s' /\ producer q' = 0 /\
       ready s' = (if producer q =? 0 then [] else [producer q]) ++ ready s).
Proof.
  intros Hinv Hoff Hwf Hp Hc. pose proof (length_contents q) as Hlen.
  assert (Hnil : contents q = [] <-> ioq_len q = 0).
  { rewrite <- Hlen. rewrite <- length_zero_iff_nil. lia. }
  rewrite ioq_length_len by done. unfold ioq_empty, ioq_full.
  rewrite (ASSERT_true (bool_decide _)) by (by apply bool_decide_true). rewrite !bind_done, empty_len, full_len by done.
  split_and!.
  - done.
  - rewrite <- Hlen. lia.
  - unfold ioq_len. pose proof (Z.mod_pos_bound (head q - tail q) 2048). unfold bufsize. lia.
  - f_equal. by apply bool_decide_ext.
  - f_equal. rewrite Hlen. done.
  - rewrite Hlen. intros Hnf. destruct (putchar_spec s q b) as (s' & q' & ? & ? & ? & _ & ? & _ & ? & _ & _ & ? & _); [done..|].
    eauto 10.
  - intros x rest Hx. assert (Hne : ioq_len q <> 0) by (intros E; apply Hnil in E; congruence).
    destruct (getchar_spec s q) as (x' & rest' & s' & q' & ? & Hx' & ? & ? & ? & _ & _ & ? & _ & _ & ?); [done..|].
    rewrite Hx in Hx'. injection Hx' as -> ->. eauto 10.
Qed.

Definition sample_ioq : ioqueue := mk_ioqueue lock_init 0 0x3000 (<[2047%nat := 65]> (replicate 2048 0)) 0 2047.

Lemma sample_ioq_wf : ioq_wf sample_ioq.
Proof. constructor; vm_compute; done. Qed.

Lemma ioq_fifo_witness :
  contents sample_ioq = [65] /\
  exists s' q', ioq_putchar sample_sched sample_ioq 66 = Done (Ret (), s', q') /\ contents q' = [65; 66] /\
    ready s' = [0x3000; 0x2000].
Proof.
  split; [vm_compute; reflexivity|].
  destruct (ioq_fifo sample_sched sample_ioq 66) as (_ & _ & _ & _ & H & _).
  - exact sample_inv.
  - reflexivity.
  - exact sample_ioq_wf.
  - left. reflexivity.
  - right. split; [apply (bool_decide_unpack _); by vm_compute|reflexivity].
  - destruct H as (s' & q' & H1 & H2 & _ & _ & _ & H3); [vm_compute; discriminate|].
    exists s', q'. split; [exact H1|]. split; [|exact H3].
    rewrite H2. vm_compute. reflexivity.
Defined.

(** Waiting: the running thread that reads an empty queue, or writes a full one,
    through a free lock registers itself and blocks, leaving the processor to the
    next ready thread; the queued bytes do not change. When it runs again
    [ioq_resume] gives the lock back and the queue is as the other side left it. *)
Theorem ioq_blocks s q b :
  sched_inv s -> off s -> ioq_wf q -> cur s <> idle_thread s -> lock_free (ioq_lock q) ->
  (contents q = [] -> consumer q = 0 -> exists s' q',
     ioq_getchar s q = Done (WaitSide, s', q') /\ contents q' = [] /\ consumer q' = cur s /\
     sched_inv s' /\ stat s' (cur s) = Some TASK_BLOCKED /\
     cur s' :: ready s' = match ready s with [] => [idle_thread s] | r => r end) /\
  (Z.of_nat (length (contents q)) = 2047 -> producer q = 0 -> exists s' q',
     ioq_putchar s q b = Done (WaitSide, s', q') /\ contents q' = contents q /\ producer q' = cur s /\
     sched_inv s' /\ stat s' (cur s) = Some TASK_BLOCKED /\
     cur s' :: ready s' = match ready s with [] => [idle_thread s] | r => r end).
Proof.
  intros Hinv Hoff Hwf Hni Hl. pose proof (length_contents q) as Hlen. split.
  - intros Hnil Hc. unfold ioq_getchar, ioq_empty.
    rewrite (ASSERT_true (bool_decide _)) by (by apply bool_decide_true). rewrite !bind_done.
    rewrite empty_len, bool_decide_true by (rewrite <- ?Hlen, ?Hnil; done).
    destruct (wait_spec s q (consumer q)) as (s1 & s' & -> & Hw & Hi & Hst & Hq); [done..|].
    rewrite bind_done, Hw. eexists s', _. split; [done|]. split_and!; try done.
  - intros Hfull Hp. by apply putchar_block.
Qed.

Definition sample_empty : ioqueue := ioqueue_init sample_ioq.

Lemma ioq_blocks_witness :
  exists s' q', ioq_getchar sample_sched sample_empty = Done (WaitSide, s', q') /\
    consumer q' = 0x1000 /\ stat s' 0x1000 = Some TASK_BLOCKED.
Proof.
  destruct (ioq_blocks sample_sched sample_empty 0) as [H _].
  - exact sample_inv.
  - reflexivity.
  - constructor; vm_compute; done.
  - vm_compute. discriminate.
  - repeat split.
  - destruct H as (s' & q' & H1 & _ & H2 & _ & H3 & _); [vm_compute; reflexivity|reflexivity|].
    exists s', q'. split; [exact H1|]. split; [exact H2|exact H3].
Defined.

Lemma getchars_spec n s q :
  sched_inv s -> off s -> ioq_wf q -> sleeper_ok s (producer q) -> (n <= length (contents q))%nat ->
  exists s' q', getchars n s q = Done (take n (contents q), Ret (), s', q') /\
    contents q' = drop n (contents q) /\ ioq_wf q' /\ sched_inv s' /\ off s' /\ cur s' = cur s.
Proof.
  revert s q. induction n as [|n IH]; intros s q Hinv Hoff Hwf Hp Hn; simpl getchars.
  - exists s, q. rewrite take_0, drop_0. split_and!; done.
  - destruct (getchar_spec s q) as (b & rest & s1 & q1 & -> & Hc & Hc1 & Hwf1 & Hp1 & _ & _ & Hi1 & Ho1 & Hcur1 & _); [done..| |].
    { rewrite <- length_contents. lia. }
    rewrite bind_done. rewrite Hc in Hn |- *. simpl in Hn.
    destruct (IH s1 q1) as (s2 & q2 & -> & Hc2 & Hwf2 & Hi2 & Ho2 & Hcur2); [done..|by left|rewrite Hc1; lia|].
    rewrite bind_done. exists s2, q2. rewrite Hc1 in *. split_and!; try done. congruence.
Qed.

Lemma putchars_spec bs s q :
  sched_inv s -> off s -> ioq_wf q -> sleeper_ok s (consumer q) ->
  Z.of_nat (length (contents q)) + Z.of_nat (length bs) <= 2047 ->
  exists s' q', putchars bs s q = Done (Ret (), s', q') /\ contents q' = contents q ++ bs /\ ioq_wf q' /\
    sched_inv s' /\ off s' /\ cur s' = cur s /\ idle_thread s' = idle_thread s /\ producer q' = producer q /\
    ioq_lock q' = ioq_lock q.
Proof.
  revert s q. induction bs as [|b bs IH]; intros s q Hinv Hoff Hwf Hc Hn; simpl putchars.
  - exists s, q. rewrite app_nil_r. split_and!; done.
  - simpl in Hn.
    destruct (putchar_spec s q b) as (s1 & q1 & -> & Hc1 & Hwf1 & Hp1 & Hz1 & Hl1 & Hi1 & Ho1 & Hcur1 & _ & Hid1); [done..| |].
    { rewrite <- length_contents. unfold bufsize. lia. }
    rewrite bind_done.
    destruct (IH s1 q1) as (s2 & q2 & -> & Hc2 & Hwf2 & Hi2 & Ho2 & Hcur2 & Hid2 & Hp2 & Hl2); [done..|by left| |].
    { rewrite Hc1, length_app. simpl. lia. }
    exists s2, q2. rewrite Hc2, Hc1, <- app_assoc. split_and!; try done; congruence.
Qed.

(** [pipe_read] never blocks: it returns the [min(count, length)] oldest bytes
    of the pipe, in order, and leaves the rest. *)
Theorem pipe_read_never_blocks s q count :
  sched_inv s -> off s -> ioq_wf q -> sleeper_ok s (producer q) -> 0 <= count ->
  let n := Z.min count (Z.of_nat (length (contents q))) in
  exists s' q', pipe_read s q count = Done (take (Z.to_nat n) (contents q), Ret n, s', q') /\
    contents q' = drop (Z.to_nat n) (contents q) /\ ioq_wf q' /\ sched_inv s' /\ cur s' = cur s.
Proof.
  intros Hinv Hoff Hwf Hp Hcnt n. unfold pipe_read. rewrite ioq_length_len, <- length_contents by done.
  replace (if count <? _ then _ else _) with n by (unfold n; zbool; lia).
  destruct (getchars_spec (Z.to_nat n) s q) as (s' & q' & -> & Hc & Hwf' & Hi' & _ & Hcur'); [done..|lia|].
  rewrite bind_done. eauto 10.
Qed.

Lemma pipe_read_never_blocks_witness :
  exists s' q', pipe_read sample_sched sample_ioq 100 = Done ([65], Ret 1, s', q') /\ contents q' = [].
Proof.
  assert (Hc : contents sample_ioq = [65]) by (vm_compute; reflexivity).
  destruct (pipe_read_never_blocks sample_sched sample_ioq 100) as (s' & q' & H1 & H2 & _).
  - exact sample_inv.
  - reflexivity.
  - exact sample_ioq_wf.
  - left. reflexivity.
  - lia.
  - exists s', q'. rewrite Hc in H1, H2. split; [exact H1|exact H2].
Defined.

Lemma putchars_app bs1 bs2 s q s' q' :
  putchars bs1 s q = Done (Ret (), s', q') -> putchars (bs1 ++ bs2) s q = putchars bs2 s' q'.
Proof.
  revert s q. induction bs1 as [|b bs1 IH]; intros s q; simpl; [by intros [= -> ->]|].
  intros (r & -> & H)%bind_done_inv. simpl. destruct r as [[[[]| |] s1] q1]; try done. by apply IH.
Qed.

(** [pipe_write]: when all bytes fit they are appended and the call returns
    their number. The free space it computes, [bufsize - length], is one more than the
    queue can take, so a longer write fills the queue and then blocks the writer. *)
Theorem pipe_write_blocks_iff s q bytes :
  sched_inv s -> off s -> ioq_wf q -> sleeper_ok s (consumer q) -> producer q = 0 -> lock_free (ioq_lock q) ->
  cur s <> idle_thread s ->
  let room := 2047 - Z.of_nat (length (contents q)) in
  (Z.of_nat (length bytes) <= room -> exists s' q',
     pipe_write s q bytes = Done (Ret (Z.of_nat (length bytes)), s', q') /\ contents q' = contents q ++ bytes /\
     ioq_wf q' /\ sched_inv s' /\ cur s' = cur s) /\
  (room < Z.of_nat (length bytes) -> exists s' q',
     pipe_write s q bytes = Done (WaitSide, s', q') /\ contents q' = contents q ++ take (Z.to_nat room) bytes /\
     producer q' = cur s /\ sched_inv s' /\ stat s' (cur s) = Some TASK_BLOCKED).
Proof.
  intros Hinv Hoff Hwf Hc Hp Hl Hni room.
  assert (Hroom : 0 <= room).
  { unfold room. rewrite length_contents. unfold ioq_len, bufsize. pose proof (Z.mod_pos_bound (head q - tail q) 2048). lia. }
  assert (Hleft : u32 (bufsize - ioq_length q) = room + 1).
  { rewrite ioq_length_len, <- length_contents by done. unfold room, bufsize in *. rewrite u32_small; lia. }
  unfold pipe_write. rewrite Hleft. split; intros Hlen.
  - destruct (Z.ltb_spec (Z.of_nat (length bytes)) (room + 1)); [|lia]. rewrite Nat2Z.id, firstn_all.
    destruct (putchars_spec bytes s q) as (s' & q' & -> & Hc' & Hwf' & Hi' & _ & Hcur' & _); [done..|lia|].
    rewrite bind_done. eauto 10.
  - destruct (Z.ltb_spec (Z.of_nat (length bytes)) (room + 1)); [lia|].
    destruct (lookup_lt_is_Some_2 bytes (Z.to_nat room)) as [b Hb]; [lia|].
    replace (Z.to_nat (room + 1)) with (S (Z.to_nat room)) by lia. rewrite (take_S_r _ _ b) by done.
    destruct (putchars_spec (take (Z.to_nat room) bytes) s q)
      as (s1 & q1 & Hs1 & Hc1 & Hwf1 & Hi1 & Ho1 & Hcur1 & Hid1 & Hp1 & Hl1); [done..|rewrite length_take; lia|].
    rewrite (putchars_app _ _ _ _ s1 q1) by done. simpl.
    destruct (putchar_block s1 q1 b) as (s2 & q2 & -> & Hc2 & Hp2 & Hi2 & Hst2 & _); [done..| | | | |].
    + by rewrite Hcur1, Hid1.
    + by rewrite Hl1.
    + rewrite Hc1, length_app, length_take. lia.
    + by rewrite Hp1.
    + simpl. exists s2, q2. rewrite <- Hc1, <- Hcur1. auto.
Qed.

(** Writing 2048 bytes into an empty pipe blocks. *)
Lemma pipe_write_blocks_iff_witness :
  exists s' q', pipe_write sample_sched sample_empty (replicate 2048 7) = Done (WaitSide, s', q') /\
    producer q' = 0x1000.
Proof.
  destruct (pipe_write_blocks_iff sample_sched sample_empty (replicate 2048 7)) as [_ H].
  - exact sample_inv.
  - reflexivity.
  - constructor; vm_compute; done.
  - left. reflexivity.
  - reflexivity.
  - repeat split.
  - vm_compute. discriminate.
  - destruct H as (s' & q' & H1 & _ & H2 & _); [vm_compute; reflexivity|].
    exists s', q'. split; [exact H1|exact H2].
Defined.
