(* ===== verification/Paging.v ===== *)
(** * Physical pools, page tables and page allocation (kernel/memory.c)

    Physical memory is a map from word addresses to 32-bit words; the processor's
    two-level translation is [translate], and every access the kernel makes to a page
    table goes through it, by way of the directory entry 1023 that maps the directory
    onto itself. The allocators work on the bitmaps of Bitmap. The pool locks are the
    locks of Sync; here an operation runs while it holds its lock. *)
From stdpp Require Import base numbers list option tactics gmap fin_maps.
From Stdlib Require Import ZArith Lia.
From S2P Require Import Prelude Bitmap Sched.

(** ** Data *)
Inductive pool_flags := PF_KERNEL | PF_USER.

#[global] Instance pool_flags_eq_dec : EqDecision pool_flags.
Proof. solve_decision. Defined.

Record pool := mk_pool { pool_bitmap : bitmap; phy_addr_start : Z; pool_size : Z }.
Record virtual_addr := mk_vaddr { vaddr_bitmap : bitmap; vaddr_start : Z }.

Definition K_HEAP_START : Z := 0xc0100000.
Definition MEM_BITMAP_BASE : Z := 0xc009a000.
Definition PG_P_1 : Z := 1.
Definition PG_RW_W : Z := 2.
Definition PG_US_U : Z := 4.

(** The memory manager's state: physical memory, the active page directory, the two
    physical pools, the kernel's virtual pool, and of the running task its virtual
    pool and whether it has a page directory of its own. *)
Record vm := mk_vm {
  phys : gmap Z Z;
  cr3 : Z;
  kernel_pool : pool;
  user_pool : pool;
  kernel_vaddr : virtual_addr;
  userprog_vaddr : virtual_addr;
  is_process : bool
}.

Definition with_phys (m : gmap Z Z) (x : vm) : vm :=
  mk_vm m (cr3 x) (kernel_pool x) (user_pool x) (kernel_vaddr x) (userprog_vaddr x) (is_process x).
Definition with_kpool (p : pool) (x : vm) : vm :=
  mk_vm (phys x) (cr3 x) p (user_pool x) (kernel_vaddr x) (userprog_vaddr x) (is_process x).
Definition with_upool (p : pool) (x : vm) : vm :=
  mk_vm (phys x) (cr3 x) (kernel_pool x) p (kernel_vaddr x) (userprog_vaddr x) (is_process x).
Definition with_kvaddr (p : virtual_addr) (x : vm) : vm :=
  mk_vm (phys x) (cr3 x) (kernel_pool x) (user_pool x) p (userprog_vaddr x) (is_process x).
Definition with_uvaddr (p : virtual_addr) (x : vm) : vm :=
  mk_vm (phys x) (cr3 x) (kernel_pool x) (user_pool x) (kernel_vaddr x) p (is_process x).

Definition the_pool (pf : pool_flags) (x : vm) : pool :=
  match pf with PF_KERNEL => kernel_pool x | PF_USER => user_pool x end.
Definition with_pool (pf : pool_flags) (p : pool) (x : vm) : vm :=
  match pf with PF_KERNEL => with_kpool p x | PF_USER => with_upool p x end.
Definition the_vaddr (pf : pool_flags) (x : vm) : virtual_addr :=
  match pf with PF_KERNEL => kernel_vaddr x | PF_USER => userprog_vaddr x end.
Definition with_vaddr (pf : pool_flags) (p : virtual_addr) (x : vm) : vm :=
  match pf with PF_KERNEL => with_kvaddr p x | PF_USER => with_uvaddr p x end.

(** ** The processor *)
Definition pread (m : gmap Z Z) (a : Z) : Z := default 0 (m !! a).
Definition frame_of (e : Z) : Z := Z.land e 0xfffff000.
Definition present (e : Z) : bool := Z.testbit e 0.

(** Directory entry and page-table entry of a virtual address. *)
Definition pde_at (m : gmap Z Z) (dir v : Z) : Z := pread m (dir + 4 * (v / 2 ^ 22)).
Definition pte_addr (m : gmap Z Z) (dir v : Z) : Z := frame_of (pde_at m dir v) + 4 * ((v / 2 ^ 12) mod 2 ^ 10).
Definition pte_at (m : gmap Z Z) (dir v : Z) : Z := pread m (pte_addr m dir v).

Definition translate (m : gmap Z Z) (dir v : Z) : option Z :=
  if present (pde_at m dir v) then
    if present (pte_at m dir v) then Some (frame_of (pte_at m dir v) + v mod 2 ^ 12) else None
  else None.

Definition vread (x : vm) (v : Z) : outcome Z :=
  match translate (phys x) (cr3 x) v with Some a => Done (pread (phys x) a) | None => Fault end.
Definition vwrite (x : vm) (v w : Z) : outcome vm :=
  match translate (phys x) (cr3 x) v with Some a => Done (with_phys (<[a := w]> (phys x)) x) | None => Fault end.

(** [memset(page, 0, PG_SIZE)] on one page. *)
Definition zero_words (a : Z) (n : nat) (m : gmap Z Z) : gmap Z Z :=
  foldr (fun i m => <[a + 4 * i := 0]> m) m (seqZ 0 (Z.of_nat n)).
Definition zero_page (x : vm) (v : Z) : outcome vm :=
  match translate (phys x) (cr3 x) v with
  | Some a => Done (with_phys (zero_words a 1024 (phys x)) x)
  | None => Fault
  end.

(** ** Operations *)

(** The pools as [mem_pool_init] lays them out, with where their bitmaps are. *)
Record layout := mk_layout {
  l_kernel : pool; l_user : pool; l_vaddr : virtual_addr;
  l_kbits : Z; l_ubits : Z; l_vbits : Z
}.

(** [junk] is what memory holds before [bitmap_init]. *)
Definition bitmap_in_memory (junk : Z -> Z) (base len : Z) : bitmap :=
  mk_bitmap len (junk <$> seqZ base len) (junk (base + len)).

Definition mem_pool_init (junk : Z -> Z) (all_mem : Z) : outcome layout :=
  let page_table_size := PG_SIZE * 256 in
  let used_mem := page_table_size + 0x100000 in
  let free_mem := u32 (all_mem - used_mem) in
  let all_free_pages := u16 (free_mem / PG_SIZE) in
  let kernel_free_pages := u16 (all_free_pages / 2) in
  let user_free_pages := u16 (all_free_pages - kernel_free_pages) in
  let kbm_length := kernel_free_pages / 8 in
  let ubm_length := user_free_pages / 8 in
  let kp_start := used_mem in
  let up_start := u32 (kp_start + kernel_free_pages * PG_SIZE) in
  kb ← bitmap_init (bitmap_in_memory junk MEM_BITMAP_BASE kbm_length);
  ub ← bitmap_init (bitmap_in_memory junk (MEM_BITMAP_BASE + kbm_length) ubm_length);
  vb ← bitmap_init (bitmap_in_memory junk (MEM_BITMAP_BASE + kbm_length + ubm_length) kbm_length);
  Done (mk_layout
    (mk_pool kb kp_start (kernel_free_pages * PG_SIZE))
    (mk_pool ub up_start (user_free_pages * PG_SIZE))
    (mk_vaddr vb K_HEAP_START)
    MEM_BITMAP_BASE (MEM_BITMAP_BASE + kbm_length) (MEM_BITMAP_BASE + kbm_length + ubm_length)).

(** while (cnt < pg_cnt) bitmap_set(b, start + cnt++, value); *)
Fixpoint bitmap_set_run (b : bitmap) (start : Z) (cnt : nat) (v : Z) : outcome bitmap :=
  match cnt with
  | O => Done b
  | S n => b ← bitmap_set b start v; bitmap_set_run b (start + 1) n v
  end.

(** Returns 0 for NULL. *)
Definition vaddr_get (x : vm) (pf : pool_flags) (pg_cnt : Z) : outcome (Z * vm) :=
  let va := the_vaddr pf x in
  bit_idx_start ← bitmap_scan (vaddr_bitmap va) pg_cnt;
  if bit_idx_start =? -1 then Done (0, x) else
  b ← bitmap_set_run (vaddr_bitmap va) bit_idx_start (Z.to_nat pg_cnt) 1;
  let v := u32 (vaddr_start va + bit_idx_start * PG_SIZE) in
  ASSERT (bool_decide (pf = PF_KERNEL) || (v <? 0xc0000000 - PG_SIZE));;
  Done (v, with_vaddr pf (mk_vaddr b (vaddr_start va)) x).

(** Returns 0 for NULL. *)
Definition palloc (m_pool : pool) : outcome (Z * pool) :=
  bit_idx ← bitmap_scan (pool_bitmap m_pool) 1;
  if bit_idx =? -1 then Done (0, m_pool) else
  b ← bitmap_set (pool_bitmap m_pool) bit_idx 1;
  Done (u32 (bit_idx * PG_SIZE + phy_addr_start m_pool), mk_pool b (phy_addr_start m_pool) (pool_size m_pool)).

Definition PDE_IDX (addr : Z) : Z := Z.shiftr (Z.land addr 0xffc00000) 22.
Definition PTE_IDX (addr : Z) : Z := Z.shiftr (Z.land addr 0x003ff000) 12.

Definition pde_ptr (vaddr : Z) : Z := u32 (0xfffff000 + PDE_IDX vaddr * 4).
Definition pte_ptr (vaddr : Z) : Z :=
  u32 (0xffc00000 + Z.shiftr (Z.land vaddr 0xffc00000) 10 + PTE_IDX vaddr * 4).

Definition entry (phyaddr : Z) : Z := Z.lor (Z.lor (Z.lor phyaddr PG_US_U) PG_RW_W) PG_P_1.

Definition page_table_add (x : vm) (vaddr page_phyaddr : Z) : outcome vm :=
  let pde := pde_ptr vaddr in
  let pte := pte_ptr vaddr in
  d ← vread x pde;
  if negb (Z.land d 1 =? 0) then
    t ← vread x pte;
    ASSERT (Z.land t 1 =? 0);;
    if Z.land t 1 =? 0 then vwrite x pte (entry page_phyaddr) else Panic
  else
    r ← palloc (kernel_pool x);
    let x := with_kpool r.2 x in
    x ← vwrite x pde (entry r.1);
    x ← zero_page x (Z.land pte 0xfffff000);
    t ← vread x pte;
    ASSERT (Z.land t 1 =? 0);;
    vwrite x pte (entry page_phyaddr).

(** The loop of [malloc_page]; [false] when the pool ran out of pages. *)
Fixpoint map_pages (x : vm) (pf : pool_flags) (vaddr : Z) (cnt : nat) : outcome (bool * vm) :=
  match cnt with
  | O => Done (true, x)
  | S n =>
      r ← palloc (the_pool pf x);
      if r.1 =? 0 then Done (false, x) else
      x ← page_table_add (with_pool pf r.2 x) vaddr r.1;
      map_pages x pf (u32 (vaddr + PG_SIZE)) n
  end.

Definition malloc_page (x : vm) (pf : pool_flags) (pg_cnt : Z) : outcome (Z * vm) :=
  ASSERT ((0 <? pg_cnt) && (pg_cnt <? 3840));;
  r ← vaddr_get x pf pg_cnt;
  if r.1 =? 0 then Done (0, r.2) else
  q ← map_pages r.2 pf r.1 (Z.to_nat pg_cnt);
  if q.1 : bool then Done (r.1, q.2) else Done (0, q.2).

Fixpoint zero_pages (x : vm) (v : Z) (cnt : nat) : outcome vm :=
  match cnt with O => Done x | S n => x ← zero_page x v; zero_pages x (u32 (v + PG_SIZE)) n end.

Definition get_kernel_pages (x : vm) (pg_cnt : Z) : outcome (Z * vm) :=
  r ← malloc_page x PF_KERNEL pg_cnt;
  if negb (r.1 =? 0) then x ← zero_pages r.2 r.1 (Z.to_nat pg_cnt); Done (r.1, x) else Done r.

(** [memset] on a NULL result panics. *)
Definition get_user_pages (x : vm) (pg_cnt : Z) : outcome (Z * vm) :=
  r ← malloc_page x PF_USER pg_cnt;
  ASSERT (negb (r.1 =? 0));;
  x ← zero_pages r.2 r.1 (Z.to_nat pg_cnt); Done (r.1, x).

Definition get_a_page (x : vm) (pf : pool_flags) (vaddr : Z) : outcome (Z * vm) :=
  x ← (if is_process x && bool_decide (pf = PF_USER) then
         let bit_idx := u32 (vaddr - vaddr_start (userprog_vaddr x)) / PG_SIZE in
         ASSERT (0 <=? bit_idx);;
         b ← bitmap_set (vaddr_bitmap (userprog_vaddr x)) bit_idx 1;
         Done (with_uvaddr (mk_vaddr b (vaddr_start (userprog_vaddr x))) x)
       else if negb (is_process x) && bool_decide (pf = PF_KERNEL) then
         let bit_idx := u32 (vaddr - vaddr_start (kernel_vaddr x)) / PG_SIZE in
         ASSERT (0 <? bit_idx);;
         b ← bitmap_set (vaddr_bitmap (kernel_vaddr x)) bit_idx 1;
         Done (with_kvaddr (mk_vaddr b (vaddr_start (kernel_vaddr x))) x)
       else Panic);
  r ← palloc (the_pool pf x);
  if r.1 =? 0 then Done (0, x) else
  x ← page_table_add (with_pool pf r.2 x) vaddr r.1;
  Done (vaddr, x).

Definition get_a_page_without_opvaddrbitmap (x : vm) (pf : pool_flags) (vaddr : Z) : outcome (Z * vm) :=
  r ← palloc (the_pool pf x);
  if r.1 =? 0 then Done (0, x) else
  x ← page_table_add (with_pool pf r.2 x) vaddr r.1;
  Done (vaddr, x).

Definition pfree (x : vm) (pg_phy_addr : Z) : outcome vm :=
  let pf := if phy_addr_start (user_pool x) <=? pg_phy_addr then PF_USER else PF_KERNEL in
  let mem_pool := the_pool pf x in
  let bit_idx := u32 (pg_phy_addr - phy_addr_start mem_pool) / PG_SIZE in
  b ← bitmap_set (pool_bitmap mem_pool) bit_idx 0;
  Done (with_pool pf (mk_pool b (phy_addr_start mem_pool) (pool_size mem_pool)) x).

Definition free_a_phy_page (x : vm) (pg_phy_addr : Z) : outcome vm := pfree x pg_phy_addr.

Definition page_table_pte_remove (x : vm) (vaddr : Z) : outcome vm :=
  let pte := pte_ptr vaddr in
  t ← vread x pte;
  vwrite x pte (u32 (Z.land t (Z.lnot PG_P_1))).

Definition vaddr_remove (x : vm) (pf : pool_flags) (vaddr pg_cnt : Z) : outcome vm :=
  let va := the_vaddr pf x in
  let bit_idx_start := u32 (vaddr - vaddr_start va) / PG_SIZE in
  b ← bitmap_set_run (vaddr_bitmap va) bit_idx_start (Z.to_nat pg_cnt) 0;
  Done (with_vaddr pf (mk_vaddr b (vaddr_start va)) x).

Definition addr_v2p (x : vm) (vaddr : Z) : outcome Z :=
  t ← vread x (pte_ptr vaddr);
  Done (u32 (Z.land t 0xfffff000 + Z.land vaddr 0x00000fff)).

(** The loops of [mfree_page]; the range of frames allowed is [lo, hi). *)
Fixpoint unmap_pages (x : vm) (vaddr : Z) (cnt : nat) (lo hi : Z) : outcome vm :=
  match cnt with
  | O => Done x
  | S n =>
      pg_phy_addr ← addr_v2p x vaddr;
      ASSERT ((pg_phy_addr mod PG_SIZE =? 0) && (lo <=? pg_phy_addr) && (pg_phy_addr <? hi));;
      x ← pfree x pg_phy_addr;
      x ← page_table_pte_remove x vaddr;
      unmap_pages x (u32 (vaddr + PG_SIZE)) n lo hi
  end.

Definition mfree_page (x : vm) (pf : pool_flags) (vaddr pg_cnt : Z) : outcome vm :=
  ASSERT ((1 <=? pg_cnt) && (vaddr mod PG_SIZE =? 0));;
  pg_phy_addr ← addr_v2p x vaddr;
  ASSERT ((pg_phy_addr mod PG_SIZE =? 0) && (0x102000 <=? pg_phy_addr));;
  let up := phy_addr_start (user_pool x) in
  x ← (if up <=? pg_phy_addr then unmap_pages x vaddr (Z.to_nat pg_cnt) up (2 ^ 32)
       else unmap_pages x vaddr (Z.to_nat pg_cnt) (phy_addr_start (kernel_pool x)) up);
  vaddr_remove x pf vaddr pg_cnt.

(** ** Address arithmetic *)
Lemma frame_of_div e : 0 <= e < 2 ^ 32 -> frame_of e = e / 2 ^ 12 * 2 ^ 12.
Proof.
  intros He. unfold frame_of. change 0xfffff000 with (Z.shiftl (Z.ones (32 - 12)) 12).
  rewrite high_mask by lia. rewrite Z.mod_small; [done|]. zdiv.
Qed.

Lemma PDE_IDX_div v : 0 <= v < 2 ^ 32 -> PDE_IDX v = v / 2 ^ 22.
Proof.
  intros Hv. unfold PDE_IDX. change 0xffc00000 with (Z.shiftl (Z.ones 10) 22).
  rewrite field_mask by lia. apply Z.mod_small. zdiv.
Qed.

Lemma PTE_IDX_div v : PTE_IDX v = (v / 2 ^ 12) mod 2 ^ 10.
Proof.
  unfold PTE_IDX. change 0x003ff000 with (Z.shiftl (Z.ones 10) 12). by apply field_mask.
Qed.

Lemma pde_ptr_eq v : 0 <= v < 2 ^ 32 -> pde_ptr v = 0xfffff000 + 4 * (v / 2 ^ 22).
Proof. intros Hv. unfold pde_ptr. rewrite PDE_IDX_div by done. rewrite u32_small; zdiv. Qed.

Lemma pte_ptr_eq v : 0 <= v < 2 ^ 32 -> pte_ptr v = 0xffc00000 + 4 * (v / 2 ^ 12).
Proof.
  intros Hv. unfold pte_ptr. rewrite PTE_IDX_div.
  assert (E : Z.shiftr (Z.land v 0xffc00000) 10 = v / 2 ^ 22 * 2 ^ 12).
  { change 0xffc00000 with (Z.shiftl (Z.ones (32 - 22)) 22). rewrite high_mask by lia.
    rewrite Z.mod_small by zdiv. rewrite Z.shiftr_div_pow2 by lia. zdiv. }
  rewrite E, u32_small; zdiv.
Qed.

Lemma entry_eq f : 0 <= f < 2 ^ 32 -> f mod 2 ^ 12 = 0 -> entry f = f + 7.
Proof.
  intros Hf Hm. unfold entry, PG_US_U, PG_RW_W, PG_P_1. rewrite <- !Z.lor_assoc. change (Z.lor 4 (Z.lor 2 1)) with 7.
  replace f with (f / 2 ^ 12 * 2 ^ 12) at 1 by zdiv. rewrite lor_low by lia. zdiv.
Qed.

Lemma frame_entry f : 0 <= f < 2 ^ 32 -> f mod 2 ^ 12 = 0 -> frame_of (entry f) = f.
Proof. intros Hf Hm. rewrite entry_eq by done. rewrite frame_of_div; zdiv. Qed.

Lemma present_entry f : 0 <= f < 2 ^ 32 -> f mod 2 ^ 12 = 0 -> present (entry f) = true.
Proof.
  intros Hf Hm. rewrite entry_eq by done. unfold present. rewrite Z.bit0_odd.
  rewrite Zodd_mod. apply Z.eqb_eq. zdiv.
Qed.

Lemma land1_present e : (Z.land e 1 =? 0) = negb (present e).
Proof.
  unfold present. change 1 with (Z.shiftl 1 0). rewrite land_bit by lia. by destruct (Z.testbit e 0).
Qed.

Lemma pread_insert m a w b : pread (<[a := w]> m) b = if decide (b = a) then w else pread m b.
Proof.
  unfold pread. case_decide; [subst; by rewrite lookup_insert_eq|by rewrite lookup_insert_ne].
Qed.

Lemma pread_zero_words a n m b :
  pread (zero_words a n m) b =
  if decide (a <= b < a + 4 * Z.of_nat n /\ (b - a) mod 4 = 0) then 0 else pread m b.
Proof.
  unfold zero_words.
  assert (E : forall l, pread (foldr (fun i m => <[a + 4 * i := 0]> m) m l) b =
    if decide (b ∈ (fun i => a + 4 * i) <$> l) then 0 else pread m b).
  { induction l as [|i l IH]; cbn [foldr]; [rewrite fmap_nil, decide_False; [done|apply not_elem_of_nil]|].
    rewrite fmap_cons, pread_insert, IH. destruct (decide (b = a + 4 * i)) as [->|Hne].
    - rewrite decide_True by (by left). done.
    - destruct (decide (b ∈ _ <$> l)); [by rewrite decide_True by (by right)|].
      rewrite decide_False; [done|]. by rewrite not_elem_of_cons. }
  rewrite E. apply decide_ext. rewrite list_elem_of_fmap. setoid_rewrite elem_of_seqZ. split.
  - intros (i & -> & Hi). split; [lia|]. replace (a + 4 * i - a) with (i * 4) by lia. apply Z.mod_mul. lia.
  - intros [Hb Hm]. exists ((b - a) / 4). zdiv.
Qed.

(** ** Page tables *)

(** The directory [dir]: aligned, mapped onto itself by its last entry, every other
    table (of the addresses from 4 MB on) in a frame of its own. *)
Record tables_ok (m : gmap Z Z) (dir : Z) : Prop := {
  t_words : forall a, 0 <= pread m a < 2 ^ 32;
  t_dir : 0 <= dir < 2 ^ 32 /\ dir mod 2 ^ 12 = 0;
  t_rec : present (pread m (dir + 4 * 1023)) = true /\ frame_of (pread m (dir + 4 * 1023)) = dir;
  t_nodir : forall i, 1 <= i < 1023 -> present (pread m (dir + 4 * i)) = true -> frame_of (pread m (dir + 4 * i)) <> dir;
  t_inj : forall i j, 1 <= i < 1023 -> 1 <= j < 1023 ->
    present (pread m (dir + 4 * i)) = true -> present (pread m (dir + 4 * j)) = true ->
    frame_of (pread m (dir + 4 * i)) = frame_of (pread m (dir + 4 * j)) -> i = j
}.

(** The addresses between the low 4 MB and the window onto the tables. *)
Definition in_range (v : Z) : Prop := 2 ^ 22 <= v < 0xffc00000.

Lemma range_idx v : in_range v -> 0 <= v < 2 ^ 32 /\ 1 <= v / 2 ^ 22 < 1023.
Proof. unfold in_range. intros Hv. split; [lia|]. zdiv. Qed.

Lemma frame_aligned m dir a : tables_ok m dir -> 0 <= frame_of (pread m a) < 2 ^ 32 /\ frame_of (pread m a) mod 2 ^ 12 = 0.
Proof. intros Ht. pose proof (t_words _ _ Ht a). rewrite frame_of_div by done. zdiv. Qed.

(** The recursive entry: [pde_ptr] and [pte_ptr] lead to the entries. *)
Lemma trans_pde_ptr m dir v :
  tables_ok m dir -> 0 <= v < 2 ^ 32 -> translate m dir (pde_ptr v) = Some (dir + 4 * (v / 2 ^ 22)).
Proof.
  intros Ht Hv. destruct (t_rec _ _ Ht) as [Hp Hf]. rewrite pde_ptr_eq by done.
  assert (Hd : forall w, w = 0xfffff000 + 4 * (v / 2 ^ 22) ->
    w / 2 ^ 22 = 1023 /\ (w / 2 ^ 12) mod 2 ^ 10 = 1023 /\ w mod 2 ^ 12 = 4 * (v / 2 ^ 22)).
  { intros w ->. zdiv. }
  destruct (Hd _ eq_refl) as (H1 & H2 & H3). unfold translate, pte_at, pte_addr, pde_at. rewrite H1, H2, H3, Hp, Hf, Hp, Hf. done.
Qed.

Lemma trans_pte_ptr m dir v :
  tables_ok m dir -> 0 <= v < 2 ^ 32 ->
  translate m dir (pte_ptr v) = if present (pde_at m dir v) then Some (pte_addr m dir v) else None.
Proof.
  intros Ht Hv. destruct (t_rec _ _ Ht) as [Hp Hf]. rewrite pte_ptr_eq by done.
  assert (Hd : forall w, w = 0xffc00000 + 4 * (v / 2 ^ 12) ->
    w / 2 ^ 22 = 1023 /\ (w / 2 ^ 12) mod 2 ^ 10 = v / 2 ^ 22 /\ w mod 2 ^ 12 = 4 * ((v / 2 ^ 12) mod 2 ^ 10)).
  { intros w ->. zdiv. }
  destruct (Hd _ eq_refl) as (H1 & H2 & H3). unfold translate, pte_at, pte_addr, pde_at. rewrite H1, H2, H3, Hp, Hf. done.
Qed.

(** A page-table entry lies in the frame of its table. *)
Lemma pte_frame m dir v : tables_ok m dir -> pte_addr m dir v / 2 ^ 12 * 2 ^ 12 = frame_of (pde_at m dir v).
Proof. intros Ht. destruct (frame_aligned m dir (dir + 4 * (v / 2 ^ 22)) Ht). unfold pte_addr. fold (pde_at m dir v) in *. zdiv. Qed.

(** Addresses in different frames differ. *)
Lemma frames_apart f g i j :
  f mod 2 ^ 12 = 0 -> g mod 2 ^ 12 = 0 -> f <> g -> 0 <= i < 2 ^ 12 -> 0 <= j < 2 ^ 12 -> f + i <> g + j.
Proof. zdiv. Qed.

(** A write outside the directory keeps the tables; outside the entry of [w] it
    keeps the translation of [w]. *)
Lemma tables_frame m m' dir :
  tables_ok m dir -> (forall a, 0 <= pread m' a < 2 ^ 32) ->
  (forall i, 0 <= i < 1024 -> pread m' (dir + 4 * i) = pread m (dir + 4 * i)) -> tables_ok m' dir.
Proof.
  intros [Hw Hd Hr Hn Hi] Hw' He. constructor; try done.
  - by rewrite He by lia.
  - intros i Hi1. rewrite He by lia. by apply Hn.
  - intros i j Hi1 Hj1. rewrite !He by lia. by apply Hi.
Qed.

Lemma trans_frame m m' dir w :
  pde_at m' dir w = pde_at m dir w -> pread m' (pte_addr m dir w) = pte_at m dir w ->
  translate m' dir w = translate m dir w.
Proof. intros Hd Hp. unfold translate, pte_at, pte_addr in *. by rewrite Hd, Hp. Qed.

(** Writing the entry of [v] in an existing table. *)
Lemma write_pte m dir v e :
  tables_ok m dir -> in_range v -> present (pde_at m dir v) = true -> 0 <= e < 2 ^ 32 ->
  let m' := <[pte_addr m dir v := e]> m in
  tables_ok m' dir /\ (forall i, 0 <= i < 1024 -> pread m' (dir + 4 * i) = pread m (dir + 4 * i)) /\
  forall w, in_range w -> translate m' dir w =
    if decide (w / 2 ^ 12 = v / 2 ^ 12)
    then if present e then Some (frame_of e + w mod 2 ^ 12) else None
    else translate m dir w.
Proof.
  intros Ht Hv Hp He m'. destruct (range_idx v Hv) as [Hv32 Hvi]. destruct (t_dir _ _ Ht) as [Hd Hda].
  destruct (frame_aligned m dir (dir + 4 * (v / 2 ^ 22)) Ht) as [Hf Hfa]. fold (pde_at m dir v) in Hf, Hfa.
  assert (Hnd : frame_of (pde_at m dir v) <> dir) by (by apply (t_nodir _ _ Ht)).
  assert (Hdir : forall i, 0 <= i < 1024 -> pread m' (dir + 4 * i) = pread m (dir + 4 * i)).
  { intros i Hi. unfold m'. rewrite pread_insert, decide_False; [done|]. apply frames_apart; try done; zdiv. }
  split; [|split; [done|]].
  - apply (tables_frame m); try done. intros a. unfold m'. rewrite pread_insert. case_decide; [done|apply (t_words _ _ Ht)].
  - intros w Hw. destruct (range_idx w Hw) as [Hw32 Hwi].
    assert (Hpd : pde_at m' dir w = pde_at m dir w) by (apply Hdir; lia).
    destruct (decide (w / 2 ^ 12 = v / 2 ^ 12)) as [E|E].
    + assert (Hpi : w / 2 ^ 22 = v / 2 ^ 22) by zdiv.
      assert (Hwv : pde_at m dir w = pde_at m dir v) by (unfold pde_at; by rewrite Hpi).
      unfold translate, pte_at, pte_addr. rewrite Hpd, Hwv, Hp, E.
      unfold m'. rewrite pread_insert, decide_True by done. done.
    + destruct (present (pde_at m dir w)) eqn:Hpw; [|unfold translate; by rewrite Hpd, Hpw].
      apply trans_frame; [done|]. unfold m'. rewrite pread_insert, decide_False; [done|].
      intros Ha. destruct (frame_aligned m dir (dir + 4 * (w / 2 ^ 22)) Ht) as [Hg Hga]. fold (pde_at m dir w) in Hg, Hga.
      unfold pte_addr in Ha.
      destruct (decide (frame_of (pde_at m dir w) = frame_of (pde_at m dir v))) as [Ef|Ef].
      * apply (t_inj _ _ Ht) in Ef; [|done..]. rewrite Ef in *. zdiv.
      * revert Ha. apply frames_apart; try done; zdiv.
Qed.

(** A frame that is neither the directory nor a table. *)
Record fresh_frame (m : gmap Z Z) (dir f : Z) : Prop := {
  ff_range : 0 <= f < 2 ^ 32;
  ff_align : f mod 2 ^ 12 = 0;
  ff_dir : f <> dir;
  ff_tables : forall i, 1 <= i < 1023 -> present (pread m (dir + 4 * i)) = true -> frame_of (pread m (dir + 4 * i)) <> f
}.

(** A new, empty table in the frame [f] for the 4 MB around [v]. *)
Lemma add_table m dir v f :
  tables_ok m dir -> in_range v -> present (pde_at m dir v) = false -> fresh_frame m dir f ->
  let m1 := <[dir + 4 * (v / 2 ^ 22) := entry f]> m in
  let m2 := zero_words f 1024 m1 in
  tables_ok m1 dir /\ tables_ok m2 dir /\ pte_addr m1 dir (v / 2 ^ 22 * 2 ^ 22) = f /\
  present (pde_at m1 dir (v / 2 ^ 22 * 2 ^ 22)) = true /\
  present (pde_at m2 dir v) = true /\ present (pte_at m2 dir v) = false /\
  (forall i, 0 <= i < 1024 -> i <> v / 2 ^ 22 -> pread m2 (dir + 4 * i) = pread m (dir + 4 * i)) /\
  frame_of (pde_at m2 dir v) = f /\
  (forall w, in_range w -> translate m2 dir w = translate m dir w).
Proof.
  intros Ht Hv Hnp [Hf Hfa Hfd Hft] m1 m2. destruct (range_idx v Hv) as [Hv32 Hvi]. destruct (t_dir _ _ Ht) as [Hd Hda].
  set (k := v / 2 ^ 22) in *.
  assert (Hm1 : forall i, pread m1 (dir + 4 * i) = if decide (i = k) then entry f else pread m (dir + 4 * i)).
  { intros i. unfold m1. rewrite pread_insert. destruct (decide (i = k)); [subst; by rewrite decide_True|].
    by rewrite decide_False by lia. }
  assert (Hm2 : forall i, 0 <= i < 1024 -> pread m2 (dir + 4 * i) = pread m1 (dir + 4 * i)).
  { intros i Hi. unfold m2. rewrite pread_zero_words, decide_False; [done|].
    intros [Hin _]. zdiv. }
  assert (Hw1 : forall a, 0 <= pread m1 a < 2 ^ 32).
  { intros a. unfold m1. rewrite pread_insert. case_decide; [rewrite entry_eq by done; zdiv|apply (t_words _ _ Ht)]. }
  assert (Ht1 : tables_ok m1 dir).
  { constructor; try done.
    - rewrite Hm1, decide_False by lia. apply Ht.
    - intros i Hi. rewrite Hm1. destruct (decide (i = k)); [by rewrite frame_entry|by apply (t_nodir _ _ Ht)].
    - intros i j Hi Hj. rewrite !Hm1. destruct (decide (i = k)) as [->|]; destruct (decide (j = k)) as [->|]; rewrite ?frame_entry by done; try done.
      + intros _ Hp E. by destruct (Hft j Hj Hp).
      + intros Hp _ E. by destruct (Hft i Hi Hp).
      + by apply (t_inj _ _ Ht). }
  assert (Ht2 : tables_ok m2 dir).
  { apply (tables_frame m1); try done. intros a. unfold m2. rewrite pread_zero_words. case_decide; [lia|apply Hw1]. }
  assert (Hdv : v / 2 ^ 22 * 2 ^ 22 / 2 ^ 22 = k) by (unfold k; zdiv).
  assert (Hp2 : pde_at m2 dir v = entry f).
  { unfold pde_at. fold k. rewrite Hm2, Hm1, decide_True by lia. done. }
  split_and!; try done.
  - unfold pte_addr, pde_at. fold k in Hdv. fold k. rewrite Hdv, Hm1, decide_True, frame_entry by done. zdiv.
  - unfold pde_at. fold k in Hdv. fold k. rewrite Hdv, Hm1, decide_True by done. by apply present_entry.
  - rewrite Hp2. by apply present_entry.
  - unfold pte_at, pte_addr. rewrite Hp2, frame_entry by done. unfold m2. rewrite pread_zero_words, decide_True; [done|]. zdiv.
  - intros i Hi Hne. rewrite Hm2, Hm1, decide_False by done. done.
  - rewrite Hp2. by apply frame_entry.
  - intros w Hw. destruct (range_idx w Hw) as [Hw32 Hwi].
    destruct (decide (w / 2 ^ 22 = k)) as [E|E].
    + unfold translate, pte_at, pte_addr, pde_at in *. fold k in Hnp. rewrite E, Hnp, Hm2, Hm1, decide_True by lia.
      rewrite present_entry, frame_entry by done. unfold m2 at 1.
      rewrite pread_zero_words, decide_True; [done|]. zdiv.
    + assert (Hpd : pde_at m2 dir w = pde_at m dir w) by (unfold pde_at; rewrite Hm2, Hm1, decide_False by lia; done).
      destruct (present (pde_at m dir w)) eqn:Hpw; [|unfold translate; by rewrite Hpd, Hpw].
      apply trans_frame; [done|]. destruct (frame_aligned m dir (dir + 4 * (w / 2 ^ 22)) Ht) as [Hg Hga].
      fold (pde_at m dir w) in Hg, Hga. assert (Hgf : frame_of (pde_at m dir w) <> f) by (by apply Hft).
      assert (Hgd : frame_of (pde_at m dir w) <> dir) by (by apply (t_nodir _ _ Ht)).
      unfold m2. rewrite pread_zero_words, decide_False; [|unfold pte_addr; intros [? _]; zdiv].
      unfold m1. rewrite pread_insert, decide_False; [done|]. apply frames_apart; try done; unfold k; zdiv.
Qed.

Lemma palloc_spec p :
  bitmap_wf (pool_bitmap p) -> 0 < phy_addr_start p -> phy_addr_start p + PG_SIZE * nbits (pool_bitmap p) <= 2 ^ 32 ->
  (exists i b', palloc p = Done (phy_addr_start p + PG_SIZE * i, mk_pool b' (phy_addr_start p) (pool_size p)) /\
     bitmap_wf b' /\ nbits b' = nbits (pool_bitmap p) /\ 0 <= i < nbits (pool_bitmap p) /\
     bit (pool_bitmap p) i = false /\
     (forall j, 0 <= j -> bit b' j = (bool_decide (j = i) || bit (pool_bitmap p) j))) \/
  (palloc p = Done (0, p) /\ forall i, 0 <= i < nbits (pool_bitmap p) -> bit (pool_bitmap p) i = true).
Proof.
  intros Hwf Hs He. unfold palloc.
  destruct (take_spec (pool_bitmap p) Hwf) as [(i & b' & Ht & Hwf' & Hn' & Hi & Hf & _ & Hb)|[Ht Hall]];
    unfold bitmap_take in Ht; apply bind_done_inv in Ht as (r & Hr & Ht); rewrite Hr, bind_done.
  - left. destruct (Z.eqb_spec r (-1)); [done|]. apply bind_done_inv in Ht as (b1 & Hb1 & [= -> ->]).
    rewrite Hb1, bind_done. exists i, b'. rewrite u32_small by (unfold PG_SIZE in *; lia).
    split_and!; try done; try lia. do 2 f_equal. lia.
  - right. destruct (Z.eqb_spec r (-1)); [done|]. by apply bind_done_inv in Ht as (? & _ & ?).
Qed.

(** The frame [i] of a pool. *)
Definition frame (p : pool) (i : Z) : Z := phy_addr_start p + PG_SIZE * i.

Record pool_ok (p : pool) : Prop := {
  p_wf : bitmap_wf (pool_bitmap p);
  p_start : 0 < phy_addr_start p /\ phy_addr_start p mod 2 ^ 12 = 0;
  p_end : phy_addr_start p + PG_SIZE * nbits (pool_bitmap p) <= 2 ^ 32
}.

(** The kernel's accesses to its tables, through the window. *)
Lemma vread_pde x v :
  tables_ok (phys x) (cr3 x) -> 0 <= v < 2 ^ 32 -> vread x (pde_ptr v) = Done (pde_at (phys x) (cr3 x) v).
Proof. intros Ht Hv. unfold vread. by rewrite trans_pde_ptr. Qed.

Lemma vwrite_pde x v w :
  tables_ok (phys x) (cr3 x) -> 0 <= v < 2 ^ 32 ->
  vwrite x (pde_ptr v) w = Done (with_phys (<[cr3 x + 4 * (v / 2 ^ 22) := w]> (phys x)) x).
Proof. intros Ht Hv. unfold vwrite. by rewrite trans_pde_ptr. Qed.

Lemma vread_pte x v :
  tables_ok (phys x) (cr3 x) -> 0 <= v < 2 ^ 32 -> present (pde_at (phys x) (cr3 x) v) = true ->
  vread x (pte_ptr v) = Done (pte_at (phys x) (cr3 x) v).
Proof. intros Ht Hv Hp. unfold vread. by rewrite trans_pte_ptr, Hp. Qed.

Lemma vwrite_pte x v w :
  tables_ok (phys x) (cr3 x) -> 0 <= v < 2 ^ 32 -> present (pde_at (phys x) (cr3 x) v) = true ->
  vwrite x (pte_ptr v) w = Done (with_phys (<[pte_addr (phys x) (cr3 x) v := w]> (phys x)) x).
Proof. intros Ht Hv Hp. unfold vwrite. by rewrite trans_pte_ptr, Hp. Qed.

Lemma zero_table x v :
  tables_ok (phys x) (cr3 x) -> 0 <= v < 2 ^ 32 -> present (pde_at (phys x) (cr3 x) (v / 2 ^ 22 * 2 ^ 22)) = true ->
  zero_page x (Z.land (pte_ptr v) 0xfffff000) =
    Done (with_phys (zero_words (pte_addr (phys x) (cr3 x) (v / 2 ^ 22 * 2 ^ 22)) 1024 (phys x)) x).
Proof.
  intros Ht Hv Hp.
  assert (Hbase : Z.land (pte_ptr v) 0xfffff000 = pte_ptr (v / 2 ^ 22 * 2 ^ 22)).
  { fold (frame_of (pte_ptr v)). rewrite frame_of_div; rewrite !pte_ptr_eq; zdiv. }
  unfold zero_page. rewrite Hbase, trans_pte_ptr, Hp by (done || zdiv). done.
Qed.

(** [page_table_add] in an existing table, or with a table from the kernel pool. *)
Lemma page_table_add_spec x v pa :
  tables_ok (phys x) (cr3 x) -> in_range v -> translate (phys x) (cr3 x) v = None ->
  0 <= pa < 2 ^ 32 -> pa mod 2 ^ 12 = 0 -> pool_ok (kernel_pool x) ->
  (forall i, 0 <= i < nbits (pool_bitmap (kernel_pool x)) -> bit (pool_bitmap (kernel_pool x)) i = false ->
     fresh_frame (phys x) (cr3 x) (frame (kernel_pool x) i)) ->
  present (pde_at (phys x) (cr3 x) v) = true \/
    (exists i, 0 <= i < nbits (pool_bitmap (kernel_pool x)) /\ bit (pool_bitmap (kernel_pool x)) i = false) ->
  exists m' p', page_table_add x v pa = Done (with_phys m' (with_kpool p' x)) /\
    tables_ok m' (cr3 x) /\
    (forall w, in_range w -> translate m' (cr3 x) w =
       if decide (w / 2 ^ 12 = v / 2 ^ 12) then Some (pa + w mod 2 ^ 12) else translate (phys x) (cr3 x) w) /\
    (forall a, a / 2 ^ 12 * 2 ^ 12 <> cr3 x -> a / 2 ^ 12 * 2 ^ 12 <> frame_of (pde_at m' (cr3 x) v) -> pread m' a = pread (phys x) a) /\
    ((p' = kernel_pool x /\ present (pde_at (phys x) (cr3 x) v) = true /\
      forall i, 0 <= i < 1024 -> pread m' (cr3 x + 4 * i) = pread (phys x) (cr3 x + 4 * i)) \/
     (exists i b', p' = mk_pool b' (phy_addr_start (kernel_pool x)) (pool_size (kernel_pool x)) /\
        bitmap_wf b' /\ nbits b' = nbits (pool_bitmap (kernel_pool x)) /\ 0 <= i < nbits b' /\
        bit (pool_bitmap (kernel_pool x)) i = false /\
        (forall j, 0 <= j -> bit b' j = (bool_decide (j = i) || bit (pool_bitmap (kernel_pool x)) j)) /\
        present (pde_at (phys x) (cr3 x) v) = false /\
        frame_of (pde_at m' (cr3 x) v) = frame (kernel_pool x) i /\ present (pde_at m' (cr3 x) v) = true /\
        forall j, 0 <= j < 1024 -> j <> v / 2 ^ 22 -> pread m' (cr3 x + 4 * j) = pread (phys x) (cr3 x + 4 * j))).
Proof.
  intros Ht Hv Hnone Hpa Hpaa [Hkwf [Hks Hka] Hke] Hfresh Hav. destruct (range_idx v Hv) as [Hv32 Hvi].
  assert (He : 0 <= entry pa < 2 ^ 32) by (rewrite entry_eq by done; zdiv).
  unfold page_table_add. rewrite vread_pde, bind_done, land1_present, negb_involutive by done.
  destruct (present (pde_at (phys x) (cr3 x) v)) eqn:Hp.
  - assert (Hnp : present (pte_at (phys x) (cr3 x) v) = false).
    { unfold translate in Hnone. rewrite Hp in Hnone. by destruct (present (pte_at _ _ _)). }
    rewrite vread_pte, bind_done, land1_present, Hnp by done. simpl. rewrite vwrite_pte by done.
    destruct (write_pte (phys x) (cr3 x) v (entry pa)) as (Ht' & Hdir & Htr); [done..|].
    eexists _, (kernel_pool x). split; [by destruct x|]. split; [done|]. split.
    + intros w Hw. rewrite Htr, present_entry, frame_entry by done. done.
    + split; [|left; done]. intros a _. unfold pde_at. rewrite Hdir by lia. intros Ha. rewrite pread_insert, decide_False; [done|].
      intros ->. apply Ha. by eapply pte_frame.
  - destruct Hav as [|(i0 & Hi0 & Hb0)]; [done|].
    destruct (palloc_spec (kernel_pool x)) as [(i & b' & -> & Hwf' & Hn' & Hi & Hf & Hb)|[_ Hall]]; [done..| |].
    2: { rewrite Hall in Hb0 by done. done. }
    rewrite bind_done. cbn [fst snd]. fold (frame (kernel_pool x) i).
    destruct (add_table (phys x) (cr3 x) v (frame (kernel_pool x) i)) as (Ht1 & Ht2 & Hpa1 & Hpp1 & Hp2 & Hnp2 & Hd2 & Hf2 & Htr2);
      [done..|by apply Hfresh|].
    rewrite vwrite_pde, bind_done by done. rewrite zero_table, bind_done by done. cbn [phys cr3 with_phys with_kpool].
    rewrite Hpa1. rewrite vread_pte, bind_done by done. cbn [phys cr3 with_phys with_kpool].
    rewrite land1_present, Hnp2, ASSERT_true, bind_done by done. rewrite vwrite_pte by done. cbn [phys cr3 with_phys with_kpool].
    set (m2 := zero_words _ _ _) in *.
    destruct (write_pte m2 (cr3 x) v (entry pa)) as (Ht' & Hdir & Htr); [done..|].
    eexists _, _. split; [done|]. split; [done|]. split.
    + intros w Hw. rewrite Htr, present_entry, frame_entry by done. by rewrite Htr2.
    + split.
      { intros a Hd. unfold pde_at. rewrite Hdir by lia. fold (pde_at m2 (cr3 x) v). rewrite Hf2. intros Ha.
        rewrite pread_insert, decide_False by (intros ->; apply Ha; rewrite <- Hf2; by eapply pte_frame).
        unfold m2. destruct (t_dir _ _ Ht) as [Hd0 Hda]. destruct (Hfresh i Hi Hf) as [Hr0 Hra _ _].
        rewrite pread_zero_words, decide_False by (intros [Hin _]; apply Ha; zdiv). rewrite pread_insert, decide_False by (intros ->; apply Hd; zdiv). done. }
      right. exists i, b'. split_and!; try done; [lia..| | |].
      * unfold pde_at. rewrite Hdir by lia. exact Hf2.
      * unfold pde_at. rewrite Hdir by lia. exact Hp2.
      * intros j Hj Hne. rewrite Hdir by done. by rewrite Hd2.
Qed.

(** ** Properties *)

(** The window onto the page tables: under a directory whose last entry points to
    itself, the address [pde_ptr v] reads the directory entry of [v], and [pte_ptr v]
    its page-table entry exactly when that table exists (a page fault otherwise). *)
Theorem page_table_window x v :
  tables_ok (phys x) (cr3 x) -> 0 <= v < 2 ^ 32 ->
  vread x (pde_ptr v) = Done (pread (phys x) (cr3 x + 4 * (v / 2 ^ 22))) /\
  vread x (pte_ptr v) =
    (if present (pde_at (phys x) (cr3 x) v)
     then Done (pread (phys x) (frame_of (pde_at (phys x) (cr3 x) v) + 4 * ((v / 2 ^ 12) mod 2 ^ 10)))
     else Fault).
Proof.
  intros Ht Hv. unfold vread. rewrite trans_pde_ptr, trans_pte_ptr by done. split; [done|].
  by destruct (present (pde_at (phys x) (cr3 x) v)).
Qed.

(** A directory at 1 MB with one table, for the 4 MB from 0xc0000000 on. *)
Definition sample_phys : gmap Z Z := <[0x100ffc := 0x100007]> (<[0x100c00 := 0x101007]> ∅).
Definition sample_vm : vm :=
  mk_vm sample_phys 0x100000
    (mk_pool (mk_bitmap 1 [0] 0) 0x200000 0x8000) (mk_pool (mk_bitmap 1 [0] 0) 0x208000 0x8000)
    (mk_vaddr (mk_bitmap 1 [0] 0) K_HEAP_START) (mk_vaddr (mk_bitmap 1 [0] 0) 0x8048000) true.

Lemma sample_pread a : pread sample_phys a =
  if decide (a = 0x100ffc) then 0x100007 else if decide (a = 0x100c00) then 0x101007 else 0.
Proof. unfold sample_phys. rewrite !pread_insert. done. Qed.

Lemma sample_tables : tables_ok sample_phys 0x100000.
Proof.
  constructor.
  - intros a. rewrite sample_pread. repeat case_decide; lia.
  - split; [lia|done].
  - done.
  - intros i Hi. rewrite sample_pread. rewrite decide_False by lia. case_decide; [|done]. intros _. vm_compute. discriminate.
  - intros i j Hi Hj. rewrite !sample_pread. rewrite !(decide_False (P := _ = 0x100ffc)) by lia.
    case_decide; [|done]. case_decide; [|done]. lia.
Qed.

Lemma page_table_window_witness :
  vread sample_vm (pde_ptr 0xc0000000) = Done 0x101007 /\ vread sample_vm (pte_ptr 0x8048000) = Fault.
Proof.
  destruct (page_table_window sample_vm 0xc0000000) as [H1 _]; [exact sample_tables|lia|].
  destruct (page_table_window sample_vm 0x8048000) as [_ H2]; [exact sample_tables|lia|].
  split; [exact H1|exact H2].
Defined.

(** [page_table_add] maps one page: for an unmapped address between 4 MB and the
    window, and a page-aligned frame, the page of [v] now leads to the frame with its
    low 12 bits kept, and no other address translates differently; a missing table is
    first taken from the kernel pool and cleared. None of its assertions fails. *)
Theorem page_table_add_maps x v pa :
  tables_ok (phys x) (cr3 x) -> in_range v -> translate (phys x) (cr3 x) v = None ->
  0 <= pa < 2 ^ 32 -> pa mod 2 ^ 12 = 0 -> pool_ok (kernel_pool x) ->
  (forall i, 0 <= i < nbits (pool_bitmap (kernel_pool x)) -> bit (pool_bitmap (kernel_pool x)) i = false ->
     fresh_frame (phys x) (cr3 x) (frame (kernel_pool x) i)) ->
  (exists i, 0 <= i < nbits (pool_bitmap (kernel_pool x)) /\ bit (pool_bitmap (kernel_pool x)) i = false) ->
  exists x', page_table_add x v pa = Done x' /\ tables_ok (phys x') (cr3 x') /\
    forall w, in_range w -> translate (phys x') (cr3 x') w =
      if decide (w / 2 ^ 12 = v / 2 ^ 12) then Some (pa + w mod 2 ^ 12) else translate (phys x) (cr3 x) w.
Proof.
  intros Ht Hv Hn Hpa Ha Hk Hf Hav.
  destruct (page_table_add_spec x v pa) as (m' & p' & -> & Ht' & Htr & _ & _); [done..|by right|].
  eexists. split; [done|]. done.
Qed.

Lemma sample_fresh f : 0x200000 <= f < 2 ^ 32 -> f mod 2 ^ 12 = 0 -> fresh_frame sample_phys 0x100000 f.
Proof.
  intros Hf Ha. constructor; [lia|done|lia|]. intros i Hi. rewrite sample_pread. rewrite decide_False by lia.
  case_decide; [|done]. intros _. change (frame_of 0x101007) with 0x101000. lia.
Qed.

Lemma page_table_add_maps_witness :
  exists x', page_table_add sample_vm 0x8048000 0x209000 = Done x' /\
    translate (phys x') (cr3 x') 0x8048123 = Some 0x209123.
Proof.
  destruct (page_table_add_maps sample_vm 0x8048000 0x209000) as (x' & H1 & _ & H2).
  - exact sample_tables.
  - unfold in_range. lia.
  - vm_compute. reflexivity.
  - lia.
  - reflexivity.
  - constructor; vm_compute; repeat split; discriminate.
  - intros i Hi _. change (nbits (pool_bitmap (kernel_pool sample_vm))) with 8 in Hi.
    apply sample_fresh; unfold frame, PG_SIZE; cbn [phy_addr_start kernel_pool sample_vm]; zdiv.
  - exists 0. vm_compute. repeat split; discriminate.
  - exists x'. split; [exact H1|]. rewrite H2; [|unfold in_range; lia]. vm_compute. reflexivity.
Defined.

Lemma bitmap_init_spec junk base len :
  0 <= len -> exists b, bitmap_init (bitmap_in_memory junk base len) = Done b /\ bits b = replicate (Z.to_nat len) 0 /\
    btmp_bytes_len b = len.
Proof.
  intros Hl. unfold bitmap_init, bitmap_in_memory. rewrite ASSERT_true, bind_done by done. simpl.
  rewrite decide_True by (rewrite length_fmap, length_seqZ; lia). eexists. split; [done|]. simpl. split; [|done].
  rewrite drop_ge by (rewrite length_fmap, length_seqZ; lia). by rewrite app_nil_r.
Qed.

(** The layout [mem_pool_init] computes, for machines with between 2 MB and 258 MB:
    the two physical pools are page-aligned, disjoint, above the kernel's first 2 MB,
    and end within the installed memory; every bit of their (empty) bitmaps stands for
    a page of the pool; the three bitmaps lie one after the other in the 16 KB below
    the main thread's PCB. From 258 MB on the 16-bit page counts wrap around. *)
Theorem mem_pool_init_layout junk all_mem :
  0x200000 <= all_mem < 2 ^ 32 ->
  exists l, mem_pool_init junk all_mem = Done l /\
    let pages := ((all_mem - 0x200000) / 4096) mod 2 ^ 16 in
    phy_addr_start (l_kernel l) = 0x200000 /\
    phy_addr_start (l_user l) = 0x200000 + pool_size (l_kernel l) /\
    pool_size (l_kernel l) + pool_size (l_user l) = 4096 * pages /\
    phy_addr_start (l_user l) + pool_size (l_user l) <= all_mem /\
    PG_SIZE * nbits (pool_bitmap (l_kernel l)) <= pool_size (l_kernel l) /\
    PG_SIZE * nbits (pool_bitmap (l_user l)) <= pool_size (l_user l) /\
    l_kbits l + btmp_bytes_len (pool_bitmap (l_kernel l)) = l_ubits l /\
    l_ubits l + btmp_bytes_len (pool_bitmap (l_user l)) = l_vbits l /\
    l_vbits l + btmp_bytes_len (vaddr_bitmap (l_vaddr l)) < 0xc009e000 /\
    (forall i, 0 <= i -> bit (pool_bitmap (l_kernel l)) i = false /\ bit (pool_bitmap (l_user l)) i = false /\
       bit (vaddr_bitmap (l_vaddr l)) i = false).
Proof.
  intros Hm. unfold mem_pool_init. cbv zeta. change (PG_SIZE * 256 + 0x100000) with 0x200000. unfold PG_SIZE.
  set (pages := ((all_mem - 0x200000) / 4096) mod 2 ^ 16).
  assert (Hpg : 0 <= pages < 65536 /\ pages * 4096 <= all_mem - 0x200000).
  { unfold pages. pose proof (Z.mod_pos_bound ((all_mem - 0x200000) / 4096) (2 ^ 16)).
    pose proof (Z.mod_le ((all_mem - 0x200000) / 4096) (2 ^ 16)). zdiv. }
  assert (Hpu : u16 (u32 (all_mem - 0x200000) / 4096) = pages) by (rewrite u32_small by lia; done).
  rewrite Hpu.
  assert (Hk : u16 (pages / 2) = pages / 2) by (apply u16_small; zdiv). rewrite Hk.
  assert (Hu : u16 (pages - pages / 2) = pages - pages / 2) by (apply u16_small; zdiv). rewrite Hu.
  assert (Hs : u32 (0x200000 + pages / 2 * 4096) = 0x200000 + pages / 2 * 4096) by (apply u32_small; zdiv). rewrite Hs.
  destruct (bitmap_init_spec junk MEM_BITMAP_BASE (pages / 2 / 8)) as (kb & -> & Hkb & Hkl); [zdiv|].
  destruct (bitmap_init_spec junk (MEM_BITMAP_BASE + pages / 2 / 8) ((pages - pages / 2) / 8)) as (ub & -> & Hub & Hul); [zdiv|].
  destruct (bitmap_init_spec junk (MEM_BITMAP_BASE + pages / 2 / 8 + (pages - pages / 2) / 8) (pages / 2 / 8)) as (vb & -> & Hvb & Hvl); [zdiv|].
  rewrite !bind_done. eexists. split; [done|].
  cbn [l_kernel l_user l_vaddr l_kbits l_ubits l_vbits phy_addr_start pool_size pool_bitmap vaddr_bitmap].
  unfold nbits. rewrite Hkl, Hul, Hvl.
  assert (Hz : forall b len i, bits b = replicate len 0 -> bit b i = false).
  { intros b len i Hb. unfold bit. rewrite Hb. destruct (replicate len 0 !! _) eqn:E; [|apply Z.testbit_0_l].
    apply lookup_replicate in E as [-> _]. apply Z.testbit_0_l. }
  unfold MEM_BITMAP_BASE. split_and!; try done; try zdiv.
  intros i Hi. split_and!; by eapply Hz.
Qed.

Lemma mem_pool_init_layout_witness :
  exists l, mem_pool_init (fun _ => 255) 0x2000000 = Done l /\ phy_addr_start (l_user l) = 0x1100000.
Proof.
  destruct (mem_pool_init_layout (fun _ => 255) 0x2000000) as (l & H & _ & H2 & H3 & _); [lia|].
  exists l. split; [exact H|]. vm_compute in H. injection H as <-. reflexivity.
Defined.
