(* ===== verification/PageAlloc.v ===== *)
(** * Allocating and freeing pages (kernel/memory.c): correctness

    The invariant of the memory manager, and that [malloc_page], [mfree_page] and
    what they are made of keep it: free frames are mapped nowhere and are not page
    tables, no frame of a pool is mapped twice, free virtual pages are not mapped. *)
From stdpp Require Import base numbers list option tactics gmap fin_maps.
From Stdlib Require Import ZArith Lia.
From S2P Require Import Prelude Bitmap Sched Paging.

(** ** The memory manager's invariant *)
Definition vbits (pf : pool_flags) (x : vm) : bitmap := vaddr_bitmap (the_vaddr pf x).
Definition pbits (pf : pool_flags) (x : vm) : bitmap := pool_bitmap (the_pool pf x).
Definition vpage (pf : pool_flags) (x : vm) (i : Z) : Z := vaddr_start (the_vaddr pf x) + PG_SIZE * i.
Definition pframe (pf : pool_flags) (x : vm) (i : Z) : Z := frame (the_pool pf x) i.
Definition trans (x : vm) (w : Z) : option Z := translate (phys x) (cr3 x) w.

Definition is_free (b : bitmap) (i : Z) : Prop := 0 <= i < nbits b /\ bit b i = false.

Record vm_ok (x : vm) : Prop := {
  vo_tables : tables_ok (phys x) (cr3 x);
  vo_pool : forall pf, pool_ok (the_pool pf x);
  vo_pools : phy_addr_start (kernel_pool x) + PG_SIZE * nbits (pbits PF_KERNEL x) <= phy_addr_start (user_pool x);
  (** free kernel frames are not page tables *)
  vo_fresh : forall i, is_free (pbits PF_KERNEL x) i -> fresh_frame (phys x) (cr3 x) (pframe PF_KERNEL x i);
  (** free frames are mapped nowhere *)
  vo_unmapped : forall pf i w a, is_free (pbits pf x) i -> in_range w -> trans x w = Some a ->
    a / 2 ^ 12 * 2 ^ 12 <> pframe pf x i;
  (** no frame of a pool is mapped twice *)
  vo_inj : forall pf i w1 w2 a1 a2, 0 <= i < nbits (pbits pf x) -> in_range w1 -> in_range w2 ->
    trans x w1 = Some a1 -> trans x w2 = Some a2 ->
    a1 / 2 ^ 12 * 2 ^ 12 = pframe pf x i -> a2 / 2 ^ 12 * 2 ^ 12 = pframe pf x i -> w1 / 2 ^ 12 = w2 / 2 ^ 12;
  vo_vwf : forall pf, bitmap_wf (vbits pf x) /\ vaddr_start (the_vaddr pf x) mod 2 ^ 12 = 0;
  vo_user : 2 ^ 22 <= vpage PF_USER x 0 /\ vpage PF_USER x (nbits (vbits PF_USER x)) <= 0xc0000000 /\
    forall i, is_free (vbits PF_USER x) i -> vpage PF_USER x i < 0xc0000000 - PG_SIZE;
  vo_kernel : 0xc0000000 <= vpage PF_KERNEL x 0 /\ vpage PF_KERNEL x (nbits (vbits PF_KERNEL x)) <= 0xffc00000;
  (** free virtual pages are not mapped *)
  vo_virt : forall pf i, is_free (vbits pf x) i -> trans x (vpage pf x i) = None
}.

Lemma frame_aligned_pool x pf i : vm_ok x -> 0 <= i < nbits (pbits pf x) ->
  0 < pframe pf x i < 2 ^ 32 /\ pframe pf x i mod 2 ^ 12 = 0.
Proof.
  intros Hx Hi. destruct (vo_pool x Hx pf) as [_ [Hs Ha] He]. unfold pframe, frame, pbits, PG_SIZE in *. zdiv.
Qed.

Lemma pframe_inj x pf i pf' i' :
  vm_ok x -> 0 <= i < nbits (pbits pf x) -> 0 <= i' < nbits (pbits pf' x) ->
  pframe pf x i = pframe pf' x i' -> pf = pf' /\ i = i'.
Proof.
  intros Hx Hi Hi' E. pose proof (vo_pools x Hx). unfold pframe, frame, pbits, PG_SIZE in *.
  destruct pf, pf'; simpl in *; split; try done; lia.
Qed.

Lemma vpage_in x pf i : vm_ok x -> 0 <= i < nbits (vbits pf x) -> in_range (vpage pf x i) /\ vpage pf x i mod 2 ^ 12 = 0.
Proof.
  intros Hx Hi. destruct (vo_vwf x Hx pf) as [_ Ha]. destruct (vo_user x Hx) as (Hu1 & Hu2 & _).
  destruct (vo_kernel x Hx) as (Hk1 & Hk2). unfold in_range, vpage, vbits, PG_SIZE in *.
  destruct pf; simpl in *; zdiv.
Qed.

Lemma vpage_inj x pf i pf' i' :
  vm_ok x -> 0 <= i < nbits (vbits pf x) -> 0 <= i' < nbits (vbits pf' x) ->
  vpage pf x i = vpage pf' x i' -> pf = pf' /\ i = i'.
Proof.
  intros Hx Hi Hi' E. destruct (vo_user x Hx) as (Hu1 & Hu2 & _).
  destruct (vo_kernel x Hx) as (Hk1 & Hk2). unfold vpage, vbits, PG_SIZE in *.
  destruct pf, pf'; simpl in *; split; try done; lia.
Qed.

(** Taking bits of the pools keeps the invariant: there is less to promise. *)
Definition grows (b b' : bitmap) : Prop :=
  bitmap_wf b' /\ nbits b' = nbits b /\ forall j, bit b' j = false -> bit b j = false \/ j < 0.

Lemma grows_free b b' i : grows b b' -> is_free b' i -> is_free b i.
Proof. intros (_ & Hn & Hb) [Hi Hf]. rewrite Hn in Hi. split; [done|]. destruct (Hb i Hf); [done|lia]. Qed.

Lemma grows_or b b' i :
  bitmap_wf b' -> nbits b' = nbits b -> (forall j, 0 <= j -> bit b' j = (bool_decide (j = i) || bit b j)) -> grows b b'.
Proof.
  intros Hwf Hn Hb. split_and!; try done. intros j Hj. destruct (decide (j < 0)); [by right|].
  rewrite Hb in Hj by lia. apply orb_false_iff in Hj. tauto.
Qed.

(** The same state up to the bitmaps, of which more bits are set. *)
Record shrinks (x x' : vm) : Prop := {
  sh_phys : phys x' = phys x;
  sh_cr3 : cr3 x' = cr3 x;
  sh_pstart : forall pf, phy_addr_start (the_pool pf x') = phy_addr_start (the_pool pf x);
  sh_vstart : forall pf, vaddr_start (the_vaddr pf x') = vaddr_start (the_vaddr pf x);
  sh_pbits : forall pf, grows (pbits pf x) (pbits pf x');
  sh_vbits : forall pf, grows (vbits pf x) (vbits pf x')
}.

Lemma vm_ok_shrinks x x' : vm_ok x -> shrinks x x' -> vm_ok x'.
Proof.
  intros Hx [Hm Hc Hps Hvs Hpb Hvb].
  assert (Hfr : forall pf i, pframe pf x' i = pframe pf x i) by (intros pf i; unfold pframe, frame; by rewrite Hps).
  assert (Hvp : forall pf i, vpage pf x' i = vpage pf x i) by (intros pf i; unfold vpage; by rewrite Hvs).
  assert (Hpn : forall pf, nbits (pbits pf x') = nbits (pbits pf x)) by (intros pf; apply Hpb).
  assert (Hvn : forall pf, nbits (vbits pf x') = nbits (vbits pf x)) by (intros pf; apply Hvb).
  assert (Hpf : forall pf i, is_free (pbits pf x') i -> is_free (pbits pf x) i) by (intros pf i; by apply grows_free).
  assert (Hvf : forall pf i, is_free (vbits pf x') i -> is_free (vbits pf x) i) by (intros pf i; by apply grows_free).
  assert (Htr : forall w, trans x' w = trans x w) by (intros w; unfold trans; by rewrite Hm, Hc).
  destruct Hx as [Ht Hp Hps' Hf Hu Hi Hvw Hus Hk Hvi]. constructor.
  - by rewrite Hm, Hc.
  - intros pf. destruct (Hp pf) as [H1 H2 H3]. pose proof (Hpb pf) as (Hw & Hn & _). constructor.
    + done.
    + by rewrite Hps.
    + rewrite Hps. unfold pbits in Hn. by rewrite Hn.
  - rewrite Hpn. pose proof (Hps PF_KERNEL) as E1. pose proof (Hps PF_USER) as E2. simpl in E1, E2. by rewrite E1, E2.
  - intros i Hfree. rewrite Hm, Hc, Hfr. auto.
  - intros pf i w a Hfree Hw. rewrite Htr, Hfr. eauto.
  - intros pf i w1 w2 a1 a2. rewrite Hpn, !Htr, Hfr. eauto.
  - intros pf. rewrite Hvs. split; [apply Hvb|apply Hvw].
  - rewrite !Hvp, Hvn. destruct Hus as (H1 & H2 & H3). split_and!; try done. intros i Hfree. rewrite Hvp. auto.
  - by rewrite !Hvp, Hvn.
  - intros pf i Hfree. rewrite Htr, Hvp. auto.
Qed.

Lemma grows_refl b : bitmap_wf b -> grows b b.
Proof. intros Hwf. split_and!; try done. auto. Qed.

Lemma grows_trans b1 b2 b3 : grows b1 b2 -> grows b2 b3 -> grows b1 b3.
Proof. intros (_ & N1 & B1) (W2 & N2 & B2). split_and!; [done|congruence|]. intros j Hj. destruct (B2 j Hj); [by apply B1|by right]. Qed.

Lemma grows_taken b b' j : grows b b' -> 0 <= j -> bit b j = true -> bit b' j = true.
Proof. intros (_ & _ & B) Hj Hb. destruct (bit b' j) eqn:E; [done|]. destruct (B j E); [congruence|lia]. Qed.

Lemma shrinks_pool x pf b' :
  vm_ok x -> grows (pbits pf x) b' ->
  shrinks x (with_pool pf (mk_pool b' (phy_addr_start (the_pool pf x)) (pool_size (the_pool pf x))) x).
Proof.
  intros Hx Hg.
  assert (Hp : forall pf', grows (pbits pf' x) (pbits pf' x)) by (intros pf'; apply grows_refl, (p_wf _ (vo_pool x Hx pf'))).
  assert (Hv : forall pf', grows (vbits pf' x) (vbits pf' x)) by (intros pf'; apply grows_refl, (vo_vwf x Hx pf')).
  constructor.
  - by destruct pf.
  - by destruct pf.
  - by intros []; destruct pf.
  - by intros []; destruct pf.
  - intros []; destruct pf; try done; try apply (Hp PF_KERNEL); apply (Hp PF_USER).
  - intros []; destruct pf; try apply (Hv PF_KERNEL); apply (Hv PF_USER).
Qed.

Lemma shrinks_vaddr x pf b' :
  vm_ok x -> grows (vbits pf x) b' ->
  shrinks x (with_vaddr pf (mk_vaddr b' (vaddr_start (the_vaddr pf x))) x).
Proof.
  intros Hx Hg.
  assert (Hp : forall pf', grows (pbits pf' x) (pbits pf' x)) by (intros pf'; apply grows_refl, (p_wf _ (vo_pool x Hx pf'))).
  assert (Hv : forall pf', grows (vbits pf' x) (vbits pf' x)) by (intros pf'; apply grows_refl, (vo_vwf x Hx pf')).
  constructor.
  - by destruct pf.
  - by destruct pf.
  - by intros []; destruct pf.
  - by intros []; destruct pf.
  - intros []; destruct pf; try apply (Hp PF_KERNEL); apply (Hp PF_USER).
  - intros []; destruct pf; try done; try apply (Hv PF_KERNEL); apply (Hv PF_USER).
Qed.

(** Mapping a frame that is taken, mapped nowhere, at a page that is not free. *)
Record mappable (x : vm) (v f : Z) : Prop := {
  ma_range : in_range v;
  ma_align : v mod 2 ^ 12 = 0;
  ma_none : trans x v = None;
  ma_vpage : forall pf i, is_free (vbits pf x) i -> vpage pf x i <> v;
  ma_frame : 0 <= f < 2 ^ 32 /\ f mod 2 ^ 12 = 0;
  ma_taken : forall pf i, is_free (pbits pf x) i -> pframe pf x i <> f;
  ma_nowhere : forall w a, in_range w -> trans x w = Some a -> a / 2 ^ 12 * 2 ^ 12 <> f;
  ma_table : present (pde_at (phys x) (cr3 x) v) = true \/ exists i, is_free (pbits PF_KERNEL x) i
}.

(** How the kernel pool and the directory may change when a page is mapped. *)
Definition table_step (x x' : vm) : Prop :=
  (pbits PF_KERNEL x' = pbits PF_KERNEL x \/
   exists i, is_free (pbits PF_KERNEL x) i /\
     forall j, 0 <= j -> bit (pbits PF_KERNEL x') j = (bool_decide (j = i) || bit (pbits PF_KERNEL x) j)) /\
  (forall w, in_range w -> present (pde_at (phys x) (cr3 x) w) = true -> present (pde_at (phys x') (cr3 x') w) = true).

(** The frames the processor reads to translate. *)
Definition is_table (x : vm) (g : Z) : Prop :=
  g = cr3 x \/ exists i, 1 <= i < 1023 /\ present (pread (phys x) (cr3 x + 4 * i)) = true /\ frame_of (pread (phys x) (cr3 x + 4 * i)) = g.

(** The directory does not change, nor does memory outside the tables. *)
Definition same_dir (x x' : vm) : Prop :=
  cr3 x' = cr3 x /\ (forall i, 0 <= i < 1024 -> pread (phys x') (cr3 x + 4 * i) = pread (phys x) (cr3 x + 4 * i)) /\
  (forall a, ~ is_table x (a / 2 ^ 12 * 2 ^ 12) -> pread (phys x') a = pread (phys x) a).

Lemma same_dir_phys x x' : phys x' = phys x -> cr3 x' = cr3 x -> same_dir x x'.
Proof. intros Hm Hc. unfold same_dir. rewrite Hm, Hc. done. Qed.

Lemma same_dir_table x x' g : same_dir x x' -> is_table x' g -> is_table x g.
Proof.
  intros (Hc & Hd & _) [->|(i & Hi & Hp & Hf)]; [by left|]. right. exists i. rewrite Hc, Hd in Hp, Hf by lia. done.
Qed.

Lemma same_dir_trans x y z : same_dir x y -> same_dir y z -> same_dir x z.
Proof.
  intros H1 H2. pose proof H1 as (C1 & D1 & M1). pose proof H2 as (C2 & D2 & M2). split_and!.
  - congruence.
  - intros i Hi. rewrite <- D1 by done. rewrite <- C1. by apply D2.
  - intros a Ha. rewrite M2, M1; [done|done|]. intros Ht. by apply Ha, (same_dir_table x y).
Qed.

Lemma same_dir_fresh x x' f : same_dir x x' -> fresh_frame (phys x) (cr3 x) f -> fresh_frame (phys x') (cr3 x') f.
Proof.
  intros (Hc & Hd & _) [F1 F2 F3 F4]. rewrite Hc. constructor; try done. intros i Hi. rewrite Hd by lia. by apply F4.
Qed.

(** What mapping a page at [v] writes: the entry of [v] in the directory, which then leads
    to a table that was free, and that table. *)
Record table_writes (x x' : vm) (v : Z) : Prop := {
  tw_mem : forall a, a / 2 ^ 12 * 2 ^ 12 <> cr3 x -> a / 2 ^ 12 * 2 ^ 12 <> frame_of (pde_at (phys x') (cr3 x') v) -> pread (phys x') a = pread (phys x) a;
  tw_dir : forall j, 0 <= j < 1024 -> pread (phys x') (cr3 x + 4 * j) = pread (phys x) (cr3 x + 4 * j) \/
    (j = v / 2 ^ 22 /\ exists i, is_free (pbits PF_KERNEL x) i /\ bit (pbits PF_KERNEL x') i = true /\ frame_of (pread (phys x') (cr3 x + 4 * j)) = pframe PF_KERNEL x i);
  tw_table : present (pde_at (phys x') (cr3 x') v) = true
}.

Lemma map_frame_ok x v f :
  vm_ok x -> mappable x v f ->
  exists x', page_table_add x v f = Done x' /\ vm_ok x' /\ cr3 x' = cr3 x /\
    (forall w, in_range w -> trans x' w =
       if decide (w / 2 ^ 12 = v / 2 ^ 12) then Some (f + w mod 2 ^ 12) else trans x w) /\
    (forall pf, the_vaddr pf x' = the_vaddr pf x) /\ user_pool x' = user_pool x /\
    phy_addr_start (kernel_pool x') = phy_addr_start (kernel_pool x) /\
    grows (pbits PF_KERNEL x) (pbits PF_KERNEL x') /\ table_step x x' /\ table_writes x x' v /\
    (present (pde_at (phys x) (cr3 x) v) = true -> same_dir x x').
Proof.
  intros Hx [Hr Ha Hnone Hvp [Hf Hfa] Htk Hnw Htab].
  destruct (page_table_add_spec x v f) as (m' & p' & Hadd & Ht' & Htr & Hws & Hcase); try done.
  { apply (vo_tables x Hx). }
  { apply (vo_pool x Hx PF_KERNEL). }
  { intros i Hi Hb. by apply (vo_fresh x Hx). }
  destruct (range_idx v Hr) as [Hv32 Hvi].
  exists (with_phys m' (with_kpool p' x)). split; [done|]. set (x' := with_phys m' (with_kpool p' x)) in *.
  assert (Hg : grows (pbits PF_KERNEL x) (pool_bitmap p') /\ phy_addr_start p' = phy_addr_start (kernel_pool x)).
  { destruct Hcase as [(-> & _)|(i & b' & -> & Hwf & Hn & _ & _ & Hb & _)].
    - split; [apply grows_refl, (p_wf _ (vo_pool x Hx PF_KERNEL))|done].
    - split; [|done]. by eapply grows_or. }
  destruct Hg as [Hg Hps].
  (* only the bitmaps changed, then only the tables *)
  assert (Hy : vm_ok (with_kpool p' x)).
  { apply (vm_ok_shrinks x); [done|].
    assert (E : forall pf, the_vaddr pf (with_kpool p' x) = the_vaddr pf x) by (by intros []).
    constructor; try done.
    - by intros [].
    - intros []; simpl; [done|apply grows_refl, (p_wf _ (vo_pool x Hx PF_USER))].
    - intros pf. unfold vbits. rewrite E. apply grows_refl, (vo_vwf x Hx pf). }
  assert (Hfree : forall pf i, is_free (pbits pf x') i -> is_free (pbits pf x) i).
  { intros [] i; [by apply (grows_free _ _ _ Hg)|done]. }
  assert (Hpfr : forall pf i, pframe pf x' i = pframe pf x i).
  { intros [] i; [|done]. unfold pframe, frame. simpl. by rewrite Hps. }
  assert (Hpn : forall pf, nbits (pbits pf x') = nbits (pbits pf x)) by (intros []; [apply Hg|done]).
  assert (Hvad : forall pf, the_vaddr pf x' = the_vaddr pf x) by (by intros []).
  split; [|split_and!; try done].
  - destruct Hy as [_ Hpo Hpos _ _ _ Hvw Hus Hk _]. constructor; try done.
    + intros i Hi. destruct (vo_fresh x Hx i (Hfree PF_KERNEL i Hi)) as [F1 F2 F3 F4]. rewrite Hpfr. constructor; try done.
      destruct Hcase as [(_ & _ & Hdir)|(i0 & b' & Hp' & Hwf & Hn & Hi0 & _ & Hb & _ & Hfr0 & _ & Hdir)]; intros j Hj.
      * simpl. rewrite Hdir by lia. by apply F4.
      * simpl. destruct (decide (j = v / 2 ^ 22)) as [->|Hne]; [|rewrite Hdir by lia; by apply F4].
        intros _. fold (pde_at m' (cr3 x) v). rewrite Hfr0. destruct Hi as [Hi Hbi].
        unfold pbits in Hi, Hbi. simpl in Hi, Hbi. rewrite Hp' in Hi, Hbi. simpl in Hi, Hbi. rewrite Hb in Hbi by lia.
        apply orb_false_iff in Hbi as [E%bool_decide_eq_false _]. unfold pframe, frame, PG_SIZE. simpl. lia.
    + intros pf i w a Hi Hw. rewrite Hpfr. unfold trans. simpl. rewrite Htr by done. case_decide as E.
      * intros [= <-]. intros E2. destruct (Htk pf i (Hfree pf i Hi)). rewrite <- E2. zdiv.
      * apply (vo_unmapped x Hx); [by apply Hfree|done].
    + intros pf i w1 w2 a1 a2. rewrite Hpn, Hpfr. intros Hi Hw1 Hw2. unfold trans. simpl. rewrite !Htr by done.
      case_decide as E1; case_decide as E2.
      * congruence.
      * intros [= <-] H2 A1 A2. destruct (Hnw w2 a2 Hw2 H2). rewrite A2, <- A1. zdiv.
      * intros H1 [= <-] A1 A2. destruct (Hnw w1 a1 Hw1 H1). rewrite A1, <- A2. zdiv.
      * by apply (vo_inj x Hx pf i).
    + intros pf i Hi. unfold vbits in Hi. rewrite Hvad in Hi.
      assert (Hq : vpage pf x' i = vpage pf x i) by (unfold vpage; by rewrite Hvad). rewrite Hq.
      destruct (vpage_in x pf i Hx) as [Hin Hal]; [apply Hi|]. unfold trans. simpl. rewrite Htr by done.
      rewrite decide_False; [by apply (vo_virt x Hx)|]. intros E. apply (Hvp pf i Hi). zdiv.
  - destruct Hcase as [(Hp' & _ & Hdir)|(i & b' & Hp' & Hwf & Hn & Hi & Hbi & Hb & _ & _ & Hpr & Hdir)]; split.
    + left. unfold pbits. simpl. by rewrite Hp'.
    + intros w Hw. unfold pde_at. simpl. destruct (range_idx w Hw). by rewrite Hdir by lia.
    + right. exists i. unfold pbits. simpl. rewrite Hp'. simpl. split; [split; [lia|done]|done].
    + intros w Hw. unfold pde_at in *. simpl. destruct (range_idx w Hw).
      destruct (decide (w / 2 ^ 22 = v / 2 ^ 22)) as [->|]; [done|]. by rewrite Hdir by lia.
  - constructor; [exact Hws| |].
    + intros j Hj. destruct Hcase as [(_ & _ & Hdir)|(i & b' & Hp' & Hwf & Hn & Hi & Hbi & Hb & _ & Hfr & _ & Hdir)]; [left; by apply Hdir|].
      destruct (decide (j = v / 2 ^ 22)) as [->|Hne]; [|left; by apply Hdir]. right. split; [done|]. exists i. split; [split; [unfold pbits; simpl; lia|done]|].
      unfold pbits. simpl. rewrite Hp'. simpl. split; [by rewrite Hb, bool_decide_true by lia|done].
    + destruct Hcase as [(_ & Hp & Hdir)|(i & b' & _ & _ & _ & _ & _ & _ & _ & _ & Hpr & _)]; [|done]. unfold pde_at in *. simpl. rewrite Hdir by lia. done.
  - intros Hpres. destruct Hcase as [(_ & _ & Hdir)|(i & b' & _ & _ & _ & _ & _ & _ & Hnp & _)]; [|congruence].
    split; [done|]. split; [done|]. intros a Hna. apply Hws; [intros E; apply Hna; by left|]. intros E. apply Hna. right. exists (v / 2 ^ 22).
    split; [lia|]. split; [done|]. rewrite E. unfold pde_at. simpl. by rewrite Hdir by lia.
Qed.

(** ** Allocating pages *)
Lemma set_run_spec b start n v :
  bitmap_wf b -> 0 <= start -> start + Z.of_nat n <= nbits b -> v = 0 \/ v = 1 ->
  exists b', bitmap_set_run b start n v = Done b' /\ bitmap_wf b' /\ nbits b' = nbits b /\
    forall j, 0 <= j -> bit b' j = if decide (start <= j < start + Z.of_nat n) then bool_decide (v = 1) else bit b j.
Proof.
  revert b start. induction n as [|n IH]; intros b start Hwf Hs He Hv; cbn [bitmap_set_run].
  - exists b. split_and!; try done. intros j Hj. by rewrite decide_False by lia.
  - destruct (bitmap_set_spec b start v) as (b1 & -> & Hwf1 & Hn1 & _ & Hb1); [done|lia|done|]. rewrite bind_done.
    destruct (IH b1 (start + 1)) as (b2 & -> & Hwf2 & Hn2 & Hb2); [done|lia|lia|done|].
    exists b2. split_and!; try done; [lia|]. intros j Hj. rewrite Hb2, Hb1 by done.
    destruct (decide (start + 1 <= j < start + 1 + Z.of_nat n)), (decide (start <= j < start + Z.of_nat (S n))), (decide (j = start));
      try done; lia.
Qed.

Lemma vaddr_get_spec x pf n :
  vm_ok x -> 1 <= n < 3840 ->
  (vaddr_get x pf n = Done (0, x) /\ forall i, ~ free_run (vbits pf x) i n) \/
  (exists i x', vaddr_get x pf n = Done (vpage pf x i, x') /\ vpage pf x i <> 0 /\ vm_ok x' /\ shrinks x x' /\
     free_run (vbits pf x) i n /\ the_pool PF_KERNEL x' = the_pool PF_KERNEL x /\ the_pool PF_USER x' = the_pool PF_USER x /\
     forall j, 0 <= j -> bit (vbits pf x') j = if decide (i <= j < i + n) then true else bit (vbits pf x) j).
Proof.
  intros Hx Hn. unfold vaddr_get. fold (vbits pf x). destruct (vo_vwf x Hx pf) as [Hwf Hal].
  destruct (scan_spec (vbits pf x) n) as (r & -> & Hff); [done|lia|]. rewrite bind_done.
  destruct Hff as [[-> Hno]|[(Hr0 & Hre & Hz) _]]; [by left|]. right.
  destruct (Z.eqb_spec r (-1)); [lia|].
  destruct (set_run_spec (vbits pf x) r (Z.to_nat n) 1) as (b' & -> & Hwf' & Hnb & Hb); [done|lia|lia|by right|].
  rewrite bind_done. rewrite Z2Nat.id in Hb by lia.
  assert (Hfree : is_free (vbits pf x) r) by (split; [lia|apply Hz; lia]).
  destruct (vpage_in x pf r Hx) as [Hin Hpa]; [lia|].
  assert (Hv : u32 (vaddr_start (the_vaddr pf x) + r * PG_SIZE) = vpage pf x r).
  { unfold in_range, vpage in *. rewrite u32_small; lia. }
  rewrite Hv. assert_ok.
  2: { destruct pf; [done|]. simpl. apply Z.ltb_lt. by apply (vo_user x Hx). }
  assert (Hg : grows (vbits pf x) b').
  { split_and!; try done. intros j Hj. destruct (decide (j < 0)); [by right|]. rewrite Hb in Hj by lia.
    case_decide; [done|by left]. }
  assert (Hsh := shrinks_vaddr x pf b' Hx Hg).
  eexists r, _. split; [done|]. split; [unfold in_range in Hin; lia|]. split; [by eapply vm_ok_shrinks|]. split; [done|].
  split; [done|]. split; [by destruct pf|]. split; [by destruct pf|].
  intros j Hj. assert (E : vbits pf (with_vaddr pf (mk_vaddr b' (vaddr_start (the_vaddr pf x))) x) = b') by (by destruct pf).
  rewrite E, Hb by done. done.
Qed.

(** How many frames of a pool are free. *)
Definition nfree (b : bitmap) : nat := length (filter (fun i => bit b i = false) (seqZ 0 (nbits b))).

Lemma nfree_pos b : (0 < nfree b)%nat -> exists i, is_free b i.
Proof.
  unfold nfree. destruct (filter _ _) as [|i l] eqn:E; simpl; [lia|]. intros _.
  assert (Hi : i ∈ filter (fun i => bit b i = false) (seqZ 0 (nbits b))) by (rewrite E; by left).
  apply list_elem_of_filter in Hi as [Hb Hi%elem_of_seqZ]. exists i. split; [lia|done].
Qed.

(** Bits that are set or cleared, counted. *)
Lemma nfree_less b b' (l : list Z) :
  nbits b' = nbits b -> (forall j, 0 <= j < nbits b -> bit b j = false -> bit b' j = true -> j ∈ l) -> (nfree b <= length l + nfree b')%nat.
Proof.
  intros Hn Hl. unfold nfree. rewrite Hn, <- length_app. apply submseteq_length, NoDup_submseteq; [apply NoDup_filter, NoDup_seqZ|].
  intros j [Hf Hj]%list_elem_of_filter. apply elem_of_app. destruct (bit b' j) eqn:E; [left; apply Hl; [apply elem_of_seqZ in Hj; lia|done..]|right; by apply list_elem_of_filter].
Qed.

Lemma nfree_more b b' (l : list Z) :
  nbits b' = nbits b -> NoDup l -> (forall j, j ∈ l -> 0 <= j < nbits b /\ bit b j = true /\ bit b' j = false) ->
  (forall j, 0 <= j < nbits b -> bit b j = false -> bit b' j = false) -> (nfree b + length l <= nfree b')%nat.
Proof.
  intros Hn Hnd Hl Hk. unfold nfree. rewrite Hn, Nat.add_comm, <- length_app. apply submseteq_length, NoDup_submseteq.
  - apply NoDup_app. split; [done|]. split; [|apply NoDup_filter, NoDup_seqZ]. intros j Hj [Hf _]%list_elem_of_filter. destruct (Hl j Hj) as (_ & Ht & _). congruence.
  - intros j [Hj|[Hf Hj]%list_elem_of_filter]%elem_of_app; apply list_elem_of_filter.
    + destruct (Hl j Hj) as (Hr & _ & Hf). split; [done|]. apply elem_of_seqZ. lia.
    + split; [|done]. apply elem_of_seqZ in Hj. apply Hk; [lia|done].
Qed.

Lemma nfree_take b b' i :
  nbits b' = nbits b -> (forall j, 0 <= j -> bit b' j = (bool_decide (j = i) || bit b j)) -> (nfree b <= S (nfree b'))%nat.
Proof.
  intros Hn Hb. apply (nfree_less b b' [i] Hn). intros j Hj Hf. rewrite Hb, Hf, orb_false_r by lia. intros ->%bool_decide_eq_true_1. by left.
Qed.

Lemma nfree_none b i : nfree b = 0%nat -> ~ is_free b i.
Proof.
  unfold nfree. intros E [Hr Hf]. apply length_zero_iff_nil in E. assert (Hin : i ∈ filter (fun i => bit b i = false) (seqZ 0 (nbits b))); [|rewrite E in Hin; by apply elem_of_nil in Hin].
  apply list_elem_of_filter. split; [done|]. apply elem_of_seqZ. lia.
Qed.

(** The tables of the pages are there, or there are kernel frames for them. *)
Definition tables_ready (x : vm) (pf : pool_flags) (v : Z) (n : nat) : Prop :=
  (forall k, 0 <= k < Z.of_nat n -> present (pde_at (phys x) (cr3 x) (v + PG_SIZE * k)) = true) \/
  (pf = PF_USER /\ (n <= nfree (pbits PF_KERNEL x))%nat).

(** [n] pages from [v] on, to be mapped. *)
Definition pages_open (x : vm) (v : Z) (n : nat) : Prop :=
  v mod 2 ^ 12 = 0 /\ forall k, 0 <= k < Z.of_nat n ->
    in_range (v + PG_SIZE * k) /\ trans x (v + PG_SIZE * k) = None /\
    forall pf i, is_free (vbits pf x) i -> vpage pf x i <> v + PG_SIZE * k.

(** A page table that is there costs no frame. *)
Lemma add_keeps_pool x v pa x' :
  tables_ok (phys x) (cr3 x) -> in_range v -> present (pde_at (phys x) (cr3 x) v) = true -> page_table_add x v pa = Done x' -> kernel_pool x' = kernel_pool x.
Proof.
  intros Ht Hv Hp. destruct (range_idx v Hv) as [Hv32 _]. unfold page_table_add. rewrite vread_pde, bind_done by done. rewrite land1_present, Hp. cbn [negb].
  rewrite vread_pte, bind_done by done. destruct (Z.land _ 1 =? 0); [|done]. unfold ASSERT. rewrite bind_done, vwrite_pte by done. by intros [= <-].
Qed.

Lemma map_pages_ok n x pf v :
  vm_ok x -> pages_open x v n -> tables_ready x pf v n ->
  exists ok x', map_pages x pf v n = Done (ok, x') /\ vm_ok x' /\
    (forall pf', the_vaddr pf' x' = the_vaddr pf' x) /\
    (forall pf', grows (pbits pf' x) (pbits pf' x') /\ phy_addr_start (the_pool pf' x') = phy_addr_start (the_pool pf' x)) /\
    (forall w, in_range w -> ~ (v <= w < v + PG_SIZE * Z.of_nat n) -> trans x' w = trans x w) /\
    (ok = true -> forall k, 0 <= k < Z.of_nat n -> exists i, is_free (pbits pf x) i /\ trans x' (v + PG_SIZE * k) = Some (pframe pf x i)) /\
    ((forall k, 0 <= k < Z.of_nat n -> present (pde_at (phys x) (cr3 x) (v + PG_SIZE * k)) = true) ->
       same_dir x x' /\ (nfree (pbits pf x) <= n + nfree (pbits pf x'))%nat).
Proof.
  revert x v. induction n as [|n IH]; intros x v Hx [Hal Hop] Htab; cbn [map_pages].
  - exists true, x. split_and!; try done; try lia. intros pf'. split; [|done]. apply grows_refl, (p_wf _ (vo_pool x Hx pf')).
  - destruct (vo_pool x Hx pf) as [Hpw [Hps Hpa] Hpe].
    destruct (palloc_spec (the_pool pf x)) as [(i & b' & -> & Hwf' & Hn' & Hi & Hf & Hb)|[-> _]]; [done..| |].
    2: { rewrite bind_done. simpl. exists false, x. split_and!; try done; [intros pf'; split; [|done]; apply grows_refl, (p_wf _ (vo_pool x Hx pf'))|].
         intros _. split; [by apply same_dir_phys|lia]. }
    rewrite bind_done. cbn [fst snd]. fold (frame (the_pool pf x) i). fold (pframe pf x i).
    destruct (frame_aligned_pool x pf i Hx Hi) as [Hfr Hfa].
    destruct (Z.eqb_spec (pframe pf x i) 0); [lia|].
    assert (Hg : grows (pbits pf x) b') by (by eapply grows_or).
    assert (Hsh := shrinks_pool x pf b' Hx Hg). assert (Hx1 := vm_ok_shrinks _ _ Hx Hsh).
    set (x1 := with_pool pf _ x) in *. destruct Hsh as [Em Ec Eps Evs Epb Evb].
    assert (Hva1 : forall pf', the_vaddr pf' x1 = the_vaddr pf' x) by (by intros []; destruct pf).
    assert (Htr1 : forall w, trans x1 w = trans x w) by (intros w; unfold trans; by rewrite Em, Ec).
    assert (Hpfr1 : forall pf' j, pframe pf' x1 j = pframe pf' x j) by (intros pf' j; unfold pframe, frame; by rewrite Eps).
    assert (Hb1 : pbits pf x1 = b') by (by destruct pf).
    destruct (Hop 0) as (Hr0 & Hn0 & Hv0); [lia|]. rewrite Z.mul_0_r, Z.add_0_r in Hr0, Hn0, Hv0.
    assert (Hk1 : pf = PF_USER -> pbits PF_KERNEL x1 = pbits PF_KERNEL x) by (by intros ->).
    destruct (map_frame_ok x1 v (pframe pf x i)) as (x2 & Hadd & Hx2 & Hc2 & Htr2 & Hva2 & Hup2 & Hks2 & Hg2 & Hts2 & _ & Hsd2); [done| |].
    { constructor; try done.
      - by rewrite Htr1.
      - intros pf' j. unfold vbits, vpage. rewrite Hva1. by apply Hv0.
      - split; [lia|done].
      - intros pf' j Hj. rewrite Hpfr1. intros E.
        apply (pframe_inj x pf' j pf i Hx) in E as [-> ->]; [|pose proof (proj1 Hj) as Q; rewrite <- (proj1 (proj2 (Epb pf'))); done|done].
        destruct Hj as [Hj Hbj]. rewrite Hb1, Hb, bool_decide_true in Hbj by lia. done.
      - intros w a Hw. rewrite Htr1. intros Hwa. by apply (vo_unmapped x Hx pf i w a).
      - rewrite Em, Ec. destruct Htab as [Hp|[-> Hnf]].
        + left. specialize (Hp 0 ltac:(lia)). by rewrite Z.mul_0_r, Z.add_0_r in Hp.
        + right. rewrite Hk1 by done. apply nfree_pos. lia. }
    rewrite Hadd, bind_done.
    assert (Hnext : v + PG_SIZE < 2 ^ 32) by (unfold in_range, PG_SIZE in *; lia).
    assert (Hv1 : u32 (v + PG_SIZE) = v + PG_SIZE) by (apply u32_small; unfold in_range, PG_SIZE in *; lia).
    rewrite Hv1.
    assert (Hgk : grows (pbits PF_KERNEL x) (pbits PF_KERNEL x2)).
    { destruct (Epb PF_KERNEL) as (W1 & N1 & B1), Hg2 as (W2 & N2 & B2). split_and!; [done|congruence|].
      intros j Hj. destruct (B2 j Hj) as [Hj'|]; [by apply B1|by right]. }
    assert (Hgrow : forall pf', grows (pbits pf' x) (pbits pf' x2)).
    { intros []; [done|]. unfold pbits at 2. simpl. rewrite Hup2. apply (Epb PF_USER). }
    assert (Hst2 : forall pf', phy_addr_start (the_pool pf' x2) = phy_addr_start (the_pool pf' x)).
    { intros []; simpl; [rewrite Hks2; apply (Eps PF_KERNEL)|rewrite Hup2; apply (Eps PF_USER)]. }
    assert (Hva : forall pf', the_vaddr pf' x2 = the_vaddr pf' x) by (intros pf'; by rewrite Hva2, Hva1).
    assert (Htr : forall w, in_range w -> w / 2 ^ 12 <> v / 2 ^ 12 -> trans x2 w = trans x w).
    { intros w Hw Hne. rewrite Htr2 by done. rewrite decide_False by done. apply Htr1. }
    destruct (IH x2 (v + PG_SIZE)) as (ok & x3 & -> & Hx3 & Hva3 & Hg3 & Htr3 & Hok3 & Hsd3); [done| | |].
    { split; [unfold PG_SIZE; zdiv|]. intros k Hk. destruct (Hop (k + 1)) as (Hr1 & Hn1 & Hf1); [lia|].
      replace (v + PG_SIZE + PG_SIZE * k) with (v + PG_SIZE * (k + 1)) by lia. split; [done|]. split.
      - rewrite Htr; [done|done|]. unfold PG_SIZE. zdiv.
      - intros pf' j. unfold vbits, vpage. rewrite Hva. by apply Hf1. }
    { destruct Htab as [Hp|[-> Hnf]].
      - left. intros k Hk. replace (v + PG_SIZE + PG_SIZE * k) with (v + PG_SIZE * (k + 1)) by lia.
        apply Hts2; [apply Hop; lia|]. rewrite Em, Ec. apply Hp. lia.
      - right. split; [done|]. destruct Hts2 as [[E|(i0 & Hi0 & Hbits)] _].
        + rewrite E, Hk1 by done. lia.
        + rewrite Hk1 in Hbits by done. pose proof (nfree_take _ _ i0 (proj1 (proj2 Hgk)) Hbits). lia. }
    exists ok, x3. split; [done|]. split; [done|]. split; [intros pf'; by rewrite Hva3, Hva|]. split; [|split; [|split]].
    + intros pf'. destruct (Hg3 pf') as [(W3 & N3 & B3) S3], (Hgrow pf') as (W2 & N2 & B2). split.
      * split_and!; [done|congruence|]. intros j Hj. destruct (B3 j Hj); [by apply B2|by right].
      * by rewrite S3, Hst2.
    + intros w Hw Hout. rewrite Htr3; [|done|unfold PG_SIZE in *; lia]. apply Htr; [done|].
      intros E. unfold PG_SIZE in *. zdiv.
    + intros Hok k Hk. destruct (decide (k = 0)) as [->|Hk0].
      * exists i. split; [by split|]. rewrite Z.mul_0_r, Z.add_0_r. rewrite Htr3; [|done|unfold PG_SIZE; lia].
        rewrite Htr2, decide_True by done. do 2 f_equal. zdiv.
      * destruct (Hok3 Hok (k - 1)) as (i' & Hi' & Ht'); [lia|]. exists i'. split; [by apply (grows_free _ _ _ (Hgrow pf))|].
        replace (v + PG_SIZE * k) with (v + PG_SIZE + PG_SIZE * (k - 1)) by lia. rewrite Ht'.
        unfold pframe, frame. by rewrite Hst2.
    + intros Hp. assert (Hd2 : same_dir x1 x2).
      { apply Hsd2. rewrite Em, Ec. specialize (Hp 0 ltac:(lia)). by rewrite Z.mul_0_r, Z.add_0_r in Hp. }
      destruct Hsd3 as [Hd3 Hn3].
      { intros k Hk. replace (v + PG_SIZE + PG_SIZE * k) with (v + PG_SIZE * (k + 1)) by lia. apply Hts2; [apply Hop; lia|]. rewrite Em, Ec. apply Hp. lia. }
      split; [apply (same_dir_trans _ x1); [by apply same_dir_phys|]; by apply (same_dir_trans _ x2)|].
      assert (E2 : pbits pf x2 = b').
      { rewrite <- Hb1. unfold pbits. destruct pf; cbn [the_pool]; [|by rewrite Hup2]. f_equal. eapply add_keeps_pool; [apply (vo_tables x1 Hx1)|exact Hr0| |exact Hadd].
        rewrite Em, Ec. specialize (Hp 0 ltac:(lia)). by rewrite Z.mul_0_r, Z.add_0_r in Hp. }
      rewrite E2 in Hn3. pose proof (nfree_take (pbits pf x) b' i Hn' Hb). lia.
Qed.

(** ** Freeing pages *)
Lemma trans_pte x v a :
  vm_ok x -> in_range v -> trans x v = Some a ->
  present (pde_at (phys x) (cr3 x) v) = true /\ present (pte_at (phys x) (cr3 x) v) = true /\
  a = frame_of (pte_at (phys x) (cr3 x) v) + v mod 2 ^ 12.
Proof.
  intros Hx Hv. unfold trans, translate. destruct (present (pde_at _ _ _)); [|done].
  destruct (present (pte_at _ _ _)); [|done]. by intros [= <-].
Qed.

Lemma addr_v2p_spec x v a : vm_ok x -> in_range v -> trans x v = Some a -> addr_v2p x v = Done a.
Proof.
  intros Hx Hv Ht. destruct (trans_pte x v a Hx Hv Ht) as (Hd & Hp & ->). destruct (range_idx v Hv) as [Hv32 _].
  unfold addr_v2p. rewrite vread_pte, bind_done by (done || apply (vo_tables x Hx)).
  fold (frame_of (pte_at (phys x) (cr3 x) v)). change 0x00000fff with (Z.ones 12). rewrite Z.land_ones by lia.
  pose proof (frame_aligned (phys x) (cr3 x) (pte_addr (phys x) (cr3 x) v) (vo_tables x Hx)) as Hf.
  fold (pte_at (phys x) (cr3 x) v) in Hf. f_equal. apply u32_small. zdiv.
Qed.

Lemma pfree_spec x pf i :
  vm_ok x -> 0 <= i < nbits (pbits pf x) ->
  exists b', pfree x (pframe pf x i) = Done (with_pool pf (mk_pool b' (phy_addr_start (the_pool pf x)) (pool_size (the_pool pf x))) x) /\
    bitmap_wf b' /\ nbits b' = nbits (pbits pf x) /\
    forall j, 0 <= j -> bit b' j = if decide (j = i) then false else bit (pbits pf x) j.
Proof.
  intros Hx Hi. destruct (vo_pool x Hx pf) as [Hwf [Hs Ha] He]. pose proof (vo_pools x Hx) as Hps.
  destruct (bitmap_set_spec (pbits pf x) i 0) as (b' & Hset & Hwf' & Hn' & _ & Hb); [done|done|by left|].
  exists b'. split; [|done]. unfold pfree.
  assert (Hpf : (if phy_addr_start (user_pool x) <=? pframe pf x i then PF_USER else PF_KERNEL) = pf).
  { unfold pframe, frame, pbits, PG_SIZE in *. destruct pf; simpl in *; case_match eqn:E; try done;
      apply Z.leb_le in E || apply Z.leb_gt in E; lia. }
  rewrite Hpf.
  assert (Hidx : u32 (pframe pf x i - phy_addr_start (the_pool pf x)) / PG_SIZE = i).
  { unfold pframe, frame, PG_SIZE, pbits in *. rewrite u32_small by lia. zdiv. }
  rewrite Hidx. fold (pbits pf x). by rewrite Hset.
Qed.

Lemma pte_remove_spec x v :
  tables_ok (phys x) (cr3 x) -> in_range v -> present (pde_at (phys x) (cr3 x) v) = true ->
  exists m', page_table_pte_remove x v = Done (with_phys m' x) /\ tables_ok m' (cr3 x) /\
    same_dir x (with_phys m' x) /\
    forall w, in_range w -> translate m' (cr3 x) w =
      if decide (w / 2 ^ 12 = v / 2 ^ 12) then None else translate (phys x) (cr3 x) w.
Proof.
  intros Ht Hv Hp. destruct (range_idx v Hv) as [Hv32 Hvi].
  unfold page_table_pte_remove. rewrite vread_pte, bind_done, vwrite_pte by done.
  set (e := u32 _). assert (He : 0 <= e < 2 ^ 32) by apply u32_range.
  assert (Hne : present e = false).
  { unfold present, e, u32. rewrite Z.mod_pow2_bits_low by lia. rewrite Z.land_spec. by rewrite andb_false_r. }
  destruct (write_pte (phys x) (cr3 x) v e) as (Ht' & Hd & Htr); [done..|].
  eexists. split; [done|]. split; [done|]. split; [|intros w Hw; rewrite Htr by done; by rewrite Hne].
  split; [done|]. split; [done|]. intros a Ha. simpl. rewrite pread_insert, decide_False; [done|]. intros ->. apply Ha. right.
  exists (v / 2 ^ 22). split; [lia|]. split; [done|]. symmetry. by apply pte_frame.
Qed.

(** Unmapping one page and giving its frame back. *)
Lemma unmap_one x pf v i :
  vm_ok x -> in_range v -> v mod 2 ^ 12 = 0 -> 0 <= i < nbits (pbits pf x) -> trans x v = Some (pframe pf x i) ->
  (pf = PF_KERNEL -> fresh_frame (phys x) (cr3 x) (pframe pf x i)) ->
  exists x1 x2, pfree x (pframe pf x i) = Done x1 /\ page_table_pte_remove x1 v = Done x2 /\ vm_ok x2 /\
    (forall w, in_range w -> trans x2 w = if decide (w / 2 ^ 12 = v / 2 ^ 12) then None else trans x w) /\
    (forall pf', the_vaddr pf' x2 = the_vaddr pf' x) /\
    (forall pf', phy_addr_start (the_pool pf' x2) = phy_addr_start (the_pool pf' x)) /\
    (forall pf', nbits (pbits pf' x2) = nbits (pbits pf' x)) /\
    (forall pf' j, 0 <= j -> bit (pbits pf' x2) j = if decide (pf' = pf /\ j = i) then false else bit (pbits pf' x) j) /\
    same_dir x x2.
Proof.
  intros Hx Hv Hal Hi Htr Hff. destruct (trans_pte x v _ Hx Hv Htr) as (Hpd & _ & _).
  destruct (pfree_spec x pf i Hx Hi) as (b' & Hpfree & Hwf' & Hn' & Hb).
  set (x1 := with_pool pf _ x) in *.
  assert (Em : phys x1 = phys x) by (by destruct pf). assert (Ec : cr3 x1 = cr3 x) by (by destruct pf).
  destruct (pte_remove_spec x1 v) as (m' & Hrem & Ht' & Hsd & Htr'); [rewrite ?Em, ?Ec; try done; apply (vo_tables x Hx)|done|by rewrite Em, Ec|].
  assert (Hsd' : same_dir x (with_phys m' x1)) by (apply (same_dir_trans _ x1); [by apply same_dir_phys|done]).
  rewrite Em, Ec in *. exists x1, (with_phys m' x1). split; [done|]. split; [done|].
  assert (Hbits : forall pf' j, 0 <= j -> bit (pbits pf' x1) j = if decide (pf' = pf /\ j = i) then false else bit (pbits pf' x) j).
  { intros pf' j Hj. destruct (decide (pf' = pf)) as [->|Hne].
    - assert (E : pbits pf x1 = b') by (by destruct pf). rewrite E, Hb by done.
      destruct (decide (j = i)); [by rewrite decide_True|rewrite decide_False by naive_solver; done].
    - rewrite decide_False by naive_solver. by destruct pf, pf'. }
  assert (Hnb : forall pf', nbits (pbits pf' x1) = nbits (pbits pf' x)) by (by intros []; destruct pf).
  assert (Hva : forall pf', the_vaddr pf' x1 = the_vaddr pf' x) by (by intros []; destruct pf).
  assert (Hst : forall pf', phy_addr_start (the_pool pf' x1) = phy_addr_start (the_pool pf' x)) by (by intros []; destruct pf).
  assert (Hpf1 : forall pf' j, pframe pf' (with_phys m' x1) j = pframe pf' x j).
  { intros pf' j. unfold pframe, frame. change (the_pool pf' (with_phys m' x1)) with (the_pool pf' x1). by rewrite Hst. }
  assert (Hfree : forall pf' j, is_free (pbits pf' x1) j -> (pf' = pf /\ j = i) \/ is_free (pbits pf' x) j).
  { intros pf' j [Hj Hbj]. rewrite Hnb in Hj. rewrite Hbits in Hbj by lia. case_decide; [by left|right; by split]. }
  assert (Hneq : forall w, in_range w -> w / 2 ^ 12 <> v / 2 ^ 12 -> forall a, trans x w = Some a -> a / 2 ^ 12 * 2 ^ 12 <> pframe pf x i).
  { intros w Hw Hne a Hwa E. destruct (frame_aligned_pool x pf i Hx Hi) as [_ Hfa].
    apply Hne. apply (vo_inj x Hx pf i w v a (pframe pf x i)); try done. zdiv. }
  split; [|split; [intros w Hw; unfold trans; cbn [phys cr3 with_phys]; rewrite Ec; by apply Htr'|by split_and!]].
  destruct Hx as [Ht Hp Hps Hf Hu Hinj Hvw Hus Hk Hvi]. constructor.
  - by change (cr3 (with_phys m' x1)) with (cr3 x1); rewrite Ec.
  - intros pf'. change (the_pool pf' (with_phys m' x1)) with (the_pool pf' x1). destruct (Hp pf') as [P1 P2 P3]. constructor.
    + destruct (decide (pf' = pf)) as [->|]; [by destruct pf|by destruct pf, pf'].
    + by rewrite Hst.
    + rewrite Hst. fold (pbits pf' x1). by rewrite Hnb.
  - pose proof (Hst PF_KERNEL) as E1. pose proof (Hst PF_USER) as E2. simpl in E1, E2.
    change (pbits PF_KERNEL (with_phys m' x1)) with (pbits PF_KERNEL x1). rewrite Hnb.
    cbn [kernel_pool user_pool with_phys]. by rewrite E1, E2.
  - intros j Hj. rewrite Hpf1. change (cr3 (with_phys m' x1)) with (cr3 x1). rewrite Ec.
    assert (Hff' : fresh_frame (phys x) (cr3 x) (pframe PF_KERNEL x j)).
    { destruct (Hfree PF_KERNEL j Hj) as [[<- ->]|]; auto. }
    destruct Hff' as [F1 F2 F3 F4]. constructor; try done. intros k Hk'. destruct Hsd' as (_ & Hdir & _). rewrite Hdir by lia. by apply F4.
  - intros pf' j w a Hj Hw. rewrite Hpf1. unfold trans. cbn [phys cr3 with_phys]. rewrite Ec, Htr' by done.
    case_decide as E; [done|]. intros Hwa. destruct (Hfree pf' j Hj) as [[-> ->]|Hold]; [by eapply Hneq|by eapply Hu].
  - intros pf' j w1 w2 a1 a2. change (pbits pf' (with_phys m' x1)) with (pbits pf' x1). rewrite Hnb, Hpf1.
    intros Hj Hw1 Hw2. unfold trans. cbn [phys cr3 with_phys]. rewrite Ec, !Htr' by done.
    case_decide; [done|]. case_decide; [done|]. by apply (Hinj pf' j).
  - intros pf'. change (the_vaddr pf' (with_phys m' x1)) with (the_vaddr pf' x1). unfold vbits. 
    change (the_vaddr pf' (with_phys m' x1)) with (the_vaddr pf' x1). rewrite Hva. apply Hvw.
  - unfold vpage, vbits in *. change (the_vaddr PF_USER (with_phys m' x1)) with (the_vaddr PF_USER x1). by rewrite Hva.
  - unfold vpage, vbits in *. change (the_vaddr PF_KERNEL (with_phys m' x1)) with (the_vaddr PF_KERNEL x1). by rewrite Hva.
  - intros pf' j. unfold vpage, vbits. change (the_vaddr pf' (with_phys m' x1)) with (the_vaddr pf' x1). rewrite Hva.
    intros Hj. fold (vbits pf' x) in Hj. fold (vpage pf' x j). unfold trans. cbn [phys cr3 with_phys].
    assert (Hin : in_range (vpage pf' x j)).
    { destruct Hj as [Hj _]. unfold in_range, vpage, vbits, PG_SIZE in *. destruct pf'; simpl in *; lia. }
    rewrite Ec, Htr' by done. case_decide; [done|]. by apply Hvi.
Qed.

(** [n] pages from [v] on hold frames of the pool [pf] that may be given back. *)
Definition pages_held (x : vm) (pf : pool_flags) (v : Z) (n : nat) : Prop :=
  v mod 2 ^ 12 = 0 /\ forall k, 0 <= k < Z.of_nat n ->
    in_range (v + PG_SIZE * k) /\ exists i, 0 <= i < nbits (pbits pf x) /\
      trans x (v + PG_SIZE * k) = Some (pframe pf x i) /\
      (pf = PF_KERNEL -> fresh_frame (phys x) (cr3 x) (pframe pf x i)).

Lemma unmap_pages_ok n x pf v lo hi :
  vm_ok x -> pages_held x pf v n -> lo <= pframe pf x 0 -> pframe pf x (nbits (pbits pf x)) <= hi ->
  exists x', unmap_pages x v n lo hi = Done x' /\ vm_ok x' /\
    (forall w, in_range w -> trans x' w = if decide (v <= w < v + PG_SIZE * Z.of_nat n) then None else trans x w) /\
    (forall pf', the_vaddr pf' x' = the_vaddr pf' x) /\
    (forall pf' j, pframe pf' x' j = pframe pf' x j) /\ (forall pf', nbits (pbits pf' x') = nbits (pbits pf' x)) /\
    (forall pf' j, is_free (pbits pf' x) j -> is_free (pbits pf' x') j) /\
    (forall k, 0 <= k < Z.of_nat n -> exists i, trans x (v + PG_SIZE * k) = Some (pframe pf x i) /\ is_free (pbits pf x') i) /\
    same_dir x x' /\ (nfree (pbits pf x) + n <= nfree (pbits pf x'))%nat.
Proof.
  revert x v. induction n as [|n IH]; intros x v Hx [Hal Hh] Hlo Hhi; cbn [unmap_pages].
  - exists x. split; [done|]. split; [done|]. split; [intros w Hw; by rewrite decide_False by lia|].
    split_and!; try done; lia.
  - destruct (Hh 0) as (Hr & i & Hi & Ht & Hff); [lia|]. rewrite Z.mul_0_r, Z.add_0_r in Hr, Ht.
    destruct (frame_aligned_pool x pf i Hx Hi) as [Hfr Hfa].
    rewrite (addr_v2p_spec x v (pframe pf x i)), bind_done by done.
    assert_ok.
    2: { assert (Hm : pframe pf x i mod PG_SIZE = 0) by exact Hfa. rewrite Hm.
         unfold pframe, frame, PG_SIZE in *. apply andb_true_intro. split.
         - apply andb_true_intro. split; [done|]. apply Z.leb_le. lia.
         - apply Z.ltb_lt. lia. }
    destruct (unmap_one x pf v i) as (x1 & x2 & -> & Hrem & Hx2 & Htr2 & Hva2 & Hst2 & Hnb2 & Hb2 & Hsd2); [done..|].
    rewrite bind_done, Hrem, bind_done.
    assert (Hfr2 : forall pf' j, pframe pf' x2 j = pframe pf' x j) by (intros; unfold pframe, frame; by rewrite Hst2).
    assert (Hv1 : u32 (v + PG_SIZE) = v + PG_SIZE) by (apply u32_small; unfold in_range, PG_SIZE in *; lia).
    rewrite Hv1. destruct (IH x2 (v + PG_SIZE)) as (x3 & -> & Hx3 & Htr3 & Hva3 & Hfr3 & Hnb3 & Hk3 & Hf3 & Hsd3 & Hn3); [done| |by rewrite Hfr2|by rewrite Hfr2, Hnb2|].
    { split; [unfold PG_SIZE; zdiv|]. intros k Hk. destruct (Hh (k + 1)) as (Hr1 & i1 & Hi1 & Ht1 & Hff1); [lia|].
      replace (v + PG_SIZE + PG_SIZE * k) with (v + PG_SIZE * (k + 1)) by lia. split; [done|].
      exists i1. rewrite Hfr2, Hnb2. split; [done|]. split.
      - rewrite Htr2 by done. rewrite decide_False; [done|]. unfold PG_SIZE. zdiv.
      - intros E. apply (same_dir_fresh x); [done|by apply Hff1]. }
    assert (Hin2 : forall w, in_range w -> (w / 2 ^ 12 = v / 2 ^ 12 <-> v <= w < v + PG_SIZE)).
    { intros w Hw. unfold in_range, PG_SIZE in *. split; intros; zdiv. }
    exists x3. split; [done|]. split; [done|]. split_and!.
    + intros w Hw. rewrite Htr3, Htr2 by done. pose proof (Hin2 w Hw). unfold PG_SIZE in *.
      destruct (decide (v + 4096 <= w < _)), (decide (w / 2 ^ 12 = v / 2 ^ 12)), (decide (v <= w < _)); try done; lia.
    + intros pf'. by rewrite Hva3, Hva2.
    + intros pf' j. by rewrite Hfr3, Hfr2.
    + intros pf'. by rewrite Hnb3, Hnb2.
    + intros pf' j [Hj Hbj]. apply Hk3. split; [by rewrite Hnb2|]. rewrite Hb2 by lia. by case_decide.
    + intros k Hk. destruct (decide (k = 0)) as [->|Hk0].
      * exists i. rewrite Z.mul_0_r, Z.add_0_r. split; [done|]. apply Hk3. split; [by rewrite Hnb2|].
        rewrite Hb2 by lia. by rewrite decide_True.
      * destruct (Hf3 (k - 1)) as (i' & Ht' & Hi'); [lia|]. exists i'. split; [|done].
        replace (v + PG_SIZE + PG_SIZE * (k - 1)) with (v + PG_SIZE * k) in Ht' by lia.
        rewrite Hfr2, Htr2 in Ht' by (apply Hh; lia). by case_decide.
    + by eapply same_dir_trans.
    + assert (Hti : bit (pbits pf x) i = true).
      { destruct (bit (pbits pf x) i) eqn:E; [done|]. destruct (vo_unmapped x Hx pf i v (pframe pf x i)); try done. zdiv. }
      pose proof (nfree_more (pbits pf x) (pbits pf x2) [i] (Hnb2 pf) (NoDup_singleton i)) as Hm. cbn [length] in Hm.
      assert (Hm' : (nfree (pbits pf x) + 1 <= nfree (pbits pf x2))%nat); [|lia]. apply Hm.
      * intros j ->%list_elem_of_singleton. split; [done|]. split; [done|]. rewrite Hb2 by lia. by rewrite decide_True.
      * intros j Hj Hbj. rewrite Hb2 by lia. by case_decide.
Qed.

(** Free virtual pages that are not mapped. *)
Lemma vaddr_remove_spec x pf i n :
  vm_ok x -> 0 <= i -> i + n <= nbits (vbits pf x) -> 0 < n ->
  (forall k, i <= k < i + n -> trans x (vpage pf x k) = None) ->
  (pf = PF_USER -> forall k, i <= k < i + n -> vpage pf x k < 0xc0000000 - PG_SIZE) ->
  exists x', vaddr_remove x pf (vpage pf x i) n = Done x' /\ vm_ok x' /\ phys x' = phys x /\ cr3 x' = cr3 x /\
    (forall pf', the_pool pf' x' = the_pool pf' x) /\
    (forall pf', vaddr_start (the_vaddr pf' x') = vaddr_start (the_vaddr pf' x)) /\
    (forall pf', nbits (vbits pf' x') = nbits (vbits pf' x)) /\
    (forall j, 0 <= j -> bit (vbits pf x') j = if decide (i <= j < i + n) then false else bit (vbits pf x) j).
Proof.
  intros Hx Hi Hn Hpos Hnone Hutop. destruct (vo_vwf x Hx pf) as [Hwf Hal]. unfold vaddr_remove.
  destruct (vpage_in x pf i Hx) as [Hin _]; [lia|].
  assert (Hidx : u32 (vpage pf x i - vaddr_start (the_vaddr pf x)) / PG_SIZE = i).
  { unfold vpage, in_range, PG_SIZE in *. destruct (vo_user x Hx) as [Hu _]. destruct (vo_kernel x Hx) as [Hk _].
    unfold vpage in *. rewrite u32_small; [zdiv|]. destruct pf; simpl in *; lia. }
  rewrite Hidx. fold (vbits pf x).
  destruct (set_run_spec (vbits pf x) i (Z.to_nat n) 0) as (b' & -> & Hwf' & Hnb & Hb); [done|lia|lia|by left|].
  rewrite bind_done. rewrite Z2Nat.id in Hb by lia. eexists. split; [done|]. set (x' := with_vaddr _ _ _).
  assert (Hpool : forall pf', the_pool pf' x' = the_pool pf' x) by (by intros []; destruct pf).
  assert (Hst : forall pf', vaddr_start (the_vaddr pf' x') = vaddr_start (the_vaddr pf' x)) by (by intros []; destruct pf).
  assert (Hbit : vbits pf x' = b') by (by destruct pf).
  assert (Hoth : forall pf', pf' <> pf -> vbits pf' x' = vbits pf' x) by (by intros []; destruct pf).
  assert (Hnv : forall pf', nbits (vbits pf' x') = nbits (vbits pf' x)) by (intros []; destruct pf; done).
  assert (Hvp : forall pf' j, vpage pf' x' j = vpage pf' x j) by (intros; unfold vpage; by rewrite Hst).
  assert (Em : phys x' = phys x /\ cr3 x' = cr3 x) by (by destruct pf). destruct Em as [Em Ec].
  assert (Hpf : forall pf' j, pframe pf' x' j = pframe pf' x j) by (intros; unfold pframe; by rewrite Hpool).
  assert (Hfree : forall pf' j, is_free (vbits pf' x') j -> (pf' = pf /\ i <= j < i + n) \/ is_free (vbits pf' x) j).
  { intros pf' j [Hj Hbj]. rewrite Hnv in Hj. destruct (decide (pf' = pf)) as [->|Hne].
    - rewrite Hbit, Hb in Hbj by lia. case_decide; [by left|right; by split].
    - right. split; [done|]. by rewrite Hoth in Hbj. }
  assert (Hpb : forall pf', pbits pf' x' = pbits pf' x) by (intros; unfold pbits; by rewrite Hpool).
  assert (Htr : forall w, trans x' w = trans x w) by (intros; unfold trans; by rewrite Em, Ec).
  split; [|split_and!; try done; intros j Hj; rewrite Hbit, Hb by done; by case_decide].
  destruct Hx as [T1 T2 T3 T4 T5 T6 T7 T8 T9 T10]. constructor.
  - by rewrite Em, Ec.
  - intros pf'. by rewrite Hpool.
  - rewrite Hpb. pose proof (Hpool PF_KERNEL) as E1. pose proof (Hpool PF_USER) as E2. simpl in E1, E2. by rewrite E1, E2.
  - intros j. rewrite Hpb, Hpf, Em, Ec. apply T4.
  - intros pf' j w a. rewrite Hpb, Hpf, Htr. apply T5.
  - intros pf' j w1 w2 a1 a2. rewrite Hpb, Hpf, !Htr. apply T6.
  - intros pf'. rewrite Hst. split; [|apply T7]. destruct (decide (pf' = pf)) as [->|]; [by rewrite Hbit|rewrite Hoth by done; apply T7].
  - rewrite !Hvp, Hnv. destruct T8 as (U1 & U2 & U3). split_and!; try done.
    intros j Hj. rewrite Hvp. destruct (Hfree PF_USER j Hj) as [[E Hj']|Hold]; [subst pf; by apply Hutop|by apply U3].
  - by rewrite !Hvp, Hnv.
  - intros pf' j Hj. rewrite Htr, Hvp. destruct (Hfree pf' j Hj) as [[-> Hj']|Hold]; [by apply Hnone|by apply T10].
Qed.

(** A page is mapped as a whole. *)
Lemma trans_same_page x w1 w2 : w1 / 2 ^ 12 = w2 / 2 ^ 12 -> w1 / 2 ^ 22 = w2 / 2 ^ 22 -> trans x w1 = None -> trans x w2 = None.
Proof.
  intros E1 E2. unfold trans, translate, pte_at, pte_addr, pde_at. rewrite E1, E2.
  destruct (present _); [|done]. by destruct (present _).
Qed.

Lemma malloc_page_spec x pf n :
  vm_ok x -> 0 < n < 3840 ->
  (forall i, free_run (vbits pf x) i n -> tables_ready x pf (vpage pf x i) (Z.to_nat n)) ->
  exists v x', malloc_page x pf n = Done (v, x') /\ vm_ok x' /\
    (v <> 0 -> exists i, v = vpage pf x i /\ free_run (vbits pf x) i n /\
       (forall j, i <= j < i + n -> bit (vbits pf x') j = true) /\
       (forall k, 0 <= k < n -> trans x (v + PG_SIZE * k) = None /\
          exists f, is_free (pbits pf x) f /\ bit (pbits pf x') f = true /\
            trans x' (v + PG_SIZE * k) = Some (pframe pf x f)) /\
       (forall w, in_range w -> ~ (v <= w < v + PG_SIZE * n) -> trans x' w = trans x w)) /\
    (forall pf' j, pframe pf' x' j = pframe pf' x j) /\ (forall pf', nbits (pbits pf' x') = nbits (pbits pf' x)) /\
    (forall pf', grows (pbits pf' x) (pbits pf' x')) /\
    (forall pf' j, vpage pf' x' j = vpage pf' x j) /\ (forall pf', nbits (vbits pf' x') = nbits (vbits pf' x)) /\
    (forall w a, in_range w -> trans x w = Some a -> trans x' w = Some a) /\
    ((forall j, 0 <= j < nbits (vbits pf x) -> present (pde_at (phys x) (cr3 x) (vpage pf x j)) = true) ->
       same_dir x x' /\ (nfree (pbits pf x) <= Z.to_nat n + nfree (pbits pf x'))%nat /\ (nfree (vbits pf x) <= Z.to_nat n + nfree (vbits pf x'))%nat).
Proof.
  intros Hx Hn Htab. unfold malloc_page. assert_ok; [|apply andb_true_intro; split; apply Z.ltb_lt; lia].
  destruct (vaddr_get_spec x pf n Hx) as [[-> _]|(i & x1 & -> & Hnz & Hx1 & Hsh & Hrun & Hk1 & Hu1 & Hb1)]; [lia| |].
  { rewrite bind_done. simpl. exists 0, x. split_and!; try done; [intros pf'; apply grows_refl, (p_wf _ (vo_pool x Hx pf'))|]. intros _. split; [by apply same_dir_phys|lia]. }
  rewrite bind_done. cbn [fst snd]. destruct (Z.eqb_spec (vpage pf x i) 0); [done|].
  destruct Hsh as [Em Ec Eps Evs Epb Evb]. pose proof Hrun as (Hi0 & Hi1 & Hz).
  assert (Htr1 : forall w, trans x1 w = trans x w) by (intros; unfold trans; by rewrite Em, Ec).
  assert (Hpg : forall k, vpage pf x i + PG_SIZE * k = vpage pf x (i + k)) by (intros k; unfold vpage; lia).
  assert (Hvp : forall pf' j, vpage pf' x1 j = vpage pf' x j) by (intros; unfold vpage; by rewrite Evs).
  assert (Hopen : forall k, 0 <= k < n -> trans x (vpage pf x i + PG_SIZE * k) = None).
  { intros k Hk. rewrite Hpg. apply (vo_virt x Hx). split; [lia|]. apply Hz. lia. }
  assert (Hpk : pbits PF_KERNEL x1 = pbits PF_KERNEL x) by (unfold pbits; by rewrite Hk1).
  destruct (map_pages_ok (Z.to_nat n) x1 pf (vpage pf x i)) as (ok & x2 & -> & Hx2 & Hva2 & Hg2 & Htr2 & Hok2 & Hsd2); [done| | |].
  { split; [by apply vpage_in; [done|lia]|]. intros k Hk. split; [|split].
    - rewrite Hpg. apply vpage_in; [done|lia].
    - rewrite Htr1. apply Hopen. lia.
    - intros pf' j Hj. rewrite Hpg, Hvp. intros E.
      assert (Hj' : is_free (vbits pf' x) j) by (by apply (grows_free _ _ _ (Evb pf'))).
      apply (vpage_inj x pf' j pf (i + k) Hx) in E as [-> ->]; [|apply Hj'|lia].
      destruct Hj as [_ Hbj]. rewrite Hb1, decide_True in Hbj by lia. done. }
  { unfold tables_ready. rewrite Em, Ec, Hpk. by apply Htab. }
  rewrite bind_done. exists (if ok : bool then vpage pf x i else 0), x2.
  split; [by destruct ok|]. split; [done|]. split; [|split_and!].
  { destruct ok; [|done]. intros _. exists i. split; [done|]. split; [done|].
    rewrite Z2Nat.id in * by lia. split_and!.
    - intros j Hj. unfold vbits. rewrite Hva2. fold (vbits pf x1). rewrite Hb1, decide_True by lia. done.
    - intros k Hk. split; [by apply Hopen|]. destruct (Hok2 eq_refl k Hk) as (f & Hf & Ht).
      assert (Hpf : pframe pf x1 f = pframe pf x f) by (unfold pframe, frame; by rewrite Eps). rewrite Hpf in Ht.
      assert (Hf0 : is_free (pbits pf x) f) by (by apply (grows_free _ _ _ (Epb pf))).
      exists f. split; [done|]. split; [|done]. destruct (bit (pbits pf x2) f) eqn:E; [done|].
      destruct (frame_aligned_pool x pf f Hx) as [_ Hfa]; [apply Hf0|].
      exfalso. apply (vo_unmapped x2 Hx2 pf f (vpage pf x i + PG_SIZE * k) (pframe pf x f)); try done.
      + split; [|done]. rewrite (proj1 (proj2 (proj1 (Hg2 pf)))). apply Hf.
      + rewrite Hpg. apply vpage_in; [done|lia].
      + unfold pframe, frame. rewrite (proj2 (Hg2 pf)), Eps. fold (frame (the_pool pf x) f). fold (pframe pf x f). zdiv.
    - intros w Hw Hout. rewrite Htr2 by done. apply Htr1. }
  - intros pf' j. unfold pframe, frame. by rewrite (proj2 (Hg2 pf')), Eps.
  - intros pf'. rewrite (proj1 (proj2 (proj1 (Hg2 pf')))). apply Epb.
  - intros pf'. eapply grows_trans; [apply Epb|apply Hg2].
  - intros pf' j. unfold vpage. by rewrite Hva2, Evs.
  - intros pf'. unfold vbits. rewrite Hva2. apply (Evb pf').
  - intros w a Hw Ha. rewrite Htr2; [by rewrite Htr1|done|]. rewrite Z2Nat.id by lia. intros Hin.
    specialize (Hopen ((w - vpage pf x i) / PG_SIZE) ltac:(unfold PG_SIZE in *; zdiv)).
    destruct (vpage_in x pf i Hx) as [_ Hva]; [lia|].
    assert (Hsame : trans x (vpage pf x i + PG_SIZE * ((w - vpage pf x i) / PG_SIZE)) = None -> trans x w = None).
    { apply trans_same_page; unfold PG_SIZE in *; zdiv. }
    rewrite (Hsame Hopen) in Ha. done.
  - intros Hpres. destruct Hsd2 as [Hd2 Hn2]; [intros k Hk; rewrite Em, Ec, Hpg; apply Hpres; lia|]. split_and!.
    + apply (same_dir_trans _ x1); [by apply same_dir_phys|done].
    + assert (E1 : pbits pf x1 = pbits pf x) by (unfold pbits; destruct pf; [by rewrite Hk1|by rewrite Hu1]). by rewrite E1 in Hn2.
    + unfold vbits at 2. rewrite Hva2. fold (vbits pf x1). pose proof (nfree_less (vbits pf x) (vbits pf x1) (seqZ i n)) as Hl. rewrite length_seqZ in Hl. apply Hl; [apply (Evb pf)|].
      intros j Hj Hf. rewrite Hb1 by lia. case_decide; [|congruence]. intros _. apply elem_of_seqZ. lia.
Qed.

(** One page is there when a virtual page and a frame are free. *)
Lemma malloc_one x pf :
  vm_ok x -> (0 < nfree (vbits pf x))%nat -> (0 < nfree (pbits pf x))%nat ->
  forall v x', malloc_page x pf 1 = Done (v, x') -> v <> 0.
Proof.
  intros Hx Hv Hp v x'. unfold malloc_page. assert_ok; [|done]. destruct (nfree_pos _ Hv) as (j & Hj & Hbj). destruct (nfree_pos _ Hp) as (f & Hf).
  destruct (vaddr_get_spec x pf 1 Hx) as [[_ Hno]|(i & x1 & -> & Hnz & Hx1 & _ & _ & Hk1 & Hu1 & _)]; [lia| |].
  { destruct (Hno j). split; [lia|]. split; [lia|]. intros k Hk. by replace k with j by lia. }
  rewrite bind_done. cbn [fst snd]. destruct (Z.eqb_spec (vpage pf x i) 0); [done|]. change (Z.to_nat 1) with 1%nat. cbn [map_pages].
  assert (E1 : the_pool pf x1 = the_pool pf x) by (by destruct pf). rewrite E1. destruct (vo_pool x Hx pf) as [Hpw [Hps Hpa] Hpe].
  destruct (palloc_spec (the_pool pf x)) as [(k & b' & -> & _ & _ & Hk & _)|[_ Hall]]; [done..| |].
  2: { destruct Hf as [Hr Hb]. unfold pbits in *. by rewrite Hall in Hb. }
  rewrite bind_done. cbn [fst snd]. destruct (Z.eqb_spec (phy_addr_start (the_pool pf x) + PG_SIZE * k) 0); [unfold PG_SIZE in *; lia|].
  destruct (page_table_add _ _ _); try done. rewrite !bind_done. intros [= <- _]. done.
Qed.

Lemma mfree_page_spec x pf i n :
  vm_ok x -> 0 <= i -> 0 < n -> i + n <= nbits (vbits pf x) ->
  pages_held x pf (vpage pf x i) (Z.to_nat n) -> 0x102000 <= pframe pf x 0 ->
  (pf = PF_USER -> forall k, i <= k < i + n -> vpage pf x k < 0xc0000000 - PG_SIZE) ->
  exists x', mfree_page x pf (vpage pf x i) n = Done x' /\ vm_ok x' /\
    (forall j, i <= j < i + n -> is_free (vbits pf x') j) /\
    (forall k, 0 <= k < n -> exists f, trans x (vpage pf x (i + k)) = Some (pframe pf x f) /\ is_free (pbits pf x') f) /\
    (forall w, in_range w -> trans x' w = if decide (vpage pf x i <= w < vpage pf x (i + n)) then None else trans x w) /\
    (forall pf' j, pframe pf' x' j = pframe pf' x j) /\ (forall pf', nbits (pbits pf' x') = nbits (pbits pf' x)) /\
    (forall pf' j, vpage pf' x' j = vpage pf' x j) /\ (forall pf', nbits (vbits pf' x') = nbits (vbits pf' x)) /\
    same_dir x x' /\ (nfree (pbits pf x) + Z.to_nat n <= nfree (pbits pf x'))%nat /\ (nfree (vbits pf x) + Z.to_nat n <= nfree (vbits pf x'))%nat.
Proof.
  intros Hx Hi Hn Hin Hh Hlow Hutop. pose proof Hh as [Hal Hk]. destruct (Hk 0) as (Hr & f & Hf & Ht & _); [lia|].
  rewrite Z.mul_0_r, Z.add_0_r in Hr, Ht. destruct (frame_aligned_pool x pf f Hx Hf) as [_ Hfa].
  assert (Hpg : forall k, vpage pf x i + PG_SIZE * k = vpage pf x (i + k)) by (intros k; unfold vpage; lia).
  unfold mfree_page. assert_ok; [|apply andb_true_intro; split; [by apply Z.leb_le; lia|by apply Z.eqb_eq]].
  rewrite (addr_v2p_spec x _ _ Hx Hr Ht), bind_done.
  assert_ok; [|apply andb_true_intro; split; [by apply Z.eqb_eq|apply Z.leb_le; unfold pframe, frame, PG_SIZE in *; lia]].
  set (body := if phy_addr_start (user_pool x) <=? pframe pf x f then _ else _).
  assert (Hbody : exists lo hi, body = unmap_pages x (vpage pf x i) (Z.to_nat n) lo hi /\
    lo <= pframe pf x 0 /\ pframe pf x (nbits (pbits pf x)) <= hi).
  { unfold body. pose proof (vo_pools x Hx) as Hps. pose proof (p_end _ (vo_pool x Hx pf)) as Hpe.
    unfold pframe, frame, pbits, PG_SIZE in *.
    destruct pf; simpl in *; case_match eqn:E; (apply Z.leb_le in E || apply Z.leb_gt in E); eexists _, _; (split; [done|]); lia. }
  destruct Hbody as (lo & hi & -> & Hlo & Hhi).
  destruct (unmap_pages_ok (Z.to_nat n) x pf (vpage pf x i) lo hi) as (x1 & -> & Hx1 & Htr1 & Hva1 & Hfr1 & Hnb1 & _ & Hf1 & Hsd1 & Hcnt1); [done..|].
  rewrite bind_done. rewrite Z2Nat.id in * by lia.
  assert (Hvp1 : forall pf' j, vpage pf' x1 j = vpage pf' x j) by (intros; unfold vpage; by rewrite Hva1).
  assert (Hvb1 : forall pf', vbits pf' x1 = vbits pf' x) by (intros; unfold vbits; by rewrite Hva1).
  rewrite <- Hvp1. destruct (vaddr_remove_spec x1 pf i n) as (x2 & -> & Hx2 & Em & Ec & Hp2 & Hs2 & Hn2 & Hb2); [done|done|by rewrite Hvb1|done| | |].
  { intros k Hk'. destruct (Hk (k - i)) as [Hr' _]; [lia|]. rewrite Hpg in Hr'. replace (i + (k - i)) with k in Hr' by lia.
    rewrite Hvp1, Htr1 by done. rewrite decide_True; [done|]. unfold vpage, PG_SIZE. lia. }
  { intros E k Hk'. rewrite Hvp1. by apply Hutop. }
  exists x2. split; [done|]. split; [done|]. split_and!.
  - intros j Hj. split; [rewrite Hn2, Hvb1; lia|]. by rewrite Hb2, decide_True by lia.
  - intros k Hk'. destruct (Hf1 k Hk') as (f' & Ht' & Hf'). exists f'. rewrite <- Hpg. split; [done|].
    unfold pbits. rewrite Hp2. exact Hf'.
  - intros w Hw. unfold trans at 1. rewrite Em, Ec. fold (trans x1 w). rewrite Htr1 by done. rewrite ?Hvp1.
    by rewrite Hpg.
  - intros pf' j. unfold pframe. rewrite Hp2. apply Hfr1.
  - intros pf'. unfold pbits. rewrite Hp2. apply Hnb1.
  - intros pf' j. unfold vpage. by rewrite Hs2, Hva1.
  - intros pf'. by rewrite Hn2, Hvb1.
  - apply (same_dir_trans _ x1); [done|by apply same_dir_phys].
  - unfold pbits at 2. by rewrite Hp2.
  - rewrite <- (Hvb1 pf). pose proof (nfree_more (vbits pf x1) (vbits pf x2) (seqZ i n) (Hn2 pf) (NoDup_seqZ i n)) as Hm. rewrite length_seqZ in Hm. apply Hm.
    + intros j Hj%elem_of_seqZ. rewrite Hvb1, Hb2, decide_True by lia. split; [lia|]. split; [|done].
      destruct (bit (vbits pf x) j) eqn:E; [done|]. destruct (Hk (j - i)) as (_ & f' & _ & Ht' & _); [lia|].
      rewrite Hpg in Ht'. replace (i + (j - i)) with j in Ht' by lia. rewrite (vo_virt x Hx pf j) in Ht'; [done|]. split; [lia|done].
    + intros j Hj Hbj. rewrite Hb2 by lia. by case_decide.
Qed.

(** ** Properties *)

(** C6. Allocating pages: [malloc_page] of [n] pages never panics or faults on a
    state that satisfies the invariant, as long as the page tables it needs exist or
    the kernel pool can supply them; it keeps the invariant. A non-NULL result is the
    start of [n] consecutive pages of the virtual pool that were free and unmapped;
    each is now mapped to a frame of the physical pool that was free before, no two
    of them to the same frame; no other translation changes. *)
Theorem malloc_page_correct x pf n :
  vm_ok x -> 0 < n < 3840 ->
  (forall i, free_run (vbits pf x) i n -> tables_ready x pf (vpage pf x i) (Z.to_nat n)) ->
  exists v x', malloc_page x pf n = Done (v, x') /\ vm_ok x' /\
    (v <> 0 -> exists i, v = vpage pf x i /\ free_run (vbits pf x) i n /\
       (forall j, i <= j < i + n -> bit (vbits pf x') j = true) /\
       (forall k, 0 <= k < n -> trans x (v + PG_SIZE * k) = None /\
          exists f, is_free (pbits pf x) f /\ bit (pbits pf x') f = true /\
            trans x' (v + PG_SIZE * k) = Some (pframe pf x f)) /\
       (forall w, in_range w -> ~ (v <= w < v + PG_SIZE * n) -> trans x' w = trans x w)).
Proof.
  intros Hx Hn Htab. destruct (malloc_page_spec x pf n Hx Hn Htab) as (v & x' & H1 & H2 & H3 & _). eauto.
Qed.

(** C7. Freeing pages: [mfree_page] of [n] consecutive pages that hold frames of the
    pool (none of them the active directory or one of its tables; user pages lie below the
    page of the stack, and the pool at or above 0x102000, as after [mem_pool_init]) passes
    all its assertions and keeps the invariant; the pages are unmapped, their virtual pages
    and their frames are free again, and no other translation changes. *)
Theorem mfree_page_correct x pf i n :
  vm_ok x -> 0 <= i -> 0 < n -> i + n <= nbits (vbits pf x) ->
  pages_held x pf (vpage pf x i) (Z.to_nat n) -> 0x102000 <= pframe pf x 0 ->
  (pf = PF_USER -> forall k, i <= k < i + n -> vpage pf x k < 0xc0000000 - PG_SIZE) ->
  exists x', mfree_page x pf (vpage pf x i) n = Done x' /\ vm_ok x' /\
    (forall j, i <= j < i + n -> is_free (vbits pf x') j) /\
    (forall k, 0 <= k < n -> exists f, trans x (vpage pf x (i + k)) = Some (pframe pf x f) /\ is_free (pbits pf x') f) /\
    (forall w, in_range w -> trans x' w = if decide (vpage pf x i <= w < vpage pf x (i + n)) then None else trans x w).
Proof.
  intros. destruct (mfree_page_spec x pf i n) as (x' & ? & ? & ? & ? & ? & _); eauto 10.
Qed.

(** Nothing is mapped in the sample state. *)
Lemma sample_trans w : in_range w -> trans sample_vm w = None.
Proof.
  intros Hw. destruct (range_idx w Hw) as [_ Hi]. unfold trans, translate, pte_at, pte_addr, pde_at.
  cbn [phys cr3 sample_vm]. rewrite (sample_pread (0x100000 + _)). rewrite decide_False by lia.
  case_decide; [|done]. change (frame_of 0x101007) with 0x101000. rewrite sample_pread.
  pose proof (Z.mod_pos_bound (w / 2 ^ 12) (2 ^ 10)). rewrite !decide_False by lia. by destruct (present 0x101007).
Qed.

Lemma sample_vm_ok : vm_ok sample_vm.
Proof.
  assert (Hno : forall w a, in_range w -> trans sample_vm w = Some a -> False).
  { intros w a Hw. by rewrite sample_trans. }
  constructor.
  - exact sample_tables.
  - intros []; constructor; vm_compute; repeat split; discriminate.
  - vm_compute. discriminate.
  - intros i [Hi _]. change (nbits (pbits PF_KERNEL sample_vm)) with 8 in Hi.
    apply sample_fresh; unfold pframe, frame, PG_SIZE; cbn [phy_addr_start the_pool kernel_pool sample_vm]; zdiv.
  - intros pf i w a _ Hw Ht. by destruct (Hno w a).
  - intros pf i w1 w2 a1 a2 _ Hw1 _ Ht1. by destruct (Hno w1 a1).
  - intros []; split; vm_compute; repeat split; done.
  - split; [vm_compute; discriminate|]. split; [vm_compute; discriminate|]. intros i [Hi _]. change (nbits (vbits PF_USER sample_vm)) with 8 in Hi.
    unfold vpage, PG_SIZE. cbn [vaddr_start the_vaddr userprog_vaddr sample_vm]. lia.
  - vm_compute. split; discriminate.
  - intros pf i [Hi _]. apply sample_trans. destruct pf; [change (nbits (vbits PF_KERNEL sample_vm)) with 8 in Hi|change (nbits (vbits PF_USER sample_vm)) with 8 in Hi];
      unfold in_range, vpage, PG_SIZE, K_HEAP_START; cbn [vaddr_start the_vaddr kernel_vaddr userprog_vaddr sample_vm]; unfold K_HEAP_START; lia.
Qed.

(** Two pages of a process; their page table is created on the way. *)
Lemma malloc_page_correct_witness :
  exists x', malloc_page sample_vm PF_USER 2 = Done (0x8048000, x') /\ vm_ok x' /\ trans x' 0x8048000 = Some 0x208000.
Proof.
  destruct (malloc_page_correct sample_vm PF_USER 2) as (v & x' & H1 & H2 & _).
  - exact sample_vm_ok.
  - lia.
  - intros i _. right. split; [reflexivity|]. vm_compute. lia.
  - assert (H : match malloc_page sample_vm PF_USER 2 with
                | Done r => r.1 = 0x8048000 /\ trans r.2 0x8048000 = Some 0x208000 | _ => False end)
      by (vm_compute; split; reflexivity).
    rewrite H1 in H. destruct H as [Hv Ht]. cbn [fst snd] in Hv, Ht. subst v.
    exists x'. split; [exact H1|]. split; [exact H2|exact Ht].
Defined.

(** The state after that, for freeing. *)
Definition sample_vm2 : vm := match malloc_page sample_vm PF_USER 2 with Done (_, x) => x | _ => sample_vm end.

Lemma sample_vm2_ok : vm_ok sample_vm2.
Proof.
  destruct (malloc_page_spec sample_vm PF_USER 2) as (v & x' & H1 & H2 & _).
  - exact sample_vm_ok.
  - lia.
  - intros i _. right. split; [reflexivity|]. vm_compute. lia.
  - unfold sample_vm2. by rewrite H1.
Qed.

Lemma mfree_page_correct_witness :
  exists x', mfree_page sample_vm2 PF_USER 0x8048000 2 = Done x' /\ vm_ok x' /\ is_free (vbits PF_USER x') 1.
Proof.
  destruct (mfree_page_correct sample_vm2 PF_USER 0 2) as (x' & H1 & H2 & H3 & _).
  - exact sample_vm2_ok.
  - lia.
  - lia.
  - vm_compute. discriminate.
  - split; [vm_compute; reflexivity|]. intros k Hk. assert (Hk' : k = 0 \/ k = 1) by lia. destruct Hk' as [-> | ->].
    + split; [vm_compute; split; [discriminate|reflexivity]|]. exists 0. split; [vm_compute; split; [discriminate|reflexivity]|].
      split; [vm_compute; reflexivity|discriminate].
    + split; [vm_compute; split; [discriminate|reflexivity]|]. exists 1. split; [vm_compute; split; [discriminate|reflexivity]|].
      split; [vm_compute; reflexivity|discriminate].
  - vm_compute. discriminate.
  - intros _ k Hk. assert (Hk' : k = 0 \/ k = 1) by lia. destruct Hk' as [-> | ->]; vm_compute; reflexivity.
  - exists x'. split; [|split; [exact H2|apply H3; lia]].
    assert (E : vpage PF_USER sample_vm2 0 = 0x8048000) by (vm_compute; reflexivity). rewrite E in H1. exact H1.
Defined.
