(* ===== verification/Heap.v ===== *)
(** * The heap (kernel/memory.c: sys_malloc, sys_free)

    Arenas and memory blocks on top of whole pages. The client sees of the page
    allocator only the interface [PageStore]; PageAlloc's operations on the kernel's
    pools are an instance of it. The contents of blocks are not modelled; free lists are
    the sequences of block addresses their intrusive lists hold (see Klist). *)
From stdpp Require Import base numbers list option tactics gmap fin_maps.
From Stdlib Require Import ZArith Lia.
From S2P Require Import Prelude Bitmap Sched Paging PageAlloc.

(** ** The interface to the page allocator

    [ps_page p q]: the page at address [q] has been handed out. *)
Class PageStore (P : Type) := {
  ps_ok : P -> Prop;
  ps_page : P -> Z -> Prop;
  ps_malloc_page : P -> Z -> outcome (Z * P);
  ps_mfree_page : P -> Z -> Z -> outcome P;
  ps_malloc_ok : forall p n, ps_ok p -> 0 < n < 3840 ->
    exists v p', ps_malloc_page p n = Done (v, p') /\ ps_ok p' /\
      (forall q, ps_page p q -> ps_page p' q) /\
      (v <> 0 -> v mod PG_SIZE = 0 /\ K_HEAP_START <= v /\ v + PG_SIZE * n <= 2 ^ 32 /\
         forall k, 0 <= k < n -> ~ ps_page p (v + PG_SIZE * k) /\ ps_page p' (v + PG_SIZE * k));
  ps_mfree_ok : forall p v n, ps_ok p -> 0 < n -> v mod PG_SIZE = 0 ->
    (forall k, 0 <= k < n -> ps_page p (v + PG_SIZE * k)) ->
    exists p', ps_mfree_page p v n = Done p' /\ ps_ok p' /\
      (forall q, ps_page p q -> ~ (v <= q < v + PG_SIZE * n) -> ps_page p' q) /\
      (forall k, 0 <= k < n -> ~ ps_page p' (v + PG_SIZE * k))
}.

(** ** Data *)
Definition ARENA_SIZE : Z := 12.
Definition DESC_CNT : Z := 7.

(** [desc] is an index into the array of descriptors, or NULL. *)
Record arena := mk_arena { desc : option Z; cnt : Z; large : bool }.
Record mem_block_desc := mk_desc { block_size : Z; blocks_per_arena : Z; free_list : list Z }.

Definition with_free (l : list Z) (d : mem_block_desc) : mem_block_desc :=
  mk_desc (block_size d) (blocks_per_arena d) l.

Section Heap.
Context {P : Type} `{PageStore P}.

(** The heap of a kernel thread: the pages, the arena headers at the start of some of
    them, the descriptors [k_block_descs], and [kernel_pool.pool_size]. *)
Record heap := mk_heap {
  pages : P;
  arenas : gmap Z arena;
  descs : list mem_block_desc;
  hpool_size : Z
}.

Definition with_pages (p : P) (h : heap) : heap := mk_heap p (arenas h) (descs h) (hpool_size h).
Definition with_arenas (f : gmap Z arena -> gmap Z arena) (h : heap) : heap :=
  mk_heap (pages h) (f (arenas h)) (descs h) (hpool_size h).
Definition with_descs (d : list mem_block_desc) (h : heap) : heap :=
  mk_heap (pages h) (arenas h) d (hpool_size h).

Definition arena_at (h : heap) (a : Z) : outcome arena :=
  match arenas h !! a with Some r => Done r | None => Fault end.

(** The loop of [block_desc_init] from descriptor [desc_idx] on. *)
Fixpoint desc_init_from (n : nat) (bs : Z) : list mem_block_desc :=
  match n with
  | O => []
  | S n => mk_desc bs ((PG_SIZE - ARENA_SIZE) / bs) [] :: desc_init_from n (u16 (bs * 2))
  end.
Definition block_desc_init : list mem_block_desc := desc_init_from (Z.to_nat DESC_CNT) 16.

Definition arena2block (a idx bs : Z) : Z := u32 (a + ARENA_SIZE + idx * bs).
Definition block2arena (b : Z) : Z := Z.land b 0xfffff000.

(** for (desc_idx = 0; desc_idx < DESC_CNT; desc_idx++) if (size <= block_size) break; *)
Fixpoint find_desc (ds : list mem_block_desc) (size idx : Z) : Z :=
  match ds with
  | [] => idx
  | d :: ds => if size <=? block_size d then idx else find_desc ds size (idx + 1)
  end.

(** The loop that cuts a new arena into blocks. *)
Fixpoint add_blocks (a idx bs : Z) (n : nat) (fl : list Z) : outcome (list Z) :=
  match n with
  | O => Done fl
  | S n =>
      let b := arena2block a idx bs in
      ASSERT (negb (in_list b fl));;
      add_blocks a (idx + 1) bs n (fl ++ [b])
  end.

(** The loop that takes the blocks of an empty arena off the free list. *)
Fixpoint remove_blocks (a idx bs : Z) (n : nat) (fl : list Z) : outcome (list Z) :=
  match n with
  | O => Done fl
  | S n =>
      let b := arena2block a idx bs in
      ASSERT (in_list b fl);;
      remove_blocks a (idx + 1) bs n (filter (fun x => x <> b) fl)
  end.

(** Returns 0 for NULL. *)
Definition sys_malloc (h : heap) (size : Z) : outcome (Z * heap) :=
  if negb ((0 <? size) && (size <? hpool_size h)) then Done (0, h) else
  if 1024 <? size then
    let page_cnt := DIV_ROUND_UP (size + ARENA_SIZE) PG_SIZE in
    r ← ps_malloc_page (pages h) page_cnt;
    let h := with_pages r.2 h in
    if negb (r.1 =? 0) then
      Done (u32 (r.1 + ARENA_SIZE), with_arenas (<[r.1 := mk_arena None page_cnt true]>) h)
    else Done (0, h)
  else
    let desc_idx := find_desc (descs h) size 0 in
    d ← aget (descs h) desc_idx;
    r ← (if bool_decide (free_list d = []) then
           r ← ps_malloc_page (pages h) 1;
           let h := with_pages r.2 h in
           if r.1 =? 0 then Done (false, h) else
           let h := with_arenas (<[r.1 := mk_arena (Some desc_idx) (blocks_per_arena d) false]>) h in
           fl ← add_blocks r.1 0 (block_size d) (Z.to_nat (blocks_per_arena d)) (free_list d);
           ds ← aset (descs h) desc_idx (with_free fl d);
           Done (true, with_descs ds h)
         else Done (true, h));
    let h := r.2 in
    if negb r.1 then Done (0, h) else
    d ← aget (descs h) desc_idx;
    match free_list d with
    | [] => Fault
    | b :: rest =>
        ds ← aset (descs h) desc_idx (with_free rest d);
        let h := with_descs ds h in
        let a := block2arena b in
        r ← arena_at h a;
        Done (b, with_arenas (<[a := mk_arena (desc r) (u32 (cnt r - 1)) (large r)]>) h)
    end.

Definition sys_free (h : heap) (ptr : Z) : outcome heap :=
  ASSERT (negb (ptr =? 0));;
  ASSERT (K_HEAP_START <=? ptr);;
  let a := block2arena ptr in
  r ← arena_at h a;
  if bool_decide (desc r = None) && large r then
    p ← ps_mfree_page (pages h) a (cnt r);
    Done (with_arenas (delete a) (with_pages p h))
  else
    match desc r with
    | None => Fault
    | Some desc_idx =>
        d ← aget (descs h) desc_idx;
        let fl := free_list d ++ [ptr] in
        let c := u32 (cnt r + 1) in
        if c =? blocks_per_arena d then
          fl ← remove_blocks a 0 (block_size d) (Z.to_nat (blocks_per_arena d)) fl;
          ds ← aset (descs h) desc_idx (with_free fl d);
          p ← ps_mfree_page (pages h) a 1;
          Done (with_arenas (delete a) (with_descs ds (with_pages p h)))
        else
          ds ← aset (descs h) desc_idx (with_free fl d);
          Done (with_arenas (<[a := mk_arena (desc r) c (large r)]>) (with_descs ds h))
    end.

(** ** Specification *)
Definition bsize (d : Z) : Z := 16 * 2 ^ d.
Definition per_arena (d : Z) : Z := (PG_SIZE - ARENA_SIZE) / bsize d.
Definition block (a d k : Z) : Z := a + ARENA_SIZE + k * bsize d.
Definition blocks (a d : Z) : list Z := block a d <$> seqZ 0 (per_arena d).

Definition npages (r : arena) : Z := if large r then cnt r else 1.
Definition flist (h : heap) (d : Z) : list Z := default [] (free_list <$> descs h !! Z.to_nat d).

(** How many blocks of an arena are on the free list. *)
Definition nfree_blocks (fl : list Z) (a d : Z) : nat := length (filter (fun b => b ∈ fl) (blocks a d)).

Record heap_ok (h : heap) : Prop := {
  ho_pages : ps_ok (pages h);
  ho_len : length (descs h) = 7%nat;
  ho_desc : forall d D, descs h !! d = Some D -> block_size D = bsize (Z.of_nat d) /\ blocks_per_arena D = per_arena (Z.of_nat d);
  ho_range : forall a r, arenas h !! a = Some r -> a mod PG_SIZE = 0 /\ K_HEAP_START <= a /\ 0 < npages r /\ a + PG_SIZE * npages r <= 2 ^ 32;
  ho_owned : forall a r k, arenas h !! a = Some r -> 0 <= k < npages r -> ps_page (pages h) (a + PG_SIZE * k);
  ho_kind : forall a r, arenas h !! a = Some r ->
    match desc r with
    | None => large r = true
    | Some d => large r = false /\ 0 <= d < 7 /\ cnt r = Z.of_nat (nfree_blocks (flist h d) a d)
    end;
  ho_sep : forall a1 r1 a2 r2, arenas h !! a1 = Some r1 -> arenas h !! a2 = Some r2 -> a1 <> a2 ->
    a1 + PG_SIZE * npages r1 <= a2 \/ a2 + PG_SIZE * npages r2 <= a1;
  ho_nodup : forall d, 0 <= d < 7 -> NoDup (flist h d);
  ho_free : forall d b, 0 <= d < 7 -> b ∈ flist h d -> exists a r, arenas h !! a = Some r /\ desc r = Some d /\ b ∈ blocks a d
}.

(** The blocks in use: where they start and how many bytes they have. *)
Definition live (h : heap) (p n : Z) : Prop :=
  exists a r, arenas h !! a = Some r /\
    match desc r with
    | None => p = a + ARENA_SIZE /\ n = PG_SIZE * cnt r - ARENA_SIZE
    | Some d => p ∈ blocks a d /\ (p ∉ flist h d) /\ n = bsize d
    end.
End Heap.

(** ** Lemmas on blocks *)
Lemma bsize_range d : 0 <= d < 7 -> 16 <= bsize d <= 1024.
Proof.
  intros Hd. unfold bsize. assert (E : d = 0 \/ d = 1 \/ d = 2 \/ d = 3 \/ d = 4 \/ d = 5 \/ d = 6) by lia.
  destruct E as [->|[->|[->|[->|[->|[->| ->]]]]]]; vm_compute; split; discriminate.
Qed.

Lemma per_arena_fits d : 0 <= d < 7 -> 3 <= per_arena d <= 255 /\ per_arena d * bsize d <= PG_SIZE - ARENA_SIZE.
Proof.
  intros Hd. pose proof (bsize_range d Hd) as Hb. unfold per_arena, PG_SIZE, ARENA_SIZE in *. split.
  - split.
    + apply Z.div_le_lower_bound; lia.
    + apply Z.lt_succ_r. apply Z.div_lt_upper_bound; lia.
  - pose proof (Z.mul_div_le (4096 - 12) (bsize d)). lia.
Qed.

Lemma blocks_in a d b :
  b ∈ blocks a d <-> exists k, 0 <= k < per_arena d /\ b = block a d k.
Proof.
  unfold blocks. rewrite list_elem_of_fmap. setoid_rewrite elem_of_seqZ. split; intros (k & H1 & H2); exists k; split; try done; lia.
Qed.

Lemma block_bounds a d k : 0 <= d < 7 -> 0 <= k < per_arena d -> a + 12 <= block a d k /\ block a d k + bsize d <= a + PG_SIZE.
Proof.
  intros Hd Hk. destruct (per_arena_fits d Hd) as [_ Hf]. pose proof (bsize_range d Hd).
  unfold block, PG_SIZE, ARENA_SIZE in *. nia.
Qed.

Lemma block_inj a d j k : 0 <= d < 7 -> block a d j = block a d k -> j = k.
Proof. intros Hd E. pose proof (bsize_range d Hd). unfold block in E. nia. Qed.

Lemma blocks_nodup a d : 0 <= d < 7 -> NoDup (blocks a d).
Proof.
  intros Hd. unfold blocks. apply NoDup_fmap_2_strong; [|apply NoDup_seqZ]. intros j k _ _. by apply block_inj.
Qed.

Lemma blocks_length a d : 0 <= d < 7 -> Z.of_nat (length (blocks a d)) = per_arena d.
Proof. intros Hd. unfold blocks. rewrite length_fmap, length_seqZ. pose proof (per_arena_fits d Hd). lia. Qed.

Lemma blocks_nonempty a d : 0 <= d < 7 -> blocks a d <> [].
Proof. intros Hd E. pose proof (blocks_length a d Hd) as Hl. rewrite E in Hl. pose proof (per_arena_fits d Hd). simpl in Hl. lia. Qed.

Lemma block2arena_spec a b : a mod PG_SIZE = 0 -> 0 <= a -> a + PG_SIZE <= 2 ^ 32 -> a <= b < a + PG_SIZE -> block2arena b = a.
Proof.
  intros Ha H0 Hh Hb. unfold PG_SIZE in *. change (block2arena b) with (frame_of b). rewrite frame_of_div; zdiv.
Qed.

Lemma in_blocks_page a d b : 0 <= d < 7 -> b ∈ blocks a d -> a + 12 <= b /\ b + bsize d <= a + PG_SIZE.
Proof. intros Hd (k & Hk & ->)%blocks_in. by apply block_bounds. Qed.

(** Counting after a block joins or leaves the free list. *)
Lemma count_cons b (fl l : list Z) :
  NoDup l -> b ∉ fl ->
  length (filter (fun x => x ∈ b :: fl) l) = ((if decide (b ∈ l) then 1 else 0) + length (filter (fun x => x ∈ fl) l))%nat.
Proof.
  intros Hnd Hb. induction l as [|x l IH]; [by destruct (decide (b ∈ [])) as [?%elem_of_nil|]|].
  apply NoDup_cons in Hnd as [Hx Hnd]. specialize (IH Hnd). rewrite !filter_cons.
  destruct (decide (x = b)) as [->|Hne].
  - rewrite (decide_True (P := b ∈ b :: fl)) by (by left). rewrite (decide_False (P := b ∈ fl)) by done.
    rewrite (decide_True (P := b ∈ b :: l)) by (by left). rewrite (decide_False (P := b ∈ l)) in IH by done. simpl. lia.
  - assert (E1 : x ∈ b :: fl <-> x ∈ fl) by (rewrite elem_of_cons; naive_solver).
    assert (E2 : b ∈ x :: l <-> b ∈ l) by (rewrite elem_of_cons; naive_solver).
    destruct (decide (x ∈ fl)), (decide (x ∈ b :: fl)); try tauto;
      destruct (decide (b ∈ l)), (decide (b ∈ x :: l)); try tauto; simpl in *; lia.
Qed.

Lemma count_ext (fl fl' l : list Z) :
  (forall x, x ∈ l -> (x ∈ fl <-> x ∈ fl')) -> length (filter (fun x => x ∈ fl) l) = length (filter (fun x => x ∈ fl') l).
Proof.
  intros H. f_equal. induction l as [|x l IH]; [done|]. rewrite !filter_cons.
  rewrite IH by (intros; apply H; by right). pose proof (H x ltac:(by left)).
  destruct (decide (x ∈ fl)), (decide (x ∈ fl')); tauto || done.
Qed.

Lemma count_full (fl l : list Z) : (forall x, x ∈ l -> x ∈ fl) -> length (filter (fun x => x ∈ fl) l) = length l.
Proof.
  induction l as [|y l IH]; intros Hin; [done|]. rewrite filter_cons, decide_True by (apply Hin; by left).
  simpl. f_equal. apply IH. intros x Hx. apply Hin. by right.
Qed.

Lemma count_all (fl l : list Z) : length (filter (fun x => x ∈ fl) l) = length l -> forall x, x ∈ l -> x ∈ fl.
Proof.
  induction l as [|y l IH]; [intros _ x Hx; by apply elem_of_nil in Hx|].
  rewrite filter_cons. pose proof (length_filter (fun x => x ∈ fl) l). destruct (decide (y ∈ fl)); simpl; [|lia].
  intros E x [->|Hx]%elem_of_cons; [done|]. apply IH; [lia|done].
Qed.

(** ** Lemmas on the operations *)
Lemma arena2block_eq a d k :
  0 <= d < 7 -> 0 <= a -> a + PG_SIZE <= 2 ^ 32 -> 0 <= k < per_arena d -> arena2block a k (bsize d) = block a d k.
Proof.
  intros Hd Ha Hh Hk. pose proof (block_bounds a d k Hd Hk). pose proof (bsize_range d Hd).
  unfold arena2block. fold (block a d k). apply u32_small. unfold PG_SIZE in *. lia.
Qed.

Lemma add_blocks_spec a d n idx fl :
  0 <= d < 7 -> 0 <= a -> a + PG_SIZE <= 2 ^ 32 -> 0 <= idx -> idx + Z.of_nat n <= per_arena d ->
  (forall k, idx <= k < idx + Z.of_nat n -> block a d k ∉ fl) ->
  add_blocks a idx (bsize d) n fl = Done (fl ++ (block a d <$> seqZ idx (Z.of_nat n))).
Proof.
  intros Hd Ha Hh. revert idx fl. induction n as [|n IH]; intros idx fl Hi Hn Hnot; cbn [add_blocks].
  - rewrite seqZ_nil by lia. by rewrite app_nil_r.
  - rewrite arena2block_eq by lia. assert_ok; [|unfold in_list; rewrite bool_decide_false; [done|apply Hnot; lia]].
    rewrite IH; [|lia|lia|].
    + rewrite (seqZ_cons idx (Z.of_nat (S n))) by lia. rewrite fmap_cons, <- app_assoc. simpl.
      by replace (Z.pred (Z.of_nat (S n))) with (Z.of_nat n) by lia.
    + intros k Hk. rewrite not_elem_of_app. split; [apply Hnot; lia|]. rewrite list_elem_of_singleton.
      intros E%block_inj; [lia|done].
Qed.

Lemma remove_blocks_spec a d n idx fl :
  0 <= d < 7 -> 0 <= a -> a + PG_SIZE <= 2 ^ 32 -> 0 <= idx -> idx + Z.of_nat n <= per_arena d ->
  (forall k, idx <= k < idx + Z.of_nat n -> block a d k ∈ fl) -> NoDup fl ->
  exists fl', remove_blocks a idx (bsize d) n fl = Done fl' /\ NoDup fl' /\
    forall x, x ∈ fl' <-> x ∈ fl /\ forall k, idx <= k < idx + Z.of_nat n -> x <> block a d k.
Proof.
  intros Hd Ha Hh. revert idx fl. induction n as [|n IH]; intros idx fl Hi Hn Hin Hnd; cbn [remove_blocks].
  - exists fl. split_and!; try done. intros x. split; [|tauto]. intros Hx. split; [done|lia].
  - rewrite arena2block_eq by lia. assert_ok; [|unfold in_list; rewrite bool_decide_true; [done|apply Hin; lia]].
    destruct (IH (idx + 1) (filter (fun x => x <> block a d idx) fl)) as (fl' & -> & Hnd' & Hx); [lia|lia| |by apply NoDup_filter|].
    + intros k Hk. apply list_elem_of_filter. split; [|apply Hin; lia]. intros E%block_inj; [lia|done].
    + exists fl'. split_and!; try done. intros x. rewrite Hx, list_elem_of_filter. split.
      * intros [[H1 H2] H3]. split; [done|]. intros k Hk. destruct (decide (k = idx)) as [->|]; [done|apply H3; lia].
      * intros [H1 H2]. split_and!; [apply H2; lia|done|]. intros k Hk. apply H2. lia.
Qed.

Section HeapProofs.
Context {P : Type} `{PageStore P}.
Implicit Types h : heap (P := P).

Lemma desc_at h d : heap_ok h -> 0 <= d < 7 ->
  exists D, aget (descs h) d = Done D /\ descs h !! Z.to_nat d = Some D /\ block_size D = bsize d /\ blocks_per_arena D = per_arena d /\
    free_list D = flist h d.
Proof.
  intros Hh Hd. destruct (aget_in (descs h) d) as (D & Hl & Hg); [rewrite (ho_len h Hh); lia|].
  exists D. split; [done|]. split; [done|]. destruct (ho_desc h Hh _ _ Hl) as [H1 H2]. rewrite Z2Nat.id in H1, H2 by lia.
  split_and!; try done. unfold flist. by rewrite Hl.
Qed.

(** Storing a new free list. *)
Lemma set_desc h d D fl : heap_ok h -> 0 <= d < 7 -> descs h !! Z.to_nat d = Some D ->
  exists ds, aset (descs h) d (with_free fl D) = Done ds /\ length ds = 7%nat /\
    (forall i E, ds !! i = Some E -> block_size E = bsize (Z.of_nat i) /\ blocks_per_arena E = per_arena (Z.of_nat i)) /\
    forall d', 0 <= d' < 7 -> default [] (free_list <$> ds !! Z.to_nat d') = if decide (d' = d) then fl else flist h d'.
Proof.
  intros Hh Hd HD. eexists. split; [apply aset_in; rewrite (ho_len h Hh); lia|]. split_and!.
  - rewrite length_insert. apply Hh.
  - intros i E HE. destruct (decide (i = Z.to_nat d)) as [->|Hne].
    + rewrite list_lookup_insert_eq in HE by (rewrite (ho_len h Hh); lia). injection HE as <-. exact (ho_desc h Hh _ _ HD).
    + rewrite list_lookup_insert_ne in HE by done. by apply (ho_desc h Hh).
  - intros d' Hd'. case_decide as E.
    + subst. by rewrite list_lookup_insert_eq by (rewrite (ho_len h Hh); lia).
    + rewrite list_lookup_insert_ne by lia. done.
Qed.

(** The arena a block lies in. *)
Lemma block_arena h a r d b :
  heap_ok h -> arenas h !! a = Some r -> desc r = Some d -> b ∈ blocks a d ->
  block2arena b = a /\ 0 <= d < 7 /\ npages r = 1 /\ K_HEAP_START <= b.
Proof.
  intros Hh Ha Hr Hb. destruct (ho_range h Hh a r Ha) as (H1 & H2 & H3 & H4). pose proof (ho_kind h Hh a r Ha) as Hk.
  rewrite Hr in Hk. destruct Hk as (Hl & Hd & _). assert (Hn : npages r = 1) by (unfold npages; by rewrite Hl).
  rewrite Hn in H4. destruct (in_blocks_page a d b Hd Hb). pose proof (bsize_range d Hd).
  unfold K_HEAP_START in *. split_and!; try done; try lia. apply block2arena_spec; try done; lia.
Qed.

Lemma blocks_disjoint h a1 r1 d1 a2 r2 d2 b :
  heap_ok h -> arenas h !! a1 = Some r1 -> desc r1 = Some d1 -> arenas h !! a2 = Some r2 -> desc r2 = Some d2 ->
  b ∈ blocks a1 d1 -> b ∈ blocks a2 d2 -> a1 = a2.
Proof.
  intros Hh H1 D1 H2 D2 B1 B2. destruct (block_arena h a1 r1 d1 b) as [<- _]; [done..|].
  by destruct (block_arena h a2 r2 d2 b) as [<- _].
Qed.

(** A small arena and the free list of its size change together. *)
Lemma upd_small h a r d ds fl c :
  heap_ok h -> arenas h !! a = Some r -> desc r = Some d -> length ds = 7%nat ->
  (forall i E, ds !! i = Some E -> block_size E = bsize (Z.of_nat i) /\ blocks_per_arena E = per_arena (Z.of_nat i)) ->
  (forall d', 0 <= d' < 7 -> default [] (free_list <$> ds !! Z.to_nat d') = if decide (d' = d) then fl else flist h d') ->
  NoDup fl -> (forall b, b ∈ fl -> b ∈ flist h d \/ b ∈ blocks a d) ->
  (forall b, b ∉ blocks a d -> (b ∈ fl <-> b ∈ flist h d)) -> c = Z.of_nat (nfree_blocks fl a d) ->
  let h' := with_arenas (<[a := mk_arena (desc r) c (large r)]>) (with_descs ds h) in
  heap_ok h' /\ (forall d', 0 <= d' < 7 -> flist h' d' = if decide (d' = d) then fl else flist h d').
Proof.
  intros Hh Ha Hr Hlen Hdesc Hfl Hnd Hsub Hout Hc h'.
  pose proof (ho_kind h Hh a r Ha) as Hk. rewrite Hr in Hk. destruct Hk as (Hlg & Hd & _).
  assert (Hf' : forall d', 0 <= d' < 7 -> flist h' d' = if decide (d' = d) then fl else flist h d') by exact Hfl.
  split; [|done].
  assert (Hlook : forall a' r', arenas h' !! a' = Some r' ->
    (a' = a /\ r' = mk_arena (desc r) c (large r)) \/ (a' <> a /\ arenas h !! a' = Some r')).
  { intros a' r'. simpl. destruct (decide (a' = a)) as [->|Hne].
    - rewrite lookup_insert_eq. intros [= <-]. by left.
    - rewrite lookup_insert_ne by done. by right. }
  assert (Hnp : npages (mk_arena (desc r) c (large r)) = npages r) by (unfold npages; simpl; by rewrite Hlg).
  assert (Hold : forall a' r', arenas h' !! a' = Some r' -> exists r0, arenas h !! a' = Some r0 /\ npages r' = npages r0 /\ desc r' = desc r0).
  { intros a' r' [[-> ->]|[_ Hx]]%Hlook; [by exists r|by exists r']. }
  constructor; try done.
  - apply (ho_pages h Hh).
  - intros a' r' (r0 & H0 & -> & _)%Hold. by apply (ho_range h Hh).
  - intros a' r' k (r0 & H0 & -> & _)%Hold. by apply (ho_owned h Hh).
  - intros a' r' [[-> ->]|[Hne Hx]]%Hlook.
    + simpl. rewrite Hr. split_and!; try done; try lia. rewrite Hf', decide_True by done. done.
    + pose proof (ho_kind h Hh a' r' Hx) as Hk'. destruct (desc r') as [d'|] eqn:Hd'; [|done].
      destruct Hk' as (K1 & K2 & K3). split_and!; try done; try lia. rewrite K3, Hf' by done. f_equal.
      case_decide as E; [|done]. subst d'. unfold nfree_blocks. apply count_ext. intros b Hb. symmetry. apply Hout.
      intros Hb2. apply Hne. by eapply (blocks_disjoint h a' r' d a r d b).
  - intros a1 r1 a2 r2 (q1 & H1 & -> & _)%Hold (q2 & H2 & -> & _)%Hold. by apply (ho_sep h Hh).
  - intros d' Hd'. rewrite Hf' by done. case_decide; [done|]. by apply (ho_nodup h Hh).
  - intros d' b Hd'. rewrite Hf' by done. intros Hb.
    assert (Hex : exists a0 r0, arenas h !! a0 = Some r0 /\ desc r0 = Some d' /\ b ∈ blocks a0 d').
    { case_decide as E; [subst d'|by apply (ho_free h Hh)]. destruct (Hsub b Hb); [by apply (ho_free h Hh)|eauto]. }
    destruct Hex as (a0 & r0 & H0 & D0 & B0). destruct (decide (a0 = a)) as [->|Hne].
    + exists a, (mk_arena (desc r) c (large r)). split; [simpl; by rewrite lookup_insert_eq|]. split; [|done].
      simpl. rewrite <- D0. congruence.
    + exists a0, r0. split; [simpl; by rewrite lookup_insert_ne|done].
Qed.

(** Pages that were not handed out are in no arena. *)
Lemma fresh_range h v n a r :
  heap_ok h -> v mod PG_SIZE = 0 -> 0 < n -> (forall k, 0 <= k < n -> ~ ps_page (pages h) (v + PG_SIZE * k)) ->
  arenas h !! a = Some r -> a + PG_SIZE * npages r <= v \/ v + PG_SIZE * n <= a.
Proof.
  intros Hh Hv Hn Hno Ha. destruct (ho_range h Hh a r Ha) as (H1 & _ & H3 & _).
  destruct (decide (a + PG_SIZE * npages r <= v)) as [|Ho1]; [by left|].
  destruct (decide (v + PG_SIZE * n <= a)) as [|Ho2]; [by right|]. exfalso.
  unfold PG_SIZE in *. destruct (decide (a <= v)).
  - apply (Hno 0); [lia|]. replace (v + 4096 * 0) with (a + 4096 * ((v - a) / 4096)) by zdiv.
    apply (ho_owned h Hh a r); [done|]. zdiv.
  - apply (Hno ((a - v) / 4096)); [zdiv|]. replace (v + 4096 * ((a - v) / 4096)) with (a + 4096 * 0) by zdiv.
    apply (ho_owned h Hh a r); [done|]. lia.
Qed.

(** A new arena on fresh pages; a small one puts all its blocks on the (empty) list. *)
Lemma add_arena h p' a r ds :
  heap_ok h -> ps_ok p' -> (forall q, ps_page (pages h) q -> ps_page p' q) ->
  a mod PG_SIZE = 0 -> K_HEAP_START <= a -> 0 < npages r -> a + PG_SIZE * npages r <= 2 ^ 32 ->
  (forall k, 0 <= k < npages r -> ~ ps_page (pages h) (a + PG_SIZE * k) /\ ps_page p' (a + PG_SIZE * k)) ->
  length ds = 7%nat ->
  (forall i E, ds !! i = Some E -> block_size E = bsize (Z.of_nat i) /\ blocks_per_arena E = per_arena (Z.of_nat i)) ->
  (forall d', 0 <= d' < 7 -> default [] (free_list <$> ds !! Z.to_nat d') =
     if decide (desc r = Some d') then blocks a d' else flist h d') ->
  match desc r with
  | None => large r = true
  | Some d => large r = false /\ 0 <= d < 7 /\ cnt r = per_arena d /\ flist h d = []
  end ->
  let h' := with_descs ds (with_arenas (<[a := r]>) (with_pages p' h)) in
  heap_ok h' /\ forall q n, live h' q n <-> live h q n \/
    (desc r = None /\ q = a + ARENA_SIZE /\ n = PG_SIZE * cnt r - ARENA_SIZE).
Proof.
  intros Hh Hp Hmono Hal Hks Hnp Hhi Hfresh Hlen Hdesc Hfl Hkind h'.
  assert (Hsep : forall a' r', arenas h !! a' = Some r' -> a' + PG_SIZE * npages r' <= a \/ a + PG_SIZE * npages r <= a').
  { intros a' r' Ha'. apply (fresh_range h a (npages r) a' r'); try done. intros k Hk. by apply Hfresh. }
  assert (Hnew : arenas h !! a = None).
  { destruct (arenas h !! a) as [r'|] eqn:E; [|done]. destruct (ho_range h Hh a r' E) as (_ & _ & Hn & _).
    destruct (Hsep a r' E); unfold PG_SIZE in *; lia. }
  assert (Hf' : forall d', 0 <= d' < 7 -> flist h' d' = if decide (desc r = Some d') then blocks a d' else flist h d') by exact Hfl.
  assert (Hlook : forall a' r', arenas h' !! a' = Some r' <-> (a' = a /\ r' = r) \/ (a' <> a /\ arenas h !! a' = Some r')).
  { intros a' r'. simpl. destruct (decide (a' = a)) as [->|Hne].
    - rewrite lookup_insert_eq. naive_solver.
    - rewrite lookup_insert_ne by done. naive_solver. }
  (* the blocks of the new arena are not those of the others *)
  assert (Hdisj : forall a' r' d' b, arenas h !! a' = Some r' -> desc r' = Some d' -> b ∈ blocks a' d' ->
    forall d, desc r = Some d -> b ∉ blocks a d).
  { intros a' r' d' b Ha' Hd' Hb d Hd Hb2. rewrite Hd in Hkind. destruct Hkind as (Hl & Hd7 & _).
    destruct (block_arena h a' r' d' b) as (_ & Hd7' & Hn1 & _); [done..|].
    destruct (in_blocks_page a' d' b Hd7' Hb), (in_blocks_page a d b Hd7 Hb2).
    pose proof (bsize_range d Hd7). pose proof (bsize_range d' Hd7').
    destruct (Hsep a' r' Ha') as [Hs|Hs]; [rewrite Hn1 in Hs|unfold npages in Hs; rewrite Hl in Hs]; unfold PG_SIZE in *; lia. }
  split.
  - constructor; try done.
    + intros a' r' [[-> ->]|[_ Hx]]%Hlook; [done|by apply (ho_range h Hh)].
    + intros a' r' k [[-> ->]|[_ Hx]]%Hlook Hk; [by apply Hfresh|]. apply Hmono. by apply (ho_owned h Hh a' r').
    + intros a' r' [[-> ->]|[Hne Hx]]%Hlook.
      * destruct (desc r) as [d|] eqn:Hd; [|done]. destruct Hkind as (K1 & K2 & K3 & K4).
        split_and!; try done; try lia. rewrite K3, Hf', decide_True by done. unfold nfree_blocks.
        rewrite count_full by done. by rewrite blocks_length.
      * pose proof (ho_kind h Hh a' r' Hx) as Hk. destruct (desc r') as [d'|] eqn:Hd'; [|done].
        destruct Hk as (K1 & K2 & K3). split_and!; try done; try lia. rewrite K3, Hf' by done. f_equal.
        case_decide as E; [|done]. rewrite E in Hkind. destruct Hkind as (_ & _ & _ & K4). rewrite K4.
        unfold nfree_blocks. apply count_ext. intros b Hb. split; [intros ?%elem_of_nil; done|].
        intros Hb2. by destruct (Hdisj a' r' d' b Hx Hd' Hb d' E).
    + intros a1 r1 a2 r2 [[-> ->]|[N1 H1]]%Hlook [[-> ->]|[N2 H2]]%Hlook Hne; try done.
      * destruct (Hsep a2 r2 H2); [by right|by left].
      * by apply Hsep.
      * by apply (ho_sep h Hh).
    + intros d' Hd'. rewrite Hf' by done. case_decide; [by apply blocks_nodup|by apply (ho_nodup h Hh)].
    + intros d' b Hd'. rewrite Hf' by done. case_decide as E.
      * intros Hb. exists a, r. split; [apply Hlook; by left|done].
      * intros Hb. destruct (ho_free h Hh d' b Hd' Hb) as (a0 & r0 & H0 & D0 & B0).
        exists a0, r0. split; [|done]. apply Hlook. right. split; [|done]. intros ->. congruence.
  - intros q n. unfold live. split.
    + intros (a' & r' & [[-> ->]|[Hne Hx]]%Hlook & Hc).
      * destruct (desc r) as [d|] eqn:Hd; [|by right]. destruct Hkind as (_ & Hd7 & _). destruct Hc as (Hb & Hnb & _).
        rewrite Hf', decide_True in Hnb by done. done.
      * left. exists a', r'. split; [done|]. destruct (desc r') as [d'|] eqn:Hd'; [|done]. destruct Hc as (Hb & Hnb & Hn).
        split_and!; try done. pose proof (ho_kind h Hh a' r' Hx) as Hk. rewrite Hd' in Hk. destruct Hk as (_ & K2 & _).
        rewrite Hf' in Hnb by done. case_decide as E; [|done]. rewrite E in Hkind. destruct Hkind as (_ & _ & _ & ->).
        apply not_elem_of_nil.
    + intros [(a' & r' & Hx & Hc)|(Hd & -> & ->)].
      * exists a', r'. assert (Hne : a' <> a) by (intros ->; congruence). split; [apply Hlook; by right|].
        destruct (desc r') as [d'|] eqn:Hd'; [|done]. destruct Hc as (Hb & Hnb & Hn). split_and!; try done.
        pose proof (ho_kind h Hh a' r' Hx) as Hk. rewrite Hd' in Hk. destruct Hk as (_ & K2 & _).
        rewrite Hf' by done. case_decide as E; [|done]. by apply (Hdisj a' r' d' q).
      * exists a, r. split; [apply Hlook; by left|]. by rewrite Hd.
Qed.

(** Giving an arena back, its blocks off the free list. *)
Lemma del_arena h p' a r ds :
  heap_ok h -> arenas h !! a = Some r -> ps_ok p' ->
  (forall q, ps_page (pages h) q -> ~ (a <= q < a + PG_SIZE * npages r) -> ps_page p' q) ->
  length ds = 7%nat ->
  (forall i E, ds !! i = Some E -> block_size E = bsize (Z.of_nat i) /\ blocks_per_arena E = per_arena (Z.of_nat i)) ->
  (forall d', 0 <= d' < 7 -> NoDup (default [] (free_list <$> ds !! Z.to_nat d')) /\
     forall b, b ∈ default [] (free_list <$> ds !! Z.to_nat d') <-> b ∈ flist h d' /\ (desc r = Some d' -> b ∉ blocks a d')) ->
  let h' := with_arenas (delete a) (with_descs ds (with_pages p' h)) in
  heap_ok h' /\ forall q n, live h' q n <-> live h q n /\
    ~ (exists d, desc r = Some d /\ q ∈ blocks a d) /\ ~ (desc r = None /\ q = a + ARENA_SIZE).
Proof.
  intros Hh Ha Hp Hmono Hlen Hdesc Hfl h'.
  assert (Hlook : forall a' r', arenas h' !! a' = Some r' <-> a' <> a /\ arenas h !! a' = Some r').
  { intros a' r'. simpl. rewrite lookup_delete_Some. naive_solver. }
  assert (Hf' : forall d', 0 <= d' < 7 -> NoDup (flist h' d') /\
     forall b, b ∈ flist h' d' <-> b ∈ flist h d' /\ (desc r = Some d' -> b ∉ blocks a d')) by exact Hfl.
  assert (Hkeep : forall a' r' d' b, a' <> a -> arenas h !! a' = Some r' -> desc r' = Some d' -> b ∈ blocks a' d' ->
    desc r = Some d' -> b ∉ blocks a d').
  { intros a' r' d' b Hne Ha' Hd' Hb Hd Hb2. apply Hne. by eapply (blocks_disjoint h a' r' d' a r d' b). }
  assert (Hmem : forall a' r' d' b, a' <> a -> arenas h !! a' = Some r' -> desc r' = Some d' -> b ∈ blocks a' d' -> 0 <= d' < 7 ->
    (b ∈ flist h' d' <-> b ∈ flist h d')).
  { intros a' r' d' b Hne Ha' Hd' Hb H7. rewrite (proj2 (Hf' d' H7)). split; [tauto|]. intros Hin. split; [done|]. by eapply Hkeep. }
  split.
  - constructor; try done.
    + intros a' r' [_ Hx]%Hlook. by apply (ho_range h Hh).
    + intros a' r' k [Hne Hx]%Hlook Hk. apply Hmono; [by apply (ho_owned h Hh a' r')|].
      destruct (ho_sep h Hh a r a' r' Ha Hx) as [|]; [done|unfold PG_SIZE in *; lia..].
    + intros a' r' [Hne Hx]%Hlook. pose proof (ho_kind h Hh a' r' Hx) as Hk. destruct (desc r') as [d'|] eqn:Hd'; [|done].
      destruct Hk as (K1 & K2 & K3). split_and!; try done; try lia. rewrite K3. f_equal. unfold nfree_blocks.
      apply count_ext. intros b Hb. symmetry. by eapply Hmem.
    + intros a1 r1 a2 r2 [_ H1]%Hlook [_ H2]%Hlook. by apply (ho_sep h Hh).
    + intros d' Hd'. by apply Hf'.
    + intros d' b Hd' [Hb Hnb]%Hf'; [|done]. destruct (ho_free h Hh d' b Hd' Hb) as (a0 & r0 & H0 & D0 & B0).
      exists a0, r0. split; [|done]. apply Hlook. split; [|done]. intros ->. assert (r0 = r) as -> by congruence. by apply Hnb.
  - intros q n. unfold live. split.
    + intros (a' & r' & [Hne Hx]%Hlook & Hc). split.
      * exists a', r'. split; [done|]. destruct (desc r') as [d'|] eqn:Hd'; [|done]. destruct Hc as (Hb & Hnb & Hn).
        split_and!; try done. pose proof (ho_kind h Hh a' r' Hx) as Hk. rewrite Hd' in Hk. destruct Hk as (_ & K2 & _).
        intros Hin. apply Hnb. by eapply Hmem.
      * destruct (ho_range h Hh a r Ha) as (Q1 & _ & Q2 & Q4). destruct (ho_range h Hh a' r' Hx) as (Q1' & _ & Q2' & _).
        assert (Hq : a' <= q < a' + PG_SIZE * npages r').
        { pose proof (ho_kind h Hh a' r' Hx) as Hk'. destruct (desc r') as [d'|] eqn:Hd'.
          - destruct Hk' as (L' & K2 & _). destruct Hc as (Hb & _). destruct (in_blocks_page a' d' q K2 Hb). pose proof (bsize_range d' K2).
            unfold npages. rewrite L'. unfold PG_SIZE in *. lia.
          - destruct Hc as [-> _]. unfold PG_SIZE, ARENA_SIZE in *. lia. }
        assert (Hnq : ~ (a <= q < a + PG_SIZE * npages r)).
        { destruct (ho_sep h Hh a r a' r' Ha Hx); [done|lia..]. }
        split.
        -- intros (d & Hd & Hb). apply Hnq. pose proof (ho_kind h Hh a r Ha) as Hk. rewrite Hd in Hk. destruct Hk as (L & K2 & _).
           destruct (in_blocks_page a d q K2 Hb). pose proof (bsize_range d K2). unfold npages. rewrite L. unfold PG_SIZE in *. lia.
        -- intros [_ ->]. apply Hnq. unfold PG_SIZE, ARENA_SIZE in *. lia.
    + intros [(a' & r' & Hx & Hc) [Hn1 Hn2]].
      assert (Hne : a' <> a).
      { intros ->. assert (r' = r) as -> by congruence. destruct (desc r) as [d|] eqn:Hd; [|apply Hn2; tauto].
        apply Hn1. exists d. tauto. }
      exists a', r'. split; [by apply Hlook|]. destruct (desc r') as [d'|] eqn:Hd'; [|done]. destruct Hc as (Hb & Hnb & Hn).
      split_and!; try done. pose proof (ho_kind h Hh a' r' Hx) as Hk. rewrite Hd' in Hk. destruct Hk as (_ & K2 & _).
      intros Hin. apply Hnb. by eapply Hmem.
Qed.

(** Blocks in use lie in their arena, behind its header, and never overlap. *)
Lemma live_bounds h a r p n :
  heap_ok h -> arenas h !! a = Some r ->
  match desc r with
  | None => p = a + ARENA_SIZE /\ n = PG_SIZE * cnt r - ARENA_SIZE
  | Some d => p ∈ blocks a d /\ (p ∉ flist h d) /\ n = bsize d
  end -> a + 12 <= p /\ p + n <= a + PG_SIZE * npages r /\ 0 < n.
Proof.
  intros Hh Ha Hc. pose proof (ho_kind h Hh a r Ha) as Hk.
  destruct (ho_range h Hh a r Ha) as (_ & _ & Hn & _). unfold npages in *.
  destruct (desc r) as [d|].
  - destruct Hk as (-> & Hd & _). destruct Hc as (Hb & _ & ->). pose proof (bsize_range d Hd).
    destruct (in_blocks_page a d p Hd Hb). lia.
  - rewrite Hk in *. destruct Hc as [-> ->]. unfold PG_SIZE, ARENA_SIZE in *. lia.
Qed.

Lemma live_disjoint h p n q m :
  heap_ok h -> live h p n -> live h q m -> p <> q -> p + n <= q \/ q + m <= p.
Proof.
  intros Hh (a & r & Ha & Hc) (a' & r' & Ha' & Hc') Hne.
  destruct (decide (a = a')) as [<-|Hneq].
  - assert (r' = r) as -> by congruence. pose proof (ho_kind h Hh a r Ha) as Hk. destruct (desc r) as [d|].
    + destruct Hk as (_ & Hd & _). destruct Hc as (Hb & _ & ->), Hc' as (Hb' & _ & ->).
      apply blocks_in in Hb as (k & Hk & ->). apply blocks_in in Hb' as (k' & Hk' & ->).
      pose proof (bsize_range d Hd). assert (k <> k') by congruence. unfold block in *. nia.
    + destruct Hc as [-> _], Hc' as [-> _]. done.
  - destruct (live_bounds h a r p n Hh Ha Hc) as (B1 & B2 & B3).
    destruct (live_bounds h a' r' q m Hh Ha' Hc') as (B1' & B2' & B3').
    destruct (ho_sep h Hh a r a' r' Ha Ha' Hneq); lia.
Qed.

(** Taking the head of a free list. *)
Lemma heap_pop_spec h d b rest :
  heap_ok h -> 0 <= d < 7 -> flist h d = b :: rest ->
  exists h' D ds r, aget (descs h) d = Done D /\ free_list D = b :: rest /\
    aset (descs h) d (with_free rest D) = Done ds /\ arena_at (with_descs ds h) (block2arena b) = Done r /\
    h' = with_arenas (<[block2arena b := mk_arena (desc r) (u32 (cnt r - 1)) (large r)]>) (with_descs ds h) /\
    heap_ok h' /\ (~ exists n, live h b n) /\ forall q n, live h' q n <-> live h q n \/ (q = b /\ n = bsize d).
Proof.
  intros Hh Hd Hfl. destruct (desc_at h d Hh Hd) as (D & Hg & HD & _ & _ & Hf). rewrite Hfl in Hf.
  destruct (set_desc h d D rest Hh Hd HD) as (ds & Hset & Hlen & Hdesc & Hfls).
  destruct (ho_free h Hh d b Hd) as (a & r & Ha & Hr & Hb); [rewrite Hfl; by left|].
  destruct (block_arena h a r d b) as (E & _ & _ & _); [done..|].
  pose proof (ho_nodup h Hh d Hd) as Hnd. rewrite Hfl in Hnd. apply NoDup_cons in Hnd as [Hbr Hnd].
  pose proof (ho_kind h Hh a r Ha) as Hk. rewrite Hr in Hk. destruct Hk as (_ & _ & Hcnt). rewrite Hfl in Hcnt.
  unfold nfree_blocks in Hcnt. rewrite count_cons, decide_True in Hcnt by (done || by apply blocks_nodup).
  pose proof (length_filter (fun x => x ∈ rest) (blocks a d)) as Hle. pose proof (blocks_length a d Hd) as Hbl.
  pose proof (per_arena_fits d Hd) as [Hpa _].
  destruct (upd_small h a r d ds rest (u32 (cnt r - 1))) as [Hok Hf']; try done.
  { intros x Hx. left. rewrite Hfl. by right. }
  { intros x Hx. rewrite Hfl, elem_of_cons. split; [auto|]. intros [->|]; done. }
  { rewrite Hcnt. unfold nfree_blocks. rewrite u32_small; lia. }
  assert (Hlive0 : ~ exists n, live h b n).
  { intros (n & a' & r' & Ha' & Hc). destruct (desc r') as [d'|] eqn:Hd'.
    - destruct Hc as (Hb' & Hnb & _). assert (a' = a) as -> by (by eapply (blocks_disjoint h a' r' d' a r d b)).
      assert (d' = d) as -> by congruence. apply Hnb. rewrite Hfl. by left.
    - destruct Hc as [Eb _]. destruct (in_blocks_page a d b Hd Hb) as [B1 B2]. pose proof (bsize_range d Hd).
      destruct (decide (a' = a)) as [->|Hne]; [congruence|].
      destruct (ho_range h Hh a' r' Ha') as (_ & _ & Hn' & _). destruct (block_arena h a r d b) as (_ & _ & Hn1 & _); [done..|].
      destruct (ho_sep h Hh a' r' a r Ha' Ha Hne); rewrite ?Hn1 in *; unfold PG_SIZE, ARENA_SIZE in *; lia. }
  exists (with_arenas (<[a := mk_arena (desc r) (u32 (cnt r - 1)) (large r)]>) (with_descs ds h)), D, ds, r.
  rewrite E. split_and!; try done.
  { unfold arena_at. simpl. by rewrite Ha. }
  intros q n. unfold live. set (h' := with_arenas _ _) in *.
  assert (Hlk : arenas h' = <[a := mk_arena (desc r) (u32 (cnt r - 1)) (large r)]> (arenas h)) by done.
  clearbody h'. split.
  - intros (a' & r' & Hx & Hc). destruct (decide (a' = a)) as [->|Hne].
    + rewrite Hlk, lookup_insert_eq in Hx. injection Hx as <-. simpl in Hc. rewrite Hr in Hc. destruct Hc as (Hq & Hnq & ->).
      rewrite Hf', decide_True in Hnq by done. destruct (decide (q = b)) as [->|Hqb]; [by right|]. left.
      exists a, r. rewrite Hr. split_and!; try done. rewrite Hfl, not_elem_of_cons. done.
    + rewrite Hlk, lookup_insert_ne in Hx by done. left. exists a', r'. split; [done|].
      destruct (desc r') as [d'|] eqn:Hd'; [|done]. destruct Hc as (Hq & Hnq & ->).
      pose proof (ho_kind h Hh a' r' Hx) as Hk. rewrite Hd' in Hk. destruct Hk as (_ & K2 & _). split_and!; try done.
      rewrite Hf' in Hnq by done. case_decide as Ed; [|done]. subst d'. rewrite Hfl, not_elem_of_cons. split; [|done].
      intros ->. apply Hne. by eapply (blocks_disjoint h a' r' d a r d b).
  - intros [(a' & r' & Hx & Hc)|[-> ->]].
    + destruct (decide (a' = a)) as [->|Hne].
      * assert (r' = r) as -> by congruence. rewrite Hr in Hc. destruct Hc as (Hq & Hnq & ->).
        eexists a, _. split; [by rewrite Hlk, lookup_insert_eq|]. simpl. rewrite Hr. split_and!; try done.
        rewrite Hf', decide_True by done. rewrite Hfl, not_elem_of_cons in Hnq. tauto.
      * exists a', r'. split; [by rewrite Hlk, lookup_insert_ne|]. destruct (desc r') as [d'|] eqn:Hd'; [|done].
        destruct Hc as (Hq & Hnq & ->). pose proof (ho_kind h Hh a' r' Hx) as Hk. rewrite Hd' in Hk. destruct Hk as (_ & K2 & _).
        split_and!; try done. rewrite Hf' by done. case_decide as Ed; [|done]. subst d'.
        rewrite Hfl, not_elem_of_cons in Hnq. tauto.
    + eexists a, _. split; [by rewrite Hlk, lookup_insert_eq|]. simpl. rewrite Hr. split_and!; try done.
      by rewrite Hf', decide_True.
Qed.

Lemma more_pages h p' :
  heap_ok h -> ps_ok p' -> (forall q, ps_page (pages h) q -> ps_page p' q) -> heap_ok (with_pages p' h).
Proof.
  intros Hh Hp Hm. destruct Hh as [H1 H2 H3 H4 H5 H6 H7 H8 H9]. constructor; try done.
  intros a r k Ha Hk. apply Hm. by apply (H5 a r).
Qed.

Lemma find_desc_spec ds size i j :
  (forall k D, ds !! k = Some D -> block_size D = bsize (i + Z.of_nat k)) -> find_desc ds size i = j -> j < i + Z.of_nat (length ds) ->
  i <= j /\ size <= bsize j /\ forall k, i <= k < j -> bsize k < size.
Proof.
  revert i. induction ds as [|D ds IH]; intros i Hb; simpl; [intros <-; lia|].
  pose proof (Hb 0%nat D eq_refl) as H0. rewrite Z.add_0_r in H0. rewrite H0.
  destruct (Z.leb_spec size (bsize i)); [intros <- _; split_and!; [lia|done|lia]|].
  intros Hf Hl. destruct (IH (i + 1)) as (G1 & G2 & G3); [|done|lia|].
  - intros k E HE. rewrite (Hb (S k) E HE). f_equal. lia.
  - split_and!; [lia|done|]. intros k Hk. destruct (decide (k = i)) as [->|]; [done|]. apply G3. lia.
Qed.

Lemma find_desc_range h size :
  heap_ok h -> 0 < size <= 1024 ->
  let d := find_desc (descs h) size 0 in
  0 <= d < 7 /\ size <= bsize d /\ (d = 0 \/ bsize (d - 1) < size).
Proof.
  intros Hh Hs d.
  assert (Hb : forall k D, descs h !! k = Some D -> block_size D = bsize (0 + Z.of_nat k)).
  { intros k D HD. rewrite (proj1 (ho_desc h Hh k D HD)). done. }
  assert (Hlt : forall ds i, ds <> [] -> (forall k D, ds !! k = Some D -> block_size D = bsize (i + Z.of_nat k)) ->
    size <= bsize (i + Z.of_nat (length ds) - 1) -> find_desc ds size i < i + Z.of_nat (length ds)).
  { clear. induction ds as [|D ds IH]; intros i Hne Hb Hs; [done|]. simpl.
    destruct (Z.leb_spec size (block_size D)) as [|Hgt]; [lia|].
    destruct (decide (ds = [])) as [->|Hne'].
    - rewrite (Hb 0%nat D eq_refl) in Hgt.
      assert (E : i + Z.of_nat (length [D]) - 1 = i + Z.of_nat 0) by (simpl; lia). rewrite E in Hs. lia.
    - specialize (IH (i + 1) Hne'). cbn [length] in Hs. rewrite Nat2Z.inj_succ in *.
      assert (find_desc ds size (i + 1) < i + 1 + Z.of_nat (length ds)); [|lia]. apply IH.
      + intros k E HE. rewrite (Hb (S k) E HE). f_equal. lia.
      + replace (i + 1 + Z.of_nat (length ds) - 1) with (i + Z.succ (Z.of_nat (length ds)) - 1) by lia. done. }
  pose proof (ho_len h Hh) as Hlen. specialize (Hlt (descs h) 0). rewrite Hlen in Hlt.
  assert (Hd7 : find_desc (descs h) size 0 < 7).
  { apply Hlt; [intros E; by rewrite E in Hlen|done|]. vm_compute (bsize _). lia. }
  destruct (find_desc_spec (descs h) size 0 d) as (G1 & G2 & G3); [done|done|rewrite Hlen; fold d in Hd7; lia|].
  fold d in Hd7. split_and!; try done. destruct (decide (d = 0)); [by left|right]. apply G3. lia.
Qed.

Lemma refill_spec h d D :
  heap_ok h -> 0 <= d < 7 -> aget (descs h) d = Done D -> flist h d = [] ->
  exists v p', ps_malloc_page (pages h) 1 = Done (v, p') /\ heap_ok (with_pages p' h) /\
    (v <> 0 -> exists fl ds, add_blocks v 0 (block_size D) (Z.to_nat (blocks_per_arena D)) (free_list D) = Done fl /\
       aset (descs h) d (with_free fl D) = Done ds /\
       let h' := with_descs ds (with_arenas (<[v := mk_arena (Some d) (blocks_per_arena D) false]>) (with_pages p' h)) in
       heap_ok h' /\ flist h' d = blocks v d /\ forall q n, live h' q n <-> live h q n).
Proof.
  intros Hh Hd HD Hnil. destruct (desc_at h d Hh Hd) as (D' & Hg & Hl & Hbs & Hpa & Hf). rewrite HD in Hg. injection Hg as <-.
  destruct (ps_malloc_ok (pages h) 1 (ho_pages h Hh)) as (v & p' & Hv & Hp & Hm & Hnz); [lia|].
  exists v, p'. split; [done|]. split; [by apply more_pages|]. intros Hne. destruct (Hnz Hne) as (V1 & V2 & V3 & V4).
  unfold K_HEAP_START in V2. pose proof (per_arena_fits d Hd) as [Hpr _].
  rewrite Hbs, Hpa, Hf, Hnil. rewrite (add_blocks_spec v d); [|done|lia|unfold PG_SIZE in *; lia|lia|lia|intros; apply not_elem_of_nil].
  rewrite Z2Nat.id by lia. fold (blocks v d). rewrite app_nil_l.
  destruct (set_desc h d D (blocks v d) Hh Hd Hl) as (ds & Hset & Hlen & Hdesc & Hfls).
  exists (blocks v d), ds. split; [done|]. split; [done|].
  destruct (add_arena h p' v (mk_arena (Some d) (per_arena d) false) ds) as [Hok Hlive]; try done.
  - intros d' Hd'. rewrite Hfls by done. simpl. destruct (decide (d' = d)) as [->|Hne'].
    + by rewrite decide_True.
    + rewrite decide_False by congruence. done.
  - split; [done|]. split.
    + transitivity (default [] (free_list <$> ds !! Z.to_nat d)); [done|]. rewrite Hfls by done. by rewrite decide_True.
    + intros q n. rewrite Hlive. simpl. split; [|auto]. intros [|(? & _)]; [done|discriminate].
Qed.

Lemma sys_malloc_spec h size :
  heap_ok h -> 0 <= size <= 3839 * PG_SIZE - ARENA_SIZE ->
  exists p h', sys_malloc h size = Done (p, h') /\ heap_ok h' /\
    (size = 0 \/ hpool_size h <= size -> p = 0) /\
    (p = 0 -> forall q n, live h' q n <-> live h q n) /\
    (p <> 0 -> exists n, size <= n /\
       (forall q m, live h' q m <-> live h q m \/ (q = p /\ m = n)) /\
       (forall q m, live h q m -> p + n <= q \/ q + m <= p)).
Proof.
  intros Hh Hs. unfold sys_malloc.
  destruct (decide (0 < size < hpool_size h)) as [Hin|Hout].
  2: { replace ((0 <? size) && (size <? hpool_size h)) with false.
       - simpl. exists 0, h. split_and!; try done.
       - symmetry. apply andb_false_iff. destruct (Z.ltb_spec 0 size); [right; apply Z.ltb_ge; lia|by left]. }
  replace ((0 <? size) && (size <? hpool_size h)) with true
    by (symmetry; apply andb_true_intro; split; apply Z.ltb_lt; lia).
  cbn [negb]. destruct (Z.ltb_spec 1024 size) as [Hbig|Hsmall].
  - (* whole pages *)
    unfold DIV_ROUND_UP. rewrite u32_small by (unfold PG_SIZE, ARENA_SIZE in *; lia).
    set (n := (size + ARENA_SIZE + PG_SIZE - 1) / PG_SIZE).
    assert (Hn : 0 < n < 3840 /\ size + ARENA_SIZE <= PG_SIZE * n) by (unfold n, PG_SIZE, ARENA_SIZE in *; zdiv).
    destruct (ps_malloc_ok (pages h) n (ho_pages h Hh)) as (v & p' & -> & Hp & Hm & Hnz); [lia|].
    rewrite bind_done. cbn [fst snd]. destruct (Z.eqb_spec v 0) as [->|Hv]; cbn [negb].
    { exists 0, (with_pages p' h). split; [done|]. split; [by apply more_pages|]. split_and!; done. }
    destruct (Hnz Hv) as (V1 & V2 & V3 & V4).
    destruct (add_arena h p' v (mk_arena None n true) (descs h)) as [Hok Hlive]; try done.
    { unfold npages. cbn [large cnt]. lia. }
    { apply Hh. }
    { apply (ho_desc h Hh). }
    rewrite u32_small by (unfold K_HEAP_START, PG_SIZE, ARENA_SIZE in *; lia).
    eexists (v + ARENA_SIZE), _. split; [done|]. split; [exact Hok|]. split; [lia|].
    split; [unfold K_HEAP_START, ARENA_SIZE in *; lia|]. intros _. exists (PG_SIZE * n - ARENA_SIZE). split; [lia|]. split.
    + intros q m. rewrite (Hlive q m). simpl. tauto.
    + intros q m (a & r & Ha & Hc). destruct (live_bounds h a r q m Hh Ha Hc) as (B1 & B2 & B3).
      destruct (fresh_range h v n a r Hh V1) as [|]; [lia|intros k Hk; by apply V4|done|unfold ARENA_SIZE in *; lia..].
  - (* a block *)
    destruct (find_desc_range h size Hh) as (Hd & Hbs & _); [lia|]. set (d := find_desc (descs h) size 0) in *.
    destruct (desc_at h d Hh Hd) as (D & Hg & Hl & HbsD & HpaD & Hf). rewrite Hg, bind_done.
    assert (Hfinal : forall h1, heap_ok h1 -> flist h1 d <> [] -> (forall q n, live h1 q n <-> live h q n) ->
      exists p h', (let h1 := (true, h1).2 in if negb (true, h1).1 then Done (0, h1) else
        d0 ← aget (descs h1) d;
        match free_list d0 with
        | [] => Fault
        | b :: rest =>
            ds ← aset (descs h1) d (with_free rest d0);
            let h2 := with_descs ds h1 in
            let a := block2arena b in
            r ← arena_at h2 a;
            Done (b, with_arenas (<[a := mk_arena (desc r) (u32 (cnt r - 1)) (large r)]>) h2)
        end) = Done (p, h') /\ heap_ok h' /\ p <> 0 /\
        (forall q m, live h' q m <-> live h q m \/ (q = p /\ m = bsize d)) /\
        (forall q m, live h q m -> p + bsize d <= q \/ q + m <= p)).
    { intros h1 Hh1 Hne Heq. destruct (flist h1 d) as [|b rest] eqn:Hfl; [done|].
      destruct (heap_pop_spec h1 d b rest Hh1 Hd Hfl) as (h' & D1 & ds & r & HD1 & Hf1 & Hset & Har & -> & Hok & Hnl & Hlive).
      cbn [fst snd negb]. rewrite HD1, bind_done, Hf1, Hset, bind_done. cbv zeta. rewrite Har, bind_done.
      eexists b, _. split; [done|]. split; [done|].
      assert (Hb : live (with_arenas (<[block2arena b := mk_arena (desc r) (u32 (cnt r - 1)) (large r)]>) (with_descs ds h1)) b (bsize d))
        by (apply Hlive; by right).
      split; [|split].
      - destruct (ho_free h1 Hh1 d b Hd) as (a & r0 & Ha & Hr & Hbb); [rewrite Hfl; by left|].
        destruct (block_arena h1 a r0 d b) as (_ & _ & _ & Hk); [done..|]. unfold K_HEAP_START in Hk. lia.
      - intros q m. by rewrite Hlive, Heq.
      - intros q m Hq. destruct (decide (b = q)) as [->|Hneq]; [exfalso; apply Hnl; exists m; by apply Heq|].
        eapply live_disjoint; [exact Hok|done| |done]. apply Hlive. left. by apply Heq. }
    case_bool_decide as Hnil.
    + destruct (refill_spec h d D) as (v & p' & -> & Hmore & Hnz); [done..|by rewrite <- Hf|].
      rewrite !bind_done. cbn [fst snd]. destruct (Z.eqb_spec v 0) as [->|Hv].
      { rewrite bind_done. cbn [fst snd negb]. exists 0, (with_pages p' h). split_and!; done. }
      destruct (Hnz Hv) as (fl & ds & Hadd & Hset & Hok & Hbl & Hlive).
      rewrite Hadd, bind_done. cbn [descs with_arenas with_pages]. rewrite Hset, !bind_done.
      destruct (Hfinal _ Hok ltac:(rewrite Hbl; by apply blocks_nonempty) Hlive) as (p & h' & Heq & Hok' & Hp & Hl1 & Hl2).
      exists p, h'. split; [exact Heq|]. split; [done|]. split; [lia|]. split; [done|]. intros _. exists (bsize d). done.
    + rewrite bind_done. destruct (Hfinal h) as (p & h' & Heq & Hok' & Hp & Hl1 & Hl2); [done|by rewrite <- Hf|done|].
      exists p, h'. split; [exact Heq|]. split; [done|]. split; [lia|]. split; [done|]. intros _. exists (bsize d). done.
Qed.

(** ** Properties *)

(** C8. [sys_malloc]: for every size whose page count [malloc_page] accepts, the call
    returns, keeps the heap's invariant (so every arena's counter is the number of its
    free blocks), and returns NULL or a block of at least [size] bytes that was not in
    use and overlaps no block in use; it becomes the only new block in use. A size of 0
    or not below the pool's size gives NULL. *)
Theorem sys_malloc_correct h size :
  heap_ok h -> 0 <= size <= 3839 * PG_SIZE - ARENA_SIZE ->
  exists p h', sys_malloc h size = Done (p, h') /\ heap_ok h' /\
    (size = 0 \/ hpool_size h <= size -> p = 0) /\
    (p = 0 -> forall q n, live h' q n <-> live h q n) /\
    (p <> 0 -> exists n, size <= n /\
       (forall q m, live h' q m <-> live h q m \/ (q = p /\ m = n)) /\
       (forall q m, live h q m -> p + n <= q \/ q + m <= p)).
Proof. apply sys_malloc_spec. Qed.

(** A small block in use goes back to its free list. *)
Lemma heap_push_spec h a r d p ds :
  heap_ok h -> arenas h !! a = Some r -> desc r = Some d -> p ∈ blocks a d -> p ∉ flist h d ->
  length ds = 7%nat ->
  (forall i E, ds !! i = Some E -> block_size E = bsize (Z.of_nat i) /\ blocks_per_arena E = per_arena (Z.of_nat i)) ->
  (forall d', 0 <= d' < 7 -> default [] (free_list <$> ds !! Z.to_nat d') = if decide (d' = d) then flist h d ++ [p] else flist h d') ->
  let h' := with_arenas (<[a := mk_arena (desc r) (u32 (cnt r + 1)) (large r)]>) (with_descs ds h) in
  heap_ok h' /\ (forall d', 0 <= d' < 7 -> flist h' d' = if decide (d' = d) then flist h d ++ [p] else flist h d') /\
  u32 (cnt r + 1) = Z.of_nat (nfree_blocks (flist h d ++ [p]) a d) /\
  (forall q m, live h' q m <-> live h q m /\ q <> p).
Proof.
  intros Hh Ha Hr Hp Hnp Hlen Hdesc Hfl h'.
  pose proof (ho_kind h Hh a r Ha) as Hk. rewrite Hr in Hk. destruct Hk as (_ & Hd & Hcnt).
  assert (Hnd : NoDup (flist h d ++ [p])).
  { apply NoDup_app. split_and!; [by apply (ho_nodup h Hh)| |apply NoDup_singleton]. intros x Hx ->%list_elem_of_singleton. done. }
  assert (Hmem : forall x, x ∈ flist h d ++ [p] <-> x ∈ p :: flist h d).
  { intros x. rewrite elem_of_app, list_elem_of_singleton, elem_of_cons. tauto. }
  assert (Hc : u32 (cnt r + 1) = Z.of_nat (nfree_blocks (flist h d ++ [p]) a d)).
  { unfold nfree_blocks in *. rewrite (count_ext _ (p :: flist h d)) by (intros; apply Hmem).
    rewrite count_cons, decide_True by (done || by apply blocks_nodup).
    pose proof (length_filter (fun x => x ∈ flist h d) (blocks a d)). pose proof (blocks_length a d Hd).
    pose proof (per_arena_fits d Hd). rewrite u32_small; lia. }
  destruct (upd_small h a r d ds (flist h d ++ [p]) (u32 (cnt r + 1))) as [Hok Hf']; try done.
  { intros x Hx%Hmem. apply elem_of_cons in Hx as [->|]; auto. }
  { intros x Hx. rewrite Hmem, elem_of_cons. split; [intros [->|]; done|auto]. }
  split; [done|]. split; [done|]. split; [done|].
  assert (Hlk : arenas h' = <[a := mk_arena (desc r) (u32 (cnt r + 1)) (large r)]> (arenas h)) by done.
  fold h' in Hf', Hok. clearbody h'. intros q m. unfold live. split.
  - intros (a' & r' & Hx & Hc'). rewrite Hlk in Hx. destruct (decide (a' = a)) as [->|Hne].
    + rewrite lookup_insert_eq in Hx. injection Hx as <-. simpl in Hc'. rewrite Hr in Hc'. destruct Hc' as (Hq & Hnq & ->).
      rewrite Hf', decide_True, Hmem, not_elem_of_cons in Hnq by done. split; [|tauto].
      exists a, r. rewrite Hr. tauto.
    + rewrite lookup_insert_ne in Hx by done. pose proof (ho_kind h Hh a' r' Hx) as Hk.
      assert (Hqp : q <> p).
      { intros ->. destruct (desc r') as [d'|] eqn:Hd'.
        - destruct Hc' as (Hq & _). apply Hne. by eapply (blocks_disjoint h a' r' d' a r d p).
        - destruct Hc' as [E _]. destruct (in_blocks_page a d p Hd Hp) as [B1 B2]. pose proof (bsize_range d Hd).
          destruct (ho_range h Hh a' r' Hx) as (_ & _ & Hn' & _). destruct (block_arena h a r d p) as (_ & _ & Hn1 & _); [done..|].
          destruct (ho_sep h Hh a' r' a r Hx Ha Hne); rewrite ?Hn1 in *; unfold PG_SIZE, ARENA_SIZE in *; lia. }
      split; [|done]. exists a', r'. split; [done|]. destruct (desc r') as [d'|]; [|done]. destruct Hk as (_ & K2 & _).
      destruct Hc' as (Hq & Hnq & ->). split_and!; try done. rewrite Hf' in Hnq by done. case_decide as E; [|done].
      subst d'. rewrite Hmem, not_elem_of_cons in Hnq. tauto.
  - intros [(a' & r' & Hx & Hc') Hqp]. destruct (decide (a' = a)) as [->|Hne].
    + assert (r' = r) as -> by congruence. rewrite Hr in Hc'. destruct Hc' as (Hq & Hnq & ->).
      eexists a, _. split; [by rewrite Hlk, lookup_insert_eq|]. simpl. rewrite Hr. split_and!; try done.
      rewrite Hf', decide_True, Hmem, not_elem_of_cons by done. done.
    + exists a', r'. split; [by rewrite Hlk, lookup_insert_ne|]. pose proof (ho_kind h Hh a' r' Hx) as Hk.
      destruct (desc r') as [d'|]; [|done]. destruct Hk as (_ & K2 & _). destruct Hc' as (Hq & Hnq & ->). split_and!; try done.
      rewrite Hf' by done. case_decide as E; [|done]. subst d'. rewrite Hmem, not_elem_of_cons. done.
Qed.

Lemma sys_free_spec h p n :
  heap_ok h -> live h p n ->
  exists h', sys_free h p = Done h' /\ heap_ok h' /\ forall q m, live h' q m <-> live h q m /\ q <> p.
Proof.
  intros Hh Hlive. pose proof Hlive as (a & r & Ha & Hc). destruct (live_bounds h a r p n Hh Ha Hc) as (B1 & B2 & B3).
  destruct (ho_range h Hh a r Ha) as (R1 & R2 & R3 & R4). pose proof (ho_kind h Hh a r Ha) as Hk.
  unfold K_HEAP_START in R2. unfold sys_free. assert_ok; [|apply negb_true_iff, Z.eqb_neq; lia].
  assert_ok; [|apply Z.leb_le; unfold K_HEAP_START; lia].
  assert (Hpa : block2arena p = a).
  { apply block2arena_spec; [done|lia|unfold PG_SIZE in *; lia|]. split; [lia|].
    destruct (desc r) as [d|]; [|destruct Hc as [-> _]; unfold PG_SIZE, ARENA_SIZE; lia].
    destruct Hk as (_ & Hd & _), Hc as (Hb & _). destruct (in_blocks_page a d p Hd Hb). pose proof (bsize_range d Hd). lia. }
  rewrite Hpa. unfold arena_at. rewrite Ha, bind_done. destruct (desc r) as [d|] eqn:Hr; rewrite ?bool_decide_false by done; rewrite ?bool_decide_true by done.
  - (* a block *)
    simpl. destruct Hk as (Hlg & Hd & Hcnt), Hc as (Hb & Hnb & ->).
    destruct (desc_at h d Hh Hd) as (D & -> & HD & Hbs & Hpr & Hf). rewrite bind_done, Hf, Hpr, Hbs.
    destruct (set_desc h d D (flist h d ++ [p]) Hh Hd HD) as (ds & Hset & Hlen & Hdesc & Hfls).
    destruct (heap_push_spec h a r d p ds) as (Hok & Hf' & Hcn & Hl'); [done..|]. rewrite Hr in *.
    destruct (Z.eqb_spec (u32 (cnt r + 1)) (per_arena d)) as [Hfull|Hnf].
    + set (h1 := with_arenas _ (with_descs ds h)) in *.
      assert (Hall : forall x, x ∈ blocks a d -> x ∈ flist h d ++ [p]).
      { apply count_all. unfold nfree_blocks in Hcn. pose proof (blocks_length a d Hd). lia. }
      assert (Hfd1 : flist h1 d = flist h d ++ [p]) by (rewrite Hf' by done; by rewrite decide_True).
      destruct (remove_blocks_spec a d (Z.to_nat (per_arena d)) 0 (flist h d ++ [p])) as (fl & -> & Hnd & Hx);
        [done|lia|unfold npages in R4; rewrite Hlg in R4; lia|lia|pose proof (per_arena_fits d Hd); lia| | |].
      { intros k Hk. apply Hall, blocks_in. exists k. split; [|done]. pose proof (per_arena_fits d Hd). lia. }
      { rewrite <- Hfd1. by apply (ho_nodup h1 Hok). }
      rewrite bind_done. destruct (set_desc h d D fl Hh Hd HD) as (ds2 & -> & Hlen2 & Hdesc2 & Hfls2). rewrite bind_done.
      assert (Hnp1 : npages r = 1) by (unfold npages; by rewrite Hlg).
      destruct (ps_mfree_ok (pages h) a 1 (ho_pages h Hh)) as (p' & -> & Hp' & Hm' & _); [lia|done| |].
      { intros k Hk. apply (ho_owned h Hh a r); [done|]. lia. }
      rewrite bind_done. eexists. split; [done|].
      destruct (del_arena h1 p' a (mk_arena (Some d) (u32 (cnt r + 1)) (large r)) ds2) as [Hok2 Hl2]; try done.
      { unfold h1. simpl. by rewrite lookup_insert_eq. }
      { intros q Hq. unfold npages. simpl. rewrite Hlg. by apply Hm'. }
      { intros d' Hd'. rewrite Hfls2 by done. case_decide as E.
        - subst d'. split; [done|]. intros b. rewrite Hx, Hfd1. split.
          + intros [Hin Hno]. split; [done|]. intros _ Hbb. apply blocks_in in Hbb as (k & Hk & ->). apply (Hno k); [lia|done].
          + intros [Hin Hno]. split; [done|]. intros k Hk ->. apply (Hno eq_refl), blocks_in. exists k. split; [lia|done].
        - rewrite Hf' by done. rewrite decide_False by done. split; [by apply (ho_nodup h Hh)|]. intros b. split; [|tauto].
          intros Hin. split; [done|]. simpl. intros [= E2]. congruence. }
      assert (Heq : with_arenas (delete a) (with_descs ds2 (with_pages p' h)) = with_arenas (delete a) (with_descs ds2 (with_pages p' h1))).
      { unfold h1, with_arenas, with_descs, with_pages. simpl. by rewrite delete_insert_eq. }
      rewrite Heq. split; [done|]. intros q m. rewrite Hl2, Hl'. split; [tauto|]. intros [Hq Hne]. split; [done|].
      split; [|intros [E _]; discriminate E].
      intros (d' & [= <-] & Hqb). destruct Hq as (a' & r' & Ha' & Hc').
      assert (a' = a) as ->.
      { destruct (desc r') as [d'|] eqn:Hd'; [destruct Hc' as (Hq & _); by eapply (blocks_disjoint h a' r' d' a r d q)|].
        destruct (decide (a' = a)) as [|Hna]; [done|]. destruct Hc' as [E _]. destruct (in_blocks_page a d q Hd Hqb).
        pose proof (bsize_range d Hd). destruct (ho_range h Hh a' r' Ha') as (_ & _ & Hn' & _).
        destruct (ho_sep h Hh a' r' a r Ha' Ha Hna); rewrite ?Hnp1 in *; unfold PG_SIZE, ARENA_SIZE in *; lia. }
      assert (r' = r) as -> by congruence. rewrite Hr in Hc'. destruct Hc' as (_ & Hnq & _).
      apply Hnq. specialize (Hall q Hqb). apply elem_of_app in Hall as [|Hqp%list_elem_of_singleton]; done.
    + rewrite Hset, bind_done. eexists. split; [done|]. done.
  - (* whole pages *)
    rewrite Hk. simpl. destruct Hc as [-> ->]. assert (Hnp : npages r = cnt r) by (unfold npages; by rewrite Hk).
    destruct (ps_mfree_ok (pages h) a (cnt r) (ho_pages h Hh)) as (p' & -> & Hp' & Hm' & _); [lia|done| |].
    { intros k Hkk. apply (ho_owned h Hh a r); [done|]. lia. }
    rewrite bind_done. eexists. split; [done|].
    destruct (del_arena h p' a r (descs h)) as [Hok2 Hl2]; try done.
    { intros q Hq. rewrite Hnp. by apply Hm'. }
    { apply Hh. }
    { apply (ho_desc h Hh). }
    { intros d' Hd'. split; [by apply (ho_nodup h Hh)|]. intros b. fold (flist h d'). rewrite Hr. split; [|tauto]. intros Hin. split; done. }
    split; [exact Hok2|]. intros q m. rewrite (Hl2 q m). rewrite Hr. split.
    + intros (Hq & _ & Hn2). split; [done|]. intros ->. by apply Hn2.
    + intros [Hq Hne]. split; [done|]. split; [intros (d & [=] & _)|intros [_ ->]; done].
Qed.

(** A block in use lies in the pages of its own arena only. *)
Lemma live_in_arena h a r q m :
  heap_ok h -> arenas h !! a = Some r -> live h q m -> a <= q < a + PG_SIZE * npages r ->
  match desc r with
  | None => q = a + ARENA_SIZE /\ m = PG_SIZE * cnt r - ARENA_SIZE
  | Some d => q ∈ blocks a d /\ (q ∉ flist h d) /\ m = bsize d
  end.
Proof.
  intros Hh Ha (a' & r' & Ha' & Hc) Hq. destruct (decide (a' = a)) as [->|Hne]; [assert (r' = r) as -> by congruence; done|].
  destruct (live_bounds h a' r' q m Hh Ha' Hc) as (B1 & B2 & B3). destruct (ho_sep h Hh a' r' a r Ha' Ha Hne); lia.
Qed.

(** Another block of the arena is in use. *)
Definition shared h (a : Z) (r : arena) (p : Z) : Prop := exists q m, live h q m /\ a <= q < a + PG_SIZE * npages r /\ q <> p.

Lemma shared_count h a r d p :
  heap_ok h -> arenas h !! a = Some r -> desc r = Some d -> p ∈ blocks a d -> p ∉ flist h d ->
  shared h a r p <-> u32 (cnt r + 1) <> per_arena d.
Proof.
  intros Hh Ha Hr Hp Hnp. pose proof (ho_kind h Hh a r Ha) as Hk. rewrite Hr in Hk. destruct Hk as (Hlg & Hd & Hcnt).
  assert (Hc : u32 (cnt r + 1) = Z.of_nat (length (filter (fun x => x ∈ p :: flist h d) (blocks a d)))).
  { rewrite count_cons, decide_True by (done || by apply blocks_nodup). unfold nfree_blocks in Hcnt.
    pose proof (length_filter (fun x => x ∈ flist h d) (blocks a d)). pose proof (blocks_length a d Hd). pose proof (per_arena_fits d Hd). rewrite u32_small; lia. }
  rewrite Hc, <- (blocks_length a d Hd). split.
  - intros (q & m & Hl & Hq & Hne) E. pose proof (live_in_arena h a r q m Hh Ha Hl Hq) as Hc'. rewrite Hr in Hc'. destruct Hc' as (Hb & Hnb & _).
    pose proof (count_all (p :: flist h d) (blocks a d) ltac:(lia) q Hb) as [->|Hin]%elem_of_cons; done.
  - intros E. destruct (decide (Forall (fun b => b ∈ p :: flist h d) (blocks a d))) as [Hall|Hex].
    { rewrite Forall_forall in Hall. by rewrite count_full in E. }
    apply not_Forall_Exists in Hex; [|intros b; apply _]. apply Exists_exists in Hex as (b & Hb & Hnb). apply not_elem_of_cons in Hnb as [Hne Hnf].
    exists b, (bsize d). split; [exists a, r; by rewrite Hr|]. split; [|done]. destruct (in_blocks_page a d b Hd Hb). pose proof (bsize_range d Hd).
    unfold npages. rewrite Hlg. lia.
Qed.

(** What becomes of the pages. *)
Lemma sys_free_pages h p n h' :
  heap_ok h -> live h p n -> sys_free h p = Done h' ->
  exists a r, arenas h !! a = Some r /\ a <= p < a + PG_SIZE * npages r /\
    (~ shared h a r p -> arenas h' = delete a (arenas h) /\ forall k, 0 <= k < npages r -> ~ ps_page (pages h') (a + PG_SIZE * k)) /\
    (shared h a r p -> arenas h' = <[a := mk_arena (desc r) (cnt r + 1) (large r)]> (arenas h) /\ pages h' = pages h).
Proof.
  intros Hh (a & r & Ha & Hc) E. destruct (live_bounds h a r p n Hh Ha Hc) as (B1 & B2 & B3). destruct (ho_range h Hh a r Ha) as (R1 & R2 & R3 & R4).
  pose proof (ho_kind h Hh a r Ha) as Hk. exists a, r. split; [done|]. split; [lia|].
  assert (Hown : forall k, 0 <= k < npages r -> ps_page (pages h) (a + PG_SIZE * k)) by (intros k Hkk; by apply (ho_owned h Hh a r)).
  unfold sys_free in E. apply bind_done_inv in E as (? & _ & E). apply bind_done_inv in E as (? & _ & E). unfold arena_at in E.
  destruct (desc r) as [d|] eqn:Hr.
  - destruct Hc as (Hb & Hnb & _), Hk as (Hlg & Hd & Hcnt). destruct (block_arena h a r d p Hh Ha Hr Hb) as (Eb & _ & Hn1 & _).
    rewrite Eb, Ha, bind_done, Hr, (bool_decide_false (_ = None)) in E by done. cbn [andb] in E.
    destruct (desc_at h d Hh Hd) as (D & Hg & _ & _ & Hpa & _). rewrite Hg, bind_done, Hpa in E. pose proof (shared_count h a r d p Hh Ha Hr Hb Hnb) as Hsh.
    destruct (Z.eqb_spec (u32 (cnt r + 1)) (per_arena d)) as [Ec|Ec].
    + apply bind_done_inv in E as (fl & _ & E). apply bind_done_inv in E as (ds & _ & E). apply bind_done_inv in E as (pg & Em & E). injection E as <-.
      split; [|tauto]. intros _. split; [done|]. rewrite Hn1 in *. destruct (ps_mfree_ok (pages h) a 1 (ho_pages h Hh)) as (pg' & Em' & _ & _ & Hgone); [lia|done|done|].
      rewrite Em in Em'. injection Em' as <-. exact Hgone.
    + apply bind_done_inv in E as (ds & _ & E). injection E as <-. split; [tauto|]. intros _. split; [|done]. cbn [arenas with_arenas with_descs].
      pose proof (length_filter (fun x => x ∈ flist h d) (blocks a d)). pose proof (blocks_length a d Hd). pose proof (per_arena_fits d Hd). unfold nfree_blocks in Hcnt. rewrite u32_small by lia. done.
  - destruct Hc as [-> ->]. assert (Eb : block2arena (a + ARENA_SIZE) = a) by (apply block2arena_spec; unfold K_HEAP_START, PG_SIZE, ARENA_SIZE in *; try done; lia).
    rewrite Eb, Ha, bind_done, Hr, bool_decide_true, Hk in E by done. cbn [andb] in E. apply bind_done_inv in E as (pg & Em & E). injection E as <-.
    assert (Hnp : npages r = cnt r) by (unfold npages; by rewrite Hk). split.
    + intros _. split; [done|]. rewrite Hnp in *. destruct (ps_mfree_ok (pages h) a (cnt r) (ho_pages h Hh)) as (pg' & Em' & _ & _ & Hgone); [lia|done|done|].
      rewrite Em in Em'. injection Em' as <-. exact Hgone.
    + intros (q & m & Hl & Hq & Hne). pose proof (live_in_arena h a r q m Hh Ha Hl Hq) as Hc'. rewrite Hr in Hc'. by destruct Hc' as [-> _].
Qed.

(** C9. [sys_free] of a block in use passes all its assertions, keeps the heap's
    invariant, and takes exactly this block out of use. When no other block of its arena
    is in use (for a large block always), the arena is taken apart and each of its pages
    is given back to the page allocator; otherwise the arena counts one free block more
    and no page changes hands. *)
Theorem sys_free_correct h p n :
  heap_ok h -> live h p n ->
  exists h', sys_free h p = Done h' /\ heap_ok h' /\ (forall q m, live h' q m <-> live h q m /\ q <> p) /\
    exists a r, arenas h !! a = Some r /\ a <= p < a + PG_SIZE * npages r /\
      (~ shared h a r p -> arenas h' = delete a (arenas h) /\ forall k, 0 <= k < npages r -> ~ ps_page (pages h') (a + PG_SIZE * k)) /\
      (shared h a r p -> arenas h' = <[a := mk_arena (desc r) (cnt r + 1) (large r)]> (arenas h) /\ pages h' = pages h).
Proof.
  intros Hh Hl. destruct (sys_free_spec h p n Hh Hl) as (h' & E & Hok & Hlv). exists h'. split; [done|]. split; [done|]. split; [done|].
  by apply (sys_free_pages h p n).
Qed.
End HeapProofs.

(** ** The kernel's pages implement the interface *)
Definition kernel_ok (x : vm) : Prop :=
  vm_ok x /\ (forall j, 0 <= j < nbits (vbits PF_KERNEL x) -> present (pde_at (phys x) (cr3 x) (vpage PF_KERNEL x j)) = true) /\
  0x102000 <= pframe PF_KERNEL x 0 /\ K_HEAP_START <= vpage PF_KERNEL x 0.

Definition kernel_page (x : vm) (q : Z) : Prop :=
  exists i f, q = vpage PF_KERNEL x i /\ 0 <= i < nbits (vbits PF_KERNEL x) /\
    trans x q = Some (pframe PF_KERNEL x f) /\ 0 <= f < nbits (pbits PF_KERNEL x) /\
    fresh_frame (phys x) (cr3 x) (pframe PF_KERNEL x f).

Lemma same_dir_pde x x' w : same_dir x x' -> in_range w -> pde_at (phys x') (cr3 x') w = pde_at (phys x) (cr3 x) w.
Proof. intros (Hc & Hd & _) Hw. destruct (range_idx w Hw). unfold pde_at. rewrite Hc. apply Hd. lia. Qed.

Lemma kernel_ok_step x x' :
  kernel_ok x -> vm_ok x' -> (forall pf j, pframe pf x' j = pframe pf x j) -> (forall pf j, vpage pf x' j = vpage pf x j) ->
  (forall pf, nbits (vbits pf x') = nbits (vbits pf x)) -> same_dir x x' -> kernel_ok x'.
Proof.
  intros (Hx & Hp & Hf & Hk) Hx' Hpf Hvp Hnv Hsd. split; [done|]. rewrite Hpf, Hvp. split; [|done].
  intros j Hj. rewrite Hnv in Hj. rewrite Hvp. rewrite (same_dir_pde x x') by (done || by apply vpage_in). by apply Hp.
Qed.

Lemma kernel_page_step x x' q :
  kernel_page x q -> (forall pf j, pframe pf x' j = pframe pf x j) -> (forall pf j, vpage pf x' j = vpage pf x j) ->
  (forall pf, nbits (vbits pf x') = nbits (vbits pf x)) -> (forall pf, nbits (pbits pf x') = nbits (pbits pf x)) ->
  same_dir x x' -> trans x' q = trans x q -> kernel_page x' q.
Proof.
  intros (i & f & Hq & Hi & Ht & Hf & Hff) Hpf Hvp Hnv Hnp Hsd Htr. exists i, f.
  rewrite Hvp, Hnv, Hnp, Hpf, Htr. split_and!; try done; try lia. by apply (same_dir_fresh x).
Qed.

Lemma kernel_malloc_ok x n :
  kernel_ok x -> 0 < n < 3840 ->
  exists v x', malloc_page x PF_KERNEL n = Done (v, x') /\ kernel_ok x' /\
    (forall q, kernel_page x q -> kernel_page x' q) /\
    (v <> 0 -> v mod PG_SIZE = 0 /\ K_HEAP_START <= v /\ v + PG_SIZE * n <= 2 ^ 32 /\
       forall k, 0 <= k < n -> ~ kernel_page x (v + PG_SIZE * k) /\ kernel_page x' (v + PG_SIZE * k)).
Proof.
  intros Hkx Hn. pose proof Hkx as (Hx & Hp & Hf & Hk).
  assert (Hpg : forall i k, vpage PF_KERNEL x i + PG_SIZE * k = vpage PF_KERNEL x (i + k)) by (intros; unfold vpage; lia).
  destruct (malloc_page_spec x PF_KERNEL n Hx Hn) as (v & x' & Hm & Hx' & Hnz & Hpf & Hnp & _ & Hvp & Hnv & Hmono & Hsd).
  { intros i (Hi0 & Hi1 & _). left. intros k Hk'. rewrite Hpg. apply Hp. lia. }
  destruct (Hsd Hp) as [Hsd' _]. clear Hsd. rename Hsd' into Hsd. exists v, x'. split; [done|]. split; [by eapply kernel_ok_step|]. split.
  - intros q Hq. apply (kernel_page_step x); try done. destruct Hq as (i & f & -> & Hi & Ht & _). rewrite Ht.
    apply Hmono; [by apply vpage_in|done].
  - intros Hv. destruct (Hnz Hv) as (i & -> & (Hi0 & Hi1 & Hz) & _ & Hpages & _).
    destruct (vpage_in x PF_KERNEL i Hx) as [_ Hal]; [lia|]. destruct (vo_kernel x Hx) as [_ Hend].
    split; [exact Hal|]. unfold vpage, PG_SIZE in Hk, Hend |- *. split; [lia|]. split; [lia|].
    fold (vpage PF_KERNEL x i). intros k Hkk. change (vaddr_start (the_vaddr PF_KERNEL x) + 4096 * i) with (vpage PF_KERNEL x i).
    change 4096 with PG_SIZE. destruct (Hpages k Hkk) as (Hnone & f & Hfree & _ & Ht). rewrite Hpg in *. split.
    + intros (i' & f' & _ & _ & Ht' & _). congruence.
    + exists (i + k), f. rewrite Hvp, Hnv, Hnp, Hpf. split_and!; try done; try lia; try apply Hfree.
      apply (same_dir_fresh x); [done|]. by apply (vo_fresh x Hx).
Qed.

Lemma kernel_mfree_ok x v n :
  kernel_ok x -> 0 < n -> v mod PG_SIZE = 0 -> (forall k, 0 <= k < n -> kernel_page x (v + PG_SIZE * k)) ->
  exists x', mfree_page x PF_KERNEL v n = Done x' /\ kernel_ok x' /\
    (forall q, kernel_page x q -> ~ (v <= q < v + PG_SIZE * n) -> kernel_page x' q) /\
    (forall k, 0 <= k < n -> ~ kernel_page x' (v + PG_SIZE * k)).
Proof.
  intros Hkx Hn Hal Hpages. pose proof Hkx as (Hx & Hp & Hf & Hk).
  destruct (Hpages 0) as (i & _ & Hv & Hi & _); [lia|]. rewrite Z.mul_0_r, Z.add_0_r in Hv. subst v.
  assert (Hpg : forall k, vpage PF_KERNEL x i + PG_SIZE * k = vpage PF_KERNEL x (i + k)) by (intros; unfold vpage; lia).
  assert (Hend : i + n <= nbits (vbits PF_KERNEL x)).
  { destruct (Hpages (n - 1)) as (j & _ & Hj & Hjr & _); [lia|]. unfold vpage, PG_SIZE in Hj. lia. }
  destruct (mfree_page_spec x PF_KERNEL i n) as (x' & Hm & Hx' & _ & _ & Htr & Hpf & Hnp & Hvp & Hnv & Hsd & _); [done|lia|done|done| |done|done|].
  { split; [exact Hal|]. intros k Hkk. rewrite Z2Nat.id in Hkk by lia. destruct (Hpages k Hkk) as (j & f & Hj & Hjr & Ht & Hfr & Hff).
    split; [rewrite Hpg; apply vpage_in; [done|lia]|]. exists f. done. }
  exists x'. split; [done|]. split; [by eapply kernel_ok_step|].
  split.
  - intros q Hq Hout. apply (kernel_page_step x); try done. destruct Hq as (j & f & -> & Hj & _).
    rewrite Htr by (by apply vpage_in). rewrite decide_False; [done|]. rewrite <- Hpg. done.
  - intros k Hkk (j & f & Hj & Hjr & Ht & _). rewrite Hpg, Htr in Ht by (apply vpage_in; [done|lia]).
    rewrite decide_True in Ht; [done|]. unfold vpage, PG_SIZE. lia.
Qed.

#[global] Instance kernel_pages : PageStore vm := {|
  ps_ok := kernel_ok;
  ps_page := kernel_page;
  ps_malloc_page := fun x n => malloc_page x PF_KERNEL n;
  ps_mfree_page := fun x v n => mfree_page x PF_KERNEL v n;
  ps_malloc_ok := kernel_malloc_ok;
  ps_mfree_ok := kernel_mfree_ok
|}.

(** ** Witnesses, on the kernel's pages *)
Definition sample_heap : heap (P := vm) := mk_heap sample_vm ∅ block_desc_init 0x8000.

Lemma sample_heap_ok : heap_ok sample_heap.
Proof.
  constructor; try done.
  - split; [exact sample_vm_ok|]. split; [|vm_compute; split; discriminate].
    intros j Hj. assert (Hj8 : 0 <= j < 8) by exact Hj.
    assert (E : j = 0 \/ j = 1 \/ j = 2 \/ j = 3 \/ j = 4 \/ j = 5 \/ j = 6 \/ j = 7) by lia.
    destruct E as [->|[->|[->|[->|[->|[->|[->| ->]]]]]]]; vm_compute; reflexivity.
  - intros d D HD. do 7 (destruct d as [|d]; [injection HD as <-; vm_compute; split; reflexivity|]). done.
  - intros d Hd. assert (E : flist sample_heap d = []).
    { assert (E : d = 0 \/ d = 1 \/ d = 2 \/ d = 3 \/ d = 4 \/ d = 5 \/ d = 6) by lia.
      destruct E as [->|[->|[->|[->|[->|[->| ->]]]]]]; reflexivity. }
    rewrite E. apply NoDup_nil_2.
  - intros d b Hd Hb. assert (E : flist sample_heap d = []).
    { assert (E : d = 0 \/ d = 1 \/ d = 2 \/ d = 3 \/ d = 4 \/ d = 5 \/ d = 6) by lia.
      destruct E as [->|[->|[->|[->|[->|[->| ->]]]]]]; reflexivity. }
    rewrite E in Hb. by apply elem_of_nil in Hb.
Qed.


(** What evaluating [sys_malloc(20)] gives: the block and the arenas. *)
Lemma sample_malloc :
  match sys_malloc sample_heap 20 with
  | Done r => r.1 = 0xc010000c /\ map_to_list (arenas r.2) = [(0xc0100000, mk_arena (Some 1) 126 false)]
  | _ => False
  end.
Proof. vm_compute. split; reflexivity. Qed.

Lemma sample_block h' n :
  sys_malloc sample_heap 20 = Done (0xc010000c, h') -> live h' 0xc010000c n -> n = 32.
Proof.
  intros H1 (a & r & Ha & Hc). pose proof sample_malloc as Har. rewrite H1 in Har. cbn [snd] in Har. destruct Har as [_ Har].
  apply elem_of_map_to_list in Ha. rewrite Har in Ha.
  apply list_elem_of_singleton in Ha. injection Ha as -> ->. cbn [desc] in Hc. destruct Hc as (_ & _ & ->). reflexivity.
Qed.

Lemma sys_malloc_correct_witness :
  exists h', sys_malloc sample_heap 20 = Done (0xc010000c, h') /\ heap_ok h' /\ live h' 0xc010000c 32.
Proof.
  destruct (sys_malloc_correct sample_heap 20) as (p & h' & H1 & H2 & _ & _ & H5).
  - exact sample_heap_ok.
  - vm_compute. split; discriminate.
  - pose proof sample_malloc as Hp. rewrite H1 in Hp. cbn [fst] in Hp. destruct Hp as [-> _].
    exists h'. split; [exact H1|]. split; [exact H2|].
    destruct H5 as (n & Hn & Hlive & _); [discriminate|].
    assert (Hb : live h' 0xc010000c n) by (apply (proj2 (Hlive 0xc010000c n)); right; split; reflexivity).
    rewrite <- (sample_block h' n H1 Hb). exact Hb.
Defined.

(** The heap after that allocation. *)
Definition sample_heap2 : heap (P := vm) := match sys_malloc sample_heap 20 with Done r => r.2 | _ => sample_heap end.

Lemma sample_heap2_ok : heap_ok sample_heap2 /\ live sample_heap2 0xc010000c 32.
Proof.
  destruct (sys_malloc_spec sample_heap 20) as (p & h' & H1 & H2 & _ & _ & H5).
  - exact sample_heap_ok.
  - vm_compute. split; discriminate.
  - pose proof sample_malloc as Hp. rewrite H1 in Hp. cbn [fst] in Hp. destruct Hp as [-> _].
    assert (E : sample_heap2 = h') by (unfold sample_heap2; rewrite H1; reflexivity). rewrite E. split; [exact H2|].
    destruct H5 as (n & Hn & Hlive & _); [discriminate|].
    assert (Hb : live h' 0xc010000c n) by (apply (proj2 (Hlive 0xc010000c n)); right; split; reflexivity).
    rewrite <- (sample_block h' n H1 Hb). exact Hb.
Qed.

Lemma sys_free_correct_witness :
  exists h', sys_free sample_heap2 0xc010000c = Done h' /\ heap_ok h' /\ ~ live h' 0xc010000c 32.
Proof.
  destruct (sys_free_correct sample_heap2 0xc010000c 32) as (h' & H1 & H2 & H3 & _).
  - exact (proj1 sample_heap2_ok).
  - exact (proj2 sample_heap2_ok).
  - exists h'. split; [exact H1|]. split; [exact H2|]. intros Hl. apply (proj1 (H3 0xc010000c 32)) in Hl. destruct Hl as [_ Hl]. apply Hl. reflexivity.
Defined.
