(* ===== verification/AddrSpace.v ===== *)
(** * Address spaces (userprog/process.c)

    A process has a page directory of its own, in a page of the kernel: its entries for
    the upper quarter are those of the kernel, its last entry leads to itself. Loading
    cr3 with it switches the address space. *)
From stdpp Require Import base numbers list option tactics gmap fin_maps.
From Stdlib Require Import ZArith Lia.
From S2P Require Import Prelude Bitmap Sched Paging PageAlloc Heap.

Definition USER_VADDR_START : Z := 0x8048000.
Definition USER_STACK3_VADDR : Z := 0xc0000000 - 0x1000.

Definition with_cr3 (d : Z) (x : vm) : vm :=
  mk_vm (phys x) d (kernel_pool x) (user_pool x) (kernel_vaddr x) (userprog_vaddr x) (is_process x).

(** [memcpy] of [n] words between word-aligned addresses. *)
Fixpoint copy_words (x : vm) (dst src : Z) (n : nat) : outcome vm :=
  match n with
  | O => Done x
  | S n => w ← vread x src; x ← vwrite x dst w; copy_words x (u32 (dst + 4)) (u32 (src + 4)) n
  end.

(** ** Operations *)

(** The address of the bitmap, and the virtual pool. [bitmap_init] clears the bitmap and
    fails on NULL. *)
Definition create_user_vaddr_bitmap (x : vm) : outcome (Z * virtual_addr * vm) :=
  let len := (0xc0000000 - USER_VADDR_START) / PG_SIZE / 8 in
  r ← get_kernel_pages x (DIV_ROUND_UP len PG_SIZE);
  ASSERT (negb (r.1 =? 0));;
  b ← bitmap_init (mk_bitmap len (replicate (Z.to_nat len) 0) 0);
  Done (r.1, mk_vaddr b USER_VADDR_START, r.2).

(** 0 for NULL. *)
Definition create_page_dir (x : vm) : outcome (Z * vm) :=
  r ← get_kernel_pages x 1;
  let '(page_dir_vaddr, x) := r in
  if page_dir_vaddr =? 0 then Done (0, x) else
  x ← copy_words x (u32 (page_dir_vaddr + 768 * 4)) (0xfffff000 + 768 * 4) 255;
  new_page_dir_phy_addr ← addr_v2p x page_dir_vaddr;
  x ← vwrite x (u32 (page_dir_vaddr + 4 * 1023)) (entry new_page_dir_phy_addr);
  Done (page_dir_vaddr, x).

Definition page_dir_activate (x : vm) (pgdir : Z) : outcome vm :=
  pagedir_phy_addr ← (if negb (pgdir =? 0) then addr_v2p x pgdir else Done 0x100000);
  Done (with_cr3 pagedir_phy_addr x).

(** ** Writes that leave the tables alone *)

(** [m'] differs from [m] in frames of [F] only. *)
Definition agree (F : Z -> Prop) (m m' : gmap Z Z) : Prop := forall a, ~ F (a / 2 ^ 12 * 2 ^ 12) -> pread m' a = pread m a.

Definition words_ok (m : gmap Z Z) : Prop := forall a, 0 <= pread m a < 2 ^ 32.

(** No frame of [F] is the directory or one of its tables. *)
Definition no_table (F : Z -> Prop) (m : gmap Z Z) (dir : Z) : Prop :=
  ~ F dir /\ forall i, 1 <= i < 1023 -> present (pread m (dir + 4 * i)) = true -> ~ F (frame_of (pread m (dir + 4 * i))).

Lemma fresh_no_table m dir f : fresh_frame m dir f -> no_table (fun g => g = f) m dir.
Proof. intros [H1 H2 H3 H4]. split; [congruence|]. intros i Hi Hp. by apply H4. Qed.

Lemma no_table_or F G m dir : no_table F m dir -> no_table G m dir -> no_table (fun g => F g \/ G g) m dir.
Proof. intros [H1 H2] [H3 H4]. split; [tauto|]. intros i Hi Hp. specialize (H2 i Hi Hp). specialize (H4 i Hi Hp). tauto. Qed.

Lemma agree_trans F m1 m2 m3 : agree F m1 m2 -> agree F m2 m3 -> agree F m1 m3.
Proof. intros H1 H2 a Ha. rewrite H2 by done. by apply H1. Qed.

Lemma agree_weaken (F G : Z -> Prop) m m' : (forall g, F g -> G g) -> agree F m m' -> agree G m m'.
Proof. intros H1 H2 a Ha. apply H2. eauto. Qed.

Lemma dir_frame dir i : dir mod 2 ^ 12 = 0 -> 0 <= i < 1024 -> (dir + 4 * i) / 2 ^ 12 * 2 ^ 12 = dir.
Proof. intros. zdiv. Qed.

Lemma agree_dir F m m' dir i : dir mod 2 ^ 12 = 0 -> ~ F dir -> agree F m m' -> 0 <= i < 1024 -> pread m' (dir + 4 * i) = pread m (dir + 4 * i).
Proof. intros Ha Hd Hag Hi. apply Hag. by rewrite dir_frame. Qed.

(** Such writes keep the tables, and the translation of every address from 4 MB on, the
    window included. *)
Lemma agree_tables F m m' dir :
  tables_ok m dir -> words_ok m' -> agree F m m' -> no_table F m dir ->
  tables_ok m' dir /\ forall w, 2 ^ 22 <= w < 2 ^ 32 -> translate m' dir w = translate m dir w.
Proof.
  intros Ht Hw Hag [Hd Htab]. destruct (t_dir _ _ Ht) as [Hd0 Hda]. destruct (t_rec _ _ Ht) as [Hrp Hrf].
  assert (Hdir : forall i, 0 <= i < 1024 -> pread m' (dir + 4 * i) = pread m (dir + 4 * i)) by (intros i Hi; by eapply agree_dir).
  split; [by apply (tables_frame m)|]. intros w Hr.
  assert (Hi : 1 <= w / 2 ^ 22 < 1024) by zdiv.
  destruct (present (pde_at m dir w)) eqn:Hp.
  - apply trans_frame; [apply Hdir; lia|]. apply Hag. rewrite pte_frame by done.
    destruct (decide (w / 2 ^ 22 = 1023)) as [E|E]; [unfold pde_at; by rewrite E, Hrf|]. apply Htab; [lia|done].
  - unfold translate. assert (E : pde_at m' dir w = pde_at m dir w) by (apply Hdir; lia). by rewrite E, Hp.
Qed.

Lemma agree_fresh F m m' dir f : dir mod 2 ^ 12 = 0 -> agree F m m' -> ~ F dir -> fresh_frame m dir f -> fresh_frame m' dir f.
Proof.
  intros Hda Hag Hd [H1 H2 H3 H4]. constructor; try done. intros i Hi. rewrite (agree_dir F m m') by (done || lia). by apply H4.
Qed.

Lemma vm_ok_agree F x m' :
  vm_ok x -> words_ok m' -> agree F (phys x) m' -> no_table F (phys x) (cr3 x) ->
  vm_ok (with_phys m' x) /\ forall w, 2 ^ 22 <= w < 2 ^ 32 -> trans (with_phys m' x) w = trans x w.
Proof.
  intros Hx Hw Hag Hno. destruct (agree_tables F (phys x) m' (cr3 x) (vo_tables x Hx) Hw Hag Hno) as [Ht Htr].
  assert (Htr' : forall w, in_range w -> trans (with_phys m' x) w = trans x w) by (intros w Hr; apply Htr; unfold in_range in Hr; lia).
  split; [|done]. destruct (t_dir _ _ (vo_tables x Hx)) as [_ Hda].
  pose proof Hx as [T1 T2 T3 T4 T5 T6 T7 T8 T9 T10]. constructor; try done.
  - intros i Hi. eapply agree_fresh; [done|done|apply Hno|by apply T4].
  - intros pf i w a Hi Hr. rewrite Htr' by done. by apply T5.
  - intros pf i w1 w2 a1 a2 Hi Hr1 Hr2. rewrite !Htr' by done. by apply T6.
  - intros pf i Hi. change (vpage pf (with_phys m' x) i) with (vpage pf x i). rewrite Htr' by (by apply vpage_in; [|apply Hi]). by apply T10.
Qed.

(** ** Copying and clearing *)
Lemma trans_offset m dir v a o : translate m dir v = Some a -> (v + o) / 2 ^ 12 = v / 2 ^ 12 -> translate m dir (v + o) = Some (a + o).
Proof.
  intros Ht E. assert (E2 : (v + o) / 2 ^ 22 = v / 2 ^ 22) by zdiv.
  unfold translate, pte_at, pte_addr, pde_at in *. rewrite E, E2. destruct (present _); [|done]. destruct (present _); [|done].
  injection Ht as <-. f_equal. zdiv.
Qed.

(** [n] words within a page, copied to a frame that is no table. *)
Lemma copy_words_ok n : forall x dst src da sa,
  tables_ok (phys x) (cr3 x) -> 2 ^ 22 <= dst -> dst + 4 * Z.of_nat n <= 2 ^ 32 -> 2 ^ 22 <= src -> src + 4 * Z.of_nat n <= 2 ^ 32 ->
  (forall k, 0 <= k < Z.of_nat n -> trans x (dst + 4 * k) = Some (da + 4 * k) /\ trans x (src + 4 * k) = Some (sa + 4 * k)) ->
  no_table (fun f => f = da / 2 ^ 12 * 2 ^ 12) (phys x) (cr3 x) ->
  da mod 2 ^ 12 + 4 * Z.of_nat n <= 2 ^ 12 -> sa mod 2 ^ 12 + 4 * Z.of_nat n <= 2 ^ 12 -> sa / 2 ^ 12 * 2 ^ 12 <> da / 2 ^ 12 * 2 ^ 12 ->
  exists m', copy_words x dst src n = Done (with_phys m' x) /\ words_ok m' /\
    agree (fun f => f = da / 2 ^ 12 * 2 ^ 12) (phys x) m' /\
    forall a, pread m' a = if decide (da <= a < da + 4 * Z.of_nat n /\ (a - da) mod 4 = 0) then pread (phys x) (sa + (a - da)) else pread (phys x) a.
Proof.
  induction n as [|n IH]; intros x dst src da sa Ht Hd0 Hd1 Hs0 Hs1 Htr Hno Hda Hsa Hne; cbn [copy_words].
  - exists (phys x). split; [by destruct x|]. split; [intros a; apply (t_words _ _ Ht)|]. split; [by intros a _|]. intros a. rewrite decide_False by lia. done.
  - destruct (Htr 0) as [T1 T2]; [lia|]. rewrite Z.mul_0_r, !Z.add_0_r in T1, T2. unfold vread, vwrite. unfold trans in T1, T2. rewrite T2, bind_done, T1, bind_done.
    set (w := pread (phys x) sa). set (m1 := <[da := w]> (phys x)).
    assert (Hw1 : words_ok m1).
    { intros a. unfold m1. rewrite pread_insert. case_decide; apply (t_words _ _ Ht). }
    assert (Hag : agree (fun f => f = da / 2 ^ 12 * 2 ^ 12) (phys x) m1).
    { intros a Ha. unfold m1. rewrite pread_insert, decide_False; [done|]. by intros ->. }
    destruct (agree_tables _ _ _ _ Ht Hw1 Hag Hno) as [Ht1 Htr1].
    assert (Hcase : n = O \/ (0 < n)%nat) by lia. destruct Hcase as [->|Hn].
    { cbn [copy_words]. exists m1. split; [done|]. split; [done|]. split; [done|]. intros a. unfold m1. rewrite pread_insert.
      destruct (decide (a = da)) as [->|E]; [rewrite decide_True by zdiv; unfold w; f_equal; lia|]. rewrite decide_False; [done|]. intros [H1 H2]. zdiv. }
    rewrite !u32_small by lia.
    destruct (IH (with_phys m1 x) (dst + 4) (src + 4) (da + 4) (sa + 4)) as (m' & -> & Hw' & Hag' & Hm'); try lia; try done.
    + intros k Hk. destruct (Htr (k + 1)) as [T3 T4]; [lia|]. unfold trans in *. simpl. rewrite !Htr1 by lia.
      replace (dst + 4 + 4 * k) with (dst + 4 * (k + 1)) by lia. replace (src + 4 + 4 * k) with (src + 4 * (k + 1)) by lia.
      rewrite T3, T4. split; f_equal; lia.
    + assert (E : (da + 4) / 2 ^ 12 * 2 ^ 12 = da / 2 ^ 12 * 2 ^ 12) by zdiv. rewrite E. destruct Hno as [N1 N2]. split; [done|].
      intros i Hi. cbn [phys cr3 with_phys]. rewrite (agree_dir _ (phys x) m1 (cr3 x) i (proj2 (t_dir _ _ Ht)) N1 Hag) by lia. by apply N2.
    + zdiv.
    + zdiv.
    + assert (E : (da + 4) / 2 ^ 12 * 2 ^ 12 = da / 2 ^ 12 * 2 ^ 12) by zdiv. rewrite E. zdiv.
    + exists m'. split; [by destruct x|]. split; [done|]. simpl in Hag', Hm'.
      assert (E : (da + 4) / 2 ^ 12 * 2 ^ 12 = da / 2 ^ 12 * 2 ^ 12) by zdiv. rewrite E in Hag'. split; [by eapply agree_trans|].
      intros a. rewrite Hm'. destruct (decide (a = da)) as [->|Ea].
      * rewrite decide_False by lia. rewrite decide_True by zdiv. unfold m1. rewrite pread_insert, decide_True by done. unfold w. f_equal. lia.
      * destruct (decide (da + 4 <= a < da + 4 + 4 * Z.of_nat n /\ (a - (da + 4)) mod 4 = 0)) as [[H1 H2]|H1].
        -- rewrite decide_True by zdiv. unfold m1. rewrite pread_insert, decide_False; [f_equal; lia|]. zdiv.
        -- rewrite decide_False by zdiv. unfold m1. by rewrite pread_insert, decide_False.
Qed.

Lemma zero_page_ok x v f :
  tables_ok (phys x) (cr3 x) -> trans x v = Some f -> f mod 2 ^ 12 = 0 -> 
  exists m', zero_page x v = Done (with_phys m' x) /\ words_ok m' /\ agree (fun g => g = f) (phys x) m' /\ forall i, 0 <= i < 1024 -> pread m' (f + 4 * i) = 0.
Proof.
  intros Ht Htr Ha. unfold zero_page. unfold trans in Htr. rewrite Htr. eexists. split; [done|]. split; [|split].
  - intros a. rewrite pread_zero_words. case_decide; [lia|apply (t_words _ _ Ht)].
  - intros a Hf. rewrite pread_zero_words, decide_False; [done|]. intros [H1 _]. apply Hf. zdiv.
  - intros i Hi. rewrite pread_zero_words, decide_True; [done|]. zdiv.
Qed.

(** ** A page for the kernel *)

(** Frames the kernel may write when it takes pages. *)
Definition kernel_writes (x : vm) (g : Z) : Prop := is_table x g \/ exists f, is_free (pbits PF_KERNEL x) f /\ g = pframe PF_KERNEL x f.

(** What taking kernel pages leaves as it was. *)
Record kernel_step (x x' : vm) : Prop := {
  ks_ok : kernel_ok x';
  ks_cr3 : cr3 x' = cr3 x;
  ks_dir : forall i, 0 <= i < 1024 -> pread (phys x') (cr3 x + 4 * i) = pread (phys x) (cr3 x + 4 * i);
  ks_mem : agree (kernel_writes x) (phys x) (phys x');
  ks_pframe : forall pf j, pframe pf x' j = pframe pf x j;
  ks_pbits : forall pf, grows (pbits pf x) (pbits pf x');
  ks_upool : user_pool x' = user_pool x;
  ks_vpage : forall pf j, vpage pf x' j = vpage pf x j;
  ks_vbits : forall pf, nbits (vbits pf x') = nbits (vbits pf x);
  ks_uvaddr : userprog_vaddr x' = userprog_vaddr x;
  ks_proc : is_process x' = is_process x;
  ks_mono : forall w a, in_range w -> trans x w = Some a -> trans x' w = Some a
}.

Lemma kernel_writes_step x x' g : kernel_step x x' -> kernel_writes x' g -> kernel_writes x g.
Proof.
  intros Hs [[->|(i & Hi & Hp & Hf)]|(f & Hf & ->)].
  - left. left. apply (ks_cr3 _ _ Hs).
  - left. right. exists i. rewrite (ks_cr3 _ _ Hs), (ks_dir _ _ Hs) in Hp, Hf by lia. done.
  - right. exists f. rewrite (ks_pframe _ _ Hs). split; [|done]. by eapply grows_free; [apply Hs|].
Qed.

Lemma kernel_step_trans x y z : kernel_step x y -> kernel_step y z -> kernel_step x z.
Proof.
  intros H1 H2. pose proof H1 as [A1 A2 A3 A4 A5 A6 A7 A8 A9 A10 A11 A12]. pose proof H2 as [B1 B2 B3 B4 B5 B6 B7 B8 B9 B10 B11 B12].
  constructor.
  - done.
  - congruence.
  - intros i Hi. rewrite <- A3 by done. rewrite <- A2. by apply B3.
  - intros a Ha. rewrite B4, A4; [done|done|]. intros Hw. by apply Ha, (kernel_writes_step x y).
  - intros pf j. by rewrite B5, A5.
  - intros pf. by eapply grows_trans.
  - congruence.
  - intros pf j. by rewrite B8, A8.
  - intros pf. by rewrite B9, A9.
  - congruence.
  - congruence.
  - intros w a Hw Ha. apply B12; [done|by apply A12].
Qed.

(** The parts of the state that mapping kernel pages does not touch. *)
Definition user_side (x x' : vm) : Prop := user_pool x' = user_pool x /\ userprog_vaddr x' = userprog_vaddr x /\ is_process x' = is_process x.

Lemma vwrite_fields x v w x' : vwrite x v w = Done x' -> exists m, x' = with_phys m x.
Proof. unfold vwrite. destruct (translate _ _ _); [|done]. intros [= <-]. eauto. Qed.

Lemma zero_page_fields x v x' : zero_page x v = Done x' -> exists m, x' = with_phys m x.
Proof. unfold zero_page. destruct (translate _ _ _); [|done]. intros [= <-]. eauto. Qed.

Lemma page_table_add_fields x v pa x' : page_table_add x v pa = Done x' -> exists m p, x' = with_phys m (with_kpool p x).
Proof.
  unfold page_table_add. intros (d & _ & E)%bind_done_inv. destruct (negb _).
  - apply bind_done_inv in E as (t & _ & E). apply bind_done_inv in E as ([] & _ & E). destruct (_ =? _); [|done].
    apply vwrite_fields in E as [m ->]. exists m, (kernel_pool x). by destruct x.
  - apply bind_done_inv in E as (r & _ & E). apply bind_done_inv in E as (x1 & E1 & E). apply vwrite_fields in E1 as [m1 ->].
    apply bind_done_inv in E as (x2 & E2 & E). apply zero_page_fields in E2 as [m2 ->].
    apply bind_done_inv in E as (t & _ & E). apply bind_done_inv in E as ([] & _ & E). apply vwrite_fields in E as [m3 ->]. by exists m3, r.2.
Qed.

Lemma map_pages_user_side n : forall x v b x', map_pages x PF_KERNEL v n = Done (b, x') -> user_side x x'.
Proof.
  induction n as [|n IH]; intros x v b x'; cbn [map_pages].
  - by intros [= _ <-].
  - intros (r & _ & E)%bind_done_inv. destruct (_ =? _); [by injection E as _ <-|].
    apply bind_done_inv in E as (x1 & E1 & E). apply page_table_add_fields in E1 as (m & p & ->). apply IH in E as (E1 & E2 & E3). done.
Qed.

Lemma malloc_page_user_side x n v x' : malloc_page x PF_KERNEL n = Done (v, x') -> user_side x x'.
Proof.
  unfold malloc_page. intros ([] & _ & E)%bind_done_inv. apply bind_done_inv in E as (r & Er & E).
  assert (H1 : user_side x r.2).
  { unfold vaddr_get in Er. apply bind_done_inv in Er as (i & _ & Er). destruct (_ =? _); [by injection Er as <-|].
    apply bind_done_inv in Er as (b & _ & Er). apply bind_done_inv in Er as ([] & _ & Er). by injection Er as <-. }
  destruct (_ =? _); [by injection E as _ <-|]. apply bind_done_inv in E as ([q x2] & Eq & E). apply map_pages_user_side in Eq.
  destruct H1 as (A1 & A2 & A3), Eq as (B1 & B2 & B3). assert (user_side x x2) by (unfold user_side; split_and!; congruence).
  destruct q; by injection E as _ <-.
Qed.

Lemma zero_pages_ok n : forall x v,
  vm_ok x -> in_range v -> v + PG_SIZE * Z.of_nat n <= 2 ^ 32 ->
  (forall k, 0 <= k < Z.of_nat n -> in_range (v + PG_SIZE * k) /\ exists f, trans x (v + PG_SIZE * k) = Some f /\ fresh_frame (phys x) (cr3 x) f) ->
  exists m', zero_pages x v n = Done (with_phys m' x) /\ words_ok m' /\
    agree (fun g => exists k, 0 <= k < Z.of_nat n /\ trans x (v + PG_SIZE * k) = Some g) (phys x) m' /\
    forall k f i, 0 <= k < Z.of_nat n -> trans x (v + PG_SIZE * k) = Some f -> 0 <= i < 1024 -> pread m' (f + 4 * i) = 0.
Proof.
  induction n as [|n IH]; intros x v Hx Hv He Hp; cbn [zero_pages].
  - exists (phys x). split; [by destruct x|]. split; [intros a; apply (t_words _ _ (vo_tables x Hx))|]. split; [by intros a _|lia].
  - destruct (Hp 0) as (Hr & f & Ht & Hf); [lia|]. rewrite Z.mul_0_r, Z.add_0_r in Hr, Ht. pose proof Hf as [F1 F2 F3 F4].
    destruct (zero_page_ok x v f (vo_tables x Hx) Ht F2) as (m1 & -> & Hw1 & Hag1 & Hz1). rewrite bind_done.
    destruct (vm_ok_agree _ x m1 Hx Hw1 Hag1) as [Hx1 Htr1]; [by apply fresh_no_table|].
    assert (Hcase : n = O \/ (0 < n)%nat) by lia. destruct Hcase as [->|Hn].
    { exists m1. cbn [zero_pages]. split; [done|]. split; [done|]. split.
      - eapply agree_weaken; [|exact Hag1]. intros g ->. exists 0. rewrite Z.mul_0_r, Z.add_0_r. split; [lia|done].
      - intros k g i Hk. replace k with 0 by lia. rewrite Z.mul_0_r, Z.add_0_r, Ht. intros [= <-]. apply Hz1. }
    assert (Hnext : in_range (v + PG_SIZE)) by (destruct (Hp 1) as [H1 _]; [lia|]; by rewrite Z.mul_1_r in H1).
    rewrite u32_small by (unfold in_range in Hnext; lia).
    assert (Hshift : forall k, v + PG_SIZE + PG_SIZE * k = v + PG_SIZE * (k + 1)) by (intros; lia).
    destruct (IH (with_phys m1 x) (v + PG_SIZE)) as (m2 & -> & Hw2 & Hag2 & Hz2); [done|done|lia| |].
    { intros k Hk. rewrite Hshift. destruct (Hp (k + 1)) as (Hr1 & g & Hg & Hgf); [lia|]. split; [done|]. exists g.
      rewrite Htr1 by (unfold in_range in Hr1; lia). split; [done|]. eapply agree_fresh; [apply (t_dir _ _ (vo_tables x Hx))|exact Hag1|intros E; by apply F3|done]. }
    exists m2. split; [by destruct x|]. split; [done|].
    assert (Hag : agree (fun g => exists k, 0 <= k < Z.of_nat (S n) /\ trans x (v + PG_SIZE * k) = Some g) m1 m2).
    { eapply agree_weaken; [|exact Hag2]. intros g (k & Hk & Hg). rewrite Hshift in Hg. exists (k + 1). split; [lia|].
      rewrite Htr1 in Hg; [done|]. destruct (Hp (k + 1)) as [Hr1 _]; [lia|]. unfold in_range in Hr1; lia. }
    split.
    + eapply agree_trans; [|exact Hag]. eapply agree_weaken; [|exact Hag1]. intros g ->. exists 0. rewrite Z.mul_0_r, Z.add_0_r. split; [lia|done].
    + intros k g i Hk Hg Hi. destruct (decide (1 <= k)) as [Hk1|Hk1].
      * apply (Hz2 (k - 1) g i); [lia| |done]. rewrite Hshift. replace (k - 1 + 1) with k by lia. rewrite Htr1; [done|].
        destruct (Hp k) as [Hr1 _]; [lia|]. unfold in_range in Hr1; lia.
      * replace k with 0 in Hg by lia. rewrite Z.mul_0_r, Z.add_0_r in Hg. assert (g = f) as -> by congruence.
        destruct (decide (Exists (fun k => trans x (v + PG_SIZE * (k + 1)) = Some f) (seqZ 0 (Z.of_nat n)))) as [(k' & Hk'%elem_of_seqZ & Ek)%Exists_exists|Hno].
        -- apply (Hz2 k' f i); [lia| |done]. rewrite Hshift, Htr1; [done|]. destruct (Hp (k' + 1)) as [Hr1 _]; [lia|]. unfold in_range in Hr1; lia.
        -- rewrite Hag2; [by apply Hz1|]. intros (k' & Hk' & Ek). rewrite dir_frame in Ek by done. apply Hno, Exists_exists. exists k'.
           split; [apply elem_of_seqZ; lia|]. rewrite Hshift, Htr1 in Ek; [done|]. destruct (Hp (k' + 1)) as [Hr1 _]; [lia|]. unfold in_range in Hr1; lia.
Qed.

(** [n] cleared pages for the kernel. *)
Lemma get_kernel_pages_ok x n :
  kernel_ok x -> 0 < n < 3840 ->
  exists p x', get_kernel_pages x n = Done (p, x') /\ kernel_step x x' /\
    (p <> 0 -> exists i, p = vpage PF_KERNEL x i /\ free_run (vbits PF_KERNEL x) i n /\
       (forall k, 0 <= k < n -> in_range (p + PG_SIZE * k) /\ exists f, is_free (pbits PF_KERNEL x) f /\ bit (pbits PF_KERNEL x') f = true /\
          trans x' (p + PG_SIZE * k) = Some (pframe PF_KERNEL x f) /\ fresh_frame (phys x') (cr3 x') (pframe PF_KERNEL x f) /\
          forall j, 0 <= j < 1024 -> pread (phys x') (pframe PF_KERNEL x f + 4 * j) = 0) /\
       forall w, in_range w -> ~ (p <= w < p + PG_SIZE * n) -> trans x' w = trans x w).
Proof.
  intros Hkx Hn. pose proof Hkx as (Hx & Hp & Hf & Hk). unfold get_kernel_pages.
  assert (Hpg : forall i k, vpage PF_KERNEL x i + PG_SIZE * k = vpage PF_KERNEL x (i + k)) by (intros; unfold vpage; lia).
  destruct (malloc_page_spec x PF_KERNEL n Hx Hn) as (v & x' & Hm & Hx' & Hnz & Hpf & Hnp & Hgr & Hvp & Hnv & Hmono & Hsd).
  { intros i (Hi0 & Hi1 & _). left. intros k Hk'. rewrite Hpg. apply Hp. lia. }
  destruct (Hsd Hp) as [Hsd' _]. clear Hsd. rename Hsd' into Hsd. pose proof Hsd as (Hc & Hd & Hdata). destruct (malloc_page_user_side x n v x' Hm) as (U1 & U2 & U3).
  assert (Hkx' : kernel_ok x') by (by eapply kernel_ok_step).
  rewrite Hm, bind_done. cbn [fst snd]. destruct (Z.eqb_spec v 0) as [->|Hv]; cbn [negb].
  { exists 0, x'. split; [done|]. split; [|done]. constructor; try done. intros a Ha. apply Hdata. intros Ht. apply Ha. by left. }
  destruct (Hnz Hv) as (i & -> & Hrun & Hbits & Hpages & Hout). pose proof Hrun as (Hi0 & Hi1 & _).
  destruct (vo_kernel x Hx) as [_ Hend].
  assert (Hin : forall k, 0 <= k < n -> in_range (vpage PF_KERNEL x i + PG_SIZE * k)) by (intros k Hkk; rewrite Hpg; apply vpage_in; [done|lia]).
  assert (Hfr : forall f, is_free (pbits PF_KERNEL x) f -> fresh_frame (phys x') (cr3 x') (pframe PF_KERNEL x f)) by (intros f Hff; apply (same_dir_fresh x); [done|by apply (vo_fresh x Hx)]).
  destruct (zero_pages_ok (Z.to_nat n) x' (vpage PF_KERNEL x i)) as (m' & -> & Hw & Hag & Hz); [done| | | |].
  { specialize (Hin 0 ltac:(lia)). by rewrite Z.mul_0_r, Z.add_0_r in Hin. }
  { unfold vpage, PG_SIZE in Hend |- *. lia. }
  { intros k Hkk. split; [apply Hin; lia|]. destruct (Hpages k) as (_ & f & Hff & _ & Ht); [lia|]. exists (pframe PF_KERNEL x f). split; [done|by apply Hfr]. }
  rewrite bind_done. exists (vpage PF_KERNEL x i), (with_phys m' x'). split; [done|]. rewrite Z2Nat.id in * by lia.
  assert (HF : forall g, (exists k, 0 <= k < n /\ trans x' (vpage PF_KERNEL x i + PG_SIZE * k) = Some g) -> exists f, is_free (pbits PF_KERNEL x) f /\ g = pframe PF_KERNEL x f).
  { intros g (k & Hkk & Hg). destruct (Hpages k Hkk) as (_ & f & Hff & _ & Ht). exists f. split; [done|congruence]. }
  assert (Hno : no_table (fun g => exists k, 0 <= k < n /\ trans x' (vpage PF_KERNEL x i + PG_SIZE * k) = Some g) (phys x') (cr3 x')).
  { split.
    - intros (f & Hff & E)%HF. destruct (Hfr f Hff) as [_ _ F3 _]. congruence.
    - intros j Hj Hpj (f & Hff & E)%HF. destruct (Hfr f Hff) as [_ _ _ F4]. by apply (F4 j). }
  destruct (vm_ok_agree _ x' m' Hx' Hw Hag Hno) as [Hx2 Htr2].
  assert (Hdir2 : forall j, 0 <= j < 1024 -> pread m' (cr3 x' + 4 * j) = pread (phys x') (cr3 x' + 4 * j)).
  { intros j Hj. exact (agree_dir _ _ _ _ _ (proj2 (t_dir _ _ (vo_tables x' Hx'))) (proj1 Hno) Hag Hj). }
  assert (Htr : forall w, in_range w -> trans (with_phys m' x') w = trans x' w) by (intros w Hw'; apply Htr2; unfold in_range in Hw'; lia).
  split; [constructor|].
  - destruct Hkx' as (_ & K2 & K3 & K4). split; [done|]. split; [|done]. intros j Hj. unfold pde_at. cbn [phys cr3 with_phys].
    change (vpage PF_KERNEL (with_phys m' x') j) with (vpage PF_KERNEL x' j). destruct (vpage_in x' PF_KERNEL j Hx' Hj) as [Hr _].
    destruct (range_idx _ Hr). rewrite Hdir2 by lia. by apply K2.
  - done.
  - intros j Hj. cbn [phys with_phys]. rewrite <- Hc, Hdir2, Hc by done. by apply Hd.
  - intros a Ha. cbn [phys with_phys]. rewrite Hag, Hdata; [done|intros Ht; apply Ha; by left|]. intros (f & Hff & E)%HF. apply Ha. right. by exists f.
  - done.
  - done.
  - done.
  - done.
  - done.
  - done.
  - done.
  - intros w a Hr Ha. rewrite Htr by done. by apply Hmono.
  - intros _. exists i. split; [done|]. split; [done|]. split.
    + intros k Hkk. split; [by apply Hin|]. destruct (Hpages k Hkk) as (_ & f & Hff & Hbt & Ht). exists f. split; [done|]. split; [done|].
      split; [rewrite Htr by (by apply Hin); done|]. split.
      * cbn [phys cr3 with_phys]. exact (agree_fresh _ _ _ _ _ (proj2 (t_dir _ _ (vo_tables x' Hx'))) Hag (proj1 Hno) (Hfr f Hff)).
      * intros j Hj. by apply (Hz k).
    + intros w Hr Ho. rewrite Htr by done. by apply Hout.
Qed.

(** ** A new page directory *)

(** The frame [d] holds a directory with the kernel's entries and no others. *)
Record kernel_dir (m : gmap Z Z) (dir d : Z) : Prop := {
  kd_user : forall j, 0 <= j < 768 -> pread m (d + 4 * j) = 0;
  kd_kernel : forall j, 768 <= j < 1023 -> pread m (d + 4 * j) = pread m (dir + 4 * j);
  kd_rec : pread m (d + 4 * 1023) = entry d
}.

Lemma kernel_step_agree x m' d :
  kernel_ok x -> words_ok m' -> agree (fun g => g = d) (phys x) m' -> fresh_frame (phys x) (cr3 x) d ->
  kernel_ok (with_phys m' x) /\ forall w, 2 ^ 22 <= w < 2 ^ 32 -> trans (with_phys m' x) w = trans x w.
Proof.
  intros (Hx & K2 & K3 & K4) Hw Hag Hf. destruct (vm_ok_agree _ x m' Hx Hw Hag (fresh_no_table _ _ _ Hf)) as [Hx' Htr].
  split; [|done]. split; [done|]. split; [|done]. intros j Hj. change (vpage PF_KERNEL (with_phys m' x) j) with (vpage PF_KERNEL x j).
  destruct (vpage_in x PF_KERNEL j Hx Hj) as [Hr _]. destruct (range_idx _ Hr). unfold pde_at. cbn [phys cr3 with_phys].
  rewrite (agree_dir _ _ _ _ _ (proj2 (t_dir _ _ (vo_tables x Hx))) (proj1 (fresh_no_table _ _ _ Hf)) Hag) by lia. by apply K2.
Qed.

Lemma trans_window x o : tables_ok (phys x) (cr3 x) -> 0 <= o < 2 ^ 12 -> trans x (0xfffff000 + o) = Some (cr3 x + o).
Proof.
  intros Ht Ho. destruct (t_rec _ _ Ht) as [Hp Hf]. unfold trans, translate, pte_at, pte_addr, pde_at.
  assert (E1 : (0xfffff000 + o) / 2 ^ 22 = 1023) by zdiv. assert (E2 : ((0xfffff000 + o) / 2 ^ 12) mod 2 ^ 10 = 1023) by zdiv.
  assert (E3 : (0xfffff000 + o) mod 2 ^ 12 = o) by zdiv. by rewrite E1, E2, E3, Hp, Hf, Hp, Hf.
Qed.

Lemma create_page_dir_ok x :
  kernel_ok x ->
  exists p x', create_page_dir x = Done (p, x') /\ kernel_step x x' /\
    (p <> 0 -> exists f, is_free (pbits PF_KERNEL x) f /\ bit (pbits PF_KERNEL x') f = true /\
       in_range p /\ p mod 2 ^ 12 = 0 /\ 0xc0000000 <= p /\ trans x' p = Some (pframe PF_KERNEL x f) /\
       fresh_frame (phys x') (cr3 x') (pframe PF_KERNEL x f) /\
       (forall w, in_range w -> ~ (p <= w < p + PG_SIZE) -> trans x' w = trans x w) /\
       kernel_dir (phys x') (cr3 x') (pframe PF_KERNEL x f)).
Proof.
  intros Hkx. destruct (get_kernel_pages_ok x 1 Hkx) as (p & x1 & Hg & Hs1 & Hnz); [lia|].
  unfold create_page_dir. rewrite Hg, bind_done. destruct (Z.eqb_spec p 0) as [->|Hp0]; [by exists 0, x1|].
  destruct (Hnz Hp0) as (i & Hpi & Hrun & Hpages & Hout). destruct (Hpages 0) as (Hr & f & Hf & Hbt & Ht & Hff & Hz); [lia|].
  rewrite Z.mul_0_r, Z.add_0_r in Hr, Ht. set (d := pframe PF_KERNEL x f) in *. pose proof Hff as [D1 D2 D3 D4].
  pose proof (ks_ok _ _ Hs1) as Hk1. pose proof Hk1 as (Hx1 & _). pose proof (vo_tables x1 Hx1) as Ht1. destruct (t_dir _ _ Ht1) as [C1 C2].
  destruct Hkx as (Hx & _). destruct Hrun as (Hi0 & Hi1 & _). destruct (vpage_in x PF_KERNEL i Hx) as [_ Hpa]; [lia|]. rewrite <- Hpi in Hpa.
  assert (Hpk : 0xc0000000 <= p) by (destruct (vo_kernel x Hx) as [K1 _]; unfold vpage, PG_SIZE in *; lia).
  rewrite (u32_small (p + 768 * 4)) by (unfold in_range in Hr; lia).
  destruct (copy_words_ok 255 x1 (p + 768 * 4) (0xfffff000 + 768 * 4) (d + 768 * 4) (cr3 x1 + 768 * 4)) as (m2 & -> & Hw2 & Hag2 & Hm2).
  { done. }
  { unfold in_range in Hr. lia. }
  { unfold in_range in Hr. lia. }
  { lia. }
  { lia. }
  { intros k Hk. split.
    - replace (p + 768 * 4 + 4 * k) with (p + (3072 + 4 * k)) by lia. replace (d + 768 * 4 + 4 * k) with (d + (3072 + 4 * k)) by lia. apply trans_offset; [done|zdiv].
    - replace (0xfffff000 + 768 * 4 + 4 * k) with (0xfffff000 + (3072 + 4 * k)) by lia. rewrite trans_window by (done || lia). f_equal. lia. }
  { assert (E : (d + 768 * 4) / 2 ^ 12 * 2 ^ 12 = d) by zdiv. rewrite E. by apply fresh_no_table. }
  { zdiv. }
  { zdiv. }
  { assert (E1 : (d + 768 * 4) / 2 ^ 12 * 2 ^ 12 = d) by zdiv. assert (E2 : (cr3 x1 + 768 * 4) / 2 ^ 12 * 2 ^ 12 = cr3 x1) by zdiv. congruence. }
  rewrite bind_done. assert (Ed : (d + 768 * 4) / 2 ^ 12 * 2 ^ 12 = d) by zdiv. rewrite Ed in Hag2.
  destruct (kernel_step_agree x1 m2 d Hk1 Hw2 Hag2 Hff) as [(Hx2 & _) Htr2].
  assert (Ht2 : trans (with_phys m2 x1) p = Some d) by (rewrite Htr2; [done|unfold in_range in Hr; lia]).
  rewrite (addr_v2p_spec _ p d Hx2 Hr Ht2), bind_done. unfold vwrite.
  assert (Hto : translate (phys (with_phys m2 x1)) (cr3 (with_phys m2 x1)) (u32 (p + 4 * 1023)) = Some (d + 4 * 1023)).
  { rewrite u32_small by (unfold in_range in Hr; lia). apply (trans_offset _ _ p d); [done|zdiv]. }
  rewrite Hto, bind_done. cbn [phys with_phys]. set (m3 := <[d + 4 * 1023 := entry d]> m2).
  assert (He : 0 <= entry d < 2 ^ 32) by (rewrite entry_eq by done; zdiv).
  assert (Hw3 : words_ok m3) by (intros a; unfold m3; rewrite pread_insert; case_decide; [done|apply Hw2]).
  assert (Hag3 : agree (fun g => g = d) (phys x1) m3).
  { eapply agree_trans; [exact Hag2|]. intros a Ha. unfold m3. rewrite pread_insert, decide_False; [done|]. intros ->. apply Ha. by apply dir_frame. }
  destruct (kernel_step_agree x1 m3 d Hk1 Hw3 Hag3 Hff) as [Hk3 Htr3].
  exists p, (with_phys m3 x1). change (with_phys m3 (with_phys m2 x1)) with (with_phys m3 x1). split; [done|]. split.
  - destruct Hs1 as [S1 S2 S3 S4 S5 S6 S7 S8 S9 S10 S11 S12]. constructor; try done.
    + intros j Hj. cbn [phys with_phys]. rewrite <- S3 by done. rewrite <- S2. apply (agree_dir (fun g => g = d) (phys x1)); [done|intros E; by apply D3|done|done].
    + eapply agree_trans; [exact S4|]. eapply agree_weaken; [|exact Hag3]. intros g ->. right. by exists f.
    + intros w a Hw Ha. rewrite Htr3 by (unfold in_range in Hw; lia). by apply S12.
  - intros _. exists f. split_and!; try done.
    + rewrite Htr3; [done|]. unfold in_range in Hr; lia.
    + cbn [phys cr3 with_phys]. apply (agree_fresh (fun g => g = d) (phys x1)); [done|done|intros E; by apply D3|done].
    + intros w Hw Ho. rewrite Htr3 by (unfold in_range in Hw; lia). apply Hout; [done|]. lia.
    + constructor; cbn [phys cr3 with_phys].
      * intros j Hj. unfold m3. rewrite pread_insert, decide_False by lia. rewrite Hm2, decide_False by lia. apply Hz. lia.
      * intros j Hj. fold d. assert (Hcj : (cr3 x1 + 4 * j) / 2 ^ 12 * 2 ^ 12 = cr3 x1) by zdiv.
        rewrite (Hag3 (cr3 x1 + 4 * j)) by (rewrite Hcj; intros E; by apply D3).
        unfold m3. rewrite pread_insert, decide_False by lia. rewrite Hm2, decide_True by zdiv. f_equal. lia.
      * unfold m3. by rewrite pread_insert, decide_True.
Qed.

(** The address space of such a directory: the kernel's half as in the active one, the
    user's half empty; the invariant of the allocator holds in it. *)
Lemma kernel_dir_space x d :
  vm_ok x -> fresh_frame (phys x) (cr3 x) d -> (forall pf i, is_free (pbits pf x) i -> pframe pf x i <> d) -> kernel_dir (phys x) (cr3 x) d ->
  vm_ok (with_cr3 d x) /\
  (forall w, 0xc0000000 <= w < 0xffc00000 -> trans (with_cr3 d x) w = trans x w) /\
  (forall w, 2 ^ 22 <= w < 0xc0000000 -> trans (with_cr3 d x) w = None).
Proof.
  intros Hx [D1 D2 D3 D4] Hnf [K1 K2 K3]. pose proof (vo_tables x Hx) as Ht.
  assert (Hk : forall w, 0xc0000000 <= w < 0xffc00000 -> trans (with_cr3 d x) w = trans x w).
  { intros w Hw. assert (Hi : 768 <= w / 2 ^ 22 < 1023) by zdiv. unfold trans, translate, pte_at, pte_addr, pde_at. cbn [phys cr3 with_cr3]. by rewrite K2. }
  assert (Hu : forall w, 2 ^ 22 <= w < 0xc0000000 -> trans (with_cr3 d x) w = None).
  { intros w Hw. assert (Hi : 1 <= w / 2 ^ 22 < 768) by zdiv. unfold trans, translate, pde_at. cbn [phys cr3 with_cr3]. rewrite K1 by lia. done. }
  assert (Hsome : forall w a, in_range w -> trans (with_cr3 d x) w = Some a -> trans x w = Some a).
  { intros w a Hw Ha. unfold in_range in Hw. destruct (decide (w < 0xc0000000)); [rewrite Hu in Ha by lia; done|]. by rewrite <- Hk by lia. }
  assert (Hpres : forall i, 1 <= i < 1023 -> present (pread (phys x) (d + 4 * i)) = true ->
    present (pread (phys x) (cr3 x + 4 * i)) = true /\ pread (phys x) (d + 4 * i) = pread (phys x) (cr3 x + 4 * i)).
  { intros i Hi Hp. destruct (decide (i < 768)); [rewrite K1 in Hp by lia; done|]. rewrite K2 in * by lia. done. }
  split; [|done]. pose proof Hx as [T1 T2 T3 T4 T5 T6 T7 T8 T9 T10]. constructor; try done.
  - constructor; cbn [phys cr3 with_cr3].
    + apply (t_words _ _ Ht).
    + done.
    + rewrite K3. split; [by apply present_entry|by apply frame_entry].
    + intros i Hi Hp. destruct (Hpres i Hi Hp) as [Hp' ->]. by apply D4.
    + intros i j Hi Hj Hpi Hpj. destruct (Hpres i Hi Hpi) as [Hp1 ->], (Hpres j Hj Hpj) as [Hp2 ->]. by apply (t_inj _ _ Ht).
  - intros i Hi. destruct (T4 i Hi) as [F1 F2 F3 F4]. constructor; try done.
    + by apply (Hnf PF_KERNEL).
    + intros j Hj Hp. destruct (Hpres j Hj Hp) as [Hp' E]. cbn [phys cr3 with_cr3]. rewrite E. by apply F4.
  - intros pf i w a Hi Hw Ha. by eapply T5, Hsome.
  - intros pf i w1 w2 a1 a2 Hi Hw1 Hw2 H1 H2. eapply T6; eauto.
  - intros pf i Hi. change (vpage pf (with_cr3 d x) i) with (vpage pf x i). destruct (trans (with_cr3 d x) (vpage pf x i)) eqn:E; [|done].
    apply Hsome in E; [|by apply vpage_in; [|apply Hi]]. by rewrite (T10 pf i Hi) in E.
Qed.

(** ** A page for the user *)
Record user_page (x x' : vm) (v f : Z) : Prop := {
  up_ok : vm_ok x';
  up_cr3 : cr3 x' = cr3 x;
  up_free : is_free (pbits PF_USER x) f;
  up_taken : bit (pbits PF_USER x') f = true;
  up_trans : forall w, in_range w -> trans x' w = if decide (w / 2 ^ 12 = v / 2 ^ 12) then Some (pframe PF_USER x f + w mod 2 ^ 12) else trans x w;
  up_vaddr : forall pf, the_vaddr pf x' = the_vaddr pf x;
  up_pframe : forall pf j, pframe pf x' j = pframe pf x j;
  up_grows : forall pf, grows (pbits pf x) (pbits pf x');
  up_nfree : forall pf, (nfree (pbits pf x) <= S (nfree (pbits pf x')))%nat;
  up_writes : table_writes x x' v
}.

Lemma get_user_page_ok x v :
  vm_ok x -> in_range v -> v mod 2 ^ 12 = 0 -> trans x v = None -> (forall pf j, is_free (vbits pf x) j -> vpage pf x j <> v) ->
  (forall pf, (0 < nfree (pbits pf x))%nat) ->
  exists f x', get_a_page_without_opvaddrbitmap x PF_USER v = Done (v, x') /\ user_page x x' v f.
Proof.
  intros Hx Hr Ha Hn Hv Hnf. destruct (vo_pool x Hx PF_USER) as [Hpw [Hps Hpa] Hpe]. unfold get_a_page_without_opvaddrbitmap.
  destruct (palloc_spec (the_pool PF_USER x)) as [(i & b' & -> & Hwf' & Hn' & Hi & Hf & Hb)|[_ Hall]]; [done..| |].
  2: { destruct (nfree_pos _ (Hnf PF_USER)) as (j & Hj & Hbj). unfold pbits in Hj, Hbj. rewrite Hall in Hbj; done. }
  rewrite bind_done. cbn [fst snd]. fold (frame (the_pool PF_USER x) i). fold (pframe PF_USER x i).
  destruct (frame_aligned_pool x PF_USER i Hx Hi) as [Hfr Hfa]. destruct (Z.eqb_spec (pframe PF_USER x i) 0); [lia|].
  assert (Hg : grows (pbits PF_USER x) b') by (by eapply grows_or).
  assert (Hsh := shrinks_pool x PF_USER b' Hx Hg). assert (Hx1 := vm_ok_shrinks _ _ Hx Hsh). set (x1 := with_pool PF_USER _ x) in *.
  destruct Hsh as [Em Ec Eps Evs Epb Evb].
  assert (Hva1 : forall pf', the_vaddr pf' x1 = the_vaddr pf' x) by (by intros []).
  assert (Htr1 : forall w, trans x1 w = trans x w) by done.
  assert (Hpfr1 : forall pf' j, pframe pf' x1 j = pframe pf' x j) by (intros pf' j; unfold pframe, frame; by rewrite Eps).
  destruct (map_frame_ok x1 v (pframe PF_USER x i)) as (x2 & Hadd & Hx2 & Hc2 & Htr2 & Hva2 & Hup2 & Hks2 & Hg2 & Hts2 & Htw & _); [done| |].
  { split; [done|done|done| |split; [lia|done]| | |right; exact (nfree_pos _ (Hnf PF_KERNEL))].
    - intros pf' j. unfold vbits, vpage. rewrite Hva1. by apply Hv.
    - intros pf' j Hj. rewrite Hpfr1. intros E.
      apply (pframe_inj x pf' j PF_USER i Hx) in E as [-> ->]; [|pose proof (proj1 Hj) as Q; rewrite <- (proj1 (proj2 (Epb pf'))); done|done].
      destruct Hj as [_ Hbj]. change (pbits PF_USER x1) with b' in Hbj. rewrite Hb, bool_decide_true in Hbj by lia. done.
    - intros w a Hw. rewrite Htr1. intros Hwa. by apply (vo_unmapped x Hx PF_USER i w a). }
  rewrite Hadd, bind_done. exists i, x2. split; [done|].
  assert (Eu : pbits PF_USER x2 = b') by (unfold pbits; simpl; rewrite Hup2; done).
  constructor.
  - done.
  - done.
  - by split.
  - rewrite Eu, Hb, bool_decide_true by lia. done.
  - intros w Hw. by rewrite Htr2.
  - intros pf. by rewrite Hva2, Hva1.
  - intros [] j; unfold pframe, frame; simpl; [by rewrite Hks2|by rewrite Hup2].
  - intros []; [exact Hg2|by rewrite Eu].
  - intros [].
    + destruct Hts2 as [[E|(i0 & Hi0 & Hbits)] _]; [rewrite E; change (pbits PF_KERNEL x1) with (pbits PF_KERNEL x); lia|].
      apply (nfree_take _ _ i0); [apply Hg2|exact Hbits].
    + rewrite Eu. apply (nfree_take _ _ i); [done|exact Hb].
  - destruct Htw as [W1 W2 W3]. by constructor.
Qed.

(** ** Properties *)

(** C34. A new address space shares the kernel: [create_page_dir] never panics or faults,
    keeps the invariant of the kernel's allocator, and changes no translation but that of
    the page it returns. When it returns a page and [page_dir_activate] loads it, the
    allocator's invariant holds in the new address space, every kernel address translates
    as it did before, and no address from 4 MB up to the kernel is mapped. *)
Theorem create_page_dir_correct x :
  kernel_ok x ->
  exists p x', create_page_dir x = Done (p, x') /\ kernel_ok x' /\
    (forall w a, in_range w -> trans x w = Some a -> trans x' w = Some a) /\
    (p <> 0 -> 0xc0000000 <= p /\ trans x p = None /\
       (forall w, in_range w -> ~ (p <= w < p + PG_SIZE) -> trans x' w = trans x w) /\
       exists y, page_dir_activate x' p = Done y /\ vm_ok y /\
         (forall w, 0xc0000000 <= w < 0xffc00000 -> trans y w = trans x' w) /\
         (forall w, 2 ^ 22 <= w < 0xc0000000 -> trans y w = None)).
Proof.
  intros Hk. destruct (create_page_dir_ok x Hk) as (p & x' & Hc & Hs & Hnz). exists p, x'. split; [done|]. split; [apply (ks_ok _ _ Hs)|].
  split; [apply (ks_mono _ _ Hs)|]. intros Hp. destruct (Hnz Hp) as (f & Hf & Hb & Hr & Ha & Hpk & Ht & Hff & Ho & Hkd). pose proof (ks_ok _ _ Hs) as (Hx' & _).
  split; [done|]. split; [|split; [done|]].
  - destruct (trans x p) as [a|] eqn:E; [|done]. pose proof (ks_mono _ _ Hs p a Hr E) as E'. rewrite Ht in E'. injection E' as <-. destruct Hk as (Hx & _).
    destruct (frame_aligned_pool x PF_KERNEL f Hx) as [_ Hfa]; [apply Hf|]. destruct (vo_unmapped x Hx PF_KERNEL f p _ Hf Hr E). zdiv.
  - exists (with_cr3 (pframe PF_KERNEL x f) x'). unfold page_dir_activate. destruct (Z.eqb_spec p 0); [done|]. cbn [negb].
    rewrite (addr_v2p_spec x' p _ Hx' Hr Ht), bind_done. split; [done|]. apply kernel_dir_space; try done. intros pf i Hi E.
    rewrite (ks_pframe _ _ Hs) in E. apply (pframe_inj x pf i PF_KERNEL f (proj1 Hk)) in E as [-> ->]; [|rewrite <- (proj1 (proj2 (ks_pbits _ _ Hs pf))); apply Hi|apply Hf].
    destruct Hi as [_ Hi]. congruence.
Qed.

Lemma create_page_dir_correct_witness :
  exists x' y, create_page_dir sample_vm = Done (0xc0100000, x') /\ page_dir_activate x' 0xc0100000 = Done y /\ vm_ok y /\
    trans y 0xc0100000 = Some 0x200000 /\ trans y 0x8048000 = None.
Proof.
  destruct (create_page_dir_correct sample_vm) as (p & x' & H1 & H2 & H3 & H4).
  - exact (ho_pages sample_heap sample_heap_ok).
  - assert (H : match create_page_dir sample_vm with Done r => r.1 = 0xc0100000 /\ trans r.2 0xc0100000 = Some 0x200000 | _ => False end) by (vm_compute; split; reflexivity).
    rewrite H1 in H. destruct H as [Hv Ht]. cbn [fst snd] in Hv, Ht. subst p. destruct H4 as (_ & _ & _ & y & Hy & Hok & Hk & Hu); [discriminate|].
    exists x', y. split; [exact H1|]. split; [exact Hy|]. split; [exact Hok|]. split; [rewrite Hk by lia; exact Ht|apply Hu; lia].
Defined.
