(* ===== verification/Ide.v ===== *)
(** * The disk driver (device/ide.c)

    One IDE channel with its two disks. The driver's side is the code's: the values
    it puts into the task-file registers, the command, the chunks of at most 256 sectors,
    the wait for the device. The device's side is the ATA register interface the driver
    relies on: 28-bit LBA spread over four registers, a sector count where 0 stands for 256,
    one bit that selects the disk, and data in the direction the command byte asks for.

    A call runs to its end here; one that finds the channel's lock held would wait for
    another thread, and one whose interrupt does not come would wait for ever: both are
    [Diverge]. The lock itself is the subject of Sync. *)
From stdpp Require Import base numbers list option tactics gmap fin_maps.
From Stdlib Require Import ZArith Lia.
From S2P Require Import Prelude Pic.

Definition SECTOR_SIZE : Z := 512.
Definition BIT_STAT_BSY : Z := 0x80.
Definition BIT_STAT_DRQ : Z := 0x8.
Definition BIT_DEV_MBS : Z := 0xa0.
Definition BIT_DEV_LBA : Z := 0x40.
Definition BIT_DEV_DEV : Z := 0x10.
Definition CMD_IDENTIFY : Z := 0xec.
Definition CMD_READ_SECTOR : Z := 0x20.
Definition CMD_WRITE_SECTOR : Z := 0x30.
Definition max_lba : Z := 80 * 1024 * 1024 / 512 - 1.

(** A sector that was never written holds zeros. *)
Definition sector (d : gmap Z (list Z)) (lba : Z) : list Z := default (replicate 512 0) (d !! lba).

(** [locked]: a thread holds the channel's lock. [devices] are the two disks, [identity]
    what each answers to the identify command; [status i] is what the i-th read of the
    status port after a command gives. *)
Record ide_channel := mk_channel {
  reg_sect_cnt : Z; reg_lba_l : Z; reg_lba_m : Z; reg_lba_h : Z; reg_dev : Z; reg_cmd : Z;
  locked : bool;
  expecting_intr : bool;
  disk_done : Z;
  devices : Z -> gmap Z (list Z);
  identity : Z -> list Z;
  status : nat -> Z
}.

(** ** The device *)
Definition ata_lba (c : ide_channel) : Z :=
  reg_lba_l c + 2 ^ 8 * reg_lba_m c + 2 ^ 16 * reg_lba_h c + 2 ^ 24 * (reg_dev c mod 2 ^ 4).
Definition ata_count (c : ide_channel) : Z := if reg_sect_cnt c =? 0 then 256 else reg_sect_cnt c.
Definition ata_dev (c : ide_channel) : Z := if Z.testbit (reg_dev c) 4 then 1 else 0.

Definition read_sectors (d : gmap Z (list Z)) (lba n : Z) : list Z := seqZ lba n ≫= sector d.
Fixpoint write_sectors (d : gmap Z (list Z)) (lba : Z) (n : nat) (bytes : list Z) : gmap Z (list Z) :=
  match n with
  | O => d
  | S n => write_sectors (<[lba := take 512 bytes]> d) (lba + 1) n (drop 512 bytes)
  end.

(** ** The driver *)
Definition with_regs (cnt l m h dev : Z) (c : ide_channel) : ide_channel :=
  mk_channel cnt l m h dev (reg_cmd c) (locked c) (expecting_intr c) (disk_done c) (devices c) (identity c) (status c).
Definition with_cmd (cmd : Z) (c : ide_channel) : ide_channel :=
  mk_channel (reg_sect_cnt c) (reg_lba_l c) (reg_lba_m c) (reg_lba_h c) (reg_dev c) cmd (locked c) (expecting_intr c) (disk_done c)
    (devices c) (identity c) (status c).
Definition with_lock (l : bool) (c : ide_channel) : ide_channel :=
  mk_channel (reg_sect_cnt c) (reg_lba_l c) (reg_lba_m c) (reg_lba_h c) (reg_dev c) (reg_cmd c) l (expecting_intr c) (disk_done c)
    (devices c) (identity c) (status c).
Definition with_intr (e : bool) (v : Z) (c : ide_channel) : ide_channel :=
  mk_channel (reg_sect_cnt c) (reg_lba_l c) (reg_lba_m c) (reg_lba_h c) (reg_dev c) (reg_cmd c) (locked c) e v (devices c) (identity c) (status c).
Definition with_device (dev : Z) (d : gmap Z (list Z)) (c : ide_channel) : ide_channel :=
  mk_channel (reg_sect_cnt c) (reg_lba_l c) (reg_lba_m c) (reg_lba_h c) (reg_dev c) (reg_cmd c) (locked c) (expecting_intr c) (disk_done c)
    (fun k => if k =? dev then d else devices c k) (identity c) (status c).

Definition select_disk (c : ide_channel) (dev_no : Z) : ide_channel :=
  let reg_device := Z.lor BIT_DEV_MBS BIT_DEV_LBA in
  let reg_device := if dev_no =? 1 then Z.lor reg_device BIT_DEV_DEV else reg_device in
  with_regs (reg_sect_cnt c) (reg_lba_l c) (reg_lba_m c) (reg_lba_h c) (u8 reg_device) c.

Definition select_sector (c : ide_channel) (dev_no lba sec_cnt : Z) : outcome ide_channel :=
  ASSERT (lba <=? max_lba);;
  Done (with_regs (u8 sec_cnt) (u8 lba) (u8 (Z.shiftr lba 8)) (u8 (Z.shiftr lba 16))
    (u8 (Z.lor (Z.lor (Z.lor BIT_DEV_MBS BIT_DEV_LBA) (if dev_no =? 1 then BIT_DEV_DEV else 0)) (Z.shiftr lba 24))) c).

Definition cmd_out (c : ide_channel) (cmd : Z) : ide_channel := with_cmd (u8 cmd) (with_intr true (disk_done c) c).

(** [lock_acquire(&channel->lock)] *)
Definition lock_channel (c : ide_channel) : outcome ide_channel := if locked c then Diverge else Done (with_lock true c).

(** The device interrupts when it has finished a command; [sema_up] makes the
    semaphore 1. *)
Definition intr_hd_handler (c : ide_channel) (ch_no irq_no : Z) : outcome ide_channel :=
  ASSERT ((irq_no =? 0x2e) || (irq_no =? 0x2f));;
  ASSERT (0x2e + ch_no =? irq_no);;
  if expecting_intr c then
    ASSERT (disk_done c =? 0);;
    Done (with_intr false 1 c)
  else Done c.

(** [sema_down(&disk_done)], with the interrupt that ends the wait: that of line
    14 + [ch_no], when the interrupt controllers let it through. *)
Definition wait_done (c : ide_channel) (ch_no : Z) : outcome ide_channel :=
  c ← match line_vector (14 + ch_no) with Some vec => intr_hd_handler c ch_no vec | None => Done c end;
  if disk_done c =? 0 then Diverge else
  ASSERT (disk_done c =? 1);;
  Done (with_intr (expecting_intr c) 0 c).

(** One turn of the loop of [busy_wait], whose test is
    [time_limit -= 10 >= 0], that is [time_limit -= 1]. *)
Definition busy_turn (st : nat -> Z) (s : Z * nat) : outcome ((Z * nat) + (bool * nat)) :=
  let '(time_limit, i) := s in
  let time_limit := u16 (time_limit - (if 0 <=? 10 then 1 else 0)) in
  if time_limit =? 0 then Done (inr (false, i)) else
  if Z.land (st i) BIT_STAT_BSY =? 0 then Done (inr (negb (Z.land (st (S i)) BIT_STAT_DRQ =? 0), i))
  else Done (inl (time_limit, S i)).

Definition busy_fuel : nat := Z.to_nat 30001.

(** Whether the device is ready, and how often the driver slept 10 ms. *)
Definition busy_wait (st : nat -> Z) : outcome (bool * nat) := loop busy_fuel (busy_turn st) (30 * 1000, O).

(** How many bytes [read_from_sector] and [write2sector] move. *)
Definition size_in_byte (sec_cnt : Z) : Z := if u8 sec_cnt =? 0 then 256 * 512 else u8 sec_cnt * 512.

(** What the device offers at its data port. *)
Definition data_port (c : ide_channel) : list Z :=
  if reg_cmd c =? CMD_READ_SECTOR then read_sectors (devices c (ata_dev c)) (ata_lba c) (ata_count c)
  else if reg_cmd c =? CMD_IDENTIFY then identity c (ata_dev c)
  else [].

(** [Fault]: the device has less to give than the driver reads. *)
Definition read_from_sector (c : ide_channel) (sec_cnt : Z) : outcome (list Z) :=
  if decide (size_in_byte sec_cnt <= Z.of_nat (length (data_port c))) then Done (take (Z.to_nat (size_in_byte sec_cnt)) (data_port c))
  else Fault.

(** [Fault]: the device was not told to take data, or the buffer is shorter than what the
    driver sends. *)
Definition write2sector (c : ide_channel) (bytes : list Z) (sec_cnt : Z) : outcome ide_channel :=
  if decide (reg_cmd c = CMD_WRITE_SECTOR /\ size_in_byte sec_cnt <= Z.of_nat (length bytes)) then
    Done (with_device (ata_dev c)
      (write_sectors (devices c (ata_dev c)) (ata_lba c) (Z.to_nat (ata_count c))
        (take (Z.to_nat (size_in_byte sec_cnt)) bytes)) c)
  else Fault.

Definition secs_op (sec_cnt secs_done : Z) : Z :=
  if u32 (secs_done + 256) <=? sec_cnt then 256 else sec_cnt - secs_done.

Definition read_turn (ch_no dev_no lba sec_cnt : Z) (s : ide_channel * Z * list Z)
    : outcome ((ide_channel * Z * list Z) + (ide_channel * list Z)) :=
  let '(c, secs_done, buf) := s in
  if secs_done <? sec_cnt then
    let n := secs_op sec_cnt secs_done in
    c ← select_sector c dev_no (u32 (lba + secs_done)) n;
    c ← wait_done (cmd_out c CMD_READ_SECTOR) ch_no;
    r ← busy_wait (status c);
    if negb r.1 then Panic else
    bytes ← read_from_sector c n;
    Done (inl (c, secs_done + n, buf ++ bytes))
  else Done (inr (c, buf)).

Definition ide_read (c : ide_channel) (ch_no dev_no lba sec_cnt : Z) : outcome (ide_channel * list Z) :=
  ASSERT (lba <=? max_lba);;
  ASSERT (0 <? sec_cnt);;
  c ← lock_channel c;
  r ← loop (Z.to_nat sec_cnt + 1) (read_turn ch_no dev_no lba sec_cnt) (select_disk c dev_no, 0, []);
  Done (with_lock false r.1, r.2).

Definition write_turn (ch_no dev_no lba sec_cnt : Z) (buf : list Z) (s : ide_channel * Z)
    : outcome ((ide_channel * Z) + ide_channel) :=
  let '(c, secs_done) := s in
  if secs_done <? sec_cnt then
    let n := secs_op sec_cnt secs_done in
    c ← select_sector c dev_no (u32 (lba + secs_done)) n;
    let c := cmd_out c CMD_WRITE_SECTOR in
    r ← busy_wait (status c);
    if negb r.1 then Panic else
    c ← write2sector c (drop (Z.to_nat (secs_done * 512)) buf) n;
    c ← wait_done c ch_no;
    Done (inl (c, secs_done + n))
  else Done (inr c).

Definition ide_write (c : ide_channel) (ch_no dev_no lba : Z) (buf : list Z) (sec_cnt : Z) : outcome ide_channel :=
  ASSERT (lba <=? max_lba);;
  ASSERT (0 <? sec_cnt);;
  c ← lock_channel c;
  c ← loop (Z.to_nat sec_cnt + 1) (write_turn ch_no dev_no lba sec_cnt buf) (select_disk c dev_no, 0);
  Done (with_lock false c).

(** [swap_pairs_bytes] with its 8-bit index; [None] when it leaves the source. *)
Fixpoint swap_pairs (dst : list Z) (n : nat) : outcome (list Z) :=
  match n with
  | O => Done [0]
  | S n => match dst with a :: b :: rest => r ← swap_pairs rest n; Done (b :: a :: r) | _ => Fault end
  end.
Definition swap_pairs_bytes (dst : list Z) (len : Z) : outcome (list Z) :=
  if 256 <=? len + 1 then Diverge else swap_pairs dst (Z.to_nat ((len + 1) / 2)).

(** ** Lemmas *)
Definition disk_wf (d : gmap Z (list Z)) : Prop := forall lba s, d !! lba = Some s -> length s = 512%nat.

Lemma sector_length d lba : disk_wf d -> length (sector d lba) = 512%nat.
Proof. intros Hd. unfold sector. destruct (d !! lba) eqn:E; [exact (Hd _ _ E)|exact (length_replicate 512 0)]. Qed.

Lemma read_sectors_cons d lba n : 0 < n -> read_sectors d lba n = sector d lba ++ read_sectors d (lba + 1) (n - 1).
Proof.
  intros Hn. unfold read_sectors. rewrite (seqZ_cons lba n) by lia. rewrite bind_cons.
  by replace (Z.pred n) with (n - 1) by lia.
Qed.

Lemma read_sectors_app d lba n m :
  0 <= n -> 0 <= m -> read_sectors d lba (n + m) = read_sectors d lba n ++ read_sectors d (lba + n) m.
Proof. intros Hn Hm. unfold read_sectors. rewrite seqZ_app by done. by rewrite bind_app. Qed.

Lemma read_sectors_length d lba n : disk_wf d -> 0 <= n -> Z.of_nat (length (read_sectors d lba n)) = 512 * n.
Proof.
  intros Hd Hn. revert lba. pattern n. apply natlike_ind; [done| |done]. clear n Hn.
  intros n Hn IH lba. rewrite read_sectors_cons, length_app, sector_length by (done || lia).
  specialize (IH (lba + 1)). replace (Z.succ n - 1) with n by lia. lia.
Qed.

Lemma size_in_byte_eq n : 1 <= n <= 256 -> size_in_byte n = 512 * n.
Proof.
  intros Hn. unfold size_in_byte. destruct (decide (n = 256)) as [->|Hne]; [done|].
  rewrite u8_small by lia. destruct (Z.eqb_spec n 0); lia.
Qed.

(** The registers tell the device what the driver was asked for. *)
Lemma select_sector_decodes c dev lba n :
  0 <= lba <= max_lba -> 1 <= n <= 256 -> dev = 0 \/ dev = 1 ->
  exists c', select_sector c dev lba n = Done c' /\ ata_lba c' = lba /\ ata_count c' = n /\ ata_dev c' = dev /\
    devices c' = devices c /\ status c' = status c /\ disk_done c' = disk_done c.
Proof.
  intros Hl Hn Hd. unfold select_sector. assert_ok; [|apply Z.leb_le; lia].
  change max_lba with 163839 in Hl.
  assert (Hs : Z.shiftr lba 24 = 0) by (rewrite Z.shiftr_div_pow2 by lia; apply Z.div_small; lia).
  eexists. split; [done|]. unfold ata_lba, ata_count, ata_dev.
  cbn [with_regs reg_lba_l reg_lba_m reg_lba_h reg_dev reg_sect_cnt devices status disk_done].
  rewrite Hs. split_and!; try done.
  - unfold u8 at 1 2 3. rewrite !Z.shiftr_div_pow2 by lia. destruct Hd as [-> | ->]; simpl Z.eqb; cbv iota;
      change (u8 _ mod 2 ^ 4) with 0; zdiv.
  - destruct (decide (n = 256)) as [->|]; [done|]. rewrite u8_small by lia. destruct (Z.eqb_spec n 0); lia.
  - destruct Hd as [-> | ->]; done.
Qed.

(** Line 14 is open and line 15 is not. *)
Lemma wait_done_spec c :
  expecting_intr c = true -> disk_done c = 0 ->
  exists c', wait_done c 0 = Done c' /\ devices c' = devices c /\ status c' = status c /\ disk_done c' = 0 /\
    ata_lba c' = ata_lba c /\ ata_count c' = ata_count c /\ ata_dev c' = ata_dev c /\ reg_cmd c' = reg_cmd c.
Proof.
  intros He Hd. unfold wait_done, intr_hd_handler. change (line_vector (14 + 0)) with (Some 0x2e). rewrite He, Hd. eexists. split; [reflexivity|done].
Qed.

Lemma wait_done_masked c : disk_done c = 0 -> wait_done c 1 = Diverge.
Proof. intros Hd. unfold wait_done. change (line_vector (14 + 1)) with (@None Z). cbv iota. rewrite bind_done, Hd. done. Qed.

Lemma secs_op_range n k : 0 <= k < n -> n < 2 ^ 31 -> 1 <= secs_op n k <= 256 /\ k + secs_op n k <= n.
Proof. intros Hk Hn. unfold secs_op. rewrite u32_small by lia. zbool; lia. Qed.

(** The device becomes ready in time. *)
Definition ready (st : nat -> Z) : Prop := exists k, busy_wait st = Done (true, k).

(** No call is under way. *)
Definition idle (c : ide_channel) : Prop := disk_done c = 0 /\ locked c = false.

Lemma ide_read_spec c dev lba n :
  dev = 0 \/ dev = 1 -> 0 <= lba -> 0 < n -> lba + n <= max_lba + 1 ->
  ready (status c) -> idle c -> disk_wf (devices c dev) ->
  exists c', ide_read c 0 dev lba n = Done (c', read_sectors (devices c dev) lba n) /\
    devices c' = devices c /\ status c' = status c /\ idle c'.
Proof.
  intros Hdev Hl Hn Hend Hrdy [Hd0 Hlk] Hwf. change max_lba with 163839 in Hend.
  unfold ide_read. assert_ok; [|apply Z.leb_le; change max_lba with 163839; lia]. assert_ok; [|by apply Z.ltb_lt].
  unfold lock_channel. rewrite Hlk, bind_done.
  destruct (loop_total (read_turn 0 dev lba n)
    (fun s => let '(c1, k, buf) := s in devices c1 = devices c /\ status c1 = status c /\ disk_done c1 = 0 /\
       0 <= k <= n /\ buf = read_sectors (devices c dev) lba k)
    (fun r => r.2 = read_sectors (devices c dev) lba n /\ devices r.1 = devices c /\ status r.1 = status c /\ disk_done r.1 = 0)
    (fun s => n - s.1.2)) with (fuel := (Z.to_nat n + 1)%nat) (s := (select_disk (with_lock true c) dev, 0, @nil Z)) as ([c' buf] & Hr & Hbuf & Hrest).
  - intros [[c1 k] buf] (Hdv & Hst & Hdd & Hk & ->). unfold read_turn.
    destruct (Z.ltb_spec k n) as [Hlt|Hge].
    + left. destruct (secs_op_range n k) as [Ho1 Ho2]; [lia..|].
      destruct (select_sector_decodes c1 dev (u32 (lba + k)) (secs_op n k)) as (c2 & -> & L2 & C2 & D2 & V2 & S2 & Q2);
        [rewrite u32_small by lia; change max_lba with 163839; lia|done|done|]. rewrite u32_small in L2 by lia.
      rewrite bind_done. destruct (wait_done_spec (cmd_out c2 CMD_READ_SECTOR)) as (c3 & -> & V3 & S3 & Q3 & L3 & C3 & D3 & M3); [done|simpl; congruence|].
      rewrite bind_done. destruct Hrdy as [j Hj]. rewrite S3. cbn [status cmd_out with_cmd with_intr]. rewrite S2, Hst, Hj, bind_done. cbn [fst negb].
      assert (Ep : data_port c3 = read_sectors (devices c dev) (lba + k) (secs_op n k)).
      { unfold data_port. rewrite M3, L3, C3, D3, V3. unfold ata_lba, ata_count, ata_dev in *. cbn [reg_cmd reg_lba_l reg_lba_m reg_lba_h reg_dev reg_sect_cnt devices cmd_out with_cmd with_intr].
        change (u8 CMD_READ_SECTOR =? CMD_READ_SECTOR) with true. cbv iota. by rewrite L2, C2, D2, V2, Hdv. }
      pose proof (read_sectors_length (devices c dev) (lba + k) (secs_op n k) Hwf) as Hlen. unfold read_from_sector. rewrite Ep, size_in_byte_eq by done.
      rewrite decide_True by lia. rewrite bind_done, take_ge by lia. eexists. split; [done|]. cbn [fst snd]. split; [|lia].
      cbn [devices cmd_out with_cmd with_intr] in V3. cbn [status cmd_out with_cmd with_intr] in S3.
      split; [congruence|]. split; [congruence|]. split; [done|]. split; [lia|]. by rewrite read_sectors_app by lia.
    + right. eexists. split; [done|]. cbn [fst snd]. replace k with n by lia. done.
  - split_and!; try done. lia.
  - cbn [fst snd]. lia.
  - cbn [fst snd] in *. exists (with_lock false c'). rewrite Hr, bind_done, Hbuf. split; [done|]. unfold idle. cbn. tauto.
Qed.

(** The [i]-th sector's worth of a buffer. *)
Definition chunk (bytes : list Z) (i : Z) : list Z := take 512 (drop (Z.to_nat (512 * i)) bytes).

Lemma chunk_length bytes i : 0 <= i -> 512 * (i + 1) <= Z.of_nat (length bytes) -> length (chunk bytes i) = 512%nat.
Proof. intros Hi Hl. unfold chunk. rewrite length_take, length_drop. lia. Qed.

Lemma chunk_drop bytes n i : 0 <= n -> 0 <= i -> chunk (drop (Z.to_nat (n * 512)) bytes) i = chunk bytes (n + i).
Proof. intros Hn Hi. unfold chunk. rewrite drop_drop. do 2 f_equal. lia. Qed.

Lemma chunk_take bytes m i : 0 <= i < m -> chunk (take (Z.to_nat (512 * m)) bytes) i = chunk bytes i.
Proof.
  intros Hi. unfold chunk. rewrite !take_drop_commute, take_take. do 2 f_equal. lia.
Qed.

Lemma sector_insert d a s k : sector (<[a := s]> d) k = if decide (k = a) then s else sector d k.
Proof. unfold sector. case_decide; [subst; by rewrite lookup_insert_eq|by rewrite lookup_insert_ne]. Qed.

Lemma write_sectors_spec n d lba bytes :
  disk_wf d -> 512 * Z.of_nat n <= Z.of_nat (length bytes) ->
  disk_wf (write_sectors d lba n bytes) /\
  forall k, sector (write_sectors d lba n bytes) k =
    if decide (lba <= k < lba + Z.of_nat n) then chunk bytes (k - lba) else sector d k.
Proof.
  revert d lba bytes. induction n as [|n IH]; intros d lba bytes Hd Hl; cbn [write_sectors].
  - split; [done|]. intros k. by rewrite decide_False by lia.
  - destruct (IH (<[lba := take 512 bytes]> d) (lba + 1) (drop 512 bytes)) as [H1 H2].
    + intros k s Hk. destruct (decide (k = lba)) as [->|Hne].
      * rewrite lookup_insert_eq in Hk. injection Hk as <-. rewrite length_take. lia.
      * rewrite lookup_insert_ne in Hk by done. by eapply Hd.
    + rewrite length_drop. lia.
    + split; [done|]. intros k. rewrite H2, sector_insert.
      destruct (decide (lba + 1 <= k < lba + 1 + Z.of_nat n)), (decide (lba <= k < lba + Z.of_nat (S n))), (decide (k = lba)); try lia; try done.
      * replace (drop 512 bytes) with (drop (Z.to_nat (1 * 512)) bytes) by done. rewrite chunk_drop by lia. f_equal. lia.
      * subst. unfold chunk. replace (lba - lba) with 0 by lia. done.
Qed.

Lemma read_chunks d lba n bytes :
  0 <= n -> 512 * n <= Z.of_nat (length bytes) -> (forall k, lba <= k < lba + n -> sector d k = chunk bytes (k - lba)) ->
  read_sectors d lba n = take (Z.to_nat (512 * n)) bytes.
Proof.
  intros Hn. revert lba bytes. pattern n. apply natlike_ind; [done| |done]. clear n Hn.
  intros n Hn IH lba bytes Hl Hs. rewrite read_sectors_cons by lia. rewrite Hs by lia.
  replace (Z.succ n - 1) with n by lia.
  rewrite (IH (lba + 1) (drop 512 bytes)).
  - unfold chunk. replace (lba - lba) with 0 by lia. replace (Z.to_nat (512 * 0)) with 0%nat by lia. rewrite drop_0.
    replace (Z.to_nat (512 * Z.succ n)) with (512 + Z.to_nat (512 * n))%nat by lia. by rewrite take_take_drop.
  - rewrite length_drop. lia.
  - intros k Hk. rewrite Hs by lia. replace (drop 512 bytes) with (drop (Z.to_nat (1 * 512)) bytes) by done.
    rewrite chunk_drop by lia. f_equal. lia.
Qed.

Lemma ide_write_spec c dev lba buf n :
  dev = 0 \/ dev = 1 -> 0 <= lba -> 0 < n -> lba + n <= max_lba + 1 ->
  ready (status c) -> idle c -> disk_wf (devices c dev) -> 512 * n <= Z.of_nat (length buf) ->
  exists c', ide_write c 0 dev lba buf n = Done c' /\ status c' = status c /\ idle c' /\
    disk_wf (devices c' dev) /\ (forall k, k <> dev -> devices c' k = devices c k) /\
    (forall k, sector (devices c' dev) k = if decide (lba <= k < lba + n) then chunk buf (k - lba) else sector (devices c dev) k).
Proof.
  intros Hdev Hl Hn Hend Hrdy [Hd0 Hlk] Hwf Hbuf. change max_lba with 163839 in Hend.
  unfold ide_write. assert_ok; [|apply Z.leb_le; change max_lba with 163839; lia]. assert_ok; [|by apply Z.ltb_lt].
  unfold lock_channel. rewrite Hlk, bind_done.
  set (I := fun (c1 : ide_channel) (k : Z) => status c1 = status c /\ disk_done c1 = 0 /\ disk_wf (devices c1 dev) /\
    (forall j, j <> dev -> devices c1 j = devices c j) /\
    (forall j, sector (devices c1 dev) j = if decide (lba <= j < lba + k) then chunk buf (j - lba) else sector (devices c dev) j)).
  destruct (loop_total (write_turn 0 dev lba n buf) (fun s => I s.1 s.2 /\ 0 <= s.2 <= n) (fun c' => I c' n) (fun s => n - s.2))
    with (fuel := (Z.to_nat n + 1)%nat) (s := (select_disk (with_lock true c) dev, 0)) as (c' & Hr & HI).
  - intros [c1 k] [(Hst & Hdd & Hw1 & Ho1 & Hs1) Hk]. cbn [fst snd] in *. unfold write_turn.
    destruct (Z.ltb_spec k n) as [Hlt|Hge]; [|right; exists c1; split; [done|]; replace n with k by lia; done].
    left. destruct (secs_op_range n k) as [Hp1 Hp2]; [lia..|]. set (m := secs_op n k) in *.
    destruct (select_sector_decodes c1 dev (u32 (lba + k)) m) as (c2 & -> & L2 & C2 & D2 & V2 & S2 & Q2);
      [rewrite u32_small by lia; change max_lba with 163839; lia|done|done|]. rewrite u32_small in L2 by lia.
    rewrite bind_done. cbn [status cmd_out with_cmd with_intr]. rewrite S2, Hst. destruct Hrdy as [j Hj]. rewrite Hj, bind_done. cbn [fst negb].
    unfold write2sector. rewrite size_in_byte_eq by done.
    rewrite decide_True by (split; [done|rewrite length_drop; lia]). rewrite bind_done.
    change (ata_dev (cmd_out c2 CMD_WRITE_SECTOR)) with (ata_dev c2). change (ata_lba (cmd_out c2 CMD_WRITE_SECTOR)) with (ata_lba c2).
    change (ata_count (cmd_out c2 CMD_WRITE_SECTOR)) with (ata_count c2). change (devices (cmd_out c2 CMD_WRITE_SECTOR)) with (devices c2). rewrite D2, L2, C2, V2.
    destruct (write_sectors_spec (Z.to_nat m) (devices c1 dev) (lba + k) (take (Z.to_nat (512 * m)) (drop (Z.to_nat (k * 512)) buf)))
      as [W1 W2]; [done|rewrite length_take, length_drop; lia|].
    set (d' := write_sectors _ _ _ _) in *.
    destruct (wait_done_spec (with_device dev d' (cmd_out c2 CMD_WRITE_SECTOR))) as (c3 & -> & V3 & S3 & Q3 & _); [done|simpl; congruence|].
    rewrite bind_done. eexists. split; [done|]. cbn [fst snd]. split; [|lia]. split; [|lia].
    cbn [devices with_device] in V3. cbn [status with_device cmd_out with_cmd with_intr] in S3.
    assert (Hdv : devices c3 dev = d') by (rewrite V3; by rewrite Z.eqb_refl).
    split; [congruence|]. split; [done|]. split; [by rewrite Hdv|]. split.
    + intros j' Hj'. rewrite V3. destruct (Z.eqb_spec j' dev); [done|]. cbn [devices cmd_out with_cmd with_intr]. rewrite V2. by apply Ho1.
    + intros j'. rewrite Hdv, W2, Hs1. rewrite Z2Nat.id by lia.
      destruct (decide (lba + k <= j' < lba + k + m)), (decide (lba <= j' < lba + (k + m))), (decide (lba <= j' < lba + k)); try lia; try done.
      rewrite chunk_take, chunk_drop by lia. f_equal. lia.
  - split; [|cbn [snd]; lia]. cbn [fst snd]. split; [done|]. split; [done|]. split; [done|]. split; [done|].
    intros j. by rewrite decide_False by lia.
  - cbn [snd]. lia.
  - exists (with_lock false c'). rewrite Hr, bind_done. destruct HI as (I1 & I2 & I3). split_and!; try done; apply I3.
Qed.

(** On the second channel the first chunk is waited for in vain. *)
Lemma ide_read_masked c dev lba n : dev = 0 \/ dev = 1 -> 0 <= lba -> 0 < n -> lba + n <= max_lba + 1 -> idle c -> ide_read c 1 dev lba n = Diverge.
Proof.
  intros Hdev Hl Hn Hend [Hd0 Hlk]. change max_lba with 163839 in Hend.
  unfold ide_read. assert_ok; [|apply Z.leb_le; change max_lba with 163839; lia]. assert_ok; [|by apply Z.ltb_lt].
  unfold lock_channel. rewrite Hlk, bind_done, Nat.add_1_r. cbn [loop].
  enough (read_turn 1 dev lba n (select_disk (with_lock true c) dev, 0, []) = Diverge) as -> by done. unfold read_turn. rewrite (proj2 (Z.ltb_lt 0 n)) by done.
  destruct (secs_op_range n 0) as [Ho _]; [lia..|].
  destruct (select_sector_decodes (select_disk (with_lock true c) dev) dev (u32 (lba + 0)) (secs_op n 0)) as (c2 & -> & _ & _ & _ & _ & _ & Q2);
    [rewrite u32_small by lia; change max_lba with 163839; lia|done|done|].
  rewrite bind_done, wait_done_masked; [done|]. cbn [disk_done cmd_out with_cmd with_intr with_device]. rewrite Q2. exact Hd0.
Qed.

Lemma ide_write_masked c dev lba buf n :
  dev = 0 \/ dev = 1 -> 0 <= lba -> 0 < n -> lba + n <= max_lba + 1 -> ready (status c) -> idle c -> 512 * n <= Z.of_nat (length buf) ->
  ide_write c 1 dev lba buf n = Diverge.
Proof.
  intros Hdev Hl Hn Hend [j Hj] [Hd0 Hlk] Hbuf. change max_lba with 163839 in Hend.
  unfold ide_write. assert_ok; [|apply Z.leb_le; change max_lba with 163839; lia]. assert_ok; [|by apply Z.ltb_lt].
  unfold lock_channel. rewrite Hlk, bind_done, Nat.add_1_r. cbn [loop].
  enough (write_turn 1 dev lba n buf (select_disk (with_lock true c) dev, 0) = Diverge) as -> by done. unfold write_turn. rewrite (proj2 (Z.ltb_lt 0 n)) by done.
  destruct (secs_op_range n 0) as [Ho Ho2]; [lia..|].
  destruct (select_sector_decodes (select_disk (with_lock true c) dev) dev (u32 (lba + 0)) (secs_op n 0)) as (c2 & -> & _ & _ & _ & _ & S2 & Q2);
    [rewrite u32_small by lia; change max_lba with 163839; lia|done|done|].
  rewrite bind_done. cbn [status cmd_out with_cmd with_intr]. rewrite S2. change (status (select_disk (with_lock true c) dev)) with (status c). rewrite Hj, bind_done. cbn [fst negb].
  unfold write2sector. rewrite size_in_byte_eq by done. rewrite decide_True by (split; [done|rewrite length_drop; lia]).
  rewrite bind_done, wait_done_masked; [done|]. cbn [disk_done cmd_out with_cmd with_intr with_device]. rewrite Q2. exact Hd0.
Qed.

(** The loop of [busy_wait] against a device that is busy for [k] polls. *)
Lemma busy_run st n k t :
  (forall i, (n <= i < n + k)%nat -> Z.land (st i) BIT_STAT_BSY <> 0) -> Z.of_nat k < t < 65536 ->
  forall fuel, (k <= fuel)%nat -> loop fuel (busy_turn st) (t, n) = loop (fuel - k) (busy_turn st) ((t - Z.of_nat k)%Z, (n + k)%nat).
Proof.
  revert n t. induction k as [|k IH]; intros n t Hb Ht fuel Hf.
  - rewrite Nat.sub_0_r, Nat.add_0_r. do 2 f_equal. lia.
  - destruct fuel as [|fuel]; [lia|].
    rewrite (loop_next _ _ _ (t - 1, S n)).
    + rewrite IH; [|intros; apply Hb; lia|lia|lia].
      replace (t - 1 - Z.of_nat k) with (t - Z.of_nat (S k)) by lia. replace (S n + k)%nat with (n + S k)%nat by lia. done.
    + unfold busy_turn. simpl. unfold u16. rewrite Z.mod_small by lia. destruct (Z.eqb_spec (t - 1) 0); [lia|].
      destruct (Z.eqb_spec (Z.land (st n) BIT_STAT_BSY) 0) as [E|]; [|done]. by destruct (Hb n ltac:(lia)).
Qed.

Lemma busy_fuel_val : Z.of_nat busy_fuel = 30001.
Proof. unfold busy_fuel. lia. Qed.

Opaque busy_fuel.

(** [busy_wait] always returns: against a device that stays busy for [k] polls and
    then answers, it reports the device's DRQ bit after [k] sleeps of 10 ms when
    [k < 29999], and gives up after 29999 sleeps otherwise. (The test
    [time_limit -= 10 >= 0] subtracts 1, not 10, so giving up takes about 300 s.) *)
Theorem busy_wait_total st k :
  (forall i, (i < k)%nat -> Z.land (st i) BIT_STAT_BSY <> 0) -> Z.land (st k) BIT_STAT_BSY = 0 ->
  busy_wait st = if decide (Z.of_nat k < 29999)
                 then Done (negb (Z.land (st (S k)) BIT_STAT_DRQ =? 0), k)
                 else Done (false, Z.to_nat 29999).
Proof.
  intros Hb Hk. pose proof busy_fuel_val as Hfuel.
  unfold busy_wait. set (j := if decide (Z.of_nat k < 29999) then k else Z.to_nat 29999).
  assert (Hj : (j <= k)%nat /\ Z.of_nat j <= 29999) by (unfold j; case_decide; lia).
  rewrite (busy_run st 0 j); [|intros; apply Hb; lia|lia|lia]. rewrite Nat.add_0_l.
  destruct (busy_fuel - j)%nat as [|f] eqn:Ef; [lia|]. unfold j in *. case_decide as E.
  - apply loop_done. unfold busy_turn. change (0 <=? 10) with true. cbv iota beta zeta.
    unfold u16. rewrite Z.mod_small by lia.
    destruct (Z.eqb_spec (30 * 1000 - Z.of_nat k - 1) 0); [lia|]. by rewrite Hk.
  - apply loop_done. unfold busy_turn. change (0 <=? 10) with true. cbv iota beta zeta.
    unfold u16. rewrite Z.mod_small by lia.
    destruct (Z.eqb_spec (30 * 1000 - Z.of_nat (Z.to_nat 29999) - 1) 0) as [_|Hne]; [reflexivity|]. rewrite Z2Nat.id in Hne; lia.
Qed.

(** Busy twice, then ready with data. *)
Definition sample_status (i : nat) : Z := if decide (i < 2)%nat then 0x80 else 0x58.

Lemma busy_wait_total_witness : busy_wait sample_status = Done (true, 2%nat).
Proof.
  rewrite (busy_wait_total sample_status 2).
  - rewrite decide_True by lia. reflexivity.
  - intros i Hi. unfold sample_status. rewrite decide_True by lia. discriminate.
  - reflexivity.
Defined.

(** C23. [ide_read] and [ide_write] transfer exactly the sectors asked for: for a
    request inside the supported 80 MB on a device that becomes ready, with the channel's
    lock free, on the first channel: reading gives the read command and returns the bytes of
    sectors [lba .. lba + n) of the selected disk, changing no disk; writing gives the write
    command and puts the buffer there, and changes no other sector and nothing on the other
    disk; the data read back is the data written; the lock is free afterwards. Requests of
    more than 256 sectors go in chunks, the sector count 256 is sent as 0. On the second
    channel, whose interrupt line [pic_init] leaves masked, both wait for ever. *)
Theorem ide_transfer_exact c dev lba buf n :
  dev = 0 \/ dev = 1 -> 0 <= lba -> 0 < n -> lba + n <= max_lba + 1 ->
  ready (status c) -> idle c -> disk_wf (devices c dev) -> 512 * n <= Z.of_nat (length buf) ->
  (exists c', ide_read c 0 dev lba n = Done (c', read_sectors (devices c dev) lba n) /\ devices c' = devices c /\ idle c') /\
  (exists c1 c2, ide_write c 0 dev lba buf n = Done c1 /\ idle c1 /\ disk_wf (devices c1 dev) /\
     (forall k, k <> dev -> devices c1 k = devices c k) /\
     (forall k, ~ (lba <= k < lba + n) -> sector (devices c1 dev) k = sector (devices c dev) k) /\
     ide_read c1 0 dev lba n = Done (c2, take (Z.to_nat (512 * n)) buf)) /\
  ide_read c 1 dev lba n = Diverge /\ ide_write c 1 dev lba buf n = Diverge.
Proof.
  intros Hdev Hl Hn Hend Hrdy Hd0 Hwf Hbuf. split_and!; [| |by apply ide_read_masked|by apply ide_write_masked].
  - destruct (ide_read_spec c dev lba n) as (c' & Hr & Hd & _ & Hi); [done..|]. by exists c'.
  - destruct (ide_write_spec c dev lba buf n) as (c1 & Hw & S1 & Q1 & W1 & O1 & Hs1); [done..|].
    destruct (ide_read_spec c1 dev lba n) as (c2 & Hr & _); [done..|by rewrite S1|done|done|].
    exists c1, c2. split_and!; try done.
    + intros k Hk. by rewrite Hs1, decide_False.
    + rewrite Hr. do 2 f_equal. apply read_chunks; [lia|done|]. intros k Hk. by rewrite Hs1, decide_True.
Qed.

Definition sample_channel : ide_channel := mk_channel 0 0 0 0 0 0 false false 0 (fun _ => ∅) (fun _ => []) sample_status.

Lemma ide_transfer_exact_witness :
  exists c1 c2, ide_write sample_channel 0 1 100 (replicate 1024 7) 2 = Done c1 /\
    ide_read c1 0 1 100 2 = Done (c2, replicate 1024 7).
Proof.
  destruct (ide_transfer_exact sample_channel 1 100 (replicate 1024 7) 2) as [_ [(c1 & c2 & H1 & _ & _ & _ & _ & H2) _]].
  - right. reflexivity.
  - lia.
  - lia.
  - vm_compute. discriminate.
  - exists 2%nat. vm_compute. reflexivity.
  - split; reflexivity.
  - intros l s. simpl. rewrite lookup_empty. discriminate.
  - vm_compute. discriminate.
  - exists c1, c2. split; [exact H1|exact H2].
Defined.
