(* ===== verification/Iface.v ===== *)
(** * What the file system relies on

    The file system calls two components below it: the disk driver (Ide) and the
    kernel heap (Heap). It sees of them the interfaces of this file, a device of
    512-byte sectors and an allocator of memory blocks; the driver's theorems and the
    heap's theorems discharge them. *)
From stdpp Require Import base numbers list option tactics gmap fin_maps.
From Stdlib Require Import ZArith Lia.
From S2P Require Import Prelude Ide Heap.

(** ** Sectors *)
Class BlockDev (D : Type) := {
  bd_ok : D -> Prop;
  bd_sector : D -> Z -> list Z;
  bd_read : D -> Z -> Z -> outcome (D * list Z);
  bd_write : D -> Z -> list Z -> Z -> outcome D;
  bd_sector_len : forall d k, bd_ok d -> length (bd_sector d k) = 512%nat;
  bd_read_ok : forall d lba n, bd_ok d -> 0 <= lba -> 0 < n -> lba + n <= max_lba + 1 ->
    exists d', bd_read d lba n = Done (d', seqZ lba n ≫= bd_sector d) /\ bd_ok d' /\
      forall k, bd_sector d' k = bd_sector d k;
  bd_write_ok : forall d lba buf n, bd_ok d -> 0 <= lba -> 0 < n -> lba + n <= max_lba + 1 ->
    512 * n <= Z.of_nat (length buf) ->
    exists d', bd_write d lba buf n = Done d' /\ bd_ok d' /\
      forall k, bd_sector d' k = if decide (lba <= k < lba + n) then chunk buf (k - lba) else bd_sector d k
}.

(** [struct disk]: its channel, and which of the channel's two devices it is. *)
Record disk := mk_disk { my_channel : ide_channel; ch_no : Z; dev_no : Z }.

(** A disk of the first channel: the interrupt line of the second is masked. *)
Definition disk_ok (d : disk) : Prop :=
  ch_no d = 0 /\ (dev_no d = 0 \/ dev_no d = 1) /\
  ready (status (my_channel d)) /\ idle (my_channel d) /\ disk_wf (devices (my_channel d) (dev_no d)).

Definition disk_sector (d : disk) : Z -> list Z := sector (devices (my_channel d) (dev_no d)).
Definition disk_read (d : disk) (lba n : Z) : outcome (disk * list Z) :=
  r ← ide_read (my_channel d) (ch_no d) (dev_no d) lba n; Done (mk_disk r.1 (ch_no d) (dev_no d), r.2).
Definition disk_write (d : disk) (lba : Z) (buf : list Z) (n : Z) : outcome disk :=
  c ← ide_write (my_channel d) (ch_no d) (dev_no d) lba buf n; Done (mk_disk c (ch_no d) (dev_no d)).

#[global, refine] Instance ide_disk : BlockDev disk := {|
  bd_ok := disk_ok; bd_sector := disk_sector; bd_read := disk_read; bd_write := disk_write
|}.
Proof.
  - intros d k (_ & _ & _ & _ & Hw). by apply sector_length.
  - intros d lba n (H1 & H2 & H3 & H4 & H5) Hl Hn He.
    destruct (ide_read_spec (my_channel d) (dev_no d) lba n) as (c' & Hr & Hd & Hs & Hq); [done..|].
    unfold disk_read. rewrite H1, Hr. eexists. split; [reflexivity|]. unfold disk_ok, disk_sector. simpl.
    rewrite Hd, Hs. done.
  - intros d lba buf n (H1 & H2 & H3 & H4 & H5) Hl Hn He Hb.
    destruct (ide_write_spec (my_channel d) (dev_no d) lba buf n) as (c' & Hr & Hs & Hq & Hw & Ho & Hk); [done..|].
    unfold disk_write. rewrite H1, Hr. eexists. split; [reflexivity|]. unfold disk_ok, disk_sector. simpl.
    rewrite Hs. split; [done|]. exact Hk.
Defined.

(** ** Memory

    [al_live a p n]: a block of [n] bytes at [p] is in use. The largest requests of the
    file system are the buffers for the inode table and the bitmaps. A request of more than
    1024 bytes that fails may leave the allocator short of pages it had already taken. *)
Abbreviation max_request := 8388608 (only parsing).

Class Alloc (A : Type) := {
  al_ok : A -> Prop;
  al_live : A -> Z -> Z -> Prop;
  al_malloc : A -> Z -> outcome (Z * A);
  al_free : A -> Z -> outcome A;
  al_malloc_ok : forall a size, al_ok a -> 0 < size <= max_request ->
    exists p a', al_malloc a size = Done (p, a') /\ (p <> 0 \/ size <= 1024 -> al_ok a') /\
      (p = 0 -> forall q n, al_live a' q n <-> al_live a q n) /\
      (p <> 0 -> exists n, size <= n /\
         (forall q m, al_live a' q m <-> al_live a q m \/ (q = p /\ m = n)) /\
         (forall q m, al_live a q m -> q <> p));
  al_free_ok : forall a p n, al_ok a -> al_live a p n ->
    exists a', al_free a p = Done a' /\ al_ok a' /\ forall q m, al_live a' q m <-> al_live a q m /\ q <> p
}.

#[global, refine] Instance heap_alloc {P : Type} `{PageStore P} : Alloc (heap (P := P)) := {|
  al_ok := heap_ok; al_live := live; al_malloc := sys_malloc; al_free := sys_free
|}.
Proof.
  - intros h size Hh Hs.
    destruct (sys_malloc_spec h size Hh) as (p & h' & H1 & H2 & _ & H4 & H5); [change (0 <= size <= 15724532); lia|].
    exists p, h'. split_and!; try done. intros Hp. destruct (H5 Hp) as (n & Hn & Hl & Hd). exists n. split_and!; try done.
    intros q m Hq ->. assert (Hp' : live h' p n) by (apply Hl; auto).
    destruct Hq as (a & r & Ha & Hc). destruct (live_bounds h a r p m Hh Ha Hc) as (B1 & B2 & B3).
    destruct (Hd p m ltac:(by exists a, r)); lia.
  - intros h p n Hh Hl. exact (sys_free_spec h p n Hh Hl).
Defined.
