(* ===== verification/Inode.v ===== *)
(** * Inodes (fs/inode.c) and the bitmaps of a partition (fs/file.c)

    The inode table on disk, the open inodes in memory, and the two bitmaps that
    record which inodes and blocks are taken. The state is the mounted partition
    ([cur_part]) with its disk, the kernel heap, the inodes in memory by address, the
    system's file table, the current thread's descriptor table and working directory,
    and the open directories. The operations run
    in a kernel thread, for which every [sys_malloc] is on the kernel heap; the
    intrusive list [open_inodes] is the sequence of the inodes it links (see Klist). *)
From stdpp Require Import base numbers list option tactics gmap fin_maps.
From Stdlib Require Import ZArith Lia.
From S2P Require Import Prelude Bitmap Ide Iface.

(** ** Data *)

(** [struct inode]; [inode_tag] is the position in [open_inodes]. *)
Record inode := mk_inode {
  i_no : Z; i_size : Z; i_open_cnts : Z; write_deny : Z; i_sectors : list Z
}.

Definition INODE_SIZE : Z := 76.

Record super_block := mk_sb {
  magic : Z; sb_sec_cnt : Z; inode_cnt : Z; part_lba_base : Z;
  block_bitmap_lba : Z; block_bitmap_sects : Z;
  inode_bitmap_lba : Z; inode_bitmap_sects : Z;
  inode_table_lba : Z; inode_table_sects : Z;
  data_start_lba : Z;
  root_inode_no : Z; dir_entry_size : Z
}.

(** [struct partition]; its disk is the [dsk] of the state below. *)
Record partition := mk_part {
  start_lba : Z; sec_cnt : Z; sb : super_block;
  block_bitmap : bitmap; inode_bitmap : bitmap;
  open_inodes : list Z
}.

(** [fd_inode] is an address, 0 for NULL. *)
Record file := mk_file { fd_pos : Z; fd_flag : Z; fd_inode : Z }.

(** [struct dir]: its inode by address, 0 for NULL. Its [dir_buf] is scratch space of
    [dir_read], which returns the entry it points into it. *)
Record dir := mk_dir { d_inode : Z; dir_pos : Z }.
(** [struct dir *]: the static [root_dir] or a directory on the heap. *)
Inductive dir_ptr := RootDir | HeapDir (p : Z).
#[global] Instance dir_ptr_eq_dec : EqDecision dir_ptr.
Proof. solve_decision. Defined.

Inductive bitmap_type := INODE_BITMAP | BLOCK_BITMAP.
#[global] Instance bitmap_type_eq_dec : EqDecision bitmap_type.
Proof. solve_decision. Defined.

Record inode_position := mk_pos { two_sec : bool; sec_lba : Z; off_size : Z }.

(** ** Little-endian words *)
Definition le4 (x : Z) : list Z := [x mod 256; x / 2 ^ 8 mod 256; x / 2 ^ 16 mod 256; x / 2 ^ 24 mod 256].
Definition un4 (b : list Z) : Z :=
  default 0 (b !! 0%nat) + 2 ^ 8 * default 0 (b !! 1%nat) + 2 ^ 16 * default 0 (b !! 2%nat) + 2 ^ 24 * default 0 (b !! 3%nat).

(** An array of words in memory, and the words of a byte array. *)
Definition words (ws : list Z) : list Z := ws ≫= le4.
Fixpoint unwords (n : nat) (b : list Z) : list Z :=
  match n with O => [] | S n => un4 (take 4 b) :: unwords n (drop 4 b) end.

(** The 76 bytes of an inode; the two pointers of [inode_tag] are NULL. *)
Definition inode_bytes (i : inode) : list Z :=
  le4 (i_no i) ++ le4 (i_size i) ++ le4 (i_open_cnts i) ++ le4 (write_deny i) ++ words (i_sectors i) ++ replicate 8 0.
Definition bytes_inode (b : list Z) : inode :=
  let w := unwords 17 b in
  mk_inode (default 0 (w !! 0%nat)) (default 0 (w !! 1%nat)) (default 0 (w !! 2%nat)) (default 0 (w !! 3%nat)) (drop 4 w).

(** memcpy into the middle of a buffer. *)
Definition memcpy_to (buf : list Z) (off : Z) (bytes : list Z) : outcome (list Z) :=
  if decide (0 <= off /\ off + Z.of_nat (length bytes) <= Z.of_nat (length buf))
  then Done (take (Z.to_nat off) buf ++ bytes ++ drop (Z.to_nat off + length bytes) buf)
  else Fault.
(** memcpy from the middle of a buffer. *)
Definition memcpy_from (buf : list Z) (off n : Z) : outcome (list Z) :=
  if decide (0 <= off /\ 0 <= n /\ off + n <= Z.of_nat (length buf))
  then Done (take (Z.to_nat n) (drop (Z.to_nat off) buf))
  else Fault.

Definition inode_locate (p : partition) (inode_no : Z) : outcome inode_position :=
  ASSERT (inode_no <? 4096);;
  let inode_size := INODE_SIZE in
  let off_size := u32 (inode_no * inode_size) in
  let off_sec := off_size / 512 in
  let off_size_in_sec := off_size mod 512 in
  let left_in_sec := u32 (512 - off_size_in_sec) in
  Done (mk_pos (left_in_sec <? inode_size) (u32 (inode_table_lba (sb p) + off_sec)) off_size_in_sec).

Definition inode_init (inode_no : Z) : inode := mk_inode inode_no 0 0 0 (replicate 13 0).

Section Inode.
Context {D A : Type} `{BlockDev D} `{Alloc A}.

Record fs := mk_fs {
  dsk : D;
  mem : A;
  inodes : gmap Z inode;
  cur_part : partition;
  file_table : list file;
  fd_table : list Z;
  root_dir : dir;
  dirs : gmap Z dir;
  cwd_inode_nr : Z
}.

Definition with_dsk (d : D) (s : fs) : fs := mk_fs d (mem s) (inodes s) (cur_part s) (file_table s) (fd_table s) (root_dir s) (dirs s) (cwd_inode_nr s).
Definition with_mem (m : A) (s : fs) : fs := mk_fs (dsk s) m (inodes s) (cur_part s) (file_table s) (fd_table s) (root_dir s) (dirs s) (cwd_inode_nr s).
Definition with_inodes (f : gmap Z inode -> gmap Z inode) (s : fs) : fs :=
  mk_fs (dsk s) (mem s) (f (inodes s)) (cur_part s) (file_table s) (fd_table s) (root_dir s) (dirs s) (cwd_inode_nr s).
Definition with_part (p : partition) (s : fs) : fs := mk_fs (dsk s) (mem s) (inodes s) p (file_table s) (fd_table s) (root_dir s) (dirs s) (cwd_inode_nr s).
Definition with_open (l : list Z) (s : fs) : fs :=
  let p := cur_part s in
  with_part (mk_part (start_lba p) (sec_cnt p) (sb p) (block_bitmap p) (inode_bitmap p) l) s.
Definition with_bitmap (t : bitmap_type) (b : bitmap) (s : fs) : fs :=
  let p := cur_part s in
  with_part (match t with
    | INODE_BITMAP => mk_part (start_lba p) (sec_cnt p) (sb p) (block_bitmap p) b (open_inodes p)
    | BLOCK_BITMAP => mk_part (start_lba p) (sec_cnt p) (sb p) b (inode_bitmap p) (open_inodes p)
    end) s.
Definition bitmap_of (t : bitmap_type) (s : fs) : bitmap :=
  match t with INODE_BITMAP => inode_bitmap (cur_part s) | BLOCK_BITMAP => block_bitmap (cur_part s) end.
Definition bitmap_lba (t : bitmap_type) (s : fs) : Z :=
  match t with INODE_BITMAP => inode_bitmap_lba (sb (cur_part s)) | BLOCK_BITMAP => block_bitmap_lba (sb (cur_part s)) end.

(** The inode a pointer refers to. *)
Definition inode_at (s : fs) (p : Z) : outcome inode :=
  match inodes s !! p with Some i => Done i | None => Fault end.
Definition set_inode (p : Z) (i : inode) (s : fs) : fs := with_inodes (<[p := i]>) s.

(** ** The bitmaps of the partition *)
Definition inode_bitmap_alloc (s : fs) : outcome (Z * fs) :=
  bit_idx ← bitmap_scan (inode_bitmap (cur_part s)) 1;
  if bit_idx =? -1 then Done (-1, s) else
  b ← bitmap_set (inode_bitmap (cur_part s)) bit_idx 1;
  Done (bit_idx, with_bitmap INODE_BITMAP b s).

(** Returns the block's sector address, not the index. *)
Definition block_bitmap_alloc (s : fs) : outcome (Z * fs) :=
  bit_idx ← bitmap_scan (block_bitmap (cur_part s)) 1;
  if bit_idx =? -1 then Done (-1, s) else
  b ← bitmap_set (block_bitmap (cur_part s)) bit_idx 1;
  Done (i32 (data_start_lba (sb (cur_part s)) + bit_idx), with_bitmap BLOCK_BITMAP b s).

Definition bitmap_sync (s : fs) (bit_idx : Z) (btmp_type : bitmap_type) : outcome fs :=
  let off_sec := bit_idx / 4096 in
  let off_size := off_sec * 512 in
  let sec_lba := u32 (bitmap_lba btmp_type s + off_sec) in
  d ← bd_write (dsk s) sec_lba (drop (Z.to_nat off_size) (bits (bitmap_of btmp_type s))) 1;
  Done (with_dsk d s).

(** ** Inodes on disk

    [ide_read] of one or two sectors into a buffer of [io_size] bytes, a change of
    the bytes at [off], and [ide_write] of the sectors. *)
Definition sector_update (d : D) (io_size lba n off : Z) (bytes : list Z) : outcome D :=
  if io_size <? 512 * n then Fault else
  r ← bd_read d lba n;
  buf ← memcpy_to r.2 off bytes;
  bd_write r.1 lba buf n.

Definition inode_sync (s : fs) (i : inode) (io_size : Z) : outcome fs :=
  let inode_no := u8 (i_no i) in
  inode_pos ← inode_locate (cur_part s) inode_no;
  ASSERT (sec_lba inode_pos <=? u32 (start_lba (cur_part s) + sec_cnt (cur_part s)));;
  let pure_inode := mk_inode (i_no i) (i_size i) 0 0 (i_sectors i) in
  d ← sector_update (dsk s) io_size (sec_lba inode_pos) (if two_sec inode_pos then 2 else 1) (off_size inode_pos) (inode_bytes pure_inode);
  Done (with_dsk d s).

Definition inode_delete (s : fs) (inode_no io_size : Z) : outcome fs :=
  ASSERT (inode_no <? 4096);;
  inode_pos ← inode_locate (cur_part s) inode_no;
  ASSERT (sec_lba inode_pos <=? u32 (start_lba (cur_part s) + sec_cnt (cur_part s)));;
  d ← sector_update (dsk s) io_size (sec_lba inode_pos) (if two_sec inode_pos then 2 else 1) (off_size inode_pos) (replicate (Z.to_nat INODE_SIZE) 0);
  Done (with_dsk d s).

(** ** Open inodes *)

(** The walk along [open_inodes]. *)
Fixpoint find_open (s : fs) (l : list Z) (inode_no : Z) : outcome (option Z) :=
  match l with
  | [] => Done None
  | p :: l =>
      i ← inode_at s p;
      if i_no i =? inode_no then Done (Some p) else find_open s l inode_no
  end.

Definition inode_open (s : fs) (inode_no : Z) : outcome (Z * fs) :=
  r ← find_open s (open_inodes (cur_part s)) inode_no;
  match r with
  | Some p =>
      i ← inode_at s p;
      Done (p, set_inode p (mk_inode (i_no i) (i_size i) (u32 (i_open_cnts i + 1)) (write_deny i) (i_sectors i)) s)
  | None =>
      inode_pos ← inode_locate (cur_part s) inode_no;
      r1 ← al_malloc (mem s) INODE_SIZE;
      let inode_found := r1.1 in
      let n := if two_sec inode_pos then 2 else 1 in
      r2 ← al_malloc r1.2 (512 * n);
      let inode_buf := r2.1 in
      if (inode_found =? 0) || (inode_buf =? 0) then Fault else
      r3 ← bd_read (dsk s) (sec_lba inode_pos) n;
      b ← memcpy_from r3.2 (off_size inode_pos) INODE_SIZE;
      let i := bytes_inode b in
      let s := with_open (inode_found :: open_inodes (cur_part s)) s in
      let s := set_inode inode_found (mk_inode (i_no i) (i_size i) 1 (write_deny i) (i_sectors i)) s in
      m ← al_free r2.2 inode_buf;
      Done (inode_found, with_mem m (with_dsk r3.1 s))
  end.

Definition inode_close (s : fs) (p : Z) : outcome fs :=
  i ← inode_at s p;
  let c := u32 (i_open_cnts i - 1) in
  let s := set_inode p (mk_inode (i_no i) (i_size i) c (write_deny i) (i_sectors i)) s in
  if c =? 0 then
    if decide (p ∈ open_inodes (cur_part s)) then
      let s := with_open (filter (fun q => q <> p) (open_inodes (cur_part s))) s in
      m ← al_free (mem s) p;
      Done (with_mem m (with_inodes (delete p) s))
    else Fault
  else Done s.

(** Give a block back. *)
Definition free_block (s : fs) (lba : Z) : outcome fs :=
  let block_bitmap_idx := u32 (lba - data_start_lba (sb (cur_part s))) in
  ASSERT (0 <? block_bitmap_idx);;
  b ← bitmap_set (block_bitmap (cur_part s)) block_bitmap_idx 0;
  bitmap_sync (with_bitmap BLOCK_BITMAP b s) block_bitmap_idx BLOCK_BITMAP.

(** The loop of [inode_release] over [all_blocks]. *)
Fixpoint free_blocks (s : fs) (all_blocks : list Z) : outcome fs :=
  match all_blocks with
  | [] => Done s
  | lba :: rest => s ← (if negb (lba =? 0) then free_block s lba else Done s); free_blocks s rest
  end.

(** The blocks of [inode_release]: the indirect table if there is one, then all
    blocks collected in [all_blocks]. *)
Definition release_blocks (s : fs) (i : inode) : outcome fs :=
  let all_blocks := take 12 (i_sectors i) in
  table ← aget (i_sectors i) 12;
  if negb (table =? 0) then
    r ← bd_read (dsk s) table 1;
    s ← free_block (with_dsk r.1 s) table;
    free_blocks s (all_blocks ++ unwords 128 r.2)
  else free_blocks s all_blocks.

Definition inode_release (s : fs) (inode_no : Z) : outcome fs :=
  r ← inode_open s inode_no;
  let '(inode_to_del, s) := r in
  i ← inode_at s inode_to_del;
  ASSERT (i_no i =? inode_no);;
  s ← release_blocks s i;
  b ← bitmap_set (inode_bitmap (cur_part s)) inode_no 0;
  s ← bitmap_sync (with_bitmap INODE_BITMAP b s) inode_no INODE_BITMAP;
  r ← al_malloc (mem s) 1024;
  if r.1 =? 0 then Fault else
  s ← inode_delete (with_mem r.2 s) inode_no 1024;
  m ← al_free (mem s) r.1;
  inode_close (with_mem m s) inode_to_del.
End Inode.

(** ** Lemmas on bytes and words *)
Lemma le4_length x : length (le4 x) = 4%nat.
Proof. done. Qed.

Lemma un4_le4 x l : 0 <= x < 2 ^ 32 -> un4 (take 4 (le4 x ++ l)) = x.
Proof. intros Hx. unfold le4, un4. simpl. zdiv. Qed.

Lemma words_length ws : length (words ws) = (4 * length ws)%nat.
Proof. unfold words. induction ws as [|w ws IH]; [done|]. rewrite bind_cons, length_app, IH. simpl. lia. Qed.

Lemma unwords_length n b : length (unwords n b) = n.
Proof. revert b. induction n as [|n IH]; intros b; simpl; [done|by rewrite IH]. Qed.

Lemma unwords_words ws l : Forall is_u32 ws -> unwords (length ws) (words ws ++ l) = ws.
Proof.
  induction ws as [|w ws IH]; intros Hw; [done|]. apply Forall_cons in Hw as [Hw Hws].
  unfold words. rewrite bind_cons. cbn [length unwords]. fold (words ws). rewrite <- app_assoc, un4_le4 by done. f_equal.
  rewrite drop_app_length' by done. by apply IH.
Qed.

Lemma unwords_app n m b : unwords (n + m) b = unwords n b ++ unwords m (drop (4 * n) b).
Proof.
  revert b. induction n as [|n IH]; intros b; [by rewrite drop_0|].
  cbn [unwords Nat.add]. rewrite IH, drop_drop. by replace (4 + 4 * n)%nat with (4 * S n)%nat by lia.
Qed.

Lemma inode_bytes_length i : length (i_sectors i) = 13%nat -> length (inode_bytes i) = 76%nat.
Proof. intros Hl. unfold inode_bytes. rewrite !length_app, words_length, Hl. done. Qed.

(** The fields of an inode fit their types. *)
Definition inode_wf (i : inode) : Prop :=
  is_u32 (i_no i) /\ is_u32 (i_size i) /\ is_u32 (i_open_cnts i) /\ is_u32 (write_deny i) /\
  length (i_sectors i) = 13%nat /\ Forall is_u32 (i_sectors i).

Lemma bytes_inode_bytes i : inode_wf i -> bytes_inode (inode_bytes i) = i.
Proof.
  intros (H1 & H2 & H3 & H4 & Hl & Hs). unfold bytes_inode.
  set (ws := i_no i :: i_size i :: i_open_cnts i :: write_deny i :: i_sectors i).
  assert (E : unwords 17 (inode_bytes i) = ws).
  { replace 17%nat with (length ws) by (unfold ws; simpl; by rewrite Hl).
    replace (inode_bytes i) with (words ws ++ replicate 8 0).
    - apply unwords_words. unfold ws. by rewrite !Forall_cons.
    - unfold ws, words, inode_bytes. rewrite !bind_cons, <- !app_assoc. done. }
  rewrite E. by destruct i.
Qed.

Lemma memcpy_to_ok buf off bytes :
  0 <= off -> off + Z.of_nat (length bytes) <= Z.of_nat (length buf) ->
  exists buf', memcpy_to buf off bytes = Done buf' /\ length buf' = length buf /\
    forall i, buf' !! i = if decide (Z.to_nat off <= i < Z.to_nat off + length bytes)%nat then bytes !! (i - Z.to_nat off)%nat else buf !! i.
Proof.
  intros Ho Hl. unfold memcpy_to. rewrite decide_True by done. eexists. split; [done|]. split.
  - rewrite !length_app, length_take, length_drop. lia.
  - intros i. case_decide as Hi.
    + rewrite lookup_app_r by (rewrite length_take; lia). rewrite length_take.
      rewrite lookup_app_l by lia. f_equal. lia.
    + destruct (decide (i < Z.to_nat off)%nat).
      * rewrite lookup_app_l by (rewrite length_take; lia). by apply lookup_take_lt.
      * rewrite lookup_app_r by (rewrite length_take; lia). rewrite length_take.
        rewrite lookup_app_r by lia. rewrite lookup_drop. f_equal. lia.
Qed.

(** ** The disk as bytes *)
Section Bytes.
Context {D A : Type} `{BlockDev D} `{Alloc A}.

(** The byte at address [x] of the disk. *)
Definition dbyte (d : D) (x : Z) : Z := default 0 (bd_sector d (x / 512) !! Z.to_nat (x mod 512)).

Lemma sectors_lookup (d : D) lba n i :
  bd_ok d -> 0 <= n -> 0 <= i < 512 * n ->
  (seqZ lba n ≫= bd_sector d) !! Z.to_nat i = bd_sector d (lba + i / 512) !! Z.to_nat (i mod 512).
Proof.
  intros Hd Hn. revert lba i. pattern n. apply natlike_ind; [lia| |done]. clear n Hn.
  intros n Hn IH lba i Hi. rewrite (seqZ_cons lba) by lia. rewrite bind_cons. pose proof (bd_sector_len d lba Hd) as Hl.
  destruct (decide (i < 512)).
  - rewrite lookup_app_l by lia. rewrite Z.div_small, Z.mod_small by lia. by rewrite Z.add_0_r.
  - rewrite lookup_app_r by lia. replace (Z.to_nat i - length (bd_sector d lba))%nat with (Z.to_nat (i - 512)) by lia.
    replace (Z.pred (Z.succ n)) with n by lia. rewrite IH by lia.
    replace (lba + i / 512) with (Z.succ lba + (i - 512) / 512) by zdiv.
    by replace ((i - 512) mod 512) with (i mod 512) by zdiv.
Qed.

Lemma sector_one (d : D) lba : seqZ lba 1 ≫= bd_sector d = bd_sector d lba.
Proof. rewrite seqZ_cons, bind_cons by lia. change (Z.pred 1) with 0. rewrite seqZ_nil by lia. apply app_nil_r. Qed.

Lemma sectors_length (d : D) lba n :
  bd_ok d -> 0 <= n -> Z.of_nat (length (seqZ lba n ≫= bd_sector d)) = 512 * n.
Proof.
  intros Hd Hn. revert lba. pattern n. apply natlike_ind; [done| |done]. clear n Hn.
  intros n Hn IH lba. rewrite (seqZ_cons lba) by lia. rewrite bind_cons, length_app, (bd_sector_len d lba Hd).
  specialize (IH (Z.succ lba)). replace (Z.pred (Z.succ n)) with n by lia. lia.
Qed.

Lemma chunk_lookup buf j r : 0 <= j -> 0 <= r < 512 -> chunk buf j !! Z.to_nat r = buf !! Z.to_nat (512 * j + r).
Proof. intros Hj Hr. unfold chunk. rewrite lookup_take_lt by lia. rewrite lookup_drop. f_equal. lia. Qed.

(** Writing whole sectors. *)
Lemma write_bytes (d d' : D) lba buf n :
  0 <= n -> 512 * n <= Z.of_nat (length buf) ->
  (forall k, bd_sector d' k = if decide (lba <= k < lba + n) then chunk buf (k - lba) else bd_sector d k) ->
  forall x, dbyte d' x = if decide (512 * lba <= x < 512 * (lba + n)) then default 0 (buf !! Z.to_nat (x - 512 * lba)) else dbyte d x.
Proof.
  intros Hn Hl Hs x. unfold dbyte. rewrite Hs.
  destruct (decide (512 * lba <= x < 512 * (lba + n))) as [Hin|Hout].
  - rewrite decide_True by zdiv. rewrite chunk_lookup by zdiv. do 3 f_equal. zdiv.
  - rewrite decide_False by zdiv. done.
Qed.

(** Reading back sectors, changing some bytes and writing them changes these bytes
    of the disk and no others. *)
Lemma sector_update_ok (d : D) io_size lba n off bytes :
  bd_ok d -> 0 <= lba -> 0 < n -> lba + n <= max_lba + 1 -> 512 * n <= io_size ->
  0 <= off -> off + Z.of_nat (length bytes) <= 512 * n ->
  exists d', sector_update d io_size lba n off bytes = Done d' /\ bd_ok d' /\
    forall x, dbyte d' x = if decide (0 <= x - (512 * lba + off) < Z.of_nat (length bytes))
      then default 0 (bytes !! Z.to_nat (x - (512 * lba + off))) else dbyte d x.
Proof.
  intros Hd Hl Hn He Hio Ho Hb. unfold sector_update. destruct (Z.ltb_spec io_size (512 * n)); [lia|].
  destruct (bd_read_ok d lba n) as (d1 & -> & Hd1 & Hs1); [done..|]. rewrite bind_done. cbn [fst snd].
  pose proof (sectors_length d lba n Hd ltac:(lia)) as Hlen.
  destruct (memcpy_to_ok (seqZ lba n ≫= bd_sector d) off bytes) as (buf & -> & Hlb & Hbuf); [lia|lia|]. rewrite bind_done.
  destruct (bd_write_ok d1 lba buf n) as (d2 & -> & Hd2 & Hs2); [done..|lia|].
  exists d2. split; [done|]. split; [done|]. intros x.
  rewrite (write_bytes d1 d2 lba buf n) by (done || lia).
  destruct (decide (512 * lba <= x < 512 * (lba + n))) as [Hin|Hout].
  - rewrite Hbuf. destruct (decide (0 <= x - (512 * lba + off) < Z.of_nat (length bytes))).
    + rewrite decide_True by lia. do 2 f_equal. lia.
    + rewrite decide_False by lia. rewrite sectors_lookup by (done || lia). unfold dbyte. do 2 f_equal; [|f_equal; zdiv]. f_equal. zdiv.
  - rewrite decide_False by lia. unfold dbyte. by rewrite Hs1.
Qed.
End Bytes.

(** ** Well-formed states *)
Section InodeProofs.
Context {D A : Type} `{BlockDev D} `{Alloc A}.
Implicit Types s : fs (D := D) (A := A).

(** The regions of a formatted partition: boot sector, super block, block bitmap,
    inode bitmap, inode table, data, in this order, inside the disk. *)
Definition layout_ok (p : partition) : Prop :=
  let b := sb p in
  0 <= start_lba p /\ start_lba p + 2 <= block_bitmap_lba b /\ 0 < block_bitmap_sects b /\
  inode_bitmap_lba b = block_bitmap_lba b + block_bitmap_sects b /\ inode_bitmap_sects b = 1 /\
  inode_table_lba b = inode_bitmap_lba b + inode_bitmap_sects b /\ inode_table_sects b = 608 /\
  data_start_lba b = inode_table_lba b + inode_table_sects b /\
  data_start_lba b < start_lba p + sec_cnt p /\ start_lba p + sec_cnt p <= max_lba + 1.

(** The bitmaps fill their sectors; a free block is a sector of the partition. *)
Definition bitmaps_ok (p : partition) : Prop :=
  bitmap_wf (block_bitmap p) /\ btmp_bytes_len (block_bitmap p) = 512 * block_bitmap_sects (sb p) /\
  bitmap_wf (inode_bitmap p) /\ btmp_bytes_len (inode_bitmap p) = 512 * inode_bitmap_sects (sb p) /\
  (forall j, 0 <= j < nbits (block_bitmap p) -> bit (block_bitmap p) j = false ->
     data_start_lba (sb p) + j < start_lba p + sec_cnt p).

(** Every open inode is in memory once, in a block of the heap. *)
Definition open_ok s : Prop :=
  NoDup (open_inodes (cur_part s)) /\
  (forall p, p ∈ open_inodes (cur_part s) -> exists i n, inodes s !! p = Some i /\ inode_wf i /\ i_no i < 4096 /\
     0 < i_open_cnts i /\ al_live (mem s) p n /\ p <> 0) /\
  (forall p q i j, p ∈ open_inodes (cur_part s) -> q ∈ open_inodes (cur_part s) ->
     inodes s !! p = Some i -> inodes s !! q = Some j -> i_no i = i_no j -> p = q).

Record fs_ok s : Prop := {
  fo_disk : bd_ok (dsk s);
  fo_mem : al_ok (mem s);
  fo_layout : layout_ok (cur_part s);
  fo_bitmaps : bitmaps_ok (cur_part s);
  fo_open : open_ok s
}.

(** The disk's copy of the bitmaps is up to date. *)
Definition synced s : Prop := forall t j, 0 <= j < btmp_bytes_len (bitmap_of t s) / 512 ->
  bd_sector (dsk s) (bitmap_lba t s + j) = chunk (bits (bitmap_of t s)) j.

(** Where slot [k] of the inode table starts, and what [inode_sync] stores there. *)
Definition slot s (k : Z) : Z := 512 * inode_table_lba (sb (cur_part s)) + 76 * k.
Definition pure (i : inode) : inode := mk_inode (i_no i) (i_size i) 0 0 (i_sectors i).
Definition straddles (k : Z) : bool := 436 <? (76 * k) mod 512.

Definition slot_holds s (i : inode) : Prop :=
  inode_wf i /\ i_no i < 4096 /\ forall x, 0 <= x < 76 -> dbyte (dsk s) (slot s (i_no i) + x) = default 0 (inode_bytes (pure i) !! Z.to_nat x).

Lemma inode_locate_ok p k :
  layout_ok p -> 0 <= k < 4096 ->
  exists pos, inode_locate p k = Done pos /\ two_sec pos = straddles k /\
    512 * sec_lba pos + off_size pos = 512 * inode_table_lba (sb p) + 76 * k /\
    inode_table_lba (sb p) <= sec_lba pos /\ 0 <= off_size pos /\
    off_size pos + 76 <= 512 * (if straddles k then 2 else 1) /\
    sec_lba pos + (if straddles k then 2 else 1) <= data_start_lba (sb p) /\
    sec_lba pos <= u32 (start_lba p + sec_cnt p).
Proof.
  intros (L1 & L2 & L3 & L4 & L5 & L6 & L7 & L8 & L9 & L10) Hk. change max_lba with 163839 in L10.
  unfold inode_locate. assert_ok; [|apply Z.ltb_lt; lia]. eexists. split; [done|]. cbn [two_sec sec_lba off_size].
  unfold INODE_SIZE. rewrite (u32_small (k * 76)) by lia. rewrite (u32_small (512 - _)) by zdiv.
  rewrite (u32_small (start_lba p + sec_cnt p)) by lia. rewrite u32_small by zdiv.
  unfold straddles. replace (76 * k) with (k * 76) by lia.
  split; [destruct (Z.ltb_spec (512 - k * 76 mod 512) 76), (Z.ltb_spec 436 (k * 76 mod 512)); lia || done|].
  destruct (Z.ltb_spec 436 (k * 76 mod 512)); zdiv.
Qed.

(** Writing one slot of the inode table. *)
Lemma slot_update s k io_size bytes pos :
  bd_ok (dsk s) -> layout_ok (cur_part s) -> 0 <= k < 4096 -> inode_locate (cur_part s) k = Done pos ->
  length bytes = 76%nat -> (if straddles k then 1024 else 512) <= io_size ->
  exists d', sector_update (dsk s) io_size (sec_lba pos) (if two_sec pos then 2 else 1) (off_size pos) bytes = Done d' /\
    bd_ok d' /\ forall x, dbyte d' x = if decide (0 <= x - slot s k < 76) then default 0 (bytes !! Z.to_nat (x - slot s k)) else dbyte (dsk s) x.
Proof.
  intros Hd HL Hk Hpos Hb Hio. destruct (inode_locate_ok (cur_part s) k HL Hk) as (pos' & E & P1 & P2 & P3 & P4 & P5 & P6 & P7).
  assert (pos' = pos) as -> by congruence. destruct HL as (L1 & L2 & L3 & L4 & L5 & L6 & L7 & L8 & L9 & L10). rewrite P1.
  destruct (sector_update_ok (dsk s) io_size (sec_lba pos) (if straddles k then 2 else 1) (off_size pos) bytes)
    as (d' & Hu & Hok & Hx); [done|lia|destruct (straddles k); lia|destruct (straddles k); lia|destruct (straddles k); lia|done|destruct (straddles k); lia|].
  exists d'. split; [done|]. split; [done|]. intros x. rewrite Hx, P2, Hb. done.
Qed.

Lemma inode_sync_spec s i io_size :
  bd_ok (dsk s) -> layout_ok (cur_part s) -> 0 <= i_no i -> length (i_sectors i) = 13%nat ->
  let k := i_no i mod 256 in
  if (if straddles k then 1024 else 512) <=? io_size then
    exists d', inode_sync s i io_size = Done (with_dsk d' s) /\ bd_ok d' /\
      forall x, dbyte d' x = if decide (0 <= x - slot s k < 76) then default 0 (inode_bytes (pure i) !! Z.to_nat (x - slot s k)) else dbyte (dsk s) x
  else inode_sync s i io_size = Fault.
Proof.
  intros Hd HL Hi Hs k. assert (Hk : 0 <= k < 256) by (unfold k; zdiv). unfold inode_sync. change (u8 (i_no i)) with k.
  destruct (inode_locate_ok (cur_part s) k HL ltac:(lia)) as (pos & E & P1 & P2 & P3 & P4 & P5 & P6 & P7).
  rewrite E, bind_done. assert_ok; [|by apply Z.leb_le]. fold (pure i).
  destruct (Z.leb_spec (if straddles k then 1024 else 512) io_size) as [Hio|Hio].
  - destruct (slot_update s k io_size (inode_bytes (pure i)) pos) as (d' & Hu & Hok & Hx); try done; [lia|by apply inode_bytes_length|].
    rewrite Hu, bind_done. by exists d'.
  - unfold sector_update. rewrite P1. destruct (Z.ltb_spec io_size (512 * (if straddles k then 2 else 1))); [done|destruct (straddles k); lia].
Qed.

(** ** The bitmaps *)
Lemma bitmap_lba_range s t :
  layout_ok (cur_part s) -> bitmaps_ok (cur_part s) ->
  0 <= bitmap_lba t s /\ 0 < btmp_bytes_len (bitmap_of t s) /\ btmp_bytes_len (bitmap_of t s) mod 512 = 0 /\
  bitmap_wf (bitmap_of t s) /\ bitmap_lba t s + btmp_bytes_len (bitmap_of t s) / 512 <= inode_table_lba (sb (cur_part s)) /\
  bitmap_lba BLOCK_BITMAP s + btmp_bytes_len (bitmap_of BLOCK_BITMAP s) / 512 = bitmap_lba INODE_BITMAP s /\
  inode_table_lba (sb (cur_part s)) <= max_lba - 608.
Proof.
  intros (L1 & L2 & L3 & L4 & L5 & L6 & L7 & L8 & L9 & L10) (B1 & B2 & B3 & B4 & _).
  cbn [bitmap_of bitmap_lba]. rewrite B2.
  destruct t; cbn [bitmap_of bitmap_lba]; rewrite ?B2, ?B4; split_and!; try done; try zdiv.
Qed.

Lemma bitmap_sync_ok s i t :
  bd_ok (dsk s) -> layout_ok (cur_part s) -> bitmaps_ok (cur_part s) -> 0 <= i < nbits (bitmap_of t s) ->
  exists d', bitmap_sync s i t = Done (with_dsk d' s) /\ bd_ok d' /\
    forall k, bd_sector d' k = if decide (k = bitmap_lba t s + i / 4096) then chunk (bits (bitmap_of t s)) (i / 4096) else bd_sector (dsk s) k.
Proof.
  intros Hd HL HB Hi. destruct (bitmap_lba_range s t HL HB) as (R1 & R2 & R3 & [R4 R4'] & R5 & _ & R6).
  unfold nbits in Hi. change max_lba with 163839 in R6. unfold bitmap_sync. rewrite u32_small by zdiv.
  destruct (bd_write_ok (dsk s) (bitmap_lba t s + i / 4096) (drop (Z.to_nat (i / 4096 * 512)) (bits (bitmap_of t s))) 1)
    as (d' & -> & Hd' & Hk); [done|zdiv|lia|change max_lba with 163839; zdiv|rewrite length_drop; zdiv|].
  rewrite bind_done. exists d'. split; [done|]. split; [done|]. intros k. rewrite Hk.
  destruct (decide (k = bitmap_lba t s + i / 4096)) as [->|Hne].
  - rewrite decide_True by lia. rewrite chunk_drop by zdiv. f_equal. lia.
  - by rewrite decide_False by lia.
Qed.

Lemma bitmap_set_bytes b b' i v :
  0 <= i -> bitmap_set b i v = Done b' ->
  btmp_bytes_len b' = btmp_bytes_len b /\ exists y, bits b' = <[Z.to_nat (i / 8) := y]> (bits b).
Proof.
  intros Hi. unfold bitmap_set. intros (u & _ & (y & Hy & (l & Hl & [= <-])%bind_done_inv)%bind_done_inv)%bind_done_inv.
  apply aset_inv in Hl as [_ ->]. eauto.
Qed.

Lemma chunk_insert (l : list Z) (n : nat) y j :
  0 <= j -> j <> Z.of_nat n / 512 -> chunk (<[n := y]> l) j = chunk l j.
Proof.
  intros Hj Hne. apply list_eq. intros r. destruct (decide (r < 512)%nat) as [Hr|Hr].
  - pose proof (chunk_lookup (<[n := y]> l) j (Z.of_nat r)) as C1. pose proof (chunk_lookup l j (Z.of_nat r)) as C2.
    rewrite Nat2Z.id in C1, C2. rewrite C1, C2 by lia. apply list_lookup_insert_ne. intros ->. apply Hne. zdiv.
  - unfold chunk. by rewrite !lookup_take_ge by lia.
Qed.

Lemma with_bitmap_same t s b : bitmap_of t (with_bitmap t b s) = b.
Proof. by destruct t. Qed.

Lemma with_bitmap_other t t' s b : t <> t' -> bitmap_of t' (with_bitmap t b s) = bitmap_of t' s.
Proof. by destruct t, t'. Qed.

Lemma with_bitmap_lba t t' s b : bitmap_lba t' (with_bitmap t b s) = bitmap_lba t' s.
Proof. by destruct t, t'. Qed.

(** Changing one bit keeps the partition well-formed. *)
Lemma set_bitmaps_ok s t i v b' :
  bitmaps_ok (cur_part s) -> 0 <= i < nbits (bitmap_of t s) ->
  (t = BLOCK_BITMAP -> v = 0 -> data_start_lba (sb (cur_part s)) + i < start_lba (cur_part s) + sec_cnt (cur_part s)) ->
  bitmap_wf b' -> nbits b' = nbits (bitmap_of t s) ->
  (forall j, 0 <= j -> bit b' j = if decide (j = i) then bool_decide (v = 1) else bit (bitmap_of t s) j) -> v = 0 \/ v = 1 ->
  bitmaps_ok (cur_part (with_bitmap t b' s)).
Proof.
  intros (B1 & B2 & B3 & B4 & B5) Hi Hv Hwf Hn Hbits Hv01. unfold nbits in Hn.
  destruct t; cbn [bitmap_of] in *; unfold bitmaps_ok; cbn [cur_part with_bitmap with_part block_bitmap inode_bitmap sb start_lba sec_cnt].
  - split_and!; try done. lia.
  - split_and!; try done; [lia|]. intros j Hj Hb. rewrite Hbits in Hb by lia. unfold nbits in *. case_decide as E.
    + subst j. destruct Hv01 as [-> | ->]; [by apply Hv|done].
    + apply B5; [lia|done].
Qed.

(** What may differ after an operation on a bitmap: one bit, and one sector of the
    disk's copy. *)
Lemma set_sync_spec s t i v :
  bd_ok (dsk s) -> layout_ok (cur_part s) -> bitmaps_ok (cur_part s) -> synced s -> 0 <= i < nbits (bitmap_of t s) -> v = 0 \/ v = 1 ->
  (t = BLOCK_BITMAP -> v = 0 -> data_start_lba (sb (cur_part s)) + i < start_lba (cur_part s) + sec_cnt (cur_part s)) ->
  exists b' d', bitmap_set (bitmap_of t s) i v = Done b' /\
    bitmap_sync (with_bitmap t b' s) i t = Done (with_dsk d' (with_bitmap t b' s)) /\ bd_ok d' /\
    bitmaps_ok (cur_part (with_bitmap t b' s)) /\ nbits b' = nbits (bitmap_of t s) /\
    (forall j, 0 <= j -> bit b' j = if decide (j = i) then bool_decide (v = 1) else bit (bitmap_of t s) j) /\
    synced (with_dsk d' (with_bitmap t b' s)) /\
    (forall k, k <> bitmap_lba t s + i / 4096 -> bd_sector d' k = bd_sector (dsk s) k).
Proof.
  intros Hd HL HB Hsy Hi Hv Hfree. destruct (bitmap_lba_range s t HL HB) as (R1 & R2 & R3 & R4 & R5 & R6 & R7).
  destruct (bitmap_set_spec (bitmap_of t s) i v R4 Hi Hv) as (b' & Hset & Hwf & Hn & _ & Hbits).
  assert (HB' : bitmaps_ok (cur_part (with_bitmap t b' s))) by (by eapply set_bitmaps_ok).
  destruct (bitmap_sync_ok (with_bitmap t b' s) i t) as (d' & Hs & Hd' & Hk); [done|by destruct t|done|rewrite with_bitmap_same; lia|].
  rewrite with_bitmap_same, with_bitmap_lba in Hk. cbn [dsk with_bitmap with_part] in Hk.
  exists b', d'. split_and!; try done.
  - destruct (bitmap_set_bytes _ _ i v ltac:(lia) Hset) as (Hlen & y & Hy). unfold nbits in *.
    intros t' j Hj.
    change (bitmap_of t' (with_dsk d' (with_bitmap t b' s))) with (bitmap_of t' (with_bitmap t b' s)) in *.
    change (bitmap_lba t' (with_dsk d' (with_bitmap t b' s))) with (bitmap_lba t' (with_bitmap t b' s)).
    cbn [dsk with_dsk]. rewrite with_bitmap_lba, Hk. destruct (decide (t = t')) as [<-|Hne].
    + rewrite with_bitmap_same in *. destruct (decide (bitmap_lba t s + j = bitmap_lba t s + i / 4096)) as [E|E]; [f_equal; lia|].
      rewrite (Hsy t j) by (by rewrite <- Hlen). rewrite Hy, chunk_insert; [done|lia|].
      rewrite Z2Nat.id by zdiv. intros ->. apply E. zdiv.
    + rewrite with_bitmap_other in * by done. rewrite decide_False; [by apply Hsy|].
      intros E. assert (Hi' : 0 <= i / 4096 < btmp_bytes_len (bitmap_of t s) / 512) by zdiv.
      destruct t, t'; try done; cbn [bitmap_of bitmap_lba] in *; lia.
  - intros k Hk'. rewrite Hk. by rewrite decide_False.
Qed.

(** ** Open inodes *)

(** The allocator can satisfy these requests one after the other. *)
Fixpoint can_alloc (m : A) (sizes : list Z) : Prop :=
  match sizes with
  | [] => True
  | n :: rest => exists p m', al_malloc m n = Done (p, m') /\ p <> 0 /\ can_alloc m' rest
  end.

Definition is_open s (k : Z) : Prop := exists p i, p ∈ open_inodes (cur_part s) /\ inodes s !! p = Some i /\ i_no i = k.

Lemma find_open_spec s l k :
  (forall p, p ∈ l -> exists i, inodes s !! p = Some i) ->
  (exists p i, find_open s l k = Done (Some p) /\ p ∈ l /\ inodes s !! p = Some i /\ i_no i = k) \/
  (find_open s l k = Done None /\ forall p i, p ∈ l -> inodes s !! p = Some i -> i_no i <> k).
Proof.
  induction l as [|p l IH]; intros Hl; simpl.
  - right. split; [done|]. intros p i Hp. by apply elem_of_nil in Hp.
  - destruct (Hl p ltac:(by left)) as (i & Hi). unfold inode_at. rewrite Hi, bind_done.
    destruct (Z.eqb_spec (i_no i) k) as [E|E]; [left; exists p, i; split_and!; try done; by left|].
    destruct IH as [(q & j & Hq & Hin & Hj)|[Hn Hne]]; [intros q Hq; apply Hl; by right| |].
    + left. exists q, j. split_and!; try done; try tauto. by right.
    + right. split; [done|]. intros q j [->|Hq]%elem_of_cons Hj; [congruence|by eapply Hne].
Qed.

Lemma slot_read s i pos :
  bd_ok (dsk s) -> layout_ok (cur_part s) -> slot_holds s i -> inode_locate (cur_part s) (i_no i) = Done pos ->
  exists d', bd_read (dsk s) (sec_lba pos) (if two_sec pos then 2 else 1) = Done (d', seqZ (sec_lba pos) (if two_sec pos then 2 else 1) ≫= bd_sector (dsk s)) /\
    bd_ok d' /\ (forall k, bd_sector d' k = bd_sector (dsk s) k) /\
    memcpy_from (seqZ (sec_lba pos) (if two_sec pos then 2 else 1) ≫= bd_sector (dsk s)) (off_size pos) INODE_SIZE = Done (inode_bytes (pure i)).
Proof.
  intros Hd HL (Hw & Hk & Hx) Hpos. pose proof Hw as (Hw1 & _ & _ & _ & Hw5 & _). unfold is_u32 in Hw1.
  destruct (inode_locate_ok (cur_part s) (i_no i) HL ltac:(lia)) as (pos' & E & P1 & P2 & P3 & P4 & P5 & P6 & P7).
  assert (pos' = pos) as -> by congruence. rewrite P1. set (n := if straddles (i_no i) then 2 else 1) in *.
  assert (Hn : 0 < n) by (unfold n; destruct (straddles _); lia).
  destruct HL as (L1 & L2 & L3 & L4 & L5 & L6 & L7 & L8 & L9 & L10).
  destruct (bd_read_ok (dsk s) (sec_lba pos) n) as (d' & Hr & Hd' & Hs'); [done|lia|done|lia|].
  exists d'. split_and!; try done. unfold memcpy_from, INODE_SIZE.
  pose proof (sectors_length (dsk s) (sec_lba pos) n Hd ltac:(lia)) as Hlen. rewrite decide_True by lia. f_equal.
  apply list_eq_same_length with 76%nat.
  - apply inode_bytes_length. done.
  - rewrite length_take, length_drop. lia.
  - intros j a b Hj Ha Hb. specialize (Hx (Z.of_nat j) ltac:(lia)). rewrite Nat2Z.id, Hb in Hx. cbn [default] in Hx.
    rewrite lookup_take_lt in Ha by lia. rewrite lookup_drop in Ha.
    replace (Z.to_nat (off_size pos) + j)%nat with (Z.to_nat (off_size pos + Z.of_nat j)) in Ha by lia.
    rewrite sectors_lookup in Ha by (done || lia). unfold dbyte in Hx. unfold slot in Hx. rewrite <- P2 in Hx.
    replace ((512 * sec_lba pos + off_size pos + Z.of_nat j) / 512) with (sec_lba pos + (off_size pos + Z.of_nat j) / 512) in Hx by zdiv.
    replace ((512 * sec_lba pos + off_size pos + Z.of_nat j) mod 512) with ((off_size pos + Z.of_nat j) mod 512) in Hx by zdiv.
    rewrite Ha in Hx. exact Hx.
Qed.

Definition opened (i : inode) : inode := mk_inode (i_no i) (i_size i) 1 0 (i_sectors i).

Lemma pure_wf i : inode_wf i -> inode_wf (pure i).
Proof. intros (? & ? & ? & ? & ? & ?). unfold inode_wf, is_u32 in *. simpl. split_and!; try done; lia. Qed.

(** Opening an inode that is not open reads it from its slot. *)
Lemma inode_open_reads s i :
  fs_ok s -> slot_holds s i -> ~ is_open s (i_no i) -> can_alloc (mem s) [76; if straddles (i_no i) then 1024 else 512] ->
  exists p n d' m', inode_open s (i_no i) =
      Done (p, with_mem m' (with_dsk d' (set_inode p (opened i) (with_open (p :: open_inodes (cur_part s)) s)))) /\
    p <> 0 /\ bd_ok d' /\ (forall k, bd_sector d' k = bd_sector (dsk s) k) /\ al_ok m' /\ 76 <= n /\
    (forall q m, al_live m' q m <-> al_live (mem s) q m \/ (q = p /\ m = n)) /\ (forall q m, al_live (mem s) q m -> q <> p) /\
    exists m1, al_malloc (mem s) 76 = Done (p, m1) /\ forall q m, al_live m' q m <-> al_live m1 q m.
Proof.
  intros Hs Hi Hno (p & m1 & Hm1 & Hp & b & m2 & Hm2 & Hb & _). pose proof (fo_layout s Hs) as HL.
  destruct (find_open_spec s (open_inodes (cur_part s)) (i_no i)) as [(q & j & Hf & Hq & Hj & Ej)|[Hf _]].
  { intros q Hq. destruct (fo_open s Hs) as (_ & Ho & _). destruct (Ho q Hq) as (j & ? & ? & _). by exists j. }
  { destruct Hno. by exists q, j. }
  unfold inode_open. rewrite Hf, bind_done. pose proof Hi as ((Hw1 & Hw') & Hk & _). unfold is_u32 in Hw1.
  destruct (inode_locate_ok (cur_part s) (i_no i) HL ltac:(lia)) as (pos & Hpos & P1 & _).
  rewrite Hpos, bind_done. change (al_malloc (mem s) INODE_SIZE) with (al_malloc (mem s) 76). rewrite Hm1, bind_done. cbn [fst snd].
  replace (512 * (if two_sec pos then 2 else 1)) with (if straddles (i_no i) then 1024 else 512) by (rewrite P1; by destruct (straddles _)).
  rewrite Hm2, bind_done. cbn [fst snd]. destruct (Z.eqb_spec p 0) as [?|_]; [done|]. destruct (Z.eqb_spec b 0) as [?|_]; [done|]. cbn [orb].
  destruct (slot_read s i pos (fo_disk s Hs) HL Hi Hpos) as (d' & -> & Hd' & Hsec & Hcp). rewrite bind_done. cbn [fst snd].
  rewrite Hcp, bind_done, bytes_inode_bytes by (by apply pure_wf; destruct Hi).
  destruct (al_malloc_ok (mem s) 76 (fo_mem s Hs) ltac:(lia)) as (? & ? & E1 & Ok1 & _ & Lv1). rewrite Hm1 in E1. injection E1 as <- <-. specialize (Ok1 (or_introl Hp)).
  destruct (Lv1 Hp) as (n & Hn & Lv1a & Lv1b).
  destruct (al_malloc_ok m1 (if straddles (i_no i) then 1024 else 512) Ok1 ltac:(destruct (straddles _); lia)) as (? & ? & E2 & Ok2 & _ & Lv2).
  rewrite Hm2 in E2. injection E2 as <- <-. specialize (Ok2 (or_introl Hb)). destruct (Lv2 Hb) as (n2 & Hn2 & Lv2a & Lv2b).
  destruct (al_free_ok m2 b n2 Ok2 ltac:(apply Lv2a; auto)) as (m3 & -> & Ok3 & Lv3). rewrite bind_done.
  assert (Hb1 : forall q m, al_live m1 q m -> q <> b) by (intros q m Hq; by eapply Lv2b).
  exists p, n, d', m3. split; [done|]. split_and!; try done; [|exists m1; split; [done|]; intros q m; rewrite Lv3, Lv2a; split; [intros [[Hq|[-> _]] Hne]; done|intros Hq; split; [by left|by eapply Hb1]]].
  intros q m. rewrite Lv3, Lv2a, Lv1a.
  assert (Hbq : forall q m, al_live (mem s) q m \/ (q = p /\ m = n) -> q <> b) by (intros q' m' Hq'; eapply Lv2b; by apply Lv1a).
  split.
  - intros [[Hq|[-> ->]] Hne]; tauto.
  - intros Hq. split; [by left|]. by eapply Hbq.
Qed.

Lemma inode_open_miss s i :
  fs_ok s -> slot_holds s i -> ~ is_open s (i_no i) -> can_alloc (mem s) [76; if straddles (i_no i) then 1024 else 512] ->
  exists p n d' m', inode_open s (i_no i) =
      Done (p, with_mem m' (with_dsk d' (set_inode p (opened i) (with_open (p :: open_inodes (cur_part s)) s)))) /\
    p <> 0 /\ bd_ok d' /\ (forall k, bd_sector d' k = bd_sector (dsk s) k) /\ al_ok m' /\ 76 <= n /\
    (forall q m, al_live m' q m <-> al_live (mem s) q m \/ (q = p /\ m = n)) /\ (forall q m, al_live (mem s) q m -> q <> p).
Proof.
  intros Hs Hi Hno Hm. destruct (inode_open_reads s i Hs Hi Hno Hm) as (p & n & d' & m' & H1 & H2 & H3 & H4 & H5 & H6 & H7 & H8 & _). by exists p, n, d', m'.
Qed.

Definition with_cnts (c : Z) (i : inode) : inode := mk_inode (i_no i) (i_size i) c (write_deny i) (i_sectors i).

Lemma open_entry s p : fs_ok s -> p ∈ open_inodes (cur_part s) ->
  exists i n, inodes s !! p = Some i /\ inode_wf i /\ i_no i < 4096 /\ 0 < i_open_cnts i /\ al_live (mem s) p n /\ p <> 0.
Proof. intros Hs. destruct (fo_open s Hs) as (_ & Ho & _). apply Ho. Qed.

(** Opening an inode that is open counts it once more. *)
Lemma inode_open_hit s p i :
  fs_ok s -> p ∈ open_inodes (cur_part s) -> inodes s !! p = Some i ->
  inode_open s (i_no i) = Done (p, set_inode p (with_cnts (u32 (i_open_cnts i + 1)) i) s).
Proof.
  intros Hs Hp Hi. unfold inode_open.
  destruct (find_open_spec s (open_inodes (cur_part s)) (i_no i)) as [(q & j & Hf & Hq & Hj & Ej)|[_ Hno]].
  - intros q Hq. destruct (open_entry s q Hs Hq) as (j & ? & ? & _). by exists j.
  - destruct (fo_open s Hs) as (_ & _ & Hinj). assert (q = p) as -> by (by eapply Hinj).
    rewrite Hf, bind_done. unfold inode_at. by rewrite Hi, bind_done.
  - by destruct (Hno p i).
Qed.

(** Replacing an open inode by one with the same number. *)
Lemma set_inode_ok s p i j :
  fs_ok s -> inodes s !! p = Some i -> inode_wf j -> i_no j = i_no i -> 0 < i_open_cnts j -> fs_ok (set_inode p j s).
Proof.
  intros Hs Hi Hj Hn Hc. pose proof (fo_open s Hs) as (Hnd & Ho & Hinj). constructor; try apply Hs.
  split_and!; [done| |].
  - intros q Hq. destruct (Ho q Hq) as (k & n & Hk & K1 & K2 & K3 & K4). cbn [inodes set_inode with_inodes mem].
    destruct (decide (q = p)) as [->|Hne].
    + exists j, n. rewrite lookup_insert_eq. assert (k = i) as -> by congruence. split_and!; try done; try apply K4. lia.
    + exists k, n. by rewrite lookup_insert_ne.
  - intros q q' k k' Hq Hq' Hk Hk' E. cbn [inodes set_inode with_inodes] in *.
    apply lookup_insert_Some in Hk, Hk'. destruct Hk as [[<- <-]|[_ Hk]], Hk' as [[<- <-]|[_ Hk']]; try done;
      eapply Hinj; eauto; congruence.
Qed.

Lemma inode_open_miss_ok s i p n d' m' :
  fs_ok s -> inode_wf i -> i_no i < 4096 -> ~ is_open s (i_no i) -> p <> 0 -> bd_ok d' -> al_ok m' ->
  (forall q m, al_live m' q m <-> al_live (mem s) q m \/ (q = p /\ m = n)) -> (forall q m, al_live (mem s) q m -> q <> p) ->
  fs_ok (with_mem m' (with_dsk d' (set_inode p (opened i) (with_open (p :: open_inodes (cur_part s)) s)))).
Proof.
  intros Hs Hw Hk Hno Hp Hd Hm Hl Hf. pose proof (fo_open s Hs) as (Hnd & Ho & Hinj).
  constructor; [done|done|apply Hs|apply Hs|].
  assert (Hnp : p ∉ open_inodes (cur_part s)) by (intros Hin; destruct (Ho p Hin) as (? & ? & _ & _ & _ & _ & Hlv & _); by eapply Hf).
  unfold open_ok. cbn [cur_part with_mem with_dsk set_inode with_inodes with_open with_part open_inodes inodes mem]. split_and!.
  - by apply NoDup_cons.
  - intros q [->|Hq]%elem_of_cons.
    + exists (opened i), n. rewrite lookup_insert_eq. split_and!; try done; [|by apply Hl; auto].
      destruct Hw as (? & ? & ? & ? & ? & ?). by unfold inode_wf, is_u32 in *; simpl; split_and!; try done; lia.
    + destruct (Ho q Hq) as (j & n' & Hj & K1 & K2 & K3 & K4 & K5). exists j, n'. rewrite lookup_insert_ne by congruence.
      split_and!; try done. apply Hl. by left.
  - intros q q' j j' [->|Hq]%elem_of_cons [->|Hq']%elem_of_cons Hj Hj' E; try done.
    + rewrite lookup_insert_eq in Hj. rewrite lookup_insert_ne in Hj' by congruence. injection Hj as <-. destruct Hno. by exists q', j'.
    + rewrite lookup_insert_eq in Hj'. rewrite lookup_insert_ne in Hj by congruence. injection Hj' as <-. destruct Hno. by exists q, j.
    + rewrite lookup_insert_ne in Hj, Hj' by congruence. by eapply Hinj.
Qed.

(** Closing: one user less, or the last user. *)
Lemma inode_close_more s p i :
  inodes s !! p = Some i -> 1 < i_open_cnts i < 2 ^ 32 -> inode_close s p = Done (set_inode p (with_cnts (i_open_cnts i - 1) i) s).
Proof.
  intros Hi Hc. unfold inode_close, inode_at. rewrite Hi, bind_done. rewrite u32_small by lia.
  destruct (Z.eqb_spec (i_open_cnts i - 1) 0); [lia|done].
Qed.

Lemma inode_close_last s p i :
  fs_ok s -> p ∈ open_inodes (cur_part s) -> inodes s !! p = Some i -> i_open_cnts i = 1 ->
  exists m', inode_close s p = Done (with_mem m' (with_inodes (delete p) (with_open (filter (fun q => q <> p) (open_inodes (cur_part s))) s))) /\
    fs_ok (with_mem m' (with_inodes (delete p) (with_open (filter (fun q => q <> p) (open_inodes (cur_part s))) s))) /\
    forall q m, al_live m' q m <-> al_live (mem s) q m /\ q <> p.
Proof.
  intros Hs Hp Hi Hc. unfold inode_close, inode_at. rewrite Hi, bind_done, Hc. change (u32 (1 - 1)) with 0. cbn [Z.eqb].
  cbn [cur_part set_inode with_inodes]. rewrite decide_True by done. cbn [mem with_open with_part with_inodes set_inode].
  pose proof (fo_open s Hs) as (Hnd & Ho & Hinj). destruct (Ho p Hp) as (j & n & _ & _ & _ & _ & Hlv & _).
  destruct (al_free_ok (mem s) p n (fo_mem s Hs) Hlv) as (m' & -> & Hok & Hl). rewrite bind_done. exists m'. split_and!; [|constructor; try apply Hs|done].
  - unfold with_mem, with_inodes, with_open, with_part, set_inode. simpl. do 2 f_equal. apply delete_insert_eq.
  - done.
  - unfold open_ok. cbn [cur_part with_mem with_inodes with_open with_part open_inodes inodes mem]. split_and!.
    + by apply NoDup_filter.
    + intros q [Hne Hq]%list_elem_of_filter. destruct (Ho q Hq) as (k & n' & Hk & K1 & K2 & K3 & K4 & K5).
      exists k, n'. rewrite lookup_delete_ne by done. split_and!; try done. by apply Hl.
    + intros q q' k k' [Hne Hq]%list_elem_of_filter [Hne' Hq']%list_elem_of_filter Hk Hk'.
      rewrite lookup_delete_ne in Hk, Hk' by done. by apply Hinj.
Qed.

(** ** Releasing an inode *)

(** A state in which only the block bitmap and its copy on disk differ: the blocks
    of [l] are free. *)
Definition blocks_freed s s' (l : list Z) : Prop := exists d' b',
  s' = with_dsk d' (with_bitmap BLOCK_BITMAP b' s) /\ bd_ok d' /\ bitmaps_ok (cur_part s') /\ synced s' /\
  nbits b' = nbits (block_bitmap (cur_part s)) /\
  (forall j, 0 <= j -> bit b' j = bit (block_bitmap (cur_part s)) j && negb (bool_decide (data_start_lba (sb (cur_part s)) + j ∈ l))) /\
  (forall k, ~ (block_bitmap_lba (sb (cur_part s)) <= k < inode_bitmap_lba (sb (cur_part s))) -> bd_sector d' k = bd_sector (dsk s) k).

(** A data block other than the first, which belongs to the root directory. *)
Definition data_block s (lba : Z) : Prop :=
  let p := cur_part s in
  data_start_lba (sb p) < lba < start_lba p + sec_cnt p /\ lba - data_start_lba (sb p) < nbits (block_bitmap p).

Lemma blocks_freed_refl s : fs_ok s -> synced s -> blocks_freed s s [].
Proof.
  intros Hs Hsy. exists (dsk s), (block_bitmap (cur_part s)). split_and!; try done; try apply Hs.
  - by destruct s as [? ? ? [] ? ?].
  - intros j Hj. rewrite bool_decide_false by (apply not_elem_of_nil). by rewrite andb_true_r.
Qed.

Lemma blocks_freed_trans s s1 s2 l1 l2 : blocks_freed s s1 l1 -> blocks_freed s1 s2 l2 -> blocks_freed s s2 (l1 ++ l2).
Proof.
  intros (d1 & b1 & -> & Hd1 & _ & _ & Hn1 & Hb1 & Hk1) (d2 & b2 & -> & Hd2 & HB2 & Hsy2 & Hn2 & Hb2 & Hk2).
  exists d2, b2. split_and!; try done.
  - by rewrite Hn2, <- Hn1.
  - intros j Hj. rewrite Hb2 by done. cbn [cur_part with_dsk with_bitmap with_part block_bitmap sb]. rewrite Hb1 by done.
    destruct (bit (block_bitmap (cur_part s)) j); [|done]. cbn [andb]. rewrite <- negb_orb. f_equal.
    by rewrite (bool_decide_ext _ _ (elem_of_app l1 l2 _)), bool_decide_or.
  - intros k Hk. rewrite Hk2 by done. by apply Hk1.
Qed.

Lemma blocks_freed_ok s s' l : fs_ok s -> blocks_freed s s' l -> fs_ok s'.
Proof. intros Hs (d' & b' & -> & Hd & HB & _). constructor; [done|exact (fo_mem s Hs)|exact (fo_layout s Hs)|done|exact (fo_open s Hs)]. Qed.

Lemma free_block_ok s lba :
  fs_ok s -> synced s -> data_block s lba -> exists s', free_block s lba = Done s' /\ blocks_freed s s' [lba].
Proof.
  intros Hs Hsy [Hl Hn]. pose proof (fo_layout s Hs) as HL. pose proof HL as (L1 & L2 & L3 & L4 & L5 & L6 & L7 & L8 & L9 & L10).
  change max_lba with 163839 in L10. unfold free_block. rewrite u32_small by lia. assert_ok; [|apply Z.ltb_lt; lia].
  set (i := lba - data_start_lba (sb (cur_part s))) in *.
  destruct (set_sync_spec s BLOCK_BITMAP i 0) as (b' & d' & Hset & Hsync & Hd' & HB' & Hn' & Hbits & Hsy' & Hk);
    [apply Hs|done|apply Hs|done|cbn [bitmap_of]; lia|by left|intros; unfold i; lia|].
  cbn [bitmap_of] in Hset. rewrite Hset, bind_done, Hsync. eexists. split; [done|].
  destruct (bitmap_lba_range s BLOCK_BITMAP HL (fo_bitmaps s Hs)) as (_ & _ & R3 & _ & _ & R6 & _).
  cbn [bitmap_of bitmap_lba] in *. exists d', b'. split_and!; try done.
  - intros j Hj. rewrite Hbits by done. destruct (decide (j = i)) as [E|E].
    + rewrite (bool_decide_true (_ ∈ _)); [cbn [negb]; by rewrite andb_false_r|]. apply list_elem_of_singleton. unfold i in E. lia.
    + rewrite (bool_decide_false (_ ∈ _)); [cbn [negb]; by rewrite andb_true_r|]. rewrite list_elem_of_singleton. unfold i in E. lia.
  - intros k Hk'. apply Hk. unfold nbits in Hn. assert (0 <= i) by (unfold i; lia). clearbody i. zdiv.
Qed.

Lemma data_block_frame s s' l lba : blocks_freed s s' l -> data_block s lba -> data_block s' lba.
Proof. intros (d' & b' & -> & _ & _ & _ & Hn & _) [H1 H2]. split; [exact H1|]. cbn [cur_part with_dsk with_bitmap with_part block_bitmap sb]. by rewrite Hn. Qed.

Lemma blocks_freed_synced s s' l : blocks_freed s s' l -> synced s'.
Proof. by intros (d' & b' & _ & _ & _ & ? & _). Qed.

Lemma free_blocks_ok s l :
  fs_ok s -> synced s -> (forall b, b ∈ l -> b <> 0 -> data_block s b) ->
  exists s', free_blocks s l = Done s' /\ blocks_freed s s' (filter (fun b => b <> 0) l).
Proof.
  revert s. induction l as [|b l IH]; intros s Hs Hsy Hl; cbn [free_blocks].
  - exists s. split; [done|]. by apply blocks_freed_refl.
  - rewrite filter_cons. destruct (Z.eqb_spec b 0) as [->|Hb]; cbn [negb].
    + rewrite decide_False by tauto. rewrite bind_done. apply IH; try done. intros b Hb. apply Hl. by right.
    + rewrite decide_True by done. destruct (free_block_ok s b Hs Hsy) as (s1 & -> & H1); [apply Hl; [by left|done]|]. rewrite bind_done.
      destruct (IH s1) as (s2 & -> & H2); [by eapply blocks_freed_ok|by eapply blocks_freed_synced| |].
      * intros b' Hb' Hne. eapply data_block_frame; [done|]. apply Hl; [by right|done].
      * exists s2. split; [done|]. by apply (blocks_freed_trans s s1 s2 [b]).
Qed.

(** The blocks of an inode: its direct blocks, the block of the indirect table and
    the blocks the table names. *)
Definition indirect (i : inode) : Z := default 0 (i_sectors i !! 12%nat).
Definition table s (i : inode) : list Z := unwords 128 (bd_sector (dsk s) (indirect i)).
Definition inode_blocks s (i : inode) : list Z :=
  filter (fun b => b <> 0) (take 12 (i_sectors i) ++ if decide (indirect i = 0) then [] else indirect i :: table s i).

Lemma blocks_freed_ext s s' l l' : (forall b, b ∈ l <-> b ∈ l') -> blocks_freed s s' l -> blocks_freed s s' l'.
Proof.
  intros Hl (d' & b' & -> & ? & ? & ? & ? & Hb & ?). exists d', b'. split_and!; try done. intros j Hj. rewrite Hb by done.
  do 2 f_equal. apply bool_decide_ext, Hl.
Qed.

(** Reading does not change the state but for the device's registers. *)
Lemma with_dsk_ok s d' : fs_ok s -> bd_ok d' -> fs_ok (with_dsk d' s).
Proof. intros Hs Hd. constructor; [done|exact (fo_mem s Hs)|exact (fo_layout s Hs)|exact (fo_bitmaps s Hs)|exact (fo_open s Hs)]. Qed.

Lemma release_blocks_ok s i :
  fs_ok s -> synced s -> length (i_sectors i) = 13%nat -> (forall b, b ∈ inode_blocks s i -> data_block s b) ->
  exists s', release_blocks s i = Done s' /\ blocks_freed s s' (inode_blocks s i).
Proof.
  intros Hs Hsy Hlen Hb. unfold release_blocks. destruct (aget_in (i_sectors i) 12) as (t & Ht & ->); [lia|]. rewrite bind_done.
  assert (Hti : indirect i = t) by (unfold indirect; change (Z.to_nat 12) with 12%nat in Ht; by rewrite Ht).
  unfold inode_blocks in *. rewrite Hti in *. destruct (Z.eqb_spec t 0) as [->|Hne]; cbn [negb].
  - rewrite decide_True, app_nil_r in * by done. apply free_blocks_ok; try done.
    intros b Hin Hb0. apply Hb. by apply list_elem_of_filter.
  - rewrite decide_False in * by done.
    assert (Hdt : data_block s t) by (apply Hb, list_elem_of_filter; split; [done|]; apply elem_of_app; right; by left).
    pose proof (fo_layout s Hs) as (L1 & L2 & L3 & L4 & L5 & L6 & L7 & L8 & L9 & L10). pose proof Hdt as [Hr _].
    destruct (bd_read_ok (dsk s) t 1) as (d1 & -> & Hd1 & Hs1); [apply Hs|lia|lia|lia|]. rewrite bind_done. cbn [fst snd].
    assert (Hsy1 : synced (with_dsk d1 s)) by (intros ty j Hj; cbn [dsk with_dsk]; rewrite Hs1; by apply Hsy).
    destruct (free_block_ok (with_dsk d1 s) t) as (s1 & -> & H1); [by apply with_dsk_ok|done|done|]. rewrite bind_done.
    rewrite sector_one.
    assert (Htab : table s i = unwords 128 (bd_sector (dsk s) t)) by (unfold table; by rewrite Hti). rewrite <- Htab.
    assert (Hd1s : forall s2 l, blocks_freed (with_dsk d1 s) s2 l -> blocks_freed s s2 l).
    { intros s2 l (d' & b' & -> & ? & ? & ? & ? & ? & Hk). exists d', b'. split_and!; try done. intros k Hk'. rewrite Hk by done. apply Hs1. }
    destruct (free_blocks_ok s1 (take 12 (i_sectors i) ++ table s i)) as (s2 & -> & H2).
    + eapply blocks_freed_ok; [|done]. by apply with_dsk_ok.
    + by eapply blocks_freed_synced.
    + intros b Hin Hb0. eapply data_block_frame; [done|]. apply Hb, list_elem_of_filter. split; [done|].
      rewrite elem_of_app, elem_of_cons in *. tauto.
    + exists s2. split; [done|]. eapply blocks_freed_ext; [|apply Hd1s; by eapply blocks_freed_trans].
      intros b. rewrite ?elem_of_cons, ?elem_of_app, ?list_elem_of_filter, ?elem_of_app, ?elem_of_cons, ?elem_of_nil.
      split; [|tauto]. intros [[->|[]]|?] || intros [->|?]; tauto.
Qed.

Lemma inode_delete_ok s k io_size :
  bd_ok (dsk s) -> layout_ok (cur_part s) -> 0 <= k < 4096 -> 1024 <= io_size ->
  exists d', inode_delete s k io_size = Done (with_dsk d' s) /\ bd_ok d' /\
    forall x, dbyte d' x = if decide (0 <= x - slot s k < 76) then 0 else dbyte (dsk s) x.
Proof.
  intros Hd HL Hk Hio. unfold inode_delete. assert_ok; [|apply Z.ltb_lt; lia].
  destruct (inode_locate_ok (cur_part s) k HL Hk) as (pos & Hpos & _ & _ & _ & _ & _ & _ & P7).
  rewrite Hpos, bind_done. assert_ok; [|by apply Z.leb_le].
  destruct (slot_update s k io_size (replicate (Z.to_nat INODE_SIZE) 0) pos) as (d' & -> & Hd' & Hx);
    try done; [destruct (straddles k); lia|].
  rewrite bind_done. exists d'. split; [done|]. split; [done|]. intros x. rewrite Hx. case_decide as E; [|done].
  rewrite lookup_replicate_2; [done|]. change (Z.to_nat INODE_SIZE) with 76%nat. lia.
Qed.

Lemma filter_head (p : Z) l : p ∉ l -> filter (fun q => q <> p) (p :: l) = l.
Proof.
  intros Hp. rewrite filter_cons, decide_False by tauto. induction l as [|q l IH]; [done|].
  apply not_elem_of_cons in Hp as [H1 H2]. rewrite filter_cons, decide_True by congruence. by rewrite IH.
Qed.

Lemma with_mem_ok s m' :
  fs_ok s -> al_ok m' -> (forall q n, al_live (mem s) q n -> al_live m' q n) -> fs_ok (with_mem m' s).
Proof.
  intros Hs Hm Hl. constructor; [exact (fo_disk s Hs)|done|exact (fo_layout s Hs)|exact (fo_bitmaps s Hs)|].
  destruct (fo_open s Hs) as (H1 & H2 & H3). split_and!; [exact H1| |exact H3].
  intros p Hp. destruct (H2 p Hp) as (i & n & ? & ? & ? & ? & ? & ?). exists i, n. split_and!; try done. cbn [mem with_mem]. auto.
Qed.

(** ** Properties *)

(** C21. [inode_sync] writes the inode, with its three in-memory members cleared, into
    slot [i_no mod 256] of the inode table and changes no other byte of the disk; a
    buffer too small for a slot that straddles two sectors is overrun. For inode
    numbers below 256 the slot is the inode's own, and [inode_open] of an inode that is
    not open reads back what was written. (From 256 on, [uint8_t inode_no] in
    [inode_sync] makes it overwrite the slot of another inode.) *)
Theorem inode_sync_roundtrip s i io_size :
  fs_ok s -> inode_wf i -> i_no i < 4096 ->
  let k := i_no i mod 256 in
  if (if straddles k then 1024 else 512) <=? io_size then
    exists d', inode_sync s i io_size = Done (with_dsk d' s) /\ fs_ok (with_dsk d' s) /\
      (forall x, dbyte d' x = if decide (0 <= x - slot s k < 76) then default 0 (inode_bytes (pure i) !! Z.to_nat (x - slot s k)) else dbyte (dsk s) x) /\
      (i_no i < 256 -> ~ is_open s (i_no i) -> can_alloc (mem s) [76; if straddles k then 1024 else 512] ->
         exists p s2, inode_open (with_dsk d' s) (i_no i) = Done (p, s2) /\ inodes s2 !! p = Some (opened i))
  else inode_sync s i io_size = Fault.
Proof.
  intros Hs Hw Hk k. pose proof Hw as (Hn & _ & _ & _ & Hl & _). unfold is_u32 in Hn.
  pose proof (inode_sync_spec s i io_size (fo_disk s Hs) (fo_layout s Hs) ltac:(lia) Hl) as Hsync. cbv zeta in Hsync. fold k in Hsync.
  destruct (_ <=? io_size); [|done]. destruct Hsync as (d' & Hsy & Hd' & Hx). pose proof (with_dsk_ok s d' Hs Hd') as Hs'.
  exists d'. split_and!; try done. intros Hlt Hno Ha. assert (Ek : k = i_no i) by (unfold k; zdiv). rewrite Ek in *.
  destruct (inode_open_miss (with_dsk d' s) i) as (p & n & d2 & m2 & Ho & _); try done.
  - split_and!; try done. intros x Hx'. cbn [dsk with_dsk]. change (slot (with_dsk d' s) (i_no i)) with (slot s (i_no i)).
    rewrite Hx, decide_True by lia. do 2 f_equal. lia.
  - eexists p, _. split; [exact Ho|]. cbn [inodes with_mem with_dsk set_inode with_inodes]. apply lookup_insert_eq.
Qed.

(** [inode_open] and [inode_close]: opening an inode that is open returns the same
    object with one more user, and closing it again restores the state; opening one
    that is not reads it from disk into a new heap block at the head of [open_inodes],
    with one user, and closing it removes exactly that: the list, the blocks in use
    and the disk are what they were. All states on the way satisfy the invariant: each
    inode number is in memory at most once. *)
Theorem inode_open_close s :
  fs_ok s ->
  (forall p i, p ∈ open_inodes (cur_part s) -> inodes s !! p = Some i -> i_open_cnts i < 2 ^ 32 - 1 ->
     exists s1, inode_open s (i_no i) = Done (p, s1) /\ fs_ok s1 /\
       inodes s1 = <[p := with_cnts (i_open_cnts i + 1) i]> (inodes s) /\ inode_close s1 p = Done s) /\
  (forall i, slot_holds s i -> ~ is_open s (i_no i) -> can_alloc (mem s) [76; if straddles (i_no i) then 1024 else 512] ->
     exists p s1 s2, inode_open s (i_no i) = Done (p, s1) /\ fs_ok s1 /\
       open_inodes (cur_part s1) = p :: open_inodes (cur_part s) /\ inodes s1 !! p = Some (opened i) /\
       (forall q n, al_live (mem s) q n -> q <> p) /\
       inode_close s1 p = Done s2 /\ fs_ok s2 /\ open_inodes (cur_part s2) = open_inodes (cur_part s) /\
       (forall q, q <> p -> inodes s2 !! q = inodes s !! q) /\
       (forall q n, al_live (mem s2) q n <-> al_live (mem s) q n) /\
       (forall k, bd_sector (dsk s2) k = bd_sector (dsk s) k)).
Proof.
  intros Hs. split.
  - intros p i Hp Hi Hc. pose proof (open_entry s p Hs Hp) as (i' & n & Hi' & Hw & Hk & Hc0 & _ & _).
    assert (i' = i) as -> by congruence. rewrite (inode_open_hit s p i Hs Hp Hi), u32_small by lia.
    eexists. split; [done|]. assert (Hw' : inode_wf (with_cnts (i_open_cnts i + 1) i)).
    { destruct Hw as (? & ? & ? & ? & ? & ?). unfold inode_wf, is_u32 in *. simpl. split_and!; try done; lia. }
    split; [eapply set_inode_ok; eauto; cbn [i_open_cnts with_cnts]; lia|]. split; [done|].
    erewrite inode_close_more; [|apply lookup_insert_eq|cbn [i_open_cnts with_cnts]; lia].
    f_equal. unfold set_inode, with_inodes. cbn [dsk mem inodes cur_part file_table fd_table].
    rewrite insert_insert_eq, insert_id; [by destruct s|].
    rewrite Hi. f_equal. destruct i. unfold with_cnts. simpl. f_equal. lia.
  - intros i Hi Hno Ha. destruct (inode_open_miss s i Hs Hi Hno Ha) as (p & n & d' & m' & Ho & Hp & Hd & Hsec & Hm & Hn & Hlv & Hf).
    pose proof Hi as (Hw & Hk & _).
    pose proof (inode_open_miss_ok s i p n d' m' Hs Hw Hk Hno Hp Hd Hm Hlv Hf) as Hs1. set (s1 := with_mem m' _) in *.
    assert (Hnp : p ∉ open_inodes (cur_part s)) by (intros Hin; destruct (open_entry s p Hs Hin) as (? & ? & _ & _ & _ & _ & ? & _); by eapply Hf).
    destruct (inode_close_last s1 p (opened i) Hs1) as (m2 & Hc & Hs2 & Hl2); [by left|apply lookup_insert_eq|done|].
    eexists p, s1, _. split_and!; try done; [apply lookup_insert_eq| | |].
    + cbn [open_inodes cur_part with_mem with_inodes with_open with_part]. by apply filter_head.
    + intros q Hq. cbn [inodes with_mem with_inodes]. rewrite lookup_delete_ne by congruence. apply lookup_insert_ne. congruence.
    + intros q n'. cbn [mem with_mem]. rewrite Hl2. unfold s1. cbn [mem with_mem]. rewrite Hlv. split; [tauto|].
      intros Hq. split; [by left|by eapply Hf].
Qed.

(** A buffer that is allocated and freed leaves the blocks in use as they were. *)
Lemma buffer_ok m size p m1 :
  al_ok m -> 0 < size <= max_request -> al_malloc m size = Done (p, m1) -> p <> 0 ->
  al_ok m1 /\ (forall q n, al_live m q n -> al_live m1 q n) /\
  exists m2, al_free m1 p = Done m2 /\ al_ok m2 /\ forall q n, al_live m2 q n <-> al_live m q n.
Proof.
  intros Hm Hs E Hp. destruct (al_malloc_ok m size Hm Hs) as (p' & m1' & E' & Hm1 & _ & Hl). rewrite E in E'. injection E' as <- <-.
  specialize (Hm1 (or_introl Hp)). destruct (Hl Hp) as (n & _ & Hl1 & Hl2). split_and!; [done|intros; apply Hl1; by left|].
  destruct (al_free_ok m1 p n Hm1) as (m2 & Hf & Hm2 & Hl3); [apply Hl1; by right|].
  exists m2. split_and!; try done. intros q n'. rewrite Hl3, Hl1. split; [tauto|]. intros Hq. split; [by left|by eapply Hl2].
Qed.

(** The bytes of the two bitmaps on disk. *)
Definition in_bitmaps s (x : Z) : Prop :=
  512 * block_bitmap_lba (sb (cur_part s)) <= x < 512 * inode_table_lba (sb (cur_part s)).

Lemma sector_ext (d d' : D) k :
  bd_ok d -> bd_ok d' -> (forall x, 512 * k <= x < 512 * k + 512 -> dbyte d x = dbyte d' x) -> bd_sector d k = bd_sector d' k.
Proof.
  intros Hd Hd' Hx. apply list_eq_same_length with 512%nat; [by apply bd_sector_len|by apply bd_sector_len|].
  intros r a a' Hr Ha Ha'. specialize (Hx (512 * k + Z.of_nat r) ltac:(lia)). unfold dbyte in Hx.
  replace ((512 * k + Z.of_nat r) / 512) with k in Hx by zdiv.
  replace ((512 * k + Z.of_nat r) mod 512) with (Z.of_nat r) in Hx by zdiv.
  rewrite Nat2Z.id, Ha, Ha' in Hx. exact Hx.
Qed.

(** A write outside the bitmaps keeps the disk's copy of them. *)
Lemma synced_frame s d' :
  fs_ok s -> synced s -> bd_ok d' -> (forall x, in_bitmaps s x -> dbyte d' x = dbyte (dsk s) x) -> synced (with_dsk d' s).
Proof.
  intros Hs Hsy Hd Hx t j Hj. transitivity (bd_sector (dsk s) (bitmap_lba t s + j)); [|exact (Hsy t j Hj)].
  apply sector_ext; [done|apply Hs|].
  destruct (bitmap_lba_range s t (fo_layout s Hs) (fo_bitmaps s Hs)) as (T1 & T2 & T3 & T4 & T5 & _).
  pose proof (fo_layout s Hs) as (L1 & L2 & L3 & L4 & L5 & L6 & L7 & L8 & L9 & L10).
  change (bitmap_lba t (with_dsk d' s)) with (bitmap_lba t s). change (bitmap_of t (with_dsk d' s)) with (bitmap_of t s) in Hj.
  intros x Hin. apply Hx. unfold in_bitmaps. assert (block_bitmap_lba (sb (cur_part s)) <= bitmap_lba t s) by (destruct t; cbn [bitmap_lba]; lia). lia.
Qed.

(** From the open inode on. *)
Lemma release_opened s p i m1 b :
  fs_ok s -> synced s -> p ∈ open_inodes (cur_part s) -> inodes s !! p = Some i -> i_open_cnts i = 1 ->
  (forall b, b ∈ inode_blocks s i -> data_block s b) -> al_malloc (mem s) 1024 = Done (b, m1) -> b <> 0 ->
  exists s', (s1 ← release_blocks s i;
      b ← bitmap_set (inode_bitmap (cur_part s1)) (i_no i) 0;
      s1 ← bitmap_sync (with_bitmap INODE_BITMAP b s1) (i_no i) INODE_BITMAP;
      r ← al_malloc (mem s1) 1024;
      if r.1 =? 0 then Fault else
      s1 ← inode_delete (with_mem r.2 s1) (i_no i) 1024;
      m ← al_free (mem s1) r.1;
      inode_close (with_mem m s1) p) = Done s' /\ fs_ok s' /\ synced s' /\
    open_inodes (cur_part s') = filter (fun q => q <> p) (open_inodes (cur_part s)) /\
    (forall q n, al_live (mem s') q n <-> al_live (mem s) q n /\ q <> p) /\
    (forall j, 0 <= j -> bit (block_bitmap (cur_part s')) j =
       bit (block_bitmap (cur_part s)) j && negb (bool_decide (data_start_lba (sb (cur_part s)) + j ∈ inode_blocks s i))) /\
    (forall j, 0 <= j -> bit (inode_bitmap (cur_part s')) j = bit (inode_bitmap (cur_part s)) j && negb (bool_decide (j = i_no i))) /\
    (forall x, ~ in_bitmaps s x -> dbyte (dsk s') x = if decide (0 <= x - slot s (i_no i) < 76) then 0 else dbyte (dsk s) x).
Proof.
  intros Hs Hsy Hp Hi Hc Hblk Hm1 Hb. destruct (open_entry s p Hs Hp) as (i' & n & Hi' & Hw & Hk & _). assert (i' = i) as -> by congruence.
  pose proof Hw as (Hno & _ & _ & _ & Hlen & _). unfold is_u32 in Hno.
  destruct (release_blocks_ok s i Hs Hsy Hlen Hblk) as (s1 & -> & H1). rewrite bind_done.
  pose proof (blocks_freed_ok s s1 _ Hs H1) as Hs1. pose proof (blocks_freed_synced s s1 _ H1) as Hsy1.
  destruct H1 as (d1 & b1 & -> & Hd1 & _ & _ & Hn1 & Hb1 & Hk1).
  set (s1 := with_dsk d1 (with_bitmap BLOCK_BITMAP b1 s)) in *.
  destruct (bitmap_lba_range s1 INODE_BITMAP (fo_layout s1 Hs1) (fo_bitmaps s1 Hs1)) as (R1 & R2 & R3 & R4 & R5 & R6 & R7).
  destruct (fo_bitmaps s Hs) as (_ & _ & _ & B4 & _). pose proof (fo_layout s Hs) as (L1 & L2 & L3 & L4 & L5 & L6 & L7 & L8 & L9 & L10).
  destruct (set_sync_spec s1 INODE_BITMAP (i_no i) 0) as (b2 & d2 & Hset & Hsync & Hd2 & HB2 & Hn2 & Hb2 & Hsy2 & Hk2);
    [done|exact (fo_layout s1 Hs1)|exact (fo_bitmaps s1 Hs1)|done|change (bitmap_of INODE_BITMAP s1) with (inode_bitmap (cur_part s)); unfold nbits; rewrite B4, L5; lia|by left|done|].
  cbn [bitmap_of] in Hset. rewrite Hset, bind_done, Hsync, bind_done. set (s2 := with_dsk d2 (with_bitmap INODE_BITMAP b2 s1)) in *.
  assert (Hs2 : fs_ok s2) by (constructor; [done|exact (fo_mem s Hs)|exact (fo_layout s Hs)|done|exact (fo_open s Hs)]).
  change (mem s2) with (mem s). rewrite Hm1, bind_done. cbn [fst snd]. destruct (Z.eqb_spec b 0); [done|].
  destruct (buffer_ok (mem s) 1024 b m1 (fo_mem s Hs) ltac:(lia) Hm1 Hb) as (Hm1ok & Hm1l & m2 & Hf & Hm2 & Hlv).
  destruct (inode_delete_ok (with_mem m1 s2) (i_no i) 1024) as (d3 & -> & Hd3 & Hx3); [done|exact (fo_layout s Hs)|lia|lia|]. rewrite bind_done.
  change (mem (with_dsk d3 (with_mem m1 s2))) with m1. rewrite Hf, bind_done.
  set (s3 := with_mem m2 (with_dsk d3 (with_mem m1 s2))).
  assert (Hs3 : fs_ok s3).
  { assert (E : s3 = with_mem m2 (with_dsk d3 s2)) by done. rewrite E. apply with_mem_ok; [by apply with_dsk_ok|done|].
    change (mem (with_dsk d3 s2)) with (mem s). intros; by apply Hlv. }
  destruct (inode_close_last s3 p i Hs3 Hp Hi Hc) as (m3 & -> & Hs4 & Hl4). eexists. split; [done|]. split; [done|].
  assert (Hx : forall x, ~ in_bitmaps s x -> dbyte d3 x = if decide (0 <= x - slot s (i_no i) < 76) then 0 else dbyte (dsk s) x).
  { intros x Hnx. rewrite Hx3. change (slot (with_mem m1 s2) (i_no i)) with (slot s (i_no i)). case_decide; [done|].
    unfold dbyte. change (dsk (with_mem m1 s2)) with d2. unfold in_bitmaps in Hnx.
    rewrite Hk2; [|change (bitmap_lba INODE_BITMAP s1) with (inode_bitmap_lba (sb (cur_part s))); zdiv].
    change (dsk s1) with d1. rewrite Hk1 by zdiv. done. }
  split_and!.
  - apply (synced_frame s2 d3 Hs2 Hsy2 Hd3). intros x Hin. rewrite Hx3.
    change (slot (with_mem m1 s2) (i_no i)) with (slot s (i_no i)). change (in_bitmaps s2 x) with (in_bitmaps s x) in Hin.
    rewrite decide_False by (unfold in_bitmaps, slot in *; lia). done.
  - done.
  - intros q n'. cbn [mem with_mem]. rewrite Hl4. change (mem s3) with m2. by rewrite Hlv.
  - intros j Hj. apply Hb1. done.
  - intros j Hj. transitivity (bit b2 j); [done|]. rewrite Hb2 by done.
    change (bitmap_of INODE_BITMAP s1) with (inode_bitmap (cur_part s)). destruct (decide (j = i_no i)) as [E|E].
    + rewrite (bool_decide_true (j = _)) by done. by rewrite andb_false_r.
    + rewrite (bool_decide_false (j = _)) by done. by rewrite andb_true_r.
  - exact Hx.
Qed.

(** C22. [inode_release] gives back everything an inode holds: its direct blocks, its
    indirect table and the blocks the table names become free in the block bitmap, its
    number becomes free in the inode bitmap, both bitmaps' copies on disk are up to
    date, and its slot is zero. No other block or inode is freed, no other byte
    outside the bitmaps changes, and the memory the operation used is free again. The inode
    is not open, and the buffers can be allocated. *)
Theorem inode_release_frees s i :
  fs_ok s -> synced s -> slot_holds s i -> ~ is_open s (i_no i) -> (forall b, b ∈ inode_blocks s i -> data_block s b) ->
  can_alloc (mem s) [76; if straddles (i_no i) then 1024 else 512] ->
  (forall p s1, inode_open s (i_no i) = Done (p, s1) -> can_alloc (mem s1) [1024]) ->
  exists s', inode_release s (i_no i) = Done s' /\ fs_ok s' /\ synced s' /\
    open_inodes (cur_part s') = open_inodes (cur_part s) /\
    (forall q n, al_live (mem s') q n <-> al_live (mem s) q n) /\
    (forall j, 0 <= j -> bit (block_bitmap (cur_part s')) j =
       bit (block_bitmap (cur_part s)) j && negb (bool_decide (data_start_lba (sb (cur_part s)) + j ∈ inode_blocks s i))) /\
    (forall j, 0 <= j -> bit (inode_bitmap (cur_part s')) j = bit (inode_bitmap (cur_part s)) j && negb (bool_decide (j = i_no i))) /\
    (forall x, ~ in_bitmaps s x -> dbyte (dsk s') x = if decide (0 <= x - slot s (i_no i) < 76) then 0 else dbyte (dsk s) x).
Proof.
  intros Hs Hsy Hi Hno Hblk Ha1 Ha2. pose proof Hi as (Hw & Hk & _).
  destruct (inode_open_miss s i Hs Hi Hno Ha1) as (p & n & d' & m' & Ho & Hp & Hd & Hsec & Hm & Hn & Hlv & Hf).
  pose proof (inode_open_miss_ok s i p n d' m' Hs Hw Hk Hno Hp Hd Hm Hlv Hf) as Hs1.
  unfold inode_release. rewrite Ho, bind_done. destruct (Ha2 p _ Ho) as (b & m1 & Hm1 & Hb & _).
  set (s1 := with_mem m' _) in *. assert (Hi1 : inodes s1 !! p = Some (opened i)) by apply lookup_insert_eq.
  unfold inode_at. rewrite Hi1, bind_done. assert_ok; [|by apply Z.eqb_eq].
  assert (Hnp : p ∉ open_inodes (cur_part s)) by (intros Hin; destruct (open_entry s p Hs Hin) as (? & ? & _ & _ & _ & _ & ? & _); by eapply Hf).
  assert (Hbl : inode_blocks s1 (opened i) = inode_blocks s i).
  { unfold inode_blocks, table, indirect. cbn [i_sectors opened]. case_decide; [done|].
    change (dsk s1) with d'. by rewrite Hsec. }
  destruct (release_opened s1 p (opened i) m1 b) as (s' & Hr & Hs' & Hsy' & Hop & Hl & Hbb & Hib & Hx); try done.
  - intros t j Hj. change (dsk s1) with d'. rewrite Hsec. by apply Hsy.
  - by left.
  - rewrite Hbl. exact Hblk.
  - exists s'. split; [exact Hr|]. split_and!; try done.
    + rewrite Hop. by apply filter_head.
    + intros q n'. rewrite Hl. change (mem s1) with m'. rewrite Hlv. split; [tauto|]. intros Hq. split; [by left|by eapply Hf].
    + intros j Hj. rewrite Hbb by done. by rewrite Hbl.
    + intros x Hnx. rewrite Hx by done. change (slot s1 (i_no (opened i))) with (slot s (i_no i)).
      destruct (decide (0 <= x - slot s (i_no i) < 76)); [done|]. unfold dbyte. change (dsk s1) with d'. by rewrite Hsec.
Qed.
End InodeProofs.

(** ** A sample file system

    A partition of 4708 sectors from sector 2048 on, its data area from 2660 on; inode 5
    is a file of 600 bytes in blocks 2661 and 2662, its numbers and blocks are taken
    next to those of the root directory. *)
Definition sample_sb : super_block := mk_sb 0x19590318 4708 4096 2048 2050 1 2051 1 2052 608 2660 0 24.
Definition sample_inode : inode := mk_inode 5 600 0 0 ([2661; 2662] ++ replicate 11 0).
Definition sample_bbits : list Z := 7 :: replicate 511 0.
Definition sample_ibits : list Z := 33 :: replicate 511 0.
Definition sample_part : partition :=
  mk_part 2048 4708 sample_sb (mk_bitmap 512 sample_bbits 0) (mk_bitmap 512 sample_ibits 0) [].
Definition sample_sectors : gmap Z (list Z) :=
  <[2050 := sample_bbits]> (<[2051 := sample_ibits]>
    (<[2052 := replicate 380 0 ++ inode_bytes sample_inode ++ replicate 56 0]>
      (<[2661 := replicate 512 65]> (<[2662 := replicate 88 66 ++ replicate 424 0]> ∅)))).
Definition sample_disk : disk :=
  mk_disk (mk_channel 0 0 0 0 0 0 false false 0 (fun k => if k =? 1 then sample_sectors else ∅) (fun _ => []) sample_status) 0 1.
Definition sample_fs : fs (D := disk) (A := Heap.heap (P := Paging.vm)) :=
  mk_fs sample_disk Heap.sample_heap ∅ sample_part (replicate 32 (mk_file 0 0 0)) ([0; 1; 2] ++ replicate 5 (-1))
    (mk_dir 0 0) ∅ 0.

(** [can_alloc], as a test. *)
Fixpoint can_allocb {A : Type} `{Alloc A} (m : A) (sizes : list Z) : bool :=
  match sizes with
  | [] => true
  | n :: rest => match al_malloc m n with Done (p, m') => negb (p =? 0) && can_allocb m' rest | _ => false end
  end.

Lemma can_allocb_sound {A : Type} `{Alloc A} (m : A) sizes : can_allocb m sizes = true -> can_alloc m sizes.
Proof.
  revert m. induction sizes as [|n rest IH]; intros m; simpl; [done|].
  destruct (al_malloc m n) as [[p m']| | |]; try done. intros [Hp Hr]%andb_true_iff.
  exists p, m'. split; [done|]. split; [|by apply IH]. destruct (Z.eqb_spec p 0); [done|done].
Qed.

Lemma sample_bits_len : length sample_bbits = 512%nat /\ length sample_ibits = 512%nat.
Proof. vm_compute. split; reflexivity. Qed.

Lemma sample_disk_ok : bd_ok (dsk sample_fs).
Proof.
  split; [done|]. split; [by right|]. split; [exists 2%nat; vm_compute; reflexivity|]. split; [done|].
  intros lba c Hc. change (sample_sectors !! lba = Some c) in Hc. unfold sample_sectors in Hc.
  repeat (apply lookup_insert_Some in Hc as [[_ <-]|[_ Hc]]; [vm_compute; reflexivity|]). by apply lookup_empty_Some in Hc.
Qed.

Lemma sample_fs_ok : fs_ok sample_fs.
Proof.
  destruct sample_bits_len as [E1 E2].
  constructor; [exact sample_disk_ok|exact Heap.sample_heap_ok|by vm_compute| |].
  - unfold bitmaps_ok, bitmap_wf, nbits. cbn [cur_part sample_fs sample_part block_bitmap inode_bitmap sb sample_sb btmp_bytes_len bits
      block_bitmap_sects inode_bitmap_sects data_start_lba start_lba sec_cnt]. rewrite E1, E2. split_and!; try done. lia.
  - split_and!; [apply NoDup_nil_2| |]; intros p; intros; by destruct (not_elem_of_nil p).
Qed.

Lemma sample_synced : synced sample_fs.
Proof.
  intros t j Hj. destruct t.
  - change (btmp_bytes_len (bitmap_of INODE_BITMAP sample_fs) / 512) with 1 in Hj. replace j with 0 by lia. vm_compute. reflexivity.
  - change (btmp_bytes_len (bitmap_of BLOCK_BITMAP sample_fs) / 512) with 1 in Hj. replace j with 0 by lia. vm_compute. reflexivity.
Qed.

(** The bytes of the slot, compared one by one. *)
Lemma forall_seqZ (P : Z -> bool) n : forallb P (seqZ 0 n) = true -> forall x, 0 <= x < n -> P x = true.
Proof. intros Hf x Hx. rewrite List.forallb_forall in Hf. apply Hf. apply list_elem_of_In, elem_of_seqZ. lia. Qed.

Lemma sample_slot : slot_holds sample_fs sample_inode.
Proof.
  split; [|split; [done|]].
  - unfold inode_wf, is_u32. simpl. split_and!; try done; lia || (repeat constructor; lia).
  - intros x Hx. apply Z.eqb_eq. revert x Hx. apply (forall_seqZ (fun x => dbyte (dsk sample_fs) (slot sample_fs (i_no sample_inode) + x) =?
      default 0 (inode_bytes (pure sample_inode) !! Z.to_nat x)) 76). vm_compute. reflexivity.
Qed.

Lemma sample_not_open k : ~ is_open sample_fs k.
Proof. intros (p & i & Hp & _). by apply elem_of_nil in Hp. Qed.

Lemma inode_sync_roundtrip_witness :
  exists d', inode_sync sample_fs sample_inode 512 = Done (with_dsk d' sample_fs) /\
    exists p s2, inode_open (with_dsk d' sample_fs) 5 = Done (p, s2) /\ inodes s2 !! p = Some (opened sample_inode).
Proof.
  destruct (inode_sync_roundtrip sample_fs sample_inode 512) as (d' & H1 & _ & _ & H2).
  - exact sample_fs_ok.
  - exact (proj1 sample_slot).
  - reflexivity.
  - exists d'. split; [exact H1|]. apply H2.
    + reflexivity.
    + apply sample_not_open.
    + apply can_allocb_sound. vm_compute. reflexivity.
Defined.

Lemma inode_open_close_witness :
  exists p s1 s2, inode_open sample_fs 5 = Done (p, s1) /\ inodes s1 !! p = Some (opened sample_inode) /\
    inode_close s1 p = Done s2 /\ open_inodes (cur_part s2) = [].
Proof.
  destruct (proj2 (inode_open_close sample_fs sample_fs_ok) sample_inode) as (p & s1 & s2 & H1 & _ & _ & H4 & _ & H6 & _ & H8 & _).
  - exact sample_slot.
  - apply sample_not_open.
  - apply can_allocb_sound. vm_compute. reflexivity.
  - exists p, s1, s2. split; [exact H1|]. split; [exact H4|]. split; [exact H6|exact H8].
Defined.

Lemma sample_blocks b : b ∈ inode_blocks sample_fs sample_inode -> data_block sample_fs b.
Proof.
  intros Hb. assert (E : inode_blocks sample_fs sample_inode = [2661; 2662]) by (vm_compute; reflexivity). rewrite E in Hb.
  apply elem_of_cons in Hb as [->|[->|[]%elem_of_nil]%elem_of_cons]; vm_compute; split; [split|..|split|]; reflexivity.
Qed.

(** The heap after [inode_open], for the buffer [inode_release] allocates. *)
Lemma sample_release_buffer p s1 : inode_open sample_fs 5 = Done (p, s1) -> can_alloc (mem s1) [1024].
Proof.
  intros Ho. apply can_allocb_sound.
  assert (E : match inode_open sample_fs 5 with Done r => can_allocb (mem r.2) [1024] | _ => false end = true) by (vm_compute; reflexivity).
  rewrite Ho in E. exact E.
Qed.

Lemma inode_release_frees_witness :
  exists s', inode_release sample_fs 5 = Done s' /\ bit (block_bitmap (cur_part s')) 2 = false /\
    bit (block_bitmap (cur_part s')) 0 = true /\ bit (inode_bitmap (cur_part s')) 5 = false.
Proof.
  destruct (inode_release_frees sample_fs sample_inode) as (s' & H1 & _ & _ & _ & _ & H6 & H7 & _).
  - exact sample_fs_ok.
  - exact sample_synced.
  - exact sample_slot.
  - apply sample_not_open.
  - exact sample_blocks.
  - apply can_allocb_sound. vm_compute. reflexivity.
  - exact sample_release_buffer.
  - exists s'. split; [exact H1|]. rewrite H6 by lia. rewrite H6 by lia. rewrite H7 by lia. vm_compute. split; [reflexivity|]. split; reflexivity.
Defined.
