(* ===== verification/File.v ===== *)
(** * Open files (fs/file.c, fs/fs.c, shell/pipe.c: descriptors)

    The system-wide file table, the descriptor table of the current thread, opening
    and closing files, and seeking. A [struct file *] is an index into the file table.
    The messages of [printk] are not modelled. *)
From stdpp Require Import base numbers list option tactics gmap fin_maps.
From Stdlib Require Import ZArith Lia.
From S2P Require Import Prelude Bitmap Ide Iface Inode.

Definition MAX_FILE_OPEN : Z := 32.
Definition MAX_FILES_OPEN_PER_PROC : Z := 8.
Definition PIPE_FLAG : Z := 0xFFFF.
Definition O_RDONLY : Z := 0.
Definition O_WRONLY : Z := 1.
Definition O_RDWR : Z := 2.
Definition O_CREAT : Z := 4.

(** The first index of [l], from [idx] on and before [idx + n], that satisfies the
    test; [idx + n] when there is none. *)
Fixpoint first_index {T} (test : T -> bool) (l : list T) (idx : Z) (n : nat) : outcome Z :=
  match n with
  | O => Done idx
  | S n => x ← aget l idx; if test x then Done idx else first_index test l (idx + 1) n
  end.

Section File.
Context {D A : Type} `{BlockDev D} `{Alloc A}.

Definition with_file_table (l : list file) (s : fs (D := D) (A := A)) : fs (D := D) (A := A) := mk_fs (dsk s) (mem s) (inodes s) (cur_part s) l (fd_table s) (root_dir s) (dirs s) (cwd_inode_nr s).
Definition with_fd_table (l : list Z) (s : fs (D := D) (A := A)) : fs (D := D) (A := A) := mk_fs (dsk s) (mem s) (inodes s) (cur_part s) (file_table s) l (root_dir s) (dirs s) (cwd_inode_nr s).

Definition get_free_slot_in_global (s : fs (D := D) (A := A)) : outcome Z :=
  fd_idx ← first_index (fun f => fd_inode f =? 0) (file_table s) 3 (Z.to_nat (MAX_FILE_OPEN - 3));
  if fd_idx =? MAX_FILE_OPEN then Done (-1) else Done fd_idx.

Definition pcb_fd_install (s : fs (D := D) (A := A)) (globa_fd_idx : Z) : outcome (Z * fs) :=
  local_fd_idx ← first_index (fun g => g =? -1) (fd_table s) 3 (Z.to_nat (MAX_FILES_OPEN_PER_PROC - 3));
  if local_fd_idx =? MAX_FILES_OPEN_PER_PROC then Done (-1, s) else
  l ← aset (fd_table s) local_fd_idx globa_fd_idx;
  Done (local_fd_idx, with_fd_table l s).

Definition wants_write (flag : Z) : bool := negb (Z.land flag O_WRONLY =? 0) || negb (Z.land flag O_RDWR =? 0).

Definition set_deny (v : Z) (i : inode) : inode := mk_inode (i_no i) (i_size i) (i_open_cnts i) v (i_sectors i).

Definition file_open (s : fs (D := D) (A := A)) (inode_no flag : Z) : outcome (Z * fs) :=
  fd_idx ← get_free_slot_in_global s;
  if fd_idx =? -1 then Done (-1, s) else
  r ← inode_open s inode_no;
  let '(p, s) := r in
  l ← aset (file_table s) fd_idx (mk_file 0 flag p);
  let s := with_file_table l s in
  i ← inode_at s p;
  if wants_write flag then
    if write_deny i =? 0 then pcb_fd_install (set_inode p (set_deny 1 i) s) fd_idx
    else
      l ← aset (file_table s) fd_idx (mk_file 0 flag 0);
      Done (-1, with_file_table l s)
  else pcb_fd_install s fd_idx.

Definition file_close (s : fs (D := D) (A := A)) (file : Z) : outcome (Z * fs) :=
  f ← aget (file_table s) file;
  i ← inode_at s (fd_inode f);
  s ← inode_close (set_inode (fd_inode f) (set_deny 0 i) s) (fd_inode f);
  l ← aset (file_table s) file (mk_file (fd_pos f) (fd_flag f) 0);
  Done (0, with_file_table l s).

Definition fd_local2global (s : fs (D := D) (A := A)) (local_fd : Z) : outcome Z :=
  global_fd ← aget (fd_table s) local_fd;
  ASSERT ((0 <=? global_fd) && (global_fd <? MAX_FILE_OPEN));;
  Done global_fd.

Definition is_pipe (s : fs (D := D) (A := A)) (local_fd : Z) : outcome bool :=
  global_fd ← fd_local2global s local_fd;
  f ← aget (file_table s) global_fd;
  Done (fd_flag f =? PIPE_FLAG).

Definition sys_fd_redirect (s : fs (D := D) (A := A)) (old_local_fd new_local_fd : Z) : outcome fs :=
  if new_local_fd <? 3 then
    l ← aset (fd_table s) old_local_fd new_local_fd; Done (with_fd_table l s)
  else
    new_global_fd ← aget (fd_table s) new_local_fd;
    l ← aset (fd_table s) old_local_fd new_global_fd; Done (with_fd_table l s).

Definition SEEK_SET : Z := 1.
Definition SEEK_CUR : Z := 2.
Definition SEEK_END : Z := 3.

Definition sys_lseek (s : fs (D := D) (A := A)) (fd offset whence : Z) : outcome (Z * fs) :=
  if fd <? 0 then Done (-1, s) else
  ASSERT ((0 <? whence) && (whence <? 4));;
  _fd ← fd_local2global s fd;
  pf ← aget (file_table s) _fd;
  i ← inode_at s (fd_inode pf);
  let file_size := i32 (i_size i) in
  let new_pos :=
    if whence =? SEEK_SET then offset
    else if whence =? SEEK_CUR then i32 (i32 (fd_pos pf) + offset)
    else i32 (file_size + offset) in
  if (new_pos <? 0) || (i32 (file_size - 1) <? new_pos) then Done (-1, s) else
  l ← aset (file_table s) _fd (mk_file (u32 new_pos) (fd_flag pf) (fd_inode pf));
  Done (i32 (u32 new_pos), with_file_table l s).
End File.

(** ** Lemmas *)
Lemma first_index_spec {T} (test : T -> bool) (l : list T) idx n :
  0 <= idx -> idx + Z.of_nat n <= Z.of_nat (length l) ->
  exists r, first_index test l idx n = Done r /\ idx <= r <= idx + Z.of_nat n /\
    (forall j x, idx <= j < r -> l !! Z.to_nat j = Some x -> test x = false) /\
    (r < idx + Z.of_nat n -> exists x, l !! Z.to_nat r = Some x /\ test x = true).
Proof.
  revert idx. induction n as [|n IH]; intros idx Hi Hn; simpl.
  - exists idx. split_and!; try done; lia.
  - destruct (aget_in l idx) as (x & Hx & ->); [lia|]. rewrite bind_done. destruct (test x) eqn:E.
    + exists idx. split_and!; try done; try lia. intros _. by exists x.
    + destruct (IH (idx + 1)) as (r & -> & Hr & Hno & Hyes); [lia|lia|]. exists r. split_and!; try done; try lia.
      * intros j y Hj Hy. destruct (decide (j = idx)) as [->|]; [congruence|]. apply (Hno j); [lia|done].
      * intros Hlt. apply Hyes. lia.
Qed.

Section FileProofs.
Context {D A : Type} `{BlockDev D} `{Alloc A}.
Implicit Types s : fs (D := D) (A := A).

Definition tables_ok s : Prop := length (file_table s) = 32%nat /\ length (fd_table s) = 8%nat.

(** The least free entry of the file table, and of the descriptor table. *)
Definition free_slot s (g : Z) : Prop :=
  3 <= g < 32 /\ (exists f, file_table s !! Z.to_nat g = Some f /\ fd_inode f = 0) /\
  forall j f, 3 <= j < g -> file_table s !! Z.to_nat j = Some f -> fd_inode f <> 0.
Definition free_fd s (l : Z) : Prop :=
  3 <= l < 8 /\ fd_table s !! Z.to_nat l = Some (-1) /\ forall j, 3 <= j < l -> fd_table s !! Z.to_nat j <> Some (-1).

Lemma free_slot_unique s g g' : free_slot s g -> free_slot s g' -> g = g'.
Proof.
  intros (R1 & (f & F1 & F2) & F3) (R1' & (f' & F1' & F2') & F3'). destruct (Z.lt_trichotomy g g') as [Hlt|[->|Hlt]]; [|done|].
  - by destruct (F3' g f ltac:(lia) F1).
  - by destruct (F3 g' f' ltac:(lia) F1').
Qed.

Lemma free_fd_unique s l l' : free_fd s l -> free_fd s l' -> l = l'.
Proof.
  intros (R1 & F1 & F2) (R1' & F1' & F2'). destruct (Z.lt_trichotomy l l') as [Hlt|[->|Hlt]]; [|done|].
  - by destruct (F2' l ltac:(lia)).
  - by destruct (F2 l' ltac:(lia)).
Qed.

Lemma get_free_slot_spec s : tables_ok s ->
  (exists g, get_free_slot_in_global s = Done g /\ free_slot s g) \/
  (get_free_slot_in_global s = Done (-1) /\ forall g, ~ free_slot s g).
Proof.
  intros [Hf _]. unfold get_free_slot_in_global. change (Z.to_nat (MAX_FILE_OPEN - 3)) with 29%nat.
  destruct (first_index_spec (fun f => fd_inode f =? 0) (file_table s) 3 29) as (r & -> & Hr & Hno & Hyes); [lia|lia|]. rewrite bind_done.
  unfold MAX_FILE_OPEN. destruct (Z.eqb_spec r 32) as [->|Hne].
  - right. split; [done|]. intros g (Hg & (f & Hgf & E) & _). specialize (Hno g f ltac:(lia) Hgf). by rewrite E in Hno.
  - left. exists r. split; [done|]. destruct Hyes as (f & Hx & E%Z.eqb_eq); [lia|]. split; [lia|]. split; [by exists f|].
    intros j f' Hj Hjf. by apply Z.eqb_neq, (Hno j).
Qed.

Lemma pcb_fd_install_spec s g : tables_ok s ->
  (exists l, free_fd s l /\ pcb_fd_install s g = Done (l, with_fd_table (<[Z.to_nat l := g]> (fd_table s)) s)) \/
  ((forall l, ~ free_fd s l) /\ pcb_fd_install s g = Done (-1, s)).
Proof.
  intros [_ Hf]. unfold pcb_fd_install. change (Z.to_nat (MAX_FILES_OPEN_PER_PROC - 3)) with 5%nat.
  destruct (first_index_spec (fun g => g =? -1) (fd_table s) 3 5) as (r & -> & Hr & Hno & Hyes); [lia|lia|]. rewrite bind_done.
  unfold MAX_FILES_OPEN_PER_PROC. destruct (Z.eqb_spec r 8) as [->|Hne].
  - right. split; [|done]. intros l (Hl & E & _). by specialize (Hno l _ ltac:(lia) E).
  - left. exists r. destruct Hyes as (x & Hx & ->%Z.eqb_eq); [lia|]. split.
    + split; [lia|]. split; [done|]. intros j Hj E. by specialize (Hno j _ Hj E).
    + by rewrite aset_in, bind_done by lia.
Qed.

(** Opening an inode does not touch the tables. *)
Lemma inode_open_tables s k p s1 : inode_open s k = Done (p, s1) -> file_table s1 = file_table s /\ fd_table s1 = fd_table s.
Proof.
  unfold inode_open. intros (r & _ & E)%bind_done_inv. destruct r as [q|].
  - apply bind_done_inv in E as (i & _ & [= <- <-]). done.
  - apply bind_done_inv in E as (pos & _ & E). apply bind_done_inv in E as (r1 & _ & E). apply bind_done_inv in E as (r2 & _ & E).
    cbv zeta in E. destruct (_ || _); [done|]. apply bind_done_inv in E as (r3 & _ & E). apply bind_done_inv in E as (b & _ & E).
    apply bind_done_inv in E as (m & _ & [= <- <-]). done.
Qed.

(** The state after the file table entry has been filled in. *)
Definition entered s (g flag p : Z) (i : inode) : fs (D := D) (A := A) :=
  let s := with_file_table (<[Z.to_nat g := mk_file 0 flag p]> (file_table s)) s in
  if wants_write flag then set_inode p (set_deny 1 i) s else s.

Lemma entered_tables s g flag p i : tables_ok s -> tables_ok (entered s g flag p i).
Proof. intros [H1 H2]. unfold entered, tables_ok. destruct (wants_write flag); simpl; by rewrite length_insert. Qed.

Lemma file_open_spec s k flag p s1 i g :
  tables_ok s -> free_slot s g -> inode_open s k = Done (p, s1) -> inodes s1 !! p = Some i ->
  if wants_write flag && negb (write_deny i =? 0) then
    file_open s k flag = Done (-1, with_file_table (<[Z.to_nat g := mk_file 0 flag 0]> (file_table s1)) s1)
  else file_open s k flag = pcb_fd_install (entered s1 g flag p i) g.
Proof.
  intros Ht Hg Ho Hi. destruct (inode_open_tables s k p s1 Ho) as [Hft Hfd]. pose proof Ht as [Hf1 Hf2].
  assert (Hget : get_free_slot_in_global s = Done g).
  { destruct (get_free_slot_spec s Ht) as [(g' & E & Hg')|[_ Hno]]; [|by destruct (Hno g)]. rewrite E. f_equal. by eapply free_slot_unique. }
  destruct Hg as (Hr & _). unfold file_open. rewrite Hget, bind_done. destruct (Z.eqb_spec g (-1)); [lia|].
  rewrite Ho, bind_done, aset_in by (rewrite Hft; lia). rewrite bind_done. unfold inode_at.
  cbn [inodes with_file_table]. rewrite Hi, bind_done. unfold entered.
  destruct (wants_write flag); [|done]. cbn [andb]. destruct (write_deny i =? 0); cbn [negb]; [done|].
  cbn [file_table with_file_table]. rewrite aset_in by (rewrite length_insert, Hft; lia). rewrite bind_done.
  by rewrite list_insert_insert_eq.
Qed.

Lemma set_deny_wf v i : inode_wf i -> v = 0 \/ v = 1 -> inode_wf (set_deny v i).
Proof. intros (? & ? & ? & ? & ? & ?) Hv. unfold inode_wf, is_u32 in *. simpl. split_and!; try done; lia. Qed.

Lemma with_file_table_ok s l : fs_ok s -> fs_ok (with_file_table l s).
Proof. intros Hs. constructor; [exact (fo_disk s Hs)|exact (fo_mem s Hs)|exact (fo_layout s Hs)|exact (fo_bitmaps s Hs)|exact (fo_open s Hs)]. Qed.

Lemma with_fd_table_ok s l : fs_ok s -> fs_ok (with_fd_table l s).
Proof. intros Hs. constructor; [exact (fo_disk s Hs)|exact (fo_mem s Hs)|exact (fo_layout s Hs)|exact (fo_bitmaps s Hs)|exact (fo_open s Hs)]. Qed.

Lemma entered_ok s g flag p i : fs_ok s -> p ∈ open_inodes (cur_part s) -> inodes s !! p = Some i -> fs_ok (entered s g flag p i).
Proof.
  intros Hs Hp Hi. destruct (open_entry s p Hs Hp) as (i' & n & Hi' & Hw & Hk & Hc & _). assert (i' = i) as -> by congruence.
  unfold entered. pose proof (with_file_table_ok s (<[Z.to_nat g := mk_file 0 flag p]> (file_table s)) Hs) as Hs'.
  destruct (wants_write flag); [|exact Hs']. eapply set_inode_ok; [exact Hs'|exact Hi|apply set_deny_wf; auto|done|exact Hc].
Qed.

(** Closing a file whose inode has no other user. *)
Lemma file_close_last s g f i :
  fs_ok s -> 0 <= g -> file_table s !! Z.to_nat g = Some f -> fd_inode f ∈ open_inodes (cur_part s) ->
  inodes s !! fd_inode f = Some i -> i_open_cnts i = 1 ->
  exists s', file_close s g = Done (0, s') /\ fs_ok s' /\ file_table s' !! Z.to_nat g = Some (mk_file (fd_pos f) (fd_flag f) 0) /\
    open_inodes (cur_part s') = filter (fun q => q <> fd_inode f) (open_inodes (cur_part s)) /\
    (forall q n, al_live (mem s') q n <-> al_live (mem s) q n /\ q <> fd_inode f) /\ dsk s' = dsk s.
Proof.
  intros Hs Hg Hf Hp Hi Hc. destruct (open_entry s _ Hs Hp) as (i' & n & Hi' & Hw & _ & H1 & _). assert (i' = i) as -> by congruence.
  unfold file_close. rewrite (aget_Some _ _ _ Hg Hf), bind_done. unfold inode_at. rewrite Hi, bind_done.
  assert (Hs1 : fs_ok (set_inode (fd_inode f) (set_deny 0 i) s)) by (eapply set_inode_ok; [done|done|apply set_deny_wf; auto|done|done]).
  destruct (inode_close_last _ (fd_inode f) (set_deny 0 i) Hs1 Hp (lookup_insert_eq _ _ _) Hc) as (m2 & -> & Hs2 & Hl2).
  pose proof (lookup_lt_Some _ _ _ Hf) as Hlt.
  rewrite bind_done, aset_in by (cbn [file_table with_mem with_inodes with_open with_part set_inode]; lia). rewrite bind_done.
  eexists. split; [reflexivity|]. split_and!; try done.
  - by apply with_file_table_ok.
  - by apply list_lookup_insert_eq.
Qed.

(** ** Properties *)

(** C24. [file_open], on every branch: with no free entry in the file table it returns -1
    and changes nothing; otherwise it takes the least free entry [g]. If writing is asked
    for and the inode's [write_deny] is set, it returns -1 and frees the entry (but the
    inode stays counted as open once more); else it fills in the entry, sets [write_deny]
    when writing is asked for, and installs [g] at the least free descriptor of the
    thread, or returns -1 when there is none, keeping entry and inode taken. *)
Theorem file_open_correct s k flag p s1 i :
  tables_ok s -> inode_open s k = Done (p, s1) -> inodes s1 !! p = Some i ->
  ((forall g, ~ free_slot s g) /\ file_open s k flag = Done (-1, s)) \/
  (exists g, free_slot s g /\
    if wants_write flag && negb (write_deny i =? 0) then
      file_open s k flag = Done (-1, with_file_table (<[Z.to_nat g := mk_file 0 flag 0]> (file_table s)) s1)
    else
      (exists l, free_fd s l /\
         file_open s k flag = Done (l, with_fd_table (<[Z.to_nat l := g]> (fd_table s)) (entered s1 g flag p i))) \/
      ((forall l, ~ free_fd s l) /\ file_open s k flag = Done (-1, entered s1 g flag p i))).
Proof.
  intros Ht Ho Hi. destruct (inode_open_tables s k p s1 Ho) as [Hft Hfd].
  destruct (get_free_slot_spec s Ht) as [(g & _ & Hg)|[E Hno]].
  - right. exists g. split; [done|]. pose proof (file_open_spec s k flag p s1 i g Ht Hg Ho Hi) as Hop.
    destruct (_ && _); [by rewrite <- Hft|]. assert (Ht1 : tables_ok s1) by (unfold tables_ok; rewrite Hft, Hfd; exact Ht).
    assert (Ef : fd_table (entered s1 g flag p i) = fd_table s) by (unfold entered; by destruct (wants_write flag)).
    assert (Efree : forall l, free_fd (entered s1 g flag p i) l <-> free_fd s l) by (intros l; unfold free_fd; by rewrite Ef).
    destruct (pcb_fd_install_spec _ g (entered_tables s1 g flag p i Ht1)) as [(l & Hl & E)|[Hno E]]; rewrite E, ?Ef in Hop.
    + left. exists l. split; [by apply Efree|done].
    + right. split; [|done]. intros l Hl. apply (Hno l). by apply Efree.
  - left. split; [done|]. unfold file_open. rewrite E, bind_done. done.
Qed.

(** Opening a file that nobody has open and closing it again: the descriptor leads to
    the file's entry, which holds the inode as it is on disk, at position 0, and
    [write_deny] is set exactly when writing was asked for; closing returns 0, frees the
    entry and leaves the open inodes, the memory in use and the disk as they were. *)
Theorem file_open_close s i flag g l :
  fs_ok s -> tables_ok s -> slot_holds s i -> ~ is_open s (i_no i) -> can_alloc (mem s) [76; if straddles (i_no i) then 1024 else 512] ->
  free_slot s g -> free_fd s l ->
  exists p s1 s2, file_open s (i_no i) flag = Done (l, s1) /\ fs_ok s1 /\ fd_local2global s1 l = Done g /\
    file_table s1 !! Z.to_nat g = Some (mk_file 0 flag p) /\
    inodes s1 !! p = Some (set_deny (if wants_write flag then 1 else 0) (opened i)) /\
    file_close s1 g = Done (0, s2) /\ fs_ok s2 /\ file_table s2 !! Z.to_nat g = Some (mk_file 0 flag 0) /\
    open_inodes (cur_part s2) = open_inodes (cur_part s) /\
    (forall q n, al_live (mem s2) q n <-> al_live (mem s) q n) /\ (forall k, bd_sector (dsk s2) k = bd_sector (dsk s) k).
Proof.
  intros Hs Ht Hi Hno Ha Hg Hl. destruct (inode_open_miss s i Hs Hi Hno Ha) as (p & n & d' & m' & Ho & Hp & Hd & Hsec & Hm & Hn & Hlv & Hf).
  pose proof Hi as (Hw & Hk & _). pose proof (inode_open_miss_ok s i p n d' m' Hs Hw Hk Hno Hp Hd Hm Hlv Hf) as Hs1.
  assert (Hnp : p ∉ open_inodes (cur_part s)) by (intros Hin; destruct (open_entry s p Hs Hin) as (? & ? & _ & _ & _ & _ & ? & _); by eapply Hf).
  set (s1 := with_mem m' _) in *. assert (Hi1 : inodes s1 !! p = Some (opened i)) by apply lookup_insert_eq.
  pose proof (file_open_spec s (i_no i) flag p s1 (opened i) g Ht Hg Ho Hi1) as Hop. cbn [write_deny opened] in Hop.
  change (0 =? 0) with true in Hop. cbn [negb] in Hop. rewrite andb_false_r in Hop.
  assert (Ht1 : tables_ok s1) by exact Ht. assert (Hp1 : p ∈ open_inodes (cur_part s1)) by (by left).
  pose proof (entered_ok s1 g flag p (opened i) Hs1 Hp1 Hi1) as Hs2. set (s2 := entered s1 g flag p (opened i)) in *.
  assert (Ef : fd_table s2 = fd_table s) by (unfold s2, entered; by destruct (wants_write flag)).
  assert (Eo : open_inodes (cur_part s2) = p :: open_inodes (cur_part s)) by (unfold s2, entered; by destruct (wants_write flag)).
  assert (Em : mem s2 = m' /\ dsk s2 = d') by (unfold s2, entered; by destruct (wants_write flag)). destruct Em as [Em Ed].
  assert (Eft : file_table s2 = <[Z.to_nat g := mk_file 0 flag p]> (file_table s)) by (unfold s2, entered; by destruct (wants_write flag)).
  set (i2 := set_deny (if wants_write flag then 1 else 0) (opened i)).
  assert (Hi2 : inodes s2 !! p = Some i2) by (unfold s2, entered, i2; destruct (wants_write flag); [apply lookup_insert_eq|exact Hi1]).
  assert (Hinst : pcb_fd_install s2 g = Done (l, with_fd_table (<[Z.to_nat l := g]> (fd_table s)) s2)).
  { destruct (pcb_fd_install_spec s2 g (entered_tables s1 g flag p (opened i) Ht1)) as [(l' & Hl' & E)|[Hn' _]].
    - unfold free_fd in Hl'. rewrite Ef in Hl'. rewrite E, Ef. destruct Hl as (R1 & R2 & R3), Hl' as (R1' & R2' & R3').
      destruct (Z.lt_trichotomy l l') as [Hlt|[->|Hlt]]; [by destruct (R3' l ltac:(lia))|done|by destruct (R3 l' ltac:(lia))].
    - destruct (Hn' l). unfold free_fd. by rewrite Ef. }
  rewrite Hinst in Hop. destruct Hg as (Hg & _), Hl as (Hl & _), Ht as [Ht3 Ht4].
  set (s3 := with_fd_table _ s2) in *. assert (Hs3 : fs_ok s3) by (by apply with_fd_table_ok).
  assert (Ht5 : file_table s3 !! Z.to_nat g = Some (mk_file 0 flag p)) by (change (file_table s3) with (file_table s2); rewrite Eft; apply list_lookup_insert_eq; lia).
  destruct (file_close_last s3 g (mk_file 0 flag p) i2) as (s4 & Hc & Hs4 & Ht6 & Ho4 & Hl4 & Hd4);
    [exact Hs3|lia|exact Ht5|change (p ∈ open_inodes (cur_part s2)); rewrite Eo; by left|exact Hi2|done|].
  eexists p, s3, s4. split; [exact Hop|]. split; [done|]. split.
  { unfold fd_local2global. change (fd_table s3) with (<[Z.to_nat l := g]> (fd_table s)).
    erewrite aget_Some; [|lia|apply list_lookup_insert_eq; lia]. rewrite bind_done. assert_ok; [done|].
    apply andb_true_intro. unfold MAX_FILE_OPEN. split; [apply Z.leb_le|apply Z.ltb_lt]; lia. }
  split; [done|]. split; [exact Hi2|]. split_and!; try done.
  - rewrite Ho4. change (cur_part s3) with (cur_part s2). rewrite Eo. by apply filter_head.
  - intros q n'. rewrite Hl4. change (mem s3) with (mem s2). rewrite Em, Hlv.
    split; [tauto|]. intros Hq. split; [by left|by eapply Hf].
  - intros k. rewrite Hd4. change (dsk s3) with (dsk s2). rewrite Ed. apply Hsec.
Qed.

(** [write_deny] does not exclude a second writer: [file_close] clears it whatever the
    file was opened for. When a file is open for writing by one descriptor and for
    reading by another, closing the reader makes the next [file_open] for writing
    succeed, while the first writer still has the file open. *)
Theorem file_close_readmits_writer s g f i l g' :
  fs_ok s -> tables_ok s -> 0 <= g -> file_table s !! Z.to_nat g = Some f -> fd_inode f ∈ open_inodes (cur_part s) ->
  inodes s !! fd_inode f = Some i -> write_deny i = 1 -> 2 <= i_open_cnts i < 2 ^ 32 -> wants_write (fd_flag f) = false ->
  free_fd s l -> (forall s1, file_close s g = Done (0, s1) -> free_slot s1 g') ->
  exists s1 s2, file_close s g = Done (0, s1) /\ file_open s1 (i_no i) O_WRONLY = Done (l, s2) /\
    file_table s2 !! Z.to_nat g' = Some (mk_file 0 O_WRONLY (fd_inode f)).
Proof.
  intros Hs Ht Hg Hf Hp Hi Hd Hc _ Hl Hg'. destruct (open_entry s _ Hs Hp) as (i' & n & Hi' & Hw & _). assert (i' = i) as -> by congruence.
  set (p := fd_inode f) in *. set (j := with_cnts (i_open_cnts i - 1) (set_deny 0 i)).
  pose proof (lookup_lt_Some _ _ _ Hf) as Hlt.
  set (s1 := with_file_table (<[Z.to_nat g := mk_file (fd_pos f) (fd_flag f) 0]> (file_table s)) (set_inode p j s)).
  assert (Hclose : file_close s g = Done (0, s1)).
  { unfold file_close. rewrite (aget_Some _ _ _ Hg Hf), bind_done. unfold inode_at. fold p. rewrite Hi, bind_done.
    erewrite inode_close_more; [|apply lookup_insert_eq|cbn [i_open_cnts set_deny]; lia].
    rewrite bind_done, aset_in by (cbn [file_table with_inodes set_inode]; lia). rewrite bind_done. do 2 f_equal.
    unfold s1, with_file_table, set_inode, with_inodes. cbn [dsk mem inodes cur_part file_table fd_table]. f_equal. apply insert_insert_eq. }
  assert (Hjw : inode_wf j) by (destruct Hw as (? & ? & ? & ? & ? & ?); unfold inode_wf, is_u32 in *; simpl; split_and!; try done; lia).
  assert (Hs1 : fs_ok s1) by (apply with_file_table_ok; eapply set_inode_ok; [done|done|done|done|cbn; lia]).
  specialize (Hg' s1 Hclose). exists s1.
  assert (Ho : inode_open s1 (i_no j) = Done (p, set_inode p (with_cnts (u32 (i_open_cnts j + 1)) j) s1)) by (apply inode_open_hit; [done|done|apply lookup_insert_eq]).
  assert (Ht1 : tables_ok s1) by (destruct Ht as [H1 H2]; split; [cbn [file_table s1 with_file_table]; by rewrite length_insert|done]).
  set (s2 := set_inode p _ s1) in Ho. set (j2 := with_cnts (u32 (i_open_cnts j + 1)) j).
  pose proof (file_open_spec s1 (i_no j) O_WRONLY p s2 j2 g' Ht1 Hg' Ho (lookup_insert_eq _ _ _)) as Hop.
  change (wants_write O_WRONLY && negb (write_deny j2 =? 0)) with false in Hop. cbv iota in Hop.
  assert (Hl2 : free_fd (entered s2 g' O_WRONLY p j2) l) by exact Hl.
  destruct (pcb_fd_install_spec (entered s2 g' O_WRONLY p j2) g' (entered_tables s2 g' O_WRONLY p j2 Ht1)) as [(l' & Hl' & E)|[Hn _]]; [|by destruct (Hn l)].
  assert (l' = l) as ->.
  { destruct Hl2 as (R1 & R2 & R3), Hl' as (R1' & R2' & R3').
    destruct (Z.lt_trichotomy l l') as [H1|[->|H1]]; [by destruct (R3' l ltac:(lia))|done|by destruct (R3 l' ltac:(lia))]. }
  eexists. split; [exact Hclose|]. split; [rewrite <- Hop in E; exact E|].
  destruct Hg' as (R1 & _), Ht1 as [T1 _]. apply list_lookup_insert_eq. change (Z.to_nat g' < length (file_table s1))%nat. lia.
Qed.

(** [sys_lseek] on a file smaller than 2 GB returns the new position, which lies
    inside the file, and changes only the entry's [fd_pos]; a position outside gives -1
    and changes nothing. The end of the file itself is not a position it accepts. *)
Theorem sys_lseek_in_file s fd g f i offset whence :
  0 <= fd -> fd_table s !! Z.to_nat fd = Some g -> 0 <= g < 32 -> file_table s !! Z.to_nat g = Some f ->
  inodes s !! fd_inode f = Some i -> 0 <= i_size i < 2 ^ 31 -> 0 <= fd_pos f <= i_size i ->
  - 2 ^ 31 <= offset -> offset + i_size i < 2 ^ 31 -> 1 <= whence <= 3 ->
  let base := if whence =? SEEK_SET then 0 else if whence =? SEEK_CUR then fd_pos f else i_size i in
  sys_lseek s fd offset whence =
    if decide (0 <= base + offset < i_size i)
    then Done (base + offset, with_file_table (<[Z.to_nat g := mk_file (base + offset) (fd_flag f) (fd_inode f)]> (file_table s)) s)
    else Done (-1, s).
Proof.
  intros Hfd Hg Hgr Hf Hi Hsz Hpos Ho1 Ho2 Hw base. unfold sys_lseek. destruct (Z.ltb_spec fd 0); [lia|].
  assert_ok; [|apply andb_true_intro; split; apply Z.ltb_lt; lia].
  unfold fd_local2global. rewrite (aget_Some _ _ _ Hfd Hg), bind_done. assert_ok.
  2: { apply andb_true_intro. unfold MAX_FILE_OPEN. split; [apply Z.leb_le|apply Z.ltb_lt]; lia. }
  rewrite bind_done. rewrite (aget_Some _ g _ ltac:(lia) Hf), bind_done. unfold inode_at. rewrite Hi, bind_done.
  rewrite (i32_small (i_size i)), (i32_small (fd_pos f)), (i32_small (i_size i - 1)) by lia.
  assert (E : (if whence =? SEEK_SET then offset else if whence =? SEEK_CUR then i32 (fd_pos f + offset) else i32 (i_size i + offset)) = base + offset).
  { unfold base. rewrite !i32_small by lia. destruct (whence =? SEEK_SET), (whence =? SEEK_CUR); lia. }
  rewrite E. pose proof (lookup_lt_Some _ _ _ Hf) as Hlt. case_decide as Hin.
  - destruct (Z.ltb_spec (base + offset) 0); [lia|]. destruct (Z.ltb_spec (i_size i - 1) (base + offset)); [lia|]. cbn [orb].
    rewrite aset_in by lia. rewrite bind_done, u32_small, i32_small by lia. done.
  - destruct (Z.ltb_spec (base + offset) 0), (Z.ltb_spec (i_size i - 1) (base + offset)); try done; lia.
Qed.
End FileProofs.

(** ** Witnesses *)
Lemma sample_file_tables : tables_ok sample_fs.
Proof. split; reflexivity. Qed.

Lemma sample_free_slot : free_slot sample_fs 3.
Proof. split; [lia|]. split; [by exists (mk_file 0 0 0)|]. intros j f Hj. lia. Qed.

Lemma sample_free_fd : free_fd sample_fs 3.
Proof. split; [lia|]. split; [done|]. intros j Hj. lia. Qed.

(** Inode 5 open for writing by entry 3 and for reading by entry 4. *)
Definition sample_p : Z := 0xc010000c.
Definition sample_rw : fs (D := disk) (A := Heap.heap (P := Paging.vm)) :=
  mk_fs sample_disk Heap.sample_heap2 {[sample_p := mk_inode 5 600 2 1 (i_sectors sample_inode)]}
    (mk_part 2048 4708 sample_sb (mk_bitmap 512 sample_bbits 0) (mk_bitmap 512 sample_ibits 0) [sample_p])
    ([mk_file 0 0 0; mk_file 0 0 0; mk_file 0 0 0; mk_file 0 O_WRONLY sample_p; mk_file 10 O_RDONLY sample_p] ++ replicate 27 (mk_file 0 0 0))
    ([0; 1; 2; 3; 4] ++ replicate 3 (-1))
    (mk_dir 0 0) ∅ 0.

Lemma sample_rw_ok : fs_ok sample_rw.
Proof.
  destruct Heap.sample_heap2_ok as [Hh Hl].
  constructor; [exact sample_disk_ok|exact Hh|exact (fo_layout _ sample_fs_ok)|exact (fo_bitmaps _ sample_fs_ok)|].
  split_and!.
  - apply NoDup_singleton.
  - intros p Hp. change (p ∈ [sample_p]) in Hp. apply list_elem_of_singleton in Hp as ->.
    exists (mk_inode 5 600 2 1 (i_sectors sample_inode)), 32. split_and!; try done.
    unfold inode_wf, is_u32. simpl. split_and!; try done; lia || (repeat constructor; lia).
  - intros p q i j Hp Hq _ _ _. change (p ∈ [sample_p]) in Hp. change (q ∈ [sample_p]) in Hq.
    apply list_elem_of_singleton in Hp as ->, Hq as ->. done.
Qed.

Lemma file_open_correct_witness :
  exists s', file_open sample_fs 5 O_RDWR = Done (3, s').
Proof.
  destruct (inode_open_miss sample_fs sample_inode sample_fs_ok sample_slot (sample_not_open 5)) as (p & n & d' & m' & H1 & _).
  - apply can_allocb_sound. vm_compute. reflexivity.
  - set (s1 := with_mem m' _) in H1. assert (H4 : inodes s1 !! p = Some (opened sample_inode)) by apply lookup_insert_eq.
    destruct (file_open_correct sample_fs 5 O_RDWR p s1 (opened sample_inode)) as [[Hno _]|(g & Hg & [(l & Hl & E)|[Hno _]])].
    + exact sample_file_tables.
    + exact H1.
    + exact H4.
    + destruct (Hno 3 sample_free_slot).
    + assert (l = 3) as -> by (destruct Hl as (R1 & _ & R3); destruct (Z.eq_dec l 3) as [->|]; [reflexivity|destruct (R3 3 ltac:(lia)); reflexivity]).
      eexists. exact E.
    + destruct (Hno 3 sample_free_fd).
Defined.

Lemma file_open_close_witness :
  exists p s1 s2, file_open sample_fs 5 O_WRONLY = Done (3, s1) /\ file_table s1 !! 3%nat = Some (mk_file 0 O_WRONLY p) /\
    file_close s1 3 = Done (0, s2) /\ open_inodes (cur_part s2) = [].
Proof.
  destruct (file_open_close sample_fs sample_inode O_WRONLY 3 3) as (p & s1 & s2 & H1 & _ & _ & H4 & _ & H6 & _ & _ & H9 & _).
  - exact sample_fs_ok.
  - exact sample_file_tables.
  - exact sample_slot.
  - apply sample_not_open.
  - apply can_allocb_sound. vm_compute. reflexivity.
  - exact sample_free_slot.
  - exact sample_free_fd.
  - exists p, s1, s2. split; [exact H1|]. split; [exact H4|]. split; [exact H6|exact H9].
Defined.

Lemma sample_rw_slot s1 : file_close sample_rw 4 = Done (0, s1) -> free_slot s1 4.
Proof.
  intros E. assert (Ht : match file_close sample_rw 4 with Done r => take 5 (file_table r.2) | _ => [] end =
    [mk_file 0 0 0; mk_file 0 0 0; mk_file 0 0 0; mk_file 0 O_WRONLY sample_p; mk_file 10 O_RDONLY 0]) by (vm_compute; reflexivity).
  rewrite E in Ht. cbn [snd] in Ht. assert (Hlk : forall k, (k < 5)%nat -> file_table s1 !! k = take 5 (file_table s1) !! k) by (intros k Hk; by rewrite lookup_take_lt).
  split; [lia|]. split.
  - exists (mk_file 10 O_RDONLY 0). split; [|done]. rewrite Hlk by lia. by rewrite Ht.
  - intros j f Hj Hf. replace j with 3 in Hf by lia. rewrite Hlk, Ht in Hf by lia. injection Hf as <-. done.
Qed.

Lemma file_close_readmits_writer_witness :
  exists s1 s2, file_close sample_rw 4 = Done (0, s1) /\ file_open s1 5 O_WRONLY = Done (5, s2) /\
    file_table s2 !! 4%nat = Some (mk_file 0 O_WRONLY sample_p).
Proof.
  apply (file_close_readmits_writer sample_rw 4 (mk_file 10 O_RDONLY sample_p) (mk_inode 5 600 2 1 (i_sectors sample_inode)) 5 4).
  - exact sample_rw_ok.
  - split; reflexivity.
  - lia.
  - reflexivity.
  - apply list_elem_of_singleton. reflexivity.
  - apply lookup_singleton_eq.
  - reflexivity.
  - cbn. lia.
  - reflexivity.
  - split; [lia|]. split; [reflexivity|]. intros j Hj E.
    assert (Hj' : j = 3 \/ j = 4) by lia. destruct Hj' as [-> | ->]; discriminate.
  - exact sample_rw_slot.
Defined.

Lemma sys_lseek_in_file_witness :
  sys_lseek sample_rw 4 (-5) SEEK_CUR =
    Done (5, with_file_table (<[4%nat := mk_file 5 O_RDONLY sample_p]> (file_table sample_rw)) sample_rw).
Proof.
  rewrite (sys_lseek_in_file sample_rw 4 4 (mk_file 10 O_RDONLY sample_p) (mk_inode 5 600 2 1 (i_sectors sample_inode)) (-5) SEEK_CUR).
  - reflexivity.
  - lia.
  - reflexivity.
  - lia.
  - reflexivity.
  - apply lookup_singleton_eq.
  - cbn. lia.
  - cbn. lia.
  - lia.
  - cbn. lia.
  - vm_compute. split; discriminate.
Defined.
