(* ===== verification/FileIo.v ===== *)
(** * Reading and writing files (fs/file.c: file_read, file_write)

    A file's data blocks are the 12 direct blocks of its inode and the up to 128 blocks
    named by its indirect table. The user's buffer is a list of bytes: [file_read]
    returns what it stores there, [file_write] takes what is there. *)
From stdpp Require Import base numbers list option tactics gmap fin_maps.
From Stdlib Require Import ZArith Lia.
From S2P Require Import Prelude Bitmap Ide Iface Inode File.

Definition BLOCK_SIZE : Z := 512.

(** for (k = idx; k < idx + n; k++) all_blocks[k] = i_sectors[k]; *)
Fixpoint copy_direct (i : inode) (all_blocks : list Z) (idx : Z) (n : nat) : outcome (list Z) :=
  match n with
  | O => Done all_blocks
  | S n =>
      b ← aget (i_sectors i) idx;
      all_blocks ← aset all_blocks idx b;
      copy_direct i all_blocks (idx + 1) n
  end.

Section FileIo.
Context {D A : Type} `{BlockDev D} `{Alloc A}.

(** [ide_read(..., indirect_block_table, all_blocks + 12, 1)] *)
Definition load_table (d : D) (i : inode) (all_blocks : list Z) : outcome (D * list Z) :=
  indirect_block_table ← aget (i_sectors i) 12;
  r ← bd_read d indirect_block_table 1;
  Done (r.1, take 12 all_blocks ++ unwords 128 r.2).

(** The part of [file_read] that collects the addresses of the blocks to read; the
    array is zero at first, as [sys_malloc] clears it. *)
Definition read_blocks (d : D) (i : inode) (block_read_start_idx block_read_end_idx : Z) : outcome (D * list Z) :=
  let all_blocks := replicate 140 0 in
  let read_blocks := u32 (block_read_start_idx - block_read_end_idx) in
  if read_blocks =? 0 then
    ASSERT (block_read_end_idx =? block_read_start_idx);;
    if block_read_end_idx <? 12 then
      l ← copy_direct i all_blocks block_read_end_idx 1; Done (d, l)
    else load_table d i all_blocks
  else if block_read_end_idx <? 12 then
    l ← copy_direct i all_blocks block_read_start_idx (Z.to_nat (block_read_end_idx - block_read_start_idx + 1)); Done (d, l)
  else if block_read_start_idx <? 12 then
    l ← copy_direct i all_blocks block_read_start_idx (Z.to_nat (12 - block_read_start_idx));
    t ← aget (i_sectors i) 12;
    ASSERT (negb (t =? 0));;
    load_table d i l
  else
    t ← aget (i_sectors i) 12;
    ASSERT (negb (t =? 0));;
    load_table d i all_blocks.

(** One turn of the loop of [file_read]; [out] is what has been stored in the user's
    buffer. The buffer [io_buf] is used without a test for NULL. *)
Definition read_turn (all_blocks : list Z) (io_buf size : Z) (st : D * Z * Z * Z * list Z)
    : outcome ((D * Z * Z * Z * list Z) + (D * Z * list Z)) :=
  let '(d, fd_pos, bytes_read, size_left, out) := st in
  if bytes_read <? size then
    let sec_idx := fd_pos / BLOCK_SIZE in
    sec_lba ← aget all_blocks sec_idx;
    let sec_off_bytes := fd_pos mod BLOCK_SIZE in
    let sec_left_bytes := BLOCK_SIZE - sec_off_bytes in
    let chunk_size := if size_left <? sec_left_bytes then size_left else sec_left_bytes in
    if io_buf =? 0 then Fault else
    r ← bd_read d sec_lba 1;
    b ← memcpy_from r.2 sec_off_bytes chunk_size;
    Done (inl (r.1, u32 (fd_pos + chunk_size), u32 (bytes_read + chunk_size), u32 (size_left - chunk_size), out ++ b))
  else Done (inr (d, fd_pos, out)).

(** Returns the result and the bytes stored in the user's buffer. *)
Definition file_read (s : fs (D := D) (A := A)) (fd count : Z) : outcome (Z * list Z * fs (D := D) (A := A)) :=
  f ← aget (file_table s) fd;
  i ← inode_at s (fd_inode f);
  let over := i_size i <? u32 (fd_pos f + count) in
  let size := if over then u32 (i_size i - fd_pos f) else count in
  if over && (size =? 0) then Done (-1, [], s) else
  r1 ← al_malloc (mem s) BLOCK_SIZE;
  r2 ← al_malloc r1.2 (BLOCK_SIZE + 48);
  let s := with_mem r2.2 s in
  if r2.1 =? 0 then Done (-1, [], s) else
  let block_read_start_idx := fd_pos f / BLOCK_SIZE in
  let block_read_end_idx := u32 (fd_pos f + size) / BLOCK_SIZE in
  ASSERT ((block_read_start_idx <? 139) && (block_read_end_idx <? 139));;
  r ← read_blocks (dsk s) i block_read_start_idx block_read_end_idx;
  let '(d, all_blocks) := r in
  r ← loop (Z.to_nat size + 1) (read_turn all_blocks r1.1 size) (d, fd_pos f, 0, size, []);
  let '(d, pos, out) := r in
  l ← aset (file_table s) fd (mk_file pos (fd_flag f) (fd_inode f));
  m ← al_free (mem s) r2.1;
  m ← al_free m r1.1;
  Done (i32 size, out, with_mem m (with_file_table l (with_dsk d s))).

(** ** Writing *)
Definition set_size (n : Z) (i : inode) : inode := mk_inode (i_no i) n (i_open_cnts i) (write_deny i) (i_sectors i).
Definition set_sectors (l : list Z) (i : inode) : inode := mk_inode (i_no i) (i_size i) (i_open_cnts i) (write_deny i) l.

(** The loops that allocate the blocks [block_idx .. block_idx + n): a direct block goes
    into the inode too. [None]: the partition is full. *)
Fixpoint grow (s : fs (D := D) (A := A)) (p : Z) (all_blocks : list Z) (block_idx : Z) (n : nat)
    : outcome (option (list Z) * fs (D := D) (A := A)) :=
  match n with
  | O => Done (Some all_blocks, s)
  | S n =>
      r ← block_bitmap_alloc s;
      let '(block_lba, s) := r in
      if block_lba =? -1 then Done (None, s) else
      s ← (if block_idx <? 12 then
             i ← inode_at s p;
             old ← aget (i_sectors i) block_idx;
             ASSERT (old =? 0);;
             l ← aset (i_sectors i) block_idx (u32 block_lba);
             Done (set_inode p (set_sectors l i) s)
           else Done s);
      all_blocks ← aset all_blocks block_idx (u32 block_lba);
      s ← bitmap_sync s (u32 (block_lba - data_start_lba (sb (cur_part s)))) BLOCK_BITMAP;
      grow s p all_blocks (block_idx + 1) n
  end.

(** Write the indirect table. *)
Definition store_table (s : fs (D := D) (A := A)) (lba : Z) (all_blocks : list Z) : outcome (fs (D := D) (A := A)) :=
  d ← bd_write (dsk s) lba (words (drop 12 all_blocks)) 1; Done (with_dsk d s).

(** The part of [file_write] that collects the blocks to write to and allocates the
    missing ones. *)
Definition write_blocks (s : fs (D := D) (A := A)) (p : Z) (file_has_used_blocks file_will_use_blocks : Z)
    : outcome (option (list Z) * fs (D := D) (A := A)) :=
  let all_blocks := replicate 140 0 in
  i ← inode_at s p;
  if u32 (file_will_use_blocks - file_has_used_blocks) =? 0 then
    if file_has_used_blocks <=? 12 then
      l ← copy_direct i all_blocks (file_has_used_blocks - 1) 1; Done (Some l, s)
    else
      t ← aget (i_sectors i) 12;
      ASSERT (negb (t =? 0));;
      r ← load_table (dsk s) i all_blocks; Done (Some r.2, with_dsk r.1 s)
  else if file_will_use_blocks <=? 12 then
    b ← aget (i_sectors i) (file_has_used_blocks - 1);
    ASSERT (negb (b =? 0));;
    l ← copy_direct i all_blocks (file_has_used_blocks - 1) 1;
    grow s p l file_has_used_blocks (Z.to_nat (file_will_use_blocks - file_has_used_blocks))
  else if file_has_used_blocks <=? 12 then
    l ← copy_direct i all_blocks (file_has_used_blocks - 1) 1;
    r ← block_bitmap_alloc s;
    let '(block_lba, s) := r in
    if block_lba =? -1 then Done (None, s) else
    i ← inode_at s p;
    t ← aget (i_sectors i) 12;
    ASSERT (t =? 0);;
    secs ← aset (i_sectors i) 12 (u32 block_lba);
    let s := set_inode p (set_sectors secs i) s in
    r ← grow s p l file_has_used_blocks (Z.to_nat (file_will_use_blocks - file_has_used_blocks));
    match r with
    | (None, s) => Done (None, s)
    | (Some l, s) => s ← store_table s (u32 block_lba) l; Done (Some l, s)
    end
  else
    t ← aget (i_sectors i) 12;
    ASSERT (negb (t =? 0));;
    r ← load_table (dsk s) i all_blocks;
    r ← grow (with_dsk r.1 s) p r.2 file_has_used_blocks (Z.to_nat (file_will_use_blocks - file_has_used_blocks));
    match r with
    | (None, s) => Done (None, s)
    | (Some l, s) => s ← store_table s t l; Done (Some l, s)
    end.

(** One turn of the loop that writes the data. *)
Definition write_turn (all_blocks : list Z) (p count : Z) (st : fs (D := D) (A := A) * Z * Z * Z * list Z * bool)
    : outcome ((fs (D := D) (A := A) * Z * Z * Z * list Z * bool) + (fs (D := D) (A := A) * Z)) :=
  let '(s, fd_pos, bytes_written, size_left, src, first_write_block) := st in
  if bytes_written <? count then
    i ← inode_at s p;
    let sec_idx := i_size i / BLOCK_SIZE in
    sec_lba ← aget all_blocks sec_idx;
    let sec_off_bytes := i_size i mod BLOCK_SIZE in
    let sec_left_bytes := BLOCK_SIZE - sec_off_bytes in
    let chunk_size := if size_left <? sec_left_bytes then size_left else sec_left_bytes in
    r ← (if first_write_block then bd_read (dsk s) sec_lba 1 else Done (dsk s, replicate 512 0));
    b ← memcpy_from src 0 chunk_size;
    io_buf ← memcpy_to r.2 sec_off_bytes b;
    d ← bd_write r.1 sec_lba io_buf 1;
    let s := set_inode p (set_size (u32 (i_size i + chunk_size)) i) (with_dsk d s) in
    Done (inl (s, u32 (fd_pos + chunk_size), u32 (bytes_written + chunk_size), u32 (size_left - chunk_size),
      drop (Z.to_nat chunk_size) src, false))
  else Done (inr (s, fd_pos)).

(** The first write to a file gives it a block; [false]: the partition is full. *)
Definition first_block (s : fs (D := D) (A := A)) (p : Z) (i : inode) : outcome (bool * fs (D := D) (A := A)) :=
  b0 ← aget (i_sectors i) 0;
  if b0 =? 0 then
    r ← block_bitmap_alloc s;
    let '(block_lba, s) := r in
    if block_lba =? -1 then Done (false, s) else
    secs ← aset (i_sectors i) 0 (u32 block_lba);
    let s := set_inode p (set_sectors secs i) s in
    let block_bitmap_idx := u32 (block_lba - data_start_lba (sb (cur_part s))) in
    ASSERT (negb (block_bitmap_idx =? 0));;
    s ← bitmap_sync s block_bitmap_idx BLOCK_BITMAP;
    Done (true, s)
  else Done (true, s).

Definition file_write (s : fs (D := D) (A := A)) (fd : Z) (buf : list Z) (count : Z) : outcome (Z * fs (D := D) (A := A)) :=
  f ← aget (file_table s) fd;
  let p := fd_inode f in
  i ← inode_at s p;
  if BLOCK_SIZE * 140 <? u32 (i_size i + count) then Done (-1, s) else
  r1 ← al_malloc (mem s) BLOCK_SIZE;
  if r1.1 =? 0 then Done (-1, with_mem r1.2 s) else
  r2 ← al_malloc r1.2 (BLOCK_SIZE + 48);
  let s := with_mem r2.2 s in
  if r2.1 =? 0 then Done (-1, s) else
  r ← first_block s p i;
  let s := r.2 in
  if negb r.1 then Done (-1, s) else
  let file_has_used_blocks := i_size i / BLOCK_SIZE + 1 in
  let file_will_use_blocks := u32 (i_size i + count) / BLOCK_SIZE + 1 in
  ASSERT (file_will_use_blocks <=? 140);;
  r ← write_blocks s p file_has_used_blocks file_will_use_blocks;
  match r with
  | (None, s) => Done (-1, s)
  | (Some all_blocks, s) =>
      r ← loop (Z.to_nat count + 1) (write_turn all_blocks p count) (s, u32 (i_size i - 1), 0, count, buf, true);
      let '(s, pos) := r in
      l ← aset (file_table s) fd (mk_file pos (fd_flag f) p);
      i ← inode_at s p;
      s ← inode_sync (with_file_table l s) i BLOCK_SIZE;
      m ← al_free (mem s) r2.1;
      m ← al_free m r1.1;
      Done (i32 count, with_mem m s)
  end.
End FileIo.

(** ** Specification *)
Section FileSpec.
Context {D A : Type} `{BlockDev D} `{Alloc A}.
Implicit Types s : fs (D := D) (A := A).

(** The address of block [j] of a file, and the bytes [a .. a + n) of the file. *)
Definition file_block (d : D) (i : inode) (j : Z) : Z :=
  if decide (j < 12) then default 0 (i_sectors i !! Z.to_nat j)
  else default 0 (unwords 128 (bd_sector d (indirect i)) !! Z.to_nat (j - 12)).
Definition fbyte (d : D) (i : inode) (x : Z) : Z := dbyte d (512 * file_block d i (x / 512) + x mod 512).
Definition contents (d : D) (i : inode) (a n : Z) : list Z := fbyte d i <$> seqZ a n.

(** How many blocks a file has: none before the first write, then one more than its
    full blocks. *)
Definition nblocks (i : inode) : Z := if decide (i_sectors i !! 0%nat = Some 0) then 0 else i_size i / 512 + 1.

Definition used_block s (lba : Z) : Prop :=
  data_block s lba /\ bit (block_bitmap (cur_part s)) (lba - data_start_lba (sb (cur_part s))) = true.

(** The first [nb] blocks of a file are taken data blocks, all different; there is an
    indirect table exactly when there are more than 12. *)
Record blocks_ok s (i : inode) (nb : Z) : Prop := {
  bk_rest : forall j, nb <= j < 12 -> i_sectors i !! Z.to_nat j = Some 0;
  bk_notable : nb <= 12 -> indirect i = 0;
  bk_table : 12 < nb -> used_block s (indirect i) /\ forall j, 0 <= j < nb -> file_block (dsk s) i j <> indirect i;
  bk_block : forall j, 0 <= j < nb -> used_block s (file_block (dsk s) i j);
  bk_inj : forall j k, 0 <= j < nb -> 0 <= k < nb -> file_block (dsk s) i j = file_block (dsk s) i k -> j = k
}.

(** A well-formed file has as many blocks as its size needs. *)
Record file_ok s (i : inode) : Prop := {
  fk_wf : inode_wf i;
  fk_size : i_size i < 71680;
  fk_empty : nblocks i = 0 -> i_size i = 0;
  fk_blocks : blocks_ok s i (nblocks i)
}.
End FileSpec.

(** ** Lemmas on collecting blocks *)
Lemma copy_direct_ok i all idx n :
  0 <= idx -> idx + Z.of_nat n <= Z.of_nat (length (i_sectors i)) -> (length (i_sectors i) <= length all)%nat ->
  exists all', copy_direct i all idx n = Done all' /\ length all' = length all /\
    forall j, 0 <= j -> all' !! Z.to_nat j = if decide (idx <= j < idx + Z.of_nat n) then i_sectors i !! Z.to_nat j else all !! Z.to_nat j.
Proof.
  revert all idx. induction n as [|n IH]; intros all idx Hi Hn Hl; cbn [copy_direct].
  - exists all. split_and!; try done. intros j Hj. by rewrite decide_False by lia.
  - destruct (aget_in (i_sectors i) idx) as (b & Hb & ->); [lia|]. rewrite bind_done, aset_in by lia. rewrite bind_done.
    destruct (IH (<[Z.to_nat idx := b]> all) (idx + 1)) as (all' & -> & Hl' & Hj); [lia|lia|rewrite length_insert; lia|].
    rewrite length_insert in Hl'. exists all'. split_and!; try done. intros j Hj0. rewrite Hj by done.
    destruct (decide (idx + 1 <= j < idx + 1 + Z.of_nat n)), (decide (idx <= j < idx + Z.of_nat (S n))); try done; try lia.
    + assert (j = idx) as -> by lia. rewrite list_lookup_insert_eq by lia. done.
    + apply list_lookup_insert_ne. lia.
Qed.

Section FileProofs.
Context {D A : Type} `{BlockDev D} `{Alloc A}.
Implicit Types s : fs (D := D) (A := A).

Lemma load_table_ok (d : D) i all :
  bd_ok d -> length (i_sectors i) = 13%nat -> length all = 140%nat -> 0 <= indirect i <= max_lba ->
  exists d' all', load_table d i all = Done (d', all') /\ bd_ok d' /\ (forall k, bd_sector d' k = bd_sector d k) /\ length all' = 140%nat /\
    forall j, 0 <= j < 140 -> all' !! Z.to_nat j = if decide (j < 12) then all !! Z.to_nat j else Some (file_block d i j).
Proof.
  intros Hd Hl Ha Hi. unfold load_table. destruct (aget_in (i_sectors i) 12) as (t & Ht & ->); [lia|]. rewrite bind_done.
  assert (Et : indirect i = t) by (unfold indirect; change 12%nat with (Z.to_nat 12); by rewrite Ht). rewrite Et in *.
  destruct (bd_read_ok d t 1) as (d' & -> & Hd' & Hs); [done|lia|lia|lia|]. rewrite bind_done, sector_one. cbn [fst snd].
  eexists _, _. split; [reflexivity|]. split_and!; try done.
  - rewrite length_app, length_take, unwords_length, Ha. done.
  - intros j Hj. case_decide.
    + rewrite lookup_app_l by (rewrite length_take; lia). apply lookup_take_lt. lia.
    + rewrite lookup_app_r by (rewrite length_take; lia). rewrite length_take, Ha. unfold file_block. rewrite decide_False by done. rewrite Et.
      replace (Z.to_nat j - 12 `min` 140)%nat with (Z.to_nat (j - 12)) by lia.
      destruct (lookup_lt_is_Some_2 (unwords 128 (bd_sector d t)) (Z.to_nat (j - 12))) as [x ->]; [rewrite unwords_length; lia|done].
Qed.

Lemma direct_block (d : D) i j : 0 <= j < 12 -> length (i_sectors i) = 13%nat -> i_sectors i !! Z.to_nat j = Some (file_block d i j).
Proof.
  intros Hj Hl. unfold file_block. rewrite decide_True by lia.
  destruct (lookup_lt_is_Some_2 (i_sectors i) (Z.to_nat j)) as [x ->]; [lia|done].
Qed.

Lemma zeros_length : length (replicate 140 0) = 140%nat.
Proof. reflexivity. Qed.

Lemma read_blocks_ok (d : D) i a b :
  bd_ok d -> length (i_sectors i) = 13%nat -> 0 <= a <= b -> b < 140 -> (12 <= b -> 0 < indirect i <= max_lba) ->
  exists d' all, read_blocks d i a b = Done (d', all) /\ bd_ok d' /\ (forall k, bd_sector d' k = bd_sector d k) /\
    forall j, a <= j <= b -> all !! Z.to_nat j = Some (file_block d i j).
Proof.
  intros Hd Hl Hab Hb Ht. unfold read_blocks. pose proof zeros_length as Hz.
  assert (Htb : 12 <= b -> exists t, aget (i_sectors i) 12 = Done t /\ (t =? 0) = false).
  { intros H12. destruct (aget_in (i_sectors i) 12) as (t & E & ->); [lia|]. exists t. split; [done|]. apply Z.eqb_neq.
    specialize (Ht H12). unfold indirect in Ht. change 12%nat with (Z.to_nat 12) in Ht. rewrite E in Ht. simpl in Ht. lia. }
  assert (E0 : u32 (a - b) = 0 <-> a = b) by (unfold u32; zdiv).
  destruct (Z.eqb_spec (u32 (a - b)) 0) as [E|E].
  - assert (a = b) as -> by tauto. assert_ok; [|by apply Z.eqb_eq]. destruct (Z.ltb_spec b 12).
    + destruct (copy_direct_ok i (replicate 140 0) b 1) as (all & -> & Hla & Hj); [lia|lia|lia|]. rewrite bind_done.
      exists d, all. split_and!; try done. intros j Hj'. rewrite Hj, decide_True by lia. apply direct_block; lia.
    + destruct (load_table_ok d i (replicate 140 0)) as (d' & all & -> & Hd' & Hs & _ & Hj); [done|done|done|lia|].
      exists d', all. split_and!; try done. intros j Hj'. by rewrite Hj, decide_False by lia.
  - destruct (Z.ltb_spec b 12).
    + destruct (copy_direct_ok i (replicate 140 0) a (Z.to_nat (b - a + 1))) as (all & -> & Hla & Hj); [lia|lia|lia|]. rewrite bind_done.
      exists d, all. split_and!; try done. intros j Hj'. rewrite Hj, decide_True by lia. apply direct_block; lia.
    + destruct (Htb ltac:(lia)) as (t & Et & Et0). specialize (Ht ltac:(lia)). destruct (Z.ltb_spec a 12).
      * destruct (copy_direct_ok i (replicate 140 0) a (Z.to_nat (12 - a))) as (l & -> & Hll & Hlj); [lia|lia|lia|]. rewrite bind_done.
        rewrite Et, bind_done. assert_ok; [|by rewrite Et0].
        destruct (load_table_ok d i l) as (d' & all & -> & Hd' & Hs & _ & Hj); [done|done|lia|lia|].
        exists d', all. split_and!; try done. intros j Hj'. rewrite Hj by lia. case_decide; [|done].
        rewrite Hlj, decide_True by lia. apply direct_block; lia.
      * rewrite Et, bind_done. assert_ok; [|by rewrite Et0].
        destruct (load_table_ok d i (replicate 140 0)) as (d' & all & -> & Hd' & Hs & _ & Hj); [done|done|done|lia|].
        exists d', all. split_and!; try done. intros j Hj'. by rewrite Hj, decide_False by lia.
Qed.

(** ** Reading *)

Lemma memcpy_from_sector (d : D) k off n :
  bd_ok d -> 0 <= off -> 0 <= n -> off + n <= 512 ->
  memcpy_from (bd_sector d k) off n = Done ((fun x => dbyte d (512 * k + x)) <$> seqZ off n).
Proof.
  intros Hd Ho Hn Hl. pose proof (bd_sector_len d k Hd) as Hlen. unfold memcpy_from. rewrite decide_True by lia. f_equal.
  apply list_eq_same_length with (Z.to_nat n).
  - rewrite length_fmap, length_seqZ. done.
  - rewrite length_take, length_drop. lia.
  - intros j a b Hj Ha Hb. rewrite lookup_take_lt, lookup_drop in Ha by lia.
    rewrite list_lookup_fmap, lookup_seqZ_lt in Hb by lia. injection Hb as <-. unfold dbyte.
    replace ((512 * k + (off + Z.of_nat j)) / 512) with k by zdiv.
    replace ((512 * k + (off + Z.of_nat j)) mod 512) with (off + Z.of_nat j) by zdiv.
    replace (Z.to_nat (off + Z.of_nat j)) with (Z.to_nat off + j)%nat by lia. by rewrite Ha.
Qed.

(** The bytes of a file inside one block. *)
Lemma contents_block (d : D) i pos n :
  0 <= pos -> 0 <= n -> pos mod 512 + n <= 512 ->
  contents d i pos n = (fun x => dbyte d (512 * file_block d i (pos / 512) + x)) <$> seqZ (pos mod 512) n.
Proof.
  intros Hp Hn Hl. unfold contents. apply list_eq. intros j. rewrite !list_lookup_fmap.
  destruct (decide (Z.of_nat j < n)) as [Hj|Hj].
  - rewrite !lookup_seqZ_lt by lia. simpl. unfold fbyte. do 2 f_equal.
    replace ((pos + Z.of_nat j) / 512) with (pos / 512) by zdiv. f_equal. zdiv.
  - rewrite !lookup_seqZ_ge by lia. done.
Qed.

Lemma contents_app (d : D) i a n m : 0 <= n -> 0 <= m -> contents d i a (n + m) = contents d i a n ++ contents d i (a + n) m.
Proof. intros Hn Hm. unfold contents. by rewrite seqZ_app, fmap_app by done. Qed.

Lemma file_block_ext (d d' : D) i j : (forall k, bd_sector d' k = bd_sector d k) -> file_block d' i j = file_block d i j.
Proof. intros Hs. unfold file_block. by rewrite Hs. Qed.

Lemma dbyte_ext (d d' : D) x : (forall k, bd_sector d' k = bd_sector d k) -> dbyte d' x = dbyte d x.
Proof. intros Hs. unfold dbyte. by rewrite Hs. Qed.

Lemma read_loop_ok (d0 d : D) i all io_buf pos size :
  bd_ok d -> (forall k, bd_sector d k = bd_sector d0 k) -> io_buf <> 0 -> 0 <= pos -> 0 <= size -> pos + size < 2 ^ 32 ->
  (forall j, pos / 512 <= j <= (pos + size) / 512 -> all !! Z.to_nat j = Some (file_block d0 i j)) ->
  (forall j, 0 <= j -> 512 * j < pos + size -> 0 <= file_block d0 i j <= max_lba) ->
  exists d', loop (Z.to_nat size + 1) (read_turn all io_buf size) (d, pos, 0, size, []) = Done (d', pos + size, contents d0 i pos size) /\
    bd_ok d' /\ forall k, bd_sector d' k = bd_sector d0 k.
Proof.
  intros Hd Hs Hio Hp Hsz Hov Hall Hblk.
  destruct (loop_total (read_turn all io_buf size)
    (fun st => let '(d1, q, n, lft, out) := st in bd_ok d1 /\ (forall k, bd_sector d1 k = bd_sector d0 k) /\
       0 <= n <= size /\ q = pos + n /\ lft = size - n /\ out = contents d0 i pos n)
    (fun r => let '(d1, q, out) := r in bd_ok d1 /\ (forall k, bd_sector d1 k = bd_sector d0 k) /\ q = pos + size /\ out = contents d0 i pos size)
    (fun st => let '(_, _, n, _, _) := st in size - n)) with (fuel := (Z.to_nat size + 1)%nat) (s := (d, pos, 0, size, @nil Z))
    as ([[d' q] out] & -> & Hd' & Hs' & -> & ->).
  - intros [[[[d1 q] n] lft] out] (Hd1 & Hs1 & Hn & -> & -> & ->). unfold read_turn.
    destruct (Z.ltb_spec n size) as [Hlt|Hge].
    + left. rewrite (aget_Some all _ (file_block d0 i ((pos + n) / 512))); [|unfold BLOCK_SIZE; zdiv|apply Hall; zdiv]. rewrite bind_done.
      destruct (Z.eqb_spec io_buf 0); [done|].
      set (c := if size - n <? BLOCK_SIZE - (pos + n) mod BLOCK_SIZE then size - n else BLOCK_SIZE - (pos + n) mod BLOCK_SIZE).
      assert (Hc : 0 < c /\ n + c <= size /\ (pos + n) mod 512 + c <= 512).
      { unfold c, BLOCK_SIZE. destruct (Z.ltb_spec (size - n) (512 - (pos + n) mod 512)); zdiv. }
      assert (Hb : 0 <= file_block d0 i ((pos + n) / 512) <= max_lba) by (apply Hblk; zdiv).
      destruct (bd_read_ok d1 (file_block d0 i ((pos + n) / 512)) 1) as (d2 & -> & Hd2 & Hs2); [done|lia|lia|lia|].
      rewrite bind_done, sector_one. cbn [fst snd]. unfold BLOCK_SIZE. rewrite memcpy_from_sector by (done || zdiv). rewrite bind_done.
      eexists. split; [reflexivity|]. rewrite !u32_small by lia. split; [|lia]. split_and!; try done; try lia.
      * intros k. by rewrite Hs2, Hs1.
      * rewrite contents_app by lia. f_equal. rewrite contents_block by zdiv. apply list_fmap_ext. intros j x _. by apply dbyte_ext.
    + right. eexists. split; [reflexivity|]. assert (n = size) as -> by lia. done.
  - split_and!; try done; lia.
  - lia.
  - by exists d'.
Qed.

(** A data block is on the disk. *)
Lemma data_block_lba s lba : fs_ok s -> data_block s lba -> 0 < lba <= max_lba.
Proof. intros Hs [Hl _]. destruct (fo_layout s Hs) as (L1 & L2 & L3 & L4 & L5 & L6 & L7 & L8 & L9 & L10). lia. Qed.

(** Two buffers that an operation works with and frees at its end. *)
Lemma buffers_ok m n1 n2 b1 m1 b2 m2 :
  al_ok m -> 0 < n1 <= max_request -> 0 < n2 <= max_request -> al_malloc m n1 = Done (b1, m1) -> b1 <> 0 -> al_malloc m1 n2 = Done (b2, m2) -> b2 <> 0 ->
  al_ok m2 /\ (forall q n, al_live m q n -> al_live m2 q n) /\
  exists m3 m4, al_free m2 b2 = Done m3 /\ al_free m3 b1 = Done m4 /\ al_ok m4 /\ forall q n, al_live m4 q n <-> al_live m q n.
Proof.
  intros Hm Hn1 Hn2 E1 H1 E2 H2. destruct (al_malloc_ok m n1 Hm Hn1) as (p & m' & E & Hm1 & _ & Hl). rewrite E1 in E. injection E as <- <-. specialize (Hm1 (or_introl H1)).
  destruct (Hl H1) as (n & _ & Hl1 & Hl2).
  destruct (buffer_ok m1 n2 b2 m2 Hm1 Hn2 E2 H2) as (Hm2 & Hl3 & m3 & F2 & Hm3 & Hl4).
  destruct (al_free_ok m3 b1 n Hm3) as (m4 & F1 & Hm4 & Hl5); [apply Hl4, Hl1; by right|].
  split_and!; [done|intros q k Hq; by apply Hl3, Hl1; left|].
  exists m3, m4. split_and!; try done. intros q k. rewrite Hl5, Hl4, Hl1. split; [tauto|]. intros Hq. split; [by left|by eapply Hl2].
Qed.

Lemma file_read_ok s fd f i count :
  fs_ok s -> 0 <= fd -> file_table s !! Z.to_nat fd = Some f -> inodes s !! fd_inode f = Some i -> file_ok s i ->
  0 <= fd_pos f <= i_size i -> 0 <= count -> fd_pos f + count < 2 ^ 32 -> can_alloc (mem s) [512; 560] ->
  let size := Z.min count (i_size i - fd_pos f) in
  if (0 <? count) && (fd_pos f =? i_size i) then file_read s fd count = Done (-1, [], s) else
  if (fd_pos f + size) / 512 <? 139 then
    exists s', file_read s fd count = Done (size, contents (dsk s) i (fd_pos f) size, s') /\ fs_ok s' /\
      file_table s' = <[Z.to_nat fd := mk_file (fd_pos f + size) (fd_flag f) (fd_inode f)]> (file_table s) /\
      inodes s' = inodes s /\ cur_part s' = cur_part s /\
      fd_table s' = fd_table s /\ (forall q n, al_live (mem s') q n <-> al_live (mem s) q n) /\ (forall k, bd_sector (dsk s') k = bd_sector (dsk s) k)
  else file_read s fd count = Panic.
Proof.
  intros Hs Hfd Hf Hi Hok Hpos Hc Hov (b1 & m1 & E1 & Hb1 & b2 & m2 & E2 & Hb2 & _) size. pose proof (fk_size s i Hok) as Hsz.
  pose proof (fk_wf s i Hok) as (_ & _ & _ & _ & Hlen & _).
  unfold file_read. rewrite (aget_Some _ _ _ Hfd Hf), bind_done. unfold inode_at. rewrite Hi, bind_done. rewrite (u32_small (fd_pos f + count)) by lia.
  assert (Esz : (if i_size i <? fd_pos f + count then u32 (i_size i - fd_pos f) else count) = size).
  { unfold size. destruct (Z.ltb_spec (i_size i) (fd_pos f + count)); [rewrite u32_small by lia|]; lia. }
  rewrite Esz. destruct ((0 <? count) && (fd_pos f =? i_size i)) eqn:Eeof.
  { apply andb_true_iff in Eeof as [E3%Z.ltb_lt E4%Z.eqb_eq]. destruct (Z.ltb_spec (i_size i) (fd_pos f + count)); [|lia].
    destruct (Z.eqb_spec size 0); [done|lia]. }
  assert (Hcont : (i_size i <? fd_pos f + count) && (size =? 0) = false).
  { apply andb_false_iff in Eeof. apply andb_false_iff. destruct Eeof as [E%Z.ltb_ge|E%Z.eqb_neq]; [left; apply Z.ltb_ge; lia|].
    destruct (Z.ltb_spec (i_size i) (fd_pos f + count)); [right; apply Z.eqb_neq; lia|by left]. }
  rewrite Hcont. change BLOCK_SIZE with 512. rewrite E1, bind_done. cbn [fst snd]. change (512 + 48) with 560. rewrite E2, bind_done. cbn [fst snd].
  destruct (Z.eqb_spec b2 0); [done|]. rewrite (u32_small (fd_pos f + size)) by lia.
  assert (Hle : fd_pos f / 512 <= (fd_pos f + size) / 512) by (apply Z.div_le_mono; lia).
  destruct (Z.ltb_spec ((fd_pos f + size) / 512) 139) as [Hlt|Hge].
  2: { unfold ASSERT. by rewrite andb_false_r. }
  assert_ok; [|rewrite andb_true_r; apply Z.ltb_lt; lia].
  assert (Hblk : forall j, 0 <= j -> 512 * j < fd_pos f + size -> 0 <= file_block (dsk s) i j <= max_lba).
  { intros j Hj0 Hj. assert (Hj' : 0 <= j < nblocks i).
    { split; [done|]. unfold nblocks. case_decide as E; [|zdiv]. pose proof (fk_empty s i Hok) as He. unfold nblocks in He. rewrite decide_True in He by done. lia. }
    destruct (bk_block _ _ _ (fk_blocks s i Hok) j Hj') as [Hd _]. pose proof (data_block_lba s _ Hs Hd). lia. }
  destruct (read_blocks_ok (dsk s) i (fd_pos f / 512) ((fd_pos f + size) / 512)) as (d1 & all & Hrb & Hd1 & Hs1 & Hall);
    [apply Hs|done|zdiv|lia| |].
  { intros H12. destruct (bk_table _ _ _ (fk_blocks s i Hok)) as [[Hd _] _]; [|by apply (data_block_lba s)].
    unfold nblocks. case_decide as E; [|zdiv]. pose proof (fk_empty s i Hok) as He. unfold nblocks in He. rewrite decide_True in He by done. zdiv. }
  cbn [dsk with_mem]. rewrite Hrb, bind_done. destruct (read_loop_ok (dsk s) d1 i all b1 (fd_pos f) size) as (d2 & -> & Hd2 & Hs2); try done; [lia|lia|lia|].
  rewrite bind_done. pose proof (lookup_lt_Some _ _ _ Hf) as Hltf. cbn [file_table with_mem]. rewrite aset_in by lia. rewrite bind_done. cbn [mem with_mem].
  destruct (buffers_ok (mem s) 512 560 b1 m1 b2 m2 (fo_mem s Hs) ltac:(lia) ltac:(lia) E1 Hb1 E2 Hb2) as (_ & _ & m3 & m4 & F2 & F1 & Hm4 & Hl4).
  rewrite F2, bind_done, F1, bind_done, i32_small by lia.
  eexists. split; [reflexivity|]. split_and!; try done.
  set (s2 := with_file_table _ _). assert (E : forall l, with_mem m4 (with_file_table l (with_dsk d2 (with_mem m2 s))) = with_mem m4 (with_file_table l (with_dsk d2 s))) by done.
  unfold s2. rewrite E. apply with_mem_ok; [apply with_file_table_ok; by apply with_dsk_ok|done|]. intros q k Hq. by apply Hl4.
Qed.

(** ** Properties *)

(** C20. [file_read]: at the end of the file (and asked for something) it returns -1 and
    changes nothing. Otherwise it stores the bytes of the file from its position on, as
    many as were asked for or are left, in the user's buffer, returns their number and
    advances the position by it; disk, inodes, descriptors and memory in use stay as they
    were. When the bytes reach into block 139 the assertion on the block indices stops the
    kernel (files may have 140 blocks). The heap can serve the two buffers. *)
Theorem file_read_exact s fd f i count :
  fs_ok s -> 0 <= fd -> file_table s !! Z.to_nat fd = Some f -> inodes s !! fd_inode f = Some i -> file_ok s i ->
  0 <= fd_pos f <= i_size i -> 0 <= count -> fd_pos f + count < 2 ^ 32 -> can_alloc (mem s) [512; 560] ->
  let size := Z.min count (i_size i - fd_pos f) in
  if (0 <? count) && (fd_pos f =? i_size i) then file_read s fd count = Done (-1, [], s) else
  if (fd_pos f + size) / 512 <? 139 then
    exists s', file_read s fd count = Done (size, contents (dsk s) i (fd_pos f) size, s') /\ fs_ok s' /\
      file_table s' = <[Z.to_nat fd := mk_file (fd_pos f + size) (fd_flag f) (fd_inode f)]> (file_table s) /\
      inodes s' = inodes s /\ cur_part s' = cur_part s /\
      fd_table s' = fd_table s /\ (forall q n, al_live (mem s') q n <-> al_live (mem s) q n) /\ (forall k, bd_sector (dsk s') k = bd_sector (dsk s) k)
  else file_read s fd count = Panic.
Proof. apply file_read_ok. Qed.
End FileProofs.

(** ** Witness: reading across the border of two blocks *)
Definition sample_file : inode := mk_inode 5 600 2 1 (i_sectors sample_inode).

Lemma two_cases j : 0 <= j < 2 -> j = 0 \/ j = 1.
Proof. lia. Qed.

Lemma sample_file_ok : file_ok sample_rw sample_file.
Proof.
  assert (En : nblocks sample_file = 2) by (vm_compute; reflexivity).
  constructor; [|vm_compute; reflexivity|rewrite En; discriminate|rewrite En; constructor].
  - unfold inode_wf, is_u32. simpl. split_and!; try done; lia || (repeat constructor; lia).
  - intros j Hj. assert (E : forallb (fun j => bool_decide (i_sectors sample_file !! Z.to_nat (j + 2) = Some 0)) (seqZ 0 10) = true) by (vm_compute; reflexivity).
    pose proof (forall_seqZ _ 10 E (j - 2) ltac:(lia)) as Hb. apply bool_decide_eq_true_1 in Hb. replace (j - 2 + 2) with j in Hb by lia. exact Hb.
  - reflexivity.
  - lia.
  - intros j [-> | ->]%two_cases; vm_compute; repeat split.
  - intros j k [-> | ->]%two_cases [-> | ->]%two_cases; vm_compute; congruence.
Qed.

Lemma file_read_exact_witness :
  exists s', file_read sample_rw 4 600 = Done (590, replicate 502 65 ++ replicate 88 66, s').
Proof.
  pose proof (file_read_exact sample_rw 4 (mk_file 10 O_RDONLY sample_p) sample_file 600) as Hr.
  destruct Hr as (s' & Hr & _).
  - exact sample_rw_ok.
  - lia.
  - reflexivity.
  - apply lookup_singleton_eq.
  - exact sample_file_ok.
  - cbn. lia.
  - lia.
  - cbn. lia.
  - apply can_allocb_sound. vm_compute. reflexivity.
  - exists s'. rewrite Hr. vm_compute. reflexivity.
Defined.
