(* ===== verification/FileWrite.v ===== *)
(** * Correctness of file_write (fs/file.c)

    The proof that writing appends: allocation of blocks, the indirect table, and the
    loop that writes the data. The definitions are in FileIo. *)
From stdpp Require Import base numbers list option tactics gmap fin_maps.
From Stdlib Require Import ZArith Lia.
From S2P Require Import Prelude Bitmap Paging PageAlloc Ide Iface Inode File FileIo.

Lemma un4_le4_mod x l : un4 (take 4 (le4 x ++ l)) = u32 x.
Proof. unfold le4, un4, u32. simpl. zdiv. Qed.

Lemma unwords_words_mod ws l : unwords (length ws) (words ws ++ l) = u32 <$> ws.
Proof.
  induction ws as [|w ws IH]; [done|]. unfold words. rewrite bind_cons. cbn [length unwords]. fold (words ws).
  rewrite <- app_assoc, un4_le4_mod, fmap_cons. f_equal. rewrite drop_app_length' by done. exact IH.
Qed.

Section FileWrite.
Context {D A : Type} `{BlockDev D} `{Alloc A}.
Implicit Types s : fs (D := D) (A := A).

Definition data_start s : Z := data_start_lba (sb (cur_part s)).
Definition bused s (lba : Z) : bool := bit (block_bitmap (cur_part s)) (lba - data_start s).

(** The block of the root directory is taken. *)
Definition root_used s : Prop := bit (block_bitmap (cur_part s)) 0 = true.
Definition full s : Prop := forall j, 0 <= j < nbits (block_bitmap (cur_part s)) -> bit (block_bitmap (cur_part s)) j = true.

(** How many blocks are free. *)
Definition spare s : nat := nfree (block_bitmap (cur_part s)).

Lemma full_spare s : full s -> spare s = 0%nat.
Proof.
  intros Hf. unfold spare, nfree. apply length_zero_iff_nil. apply elem_of_nil_inv. intros j [Hj Hr%elem_of_seqZ]%list_elem_of_filter. rewrite Hf in Hj by lia. done.
Qed.

(** ** Allocation of blocks *)
Lemma block_alloc_ok s :
  fs_ok s -> root_used s ->
  (exists lba b', block_bitmap_alloc s = Done (lba, with_bitmap BLOCK_BITMAP b' s) /\ data_block s lba /\ bused s lba = false /\
     bitmaps_ok (cur_part (with_bitmap BLOCK_BITMAP b' s)) /\ nbits b' = nbits (block_bitmap (cur_part s)) /\
     forall j, 0 <= j -> bit b' j = bit (block_bitmap (cur_part s)) j || bool_decide (data_start s + j = lba)) \/
  (block_bitmap_alloc s = Done (-1, s) /\ full s).
Proof.
  intros Hs Hr. pose proof (fo_layout s Hs) as (L1 & L2 & L3 & L4 & L5 & L6 & L7 & L8 & L9 & L10). change max_lba with 163839 in L10.
  pose proof (fo_bitmaps s Hs) as (B1 & B2 & B3 & B4 & B5). set (bm := block_bitmap (cur_part s)) in *.
  unfold block_bitmap_alloc. fold bm. destruct (take_spec bm B1) as [(i & b' & Ht & Hw & Hn & Hi & Hb & _ & Hbits)|[Ht Hfull]].
  - left. apply bind_done_inv in Ht as (i' & Hscan & Ht). destruct (Z.eqb_spec i' (-1)) as [->|Hne]; [done|].
    apply bind_done_inv in Ht as (b2 & Hset & [= -> ->]). rewrite Hscan, bind_done. destruct (Z.eqb_spec i (-1)); [lia|].
    rewrite Hset, bind_done. pose proof (B5 i Hi Hb). rewrite i32_small by lia.
    assert (Hi0 : i <> 0) by (intros ->; unfold root_used in Hr; fold bm in Hr; congruence).
    exists (data_start_lba (sb (cur_part s)) + i), b'. split_and!; try done.
    + split; [lia|fold bm; lia].
    + unfold bused, data_start. fold bm. by replace (data_start_lba (sb (cur_part s)) + i - data_start_lba (sb (cur_part s))) with i by lia.
    + apply (set_bitmaps_ok s BLOCK_BITMAP i 1); [exact (fo_bitmaps s Hs)|done|done|done|done| |by right].
      intros j Hj. rewrite Hbits by done. cbn [bitmap_of]. fold bm. destruct (decide (j = i)) as [->|Hji]; [by rewrite bool_decide_true|by rewrite bool_decide_false].
    + intros j Hj. rewrite Hbits by done. rewrite orb_comm. f_equal. apply bool_decide_ext. unfold data_start. lia.
  - right. apply bind_done_inv in Ht as (i' & Hscan & Ht). destruct (Z.eqb_spec i' (-1)) as [->|Hne].
    + by rewrite Hscan, bind_done.
    + by apply bind_done_inv in Ht as (b2 & Hset & [=]).
Qed.

(** [s'] is [s] with the blocks [L] taken, the inode at [p] replaced by [j], and the
    disk's copy of the block bitmap changed. *)
Definition grown s s' (p : Z) (j : inode) (L : list Z) : Prop := exists d' b',
  s' = with_dsk d' (with_bitmap BLOCK_BITMAP b' (set_inode p j s)) /\ bd_ok d' /\ bitmaps_ok (cur_part s') /\
  nbits b' = nbits (block_bitmap (cur_part s)) /\
  (forall k, 0 <= k -> bit b' k = bit (block_bitmap (cur_part s)) k || bool_decide (data_start s + k ∈ L)) /\
  (forall k, ~ (block_bitmap_lba (sb (cur_part s)) <= k < inode_bitmap_lba (sb (cur_part s))) -> bd_sector d' k = bd_sector (dsk s) k) /\
  NoDup L /\ (forall b, b ∈ L -> data_block s b /\ bused s b = false).

Lemma grown_refl s p i : fs_ok s -> inodes s !! p = Some i -> grown s s p i [].
Proof.
  intros Hs Hi. exists (dsk s), (block_bitmap (cur_part s)). split_and!; try done; try apply Hs.
  - unfold set_inode, with_inodes. rewrite insert_id by done. by destruct s as [? ? ? [] ? ?].
  - intros k Hk. rewrite bool_decide_false by apply not_elem_of_nil. by rewrite orb_false_r.
  - apply NoDup_nil_2.
  - intros b Hb. by apply elem_of_nil in Hb.
Qed.

Lemma grown_trans s s1 s2 p i1 i2 L1 L2 : grown s s1 p i1 L1 -> grown s1 s2 p i2 L2 -> grown s s2 p i2 (L1 ++ L2).
Proof.
  intros (d1 & b1 & -> & Hd1 & _ & Hn1 & Hb1 & Hk1 & Hnd1 & Hf1) (d2 & b2 & -> & Hd2 & HB2 & Hn2 & Hb2 & Hk2 & Hnd2 & Hf2).
  assert (Hbits2 : forall k, 0 <= k -> bit b2 k = bit (block_bitmap (cur_part s)) k || bool_decide (data_start s + k ∈ L1) || bool_decide (data_start s + k ∈ L2)).
  { intros k Hk. rewrite Hb2 by done. rewrite <- Hb1 by done. done. }
  exists d2, b2. split_and!; try done.
  - unfold with_dsk, with_bitmap, with_part, set_inode, with_inodes. cbn [dsk mem inodes cur_part file_table fd_table]. f_equal. apply insert_insert_eq.
  - by rewrite Hn2, <- Hn1.
  - intros k Hk. rewrite Hbits2, <- orb_assoc by done. f_equal. by rewrite (bool_decide_ext _ _ (elem_of_app L1 L2 _)), bool_decide_or.
  - intros k Hk. rewrite Hk2 by done. by apply Hk1.
  - apply NoDup_app. split_and!; try done. intros b Hb1' Hb2'. destruct (Hf1 b Hb1') as [[Hr1 _] _]. destruct (Hf2 b Hb2') as [_ Hu].
    unfold bused in Hu. change (block_bitmap _) with b1 in Hu. change (data_start (with_dsk _ _)) with (data_start s) in Hu.
    rewrite Hb1 in Hu by (unfold data_start; lia). apply orb_false_iff in Hu as [_ Hu%bool_decide_eq_false_1]. destruct Hu.
    by replace (data_start s + (b - data_start s)) with b by lia.
  - intros b [Hb|Hb]%elem_of_app; [by apply Hf1|]. destruct (Hf2 b Hb) as [[Hr1 Hr2] Hu]. cbn [cur_part with_dsk with_bitmap with_part block_bitmap sb set_inode with_inodes start_lba sec_cnt] in Hr1, Hr2.
    rewrite Hn1 in Hr2. split; [done|]. unfold bused in *. change (block_bitmap _) with b1 in Hu. change (data_start (with_dsk _ _)) with (data_start s) in Hu.
    rewrite Hb1 in Hu by (unfold data_start; lia). by apply orb_false_iff in Hu as [? _].
Qed.

Lemma grown_ok s s' p i j L :
  fs_ok s -> inodes s !! p = Some i -> inode_wf j -> i_no j = i_no i -> 0 < i_open_cnts j -> grown s s' p j L -> fs_ok s'.
Proof.
  intros Hs Hi Hj Hn Hc (d' & b' & -> & Hd & HB & _). pose proof (set_inode_ok s p i j Hs Hi Hj Hn Hc) as Hs'.
  constructor; [done|exact (fo_mem s Hs)|exact (fo_layout s Hs)|done|exact (fo_open _ Hs')].
Qed.

Lemma grown_root s s' p j L : root_used s -> grown s s' p j L -> root_used s'.
Proof. intros Hr (d' & b' & -> & _ & _ & _ & Hb & _). unfold root_used in *. change (bit b' 0 = true). rewrite Hb by lia. by rewrite Hr. Qed.

Lemma grown_inode s s' p j L : grown s s' p j L -> inodes s' !! p = Some j.
Proof. intros (d' & b' & -> & _). apply lookup_insert_eq. Qed.

Lemma grown_spare s s' p j L : grown s s' p j L -> spare s = (spare s' + length L)%nat.
Proof.
  intros (d' & b' & -> & _ & _ & Hn & Hb & _ & Hnd & Hf). unfold spare. change (block_bitmap (cur_part (with_dsk _ _))) with b'.
  set (l := (fun b => b - data_start s) <$> L). assert (Hl : length l = length L) by apply length_fmap.
  assert (Hin : forall k, k ∈ l <-> data_start s + k ∈ L).
  { intros k. unfold l. rewrite list_elem_of_fmap. split; [intros (b & -> & Hb'); by replace (data_start s + (b - data_start s)) with b by lia|intros Hk; exists (data_start s + k); split; [lia|done]]. }
  pose proof (nfree_less (block_bitmap (cur_part s)) b' l Hn) as H1. pose proof (nfree_more b' (block_bitmap (cur_part s)) l (eq_sym Hn)) as H2.
  rewrite Hl in *. apply Nat.le_antisymm; [rewrite Nat.add_comm; apply H1|apply H2].
  - intros k Hk Hf0 Hf1. rewrite Hb, Hf0 in Hf1 by lia. cbn [orb] in Hf1. apply Hin. by apply bool_decide_eq_true_1 in Hf1.
  - unfold l. apply NoDup_fmap_2_strong; [intros; lia|done].
  - intros k Hk%Hin. destruct (Hf _ Hk) as [[Hr1 Hr2] Hu]. unfold bused, data_start in *. replace (data_start_lba (sb (cur_part s)) + k - data_start_lba (sb (cur_part s))) with k in Hu by lia.
    rewrite Hn, Hb by lia. rewrite bool_decide_true, orb_true_r by done. split_and!; try done; lia.
  - intros k Hk Hf0. rewrite Hb in Hf0 by lia. by apply orb_false_iff in Hf0 as [? _].
Qed.

(** ** Steps of the allocation *)
Lemma alloc_step s p i lba b' :
  fs_ok s -> inodes s !! p = Some i -> data_block s lba -> bused s lba = false ->
  bitmaps_ok (cur_part (with_bitmap BLOCK_BITMAP b' s)) -> nbits b' = nbits (block_bitmap (cur_part s)) ->
  (forall j, 0 <= j -> bit b' j = bit (block_bitmap (cur_part s)) j || bool_decide (data_start s + j = lba)) ->
  grown s (with_bitmap BLOCK_BITMAP b' s) p i [lba].
Proof.
  intros Hs Hi Hd Hu HB Hn Hb. exists (dsk s), b'. split_and!; try done; try apply Hs.
  - unfold set_inode, with_inodes. rewrite insert_id by done. by destruct s as [? ? ? [] ? ?].
  - intros k Hk. rewrite Hb by done. f_equal. apply bool_decide_ext. by rewrite list_elem_of_singleton.
  - apply NoDup_singleton.
  - intros b ->%list_elem_of_singleton. done.
Qed.

Lemma inode_step s p j : fs_ok s -> grown s (set_inode p j s) p j [].
Proof.
  intros Hs. exists (dsk s), (block_bitmap (cur_part s)). split_and!; try done; try apply Hs.
  - by destruct s as [? ? ? [] ? ?].
  - intros k Hk. rewrite bool_decide_false by apply not_elem_of_nil. by rewrite orb_false_r.
  - apply NoDup_nil_2.
  - intros b Hb. by apply elem_of_nil in Hb.
Qed.

Lemma sync_step s p i idx :
  fs_ok s -> inodes s !! p = Some i -> 0 <= idx < nbits (block_bitmap (cur_part s)) ->
  exists s', bitmap_sync s idx BLOCK_BITMAP = Done s' /\ grown s s' p i [].
Proof.
  intros Hs Hi Hx. destruct (bitmap_sync_ok s idx BLOCK_BITMAP) as (d' & -> & Hd' & Hk); [apply Hs|apply Hs|apply Hs|done|].
  eexists. split; [reflexivity|]. exists d', (block_bitmap (cur_part s)). split_and!; try done; try apply Hs.
  - unfold set_inode, with_inodes. rewrite insert_id by done. by destruct s as [? ? ? [] ? ?].
  - intros k Hk0. rewrite bool_decide_false by apply not_elem_of_nil. by rewrite orb_false_r.
  - intros k Hout. rewrite Hk, decide_False; [done|]. cbn [bitmap_lba].
    destruct (bitmap_lba_range s BLOCK_BITMAP (fo_layout s Hs) (fo_bitmaps s Hs)) as (_ & _ & R3 & _ & _ & R6 & _).
    cbn [bitmap_of bitmap_lba] in *. unfold nbits in Hx. zdiv.
  - apply NoDup_nil_2.
  - intros b Hb. by apply elem_of_nil in Hb.
Qed.

(** The properties of the inode at [p] that the steps keep. *)
Definition inode_live (i : inode) : Prop := inode_wf i /\ 0 < i_open_cnts i.

Lemma set_sectors_live i l : inode_live i -> length l = 13%nat -> Forall is_u32 l -> inode_live (set_sectors l i).
Proof. intros [(? & ? & ? & ? & ? & ?) Hc] Hl Hf. split; [|done]. by unfold inode_wf. Qed.

Lemma data_block_u32 s lba : fs_ok s -> data_block s lba -> u32 lba = lba /\ is_u32 lba /\ lba <> -1 /\ lba <> 0 /\
  u32 (lba - data_start s) = lba - data_start s /\ 0 < lba - data_start s < nbits (block_bitmap (cur_part s)).
Proof.
  intros Hs Hd. pose proof (data_block_lba s lba Hs Hd) as Hr. change max_lba with 163839 in Hr. destruct Hd as [Hd1 Hd2].
  destruct (fo_layout s Hs) as (L1 & L2 & L3 & L4 & L5 & L6 & L7 & L8 & L9 & L10). unfold data_start, is_u32.
  rewrite !u32_small by lia. split_and!; try done; lia.
Qed.

Lemma grown_data s s' p j L : grown s s' p j L -> data_start s' = data_start s /\
  nbits (block_bitmap (cur_part s')) = nbits (block_bitmap (cur_part s)) /\ (forall b, data_block s b <-> data_block s' b).
Proof.
  intros (d' & b' & -> & _ & _ & Hn & _). split_and!; [done|exact Hn|]. intros b. unfold data_block.
  cbn [cur_part with_dsk with_bitmap with_part block_bitmap sb start_lba sec_cnt set_inode with_inodes]. by rewrite Hn.
Qed.

(** One allocated block, written into the inode as entry [k] if it is a direct one, and
    the bitmap synchronised. *)
Lemma grow_one s p i lba b' k :
  fs_ok s -> inodes s !! p = Some i -> inode_live i -> data_block s lba -> grown s (with_bitmap BLOCK_BITMAP b' s) p i [lba] ->
  0 <= k -> (k < 13 -> i_sectors i !! Z.to_nat k = Some 0) ->
  let j := if decide (k < 13) then set_sectors (<[Z.to_nat k := lba]> (i_sectors i)) i else i in
  inode_live j /\ fs_ok (set_inode p j (with_bitmap BLOCK_BITMAP b' s)) /\
  exists s', bitmap_sync (set_inode p j (with_bitmap BLOCK_BITMAP b' s)) (lba - data_start s) BLOCK_BITMAP = Done s' /\ grown s s' p j [lba] /\ fs_ok s'.
Proof.
  intros Hs Hi [Hw Hc] Hd Hg Hk Hz j. destruct (data_block_u32 s lba Hs Hd) as (_ & H32 & _ & _ & _ & Hr).
  assert (Hj : inode_live j).
  { unfold j. case_decide; [|done]. apply set_sectors_live; [done| |]; pose proof Hw as (_ & _ & _ & _ & Hl & Hf).
    - by rewrite length_insert.
    - by apply Forall_insert. }
  assert (Hno : i_no j = i_no i) by (unfold j; by case_decide).
  assert (Hs1 : fs_ok (with_bitmap BLOCK_BITMAP b' s)) by (eapply grown_ok; eauto).
  set (s1 := with_bitmap BLOCK_BITMAP b' s) in *.
  assert (Hi1 : inodes s1 !! p = Some i) by exact Hi.
  assert (Hs2 : fs_ok (set_inode p j s1)) by (destruct Hj; eapply set_inode_ok; eauto).
  split; [done|]. split; [done|].
  destruct (sync_step (set_inode p j s1) p j (lba - data_start s)) as (s3 & Hsy & Hg3); [done|apply lookup_insert_eq| |].
  { destruct (grown_data _ _ _ _ _ Hg) as (_ & Hn & _). change (cur_part (set_inode p j s1)) with (cur_part s1). rewrite Hn. lia. }
  exists s3. split; [done|]. pose proof (inode_step s1 p j Hs1) as Hg2.
  assert (Hg' : grown s s3 p j [lba]).
  { pose proof (grown_trans _ _ _ _ _ _ _ _ (grown_trans _ _ _ _ _ _ _ _ Hg Hg2) Hg3) as Hgg. by rewrite !app_nil_r in Hgg. }
  split; [done|]. destruct Hj as [Hj1 Hj2]. exact (grown_ok s s3 p i j [lba] Hs Hi Hj1 Hno Hj2 Hg').
Qed.

Definition in_range (a n k : Z) : Prop := a <= k < a + n.
#[local] Instance in_range_dec a n k : Decision (in_range a n k).
Proof. unfold in_range. apply _. Defined.

(** The loop that allocates [n] blocks from block [idx] on. *)
Lemma grow_ok n s p i all idx :
  fs_ok s -> root_used s -> inodes s !! p = Some i -> inode_live i -> 0 <= idx -> idx + Z.of_nat n <= 140 -> length all = 140%nat ->
  (forall k, in_range idx (Z.of_nat n) k -> k < 12 -> i_sectors i !! Z.to_nat k = Some 0) ->
  (exists L all' secs s', grow s p all idx n = Done (Some all', s') /\ grown s s' p (set_sectors secs i) L /\ inode_live (set_sectors secs i) /\
     fs_ok s' /\ length L = n /\ length all' = 140%nat /\
     (forall k, 0 <= k -> all' !! Z.to_nat k = if decide (in_range idx (Z.of_nat n) k) then L !! Z.to_nat (k - idx) else all !! Z.to_nat k) /\
     (forall k, 0 <= k -> secs !! Z.to_nat k = if decide (in_range idx (Z.of_nat n) k /\ k < 12) then L !! Z.to_nat (k - idx) else i_sectors i !! Z.to_nat k)) \/
  (exists s' j L, grow s p all idx n = Done (None, s') /\ full s' /\ grown s s' p j L /\ fs_ok s' /\ (length L < n)%nat).
Proof.
  revert s i all idx. induction n as [|n IH]; intros s i all idx Hs Hr Hi Hlv Hidx Hend Hall Hz; cbn [grow].
  - left. exists [], all, (i_sectors i), s. split; [done|]. assert (E : set_sectors (i_sectors i) i = i) by (by destruct i). rewrite E.
    split_and!; try done; [by apply grown_refl| |]; intros k Hk; (rewrite decide_False; [done|]); unfold in_range; lia.
  - destruct (block_alloc_ok s Hs Hr) as [(lba & b' & Ha & Hd & Hu & HB & Hn & Hb)|[Ha Hf]].
    2: { right. rewrite Ha, bind_done. exists s, i, []. split_and!; try done; [by apply grown_refl|cbn; lia]. }
    rewrite Ha, bind_done. destruct (data_block_u32 s lba Hs Hd) as (E32 & H32 & Hne & Hn0 & Eidx & Hrg).
    destruct (Z.eqb_spec lba (-1)); [done|]. rewrite E32.
    pose proof (alloc_step s p i lba b' Hs Hi Hd Hu HB Hn Hb) as Hg. pose proof Hlv as [(_ & _ & _ & _ & Hlen & _) _].
    set (j := if decide (idx < 12) then set_sectors (<[Z.to_nat idx := lba]> (i_sectors i)) i else i).
    assert (Hone : inode_live j /\ exists s', bitmap_sync (set_inode p j (with_bitmap BLOCK_BITMAP b' s)) (lba - data_start s) BLOCK_BITMAP = Done s' /\ grown s s' p j [lba] /\ fs_ok s').
    { destruct (decide (idx < 12)) as [H12|H12].
      - destruct (grow_one s p i lba b' idx Hs Hi Hlv Hd Hg Hidx) as (H1 & _ & H2); [intros _; apply Hz; [unfold in_range|]; lia|].
        rewrite decide_True in H1, H2 by lia. done.
      - destruct (grow_one s p i lba b' 13 Hs Hi Hlv Hd Hg) as (H1 & _ & H2); [lia|lia|]. rewrite decide_False in H1, H2 by lia. done. }
    destruct Hone as (Hj & s2 & Hsy & Hg2 & Hs2).
    assert (Hset : (if idx <? 12 then
        i0 ← inode_at (with_bitmap BLOCK_BITMAP b' s) p; old ← aget (i_sectors i0) idx; ASSERT (old =? 0);;
        l ← aset (i_sectors i0) idx lba; Done (set_inode p (set_sectors l i0) (with_bitmap BLOCK_BITMAP b' s))
      else Done (with_bitmap BLOCK_BITMAP b' s)) = Done (set_inode p j (with_bitmap BLOCK_BITMAP b' s))).
    { unfold inode_at. change (inodes (with_bitmap BLOCK_BITMAP b' s)) with (inodes s). rewrite Hi. unfold j. destruct (Z.ltb_spec idx 12).
      - rewrite bind_done, (aget_Some _ _ 0 Hidx) by (apply Hz; [unfold in_range|]; lia). rewrite bind_done, aset_in by lia. rewrite decide_True by done. done.
      - rewrite decide_False by lia. f_equal. unfold set_inode, with_inodes, with_bitmap, with_part. cbn. rewrite insert_id by done. done. }
    rewrite Hset, bind_done, aset_in by lia. rewrite bind_done.
    change (data_start_lba (sb (cur_part (set_inode p j (with_bitmap BLOCK_BITMAP b' s))))) with (data_start s). rewrite Eidx, Hsy, bind_done.
    assert (Hsec : forall k, 0 <= k -> i_sectors j !! Z.to_nat k = if decide (k = idx /\ k < 12) then Some lba else i_sectors i !! Z.to_nat k).
    { intros k Hk. unfold j. destruct (decide (idx < 12)).
      - cbn [i_sectors set_sectors]. destruct (decide (k = idx /\ k < 12)) as [[-> _]|Hn']; [apply list_lookup_insert_eq; lia|apply list_lookup_insert_ne; lia].
      - by rewrite decide_False by lia. }
    destruct (IH s2 j (<[Z.to_nat idx := lba]> all) (idx + 1)) as [(L & all' & secs & s' & -> & Hg3 & Hlv3 & Hs3 & HL & Hal & Hall' & Hsecs)|(s' & j' & L & -> & Hf & Hg3 & Hs3 & HL)];
      [done|by eapply grown_root|by eapply grown_inode|done|lia|lia|by rewrite length_insert| | |].
    + intros k Hk H12. rewrite Hsec by (unfold in_range in Hk; lia). unfold in_range in Hk. rewrite decide_False by lia. apply Hz; [unfold in_range; lia|done].
    + left. assert (Esec : set_sectors secs j = set_sectors secs i) by (unfold j; by case_decide). rewrite Esec in *.
      exists (lba :: L), all', secs, s'. split_and!; try done.
      * exact (grown_trans _ _ _ _ _ _ _ _ Hg2 Hg3).
      * simpl. by rewrite HL.
      * intros k Hk. rewrite Hall' by done. unfold in_range. destruct (decide (idx + 1 <= k < idx + 1 + Z.of_nat n)), (decide (idx <= k < idx + Z.of_nat (S n))); try lia.
        -- replace (Z.to_nat (k - idx)) with (S (Z.to_nat (k - (idx + 1)))) by lia. done.
        -- assert (k = idx) as -> by lia. rewrite list_lookup_insert_eq, Z.sub_diag by lia. done.
        -- apply list_lookup_insert_ne. lia.
      * intros k Hk. rewrite Hsecs, Hsec by done. unfold in_range.
        destruct (decide (idx + 1 <= k < idx + 1 + Z.of_nat n /\ k < 12)), (decide (idx <= k < idx + Z.of_nat (S n) /\ k < 12)), (decide (k = idx /\ k < 12)); try lia; try done.
        -- replace (Z.to_nat (k - idx)) with (S (Z.to_nat (k - (idx + 1)))) by lia. done.
        -- destruct a0 as [-> _]. by rewrite Z.sub_diag.
    + right. exists s', j', (lba :: L). split_and!; try done; [exact (grown_trans _ _ _ _ _ _ _ _ Hg2 Hg3)|cbn; lia].
Qed.

(** ** The indirect table *)
Lemma store_table_ok s t all :
  fs_ok s -> data_block s t -> length all = 140%nat ->
  exists d', store_table s t all = Done (with_dsk d' s) /\ bd_ok d' /\ (forall k, k <> t -> bd_sector d' k = bd_sector (dsk s) k) /\
    forall j m, indirect j = t -> 12 <= m < 140 -> file_block d' j m = u32 (default 0 (all !! Z.to_nat m)).
Proof.
  intros Hs Hd Hl. pose proof (data_block_lba s t Hs Hd) as Hr.
  assert (Hw : length (words (drop 12 all)) = 512%nat) by (rewrite words_length, length_drop, Hl; done).
  unfold store_table. destruct (bd_write_ok (dsk s) t (words (drop 12 all)) 1) as (d' & -> & Hd' & Hk); [apply Hs|lia|lia|lia|rewrite Hw; lia|].
  rewrite bind_done. exists d'. split; [done|]. split; [done|]. split; [intros k Hne; rewrite Hk; by rewrite decide_False by lia|].
  intros j m Hj Hm. unfold file_block. rewrite decide_False by lia. rewrite Hj, Hk, decide_True by lia.
  unfold chunk. replace (Z.to_nat (512 * (t - t))) with 0%nat by lia. rewrite drop_0, take_ge by lia.
  pose proof (unwords_words_mod (drop 12 all) []) as Hu. rewrite app_nil_r, length_drop, Hl in Hu. change (140 - 12)%nat with 128%nat in Hu. rewrite Hu.
  rewrite list_lookup_fmap, lookup_drop. replace (12 + Z.to_nat (m - 12))%nat with (Z.to_nat m) by lia.
  destruct (lookup_lt_is_Some_2 all (Z.to_nat m)) as [x ->]; [lia|done].
Qed.

Lemma grown_used s s' p j L b : fs_ok s -> grown s s' p j L -> used_block s b \/ b ∈ L -> used_block s' b.
Proof.
  intros Hs Hg Hb. destruct (grown_data _ _ _ _ _ Hg) as (E & _ & Hdb). pose proof Hg as (d' & b' & -> & _ & _ & _ & Hbits & _ & _ & HL).
  assert (Hd : data_block s b) by (destruct Hb as [[Hd _]|Hb]; [done|by apply HL]). split; [by apply Hdb|].
  change (bit b' (b - data_start s) = true). rewrite Hbits by (destruct Hd; unfold data_start; lia).
  destruct Hb as [[_ Hu]|Hb]; [unfold data_start; by rewrite Hu|]. replace (data_start s + (b - data_start s)) with b by lia.
  rewrite bool_decide_true by done. apply orb_true_r.
Qed.

Lemma fresh_not_used s s' p j L a b : grown s s' p j L -> used_block s a -> b ∈ L -> a <> b.
Proof. intros (d' & b' & -> & _ & _ & _ & _ & _ & _ & HL) [_ Hu] Hb ->. destruct (HL b Hb) as [_ Hf]. unfold bused, data_start in Hf. congruence. Qed.

Lemma lookup_fresh (L : list Z) m x : L !! m = Some x -> x ∈ L.
Proof. apply list_elem_of_lookup_2. Qed.

Lemma data_not_bitmap s b : fs_ok s -> data_block s b -> ~ (block_bitmap_lba (sb (cur_part s)) <= b < inode_bitmap_lba (sb (cur_part s))).
Proof. intros Hs [Hd _]. destruct (fo_layout s Hs) as (L1 & L2 & L3 & L4 & L5 & L6 & L7 & L8 & L9 & L10). lia. Qed.

(** [s'] is [s] after [write_blocks]: as [grown], and the indirect table of the inode may
    have been written. *)
Definition wrote s s' (p : Z) (j : inode) (L : list Z) : Prop := exists d' s1,
  grown s s1 p j L /\ s' = with_dsk d' s1 /\ bd_ok d' /\ (forall k, k <> indirect j -> bd_sector d' k = bd_sector (dsk s1) k).

Lemma grown_wrote s s' p j L : grown s s' p j L -> wrote s s' p j L.
Proof. intros Hg. exists (dsk s'), s'. split_and!; try done; [by destruct s'|]. destruct Hg as (d' & b' & -> & Hd & _). done. Qed.

Lemma wrote_used s s' p j L b : fs_ok s -> wrote s s' p j L -> used_block s b \/ b ∈ L -> used_block s' b.
Proof. intros Hs (d' & s1 & Hg & -> & _) Hb. exact (grown_used s s1 p j L b Hs Hg Hb). Qed.

(** What [write_blocks] establishes: [all] names the blocks from the last old one on, the
    old blocks are where they were, the new ones were free. *)
Definition collected s s' (p : Z) (i j : inode) (L all : list Z) (has will : Z) : Prop :=
  wrote s s' p j L /\ inode_live j /\ j = set_sectors (i_sectors j) i /\ fs_ok s' /\ blocks_ok s' j will /\
  (forall m, has - 1 <= m < will -> all !! Z.to_nat m = Some (file_block (dsk s') j m)) /\
  (forall m, 0 <= m < has -> file_block (dsk s') j m = file_block (dsk s) i m) /\
  (forall m, has <= m < will -> file_block (dsk s') j m ∈ L) /\ (indirect j = indirect i \/ indirect j ∈ L).

(** The blocks of the grown file are in order. *)
Lemma blocks_ok_grown s s' p i j L has will (B : Z -> Z) :
  fs_ok s -> wrote s s' p j L -> blocks_ok s i has -> 1 <= has <= will -> NoDup L ->
  (forall a b, used_block s a -> b ∈ L -> a <> b) ->
  (forall m, 0 <= m < has -> file_block (dsk s') j m = file_block (dsk s) i m) ->
  (forall m, has <= m < will -> exists n, L !! n = Some (file_block (dsk s') j m) /\ Z.of_nat n = B m) ->
  (forall m m', B m = B m' -> m = m') ->
  (forall m, will <= m < 12 -> i_sectors j !! Z.to_nat m = Some 0) ->
  (will <= 12 -> indirect j = 0) ->
  (12 < will -> (12 < has /\ indirect j = indirect i) \/ (exists n, L !! n = Some (indirect j) /\ forall m, has <= m -> Z.of_nat n <> B m) /\ has <= 12) ->
  blocks_ok s' j will.
Proof.
  intros Hs Hw Hb Hle Hnd Hfr Hold Hnew HB Hrest Hnot Htab.
  assert (Hin : forall m, has <= m < will -> file_block (dsk s') j m ∈ L) by (intros m Hm; destruct (Hnew m Hm) as (n & Hn & _); by eapply lookup_fresh).
  constructor; try done.
  - intros H12. destruct (Htab H12) as [[Hh Ei]|[(n & Hn & HnB) Hh]].
    + destruct (bk_table _ _ _ Hb Hh) as [Hu Hne]. rewrite Ei. split; [eapply wrote_used; eauto|].
      intros m Hm. destruct (decide (m < has)); [rewrite Hold by lia; apply Hne; lia|]. intros E. destruct (Hfr (indirect i) (file_block (dsk s') j m) Hu); [apply Hin; lia|done].
    + pose proof (lookup_fresh _ _ _ Hn) as HtL. split; [eapply wrote_used; eauto|]. intros m Hm. destruct (decide (m < has)).
      * rewrite Hold by lia. apply Hfr; [|done]. apply (bk_block _ _ _ Hb). lia.
      * intros E. destruct (Hnew m ltac:(lia)) as (n' & Hn' & EB). rewrite E in Hn'. pose proof (NoDup_lookup _ _ _ _ Hnd Hn Hn') as ->. by apply (HnB m ltac:(lia)).
  - intros m Hm. eapply wrote_used; eauto. destruct (decide (m < has)); [left; rewrite Hold by lia; apply (bk_block _ _ _ Hb); lia|right; apply Hin; lia].
  - intros m m' Hm Hm' E. destruct (decide (m < has)), (decide (m' < has)).
    + rewrite !Hold in E by lia. apply (bk_inj _ _ _ Hb); [lia|lia|done].
    + rewrite Hold in E by lia. destruct (Hfr (file_block (dsk s) i m) (file_block (dsk s') j m')); [apply (bk_block _ _ _ Hb); lia|apply Hin; lia|done].
    + rewrite (Hold m') in E by lia. destruct (Hfr (file_block (dsk s) i m') (file_block (dsk s') j m)); [apply (bk_block _ _ _ Hb); lia|apply Hin; lia|done].
    + destruct (Hnew m ltac:(lia)) as (n1 & H1 & E1), (Hnew m' ltac:(lia)) as (n2 & H2 & E2). rewrite E in H1.
      pose proof (NoDup_lookup _ _ _ _ Hnd H1 H2) as ->. apply HB. lia.
Qed.

(** *** Collecting and allocating the blocks, case by case *)
Lemma grown_nodup s s' p j L : grown s s' p j L -> NoDup L.
Proof. by intros (d' & b' & _ & _ & _ & _ & _ & _ & ? & _). Qed.

Lemma grown_sector s s' p j L b : fs_ok s -> grown s s' p j L -> data_block s b -> bd_sector (dsk s') b = bd_sector (dsk s) b.
Proof. intros Hs (d' & b' & -> & _ & _ & _ & _ & Hk & _) Hd. apply Hk. by apply data_not_bitmap. Qed.

Section Collect.
Variables (s : fs (D := D) (A := A)) (p : Z) (i : inode) (has will : Z).
Hypotheses (Hs : fs_ok s) (Hr : root_used s) (Hi : inodes s !! p = Some i) (Hlv : inode_live i)
  (Hb : blocks_ok s i has) (Hhas : 1 <= has) (Hle : has <= will) (Hmax : will <= 140).

(** How many blocks are allocated: those missing and, with the first of them behind the
    direct ones, the table. *)
Definition extra : nat := (Z.to_nat (will - has) + (if decide (has <= 12 < will)%Z then 1 else 0))%nat.

Definition collect_result (r : outcome (option (list Z) * fs (D := D) (A := A))) : Prop :=
  (exists all j L s', r = Done (Some all, s') /\ collected s s' p i j L all has will /\ length L = extra) \/
  (exists s' j L, r = Done (None, s') /\ full s' /\ grown s s' p j L /\ (length L < extra)%nat).

Lemma sectors_len : length (i_sectors i) = 13%nat.
Proof. by destruct Hlv as [(_ & _ & _ & _ & ? & _) _]. Qed.

Lemma set_sectors_id (k : inode) : set_sectors (i_sectors k) k = k.
Proof. by destruct k. Qed.

(** Nothing to allocate. *)
Lemma collect_same : will = has -> collect_result (write_blocks s p has will).
Proof.
  intros E. assert (Hex : extra = 0%nat) by (unfold extra; case_decide; lia). unfold collect_result. rewrite Hex, E. pose proof sectors_len as Hlen. pose proof zeros_length as Hz. left. unfold write_blocks, inode_at. rewrite Hi, bind_done.
  replace (u32 (has - has)) with 0 by (rewrite Z.sub_diag; done). cbn [Z.eqb].
  destruct (Z.leb_spec has 12) as [H12|H12].
  - destruct (copy_direct_ok i (replicate 140 0) (has - 1) 1) as (all & -> & _ & Hall); [lia|lia|lia|]. rewrite bind_done.
    exists all, i, [], s. split; [done|]. split; [|done]. unfold collected. split_and!; try done; try (by left).
    + apply grown_wrote. by apply grown_refl.
    + by rewrite set_sectors_id.
    + intros m Hm. rewrite Hall, decide_True by lia. apply direct_block; lia.
    + lia.
  - destruct (bk_table _ _ _ Hb H12) as [[Hd _] _]. pose proof (data_block_lba s _ Hs Hd) as Hlba.
    destruct (aget_in (i_sectors i) 12) as (t & Ht & ->); [lia|]. rewrite bind_done.
    assert (Et : indirect i = t) by (unfold indirect; change 12%nat with (Z.to_nat 12); by rewrite Ht).
    assert_ok; [|apply negb_true_iff, Z.eqb_neq; lia].
    destruct (load_table_ok (dsk s) i (replicate 140 0)) as (d' & all & -> & Hd' & Hsec & _ & Hall); [apply Hs|done|done|lia|].
    rewrite bind_done. exists all, i, [], (with_dsk d' s). split; [done|]. split; [|done]. unfold collected.
    assert (Hw : wrote s (with_dsk d' s) p i []) by (exists d', s; split_and!; try done; by apply grown_refl).
    split_and!; try assumption; try (by left).
    + by rewrite set_sectors_id.
    + by apply with_dsk_ok.
    + assert (Hfb : forall m, file_block (dsk (with_dsk d' s)) i m = file_block (dsk s) i m) by (intros; by apply file_block_ext).
      destruct Hb as [B1 B2 B3 B4 B5]. constructor; [exact B1|exact B2| | |].
      * intros Hn. destruct (B3 Hn) as [U1 U2]. split; [exact U1|]. intros j Hj. rewrite Hfb. by apply U2.
      * intros j Hj. rewrite Hfb. exact (B4 j Hj).
      * intros j k. rewrite !Hfb. apply B5.
    + intros m Hm. rewrite Hall, decide_False by lia. by rewrite (file_block_ext (dsk s) d').
    + intros m Hm. by apply file_block_ext.
    + lia.
Qed.

(** The direct blocks suffice. *)
Lemma collect_direct : has < will -> will <= 12 -> collect_result (write_blocks s p has will).
Proof.
  intros Hlt H12. pose proof sectors_len as Hlen. pose proof zeros_length as Hz. unfold write_blocks, inode_at. rewrite Hi, bind_done.
  rewrite u32_small by lia. destruct (Z.eqb_spec (will - has) 0); [lia|]. destruct (Z.leb_spec will 12); [|lia].
  pose proof (direct_block (dsk s) i (has - 1) ltac:(lia) Hlen) as Hlast. rewrite (aget_Some (i_sectors i) (has - 1) _ ltac:(lia) Hlast), bind_done.
  destruct (bk_block _ _ _ Hb (has - 1) ltac:(lia)) as [Hd _]. destruct (data_block_u32 s _ Hs Hd) as (_ & _ & _ & Hn0 & _).
  assert_ok; [|by apply negb_true_iff, Z.eqb_neq].
  destruct (copy_direct_ok i (replicate 140 0) (has - 1) 1) as (all0 & -> & Hal0 & Hall0); [lia|lia|lia|]. rewrite bind_done.
  destruct (grow_ok (Z.to_nat (will - has)) s p i all0 has) as [(L & all & secs & s' & -> & Hg & Hlv' & Hs' & HL & Hal & Hall & Hsecs)|(s' & j & L & -> & Hf & Hg & Hs' & HL)];
    [done|done|done|done|lia|lia|congruence|intros k Hk Hk12; apply (bk_rest _ _ _ Hb); unfold in_range in Hk; lia| |right; exists s', j, L; split_and!; try done; unfold extra; lia].
  rewrite Z2Nat.id in Hall, Hsecs by lia. left. exists all, (set_sectors secs i), L, s'. split; [done|]. split; [|unfold extra; rewrite decide_False by lia; lia].
  assert (Hold : forall m, 0 <= m < has -> file_block (dsk s') (set_sectors secs i) m = file_block (dsk s) i m).
  { intros m Hm. unfold file_block. rewrite !decide_True by lia. cbn [i_sectors set_sectors]. rewrite Hsecs, decide_False by (unfold in_range; lia). done. }
  assert (Hnew : forall m, has <= m < will -> L !! Z.to_nat (m - has) = Some (file_block (dsk s') (set_sectors secs i) m)).
  { intros m Hm. unfold file_block. rewrite decide_True by lia. cbn [i_sectors set_sectors]. rewrite Hsecs, decide_True by (unfold in_range; lia).
    destruct (lookup_lt_is_Some_2 L (Z.to_nat (m - has))) as [x ->]; [lia|done]. }
  assert (Hind : indirect (set_sectors secs i) = indirect i).
  { unfold indirect. cbn [i_sectors set_sectors]. change 12%nat with (Z.to_nat 12). rewrite Hsecs, decide_False by lia. done. }
  unfold collected. split_and!; try done; try (by left).
  - by apply grown_wrote.
  - apply (blocks_ok_grown s s' p i _ L has will (fun m => m - has)); try done; [by apply grown_wrote|by eapply grown_nodup| | | | | |].
    + intros a b. by eapply fresh_not_used.
    + intros m Hm. exists (Z.to_nat (m - has)). split; [by apply Hnew|lia].
    + lia.
    + intros m Hm. cbn [i_sectors set_sectors]. rewrite Hsecs, decide_False by (unfold in_range; lia). apply (bk_rest _ _ _ Hb). lia.
    + intros _. rewrite Hind. apply (bk_notable _ _ _ Hb). lia.
    + lia.
  - intros m Hm. rewrite Hall by lia. case_decide as E; unfold in_range in E; [apply Hnew; lia|].
    assert (m = has - 1) as -> by lia. rewrite Hall0, decide_True, Hlast by lia. by rewrite Hold by lia.
  - intros m Hm. eapply lookup_fresh. by apply Hnew.
Qed.

(** Storing the indirect table [t] after the new blocks [L] have been allocated; [all]
    names the blocks from the last old one on. *)
Lemma collect_table s2 secs L L0 all t :
  has < will -> 12 < will -> grown s s2 p (set_sectors secs i) (L0 ++ L) -> inode_live (set_sectors secs i) -> fs_ok s2 ->
  length all = 140%nat -> secs !! 12%nat = Some t -> data_block s t ->
  (forall m, has - 1 <= m < 12 -> all !! Z.to_nat m = secs !! Z.to_nat m) ->
  (forall m, 0 <= m < has -> m < 12 -> secs !! Z.to_nat m = i_sectors i !! Z.to_nat m) ->
  (forall m, 12 <= m < has -> all !! Z.to_nat m = Some (file_block (dsk s) i m)) ->
  (forall m, has <= m < will -> L !! Z.to_nat (m - has) = if decide (m < 12) then secs !! Z.to_nat m else all !! Z.to_nat m) ->
  length L = Z.to_nat (will - has) ->
  (12 < has /\ t = indirect i /\ L0 = [] \/ has <= 12 /\ L0 = [t]) ->
  collect_result (s3 ← store_table s2 t all; Done (Some all, s3)).
Proof.
  intros Hlt H12 Hg Hlv' Hs2 Hal Ht Hdt Hdir Hsame Holdt HL HLlen Hcase.
  destruct (grown_data _ _ _ _ _ Hg) as (_ & _ & Hdb). pose proof Hlv' as [(_ & _ & _ & _ & Hslen & _) _]. cbn [i_sectors set_sectors] in Hslen.
  destruct (store_table_ok s2 t all Hs2 ltac:(by apply Hdb) Hal) as (d' & -> & Hd' & Hsec & Hfb). rewrite bind_done.
  set (j := set_sectors secs i) in *. assert (Hind : indirect j = t) by (unfold indirect; cbn [i_sectors j set_sectors]; by rewrite Ht).
  left. exists all, j, (L0 ++ L), (with_dsk d' s2). split; [done|].
  assert (Hlen0 : length (L0 ++ L) = extra).
  { rewrite length_app, HLlen. unfold extra. destruct Hcase as [(Hh & _ & ->)|[Hh ->]]; [rewrite decide_False by lia|rewrite decide_True by lia]; cbn [length]; lia. }
  split; [|done].
  assert (Hw : wrote s (with_dsk d' s2) p j (L0 ++ L)) by (exists d', s2; split_and!; try done; rewrite Hind; done).
  assert (HLu : forall b, b ∈ L -> u32 b = b /\ data_block s b).
  { intros b HbL. destruct Hg as (? & ? & _ & _ & _ & _ & _ & _ & _ & HLd). destruct (HLd b) as [Hd _]; [apply elem_of_app; by right|].
    split; [by apply (data_block_u32 s)|done]. }
  assert (Hold : forall m, 0 <= m < has -> file_block d' j m = file_block (dsk s) i m).
  { intros m Hm. destruct (decide (m < 12)) as [Hm12|Hm12].
    - unfold file_block. rewrite !decide_True by done. cbn [i_sectors j set_sectors]. by rewrite Hsame by lia.
    - rewrite Hfb by (done || lia). rewrite Holdt by lia. simpl. destruct (bk_block _ _ _ Hb m Hm) as [Hd _]. by apply (data_block_u32 s). }
  assert (Hnew : forall m, has <= m < will -> L !! Z.to_nat (m - has) = Some (file_block d' j m)).
  { intros m Hm. destruct (lookup_lt_is_Some_2 L (Z.to_nat (m - has))) as [x Hx]; [lia|]. rewrite Hx. f_equal.
    destruct (HLu x (lookup_fresh _ _ _ Hx)) as [Ex _]. rewrite HL in Hx by done. case_decide.
    - unfold file_block. rewrite decide_True by done. cbn [i_sectors j set_sectors]. by rewrite Hx.
    - rewrite Hfb by (done || lia). by rewrite Hx. }
  pose proof (grown_nodup _ _ _ _ _ Hg) as Hnd. set (n0 := length L0).
  unfold collected. split_and!; try done.
  - by apply with_dsk_ok.
  - apply (blocks_ok_grown s _ p i j (L0 ++ L) has will (fun m => Z.of_nat n0 + (m - has))); try done.
    + intros a b. by eapply fresh_not_used.
    + intros m Hm. exists (n0 + Z.to_nat (m - has))%nat. split; [|lia]. rewrite lookup_app_r by lia.
      replace (n0 + Z.to_nat (m - has) - length L0)%nat with (Z.to_nat (m - has)) by (unfold n0; lia). by apply Hnew.
    + lia.
    + lia.
    + lia.
    + intros _. rewrite Hind. destruct Hcase as [(Hh & -> & _)|[Hh EL]]; [by left|]. right. split; [|done]. exists 0%nat. unfold n0. rewrite EL. split; [done|]. simpl. lia.
  - intros m Hm. cbn [dsk with_dsk]. destruct (decide (m < 12)) as [Hm12|Hm12].
    + rewrite Hdir by lia. apply (direct_block d' j); [lia|done].
    + destruct (decide (m < has)); [rewrite Hold, Holdt by lia; done|]. pose proof (Hnew m ltac:(lia)) as Hn. rewrite HL, decide_False in Hn by lia. done.
  - intros m Hm. apply elem_of_app. right. eapply lookup_fresh. by apply Hnew.
  - rewrite Hind. destruct Hcase as [(_ & -> & _)|[_ ->]]; [by left|]. right. by left.
Qed.

(** The file has an indirect table already. *)
Lemma collect_indirect : has < will -> 12 < has -> collect_result (write_blocks s p has will).
Proof.
  intros Hlt H12. pose proof sectors_len as Hlen. pose proof zeros_length as Hz. unfold write_blocks, inode_at. rewrite Hi, bind_done.
  rewrite u32_small by lia. destruct (Z.eqb_spec (will - has) 0); [lia|]. destruct (Z.leb_spec will 12); [lia|]. destruct (Z.leb_spec has 12); [lia|].
  destruct (bk_table _ _ _ Hb H12) as [[Hd _] _]. pose proof (data_block_lba s _ Hs Hd) as Hlba.
  destruct (aget_in (i_sectors i) 12) as (t & Ht & ->); [lia|]. rewrite bind_done. change (Z.to_nat 12) with 12%nat in Ht.
  assert (Et : indirect i = t) by (unfold indirect; by rewrite Ht). rewrite Et in Hd, Hlba. assert_ok; [|apply negb_true_iff, Z.eqb_neq; lia].
  destruct (load_table_ok (dsk s) i (replicate 140 0)) as (d1 & all0 & -> & Hd1 & Hsec1 & Hal0 & Hall0); [apply Hs|done|done|lia|]. rewrite bind_done. cbn [fst snd].
  assert (Hback : forall s2 j L, grown (with_dsk d1 s) s2 p j L -> grown s s2 p j L).
  { intros s2 j L (d' & b' & -> & ? & ? & ? & ? & Hk & ?). exists d', b'. split_and!; try done; try tauto. intros k Hk'. rewrite Hk by done. apply Hsec1. }
  destruct (grow_ok (Z.to_nat (will - has)) (with_dsk d1 s) p i all0 has) as [(L & all & secs & s2 & -> & Hg & Hlv' & Hs2 & HL & Hal & Hall & Hsecs)|(s2 & j & L & -> & Hf & Hg & Hs2 & HL)];
    [by apply with_dsk_ok|done|done|done|lia|lia|done|intros k Hk Hk12; unfold in_range in Hk; lia| |].
  2: { rewrite bind_done. right. exists s2, j, L. split; [done|]. split; [done|]. split; [by apply Hback|]. unfold extra. lia. }
  rewrite bind_done. rewrite Z2Nat.id in Hall, Hsecs by lia. pose proof (Hback _ _ _ Hg) as Hg'.
  assert (Hsec12 : forall m, 0 <= m < 13 -> secs !! Z.to_nat m = i_sectors i !! Z.to_nat m) by (intros m Hm; rewrite Hsecs, decide_False by (unfold in_range; lia); done).
  apply (collect_table s2 secs L [] all t); try done.
  - change 12%nat with (Z.to_nat 12). by rewrite Hsec12 by lia.
  - lia.
  - intros m Hm Hm12. apply Hsec12. lia.
  - intros m Hm. rewrite Hall, decide_False by (unfold in_range; lia). by rewrite Hall0, decide_False by lia.
  - intros m Hm. rewrite decide_False by lia. by rewrite Hall, decide_True by (unfold in_range; lia).
  - left. split; [done|]. by rewrite Et.
Qed.

(** The file gets an indirect table. *)
Lemma collect_cross : has <= 12 -> 12 < will -> collect_result (write_blocks s p has will).
Proof.
  intros Hh12 H12. pose proof sectors_len as Hlen. pose proof zeros_length as Hz. unfold write_blocks, inode_at. rewrite Hi, bind_done.
  rewrite u32_small by lia. destruct (Z.eqb_spec (will - has) 0); [lia|]. destruct (Z.leb_spec will 12); [lia|]. destruct (Z.leb_spec has 12); [|lia].
  destruct (copy_direct_ok i (replicate 140 0) (has - 1) 1) as (all0 & -> & Hal0 & Hall0); [lia|lia|lia|]. rewrite bind_done.
  destruct (block_alloc_ok s Hs Hr) as [(t & b' & Ha & Hd & Hu & HB & Hn & Hbit)|[Ha Hf]].
  2: { right. rewrite Ha, bind_done. exists s, i, []. split_and!; try done; [by apply grown_refl|]. unfold extra. rewrite decide_True by lia. cbn. lia. }
  rewrite Ha, bind_done. destruct (data_block_u32 s t Hs Hd) as (E32 & H32 & Hne & Hn0 & _). destruct (Z.eqb_spec t (-1)); [done|].
  change (inodes (with_bitmap BLOCK_BITMAP b' s)) with (inodes s). rewrite Hi, bind_done.
  assert (H120 : i_sectors i !! 12%nat = Some 0).
  { destruct (lookup_lt_is_Some_2 (i_sectors i) 12) as [x Hx]; [lia|]. pose proof (bk_notable _ _ _ Hb Hh12) as E. unfold indirect in E. rewrite Hx in *. by simpl in E; subst. }
  rewrite (aget_Some (i_sectors i) 12 0 ltac:(lia) H120), bind_done. assert_ok; [|done]. rewrite aset_in by lia. rewrite bind_done, E32.
  pose proof (alloc_step s p i t b' Hs Hi Hd Hu HB Hn Hbit) as Hg0. set (s1 := with_bitmap BLOCK_BITMAP b' s) in *.
  set (i1 := set_sectors (<[Z.to_nat 12 := t]> (i_sectors i)) i).
  assert (Hs1 : fs_ok s1) by (destruct Hlv; eapply grown_ok; eauto).
  assert (Hlv1 : inode_live i1) by (apply set_sectors_live; [done|by rewrite length_insert|apply Forall_insert; [by destruct Hlv as [(_ & _ & _ & _ & _ & ?) _]|done]]).
  assert (Hs1' : fs_ok (set_inode p i1 s1)) by (destruct Hlv1; eapply set_inode_ok; eauto).
  assert (Hg1 : grown s (set_inode p i1 s1) p i1 [t]) by (pose proof (grown_trans _ _ _ _ _ _ _ _ Hg0 (inode_step s1 p i1 Hs1)) as Hgg; by rewrite app_nil_r in Hgg).
  destruct (grow_ok (Z.to_nat (will - has)) (set_inode p i1 s1) p i1 all0 has) as [(L & all & secs & s2 & -> & Hg & Hlv' & Hs2 & HL & Hal & Hall & Hsecs)|(s2 & j & L & -> & Hf & Hg & Hs2 & HL)];
    [done|by eapply grown_root|apply lookup_insert_eq|done|lia|lia|congruence| | |].
  3: { rewrite bind_done. right. exists s2, j, ([t] ++ L). split; [done|]. split; [done|]. split; [exact (grown_trans _ _ _ _ _ _ _ _ Hg1 Hg)|].
    unfold extra. rewrite decide_True by lia. cbn [app length]. lia. }
  { intros k Hk Hk12. unfold in_range in Hk. cbn [i_sectors i1 set_sectors]. rewrite list_lookup_insert_ne by lia. apply (bk_rest _ _ _ Hb). lia. }
  rewrite bind_done. rewrite Z2Nat.id in Hall, Hsecs by lia. pose proof (grown_trans _ _ _ _ _ _ _ _ Hg1 Hg) as Hg'. change (set_sectors secs i1) with (set_sectors secs i) in *.
  apply (collect_table s2 secs L [t] all t); try done; try lia.
  - change 12%nat with (Z.to_nat 12). rewrite Hsecs, decide_False by (unfold in_range; lia). apply list_lookup_insert_eq. lia.
  - intros m Hm. rewrite Hall, Hsecs by lia. destruct (decide (in_range has (will - has) m)) as [E|E]; unfold in_range in E.
    + by rewrite decide_True by (unfold in_range; lia).
    + rewrite decide_False by (unfold in_range; lia). assert (m = has - 1) as -> by lia. rewrite Hall0, decide_True by lia. symmetry. apply list_lookup_insert_ne. lia.
  - intros m Hm Hm12. rewrite Hsecs, decide_False by (unfold in_range; lia). apply list_lookup_insert_ne. lia.
  - intros m Hm. rewrite Hsecs, Hall by lia. case_decide; [by rewrite decide_True by (unfold in_range; lia)|by rewrite decide_True by (unfold in_range; lia)].
  - by right.
Qed.

Lemma write_blocks_ok : collect_result (write_blocks s p has will).
Proof.
  destruct (decide (will = has)); [by apply collect_same|]. destruct (decide (will <= 12)); [by apply collect_direct; lia|].
  destruct (decide (has <= 12)); [by apply collect_cross; lia|by apply collect_indirect; lia].
Qed.
End Collect.

(** ** The loop that writes the data *)

(** Writing [io_buf] to block [B]: the bytes of the disk afterwards. *)
Lemma block_write_bytes (d d' : D) B io_buf o k :
  length io_buf = 512%nat -> (forall k, bd_sector d' k = if decide (B <= k < B + 1) then chunk io_buf (k - B) else bd_sector d k) ->
  0 <= o < 512 -> dbyte d' (512 * k + o) = if decide (k = B) then default 0 (io_buf !! Z.to_nat o) else dbyte d (512 * k + o).
Proof.
  intros Hl Hk Ho. unfold dbyte. replace ((512 * k + o) / 512) with k by zdiv. replace ((512 * k + o) mod 512) with o by zdiv. rewrite Hk.
  destruct (decide (k = B)) as [->|Hne]; [|by rewrite decide_False by lia]. rewrite decide_True by lia.
  rewrite chunk_lookup by lia. do 3 f_equal. lia.
Qed.

Section WriteLoop.
Variables (s2 : fs (D := D) (A := A)) (p : Z) (j : inode) (all buf : list Z) (a0 count will : Z).
Hypotheses (Hs2 : fs_ok s2) (Hj : inodes s2 !! p = Some j) (Hsz : i_size j = a0) (Ha0 : 0 <= a0) (Hc : 0 <= count)
  (Hbuf : count <= Z.of_nat (length buf)) (Hwill : will = (a0 + count) / 512 + 1) (Hmax : a0 + count < 71680)
  (Hall : forall m, a0 / 512 <= m < will -> all !! Z.to_nat m = Some (file_block (dsk s2) j m))
  (Hblk : blocks_ok s2 j will).

Let fb (m : Z) : Z := file_block (dsk s2) j m.

(** The state after [w] bytes. *)
Definition written (d : D) (w : Z) : Prop :=
  bd_ok d /\ 0 <= w <= count /\ (0 < w < count -> (a0 + w) mod 512 = 0) /\
  (forall k, (forall m, a0 / 512 <= m < will -> k <> fb m) -> bd_sector d k = bd_sector (dsk s2) k) /\
  (forall x, 0 <= x < a0 + w -> dbyte d (512 * fb (x / 512) + x mod 512) =
     if decide (x < a0) then dbyte (dsk s2) (512 * fb (x / 512) + x mod 512) else default 0 (buf !! Z.to_nat (x - a0))).

Definition at_written (d : D) (w : Z) : fs (D := D) (A := A) := with_dsk d (set_inode p (set_size (a0 + w) j) s2).

Definition chunk_at (w : Z) : Z := if count - w <? 512 - (a0 + w) mod 512 then count - w else 512 - (a0 + w) mod 512.

(** The bytes of the buffer after the copy, and of the disk after the write. *)
Lemma written_step d d1 d2 w io0 io_buf :
  written d w -> w < count -> (forall k, bd_sector d1 k = bd_sector d k) ->
  length io0 = 512%nat -> (w = 0 -> io0 = bd_sector d (fb ((a0 + w) / 512))) ->
  memcpy_to io0 ((a0 + w) mod 512) (take (Z.to_nat (chunk_at w)) (drop (Z.to_nat w) buf)) = Done io_buf ->
  bd_ok d2 -> (forall k, bd_sector d2 k = if decide (fb ((a0 + w) / 512) <= k < fb ((a0 + w) / 512) + 1) then chunk io_buf (k - fb ((a0 + w) / 512)) else bd_sector d1 k) ->
  written d2 (w + chunk_at w).
Proof.
  intros (Hd & Hw & Hal & Hout & Hin) Hlt Hs1 Hl0 Hio0 Hcp Hd2 Hk. set (m0 := (a0 + w) / 512) in *. set (off := (a0 + w) mod 512) in *.
  assert (Hcr : 0 < chunk_at w /\ w + chunk_at w <= count /\ off + chunk_at w <= 512 /\ (w + chunk_at w < count -> off + chunk_at w = 512)).
  { unfold chunk_at, off. destruct (Z.ltb_spec (count - w) (512 - (a0 + w) mod 512)); zdiv. }
  set (c := chunk_at w) in *. destruct Hcr as (Hc0 & Hc1 & Hc2 & Hc3).
  assert (Hm0 : a0 / 512 <= m0 < will) by (unfold m0; rewrite Hwill; zdiv).
  assert (Hlb : length (take (Z.to_nat c) (drop (Z.to_nat w) buf)) = Z.to_nat c) by (rewrite length_take, length_drop; lia).
  destruct (memcpy_to_ok io0 off (take (Z.to_nat c) (drop (Z.to_nat w) buf))) as (io' & E & Hl' & Hlk); [unfold off; zdiv|rewrite Hlb, Hl0; lia|].
  rewrite Hcp in E. injection E as <-. rewrite Hl0 in Hl'.
  assert (Hby : forall k o, 0 <= o < 512 -> dbyte d2 (512 * k + o) = if decide (k = fb m0) then default 0 (io_buf !! Z.to_nat o) else dbyte d1 (512 * k + o)).
  { intros k o Ho. by apply block_write_bytes. }
  split_and!; try done; try lia.
  - intros [_ Hlt']. rewrite Z.add_assoc. specialize (Hc3 Hlt'). unfold off in Hc3. zdiv.
  - intros k Hne. rewrite Hk, decide_False by (specialize (Hne m0 Hm0); lia). rewrite Hs1. by apply Hout.
  - intros x Hx. rewrite Hby by zdiv. assert (Hxw : 0 <= x / 512 < will) by (rewrite Hwill; zdiv).
    destruct (decide (fb (x / 512) = fb m0)) as [E|Hne].
    + assert (Exm : x / 512 = m0) by (apply (bk_inj _ _ _ Hblk); [done|unfold m0; zdiv|done]).
      rewrite Hlk, Hlb. destruct (decide (Z.to_nat off <= Z.to_nat (x mod 512) < Z.to_nat off + Z.to_nat c)%nat) as [Hin'|Hout'].
      * assert (Hxr : a0 + w <= x) by (unfold off, m0 in *; zdiv). rewrite decide_False by lia.
        rewrite lookup_take_lt by lia. rewrite lookup_drop. do 2 f_equal. unfold off, m0 in *. zdiv.
      * assert (Hxr : x < a0 + w /\ off <> 0) by (unfold off, m0 in *; zdiv).
        assert (w = 0) as Hw0 by (destruct (decide (w = 0)); [done|]; unfold off in Hxr; lia).
        rewrite Hio0 by done. rewrite decide_True by lia. specialize (Hin x ltac:(lia)). rewrite decide_True in Hin by lia. rewrite <- Hin.
        rewrite <- Exm. unfold dbyte. replace ((512 * fb (x / 512) + x mod 512) / 512) with (fb (x / 512)) by zdiv.
        by replace ((512 * fb (x / 512) + x mod 512) mod 512) with (x mod 512) by zdiv.
    + rewrite (dbyte_ext d d1) by done. apply Hin. destruct (decide (x < a0 + w)); [lia|]. destruct Hne. f_equal. unfold m0, off in *. zdiv.
Qed.

Lemma u32_add x c : u32 (u32 x + c) = u32 (x + c).
Proof. unfold u32. apply Zplus_mod_idemp_l. Qed.

Lemma write_loop_ok pos :
  exists d', loop (Z.to_nat count + 1) (write_turn all p count) (s2, u32 pos, 0, count, buf, true) =
      Done (at_written d' count, u32 (pos + count)) /\ written d' count.
Proof.
  destruct (loop_total (write_turn all p count)
    (fun st => let '(s, q, w, lft, src, first) := st in exists d, s = at_written d w /\ written d w /\ q = u32 (pos + w) /\
       lft = count - w /\ src = drop (Z.to_nat w) buf /\ first = bool_decide (w = 0))
    (fun r => exists d, r = (at_written d count, u32 (pos + count)) /\ written d count)
    (fun st => let '(_, _, w, _, _, _) := st in count - w)) with (fuel := (Z.to_nat count + 1)%nat) (s := (s2, u32 pos, 0, count, buf, true))
    as (r & Hr & d & -> & Hd).
  - intros [[[[[s q] w] lft] src] first] (d & -> & Hw & -> & -> & -> & ->). pose proof Hw as (Hd & Hw1 & Hal & Hout & Hin).
    unfold write_turn. destruct (Z.ltb_spec w count) as [Hlt|Hge].
    2: { right. assert (w = count) as -> by lia. eexists. split; [reflexivity|]. by exists d. }
    left. unfold inode_at. cbn [inodes at_written with_dsk set_inode with_inodes]. rewrite lookup_insert_eq, bind_done. cbn [i_size set_size].
    change BLOCK_SIZE with 512. assert (Hm : a0 / 512 <= (a0 + w) / 512 < will) by (rewrite Hwill; zdiv).
    rewrite (aget_Some all ((a0 + w) / 512) (fb ((a0 + w) / 512))); [|zdiv|by apply Hall]. rewrite bind_done. fold (chunk_at w).
    assert (Hcr : 0 < chunk_at w /\ w + chunk_at w <= count /\ (a0 + w) mod 512 + chunk_at w <= 512).
    { unfold chunk_at. destruct (Z.ltb_spec (count - w) (512 - (a0 + w) mod 512)); zdiv. }
    destruct (bk_block _ _ _ Hblk ((a0 + w) / 512)) as [Hdb _]; [zdiv|]. pose proof (data_block_lba s2 _ Hs2 Hdb) as Hlba. fold (fb ((a0 + w) / 512)) in Hlba.
    assert (Hrd : exists d1 io0, (if bool_decide (w = 0) then bd_read (dsk (at_written d w)) (fb ((a0 + w) / 512)) 1 else Done (dsk (at_written d w), replicate 512 0)) = Done (d1, io0) /\
       bd_ok d1 /\ (forall k, bd_sector d1 k = bd_sector d k) /\ length io0 = 512%nat /\ (w = 0 -> io0 = bd_sector d (fb ((a0 + w) / 512)))).
    { case_bool_decide as Ew.
      - destruct (bd_read_ok d (fb ((a0 + w) / 512)) 1) as (d1 & E & Hd1 & Hs1); [done|lia|lia|lia|]. rewrite sector_one in E.
        eexists d1, _. split; [exact E|]. split_and!; try done. by apply bd_sector_len.
      - eexists d, _. split; [reflexivity|]. split_and!; try done. }
    destruct Hrd as (d1 & io0 & -> & Hd1 & Hs1 & Hl0 & Hio0). rewrite bind_done. cbn [fst snd].
    unfold memcpy_from. rewrite decide_True by (rewrite length_drop; lia). change (Z.to_nat 0) with 0%nat. rewrite drop_0, bind_done.
    destruct (memcpy_to_ok io0 ((a0 + w) mod 512) (take (Z.to_nat (chunk_at w)) (drop (Z.to_nat w) buf))) as (io_buf & Hcp & Hlb & _);
      [zdiv|rewrite length_take, length_drop; lia|]. rewrite Hcp, bind_done.
    destruct (bd_write_ok d1 (fb ((a0 + w) / 512)) io_buf 1) as (d2 & -> & Hd2 & Hk); [done|lia|lia|lia|lia|]. rewrite bind_done.
    eexists. split; [reflexivity|]. rewrite (u32_small (w + chunk_at w)), (u32_small (count - w - _)), (u32_small (a0 + w + _)) by lia. split; [|lia].
    exists d2. split_and!.
    + unfold at_written, with_dsk, set_inode, with_inodes. cbn [dsk mem inodes cur_part file_table fd_table]. f_equal.
      rewrite insert_insert_eq. f_equal. unfold set_size. cbn. f_equal. lia.
    + by apply (written_step d d1 d2 w io0 io_buf).
    + rewrite u32_add. f_equal. lia.
    + lia.
    + rewrite drop_drop. f_equal. lia.
    + symmetry. apply bool_decide_eq_false_2. lia.
  - exists (dsk s2). split_and!; try done.
    + unfold at_written, set_inode, with_inodes, with_dsk. rewrite Z.add_0_r, insert_id by (rewrite Hj, <- Hsz; by destruct j). by destruct s2.
    + unfold written. split_and!; try done; try lia; [apply Hs2|]. intros x Hx. by rewrite decide_True by lia.
    + by rewrite Z.add_0_r.
    + lia.
  - lia.
  - by exists d.
Qed.
End WriteLoop.


(** ** The first block *)
Lemma first_block_ok s p i :
  fs_ok s -> root_used s -> inodes s !! p = Some i -> inode_live i -> 0 <= i_size i -> file_ok s i ->
  (exists s1 i1 L, first_block s p i = Done (true, s1) /\ grown s s1 p i1 L /\ fs_ok s1 /\ inode_live i1 /\ i1 = set_sectors (i_sectors i1) i /\
     blocks_ok s1 i1 (i_size i / 512 + 1) /\ i_sectors i1 !! 0%nat <> Some 0 /\
     (forall m, 0 <= m < nblocks i -> file_block (dsk s1) i1 m = file_block (dsk s) i m) /\
     (forall m, nblocks i <= m < i_size i / 512 + 1 -> file_block (dsk s1) i1 m ∈ L) /\ indirect i1 = indirect i /\
     Z.of_nat (length L) = i_size i / 512 + 1 - nblocks i) \/
  (first_block s p i = Done (false, s) /\ full s /\ nblocks i = 0).
Proof.
  intros Hs Hr Hi Hlv Hsz [_ _ Hemp Hblk]. pose proof Hlv as [(_ & _ & _ & _ & Hlen & _) _]. unfold first_block.
  destruct (aget_in (i_sectors i) 0) as (b0 & Hb0 & ->); [lia|]. change (Z.to_nat 0) with 0%nat in Hb0. rewrite bind_done.
  destruct (Z.eqb_spec b0 0) as [->|Hne].
  - assert (Hnb : nblocks i = 0) by (unfold nblocks; by rewrite decide_True). rewrite Hnb in *. specialize (Hemp eq_refl). rewrite Hemp. change (0 / 512 + 1) with 1.
    destruct (block_alloc_ok s Hs Hr) as [(lba & b' & Ha & Hd & Hu & HB & Hn & Hbit)|[Ha Hf]].
    2: { right. rewrite Ha, bind_done. done. }
    left. rewrite Ha, bind_done. destruct (data_block_u32 s lba Hs Hd) as (E32 & H32 & Hm1 & Hn0 & Eidx & Hrg).
    destruct (Z.eqb_spec lba (-1)); [done|]. rewrite aset_in by lia. rewrite bind_done, E32.
    pose proof (alloc_step s p i lba b' Hs Hi Hd Hu HB Hn Hbit) as Hg.
    destruct (grow_one s p i lba b' 0 Hs Hi Hlv Hd Hg) as (Hlv1 & _ & s1 & Hsy & Hg1 & Hs1); [lia|done|].
    rewrite decide_True in * by lia. set (i1 := set_sectors _ i) in *.
    change (data_start_lba (sb (cur_part (set_inode p i1 (with_bitmap BLOCK_BITMAP b' s))))) with (data_start s). rewrite Eidx.
    assert_ok; [|apply negb_true_iff, Z.eqb_neq; lia]. rewrite Hsy, bind_done. exists s1, i1, [lba].
    assert (Hf0 : file_block (dsk s1) i1 0 = lba).
    { unfold file_block. rewrite decide_True by lia. cbn [i_sectors i1 set_sectors]. by rewrite list_lookup_insert_eq by lia. }
    assert (Hm0 : forall m, 0 <= m < 1 -> m = 0) by lia.
    assert (Hind : indirect i1 = indirect i) by (unfold indirect; cbn [i_sectors i1 set_sectors]; by rewrite list_lookup_insert_ne).
    split; [done|]. split_and!; try assumption; [done|..].
    + constructor.
      * intros m Hm. cbn [i_sectors i1 set_sectors]. rewrite list_lookup_insert_ne by lia. apply (bk_rest _ _ _ Hblk). lia.
      * intros _. rewrite Hind. apply (bk_notable _ _ _ Hblk). lia.
      * lia.
      * intros m ->%Hm0. rewrite Hf0. eapply grown_used; [exact Hs|exact Hg1|]. right. by left.
      * intros m m' ->%Hm0 ->%Hm0. done.
    + cbn [i_sectors i1 set_sectors]. rewrite list_lookup_insert_eq by lia. congruence.
    + lia.
    + intros m ->%Hm0. rewrite Hf0. by left.
    + cbn. lia.
  - left. assert (Hnb : nblocks i = i_size i / 512 + 1) by (unfold nblocks; rewrite decide_False; [done|congruence]). rewrite Hnb in *.
    exists s, i, []. split; [done|]. split_and!; try done; [by apply grown_refl|by destruct i|congruence|lia|cbn; lia].
Qed.

(** ** The whole append *)

(** Blocks in use that are not the file's own keep their contents; so does the inode
    table. *)
Definition own_block s (i : inode) (k : Z) : Prop :=
  (exists m, 0 <= m < nblocks i /\ k = file_block (dsk s) i m) \/ (12 < nblocks i /\ k = indirect i).
Definition others_kept s (i : inode) (d : D) : Prop :=
  (forall k, used_block s k -> ~ own_block s i k -> bd_sector d k = bd_sector (dsk s) k) /\
  (forall k, inode_table_lba (sb (cur_part s)) <= k < data_start s -> bd_sector d k = bd_sector (dsk s) k).

Lemma grown_kept s s' p j L k :
  fs_ok s -> grown s s' p j L -> inode_table_lba (sb (cur_part s)) <= k -> bd_sector (dsk s') k = bd_sector (dsk s) k.
Proof.
  intros Hs (d' & b' & -> & _ & _ & _ & _ & Hk & _) Hr. apply Hk.
  destruct (fo_layout s Hs) as (L1 & L2 & L3 & L4 & L5 & L6 & L7 & L8 & L9 & L10). lia.
Qed.

(** How many blocks appending [count] bytes takes: those behind the file's last one and,
    where it had none and needs one, the indirect table. *)
Definition needed (i : inode) (count : Z) : Z :=
  let will := (i_size i + count) / 512 + 1 in
  will - nblocks i + (if decide (nblocks i <= 12 < will) then 1 else 0).

Section Append.
Variables (s : fs (D := D) (A := A)) (p : Z) (i : inode) (buf : list Z) (count : Z).
Hypotheses (Hs : fs_ok s) (Hr : root_used s) (Hi : inodes s !! p = Some i) (Hlv : inode_live i) (Hfile : file_ok s i)
  (Hc : 0 <= count) (Hbuf : count <= Z.of_nat (length buf)) (Hmax : i_size i + count < 71680).
Let a0 : Z := i_size i.
Let has : Z := a0 / 512 + 1.
Let will : Z := (a0 + count) / 512 + 1.

(** What the two allocation phases give together. *)
Lemma phases_ok s1 i1 L1 all j L2 s2 :
  grown s s1 p i1 L1 -> fs_ok s1 -> i1 = set_sectors (i_sectors i1) i -> collected s1 s2 p i1 j L2 all has will ->
  (forall m, 0 <= m < nblocks i -> file_block (dsk s1) i1 m = file_block (dsk s) i m) ->
  (forall m, nblocks i <= m < has -> file_block (dsk s1) i1 m ∈ L1) -> indirect i1 = indirect i ->
  (exists b', s2 = with_dsk (dsk s2) (with_bitmap BLOCK_BITMAP b' (set_inode p j s))) /\ j = set_sectors (i_sectors j) i /\
  (forall k, inode_table_lba (sb (cur_part s)) <= k -> k <> indirect j -> bd_sector (dsk s2) k = bd_sector (dsk s) k) /\
  (forall k, used_block s k -> k = indirect j -> 12 < nblocks i /\ k = indirect i) /\
  (forall m, 0 <= m < nblocks i -> file_block (dsk s2) j m = file_block (dsk s) i m) /\
  (forall m, 0 <= m < will -> used_block s (file_block (dsk s2) j m) -> m < nblocks i).
Proof.
  intros Hg1 Hs1 E1 (Hw & Hlvj & Ej & Hs2 & Hb2 & _ & Hold & Hnew & Hind) H1 H1n Hi1.
  assert (Hnb : 0 <= nblocks i <= has).
  { pose proof (fk_wf s i Hfile) as (_ & Hsz & _). unfold is_u32 in Hsz. unfold nblocks, has, a0. case_decide; zdiv. }
  pose proof Hw as (d' & s1' & Hg2 & -> & Hd' & Hk2). pose proof (grown_trans _ _ _ _ _ _ _ _ Hg1 Hg2) as Hg.
  assert (HnotL : forall k, used_block s k -> k ∉ L1 ++ L2) by (intros k Hk Hin; by eapply (fresh_not_used s s1' p j (L1 ++ L2) k k)).
  split_and!.
  - destruct Hg as (d2 & b2 & -> & _). exists b2. done.
  - rewrite Ej, E1. done.
  - intros k Hk Hne. cbn [dsk with_dsk]. rewrite Hk2 by done. by eapply grown_kept.
  - intros k Hk ->. destruct Hind as [E|Hin]; [|destruct (HnotL (indirect j)); [done|apply elem_of_app; by right]]. rewrite E, Hi1 in *. split; [|done].
    destruct (decide (12 < nblocks i)); [done|]. pose proof (bk_notable _ _ _ (fk_blocks s i Hfile) ltac:(lia)) as E0. rewrite E0 in Hk.
    destruct Hk as [Hd _]. pose proof (data_block_lba s 0 Hs Hd). lia.
  - intros m Hm. rewrite Hold by lia. by apply H1.
  - intros m Hm Hu. destruct (decide (m < nblocks i)); [done|]. destruct (HnotL _ Hu). apply elem_of_app.
    destruct (decide (m < has)); [left; rewrite Hold by lia; apply H1n; lia|right; apply Hnew; lia].
Qed.

Lemma append_ok pos :
  (exists s1 all s2 j d b', first_block s p i = Done (true, s1) /\ write_blocks s1 p has will = Done (Some all, s2) /\
     loop (Z.to_nat count + 1) (write_turn all p count) (s2, u32 pos, 0, count, buf, true) =
       Done (with_dsk d (with_bitmap BLOCK_BITMAP b' (set_inode p (set_size (a0 + count) j) s)), u32 (pos + count)) /\
     j = set_sectors (i_sectors j) i /\
     let s' := with_dsk d (with_bitmap BLOCK_BITMAP b' (set_inode p (set_size (a0 + count) j) s)) in
     fs_ok s' /\ file_ok s' (set_size (a0 + count) j) /\ others_kept s i d /\
     (forall x, 0 <= x < a0 + count -> fbyte d (set_size (a0 + count) j) x = if decide (x < a0) then fbyte (dsk s) i x else default 0 (buf !! Z.to_nat (x - a0))) /\
     needed i count <= Z.of_nat (spare s)) \/
  (Z.of_nat (spare s) < needed i count /\
   ((exists s1, first_block s p i = Done (false, s1) /\ full s1) \/
    (exists s1 s2, first_block s p i = Done (true, s1) /\ write_blocks s1 p has will = Done (None, s2) /\ full s2))).
Proof.
  pose proof Hlv as [(Hno & Hsz & Hcnt & Hdeny & Hlen & Hsec) Hc0]. unfold is_u32 in Hsz. fold a0 in Hsz.
  destruct (first_block_ok s p i Hs Hr Hi Hlv ltac:(lia) Hfile) as [(s1 & i1 & L1 & Hfb & Hg1 & Hs1 & Hlv1 & Ei1 & Hb1 & Hz1 & Hold1 & Hnew1 & Hind1 & HL1)|(Hfb & Hf & Hn0)].
  2: { right. split; [|left; eauto]. rewrite (full_spare s Hf). unfold needed. rewrite Hn0. fold a0. case_decide; zdiv. }
  assert (Hnbl : nblocks i <= 12 <-> has <= 12).
  { unfold has. pose proof (fk_empty s i Hfile) as He. unfold nblocks in *. case_decide; [|done]. specialize (He eq_refl). fold a0 in He. rewrite He. change (0 / 512 + 1) with 1. lia. }
  pose proof (grown_spare _ _ _ _ _ Hg1) as Hsp1.
  assert (Hsi1 : i_size i1 = a0) by (rewrite Ei1; done).
  destruct (write_blocks_ok s1 p i1 has will Hs1 (grown_root _ _ _ _ _ Hr Hg1) (grown_inode _ _ _ _ _ Hg1) Hlv1 Hb1) as [(all & j & L2 & s2 & Hwb & Hcol & HL2)|(s2 & j2 & L2 & Hwb & Hf & Hg2 & HL2)];
    [unfold has; zdiv|unfold has, will; zdiv|unfold will; fold a0 in Hmax; zdiv| |].
  2: { right. split; [|right; eauto]. rewrite Hsp1, (grown_spare _ _ _ _ _ Hg2), (full_spare s2 Hf). unfold needed, extra in *. cbv zeta. fold a0 in HL1 |- *. fold will. fold has in HL1.
    destruct (decide (nblocks i <= 12 < will)), (decide (has <= 12 < will)); lia. }
  assert (Hneed : needed i count <= Z.of_nat (spare s)).
  { destruct Hcol as ((d' & s1' & Hg2 & _) & _). rewrite Hsp1, (grown_spare _ _ _ _ _ Hg2). unfold needed, extra in *. cbv zeta. fold a0 in HL1 |- *. fold will. fold has in HL1.
    destruct (decide (nblocks i <= 12 < will)), (decide (has <= 12 < will)); unfold has, will in *; zdiv. }
  destruct (phases_ok s1 i1 L1 all j L2 s2 Hg1 Hs1 Ei1 Hcol Hold1 Hnew1 Hind1) as ((b' & Es2) & Ej & Hkept & Htab & Hold & Hown).
  pose proof Hcol as (_ & Hlvj & _ & Hs2 & Hb2 & Hall & _).
  assert (Hj2 : inodes s2 !! p = Some j) by (rewrite Es2; apply lookup_insert_eq).
  assert (Hsj : i_size j = a0) by (rewrite Ej; done).
  destruct (write_loop_ok s2 p j all buf a0 count will) with (pos := pos) as (d & Hloop & (Hd & _ & _ & Hout & Hbytes)); try done; try lia.
  { intros m Hm. apply Hall. unfold has. lia. }
  left. exists s1, all, s2, j, d, b'. split_and!; try assumption.
  { rewrite Hloop. do 2 f_equal. unfold at_written. rewrite Es2. unfold with_dsk, with_bitmap, with_part, set_inode, with_inodes.
    cbn [dsk mem inodes cur_part file_table fd_table]. f_equal. apply insert_insert_eq. }
  set (j' := set_size (a0 + count) j). set (s' := with_dsk d _). assert (Ewill : nblocks j' = will).
  { unfold nblocks. cbn [i_sectors j' set_size i_size]. rewrite decide_False; [done|]. intros E0.
    destruct (bk_block _ _ _ Hb2 0) as [Hd0 _]; [unfold will; zdiv|]. unfold file_block in Hd0. rewrite decide_True in Hd0 by lia. change (Z.to_nat 0) with 0%nat in Hd0.
    rewrite E0 in Hd0. pose proof (data_block_lba s2 _ Hs2 Hd0) as Hl0. simpl in Hl0. lia. }
  assert (Hwj : inode_wf j') by (destruct Hlvj as [(? & ? & ? & ? & ? & ?) _]; unfold inode_wf, is_u32 in *; cbn; split_and!; try done; lia).
  assert (Htsec : 12 < will -> bd_sector d (indirect j) = bd_sector (dsk s2) (indirect j)).
  { intros H12. apply Hout. intros m Hm E. destruct (bk_table _ _ _ Hb2 H12) as [_ Hne]. apply (Hne m); [unfold will, a0 in *; zdiv|done]. }
  assert (Hfbk : forall m, 0 <= m < will -> file_block d j' m = file_block (dsk s2) j m).
  { intros m Hm. unfold file_block. destruct (decide (m < 12)); [done|]. change (indirect j') with (indirect j). by rewrite Htsec by lia. }
  assert (Hpart : cur_part s' = cur_part s2) by (rewrite Es2; done).
  assert (Hub : forall b, used_block s2 b -> used_block s' b) by (intros b; unfold used_block, data_block; by rewrite Hpart).
  split_and!; try assumption.
  - assert (E : s' = with_dsk d (set_inode p j' s2)).
    { rewrite Es2. unfold s', with_dsk, with_bitmap, with_part, set_inode, with_inodes. cbn [dsk mem inodes cur_part file_table fd_table]. f_equal. symmetry. apply insert_insert_eq. }
    rewrite E. apply with_dsk_ok; [|done]. eapply set_inode_ok; [done|exact Hj2|done|done|]. by destruct Hlvj.
  - constructor; [done|unfold a0 in *; cbn; lia|rewrite Ewill; unfold will; zdiv|rewrite Ewill]. destruct Hb2 as [B1 B2 B3 B4 B5]. constructor.
    + exact B1.
    + exact B2.
    + intros H12. destruct (B3 H12) as [U1 U2]. split; [by apply Hub|]. intros m Hm. change (dsk s') with d. rewrite Hfbk by done. by apply U2.
    + intros m Hm. change (dsk s') with d. rewrite Hfbk by done. by apply Hub, B4.
    + intros m m' Hm Hm'. change (dsk s') with d. rewrite !Hfbk by done. by apply B5.
  - split.
    + intros k Hk Hnown. pose proof Hk as [Hdk _]. rewrite Hout.
      * apply Hkept; [|intros E; apply Hnown; right; by apply Htab]. destruct Hdk. destruct (fo_layout s Hs) as (? & ? & ? & ? & ? & ? & ? & ? & ? & ?). lia.
      * intros m Hm E. destruct (decide (m < nblocks i)).
        -- apply Hnown. left. exists m. split; [unfold a0 in *; zdiv|]. rewrite E. apply Hold. unfold a0 in *; zdiv.
        -- assert (m < nblocks i); [|done]. apply Hown; [unfold a0 in *; zdiv|]. by rewrite <- E.
    + intros k Hk. assert (Hlt : forall b, used_block s2 b -> k <> b).
      { intros b [[Hb _] _]. rewrite Es2 in Hb. cbn [cur_part with_dsk with_bitmap with_part sb set_inode with_inodes] in Hb. unfold data_start in Hk. lia. }
      rewrite Hout by (intros m Hm; apply Hlt, (bk_block _ _ _ Hb2); unfold a0 in *; zdiv). apply Hkept; [lia|]. intros E.
      destruct (decide (12 < will)) as [H12|H12]; [by apply (Hlt (indirect j)); [apply (bk_table _ _ _ Hb2)|]|].
      rewrite (bk_notable _ _ _ Hb2) in E by lia. destruct (fo_layout s Hs) as (? & ? & ? & ? & ? & ? & ? & ? & ? & ?). lia.
  - intros x Hx. unfold fbyte. rewrite Hfbk by (unfold will; zdiv). rewrite Hbytes by done. case_decide as Hxa; [|done].
    assert (Hnb : 0 <= x / 512 < nblocks i).
    { pose proof (fk_empty s i Hfile) as He. fold a0 in He. unfold nblocks in *. case_decide; fold a0; [specialize (He eq_refl); lia|zdiv]. }
    rewrite Hold by done. unfold dbyte. set (B := file_block (dsk s) i (x / 512)). replace ((512 * B + x mod 512) / 512) with B by zdiv.
    destruct (bk_block _ _ _ (fk_blocks s i Hfile) (x / 512) Hnb) as [HdB HuB]. rewrite Hkept; [done| |].
    + destruct HdB. destruct (fo_layout s Hs) as (? & ? & ? & ? & ? & ? & ? & ? & ? & ?). unfold B. lia.
    + intros E. destruct (Htab B) as [H12 E2]; [by split|done|]. destruct (bk_table _ _ _ (fk_blocks s i Hfile) H12) as [_ Hne]. by apply (Hne (x / 512)).
Qed.
End Append.

(** A file whose data blocks and table are untouched. *)
Lemma file_ok_frame s s' i :
  cur_part s' = cur_part s -> (forall b, used_block s b -> bd_sector (dsk s') b = bd_sector (dsk s) b) -> file_ok s i ->
  file_ok s' i /\ forall x, 0 <= x < i_size i -> fbyte (dsk s') i x = fbyte (dsk s) i x.
Proof.
  intros Hp Hk [Hw Hsz Hemp [B1 B2 B3 B4 B5]].
  assert (Hub : forall b, used_block s' b <-> used_block s b) by (intros b; unfold used_block, data_block; by rewrite Hp).
  assert (Hfb : forall m, 0 <= m < nblocks i -> file_block (dsk s') i m = file_block (dsk s) i m).
  { intros m Hm. unfold file_block. destruct (decide (m < 12)); [done|]. rewrite Hk; [done|]. apply B3. lia. }
  split.
  - constructor; try assumption. constructor; try assumption.
    + intros H12. destruct (B3 H12) as [U1 U2]. split; [by apply Hub|]. intros m Hm. rewrite Hfb by done. by apply U2.
    + intros m Hm. rewrite Hfb by done. by apply Hub, B4.
    + intros m m' Hm Hm'. rewrite !Hfb by done. by apply B5.
  - intros x Hx. assert (Hnb : 0 <= x / 512 < nblocks i) by (unfold nblocks in *; case_decide; [specialize (Hemp eq_refl); lia|zdiv]).
    unfold fbyte. rewrite Hfb by done. unfold dbyte. set (B := file_block (dsk s) i (x / 512)). replace ((512 * B + x mod 512) / 512) with B by zdiv.
    rewrite Hk by (by apply B4). done.
Qed.

(** The state after the inode has been written and the buffers have been freed. *)
Lemma inode_sync_data s i :
  fs_ok s -> inode_wf i -> straddles (i_no i mod 256) = false ->
  exists d', inode_sync s i 512 = Done (with_dsk d' s) /\ bd_ok d' /\
    (forall k, data_start s <= k -> bd_sector d' k = bd_sector (dsk s) k) /\
    (forall x, ~ (0 <= x - slot s (i_no i mod 256) < 76) -> dbyte d' x = dbyte (dsk s) x).
Proof.
  intros Hs Hw Hst. pose proof Hw as (Hno & _ & _ & _ & Hlen & _). unfold is_u32 in Hno.
  pose proof (inode_sync_spec s i 512 (fo_disk s Hs) (fo_layout s Hs) ltac:(lia) Hlen) as Hsy. cbv zeta in Hsy. rewrite Hst in Hsy.
  change (512 <=? 512) with true in Hsy. cbv iota in Hsy. destruct Hsy as (d' & E & Hd' & Hx). exists d'. split_and!; try done.
  - intros k Hk. apply sector_ext; [done|apply Hs|]. intros x Hxr. rewrite Hx, decide_False; [done|].
    destruct (fo_layout s Hs) as (L1 & L2 & L3 & L4 & L5 & L6 & L7 & L8 & L9 & L10). unfold slot, data_start in *. zdiv.
  - intros x Hnx. by rewrite Hx, decide_False.
Qed.

Lemma with_mem_open s m' :
  fs_ok s -> al_ok m' -> (forall q, q ∈ open_inodes (cur_part s) -> exists n, al_live m' q n) -> fs_ok (with_mem m' s).
Proof.
  intros Hs Hm Hl. constructor; [exact (fo_disk s Hs)|done|exact (fo_layout s Hs)|exact (fo_bitmaps s Hs)|].
  destruct (fo_open s Hs) as (H1 & H2 & H3). split_and!; [exact H1| |exact H3].
  intros q Hq. destruct (H2 q Hq) as (i & _ & ? & ? & ? & ? & _ & ?). destruct (Hl q Hq) as [n ?]. by exists i, n.
Qed.

(** ** Properties *)

(** The outcome on the branch where everything goes well. *)
Definition appended s (fd : Z) (f : file) (i : inode) (buf : list Z) (count : Z) s' (i' : inode) : Prop :=
  fs_ok s' /\ file_ok s' i' /\
  inodes s' = <[fd_inode f := i']> (inodes s) /\ i_size i' = i_size i + count /\ i_no i' = i_no i /\
  file_table s' = <[Z.to_nat fd := mk_file (u32 (i_size i - 1 + count)) (fd_flag f) (fd_inode f)]> (file_table s) /\
  contents (dsk s') i' 0 (i_size i + count) = contents (dsk s) i 0 (i_size i) ++ take (Z.to_nat count) buf /\
  (forall k, used_block s k -> ~ own_block s i k -> bd_sector (dsk s') k = bd_sector (dsk s) k) /\
  (forall x, slot s 0 <= x < slot s 4096 -> ~ (0 <= x - slot s (i_no i mod 256) < 76) -> dbyte (dsk s') x = dbyte (dsk s) x) /\
  (forall q n, al_live (mem s') q n <-> al_live (mem s) q n).

(** The end of [file_write]: the inode is written and the buffers are freed. [s3] is the
    state after the loop, [j'] the inode then. *)
Lemma append_end s fd f i buf count sM s3 j' d m2 m3 m4 b1 b2 l :
  sM = with_mem m2 s -> fs_ok s -> fs_ok s3 -> file_ok s3 j' -> i_no j' = i_no i -> i_size j' = i_size i + count -> 0 <= count <= Z.of_nat (length buf) -> 0 <= i_size i ->
  (exists b', s3 = with_dsk d (with_bitmap BLOCK_BITMAP b' (set_inode (fd_inode f) j' sM))) -> l = <[Z.to_nat fd := mk_file (u32 (i_size i - 1 + count)) (fd_flag f) (fd_inode f)]> (file_table s) ->
  others_kept sM i d -> (forall x, 0 <= x < i_size i + count -> fbyte d j' x = if decide (x < i_size i) then fbyte (dsk s) i x else default 0 (buf !! Z.to_nat (x - i_size i))) ->
  al_free m2 b2 = Done m3 -> al_free m3 b1 = Done m4 -> al_ok m4 -> (forall q n, al_live m4 q n <-> al_live (mem s) q n) ->
  let r := (x ← inode_sync (with_file_table l s3) j' 512; m ← al_free (mem x) b2; m ← al_free m b1; Done (i32 count, with_mem m x)) in
  if straddles (i_no i mod 256) then r = Fault else exists s', r = Done (i32 count, s') /\ appended s fd f i buf count s' j'.
Proof.
  intros -> Hs Hs3 Hfile' Enj Esz Hc Hsz (b' & Es3) -> [Hk1 Hk2] Hbytes F2 F1 Hm4 Hl4. cbv zeta. set (l := <[_ := _]> (file_table s)). set (s4 := with_file_table l s3). assert (Hs4 : fs_ok s4) by (by apply with_file_table_ok).
  pose proof (fk_wf _ _ Hfile') as Hwj. destruct (straddles (i_no i mod 256)) eqn:Hst.
  { pose proof Hwj as (Hn & _ & _ & _ & Hlen & _). unfold is_u32 in Hn.
    pose proof (inode_sync_spec s4 j' 512 (fo_disk s4 Hs4) (fo_layout s4 Hs4) ltac:(lia) Hlen) as Hsy. cbv zeta in Hsy. rewrite Enj, Hst in Hsy.
    change (1024 <=? 512) with false in Hsy. cbv iota in Hsy. by rewrite Hsy. }
  destruct (inode_sync_data s4 j' Hs4 Hwj) as (d5 & -> & Hd5 & Hk5 & Hx5); [by rewrite Enj|]. rewrite bind_done.
  assert (Hmem : mem (with_dsk d5 s4) = m2) by (subst s4; rewrite Es3; done). rewrite Hmem, F2, bind_done, F1, bind_done.
  eexists. split; [reflexivity|]. set (s5 := with_mem m4 (with_dsk d5 s4)).
  assert (Hdsk : dsk s3 = d) by (by rewrite Es3). assert (Hdst : data_start s3 = data_start s) by (by rewrite Es3).
  assert (Hs5 : fs_ok s5).
  { apply with_mem_open; [by apply with_dsk_ok|done|]. assert (Ho : open_inodes (cur_part (with_dsk d5 s4)) = open_inodes (cur_part s)) by (subst s4; by rewrite Es3).
    rewrite Ho. intros q Hq. destruct (open_entry s q Hs Hq) as (? & n' & _ & _ & _ & _ & Hlq & _). exists n'. by apply Hl4. }
  assert (Hub : forall b, used_block s3 b -> bd_sector d5 b = bd_sector d b) by (intros b [[Hb _] _]; rewrite <- Hdsk; apply Hk5; change (data_start s4) with (data_start s3); unfold data_start in *; lia).
  destruct (file_ok_frame s3 s5 j' eq_refl) as [Hf5 Hb5]; [by rewrite Hdsk|done|].
  assert (Hslot : forall k, slot s4 k = slot s k) by (intros k; subst s4; by rewrite Es3).
  unfold appended. split_and!; try done.
  - subst s5 s4. rewrite Es3. done.
  - rewrite Esz in Hb5. unfold contents. rewrite seqZ_app, fmap_app by lia. apply (f_equal2 app).
    + apply list_fmap_ext. intros n1 x Hx%lookup_seqZ. rewrite Hb5, Hdsk by lia. rewrite Hbytes, decide_True by lia. done.
    + apply list_eq_same_length with (Z.to_nat count); [rewrite length_take; lia|rewrite length_fmap, length_seqZ; lia|].
      intros n1 x y Hn1 Hx Hy. rewrite list_lookup_fmap, lookup_seqZ_lt in Hx by lia. injection Hx as <-. rewrite lookup_take_lt in Hy by lia.
      rewrite Hb5, Hdsk by lia. rewrite Hbytes, decide_False by lia.
      replace (Z.to_nat (0 + i_size i + Z.of_nat n1 - i_size i)) with n1 by lia. by rewrite Hy.
  - intros k Hk Hnk. change (dsk s5) with d5. rewrite Hk5; [change (dsk s4) with (dsk s3); rewrite Hdsk; by apply Hk1|].
    change (data_start s4) with (data_start s3). rewrite Hdst. destruct Hk as [[Hk _] _]. unfold data_start. lia.
  - intros x Hx Hnx. change (dsk s5) with d5. rewrite Hx5 by (rewrite Enj, Hslot; exact Hnx). change (dsk s4) with (dsk s3). rewrite Hdsk. unfold dbyte. rewrite Hk2; [done|].
    destruct (fo_layout s Hs) as (L1 & L2 & L3 & L4 & L5 & L6 & L7 & L8 & L9 & L10). unfold slot, data_start in *. change (cur_part (with_mem m2 s)) with (cur_part s). zdiv.
Qed.

(** C11. [file_write] appends: on a well-formed open file that stays below the maximal size
    and with memory for its two buffers, the outcome is one of three. When the partition has
    fewer free blocks than the bytes need (the indirect table counted) it returns -1, with no
    block left free. Otherwise, when the table slot of the inode straddles two sectors, it
    overruns the 512-byte buffer that it passes to [inode_sync]. Otherwise it returns the
    number of bytes, the contents are the old ones followed by the buffer, and the file is
    well-formed with its new size; the position is left on the last byte, one before the end;
    a block in use that is not the file's own keeps its contents, the inode table changes at
    most in the inode's slot, memory in use is as before. *)
Theorem file_write_appends s fd f i buf count :
  fs_ok s -> root_used s -> 0 <= fd -> file_table s !! Z.to_nat fd = Some f -> inodes s !! fd_inode f = Some i -> inode_live i -> file_ok s i ->
  0 <= count <= Z.of_nat (length buf) -> i_size i + count < 71680 -> can_alloc (mem s) [512; 560] ->
  if decide (Z.of_nat (spare s) < needed i count) then exists s', file_write s fd buf count = Done (-1, s') /\ full s'
  else if straddles (i_no i mod 256) then file_write s fd buf count = Fault
  else exists s' i', file_write s fd buf count = Done (count, s') /\ appended s fd f i buf count s' i'.
Proof.
  intros Hs Hr Hfd Hf Hi Hlv Hfile Hc Hmax (b1 & m1 & E1 & Hb1 & b2 & m2 & E2 & Hb2 & _). set (p := fd_inode f) in *.
  pose proof Hlv as [(Hno & Hsz & _) _]. unfold is_u32 in Hsz.
  destruct (buffers_ok (mem s) 512 560 b1 m1 b2 m2 (fo_mem s Hs) ltac:(lia) ltac:(lia) E1 Hb1 E2 Hb2) as (Hm2 & Hl2 & m3 & m4 & F2 & F1 & Hm4 & Hl4).
  set (sM := with_mem m2 s). assert (HsM : fs_ok sM) by (by apply with_mem_ok).
  assert (HfM : file_ok sM i) by exact (proj1 (file_ok_frame s sM i eq_refl (fun _ _ => eq_refl) Hfile)).
  unfold file_write. rewrite (aget_Some _ _ _ Hfd Hf), bind_done. cbv zeta. fold p.
  assert (Hat : inode_at s p = Done i) by (unfold inode_at; by rewrite Hi). rewrite Hat, bind_done.
  rewrite (u32_small (i_size i + count)) by lia. change BLOCK_SIZE with 512. destruct (Z.ltb_spec (512 * 140) (i_size i + count)); [lia|].
  rewrite E1, bind_done. cbn [fst snd]. destruct (Z.eqb_spec b1 0); [done|]. change (512 + 48) with 560. rewrite E2, bind_done. cbn [fst snd].
  destruct (Z.eqb_spec b2 0); [done|]. fold sM.
  destruct (append_ok sM p i buf count HsM Hr Hi Hlv HfM ltac:(lia) ltac:(lia) Hmax (i_size i - 1)) as
    [(s1 & all & s2 & j & d & b' & Hfb & Hwb & Hloop & Ej & Hs' & Hfile' & Hkept & Hbytes & Hneed)|[Hneed Hno2]]; change (spare sM) with (spare s) in Hneed.
  2: { rewrite decide_True by done. destruct Hno2 as [(s1 & Hfb & Hful)|(s1 & s2 & Hfb & Hwb & Hful)]; rewrite Hfb, bind_done; [by eauto|].
    cbn [fst snd negb]. assert_ok; [|apply Z.leb_le; zdiv]. rewrite Hwb, bind_done. eauto. }
  rewrite decide_False by lia. rewrite Hfb, bind_done. cbn [fst snd negb]. assert_ok; [|apply Z.leb_le; zdiv]. rewrite Hwb, bind_done, Hloop, bind_done.
  pose proof (lookup_lt_Some _ _ _ Hf) as Hlt. rewrite aset_in by (cbn [file_table with_dsk with_bitmap with_part set_inode with_inodes sM with_mem]; lia). rewrite bind_done.
  set (j' := set_size (i_size i + count) j) in *. set (s3 := with_dsk d _) in *.
  assert (Hj3 : inodes s3 !! p = Some j') by apply lookup_insert_eq. unfold inode_at. rewrite Hj3, bind_done.
  assert (Enj : i_no j' = i_no i) by (unfold j'; rewrite Ej; done).
  pose proof (append_end s fd f i buf count sM s3 j' d m2 m3 m4 b1 b2 _ eq_refl Hs Hs' Hfile' Enj eq_refl Hc ltac:(lia) ltac:(by exists b') eq_refl Hkept Hbytes F2 F1 Hm4 Hl4) as Hend.
  cbv zeta in Hend. rewrite (i32_small count) in Hend by lia. rewrite (i32_small count) by lia. destruct (straddles (i_no i mod 256)); [exact Hend|]. destruct Hend as (s' & E & Happ). exists s', j'. split; [exact E|exact Happ].
Qed.
End FileWrite.

(** ** Witness *)
Lemma sample_write_returns : match file_write sample_rw 3 [1; 2; 3; 4; 5] 5 with Done r => r.1 =? 5 | _ => false end = true.
Proof. vm_compute. reflexivity. Qed.

Lemma file_write_appends_witness :
  exists s' i', file_write sample_rw 3 [1; 2; 3; 4; 5] 5 = Done (5, s') /\
    contents (dsk s') i' 0 605 = contents (dsk sample_rw) sample_file 0 600 ++ [1; 2; 3; 4; 5].
Proof.
  pose proof (file_write_appends sample_rw 3 (mk_file 0 O_WRONLY sample_p) sample_file [1; 2; 3; 4; 5] 5) as H.
  rewrite decide_False in H by (vm_compute; discriminate).
  destruct H as (s' & i' & H1 & _ & _ & _ & _ & _ & _ & H8 & _).
  - exact sample_rw_ok.
  - vm_compute. reflexivity.
  - lia.
  - reflexivity.
  - apply lookup_singleton_eq.
  - split; [exact (fk_wf _ _ sample_file_ok)|reflexivity].
  - exact sample_file_ok.
  - cbn. lia.
  - cbn. lia.
  - apply can_allocb_sound. vm_compute. reflexivity.
  - exists s', i'. split; [exact H1|exact H8].
Defined.
