(* ===== verification/Dir.v ===== *)
(** * Directories (fs/dir.c)

    A directory is a file whose blocks are arrays of entries of 24 bytes (a name of 16
    bytes, an inode number, a type); an entry of type [FT_UNKNOWN] is free. Unlike the
    blocks of a regular file, its blocks may have holes. Where the code uses a
    [struct dir *] only for its inode, the address of the inode stands for it. *)
From stdpp Require Import base numbers list option tactics gmap fin_maps.
From Stdlib Require Import ZArith Lia.
From S2P Require Import Prelude Bitmap Ide Iface Inode File FileIo.

Definition MAX_FILE_NAME_LEN : Z := 16.
Definition FT_UNKNOWN : Z := 0.
Definition FT_REGULAR : Z := 1.
Definition FT_DIRECTORY : Z := 2.

(** [struct dir_entry]; its size in memory. *)
Record dir_entry := mk_entry { filename : list Z; de_i_no : Z; f_type : Z }.
Definition DIR_ENTRY_SIZE : Z := 24.

Definition entry_bytes (e : dir_entry) : list Z := filename e ++ le4 (de_i_no e) ++ le4 (f_type e).
(** The entry that starts a byte sequence. *)
Definition bytes_entry (b : list Z) : dir_entry := mk_entry (take 16 b) (un4 (take 4 (drop 16 b))) (un4 (take 4 (drop 20 b))).

(** [!strcmp(buf + off, name)]: the comparison stops at the first difference or at the
    end of both. *)
Fixpoint streq (buf : list Z) (off : Z) (name : list Z) : outcome bool :=
  match name with
  | [] => b ← aget buf off; Done (b =? 0)
  | c :: name => b ← aget buf off; if b =? c then streq buf (off + 1) name else Done false
  end.

Definition dot : list Z := [46].
Definition dotdot : list Z := [46; 46].

(** [strlen(filename) <= 16], then a memcpy into the cleared entry. *)
Definition create_dir_entry (name : list Z) (inode_no file_type : Z) : outcome dir_entry :=
  ASSERT (Z.of_nat (length name) <=? MAX_FILE_NAME_LEN);;
  Done (mk_entry (name ++ replicate (16 - length name) 0) inode_no file_type).

Section Dir.
Context {D A : Type} `{BlockDev D} `{Alloc A}.
Abbreviation fsys := (fs (D := D) (A := A)) (only parsing).

(** The 140 block addresses of a directory, 0 for none. *)
Definition dir_blocks (d : D) (i : inode) : outcome (D * list Z) :=
  l ← copy_direct i (replicate 140 0) 0 12;
  t ← aget (i_sectors i) 12;
  if negb (t =? 0) then load_table d i l else Done (d, l).

Definition per_sec (s : fsys) : Z := 512 / dir_entry_size (sb (cur_part s)).

(** The loop over the entries of a block; the index of the entry called [name]. *)
Fixpoint find_entry (buf name : list Z) (k : Z) (n : nat) : outcome (option Z) :=
  match n with
  | O => Done None
  | S n => b ← streq buf (DIR_ENTRY_SIZE * k) name; if b : bool then Done (Some k) else find_entry buf name (k + 1) n
  end.

(** The loop of [search_dir_entry] over the blocks. *)
Fixpoint search_blocks (d : D) (cnt : Z) (name : list Z) (all_blocks : list Z) : outcome (D * option dir_entry) :=
  match all_blocks with
  | [] => Done (d, None)
  | lba :: rest =>
      if lba =? 0 then search_blocks d cnt name rest else
      r ← bd_read d lba 1;
      k ← find_entry r.2 name 0 (Z.to_nat cnt);
      match k with
      | Some k => Done (r.1, Some (bytes_entry (drop (Z.to_nat (DIR_ENTRY_SIZE * k)) r.2)))
      | None => search_blocks r.1 cnt name rest
      end
  end.

(** [false] is [None]. *)
Definition search_dir_entry (s : fsys) (pdir : Z) (name : list Z) : outcome (option dir_entry * fsys) :=
  r1 ← al_malloc (mem s) 560;
  if r1.1 =? 0 then Done (None, with_mem r1.2 s) else
  i ← inode_at s pdir;
  r ← dir_blocks (dsk s) i;
  let '(d, all_blocks) := r in
  r2 ← al_malloc r1.2 512;
  if r2.1 =? 0 then Fault else
  r ← search_blocks d (per_sec s) name all_blocks;
  m ← al_free r2.2 r2.1;
  m ← al_free m r1.1;
  Done (r.2, with_mem m (with_dsk r.1 s)).

(** ** Adding an entry *)

(** The loop over the entries of a block that looks for a free one. *)
Fixpoint free_entry (buf : list Z) (k : Z) (n : nat) : outcome (option Z) :=
  match n with
  | O => Done None
  | S n =>
      if decide (DIR_ENTRY_SIZE * (k + 1) <= Z.of_nat (length buf)) then
        if f_type (bytes_entry (drop (Z.to_nat (DIR_ENTRY_SIZE * k)) buf)) =? FT_UNKNOWN then Done (Some k) else free_entry buf (k + 1) n
      else Fault
  end.

Definition add_size (p : Z) (s : fsys) : outcome fsys :=
  i ← inode_at s p;
  Done (set_inode p (set_size (u32 (i_size i + dir_entry_size (sb (cur_part s)))) i) s).

(** A block of the directory for entry [block_idx] of [all_blocks]; [None]: no block free. *)
Definition new_dir_block (s : fsys) (p : Z) (all_blocks : list Z) (block_idx : Z) : outcome (option Z * fsys) :=
  r ← block_bitmap_alloc s;
  let '(block_lba, s) := r in
  if block_lba =? -1 then Done (None, s) else
  let ds := data_start_lba (sb (cur_part s)) in
  ASSERT (negb (i32 (block_lba - ds) =? -1));;
  s ← bitmap_sync s (u32 (block_lba - ds)) BLOCK_BITMAP;
  i ← inode_at s p;
  if block_idx <? 12 then
    l ← aset (i_sectors i) block_idx (u32 block_lba);
    Done (Some (u32 block_lba), set_inode p (set_sectors l i) s)
  else if block_idx =? 12 then
    l ← aset (i_sectors i) 12 (u32 block_lba);
    let s := set_inode p (set_sectors l i) s in
    r ← block_bitmap_alloc s;
    let '(block_lba2, s) := r in
    if block_lba2 =? -1 then
      b ← bitmap_set (block_bitmap (cur_part s)) (u32 (block_lba - ds)) 0;
      l ← aset l 12 0;
      Done (None, set_inode p (set_sectors l i) (with_bitmap BLOCK_BITMAP b s))
    else
      ASSERT (negb (i32 (block_lba2 - ds) =? -1));;
      s ← bitmap_sync s (u32 (block_lba2 - ds)) BLOCK_BITMAP;
      all_blocks ← aset all_blocks 12 (u32 block_lba2);
      s ← store_table s (u32 block_lba) all_blocks;
      Done (Some (u32 block_lba2), s)
  else
    all_blocks ← aset all_blocks block_idx (u32 block_lba);
    t ← aget (i_sectors i) 12;
    s ← store_table s t all_blocks;
    Done (Some (u32 block_lba), s).

(** The loop of [sync_dir_entry] over the blocks. *)
Fixpoint place_entry (s : fsys) (p : Z) (e : dir_entry) (all_blocks : list Z) (block_idx : Z) (n : nat) : outcome (bool * fsys) :=
  match n with
  | O => Done (false, s)
  | S n =>
      lba ← aget all_blocks block_idx;
      if lba =? 0 then
        r ← new_dir_block s p all_blocks block_idx;
        match r with
        | (None, s) => Done (false, s)
        | (Some lba, s) =>
            io_buf ← memcpy_to (replicate 512 0) 0 (take (Z.to_nat (dir_entry_size (sb (cur_part s)))) (entry_bytes e));
            d ← bd_write (dsk s) lba io_buf 1;
            s ← add_size p (with_dsk d s);
            Done (true, s)
        end
      else
        r ← bd_read (dsk s) lba 1;
        k ← free_entry r.2 0 (Z.to_nat (per_sec s));
        match k with
        | Some k =>
            io_buf ← memcpy_to r.2 (DIR_ENTRY_SIZE * k) (take (Z.to_nat (dir_entry_size (sb (cur_part s)))) (entry_bytes e));
            d ← bd_write r.1 lba io_buf 1;
            s ← add_size p (with_dsk d s);
            Done (true, s)
        | None => place_entry (with_dsk r.1 s) p e all_blocks (block_idx + 1) n
        end
  end.

Definition sync_dir_entry (s : fsys) (parent_dir : Z) (e : dir_entry) : outcome (bool * fsys) :=
  i ← inode_at s parent_dir;
  ASSERT (i_size i mod dir_entry_size (sb (cur_part s)) =? 0);;
  r ← dir_blocks (dsk s) i;
  place_entry (with_dsk r.1 s) parent_dir e r.2 0 140.

(** ** Removing an entry *)

(** The loop that counts the entries of a block other than ".", "..": whether "." is
    among them, their number (a [uint8_t]) and the one of inode [inode_no]. *)
Fixpoint scan_entries (buf : list Z) (inode_no k : Z) (n : nat) (st : bool * Z * option Z) : outcome (bool * Z * option Z) :=
  match n with
  | O => Done st
  | S n =>
      let '(is_dir_first_block, dir_entry_cnt, dir_entry_found) := st in
      if decide (DIR_ENTRY_SIZE * (k + 1) <= Z.of_nat (length buf)) then
        let e := bytes_entry (drop (Z.to_nat (DIR_ENTRY_SIZE * k)) buf) in
        if f_type e =? FT_UNKNOWN then scan_entries buf inode_no (k + 1) n st else
        b ← streq buf (DIR_ENTRY_SIZE * k) dot;
        if b : bool then scan_entries buf inode_no (k + 1) n (true, dir_entry_cnt, dir_entry_found) else
        b ← streq buf (DIR_ENTRY_SIZE * k) dotdot;
        if b : bool then scan_entries buf inode_no (k + 1) n st else
        let dir_entry_cnt := u8 (dir_entry_cnt + 1) in
        if de_i_no e =? inode_no then
          ASSERT (bool_decide (dir_entry_found = None));;
          scan_entries buf inode_no (k + 1) n (is_dir_first_block, dir_entry_cnt, Some k)
        else scan_entries buf inode_no (k + 1) n (is_dir_first_block, dir_entry_cnt, dir_entry_found)
      else Fault
  end.

(** while (indirect_block_idx < 140): the body does not change [indirect_block_idx]. *)
Definition count_turn (all_blocks : list Z) (st : Z * Z) : outcome ((Z * Z) + Z) :=
  let '(indirect_block_idx, indirect_blocks) := st in
  if indirect_block_idx <? 140 then
    b ← aget all_blocks indirect_block_idx;
    Done (inl (indirect_block_idx, if negb (b =? 0) then u32 (indirect_blocks + 1) else indirect_blocks))
  else Done (inr indirect_blocks).

(** Give a block back: the bit in the bitmap, and the sector of the bitmap. *)
Definition recycle (s : fsys) (lba : Z) : outcome fsys :=
  let block_bitmap_idx := u32 (lba - data_start_lba (sb (cur_part s))) in
  b ← bitmap_set (block_bitmap (cur_part s)) block_bitmap_idx 0;
  bitmap_sync (with_bitmap BLOCK_BITMAP b s) block_bitmap_idx BLOCK_BITMAP.

(** The block [block_idx] of the directory, at [lba], holds only the entry to remove. *)
Definition drop_block (fuel : nat) (s : fsys) (p : Z) (all_blocks : list Z) (block_idx lba : Z) : outcome fsys :=
  s ← recycle s lba;
  i ← inode_at s p;
  if block_idx <? 12 then
    l ← aset (i_sectors i) block_idx 0;
    Done (set_inode p (set_sectors l i) s)
  else
    indirect_blocks ← loop fuel (count_turn all_blocks) (12, 0);
    ASSERT (1 <=? indirect_blocks);;
    t ← aget (i_sectors i) 12;
    if 1 <? indirect_blocks then
      all_blocks ← aset all_blocks block_idx 0;
      store_table s t all_blocks
    else
      s ← recycle s t;
      l ← aset (i_sectors i) 12 0;
      Done (set_inode p (set_sectors l i) s).

(** The loop of [delete_dir_entry] over the blocks. *)
Fixpoint delete_in (fuel : nat) (s : fsys) (p inode_no : Z) (all_blocks : list Z) (block_idx : Z) (n : nat) : outcome (bool * fsys) :=
  match n with
  | O => Done (false, s)
  | S n =>
      lba ← aget all_blocks block_idx;
      if lba =? 0 then delete_in fuel s p inode_no all_blocks (block_idx + 1) n else
      r ← bd_read (dsk s) lba 1;
      let s := with_dsk r.1 s in
      st ← scan_entries r.2 inode_no 0 (Z.to_nat (per_sec s)) (false, 0, None);
      let '(is_dir_first_block, dir_entry_cnt, dir_entry_found) := st in
      match dir_entry_found with
      | None => delete_in fuel s p inode_no all_blocks (block_idx + 1) n
      | Some k =>
          ASSERT (1 <=? dir_entry_cnt);;
          let dir_entry_size := dir_entry_size (sb (cur_part s)) in
          s ← (if (dir_entry_cnt =? 1) && negb is_dir_first_block then drop_block fuel s p all_blocks block_idx lba
               else
                 io_buf ← memcpy_to r.2 (DIR_ENTRY_SIZE * k) (replicate (Z.to_nat dir_entry_size) 0);
                 d ← bd_write (dsk s) lba io_buf 1;
                 Done (with_dsk d s));
          i ← inode_at s p;
          ASSERT (dir_entry_size <=? i_size i);;
          let i := set_size (i_size i - dir_entry_size) i in
          s ← inode_sync (set_inode p i s) i 1024;
          Done (true, s)
      end
  end.

Definition delete_dir_entry (fuel : nat) (s : fsys) (pdir inode_no : Z) : outcome (bool * fsys) :=
  i ← inode_at s pdir;
  r ← dir_blocks (dsk s) i;
  delete_in fuel (with_dsk r.1 s) pdir inode_no r.2 0 140.

(** ** Open directories *)
Definition dir_at (s : fsys) (ptr : dir_ptr) : outcome dir :=
  match ptr with
  | RootDir => Done (root_dir s)
  | HeapDir p => match dirs s !! p with Some d => Done d | None => Fault end
  end.
Definition with_root (d : dir) (s : fsys) : fsys :=
  mk_fs (dsk s) (mem s) (inodes s) (cur_part s) (file_table s) (fd_table s) d (dirs s) (cwd_inode_nr s).
Definition with_dirs (f : gmap Z dir -> gmap Z dir) (s : fsys) : fsys :=
  mk_fs (dsk s) (mem s) (inodes s) (cur_part s) (file_table s) (fd_table s) (root_dir s) (f (dirs s)) (cwd_inode_nr s).
Definition set_dir (ptr : dir_ptr) (d : dir) (s : fsys) : fsys :=
  match ptr with RootDir => with_root d s | HeapDir p => with_dirs (<[p := d]>) s end.

Definition open_root_dir (s : fsys) : outcome fsys :=
  r ← inode_open s (root_inode_no (sb (cur_part s)));
  Done (with_root (mk_dir r.1 0) r.2).

(** [sizeof(struct dir)] is 520; a NULL from [sys_malloc] is written through. *)
Definition dir_open (s : fsys) (inode_no : Z) : outcome (dir_ptr * fsys) :=
  r1 ← al_malloc (mem s) 520;
  r ← inode_open (with_mem r1.2 s) inode_no;
  if r1.1 =? 0 then Fault else
  Done (HeapDir r1.1, set_dir (HeapDir r1.1) (mk_dir r.1 0) r.2).

Definition dir_close (s : fsys) (ptr : dir_ptr) : outcome fsys :=
  match ptr with
  | RootDir => Done s
  | HeapDir p =>
      d ← dir_at s ptr;
      s ← inode_close s (d_inode d);
      m ← al_free (mem s) p;
      Done (with_mem m (with_dirs (delete p) s))
  end.

(** ** Reading a directory *)

(** The loop of [dir_read] over the entries of a block: the entry at [dir_pos], or the
    position reached. *)
Fixpoint read_entries (buf : list Z) (size dir_pos cur_dir_entry_pos k : Z) (n : nat) : outcome (Z + dir_entry) :=
  match n with
  | O => Done (inl cur_dir_entry_pos)
  | S n =>
      if decide (DIR_ENTRY_SIZE * (k + 1) <= Z.of_nat (length buf)) then
        let e := bytes_entry (drop (Z.to_nat (DIR_ENTRY_SIZE * k)) buf) in
        if f_type e =? FT_UNKNOWN then read_entries buf size dir_pos cur_dir_entry_pos (k + 1) n else
        if cur_dir_entry_pos <? dir_pos then read_entries buf size dir_pos (u32 (cur_dir_entry_pos + size)) (k + 1) n else
        ASSERT (cur_dir_entry_pos =? dir_pos);;
        Done (inr e)
      else Fault
  end.

Fixpoint read_dir_blocks (d : D) (size cnt isize dir_pos cur_dir_entry_pos : Z) (all_blocks : list Z) : outcome (D * option dir_entry) :=
  match all_blocks with
  | [] => Done (d, None)
  | lba :: rest =>
      if isize <=? dir_pos then Done (d, None) else
      if lba =? 0 then read_dir_blocks d size cnt isize dir_pos cur_dir_entry_pos rest else
      r ← bd_read d lba 1;
      x ← read_entries r.2 size dir_pos cur_dir_entry_pos 0 (Z.to_nat cnt);
      match x with
      | inl cur => read_dir_blocks r.1 size cnt isize dir_pos cur rest
      | inr e => Done (r.1, Some e)
      end
  end.

Definition dir_read (s : fsys) (ptr : dir_ptr) : outcome (option dir_entry * fsys) :=
  dr ← dir_at s ptr;
  i ← inode_at s (d_inode dr);
  r ← dir_blocks (dsk s) i;
  t ← aget (i_sectors i) 12;
  let block_cnt := if negb (t =? 0) then 140%nat else 12%nat in
  let dir_entry_size := dir_entry_size (sb (cur_part s)) in
  x ← read_dir_blocks r.1 dir_entry_size (per_sec s) (i_size i) (dir_pos dr) 0 (take block_cnt r.2);
  let s := with_dsk x.1 s in
  match x.2 with
  | None => Done (None, s)
  | Some e => Done (Some e, set_dir ptr (mk_dir (d_inode dr) (u32 (dir_pos dr + dir_entry_size))) s)
  end.

Definition dir_is_empty (s : fsys) (ptr : dir_ptr) : outcome bool :=
  dr ← dir_at s ptr;
  i ← inode_at s (d_inode dr);
  Done (i_size i =? u32 (dir_entry_size (sb (cur_part s)) * 2)).

(** for (block_idx = 1; block_idx < 13; block_idx++) ASSERT(i_sectors[block_idx] == 0) *)
Fixpoint no_more_blocks (i : inode) (block_idx : Z) (n : nat) : outcome unit :=
  match n with
  | O => Done ()
  | S n => b ← aget (i_sectors i) block_idx; ASSERT (b =? 0);; no_more_blocks i (block_idx + 1) n
  end.

Definition dir_remove (fuel : nat) (s : fsys) (parent_dir child_dir : dir_ptr) : outcome (Z * fsys) :=
  c ← dir_at s child_dir;
  i ← inode_at s (d_inode c);
  no_more_blocks i 1 12;;
  r ← al_malloc (mem s) 1024;
  if r.1 =? 0 then Done (-1, with_mem r.2 s) else
  let s := with_mem r.2 s in
  pd ← dir_at s parent_dir;
  x ← delete_dir_entry fuel s (d_inode pd) (i_no i);
  s ← inode_release x.2 (i_no i);
  m ← al_free (mem s) r.1;
  Done (0, with_mem m s).
End Dir.

(** ** What a directory holds *)
Definition entry_at (b : list Z) (k : Z) : dir_entry := bytes_entry (drop (Z.to_nat (24 * k)) b).
(** The 21 entries of a sector. *)
Definition entries (b : list Z) : list dir_entry := entry_at b <$> seqZ 0 21.

(** A C string: the bytes before the first 0. *)
Fixpoint cname (b : list Z) : list Z :=
  match b with
  | [] => []
  | c :: b => if decide (c = 0) then [] else c :: cname b
  end.
Definition named (name : list Z) (e : dir_entry) : Prop := cname (filename e) = name.
#[global] Instance named_dec name e : Decision (named name e).
Proof. unfold named. apply _. Defined.
Definition live (e : dir_entry) : Prop := f_type e <> 0.
#[global] Instance live_dec e : Decision (live e).
Proof. unfold live. apply _. Defined.

Section DirSpec.
Context {D A : Type} `{BlockDev D} `{Alloc A}.
Implicit Types s : fs (D := D) (A := A).

(** Block [j] of a directory, 0 for a hole; its entries; the live ones. *)
Definition dblock (d : D) (i : inode) (j : Z) : Z := if decide (12 <= j /\ indirect i = 0) then 0 else file_block d i j.
Definition dblocks (d : D) (i : inode) : list Z := dblock d i <$> seqZ 0 140.
Definition block_entries (d : D) (lba : Z) : list dir_entry := if decide (lba = 0) then [] else entries (bd_sector d lba).
Definition slots (d : D) (i : inode) : list dir_entry := dblocks d i ≫= block_entries d.
Definition dir_list (d : D) (i : inode) : list dir_entry := filter live (slots d i).

(** A block of the data area that is taken. *)
Definition taken s (b : Z) : Prop :=
  let p := cur_part s in
  data_start_lba (sb p) <= b < start_lba p + sec_cnt p /\ b - data_start_lba (sb p) < nbits (block_bitmap p) /\
  bit (block_bitmap p) (b - data_start_lba (sb p)) = true.

(** A block has a live entry of this name. *)
Definition has_entry (d : D) (b : Z) (name : list Z) : Prop := exists e, e ∈ block_entries d b /\ live e /\ named name e.

(** A well-formed directory: the size counts the live entries, an entry that is not live
    has no name, the blocks are taken and different from each other and from the
    indirect table, which is never empty. The block with "..", and the first of the data
    area (the root directory's), has "." too. *)
Record dir_ok s (i : inode) : Prop := {
  dk_wf : inode_wf i;
  dk_entry : dir_entry_size (sb (cur_part s)) = 24;
  dk_size : i_size i = 24 * Z.of_nat (length (dir_list (dsk s) i));
  dk_free : forall e, e ∈ slots (dsk s) i -> ~ live e -> cname (filename e) = [];
  dk_table : indirect i <> 0 -> used_block s (indirect i) /\ forall j, 0 <= j < 140 -> dblock (dsk s) i j <> indirect i;
  dk_dense : indirect i <> 0 -> dblock (dsk s) i 12 <> 0;
  dk_block : forall j, 0 <= j < 140 -> dblock (dsk s) i j <> 0 -> taken s (dblock (dsk s) i j);
  dk_dots : forall j, 0 <= j < 140 -> dblock (dsk s) i j = data_start_lba (sb (cur_part s)) \/ has_entry (dsk s) (dblock (dsk s) i j) dotdot ->
    has_entry (dsk s) (dblock (dsk s) i j) dot;
  dk_inj : forall j k, 0 <= j < 140 -> 0 <= k < 140 -> dblock (dsk s) i j <> 0 -> dblock (dsk s) i j = dblock (dsk s) i k -> j = k
}.

(** [s'] is [s] but for the registers of the disk and the bookkeeping of the heap. *)
Definition same_state s s' : Prop := exists d m, s' = with_mem m (with_dsk d s) /\
  (forall k, bd_sector d k = bd_sector (dsk s) k) /\ (forall q n, al_live m q n <-> al_live (mem s) q n).
End DirSpec.

(** ** Lemmas on names *)
Lemma cname_cons c b : c <> 0 -> cname (c :: b) = c :: cname b.
Proof. intros. simpl. by rewrite decide_False. Qed.

Lemma streq_spec buf off name n :
  0 <= off -> off + Z.of_nat n <= Z.of_nat (length buf) -> Forall (fun c => c <> 0) name -> (length name < n)%nat ->
  streq buf off name = Done (bool_decide (cname (take n (drop (Z.to_nat off) buf)) = name)).
Proof.
  revert off n. induction name as [|c name IH]; intros off n Ho Hb Hf Hn; cbn [streq].
  - destruct (aget_in buf off) as (b & Hl & ->); [lia|]. rewrite bind_done. f_equal. destruct n as [|n]; [simpl in Hn; lia|].
    rewrite (drop_S _ _ _ Hl). cbn [take cname]. destruct (Z.eqb_spec b 0) as [->|Hne].
    + rewrite decide_True by done. by rewrite bool_decide_true.
    + rewrite decide_False by done. by rewrite bool_decide_false.
  - apply Forall_cons in Hf as [Hc Hf]. destruct (aget_in buf off) as (b & Hl & ->); [simpl in Hn; lia|]. rewrite bind_done.
    destruct n as [|n]; [simpl in Hn; lia|]. rewrite (drop_S _ _ _ Hl). cbn [take]. destruct (Z.eqb_spec b c) as [->|Hne].
    + rewrite cname_cons by done. rewrite (IH (off + 1) n) by (simpl in Hn; try lia; done). f_equal.
      replace (Z.to_nat (off + 1)) with (S (Z.to_nat off)) by lia. apply bool_decide_ext. split; congruence.
    + f_equal. symmetry. apply bool_decide_eq_false_2. simpl. destruct (decide (b = 0)); congruence.
Qed.

Lemma find_entry_spec buf name k n :
  length buf = 512%nat -> Forall (fun c => c <> 0) name -> (length name < 16)%nat -> 0 <= k -> k + Z.of_nat n <= 21 ->
  exists r, find_entry buf name k n = Done r /\
    match r with
    | Some k' => 0 <= k' < 21 /\ head (filter (named name) (entry_at buf <$> seqZ k (Z.of_nat n))) = Some (entry_at buf k')
    | None => filter (named name) (entry_at buf <$> seqZ k (Z.of_nat n)) = []
    end.
Proof.
  intros Hb Hf Hl. revert k. induction n as [|n IH]; intros k Hk Hn; cbn [find_entry]; [by exists None|].
  rewrite (seqZ_cons k), fmap_cons, filter_cons by lia. replace (Z.pred (Z.of_nat (S n))) with (Z.of_nat n) by lia.
  change DIR_ENTRY_SIZE with 24. rewrite (streq_spec buf (24 * k) name 16) by (try lia; done). rewrite bind_done.
  change (cname (take 16 (drop (Z.to_nat (24 * k)) buf)) = name) with (named name (entry_at buf k)).
  case_bool_decide as E; [exists (Some k)|].
  - rewrite decide_True by done. split; [done|]. split; [lia|done].
  - rewrite decide_False by done. apply IH; lia.
Qed.

Section DirProofs.
Context {D A : Type} `{BlockDev D} `{Alloc A}.
Implicit Types s : fs (D := D) (A := A).

Lemma dblocks_length (d : D) i : length (dblocks d i) = 140%nat.
Proof. unfold dblocks. by rewrite length_fmap, length_seqZ. Qed.

Lemma dblocks_lookup (d : D) i j : 0 <= j < 140 -> dblocks d i !! Z.to_nat j = Some (dblock d i j).
Proof. intros Hj. unfold dblocks. rewrite list_lookup_fmap, lookup_seqZ_lt by lia. simpl. do 2 f_equal. lia. Qed.

Lemma dir_blocks_ok (d : D) i :
  bd_ok d -> length (i_sectors i) = 13%nat -> 0 <= indirect i <= max_lba ->
  exists d', dir_blocks d i = Done (d', dblocks d i) /\ bd_ok d' /\ forall k, bd_sector d' k = bd_sector d k.
Proof.
  intros Hd Hl Hi. unfold dir_blocks.
  destruct (copy_direct_ok i (replicate 140 0) 0 12) as (all & -> & Hla & Hall); [lia|lia|rewrite zeros_length; lia|]. rewrite bind_done.
  destruct (aget_in (i_sectors i) 12) as (t & Ht & ->); [lia|]. rewrite bind_done. rewrite zeros_length in Hla.
  assert (Et : indirect i = t) by (unfold indirect; change 12%nat with (Z.to_nat 12); by rewrite Ht).
  assert (Hdir : forall j, 0 <= j < 12 -> all !! Z.to_nat j = Some (dblock d i j)).
  { intros j Hj. rewrite Hall, decide_True by lia. unfold dblock. rewrite decide_False by lia. apply direct_block; lia. }
  destruct (Z.eqb_spec t 0) as [E0|E0]; cbn [negb].
  - exists d. split; [|done]. f_equal. f_equal. apply list_eq_same_length with 140%nat; [apply dblocks_length|done|].
    intros n x y Hn Hx Hy. pose proof (dblocks_lookup d i (Z.of_nat n) ltac:(lia)) as Hd'. rewrite Nat2Z.id in Hd'. destruct (decide (n < 12)%nat).
    + specialize (Hdir (Z.of_nat n) ltac:(lia)). rewrite Nat2Z.id in Hdir. congruence.
    + specialize (Hall (Z.of_nat n) ltac:(lia)). rewrite Nat2Z.id, decide_False in Hall by lia. rewrite lookup_replicate_2 in Hall by lia.
      unfold dblock in Hd'. rewrite decide_True in Hd' by lia. congruence.
  - destruct (load_table_ok d i all Hd Hl Hla Hi) as (d' & all' & -> & Hd' & Hs & Hl' & Hall'). exists d'. split; [|done]. f_equal. f_equal.
    apply list_eq_same_length with 140%nat; [apply dblocks_length|done|].
    intros n x y Hn Hx Hy. pose proof (dblocks_lookup d i (Z.of_nat n) ltac:(lia)) as Hdb. specialize (Hall' (Z.of_nat n) ltac:(lia)). rewrite Nat2Z.id in *.
    destruct (decide (Z.of_nat n < 12)).
    + specialize (Hdir (Z.of_nat n) ltac:(lia)). rewrite Nat2Z.id in Hdir. congruence.
    + unfold dblock in Hdb. rewrite decide_False in Hdb by lia. congruence.
Qed.

Lemma block_entries_ext (d d' : D) lba : (forall k, bd_sector d' k = bd_sector d k) -> block_entries d' lba = block_entries d lba.
Proof. intros Hs. unfold block_entries. by rewrite Hs. Qed.

Lemma search_blocks_ok (d : D) name l :
  bd_ok d -> Forall (fun c => c <> 0) name -> (length name < 16)%nat -> (forall b, b ∈ l -> b <> 0 -> 0 <= b <= max_lba) ->
  exists d', search_blocks d 21 name l = Done (d', head (filter (named name) (l ≫= block_entries d))) /\ bd_ok d' /\
    forall k, bd_sector d' k = bd_sector d k.
Proof.
  intros Hd Hf Hn. revert d Hd. induction l as [|b l IH]; intros d Hd Hl; cbn [search_blocks]; [by exists d|].
  rewrite bind_cons, filter_app. destruct (Z.eqb_spec b 0) as [->|Hb].
  - apply IH; [done|]. intros b Hb. apply Hl. by right.
  - destruct (bd_read_ok d b 1) as (d1 & -> & Hd1 & Hs1); [done|apply Hl; [by left|done]|lia|specialize (Hl b ltac:(by left) Hb); lia|].
    rewrite bind_done, sector_one. cbn [fst snd]. unfold block_entries at 1. rewrite decide_False by done.
    destruct (find_entry_spec (bd_sector d b) name 0 21) as (r & Hr & Hm); [by apply bd_sector_len|done|done|lia|lia|].
    change (Z.to_nat 21) with 21%nat. rewrite Hr, bind_done. fold (entries (bd_sector d b)) in Hm. change (Z.of_nat 21) with 21 in Hm.
    destruct r as [k|].
    + destruct Hm as [Hk Hm]. exists d1. split; [|done]. unfold entries. do 2 f_equal. destruct (filter (named name) (entry_at _ <$> _)); [done|]. by injection Hm as ->.
    + unfold entries. rewrite Hm. simpl. destruct (IH d1 Hd1) as (d2 & E & Hd2 & Hs2); [intros b' Hb'; apply Hl; by right|].
      exists d2. split; [|split; [done|intros k; rewrite Hs2; apply Hs1]]. rewrite E. do 4 f_equal.
      apply list_bind_ext; [|done]. intros x. by apply block_entries_ext.
Qed.

Lemma taken_lba s b : fs_ok s -> taken s b -> 0 < b <= max_lba.
Proof.
  intros Hs [Hr _]. destruct (fo_layout s Hs) as (L1 & L2 & L3 & L4 & L5 & L6 & L7 & L8 & L9 & L10). lia.
Qed.

Lemma dir_ok_blocks s i : fs_ok s -> dir_ok s i -> forall b, b ∈ dblocks (dsk s) i -> b <> 0 -> 0 <= b <= max_lba.
Proof.
  intros Hs Hd b (j & -> & Hj%elem_of_seqZ)%list_elem_of_fmap Hb. pose proof (taken_lba s _ Hs (dk_block _ _ Hd j ltac:(lia) Hb)). lia.
Qed.

Lemma dir_ok_indirect s i : fs_ok s -> dir_ok s i -> 0 <= indirect i <= max_lba.
Proof.
  intros Hs Hd. destruct (decide (indirect i = 0)) as [->|Hne]; [by change max_lba with 163839|].
  destruct (dk_table _ _ Hd Hne) as [[Hb _] _]. pose proof (data_block_lba s _ Hs Hb). lia.
Qed.

Lemma slots_ext (d d' : D) i : (forall k, bd_sector d' k = bd_sector d k) -> dblocks d' i = dblocks d i /\ slots d' i = slots d i.
Proof.
  intros Hs. assert (E : dblocks d' i = dblocks d i).
  { unfold dblocks. apply list_fmap_ext. intros n j _. unfold dblock. case_decide; [done|]. by apply file_block_ext. }
  split; [done|]. unfold slots. rewrite E. apply list_bind_ext; [|done]. intros b. by apply block_entries_ext.
Qed.

(** An entry that is not live has no name. *)
Lemma named_live s i name : dir_ok s i -> name <> [] ->
  filter (named name) (slots (dsk s) i) = filter (named name) (dir_list (dsk s) i).
Proof.
  intros Hd Hn. unfold dir_list. rewrite list_filter_filter. apply filter_ext_in. intros e He.
  split; [|tauto]. intros Hm. split; [done|]. destruct (decide (live e)) as [|Hl]; [done|]. destruct Hn.
  rewrite <- Hm. exact (dk_free _ _ Hd e He Hl).
Qed.

Lemma search_dir_entry_ok s p i name :
  fs_ok s -> inodes s !! p = Some i -> dir_ok s i -> can_alloc (mem s) [560; 512] ->
  Forall (fun c => c <> 0) name -> (0 < length name < 16)%nat ->
  exists s', search_dir_entry s p name = Done (head (filter (named name) (dir_list (dsk s) i)), s') /\ fs_ok s' /\ same_state s s'.
Proof.
  intros Hs Hi Hd (b1 & m1 & E1 & Hb1 & b2 & m2 & E2 & Hb2 & _) Hf Hn.
  destruct (buffers_ok (mem s) 560 512 b1 m1 b2 m2 (fo_mem s Hs) ltac:(lia) ltac:(lia) E1 Hb1 E2 Hb2) as (_ & _ & m3 & m4 & F2 & F1 & Hm4 & Hl4).
  unfold search_dir_entry. rewrite E1, bind_done. cbn [fst snd]. destruct (Z.eqb_spec b1 0); [done|]. unfold inode_at. rewrite Hi, bind_done.
  destruct (dir_blocks_ok (dsk s) i) as (d1 & -> & Hd1 & Hs1); [apply Hs|apply (dk_wf _ _ Hd)|by eapply dir_ok_indirect|].
  rewrite bind_done, E2, bind_done. cbn [fst snd]. destruct (Z.eqb_spec b2 0); [done|].
  unfold per_sec. rewrite (dk_entry _ _ Hd). change (512 / 24) with 21.
  destruct (search_blocks_ok d1 name (dblocks (dsk s) i)) as (d2 & -> & Hd2 & Hs2); [done|done|lia|by apply (dir_ok_blocks s)|].
  rewrite bind_done, F2, bind_done, F1, bind_done. cbn [fst snd].
  eexists. split; [|split].
  - do 3 f_equal. rewrite <- (named_live s i name Hd) by (by destruct name; simpl in *; [lia|]).
    f_equal. f_equal. unfold slots. apply list_bind_ext; [|done]. intros b. by apply block_entries_ext.
  - apply with_mem_ok; [by apply with_dsk_ok|done|]. intros q n' Hq. by apply Hl4.
  - exists d2, m4. split; [done|]. split; [|done]. intros k. by rewrite Hs2, Hs1.
Qed.

(** ** Reading *)
Lemma read_entries_spec buf kpos c k n :
  length buf = 512%nat -> 0 <= c <= kpos -> kpos < 2 ^ 20 -> 0 <= k -> k + Z.of_nat n <= 21 ->
  let l := filter live (entry_at buf <$> seqZ k (Z.of_nat n)) in
  read_entries buf 24 (24 * kpos) (24 * c) k n =
    Done (match l !! Z.to_nat (kpos - c) with Some e => inr e | None => inl (24 * (c + Z.of_nat (length l))) end).
Proof.
  intros Hb. revert c k. induction n as [|n IH]; intros c k Hc Hp Hk Hn; cbn [read_entries].
  - simpl. by rewrite Z.add_0_r.
  - rewrite (seqZ_cons k), fmap_cons, filter_cons by lia. replace (Z.pred (Z.of_nat (S n))) with (Z.of_nat n) by lia.
    change DIR_ENTRY_SIZE with 24. rewrite decide_True by lia. cbv zeta. fold (entry_at buf k). change FT_UNKNOWN with 0.
    destruct (Z.eqb_spec (f_type (entry_at buf k)) 0) as [E|E].
    + rewrite !decide_False by (intros Hn0; by apply Hn0). apply IH; lia.
    + rewrite !decide_True by done. destruct (Z.ltb_spec (24 * c) (24 * kpos)).
      * replace (24 * c + 24) with (24 * (c + 1)) by lia. rewrite u32_small by lia. rewrite IH by lia.
        replace (Z.to_nat (kpos - c)) with (S (Z.to_nat (kpos - (c + 1)))) by lia. cbn [length lookup list_lookup].
        by replace (c + 1 + Z.of_nat (length (filter live (entry_at buf <$> seqZ (Z.succ k) (Z.of_nat n))))) with
          (c + Z.of_nat (S (length (filter live (entry_at buf <$> seqZ (Z.succ k) (Z.of_nat n)))))) by lia.
      * assert (kpos = c) as -> by lia. rewrite Z.sub_diag. assert_ok; [done|]. lia.
Qed.

Lemma read_dir_blocks_ok (d : D) N kpos c l :
  bd_ok d -> (forall b, b ∈ l -> b <> 0 -> 0 <= b <= max_lba) -> 0 <= c <= kpos -> kpos < 2 ^ 20 ->
  exists d', read_dir_blocks d 24 21 (24 * N) (24 * kpos) (24 * c) l =
      Done (d', if decide (kpos < N) then filter live (l ≫= block_entries d) !! Z.to_nat (kpos - c) else None) /\ bd_ok d' /\
    forall k, bd_sector d' k = bd_sector d k.
Proof.
  intros Hd. revert d c Hd. induction l as [|b l IH]; intros d c Hd Hl Hc Hp; cbn [read_dir_blocks]; [exists d; by case_decide|].
  destruct (Z.leb_spec (24 * N) (24 * kpos)); [exists d; by rewrite decide_False by lia|]. rewrite decide_True by lia.
  assert (Hl' : forall b', b' ∈ l -> b' <> 0 -> 0 <= b' <= max_lba) by (intros b' Hb'; apply Hl; by right).
  rewrite bind_cons, filter_app. destruct (Z.eqb_spec b 0) as [->|Hb].
  - destruct (IH d c Hd Hl' Hc Hp) as (d' & E & ?). rewrite decide_True in E by lia. by exists d'.
  - destruct (bd_read_ok d b 1) as (d1 & -> & Hd1 & Hs1); [done|apply Hl; [by left|done]|lia|specialize (Hl b ltac:(by left) Hb); lia|].
    rewrite bind_done, sector_one. cbn [fst snd]. unfold block_entries at 1. rewrite decide_False by done. change (Z.to_nat 21) with 21%nat.
    rewrite read_entries_spec by (try lia; by apply bd_sector_len). fold (entries (bd_sector d b)). change (Z.of_nat 21) with 21.
    rewrite bind_done. fold (entries (bd_sector d b)). set (L := filter live (entries (bd_sector d b))).
    destruct (L !! Z.to_nat (kpos - c)) as [e|] eqn:E.
    + exists d1. split; [|done]. do 2 f_equal. symmetry. by apply lookup_app_l_Some.
    + apply lookup_ge_None_1 in E. destruct (IH d1 (c + Z.of_nat (length L)) Hd1 Hl' ltac:(lia) Hp) as (d2 & E2 & Hd2 & Hs2).
      exists d2. split; [|split; [done|intros k; rewrite Hs2; apply Hs1]]. rewrite E2, decide_True by lia. do 2 f_equal.
      rewrite lookup_app_r by lia. replace (l ≫= block_entries d1) with (l ≫= block_entries d) by (apply list_bind_ext; [|done]; intros x; symmetry; by apply block_entries_ext).
      f_equal. lia.
Qed.

(** Without an indirect table there are 12 blocks. *)
Lemma slots_direct (d : D) i : indirect i = 0 -> take 12 (dblocks d i) ≫= block_entries d = slots d i.
Proof.
  intros Hi. unfold slots. rewrite <- (take_drop 12 (dblocks d i)) at 2. rewrite bind_app.
  replace (drop 12 (dblocks d i) ≫= block_entries d) with ([] : list dir_entry); [by rewrite app_nil_r|].
  assert (Hz : Forall (fun b => b = 0) (drop 12 (dblocks d i))).
  { apply Forall_forall. intros b Hb. apply list_elem_of_lookup in Hb as [n Hb]. rewrite lookup_drop in Hb. pose proof (lookup_lt_Some _ _ _ Hb) as Hn.
    rewrite dblocks_length in Hn. rewrite <- (Nat2Z.id (12 + n)) in Hb. rewrite dblocks_lookup in Hb by lia. injection Hb as <-.
    unfold dblock. by rewrite decide_True by lia. }
  induction Hz as [|b l -> _ IH]; [done|]. by rewrite bind_cons, <- IH.
Qed.

Lemma dir_read_ok s ptr p i k :
  fs_ok s -> dir_at s ptr = Done (mk_dir p (24 * k)) -> inodes s !! p = Some i -> dir_ok s i -> 0 <= k < 2 ^ 20 ->
  exists d', (forall x, bd_sector d' x = bd_sector (dsk s) x) /\ bd_ok d' /\
    dir_read s ptr = match dir_list (dsk s) i !! Z.to_nat k with
      | Some e => Done (Some e, set_dir ptr (mk_dir p (24 * (k + 1))) (with_dsk d' s))
      | None => Done (None, with_dsk d' s)
      end.
Proof.
  intros Hs Hat Hi Hd Hk. unfold dir_read. rewrite Hat, bind_done. cbn [d_inode dir_pos]. unfold inode_at. rewrite Hi, bind_done.
  destruct (dir_blocks_ok (dsk s) i) as (d1 & -> & Hd1 & Hs1); [apply Hs|apply (dk_wf _ _ Hd)|by eapply dir_ok_indirect|]. rewrite bind_done.
  pose proof (dk_wf _ _ Hd) as (_ & _ & _ & _ & Hlen & _). destruct (aget_in (i_sectors i) 12) as (t & Ht & ->); [lia|]. rewrite bind_done.
  assert (Et : indirect i = t) by (unfold indirect; change 12%nat with (Z.to_nat 12); by rewrite Ht).
  unfold per_sec. rewrite (dk_entry _ _ Hd), (dk_size _ _ Hd). change (512 / 24) with 21. cbn [fst snd].
  destruct (slots_ext (dsk s) d1 i Hs1) as [_ Hsl].
  destruct (read_dir_blocks_ok d1 (Z.of_nat (length (dir_list (dsk s) i))) k 0 (take (if negb (t =? 0) then 140 else 12) (dblocks (dsk s) i)))
    as (d2 & E & Hd2 & Hs2); [done| |lia|lia|].
  { intros b Hb. apply (dir_ok_blocks s i Hs Hd). by eapply elem_of_take in Hb as (n & Hn & _); apply list_elem_of_lookup_2 in Hn. }
  change (24 * 0) with 0 in E. rewrite E, bind_done. cbn [fst snd]. exists d2. split_and!; [intros x; by rewrite Hs2, Hs1|done|].
  assert (EL : take (if negb (t =? 0) then 140 else 12) (dblocks (dsk s) i) ≫= block_entries d1 = slots (dsk s) i).
  { replace (dblocks (dsk s) i) with (dblocks d1 i) by apply (slots_ext (dsk s) d1 i Hs1). rewrite <- Hsl.
    destruct (Z.eqb_spec t 0); cbn [negb]; [by apply slots_direct; lia|]. rewrite take_ge; [done|]. by rewrite dblocks_length. }
  rewrite EL, Z.sub_0_r. fold (dir_list (dsk s) i).
  destruct (dir_list (dsk s) i !! Z.to_nat k) as [e|] eqn:EE; case_decide; try done.
  - rewrite u32_small by lia. do 4 f_equal. lia.
  - apply lookup_lt_Some in EE. lia.
Qed.

(** ** Properties *)

(** [search_dir_entry] finds the first entry of the directory with the given name,
    for a name of 1 to 15 characters; it changes neither the disk nor the blocks of
    memory in use. *)
Theorem search_dir_entry_first s p i name :
  fs_ok s -> inodes s !! p = Some i -> dir_ok s i -> can_alloc (mem s) [560; 512] ->
  Forall (fun c => c <> 0) name -> (0 < length name < 16)%nat ->
  exists s', search_dir_entry s p name = Done (head (filter (named name) (dir_list (dsk s) i)), s') /\ fs_ok s' /\ same_state s s'.
Proof. intros. by apply search_dir_entry_ok. Qed.

(** [dir_read] enumerates the directory: with the position after [k] entries it
    returns live entry number [k] of the directory and moves past it, whatever free
    entries and holes the blocks have; after the last it returns NULL. *)
Theorem dir_read_enumerates s ptr p i k :
  fs_ok s -> dir_at s ptr = Done (mk_dir p (24 * k)) -> inodes s !! p = Some i -> dir_ok s i -> 0 <= k < 2 ^ 20 ->
  exists s', dir_read s ptr = Done (dir_list (dsk s) i !! Z.to_nat k, s') /\ fs_ok s' /\
    (forall x, bd_sector (dsk s') x = bd_sector (dsk s) x) /\ inodes s' = inodes s /\ cur_part s' = cur_part s /\
    dir_at s' ptr = Done (mk_dir p (24 * (if decide (k < Z.of_nat (length (dir_list (dsk s) i))) then k + 1 else k))).
Proof.
  intros Hs Hat Hi Hd Hk. destruct (dir_read_ok s ptr p i k Hs Hat Hi Hd Hk) as (d' & Hsec & Hd' & ->).
  pose proof (with_dsk_ok s d' Hs Hd') as Hs'. case_decide as Hlt.
  - destruct (lookup_lt_is_Some_2 (dir_list (dsk s) i) (Z.to_nat k)) as [e ->]; [lia|]. eexists. split; [done|].
    destruct ptr; cbn [set_dir dir_at root_dir with_root dirs with_dirs]; rewrite ?lookup_insert_eq; by destruct Hs'.
  - rewrite lookup_ge_None_2 by lia. exists (with_dsk d' s). split_and!; done.
Qed.
End DirProofs.

(** ** Witnesses

    The partition of Inode with a root directory that holds ".", "..", and the file
    "foo" (inode 5) after a free entry. *)
Definition foo : list Z := [102; 111; 111].
Definition sample_entry (name : list Z) (no ty : Z) : dir_entry := mk_entry (name ++ replicate (16 - length name) 0) no ty.
Definition sample_entries : list Z :=
  entry_bytes (sample_entry dot 0 FT_DIRECTORY) ++ entry_bytes (sample_entry dotdot 0 FT_DIRECTORY) ++ replicate 24 0 ++
  entry_bytes (sample_entry foo 5 FT_REGULAR) ++ replicate 416 0.
Definition sample_root : inode := mk_inode 0 72 1 0 (2660 :: replicate 12 0).
Definition sample_dir_sectors : gmap Z (list Z) :=
  <[2660 := sample_entries]> (<[2052 := inode_bytes (pure sample_root) ++ replicate 304 0 ++ inode_bytes sample_inode ++ replicate 56 0]> sample_sectors).
Definition sample_dir_disk : disk :=
  mk_disk (mk_channel 0 0 0 0 0 0 false false 0 (fun k => if k =? 1 then sample_dir_sectors else ∅) (fun _ => []) sample_status) 0 1.
Definition sample_dir : fs (D := disk) (A := Heap.heap (P := Paging.vm)) :=
  mk_fs sample_dir_disk Heap.sample_heap2 {[sample_p := sample_root]}
    (mk_part 2048 4708 sample_sb (mk_bitmap 512 sample_bbits 0) (mk_bitmap 512 sample_ibits 0) [sample_p])
    (replicate 32 (mk_file 0 0 0)) ([0; 1; 2] ++ replicate 5 (-1)) (mk_dir sample_p 0) ∅ 0.

Lemma sample_root_wf : inode_wf sample_root.
Proof. unfold inode_wf, is_u32. simpl. split_and!; try done; lia || (repeat constructor; lia). Qed.

Lemma sample_dir_fs_ok : fs_ok sample_dir.
Proof.
  destruct Heap.sample_heap2_ok as [Hh Hl].
  constructor; [|exact Hh|exact (fo_layout _ sample_fs_ok)|exact (fo_bitmaps _ sample_fs_ok)|].
  - split; [done|]. split; [by right|]. split; [exists 2%nat; vm_compute; reflexivity|]. split; [done|].
    intros lba c Hc. change (sample_dir_sectors !! lba = Some c) in Hc. unfold sample_dir_sectors, sample_sectors in Hc.
    repeat (apply lookup_insert_Some in Hc as [[_ <-]|[_ Hc]]; [vm_compute; reflexivity|]). by apply lookup_empty_Some in Hc.
  - split_and!.
    + apply NoDup_singleton.
    + intros p Hp. change (p ∈ [sample_p]) in Hp. apply list_elem_of_singleton in Hp as ->.
      exists sample_root, 32. split_and!; try done. exact sample_root_wf.
    + intros p q i j Hp Hq _ _ _. change (p ∈ [sample_p]) in Hp. change (q ∈ [sample_p]) in Hq.
      apply list_elem_of_singleton in Hp as ->, Hq as ->. done.
Qed.

Lemma sample_dblock j : 0 <= j < 140 -> dblock (dsk sample_dir) sample_root j = if decide (j = 0) then 2660 else 0.
Proof.
  intros Hj. apply Z.eqb_eq. revert j Hj. apply (forall_seqZ (fun j => dblock (dsk sample_dir) sample_root j =? if decide (j = 0) then 2660 else 0) 140).
  vm_compute. reflexivity.
Qed.

Lemma sample_dir_ok : dir_ok sample_dir sample_root.
Proof.
  constructor; [exact sample_root_wf|done|vm_compute; reflexivity| |done|done| | |].
  - assert (Hf : forallb (fun e => bool_decide (live e) || bool_decide (cname (filename e) = [])) (slots (dsk sample_dir) sample_root) = true) by (vm_compute; reflexivity).
    intros e He Hl. rewrite List.forallb_forall in Hf. specialize (Hf e ltac:(by apply list_elem_of_In)).
    rewrite bool_decide_false in Hf by done. by apply bool_decide_eq_true_1 in Hf.
  - intros j Hj. rewrite sample_dblock by done. case_decide; [|done]. intros _. split; [by vm_compute|]. split; [by vm_compute|vm_compute; reflexivity].
  - intros j Hj. rewrite sample_dblock by done. case_decide.
    + intros _. exists (sample_entry dot 0 FT_DIRECTORY). split; [|done]. apply list_elem_of_lookup. exists 0%nat. vm_compute. reflexivity.
    + intros [E|(e & He & _)]; [done|]. by apply elem_of_nil in He.
  - intros j k Hj Hk. rewrite !sample_dblock by done. repeat case_decide; done || lia.
Qed.

Lemma search_dir_entry_first_witness :
  exists s', search_dir_entry sample_dir sample_p foo = Done (Some (sample_entry foo 5 FT_REGULAR), s').
Proof.
  destruct (search_dir_entry_first sample_dir sample_p sample_root foo) as (s' & E & _).
  - exact sample_dir_fs_ok.
  - apply lookup_singleton_eq.
  - exact sample_dir_ok.
  - apply can_allocb_sound. vm_compute. reflexivity.
  - repeat constructor; done.
  - simpl. lia.
  - exists s'. rewrite E. reflexivity.
Defined.

Lemma dir_read_enumerates_witness :
  exists s', dir_read sample_dir RootDir = Done (Some (sample_entry dot 0 FT_DIRECTORY), s') /\ dir_at s' RootDir = Done (mk_dir sample_p 24).
Proof.
  destruct (dir_read_enumerates sample_dir RootDir sample_p sample_root 0) as (s' & E & _ & _ & _ & _ & Ha).
  - exact sample_dir_fs_ok.
  - reflexivity.
  - apply lookup_singleton_eq.
  - exact sample_dir_ok.
  - lia.
  - exists s'. rewrite E. split; [reflexivity|]. rewrite Ha. reflexivity.
Defined.
