(* ===== verification/Node.v ===== *)
(** * Inodes by number (fs/inode.c, fs/dir.c: what opening and closing leave as it was)

    The calls on paths open inodes and directories for a while and close them again.
    [inode_of] says which inode a number stands for, whether it is in memory or on disk;
    [calm] relates states that differ in nothing a caller can see: the registers of the
    disk and the bookkeeping of the heap. [opening] and [opening_dir] are opening an inode
    and a directory together with what closing gives back. *)
From stdpp Require Import base numbers list option tactics gmap fin_maps.
From Stdlib Require Import ZArith Lia.
From S2P Require Import Prelude Bitmap Ide Iface Inode File FileIo Dir.

(** ** Memory that suffices *)
Section Room.
Context {A : Type} `{Alloc A}.

Definition same_live (m m' : A) : Prop := forall q n, al_live m' q n <-> al_live m q n.

(** Any [k] requests of at most 1024 bytes can be served one after the other, as often as
    the blocks of memory in use are those of [m] again. *)
Fixpoint room (k : nat) (m : A) : Prop :=
  match k with
  | O => True
  | S k => forall m' size, al_ok m' -> same_live m m' -> 0 < size <= 1024 -> exists p m1, al_malloc m' size = Done (p, m1) /\ p <> 0 /\ room k m1
  end.

Lemma same_live_trans m m' m'' : same_live m m' -> same_live m' m'' -> same_live m m''.
Proof. unfold same_live. intros H1 H2 q n. by rewrite H2, H1. Qed.

Lemma room_live k m m' : room k m -> same_live m m' -> room k m'.
Proof. destruct k as [|k]; [done|]. intros Hr Hl x size Hx Hs. apply Hr; [done|by eapply same_live_trans]. Qed.

Lemma room_less k j m : (j <= k)%nat -> room k m -> room j m.
Proof.
  revert j m. induction k as [|k IH]; intros [|j] m Hj Hr; [done|lia|done|]. intros m' size Hm Hl Hs.
  destruct (Hr m' size Hm Hl Hs) as (p & m1 & ? & ? & ?). exists p, m1. split_and!; [done|done|apply IH; [lia|done]].
Qed.

Lemma room_alloc k m sizes : al_ok m -> room k m -> (length sizes <= k)%nat -> Forall (fun n => 0 < n <= 1024) sizes -> can_alloc m sizes.
Proof.
  revert m k. induction sizes as [|n sizes IH]; intros m [|k] Hm Hr Hk Hs; cbn [length] in Hk; try done; try lia. apply Forall_cons in Hs as [Hn Hs].
  destruct (Hr m n Hm ltac:(by intros ??) Hn) as (p & m1 & E & Hp & Hr1). exists p, m1. split; [done|]. split; [done|].
  destruct (al_malloc_ok m n Hm ltac:(lia)) as (p' & m1' & E' & Hm1 & _). rewrite E in E'. injection E' as <- <-. apply (IH m1 k); [by apply Hm1; left|done|lia|done].
Qed.
End Room.

Section Node.
Context {D A : Type} `{BlockDev D} `{Alloc A}.
Implicit Types s : fs (D := D) (A := A).

(** ** Which inode a number stands for *)
Definition inode_of s (k : Z) (i : inode) : Prop :=
  i_no i = k /\ ((exists p j, p ∈ open_inodes (cur_part s) /\ inodes s !! p = Some j /\ pure j = pure i) \/ (~ is_open s k /\ slot_holds s i)).

(** The numbers of users stay below [b]. *)
Definition users_below s (b : Z) : Prop := forall p i, p ∈ open_inodes (cur_part s) -> inodes s !! p = Some i -> i_open_cnts i < b.

(** ** States that look the same *)

(** The partition but for the list of open inodes. *)
Definition same_part (p p' : partition) : Prop := mk_part (start_lba p') (sec_cnt p') (sb p') (block_bitmap p') (inode_bitmap p') (open_inodes p) = p.

(** What a caller sees beside open inodes and directories, and which inode a number
    stands for. *)
Record keeps s s' : Prop := {
  kp_sec : forall k, bd_sector (dsk s') k = bd_sector (dsk s) k;
  kp_part : same_part (cur_part s) (cur_part s');
  kp_files : file_table s' = file_table s;
  kp_fds : fd_table s' = fd_table s;
  kp_root : root_dir s' = root_dir s;
  kp_cwd : cwd_inode_nr s' = cwd_inode_nr s;
  kp_node : forall k i, inode_of s k i -> inode_of s' k i
}.

(** The same open inodes with the same users, the same blocks of memory. *)
Record still s s' : Prop := {
  st_sec : forall k, bd_sector (dsk s') k = bd_sector (dsk s) k;
  st_part : cur_part s' = cur_part s;
  st_inodes : forall p, p ∈ open_inodes (cur_part s) -> inodes s' !! p = inodes s !! p;
  st_live : same_live (mem s) (mem s');
  st_files : file_table s' = file_table s;
  st_fds : fd_table s' = fd_table s;
  st_root : root_dir s' = root_dir s;
  st_cwd : cwd_inode_nr s' = cwd_inode_nr s
}.

(** And the same open directories. *)
Definition calm s s' : Prop := still s s' /\ forall q n, al_live (mem s) q n -> dirs s' !! q = dirs s !! q.

Lemma same_part_refl p : same_part p p.
Proof. by destruct p. Qed.

Lemma same_part_trans p q r : same_part p q -> same_part q r -> same_part p r.
Proof. unfold same_part. destruct p, q, r. simpl. congruence. Qed.

Lemma still_refl s : still s s.
Proof. by constructor. Qed.

Lemma still_trans s s1 s2 : still s s1 -> still s1 s2 -> still s s2.
Proof.
  intros [A1 A2 A3 A4 A5 A6 A7 A8] [B1 B2 B3 B4 B5 B6 B7 B8]. constructor; [intros k; by rewrite B1|congruence| |by eapply same_live_trans|congruence..].
  intros p Hp. rewrite B3 by (by rewrite A2). by apply A3.
Qed.

Lemma calm_refl s : calm s s.
Proof. split; [apply still_refl|done]. Qed.

Lemma calm_trans s s1 s2 : calm s s1 -> calm s1 s2 -> calm s s2.
Proof.
  intros [A1 A2] [B1 B2]. split; [by eapply still_trans|]. intros q n Hq. rewrite (B2 q n); [by eapply A2|]. by apply (st_live _ _ A1).
Qed.

Lemma still_open s s' k : still s s' -> is_open s' k <-> is_open s k.
Proof.
  intros Hc. unfold is_open. rewrite (st_part _ _ Hc). split; intros (p & i & Hp & Hi & Hk); exists p, i; (split; [done|]; split; [|done]).
  - by rewrite <- (st_inodes _ _ Hc).
  - by rewrite (st_inodes _ _ Hc).
Qed.

Lemma slot_holds_ext s s' i : (forall k, bd_sector (dsk s') k = bd_sector (dsk s) k) -> sb (cur_part s') = sb (cur_part s) -> slot_holds s i -> slot_holds s' i.
Proof.
  intros Hs Hb (H1 & H2 & H3). split_and!; [done|done|]. intros x Hx. unfold dbyte, slot. rewrite Hs, Hb. by apply H3.
Qed.

Lemma still_node s s' k i : still s s' -> inode_of s k i -> inode_of s' k i.
Proof.
  intros Hc [Hk [(p & j & Hp & Hj & E)|[Hno Hsl]]]; (split; [done|]).
  - left. exists p, j. rewrite (st_part _ _ Hc), (st_inodes _ _ Hc) by done. done.
  - right. split; [by rewrite (still_open s s')|]. apply (slot_holds_ext s); [apply (st_sec _ _ Hc)|by rewrite (st_part _ _ Hc)|done].
Qed.

Lemma still_keeps s s' : still s s' -> keeps s s'.
Proof.
  intros Hc. pose proof Hc as [? Hp ? ? ? ? ? ?]. constructor; try done; [rewrite Hp; apply same_part_refl|].
  intros k i. by apply still_node.
Qed.

Lemma keeps_trans s s1 s2 : keeps s s1 -> keeps s1 s2 -> keeps s s2.
Proof.
  intros [A1 A2 A3 A4 A5 A6 A7] [B1 B2 B3 B4 B5 B6 B7]. constructor; [intros k; by rewrite B1|by eapply same_part_trans|congruence..|auto].
Qed.

Lemma users_still s s' b : still s s' -> users_below s b -> users_below s' b.
Proof. intros Hc Hu p i Hp Hi. rewrite (st_part _ _ Hc) in Hp. rewrite (st_inodes _ _ Hc) in Hi by done. by eapply Hu. Qed.

(** A search in a directory leaves the state calm. *)
Lemma same_state_calm s s' : same_state s s' -> calm s s'.
Proof. intros (d & m & -> & Hs & Hl). split; [by constructor|done]. Qed.
(** ** Opening an inode *)
Lemma pure_no i j : pure i = pure j -> i_no i = i_no j /\ i_size i = i_size j /\ i_sectors i = i_sectors j.
Proof. unfold pure. by intros [= -> -> ->]. Qed.

Lemma pure_cnts c i : pure (with_cnts c i) = pure i.
Proof. done. Qed.

Lemma pure_opened i : pure (opened i) = pure i.
Proof. done. Qed.

(** An inode that is open is the one its number stands for. *)
Lemma open_node s p i k j : fs_ok s -> p ∈ open_inodes (cur_part s) -> inodes s !! p = Some i -> i_no i = k -> inode_of s k j -> pure i = pure j.
Proof.
  intros Hs Hp Hi Hk [Hj [(q & i' & Hq & Hi' & E)|[Hno _]]]; [|destruct Hno; by exists p, i].
  destruct (pure_no _ _ E) as (E1 & _). destruct (fo_open s Hs) as (_ & _ & Hinj). assert (q = p) as -> by (eapply Hinj; eauto; congruence). congruence.
Qed.

Lemma set_cnts_node s p i c k j : fs_ok s -> p ∈ open_inodes (cur_part s) -> inodes s !! p = Some i -> inode_of s k j -> inode_of (set_inode p (with_cnts c i) s) k j.
Proof.
  intros Hs Hp Hi [Hk Hn]. split; [done|]. destruct Hn as [(q & i' & Hq & Hi' & E)|[Hno Hsl]].
  - left. destruct (decide (q = p)) as [->|Hne].
    + exists p, (with_cnts c i). cbn [inodes set_inode with_inodes cur_part]. rewrite lookup_insert_eq. assert (i' = i) as -> by congruence. done.
    + exists q, i'. cbn [inodes set_inode with_inodes cur_part]. by rewrite lookup_insert_ne.
  - right. split; [|done]. intros (q & i' & Hq & Hi' & E). cbn [inodes set_inode with_inodes cur_part] in *. apply Hno.
    apply lookup_insert_Some in Hi' as [[<- <-]|[_ Hi']]; [by exists p, i|by exists q, i'].
Qed.

(** What holds of the state behind [inode_open], and closing. *)
Record opens s (i : inode) (p : Z) s1 : Prop := {
  op_ok : fs_ok s1;
  op_in : p ∈ open_inodes (cur_part s1);
  op_inode : exists j, inodes s1 !! p = Some j /\ pure j = pure i;
  op_keeps : keeps s s1;
  op_dirs : dirs s1 = dirs s;
  op_live : forall q n, al_live (mem s) q n -> al_live (mem s1) q n;
  op_room : forall r, room (S r) (mem s) -> room r (mem s1);
  op_users : forall b, 2 <= b -> users_below s b -> users_below s1 (b + 1);
  op_close : forall s2, fs_ok s2 -> still s1 s2 -> exists s3, inode_close s2 p = Done s3 /\ fs_ok s3 /\ still s s3 /\ dirs s3 = dirs s2
}.

(** The inode is in memory. *)
Lemma opens_hit s p i k j :
  fs_ok s -> p ∈ open_inodes (cur_part s) -> inodes s !! p = Some i -> i_no i = k -> pure i = pure j -> i_open_cnts i < 2 ^ 32 - 1 ->
  exists s1, inode_open s k = Done (p, s1) /\ opens s j p s1.
Proof.
  intros Hs Hp Hi <- E Hc. pose proof (open_entry s p Hs Hp) as (i' & n & Hi' & Hw & Hk & Hc0 & Hlv & Hp0). assert (i' = i) as -> by congruence.
  rewrite (inode_open_hit s p i Hs Hp Hi), u32_small by lia. eexists. split; [done|].
  assert (Hw' : inode_wf (with_cnts (i_open_cnts i + 1) i)) by (destruct Hw as (? & ? & ? & ? & ? & ?); unfold inode_wf, is_u32 in *; simpl; split_and!; try done; lia).
  assert (Hok : fs_ok (set_inode p (with_cnts (i_open_cnts i + 1) i) s)) by (eapply set_inode_ok; eauto; cbn [i_open_cnts with_cnts]; lia).
  constructor; try done.
  - exists (with_cnts (i_open_cnts i + 1) i). split; [apply lookup_insert_eq|done].
  - constructor; [done|apply same_part_refl|done|done|done|done|]. intros k j'. by apply set_cnts_node.
  - intros r Hr. by apply (room_less (S r)); [lia|].
  - intros b Hb Hu q i' Hq Hi2. cbn [inodes set_inode with_inodes cur_part] in *. apply lookup_insert_Some in Hi2 as [[<- <-]|[_ Hi2]].
    + specialize (Hu p i Hp Hi). cbn [i_open_cnts with_cnts]. lia.
    + specialize (Hu q i' Hq Hi2). lia.
  - intros s2 Hs2 Hst. assert (Hi2 : inodes s2 !! p = Some (with_cnts (i_open_cnts i + 1) i)) by (rewrite (st_inodes _ _ Hst p Hp); apply lookup_insert_eq).
    rewrite (inode_close_more s2 p _ Hi2) by (cbn [i_open_cnts with_cnts]; lia). eexists. split; [done|].
    cbn [with_cnts i_open_cnts i_no i_size write_deny i_sectors]. replace (i_open_cnts i + 1 - 1) with (i_open_cnts i) by lia.
    assert (Ei : with_cnts (i_open_cnts i) (with_cnts (i_open_cnts i + 1) i) = i) by (by destruct i).
    unfold with_cnts in *. cbn [i_open_cnts i_no i_size write_deny i_sectors] in *. rewrite Ei.
    split; [eapply set_inode_ok; eauto|]. split; [|done]. destruct Hst as [T1 T2 T3 T4 T5 T6 T7 T8]. constructor; try done.
    intros q Hq. cbn [inodes set_inode with_inodes]. destruct (decide (q = p)) as [->|Hne]; [by rewrite lookup_insert_eq, Hi|].
    rewrite lookup_insert_ne by done. rewrite T3 by done. cbn [inodes set_inode with_inodes]. by rewrite lookup_insert_ne.
Qed.

(** A slot of the table holds one inode. *)
Lemma slot_holds_fun s i j : slot_holds s i -> slot_holds s j -> i_no i = i_no j -> pure i = pure j.
Proof.
  intros (Wi & _ & Hi) (Wj & _ & Hj) E. pose proof Wi as (_ & _ & _ & _ & Li & _). pose proof Wj as (_ & _ & _ & _ & Lj & _).
  rewrite <- (bytes_inode_bytes (pure i)) by (by apply pure_wf). rewrite <- (bytes_inode_bytes (pure j)) by (by apply pure_wf). f_equal.
  apply list_eq_same_length with 76%nat; [by apply inode_bytes_length|by apply inode_bytes_length|]. intros n x y Hn Hx Hy.
  specialize (Hi (Z.of_nat n) ltac:(lia)). specialize (Hj (Z.of_nat n) ltac:(lia)). rewrite E, Hj, Nat2Z.id, Hx, Hy in Hi. simpl in Hi. congruence.
Qed.

(** The inode is on disk only. *)
Lemma opens_miss s j :
  fs_ok s -> slot_holds s j -> ~ is_open s (i_no j) -> room 2 (mem s) -> exists p s1, inode_open s (i_no j) = Done (p, s1) /\ opens s j p s1.
Proof.
  intros Hs Hj Hno Hr. pose proof Hj as (Hw & Hk & _).
  destruct (inode_open_reads s j Hs Hj Hno) as (p & n & d' & m' & Ho & Hp & Hd & Hsec & Hm & _ & Hlv & Hf & m1 & Hm1 & Hsl).
  { apply (room_alloc 2); [apply Hs|done|done|]. repeat constructor; try lia; by destruct (straddles _). }
  pose proof (inode_open_miss_ok s j p n d' m' Hs Hw Hk Hno Hp Hd Hm Hlv Hf) as Hok. rewrite Ho. set (s1 := with_mem m' _) in *. exists p, s1. split; [done|].
  assert (Hnp : p ∉ open_inodes (cur_part s)) by (intros Hin; destruct (open_entry s p Hs Hin) as (? & ? & _ & _ & _ & _ & ? & _); by eapply Hf).
  assert (Hi1 : inodes s1 !! p = Some (opened j)) by apply lookup_insert_eq.
  assert (Hi2 : forall q, q ∈ open_inodes (cur_part s) -> inodes s1 !! q = inodes s !! q) by (intros q Hq; apply lookup_insert_ne; congruence).
  constructor; [done|by left|by exists (opened j)| |done|intros; apply Hlv; by left| | |].
  - constructor; try done; [unfold same_part, s1; cbn [cur_part with_mem with_dsk set_inode with_inodes with_open with_part open_inodes start_lba sec_cnt sb block_bitmap inode_bitmap]; by destruct (cur_part s)|]. intros k i [E Hn]. split; [done|]. destruct Hn as [(q & i' & Hq & Hi' & Ei)|[Hnk Hsli]].
    + left. exists q, i'. rewrite Hi2 by done. split; [by right|done].
    + destruct (decide (k = i_no j)) as [->|Hne].
      * left. exists p, (opened j). split; [by left|]. split; [done|]. rewrite pure_opened. by apply (slot_holds_fun s).
      * right. split; [|by apply (slot_holds_ext s)]. intros (q & i' & [->|Hq]%elem_of_cons & Hi' & Ei); [rewrite Hi1 in Hi'; injection Hi' as <-; by apply Hne|].
        apply Hnk. exists q, i'. by rewrite <- Hi2.
  - intros r Hrr. destruct (Hrr (mem s) 76 (fo_mem s Hs) ltac:(by intros ??) ltac:(lia)) as (p' & m1' & E & _ & Hr1). rewrite Hm1 in E. injection E as <- <-.
    by apply (room_live r m1).
  - intros b Hb Hu q i [->|Hq]%elem_of_cons Hi; [rewrite Hi1 in Hi; injection Hi as <-; cbn [opened i_open_cnts]; lia|].
    rewrite Hi2 in Hi by done. specialize (Hu q i Hq Hi). lia.
  - intros s2 Hs2 [T1 T2 T3 T4 T5 T6 T7 T8].
    destruct (inode_close_last s2 p (opened j) Hs2) as (m3 & -> & Hs3 & Hl3); [rewrite T2; by left|rewrite T3; [done|by left]|done|].
    eexists. split; [done|]. split; [done|]. split; [|done]. constructor; try done.
    + intros k. rewrite <- Hsec. apply T1.
    + cbn [cur_part with_mem with_inodes with_open with_part]. rewrite T2. unfold s1. cbn [cur_part with_mem with_dsk set_inode with_inodes with_open with_part open_inodes start_lba sec_cnt sb block_bitmap inode_bitmap].
      rewrite filter_head by done. by destruct (cur_part s).
    + intros q Hq. cbn [inodes with_mem with_inodes]. rewrite lookup_delete_ne by congruence. rewrite T3 by (by right). by apply Hi2.
    + intros q n'. cbn [mem with_mem]. rewrite Hl3, (T4 q n'). change (mem s1) with m'. rewrite Hlv. split; [tauto|]. intros Hq. split; [by left|by eapply Hf].
Qed.

(** Opening the inode of a number. *)
Lemma opening s k i :
  fs_ok s -> inode_of s k i -> users_below s (2 ^ 32 - 1) -> room 2 (mem s) -> exists p s1, inode_open s k = Done (p, s1) /\ opens s i p s1.
Proof.
  intros Hs [Hk [(p & j & Hp & Hj & E)|[Hno Hsl]]] Hu Hr; [|subst k; by apply opens_miss].
  destruct (pure_no _ _ E) as (En & _). destruct (opens_hit s p j k i) as (s1 & ? & ?); [done..|congruence|done|by apply (Hu p)|]. by exists p, s1.
Qed.

(** ** Opening a directory *)

(** A block that no open inode is in is freed. *)
Lemma freed_ok s b m' :
  fs_ok s -> al_ok m' -> b ∉ open_inodes (cur_part s) -> (forall q n, al_live m' q n <-> al_live (mem s) q n /\ q <> b) -> fs_ok (with_mem m' s).
Proof.
  intros Hs Hm Hb Hl. constructor; [exact (fo_disk s Hs)|done|exact (fo_layout s Hs)|exact (fo_bitmaps s Hs)|].
  destruct (fo_open s Hs) as (H1 & H2 & H3). split_and!; [exact H1| |exact H3].
  intros p Hp. destruct (H2 p Hp) as (i & n & ? & ? & ? & ? & ? & ?). exists i, n. split_and!; try done. cbn [mem with_mem]. apply Hl. split; [done|intros ->; by apply Hb].
Qed.

Record opens_dir s (i : inode) (b : Z) s1 : Prop := {
  od_ok : fs_ok s1;
  od_at : exists p j, dir_at s1 (HeapDir b) = Done (mk_dir p 0) /\ p ∈ open_inodes (cur_part s1) /\ inodes s1 !! p = Some j /\ pure j = pure i;
  od_live : exists n, al_live (mem s1) b n;
  od_keeps : keeps s s1;
  od_room : forall r, room (S (S r)) (mem s) -> room r (mem s1);
  od_users : forall c, 2 <= c -> users_below s c -> users_below s1 (c + 1);
  od_close : forall s2, fs_ok s2 -> calm s1 s2 -> exists s3, dir_close s2 (HeapDir b) = Done s3 /\ fs_ok s3 /\ calm s s3
}.

Lemma opening_dir s k i :
  fs_ok s -> inode_of s k i -> users_below s (2 ^ 32 - 1) -> room 3 (mem s) -> exists b s1, dir_open s k = Done (HeapDir b, s1) /\ opens_dir s i b s1.
Proof.
  intros Hs Hi Hu Hr. destruct (Hr (mem s) 520 (fo_mem s Hs) ltac:(by intros ??) ltac:(lia)) as (b & m0 & Hm0 & Hb & Hr0).
  destruct (al_malloc_ok (mem s) 520 (fo_mem s Hs) ltac:(lia)) as (b' & m0' & E & Hok & _ & Hlv). rewrite Hm0 in E. injection E as <- <-.
  specialize (Hok (or_introl Hb)). destruct (Hlv Hb) as (n & _ & Hl & Hf). clear Hlv.
  assert (Hs0 : fs_ok (with_mem m0 s)) by (apply with_mem_ok; [done|done|intros; apply Hl; by left]).
  destruct (opening (with_mem m0 s) k i Hs0 Hi Hu Hr0) as (p & s1 & Ho & [K1 K2 (j & Hj & Ej) K4 K5 K6 K7 K8 K9]). unfold dir_open. rewrite Hm0, bind_done. cbn [fst snd].
  rewrite Ho, bind_done. destruct (Z.eqb_spec b 0); [done|]. cbn [fst snd]. set (s1' := set_dir (HeapDir b) (mk_dir p 0) s1). exists b, s1'. split; [done|].
  assert (Hbm : al_live (mem s1) b n) by (apply K6; apply Hl; by right).
  assert (Hnb : b ∉ open_inodes (cur_part s)) by (intros Hin; destruct (open_entry s b Hs Hin) as (? & ? & _ & _ & _ & _ & ? & _); by eapply Hf).
  assert (Hs1 : fs_ok s1') by (destruct K1; by constructor).
  constructor; [done| |by exists n| | |done|].
  - exists p, j. unfold dir_at, s1'. cbn [set_dir dirs with_dirs inodes cur_part]. by rewrite lookup_insert_eq.
  - destruct K4 as [A1 A2 A3 A4 A5 A6 A7]. by constructor.
  - intros r Hrr. apply K7. destruct (Hrr (mem s) 520 (fo_mem s Hs) ltac:(by intros ??) ltac:(lia)) as (b' & m0' & E & _ & Hr1). rewrite Hm0 in E. by injection E as <- <-.
  - intros s2 Hs2 [Hst Hdr]. assert (Hd2 : dirs s2 !! b = Some (mk_dir p 0)) by (rewrite (Hdr b n Hbm); apply lookup_insert_eq).
    unfold dir_close, dir_at. rewrite Hd2, bind_done. cbn [d_inode].
    destruct (K9 s2 Hs2) as (s3 & -> & Hs3 & Hst3 & Hdr3); [destruct Hst; by constructor|]. rewrite bind_done.
    destruct (al_free_ok (mem s3) b n (fo_mem s3 Hs3)) as (m4 & -> & Hm4 & Hl4); [apply (st_live _ _ Hst3); apply Hl; by right|]. rewrite bind_done.
    eexists. split; [done|]. destruct Hst3 as [T1 T2 T3 T4 T5 T6 T7 T8]. split; [|split; [constructor; try done|]].
    + assert (Hs4 : fs_ok (with_mem m4 s3)) by (apply (freed_ok s3 b); [done|done|by rewrite T2|done]). destruct Hs4; by constructor.
    + intros q n'. cbn [mem with_mem]. rewrite Hl4, (T4 q n'). cbn [mem with_mem]. rewrite Hl. split; [intros [[?|[-> _]] ?]; done|]. intros Hq. split; [by left|by eapply Hf].
    + intros q n' Hq. cbn [dirs with_mem with_dirs]. pose proof (Hf q n' Hq). rewrite lookup_delete_ne by done. rewrite Hdr3, (Hdr q n') by (apply K6, Hl; by left).
      unfold s1'. cbn [set_dir dirs with_dirs]. rewrite lookup_insert_ne by done. by rewrite K5.
Qed.

(** ** A directory seen through another state *)
Lemma same_part_fields p p' :
  same_part p p' -> start_lba p' = start_lba p /\ sec_cnt p' = sec_cnt p /\ sb p' = sb p /\ block_bitmap p' = block_bitmap p.
Proof. unfold same_part. by intros <-. Qed.

Lemma dir_ok_ext s s' i j :
  dir_ok s i -> (forall k, bd_sector (dsk s') k = bd_sector (dsk s) k) -> same_part (cur_part s) (cur_part s') -> inode_wf j -> pure j = pure i ->
  dir_ok s' j /\ dir_list (dsk s') j = dir_list (dsk s) i.
Proof.
  intros [A1 A2 A3 A4 A5 A6 A7 A8 A9] Hsec Hp Hw Hj. destruct (pure_no _ _ Hj) as (_ & Ez & Es).
  assert (Eb : forall n, dblock (dsk s') j n = dblock (dsk s) i n) by (intros n; unfold dblock, file_block, indirect; by rewrite Es, Hsec).
  assert (Ei : indirect j = indirect i) by (unfold indirect; by rewrite Es).
  assert (El : slots (dsk s') j = slots (dsk s) i).
  { unfold slots, dblocks. rewrite (list_fmap_ext (dblock (dsk s') j) (dblock (dsk s) i)) by (intros; apply Eb).
    apply list_bind_ext; [|done]. intros b. by apply block_entries_ext. }
  assert (Ed : dir_list (dsk s') j = dir_list (dsk s) i) by (unfold dir_list; by rewrite El).
  assert (Hh : forall b nm, has_entry (dsk s') b nm <-> has_entry (dsk s) b nm) by (intros b nm; unfold has_entry; by rewrite (block_entries_ext (dsk s) (dsk s')) by done).
  destruct (same_part_fields _ _ Hp) as (P1 & P2 & P3 & P4).
  split; [|done]. constructor.
  - done.
  - by rewrite P3.
  - by rewrite Ez, Ed.
  - by rewrite El.
  - rewrite Ei. intros Hn. destruct (A5 Hn) as [B1 B2]. split; [|intros n Hn'; rewrite Eb; by apply B2].
    unfold used_block, data_block in *. by rewrite P1, P2, P3, P4.
  - by rewrite Ei, Eb.
  - intros n Hn. rewrite Eb. intros Hb. specialize (A7 n Hn Hb). unfold taken in *. by rewrite P1, P2, P3, P4.
  - intros n Hn. rewrite !Eb, !Hh, P3. by apply A8.
  - intros a b Ha Hb. rewrite !Eb. by apply A9.
Qed.
End Node.
