(* ===== verification/Stock.v ===== *)
(** * A heap with pages in stock (kernel/memory.c)

    The heap returns a page as soon as the last block in it is freed, so the pages it
    holds are determined by the blocks in use. A heap that could once get [k] more pages
    can serve [k] small requests whenever the same blocks are in use again, whatever was
    allocated and freed in between: [stock_room]. For the kernel's heap the pages are those
    that are free in both the virtual and the physical pool. *)
From stdpp Require Import base numbers list option tactics gmap fin_maps.
From Stdlib Require Import ZArith Lia.
From S2P Require Import Prelude Bitmap Sched Paging PageAlloc Heap Iface Node.

(** ** Page allocators that can be counted on *)
Class PageCount (P : Type) `{PageStore P} := {
  ps_free : P -> Z;
  pc_nonneg : forall p, 0 <= ps_free p;
  pc_one : forall p v p', ps_ok p -> 0 < ps_free p -> ps_malloc_page p 1 = Done (v, p') -> v <> 0;
  pc_malloc : forall p n v p', ps_ok p -> 0 < n < 3840 -> ps_malloc_page p n = Done (v, p') -> v <> 0 -> ps_free p - n <= ps_free p';
  pc_mfree : forall p v n p', ps_ok p -> 0 < n -> v mod PG_SIZE = 0 -> (forall k, 0 <= k < n -> ps_page p (v + PG_SIZE * k)) ->
    ps_mfree_page p v n = Done p' -> ps_free p + n <= ps_free p'
}.

(** The kernel's pages. *)
Definition kernel_free (x : vm) : Z := Z.of_nat (Nat.min (nfree (vbits PF_KERNEL x)) (nfree (pbits PF_KERNEL x))).

Lemma kernel_held x v n :
  kernel_ok x -> 0 < n -> v mod PG_SIZE = 0 -> (forall k, 0 <= k < n -> kernel_page x (v + PG_SIZE * k)) ->
  exists i, v = vpage PF_KERNEL x i /\ 0 <= i /\ i + n <= nbits (vbits PF_KERNEL x) /\ pages_held x PF_KERNEL (vpage PF_KERNEL x i) (Z.to_nat n).
Proof.
  intros (Hx & _) Hn Hal Hpages. destruct (Hpages 0) as (i & _ & Hv & Hi & _); [lia|]. rewrite Z.mul_0_r, Z.add_0_r in Hv. subst v.
  assert (Hpg : forall k, vpage PF_KERNEL x i + PG_SIZE * k = vpage PF_KERNEL x (i + k)) by (intros; unfold vpage; lia).
  assert (Hend : i + n <= nbits (vbits PF_KERNEL x)) by (destruct (Hpages (n - 1)) as (j & _ & Hj & Hjr & _); [lia|]; unfold vpage, PG_SIZE in Hj; lia).
  exists i. split; [done|]. split; [lia|]. split; [done|]. split; [exact Hal|]. intros k Hkk. rewrite Z2Nat.id in Hkk by lia. destruct (Hpages k Hkk) as (j & f & Hj & Hjr & Ht & Hfr & Hff).
  split; [rewrite Hpg; apply vpage_in; [done|lia]|]. by exists f.
Qed.

Lemma kernel_count_malloc x n v x' : kernel_ok x -> 0 < n < 3840 -> malloc_page x PF_KERNEL n = Done (v, x') -> kernel_free x - n <= kernel_free x'.
Proof.
  intros (Hx & Hp & _) Hn E. destruct (malloc_page_spec x PF_KERNEL n Hx Hn) as (v2 & x2 & Hm & _ & _ & _ & _ & _ & _ & _ & _ & Hsd).
  { intros i (Hi0 & Hi1 & _). left. intros k Hk. replace (vpage PF_KERNEL x i + PG_SIZE * k) with (vpage PF_KERNEL x (i + k)) by (unfold vpage; lia). apply Hp. lia. }
  destruct (Hsd Hp) as (_ & H1 & H2). rewrite E in Hm. injection Hm as <- <-. unfold kernel_free. lia.
Qed.

#[global, refine] Instance kernel_count : PageCount vm := {| ps_free := kernel_free |}.
Proof.
  - intros p. unfold kernel_free. lia.
  - intros x v x' (Hx & _) Hf E. unfold kernel_free in Hf. eapply malloc_one; [exact Hx| | |exact E]; lia.
  - intros x n v x' Hk Hn E _. by apply (kernel_count_malloc x n v).
  - intros x v n x' Hk Hn Hal Hpages E. destruct (kernel_held x v n Hk Hn Hal Hpages) as (i & -> & Hi & Hend & Hh). pose proof Hk as (Hx & _ & Hf & _).
    destruct (mfree_page_spec x PF_KERNEL i n) as (x2 & Hm & _ & _ & _ & _ & _ & _ & _ & _ & _ & H1 & H2); [done|lia|done|done|done|done|done|].
    cbn [ps_mfree_page kernel_pages] in E. rewrite E in Hm. injection Hm as <-. unfold kernel_free. lia.
Defined.

(** ** Counting the pages of a heap *)
Section Stock.
Context {P : Type} `{PageCount P}.
Implicit Types h : heap (P := P).

Definition add_pages (_ n acc : Z) : Z := n + acc.
Definition held h : Z := map_fold add_pages 0 (npages <$> arenas h).

(** Every small arena has a block in use. *)
Definition tight h : Prop := forall a r d, arenas h !! a = Some r -> desc r = Some d -> cnt r < per_arena d.

Record stocked (N : Z) h : Prop := {
  sk_ok : heap_ok h;
  sk_tight : tight h;
  sk_pool : 1024 < hpool_size h;
  sk_pages : N <= ps_free (pages h) + held h
}.

Lemma held_insert (m : gmap Z Z) a n : m !! a = None -> map_fold add_pages 0 (<[a := n]> m) = n + map_fold add_pages 0 m.
Proof. intros Ha. rewrite map_fold_insert_L; [done|intros; unfold add_pages; lia|done]. Qed.

Lemma held_delete (m : gmap Z Z) a n : m !! a = Some n -> map_fold add_pages 0 (delete a m) = map_fold add_pages 0 m - n.
Proof. intros Ha. rewrite <- (insert_delete_id m a n Ha) at 2. rewrite held_insert by apply lookup_delete_eq. lia. Qed.

Lemma held_same (m : gmap Z arena) a r r' : m !! a = Some r -> npages r' = npages r -> npages <$> <[a := r']> m = npages <$> m.
Proof. intros Ha E. rewrite fmap_insert, E. apply insert_id. by rewrite lookup_fmap, Ha. Qed.

(** ** Allocating *)

(** The head of a free list is taken. *)
Definition popped h b h' : Prop := exists ds r, arenas h !! block2arena b = Some r /\
  h' = with_arenas (<[block2arena b := mk_arena (desc r) (u32 (cnt r - 1)) (large r)]>) (with_descs ds h).

Lemma pop_popped h d b rest :
  heap_ok h -> 0 <= d < 7 -> flist h d = b :: rest ->
  exists h', popped h b h' /\ b <> 0 /\
    (D ← aget (descs h) d;
     match free_list D with
     | [] => Fault
     | b :: rest => ds ← aset (descs h) d (with_free rest D); r ← arena_at (with_descs ds h) (block2arena b);
         Done (b, with_arenas (<[block2arena b := mk_arena (desc r) (u32 (cnt r - 1)) (large r)]>) (with_descs ds h))
     end) = Done (b, h').
Proof.
  intros Hh Hd Hf. destruct (heap_pop_spec h d b rest Hh Hd Hf) as (h' & D & ds & r & -> & Ef & Es & Ea & -> & _). rewrite bind_done, Ef, Es, bind_done, Ea, bind_done.
  eexists. split; [|split; [|reflexivity]].
  - exists ds, r. split; [|done]. unfold arena_at in Ea. cbn [arenas with_descs] in Ea. destruct (arenas h !! block2arena b); [by injection Ea as ->|done].
  - destruct (ho_free h Hh d b Hd ltac:(rewrite Hf; by left)) as (a & r0 & Ha & Hr & Hb). destruct (block_arena h a r0 d b) as (_ & _ & _ & Hk); [done..|]. unfold K_HEAP_START in Hk. lia.
Qed.

(** What a small request does to the arenas. *)
Lemma malloc_small h size :
  heap_ok h -> 0 < size <= 1024 -> size < hpool_size h ->
  exists d, 0 <= d < 7 /\
  ((exists b rest h', flist h d = b :: rest /\ sys_malloc h size = Done (b, h') /\ popped h b h' /\ b <> 0) \/
   (exists v pg, ps_malloc_page (pages h) 1 = Done (v, pg) /\
      if decide (v = 0) then sys_malloc h size = Done (0, with_pages pg h)
      else exists ds h1 b rest h', h1 = with_descs ds (with_arenas (<[v := mk_arena (Some d) (per_arena d) false]>) (with_pages pg h)) /\ heap_ok h1 /\
        flist h1 d = blocks v d /\ blocks v d = b :: rest /\ sys_malloc h size = Done (b, h') /\ popped h1 b h' /\ b <> 0)).
Proof.
  intros Hh Hs Hp. unfold sys_malloc. rewrite (proj2 (Z.ltb_lt 0 size)), (proj2 (Z.ltb_lt size (hpool_size h))) by lia. cbn [andb negb]. destruct (Z.ltb_spec 1024 size); [lia|].
  destruct (find_desc_range h size Hh) as (Hd & _); [lia|]. set (d := find_desc (descs h) size 0) in *. exists d. split; [done|].
  destruct (desc_at h d Hh Hd) as (D & Hg & Hl & HbsD & HpaD & Hf). rewrite Hg, bind_done. case_bool_decide as Hnil.
  - right. destruct (refill_spec h d D) as (v & pg & E & _ & Hnz); [done..|by rewrite <- Hf|]. exists v, pg. split; [done|]. rewrite E, !bind_done. cbn [fst snd]. case_decide as Hv.
    + subst v. cbn [Z.eqb]. by rewrite bind_done.
    + destruct (Z.eqb_spec v 0); [done|]. destruct (Hnz Hv) as (fl & ds & Hadd & Hset & Hok & Hbl & _). rewrite Hadd, bind_done. cbn [descs with_arenas with_pages]. rewrite Hset, !bind_done. cbn [fst snd negb].
      rewrite HpaD in *. set (h1 := with_descs ds _) in *. destruct (blocks v d) as [|b rest] eqn:Eb; [by destruct (blocks_nonempty v d Hd)|].
      destruct (pop_popped h1 d b rest Hok Hd Hbl) as (h' & Hpop & Hb & Epop). exists ds, h1, b, rest, h'. split_and!; try done.
  - left. destruct (flist h d) as [|b rest] eqn:Ef; [by rewrite Hf in Hnil|]. destruct (pop_popped h d b rest Hh Hd Ef) as (h' & Hpop & Hb & Epop).
    exists b, rest, h'. rewrite bind_done. cbn [fst snd negb]. done.
Qed.

(** A block of a free list leaves its arena a block in use. *)
Lemma popped_tight h d b h' :
  heap_ok h -> 0 <= d < 7 -> b ∈ flist h d -> popped h b h' ->
  (forall a r d, arenas h !! a = Some r -> desc r = Some d -> a <> block2arena b -> cnt r < per_arena d) ->
  tight h' /\ held h' = held h /\ pages h' = pages h /\ hpool_size h' = hpool_size h.
Proof.
  intros Hh Hd Hb (ds & r & Hr & ->) Ht. destruct (ho_free h Hh d b Hd Hb) as (a & r0 & Ha & Hd0 & Hbb). destruct (block_arena h a r0 d b) as (Eb & _ & Hn1 & _); [done..|].
  rewrite Eb in *. assert (r0 = r) as -> by congruence. pose proof (ho_kind h Hh a r Ha) as Hk. rewrite Hd0 in Hk. destruct Hk as (Hl & _ & Hc).
  assert (Hpos : 1 <= cnt r <= per_arena d).
  { rewrite Hc. pose proof (blocks_length a d Hd) as Hlen. pose proof (length_filter (fun x => x ∈ flist h d) (blocks a d)). unfold nfree_blocks in *.
    assert (b ∈ filter (fun x => x ∈ flist h d) (blocks a d)) as Hin by (by apply list_elem_of_filter). destruct (filter _ (blocks a d)); [by apply elem_of_nil in Hin|]. simpl in *. lia. }
  pose proof (per_arena_fits d Hd) as [Hpa _]. split_and!; [|unfold held; cbn [arenas with_arenas with_descs]; f_equal; apply (held_same _ _ r); [done|unfold npages; simpl; by rewrite Hl]|done|done].
  intros a' r' d' Ha' Hd'. cbn [arenas with_arenas with_descs] in Ha'. apply lookup_insert_Some in Ha' as [[<- <-]|[Hne Ha']]; [|by eapply Ht].
  cbn [desc cnt] in *. rewrite u32_small by lia. assert (d' = d) as -> by congruence. lia.
Qed.

(** Pages that were not handed out are no arena's. *)
Lemma fresh_arena h n v pg : heap_ok h -> 0 < n < 3840 -> ps_malloc_page (pages h) n = Done (v, pg) -> v <> 0 -> arenas h !! v = None.
Proof.
  intros Hh Hn E Hv. destruct (ps_malloc_ok (pages h) n (ho_pages h Hh) Hn) as (v' & pg' & E' & _ & _ & Hf). rewrite E in E'. injection E' as <- <-.
  destruct (Hf Hv) as (_ & _ & _ & Hfr). destruct (Hfr 0) as [Hno _]; [lia|]. destruct (arenas h !! v) as [r|] eqn:Ea; [|done]. destruct Hno.
  apply (ho_owned h Hh v r); [done|]. destruct (ho_range h Hh v r Ea) as (_ & _ & ? & _). lia.
Qed.

Lemma new_arena_held h v r pg ds :
  arenas h !! v = None -> held (with_descs ds (with_arenas (<[v := r]>) (with_pages pg h))) = npages r + held h.
Proof. intros Hv. unfold held. cbn [arenas with_descs with_arenas with_pages]. rewrite fmap_insert, held_insert; [done|]. by rewrite lookup_fmap, Hv. Qed.

Lemma stocked_small N h size p h' :
  stocked N h -> 0 < size <= 1024 -> sys_malloc h size = Done (p, h') -> heap_ok h' -> stocked N h' /\ (0 < ps_free (pages h) -> p <> 0 /\ held h' <= held h + 1).
Proof.
  intros [Hh Ht Hp Hn] Hs E Hok. destruct (malloc_small h size Hh Hs ltac:(lia)) as (d & Hd & [(b & rest & h2 & Hf & E2 & Hpop & Hb)|(v & pg & Em & Hc)]).
  - rewrite E in E2. injection E2 as -> ->. destruct (popped_tight h d b h2 Hh Hd ltac:(rewrite Hf; by left) Hpop) as (T1 & T2 & T3 & T4); [intros a r d' Ha Hd' _; by eapply Ht|].
    split; [constructor; [done|done|lia|rewrite T2, T3; lia]|]. intros _. split; [done|lia].
  - case_decide as Hv.
    + rewrite E in Hc. injection Hc as -> ->. assert (Hz : ~ 0 < ps_free (pages h)) by (intros Hz; by apply (pc_one (pages h) v pg (ho_pages h Hh) Hz Em)).
      split; [|done]. constructor; [done|exact Ht|done|]. cbn [pages with_pages]. change (held (with_pages pg h)) with (held h). pose proof (pc_nonneg pg). lia.
    + destruct Hc as (ds & h1 & b & rest & h2 & E1 & Hok1 & Hf1 & Hbl & E2 & Hpop & Hb). rewrite E in E2. injection E2 as -> ->.
      assert (Hin : b ∈ blocks v d) by (rewrite Hbl; by left). assert (Hav : arenas h1 !! v = Some (mk_arena (Some d) (per_arena d) false)) by (subst h1; apply lookup_insert_eq).
      destruct (block_arena h1 v _ d b Hok1 Hav eq_refl Hin) as (Eb & _).
      destruct (popped_tight h1 d b h2 Hok1 Hd ltac:(by rewrite Hf1) Hpop) as (T1 & T2 & T3 & T4).
      { rewrite Eb. intros a r d' Ha Hd' Hne. subst h1. cbn [arenas with_descs with_arenas with_pages] in Ha. rewrite lookup_insert_ne in Ha by done. by eapply Ht. }
      assert (Eh : held h1 = 1 + held h) by (subst h1; rewrite new_arena_held; [done|by apply (fresh_arena h 1 v pg)]).
      assert (Ep : pages h1 = pg /\ hpool_size h1 = hpool_size h) by (by subst h1). destruct Ep as [Ep1 Ep2].
      pose proof (pc_malloc (pages h) 1 v pg (ho_pages h Hh) ltac:(lia) Em Hv). split; [constructor; [done|done|congruence|rewrite T2, T3, Eh, Ep1; lia]|]. intros _. split; [done|lia].
Qed.

Lemma stocked_large N h size p h' :
  stocked N h -> 1024 < size <= max_request -> sys_malloc h size = Done (p, h') -> heap_ok h' -> p <> 0 -> stocked N h'.
Proof.
  intros [Hh Ht Hp Hn] Hs. unfold sys_malloc. destruct (negb _); [by intros [= <- _]|]. destruct (Z.ltb_spec 1024 size); [|lia]. intros E Hok Hp0.
  unfold DIV_ROUND_UP in E. rewrite u32_small in E by (unfold PG_SIZE, ARENA_SIZE; lia). set (n := (size + ARENA_SIZE + PG_SIZE - 1) / PG_SIZE) in *. assert (Hnr : 0 < n < 3840) by (unfold n, PG_SIZE, ARENA_SIZE; zdiv).
  apply bind_done_inv in E as ([v pg] & Em & E). cbn [fst snd] in E. destruct (Z.eqb_spec v 0) as [->|Hv]; cbn [negb] in E; [by injection E as <- _|]. injection E as _ <-.
  constructor; [done| |done|].
  - intros a r d Ha Hd. cbn [arenas with_arenas with_pages] in Ha. apply lookup_insert_Some in Ha as [[_ <-]|[_ Ha]]; [done|by eapply Ht].
  - pose proof (pc_malloc (pages h) n v pg (ho_pages h Hh) Hnr Em Hv) as Hc. pose proof (new_arena_held h v (mk_arena None n true) pg (descs h) (fresh_arena h n v pg Hh Hnr Em Hv)) as Eh.
    change (held (with_arenas (<[v := mk_arena None n true]>) (with_pages pg h))) with (held (with_descs (descs h) (with_arenas (<[v := mk_arena None n true]>) (with_pages pg h)))).
    rewrite Eh. cbn [pages with_arenas with_pages npages large cnt]. lia.
Qed.

(** ** Freeing *)
Lemma freed_held h a r : arenas h !! a = Some r -> map_fold add_pages 0 (npages <$> delete a (arenas h)) = held h - npages r.
Proof. intros Ha. rewrite fmap_delete. apply held_delete. by rewrite lookup_fmap, Ha. Qed.

Lemma arena_of_live h p n : heap_ok h -> live h p n -> exists r, arenas h !! block2arena p = Some r /\ match desc r with None => True | Some d => 0 <= d < 7 /\ p ∈ blocks (block2arena p) d end.
Proof.
  intros Hh (a & r & Ha & Hc). assert (Ea : block2arena p = a).
  { destruct (ho_range h Hh a r Ha) as (R1 & R2 & R3 & R4). destruct (desc r) as [d|] eqn:Hd; [by destruct (block_arena h a r d p Hh Ha Hd (proj1 Hc))|].
    destruct Hc as [-> _]. apply block2arena_spec; unfold K_HEAP_START, PG_SIZE, ARENA_SIZE in *; try done; lia. }
  exists r. rewrite Ea. split; [done|]. destruct (desc r) as [d|] eqn:Hd; [|done]. destruct Hc as [Hb _]. by destruct (block_arena h a r d p Hh Ha Hd Hb) as (_ & ? & _).
Qed.

Lemma stocked_free N h p n h' : stocked N h -> live h p n -> sys_free h p = Done h' -> heap_ok h' -> stocked N h'.
Proof.
  intros [Hh Ht Hp Hn] Hl E Hok. destruct (arena_of_live h p n Hh Hl) as (r & Ha & Hd). unfold sys_free in E. apply bind_done_inv in E as (? & _ & E). apply bind_done_inv in E as (? & _ & E).
  unfold arena_at in E. rewrite Ha, bind_done in E. set (a := block2arena p) in *. pose proof (ho_kind h Hh a r Ha) as Hk. destruct (ho_range h Hh a r Ha) as (R1 & _ & R3 & _).
  assert (Hown : forall k, 0 <= k < npages r -> ps_page (pages h) (a + PG_SIZE * k)) by (intros k Hkk; by apply (ho_owned h Hh a r)).
  destruct (desc r) as [d|] eqn:Ed.
  - cbn [bool_decide] in E. rewrite bool_decide_false in E by done. cbn [andb] in E. destruct Hd as [Hd Hpb]. destruct Hk as (Hlg & _ & Hc). destruct (desc_at h d Hh Hd) as (D & Hg & _ & _ & Hpa & _). rewrite Hg, bind_done in E.
    specialize (Ht a r d Ha Ed) as Htr. pose proof (per_arena_fits d Hd) as [Hpr _]. assert (Hnp : npages r = 1) by (unfold npages; by rewrite Hlg). rewrite u32_small, Hpa in E by lia.
    destruct (Z.eqb_spec (cnt r + 1) (per_arena d)) as [Ec|Ec].
    + apply bind_done_inv in E as (fl & _ & E). apply bind_done_inv in E as (ds & _ & E). apply bind_done_inv in E as (pg & Em & E). injection E as <-.
      constructor; [done| |done|].
      * intros a' r' d' Ha' Hd'. cbn [arenas with_arenas with_descs with_pages] in Ha'. apply lookup_delete_Some in Ha' as [_ Ha']. by eapply Ht.
      * pose proof (pc_mfree (pages h) a 1 pg (ho_pages h Hh) ltac:(lia) R1 ltac:(by rewrite <- Hnp) Em) as Hc'. pose proof (freed_held h a r Ha) as Eh.
        cbn [pages with_arenas with_descs with_pages]. unfold held at 1. cbn [arenas with_arenas with_descs with_pages]. rewrite Eh, Hnp. lia.
    + apply bind_done_inv in E as (ds & _ & E). injection E as <-. constructor; [done| |done|].
      * intros a' r' d' Ha' Hd'. cbn [arenas with_arenas with_descs] in Ha'. apply lookup_insert_Some in Ha' as [[<- <-]|[_ Ha']]; [|by eapply Ht].
        cbn [desc cnt] in *. assert (d' = d) as -> by congruence. lia.
      * cbn [pages with_arenas with_descs]. unfold held. cbn [arenas with_arenas with_descs]. rewrite (held_same _ a r) by (done || unfold npages; simpl; by rewrite Hlg). exact Hn.
  - rewrite bool_decide_true in E by done. rewrite Hk in E. cbn [andb] in E. apply bind_done_inv in E as (pg & Em & E). injection E as <-. assert (Hnp : npages r = cnt r) by (unfold npages; by rewrite Hk).
    rewrite Hnp in *. constructor; [done| |done|].
    + intros a' r' d' Ha' Hd'. cbn [arenas with_arenas with_pages] in Ha'. apply lookup_delete_Some in Ha' as [_ Ha']. by eapply Ht.
    + pose proof (pc_mfree (pages h) a (cnt r) pg (ho_pages h Hh) R3 R1 Hown Em) as Hc'. pose proof (freed_held h a r Ha) as Eh.
      cbn [pages with_arenas with_pages]. unfold held at 1. cbn [arenas with_arenas with_pages]. rewrite Eh, Hnp. lia.
Qed.

(** ** The pages follow from the blocks *)
Lemma tight_arena h h' a r :
  heap_ok h -> tight h -> heap_ok h' -> (forall q n, live h' q n <-> live h q n) -> arenas h !! a = Some r ->
  exists r', arenas h' !! a = Some r' /\ npages r' = npages r.
Proof.
  intros Hh Ht Hh' Hl Ha. pose proof (ho_kind h Hh a r Ha) as Hk. destruct (ho_range h Hh a r Ha) as (R1 & R2 & R3 & R4). destruct (desc r) as [d|] eqn:Hd.
  - destruct Hk as (Hlg & Hd7 & Hc). assert (Hb : exists b, b ∈ blocks a d /\ b ∉ flist h d).
    { destruct (decide (Forall (fun b => b ∈ flist h d) (blocks a d))) as [Hall|Hex].
      - specialize (Ht a r d Ha Hd). rewrite Forall_forall in Hall. rewrite Hc in Ht. unfold nfree_blocks in Ht. rewrite count_full in Ht by done. rewrite blocks_length in Ht by done. lia.
      - apply not_Forall_Exists in Hex; [|intros b; apply _]. apply Exists_exists in Hex as (b & ? & ?). by exists b. }
    destruct Hb as (b & Hb & Hnb). assert (Hlb : live h' b (bsize d)) by (apply Hl; exists a, r; by rewrite Hd).
    destruct (block_arena h a r d b Hh Ha Hd Hb) as (Eb & _ & Hn1 & _). destruct Hlb as (a' & r' & Ha' & Hc'). pose proof (bsize_range d Hd7). destruct (ho_range h' Hh' a' r' Ha') as (_ & _ & R3' & _).
    pose proof (ho_kind h' Hh' a' r' Ha') as Hk'. destruct (desc r') as [d'|] eqn:Hd'.
    + destruct Hc' as (Hb' & _). destruct (block_arena h' a' r' d' b Hh' Ha' Hd' Hb') as (Eb' & _ & Hn1' & _). assert (a' = a) as -> by congruence. exists r'. split; [done|congruence].
    + destruct Hc' as (_ & Ebs). unfold npages in R3'. rewrite Hk' in R3'. unfold PG_SIZE, ARENA_SIZE in *. lia.
  - assert (Hlb : live h' (a + ARENA_SIZE) (PG_SIZE * cnt r - ARENA_SIZE)) by (apply Hl; exists a, r; by rewrite Hd). destruct Hlb as (a' & r' & Ha' & Hc').
    pose proof (ho_kind h' Hh' a' r' Ha') as Hk'. unfold npages in *. rewrite Hk in *. destruct (desc r') as [d'|] eqn:Hd'.
    + destruct Hc' as (_ & _ & Ebs). destruct Hk' as (_ & Hd7' & _). pose proof (bsize_range d' Hd7'). unfold PG_SIZE, ARENA_SIZE in *. lia.
    + destruct Hc' as [E1 E2]. assert (a' = a) as -> by (unfold ARENA_SIZE in *; lia). exists r'. split; [done|]. rewrite Hk'. unfold PG_SIZE, ARENA_SIZE in *. lia.
Qed.

Lemma held_live h h' : heap_ok h -> tight h -> heap_ok h' -> tight h' -> (forall q n, live h' q n <-> live h q n) -> held h' = held h.
Proof.
  intros Hh Ht Hh' Ht' Hl. unfold held. f_equal. apply map_eq. intros a. rewrite !lookup_fmap. destruct (arenas h !! a) as [r|] eqn:Ha.
  - destruct (tight_arena h h' a r Hh Ht Hh' Hl Ha) as (r' & -> & E). simpl. by rewrite E.
  - destruct (arenas h' !! a) as [r'|] eqn:Ha'; [|done]. destruct (tight_arena h' h a r' Hh' Ht' Hh) as (r & E & _); [intros q n; by rewrite Hl|done|congruence].
Qed.
End Stock.

(** ** As the allocator of the file system *)

(** A heap that has or can get [N] pages. *)
Definition stock (P : Type) (N : Z) : Type := heap (P := P).
#[global] Typeclasses Opaque stock.

#[global, refine] Instance stock_alloc {P : Type} `{PageCount P} (N : Z) : Alloc (stock P N) := {|
  al_ok := stocked N; al_live := live; al_malloc := sys_malloc; al_free := sys_free
|}.
Proof.
  - intros h size Hh Hs. destruct (al_malloc_ok (Alloc := heap_alloc) h size (sk_ok N h Hh) Hs) as (p & h' & E & Hok & Hz & Hnz). cbn [al_malloc al_ok al_live heap_alloc] in *.
    exists p, h'. split_and!; try done. intros Hp. destruct (decide (size <= 1024)); [by destruct (stocked_small N h size p h' Hh ltac:(lia) E (Hok Hp))|].
    eapply stocked_large; [exact Hh| |exact E|by apply Hok|]; lia.
  - intros h p n Hh Hl. destruct (sys_free_spec h p n (sk_ok N h Hh) Hl) as (h' & E & Hok & Hlv). exists h'. split_and!; try done. by eapply stocked_free.
Defined.

Section StockRoom.
Context {P : Type} `{PageCount P}.

Lemma stock_has_room (N : Z) (h : stock P N) (k : nat) : stocked N h -> held h + Z.of_nat k <= N -> room k h.
Proof.
  revert h. induction k as [|k IH]; intros h Hh Hk; [done|]. intros h' size Hh' Hl Hs. change (stocked N h') in Hh'.
  assert (Eh : held h' = held h) by (apply (held_live h h'); [apply Hh|apply Hh|apply Hh'|apply Hh'|exact Hl]). pose proof (sk_pages N h' Hh') as Hpg.
  destruct (al_malloc_ok (Alloc := heap_alloc) h' size (sk_ok N h' Hh') ltac:(lia)) as (p & h1 & E & Hok & _). cbn [al_malloc al_ok heap_alloc] in *.
  destruct (stocked_small N h' size p h1 Hh' Hs E (Hok (or_intror (proj2 Hs)))) as [H1 H2]. destruct H2 as [Hp Hheld]; [lia|]. exists p, h1. split; [done|]. split; [done|]. apply IH; [done|lia].
Qed.

(** Calls of [sys_malloc] and [sys_free] one after the other: any small request, large ones
    that are served, and frees of blocks in use. *)
Inductive heap_run : heap (P := P) -> heap (P := P) -> Prop :=
| run_end h : heap_run h h
| run_malloc h size p h1 h2 : 0 < size <= max_request -> sys_malloc h size = Done (p, h1) -> p <> 0 \/ size <= 1024 -> heap_run h1 h2 -> heap_run h h2
| run_free h p n h1 h2 : live h p n -> sys_free h p = Done h1 -> heap_run h1 h2 -> heap_run h h2.

Lemma run_stocked N h h1 : heap_run h h1 -> stocked N h -> stocked N h1.
Proof.
  induction 1 as [h|h size p h1 h2 Hs E Hp _ IH|h p n h1 h2 Hl E _ IH]; intros Hh; [done|apply IH..].
  - destruct (al_malloc_ok (Alloc := stock_alloc N) h size Hh Hs) as (p' & h' & E' & Hok & _). cbn [al_malloc al_ok stock_alloc] in *.
    rewrite E in E'. injection E' as <- <-. auto.
  - destruct (sys_free_spec h p n (sk_ok N h Hh) Hl) as (h' & E' & Hok & _). rewrite E in E'. injection E' as <-. by eapply stocked_free.
Qed.

(** Requests one after the other; the blocks. *)
Fixpoint serve (h : heap (P := P)) (sizes : list Z) : outcome (list Z * heap (P := P)) :=
  match sizes with
  | [] => Done ([], h)
  | size :: sizes => r ← sys_malloc h size; r' ← serve r.2 sizes; Done (r.1 :: r'.1, r'.2)
  end.

Lemma stocked_serves N h sizes : stocked N h -> Forall (fun size => 0 < size <= 1024) sizes -> held h + Z.of_nat (length sizes) <= N ->
  exists ps h', serve h sizes = Done (ps, h') /\ length ps = length sizes /\ 0 ∉ ps.
Proof.
  intros Hh Hs. revert h Hh. induction Hs as [|size sizes Hsz _ IH]; intros h Hh Hk; [exists [], h; by split_and!; [| |apply not_elem_of_nil]|].
  cbn [length] in Hk. pose proof (sk_pages N h Hh) as Hpg.
  destruct (al_malloc_ok (Alloc := heap_alloc) h size (sk_ok N h Hh) ltac:(lia)) as (p & h1 & E & Hok & _). cbn [al_malloc al_ok heap_alloc] in *.
  destruct (stocked_small N h size p h1 Hh Hsz E (Hok (or_intror (proj2 Hsz)))) as [H1 H2]. destruct H2 as [Hp Hheld]; [lia|].
  destruct (IH h1 H1 ltac:(lia)) as (ps & h2 & E2 & Hl & Hn). exists (p :: ps), h2. cbn [serve]. rewrite E, bind_done. cbn [fst snd]. rewrite E2, bind_done.
  split; [done|]. split; [cbn; lia|]. apply not_elem_of_cons. done.
Qed.

(** C10. The kernel heap does not lose pages to small blocks: take a heap that satisfies its
    invariant, with a block in use in every arena of small blocks, and with [length sizes]
    pages free. After any sequence of calls of [sys_malloc] and [sys_free] (large requests
    that are refused left out) after which the same blocks are in use as before, requests
    of [sizes], each of at most 1024 bytes, are all served; and every arena of small blocks
    has a block in use again. *)
Theorem stock_room (h h1 : heap (P := P)) (sizes : list Z) :
  heap_ok h -> tight h -> 1024 < hpool_size h -> Z.of_nat (length sizes) <= ps_free (pages h) ->
  heap_run h h1 -> (forall p n, live h1 p n <-> live h p n) -> Forall (fun size => 0 < size <= 1024) sizes ->
  heap_ok h1 /\ tight h1 /\ exists ps h2, serve h1 sizes = Done (ps, h2) /\ length ps = length sizes /\ 0 ∉ ps.
Proof.
  intros Hh Ht Hp Hf Hr Hl Hs. assert (Hst : stocked (ps_free (pages h) + held h) h) by (by constructor).
  pose proof (run_stocked _ h h1 Hr Hst) as [H1 T1 P1 N1]. split; [done|]. split; [done|].
  apply (stocked_serves (ps_free (pages h) + held h)); [by constructor|done|]. rewrite (held_live h h1) by done. lia.
Qed.
End StockRoom.

(** ** Witness *)
Lemma sample_stocked : stocked 8 (sample_heap : stock vm 8).
Proof.
  constructor; [exact sample_heap_ok|intros a r d Ha; change ((∅ : gmap Z arena) !! a = Some r) in Ha; by rewrite lookup_empty in Ha|by vm_compute|]. vm_compute. discriminate.
Qed.

(** A block is taken and freed; then eight requests are served. *)
Definition sample_back : heap (P := vm) := match sys_free sample_heap2 0xc010000c with Done h => h | _ => sample_heap2 end.

Lemma sample_heap_empty p n : ~ live sample_heap p n.
Proof. intros (a & r & Ha & _). change ((∅ : gmap Z arena) !! a = Some r) in Ha. by rewrite lookup_empty in Ha. Qed.

Lemma sample_run : heap_run sample_heap sample_back /\ forall p n, live sample_back p n <-> live sample_heap p n.
Proof.
  destruct sample_heap2_ok as [Hok Hl]. destruct (sys_free_spec sample_heap2 0xc010000c 32 Hok Hl) as (h' & E & Hok' & Hlv).
  assert (Eb : sample_back = h') by (unfold sample_back; rewrite E; reflexivity).
  destruct (sys_malloc_spec sample_heap 20 sample_heap_ok) as (q & h1 & E1 & _ & _ & _ & H5); [vm_compute; split; discriminate|].
  assert (Eu : sample_heap2 = h1) by (unfold sample_heap2; rewrite E1; reflexivity).
  pose proof sample_malloc as Hm. rewrite E1 in Hm. cbn [fst] in Hm. destruct Hm as [-> _].
  split.
  - eapply run_malloc; [|exact E1|left; discriminate|]; [lia|]. rewrite <- Eu. eapply run_free; [exact Hl|exact E|rewrite Eb; apply run_end].
  - intros p n. rewrite Eb, Hlv. destruct H5 as (m & _ & Hlm & _); [discriminate|]. rewrite Eu, Hlm. pose proof (sample_heap_empty p n). tauto.
Qed.

Lemma stock_room_witness : exists ps h2, serve sample_back [16; 1024; 100; 512; 300; 20; 60; 16] = Done (ps, h2) /\ length ps = 8%nat /\ 0 ∉ ps.
Proof.
  destruct (stock_room sample_heap sample_back [16; 1024; 100; 512; 300; 20; 60; 16]) as (_ & _ & H).
  - exact sample_heap_ok.
  - exact (sk_tight 8 _ sample_stocked).
  - vm_compute. reflexivity.
  - vm_compute. discriminate.
  - exact (proj1 sample_run).
  - exact (proj2 sample_run).
  - repeat (apply Forall_cons; split; [lia|]). apply Forall_nil. exact I.
  - exact H.
Defined.
