(* ===== verification/DirWrite.v ===== *)
(** * Changing a directory: adding and removing entries (fs/dir.c)

    The listing of a directory as [sync_dir_entry] and [delete_dir_entry] change it. *)
From stdpp Require Import base numbers list option tactics gmap fin_maps.
From Stdlib Require Import ZArith Lia.
From S2P Require Import Prelude Bitmap Ide Iface Inode File FileIo FileWrite Dir.


(** ** Entries in a sector *)
Definition entry_wf (e : dir_entry) : Prop := length (filename e) = 16%nat /\ is_u32 (de_i_no e) /\ is_u32 (f_type e).

Lemma entry_bytes_length e : entry_wf e -> length (entry_bytes e) = 24%nat.
Proof. intros (Hl & _). unfold entry_bytes. rewrite !length_app, Hl. done. Qed.

Lemma bytes_entry_bytes e l : entry_wf e -> bytes_entry (entry_bytes e ++ l) = e.
Proof.
  intros (Hl & Hi & Ht). unfold bytes_entry, entry_bytes. rewrite <- !app_assoc.
  rewrite take_app_length' by done. rewrite drop_app_length' by done. rewrite un4_le4 by done.
  replace 20%nat with (length (filename e ++ le4 (de_i_no e))) by (by rewrite length_app, Hl).
  rewrite (app_assoc (filename e)), drop_app_length, un4_le4 by done. by destruct e.
Qed.

Lemma bytes_entry_ext b b' : (forall x, (x < 24)%nat -> b !! x = b' !! x) -> bytes_entry b = bytes_entry b'.
Proof.
  intros Hx.
  assert (Ht : forall a n, (a + n <= 24)%nat -> take n (drop a b) = take n (drop a b')).
  { intros a n Hn. apply list_eq. intros x. destruct (decide (x < n)%nat).
    - rewrite !lookup_take_lt, !lookup_drop by lia. apply Hx. lia.
    - rewrite !lookup_take_ge by lia. done. }
  unfold bytes_entry. pose proof (Ht 0%nat 16%nat ltac:(lia)) as E. rewrite !drop_0 in E. by rewrite E, !Ht by lia.
Qed.

Lemma entries_length b : length (entries b) = 21%nat.
Proof. unfold entries. by rewrite length_fmap, length_seqZ. Qed.

Lemma entries_lookup b k : 0 <= k < 21 -> entries b !! Z.to_nat k = Some (entry_at b k).
Proof. intros Hk. unfold entries. rewrite list_lookup_fmap, lookup_seqZ_lt by lia. simpl. do 2 f_equal. lia. Qed.

(** Replacing the bytes of entry [k] replaces the entry. *)
Lemma entries_memcpy b k bytes b' :
  length b = 512%nat -> 0 <= k < 21 -> length bytes = 24%nat -> memcpy_to b (24 * k) bytes = Done b' ->
  length b' = 512%nat /\ entries b' = <[Z.to_nat k := bytes_entry bytes]> (entries b).
Proof.
  intros Hb Hk Hl E. destruct (memcpy_to_ok b (24 * k) bytes) as (b2 & E2 & Hb2 & Hx); [lia|lia|]. rewrite E in E2. injection E2 as <-.
  split; [lia|]. apply list_eq_same_length with 21%nat; [by rewrite length_insert, entries_length|apply entries_length|].
  intros n x y Hn Hx1 Hy1. pose proof (entries_lookup b' (Z.of_nat n) ltac:(lia)) as Hn'. rewrite Nat2Z.id in Hn'. rewrite Hn' in Hx1. injection Hx1 as <-.
  destruct (decide (n = Z.to_nat k)) as [->|Hne].
  - rewrite list_lookup_insert_eq in Hy1 by (rewrite entries_length; lia). injection Hy1 as <-. apply bytes_entry_ext. intros x Hx24.
    rewrite lookup_drop, Hx, decide_True by lia. f_equal. lia.
  - rewrite list_lookup_insert_ne in Hy1 by lia. pose proof (entries_lookup b (Z.of_nat n) ltac:(lia)) as Hn2. rewrite Nat2Z.id in Hn2. rewrite Hn2 in Hy1. injection Hy1 as <-.
    apply bytes_entry_ext. intros x Hx24. rewrite !lookup_drop, Hx, decide_False; [done|]. lia.
Qed.

Definition null_entry : dir_entry := mk_entry (replicate 16 0) 0 0.

Lemma entries_zero : entries (replicate 512 0) = replicate 21 null_entry.
Proof. vm_compute. reflexivity. Qed.

Lemma free_entry_spec b k n :
  length b = 512%nat -> 0 <= k -> k + Z.of_nat n <= 21 ->
  exists r, free_entry b k n = Done r /\
    match r with
    | Some k' => k <= k' < 21 /\ ~ live (entry_at b k')
    | None => forall j, k <= j < k + Z.of_nat n -> live (entry_at b j)
    end.
Proof.
  intros Hb. revert k. induction n as [|n IH]; intros k Hk Hn; cbn [free_entry]; [exists None; split; [done|lia]|].
  change DIR_ENTRY_SIZE with 24. rewrite decide_True by lia. fold (entry_at b k). change FT_UNKNOWN with 0.
  destruct (Z.eqb_spec (f_type (entry_at b k)) 0) as [E|E].
  - exists (Some k). split; [done|]. split; [lia|]. intros Hl. by apply Hl.
  - destruct (IH (k + 1)) as (r & -> & Hr); [lia|lia|]. exists r. split; [done|]. destruct r as [k'|]; [split; [lia|apply Hr]|].
    intros j Hj. destruct (decide (j = k)) as [->|]; [done|]. apply Hr. lia.
Qed.

Lemma filter_insert_perm {B} (P : B -> Prop) `{!forall x, Decision (P x)} (l : list B) n x y :
  l !! n = Some x -> ~ P x -> P y -> filter P (<[n := y]> l) ≡ₚ y :: filter P l.
Proof.
  revert n. induction l as [|z l IH]; intros n; [done|]. destruct n as [|n]; simpl.
  - intros [= ->] Hx Hy. rewrite !filter_cons, decide_True by done. by rewrite decide_False.
  - intros Hl Hx Hy. rewrite !filter_cons. case_decide; rewrite (IH n) by done; [apply perm_swap|done].
Qed.

Lemma bind_ext_in {B C} (f g : B -> list C) (l : list B) : (forall x, x ∈ l -> f x = g x) -> l ≫= f = l ≫= g.
Proof.
  induction l as [|x l IH]; intros Hl; [done|]. rewrite !bind_cons, (Hl x) by (by left). f_equal. apply IH. intros y Hy. apply Hl. by right.
Qed.

Lemma filter_all {B} (P : B -> Prop) `{!forall x, Decision (P x)} (l : list B) : (forall x, x ∈ l -> P x) -> filter P l = l.
Proof.
  induction l as [|x l IH]; intros Hl; [done|]. rewrite filter_cons, decide_True by (apply Hl; by left). f_equal. apply IH. intros y Hy. apply Hl. by right.
Qed.

(** ** One block of a directory changes *)
Section DirWrite.
Context {D A : Type} `{BlockDev D} `{Alloc A}.
Implicit Types s : fs (D := D) (A := A).

Lemma slots_split (d d' : D) i i' j :
  0 <= j < 140 -> (forall m, 0 <= m < 140 -> m <> j -> block_entries d' (dblock d' i' m) = block_entries d (dblock d i m)) ->
  exists X Y, slots d i = X ++ block_entries d (dblock d i j) ++ Y /\ slots d' i' = X ++ block_entries d' (dblock d' i' j) ++ Y.
Proof.
  intros Hj Hm. exists (seqZ 0 j ≫= fun m => block_entries d (dblock d i m)), (seqZ (j + 1) (139 - j) ≫= fun m => block_entries d (dblock d i m)).
  assert (Hs : forall (d0 : D) i0, slots d0 i0 = seqZ 0 140 ≫= fun m => block_entries d0 (dblock d0 i0 m)).
  { intros d0 i0. unfold slots, dblocks. apply list_fmap_bind. }
  assert (E : seqZ 0 140 = seqZ 0 j ++ j :: seqZ (j + 1) (139 - j)).
  { replace 140 with (j + (140 - j)) by lia. rewrite seqZ_app by lia. f_equal. rewrite Z.add_0_l, (seqZ_cons j) by lia. do 2 f_equal; lia. }
  rewrite !Hs, E, !bind_app, !bind_cons. split; [done|]. f_equal; [|f_equal].
  - apply bind_ext_in. intros m Hin%elem_of_seqZ. apply Hm; lia.
  - apply bind_ext_in. intros m Hin%elem_of_seqZ. apply Hm; lia.
Qed.

Lemma listing_split (d d' : D) i i' j :
  0 <= j < 140 -> (forall m, 0 <= m < 140 -> m <> j -> block_entries d' (dblock d' i' m) = block_entries d (dblock d i m)) ->
  exists R, dir_list d i ≡ₚ filter live (block_entries d (dblock d i j)) ++ R /\
    dir_list d' i' ≡ₚ filter live (block_entries d' (dblock d' i' j)) ++ R /\
    forall x, x ∈ slots d' i' -> x ∈ block_entries d' (dblock d' i' j) \/ x ∈ slots d i.
Proof.
  intros Hj Hm. destruct (slots_split d d' i i' j Hj Hm) as (X & Y & E & E'). exists (filter live X ++ filter live Y). unfold dir_list.
  rewrite E, E', !filter_app. split_and!.
  - by rewrite !app_assoc, (Permutation_app_comm (filter live X)).
  - by rewrite !app_assoc, (Permutation_app_comm (filter live X)).
  - intros x. rewrite !elem_of_app. tauto.
Qed.

(** The blocks of a directory are elsewhere than block [lba]. *)
Lemma dblock_frame (d d' : D) i m :
  (12 <= m -> indirect i <> 0 -> bd_sector d' (indirect i) = bd_sector d (indirect i)) -> dblock d' i m = dblock d i m.
Proof.
  intros Hk. unfold dblock. case_decide as E; [done|]. unfold file_block. case_decide; [done|]. rewrite Hk; [done|lia|]. intros E0. apply E. split; [lia|done].
Qed.

Lemma block_entries_sector (d d' : D) b : (b <> 0 -> bd_sector d' b = bd_sector d b) -> block_entries d' b = block_entries d b.
Proof. intros Hb. unfold block_entries. case_decide; [done|]. by rewrite Hb. Qed.

Lemma has_entry_sector (d d' : D) b name : (b <> 0 -> bd_sector d' b = bd_sector d b) -> has_entry d' b name <-> has_entry d b name.
Proof. intros Hb. unfold has_entry. by rewrite (block_entries_sector d d' b Hb). Qed.

(** The entry [k] of block [j] is overwritten. *)
Lemma write_entry_ok s i j k bytes b' d' :
  fs_ok s -> dir_ok s i -> 0 <= j < 140 -> 0 <= k < 21 -> length bytes = 24%nat ->
  let lba := dblock (dsk s) i j in
  lba <> 0 -> memcpy_to (bd_sector (dsk s) lba) (24 * k) bytes = Done b' ->
  (forall x, bd_sector d' x = if decide (lba <= x < lba + 1) then chunk b' (x - lba) else bd_sector (dsk s) x) ->
  (forall m, 0 <= m < 140 -> dblock d' i m = dblock (dsk s) i m) /\
  block_entries d' lba = <[Z.to_nat k := bytes_entry bytes]> (entries (bd_sector (dsk s) lba)) /\
  (forall m, 0 <= m < 140 -> m <> j -> block_entries d' (dblock d' i m) = block_entries (dsk s) (dblock (dsk s) i m)).
Proof.
  intros Hs Hd Hj Hk Hb lba Hl E Hsec.
  destruct (entries_memcpy _ k bytes b' (bd_sector_len _ lba (fo_disk s Hs)) Hk Hb E) as [Hlen Hent].
  assert (Hdb : forall m, 0 <= m < 140 -> dblock d' i m = dblock (dsk s) i m).
  { intros m Hm. apply dblock_frame. intros _ Hi. rewrite Hsec, decide_False; [done|].
    destruct (dk_table _ _ Hd Hi) as [_ Hne]. specialize (Hne j Hj). fold lba in Hne. lia. }
  split_and!; [done| |].
  - unfold block_entries. rewrite decide_False by done. rewrite Hsec, decide_True by lia. rewrite Z.sub_diag.
    unfold chunk. rewrite take_ge; [by rewrite drop_0|]. rewrite drop_0. lia.
  - intros m Hm Hne. rewrite Hdb by done. apply block_entries_sector. intros H0'. rewrite Hsec, decide_False; [done|].
    intros Hx. apply Hne. apply (dk_inj _ _ Hd); [done|done|done|]. fold lba. lia.
Qed.

(** ** Adding an entry *)

(** The directory's own sectors; the sectors an insertion must leave alone. *)
Definition own s (i : inode) (b : Z) : Prop := (exists j, 0 <= j < 140 /\ b = dblock (dsk s) i j) \/ b = indirect i.
Definition kept s (k : Z) : Prop :=
  ~ (block_bitmap_lba (sb (cur_part s)) <= k < inode_bitmap_lba (sb (cur_part s))) /\ (data_start s <= k -> taken s k).

(** [s'] is [s] with entry [e] added to the directory [i] at [p]. *)
Record inserted s s' (p : Z) (i i' : inode) (e : dir_entry) : Prop := {
  in_state : exists d' b', s' = with_dsk d' (with_bitmap BLOCK_BITMAP b' (set_inode p i' s)) /\
    nbits b' = nbits (block_bitmap (cur_part s)) /\ forall k, 0 <= k -> bit (block_bitmap (cur_part s)) k = true -> bit b' k = true;
  in_fs : fs_ok s';
  in_root : root_used s';
  in_no : i_no i' = i_no i;
  in_live : inode_live i';
  in_dir : dir_ok s' i';
  in_list : dir_list (dsk s') i' ≡ₚ e :: dir_list (dsk s) i;
  in_kept : forall k, kept s k -> ~ own s i k -> bd_sector (dsk s') k = bd_sector (dsk s) k
}.

Lemma slots_length (d : D) i : (length (dir_list d i) <= 2940)%nat.
Proof.
  unfold dir_list. etransitivity; [apply length_filter|]. unfold slots. pose proof (dblocks_length d i) as Hl.
  assert (Hb : forall l, (length (l ≫= block_entries d) <= 21 * length l)%nat).
  { induction l as [|b l IH]; [done|]. rewrite bind_cons, length_app. cbn [length]. assert (length (block_entries d b) <= 21)%nat; [|lia].
    unfold block_entries. case_decide; [cbn; lia|by rewrite entries_length]. }
  specialize (Hb (dblocks d i)). lia.
Qed.

Lemma add_size_ok s p i :
  inodes s !! p = Some i -> dir_entry_size (sb (cur_part s)) = 24 -> 0 <= i_size i < 2 ^ 31 ->
  add_size p s = Done (set_inode p (set_size (i_size i + 24) i) s).
Proof. intros Hi He Hz. unfold add_size, inode_at. rewrite Hi, bind_done, He, u32_small by lia. done. Qed.

Lemma set_size_live n i : inode_live i -> is_u32 n -> inode_live (set_size n i).
Proof. intros [(? & ? & ? & ? & ? & ?) Hc] Hn. split; [|done]. by unfold inode_wf. Qed.

(** The listing, size and free entries of a directory after block [j] has gained [e]. *)
Lemma gained (d d' : D) i i' j e s :
  dir_ok s i -> d = dsk s -> 0 <= j < 140 ->
  (forall m, 0 <= m < 140 -> m <> j -> block_entries d' (dblock d' i' m) = block_entries d (dblock d i m)) ->
  filter live (block_entries d' (dblock d' i' j)) ≡ₚ e :: filter live (block_entries d (dblock d i j)) ->
  (forall x, x ∈ block_entries d' (dblock d' i' j) -> ~ live x -> cname (filename x) = []) ->
  i_size i' = i_size i + 24 ->
  dir_list d' i' ≡ₚ e :: dir_list d i /\ i_size i' = 24 * Z.of_nat (length (dir_list d' i')) /\
  forall x, x ∈ slots d' i' -> ~ live x -> cname (filename x) = [].
Proof.
  intros Hd -> Hj Hm He Hx Hz. destruct (listing_split (dsk s) d' i i' j Hj Hm) as (R & E & E' & Hin).
  assert (HL : dir_list d' i' ≡ₚ e :: dir_list (dsk s) i) by (by rewrite E', He, E).
  split_and!; [done| |].
  - rewrite HL, Hz, (dk_size _ _ Hd). cbn [length]. lia.
  - intros x Hin' Hl. destruct (Hin x Hin') as [Hb|Hb]; [by apply Hx|by apply (dk_free _ _ Hd)].
Qed.

Lemma insert_entry_ok s p i j k e d' b' :
  fs_ok s -> root_used s -> inodes s !! p = Some i -> inode_live i -> dir_ok s i -> entry_wf e -> live e -> ~ named dotdot e ->
  0 <= j < 140 -> 0 <= k < 21 ->
  let lba := dblock (dsk s) i j in
  lba <> 0 -> ~ live (entry_at (bd_sector (dsk s) lba) k) ->
  memcpy_to (bd_sector (dsk s) lba) (24 * k) (entry_bytes e) = Done b' -> bd_ok d' ->
  (forall x, bd_sector d' x = if decide (lba <= x < lba + 1) then chunk b' (x - lba) else bd_sector (dsk s) x) ->
  inserted s (set_inode p (set_size (i_size i + 24) i) (with_dsk d' s)) p i (set_size (i_size i + 24) i) e.
Proof.
  intros Hs Hr Hi Hlv Hd Hew Hle Hnn Hj Hk lba Hl Hfree E Hd' Hsec.
  destruct (write_entry_ok s i j k (entry_bytes e) b' d' Hs Hd Hj Hk (entry_bytes_length e Hew) Hl E Hsec) as (Hdb & Hent & Hoth).
  assert (Ee : bytes_entry (entry_bytes e) = e) by (rewrite <- (bytes_entry_bytes e [] Hew) at 2; by rewrite app_nil_r).
  fold lba in Hent. rewrite Ee in Hent. pose proof (dk_size _ _ Hd) as Hz. pose proof (slots_length (dsk s) i) as Hsl.
  set (i' := set_size (i_size i + 24) i). assert (Hlv' : inode_live i') by (apply set_size_live; [done|unfold is_u32; lia]).
  assert (Hs' : fs_ok (set_inode p i' (with_dsk d' s))) by (destruct Hlv'; eapply (set_inode_ok (with_dsk d' s)); eauto; by apply with_dsk_ok).
  assert (Hold : block_entries (dsk s) (dblock (dsk s) i j) = entries (bd_sector (dsk s) lba)) by (unfold block_entries; fold lba; by rewrite decide_False).
  pose proof (entries_lookup (bd_sector (dsk s) lba) k Hk) as Hek.
  assert (Hg : dir_list d' i' ≡ₚ e :: dir_list (dsk s) i /\ i_size i' = 24 * Z.of_nat (length (dir_list d' i')) /\
    forall x, x ∈ slots d' i' -> ~ live x -> cname (filename x) = []).
  { apply (gained (dsk s) d' i i' j e s Hd eq_refl Hj Hoth).
    - change (dblock d' i' j) with (dblock d' i j). rewrite Hdb by done. fold lba. rewrite Hent. fold lba in Hold. rewrite Hold. by eapply filter_insert_perm.
    - intros x. change (dblock d' i' j) with (dblock d' i j). rewrite Hdb by done. fold lba. rewrite Hent. intros Hx Hnl.
      apply list_elem_of_lookup in Hx as [n Hx]. apply list_lookup_insert_Some in Hx as [(_ & <- & _)|[_ Hx]]; [done|].
      apply (dk_free _ _ Hd); [|done]. unfold slots. apply list_elem_of_bind. exists lba. split; [fold lba in Hold; rewrite Hold; by eapply list_elem_of_lookup_2|].
      apply list_elem_of_lookup. exists (Z.to_nat j). by apply dblocks_lookup.
    - done. }
  destruct Hg as (HL & Hsz & Hfr). constructor; try done.
  - exists d', (block_bitmap (cur_part s)). split; [by destruct s as [? ? ? []]|done].
  - constructor; [apply Hlv'|apply Hd|done|done| | | | |].
    + intros Hi0. destruct (dk_table _ _ Hd Hi0) as [Hu Hne]. split; [exact Hu|]. intros m Hm. change (dblock (dsk _) i' m) with (dblock d' i m). rewrite Hdb by done. by apply Hne.
    + intros Hi0. change (dblock (dsk _) i' 12) with (dblock d' i 12). rewrite Hdb by lia. by apply (dk_dense _ _ Hd).
    + intros m Hm. change (dblock (dsk _) i' m) with (dblock d' i m). rewrite Hdb by done. exact (dk_block _ _ Hd m Hm).
    + intros m Hm. change (dblock (dsk _) i' m) with (dblock d' i m). rewrite Hdb by done. intros Hdd.
      destruct (decide (m = j)) as [->|Hmj].
      2: { pose proof (dk_dots _ _ Hd m Hm) as Hdots. unfold has_entry in *. change (dsk (set_inode p i' (with_dsk d' s))) with d' in *.
           specialize (Hoth m Hm Hmj). rewrite Hdb in Hoth by done. rewrite Hoth in *. by apply Hdots. }
      change (dsk (set_inode p i' (with_dsk d' s))) with d' in *. fold lba in Hdd |- *.
      assert (Hdot : has_entry (dsk s) lba dot).
      { apply (dk_dots _ _ Hd j Hj). destruct Hdd as [E1|(x & Hx & Hxl & Hxn)]; [by left|right]. fold lba. rewrite Hent in Hx.
        apply list_elem_of_lookup in Hx as [n Hx]. apply list_lookup_insert_Some in Hx as [(_ & <- & _)|[_ Hx]]; [done|].
        exists x. split; [fold lba in Hold; rewrite Hold; by eapply list_elem_of_lookup_2|done]. }
      destruct Hdot as (x & Hx & Hxl & Hxn). fold lba in Hold. rewrite Hold in Hx. apply list_elem_of_lookup in Hx as [n Hx].
      exists x. split; [|done]. rewrite Hent. apply list_elem_of_lookup. exists n. rewrite list_lookup_insert_ne; [done|]. intros En. rewrite <- En, Hek in Hx. injection Hx as <-. done.
    + intros m m' Hm Hm'. change (dblock (dsk _) i' m) with (dblock d' i m). change (dblock (dsk _) i' m') with (dblock d' i m'). rewrite !Hdb by done. by apply (dk_inj _ _ Hd).
  - intros x _ Hno. change (dsk (set_inode p i' (with_dsk d' s))) with d'. rewrite Hsec, decide_False; [done|]. intros Hx. apply Hno. left. exists j. split; [done|]. fold lba. lia.
Qed.

(** *** A new block *)

(** A failed allocation changes at most the disk's copy of the block bitmap; at most one
    block was free. *)
Definition refused s s' : Prop :=
  (exists d' b', s' = with_dsk d' (with_bitmap BLOCK_BITMAP b' s) /\ nbits b' = nbits (block_bitmap (cur_part s)) /\
     (forall k, 0 <= k -> bit b' k = bit (block_bitmap (cur_part s)) k) /\
     forall k, ~ (block_bitmap_lba (sb (cur_part s)) <= k < inode_bitmap_lba (sb (cur_part s))) -> bd_sector d' k = bd_sector (dsk s) k) /\
  fs_ok s' /\ forall a b, data_block s a -> bused s a = false -> data_block s b -> bused s b = false -> a = b.

(** What a new block [lba] for hole [j] gives. *)
Definition extended s s1 (p : Z) (i i1 : inode) (j lba : Z) : Prop := exists L,
  wrote s s1 p i1 L /\ fs_ok s1 /\ lba ∈ L /\ inode_live i1 /\ i1 = set_sectors (i_sectors i1) i /\
  (forall m, 0 <= m < 140 -> dblock (dsk s1) i1 m = if decide (m = j) then lba else dblock (dsk s) i m) /\
  (indirect i1 = indirect i \/ indirect i1 ∈ L) /\ indirect i1 <> lba /\ (12 <= j -> indirect i1 <> 0) /\ (j <> 12 -> indirect i1 = indirect i).

Lemma full_refused s : fs_ok s -> full s -> refused s s.
Proof.
  intros Hs Hf. split_and!; [|done|].
  - exists (dsk s), (block_bitmap (cur_part s)). split_and!; try done. by destruct s as [? ? ? []].
  - intros a b [[Ha0 _] Ha] Hu _ _. exfalso. unfold bused in Hu. rewrite Hf in Hu; [done|]. unfold data_start. lia.
Qed.

(** Allocate a block and write its bit. *)
Lemma alloc_sync s p i :
  fs_ok s -> root_used s -> inodes s !! p = Some i -> inode_live i ->
  (exists lba b' s1, block_bitmap_alloc s = Done (lba, with_bitmap BLOCK_BITMAP b' s) /\ data_block s lba /\ bused s lba = false /\
     bitmap_sync (with_bitmap BLOCK_BITMAP b' s) (lba - data_start s) BLOCK_BITMAP = Done s1 /\ grown s s1 p i [lba] /\ fs_ok s1) \/
  (block_bitmap_alloc s = Done (-1, s) /\ full s).
Proof.
  intros Hs Hr Hi [Hw Hc]. destruct (block_alloc_ok s Hs Hr) as [(lba & b' & Ha & Hd & Hu & HB & Hn & Hb)|[Ha Hf]]; [left|by right].
  pose proof (alloc_step s p i lba b' Hs Hi Hd Hu HB Hn Hb) as Hg. destruct (data_block_u32 s lba Hs Hd) as (_ & _ & _ & _ & _ & Hrg).
  assert (Hs1 : fs_ok (with_bitmap BLOCK_BITMAP b' s)) by (eapply grown_ok; eauto).
  destruct (sync_step (with_bitmap BLOCK_BITMAP b' s) p i (lba - data_start s)) as (s1 & Hsy & Hg1); [done|done| |].
  { destruct (grown_data _ _ _ _ _ Hg) as (_ & Hn' & _). rewrite Hn'. lia. }
  exists lba, b', s1. split_and!; try done.
  - pose proof (grown_trans _ _ _ _ _ _ _ _ Hg Hg1) as Hgg. by rewrite app_nil_r in Hgg.
  - eapply (grown_ok (with_bitmap BLOCK_BITMAP b' s)); eauto.
Qed.

Lemma dblock_u32 s i m : fs_ok s -> dir_ok s i -> 0 <= m < 140 -> u32 (dblock (dsk s) i m) = dblock (dsk s) i m.
Proof.
  intros Hs Hd Hm. destruct (decide (dblock (dsk s) i m = 0)) as [->|Hne]; [done|].
  pose proof (taken_lba s _ Hs (dk_block _ _ Hd m Hm Hne)) as Hr. change max_lba with 163839 in Hr. apply u32_small. lia.
Qed.

Lemma extend_direct s p i j :
  fs_ok s -> root_used s -> inodes s !! p = Some i -> inode_live i -> dir_ok s i -> 0 <= j < 12 ->
  (exists lba s1 i1, new_dir_block s p (dblocks (dsk s) i) j = Done (Some lba, s1) /\ extended s s1 p i i1 j lba) \/
  (exists s1, new_dir_block s p (dblocks (dsk s) i) j = Done (None, s1) /\ refused s s1).
Proof.
  intros Hs Hr Hi Hlv Hd Hj. unfold new_dir_block.
  destruct (alloc_sync s p i Hs Hr Hi Hlv) as [(lba & b' & s1 & Ha & Hdb & Hu & Hsy & Hg & Hs1)|[Ha Hf]].
  2: { right. rewrite Ha, bind_done. exists s. split; [done|]. by apply full_refused. }
  left. rewrite Ha, bind_done. destruct (data_block_u32 s lba Hs Hdb) as (E32 & H32 & Hm1 & H0' & Eidx & Hrg).
  destruct (Z.eqb_spec lba (-1)); [done|]. cbv zeta. change (data_start_lba (sb (cur_part (with_bitmap BLOCK_BITMAP b' s)))) with (data_start s).
  destruct (fo_layout s Hs) as (L1 & L2 & L3 & L4 & L5 & L6 & L7 & L8 & L9 & L10). change max_lba with 163839 in L10. destruct (Hdb) as [Hd1 _].
  assert_ok; [|rewrite i32_small by (unfold data_start; lia); apply negb_true_iff, Z.eqb_neq; lia].
  rewrite Eidx, Hsy, bind_done. unfold inode_at. rewrite (grown_inode _ _ _ _ _ Hg), bind_done. destruct (Z.ltb_spec j 12); [|lia].
  pose proof Hlv as [(_ & _ & _ & _ & Hlen & Hfor) _]. rewrite aset_in by lia. rewrite bind_done, E32.
  set (i1 := set_sectors (<[Z.to_nat j := lba]> (i_sectors i)) i).
  assert (Hlv1 : inode_live i1) by (apply set_sectors_live; [done|by rewrite length_insert|by apply Forall_insert]).
  assert (Hg1 : grown s (set_inode p i1 s1) p i1 [lba]).
  { pose proof (grown_trans _ _ _ _ _ _ _ _ Hg (inode_step s1 p i1 Hs1)) as Hgg. by rewrite app_nil_r in Hgg. }
  assert (Hind : indirect i1 = indirect i) by (unfold indirect; cbn [i_sectors i1 set_sectors]; rewrite list_lookup_insert_ne; [done|lia]).
  exists lba, (set_inode p i1 s1), i1. split; [done|]. exists [lba]. split_and!; try done.
  - by apply grown_wrote.
  - destruct Hlv1. by eapply (grown_ok s).
  - by left.
  - intros m Hm. unfold dblock. rewrite Hind. case_decide as E; [rewrite decide_False by lia; done|]. unfold file_block. rewrite Hind.
    cbn [i_sectors i1 set_sectors]. destruct (decide (m = j)) as [->|Hne].
    + rewrite decide_True by lia. by rewrite list_lookup_insert_eq by lia.
    + destruct (decide (m < 12)); [rewrite list_lookup_insert_ne by lia; done|]. do 3 f_equal. change (dsk (set_inode p i1 s1)) with (dsk s1).
      apply (grown_sector s s1 p i [lba]); [done|done|]. apply (dk_table _ _ Hd). lia.
  - by left.
  - rewrite Hind. intros E. destruct (decide (indirect i = 0)) as [E0|E0]; [lia|]. destruct (dk_table _ _ Hd E0) as [Hub _].
    apply (fresh_not_used _ _ _ _ _ (indirect i) lba Hg Hub); [by left|done].
  - lia.
Qed.

(** The indirect table is written: the blocks are those of [all]. *)
Lemma stored_blocks s s1 p i i1 L j lba d' :
  fs_ok s -> dir_ok s i -> length (i_sectors i1) = 13%nat -> grown s s1 p i1 L -> 12 <= j < 140 -> u32 lba = lba ->
  indirect i1 <> 0 -> (forall m, 0 <= m < 12 -> i_sectors i1 !! Z.to_nat m = i_sectors i !! Z.to_nat m) ->
  (forall j0 m, indirect j0 = indirect i1 -> 12 <= m < 140 -> file_block d' j0 m = u32 (default 0 (<[Z.to_nat j := lba]> (dblocks (dsk s) i) !! Z.to_nat m))) ->
  forall m, 0 <= m < 140 -> dblock d' i1 m = if decide (m = j) then lba else dblock (dsk s) i m.
Proof.
  intros Hs Hd Hlen Hg Hj E32 Hne Hsame Hfb m Hm. unfold dblock at 1. rewrite decide_False by lia. destruct (decide (m < 12)).
  - rewrite decide_False by lia. unfold dblock. rewrite decide_False by lia. unfold file_block. rewrite !decide_True by lia. by rewrite Hsame by lia.
  - rewrite Hfb by lia. destruct (decide (m = j)) as [->|Hmj].
    + rewrite list_lookup_insert_eq by (rewrite dblocks_length; lia). done.
    + rewrite list_lookup_insert_ne, dblocks_lookup by lia. by apply dblock_u32.
Qed.

Lemma extend_indirect s p i j :
  fs_ok s -> root_used s -> inodes s !! p = Some i -> inode_live i -> dir_ok s i -> 12 < j < 140 -> indirect i <> 0 ->
  (exists lba s1 i1, new_dir_block s p (dblocks (dsk s) i) j = Done (Some lba, s1) /\ extended s s1 p i i1 j lba) \/
  (exists s1, new_dir_block s p (dblocks (dsk s) i) j = Done (None, s1) /\ refused s s1).
Proof.
  intros Hs Hr Hi Hlv Hd Hj Hind. unfold new_dir_block.
  destruct (alloc_sync s p i Hs Hr Hi Hlv) as [(lba & b' & s1 & Ha & Hdb & Hu & Hsy & Hg & Hs1)|[Ha Hf]].
  2: { right. rewrite Ha, bind_done. exists s. split; [done|]. by apply full_refused. }
  left. rewrite Ha, bind_done. destruct (data_block_u32 s lba Hs Hdb) as (E32 & H32 & Hm1 & H0' & Eidx & Hrg).
  destruct (Z.eqb_spec lba (-1)); [done|]. cbv zeta. change (data_start_lba (sb (cur_part (with_bitmap BLOCK_BITMAP b' s)))) with (data_start s).
  destruct (fo_layout s Hs) as (L1 & L2 & L3 & L4 & L5 & L6 & L7 & L8 & L9 & L10). change max_lba with 163839 in L10. destruct (Hdb) as [Hd1 _].
  assert_ok; [|rewrite i32_small by (unfold data_start; lia); apply negb_true_iff, Z.eqb_neq; lia].
  rewrite Eidx, Hsy, bind_done. unfold inode_at. rewrite (grown_inode _ _ _ _ _ Hg), bind_done. destruct (Z.ltb_spec j 12); [lia|]. destruct (Z.eqb_spec j 12); [lia|].
  pose proof Hlv as [(_ & _ & _ & _ & Hlen & _) _]. rewrite aset_in by (rewrite dblocks_length; lia). rewrite bind_done, E32.
  destruct (aget_in (i_sectors i) 12) as (t & Ht & ->); [lia|]. rewrite bind_done.
  assert (Et : indirect i = t) by (unfold indirect; change 12%nat with (Z.to_nat 12); by rewrite Ht). rewrite <- Et.
  destruct (dk_table _ _ Hd Hind) as [Hub _]. pose proof (grown_used s s1 p i [lba] _ Hs Hg (or_introl Hub)) as [Hdt _].
  destruct (store_table_ok s1 (indirect i) (<[Z.to_nat j := lba]> (dblocks (dsk s) i)) Hs1 Hdt) as (d' & -> & Hd' & Hk & Hfb);
    [by rewrite length_insert, dblocks_length|]. rewrite bind_done.
  exists lba, (with_dsk d' s1), i. split; [done|]. exists [lba]. split_and!; try done.
  - exists d', s1. split_and!; done.
  - by apply with_dsk_ok.
  - by left.
  - by destruct i.
  - eapply stored_blocks; eauto. lia.
  - by left.
  - intros E. apply (fresh_not_used _ _ _ _ _ (indirect i) lba Hg Hub); [by left|done].
Qed.

(** The second allocation of a first indirect block fails. *)
Lemma second_refused s p i lba s1 i1 :
  fs_ok s -> inodes s !! p = Some i -> inode_live i -> data_block s lba -> bused s lba = false -> grown s s1 p i [lba] -> full s1 ->
  exists b2, bitmap_set (block_bitmap (cur_part s1)) (lba - data_start s) 0 = Done b2 /\
    refused s (set_inode p i (with_bitmap BLOCK_BITMAP b2 (set_inode p i1 s1))).
Proof.
  intros Hs Hi [Hw Hc] Hdb Hu (d1 & b1 & -> & Hd1 & HB1 & Hn1 & Hb1 & Hk1 & _) Hf.
  destruct (data_block_u32 s lba Hs Hdb) as (_ & _ & _ & _ & _ & Hrg). pose proof Hdb as [Hd1' _].
  set (s1 := with_dsk d1 _) in *. change (block_bitmap (cur_part s1)) with b1 in *.
  destruct (bitmap_set_spec b1 (lba - data_start s) 0) as (b2 & -> & Hw2 & Hn2 & _ & Hb2); [apply HB1|lia|by left|].
  exists b2. split; [done|].
  assert (Hbits : forall k, 0 <= k -> bit b2 k = bit (block_bitmap (cur_part s)) k).
  { intros k Hk. rewrite Hb2 by done. destruct (decide (k = lba - data_start s)) as [E|E]; [unfold bused in Hu; by rewrite E, Hu|]. rewrite Hb1 by done.
    rewrite bool_decide_false; [apply orb_false_r|]. rewrite list_elem_of_singleton. lia. }
  assert (E : set_inode p i (with_bitmap BLOCK_BITMAP b2 (set_inode p i1 s1)) = with_dsk d1 (with_bitmap BLOCK_BITMAP b2 s)).
  { unfold s1, with_dsk, with_bitmap, with_part, set_inode, with_inodes. cbn [dsk mem inodes cur_part file_table fd_table root_dir dirs cwd_inode_nr start_lba sec_cnt sb inode_bitmap open_inodes]. f_equal. by rewrite !insert_insert_eq, insert_id. }
  rewrite E. split_and!.
  - exists d1, b2. split_and!; try done. lia.
  - constructor; [done|exact (fo_mem s Hs)|exact (fo_layout s Hs)| |exact (fo_open s Hs)].
    apply (set_bitmaps_ok s1 BLOCK_BITMAP (lba - data_start s) 0 b2); try done; [cbn [bitmap_of]; change (block_bitmap (cur_part s1)) with b1; lia| |by left].
    intros _ _. change (data_start s + (lba - data_start s) < start_lba (cur_part s) + sec_cnt (cur_part s)). lia.
  - assert (Hall : forall a, data_block s a -> bused s a = false -> a = lba).
    { intros a [[Ha1 _] Ha2] Hau. specialize (Hf (a - data_start s)). change (block_bitmap (cur_part s1)) with b1 in Hf. rewrite Hb1 in Hf by (unfold data_start; lia).
      unfold bused in Hau. rewrite Hau in Hf. cbn [orb] in Hf. specialize (Hf ltac:(unfold data_start; lia)). apply bool_decide_eq_true_1, list_elem_of_singleton in Hf. lia. }
    intros a b Ha Hau Hb Hbu. by rewrite (Hall a Ha Hau), (Hall b Hb Hbu).
Qed.

Lemma extend_first s p i :
  fs_ok s -> root_used s -> inodes s !! p = Some i -> inode_live i -> dir_ok s i -> indirect i = 0 ->
  (exists lba s1 i1, new_dir_block s p (dblocks (dsk s) i) 12 = Done (Some lba, s1) /\ extended s s1 p i i1 12 lba) \/
  (exists s1, new_dir_block s p (dblocks (dsk s) i) 12 = Done (None, s1) /\ refused s s1).
Proof.
  intros Hs Hr Hi Hlv Hd Hind. unfold new_dir_block.
  destruct (alloc_sync s p i Hs Hr Hi Hlv) as [(t & b' & s1 & Ha & Hdb & Hu & Hsy & Hg & Hs1)|[Ha Hf]].
  2: { right. rewrite Ha, bind_done. exists s. split; [done|]. by apply full_refused. }
  rewrite Ha, bind_done. destruct (data_block_u32 s t Hs Hdb) as (E32 & H32 & Hm1 & H0' & Eidx & Hrg).
  destruct (Z.eqb_spec t (-1)); [done|]. cbv zeta. change (data_start_lba (sb (cur_part (with_bitmap BLOCK_BITMAP b' s)))) with (data_start s).
  destruct (fo_layout s Hs) as (L1 & L2 & L3 & L4 & L5 & L6 & L7 & L8 & L9 & L10). change max_lba with 163839 in L10. destruct (Hdb) as [Hd1 _].
  assert_ok; [|rewrite i32_small by (unfold data_start; lia); apply negb_true_iff, Z.eqb_neq; lia].
  rewrite Eidx, Hsy, bind_done. unfold inode_at. rewrite (grown_inode _ _ _ _ _ Hg), bind_done. change (12 <? 12) with false. change (12 =? 12) with true. cbv iota.
  pose proof Hlv as [(_ & _ & _ & _ & Hlen & Hfor) _]. rewrite aset_in by lia. rewrite bind_done, E32. change (Z.to_nat 12) with 12%nat.
  set (i1 := set_sectors (<[12%nat := t]> (i_sectors i)) i).
  assert (Hlv1 : inode_live i1) by (apply set_sectors_live; [done|by rewrite length_insert|by apply Forall_insert]).
  assert (Hg1 : grown s (set_inode p i1 s1) p i1 [t]).
  { pose proof (grown_trans _ _ _ _ _ _ _ _ Hg (inode_step s1 p i1 Hs1)) as Hgg. by rewrite app_nil_r in Hgg. }
  assert (Hs2 : fs_ok (set_inode p i1 s1)) by (destruct Hlv1; by eapply (grown_ok s)).
  assert (Hr2 : root_used (set_inode p i1 s1)) by (by eapply (grown_root s)).
  destruct (alloc_sync (set_inode p i1 s1) p i1 Hs2 Hr2 (lookup_insert_eq _ _ _) Hlv1) as [(lba & b2 & s3 & Ha2 & Hdb2 & Hu2 & Hsy2 & Hg2 & Hs3)|[Ha2 Hf2]].
  2: { right. rewrite Ha2, bind_done. cbn [Z.eqb]. destruct (Z.eqb_spec (-1) (-1)); [|done].
       destruct (second_refused s p i t s1 i1 Hs Hi Hlv Hdb Hu Hg Hf2) as (b3 & Hset & Href).
       change (block_bitmap (cur_part (set_inode p i1 s1))) with (block_bitmap (cur_part s1)). rewrite Hset, bind_done, aset_in by (rewrite length_insert; lia).
       rewrite bind_done. eexists. split; [reflexivity|]. change (Z.to_nat 12) with 12%nat. rewrite list_insert_insert_eq, list_insert_id.
       - by replace (set_sectors (i_sectors i) i) with i by (by destruct i).
       - destruct (lookup_lt_is_Some_2 (i_sectors i) 12) as [x Hx]; [lia|]. rewrite Hx. f_equal. unfold indirect in Hind. by rewrite Hx in Hind. }
  left. rewrite Ha2, bind_done. destruct (grown_data _ _ _ _ _ Hg1) as (Eds & Enb & Hdbe). assert (Hdb3 : data_block s lba) by (by apply Hdbe).
  destruct (data_block_u32 s lba Hs Hdb3) as (E32' & H32' & Hm1' & H0'' & Eidx' & Hrg'). destruct (Z.eqb_spec lba (-1)); [done|].
  destruct (Hdb3) as [Hd3 _].
  assert_ok; [|rewrite i32_small by (unfold data_start; lia); apply negb_true_iff, Z.eqb_neq; lia].
  rewrite Eds in Hsy2. rewrite Eidx', Hsy2, bind_done, aset_in by (rewrite dblocks_length; lia). rewrite bind_done, E32'.
  pose proof (grown_trans _ _ _ _ _ _ _ _ Hg1 Hg2) as Hg3. cbn [app] in Hg3.
  assert (Htu : used_block s3 t) by (apply (grown_used s s3 p i1 [t; lba] t Hs Hg3); right; by left).
  destruct (store_table_ok s3 t (<[Z.to_nat 12 := lba]> (dblocks (dsk s) i)) Hs3) as (d' & -> & Hd' & Hk & Hfb); [apply Htu|by rewrite length_insert, dblocks_length|].
  assert (Ei1 : indirect i1 = t) by (unfold indirect; cbn [i_sectors i1 set_sectors]; by rewrite list_lookup_insert_eq by lia).
  assert (Hne : t <> lba) by (pose proof (grown_nodup _ _ _ _ _ Hg3) as Hnd; apply NoDup_cons in Hnd as [Hnd _]; by rewrite list_elem_of_singleton in Hnd).
  rewrite bind_done. exists lba, (with_dsk d' s3), i1. split; [done|]. exists [t; lba]. split_and!; try done.
  - exists d', s3. split_and!; try done. by rewrite Ei1.
  - by apply with_dsk_ok.
  - right. by left.
  - eapply (stored_blocks s s3 p i i1); eauto; [cbn [i_sectors i1 set_sectors]; by rewrite length_insert|lia|by rewrite Ei1| |by rewrite Ei1].
    intros m Hm. cbn [i_sectors i1 set_sectors]. apply list_lookup_insert_ne. lia.
  - right. rewrite Ei1. by left.
  - by rewrite Ei1.
  - by rewrite Ei1.
Qed.

Lemma used_taken s b : used_block s b -> taken s b.
Proof. intros [[H1 H2] H3]. split_and!; [lia..|done]. Qed.

Lemma taken_grown s s' p j L a : grown s s' p j L -> taken s a -> taken s' a.
Proof.
  intros (d' & b' & -> & _ & _ & Hn & Hb & _) (H1 & H2 & H3). unfold taken. cbn [cur_part with_dsk with_bitmap with_part block_bitmap sb set_inode with_inodes start_lba sec_cnt].
  split_and!; [lia|lia|lia|]. rewrite Hb by lia. by rewrite H3.
Qed.

Lemma taken_fresh s s' p j L a b : grown s s' p j L -> taken s a -> b ∈ L -> a <> b.
Proof. intros (d' & b' & -> & _ & _ & _ & _ & _ & _ & HL) (_ & _ & Hu) Hb ->. destruct (HL b Hb) as [_ Hf]. unfold bused, data_start in Hf. congruence. Qed.

(** A sector with one entry, the rest zero. *)
Lemma first_entries e b :
  entry_wf e -> memcpy_to (replicate 512 0) 0 (entry_bytes e) = Done b -> length b = 512%nat /\ entries b = e :: replicate 20 null_entry.
Proof.
  intros He E. destruct (entries_memcpy (replicate 512 0) 0 (entry_bytes e) b) as [Hl ->]; [done|lia|by apply entry_bytes_length|done|].
  split; [done|]. rewrite entries_zero. rewrite <- (app_nil_r (entry_bytes e)), bytes_entry_bytes by done. done.
Qed.

Lemma new_entry_ok s s1 p i i1 j lba e d' b :
  fs_ok s -> root_used s -> inodes s !! p = Some i -> dir_ok s i -> entry_wf e -> live e -> ~ named dotdot e -> 0 <= j < 140 -> dblock (dsk s) i j = 0 ->
  extended s s1 p i i1 j lba -> memcpy_to (replicate 512 0) 0 (entry_bytes e) = Done b -> bd_ok d' ->
  (forall x, bd_sector d' x = if decide (lba <= x < lba + 1) then chunk b (x - lba) else bd_sector (dsk s1) x) ->
  inserted s (set_inode p (set_size (i_size i1 + 24) i1) (with_dsk d' s1)) p i (set_size (i_size i1 + 24) i1) e.
Proof.
  intros Hs Hr Hi Hd Hew Hle Hnn Hj Hhole (L & Hwr & Hs1 & HlbaL & Hlv1 & Ei1 & Hdb & Hind & Hne & H12 & Hn12) E Hd' Hsec.
  pose proof Hwr as (d1 & sg & Hg & Es1 & Hd1 & Hk1). destruct (first_entries e b Hew E) as [Hbl Hbe].
  pose proof (dk_size _ _ Hd) as Hz. pose proof (slots_length (dsk s) i) as Hsl. assert (Ez : i_size i1 = i_size i) by (rewrite Ei1; done).
  assert (Hlba : data_block s lba /\ bused s lba = false) by (pose proof Hg as (? & ? & _ & _ & _ & _ & _ & _ & _ & HL); by apply HL).
  destruct Hlba as [Hlba Hfree]. pose proof (data_block_lba s lba Hs Hlba) as Hlr.
  assert (Htb : forall m, 0 <= m < 140 -> m <> j -> dblock (dsk s) i m <> 0 -> taken s (dblock (dsk s) i m) /\ dblock (dsk s) i m <> lba).
  { intros m Hm _ H0m. pose proof (dk_block _ _ Hd m Hm H0m) as Ht. split; [done|]. by eapply taken_fresh. }
  assert (Hkeep : forall k, taken s k -> k <> indirect i -> bd_sector d' k = bd_sector (dsk s) k).
  { intros k Hk Hki. pose proof (taken_fresh _ _ _ _ _ k lba Hg Hk HlbaL) as Hkl. rewrite Hsec, decide_False by lia. rewrite Es1.
    cbn [dsk with_dsk]. rewrite Hk1; [|destruct Hind as [->|Hin]; [done|by eapply taken_fresh]].
    destruct Hg as (dg & bg & -> & _ & _ & _ & _ & Hkg & _). apply Hkg. destruct Hk as [Hk _]. destruct (fo_layout s Hs) as (Q1 & Q2 & Q3 & Q4 & Q5 & Q6 & Q7 & Q8 & Q9 & Q10). lia. }
  assert (Hsame : forall m, 0 <= m < 140 -> m <> j -> dblock (dsk s) i m <> 0 -> bd_sector d' (dblock (dsk s) i m) = bd_sector (dsk s) (dblock (dsk s) i m)).
  { intros m Hm Hmj H0m. destruct (Htb m Hm Hmj H0m) as [Ht _]. apply Hkeep; [done|]. intros Em.
    destruct (decide (indirect i = 0)) as [E0|E0]; [congruence|]. by apply (proj2 (dk_table _ _ Hd E0) m Hm). }
  set (i' := set_size (i_size i1 + 24) i1).
  assert (Hdb' : forall m, 0 <= m < 140 -> dblock d' i' m = if decide (m = j) then lba else dblock (dsk s) i m).
  { intros m Hm. rewrite <- Hdb by done. change (dblock d' i' m) with (dblock d' i1 m). apply dblock_frame. intros _ _. rewrite Hsec, decide_False; [done|lia]. }
  assert (Hlv' : inode_live i') by (apply set_size_live; [done|unfold is_u32; lia]).
  assert (Hs' : fs_ok (set_inode p i' (with_dsk d' s1))).
  { destruct Hlv' as [Hw' Hc']. apply (set_inode_ok (with_dsk d' s1) p i1); [by apply with_dsk_ok| |exact Hw'|done|exact Hc'].
    rewrite Es1. exact (grown_inode _ _ _ _ _ Hg). }
  assert (Ebe : block_entries d' (dblock d' i' j) = e :: replicate 20 null_entry).
  { rewrite Hdb', decide_True by lia. unfold block_entries. rewrite decide_False by lia. rewrite Hsec, decide_True by lia. rewrite Z.sub_diag. unfold chunk.
    rewrite take_ge by (rewrite drop_0; lia). by rewrite drop_0. }
  destruct (gained (dsk s) d' i i' j e s Hd eq_refl Hj) as (HL & Hsz & Hfr).
  { intros m Hm Hmj. rewrite Hdb', decide_False by done. apply block_entries_sector. intros H0m. by apply Hsame. }
  { rewrite Ebe, Hhole. rewrite filter_cons, decide_True by done. by vm_compute. }
  { rewrite Ebe. intros x Hx Hnl. apply elem_of_cons in Hx as [->|Hx]; [done|]. apply elem_of_replicate in Hx as [-> _]. vm_compute. done. }
  { cbn [i_size i' set_size]. lia. }
  constructor; try done.
  - rewrite Es1. destruct Hg as (dg & bg & -> & _ & _ & Hn & Hb & _). exists d', bg. split_and!; [|done|intros k Hk Hbk; rewrite Hb by done; by rewrite Hbk].
    unfold with_dsk, with_bitmap, with_part, set_inode, with_inodes. cbn [dsk mem inodes cur_part file_table fd_table root_dir dirs cwd_inode_nr]. f_equal. apply insert_insert_eq.
  - change (root_used s1). rewrite Es1. exact (grown_root s sg p i1 L Hr Hg).
  - cbn [i_no i' set_size]. by rewrite Ei1.
  - change (dsk (set_inode p i' (with_dsk d' s1))) with d' in *. constructor; change (dsk (set_inode p i' (with_dsk d' s1))) with d'; [apply Hlv'| |done|done| | | | |].
    + change (dir_entry_size (sb (cur_part s1)) = 24). rewrite Es1. destruct Hg as (dg & bg & -> & _). exact (dk_entry _ _ Hd).
    + intros Hi0. change (indirect i') with (indirect i1) in *. split.
      * change (used_block s1 (indirect i1)). apply (wrote_used s s1 p i1 L); [done|done|]. destruct Hind as [Eind|Hin]; [|by right].
        left. rewrite Eind in *. by apply (dk_table _ _ Hd).
      * intros m Hm. rewrite Hdb' by done. destruct (decide (m = j)); [done|]. intros Em. destruct Hind as [Eind|Hin].
        -- rewrite Eind in *. by apply (proj2 (dk_table _ _ Hd Hi0) m Hm).
        -- apply (taken_fresh _ _ _ _ _ (dblock (dsk s) i m) (indirect i1) Hg); [|done|done]. apply (dk_block _ _ Hd m Hm). congruence.
    + intros Hi0. rewrite Hdb' by lia. destruct (decide (12 = j)); [lia|]. apply (dk_dense _ _ Hd). rewrite <- Hn12 by lia. exact Hi0.
    + intros m Hm. rewrite Hdb' by done. change (taken (set_inode p i' (with_dsk d' s1))) with (taken s1). rewrite Es1. change (taken (with_dsk d1 sg)) with (taken sg).
      destruct (decide (m = j)); intros H0m; [|apply (taken_grown s sg p i1 L); [done|by apply (dk_block _ _ Hd)]].
      apply used_taken, (grown_used s sg p i1 L); [done|done|by right].
    + intros m Hm. assert (Eds : data_start_lba (sb (cur_part (set_inode p i' (with_dsk d' s1)))) = data_start s).
      { change (data_start s1 = data_start s). rewrite Es1. exact (proj1 (grown_data _ _ _ _ _ Hg)). }
      rewrite Eds. destruct (decide (m = j)) as [->|Hmj].
      * intros [E1|(x & Hx & Hxl & Hxn)].
        -- rewrite Hdb', decide_True in E1 by done. destruct Hlba as [Hl1 _]. unfold data_start in E1. lia.
        -- rewrite Ebe in Hx. apply elem_of_cons in Hx as [->|Hx]; [done|]. by apply elem_of_replicate in Hx as [-> _].
      * rewrite Hdb', decide_False by done. pose proof (dk_dots _ _ Hd m Hm) as Hdots.
        rewrite !(has_entry_sector (dsk s) d'); [exact Hdots|intros H0m; by apply Hsame..].
    + intros m m' Hm Hm'. rewrite !Hdb' by done. destruct (decide (m = j)) as [->|], (decide (m' = j)) as [->|]; try done.
      * intros _ El. destruct (Htb m' Hm' ltac:(done)) as [_ Hx]; [lia|congruence].
      * intros H0m El. destruct (Htb m Hm ltac:(done) H0m) as [_ Hx]. congruence.
      * by apply (dk_inj _ _ Hd).
  - intros k [Hk1' Hk2] Hown. change (dsk (set_inode p i' (with_dsk d' s1))) with d'. destruct (decide (data_start s <= k)) as [Hge|Hlt].
    + apply Hkeep; [by apply Hk2|]. intros ->. apply Hown. by right.
    + destruct Hlba as [Hl1 _]. unfold data_start in Hlt. rewrite Hsec, decide_False by lia. rewrite Es1. cbn [dsk with_dsk].
      rewrite Hk1; [destruct Hg as (dg & bg & -> & _ & _ & _ & _ & Hkg & _); by apply Hkg|]. intros ->. destruct Hind as [Ei|Hin]; [apply Hown; right; done|].
      destruct Hg as (dg & bg & -> & _ & _ & _ & _ & _ & _ & HLL). destruct (HLL _ Hin) as [[Hx _] _]. lia.
Qed.

(** *** The walk over the blocks *)
Lemma dblock_ext (d d' : D) i m : (forall k, bd_sector d' k = bd_sector d k) -> dblock d' i m = dblock d i m.
Proof. intros Hk. apply dblock_frame. intros _ _. apply Hk. Qed.

Lemma dir_ok_read s d1 i : (forall k, bd_sector d1 k = bd_sector (dsk s) k) -> dir_ok s i -> dir_ok (with_dsk d1 s) i.
Proof.
  intros Hk [K1 K2 K3 K4 K5 K6 K7 K9 K8]. destruct (slots_ext (dsk s) d1 i Hk) as [_ Es].
  assert (Ed : forall m, dblock d1 i m = dblock (dsk s) i m) by (intros; by apply dblock_ext).
  constructor; cbn [dsk with_dsk].
  - exact K1.
  - exact K2.
  - unfold dir_list. rewrite Es. exact K3.
  - rewrite Es. exact K4.
  - intros Hi. destruct (K5 Hi) as [Hu Hn]. split; [exact Hu|]. intros j Hj. rewrite Ed. by apply Hn.
  - intros Hi. rewrite Ed. by apply K6.
  - intros j Hj. rewrite Ed. by apply K7.
  - intros j Hj. rewrite Ed. rewrite !(has_entry_sector (dsk s) d1) by done. by apply K9.
  - intros j k Hj Hk'. rewrite !Ed. by apply K8.
Qed.

Lemma inserted_read s d1 s' p i i' e :
  (forall k, bd_sector d1 k = bd_sector (dsk s) k) -> inserted (with_dsk d1 s) s' p i i' e -> inserted s s' p i i' e.
Proof.
  intros Hk [(d' & b' & E & Hn & Hb) I2 I3 I4 I5 I6 I7 I8]. destruct (slots_ext (dsk s) d1 i Hk) as [_ Es]. constructor; try assumption.
  - by exists d', b'.
  - rewrite I7. cbn [dsk with_dsk]. unfold dir_list. by rewrite Es.
  - intros k Hkk Hown. rewrite I8; [apply Hk|done|]. intros [(j & Hj & Ej)|Ej]; apply Hown; [left|by right]. exists j. split; [done|].
    rewrite Ej. cbn [dsk with_dsk]. by apply dblock_ext.
Qed.

Lemma refused_read s d1 s' : (forall k, bd_sector d1 k = bd_sector (dsk s) k) -> refused (with_dsk d1 s) s' -> refused s s'.
Proof.
  intros Hk ((d' & b' & E & Hn & Hb & Hs) & Hok & Ha). split_and!; [|done|done]. exists d', b'. split_and!; try done.
  intros k Hout. rewrite Hs by done. apply Hk.
Qed.

Definition placed s (p : Z) (i : inode) (e : dir_entry) (r : outcome (bool * fs (D := D) (A := A))) : Prop :=
  (exists s' i', r = Done (true, s') /\ inserted s s' p i i' e) \/ (exists s', r = Done (false, s') /\ refused s s') \/
  (exists d', r = Done (false, with_dsk d' s) /\ bd_ok d' /\ (forall k, bd_sector d' k = bd_sector (dsk s) k) /\ length (dir_list (dsk s) i) = 2940%nat).

Lemma placed_read s d1 p i e r : (forall k, bd_sector d1 k = bd_sector (dsk s) k) -> placed (with_dsk d1 s) p i e r -> placed s p i e r.
Proof.
  intros Hk [(s' & i' & E & Hi)|[(s' & E & Hr)|(d' & E & Hd & Hs & Hl)]].
  - left. exists s', i'. split; [done|]. by eapply inserted_read.
  - right; left. exists s'. split; [done|]. by eapply refused_read.
  - right; right. exists d'. split_and!; try done; [intros k; rewrite Hs; apply Hk|]. rewrite <- Hl. cbn [dsk with_dsk].
    unfold dir_list. by rewrite (proj2 (slots_ext (dsk s) d1 i Hk)).
Qed.

(** All blocks there and all entries live: the directory has 2940 entries. *)
Lemma full_dir (d : D) i : (forall m, 0 <= m < 140 -> dblock d i m <> 0 /\ forall k, 0 <= k < 21 -> live (entry_at (bd_sector d (dblock d i m)) k)) ->
  length (dir_list d i) = 2940%nat.
Proof.
  intros Hall. unfold dir_list, slots, dblocks. rewrite list_fmap_bind.
  assert (Hg : forall n, 0 <= n <= 140 -> length (filter live (seqZ 0 n ≫= block_entries d ∘ dblock d i)) = Z.to_nat (21 * n)).
  { intros n [Hn Hn']. revert Hn'. pattern n. apply natlike_ind; [done| |exact Hn]. clear n Hn. intros n Hn IH Hn'. unfold Z.succ. rewrite seqZ_app, bind_app, filter_app, length_app by lia.
    rewrite IH by lia. change (seqZ (0 + n) 1) with [0 + n]. rewrite bind_singleton. destruct (Hall n ltac:(lia)) as [Hne Hl]. unfold compose, block_entries. rewrite Z.add_0_l, decide_False by done.
    rewrite filter_all; [rewrite entries_length; lia|]. intros x (k & -> & Hk%elem_of_seqZ)%list_elem_of_fmap. apply Hl. lia. }
  rewrite Hg by lia. done.
Qed.

Lemma place_entry_ok n s p i e idx :
  fs_ok s -> root_used s -> inodes s !! p = Some i -> inode_live i -> dir_ok s i -> entry_wf e -> live e -> ~ named dotdot e -> 0 <= idx -> idx + Z.of_nat n = 140 ->
  (forall m, 0 <= m < idx -> dblock (dsk s) i m <> 0 /\ forall k, 0 <= k < 21 -> live (entry_at (bd_sector (dsk s) (dblock (dsk s) i m)) k)) ->
  placed s p i e (place_entry s p e (dblocks (dsk s) i) idx n).
Proof.
  revert s idx. induction n as [|n IH]; intros s idx Hs Hr Hi Hlv Hd Hew Hle Hnn Hidx Hn Hbef; cbn [place_entry].
  { right; right. exists (dsk s). split_and!; [by destruct s|apply Hs|done|]. apply full_dir. intros m Hm. apply Hbef. lia. }
  rewrite (aget_Some _ _ _ Hidx (dblocks_lookup (dsk s) i idx ltac:(lia))), bind_done. set (lba := dblock (dsk s) i idx).
  assert (Ebytes : take (Z.to_nat 24) (entry_bytes e) = entry_bytes e) by (apply take_ge; by rewrite entry_bytes_length).
  pose proof (dk_size _ _ Hd) as Hz. pose proof (slots_length (dsk s) i) as Hsl.
  destruct (Z.eqb_spec lba 0) as [Hhole|Hblk].
  - assert (Hnew : (exists lba s1 i1, new_dir_block s p (dblocks (dsk s) i) idx = Done (Some lba, s1) /\ extended s s1 p i i1 idx lba) \/
      (exists s1, new_dir_block s p (dblocks (dsk s) i) idx = Done (None, s1) /\ refused s s1)).
    { destruct (decide (idx < 12)); [by apply extend_direct|]. destruct (decide (idx = 12)) as [->|].
      - apply extend_first; try done. destruct (decide (indirect i = 0)); [done|]. by destruct (dk_dense _ _ Hd).
      - apply extend_indirect; try done; [lia|]. intros E0. destruct (Hbef 12 ltac:(lia)) as [Hb _]. apply Hb. unfold dblock. by rewrite decide_True by lia. }
    destruct Hnew as [(nb & s1 & i1 & -> & Hext)|(s1 & -> & Href)]; rewrite bind_done; [|right; left; eauto].
    pose proof Hext as (L & (d1 & sg & Hg & Es1 & Hd1 & _) & Hs1 & HlbaL & Hlv1 & Ei1 & _).
    assert (Hp1 : inodes s1 !! p = Some i1) by (rewrite Es1; exact (grown_inode _ _ _ _ _ Hg)).
    assert (He1 : dir_entry_size (sb (cur_part s1)) = 24) by (rewrite Es1; destruct Hg as (dg & bg & -> & _); exact (dk_entry _ _ Hd)).
    assert (Hdbn : data_block s nb) by (destruct Hg as (? & ? & _ & _ & _ & _ & _ & _ & _ & HL); by apply HL). pose proof (data_block_lba s nb Hs Hdbn).
    rewrite He1, Ebytes. destruct (memcpy_to_ok (replicate 512 0) 0 (entry_bytes e)) as (b & E & Hbl & _); [lia|rewrite entry_bytes_length by done; cbn; lia|].
    rewrite E, bind_done. rewrite length_replicate in Hbl. destruct (bd_write_ok (dsk s1) nb b 1) as (d' & -> & Hd' & Hsec); [apply Hs1|lia|lia|lia|lia|].
    assert (Ez : i_size i1 = i_size i) by (rewrite Ei1; done).
    rewrite bind_done, (add_size_ok (with_dsk d' s1) p i1 Hp1 He1) by lia. rewrite bind_done. left. eexists _, _. split; [reflexivity|].
    apply (new_entry_ok s s1 p i i1 idx nb e d' b); try assumption. lia.
  - pose proof (taken_lba s lba Hs (dk_block _ _ Hd idx ltac:(lia) Hblk)) as Hlr.
    destruct (bd_read_ok (dsk s) lba 1) as (d1 & -> & Hd1 & Hk1); [apply Hs|lia|lia|lia|]. rewrite bind_done, sector_one. cbn [fst snd].
    unfold per_sec. rewrite (dk_entry _ _ Hd). change (Z.to_nat (512 / 24)) with 21%nat. pose proof (bd_sector_len (dsk s) lba (fo_disk s Hs)) as Hbl.
    destruct (free_entry_spec (bd_sector (dsk s) lba) 0 21 Hbl) as (r & -> & Hfr); [lia|lia|]. rewrite bind_done. destruct r as [k|].
    + destruct Hfr as [Hk Hnl]. rewrite Ebytes. change DIR_ENTRY_SIZE with 24.
      destruct (memcpy_to_ok (bd_sector (dsk s) lba) (24 * k) (entry_bytes e)) as (b & E & Hbl' & _); [lia|rewrite entry_bytes_length by done; lia|].
      rewrite E, bind_done. destruct (bd_write_ok d1 lba b 1) as (d' & -> & Hd' & Hsec); [done|lia|lia|lia|lia|].
      rewrite bind_done, (add_size_ok (with_dsk d' s) p i Hi (dk_entry _ _ Hd)) by lia. rewrite bind_done. left. eexists _, _. split; [reflexivity|].
      eapply (insert_entry_ok s p i idx k e d' b); try done; [lia|]. intros x. rewrite Hsec, Hk1. done.
    + apply (placed_read s d1); [done|]. replace (dblocks (dsk s) i) with (dblocks (dsk (with_dsk d1 s)) i) by (apply (slots_ext (dsk s) d1 i Hk1)).
      apply IH; try done; [by apply with_dsk_ok|by apply dir_ok_read|lia|lia|].
      intros m Hm. cbn [dsk with_dsk]. rewrite (dblock_ext (dsk s) d1) by done. rewrite Hk1. destruct (decide (m = idx)) as [->|]; [|apply Hbef; lia].
      split; [done|]. intros k Hk. apply Hfr. lia.
Qed.

Lemma sync_dir_entry_ok s p i e :
  fs_ok s -> root_used s -> inodes s !! p = Some i -> inode_live i -> dir_ok s i -> entry_wf e -> live e -> ~ named dotdot e ->
  placed s p i e (sync_dir_entry s p e).
Proof.
  intros Hs Hr Hi Hlv Hd Hew Hle Hnn. unfold sync_dir_entry, inode_at. rewrite Hi, bind_done, (dk_entry _ _ Hd), (dk_size _ _ Hd).
  assert_ok; [|apply Z.eqb_eq; rewrite Z.mul_comm; by apply Z.mod_mul].
  destruct (dir_blocks_ok (dsk s) i) as (d1 & -> & Hd1 & Hk1); [apply Hs|apply (dk_wf _ _ Hd)|by eapply dir_ok_indirect|]. rewrite bind_done. cbn [fst snd].
  apply (placed_read s d1); [done|]. replace (dblocks (dsk s) i) with (dblocks (dsk (with_dsk d1 s)) i) by (apply (slots_ext (dsk s) d1 i Hk1)).
  apply place_entry_ok; try assumption; [by apply with_dsk_ok|by apply dir_ok_read|lia|lia|lia].
Qed.

(** The listing depends only on the data area. *)
Lemma listing_kept s i (d' : D) :
  fs_ok s -> dir_ok s i -> (forall k, data_start s <= k -> bd_sector d' k = bd_sector (dsk s) k) -> dir_list d' i = dir_list (dsk s) i.
Proof.
  intros Hs Hd Hk. unfold dir_list, slots. f_equal.
  assert (Eb : forall m, 0 <= m < 140 -> dblock d' i m = dblock (dsk s) i m).
  { intros m Hm. apply dblock_frame. intros _ Hi. apply Hk. destruct (dk_table _ _ Hd Hi) as [[[Hx _] _] _]. unfold data_start. lia. }
  assert (E : dblocks d' i = dblocks (dsk s) i).
  { unfold dblocks. apply list_fmap_ext. intros n j Hj%lookup_seqZ. apply Eb. lia. }
  rewrite E. apply bind_ext_in. intros b (j & -> & Hj%elem_of_seqZ)%list_elem_of_fmap. apply block_entries_sector. intros H0b.
  apply Hk. destruct (dk_block _ _ Hd j ltac:(lia) H0b) as [Hx _]. unfold data_start. lia.
Qed.

(** ** Properties *)

(** C16. [sync_dir_entry] adds one entry: on success the live entries of the directory are
    the old ones and the new one, its size counts them, and it is again well-formed; it
    may have allocated a block (and the block of the indirect table), but every other
    sector in use is untouched. It fails only when the directory has its 2940 entries or
    at most one block is free, and then the directory is as it was. *)
Theorem sync_dir_entry_adds s p i e :
  fs_ok s -> root_used s -> inodes s !! p = Some i -> inode_live i -> dir_ok s i -> entry_wf e -> live e -> ~ named dotdot e ->
  (exists s' i', sync_dir_entry s p e = Done (true, s') /\ inserted s s' p i i' e) \/
  (exists s', sync_dir_entry s p e = Done (false, s') /\ fs_ok s' /\ inodes s' = inodes s /\ dir_list (dsk s') i = dir_list (dsk s) i /\
     (length (dir_list (dsk s) i) = 2940%nat \/
      forall a b, data_block s a -> bused s a = false -> data_block s b -> bused s b = false -> a = b)).
Proof.
  intros Hs Hr Hi Hlv Hd Hew Hle Hnn. destruct (sync_dir_entry_ok s p i e Hs Hr Hi Hlv Hd Hew Hle Hnn) as [Hins|[(s' & E & Href)|(d' & E & Hd' & Hk & Hl)]].
  - by left.
  - right. exists s'. pose proof Href as ((d' & b' & -> & _ & _ & Hk) & Hs' & Hone). split_and!; try assumption; [done| |by right].
    apply (listing_kept s i d' Hs Hd). intros k Hk'. unfold data_start in Hk'. apply Hk. destruct (fo_layout s Hs) as (L1 & L2 & L3 & L4 & L5 & L6 & L7 & L8 & L9 & L10). lia.
  - right. exists (with_dsk d' s). split_and!; [done|by apply with_dsk_ok|done| |by left]. cbn [dsk with_dsk]. unfold dir_list. by rewrite (proj2 (slots_ext (dsk s) d' i Hk)).
Qed.
End DirWrite.

(** ** Names *)
Lemma cname_pad name n : Forall (fun c => c <> 0) name -> cname (name ++ replicate n 0) = name.
Proof.
  induction name as [|c name IH]; intros Hf; [by destruct n|]. apply Forall_cons in Hf as [Hc Hf]. cbn [app]. rewrite cname_cons by done. by rewrite IH.
Qed.

(** [strcmp] runs past a name that fills its 16 bytes, into the inode number. *)
Lemma streq_prefix pre name b rest : Forall (fun c => c <> 0) name ->
  streq (pre ++ name ++ b :: rest) (Z.of_nat (length pre)) name = Done (b =? 0).
Proof.
  revert pre. induction name as [|c name IH]; intros pre Hf; cbn [streq app].
  - rewrite (aget_Some _ _ b), bind_done; [done|lia|]. rewrite Nat2Z.id. by rewrite list_lookup_middle.
  - apply Forall_cons in Hf as [Hc Hf]. rewrite (aget_Some _ _ c), bind_done; [|lia|rewrite Nat2Z.id; by rewrite list_lookup_middle].
    rewrite Z.eqb_refl. replace (pre ++ c :: name ++ b :: rest) with ((pre ++ [c]) ++ name ++ b :: rest) by (by rewrite <- app_assoc).
    replace (Z.of_nat (length pre) + 1) with (Z.of_nat (length (pre ++ [c]))) by (rewrite length_app; simpl; lia). by apply IH.
Qed.

(** [create_dir_entry] and the comparison of names: an entry made for a name of at most
    15 characters is found under that name; a name of 16 is accepted (the check is
    [<= MAX_FILE_NAME_LEN]) but has no terminating 0, so that the entry matches its own
    name only when the low byte of its inode number is 0; a longer one panics. *)
Theorem create_dir_entry_named name no ty :
  Forall (fun c => c <> 0) name ->
  ((length name < 16)%nat -> exists e, create_dir_entry name no ty = Done e /\ length (filename e) = 16%nat /\ named name e /\ de_i_no e = no /\ f_type e = ty) /\
  (length name = 16%nat -> exists e, create_dir_entry name no ty = Done e /\ length (filename e) = 16%nat /\
     forall rest, streq (entry_bytes e ++ rest) 0 name = Done (no mod 256 =? 0)) /\
  ((16 < length name)%nat -> create_dir_entry name no ty = Panic).
Proof.
  intros Hf. unfold create_dir_entry, MAX_FILE_NAME_LEN. split_and!; intros Hl.
  - assert_ok; [|apply Z.leb_le; lia]. eexists. split; [reflexivity|]. split_and!; try done.
    + cbn [filename]. rewrite length_app, length_replicate. lia.
    + unfold named. cbn [filename]. by apply cname_pad.
  - assert_ok; [|apply Z.leb_le; lia]. eexists. split; [reflexivity|]. split; [cbn [filename]; rewrite length_app, length_replicate; lia|].
    intros rest. unfold entry_bytes. cbn [filename de_i_no f_type]. rewrite Hl, app_nil_r, <- !app_assoc. exact (streq_prefix [] name (no mod 256) _ Hf).
  - unfold ASSERT. rewrite (proj2 (Z.leb_gt _ _)) by lia. done.
Qed.

(** ** Witnesses *)
Lemma create_dir_entry_named_witness :
  (exists e, create_dir_entry [98; 97; 114] 7 FT_REGULAR = Done e /\ named [98; 97; 114] e) /\
  (exists e, create_dir_entry (replicate 16 97) 7 FT_REGULAR = Done e /\ streq (entry_bytes e ++ replicate 488 0) 0 (replicate 16 97) = Done false).
Proof.
  split.
  - destruct (create_dir_entry_named [98; 97; 114] 7 FT_REGULAR) as (H1 & _ & _); [repeat constructor; discriminate|].
    destruct H1 as (e & E & _ & Hn & _); [simpl; lia|]. exists e. split; [exact E|exact Hn].
  - destruct (create_dir_entry_named (replicate 16 97) 7 FT_REGULAR) as (_ & H2 & _); [repeat constructor; discriminate|].
    destruct H2 as (e & E & _ & Hn); [reflexivity|]. exists e. split; [exact E|apply Hn].
Defined.

Definition bar : list Z := [98; 97; 114].

Lemma sample_sync_returns : match sync_dir_entry sample_dir sample_p (sample_entry bar 7 FT_REGULAR) with Done r => r.1 | _ => false end = true.
Proof. vm_compute. reflexivity. Qed.

Lemma sync_dir_entry_adds_witness :
  exists s' i', sync_dir_entry sample_dir sample_p (sample_entry bar 7 FT_REGULAR) = Done (true, s') /\
    dir_list (dsk s') i' ≡ₚ sample_entry bar 7 FT_REGULAR :: dir_list (dsk sample_dir) sample_root.
Proof.
  destruct (sync_dir_entry_adds sample_dir sample_p sample_root (sample_entry bar 7 FT_REGULAR)) as [(s' & i' & E & Hins)|(s' & E & _)].
  - exact sample_dir_fs_ok.
  - vm_compute. reflexivity.
  - apply lookup_singleton_eq.
  - split; [exact sample_root_wf|reflexivity].
  - exact sample_dir_ok.
  - split; [reflexivity|]. split; split; vm_compute; congruence.
  - discriminate.
  - discriminate.
  - exists s', i'. split; [exact E|exact (in_list _ _ _ _ _ _ Hins)].
  - pose proof sample_sync_returns as Hr. rewrite E in Hr. discriminate Hr.
Defined.
