(* ===== verification/DirDelete.v ===== *)
(** * Removing an entry of a directory ([delete_dir_entry] of fs/dir.c) *)
From stdpp Require Import base numbers list option tactics gmap fin_maps.
From Stdlib Require Import ZArith Lia.
From S2P Require Import Prelude Bitmap Ide Iface Inode File FileIo FileWrite Dir DirWrite.


(** An entry other than "." and ".."; the entry of an inode. *)
Definition other (e : dir_entry) : Prop := live e /\ ~ named dot e /\ ~ named dotdot e.
#[global] Instance other_dec e : Decision (other e).
Proof. unfold other. apply _. Defined.
Definition target (inode_no : Z) (e : dir_entry) : Prop := other e /\ de_i_no e = inode_no.
#[global] Instance target_dec no e : Decision (target no e).
Proof. unfold target. apply _. Defined.
Definition dotted (e : dir_entry) : Prop := live e /\ named dot e.
#[global] Instance dotted_dec e : Decision (dotted e).
Proof. unfold dotted. apply _. Defined.

Lemma filter_nil {B} (P : B -> Prop) `{!forall x, Decision (P x)} (l : list B) : filter P l = [] <-> forall x, x ∈ l -> ~ P x.
Proof.
  split.
  - intros E x Hx Hp. assert (Hin : x ∈ filter P l) by (by apply list_elem_of_filter). rewrite E in Hin. by apply elem_of_nil in Hin.
  - intros Hl. destruct (filter P l) as [|x r] eqn:E; [done|]. assert (Hin : x ∈ filter P l) by (rewrite E; by left).
    apply list_elem_of_filter in Hin as [Hp Hx]. by destruct (Hl x Hx).
Qed.

(** What the scan of a block finds. *)
Definition scanned (b : list Z) (no k : Z) (n : nat) (f : bool) (c : Z) (fo : option Z) (r : bool * Z * option Z) : Prop :=
  let l := entry_at b <$> seqZ k (Z.of_nat n) in
  r.1.1 = f || bool_decide (filter dotted l <> []) /\ r.1.2 = c + Z.of_nat (length (filter other l)) /\
  match fo with
  | Some x => r.2 = Some x
  | None => (r.2 = None /\ filter (target no) l = []) \/
      exists k', r.2 = Some k' /\ k <= k' < k + Z.of_nat n /\ filter (target no) l = [entry_at b k'] /\ target no (entry_at b k')
  end.

Lemma streq_entry b k name :
  length b = 512%nat -> 0 <= k < 21 -> Forall (fun c => c <> 0) name -> (length name < 16)%nat ->
  streq b (DIR_ENTRY_SIZE * k) name = Done (bool_decide (named name (entry_at b k))).
Proof. intros Hb Hk Hf Hl. change DIR_ENTRY_SIZE with 24. exact (streq_spec b (24 * k) name 16 ltac:(lia) ltac:(lia) Hf Hl). Qed.

Lemma scan_entries_ok b no k n f c (fo : option Z) :
  length b = 512%nat -> 0 <= k -> k + Z.of_nat n <= 21 -> 0 <= c -> c + Z.of_nat n < 256 ->
  (length (filter (target no) (entry_at b <$> seqZ k (Z.of_nat n))) <= match fo with Some _ => 0 | None => 1 end)%nat ->
  exists r, scan_entries b no k n (f, c, fo) = Done r /\ scanned b no k n f c fo r.
Proof.
  intros Hb. revert k f c fo. induction n as [|n IH]; intros k f c fo Hk Hn Hc Hcn Hone; cbn [scan_entries].
  { exists (f, c, fo). split; [done|]. unfold scanned. simpl. rewrite orb_false_r, Z.add_0_r. destruct fo; auto. }
  change (decide (DIR_ENTRY_SIZE * (k + 1) <= Z.of_nat (length b))) with (decide (24 * (k + 1) <= Z.of_nat (length b))). rewrite (decide_True (P := 24 * (k + 1) <= Z.of_nat (length b))) by lia. cbv zeta. change (k + 1) with (Z.succ k).
  change (bytes_entry (drop (Z.to_nat (DIR_ENTRY_SIZE * k)) b)) with (entry_at b k). change FT_UNKNOWN with 0.
  unfold scanned in *. rewrite (seqZ_cons k), fmap_cons in * by lia. replace (Z.pred (Z.of_nat (S n))) with (Z.of_nat n) in * by lia.
  set (e := entry_at b k) in *. set (l := entry_at b <$> seqZ (Z.succ k) (Z.of_nat n)) in *. rewrite !filter_cons in *.
  rewrite !streq_entry by (try lia; try done; repeat constructor; done). rewrite !bind_done. fold e.
  destruct (Z.eqb_spec (f_type e) 0) as [E0|E0].
  - assert (Hnl : ~ live e) by (intros Hl; by apply Hl). rewrite !(decide_False (P := dotted e)) by (by intros [? _]).
    rewrite !(decide_False (P := other e)) by (by intros [? _]). rewrite !(decide_False (P := target no e)) in * by (by intros [[? _] _]).
    destruct (IH (Z.succ k) f c fo) as (r & -> & H1 & H2 & H3); [lia..|done|]. exists r. split; [done|]. split_and!; [done|done|].
    destruct fo; [done|]. destruct H3 as [H3|(k' & ? & ? & ?)]; [by left|right]. exists k'. split_and!; try tauto; lia.
  - assert (Hlv : live e) by done. destruct (decide (named dot e)) as [Hdot|Hdot].
    { rewrite bool_decide_true by done. rewrite (decide_True (P := dotted e)) by done. rewrite !(decide_False (P := other e)) by (intros (_ & ? & _); done).
      rewrite !(decide_False (P := target no e)) in * by (intros ((_ & ? & _) & _); done).
      destruct (IH (Z.succ k) true c fo) as (r & -> & H1 & H2 & H3); [lia..|done|]. exists r. split; [done|]. split_and!; [|done|].
      - rewrite H1, (bool_decide_true (e :: _ <> [])) by done. by rewrite orb_true_r.
      - destruct fo; [done|]. destruct H3 as [H3|(k' & ? & ? & ?)]; [by left|right]. exists k'. split_and!; try tauto; lia. }
    rewrite (bool_decide_false (named dot e)) by done. rewrite (decide_False (P := dotted e)) by (by intros [_ ?]).
    destruct (decide (named dotdot e)) as [Hdd|Hdd].
    { rewrite bool_decide_true by done. rewrite !(decide_False (P := other e)) by (intros (_ & _ & ?); done).
      rewrite !(decide_False (P := target no e)) in * by (intros ((_ & _ & ?) & _); done).
      destruct (IH (Z.succ k) f c fo) as (r & -> & H1 & H2 & H3); [lia..|done|]. exists r. split; [done|]. split_and!; [done|done|].
      destruct fo; [done|]. destruct H3 as [H3|(k' & ? & ? & ?)]; [by left|right]. exists k'. split_and!; try tauto; lia. }
    rewrite (bool_decide_false (named dotdot e)) by done. rewrite (decide_True (P := other e)) by done. rewrite u8_small by lia.
    destruct (Z.eqb_spec (de_i_no e) no) as [En|En].
    + rewrite (decide_True (P := target no e)) in * by done. destruct fo as [x|]; [simpl in Hone; lia|]. simpl in Hone.
      assert (Hnil : filter (target no) l = []) by (destruct (filter (target no) l); [done|simpl in Hone; lia]).
      rewrite bool_decide_true by done. cbn [ASSERT]. rewrite bind_done.
      destruct (IH (Z.succ k) f (c + 1) (Some k)) as (r & -> & H1 & H2 & H3); [lia..|fold l; by rewrite Hnil|]. exists r. split; [done|]. split_and!; [done| |].
      * rewrite H2. cbn [length]. fold l. lia.
      * right. exists k. fold e. rewrite Hnil. split_and!; try done; lia.
    + rewrite !(decide_False (P := target no e)) in * by (by intros [_ ?]).
      destruct (IH (Z.succ k) f (c + 1) fo) as (r & -> & H1 & H2 & H3); [lia..|done|]. exists r. split; [done|]. split_and!; [done| |].
      * rewrite H2. cbn [length]. fold l. lia.
      * destruct fo; [done|]. destruct H3 as [H3|(k' & ? & ? & ?)]; [by left|right]. exists k'. split_and!; try tauto; lia.
Qed.

Section DirDelete.
Context {D A : Type} `{BlockDev D} `{Alloc A}.
Implicit Types s : fs (D := D) (A := A).

(** Block [j] of the directory has one entry. *)
Definition emptied s (i : inode) (j : Z) : Prop := length (filter live (block_entries (dsk s) (dblock (dsk s) i j))) = 1%nat.
#[local] Instance emptied_dec s i j : Decision (emptied s i j).
Proof. unfold emptied. apply _. Defined.

(** [s'] is [s] with entry [e] removed from block [j] of the directory [i] at [p]: the inode
    in memory and in its slot on disk, the bitmaps in memory and on disk, the entries. *)
Record removed s s' (p : Z) (i i' : inode) (j : Z) (e : dir_entry) : Prop := {
  rm_state : exists d' b', s' = with_dsk d' (with_bitmap BLOCK_BITMAP b' (set_inode p i' s)) /\
    nbits b' = nbits (block_bitmap (cur_part s)) /\
    forall k, 0 <= k -> bit b' k = if decide (emptied s i j /\ k = dblock (dsk s) i j - data_start s) then false else bit (block_bitmap (cur_part s)) k;
  rm_inode : i' = set_size (i_size i - 24) (if decide (emptied s i j) then set_sectors (<[Z.to_nat j := 0]> (i_sectors i)) i else i);
  rm_slot : forall x, 0 <= x < 76 -> dbyte (dsk s') (slot s (i_no i mod 256) + x) = default 0 (inode_bytes (pure i') !! Z.to_nat x);
  rm_table : forall x, slot s 0 <= x < slot s 4096 -> ~ (0 <= x - slot s (i_no i mod 256) < 76) -> dbyte (dsk s') x = dbyte (dsk s) x;
  rm_synced : synced s -> synced s';
  rm_fs : fs_ok s';
  rm_root : root_used s';
  rm_live : inode_live i';
  rm_dir : dir_ok s' i';
  rm_list : dir_list (dsk s) i ≡ₚ e :: dir_list (dsk s') i';
  rm_kept : forall k, data_start s <= k -> ~ own s i k -> bd_sector (dsk s') k = bd_sector (dsk s) k
}.

(** The directory after block [j] has lost [e] or has been given back. *)
Lemma shrunk s s' i i' j e :
  dir_ok s i -> 0 <= j < 140 -> inode_wf i' -> sb (cur_part s') = sb (cur_part s) -> indirect i' = indirect i ->
  (forall m, 0 <= m < 140 -> m <> j -> dblock (dsk s') i' m = dblock (dsk s) i m) ->
  (forall m, 0 <= m < 140 -> m <> j -> dblock (dsk s) i m <> 0 -> bd_sector (dsk s') (dblock (dsk s) i m) = bd_sector (dsk s) (dblock (dsk s) i m)) ->
  dblock (dsk s') i' j = dblock (dsk s) i j \/ (dblock (dsk s') i' j = 0 /\ j < 12) ->
  (forall m, 0 <= m < 140 -> dblock (dsk s') i' m <> 0 -> taken s (dblock (dsk s') i' m) -> taken s' (dblock (dsk s') i' m)) ->
  (indirect i <> 0 -> used_block s (indirect i) -> used_block s' (indirect i)) ->
  filter live (block_entries (dsk s) (dblock (dsk s) i j)) ≡ₚ e :: filter live (block_entries (dsk s') (dblock (dsk s') i' j)) ->
  (forall x, x ∈ block_entries (dsk s') (dblock (dsk s') i' j) -> ~ live x -> cname (filename x) = []) ->
  (has_entry (dsk s') (dblock (dsk s') i' j) dotdot -> has_entry (dsk s) (dblock (dsk s) i j) dotdot) ->
  (dblock (dsk s') i' j <> 0 -> has_entry (dsk s) (dblock (dsk s) i j) dot -> has_entry (dsk s') (dblock (dsk s') i' j) dot) ->
  i_size i' = i_size i - 24 -> 0 < data_start s ->
  dir_ok s' i' /\ dir_list (dsk s) i ≡ₚ e :: dir_list (dsk s') i'.
Proof.
  intros Hd Hj Hw Esb Ein Hm Hsec Hjj Htk Hus Hperm Hfr Hdd Hdo Hz Hds.
  assert (Hbe : forall m, 0 <= m < 140 -> m <> j -> block_entries (dsk s') (dblock (dsk s') i' m) = block_entries (dsk s) (dblock (dsk s) i m)).
  { intros m Hm1 Hm2. rewrite Hm by done. apply block_entries_sector. by apply Hsec. }
  destruct (listing_split (dsk s) (dsk s') i i' j Hj Hbe) as (R & E & E' & Hin).
  assert (HL : dir_list (dsk s) i ≡ₚ e :: dir_list (dsk s') i') by (by rewrite E, E', Hperm).
  assert (Hnz : forall m, 0 <= m < 140 -> dblock (dsk s') i' m <> 0 -> dblock (dsk s') i' m = dblock (dsk s) i m).
  { intros m Hm1 H0m. destruct (decide (m = j)) as [->|]; [|by apply Hm]. destruct Hjj as [|[? _]]; [done|lia]. }
  split; [|done]. constructor; try assumption; rewrite ?Esb, ?Ein.
  - apply Hd.
  - pose proof (Permutation_length HL) as Hlen. cbn [length] in Hlen. rewrite Hz, (dk_size _ _ Hd). lia.
  - intros x Hx Hnl. destruct (Hin x Hx); [by apply Hfr|by apply (dk_free _ _ Hd)].
  - intros Hi0. destruct (dk_table _ _ Hd Hi0) as [Hu Hne]. split; [by apply Hus|]. intros m Hm1 Em. apply (Hne m Hm1). rewrite <- Em. symmetry. apply Hnz; [done|congruence].
  - intros Hi0. destruct (decide (12 = j)) as [<-|]; [|rewrite Hm by lia; by apply (dk_dense _ _ Hd)]. destruct Hjj as [->|[_ ?]]; [by apply (dk_dense _ _ Hd)|lia].
  - intros m Hm1 H0m. apply Htk; [done|done|]. rewrite Hnz in * by done. by apply (dk_block _ _ Hd).
  - intros m Hm1 Hdots. destruct (decide (m = j)) as [->|Hmj].
    + assert (H0j : dblock (dsk s') i' j <> 0) by (intros E0; rewrite E0 in Hdots; destruct Hdots as [|(x & Hx & _)]; [unfold data_start in Hds; lia|by apply elem_of_nil in Hx]).
      apply Hdo; [done|]. apply (dk_dots _ _ Hd j Hj). destruct Hdots as [El|Hx]; [left; by rewrite <- (Hnz j)|right; by apply Hdd].
    + rewrite Hm in * by done. rewrite !(has_entry_sector (dsk s) (dsk s')) in * by (by apply Hsec). by apply (dk_dots _ _ Hd m Hm1).
  - intros a b Ha Hb H0a Eab. rewrite (Hnz a) in * by done. rewrite (Hnz b) in Eab by congruence. by apply (dk_inj _ _ Hd).
Qed.

(** The inode is written at the end, into a buffer of two sectors. *)
Definition slot_written s (d : D) (i : inode) : Prop := forall x,
  dbyte d x = if decide (0 <= x - slot s (i_no i mod 256) < 76) then default 0 (inode_bytes (pure i) !! Z.to_nat (x - slot s (i_no i mod 256))) else dbyte (dsk s) x.

Lemma slot_written_sector s d i k :
  layout_ok (cur_part s) -> bd_ok (dsk s) -> bd_ok d -> slot_written s d i -> k < inode_table_lba (sb (cur_part s)) \/ data_start s <= k ->
  bd_sector d k = bd_sector (dsk s) k.
Proof.
  intros (L1 & L2 & L3 & L4 & L5 & L6 & L7 & L8 & L9 & L10) Hs Hd Hx Hk. apply sector_ext; [done|done|]. intros x Hxr. rewrite Hx, decide_False; [done|].
  unfold slot, data_start in *. zdiv.
Qed.

Lemma inode_sync_big s i :
  fs_ok s -> inode_wf i ->
  exists d', inode_sync s i 1024 = Done (with_dsk d' s) /\ bd_ok d' /\ slot_written s d' i.
Proof.
  intros Hs Hw. pose proof Hw as (Hno & _ & _ & _ & Hlen & _). unfold is_u32 in Hno.
  pose proof (inode_sync_spec s i 1024 (fo_disk s Hs) (fo_layout s Hs) ltac:(lia) Hlen) as Hsy. cbv zeta in Hsy.
  rewrite (proj2 (Z.leb_le _ 1024)) in Hsy by (destruct (straddles _); lia). exact Hsy.
Qed.

Definition finish s (p size : Z) : outcome (bool * fs (D := D) (A := A)) :=
  i ← inode_at s p;
  ASSERT (size <=? i_size i);;
  let i := set_size (i_size i - size) i in
  s ← inode_sync (set_inode p i s) i 1024;
  Done (true, s).

Lemma finish_ok s p i :
  fs_ok s -> inodes s !! p = Some i -> inode_live i -> 24 <= i_size i ->
  let i' := set_size (i_size i - 24) i in
  exists d', finish s p 24 = Done (true, with_dsk d' (set_inode p i' s)) /\ fs_ok (with_dsk d' (set_inode p i' s)) /\ inode_live i' /\
    bd_ok d' /\ slot_written s d' i'.
Proof.
  intros Hs Hi Hlv Hz i'. unfold finish, inode_at. rewrite Hi, bind_done. assert_ok; [|by apply Z.leb_le]. fold i'.
  pose proof Hlv as [(_ & Hsz & _) _]. unfold is_u32 in Hsz.
  assert (Hlv' : inode_live i') by (apply set_size_live; [done|unfold is_u32; lia]). destruct (Hlv') as [Hw Hc].
  assert (Hs' : fs_ok (set_inode p i' s)) by (by apply (set_inode_ok s p i i')).
  destruct (inode_sync_big (set_inode p i' s) i' Hs' Hw) as (d' & -> & Hd' & Hk). rewrite bind_done.
  exists d'. split_and!; try assumption; [done|by apply with_dsk_ok].
Qed.

Lemma data_start_pos s : fs_ok s -> 0 < data_start s.
Proof. intros Hs. destruct (fo_layout s Hs) as (L1 & L2 & L3 & L4 & L5 & L6 & L7 & L8 & L9 & L10). unfold data_start. lia. Qed.

(** The entry [k] of block [j] is cleared. *)
Lemma clear_entry_ok s p i j k e d' b d2 :
  fs_ok s -> root_used s -> dir_ok s i -> 0 <= j < 140 -> 0 <= k < 21 ->
  let lba := dblock (dsk s) i j in
  lba <> 0 -> entry_at (bd_sector (dsk s) lba) k = e -> other e -> ~ emptied s i j -> bd_ok d' ->
  memcpy_to (bd_sector (dsk s) lba) (24 * k) (replicate 24 0) = Done b ->
  (forall x, bd_sector d' x = if decide (lba <= x < lba + 1) then chunk b (x - lba) else bd_sector (dsk s) x) ->
  let i' := set_size (i_size i - 24) i in
  bd_ok d2 -> slot_written (with_dsk d' s) d2 i' -> fs_ok (with_dsk d2 (set_inode p i' (with_dsk d' s))) -> inode_live i' ->
  removed s (with_dsk d2 (set_inode p i' (with_dsk d' s))) p i i' j e.
Proof.
  intros Hs Hr Hd Hj Hk lba Hl Ee Hot Hnem Hd' E Hsec i' Hd2 Hsw Hs' Hlv'.
  assert (Hk2' : forall k, k < inode_table_lba (sb (cur_part s)) \/ data_start s <= k -> bd_sector d2 k = bd_sector d' k).
  { intros x Hx. apply (slot_written_sector (with_dsk d' s) d2 i' x (fo_layout s Hs) Hd' Hd2 Hsw Hx). }
  assert (Hk2 : forall k, data_start s <= k -> bd_sector d2 k = bd_sector d' k) by auto.
  assert (Hlow : forall k, k < data_start s -> bd_sector d' k = bd_sector (dsk s) k).
  { intros x Hx. rewrite Hsec, decide_False; [done|]. pose proof (dk_block _ _ Hd j Hj Hl) as (T1 & _). fold lba in T1. unfold data_start in Hx. lia. }
  destruct (write_entry_ok s i j k (replicate 24 0) b d' Hs Hd Hj Hk (length_replicate _ _) Hl E Hsec) as (Hdb & Hent & _). fold lba in Hent.
  change (bytes_entry (replicate 24 0)) with null_entry in Hent. pose proof (data_start_pos s Hs) as Hds.
  assert (Hge : forall m, 0 <= m < 140 -> dblock (dsk s) i m <> 0 -> data_start s <= dblock (dsk s) i m) by (intros m Hm H0m; apply (dk_block _ _ Hd m Hm H0m)).
  assert (Hdb2 : forall m, 0 <= m < 140 -> dblock d2 i' m = dblock (dsk s) i m).
  { intros m Hm. rewrite <- Hdb by done. change (dblock d2 i' m) with (dblock d2 i m). apply dblock_frame. intros _ Hi0. apply Hk2.
    destruct (dk_table _ _ Hd Hi0) as [[[Hx _] _] _]. unfold data_start. lia. }
  assert (Eb : block_entries d2 lba = <[Z.to_nat k := null_entry]> (entries (bd_sector (dsk s) lba))).
  { rewrite <- Hent. apply block_entries_sector. intros _. apply Hk2. by apply Hge. }
  assert (Eo : block_entries (dsk s) lba = entries (bd_sector (dsk s) lba)) by (unfold block_entries; by rewrite decide_False).
  pose proof (entries_lookup (bd_sector (dsk s) lba) k Hk) as Hek. rewrite Ee in Hek. pose proof (lookup_lt_Some _ _ _ Hek) as Hlt.
  assert (Hin : forall x, x ∈ block_entries d2 lba -> x = null_entry \/ x ∈ block_entries (dsk s) lba).
  { intros x Hx. rewrite Eb in Hx. rewrite Eo. apply list_elem_of_lookup in Hx as [n Hx]. apply list_lookup_insert_Some in Hx as [(_ & <- & _)|[_ Hx]]; [by left|].
    right. by eapply list_elem_of_lookup_2. }
  destruct (shrunk s (with_dsk d2 (set_inode p i' (with_dsk d' s))) i i' j e Hd Hj (proj1 Hlv')) as [Hdir HL];
    change (dsk (with_dsk d2 (set_inode p i' (with_dsk d' s)))) with d2; try (rewrite Hdb2 by done; fold lba).
  - done.
  - done.
  - intros m Hm _. by apply Hdb2.
  - intros m Hm Hmj H0m. rewrite Hk2 by (by apply Hge). rewrite Hsec, decide_False; [done|]. intros Hx. apply Hmj. apply (dk_inj _ _ Hd); [done|done|done|]. fold lba. lia.
  - by left.
  - done.
  - done.
  - rewrite Eb, Eo. rewrite <- (list_insert_id (entries (bd_sector (dsk s) lba)) (Z.to_nat k) e Hek) at 1.
    rewrite <- (list_insert_insert_eq (entries (bd_sector (dsk s) lba)) (Z.to_nat k) e null_entry).
    eapply filter_insert_perm; [by apply list_lookup_insert_eq|intros Hn; by apply Hn|apply Hot].
  - intros x Hx Hnl. destruct (Hin x Hx) as [->|Hx']; [reflexivity|]. apply (dk_free _ _ Hd); [|done]. unfold slots. apply list_elem_of_bind. exists lba. split; [done|].
    apply list_elem_of_lookup. exists (Z.to_nat j). by apply dblocks_lookup.
  - intros (x & Hx & Hxl & Hxn). destruct (Hin x Hx) as [->|Hx']; [by destruct Hxl|]. by exists x.
  - intros _ (x & Hx & Hxl & Hxn). exists x. split; [|done]. rewrite Eo in Hx. rewrite Eb. apply list_elem_of_lookup in Hx as [n Hx]. apply list_elem_of_lookup. exists n.
    rewrite list_lookup_insert_ne; [done|]. intros En. rewrite <- En, Hek in Hx. injection Hx as <-. by destruct Hot as (_ & Hnd & _).
  - done.
  - done.
  - constructor; try assumption.
    + exists d2, (block_bitmap (cur_part s)). split; [by destruct s as [? ? ? []]|]. split; [done|]. intros x Hx. by rewrite decide_False by tauto.
    + by rewrite decide_False.
    + intros x Hx. change (dsk (with_dsk d2 (set_inode p i' (with_dsk d' s)))) with d2. rewrite Hsw. change (slot (with_dsk d' s) (i_no i' mod 256)) with (slot s (i_no i mod 256)).
      rewrite decide_True by lia. do 2 f_equal. lia.
    + intros x Hx Hnx. change (dsk (with_dsk d2 (set_inode p i' (with_dsk d' s)))) with d2. rewrite Hsw. change (slot (with_dsk d' s) (i_no i' mod 256)) with (slot s (i_no i mod 256)).
      rewrite decide_False by done. cbn [dsk with_dsk]. unfold dbyte. rewrite Hlow; [done|].
      destruct (fo_layout s Hs) as (L1 & L2 & L3 & L4 & L5 & L6 & L7 & L8 & L9 & L10). unfold slot, data_start in *. zdiv.
    + intros Hsy t n Hn. change (bd_sector d2 (bitmap_lba t s + n) = chunk (bits (bitmap_of t s)) n). change (bitmap_of t (with_dsk d2 (set_inode p i' (with_dsk d' s)))) with (bitmap_of t s) in Hn.
      destruct (bitmap_lba_range s t (fo_layout s Hs) (fo_bitmaps s Hs)) as (_ & _ & _ & _ & R5 & _). pose proof (fo_layout s Hs) as (L1 & L2 & L3 & L4 & L5 & L6 & L7 & L8 & L9 & L10).
      rewrite Hk2' by lia. rewrite Hlow by (unfold data_start; lia). by apply Hsy.
    + intros x Hx Hno. change (dsk (with_dsk d2 (set_inode p i' (with_dsk d' s)))) with d2. rewrite Hk2 by done. rewrite Hsec, decide_False; [done|].
      intros Hx2. apply Hno. left. exists j. split; [done|]. fold lba. lia.
Qed.

(** ** Giving a block back *)
Lemma recycle_ok s lba :
  fs_ok s -> data_block s lba ->
  exists d' b', recycle s lba = Done (with_dsk d' (with_bitmap BLOCK_BITMAP b' s)) /\ fs_ok (with_dsk d' (with_bitmap BLOCK_BITMAP b' s)) /\
    nbits b' = nbits (block_bitmap (cur_part s)) /\
    (forall k, 0 <= k -> bit b' k = if decide (k = lba - data_start s) then false else bit (block_bitmap (cur_part s)) k) /\
    (forall k, inode_table_lba (sb (cur_part s)) <= k -> bd_sector d' k = bd_sector (dsk s) k) /\
    (synced s -> synced (with_dsk d' (with_bitmap BLOCK_BITMAP b' s))).
Proof.
  intros Hs Hdb. destruct (data_block_u32 s lba Hs Hdb) as (_ & _ & _ & _ & Eidx & Hrg). pose proof Hdb as [Hd1 _].
  unfold recycle. change (data_start_lba (sb (cur_part s))) with (data_start s). rewrite Eidx.
  destruct (bitmap_set_spec (block_bitmap (cur_part s)) (lba - data_start s) 0) as (b' & Hset & Hw & Hn & _ & Hb); [apply (fo_bitmaps s Hs)|lia|by left|]. rewrite Hset, bind_done.
  assert (HB : bitmaps_ok (cur_part (with_bitmap BLOCK_BITMAP b' s))).
  { apply (set_bitmaps_ok s BLOCK_BITMAP (lba - data_start s) 0 b'); try assumption; [apply Hs|cbn [bitmap_of]; lia|unfold data_start; lia|by left]. }
  assert (Hs1 : fs_ok (with_bitmap BLOCK_BITMAP b' s)) by (constructor; [exact (fo_disk s Hs)|exact (fo_mem s Hs)|exact (fo_layout s Hs)|done|exact (fo_open s Hs)]).
  destruct (bitmap_sync_ok (with_bitmap BLOCK_BITMAP b' s) (lba - data_start s) BLOCK_BITMAP) as (d' & Hsync & Hd' & Hk); [apply Hs1|apply Hs1|apply Hs1|rewrite with_bitmap_same; lia|]. rewrite Hsync.
  exists d', b'. split_and!; try assumption; [done|by apply with_dsk_ok| |].
  2: { intros Hsy. destruct (set_sync_spec s BLOCK_BITMAP (lba - data_start s) 0) as (b2 & d2 & Es & Ey & _ & _ & _ & _ & Hsy2 & _); [apply Hs|apply Hs|apply Hs|done|cbn [bitmap_of]; lia|by left|unfold data_start; lia|].
    cbn [bitmap_of] in Es. rewrite Hset in Es. injection Es as <-. rewrite Hsync in Ey. injection Ey as <-. exact Hsy2. }
  intros k Hge. rewrite Hk. rewrite decide_False; [done|]. change (bitmap_lba BLOCK_BITMAP (with_bitmap BLOCK_BITMAP b' s)) with (block_bitmap_lba (sb (cur_part s))).
  destruct (fo_layout s Hs) as (L1 & L2 & L3 & L4 & L5 & L6 & L7 & L8 & L9 & L10). pose proof (fo_bitmaps s Hs) as (_ & B2 & _). unfold data_start, nbits in *. zdiv.
Qed.

(** Block [j], a direct one with no other live entry, is given back. *)
Lemma drop_direct_ok s p i j e d1 b1 d2 :
  fs_ok s -> root_used s -> dir_ok s i -> inode_live i -> 0 <= j < 12 ->
  let lba := dblock (dsk s) i j in
  lba <> 0 -> data_block s lba -> filter live (block_entries (dsk s) lba) = [e] ->
  nbits b1 = nbits (block_bitmap (cur_part s)) ->
  (forall k, 0 <= k -> bit b1 k = if decide (k = lba - data_start s) then false else bit (block_bitmap (cur_part s)) k) ->
  (forall k, inode_table_lba (sb (cur_part s)) <= k -> bd_sector d1 k = bd_sector (dsk s) k) -> bd_ok d1 ->
  (synced s -> synced (with_dsk d1 (with_bitmap BLOCK_BITMAP b1 s))) ->
  let i1 := set_sectors (<[Z.to_nat j := 0]> (i_sectors i)) i in
  let i' := set_size (i_size i1 - 24) i1 in
  let s1 := set_inode p i1 (with_dsk d1 (with_bitmap BLOCK_BITMAP b1 s)) in
  bd_ok d2 -> slot_written s1 d2 i' -> fs_ok (with_dsk d2 (set_inode p i' s1)) -> inode_live i' ->
  removed s (with_dsk d2 (set_inode p i' s1)) p i i' j e.
Proof.
  intros Hs Hr Hd Hlv Hj lba Hl Hdb Hsole Hn Hb Hk1' Hd1 Hsy1 i1 i' s1 Hd2 Hsw Hs' Hlv'. pose proof Hlv as [(_ & _ & _ & _ & Hlen & _) _].
  pose proof (fo_layout s Hs) as Hlay. pose proof Hlay as (L1 & L2 & L3 & L4 & L5 & L6 & L7 & L8 & L9 & L10).
  assert (Hk1 : forall k, data_start s <= k -> bd_sector d1 k = bd_sector (dsk s) k) by (intros x Hx; apply Hk1'; unfold data_start in Hx; lia).
  assert (Hk2' : forall k, k < inode_table_lba (sb (cur_part s)) \/ data_start s <= k -> bd_sector d2 k = bd_sector d1 k).
  { intros x Hx. apply (slot_written_sector s1 d2 i' x Hlay Hd1 Hd2 Hsw Hx). }
  assert (Hk2 : forall k, data_start s <= k -> bd_sector d2 k = bd_sector d1 k) by auto.
  assert (Hem : emptied s i j) by (unfold emptied; fold lba; by rewrite Hsole).
  pose proof (data_start_pos s Hs) as Hds. pose proof Hdb as [Hdb1 Hdb2].
  assert (Hk : forall k, data_start s <= k -> bd_sector d2 k = bd_sector (dsk s) k) by (intros k Hge; rewrite Hk2, Hk1 by done; done).
  assert (Ein : indirect i' = indirect i) by (unfold indirect; cbn [i_sectors i' i1 set_size set_sectors]; rewrite list_lookup_insert_ne by lia; done).
  assert (Hblk : forall m, 0 <= m < 140 -> dblock d2 i' m = if decide (m = j) then 0 else dblock (dsk s) i m).
  { intros m Hm. destruct (decide (m = j)) as [->|Hmj].
    - unfold dblock. rewrite decide_False by lia. unfold file_block. rewrite decide_True by lia. cbn [i_sectors i' i1 set_size set_sectors]. by rewrite list_lookup_insert_eq by lia.
    - unfold dblock. rewrite Ein. case_decide as Ec; [done|]. unfold file_block. rewrite Ein. case_decide.
      + cbn [i_sectors i' i1 set_size set_sectors]. by rewrite list_lookup_insert_ne by lia.
      + rewrite Hk; [done|]. destruct (dk_table _ _ Hd ltac:(lia)) as [[[Hx _] _] _]. unfold data_start. lia. }
  assert (Htk : forall b, b <> lba -> taken s b -> taken (with_dsk d2 (set_inode p i' s1)) b).
  { intros b Hne (T1 & T2 & T3). unfold taken. cbn [cur_part with_dsk with_bitmap with_part block_bitmap sb set_inode with_inodes start_lba sec_cnt s1].
    split_and!; [lia|lia|lia|]. rewrite Hb, decide_False; [done|unfold data_start; lia|lia]. }
  destruct (shrunk s (with_dsk d2 (set_inode p i' s1)) i i' j e Hd ltac:(lia) (proj1 Hlv')) as [Hdir HL];
    change (dsk (with_dsk d2 (set_inode p i' s1))) with d2; try (rewrite Hblk, decide_True by lia).
  - done.
  - done.
  - intros m Hm Hmj. by rewrite Hblk, decide_False.
  - intros m Hm Hmj H0m. apply Hk. apply (dk_block _ _ Hd m Hm H0m).
  - right. split; [done|lia].
  - intros m Hm. rewrite Hblk by done. destruct (decide (m = j)); [done|]. intros H0m Ht. apply Htk; [|done]. intros Em. apply n. apply (dk_inj _ _ Hd); [done|lia|done|exact Em].
  - intros Hi0 [U1 U2]. destruct (dk_table _ _ Hd Hi0) as [_ Hne]. specialize (Hne j ltac:(lia)). fold lba in Hne. destruct U1 as [V1 V2].
    split; [split; [exact V1|]|]; cbn [cur_part with_dsk with_bitmap with_part block_bitmap sb set_inode with_inodes start_lba sec_cnt s1]; [lia|].
    rewrite Hb, decide_False; [exact U2|unfold data_start; lia|lia].
  - fold lba. rewrite Hsole. done.
  - intros x Hx. by apply elem_of_nil in Hx.
  - intros (x & Hx & _). by apply elem_of_nil in Hx.
  - done.
  - done.
  - done.
  - constructor; try assumption.
    + exists d2, b1. split_and!; [|done|].
      * unfold s1, with_dsk, with_bitmap, with_part, set_inode, with_inodes. cbn [dsk mem inodes cur_part file_table fd_table root_dir dirs cwd_inode_nr]. f_equal. by rewrite insert_insert_eq.
      * intros k Hk0. rewrite Hb by done. fold lba. destruct (decide (k = lba - data_start s)), (decide (emptied s i j /\ k = lba - data_start s)); tauto || done.
    + by rewrite decide_True.
    + intros x Hx. change (dsk (with_dsk d2 (set_inode p i' s1))) with d2. rewrite Hsw. change (slot s1 (i_no i' mod 256)) with (slot s (i_no i mod 256)).
      rewrite decide_True by lia. do 2 f_equal. lia.
    + intros x Hx Hnx. change (dsk (with_dsk d2 (set_inode p i' s1))) with d2. rewrite Hsw. change (slot s1 (i_no i' mod 256)) with (slot s (i_no i mod 256)).
      rewrite decide_False by done. change (dsk s1) with d1. unfold dbyte. rewrite Hk1'; [done|]. unfold slot in *. zdiv.
    + intros Hsy t n Hn0. specialize (Hsy1 Hsy t n Hn0). change (bd_sector d2 (bitmap_lba t s + n) = chunk (bits (bitmap_of t (with_bitmap BLOCK_BITMAP b1 s))) n).
      transitivity (bd_sector d1 (bitmap_lba t s + n)); [|exact Hsy1]. apply Hk2'. left.
      destruct (bitmap_lba_range s t Hlay (fo_bitmaps s Hs)) as (_ & _ & _ & _ & R5 & _).
      assert (El : btmp_bytes_len (bitmap_of t (with_dsk d2 (set_inode p i' s1))) = btmp_bytes_len (bitmap_of t s)) by (destruct t; cbn [bitmap_of] in *; unfold nbits in Hn; cbn; lia).
      rewrite El in Hn0. lia.
    + unfold root_used in *. change (bit b1 0 = true). rewrite Hb, decide_False; [done|unfold data_start; lia|lia].
    + intros x Hx _. by apply Hk.
Qed.

(** The loop that counts the indirect blocks does not end. *)
Lemma count_diverges fuel all c : length all = 140%nat -> loop fuel (count_turn all) (12, c) = Diverge.
Proof.
  intros Hl. revert c. induction fuel as [|fuel IH]; intros c; [done|]. destruct (aget_in all 12) as (b & _ & Hg); [lia|].
  erewrite loop_next; [apply IH|]. unfold count_turn. change (12 <? 140) with true. cbv iota. by rewrite Hg, bind_done.
Qed.

(** ** The walk over the blocks *)
Lemma emptied_read s d1 i j : (forall k, bd_sector d1 k = bd_sector (dsk s) k) -> emptied (with_dsk d1 s) i j <-> emptied s i j.
Proof. intros Hk. unfold emptied. cbn [dsk with_dsk]. by rewrite (dblock_ext (dsk s) d1), (block_entries_ext (dsk s) d1) by done. Qed.

Lemma removed_read s d1 s' p i i' j e :
  (forall k, bd_sector d1 k = bd_sector (dsk s) k) -> removed (with_dsk d1 s) s' p i i' j e -> removed s s' p i i' j e.
Proof.
  intros Hk [(d' & b' & E & Hn & Hb) Ii Is It Iy I2 I3 I5 I6 I7 I8]. destruct (slots_ext (dsk s) d1 i Hk) as [_ Es]. pose proof (emptied_read s d1 i j Hk) as Hem.
  constructor; try assumption.
  - exists d', b'. split; [done|]. split; [done|]. intros k Hk0. rewrite Hb by done. cbn [dsk with_dsk]. rewrite (dblock_ext (dsk s) d1) by done. change (data_start (with_dsk d1 s)) with (data_start s).
    apply decide_ext. by rewrite Hem.
  - rewrite Ii. by rewrite (decide_ext (emptied (with_dsk d1 s) i j) (emptied s i j)) by exact Hem.
  - intros x Hx Hnx. rewrite It by done. by apply dbyte_ext.
  - intros Hsy. apply Iy. intros t n Hn0. cbn [dsk with_dsk]. rewrite Hk. by apply Hsy.
  - rewrite <- I7. cbn [dsk with_dsk]. unfold dir_list. by rewrite Es.
  - intros k Hkk Hown. rewrite I8; [apply Hk|done|]. intros [(m & Hm & Em)|Em]; apply Hown; [left|by right]. exists m. split; [done|].
    rewrite Em. cbn [dsk with_dsk]. by apply dblock_ext.
Qed.

(** The result of [delete_dir_entry]: no entry of the inode, or exactly one, which is
    removed unless it is alone in an indirect block. *)
Definition deleted s (p : Z) (i : inode) (no : Z) (r : outcome (bool * fs (D := D) (A := A))) : Prop :=
  (exists d', r = Done (false, with_dsk d' s) /\ bd_ok d' /\ (forall k, bd_sector d' k = bd_sector (dsk s) k) /\ filter (target no) (dir_list (dsk s) i) = []) \/
  (exists j e, 0 <= j < 140 /\ e ∈ block_entries (dsk s) (dblock (dsk s) i j) /\ filter (target no) (dir_list (dsk s) i) = [e] /\
     if decide (12 <= j /\ length (filter live (block_entries (dsk s) (dblock (dsk s) i j))) = 1%nat) then r = Diverge
     else exists s' i', r = Done (true, s') /\ removed s s' p i i' j e).

Lemma deleted_read s d1 p i no r : (forall k, bd_sector d1 k = bd_sector (dsk s) k) -> deleted (with_dsk d1 s) p i no r -> deleted s p i no r.
Proof.
  intros Hk Hdel. pose proof (proj2 (slots_ext (dsk s) d1 i Hk)) as Es. unfold deleted, dir_list in *. cbn [dsk with_dsk] in Hdel. rewrite Es in Hdel.
  destruct Hdel as [(d' & E & Hd & Hs & Hl)|(j & e & Hj & He & Hf & Hr)].
  - left. exists d'. split_and!; try assumption. intros k. rewrite Hs. apply Hk.
  - assert (Eb : block_entries d1 (dblock d1 i j) = block_entries (dsk s) (dblock (dsk s) i j)) by (by rewrite (dblock_ext (dsk s) d1), (block_entries_ext (dsk s) d1)).
    right. exists j, e. rewrite Eb in He. split_and!; try assumption; try lia.
    match goal with |- if decide ?c then _ else _ => destruct (decide c) as [Hc|Hc] end; rewrite <- Eb in Hc; [by rewrite decide_True in Hr|]. rewrite decide_False in Hr by done.
    destruct Hr as (s' & i' & E & Hrm). exists s', i'. split; [done|]. by eapply removed_read.
Qed.

Lemma target_slots (d : D) i no : filter (target no) (dir_list d i) = filter (target no) (slots d i).
Proof. apply list_filter_filter_l. by intros x [[? _] _]. Qed.

Lemma no_target (d : D) i no : (forall m, 0 <= m < 140 -> filter (target no) (block_entries d (dblock d i m)) = []) -> filter (target no) (dir_list d i) = [].
Proof.
  intros Hall. rewrite target_slots. apply filter_nil. intros x Hx Ht.
  unfold slots, dblocks in Hx. rewrite list_fmap_bind in Hx. apply list_elem_of_bind in Hx as (m & Hx & Hm%elem_of_seqZ).
  specialize (Hall m ltac:(lia)). rewrite filter_nil in Hall. by apply (Hall x).
Qed.

Lemma block_target (d : D) i no j : 0 <= j < 140 ->
  (length (filter (target no) (block_entries d (dblock d i j))) <= length (filter (target no) (slots d i)))%nat.
Proof.
  intros Hj. destruct (slots_split d d i i j Hj) as (X & Y & E & _); [done|]. rewrite E, !filter_app, !length_app. lia.
Qed.

(** A block without "." whose only other entry is [e] holds [e] alone. *)
Lemma alone s i j e :
  dir_ok s i -> 0 <= j < 140 -> let l := block_entries (dsk s) (dblock (dsk s) i j) in
  filter dotted l = [] -> e ∈ filter other l -> length (filter other l) = 1%nat -> filter live l = [e].
Proof.
  intros Hd Hj l Hdot He Hone. assert (Ho : filter other l = [e]).
  { destruct (filter other l) as [|x [|y r]]; try done. by apply list_elem_of_singleton in He as ->. }
  rewrite <- Ho. apply filter_ext_in. intros x Hx. split; [|by intros [? _]]. intros Hl. rewrite filter_nil in Hdot.
  split_and!; [done|intros Hn; by apply (Hdot x)|]. intros Hn. destruct (dk_dots _ _ Hd j Hj) as (y & Hy & Hyl & Hyn); [right; by exists x|]. by apply (Hdot y).
Qed.

Lemma live_alone (l : list dir_entry) e : e ∈ filter other l -> length (filter live l) = 1%nat -> filter dotted l = [] /\ length (filter other l) = 1%nat.
Proof.
  intros He Hone. apply list_elem_of_filter in He as [Ho He]. assert (Hl : filter live l = [e]).
  { assert (Hin : e ∈ filter live l) by (apply list_elem_of_filter; split; [apply Ho|done]). destruct (filter live l) as [|x [|y r]]; try done. by apply list_elem_of_singleton in Hin as ->. }
  split.
  - apply filter_nil. intros x Hx [Hxl Hxn]. assert (x ∈ filter live l) as Hx' by (by apply list_elem_of_filter).
    rewrite Hl in Hx'. apply list_elem_of_singleton in Hx' as ->. by destruct Ho as (_ & ? & _).
  - rewrite <- (list_filter_filter_l other live) by (by intros x [? _]). rewrite Hl, filter_cons, decide_True by done. done.
Qed.

(** The entry found in block [j] is removed. *)
Lemma found_ok fuel s p i no j k f :
  fs_ok s -> root_used s -> inodes s !! p = Some i -> inode_live i -> dir_ok s i -> 0 <= j < 140 -> 0 <= k < 21 ->
  let lba := dblock (dsk s) i j in let l := block_entries (dsk s) lba in let e := entry_at (bd_sector (dsk s) lba) k in
  lba <> 0 -> target no e -> f = bool_decide (filter dotted l <> []) ->
  let r := (s ← (if (Z.of_nat (length (filter other l)) =? 1) && negb f then drop_block fuel s p (dblocks (dsk s) i) j lba
                 else
                   io_buf ← memcpy_to (bd_sector (dsk s) lba) (24 * k) (replicate 24 0);
                   d ← bd_write (dsk s) lba io_buf 1;
                   Done (with_dsk d s));
            finish s p 24) in
  if decide (12 <= j /\ length (filter live l) = 1%nat) then r = Diverge else exists s' i', r = Done (true, s') /\ removed s s' p i i' j e.
Proof.
  intros Hs Hr Hi Hlv Hd Hj Hk lba l e Hl [Ho Hno] Hf r.
  assert (El : l = entries (bd_sector (dsk s) lba)) by (unfold l, block_entries; by rewrite decide_False).
  assert (He : e ∈ l) by (rewrite El; apply list_elem_of_lookup; exists (Z.to_nat k); by apply entries_lookup).
  assert (Heo : e ∈ filter other l) by (by apply list_elem_of_filter).
  assert (Hdl : e ∈ dir_list (dsk s) i).
  { apply list_elem_of_filter. split; [apply Ho|]. apply list_elem_of_bind. exists lba. split; [done|]. apply list_elem_of_lookup. exists (Z.to_nat j). by apply dblocks_lookup. }
  pose proof (dk_size _ _ Hd) as Hz. assert (H24 : 24 <= i_size i) by (destruct (dir_list (dsk s) i); [by apply elem_of_nil in Hdl|cbn [length] in Hz; lia]).
  pose proof (taken_lba s lba Hs (dk_block _ _ Hd j Hj Hl)) as Hlr.
  destruct ((Z.of_nat (length (filter other l)) =? 1) && negb f) eqn:Edrop.
  - apply andb_true_iff in Edrop as [Eone Ef]. apply Z.eqb_eq in Eone. apply negb_true_iff in Ef. subst f. apply bool_decide_eq_false_1, dec_stable in Ef.
    assert (Eone' : length (filter other l) = 1%nat) by lia. pose proof (alone s i j e Hd Hj Ef Heo Eone') as Hal. fold lba in Hal. fold l in Hal.
    assert (Hdb : data_block s lba).
    { destruct (dk_block _ _ Hd j Hj Hl) as (T1 & T2 & _). fold lba in T1, T2. split; [|done]. split; [|lia].
      destruct (decide (lba = data_start_lba (sb (cur_part s)))) as [E0|]; [|lia].
      destruct (dk_dots _ _ Hd j Hj (or_introl E0)) as (y & Hy & Hyl & Hyn). fold lba in Hy. fold l in Hy. rewrite filter_nil in Ef. by destruct (Ef y Hy). }
    destruct (recycle_ok s lba Hs Hdb) as (d1 & b1 & Hrec & Hs1 & Hn1 & Hb1 & Hk1 & Hsy1). unfold r, drop_block. rewrite Hrec, bind_done.
    unfold inode_at. change (inodes (with_dsk d1 (with_bitmap BLOCK_BITMAP b1 s))) with (inodes s). rewrite Hi, bind_done.
    pose proof Hlv as [(_ & _ & _ & _ & Hlen & Hfor) _]. destruct (Z.ltb_spec j 12).
    + rewrite decide_False by lia. rewrite aset_in by lia. rewrite !bind_done.
      set (i1 := set_sectors _ i). set (s1 := set_inode p i1 _).
      assert (Hlv1 : inode_live i1) by (apply set_sectors_live; [done|by rewrite length_insert|by apply Forall_insert]).
      assert (Hs1' : fs_ok s1) by (destruct Hlv1; by apply (set_inode_ok _ p i i1)).
      destruct (finish_ok s1 p i1 Hs1' (lookup_insert_eq _ _ _) Hlv1 H24) as (d2 & -> & Hs2 & Hlv2 & Hd2 & Hk2).
      eexists _, _. split; [reflexivity|]. apply (drop_direct_ok s p i j e d1 b1 d2); try assumption; [lia|exact (fo_disk _ Hs1)].
    + rewrite decide_True by (by rewrite Hal). by rewrite count_diverges by apply dblocks_length.
  - assert (Hnd : ~ length (filter live l) = 1%nat).
    { intros H1. destruct (live_alone l e Heo H1) as [E1 E2]. rewrite E2 in Edrop. subst f. rewrite bool_decide_false in Edrop by (intros Hx; by apply Hx). done. }
    rewrite decide_False by tauto. pose proof (bd_sector_len (dsk s) lba (fo_disk s Hs)) as Hbl. unfold r.
    destruct (memcpy_to_ok (bd_sector (dsk s) lba) (24 * k) (replicate 24 0)) as (b & E & Hbl' & _); [lia|rewrite length_replicate; lia|].
    rewrite E, bind_done. destruct (bd_write_ok (dsk s) lba b 1) as (d' & -> & Hd' & Hsec); [apply Hs|lia|lia|lia|lia|]. rewrite !bind_done.
    destruct (finish_ok (with_dsk d' s) p i (with_dsk_ok s d' Hs Hd') Hi Hlv H24) as (d2 & -> & Hs2 & Hlv2 & Hd2 & Hk2).
    eexists _, _. split; [reflexivity|]. by apply (clear_entry_ok s p i j k e d' b d2).
Qed.

Lemma delete_in_ok fuel n s p i no idx :
  fs_ok s -> root_used s -> inodes s !! p = Some i -> inode_live i -> dir_ok s i -> 0 <= idx -> idx + Z.of_nat n = 140 ->
  (length (filter (target no) (dir_list (dsk s) i)) <= 1)%nat ->
  (forall m, 0 <= m < idx -> filter (target no) (block_entries (dsk s) (dblock (dsk s) i m)) = []) ->
  deleted s p i no (delete_in fuel s p no (dblocks (dsk s) i) idx n).
Proof.
  revert s idx. induction n as [|n IH]; intros s idx Hs Hr Hi Hlv Hd Hidx Hn Huniq Hbef; cbn [delete_in].
  { left. exists (dsk s). split_and!; [by destruct s|apply Hs|done|]. apply no_target. intros m Hm. apply Hbef. lia. }
  rewrite (aget_Some _ _ _ Hidx (dblocks_lookup (dsk s) i idx ltac:(lia))), bind_done. set (lba := dblock (dsk s) i idx).
  destruct (Z.eqb_spec lba 0) as [Hhole|Hblk].
  { apply IH; try assumption; [lia|lia|]. intros m Hm. destruct (decide (m = idx)) as [->|]; [|apply Hbef; lia]. fold lba. rewrite Hhole. done. }
  pose proof (taken_lba s lba Hs (dk_block _ _ Hd idx ltac:(lia) Hblk)) as Hlr.
  destruct (bd_read_ok (dsk s) lba 1) as (d1 & -> & Hd1 & Hk1); [apply Hs|lia|lia|lia|]. rewrite bind_done, sector_one. cbn [fst snd]. cbv zeta.
  apply (deleted_read s d1); [done|]. pose proof (slots_ext (dsk s) d1 i Hk1) as [Edb Esl].
  replace (dblocks (dsk s) i) with (dblocks (dsk (with_dsk d1 s)) i) by exact Edb. rewrite <- (Hk1 lba).
  assert (Elba : lba = dblock (dsk (with_dsk d1 s)) i idx) by (symmetry; by apply dblock_ext).
  assert (Huniq1 : (length (filter (target no) (dir_list (dsk (with_dsk d1 s)) i)) <= 1)%nat) by (cbn [dsk with_dsk]; unfold dir_list; by rewrite Esl).
  assert (Hbef1 : forall m, 0 <= m < idx -> filter (target no) (block_entries (dsk (with_dsk d1 s)) (dblock (dsk (with_dsk d1 s)) i m)) = []).
  { intros m Hm. cbn [dsk with_dsk]. rewrite (dblock_ext (dsk s) d1), (block_entries_ext (dsk s) d1) by done. by apply Hbef. }
  pose proof (with_dsk_ok s d1 Hs Hd1) as Hs1. pose proof (dir_ok_read s d1 i Hk1 Hd) as Hdd1. change (bd_sector d1 lba) with (bd_sector (dsk (with_dsk d1 s)) lba).
  assert (Hr1 : root_used (with_dsk d1 s)) by exact Hr. assert (Hi1 : inodes (with_dsk d1 s) !! p = Some i) by exact Hi.
  clearbody lba. revert Hs1 Hr1 Hi1 Hdd1 Elba Huniq1 Hbef1. generalize (with_dsk d1 s). clear s Hs Hr Hi Hd Huniq Hbef d1 Hd1 Hk1 Edb Esl.
  intros s Hs Hr Hi Hd -> Huniq Hbef. set (lba := dblock (dsk s) i idx) in *.
  unfold per_sec. rewrite (dk_entry _ _ Hd). change (Z.to_nat (512 / 24)) with 21%nat. pose proof (bd_sector_len (dsk s) lba (fo_disk s Hs)) as Hbl.
  assert (El : block_entries (dsk s) lba = entries (bd_sector (dsk s) lba)) by (unfold block_entries; by rewrite decide_False).
  pose proof (block_target (dsk s) i no idx ltac:(lia)) as Hbt. rewrite <- target_slots in Hbt. fold lba in Hbt. rewrite El in Hbt. unfold entries in Hbt.
  destruct (scan_entries_ok (bd_sector (dsk s) lba) no 0 21 false 0 None) as ([[f c] fo] & -> & Hf & Hc & Hfo); [done|lia|lia|lia|lia|change (Z.of_nat 21) with 21; lia|].
  rewrite bind_done. cbn [fst snd] in Hf, Hc, Hfo. change (Z.of_nat 21) with 21 in *. fold (entries (bd_sector (dsk s) lba)) in *. rewrite <- El in *. rewrite orb_false_l in Hf. rewrite Z.add_0_l in Hc.
  destruct Hfo as [[-> Hnone]|(k & -> & Hk & Hone & Ht)].
  { apply IH; try assumption; [lia|lia|]. intros m Hm. destruct (decide (m = idx)) as [->|]; [done|apply Hbef; lia]. }
  assert (Hotk : entry_at (bd_sector (dsk s) lba) k ∈ filter other (block_entries (dsk s) lba)).
  { apply list_elem_of_filter. split; [apply Ht|]. rewrite El. apply list_elem_of_lookup. exists (Z.to_nat k). apply entries_lookup. lia. }
  assert_ok; [|apply Z.leb_le; destruct (filter other (block_entries (dsk s) lba)); [by apply elem_of_nil in Hotk|cbn [length] in Hc; lia]].
  change DIR_ENTRY_SIZE with 24. change (Z.to_nat 24) with 24%nat. subst c.
  pose proof (found_ok fuel s p i no idx k f Hs Hr Hi Hlv Hd ltac:(lia) ltac:(lia) Hblk Ht Hf) as Hfound.
  right. exists idx, (entry_at (bd_sector (dsk s) lba) k). split_and!; [lia|lia| | |exact Hfound].
  - fold lba. by apply list_elem_of_filter in Hotk as [_ ?].
  - assert (Hin : entry_at (bd_sector (dsk s) lba) k ∈ filter (target no) (dir_list (dsk s) i)).
    { rewrite target_slots. apply list_elem_of_filter. split; [done|]. apply list_elem_of_bind. exists lba. apply list_elem_of_filter in Hotk as [_ ?]. split; [done|].
      apply list_elem_of_lookup. exists (Z.to_nat idx). apply dblocks_lookup. lia. }
    destruct (filter (target no) (dir_list (dsk s) i)) as [|x [|y r]]; [by apply elem_of_nil in Hin| |cbn [length] in Huniq; lia].
    by apply list_elem_of_singleton in Hin as ->.
Qed.

(** ** Properties *)

(** C17. [delete_dir_entry] removes exactly the entry of the given inode (other than "."
    and ".."), where at most one entry has it: the directory lists what it listed without
    it, and its inode, in memory and in the table on disk, has the size less one entry. A
    direct block that held only this entry is given back: its bit, and no other, is cleared,
    on disk too (where the copy on disk was up to date, it is again), and its place in the inode is 0; otherwise no bit changes. No other slot of
    the inode table and no sector of the data area that is not the directory's changes.
    Without such an entry it returns false and changes nothing. When the entry is alone in
    an indirect block it never returns: the loop that counts the indirect blocks does not
    advance. The slot of inode n is that of n mod 256, as in [inode_sync]. *)
Theorem delete_dir_entry_exact fuel s p i no :
  fs_ok s -> root_used s -> inodes s !! p = Some i -> inode_live i -> dir_ok s i ->
  (length (filter (target no) (dir_list (dsk s) i)) <= 1)%nat ->
  (exists d', delete_dir_entry fuel s p no = Done (false, with_dsk d' s) /\ bd_ok d' /\ (forall k, bd_sector d' k = bd_sector (dsk s) k) /\
     filter (target no) (dir_list (dsk s) i) = []) \/
  (exists j e, 0 <= j < 140 /\ e ∈ block_entries (dsk s) (dblock (dsk s) i j) /\ filter (target no) (dir_list (dsk s) i) = [e] /\
     if decide (12 <= j /\ length (filter live (block_entries (dsk s) (dblock (dsk s) i j))) = 1%nat) then delete_dir_entry fuel s p no = Diverge
     else exists s' i', delete_dir_entry fuel s p no = Done (true, s') /\ removed s s' p i i' j e).
Proof.
  intros Hs Hr Hi Hlv Hd Hu. change (deleted s p i no (delete_dir_entry fuel s p no)). unfold delete_dir_entry, inode_at. rewrite Hi, bind_done.
  destruct (dir_blocks_ok (dsk s) i) as (d1 & -> & Hd1 & Hk1); [apply Hs|apply (dk_wf _ _ Hd)|by eapply dir_ok_indirect|]. rewrite bind_done. cbn [fst snd].
  apply (deleted_read s d1); [done|]. pose proof (slots_ext (dsk s) d1 i Hk1) as [Edb Esl].
  replace (dblocks (dsk s) i) with (dblocks (dsk (with_dsk d1 s)) i) by exact Edb.
  apply delete_in_ok; try assumption; [by apply with_dsk_ok|by apply dir_ok_read|lia|lia| |lia]. cbn [dsk with_dsk]. unfold dir_list. by rewrite Esl.
Qed.
End DirDelete.

(** ** Witness *)
Lemma delete_dir_entry_exact_witness :
  exists s' i', delete_dir_entry 0 sample_dir sample_p 5 = Done (true, s') /\
    dir_list (dsk sample_dir) sample_root ≡ₚ sample_entry foo 5 FT_REGULAR :: dir_list (dsk s') i'.
Proof.
  assert (Ef : filter (target 5) (dir_list (dsk sample_dir) sample_root) = [sample_entry foo 5 FT_REGULAR]) by (vm_compute; reflexivity).
  destruct (delete_dir_entry_exact 0 sample_dir sample_p sample_root 5) as [(d' & _ & _ & _ & E)|(j & e & Hj & Hin & E & Hres)].
  - exact sample_dir_fs_ok.
  - vm_compute. reflexivity.
  - apply lookup_singleton_eq.
  - split; [exact sample_root_wf|reflexivity].
  - exact sample_dir_ok.
  - rewrite Ef. simpl. lia.
  - rewrite Ef in E. discriminate E.
  - rewrite Ef in E. injection E as <-. rewrite sample_dblock in Hin by exact Hj. destruct (decide (j = 0)) as [->|Hne].
    + rewrite decide_False in Hres by lia. destruct Hres as (s' & i' & E & Hrm). exists s', i'. split; [exact E|exact (rm_list _ _ _ _ _ _ _ Hrm)].
    + apply elem_of_nil in Hin. destruct Hin.
Defined.
