(* ===== verification/Format.v ===== *)
(** * Making and mounting a file system (fs/fs.c)

    [partition_format] lays out a partition and writes its super block, bitmaps, inode
    table and root directory; [mount_partition] reads them back; [filesys_init] does both
    for the partitions of the disks. *)
From stdpp Require Import base numbers list option tactics gmap fin_maps.
From Stdlib Require Import ZArith Lia.
From S2P Require Import Prelude Bitmap Ide Iface Inode File FileIo FileWrite Dir DirWrite.

(** ** Layout *)
Definition FS_MAGIC : Z := 0x19590318.
Definition MAX_FILES_PER_PART : Z := 4096.
Definition BITS_PER_SECTOR : Z := 4096.
Definition SECTOR_SIZE : Z := 512.

(** One turn of the loop that sizes the block bitmap; the state is [block_bitmap_sects],
    [prev_block_bitmap_sects] and [block_bitmap_bit_len]. *)
Definition sects_turn (now_total_free_sects : Z) (st : Z * Z * Z) : outcome ((Z * Z * Z) + (Z * Z)) :=
  let '(block_bitmap_sects, prev_block_bitmap_sects, block_bitmap_bit_len) := st in
  if block_bitmap_sects =? prev_block_bitmap_sects then Done (inr (block_bitmap_sects, block_bitmap_bit_len)) else
  let block_bitmap_bit_len := u32 (now_total_free_sects - block_bitmap_sects) in
  Done (inl (DIV_ROUND_UP block_bitmap_bit_len BITS_PER_SECTOR, block_bitmap_sects, block_bitmap_bit_len)).

Definition inode_table_sects_of : Z := DIV_ROUND_UP (u32 (INODE_SIZE * MAX_FILES_PER_PART)) SECTOR_SIZE.

(** The super block of a partition of [sec_cnt] sectors from [start_lba] on. *)
Definition format_sb (start_lba sec_cnt block_bitmap_sects : Z) : super_block :=
  let inode_bitmap_sects := DIV_ROUND_UP MAX_FILES_PER_PART BITS_PER_SECTOR in
  let block_bitmap_lba := u32 (start_lba + 2) in
  let inode_bitmap_lba := u32 (block_bitmap_lba + block_bitmap_sects) in
  let inode_table_lba := u32 (inode_bitmap_lba + inode_bitmap_sects) in
  let data_start_lba := u32 (inode_table_lba + inode_table_sects_of) in
  mk_sb FS_MAGIC sec_cnt MAX_FILES_PER_PART start_lba block_bitmap_lba block_bitmap_sects inode_bitmap_lba inode_bitmap_sects
    inode_table_lba inode_table_sects_of data_start_lba 0 DIR_ENTRY_SIZE.

(** The sector of the super block; [pad] are its last 460 bytes. *)
Definition sb_words (b : super_block) : list Z :=
  [magic b; sb_sec_cnt b; inode_cnt b; part_lba_base b; block_bitmap_lba b; block_bitmap_sects b; inode_bitmap_lba b;
   inode_bitmap_sects b; inode_table_lba b; inode_table_sects b; data_start_lba b; root_inode_no b; dir_entry_size b].
Definition sb_bytes (b : super_block) (pad : list Z) : list Z := words (sb_words b) ++ pad.
Definition bytes_sb (l : list Z) : super_block :=
  let w (k : nat) := default 0 (unwords 13 l !! k) in
  mk_sb (w 0%nat) (w 1%nat) (w 2%nat) (w 3%nat) (w 4%nat) (w 5%nat) (w 6%nat) (w 7%nat) (w 8%nat) (w 9%nat) (w 10%nat) (w 11%nat) (w 12%nat).

(** buf[i] = f(buf[i]) *)
Definition aupd (buf : list Z) (i : Z) (f : Z -> Z) : outcome (list Z) := b ← aget buf i; aset buf i (f b).

(** while (bit_idx < n) buf[last] &= ~(1 << bit_idx++); *)
Fixpoint clear_low (buf : list Z) (last bit_idx : Z) (n : nat) : outcome (list Z) :=
  match n with
  | O => Done buf
  | S n => buf ← aupd buf last (fun b => u8 (Z.land b (Z.lnot (Z.shiftl 1 bit_idx)))); clear_low buf last (bit_idx + 1) n
  end.

(** The block bitmap in a cleared buffer: block 0 taken, and what lies past the last block. *)
Definition init_block_bitmap (buf : list Z) (block_bitmap_bit_len : Z) : outcome (list Z) :=
  buf ← aupd buf 0 (fun b => Z.lor b 1);
  let block_bitmap_last_byte := block_bitmap_bit_len / 8 in
  let block_bitmap_last_bit := block_bitmap_bit_len mod 8 in
  let last_size := SECTOR_SIZE - block_bitmap_last_byte mod SECTOR_SIZE in
  buf ← memcpy_to buf block_bitmap_last_byte (replicate (Z.to_nat last_size) 255);
  clear_low buf block_bitmap_last_byte 0 (Z.to_nat block_bitmap_last_bit).

Definition root_inode (data_start_lba : Z) : inode := mk_inode 0 (DIR_ENTRY_SIZE * 2) 0 0 (data_start_lba :: replicate 12 0).
Definition root_entry (name : list Z) : dir_entry := mk_entry (name ++ replicate (16 - length name) 0) 0 FT_DIRECTORY.

(** What [filesys_init] reads of a [struct partition]. *)
Record part_desc := mk_pd { pd_name : list Z; pd_start : Z; pd_cnt : Z }.

Section Format.
Context {D A : Type} `{BlockDev D} `{Alloc A}.
Abbreviation fsys := (fs (D := D) (A := A)) (only parsing).

(** [junk] and [pad] are what the stack holds in [block_bitmap_bit_len] and [sb.pad]. *)
Definition partition_format (fuel : nat) (d : D) (m : A) (start_lba sec_cnt junk : Z) (pad : list Z) : outcome (D * A) :=
  let used_sects := 1 + 1 + DIV_ROUND_UP MAX_FILES_PER_PART BITS_PER_SECTOR + inode_table_sects_of in
  let free_sects := u32 (sec_cnt - used_sects) in
  r ← loop fuel (sects_turn free_sects) (DIV_ROUND_UP free_sects BITS_PER_SECTOR, 0, junk);
  let '(sects, block_bitmap_bit_len) := r in
  let b := format_sb start_lba sec_cnt sects in
  d ← bd_write d (u32 (start_lba + 1)) (sb_bytes b pad) 1;
  let buf_size := if inode_bitmap_sects b <=? block_bitmap_sects b then block_bitmap_sects b else inode_bitmap_sects b in
  let buf_size := u32 ((if inode_table_sects b <=? buf_size then buf_size else inode_table_sects b) * SECTOR_SIZE) in
  r ← al_malloc m buf_size;
  if r.1 =? 0 then Fault else
  let zero := replicate (Z.to_nat buf_size) 0 in
  buf ← init_block_bitmap zero block_bitmap_bit_len;
  d ← bd_write d (block_bitmap_lba b) buf (block_bitmap_sects b);
  buf ← aupd zero 0 (fun x => Z.lor x 1);
  d ← bd_write d (inode_bitmap_lba b) buf (inode_bitmap_sects b);
  buf ← memcpy_to zero 0 (inode_bytes (root_inode (data_start_lba b)));
  d ← bd_write d (inode_table_lba b) buf (inode_table_sects b);
  buf ← memcpy_to zero 0 (entry_bytes (root_entry dot) ++ entry_bytes (root_entry dotdot));
  d ← bd_write d (data_start_lba b) buf 1;
  m ← al_free r.2 r.1;
  Done (d, m).

(** [mount_partition] once the name matches; [past_block] and [past_inode] are the bytes
    that happen to lie behind the two bitmaps. Without a buffer for the super block the
    assertion of [memset] stops the kernel. *)
Definition mount_partition (s : fsys) (start_lba sec_cnt past_block past_inode : Z) : outcome fsys :=
  r1 ← al_malloc (mem s) SECTOR_SIZE;
  r2 ← al_malloc r1.2 512;
  if r2.1 =? 0 then Panic else
  if r1.1 =? 0 then Panic else
  r ← bd_read (dsk s) (u32 (start_lba + 1)) 1;
  let b := bytes_sb r.2 in
  r3 ← al_malloc r2.2 (u32 (block_bitmap_sects b * SECTOR_SIZE));
  if r3.1 =? 0 then Panic else
  rb ← bd_read r.1 (block_bitmap_lba b) (block_bitmap_sects b);
  r4 ← al_malloc r3.2 (u32 (inode_bitmap_sects b * SECTOR_SIZE));
  if r4.1 =? 0 then Panic else
  ri ← bd_read rb.1 (inode_bitmap_lba b) (inode_bitmap_sects b);
  m ← al_free r4.2 r1.1;
  Done (with_mem m (with_dsk ri.1 (with_part
    (mk_part start_lba sec_cnt b (mk_bitmap (u32 (block_bitmap_sects b * SECTOR_SIZE)) rb.2 past_block)
       (mk_bitmap (u32 (inode_bitmap_sects b * SECTOR_SIZE)) ri.2 past_inode) []) s))).

(** The loop of [filesys_init] over the partitions of a disk: [part] points into the
    primary partitions and, from index 4 on, into the logical ones. *)
Fixpoint init_parts (fuel : nat) (d : D) (m : A) (junk : Z) (pad : list Z) (part logic_parts : list part_desc) (part_idx : Z) (n : nat)
    : outcome (D * A) :=
  match n with
  | O => Done (d, m)
  | S n =>
      let part := if part_idx =? 4 then logic_parts else part in
      match part with
      | [] => Fault
      | p :: part =>
          r ← (if negb (pd_cnt p =? 0) then
                 r ← bd_read d (u32 (pd_start p + 1)) 1;
                 if magic (bytes_sb r.2) =? FS_MAGIC then Done (r.1, m)
                 else partition_format fuel r.1 m (pd_start p) (pd_cnt p) junk pad
               else Done (d, m));
          init_parts fuel r.1 r.2 junk pad part logic_parts (part_idx + 1) n
      end
  end.

(** The loop over the channels: of each only the second disk. [part_idx] is not set back. *)
Fixpoint init_channels (fuel : nat) (m : A) (junk : Z) (pad : list Z) (part_idx : Z) (disks : list (D * list part_desc * list part_desc))
    : outcome (list D * A) :=
  match disks with
  | [] => Done ([], m)
  | (d, prim_parts, logic_parts) :: rest =>
      r ← init_parts fuel d m junk pad prim_parts logic_parts part_idx (Z.to_nat (12 - part_idx));
      r' ← init_channels fuel r.2 junk pad (if part_idx <? 12 then 12 else part_idx) rest;
      Done (r.1 :: r'.1, r'.2)
  end.

(** [partition_list] has the partitions with the number of their disk; the partition
    called [default_part] is mounted. The result is the other disks too. *)
Definition filesys_init (fuel : nat) (s : fsys) (junk : Z) (pad : list Z) (past_block past_inode : Z)
    (disks : list (D * list part_desc * list part_desc)) (partition_list : list (nat * part_desc)) (default_part : list Z)
    : outcome (list D * fsys) :=
  r ← al_malloc (mem s) SECTOR_SIZE;
  if r.1 =? 0 then Panic else
  x ← init_channels fuel r.2 junk pad 0 disks;
  m ← al_free x.2 r.1;
  match list_find (fun q => pd_name q.2 = default_part) partition_list with
  | None => Fault
  | Some (_, (k, p)) =>
      match x.1 !! k with
      | None => Fault
      | Some d =>
          s ← mount_partition (with_mem m (with_dsk d s)) (pd_start p) (pd_cnt p) past_block past_inode;
          s ← open_root_dir s;
          Done (x.1, with_file_table ((fun f => mk_file (fd_pos f) (fd_flag f) 0) <$> file_table s) s)
      end
  end.
End Format.

(** ** Sizing the block bitmap *)
Lemma round_up x : 0 <= x < 2 ^ 31 -> DIV_ROUND_UP x 4096 = (x + 4095) / 4096.
Proof. intros Hx. unfold DIV_ROUND_UP. rewrite u32_small by lia. f_equal. lia. Qed.

Lemma sects_step T x prev junk :
  0 <= x <= T -> T < 2 ^ 24 -> x <> prev ->
  sects_turn T (x, prev, junk) = Done (inl ((T - x + 4095) / 4096, x, T - x)).
Proof.
  intros Hx HT Hne. unfold sects_turn. destruct (Z.eqb_spec x prev); [done|]. cbv zeta. rewrite u32_small by lia. unfold BITS_PER_SECTOR. by rewrite round_up by lia.
Qed.

Lemma sects_stop T x len : sects_turn T (x, x, len) = Done (inr (x, len)).
Proof. unfold sects_turn. by rewrite Z.eqb_refl. Qed.

(** Between these two sizes the loop goes back and forth. *)
Lemma sects_alternate fuel T k :
  T = 4097 * k + 1 -> 0 <= k -> T < 2 ^ 24 ->
  (forall prev junk, prev <> k -> loop fuel (sects_turn T) (k, prev, junk) = Diverge) /\
  (forall prev junk, prev <> k + 1 -> loop fuel (sects_turn T) (k + 1, prev, junk) = Diverge).
Proof.
  intros HT Hk Hlt. induction fuel as [|fuel [IH1 IH2]]; [done|]. split; intros prev junk Hp.
  - erewrite loop_next by (apply sects_step; lia). replace ((T - k + 4095) / 4096) with (k + 1) by zdiv. apply IH2. lia.
  - erewrite loop_next by (apply sects_step; lia). replace ((T - (k + 1) + 4095) / 4096) with k by zdiv. apply IH1. lia.
Qed.

Lemma sects_total T junk fuel :
  0 < T < 2 ^ 24 -> T mod 4097 <> 1 -> (4 <= fuel)%nat ->
  exists x, loop fuel (sects_turn T) (DIV_ROUND_UP T BITS_PER_SECTOR, 0, junk) = Done (x, T - x) /\ 0 < x < T /\ 4096 * (x - 1) < T - x <= 4096 * x.
Proof.
  intros HT Hm Hf. unfold BITS_PER_SECTOR. rewrite round_up by lia. set (x0 := (T + 4095) / 4096). assert (Hx0 : 4096 * (x0 - 1) < T <= 4096 * x0) by (unfold x0; zdiv).
  assert (H2 : T <> 1) by (intros ->; by apply Hm).
  set (x1 := (T - x0 + 4095) / 4096). assert (Hx1 : 4096 * (x1 - 1) < T - x0 <= 4096 * x1) by (unfold x1; zdiv).
  assert (Hlf : forall n r, (n <= fuel)%nat -> loop n (sects_turn T) (x0, 0, junk) = Done r -> loop fuel (sects_turn T) (x0, 0, junk) = Done r)
    by (intros; by eapply loop_fuel_mono).
  destruct (decide (x1 = x0)) as [E1|E1].
  - exists x0. split; [|lia]. apply (Hlf 2%nat); [lia|]. erewrite loop_next by (apply sects_step; lia). fold x1. rewrite E1. apply loop_done, sects_stop.
  - assert (Ex : x1 = x0 - 1) by lia. set (x2 := (T - x1 + 4095) / 4096). assert (Hx2 : 4096 * (x2 - 1) < T - x1 <= 4096 * x2) by (unfold x2; zdiv).
    destruct (decide (x2 = x1)) as [E2|E2].
    + exists x1. split; [|lia]. apply (Hlf 3%nat); [lia|]. erewrite loop_next by (apply sects_step; lia). fold x1. erewrite loop_next by (apply sects_step; lia). fold x2.
      rewrite E2. apply loop_done, sects_stop.
    + exfalso. apply Hm. assert (ET : T = 4097 * x1 + 1) by lia. rewrite ET. clear. zdiv.
Qed.

(** ** Properties *)

(** C19. The loop of [partition_format] that sizes the block bitmap: for [T] < 2^24 sectors
    left for bitmap and blocks it ends (after at most three rounds) with the smallest number of
    sectors whose bits cover the remaining blocks, unless [T mod 4097] is 1; then it goes
    back and forth between two sizes for ever, and formatting a partition of that size
    never returns. *)
Theorem block_bitmap_sizing T junk :
  0 < T < 2 ^ 24 ->
  if T mod 4097 =? 1 then forall fuel, loop fuel (sects_turn T) (DIV_ROUND_UP T BITS_PER_SECTOR, 0, junk) = Diverge
  else exists x, 0 < x < T /\ 4096 * (x - 1) < T - x <= 4096 * x /\
    forall fuel, (4 <= fuel)%nat -> loop fuel (sects_turn T) (DIV_ROUND_UP T BITS_PER_SECTOR, 0, junk) = Done (x, T - x).
Proof.
  intros HT. destruct (Z.eqb_spec (T mod 4097) 1) as [E|E].
  - intros fuel. unfold BITS_PER_SECTOR. rewrite round_up by lia. destruct (sects_alternate fuel T (T / 4097)) as [_ Hd]; [zdiv|zdiv|lia|].
    replace ((T + 4095) / 4096) with (T / 4097 + 1) by zdiv. apply Hd. zdiv.
  - destruct (sects_total T junk 4 HT E ltac:(lia)) as (x & Hx & Hr & Hb). exists x. split_and!; try lia. intros fuel Hf. by eapply loop_fuel_mono.
Qed.

(** ** Witnesses *)
Lemma block_bitmap_sizing_witness :
  (forall fuel, loop fuel (sects_turn 4098) (DIV_ROUND_UP 4098 BITS_PER_SECTOR, 0, 0) = Diverge) /\
  exists x, 4096 * (x - 1) < 4097 - x <= 4096 * x.
Proof.
  split.
  - exact (block_bitmap_sizing 4098 0 ltac:(lia)).
  - destruct (block_bitmap_sizing 4097 0 ltac:(lia)) as (x & _ & Hx & _). exists x. exact Hx.
Defined.
