(* ===== verification/Mount.v ===== *)
(** * A formatted partition can be mounted (fs/fs.c)

    What [partition_format] leaves on the disk and what [mount_partition] makes of it. *)
From stdpp Require Import base numbers list option tactics gmap fin_maps.
From Stdlib Require Import ZArith Lia.
From S2P Require Import Prelude Bitmap Ide Iface Inode File FileIo FileWrite Dir DirWrite Format.

(** ** A new directory *)
Lemma bind_nil_in {B C} (f : B -> list C) (l : list B) : (forall x, x ∈ l -> f x = []) -> l ≫= f = [].
Proof. induction l as [|x l IH]; intros Hl; [done|]. rewrite bind_cons, (Hl x) by (by left). apply IH. intros y Hy. apply Hl. by right. Qed.

Lemma two_entries e1 e2 :
  entry_wf e1 -> entry_wf e2 -> entries (entry_bytes e1 ++ entry_bytes e2 ++ replicate 464 0) = e1 :: e2 :: replicate 19 null_entry.
Proof.
  intros H1 H2. pose proof (entry_bytes_length e1 H1) as L1. pose proof (entry_bytes_length e2 H2) as L2.
  destruct (first_entries e1 (entry_bytes e1 ++ replicate 488 0) H1) as [Hl He].
  { unfold memcpy_to. rewrite decide_True by (rewrite length_replicate, L1; lia). rewrite L1. done. }
  destruct (entries_memcpy (entry_bytes e1 ++ replicate 488 0) 1 (entry_bytes e2) (entry_bytes e1 ++ entry_bytes e2 ++ replicate 464 0)) as [_ Hent]; [done|lia|done| |].
  { unfold memcpy_to. rewrite decide_True by lia. f_equal. rewrite take_app_length' by (rewrite L1; done). f_equal. f_equal.
    rewrite drop_app_ge by (rewrite L1; lia). rewrite L1, L2. done. }
  rewrite Hent, He. rewrite <- (app_nil_r (entry_bytes e2)), bytes_entry_bytes by done. done.
Qed.

Lemma fresh_dir_ok {D A : Type} `{BlockDev D} `{Alloc A} (s : fs (D := D) (A := A)) i lba e1 e2 :
  fs_ok s -> inode_wf i -> i_sectors i = lba :: replicate 12 0 -> i_size i = 48 -> dir_entry_size (sb (cur_part s)) = 24 -> lba <> 0 -> taken s lba ->
  bd_sector (dsk s) lba = entry_bytes e1 ++ entry_bytes e2 ++ replicate 464 0 -> entry_wf e1 -> entry_wf e2 -> live e1 -> live e2 -> named dot e1 ->
  dir_ok s i /\ dir_list (dsk s) i = [e1; e2].
Proof.
  intros Hs Hw Hsec Hsz Hes Hne Ht Hb W1 W2 L1 L2 Hdot.
  assert (Hind : indirect i = 0) by (unfold indirect; by rewrite Hsec).
  assert (Hdb : forall m, 0 <= m < 140 -> dblock (dsk s) i m = if decide (m = 0) then lba else 0).
  { intros m Hm. unfold dblock. destruct (decide (12 <= m /\ indirect i = 0)) as [E|E]; [by rewrite decide_False by lia|]. unfold file_block.
    assert (Hm12 : m < 12) by lia. rewrite decide_True by done. rewrite Hsec. destruct (decide (m = 0)) as [->|Hm0]; [done|].
    replace (Z.to_nat m) with (S (Z.to_nat (m - 1))) by lia. change (default 0 (replicate 12 0 !! Z.to_nat (m - 1)) = 0). by rewrite lookup_replicate_2 by lia. }
  assert (Hbe : block_entries (dsk s) lba = e1 :: e2 :: replicate 19 null_entry) by (unfold block_entries; rewrite decide_False, Hb by done; by apply two_entries).
  assert (Hsl : slots (dsk s) i = e1 :: e2 :: replicate 19 null_entry).
  { unfold slots, dblocks. rewrite list_fmap_bind, (seqZ_cons 0) by lia. rewrite bind_cons. unfold compose at 1. rewrite Hdb, decide_True, Hbe by lia.
    rewrite bind_nil_in; [done|]. intros m Hm%elem_of_seqZ. unfold compose. rewrite Hdb, decide_False by lia. done. }
  assert (HL : dir_list (dsk s) i = [e1; e2]).
  { unfold dir_list. rewrite Hsl, !filter_cons, !decide_True by done. do 2 f_equal. }
  split; [|done]. constructor; try assumption.
  - rewrite HL, Hsz. done.
  - rewrite Hsl. intros e [->|[->|Hx]%elem_of_cons]%elem_of_cons Hl; try done. apply elem_of_replicate in Hx as [-> _]. reflexivity.
  - done.
  - done.
  - intros m Hm. rewrite Hdb by done. by case_decide.
  - intros m Hm. rewrite Hdb by done. case_decide; intros Hx.
    + exists e1. split; [rewrite Hbe; by left|done].
    + destruct Hx as [E|(x & Hx & _)]; [|by apply elem_of_nil in Hx]. exfalso.
      destruct (fo_layout s Hs) as (Q1 & Q2 & Q3 & Q4 & Q5 & Q6 & Q7 & Q8 & Q9 & Q10). lia.
  - intros a b Ha Hb'. rewrite !Hdb by done. repeat case_decide; done || lia.
Qed.

(** ** The super block *)
Lemma bytes_sb_bytes b pad : Forall is_u32 (sb_words b) -> bytes_sb (sb_bytes b pad) = b.
Proof.
  intros Hf. unfold bytes_sb, sb_bytes. pose proof (unwords_words (sb_words b) pad Hf) as E. change (length (sb_words b)) with 13%nat in E.
  rewrite E. by destruct b.
Qed.

(** ** The bitmaps *)
Definition tbit (l : list Z) (j : Z) : bool := Z.testbit (default 0 (l !! Z.to_nat (j / 8))) (j mod 8).

Lemma clear_low_spec buf last i n :
  0 <= last < Z.of_nat (length buf) -> 0 <= i -> i + Z.of_nat n <= 8 ->
  exists b, clear_low buf last i n = Done (<[Z.to_nat last := b]> buf) /\
    forall k, 0 <= k < 8 -> Z.testbit b k = Z.testbit (default 0 (buf !! Z.to_nat last)) k && negb (bool_decide (i <= k < i + Z.of_nat n)).
Proof.
  revert buf i. induction n as [|n IH]; intros buf i Hl Hi Hn; cbn [clear_low].
  - destruct (lookup_lt_is_Some_2 buf (Z.to_nat last)) as [x Hx]; [lia|]. exists x. rewrite list_insert_id by done. split; [done|].
    intros k Hk. rewrite Hx, bool_decide_false by lia. cbn. by rewrite andb_true_r.
  - unfold aupd. destruct (aget_in buf last Hl) as (x & Hx & ->). rewrite bind_done, aset_in by done. rewrite bind_done.
    set (y := u8 _). destruct (IH (<[Z.to_nat last := y]> buf) (i + 1)) as (b & -> & Hb); [rewrite length_insert; lia|lia|lia|].
    exists b. rewrite list_insert_insert_eq. split; [done|]. intros k Hk. rewrite Hb by done. rewrite list_lookup_insert_eq by lia. rewrite Hx. cbn [default from_option id].
    unfold y. rewrite testbit_u8, Z.land_spec, Z.lnot_spec, testbit_shiftl1 by lia. rewrite <- andb_assoc, <- negb_orb. f_equal. f_equal.
    rewrite <- bool_decide_or. apply bool_decide_ext. lia.
Qed.

Lemma init_block_bitmap_spec N L :
  8 <= L -> L / 8 + (512 - (L / 8) mod 512) <= Z.of_nat N ->
  exists buf, init_block_bitmap (replicate N 0) L = Done buf /\ length buf = N /\
    forall j, 0 <= j < 8 * Z.of_nat N -> tbit buf j = bool_decide (j = 0 \/ L <= j < 8 * (L / 8 + (512 - (L / 8) mod 512))).
Proof.
  intros HL HN. unfold init_block_bitmap, aupd, SECTOR_SIZE. set (last := L / 8) in *. assert (Hlast : 1 <= last) by (unfold last; zdiv).
  set (sz := 512 - last mod 512) in *. assert (Hsz : 0 < sz <= 512) by (unfold sz; zdiv).
  rewrite (aget_Some (replicate N 0) 0 0) by (lia || (apply lookup_replicate_2; lia)). rewrite bind_done, aset_in by (rewrite length_replicate; lia). rewrite bind_done. cbv zeta.
  change (Z.lor 0 1) with 1. change (Z.to_nat 0) with 0%nat. set (b0 := <[0%nat := 1]> (replicate N 0)).
  assert (Hl0 : length b0 = N) by (unfold b0; by rewrite length_insert, length_replicate).
  destruct (memcpy_to_ok b0 last (replicate (Z.to_nat sz) 255)) as (b1 & -> & Hl1 & Hx1); [lia|rewrite length_replicate, Hl0; lia|]. rewrite bind_done. rewrite length_replicate in Hx1.
  destruct (clear_low_spec b1 last 0 (Z.to_nat (L mod 8))) as (v & -> & Hv); [lia|lia|zdiv|]. eexists. split; [reflexivity|]. split; [rewrite length_insert; lia|].
  rewrite Hx1, decide_True, lookup_replicate_2 in Hv by lia. cbn [default from_option id] in Hv.
  assert (H255 : forall k, 0 <= k < 8 -> Z.testbit 255 k = true) by (intros k Hk; change 255 with (Z.ones 8); rewrite Z.ones_spec_low; [done|lia]).
  intros j Hj. unfold tbit. assert (Hm : 0 <= j mod 8 < 8) by zdiv. destruct (decide (j / 8 = last)) as [E|E].
  - rewrite E, list_lookup_insert_eq by lia. cbn [default from_option id]. rewrite Hv, H255 by done. cbn [andb]. rewrite <- bool_decide_not. apply bool_decide_ext. unfold last in *. zdiv.
  - rewrite list_lookup_insert_ne by lia. rewrite Hx1. destruct (decide (Z.to_nat last <= Z.to_nat (j / 8) < Z.to_nat last + Z.to_nat sz)%nat) as [Hin|Hin].
    + rewrite lookup_replicate_2 by lia. cbn [default from_option id]. rewrite H255 by done. rewrite bool_decide_true; [done|]. unfold last in *. right. zdiv.
    + unfold b0. destruct (decide (j / 8 = 0)) as [E0|E0].
      * rewrite E0, list_lookup_insert_eq by (rewrite length_replicate; lia). cbn [default from_option id]. destruct (decide (j = 0)) as [->|Hj0]; [by rewrite bool_decide_true by lia|].
        rewrite bool_decide_false; [|unfold last in *; zdiv]. change 1 with (Z.ones 1). rewrite Z.ones_spec_high; [done|zdiv].
      * rewrite list_lookup_insert_ne, lookup_replicate_2 by zdiv. cbn [default from_option id]. rewrite Z.testbit_0_l. symmetry. apply bool_decide_eq_false_2. unfold last, sz in *. zdiv.
Qed.

(** ** Sectors that were written and are read back *)
Section Mount.
Context {D A : Type} `{BlockDev D} `{Alloc A}.
Implicit Types s : fs (D := D) (A := A).

Lemma read_written (d : D) lba buf n :
  bd_ok d -> 0 <= n -> 512 * n <= Z.of_nat (length buf) -> (forall k, lba <= k < lba + n -> bd_sector d k = chunk buf (k - lba)) ->
  seqZ lba n ≫= bd_sector d = take (Z.to_nat (512 * n)) buf.
Proof.
  intros Hd Hn Hl Hs. apply list_eq_same_length with (Z.to_nat (512 * n)); [rewrite length_take; lia|pose proof (sectors_length d lba n Hd Hn); lia|].
  intros i x y Hi Hx Hy. rewrite lookup_take_lt in Hy by done. pose proof (sectors_lookup d lba n (Z.of_nat i) Hd Hn ltac:(lia)) as E. rewrite Nat2Z.id in E.
  rewrite Hs in E by zdiv. rewrite chunk_lookup in E by zdiv. replace (Z.to_nat (512 * (lba + Z.of_nat i / 512 - lba) + Z.of_nat i mod 512)) with i in E by zdiv. congruence.
Qed.

(** ** What formatting leaves on the disk *)
Definition root_block : list Z := entry_bytes (root_entry dot) ++ entry_bytes (root_entry dotdot) ++ replicate 464 0.

Record formatted (d : D) (start cnt x : Z) (pad : list Z) : Prop := {
  fm_size : 0 < x <= 40 /\ 4096 * (x - 1) < cnt - 611 - x <= 4096 * x;
  fm_sb : bd_sector d (start + 1) = sb_bytes (format_sb start cnt x) pad;
  fm_blocks : exists bb, Z.of_nat (length bb) = 311296 /\ (forall k, start + 2 <= k < start + 2 + x -> bd_sector d k = chunk bb (k - (start + 2))) /\
    forall j, 0 <= j < 4096 * x -> tbit bb j = bool_decide (j = 0 \/ cnt - 611 - x <= j);
  fm_inodes : bd_sector d (start + 2 + x) = 1 :: replicate 511 0;
  fm_table : forall k, start + 3 + x <= k < start + 611 + x -> bd_sector d k = chunk (inode_bytes (root_inode (start + 611 + x)) ++ replicate (Z.to_nat 311220) 0) (k - (start + 3 + x));
  fm_root : bd_sector d (start + 611 + x) = root_block
}.

(** The numbers of the super block. *)
Lemma format_sb_eq start cnt x :
  0 <= start -> 0 <= x -> start + 611 + x < 2 ^ 31 ->
  format_sb start cnt x = mk_sb FS_MAGIC cnt 4096 start (start + 2) x (start + 2 + x) 1 (start + 3 + x) 608 (start + 611 + x) 0 24.
Proof.
  intros Hs Hx Hb. unfold format_sb. change (DIV_ROUND_UP MAX_FILES_PER_PART BITS_PER_SECTOR) with 1. change inode_table_sects_of with 608. change DIR_ENTRY_SIZE with 24.
  unfold MAX_FILES_PER_PART. cbv zeta. rewrite !u32_small by lia. f_equal; lia.
Qed.

Lemma memcpy_zero n bytes : (length bytes <= n)%nat -> memcpy_to (replicate n 0) 0 bytes = Done (bytes ++ replicate (n - length bytes) 0).
Proof. intros Hl. unfold memcpy_to. rewrite decide_True by (rewrite length_replicate; lia). simpl. by rewrite drop_replicate. Qed.

Lemma aupd_zero n : (0 < n)%nat -> aupd (replicate n 0) 0 (fun x => Z.lor x 1) = Done (1 :: replicate (n - 1) 0).
Proof.
  intros Hn. unfold aupd. rewrite (aget_Some _ 0 0) by (lia || (apply lookup_replicate_2; lia)). rewrite bind_done, aset_in by (rewrite length_replicate; lia).
  destruct n as [|n]; [lia|]. simpl. by rewrite Nat.sub_0_r.
Qed.

Lemma partition_format_ok fuel (d : D) (m : A) start cnt junk pad p m1 :
  bd_ok d -> al_ok m -> 0 <= start -> start + cnt <= max_lba + 1 -> 10 <= cnt - 611 -> (cnt - 611) mod 4097 <> 1 -> (4 <= fuel)%nat ->
  length pad = 460%nat -> al_malloc m 311296 = Done (p, m1) -> p <> 0 ->
  exists d' m' x, partition_format fuel d m start cnt junk pad = Done (d', m') /\ al_free m1 p = Done m' /\ bd_ok d' /\ al_ok m' /\ (forall q n, al_live m' q n <-> al_live m q n) /\
    formatted d' start cnt x pad /\ forall k, k <= start \/ start + 611 + x < k -> bd_sector d' k = bd_sector d k.
Proof.
  intros Hd Hm Hst Hend HT Hmod Hfuel Hpad Ea Hp. change max_lba with 163839 in Hend.
  unfold partition_format. change (DIV_ROUND_UP MAX_FILES_PER_PART BITS_PER_SECTOR) with 1. change inode_table_sects_of with 608. cbv zeta. change (1 + 1 + 1 + 608) with 611.
  rewrite (u32_small (cnt - 611)) by lia. destruct (sects_total (cnt - 611) junk fuel) as (x & -> & Hx1 & Hx2); [lia|done|done|]. rewrite bind_done.
  assert (Hx : 0 < x <= 40) by lia. rewrite format_sb_eq by lia.
  cbn [inode_bitmap_sects block_bitmap_sects inode_table_sects block_bitmap_lba inode_bitmap_lba inode_table_lba data_start_lba].
  rewrite (proj2 (Z.leb_le 1 x)) by lia. rewrite (proj2 (Z.leb_gt 608 x)) by lia. change (u32 (608 * SECTOR_SIZE)) with 311296. rewrite (u32_small (start + 1)) by lia.
  set (b := mk_sb _ _ _ _ _ _ _ _ _ _ _ _ _). assert (Hsbl : length (sb_bytes b pad) = 512%nat) by (unfold sb_bytes; rewrite length_app, words_length, Hpad; done).
  destruct (bd_write_ok d (start + 1) (sb_bytes b pad) 1) as (d1 & -> & Hd1 & Hk1); [done|lia|lia|change max_lba with 163839; lia|lia|]. rewrite bind_done, Ea, bind_done. cbn [fst snd].
  destruct (Z.eqb_spec p 0); [done|]. destruct (buffer_ok m 311296 p m1 Hm ltac:(lia) Ea Hp) as (_ & _ & m2 & Ef & Hm2 & Hl2).
  set (N := Z.to_nat 311296). assert (HN : Z.of_nat N = 311296) by (unfold N; lia). clearbody N. set (L := cnt - 611 - x) in *.
  destruct (init_block_bitmap_spec N L) as (bb & -> & Hbl & Hbits); [unfold L; lia|unfold L; zdiv|]. rewrite bind_done.
  destruct (bd_write_ok d1 (start + 2) bb x) as (d2 & -> & Hd2 & Hk2); [done|lia|lia|change max_lba with 163839; lia|lia|]. rewrite bind_done.
  rewrite aupd_zero by lia. rewrite bind_done.
  destruct (bd_write_ok d2 (start + 2 + x) (1 :: replicate (N - 1) 0) 1) as (d3 & -> & Hd3 & Hk3); [done|lia|lia|change max_lba with 163839; lia|cbn [length]; rewrite length_replicate; lia|]. rewrite bind_done.
  set (ri := root_inode (start + 611 + x)). assert (Hri : length (inode_bytes ri) = 76%nat) by done.
  rewrite (memcpy_zero N (inode_bytes ri)) by (rewrite Hri; lia). rewrite bind_done, Hri.
  destruct (bd_write_ok d3 (start + 3 + x) (inode_bytes ri ++ replicate (N - 76) 0) 608) as (d4 & -> & Hd4 & Hk4); [done|lia|lia|change max_lba with 163839; lia|rewrite length_app, length_replicate, Hri; lia|]. rewrite bind_done.
  set (re := entry_bytes (root_entry dot) ++ entry_bytes (root_entry dotdot)). assert (Hre : length re = 48%nat) by done. rewrite (memcpy_zero N re) by (rewrite Hre; lia). rewrite bind_done, Hre.
  destruct (bd_write_ok d4 (start + 611 + x) (re ++ replicate (N - 48) 0) 1) as (d5 & -> & Hd5 & Hk5); [done|lia|lia|change max_lba with 163839; lia|rewrite length_app, length_replicate, Hre; lia|]. rewrite bind_done, Ef, bind_done.
  exists d5, m2, x. split; [reflexivity|]. split; [reflexivity|]. split; [exact Hd5|]. split; [exact Hm2|]. split; [exact Hl2|]. split.
  2: { intros k Hk. rewrite Hk5, decide_False by lia. rewrite Hk4, decide_False by lia. rewrite Hk3, decide_False by lia. rewrite Hk2, decide_False by lia. by rewrite Hk1, decide_False by lia. }
  constructor.
  - fold L. lia.
  - rewrite Hk5, decide_False by lia. rewrite Hk4, decide_False by lia. rewrite Hk3, decide_False by lia. rewrite Hk2, decide_False by lia. rewrite Hk1, decide_True by lia.
    rewrite format_sb_eq by lia. fold b. rewrite Z.sub_diag. unfold chunk. rewrite drop_0. by apply take_ge; lia.
  - exists bb. split_and!; [lia| |].
    + intros k Hk. rewrite Hk5, decide_False by lia. rewrite Hk4, decide_False by lia. rewrite Hk3, decide_False by lia. by rewrite Hk2, decide_True by lia.
    + intros j Hj. rewrite Hbits by lia. apply bool_decide_ext. fold L. zdiv.
  - rewrite Hk5, decide_False by lia. rewrite Hk4, decide_False by lia. rewrite Hk3, decide_True by lia. rewrite Z.sub_diag. unfold chunk. change (Z.to_nat (512 * 0)) with 0%nat.
    rewrite drop_0. replace (N - 1)%nat with (511 + (N - 512))%nat by lia. rewrite replicate_add. change (1 :: replicate 511 0 ++ replicate (N - 512) 0) with ((1 :: replicate 511 0) ++ replicate (N - 512) 0).
    apply take_app_length'. done.
  - intros k Hk. rewrite Hk5, decide_False by lia. rewrite Hk4, decide_True by lia. replace (N - 76)%nat with (Z.to_nat 311220) by lia. reflexivity.
  - rewrite Hk5, decide_True by lia. rewrite Z.sub_diag. unfold chunk. change (Z.to_nat (512 * 0)) with 0%nat. rewrite drop_0. unfold root_block.
    replace (N - 48)%nat with (464 + (N - 512))%nat by lia. rewrite replicate_add, app_assoc. fold re. rewrite (app_assoc (entry_bytes (root_entry dot))). fold re. apply take_app_length'. done.
Qed.

(** ** Mounting it *)

(** What the mounted partition is like: everything is free but the root directory. *)
Record fresh_mount s (start cnt x : Z) : Prop := {
  mt_ok : fs_ok s;
  mt_synced : synced s;
  mt_root : root_used s;
  mt_part : start_lba (cur_part s) = start /\ sec_cnt (cur_part s) = cnt /\ sb (cur_part s) = format_sb start cnt x /\ open_inodes (cur_part s) = [];
  mt_nbits : nbits (block_bitmap (cur_part s)) = 4096 * x;
  mt_blocks : forall j, 0 <= j < 4096 * x -> bit (block_bitmap (cur_part s)) j = bool_decide (j = 0 \/ cnt - 611 - x <= j);
  mt_inodes : forall j, 0 <= j < 4096 -> bit (inode_bitmap (cur_part s)) j = bool_decide (j = 0);
  mt_slot : slot_holds s (root_inode (start + 611 + x));
  mt_block : bd_sector (dsk s) (start + 611 + x) = root_block
}.

(** Four requests, and the first block freed at the end. *)
Lemma mount_buffers m n1 n2 n3 n4 p1 m1 p2 m2 p3 m3 p4 m4 :
  al_ok m -> 0 < n1 <= max_request -> 0 < n2 <= max_request -> 0 < n3 <= max_request -> 0 < n4 <= max_request ->
  al_malloc m n1 = Done (p1, m1) -> p1 <> 0 -> al_malloc m1 n2 = Done (p2, m2) -> p2 <> 0 ->
  al_malloc m2 n3 = Done (p3, m3) -> p3 <> 0 -> al_malloc m3 n4 = Done (p4, m4) -> p4 <> 0 ->
  exists m5, al_free m4 p1 = Done m5 /\ al_ok m5.
Proof.
  intros Hm N1 N2 N3 N4 E1 H1 E2 H2 E3 H3 E4 H4.
  destruct (al_malloc_ok m n1 Hm N1) as (? & ? & E & K1 & _ & L1). rewrite E1 in E. injection E as <- <-. specialize (K1 (or_introl H1)). destruct (L1 H1) as (k & _ & L1a & _).
  destruct (buffer_ok m1 n2 p2 m2 K1 N2 E2 H2) as (K2 & L2 & _). destruct (buffer_ok m2 n3 p3 m3 K2 N3 E3 H3) as (K3 & L3 & _).
  destruct (buffer_ok m3 n4 p4 m4 K3 N4 E4 H4) as (K4 & L4 & _).
  destruct (al_free_ok m4 p1 k K4) as (m5 & -> & K5 & _); [apply L4, L3, L2, L1a; by right|]. by exists m5.
Qed.

Lemma take_bit (l : list Z) n past len j : 0 <= j < 8 * n -> bit (mk_bitmap len (take (Z.to_nat n) l) past) j = tbit l j.
Proof. intros Hj. unfold bit, tbit. cbn [bits]. by rewrite lookup_take_lt by zdiv. Qed.

Lemma root_inode_wf lba : 0 <= lba < 2 ^ 31 -> inode_wf (root_inode lba).
Proof.
  intros Hl. unfold root_inode, inode_wf, is_u32. cbn [i_no i_size i_open_cnts write_deny i_sectors]. change (DIR_ENTRY_SIZE * 2) with 48. split_and!; try lia; try done.
  apply Forall_cons. split; [lia|]. apply Forall_replicate. lia.
Qed.

Lemma mount_ok s start cnt x pad pb pi p1 m1 p2 m2 p3 m3 p4 m4 :
  bd_ok (dsk s) -> al_ok (mem s) -> 0 <= start -> start + cnt <= max_lba + 1 -> 10 <= cnt - 611 -> length pad = 460%nat ->
  formatted (dsk s) start cnt x pad ->
  al_malloc (mem s) 512 = Done (p1, m1) -> p1 <> 0 -> al_malloc m1 512 = Done (p2, m2) -> p2 <> 0 ->
  al_malloc m2 (512 * x) = Done (p3, m3) -> p3 <> 0 -> al_malloc m3 512 = Done (p4, m4) -> p4 <> 0 ->
  exists d' m' s', mount_partition s start cnt pb pi = Done s' /\ fresh_mount s' start cnt x /\ al_free m4 p1 = Done m' /\
    s' = with_mem m' (with_dsk d' (with_part (cur_part s') s)) /\ (forall k, bd_sector d' k = bd_sector (dsk s) k).
Proof.
  intros Hd Hm Hst Hend HT Hpad [Fx Fsb (bb & Hbl & Fbb & Fbits) Fib Ftab Froot] E1 H1 E2 H2 E3 H3 E4 H4.
  change max_lba with 163839 in Hend. set (L := cnt - 611 - x) in *.
  unfold mount_partition. change SECTOR_SIZE with 512. rewrite E1, bind_done. cbn [fst snd]. rewrite E2, bind_done. cbn [fst snd].
  destruct (Z.eqb_spec p2 0); [done|]. destruct (Z.eqb_spec p1 0); [done|]. rewrite (u32_small (start + 1)) by lia.
  destruct (bd_read_ok (dsk s) (start + 1) 1) as (d1 & -> & Hd1 & Hk1); [done|lia|lia|change max_lba with 163839; lia|]. rewrite bind_done, sector_one. cbn [fst snd].
  assert (Esb : bytes_sb (bd_sector (dsk s) (start + 1)) = format_sb start cnt x).
  { rewrite Fsb. apply bytes_sb_bytes. rewrite format_sb_eq by lia. unfold sb_words, is_u32, FS_MAGIC. cbn. repeat constructor; lia. }
  rewrite Esb. rewrite (format_sb_eq start cnt x) by lia. cbn [block_bitmap_sects inode_bitmap_sects block_bitmap_lba inode_bitmap_lba].
  rewrite (u32_small (x * 512)) by lia. rewrite (Z.mul_comm x 512), E3, bind_done. cbn [fst snd]. destruct (Z.eqb_spec p3 0); [done|].
  destruct (bd_read_ok d1 (start + 2) x) as (d2 & -> & Hd2 & Hk2); [done|lia|lia|change max_lba with 163839; lia|]. rewrite bind_done. cbn [fst snd].
  change (u32 (1 * 512)) with 512. rewrite E4, bind_done. cbn [fst snd]. destruct (Z.eqb_spec p4 0); [done|].
  destruct (bd_read_ok d2 (start + 2 + x) 1) as (d3 & -> & Hd3 & Hk3); [done|lia|lia|change max_lba with 163839; lia|]. rewrite bind_done. cbn [fst snd].
  destruct (mount_buffers (mem s) 512 512 (512 * x) 512 p1 m1 p2 m2 p3 m3 p4 m4) as (m5 & Ef & Hm5); try assumption; try lia. rewrite Ef, bind_done.
  assert (Hk : forall k, bd_sector d3 k = bd_sector (dsk s) k) by (intros k; by rewrite Hk3, Hk2, Hk1).
  rewrite sector_one, Hk2, Hk1, Fib. rewrite (read_written d1 (start + 2) bb x) by (try lia; try done; intros k Hkr; rewrite Hk1; by apply Fbb).
  rewrite <- (format_sb_eq start cnt x) by lia. set (sbb := format_sb start cnt x).
  set (B := mk_bitmap (512 * x) (take (Z.to_nat (512 * x)) bb) pb). set (I := mk_bitmap 512 (1 :: replicate 511 0) pi).
  eexists d3, m5, _. split; [reflexivity|]. split; [|split; [reflexivity|split; [reflexivity|exact Hk]]]. set (s' := with_mem m5 _).
  assert (Esb' : sbb = mk_sb FS_MAGIC cnt 4096 start (start + 2) x (start + 2 + x) 1 (start + 3 + x) 608 (start + 611 + x) 0 24) by (by apply format_sb_eq; lia).
  assert (HB : forall j, 0 <= j < 4096 * x -> bit B j = bool_decide (j = 0 \/ L <= j)) by (intros j Hj; unfold B; rewrite take_bit by lia; by apply Fbits).
  assert (HI : forall j, 0 <= j < 4096 -> bit I j = bool_decide (j = 0)).
  { intros j Hj. unfold bit, I. cbn [bits]. destruct (decide (j / 8 = 0)) as [E|E].
    - rewrite E. change (default 0 ((1 :: replicate 511 0) !! Z.to_nat 0)) with 1. destruct (decide (j = 0)) as [->|]; [done|]. rewrite bool_decide_false by done.
      change 1 with (Z.ones 1). rewrite Z.ones_spec_high; [done|zdiv].
    - replace (Z.to_nat (j / 8)) with (S (Z.to_nat (j / 8 - 1))) by zdiv. change ((1 :: replicate 511 0) !! S (Z.to_nat (j / 8 - 1))) with (replicate 511 0 !! Z.to_nat (j / 8 - 1)).
      rewrite lookup_replicate_2 by zdiv. cbn [default from_option id]. rewrite Z.testbit_0_l, bool_decide_false; [done|]. intros ->. by apply E. }
  assert (Hlen : Z.of_nat (length (bits B)) = 512 * x) by (unfold B; cbn [bits]; rewrite length_take; lia).
  assert (Hok : fs_ok s').
  { constructor; [exact Hd3|exact Hm5| | |].
    - unfold layout_ok. cbn [cur_part s' with_mem with_dsk with_part sb start_lba sec_cnt]. rewrite Esb'. cbn. change max_lba with 163839. split_and!; lia.
    - unfold bitmaps_ok. cbn [cur_part s' with_mem with_dsk with_part sb start_lba sec_cnt block_bitmap inode_bitmap]. rewrite Esb'. cbn [block_bitmap_sects inode_bitmap_sects data_start_lba].
      split_and!; [split; [rewrite Hlen; done|unfold B; cbn [btmp_bytes_len]; lia]|done|split; [reflexivity|unfold I; cbn [btmp_bytes_len]; lia]|done|].
      intros j Hj Hb. unfold nbits in Hj. cbn [btmp_bytes_len B] in Hj. rewrite HB in Hb by lia. apply bool_decide_eq_false_1 in Hb. unfold L in Hb. lia.
    - split_and!; [apply NoDup_nil_2| |]; intros q; intros; exfalso; by eapply (not_elem_of_nil q). }
  constructor; try assumption.
  - intros t j Hj. change (dsk s') with d3. rewrite Hk. destruct t.
    + change (bitmap_of INODE_BITMAP s') with I in *. change (btmp_bytes_len I / 512) with 1 in Hj. replace j with 0 by lia.
      change (bitmap_lba INODE_BITMAP s') with (inode_bitmap_lba sbb). rewrite Esb'. cbn [inode_bitmap_lba]. rewrite Z.add_0_r, Fib. reflexivity.
    + change (bitmap_of BLOCK_BITMAP s') with B in *. change (btmp_bytes_len B) with (512 * x) in Hj.
      change (bitmap_lba BLOCK_BITMAP s') with (block_bitmap_lba sbb). rewrite Esb'. cbn [block_bitmap_lba]. rewrite Fbb by zdiv. replace (start + 2 + j - (start + 2)) with j by lia.
      unfold chunk, B. cbn [bits]. rewrite skipn_firstn_comm, take_take. f_equal. zdiv.
  - change (bit B 0 = true). rewrite HB by lia. by apply bool_decide_eq_true_2; left.
  - done.
  - change (nbits (block_bitmap (cur_part s'))) with (8 * (512 * x)). lia.
  - split; [|split; [done|]].
    + apply root_inode_wf; lia.
    + intros y Hy. change (dsk s') with d3. change (slot s' (i_no (root_inode (start + 611 + x)))) with (512 * inode_table_lba sbb + 76 * 0). rewrite Esb'. cbn [inode_table_lba].
      rewrite (dbyte_ext (dsk s)) by done. unfold dbyte. replace ((512 * (start + 3 + x) + 76 * 0 + y) / 512) with (start + 3 + x) by zdiv.
      replace ((512 * (start + 3 + x) + 76 * 0 + y) mod 512) with y by zdiv. rewrite Ftab, Z.sub_diag by lia. rewrite chunk_lookup by lia.
      rewrite lookup_app_l; [do 3 f_equal; lia|]. change (length (inode_bytes (root_inode (start + 611 + x)))) with 76%nat. lia.
  - change (dsk s') with d3. by rewrite Hk.
Qed.

(** The requests that formatting, mounting and opening the root directory make one after
    the other all succeed. *)
Definition boot_requests (m : A) (x : Z) : outcome bool :=
  r0 ← al_malloc m 311296;
  m ← al_free r0.2 r0.1;
  r1 ← al_malloc m 512;
  r2 ← al_malloc r1.2 512;
  r3 ← al_malloc r2.2 (512 * x);
  r4 ← al_malloc r3.2 512;
  m ← al_free r4.2 r1.1;
  r5 ← al_malloc m 76;
  r6 ← al_malloc r5.2 512;
  Done (forallb (fun p => negb (p =? 0)) [r0.1; r1.1; r2.1; r3.1; r4.1; r5.1; r6.1]).

Lemma opened_wf i : inode_wf i -> inode_wf (opened i).
Proof. intros (? & ? & _ & _ & ? & ?). unfold inode_wf, is_u32 in *. cbn [i_no i_size i_open_cnts write_deny i_sectors opened]. split_and!; done || lia. Qed.

Lemma opened_root_dir s start cnt x p n d' m' :
  fresh_mount s start cnt x -> 0 <= start -> 0 < x <= 40 -> start + cnt < 2 ^ 30 -> 10 <= cnt - 611 -> 4096 * (x - 1) < cnt - 611 - x ->
  let ri := root_inode (start + 611 + x) in
  let s1 := with_mem m' (with_dsk d' (set_inode p (opened ri) (with_open (p :: open_inodes (cur_part s)) s))) in
  fs_ok s1 -> p <> 0 -> 76 <= n -> (forall k, bd_sector d' k = bd_sector (dsk s) k) ->
  dir_ok (with_root (mk_dir p 0) s1) (opened ri) /\ dir_list d' (opened ri) = [root_entry dot; root_entry dotdot].
Proof.
  intros [M1 M2 M3 (P1 & P2 & P3 & P4) M5 M6 M7 M8 M9] Hst Hx Hc HT Hxx ri s1 Hs1 Hp Hn Hk.
  pose proof (format_sb_eq start cnt x ltac:(lia) ltac:(lia) ltac:(lia)) as Esb.
  apply (fresh_dir_ok (with_root (mk_dir p 0) s1) (opened ri) (start + 611 + x) (root_entry dot) (root_entry dotdot)).
  - destruct Hs1. by constructor.
  - apply opened_wf, root_inode_wf. lia.
  - done.
  - done.
  - change (dir_entry_size (sb (cur_part s)) = 24). rewrite P3, Esb. done.
  - lia.
  - unfold taken. change (cur_part (with_root (mk_dir p 0) s1)) with (cur_part (with_open (p :: open_inodes (cur_part s)) s)).
    cbn [cur_part with_open with_part sb start_lba sec_cnt block_bitmap]. rewrite P1, P2, P3, Esb. cbn [data_start_lba]. rewrite M5. split_and!; [lia|lia|lia|].
    rewrite Z.sub_diag. exact M3.
  - change (bd_sector d' (start + 611 + x) = root_block). by rewrite Hk.
  - split; [done|]. split; split; vm_compute; congruence.
  - split; [done|]. split; split; vm_compute; congruence.
  - done.
  - done.
  - done.
Qed.

Lemma boot_inv m x b : boot_requests m x = Done b -> b = true -> exists p0 m0 m0' p1 m1 p2 m2 p3 m3 p4 m4 m5 p5 m6 p6 m7,
  al_malloc m 311296 = Done (p0, m0) /\ p0 <> 0 /\ al_free m0 p0 = Done m0' /\ al_malloc m0' 512 = Done (p1, m1) /\ p1 <> 0 /\
  al_malloc m1 512 = Done (p2, m2) /\ p2 <> 0 /\ al_malloc m2 (512 * x) = Done (p3, m3) /\ p3 <> 0 /\ al_malloc m3 512 = Done (p4, m4) /\ p4 <> 0 /\
  al_free m4 p1 = Done m5 /\ al_malloc m5 76 = Done (p5, m6) /\ p5 <> 0 /\ al_malloc m6 512 = Done (p6, m7) /\ p6 <> 0.
Proof.
  unfold boot_requests. intros Hb ->.
  apply bind_done_inv in Hb as ([p0 m0] & E0 & Hb). apply bind_done_inv in Hb as (m0' & F0 & Hb). apply bind_done_inv in Hb as ([p1 m1] & E1 & Hb).
  apply bind_done_inv in Hb as ([p2 m2] & E2 & Hb). apply bind_done_inv in Hb as ([p3 m3] & E3 & Hb). apply bind_done_inv in Hb as ([p4 m4] & E4 & Hb).
  apply bind_done_inv in Hb as (m5 & F5 & Hb). apply bind_done_inv in Hb as ([p5 m6] & E5 & Hb). apply bind_done_inv in Hb as ([p6 m7] & E6 & Hb).
  injection Hb as Hb. cbn [forallb fst snd] in *. rewrite !andb_true_iff, !negb_true_iff, !Z.eqb_neq in Hb. destruct Hb as (? & ? & ? & ? & ? & ? & ? & _).
  exists p0, m0, m0', p1, m1, p2, m2, p3, m3, p4, m4, m5, p5, m6, p6, m7. split_and!; assumption.
Qed.

(** ** Properties *)

(** C18. Formatting a partition and mounting it gives a well-formed file system: the regions
    are in order inside the partition, the bitmaps in memory equal those on disk, exactly
    the root directory's block and inode are taken (and the bits that stand for no block),
    and [open_root_dir] finds a well-formed directory that lists "." and "..". No sector
    outside the partition changes. This holds for every partition on the disk with at least
    10 sectors for blocks, except the sizes for which the sizing loop does not end. *)
Theorem format_mount_root fuel s start cnt junk pad pb pi :
  bd_ok (dsk s) -> al_ok (mem s) -> 0 <= start -> start + cnt <= max_lba + 1 -> 10 <= cnt - 611 -> (cnt - 611) mod 4097 <> 1 -> (4 <= fuel)%nat ->
  length pad = 460%nat -> (forall x, 0 < x <= 40 -> boot_requests (mem s) x = Done true) ->
  exists d' m' s1 s2 x p, partition_format fuel (dsk s) (mem s) start cnt junk pad = Done (d', m') /\
    (forall k, k <= start \/ start + cnt <= k -> bd_sector d' k = bd_sector (dsk s) k) /\
    mount_partition (with_mem m' (with_dsk d' s)) start cnt pb pi = Done s1 /\ fresh_mount s1 start cnt x /\
    open_root_dir s1 = Done s2 /\ fs_ok s2 /\ root_dir s2 = mk_dir p 0 /\ inodes s2 !! p = Some (opened (root_inode (start + 611 + x))) /\
    dir_ok s2 (opened (root_inode (start + 611 + x))) /\
    dir_list (dsk s2) (opened (root_inode (start + 611 + x))) = [root_entry dot; root_entry dotdot].
Proof.
  intros Hd Hm Hst Hend HT Hmod Hfuel Hpad Hboot.
  destruct (boot_inv (mem s) 1 true (Hboot 1 ltac:(lia)) eq_refl) as (p0 & m0 & m0' & _ & _ & _ & _ & _ & _ & _ & _ & _ & _ & _ & _ & _ & E0 & N0 & F0 & _).
  destruct (partition_format_ok fuel (dsk s) (mem s) start cnt junk pad p0 m0) as (d' & m' & x & Hfmt & Ef & Hd' & Hm' & _ & Hform & Hout); try assumption.
  rewrite F0 in Ef. injection Ef as <-. pose proof (fm_size _ _ _ _ _ Hform) as [Hx1 Hx2].
  destruct (boot_inv (mem s) x true (Hboot x Hx1) eq_refl) as
    (p0' & m1' & m2' & p1 & m1 & p2 & m2 & p3 & m3 & p4 & m4 & m5 & p5 & m6 & p6 & m7 & E0' & _ & F0' & E1 & N1 & E2 & N2 & E3 & N3 & E4 & N4 & F5 & E5 & N5 & E6 & N6).
  rewrite E0 in E0'. injection E0' as <- <-. rewrite F0 in F0'. injection F0' as <-.
  destruct (mount_ok (with_mem m0' (with_dsk d' s)) start cnt x pad pb pi p1 m1 p2 m2 p3 m3 p4 m4) as (d2 & m2x & s1 & Hmt & Hfresh & F5' & Es1 & Hk2); try assumption.
  rewrite F5 in F5'. injection F5' as <-. pose proof Hfresh as [M1 _ _ (P1 & P2 & P3 & P4) _ _ _ M8 _].
  change max_lba with 163839 in Hend.
  destruct (inode_open_miss s1 (root_inode (start + 611 + x)) M1 M8) as (p & n & d3 & m8 & Ho & Hp & Hd3 & Hk3 & Hm8 & Hn & Hl1 & Hl2).
  { intros (q & i & Hq & _). rewrite P4 in Hq. by apply elem_of_nil in Hq. }
  { rewrite Es1. change (can_alloc m5 [76; 512]). exists p5, m6. split; [done|]. split; [done|]. by exists p6, m7. }
  pose proof (inode_open_miss_ok s1 (root_inode (start + 611 + x)) p n d3 m8 M1 ltac:(apply root_inode_wf; lia) ltac:(done)
    ltac:(intros (q & i & Hq & _); rewrite P4 in Hq; by apply elem_of_nil in Hq) Hp Hd3 Hm8 Hl1 Hl2) as Hs2.
  destruct (opened_root_dir s1 start cnt x p n d3 m8 Hfresh Hst ltac:(lia) ltac:(lia) HT ltac:(lia) Hs2 Hp Hn Hk3) as [Hdir HL].
  exists d', m0', s1, (with_root (mk_dir p 0) (with_mem m8 (with_dsk d3 (set_inode p (opened (root_inode (start + 611 + x))) (with_open (p :: open_inodes (cur_part s1)) s1))))), x, p.
  split; [exact Hfmt|]. split; [intros k Hk; apply Hout; lia|]. split; [exact Hmt|]. split; [exact Hfresh|]. split.
  { unfold open_root_dir. rewrite P3, format_sb_eq by lia. cbn [root_inode_no]. change (inode_open s1 0) with (inode_open s1 (i_no (root_inode (start + 611 + x)))). rewrite Ho, bind_done. done. }
  split; [by destruct Hs2|]. split; [done|]. split; [apply lookup_insert_eq|]. split; [exact Hdir|exact HL].
Qed.
End Mount.

(** ** Witness

    With an allocator that hands out ever higher addresses and never runs out. *)
Record bump := mk_bump { next_addr : Z; in_use : gmap Z Z }.
Definition bump_ok (b : bump) : Prop := 0 < next_addr b /\ forall q n, in_use b !! q = Some n -> q < next_addr b.
Definition bump_malloc (b : bump) (size : Z) : outcome (Z * bump) :=
  Done (next_addr b, mk_bump (next_addr b + size) (<[next_addr b := size]> (in_use b))).
Definition bump_free (b : bump) (p : Z) : outcome bump :=
  match in_use b !! p with Some _ => Done (mk_bump (next_addr b) (delete p (in_use b))) | None => Fault end.

#[global, refine] Instance bump_alloc : Alloc bump := {|
  al_ok := bump_ok; al_live b q n := in_use b !! q = Some n; al_malloc := bump_malloc; al_free := bump_free
|}.
Proof.
  - intros b size [Hp Hl] Hs. eexists _, _. split; [reflexivity|]. split_and!.
    + intros _. split; cbn [next_addr in_use]; [lia|]. intros q n [[<- <-]|[_ Hq]]%lookup_insert_Some; [lia|]. specialize (Hl q n Hq). lia.
    + lia.
    + intros _. exists size. split_and!; [lia| |].
      * intros q m. cbn [in_use]. rewrite lookup_insert_Some. split; [intros [[-> ->]|[_ ?]]; tauto|]. intros [Hq|[-> ->]]; [right|by left]. split; [|done]. specialize (Hl q m Hq). lia.
      * intros q m Hq. specialize (Hl q m Hq). lia.
  - intros b p n [Hp Hl] Hq. unfold bump_free. rewrite Hq. eexists. split; [reflexivity|]. split.
    + split; [done|]. cbn [in_use]. intros q m [_ Hm]%lookup_delete_Some. by eapply Hl.
    + intros q m. cbn [in_use]. rewrite lookup_delete_Some. split; intros [? ?]; split; congruence.
Defined.

Definition sample_blank : fs (D := disk) (A := bump) :=
  mk_fs sample_disk (mk_bump 1 ∅) ∅ sample_part (replicate 32 (mk_file 0 0 0)) ([0; 1; 2] ++ replicate 5 (-1)) (mk_dir 0 0) ∅ 0.

Lemma sample_boot x : 0 < x <= 40 -> boot_requests (mem sample_blank) x = Done true.
Proof.
  intros Hx. assert (Hall : forallb (fun k => match boot_requests (mem sample_blank) (k + 1) with Done b => b | _ => false end) (seqZ 0 40) = true) by (vm_compute; reflexivity).
  pose proof (forall_seqZ _ 40 Hall (x - 1) ltac:(lia)) as Hb. cbv beta in Hb. replace (x - 1 + 1) with x in Hb by lia.
  by destruct (boot_requests (mem sample_blank) x) as [[]| | |].
Qed.

Lemma format_mount_root_witness :
  exists d' m' s1 x, partition_format 4 (dsk sample_blank) (mem sample_blank) 2048 4708 0 (replicate 460 0) = Done (d', m') /\
    mount_partition (with_mem m' (with_dsk d' sample_blank)) 2048 4708 0 0 = Done s1 /\ fresh_mount s1 2048 4708 x.
Proof.
  destruct (format_mount_root 4 sample_blank 2048 4708 0 (replicate 460 0) 0 0) as (d' & m' & s1 & s2 & x & p & H1 & _ & H3 & H4 & _).
  - exact (fo_disk _ sample_fs_ok).
  - split; [reflexivity|]. intros q n Hq. discriminate Hq.
  - lia.
  - change max_lba with 163839. lia.
  - lia.
  - discriminate.
  - lia.
  - reflexivity.
  - exact sample_boot.
  - exists d', m', s1, x. split; [exact H1|]. split; [exact H3|exact H4].
Defined.
