(* ===== verification/Path.v ===== *)
(** * Paths and their lookup (fs/fs.c)

    A path is the sequence of its characters before the terminating 0. A name buffer is
    an array of 16 bytes; reading it as a string when it has no 0 is a [Fault]. *)
From stdpp Require Import base numbers list option tactics gmap fin_maps.
From Stdlib Require Import ZArith Lia.
From S2P Require Import Prelude Bitmap Ide Iface Inode File FileIo Dir.

Definition slash : Z := 47.
Definition MAX_PATH_LEN : Z := 512.

(** The loop that skips slashes. *)
Fixpoint skip_slashes (pathname : list Z) : list Z :=
  match pathname with
  | c :: rest => if c =? slash then skip_slashes rest else pathname
  | [] => []
  end.

(** The loop that copies characters up to a slash or the end. *)
Fixpoint store_name (pathname name_store : list Z) (i : Z) : outcome (list Z * list Z) :=
  match pathname with
  | c :: rest => if c =? slash then Done (pathname, name_store) else name_store ← aset name_store i c; store_name rest name_store (i + 1)
  | [] => Done ([], name_store)
  end.

(** The rest of the path ([None] is NULL) and the name buffer. *)
Definition path_parse (pathname name_store : list Z) : outcome (option (list Z) * list Z) :=
  let pathname := match pathname with c :: rest => if c =? slash then skip_slashes rest else pathname | [] => [] end in
  r ← store_name pathname name_store 0;
  Done (match r.1 with [] => None | _ => Some r.1 end, r.2).

Definition zero_name : list Z := replicate 16 0.

(** One turn of the loop of [path_depth_cnt]. *)
Definition depth_turn (st : option (list Z) * list Z * Z) : outcome ((option (list Z) * list Z * Z) + Z) :=
  let '(p, name, depth) := st in
  c ← aget name 0;
  if c =? 0 then Done (inr depth) else
  let depth := u32 (depth + 1) in
  match p with
  | Some p => r ← path_parse p zero_name; Done (inl (r.1, r.2, depth))
  | None => Done (inl (None, zero_name, depth))
  end.

(** [name] is what the stack holds in the uninitialised array. *)
Definition path_depth_cnt (pathname name : list Z) : outcome Z :=
  r ← path_parse pathname name;
  d ← loop (S (S (length pathname))) depth_turn (r.1, r.2, 0);
  Done (i32 d).

(** A name buffer as a string. *)
Definition buf_string (name : list Z) : outcome (list Z) :=
  if decide (0 ∈ name) then Done (cname name) else Fault.

Record path_search_record := mk_rec { searched_path : list Z; parent_dir : dir_ptr; file_type : Z }.

(** strcat into an array of 512 bytes. *)
Definition cat_path (path s : list Z) : outcome (list Z) :=
  if decide (Z.of_nat (length path + length s) < MAX_PATH_LEN) then Done (path ++ s) else Fault.

(** [strrchr(path, '/') + 1]: what follows the last slash. *)
Fixpoint after_slash (path : list Z) : option (list Z) :=
  match path with
  | [] => None
  | c :: rest => match after_slash rest with Some b => Some b | None => if c =? slash then Some rest else None end
  end.
Definition basename (path : list Z) : outcome (list Z) := match after_slash path with Some b => Done b | None => Fault end.
(** What precedes the last slash. *)
Definition before_slash (path : list Z) : list Z :=
  match after_slash path with Some b => take (length path - length b - 1) path | None => path end.

Definition is_root (pathname : list Z) : bool :=
  bool_decide (pathname = [slash]) || bool_decide (pathname = slash :: dot) || bool_decide (pathname = slash :: dotdot).

Section Path.
Context {D A : Type} `{BlockDev D} `{Alloc A}.
Abbreviation fsys := (fs (D := D) (A := A)) (only parsing).

(** The state of the loop of [search_file]; [found_no] is [dir_e.i_no]. *)
Record search := mk_search {
  sr_fs : fsys; sr_rec : path_search_record; sub_path : option (list Z); sr_name : list Z;
  sr_parent : dir_ptr; parent_inode_no : Z; found_no : Z
}.

(** One turn of the loop of [search_file]: [inl] goes on, [inr (inl _)] leaves the loop,
    [inr (inr _)] returns. *)
Definition search_turn (st : search) : outcome (search + (search + (Z * path_search_record * fsys))) :=
  let s := sr_fs st in
  let r := sr_rec st in
  c ← aget (sr_name st) 0;
  if c =? 0 then Done (inr (inl st)) else
  ASSERT (Z.of_nat (length (searched_path r)) <? 512);;
  path ← cat_path (searched_path r) [slash];
  name ← buf_string (sr_name st);
  path ← cat_path path name;
  let r := mk_rec path (parent_dir r) (file_type r) in
  pd ← dir_at s (sr_parent st);
  x ← search_dir_entry s (d_inode pd) name;
  let s := x.2 in
  match x.1 with
  | None => Done (inr (inr (-1, r, s)))
  | Some e =>
      y ← match sub_path st with Some p => path_parse p zero_name | None => Done (None, zero_name) end;
      if f_type e =? FT_DIRECTORY then
        pi ← inode_at s (d_inode pd);
        s ← dir_close s (sr_parent st);
        o ← dir_open s (de_i_no e);
        Done (inl (mk_search o.2 (mk_rec (searched_path r) o.1 (file_type r)) y.1 y.2 o.1 (i_no pi) (de_i_no e)))
      else if f_type e =? FT_REGULAR then
        Done (inr (inr (i32 (de_i_no e), mk_rec (searched_path r) (parent_dir r) FT_REGULAR, s)))
      else Done (inl (mk_search s r y.1 y.2 (sr_parent st) (parent_inode_no st) (de_i_no e)))
  end.

(** [junk] is what the stack holds in [dir_e.i_no]. *)
Definition search_file (s : fsys) (pathname : list Z) (junk : Z) : outcome (Z * path_search_record * fsys) :=
  if is_root pathname then Done (0, mk_rec [] RootDir FT_DIRECTORY, s) else
  let path_len := Z.of_nat (length pathname) in
  ASSERT (bool_decide (head pathname = Some slash) && (1 <? path_len) && (path_len <? MAX_PATH_LEN));;
  y ← path_parse pathname zero_name;
  x ← loop (S (S (length pathname))) search_turn (mk_search s (mk_rec [] RootDir FT_UNKNOWN) y.1 y.2 RootDir 0 junk);
  match x with
  | inr r => Done r
  | inl st =>
      s ← dir_close (sr_fs st) (parent_dir (sr_rec st));
      o ← dir_open s (parent_inode_no st);
      Done (i32 (found_no st), mk_rec (searched_path (sr_rec st)) o.1 FT_DIRECTORY, o.2)
  end.
End Path.
Arguments search D A : clear implicits.
Arguments mk_search {D A}.

(** ** The names of a path *)

(** A sequence of characters cut at a separator. *)
Section Split.
Variable sep : Z.

Fixpoint word_of (p : list Z) : list Z := match p with c :: r => if decide (c = sep) then [] else c :: word_of r | [] => [] end.
Fixpoint after_word (p : list Z) : list Z := match p with c :: r => if decide (c = sep) then p else after_word r | [] => [] end.

(** What lies between separators, empty pieces left out. *)
Fixpoint splits (p : list Z) : list (list Z) :=
  match p with
  | [] => []
  | c :: r =>
      if decide (c = sep) then splits r else
      match r with
      | [] => [[c]]
      | c' :: _ => if decide (c' = sep) then [c] :: splits r else match splits r with n :: ns => (c :: n) :: ns | [] => [[c]] end
      end
  end.

Lemma splits_word c r : c <> sep -> splits (c :: r) = word_of (c :: r) :: splits (after_word (c :: r)).
Proof.
  revert c. induction r as [|c' r IH]; intros c Hc.
  - cbn [splits word_of after_word]. by rewrite !decide_False.
  - cbn [splits word_of after_word]. rewrite !(decide_False (P := c = sep)) by done. destruct (decide (c' = sep)) as [E|Hc']; [cbn [splits]; by rewrite decide_True|].
    specialize (IH c' Hc'). cbn [splits word_of after_word] in IH. rewrite !(decide_False (P := c' = sep)) in IH by done. by rewrite IH.
Qed.

Lemma after_word_head p : match after_word p with c :: _ => c = sep | [] => True end /\ (length (word_of p) + length (after_word p) = length p)%nat.
Proof. induction p as [|c p [IH1 IH2]]; cbn [word_of after_word]; [done|]. case_decide; simpl; [done|]. split; [done|lia]. Qed.

Lemma word_of_chars p : Forall (fun c => c <> 0) p -> Forall (fun c => c <> 0) (word_of p) /\ Forall (fun c => c <> 0) (after_word p).
Proof.
  induction p as [|c p IH]; intros Hf; cbn [word_of after_word]; [done|]. apply Forall_cons in Hf as [Hc Hf]. destruct (IH Hf) as [I1 I2].
  case_decide; [split; [done|]; by apply Forall_cons|]. split; [by apply Forall_cons|done].
Qed.

Lemma splits_length p : (length (splits p) <= length p)%nat.
Proof.
  induction p as [|c p IH]; [done|]. cbn [splits]. case_decide; [simpl; lia|]. destruct p as [|c' p]; [done|]. case_decide; [simpl in *; lia|].
  destruct (splits (c' :: p)); simpl in *; lia.
Qed.
End Split.

(** The components of a path. *)
Abbreviation comps := (splits slash) (only parsing).
Abbreviation name_of := (word_of slash) (only parsing).
Abbreviation rest_of := (after_word slash) (only parsing).

Lemma comps_skip p : comps (skip_slashes p) = comps p.
Proof.
  induction p as [|c p IH]; [done|]. cbn [skip_slashes]. destruct (Z.eqb_spec c slash) as [->|]; [|done]. rewrite IH. cbn [splits]. by rewrite decide_True.
Qed.

Lemma skip_head p : match skip_slashes p with c :: _ => c <> slash | [] => True end /\ (length (skip_slashes p) <= length p)%nat.
Proof. induction p as [|c p IH]; cbn [skip_slashes]; [done|]. destruct (Z.eqb_spec c slash); simpl; [split; [tauto|lia]|split; [done|lia]]. Qed.

Lemma store_name_ok p buf i :
  0 <= i -> i + Z.of_nat (length (name_of p)) <= Z.of_nat (length buf) ->
  exists buf', store_name p buf i = Done (rest_of p, buf') /\ buf' = take (Z.to_nat i) buf ++ name_of p ++ drop (Z.to_nat i + length (name_of p)) buf.
Proof.
  revert buf i. induction p as [|c p IH]; intros buf i Hi Hl; cbn [store_name word_of after_word] in *.
  - exists buf. split; [done|]. simpl. rewrite Nat.add_0_r. by rewrite take_drop.
  - destruct (Z.eqb_spec c slash) as [->|Hc].
    + rewrite decide_True by done. exists buf. split; [done|]. simpl. rewrite Nat.add_0_r. by rewrite take_drop.
    + rewrite decide_False in * by done. cbn [length] in Hl. rewrite aset_in by lia. rewrite bind_done.
      destruct (IH (<[Z.to_nat i := c]> buf) (i + 1)) as (b & -> & ->); [lia|rewrite length_insert; lia|]. eexists. split; [reflexivity|].
      replace (Z.to_nat (i + 1)) with (S (Z.to_nat i)) by lia. rewrite (take_S_r _ _ c) by (apply list_lookup_insert_eq; lia).
      rewrite take_insert_ge by lia. rewrite drop_insert_lt by lia. rewrite !decide_False by done.
      rewrite <- !app_assoc. cbn [app length]. by replace (Z.to_nat i + S (length (name_of p)))%nat with (S (Z.to_nat i) + length (name_of p))%nat by lia.
Qed.

(** [path_parse] takes the first component off. *)
Lemma path_parse_ok p buf :
  length buf = 16%nat -> Forall (fun c => c <> 0) p ->
  match comps p with
  | [] => path_parse p buf = Done (None, buf)
  | n :: ns => (length n <= 16)%nat ->
      exists rest, path_parse p buf = Done (rest, n ++ drop (length n) buf) /\ comps (default [] rest) = ns /\
        (length (default [] rest) < length p)%nat /\ Forall (fun c => c <> 0) n /\ Forall (fun c => c <> 0) (default [] rest) /\ n <> [] /\ (rest = None -> ns = [])
  end.
Proof.
  intros Hb Hf. unfold path_parse.
  set (q := match p with c :: rest => if c =? slash then skip_slashes rest else p | [] => [] end).
  assert (Hq : comps q = comps p /\ (length q <= length p)%nat /\ match q with c :: _ => c <> slash | [] => True end /\ Forall (fun c => c <> 0) q).
  { unfold q. destruct p as [|c p]; [done|]. destruct (Z.eqb_spec c slash) as [->|Hc]; [|done]. rewrite comps_skip. cbn [splits]. rewrite decide_True by done.
    destruct (skip_head p). split_and!; [done|simpl; lia|done|]. apply Forall_cons in Hf as [_ Hf]. clear -Hf. induction p as [|c p IH]; [done|].
    cbn [skip_slashes]. destruct (c =? slash); [|done]. apply IH. by apply Forall_cons in Hf as [_ ?]. }
  destruct Hq as (Ec & Hl & Hh & Hfq). rewrite <- Ec. destruct q as [|c q]; [done|]. rewrite splits_word by done. intros Hn.
  destruct (store_name_ok (c :: q) buf 0) as (b & -> & ->); [lia|lia|]. rewrite bind_done. cbn [fst snd]. change (Z.to_nat 0) with 0%nat. rewrite take_0. cbn [app Nat.add].
  destruct (after_word_head slash (c :: q)) as [Hr1 Hr2]. destruct (word_of_chars slash (c :: q) Hfq) as [F1 F2].
  assert (Hne : name_of (c :: q) <> []) by (cbn [word_of]; by rewrite decide_False).
  assert (Hln : (0 < length (name_of (c :: q)))%nat) by (destruct (name_of (c :: q)); [done|simpl; lia]).
  exists (match rest_of (c :: q) with [] => None | _ => Some (rest_of (c :: q)) end).
  destruct (rest_of (c :: q)) as [|c2 r2] eqn:Er; cbn [default from_option id] in *; split_and!; try done; simpl in *; lia.
Qed.

Lemma cat_path_ok p q : Z.of_nat (length p + length q) < MAX_PATH_LEN -> cat_path p q = Done (p ++ q).
Proof. intros Hl. unfold cat_path. by rewrite decide_True. Qed.

(** ** Properties *)
Lemma depth_loop fuel ns n t p d :
  (length ns < fuel)%nat -> comps (default [] p) = ns -> Forall (fun c => c <> 0) (default [] p) -> (p = None -> ns = []) -> Forall (fun m => (length m <= 16)%nat) ns ->
  n <> [] -> Forall (fun c => c <> 0) n -> (length n <= 16)%nat -> 0 <= d -> d + Z.of_nat (length ns) + 1 < 2 ^ 31 ->
  loop (S fuel) depth_turn (p, n ++ t, d) = Done (d + Z.of_nat (length ns) + 1).
Proof.
  revert fuel n t p d. induction ns as [|m ns IH]; intros fuel n t p d Hfu Hc Hf Hp Hlen Hn0 Hnz Hn16 Hd Hmax;
    (destruct n as [|c n]; [done|]); apply Forall_cons in Hnz as [Hcz Hnz].
  - assert (Hturn : depth_turn (p, (c :: n) ++ t, d) = Done (inl (None, zero_name, d + 1))).
    { unfold depth_turn. cbn [app]. rewrite (aget_Some _ 0 c) by done. rewrite bind_done. destruct (Z.eqb_spec c 0); [done|]. rewrite u32_small by (simpl in Hmax; lia).
      destruct p as [p|]; [|done]. pose proof (path_parse_ok p zero_name eq_refl Hf) as Hpp. cbn [default from_option id] in Hc. rewrite Hc in Hpp. by rewrite Hpp, bind_done. }
    erewrite loop_next by exact Hturn. destruct fuel as [|fuel]; [simpl in Hfu; lia|]. rewrite (loop_done _ _ _ (d + 1)); [f_equal; simpl; lia|done].
  - destruct p as [p|]; [|by specialize (Hp eq_refl)]. cbn [default from_option id] in *. apply Forall_cons in Hlen as [Hm Hlen].
    pose proof (path_parse_ok p zero_name eq_refl Hf) as Hpp. rewrite Hc in Hpp. destruct (Hpp Hm) as (rest & E & Er & _ & F1 & F2 & Hne & Hnone).
    assert (Hturn : depth_turn (Some p, (c :: n) ++ t, d) = Done (inl (rest, m ++ drop (length m) zero_name, d + 1))).
    { unfold depth_turn. cbn [app]. rewrite (aget_Some _ 0 c) by done. rewrite bind_done. destruct (Z.eqb_spec c 0); [done|]. rewrite u32_small by (cbn [length] in Hmax; lia).
      by rewrite E, bind_done. }
    erewrite loop_next by exact Hturn. destruct fuel as [|fuel]; [simpl in Hfu; lia|]. cbn [length] in *. rewrite (IH fuel m (drop (length m) zero_name) rest (d + 1)); try done; try lia. f_equal. lia.
Qed.

(** [path_depth_cnt] is the number of components of a path, for paths with components
    of at most 16 characters, whatever the array [name] holds at first; slashes may be
    repeated or trail. *)
Theorem path_depth_components pathname name :
  length name = 16%nat -> Forall (fun c => c <> 0) pathname -> Forall (fun m => (length m <= 16)%nat) (comps pathname) ->
  Z.of_nat (length pathname) < 2 ^ 30 -> comps pathname <> [] ->
  path_depth_cnt pathname name = Done (Z.of_nat (length (comps pathname))).
Proof.
  intros Hb Hf Hlen Hmax Hne. pose proof (splits_length slash pathname) as Hcl. pose proof (path_parse_ok pathname name Hb Hf) as Hpp. unfold path_depth_cnt.
  destruct (comps pathname) as [|n ns] eqn:Ec; [done|]. apply Forall_cons in Hlen as [Hn Hlen].
  destruct (Hpp Hn) as (rest & -> & Er & Hlr & F1 & F2 & Hn0 & Hnone). rewrite bind_done. cbn [fst snd].
  rewrite (depth_loop (S (length pathname)) ns n (drop (length n) name) rest 0); try done; try (cbn [length] in *; lia).
  rewrite bind_done, i32_small; [f_equal; cbn [length]; lia|cbn [length] in *; lia].
Qed.

Lemma path_depth_components_witness : path_depth_cnt [47; 97; 47; 47; 98; 98; 47] (replicate 16 7) = Done 2.
Proof.
  apply (path_depth_components [47; 97; 47; 47; 98; 98; 47] (replicate 16 7)).
  - reflexivity.
  - repeat constructor; discriminate.
  - vm_compute. repeat constructor.
  - simpl. lia.
  - discriminate.
Defined.
