(* ===== verification/Calls.v ===== *)
(** * File system calls (fs/fs.c, and [file_create] of fs/file.c)

    The calls that take a path. [fuel] bounds loops that need not end ([delete_dir_entry],
    the walk up of [sys_getcwd]); [junk] and [name] are what the stack holds in [dir_e.i_no] of
    [search_file] and in the array of [path_depth_cnt]. The messages are not modelled. *)
From stdpp Require Import base numbers list option tactics gmap fin_maps.
From Stdlib Require Import ZArith Lia.
From S2P Require Import Prelude Bitmap Ide Iface Inode File FileIo Dir Path.

(** The string at an offset of a buffer. *)
Definition str_at (buf : list Z) (off : Z) : outcome (list Z) := buf_string (drop (Z.to_nat off) buf).

(** The entries of a new directory. *)
Definition dot_entry (name : list Z) (inode_no : Z) : dir_entry := mk_entry (name ++ replicate (16 - length name) 0) inode_no FT_DIRECTORY.

(** One turn of the loop of [sys_getcwd] that reverses the path: [strrchr] finds the last
    slash, [strcpy] appends what starts there to [buf], of [size] bytes. *)
Definition reverse_turn (size : Z) (st : list Z * list Z) : outcome ((list Z * list Z) + list Z) :=
  let '(full_path_reverse, buf) := st in
  match after_slash full_path_reverse with
  | None => Done (inr buf)
  | Some b =>
      if decide (Z.of_nat (length buf + S (length b)) < size) then Done (inl (before_slash full_path_reverse, buf ++ slash :: b)) else Fault
  end.

Record stat := mk_stat { st_ino : Z; st_size : Z; st_filetype : Z }.

Section Calls.
Context {D A : Type} `{BlockDev D} `{Alloc A}.
Abbreviation fsys := (fs (D := D) (A := A)) (only parsing).

Definition with_cwd (n : Z) (s : fsys) : fsys :=
  mk_fs (dsk s) (mem s) (inodes s) (cur_part s) (file_table s) (fd_table s) (root_dir s) (dirs s) n.

(** ** Creating a file *)

(** The rollback of [file_create] from step 1 on. *)
Definition release_inode_no (s : fsys) (inode_no : Z) : outcome fsys :=
  b ← bitmap_set (inode_bitmap (cur_part s)) inode_no 0;
  Done (with_bitmap INODE_BITMAP b s).
Definition free_buf (s : fsys) (p : Z) : outcome fsys := m ← al_free (mem s) p; Done (with_mem m s).
(** [sys_free] of an inode in memory. *)
Definition free_inode (s : fsys) (p : Z) : outcome fsys := m ← al_free (mem s) p; Done (with_mem m (with_inodes (delete p) s)).

Definition set_open_cnts (n : Z) (i : inode) : inode := mk_inode (i_no i) (i_size i) n (write_deny i) (i_sectors i).

Definition file_create (s : fsys) (parent_dir : dir_ptr) (filename : list Z) (flag : Z) : outcome (Z * fsys) :=
  r ← al_malloc (mem s) 1024;
  let s := with_mem r.2 s in
  let io_buf := r.1 in
  if io_buf =? 0 then Done (-1, s) else
  r ← inode_bitmap_alloc s;
  let '(inode_no, s) := r in
  if inode_no =? -1 then s ← free_buf s io_buf; Done (-1, s) else
  r ← al_malloc (mem s) INODE_SIZE;
  let s := with_mem r.2 s in
  let new_file_inode := r.1 in
  if new_file_inode =? 0 then s ← release_inode_no s inode_no; s ← free_buf s io_buf; Done (-1, s) else
  let s := set_inode new_file_inode (inode_init inode_no) s in
  fd_idx ← get_free_slot_in_global s;
  if fd_idx =? -1 then
    s ← free_inode s new_file_inode; s ← release_inode_no s inode_no; s ← free_buf s io_buf; Done (-1, s)
  else
  l ← aset (file_table s) fd_idx (mk_file 0 flag new_file_inode);
  let s := set_inode new_file_inode (set_deny 0 (inode_init inode_no)) (with_file_table l s) in
  new_dir_entry ← create_dir_entry filename inode_no FT_REGULAR;
  pd ← dir_at s parent_dir;
  r ← sync_dir_entry s (d_inode pd) new_dir_entry;
  let '(ok, s) := r in
  if negb ok then
    l ← aset (file_table s) fd_idx (mk_file 0 0 0);
    s ← free_inode (with_file_table l s) new_file_inode; s ← release_inode_no s inode_no; s ← free_buf s io_buf; Done (-1, s)
  else
  i ← inode_at s (d_inode pd);
  s ← inode_sync s i 1024;
  i ← inode_at s new_file_inode;
  s ← inode_sync s i 1024;
  s ← bitmap_sync s inode_no INODE_BITMAP;
  let s := with_open (new_file_inode :: open_inodes (cur_part s)) s in
  let s := set_inode new_file_inode (set_open_cnts 1 i) s in
  s ← free_buf s io_buf;
  pcb_fd_install s fd_idx.

(** ** Opening and removing files *)
Definition sys_open (s : fsys) (pathname : list Z) (flags junk : Z) (name : list Z) : outcome (Z * fsys) :=
  match last pathname with
  | None => Fault
  | Some c =>
      if c =? slash then Done (-1, s) else
      ASSERT (flags <=? 7);;
      pathname_depth ← path_depth_cnt pathname name;
      r ← search_file s pathname junk;
      let '(inode_no, rec, s) := r in
      let found := negb (inode_no =? -1) in
      if file_type rec =? FT_DIRECTORY then s ← dir_close s (parent_dir rec); Done (-1, s) else
      path_searched_depth ← path_depth_cnt (searched_path rec) name;
      if negb (u32 pathname_depth =? u32 path_searched_depth) then s ← dir_close s (parent_dir rec); Done (-1, s) else
      let creat := negb (Z.land flags O_CREAT =? 0) in
      if negb found && negb creat then s ← dir_close s (parent_dir rec); Done (-1, s) else
      if found && creat then s ← dir_close s (parent_dir rec); Done (-1, s) else
      if creat then
        b ← basename pathname;
        r ← file_create s (parent_dir rec) b flags;
        s ← dir_close r.2 (parent_dir rec);
        Done (r.1, s)
      else file_open s (u32 inode_no) flags
  end.

(** The loop of [sys_unlink] over the file table: the index of an open file of this inode,
    32 for none. The queue of a pipe, which the code reads as an inode, is a [Fault]. *)
Fixpoint find_in_use (s : fsys) (inode_no idx : Z) (n : nat) : outcome Z :=
  match n with
  | O => Done idx
  | S n =>
      f ← aget (file_table s) idx;
      if fd_inode f =? 0 then find_in_use s inode_no (idx + 1) n else
      i ← inode_at s (fd_inode f);
      if u32 inode_no =? i_no i then Done idx else find_in_use s inode_no (idx + 1) n
  end.

Definition sys_unlink (fuel : nat) (s : fsys) (pathname : list Z) (junk : Z) : outcome (Z * fsys) :=
  ASSERT (Z.of_nat (length pathname) <? MAX_PATH_LEN);;
  r ← search_file s pathname junk;
  let '(inode_no, rec, s) := r in
  ASSERT (negb (inode_no =? 0));;
  if inode_no =? -1 then s ← dir_close s (parent_dir rec); Done (-1, s) else
  if file_type rec =? FT_DIRECTORY then s ← dir_close s (parent_dir rec); Done (-1, s) else
  file_idx ← find_in_use s inode_no 0 (Z.to_nat MAX_FILE_OPEN);
  if file_idx <? MAX_FILE_OPEN then s ← dir_close s (parent_dir rec); Done (-1, s) else
  ASSERT (file_idx =? MAX_FILE_OPEN);;
  r ← al_malloc (mem s) 1024;
  let s := with_mem r.2 s in
  if r.1 =? 0 then s ← dir_close s (parent_dir rec); Done (-1, s) else
  pd ← dir_at s (parent_dir rec);
  x ← delete_dir_entry fuel s (d_inode pd) (u32 inode_no);
  s ← inode_release x.2 (u32 inode_no);
  s ← free_buf s r.1;
  s ← dir_close s (parent_dir rec);
  Done (0, s).

(** ** Directories *)
Definition mkdir_rollback (s : fsys) (rollback_step inode_no : Z) (parent : dir_ptr) (io_buf : Z) : outcome (Z * fsys) :=
  s ← (if rollback_step =? 2 then release_inode_no s inode_no else Done s);
  s ← dir_close s parent;
  s ← free_buf s io_buf;
  Done (-1, s).

Definition sys_mkdir (s : fsys) (pathname : list Z) (junk : Z) (name : list Z) : outcome (Z * fsys) :=
  r ← al_malloc (mem s) 1024;
  let s := with_mem r.2 s in
  let io_buf := r.1 in
  if io_buf =? 0 then Done (-1, s) else
  r ← search_file s pathname junk;
  let '(inode_no, rec, s) := r in
  if negb (inode_no =? -1) then mkdir_rollback s 1 inode_no (parent_dir rec) io_buf else
  pathname_depth ← path_depth_cnt pathname name;
  path_searched_depth ← path_depth_cnt (searched_path rec) name;
  if negb (u32 pathname_depth =? u32 path_searched_depth) then mkdir_rollback s 1 inode_no (parent_dir rec) io_buf else
  dirname ← basename (searched_path rec);
  r ← inode_bitmap_alloc s;
  let '(inode_no, s) := r in
  if inode_no =? -1 then mkdir_rollback s 1 inode_no (parent_dir rec) io_buf else
  r ← block_bitmap_alloc s;
  let '(block_lba, s) := r in
  if block_lba =? -1 then mkdir_rollback s 2 inode_no (parent_dir rec) io_buf else
  l ← aset (i_sectors (inode_init inode_no)) 0 (u32 block_lba);
  let block_bitmap_idx := u32 (block_lba - data_start_lba (sb (cur_part s))) in
  ASSERT (negb (block_bitmap_idx =? 0));;
  s ← bitmap_sync s block_bitmap_idx BLOCK_BITMAP;
  pd ← dir_at s (parent_dir rec);
  pi ← inode_at s (d_inode pd);
  b ← memcpy_to (replicate 1024 0) 0 (entry_bytes (dot_entry dot inode_no) ++ entry_bytes (dot_entry dotdot (i_no pi)));
  d ← bd_write (dsk s) (u32 block_lba) b 1;
  let s := with_dsk d s in
  let new_dir_inode := set_size (u32 (2 * dir_entry_size (sb (cur_part s)))) (set_sectors l (inode_init inode_no)) in
  new_dir_entry ← create_dir_entry dirname inode_no FT_DIRECTORY;
  r ← sync_dir_entry s (d_inode pd) new_dir_entry;
  let '(ok, s) := r in
  if negb ok then mkdir_rollback s 2 inode_no (parent_dir rec) io_buf else
  pi ← inode_at s (d_inode pd);
  s ← inode_sync s pi 1024;
  s ← inode_sync s new_dir_inode 1024;
  s ← bitmap_sync s inode_no INODE_BITMAP;
  s ← free_buf s io_buf;
  s ← dir_close s (parent_dir rec);
  Done (0, s).

(** name[0] == '/' && (name[1] == 0 || name[0] == '.') *)
Definition opens_root (name : list Z) : bool :=
  match name with
  | c :: rest => (c =? slash) && (bool_decide (rest = []) || (c =? 46))
  | [] => false
  end.

(** NULL is [None]. *)
Definition sys_opendir (s : fsys) (name : list Z) (junk : Z) : outcome (option dir_ptr * fsys) :=
  ASSERT (Z.of_nat (length name) <? MAX_PATH_LEN);;
  if opens_root name then Done (Some RootDir, s) else
  r ← search_file s name junk;
  let '(inode_no, rec, s) := r in
  r ← (if inode_no =? -1 then Done (None, s)
       else if file_type rec =? FT_REGULAR then Done (None, s)
       else if file_type rec =? FT_DIRECTORY then o ← dir_open s (u32 inode_no); Done (Some o.1, o.2)
       else Done (None, s));
  s ← dir_close r.2 (parent_dir rec);
  Done (r.1, s).

Definition sys_closedir (s : fsys) (ptr : option dir_ptr) : outcome (Z * fsys) :=
  match ptr with
  | None => Done (-1, s)
  | Some ptr => s ← dir_close s ptr; Done (0, s)
  end.

Definition sys_readdir (s : fsys) (ptr : option dir_ptr) : outcome (option dir_entry * fsys) :=
  match ptr with None => Panic | Some ptr => dir_read s ptr end.

Definition sys_rewinddir (s : fsys) (ptr : dir_ptr) : outcome fsys :=
  dr ← dir_at s ptr;
  Done (set_dir ptr (mk_dir (d_inode dr) 0) s).

Definition sys_rmdir (fuel : nat) (s : fsys) (pathname : list Z) (junk : Z) : outcome (Z * fsys) :=
  r ← search_file s pathname junk;
  let '(inode_no, rec, s) := r in
  ASSERT (negb (inode_no =? 0));;
  r ← (if inode_no =? -1 then Done (-1, s)
       else if file_type rec =? FT_REGULAR then Done (-1, s)
       else
         o ← dir_open s (u32 inode_no);
         let '(ptr, s) := o in
         empty ← dir_is_empty s ptr;
         r ← (if negb empty then Done (-1, s) else
                x ← dir_remove fuel s (parent_dir rec) ptr;
                Done (if x.1 =? 0 then 0 else -1, x.2));
         s ← dir_close r.2 ptr;
         Done (r.1, s));
  s ← dir_close r.2 (parent_dir rec);
  Done (r.1, s).

(** ** The working directory *)
Definition get_parent_dir_inode_nr (s : fsys) (child_inode_nr : Z) : outcome (Z * fsys) :=
  r ← inode_open s child_inode_nr;
  let '(p, s) := r in
  i ← inode_at s p;
  block_lba ← aget (i_sectors i) 0;
  ASSERT (data_start_lba (sb (cur_part s)) <=? block_lba);;
  s ← inode_close s p;
  r ← bd_read (dsk s) block_lba 1;
  let e := bytes_entry (drop (Z.to_nat DIR_ENTRY_SIZE) r.2) in
  ASSERT ((de_i_no e <? 4096) && (f_type e =? FT_DIRECTORY));;
  Done (de_i_no e, with_dsk r.1 s).

(** The loop over the entries of a block. *)
Fixpoint find_child (buf : list Z) (c_inode_nr k : Z) (n : nat) : outcome (option Z) :=
  match n with
  | O => Done None
  | S n =>
      if decide (DIR_ENTRY_SIZE * (k + 1) <= Z.of_nat (length buf)) then
        if de_i_no (bytes_entry (drop (Z.to_nat (DIR_ENTRY_SIZE * k)) buf)) =? c_inode_nr then Done (Some k) else find_child buf c_inode_nr (k + 1) n
      else Fault
  end.

(** The loop over the blocks; the path with the name appended. *)
Fixpoint child_blocks (d : D) (cnt c_inode_nr : Z) (path all_blocks : list Z) : outcome (D * option (list Z)) :=
  match all_blocks with
  | [] => Done (d, None)
  | lba :: rest =>
      if lba =? 0 then child_blocks d cnt c_inode_nr path rest else
      r ← bd_read d lba 1;
      k ← find_child r.2 c_inode_nr 0 (Z.to_nat cnt);
      match k with
      | Some k =>
          path ← cat_path path [slash];
          name ← str_at r.2 (DIR_ENTRY_SIZE * k);
          path ← cat_path path name;
          Done (r.1, Some path)
      | None => child_blocks r.1 cnt c_inode_nr path rest
      end
  end.

(** -1 is [None]. *)
Definition get_child_dir_name (s : fsys) (p_inode_nr c_inode_nr : Z) (path : list Z) : outcome (option (list Z) * fsys) :=
  r ← inode_open s p_inode_nr;
  let '(p, s) := r in
  i ← inode_at s p;
  r ← dir_blocks (dsk s) i;
  t ← aget (i_sectors i) 12;
  let block_cnt := if negb (t =? 0) then 140%nat else 12%nat in
  s ← inode_close (with_dsk r.1 s) p;
  x ← child_blocks (dsk s) (per_sec s) c_inode_nr path (take block_cnt r.2);
  Done (x.2, with_dsk x.1 s).

(** One turn of the loop of [sys_getcwd] up to the root. *)
Definition up_turn (st : fsys * Z * list Z) : outcome ((fsys * Z * list Z) + (option (list Z) * fsys)) :=
  let '(s, child_inode_nr, full_path_reverse) := st in
  if child_inode_nr =? 0 then Done (inr (Some full_path_reverse, s)) else
  r ← get_parent_dir_inode_nr s child_inode_nr;
  let '(parent_inode_nr, s) := r in
  r ← get_child_dir_name s parent_inode_nr child_inode_nr full_path_reverse;
  match r with
  | (Some path, s) => Done (inl (s, parent_inode_nr, path))
  | (None, s) => Done (inr (None, s))
  end.

(** The string in [buf], an array of [size] bytes; NULL is [None]. *)
Definition sys_getcwd (fuel : nat) (s : fsys) (size : Z) : outcome (option (list Z) * fsys) :=
  r ← al_malloc (mem s) 512;
  let s := with_mem r.2 s in
  if r.1 =? 0 then Done (None, s) else
  let child_inode_nr := cwd_inode_nr s in
  ASSERT ((0 <=? child_inode_nr) && (child_inode_nr <? 4096));;
  if child_inode_nr =? 0 then
    if size <? 2 then Fault else s ← free_buf s r.1; Done (Some [slash], s)
  else
  x ← loop fuel up_turn (s, child_inode_nr, []);
  match x with
  | (None, s) => s ← free_buf s r.1; Done (None, s)
  | (Some full_path_reverse, s) =>
      ASSERT (Z.of_nat (length full_path_reverse) <=? size);;
      buf ← loop (S (length full_path_reverse)) (reverse_turn size) (full_path_reverse, []);
      s ← free_buf s r.1;
      Done (Some buf, s)
  end.

Definition sys_chdir (s : fsys) (path : list Z) (junk : Z) : outcome (Z * fsys) :=
  r ← search_file s path junk;
  let '(inode_no, rec, s) := r in
  let '(ret, s) := if negb (inode_no =? -1) && (file_type rec =? FT_DIRECTORY) then (0, with_cwd (u32 inode_no) s) else (-1, s) in
  s ← dir_close s (parent_dir rec);
  Done (ret, s).

(** -1 is [None]. *)
Definition sys_stat (s : fsys) (path : list Z) (junk : Z) : outcome (option stat * fsys) :=
  if is_root path then i ← inode_at s (d_inode (root_dir s)); Done (Some (mk_stat 0 (i_size i) FT_DIRECTORY), s) else
  r ← search_file s path junk;
  let '(inode_no, rec, s) := r in
  r ← (if negb (inode_no =? -1) then
         o ← inode_open s (u32 inode_no);
         let '(p, s) := o in
         i ← inode_at s p;
         s ← inode_close s p;
         Done (Some (mk_stat (u32 inode_no) (i_size i) (file_type rec)), s)
       else Done (None, s));
  s ← dir_close r.2 (parent_dir rec);
  Done (r.1, s).
End Calls.
