(* ===== verification/Io.v ===== *)
(** * Reading and writing descriptors (fs/fs.c, shell/pipe.c)

    The calls on descriptors that may lead to a file, a pipe, the keyboard or the
    screen: the file system, the scheduler that pipes block in, the queues of the pipes
    by the address of their page, the queue of the keyboard, and what was written to the
    screen. The console's lock is not modelled: its users write whole strings. *)
From stdpp Require Import base numbers list option tactics gmap fin_maps.
From Stdlib Require Import ZArith Lia.
From S2P Require Import Prelude Bitmap Cpu Sched Sync Ioqueue Ide Heap Iface Inode File FileIo Dir.

Definition stdin_no : Z := 0.
Definition stdout_no : Z := 1.
Definition stderr_no : Z := 2.

Section Io.
Context {D P : Type} `{BlockDev D} `{PageStore P}.
Abbreviation fsys := (fs (D := D) (A := heap (P := P))) (only parsing).

Record io := mk_io { io_fs : fsys; io_sched : sched; pipes : gmap Z ioqueue; kbd_buf : ioqueue; screen : list Z }.

Definition with_io_fs (s : fsys) (x : io) : io := mk_io s (io_sched x) (pipes x) (kbd_buf x) (screen x).
Definition with_queue (p : Z) (q : ioqueue) (c : sched) (x : io) : io := mk_io (io_fs x) c (<[p := q]> (pipes x)) (kbd_buf x) (screen x).
Definition set_file (g : Z) (f : file) (x : io) : outcome io :=
  l ← aset (file_table (io_fs x)) g f;
  Done (with_io_fs (with_file_table l (io_fs x)) x).

Definition pipe_at (x : io) (p : Z) : outcome ioqueue := match pipes x !! p with Some q => Done q | None => Fault end.

(** A queue of zeroes, as in a page of [get_kernel_pages]. *)
Definition zero_queue : ioqueue := mk_ioqueue lock_init 0 0 (replicate 2048 0) 0 0.

(** The two descriptors are the second component. [ioqueue_init] writes through the
    pointer before it is compared with NULL. *)
Definition sys_pipe (x : io) : outcome (Z * (Z * Z) * io) :=
  let s := io_fs x in
  global_fd ← get_free_slot_in_global s;
  r ← ps_malloc_page (pages (mem s)) 1;
  let s := with_mem (with_pages r.2 (mem s)) s in
  l ← aset (file_table s) global_fd (mk_file 2 PIPE_FLAG r.1);
  if r.1 =? 0 then Fault else
  a ← pcb_fd_install (with_file_table l s) global_fd;
  b ← pcb_fd_install a.2 global_fd;
  Done (0, (a.1, b.1), mk_io b.2 (io_sched x) (<[r.1 := ioqueue_init zero_queue]> (pipes x)) (kbd_buf x) (screen x)).

Definition sys_close (x : io) (fd : Z) : outcome (Z * io) :=
  if 2 <? fd then
    let s := io_fs x in
    global_fd ← fd_local2global s fd;
    b ← is_pipe s fd;
    r ← (if b : bool then
           f ← aget (file_table s) global_fd;
           let fd_pos := u32 (fd_pos f - 1) in
           if fd_pos =? 0 then
             p ← ps_mfree_page (pages (mem s)) (fd_inode f) 1;
             x ← set_file global_fd (mk_file fd_pos (fd_flag f) 0) (with_io_fs (with_mem (with_pages p (mem s)) s) x);
             Done (0, mk_io (io_fs x) (io_sched x) (delete (fd_inode f) (pipes x)) (kbd_buf x) (screen x))
           else x ← set_file global_fd (mk_file fd_pos (fd_flag f) (fd_inode f)) x; Done (0, x)
         else r ← file_close s global_fd; Done (r.1, with_io_fs r.2 x));
    let '(ret, x) := r in
    l ← aset (fd_table (io_fs x)) fd (-1);
    Done (ret, with_io_fs (with_fd_table l (io_fs x)) x)
  else Done (-1, x).

(** [pipe_write] and [pipe_read] on a descriptor. *)
Definition write_pipe (x : io) (fd : Z) (bytes : list Z) : outcome (call Z * io) :=
  global_fd ← fd_local2global (io_fs x) fd;
  f ← aget (file_table (io_fs x)) global_fd;
  q ← pipe_at x (fd_inode f);
  r ← pipe_write (io_sched x) q bytes;
  let '(c, t, q) := r in
  Done (c, with_queue (fd_inode f) q t x).

Definition read_pipe (x : io) (fd count : Z) : outcome (call Z * list Z * io) :=
  global_fd ← fd_local2global (io_fs x) fd;
  f ← aget (file_table (io_fs x)) global_fd;
  q ← pipe_at x (fd_inode f);
  r ← pipe_read (io_sched x) q count;
  let '(bs, c, t, q) := r in
  Done (c, bs, with_queue (fd_inode f) q t x).

(** [tmp_buf] has 1024 bytes; the text ends at its first 0. *)
Definition put_text (x : io) (bytes : list Z) : outcome io :=
  if decide (Z.of_nat (length bytes) <= 1024) then
    let tmp_buf := bytes ++ replicate (1024 - length bytes) 0 in
    if decide (0 ∈ tmp_buf) then Done (mk_io (io_fs x) (io_sched x) (pipes x) (kbd_buf x) (screen x ++ cname tmp_buf)) else Fault
  else Fault.

Definition sys_write (x : io) (fd : Z) (bytes : list Z) : outcome (call Z * io) :=
  let count := Z.of_nat (length bytes) in
  if fd <? 0 then Done (Ret (-1), x) else
  if fd =? stdout_no then
    b ← is_pipe (io_fs x) fd;
    if b : bool then write_pipe x fd bytes else x ← put_text x bytes; Done (Ret (i32 count), x)
  else
    b ← is_pipe (io_fs x) fd;
    if b : bool then write_pipe x fd bytes else
    _fd ← fd_local2global (io_fs x) fd;
    wr_file ← aget (file_table (io_fs x)) _fd;
    if wants_write (fd_flag wr_file) then
      r ← file_write (io_fs x) _fd bytes count;
      Done (Ret r.1, with_io_fs r.2 x)
    else Done (Ret (-1), x).

(** What was read is the second component. *)
Definition sys_read (x : io) (fd count : Z) : outcome (call Z * list Z * io) :=
  if (fd <? 0) || (fd =? stdout_no) || (fd =? stderr_no) then Done (Ret (-1), [], x) else
  if fd =? stdin_no then
    b ← is_pipe (io_fs x) fd;
    if b : bool then read_pipe x fd count else
    r ← getchars (Z.to_nat count) (io_sched x) (kbd_buf x);
    let '(bs, c, t, q) := r in
    Done (match c with Ret _ => Ret (if count =? 0 then -1 else i32 count) | WaitLock => WaitLock | WaitSide => WaitSide end, bs,
          mk_io (io_fs x) t (pipes x) q (screen x))
  else
    b ← is_pipe (io_fs x) fd;
    if b : bool then read_pipe x fd count else
    global_fd ← fd_local2global (io_fs x) fd;
    r ← file_read (io_fs x) global_fd count;
    let '(n, bs, s) := r in
    Done (Ret n, bs, with_io_fs s x).
End Io.

(** ** Pipes *)
Section Pipes.
Context {D P : Type} `{BlockDev D} `{PageStore P}.
Implicit Types x : io (D := D) (P := P).

(** Descriptor [fd] leads to the pipe whose queue [q] is in page [p]. *)
Definition pipe_fd x (fd p : Z) (q : ioqueue) : Prop := exists g f,
  0 <= fd /\ fd_table (io_fs x) !! Z.to_nat fd = Some g /\ 0 <= g < 32 /\ file_table (io_fs x) !! Z.to_nat g = Some f /\
  fd_flag f = PIPE_FLAG /\ fd_inode f = p /\ pipes x !! p = Some q.

Lemma pipe_fd_global x fd p q : pipe_fd x fd p q -> exists g f,
  fd_local2global (io_fs x) fd = Done g /\ aget (file_table (io_fs x)) g = Done f /\ fd_inode f = p /\ is_pipe (io_fs x) fd = Done true /\ pipe_at x p = Done q.
Proof.
  intros (g & f & H1 & H2 & H3 & H4 & H5 & H6 & H7). exists g, f.
  assert (Hl : fd_local2global (io_fs x) fd = Done g).
  { unfold fd_local2global. rewrite (aget_Some _ _ _ H1 H2), bind_done. unfold MAX_FILE_OPEN. assert_ok; [done|lia]. }
  assert (Hf : aget (file_table (io_fs x)) g = Done f) by (apply aget_Some; [lia|done]).
  split_and!; try done.
  - unfold is_pipe. by rewrite Hl, bind_done, Hf, bind_done, H5.
  - unfold pipe_at. by rewrite H7.
Qed.

Lemma pipe_fd_queue x fd p q q' t : pipe_fd x fd p q -> pipe_fd (with_queue p q' t x) fd p q'.
Proof. intros (g & f & H1 & H2 & H3 & H4 & H5 & H6 & _). exists g, f. split_and!; try done; try lia. simpl. by rewrite lookup_insert_eq. Qed.

Lemma some_free_fd (s : fs (D := D) (A := heap (P := P))) l : 3 <= l < 8 -> fd_table s !! Z.to_nat l = Some (-1) -> exists l', l' <= l /\ free_fd s l'.
Proof.
  remember (Z.to_nat l) as n eqn:En. revert l En. induction n as [n IH] using lt_wf_ind. intros l -> Hl Hf.
  destruct (decide (Exists (fun j => fd_table s !! Z.to_nat j = Some (-1)) (seqZ 3 (l - 3)))) as [(j & Hj%elem_of_seqZ & Ej)%Exists_exists|Hno].
  - destruct (IH (Z.to_nat j) ltac:(lia) j eq_refl ltac:(lia) Ej) as (l' & H1 & H2). exists l'. split; [lia|done].
  - exists l. split; [lia|]. split; [lia|]. split; [done|]. intros j Hj E. apply Hno, Exists_exists. exists j. split; [apply elem_of_seqZ; lia|done].
Qed.

(** Writing and reading on the descriptors of a pipe. *)
Lemma write_pipe_ok x w p q bytes :
  2 < w -> pipe_fd x w p q -> sched_inv (io_sched x) -> off (io_sched x) -> ioq_wf q -> sleeper_ok (io_sched x) (consumer q) ->
  Z.of_nat (length (Ioqueue.contents q)) + Z.of_nat (length bytes) <= 2047 ->
  exists t q', sys_write x w bytes = Done (Ret (Z.of_nat (length bytes)), with_queue p q' t x) /\ Ioqueue.contents q' = Ioqueue.contents q ++ bytes /\ ioq_wf q' /\
    sched_inv t /\ off t /\ producer q' = producer q.
Proof.
  intros Hw Hp Hi Ho Hwf Hs Hn. destruct (pipe_fd_global x w p q Hp) as (g & f & E1 & E2 & E3 & E4 & E5).
  destruct (putchars_spec bytes (io_sched x) q) as (t & q' & Hpc & Hc & Hwf' & Hi' & Ho' & _ & _ & Hpr & _); [done..|].
  exists t, q'. split_and!; try done. unfold sys_write, stdout_no. destruct (Z.ltb_spec w 0); [lia|]. destruct (Z.eqb_spec w 1); [lia|].
  rewrite E4, bind_done. unfold write_pipe. rewrite E1, bind_done, E2, bind_done, E3, E5, bind_done. unfold pipe_write.
  rewrite ioq_length_len, <- length_contents by done. unfold bufsize. rewrite u32_small by lia.
  assert ((if Z.of_nat (length bytes) <? 2048 - Z.of_nat (length (Ioqueue.contents q)) then Z.of_nat (length bytes) else 2048 - Z.of_nat (length (Ioqueue.contents q))) = Z.of_nat (length bytes)) as ->.
  { zbool; lia. }
  rewrite Nat2Z.id, take_ge by lia. by rewrite Hpc, bind_done.
Qed.

Lemma read_pipe_ok x r p q :
  2 < r -> pipe_fd x r p q -> sched_inv (io_sched x) -> off (io_sched x) -> ioq_wf q -> sleeper_ok (io_sched x) (producer q) ->
  exists t q', sys_read x r (Z.of_nat (length (Ioqueue.contents q))) = Done (Ret (Z.of_nat (length (Ioqueue.contents q))), Ioqueue.contents q, with_queue p q' t x) /\ Ioqueue.contents q' = [] /\
    ioq_wf q' /\ sched_inv t /\ off t.
Proof.
  intros Hr Hp Hi Ho Hwf Hs. destruct (pipe_fd_global x r p q Hp) as (g & f & E1 & E2 & E3 & E4 & E5).
  destruct (getchars_spec (length (Ioqueue.contents q)) (io_sched x) q) as (t & q' & Hg & Hc & Hwf' & Hi' & Ho' & _); [done..|].
  exists t, q'. rewrite drop_all in Hc. split_and!; try done. unfold sys_read, stdout_no, stderr_no, stdin_no.
  destruct (Z.ltb_spec r 0); [lia|]. destruct (Z.eqb_spec r 1); [lia|]. destruct (Z.eqb_spec r 2); [lia|]. cbn [orb]. destruct (Z.eqb_spec r 0); [lia|].
  rewrite E4, bind_done. unfold read_pipe. rewrite E1, bind_done, E2, bind_done, E3, E5, bind_done. unfold pipe_read. rewrite ioq_length_len, <- length_contents by done.
  rewrite Z.ltb_irrefl, Nat2Z.id, Hg, bind_done. by rewrite firstn_all.
Qed.

Lemma sys_pipe_ok x p v g r l2 :
  tables_ok (io_fs x) -> free_slot (io_fs x) g -> free_fd (io_fs x) r -> r < l2 -> l2 < 8 -> fd_table (io_fs x) !! Z.to_nat l2 = Some (-1) ->
  ps_malloc_page (pages (mem (io_fs x))) 1 = Done (p, v) -> p <> 0 ->
  exists w x1, sys_pipe x = Done (0, (r, w), x1) /\ r < w /\ w < 8 /\ pipe_fd x1 r p (ioqueue_init zero_queue) /\ pipe_fd x1 w p (ioqueue_init zero_queue) /\
    io_sched x1 = io_sched x /\ fd_table (io_fs x1) = <[Z.to_nat w := g]> (<[Z.to_nat r := g]> (fd_table (io_fs x))) /\
    file_table (io_fs x1) = <[Z.to_nat g := mk_file 2 PIPE_FLAG p]> (file_table (io_fs x)) /\ pages (mem (io_fs x1)) = v /\
    fd_table (io_fs x) !! Z.to_nat w = Some (-1).
Proof.
  intros Ht Hg Hr Hl Hl2 Hf2 Hpg Hp. pose proof Ht as [Ht1 Ht2]. pose proof Hg as (Hg0 & _). pose proof Hr as (Hr0 & Hr1 & Hr2).
  assert (Hget : get_free_slot_in_global (io_fs x) = Done g).
  { destruct (get_free_slot_spec _ Ht) as [(g' & E & Hg')|[_ Hno]]; [|by destruct (Hno g)]. rewrite E. f_equal. by eapply free_slot_unique. }
  unfold sys_pipe. rewrite Hget, bind_done, Hpg, bind_done. cbn [fst snd]. set (s1 := with_mem _ _). rewrite aset_in by (simpl; lia). rewrite bind_done.
  destruct (Z.eqb_spec p 0); [done|]. set (s2 := with_file_table _ s1). assert (Ht2' : tables_ok s2) by (split; [simpl; rewrite length_insert; exact Ht1|exact Ht2]).
  destruct (pcb_fd_install_spec s2 g Ht2') as [(a & Ha & ->)|[Hno _]]; [|by destruct (Hno r)]. assert (a = r) as -> by (by eapply (free_fd_unique s2)). rewrite bind_done. cbn [fst snd].
  set (s3 := with_fd_table _ s2). assert (Ht3 : tables_ok s3) by (split; [apply Ht2'|simpl; rewrite length_insert; exact Ht2]).
  destruct (some_free_fd s3 l2) as (w & Hwl & Hw); [lia|simpl; rewrite list_lookup_insert_ne by lia; done|].
  destruct (pcb_fd_install_spec s3 g Ht3) as [(b & Hb & ->)|[Hno _]]; [|by destruct (Hno w)]. assert (b = w) as -> by (by eapply (free_fd_unique s3)). rewrite bind_done. cbn [fst snd].
  destruct Hw as (Hw0 & Hw1 & Hw2). simpl in Hw1. assert (Hwr : r < w).
  { destruct (Z.lt_trichotomy w r) as [Hlt|[->|]]; [|rewrite list_lookup_insert_eq in Hw1 by lia; injection Hw1; lia|done].
    rewrite list_lookup_insert_ne in Hw1 by lia. by destruct (Hr2 w ltac:(lia)). }
  assert (Hfile : <[Z.to_nat g := mk_file 2 PIPE_FLAG p]> (file_table (io_fs x)) !! Z.to_nat g = Some (mk_file 2 PIPE_FLAG p)) by (apply list_lookup_insert_eq; lia).
  eexists w, _. split; [reflexivity|]. split; [done|]. split; [lia|]. split; [|split; [|split_and!; [done|done|done|done|by rewrite list_lookup_insert_ne in Hw1 by lia]]]; exists g, (mk_file 2 PIPE_FLAG p); simpl; split_and!; try done; try lia;
    rewrite ?lookup_insert_eq; try done.
  - rewrite list_lookup_insert_ne by lia. apply list_lookup_insert_eq. lia.
  - apply list_lookup_insert_eq. rewrite length_insert. lia.
Qed.

(** C27. A pipe carries bytes: with a free page, a free file and two free descriptors,
    [sys_pipe] returns two descriptors, and up to 2047 bytes written to the second with
    [sys_write] are what [sys_read] then returns from the first, in order and completely,
    without either call blocking. *)
Theorem pipe_roundtrip x bytes p v g l1 l2 :
  tables_ok (io_fs x) -> free_slot (io_fs x) g -> 3 <= l1 < l2 -> l2 < 8 ->
  fd_table (io_fs x) !! Z.to_nat l1 = Some (-1) -> fd_table (io_fs x) !! Z.to_nat l2 = Some (-1) ->
  ps_malloc_page (pages (mem (io_fs x))) 1 = Done (p, v) -> p <> 0 ->
  sched_inv (io_sched x) -> off (io_sched x) -> Z.of_nat (length bytes) <= 2047 ->
  exists r w x1 x2 x3, sys_pipe x = Done (0, (r, w), x1) /\ 3 <= r < w /\ w < 8 /\
    sys_write x1 w bytes = Done (Ret (Z.of_nat (length bytes)), x2) /\
    sys_read x2 r (Z.of_nat (length bytes)) = Done (Ret (Z.of_nat (length bytes)), bytes, x3) /\
    exists q, pipe_fd x3 r p q /\ pipe_fd x3 w p q /\ Ioqueue.contents q = [].
Proof.
  intros Ht Hg Hl1 Hl2 Hf1 Hf2 Hpg Hp Hi Ho Hn. destruct (some_free_fd _ l1 ltac:(lia) Hf1) as (r & Hrl & Hr).
  destruct (sys_pipe_ok x p v g r l2) as (w & x1 & Hs & Hrw & Hw & Pr & Pw & Es & _); [done|done|done|lia|lia|done|done|done|].
  set (q0 := ioqueue_init zero_queue) in *. assert (Hwf0 : ioq_wf q0) by (constructor; vm_compute; done). assert (Hc0 : Ioqueue.contents q0 = []) by (vm_compute; reflexivity).
  pose proof Hr as (Hr3 & _). rewrite <- Es in Hi, Ho.
  destruct (write_pipe_ok x1 w p q0 bytes) as (t & q1 & W1 & W2 & W3 & W4 & W5 & W6); [lia|done..|by left|rewrite Hc0; simpl; lia|]. rewrite Hc0 in W2. cbn [app] in W2.
  destruct (read_pipe_ok (with_queue p q1 t x1) r p q1) as (t2 & q2 & R1 & R2 & _); [lia|by eapply pipe_fd_queue|done..|left; by rewrite W6|]. rewrite W2 in R1.
  exists r, w, x1, (with_queue p q1 t x1), (with_queue p q2 t2 (with_queue p q1 t x1)). split_and!; try done; try lia.
  exists q2. split_and!; try done; eapply pipe_fd_queue; by eapply pipe_fd_queue.
Qed.
End Pipes.

(** ** Witness, on the kernel's pages and an empty disk *)
Definition sample_io : io (D := disk) (P := Paging.vm) := mk_io sample_fs sample_sched ∅ sample_ioq [].

Definition got_page (r : outcome (Z * Paging.vm)) : Z * Paging.vm := match r with Done x => x | _ => (0, Paging.mk_vm ∅ 0 (Paging.mk_pool (mk_bitmap 0 [] 0) 0 0) (Paging.mk_pool (mk_bitmap 0 [] 0) 0 0) (Paging.mk_vaddr (mk_bitmap 0 [] 0) 0) (Paging.mk_vaddr (mk_bitmap 0 [] 0) 0) false) end.
Definition sample_page : Z * Paging.vm := got_page (ps_malloc_page (pages (mem (io_fs sample_io))) 1).

Lemma pipe_roundtrip_witness :
  exists r w x1 x2 x3, sys_pipe sample_io = Done (0, (r, w), x1) /\ sys_write x1 w [104; 105] = Done (Ret 2, x2) /\ sys_read x2 r 2 = Done (Ret 2, [104; 105], x3).
Proof.
  destruct (pipe_roundtrip sample_io [104; 105] sample_page.1 sample_page.2 3 3 4) as (r & w & x1 & x2 & x3 & H1 & _ & _ & H2 & H3 & _).
  - exact sample_file_tables.
  - exact sample_free_slot.
  - lia.
  - lia.
  - reflexivity.
  - reflexivity.
  - vm_compute. reflexivity.
  - vm_compute. discriminate.
  - exact sample_inv.
  - reflexivity.
  - simpl. lia.
  - exists r, w, x1, x2, x3. split; [exact H1|]. split; [exact H2|exact H3].
Defined.
