(* ===== verification/Builtin.v ===== *)
(** * Paths and commands of the shell (shell/buildin_cmd.c)

    [wash_path] resolves "." and ".." by their names; [make_clear_abs_path] first puts the
    working directory in front of a relative path. [new_abs_path] is the string in the
    buffer of [MAX_PATH_LEN] bytes. The built-in commands work on such paths; what they
    print is a list of the calls of [printf] they make. *)
From stdpp Require Import base numbers list option tactics gmap fin_maps.
From Stdlib Require Import ZArith Lia.
From Stdlib Require String.
Import String.StringSyntax.
From S2P Require Import Prelude Bitmap Stdio Ide Iface Inode File FileIo Dir Path Calls.

(** [strrchr(new_abs_path, '/')]: cut there, or behind it at the front of the string. *)
Definition go_up (new_abs_path : list Z) : outcome (list Z) :=
  match after_slash new_abs_path with
  | None => Fault
  | Some _ => let b := before_slash new_abs_path in Done (if bool_decide (b = []) then take 1 new_abs_path else b)
  end.

(** The body of the loop of [wash_path] for one name. *)
Definition wash_name (new_abs_path name : list Z) : outcome (list Z) :=
  if bool_decide (name = dotdot) then go_up new_abs_path
  else if negb (bool_decide (name = dot)) then
    p ← (if negb (bool_decide (new_abs_path = [slash])) then cat_path new_abs_path [slash] else Done new_abs_path);
    cat_path p name
  else Done new_abs_path.

(** One turn of the loop; the state is [sub_path], [name] and [new_abs_path]. *)
Definition wash_turn (st : option (list Z) * list Z * list Z) : outcome ((option (list Z) * list Z * list Z) + list Z) :=
  let '(sub_path, name, new_abs_path) := st in
  c ← aget name 0;
  if c =? 0 then Done (inr new_abs_path) else
  n ← buf_string name;
  new_abs_path ← wash_name new_abs_path n;
  y ← match sub_path with Some p => path_parse p zero_name | None => Done (None, zero_name) end;
  Done (inl (y.1, y.2, new_abs_path)).

Definition wash_path (old_abs_path : list Z) : outcome (list Z) :=
  ASSERT (bool_decide (head old_abs_path = Some slash));;
  y ← path_parse old_abs_path zero_name;
  c ← aget y.2 0;
  if c =? 0 then Done [slash] else
  loop (S (S (length old_abs_path))) wash_turn (y.1, y.2, [slash]).

(** A call of [printf]: the format and the arguments. [msg] ends the format with a newline. *)
Definition text : Type := list Z * list varg.
Definition msg (s : String.string) (args : list varg) : text := (chars s ++ [10], args).
#[global] Arguments msg s%_string_scope args.

Definition ls_usage : text :=
  (chars "usage: -l list all infomation about the file." ++ 10 :: chars "-h for help" ++ 10 :: chars "list all files in the current dirctory if no option" ++ [10], []).
Definition ls_bad_option (a : list Z) : text := (chars "ls: invalid option %s" ++ 10 :: chars "Try `ls -h' for more information." ++ [10], [VStr a]).
Definition ls_no_access (path : list Z) : text := msg "ls: cannot access %s: No such file or directory" [VStr path].

(** The loop of [buildin_ls] over the arguments: [long_info] and [pathname]. *)
Fixpoint ls_args (args : list (list Z)) (long_info : bool) (pathname : option (list Z)) : text + (bool * option (list Z)) :=
  match args with
  | [] => inr (long_info, pathname)
  | a :: args =>
      if bool_decide (head a = Some 45) then
        if bool_decide (a = chars "-l") then ls_args args true pathname
        else if bool_decide (a = chars "-h") then inl ls_usage
        else inl (ls_bad_option a)
      else match pathname with None => ls_args args long_info (Some a) | Some _ => inl (msg "ls: only support one path" []) end
  end.

Section Builtin.
Context {D A : Type} `{BlockDev D} `{Alloc A}.
Abbreviation fsys := (fs (D := D) (A := A)) (only parsing).

Definition make_clear_abs_path (fuel : nat) (s : fsys) (path : list Z) : outcome (list Z * fsys) :=
  r ← (if negb (bool_decide (head path = Some slash)) then
         r ← sys_getcwd fuel s MAX_PATH_LEN;
         match r with
         | (Some abs_path, s) => if negb (bool_decide (abs_path = [slash])) then p ← cat_path abs_path [slash]; Done (p, s) else Done (abs_path, s)
         | (None, s) => Done ([], s)
         end
       else Done ([], s));
  let '(abs_path, s) := r in
  abs_path ← cat_path abs_path path;
  final_path ← wash_path abs_path;
  Done (final_path, s).

(** ** Built-in commands

    The arguments are the strings of [argv] from [argv[1]] on. A command gives its value,
    what it prints and the file system; NULL is [None]. *)
Definition buildin_pwd (fuel : nat) (s : fsys) (args : list (list Z)) : outcome (list text * fsys) :=
  if negb (bool_decide (args = [])) then Done ([msg "pwd: no argument support!" []], s) else
  r ← sys_getcwd fuel s MAX_PATH_LEN;
  Done ([match r.1 with Some final_path => msg "%s" [VStr final_path] | None => msg "pwd: get current work directory failed." [] end], r.2).

Definition buildin_cd (fuel : nat) (s : fsys) (args : list (list Z)) (junk : Z) : outcome (option (list Z) * list text * fsys) :=
  match args with
  | _ :: _ :: _ => Done (None, [msg "cd: only support 1 argument!" []], s)
  | _ =>
      r ← match args with a :: _ => make_clear_abs_path fuel s a | [] => Done ([slash], s) end;
      let '(final_path, s) := r in
      r ← sys_chdir s final_path junk;
      if r.1 =? -1 then Done (None, [msg "cd: no such directory %s" [VStr final_path]], r.2) else Done (Some final_path, [], r.2)
  end.

(** [mkdir], [rmdir] and [rm] differ in the system call and the two messages. *)
Definition path_command (call : fsys -> list Z -> outcome (Z * fsys)) (one_argument : text) (failed : list Z -> text) (fuel : nat) (s : fsys) (args : list (list Z))
    : outcome (Z * list text * fsys) :=
  match args with
  | [a] =>
      r ← make_clear_abs_path fuel s a;
      let '(final_path, s) := r in
      if negb (bool_decide (final_path = [slash])) then
        r ← call s final_path;
        if r.1 =? 0 then Done (0, [], r.2) else Done (-1, [failed a], r.2)
      else Done (-1, [], s)
  | _ => Done (-1, [one_argument], s)
  end.
Definition buildin_mkdir (fuel : nat) (s : fsys) (args : list (list Z)) (junk : Z) (name : list Z) : outcome (Z * list text * fsys) :=
  path_command (fun s p => sys_mkdir s p junk name) (msg "mkdir: only support 1 argument!" []) (fun a => msg "mkdir: create directory %s failed." [VStr a]) fuel s args.
Definition buildin_rmdir (fuel : nat) (s : fsys) (args : list (list Z)) (junk : Z) : outcome (Z * list text * fsys) :=
  path_command (fun s p => sys_rmdir fuel s p junk) (msg "rmdir: only support 1 argument!" []) (fun a => msg "rmdir: remove %s failed." [VStr a]) fuel s args.
Definition buildin_rm (fuel : nat) (s : fsys) (args : list (list Z)) (junk : Z) : outcome (Z * list text * fsys) :=
  path_command (fun s p => sys_unlink fuel s p junk) (msg "rm: only support 1 argument!" []) (fun a => msg "rm: delete %s failed." [VStr a]) fuel s args.

(** One turn of the loop over the entries; [sub_pathname] ends in a slash. *)
Definition ls_turn (long_info : bool) (ptr : dir_ptr) (sub_pathname : list Z) (junk : Z) (st : fsys * list text)
    : outcome ((fsys * list text) + (bool * fsys * list text)) :=
  let '(s, out) := st in
  r ← sys_readdir s (Some ptr);
  match r with
  | (None, s) => Done (inr (true, s, out))
  | (Some dir_e, s) =>
      name ← buf_string (filename dir_e);
      if long_info then
        path ← cat_path sub_pathname name;
        r ← sys_stat s path junk;
        match r with
        | (None, s) => Done (inr (false, s, out ++ [ls_no_access name]))
        | (Some st, s) =>
            let ftype := if f_type dir_e =? FT_REGULAR then 45 else 100 in
            Done (inl (s, out ++ [msg "%c  %d  %d  %s" [VInt ftype; VInt (de_i_no dir_e); VInt (st_size st); VStr name]]))
        end
      else Done (inl (s, out ++ [(chars "%s ", [VStr name])]))
  end.

Definition buildin_ls (fuel : nat) (s : fsys) (args : list (list Z)) (junk : Z) : outcome (list text * fsys) :=
  match ls_args args false None with
  | inl l => Done ([l], s)
  | inr (long_info, pathname) =>
      r ← match pathname with
          | None => sys_getcwd fuel s MAX_PATH_LEN
          | Some a => r ← make_clear_abs_path fuel s a; Done (Some r.1, r.2)
          end;
      match r with
      | (None, s) => Done ([msg "ls: getcwd for default path failed" []], s)
      | (Some pathname, s) =>
          r ← sys_stat s pathname junk;
          match r with
          | (None, s) => Done ([ls_no_access pathname], s)
          | (Some file_stat, s) =>
              if st_filetype file_stat =? FT_DIRECTORY then
                r ← sys_opendir s pathname junk;
                match r with
                | (None, _) => Fault
                | (Some ptr, s) =>
                    sub_pathname ← (if negb (bool_decide (last pathname = Some slash)) then cat_path pathname [slash] else Done pathname);
                    s ← sys_rewinddir s ptr;
                    r ← loop fuel (ls_turn long_info ptr sub_pathname junk) (s, if long_info then [msg "total: %d" [VInt (st_size file_stat)]] else []);
                    let '(all, s, out) := r in
                    if all : bool then
                      r ← sys_closedir s (Some ptr);
                      Done (if long_info then out else out ++ [msg "" []], r.2)
                    else Done (out, s)
                end
              else Done ([if long_info then msg "-  %d  %d  %s" [VInt (st_ino file_stat); VInt (st_size file_stat); VStr pathname] else msg "%s" [VStr pathname]], s)
          end
      end
  end.
End Builtin.

(** ** Specification *)

(** The directory a sequence of names leads to, last name first. *)
Definition visit (st : list (list Z)) (n : list Z) : list (list Z) :=
  if decide (n = dotdot) then tail st else if decide (n = dot) then st else n :: st.
Definition resolve (ns : list (list Z)) : list (list Z) := reverse (fold_left visit ns []).

(** The path of a sequence of names. *)
Definition joined (ns : list (list Z)) : list Z := ns ≫= cons slash.
Definition render (ns : list (list Z)) : list Z := match ns with [] => [slash] | _ => joined ns end.

(** A name as it stands between slashes. *)
Definition plain (n : list Z) : Prop := n <> [] /\ Forall (fun c => c <> 0 /\ c <> slash) n.

(** ** Lemmas *)
Lemma after_slash_app p n : Forall (fun c => c <> 0 /\ c <> slash) n -> after_slash (p ++ slash :: n) = Some n.
Proof.
  intros Hn. assert (Hnone : after_slash n = None).
  { induction Hn as [|c n [_ Hc] Hn IH]; [done|]. cbn [after_slash]. rewrite IH. by destruct (Z.eqb_spec c slash). }
  induction p as [|c p IH]; cbn [after_slash app]; [by rewrite Hnone|by rewrite IH].
Qed.

Lemma before_slash_app p n : Forall (fun c => c <> 0 /\ c <> slash) n -> before_slash (p ++ slash :: n) = p.
Proof.
  intros Hn. unfold before_slash. rewrite after_slash_app by done. rewrite length_app. cbn [length].
  replace (length p + S (length n) - length n - 1)%nat with (length p) by lia. by rewrite take_app_length.
Qed.

Lemma joined_snoc ns n : joined (ns ++ [n]) = joined ns ++ slash :: n.
Proof. unfold joined. rewrite bind_app. cbn [mbind list_bind]. by rewrite app_nil_r. Qed.

Lemma joined_nil ns : joined ns = [] -> ns = [].
Proof. by destruct ns. Qed.

Lemma render_snoc ns n : render (ns ++ [n]) = joined ns ++ slash :: n.
Proof. unfold render. rewrite <- joined_snoc. by destruct ns. Qed.

Lemma render_root ns : Forall plain ns -> render ns = [slash] -> ns = [].
Proof.
  destruct ns as [|n ns]; [done|]. intros [[Hn _] _]%Forall_cons. cbn [render joined mbind list_bind]. intros [= E].
  destruct n; [done|]. done.
Qed.

(** One name, on the path of the names so far. *)
Lemma wash_name_ok st n :
  Forall plain st -> plain n -> Z.of_nat (length (render (reverse st))) + 1 + Z.of_nat (length n) < MAX_PATH_LEN ->
  wash_name (render (reverse st)) n = Done (render (reverse (visit st n))) /\ Forall plain (visit st n) /\
  (length (render (reverse (visit st n))) <= length (render (reverse st)) + 1 + length n)%nat.
Proof.
  intros Hst Hn Hlen. unfold wash_name, visit. case_bool_decide as E1.
  - rewrite decide_True by done. unfold go_up. destruct st as [|m st]; cbn [tail].
    + cbn. split_and!; [done|done|lia].
    + apply Forall_cons in Hst as [[Hm0 Hm] Hst]. rewrite reverse_cons, render_snoc. rewrite after_slash_app, before_slash_app by done.
      assert (Hl : (length (render (reverse st)) <= length (joined (reverse st)) + 1)%nat).
      { unfold render. destruct (reverse st); [simpl; lia|lia]. }
      split_and!; [|done|rewrite length_app; cbn [length]; lia].
      f_equal. case_bool_decide as E2; unfold render.
      * rewrite E2. by rewrite (joined_nil _ E2).
      * destruct (reverse st); done.
  - rewrite decide_False by done. case_bool_decide as E2; cbn [negb].
    + rewrite decide_True by done. split_and!; [done|done|lia].
    + rewrite decide_False by done. rewrite reverse_cons, render_snoc.
      assert (Hr : Forall plain (reverse st)) by (by apply Forall_reverse).
      case_bool_decide as E3; cbn [negb].
      * pose proof (render_root _ Hr E3) as E4. rewrite E4. cbn [render joined mbind list_bind]. rewrite E4 in Hlen. cbn [render length] in Hlen.
        rewrite bind_done, cat_path_ok by (simpl; lia). split_and!; [done|by apply Forall_cons|simpl; lia].
      * assert (Ej : render (reverse st) = joined (reverse st)) by (unfold render in *; by destruct (reverse st)). rewrite Ej in *.
        rewrite cat_path_ok by (simpl; lia). rewrite bind_done, cat_path_ok by (rewrite length_app; simpl; lia).
        rewrite <- app_assoc. split_and!; [done|by apply Forall_cons|rewrite !length_app; cbn [length]; lia].
Qed.

Lemma cname_app n t : Forall (fun c => c <> 0 /\ c <> slash) n -> cname (n ++ 0 :: t) = n.
Proof. induction 1 as [|c n [Hc _] Hn IH]; cbn [cname app]; [by rewrite decide_True|]. by rewrite decide_False, IH. Qed.

(** The array [name] with a name in it. *)
Lemma buf_string_ok n : plain n -> (length n <= 15)%nat ->
  exists c t, n ++ drop (length n) zero_name = c :: t /\ c <> 0 /\ buf_string (n ++ drop (length n) zero_name) = Done n.
Proof.
  intros [H0 Hn] Hl. destruct n as [|c n]; [done|]. pose proof Hn as [[Hc _] _]%Forall_cons. exists c. eexists. split; [reflexivity|]. split; [done|].
  unfold zero_name. rewrite drop_replicate. replace (16 - length (c :: n))%nat with (S (15 - length (c :: n))) by (simpl in *; lia). cbn [replicate].
  unfold buf_string. rewrite decide_True by set_solver. by rewrite cname_app.
Qed.

Lemma comps_plain p : Forall (fun c => c <> 0) p -> Forall plain (comps p).
Proof.
  induction 1 as [|c p Hc Hp IH]; [done|]. cbn [splits]. case_decide as E1; [done|]. destruct p as [|c' p].
  - repeat constructor; done.
  - case_decide as E2; [apply Forall_cons; split; [|done]; split; [done|]; by repeat constructor|].
    destruct (comps (c' :: p)) as [|n ns]; [repeat constructor; done|]. apply Forall_cons in IH as [[H0 Hn] Hns]. apply Forall_cons. split; [|done]. split; [done|].
    by apply Forall_cons.
Qed.

Lemma joined_comps p : (length (joined (comps p)) <= length p + (if bool_decide (head p = Some slash) then 0 else 1))%nat.
Proof.
  induction p as [|c p IH]; [simpl; lia|]. cbn [splits head length]. destruct (decide (c = slash)) as [->|E1].
  - rewrite bool_decide_true by done. destruct (bool_decide (head p = Some slash)); lia.
  - rewrite bool_decide_false by congruence. destruct p as [|c' p]; [simpl; lia|]. destruct (decide (c' = slash)) as [->|E2].
    + cbn [head] in IH. rewrite bool_decide_true in IH by done. unfold joined in *. rewrite bind_cons, length_app. cbn [length] in *. lia.
    + cbn [head] in IH. rewrite bool_decide_false in IH by congruence. destruct (comps (c' :: p)) as [|n ns]; [simpl; lia|].
      unfold joined in *. rewrite bind_cons, length_app in *. cbn [length] in *. lia.
Qed.

Lemma wash_loop ns : forall fuel n sub st,
  (length ns < fuel)%nat -> comps (default [] sub) = ns -> Forall (fun c => c <> 0) (default [] sub) -> (sub = None -> ns = []) ->
  Forall (fun m => (length m <= 15)%nat) (n :: ns) -> plain n -> Forall plain st ->
  Z.of_nat (length (render (reverse st))) + Z.of_nat (length (joined (n :: ns))) < MAX_PATH_LEN ->
  loop (S fuel) wash_turn (sub, n ++ drop (length n) zero_name, render (reverse st)) = Done (render (reverse (fold_left visit (n :: ns) st))).
Proof.
  induction ns as [|m ns IH]; intros fuel n sub st Hfu Hc Hf Hp Hlen Hn Hst Hmax; apply Forall_cons in Hlen as [Hln Hlen];
    (destruct (buf_string_ok n Hn Hln) as (c & t & Eb & Hc0 & Hbs)); (destruct fuel as [|fuel]; [simpl in Hfu; lia|]);
    (destruct (wash_name_ok st n Hst Hn) as (Hw & Hv & Hvl); [unfold joined in Hmax; rewrite bind_cons, length_app in Hmax; cbn [length] in Hmax; lia|]).
  - assert (Hturn : wash_turn (sub, n ++ drop (length n) zero_name, render (reverse st)) = Done (inl (None, zero_name, render (reverse (visit st n))))).
    { unfold wash_turn. rewrite Hbs. rewrite Eb at 1. rewrite (aget_Some _ 0 c) by done. rewrite bind_done. destruct (Z.eqb_spec c 0); [done|]. rewrite bind_done, Hw, bind_done.
      destruct sub as [p|]; [|done]. pose proof (path_parse_ok p zero_name eq_refl Hf) as Hpp. cbn [default from_option id] in Hc. rewrite Hc in Hpp. by rewrite Hpp, bind_done. }
    erewrite loop_next by exact Hturn. by rewrite (loop_done _ _ _ (render (reverse (visit st n)))).
  - destruct sub as [p|]; [|by specialize (Hp eq_refl)]. cbn [default from_option id] in *. pose proof Hlen as [Hm _]%Forall_cons.
    pose proof (path_parse_ok p zero_name eq_refl Hf) as Hpp. rewrite Hc in Hpp. destruct Hpp as (rest & E & Er & _ & F1 & F2 & Hne & Hnone); [lia|].
    assert (Hpm : plain m) by (pose proof (comps_plain p Hf) as Hpl; rewrite Hc in Hpl; by apply Forall_cons in Hpl as [? _]).
    assert (Hturn : wash_turn (Some p, n ++ drop (length n) zero_name, render (reverse st)) = Done (inl (rest, m ++ drop (length m) zero_name, render (reverse (visit st n))))).
    { unfold wash_turn. rewrite Hbs. rewrite Eb at 1. rewrite (aget_Some _ 0 c) by done. rewrite bind_done. destruct (Z.eqb_spec c 0); [done|]. rewrite bind_done, Hw, bind_done.
      by rewrite E, bind_done. }
    erewrite loop_next by exact Hturn. cbn [fold_left]. cbn [length] in Hfu. apply (IH fuel m rest (visit st n)); try done; [lia|].
    unfold joined in *. rewrite !bind_cons, !length_app in *. cbn [length] in *. lia.
Qed.

Lemma wash_path_ok p :
  head p = Some slash -> Forall (fun c => c <> 0) p -> Forall (fun m => (length m <= 15)%nat) (comps p) -> Z.of_nat (length p) < 511 ->
  wash_path p = Done (render (resolve (comps p))).
Proof.
  intros Hh Hf Hlen Hmax. pose proof (splits_length slash p) as Hcl. pose proof (path_parse_ok p zero_name eq_refl Hf) as Hpp. pose proof (joined_comps p) as Hj.
  rewrite bool_decide_true in Hj by done. pose proof (comps_plain p Hf) as Hpl. unfold wash_path. rewrite bool_decide_true by done. rewrite ASSERT_true, bind_done by done.
  destruct (comps p) as [|n ns] eqn:Ec.
  - by rewrite Hpp.
  - pose proof Hlen as [Hn _]%Forall_cons. pose proof Hpl as [Hpn _]%Forall_cons. destruct Hpp as (rest & -> & Er & Hlr & F1 & F2 & Hn0 & Hnone); [lia|].
    destruct (buf_string_ok n Hpn Hn) as (c & t & Eb & Hc0 & Hbs).
    rewrite !bind_done. cbn [fst snd]. rewrite Eb at 1. rewrite (aget_Some _ 0 c) by done. rewrite bind_done. destruct (Z.eqb_spec c 0); [done|].
    change [slash] with (render (reverse [])) at 1. rewrite (wash_loop ns (S (length p)) n rest []); try done; [cbn [length] in Hcl; lia|].
    change (render (reverse [])) with [slash]. cbn [length]. unfold MAX_PATH_LEN. lia.
Qed.

Lemma name_rest_app n t : Forall (fun c => c <> 0 /\ c <> slash) n -> match t with [] => True | c :: _ => c = slash end ->
  name_of (n ++ t) = n /\ rest_of (n ++ t) = t.
Proof.
  intros Hn Ht. induction Hn as [|c n [_ Hc] Hn [I1 I2]]; cbn [app].
  - destruct t as [|c t]; [done|]. subst c. cbn [word_of after_word]. by rewrite !decide_True.
  - cbn [word_of after_word]. rewrite !decide_False by done. by rewrite I1, I2.
Qed.

Lemma comps_joined ns : Forall plain ns -> comps (joined ns) = ns.
Proof.
  induction 1 as [|n ns [H0 Hn] Hns IH]; [done|]. unfold joined. rewrite bind_cons. fold (joined ns). cbn [app splits]. rewrite decide_True by done.
  destruct (name_rest_app n (joined ns) Hn) as [E1 E2]; [by destruct ns|]. destruct n as [|c n]; [done|]. cbn [app] in *.
  apply Forall_cons in Hn as [[_ Hc] _]. by rewrite splits_word, E1, E2, IH.
Qed.

Lemma comps_render ns : Forall plain ns -> comps (render ns) = ns.
Proof. intros Hns. destruct ns; [done|]. by apply comps_joined. Qed.

Lemma comps_app p q : comps (p ++ slash :: q) = comps p ++ comps q.
Proof.
  induction p as [|c p IH]; cbn [app].
  - cbn [splits]. by rewrite decide_True.
  - cbn [splits]. destruct (decide (c = slash)); [done|]. destruct p as [|c' p]; cbn [app] in *.
    + rewrite decide_True by done. cbn [splits]. by rewrite decide_True.
    + destruct (decide (c' = slash)); [by rewrite IH|]. rewrite IH. assert (Hc' : comps (c' :: p) <> []) by (by rewrite splits_word).
      destruct (comps (c' :: p)); [done|]. done.
Qed.

(** No name of a resolved path is "." or "..", and such a path resolves to itself. *)
Definition undotted (n : list Z) : Prop := n <> dot /\ n <> dotdot.

Lemma visit_fold ns st : Forall plain ns -> Forall plain st -> Forall undotted st -> Forall plain (fold_left visit ns st) /\ Forall undotted (fold_left visit ns st).
Proof.
  revert st. induction ns as [|n ns IH]; intros st Hns H1 H2; [done|]. apply Forall_cons in Hns as [Hn Hns]. cbn [fold_left]. apply IH; [done|..]; unfold visit.
  - case_decide; [by destruct H1|]. case_decide; [done|]. by apply Forall_cons.
  - case_decide; [by destruct H2|]. case_decide; [done|]. by apply Forall_cons.
Qed.

Lemma fold_undotted ns st : Forall undotted ns -> fold_left visit ns st = reverse ns ++ st.
Proof.
  revert st. induction ns as [|n ns IH]; intros st Hns; [done|]. apply Forall_cons in Hns as [[H1 H2] Hns]. cbn [fold_left]. rewrite IH by done. unfold visit.
  rewrite !decide_False by done. by rewrite reverse_cons, <- app_assoc.
Qed.

Lemma resolve_ok ns : Forall plain ns -> Forall plain (resolve ns) /\ Forall undotted (resolve ns).
Proof. intros Hns. unfold resolve. destruct (visit_fold ns [] Hns) as [H1 H2]; [done..|]. split; by apply Forall_reverse. Qed.

Lemma resolve_undotted ns : Forall undotted ns -> resolve ns = ns.
Proof. intros Hns. unfold resolve. by rewrite fold_undotted, app_nil_r, reverse_involutive. Qed.

(** ** Properties *)

(** C28. [wash_path] turns an absolute path of fewer than 511 characters, with names of at
    most 15, into the path of the directory its names lead to when "." stays, ".." drops
    the last name (and stays at the root) and any other name descends: the result has
    exactly these names, none of them "." or "..", whatever slashes were repeated. *)
Theorem wash_path_resolves p :
  head p = Some slash -> Forall (fun c => c <> 0) p -> Forall (fun m => (length m <= 15)%nat) (comps p) -> Z.of_nat (length p) < 511 ->
  exists q, wash_path p = Done q /\ comps q = resolve (comps p) /\ Forall undotted (comps q) /\ q = render (comps q).
Proof.
  intros Hh Hf Hlen Hmax. exists (render (resolve (comps p))). destruct (resolve_ok (comps p) (comps_plain p Hf)) as [H1 H2].
  rewrite comps_render by done. split_and!; try done. by apply wash_path_ok.
Qed.

(** The path "/a//../b/./" is "/b". *)
Lemma wash_path_resolves_witness : exists q, wash_path [47; 97; 47; 47; 46; 46; 47; 98; 47; 46; 47] = Done q /\
  comps q = resolve (comps [47; 97; 47; 47; 46; 46; 47; 98; 47; 46; 47]) /\ Forall undotted (comps q) /\ q = render (comps q).
Proof.
  apply (wash_path_resolves [47; 97; 47; 47; 46; 46; 47; 98; 47; 46; 47]).
  - reflexivity.
  - repeat constructor; discriminate.
  - vm_compute. repeat constructor.
  - simpl. lia.
Defined.

Example wash_sample : wash_path [47; 97; 47; 47; 46; 46; 47; 98; 47; 46; 47] = Done [47; 98].
Proof. reflexivity. Qed.
