(* ===== verification/Walk.v ===== *)
(** * Path lookup (fs/fs.c: search_file)

    The directories of a partition, by inode number, form a tree: every live entry names a
    regular file or another of the directories. [look_up] looks a path up in this tree;
    [search_file] is shown to give its answer, with the directory that holds the last entry
    looked at left open, and everything else as it was. *)
From stdpp Require Import base numbers list option tactics gmap fin_maps.
From Stdlib Require Import ZArith Lia.
From S2P Require Import Prelude Bitmap Paging Heap Ide Iface Inode File FileIo Dir Node Stock Path Builtin.

(** ** The tree *)

(** What a lookup finds: the number (-1 for nothing) and type, the directory that was
    searched last, and the names looked up. *)
Record answer := mk_answer { an_no : Z; an_type : Z; an_dir : Z; an_seen : list (list Z) }.

Section Tree.
Context {D A : Type} `{BlockDev D} `{Alloc A}.
Implicit Types s : fs (D := D) (A := A).

(** The directories by number. *)
Abbreviation tree := (gmap Z inode) (only parsing).

(** The entry of a name in a directory. *)
Definition entry_named (d : D) (i : inode) (n : list Z) : option dir_entry := head (filter (named n) (dir_list d i)).

(** Walk down from directory [k], whose parent is [par]. A regular file ends the walk,
    whatever follows. *)
Fixpoint walk (d : D) (T : tree) (k par : Z) (seen ns : list (list Z)) : answer :=
  match ns with
  | [] => mk_answer k FT_DIRECTORY par seen
  | n :: ns =>
      match T !! k ≫= fun i => entry_named d i n with
      | None => mk_answer (-1) FT_UNKNOWN k (seen ++ [n])
      | Some e =>
          if decide (f_type e = FT_DIRECTORY) then walk d T (de_i_no e) k (seen ++ [n]) ns
          else mk_answer (de_i_no e) FT_REGULAR k (seen ++ [n])
      end
  end.

Definition look_up (d : D) (T : tree) (p : list Z) : answer :=
  if is_root p then mk_answer 0 FT_DIRECTORY 0 [] else walk d T 0 0 [] (comps p).

(** The tree of the mounted partition: the root directory is open as number 0. *)
Record tree_ok s (T : tree) : Prop := {
  tr_root : exists r j, T !! 0 = Some r /\ d_inode (root_dir s) ∈ open_inodes (cur_part s) /\ inodes s !! d_inode (root_dir s) = Some j /\ pure j = pure r;
  tr_dir : forall k i, T !! k = Some i -> inode_of s k i /\ dir_ok s i;
  tr_entry : forall k i e, T !! k = Some i -> e ∈ dir_list (dsk s) i ->
    (f_type e = FT_DIRECTORY /\ is_Some (T !! de_i_no e)) \/ (f_type e = FT_REGULAR /\ exists j, inode_of s (de_i_no e) j)
}.

(** Paths that are looked up: absolute, shorter than 512, with names shorter than 16. *)
Record path_ok (p : list Z) : Prop := {
  pt_head : head p = Some slash;
  pt_chars : Forall (fun c => c <> 0) p;
  pt_len : Z.of_nat (length p) < MAX_PATH_LEN;
  pt_names : Forall (fun n => (length n < 16)%nat) (comps p);
  pt_some : comps p = [] -> p = [slash]
}.

(** ** A directory that is open during the lookup *)
Record at_dir s (i : inode) (ptr : dir_ptr) s1 : Prop := {
  ad_ok : fs_ok s1;
  ad_at : exists p pos j, dir_at s1 ptr = Done (mk_dir p pos) /\ p ∈ open_inodes (cur_part s1) /\ inodes s1 !! p = Some j /\ pure j = pure i;
  ad_live : match ptr with RootDir => True | HeapDir b => exists n, al_live (mem s1) b n end;
  ad_keeps : keeps s s1;
  ad_room : forall r, room (S (S r)) (mem s) -> room r (mem s1);
  ad_users : users_below s1 (2 ^ 32 - 1);
  ad_close : forall s2, fs_ok s2 -> calm s1 s2 -> exists s3, dir_close s2 ptr = Done s3 /\ fs_ok s3 /\ calm s s3
}.

Lemma node_range s k i : fs_ok s -> inode_of s k i -> 0 <= k < 4096.
Proof.
  intros Hs [<- [(p & j & Hp & Hj & E)|[_ (Hw & Hk & _)]]].
  - destruct (open_entry s p Hs Hp) as (j' & n & Hj' & (Hn & _) & Hk & _). assert (j' = j) as -> by congruence. destruct (pure_no _ _ E) as (<- & _). unfold is_u32 in Hn. lia.
  - destruct Hw as (Hn & _). unfold is_u32 in Hn. lia.
Qed.

Lemma keeps_dir s s1 i j : dir_ok s i -> keeps s s1 -> inode_wf j -> pure j = pure i -> dir_ok s1 j /\ dir_list (dsk s1) j = dir_list (dsk s) i.
Proof. intros Hd Hk. apply dir_ok_ext; [done|apply (kp_sec _ _ Hk)|apply (kp_part _ _ Hk)]. Qed.

Lemma at_root s T r : fs_ok s -> tree_ok s T -> users_below s (2 ^ 32 - 2) -> T !! 0 = Some r -> at_dir s r RootDir s.
Proof.
  intros Hs [(r' & j & Hr & Hp & Hj & E) _ _] Hu Hr'. assert (r' = r) as -> by congruence. constructor; try done.
  - exists (d_inode (root_dir s)), (dir_pos (root_dir s)), j. split_and!; try done. cbn [dir_at]. by destruct (root_dir s).
  - apply still_keeps, still_refl.
  - intros r' Hr2. by apply (room_less (S (S r'))); [lia|].
  - intros p i Hi Hpi. specialize (Hu p i Hi Hpi). lia.
  - intros s2 Hs2 Hc. by exists s2.
Qed.

(** Opening a directory from a state that looks as the first did. *)
Lemma at_open s s1 k i :
  fs_ok s1 -> calm s s1 -> inode_of s k i -> users_below s (2 ^ 32 - 2) -> room 4 (mem s) ->
  exists b s2, dir_open s1 k = Done (HeapDir b, s2) /\ at_dir s i (HeapDir b) s2.
Proof.
  intros Hs1 Hc Hi Hu Hr. pose proof Hc as [Hst _]. pose proof (users_still s s1 _ Hst Hu) as Hu1. pose proof (room_live 4 _ _ Hr (st_live _ _ Hst)) as Hr1.
  destruct (opening_dir s1 k i Hs1) as (b & s2 & Ho & [K1 (p & j & K2) K3 K4 K5 K6 K7]).
  - by apply (still_node s).
  - intros q x Hq Hx. specialize (Hu1 q x Hq Hx). lia.
  - by apply (room_less 4); [lia|].
  - exists b, s2. split; [done|]. constructor; try done.
    + by exists p, 0, j.
    + by eapply keeps_trans; [apply still_keeps|].
    + intros r Hr2. apply K5. by apply (room_live _ (mem s)), (st_live _ _ Hst).
    + apply (K6 (2 ^ 32 - 2)); [lia|done].
    + intros s3 Hs3 Hc3. destruct (K7 s3 Hs3 Hc3) as (s4 & ? & ? & ?). exists s4. split_and!; try done. by eapply calm_trans.
Qed.

Lemma at_calm s i ptr s1 s2 : at_dir s i ptr s1 -> fs_ok s2 -> calm s1 s2 -> at_dir s i ptr s2.
Proof.
  intros [K1 (p & pos & j & K2 & K3 & K4 & K5) K6 K7 K8 K9 K10] Hs2 [Hst Hd]. constructor; try done.
  - exists p, pos, j. rewrite (st_part _ _ Hst), (st_inodes _ _ Hst) by done. split_and!; try done. rewrite <- K2. unfold dir_at.
    destruct ptr as [|b]; [by rewrite (st_root _ _ Hst)|]. destruct K6 as [n Hn]. by rewrite (Hd b n).
  - destruct ptr as [|b]; [done|]. destruct K6 as [n Hn]. exists n. by apply (st_live _ _ Hst).
  - by eapply keeps_trans; [|apply still_keeps].
  - intros r Hr. by apply (room_live r (mem s1)), (st_live _ _ Hst); apply K8.
  - by apply (users_still s1).
  - intros s3 Hs3 Hc3. apply K10; [done|]. by eapply calm_trans.
Qed.

(** ** One name *)
Lemma entry_in (d : D) i n e : entry_named d i n = Some e -> e ∈ dir_list d i.
Proof.
  unfold entry_named. intros He. assert (Hin : e ∈ filter (named n) (dir_list d i)) by (destruct (filter _ _); [done|]; injection He as ->; by left).
  by apply list_elem_of_filter in Hin as [_ ?].
Qed.

Lemma search_in s k i ptr s1 n :
  at_dir s i ptr s1 -> inode_of s k i -> dir_ok s i -> room 4 (mem s) -> Forall (fun c => c <> 0) n -> (0 < length n < 16)%nat ->
  exists p pos j s2, dir_at s1 ptr = Done (mk_dir p pos) /\ search_dir_entry s1 p n = Done (entry_named (dsk s) i n, s2) /\ at_dir s i ptr s2 /\
    inode_at s2 p = Done j /\ i_no j = k.
Proof.
  intros Ha [Hk _] Hd Hr Hn Hl. pose proof Ha as [K1 (p & pos & j & K2 & K3 & K4 & K5) K6 K7 K8 K9 K10].
  destruct (open_entry s1 p K1 K3) as (j' & ? & Hj' & Hw & _). assert (j' = j) as -> by congruence.
  destruct (keeps_dir s s1 i j Hd K7 Hw K5) as [Hd1 El].
  destruct (search_dir_entry_ok s1 p j n K1 K4 Hd1) as (s2 & E & Hs2 & Hc); [by apply (room_alloc 2); [apply K1|apply K8|done|repeat constructor; lia]|done|done|].
  exists p, pos, j, s2. split; [done|]. split; [unfold entry_named; by rewrite <- El|]. pose proof (same_state_calm _ _ Hc) as Hcalm. split; [by eapply at_calm|].
  unfold inode_at. rewrite (st_inodes _ _ (proj1 Hcalm) p K3), K4. split; [done|]. by destruct (pure_no _ _ K5) as (-> & _).
Qed.

(** The name buffer during the lookup. *)
Definition name_buf (n : list Z) : list Z := n ++ drop (length n) zero_name.

Lemma name_buf_string n : Forall (fun c => c <> 0) n -> (length n < 16)%nat -> buf_string (name_buf n) = Done n.
Proof.
  intros Hf Hn. unfold buf_string, name_buf, zero_name. rewrite drop_replicate. destruct (16 - length n)%nat as [|m] eqn:E; [lia|].
  rewrite decide_True by (apply elem_of_app; right; by left). f_equal. clear -Hf. induction Hf as [|c n Hc Hf IH]; [done|].
  cbn [app]. rewrite cname_cons by done. by rewrite IH.
Qed.

Lemma search_turn_ok s T k i ptr s1 sub sub' name' par found seen n :
  at_dir s i ptr s1 -> fs_ok s -> tree_ok s T -> T !! k = Some i -> users_below s (2 ^ 32 - 2) -> room 4 (mem s) ->
  Forall (fun c => c <> 0) n -> (0 < length n < 16)%nat -> Z.of_nat (length (joined (seen ++ [n]))) < 512 ->
  match sub with Some p => path_parse p zero_name | None => Done (None, zero_name) end = Done (sub', name') ->
  let turn := search_turn (mk_search s1 (mk_rec (joined seen) ptr FT_UNKNOWN) sub (name_buf n) ptr par found) in
  match entry_named (dsk s) i n with
  | None => exists s2, turn = Done (inr (inr (-1, mk_rec (joined (seen ++ [n])) ptr FT_UNKNOWN, s2))) /\ at_dir s i ptr s2
  | Some e =>
      if decide (f_type e = FT_DIRECTORY) then exists i' b s2, T !! de_i_no e = Some i' /\ at_dir s i' (HeapDir b) s2 /\
        turn = Done (inl (mk_search s2 (mk_rec (joined (seen ++ [n])) (HeapDir b) FT_UNKNOWN) sub' name' (HeapDir b) k (de_i_no e)))
      else exists s2, turn = Done (inr (inr (de_i_no e, mk_rec (joined (seen ++ [n])) ptr FT_REGULAR, s2))) /\ at_dir s i ptr s2
  end.
Proof.
  intros Ha Hs HT Hk Hu Hr Hf Hl Hlen Hy. cbv zeta. destruct (tr_dir _ _ HT k i Hk) as [Hi Hd].
  destruct (search_in s k i ptr s1 n Ha Hi Hd Hr Hf Hl) as (p & pos & j & s2 & Hat & Hse & Ha2 & Hj & Hjk).
  unfold search_turn. cbn [sr_fs sr_rec sub_path sr_name sr_parent parent_inode_no found_no searched_path parent_dir file_type].
  assert (Hc0 : exists c, aget (name_buf n) 0 = Done c /\ c <> 0).
  { destruct n as [|c n]; [simpl in Hl; lia|]. apply Forall_cons in Hf as [Hc _]. exists c. split; [by apply aget_Some|done]. }
  destruct Hc0 as (c & -> & Hc). rewrite bind_done. destruct (Z.eqb_spec c 0); [done|]. rewrite joined_snoc, length_app in Hlen. cbn [length] in Hlen.
  assert_ok; [|apply Z.ltb_lt; lia]. rewrite cat_path_ok by (cbn [length]; change MAX_PATH_LEN with 512; lia). rewrite bind_done, name_buf_string by (done || lia).
  rewrite bind_done, cat_path_ok by (rewrite length_app; cbn [length]; change MAX_PATH_LEN with 512; lia). rewrite bind_done, Hat, bind_done. cbn [d_inode]. rewrite Hse, bind_done. cbn [fst snd].
  rewrite joined_snoc, <- app_assoc. cbn [app]. destruct (entry_named (dsk s) i n) as [e|] eqn:Ee; [|by exists s2].
  rewrite Hy, bind_done. cbn [fst snd]. destruct (tr_entry _ _ HT k i e Hk (entry_in _ _ _ _ Ee)) as [[Et [i' Hi']]|[Et [i' Hi']]]; rewrite Et.
  - rewrite decide_True by done. cbn [Z.eqb FT_DIRECTORY Pos.eqb]. rewrite Hj, bind_done.
    destruct (ad_close _ _ _ _ Ha2 s2 (ad_ok _ _ _ _ Ha2) (calm_refl s2)) as (s3 & -> & Hs3 & Hc3). rewrite bind_done.
    destruct (at_open s s3 (de_i_no e) i' Hs3 Hc3) as (b & s4 & -> & Ha4); [by apply (tr_dir _ _ HT)|done|done|]. rewrite bind_done. cbn [fst snd].
    exists i', b, s4. split; [done|]. split; [done|]. by rewrite Hjk.
  - rewrite decide_False by done. cbn [Z.eqb FT_DIRECTORY FT_REGULAR Pos.eqb]. exists s2. split; [|done].
    pose proof (node_range s _ _ Hs Hi'). by rewrite i32_small by lia.
Qed.

(** ** The loop over the names *)

(** What is left of the path below the names [ns] still to look up, the first of which is
    in the name buffer. *)
Definition pending (sub : option (list Z)) (ns : list (list Z)) : Prop := comps (default [] sub) = tail ns /\ Forall (fun c => c <> 0) (default [] sub).
Definition names_ok (ns : list (list Z)) : Prop := Forall (fun n => Forall (fun c => c <> 0) n /\ (0 < length n < 16)%nat) ns.

Lemma next_name sub n ns :
  pending sub (n :: ns) -> names_ok ns ->
  exists sub', match sub with Some p => path_parse p zero_name | None => Done (None, zero_name) end = Done (sub', name_buf (default [] (head ns))) /\ pending sub' ns.
Proof.
  intros [Hc Hf] Hn. cbn [tail] in Hc. destruct sub as [p|]; cbn [default from_option id] in *; [|exists None; by destruct ns].
  pose proof (path_parse_ok p zero_name eq_refl Hf) as Hp. rewrite Hc in Hp. destruct ns as [|m ns]; [by exists None|].
  apply Forall_cons in Hn as [[_ Hm] _]. destruct (Hp ltac:(lia)) as (rest & E & Er & _ & _ & F & _). by exists rest.
Qed.

Lemma search_loop s T :
  fs_ok s -> tree_ok s T -> users_below s (2 ^ 32 - 2) -> room 4 (mem s) ->
  forall ns fuel k i ptr s1 sub par found seen,
  at_dir s i ptr s1 -> T !! k = Some i -> (length ns < fuel)%nat -> pending sub ns -> names_ok ns ->
  Z.of_nat (length (joined (seen ++ ns))) < 512 -> (ns = [] -> found = k /\ is_Some (T !! par)) ->
  let a := walk (dsk s) T k par seen ns in
  let r := loop fuel search_turn (mk_search s1 (mk_rec (joined seen) ptr FT_UNKNOWN) sub (name_buf (default [] (head ns))) ptr par found) in
  if decide (an_type a = FT_DIRECTORY) then exists i' ptr' s2 sub' name', T !! an_no a = Some i' /\ at_dir s i' ptr' s2 /\ is_Some (T !! an_dir a) /\
    r = Done (inl (mk_search s2 (mk_rec (joined (an_seen a)) ptr' FT_UNKNOWN) sub' name' ptr' (an_dir a) (an_no a)))
  else exists i' ptr' s2, T !! an_dir a = Some i' /\ at_dir s i' ptr' s2 /\ r = Done (inr (an_no a, mk_rec (joined (an_seen a)) ptr' (an_type a), s2)).
Proof.
  intros Hs HT Hu Hr ns. induction ns as [|n ns IH]; intros [|fuel] k i ptr s1 sub par found seen Ha Hk Hfu Hp Hn Hlen Hd; cbn [length] in Hfu; try lia; cbv zeta; cbn [walk head default from_option id].
  - destruct (Hd eq_refl) as [-> Hpar]. cbn [an_type]. rewrite decide_True by done. exists i, ptr, s1, sub, (name_buf []). split_and!; done.
  - apply Forall_cons in Hn as [[Hf Hl] Hn]. destruct (next_name sub n ns Hp Hn) as (sub' & Hy & Hp').
    assert (Hlen' : Z.of_nat (length (joined (seen ++ [n]))) < 512).
    { replace (seen ++ n :: ns) with ((seen ++ [n]) ++ ns) in Hlen by by rewrite <- app_assoc. unfold joined in *. rewrite bind_app, length_app in Hlen. lia. }
    pose proof (search_turn_ok s T k i ptr s1 sub sub' (name_buf (default [] (head ns))) par found seen n Ha Hs HT Hk Hu Hr Hf Hl Hlen' Hy) as Ht. cbv zeta in Ht.
    rewrite Hk. cbn [mbind option_bind]. destruct (entry_named (dsk s) i n) as [e|]; [destruct (decide (f_type e = FT_DIRECTORY))|].
    + destruct Ht as (i' & b & s2 & Hi' & Ha' & Ht). erewrite loop_next by exact Ht. apply (IH fuel (de_i_no e) i'); [done|done|lia|done|done|by rewrite <- app_assoc|]. intros _. split; [done|by exists i].
    + destruct Ht as (s2 & Ht & Ha2). rewrite decide_False by done. exists i, ptr, s2. split_and!; try done. erewrite loop_done by exact Ht. done.
    + destruct Ht as (s2 & Ht & Ha2). rewrite decide_False by done. exists i, ptr, s2. split_and!; try done. erewrite loop_done by exact Ht. done.
Qed.

(** The last directory that was searched is in the tree. *)
Lemma search_file_ok s T p junk :
  fs_ok s -> tree_ok s T -> users_below s (2 ^ 32 - 2) -> room 4 (mem s) -> path_ok p ->
  let a := look_up (dsk s) T p in
  exists i ptr s', search_file s p junk = Done (an_no a, mk_rec (joined (an_seen a)) ptr (an_type a), s') /\ T !! an_dir a = Some i /\ at_dir s i ptr s'.
Proof.
  intros Hs HT Hu Hr [P1 P2 P3 P4 P5]. cbv zeta. unfold look_up, search_file. destruct (tr_root _ _ HT) as (r & _ & Hr0 & _).
  pose proof (at_root s T r Hs HT Hu Hr0) as Ha. destruct (is_root p) eqn:Er; [by exists r, RootDir, s|].
  assert (Hne : comps p <> []) by (intros E; apply P5 in E as ->; done).
  assert_ok; [|rewrite bool_decide_true by done; destruct p as [|c [|c2 p]]; [done| |simpl in *; change MAX_PATH_LEN with 512 in *; rewrite (proj2 (Z.ltb_lt 1 _)) by lia; by apply Z.ltb_lt]; injection P1 as ->; done].
  pose proof (path_parse_ok p zero_name eq_refl P2) as Hpp. pose proof (comps_plain p P2) as Hpl. pose proof (splits_length slash p) as Hcl. pose proof (joined_comps p) as Hj. rewrite bool_decide_true in Hj by done.
  assert (Hok : names_ok (comps p)).
  { apply Forall_forall. intros n Hn. rewrite Forall_forall in Hpl, P4. destruct (Hpl n Hn) as [H1 H2]. specialize (P4 n Hn). split; [by eapply Forall_impl; [exact H2|]; intros ? []|].
    destruct n; [done|simpl in *; lia]. }
  destruct (comps p) as [|n ns] eqn:Ec; [done|]. apply Forall_cons in P4 as [Hn P4]. destruct (Hpp ltac:(lia)) as (rest & -> & Erest & _ & _ & F & _). rewrite bind_done. cbn [fst snd].
  pose proof (search_loop s T Hs HT Hu Hr (n :: ns) (S (S (length p))) 0 r RootDir s rest 0 junk [] Ha Hr0) as Hloop. cbv zeta in Hloop.
  specialize (Hloop ltac:(lia) (conj Erest F) Hok ltac:(cbn [app]; change MAX_PATH_LEN with 512 in P3; lia) ltac:(done)). cbn [head default from_option id] in Hloop.
  change (joined []) with (@nil Z) in Hloop. fold (name_buf n). set (a := walk (dsk s) T 0 0 [] (n :: ns)) in *. case_decide as Et.
  - destruct Hloop as (i' & ptr & s2 & sub' & name' & Hi' & Ha2 & [id Hid] & ->). rewrite bind_done. cbn [sr_fs sr_rec parent_dir parent_inode_no found_no searched_path].
    destruct (ad_close _ _ _ _ Ha2 s2 (ad_ok _ _ _ _ Ha2) (calm_refl s2)) as (s3 & -> & Hs3 & Hc3). rewrite bind_done.
    destruct (at_open s s3 (an_dir a) id Hs3 Hc3) as (b & s4 & -> & Ha4); [by apply (tr_dir _ _ HT)|done|done|]. rewrite bind_done. cbn [fst snd].
    exists id, (HeapDir b), s4. split; [|done]. destruct (tr_dir _ _ HT _ _ Hi') as [Hn' _]. pose proof (node_range s _ _ Hs Hn'). by rewrite i32_small, Et by lia.
  - destruct Hloop as (i' & ptr & s2 & Hi' & Ha2 & ->). rewrite bind_done. by exists i', ptr, s2.
Qed.

(** ** Properties *)

(** C12. [search_file] finds what a path leads to in the tree of directories: it returns
    the number of the last name, or -1 when a name is missing, its type, and the names
    looked up so far. A regular file ends the lookup even when more names follow. The
    directory that was searched last (the parent of a directory that was found) is left
    open for the caller; closing it leaves every inode, open directory, descriptor and
    block of memory as before the call. Slashes may be repeated or trail; the names have
    fewer than 16 characters, and the path is "/" or has a name. *)
Theorem search_file_resolves s T p junk :
  fs_ok s -> tree_ok s T -> users_below s (2 ^ 32 - 2) -> room 4 (mem s) -> path_ok p ->
  let a := look_up (dsk s) T p in
  exists i ptr s1 s2, search_file s p junk = Done (an_no a, mk_rec (joined (an_seen a)) ptr (an_type a), s1) /\ fs_ok s1 /\ keeps s s1 /\
    T !! an_dir a = Some i /\ (exists d pos j, dir_at s1 ptr = Done (mk_dir d pos) /\ inodes s1 !! d = Some j /\ pure j = pure i) /\
    dir_close s1 ptr = Done s2 /\ fs_ok s2 /\ calm s s2.
Proof.
  intros Hs HT Hu Hr Hp. cbv zeta. destruct (search_file_ok s T p junk Hs HT Hu Hr Hp) as (i & ptr & s1 & E & Hi & Ha).
  destruct (ad_close _ _ _ _ Ha s1 (ad_ok _ _ _ _ Ha) (calm_refl s1)) as (s2 & Hc & Hs2 & Hc2). destruct (ad_at _ _ _ _ Ha) as (d & pos & j & A1 & _ & A2 & A3).
  exists i, ptr, s1, s2. split_and!; try done; [apply Ha|apply Ha|]. by exists d, pos, j.
Qed.
End Tree.

(** ** A sample tree

    The root directory holds "foo" (inode 5) and the directory "d" (inode 6), which holds
    "g", another name of inode 5. The memory is the kernel's heap, with 8 pages. *)
Definition name_d : list Z := [100].
Definition name_g : list Z := [103].
Definition tree_entries : list Z :=
  entry_bytes (sample_entry dot 0 FT_DIRECTORY) ++ entry_bytes (sample_entry dotdot 0 FT_DIRECTORY) ++ replicate 24 0 ++
  entry_bytes (sample_entry foo 5 FT_REGULAR) ++ entry_bytes (sample_entry name_d 6 FT_DIRECTORY) ++ replicate 392 0.
Definition sub_entries : list Z :=
  entry_bytes (sample_entry dot 6 FT_DIRECTORY) ++ entry_bytes (sample_entry dotdot 0 FT_DIRECTORY) ++ entry_bytes (sample_entry name_g 5 FT_REGULAR) ++ replicate 440 0.
Definition tree_root : inode := mk_inode 0 96 1 0 (2660 :: replicate 12 0).
Definition tree_sub : inode := mk_inode 6 72 0 0 (2663 :: replicate 12 0).
Definition tree_bbits : list Z := 15 :: replicate 511 0.
Definition tree_ibits : list Z := 97 :: replicate 511 0.
Definition tree_part : partition := mk_part 2048 4708 sample_sb (mk_bitmap 512 tree_bbits 0) (mk_bitmap 512 tree_ibits 0) [sample_p].
Definition tree_sectors : gmap Z (list Z) :=
  <[2660 := tree_entries]> (<[2663 := sub_entries]>
    (<[2052 := inode_bytes (pure tree_root) ++ replicate 304 0 ++ inode_bytes sample_inode ++ take 56 (inode_bytes tree_sub)]>
      (<[2053 := drop 56 (inode_bytes tree_sub) ++ replicate 492 0]> (<[2050 := tree_bbits]> (<[2051 := tree_ibits]> sample_sectors))))).
Definition tree_disk : disk :=
  mk_disk (mk_channel 0 0 0 0 0 0 false false 0 (fun k => if k =? 1 then tree_sectors else ∅) (fun _ => []) sample_status) 0 1.
Definition sample_tree : fs (D := disk) (A := stock vm 8) :=
  mk_fs tree_disk sample_heap2 {[sample_p := tree_root]} tree_part (replicate 32 (mk_file 0 0 0)) ([0; 1; 2] ++ replicate 5 (-1)) (mk_dir sample_p 0) ∅ 0.
Definition sample_dirs : gmap Z inode := {[0 := tree_root; 6 := tree_sub]}.

Lemma sample_heap2_stocked : stocked 8 (sample_heap2 : stock vm 8) /\ held sample_heap2 = 1.
Proof.
  destruct sample_heap2_ok as [Hok _]. assert (E : exists p, sys_malloc sample_heap 20 = Done (p, sample_heap2)).
  { unfold sample_heap2. pose proof sample_malloc as Hm. destruct (sys_malloc sample_heap 20) as [[p h]| | |]; [|done..]. by exists p. }
  destruct E as [p E]. assert (Hs : 0 < 20 <= 1024) by lia. split; [exact (proj1 (stocked_small 8 sample_heap 20 p sample_heap2 sample_stocked Hs E Hok))|]. vm_compute. reflexivity.
Qed.

Lemma tree_root_wf : inode_wf tree_root /\ inode_wf tree_sub.
Proof. split; unfold inode_wf, is_u32; simpl; split_and!; try done; lia || (repeat constructor; lia). Qed.

Lemma sample_tree_ok : fs_ok sample_tree.
Proof.
  destruct sample_heap2_ok as [_ Hl]. constructor; [|exact (proj1 sample_heap2_stocked)|exact (fo_layout _ sample_fs_ok)| |].
  - split; [done|]. split; [by right|]. split; [exists 2%nat; vm_compute; reflexivity|]. split; [done|].
    intros lba c Hc. change (tree_sectors !! lba = Some c) in Hc. unfold tree_sectors, sample_sectors in Hc.
    repeat (apply lookup_insert_Some in Hc as [[_ <-]|[_ Hc]]; [vm_compute; reflexivity|]). by apply lookup_empty_Some in Hc.
  - assert (E1 : length tree_bbits = 512%nat /\ length tree_ibits = 512%nat) by (vm_compute; split; reflexivity). destruct E1 as [E1 E2].
    unfold bitmaps_ok, bitmap_wf, nbits. cbn [cur_part sample_tree tree_part block_bitmap inode_bitmap sb sample_sb btmp_bytes_len bits block_bitmap_sects inode_bitmap_sects data_start_lba start_lba sec_cnt].
    rewrite E1, E2. split_and!; try done. lia.
  - split_and!.
    + apply NoDup_singleton.
    + intros p Hp. change (p ∈ [sample_p]) in Hp. apply list_elem_of_singleton in Hp as ->. exists tree_root, 32. split_and!; try done. exact (proj1 tree_root_wf).
    + intros p q i j Hp Hq _ _ _. change (p ∈ [sample_p]) in Hp. change (q ∈ [sample_p]) in Hq. apply list_elem_of_singleton in Hp as ->, Hq as ->. done.
Qed.

(** The blocks of a directory with one block. *)
Lemma one_block i b : i_sectors i = b :: replicate 12 0 -> forall j, 0 <= j < 140 -> dblock (dsk sample_tree) i j = if decide (j = 0) then b else 0.
Proof.
  intros E j Hj. assert (Ei : indirect i = 0) by (unfold indirect; by rewrite E). unfold dblock. case_decide as H1; [by rewrite decide_False by lia|].
  unfold file_block. rewrite decide_True by lia. rewrite E. case_decide as H2; [by subst j|]. destruct (Z.to_nat j) as [|n] eqn:En; [lia|].
  change ((b :: replicate 12 0) !! S n) with (replicate 12 0 !! n). destruct (replicate 12 0 !! n) as [z|] eqn:El; [|done]. by apply lookup_replicate in El as [-> _].
Qed.

Lemma one_block_dir i b :
  i_sectors i = b :: replicate 12 0 -> inode_wf i -> taken sample_tree b -> i_size i = 24 * Z.of_nat (length (dir_list (dsk sample_tree) i)) ->
  forallb (fun e => bool_decide (live e) || bool_decide (cname (filename e) = [])) (slots (dsk sample_tree) i) = true -> has_entry (dsk sample_tree) b dot -> b <> 0 ->
  dir_ok sample_tree i.
Proof.
  intros E Hw Ht Hsz Hf Hd Hb0. pose proof (one_block i b E) as Hb. assert (Ei : indirect i = 0) by (unfold indirect; by rewrite E). constructor; try done.
  - intros e He Hl. rewrite List.forallb_forall in Hf. specialize (Hf e ltac:(by apply list_elem_of_In)). rewrite bool_decide_false in Hf by done. by apply bool_decide_eq_true_1 in Hf.
  - intros j Hj. rewrite Hb by done. by case_decide.
  - intros j Hj. rewrite Hb by done. case_decide; [done|]. intros [Ej|(e & He & _)]; [done|by apply elem_of_nil in He].
  - intros j k Hj Hk. rewrite !Hb by done. repeat case_decide; done || lia.
Qed.

Lemma sample_tree_dirs : dir_ok sample_tree tree_root /\ dir_ok sample_tree tree_sub.
Proof.
  destruct tree_root_wf as [W1 W2]. split.
  - apply (one_block_dir _ 2660); [done|done|by vm_compute|vm_compute; reflexivity|vm_compute; reflexivity| |done].
    exists (sample_entry dot 0 FT_DIRECTORY). split; [|done]. apply list_elem_of_lookup. exists 0%nat. vm_compute. reflexivity.
  - apply (one_block_dir _ 2663); [done|done|by vm_compute|vm_compute; reflexivity|vm_compute; reflexivity| |done].
    exists (sample_entry dot 6 FT_DIRECTORY). split; [|done]. apply list_elem_of_lookup. exists 0%nat. vm_compute. reflexivity.
Qed.

Lemma sample_tree_open k : is_open sample_tree k -> k = 0.
Proof.
  intros (p & i & Hp & Hi & <-). change (p ∈ [sample_p]) in Hp. apply list_elem_of_singleton in Hp as ->. change (({[sample_p := tree_root]} : gmap Z inode) !! sample_p = Some i) in Hi.
  rewrite lookup_singleton_eq in Hi. by injection Hi as <-.
Qed.

Lemma sample_tree_slot i : inode_wf i -> i_no i < 4096 ->
  forallb (fun x => dbyte (dsk sample_tree) (slot sample_tree (i_no i) + x) =? default 0 (inode_bytes (pure i) !! Z.to_nat x)) (seqZ 0 76) = true -> slot_holds sample_tree i.
Proof. intros Hw Hk Hf. split; [done|]. split; [done|]. intros x Hx. apply Z.eqb_eq. by apply (forall_seqZ _ 76 Hf). Qed.

Lemma sample_tree_nodes : inode_of sample_tree 0 tree_root /\ inode_of sample_tree 6 tree_sub /\ inode_of sample_tree 5 sample_inode.
Proof.
  destruct tree_root_wf as [W1 W2]. split_and!; (split; [done|]).
  - left. exists sample_p, tree_root. split; [by left|]. split; [apply lookup_singleton_eq|done].
  - right. split; [by intros ?%sample_tree_open|]. apply sample_tree_slot; [done|done|vm_compute; reflexivity].
  - right. split; [by intros ?%sample_tree_open|]. apply sample_tree_slot; [exact (proj1 sample_slot)|done|vm_compute; reflexivity].
Qed.

Lemma sample_tree_lists :
  dir_list (dsk sample_tree) tree_root = [sample_entry dot 0 FT_DIRECTORY; sample_entry dotdot 0 FT_DIRECTORY; sample_entry foo 5 FT_REGULAR; sample_entry name_d 6 FT_DIRECTORY] /\
  dir_list (dsk sample_tree) tree_sub = [sample_entry dot 6 FT_DIRECTORY; sample_entry dotdot 0 FT_DIRECTORY; sample_entry name_g 5 FT_REGULAR].
Proof. split; vm_compute; reflexivity. Qed.

Lemma sample_dirs_inv k i : sample_dirs !! k = Some i -> (k = 0 /\ i = tree_root) \/ (k = 6 /\ i = tree_sub).
Proof. unfold sample_dirs. intros [[<- <-]|[_ Hk]]%lookup_insert_Some; [by left|]. apply lookup_singleton_Some in Hk as [<- <-]. by right. Qed.

Lemma sample_tree_tree : tree_ok sample_tree sample_dirs.
Proof.
  destruct sample_tree_nodes as (N0 & N6 & N5), sample_tree_dirs as [D0 D6], sample_tree_lists as [L0 L6]. constructor.
  - exists tree_root, tree_root. split; [done|]. split; [by left|]. split; [apply lookup_singleton_eq|done].
  - intros k i [[-> ->]|[-> ->]]%sample_dirs_inv; done.
  - assert (S0 : is_Some (sample_dirs !! 0)) by (exists tree_root; vm_compute; reflexivity). assert (S6 : is_Some (sample_dirs !! 6)) by (exists tree_sub; vm_compute; reflexivity).
    assert (S5 : exists j, inode_of sample_tree 5 j) by (exists sample_inode; exact N5).
    intros k i e [[-> ->]|[-> ->]]%sample_dirs_inv; [rewrite L0|rewrite L6]; intros He.
    + apply elem_of_cons in He as [->|[->|[->|[->|[]%elem_of_nil]%elem_of_cons]%elem_of_cons]%elem_of_cons]; [left; exact (conj eq_refl S0)..|right; exact (conj eq_refl S5)|left; exact (conj eq_refl S6)].
    + apply elem_of_cons in He as [->|[->|[->|[]%elem_of_nil]%elem_of_cons]%elem_of_cons]; [left; exact (conj eq_refl S6)|left; exact (conj eq_refl S0)|right; exact (conj eq_refl S5)].
Qed.

Lemma sample_tree_users : users_below sample_tree (2 ^ 32 - 2).
Proof.
  intros p i Hp Hi. change (p ∈ [sample_p]) in Hp. apply list_elem_of_singleton in Hp as ->. change (({[sample_p := tree_root]} : gmap Z inode) !! sample_p = Some i) in Hi.
  rewrite lookup_singleton_eq in Hi. injection Hi as <-. by vm_compute.
Qed.

Lemma sample_tree_room : room 7 (mem sample_tree).
Proof. destruct sample_heap2_stocked as [Hs Hh]. apply (stock_has_room 8 (sample_heap2 : stock vm 8) 7 Hs). rewrite Hh. lia. Qed.

(** "/d//g" *)
Definition sample_path : list Z := slash :: name_d ++ slash :: slash :: name_g.

Lemma sample_path_ok : path_ok sample_path.
Proof. constructor; [done|repeat constructor; discriminate|by vm_compute|vm_compute; repeat constructor|discriminate]. Qed.

Lemma search_file_resolves_witness :
  exists ptr s1 s2, search_file sample_tree sample_path 77 = Done (5, mk_rec (slash :: name_d ++ slash :: name_g) ptr FT_REGULAR, s1) /\ dir_close s1 ptr = Done s2 /\ calm sample_tree s2.
Proof.
  destruct (search_file_resolves sample_tree sample_dirs sample_path 77) as (i & ptr & s1 & s2 & H1 & _ & _ & _ & _ & H6 & _ & H8).
  - exact sample_tree_ok.
  - exact sample_tree_tree.
  - exact sample_tree_users.
  - apply (room_less 7); [lia|exact sample_tree_room].
  - exact sample_path_ok.
  - assert (E : look_up (dsk sample_tree) sample_dirs sample_path = mk_answer 5 FT_REGULAR 6 [name_d; name_g]) by (vm_compute; reflexivity).
    rewrite E in H1. exists ptr, s1, s2. split; [exact H1|]. split; [exact H6|exact H8].
Defined.
