(* ===== verification/PathCalls.v ===== *)
(** * The calls on paths (fs/fs.c)

    What [sys_stat], [sys_chdir] and [sys_open] make of the answer of [search_file],
    in terms of the tree of Walk. *)
From stdpp Require Import base numbers list option tactics gmap fin_maps.
From Stdlib Require Import ZArith Lia.
From S2P Require Import Prelude Bitmap Paging Heap Ide Iface Inode File FileIo Dir Node Stock Path Calls Builtin Walk.

Section PathCalls.
Context {D A : Type} `{BlockDev D} `{Alloc A}.
Implicit Types s : fs (D := D) (A := A).

(** What the calls need: a tree, memory for an open directory and two buffers, and counts
    of users that do not overflow. *)
Record ready s (T : gmap Z inode) : Prop := {
  rd_ok : fs_ok s;
  rd_tree : tree_ok s T;
  rd_users : users_below s (2 ^ 32 - 2);
  rd_room : room 4 (mem s)
}.

(** ** Answers *)
Lemma walk_kind s T k par seen ns :
  tree_ok s T -> is_Some (T !! k) ->
  let a := walk (dsk s) T k par seen ns in
  (an_type a = FT_DIRECTORY /\ is_Some (T !! an_no a)) \/ (an_type a = FT_REGULAR /\ exists j, inode_of s (an_no a) j) \/ (an_type a = FT_UNKNOWN /\ an_no a = -1).
Proof.
  intros HT. revert k par seen. induction ns as [|n ns IH]; intros k par seen [i Hk]; cbn [walk]; [left; by split; [|exists i]|].
  rewrite Hk. cbn [mbind option_bind]. destruct (entry_named (dsk s) i n) as [e|] eqn:Ee; [|by right; right].
  destruct (tr_entry _ _ HT k i e Hk (entry_in _ _ _ _ Ee)) as [[Et Hi]|[Et Hi]]; rewrite Et; [rewrite decide_True by done; by apply IH|].
  rewrite decide_False by done. right. by left.
Qed.

Lemma look_up_kind s T p :
  tree_ok s T -> let a := look_up (dsk s) T p in
  (an_type a = FT_DIRECTORY /\ is_Some (T !! an_no a)) \/ (an_type a = FT_REGULAR /\ exists j, inode_of s (an_no a) j) \/ (an_type a = FT_UNKNOWN /\ an_no a = -1).
Proof.
  intros HT. destruct (tr_root _ _ HT) as (r & _ & Hr & _). unfold look_up. destruct (is_root p); [left; by split; [|exists r]|]. apply walk_kind; [done|by exists r].
Qed.

(** Something that was found is an inode. *)
Lemma look_up_node s T p :
  fs_ok s -> tree_ok s T -> let a := look_up (dsk s) T p in an_type a <> FT_UNKNOWN -> 0 <= an_no a < 4096 /\ exists j, inode_of s (an_no a) j.
Proof.
  intros Hs HT a Ha. assert (Hj : exists j, inode_of s (an_no a) j).
  { destruct (look_up_kind s T p HT) as [[_ [i Hi]]|[[_ Hj]|[Hn _]]]; [exists i; by apply (tr_dir _ _ HT)|done|done]. }
  split; [|done]. destruct Hj as [j Hj]. by apply (node_range s _ j).
Qed.

Lemma look_up_missing s T p : tree_ok s T -> let a := look_up (dsk s) T p in an_type a = FT_UNKNOWN -> an_no a = -1.
Proof. intros HT a Ha. destruct (look_up_kind s T p HT) as [[Et _]|[[Et _]|[_ En]]]; [subst a; rewrite Ha in Et; done..|done]. Qed.

(** ** stat *)
Lemma stat_number s1 no j :
  fs_ok s1 -> inode_of s1 no j -> users_below s1 (2 ^ 32 - 1) -> room 2 (mem s1) ->
  exists q s2 s3 i, inode_open s1 no = Done (q, s2) /\ inode_at s2 q = Done i /\ i_size i = i_size j /\ inode_close s2 q = Done s3 /\ fs_ok s3 /\ calm s1 s3.
Proof.
  intros Hs Hj Hu Hr. destruct (opening s1 no j Hs Hj Hu Hr) as (q & s2 & Ho & [K1 K2 (i & Hi & Ei) K4 K5 K6 K7 K8 K9]).
  destruct (K9 s2 K1 (still_refl s2)) as (s3 & Hc & Hs3 & Hst & Hd). exists q, s2, s3, i. unfold inode_at. rewrite Hi. destruct (pure_no _ _ Ei) as (_ & Ez & _).
  split_and!; try done. split; [done|]. intros x n _. by rewrite Hd, K5.
Qed.

(** [sys_stat]: the number, size and type of what the path leads to, or -1 when
    a name is missing; afterwards every inode, directory and block of memory is as it was. *)
Lemma sys_stat_ok s T p junk :
  ready s T -> path_ok p ->
  let a := look_up (dsk s) T p in
  exists s', fs_ok s' /\ calm s s' /\
    if decide (an_type a = FT_UNKNOWN) then sys_stat s p junk = Done (None, s')
    else exists j, inode_of s (an_no a) j /\ sys_stat s p junk = Done (Some (mk_stat (an_no a) (i_size j) (an_type a)), s').
Proof.
  intros [Hs HT Hu Hr] Hp. cbv zeta. destruct (search_file_ok s T p junk Hs HT Hu Hr Hp) as (i & ptr & s1 & E & Hi & Ha). unfold sys_stat. destruct (is_root p) eqn:Er.
  - destruct (tr_root _ _ HT) as (r & j & Hr0 & Hp0 & Hj & Ej). exists s. unfold look_up. rewrite Er. cbn [an_type an_no]. split; [done|]. split; [apply calm_refl|].
    rewrite decide_False by done. exists r. split; [by apply (tr_dir _ _ HT)|]. unfold inode_at. rewrite Hj, bind_done. by destruct (pure_no _ _ Ej) as (_ & -> & _).
  - rewrite E, bind_done. cbn [file_type parent_dir]. case_decide as Et.
    + rewrite (look_up_missing s T p HT Et). cbn [negb Z.eqb Pos.eqb]. rewrite bind_done. cbn [fst snd].
      destruct (ad_close _ _ _ _ Ha s1 (ad_ok _ _ _ _ Ha) (calm_refl s1)) as (s3 & -> & Hs3 & Hc3). by exists s3.
    + destruct (look_up_node s T p Hs HT Et) as (Hrange & j & Hj). destruct (Z.eqb_spec (an_no (look_up (dsk s) T p)) (-1)); [lia|]. cbn [negb]. rewrite u32_small by lia.
      destruct (stat_number s1 _ j (ad_ok _ _ _ _ Ha) (kp_node _ _ (ad_keeps _ _ _ _ Ha) _ _ Hj) (ad_users _ _ _ _ Ha) (ad_room _ _ _ _ Ha 2 Hr)) as (q & s2 & s3 & i2 & -> & Hi2 & Ez & Hc & Hs3 & Hc3).
      rewrite bind_done, Hi2, bind_done, Hc, !bind_done. cbn [fst snd]. destruct (ad_close _ _ _ _ Ha s3 Hs3 Hc3) as (s4 & -> & Hs4 & Hc4). rewrite bind_done, Ez.
      exists s4. split; [done|]. split; [done|]. by exists j.
Qed.

(** ** chdir *)
Lemma inode_close_cwd s n p s' : inode_close s p = Done s' -> inode_close (with_cwd n s) p = Done (with_cwd n s').
Proof.
  unfold inode_close, inode_at. cbn [inodes with_cwd]. destruct (inodes s !! p) as [i|]; [|done]. rewrite !bind_done. destruct (_ =? 0); [|by intros [= <-]].
  cbn [cur_part with_cwd set_inode with_inodes with_open with_part mem]. case_decide; [|done]. destruct (al_free (mem s) p); try done. rewrite !bind_done. by intros [= <-].
Qed.

Lemma dir_close_cwd s n ptr s' : dir_close s ptr = Done s' -> dir_close (with_cwd n s) ptr = Done (with_cwd n s').
Proof.
  destruct ptr as [|b]; [by intros [= <-]|]. unfold dir_close, dir_at. cbn [dirs with_cwd]. destruct (dirs s !! b) as [d|]; [|done]. rewrite !bind_done.
  destruct (inode_close s (d_inode d)) as [s1| | |] eqn:E; try done. rewrite (inode_close_cwd s n _ s1 E), !bind_done. cbn [mem with_cwd]. destruct (al_free (mem s1) b); try done.
  rewrite !bind_done. by intros [= <-].
Qed.

Lemma calm_cwd s s' n : calm s s' -> calm (with_cwd n s) (with_cwd n s').
Proof. intros [[] Hd]. split; [by constructor|done]. Qed.

Lemma cwd_ok s n : fs_ok s -> fs_ok (with_cwd n s).
Proof. intros []. by constructor. Qed.

Lemma sys_chdir_ok s T p junk :
  ready s T -> path_ok p ->
  let a := look_up (dsk s) T p in
  exists s', fs_ok s' /\
    if decide (an_type a = FT_DIRECTORY) then sys_chdir s p junk = Done (0, s') /\ calm (with_cwd (an_no a) s) s'
    else sys_chdir s p junk = Done (-1, s') /\ calm s s'.
Proof.
  intros [Hs HT Hu Hr] Hp. cbv zeta. destruct (search_file_ok s T p junk Hs HT Hu Hr Hp) as (i & ptr & s1 & E & Hi & Ha). unfold sys_chdir. rewrite E, bind_done. cbn [file_type parent_dir].
  destruct (ad_close _ _ _ _ Ha s1 (ad_ok _ _ _ _ Ha) (calm_refl s1)) as (s3 & Hc & Hs3 & Hc3). case_decide as Et.
  - destruct (look_up_node s T p Hs HT ltac:(by rewrite Et)) as (Hrange & _). destruct (Z.eqb_spec (an_no (look_up (dsk s) T p)) (-1)); [lia|].
    rewrite Et. cbn [negb andb Z.eqb FT_DIRECTORY Pos.eqb]. rewrite u32_small by lia. rewrite (dir_close_cwd s1 _ ptr s3 Hc), bind_done. eexists. split; [by apply cwd_ok|].
    split; [done|]. by apply calm_cwd.
  - destruct (Z.eqb_spec (an_type (look_up (dsk s) T p)) FT_DIRECTORY); [done|]. rewrite andb_false_r, Hc, bind_done. by exists s3.
Qed.

(** ** open *)

(** The names looked up are a beginning of the names of the path. *)
Lemma walk_seen (d : D) T k par seen ns : exists m, an_seen (walk d T k par seen ns) = seen ++ take m ns /\ (ns <> [] -> (0 < m)%nat).
Proof.
  revert k par seen. induction ns as [|n ns IH]; intros k par seen; cbn [walk]; [exists 0%nat; simpl; by rewrite app_nil_r|].
  destruct (T !! k ≫= _) as [e|]; [case_decide|]; [|exists 1%nat; split; [done|lia]..]. destruct (IH (de_i_no e) k (seen ++ [n])) as (m & -> & _). exists (S m). rewrite <- app_assoc. split; [done|lia].
Qed.

Lemma take_all {X} (l : list X) m : length (take m l) = length l <-> take m l = l.
Proof. split; [|by intros ->]. intros E. apply take_ge. rewrite length_take in E. lia. Qed.

(** A path that does not end in a slash ends in its last name. *)
Lemma last_name p c :
  last p = Some c -> c <> slash -> comps p <> [] /\
  match after_slash p with Some b => last (comps p) = Some b /\ (head p <> Some slash -> (2 <= length (comps p))%nat) | None => comps p = [p] end.
Proof.
  intros Hl Hc. induction p as [|x r IH]; [done|]. destruct r as [|y r].
  - injection Hl as ->. cbn [after_slash splits]. destruct (Z.eqb_spec c slash); [done|]. by rewrite decide_False.
  - destruct (IH Hl) as [I1 I2]. clear IH. cbn [after_slash] in *. set (o := match after_slash r with Some b => Some b | None => if y =? slash then Some r else None end) in *.
    assert (Ec : comps (x :: y :: r) = if decide (x = slash) then comps (y :: r) else if decide (y = slash) then [x] :: comps (y :: r) else match comps (y :: r) with n :: ns => (x :: n) :: ns | [] => [[x]] end) by done.
    rewrite Ec. destruct (Z.eqb_spec x slash) as [->|Hx].
    + rewrite decide_True by done. split; [done|]. destruct o as [b|]; [destruct I2; by split|]. rewrite I2. by split.
    + rewrite decide_False by done. destruct (decide (y = slash)) as [->|Hy].
      * split; [done|]. destruct o as [b|] eqn:Eo; [|unfold o in Eo; by destruct (after_slash r)]. destruct I2 as [I2 _]. split.
        -- destruct (comps (slash :: r)) eqn:E; [done|]. by rewrite last_cons_cons.
        -- intros _. destruct (comps (slash :: r)); [done|simpl; lia].
      * destruct (comps (y :: r)) as [|n ns] eqn:E; [done|]. split; [done|]. destruct o as [b|]; [|injection I2 as -> ->; done]. destruct I2 as [I2 I3].
        specialize (I3 ltac:(cbn [head]; congruence)). destruct ns as [|n2 ns]; [simpl in I3; lia|]. split; [by rewrite last_cons_cons in *|simpl in *; lia].
Qed.

Lemma last_comp p : path_ok p -> last p <> Some slash -> exists b, last (comps p) = Some b /\ basename p = Done b /\ comps p <> [].
Proof.
  intros [P1 _ _ _ _] Hl. destruct (last p) as [c|] eqn:El; [|by apply last_None in El as ->]. destruct (last_name p c El ltac:(congruence)) as [H1 H2]. unfold basename.
  destruct (after_slash p) as [b|] eqn:E; [exists b; tauto|]. destruct p as [|x r]; [done|]. injection P1 as ->. cbn [after_slash] in E. destruct (after_slash r); [done|]. by rewrite Z.eqb_refl in E.
Qed.

(** The depths [sys_open] compares. *)
Lemma depth_path p name : path_ok p -> comps p <> [] -> length name = 16%nat -> path_depth_cnt p name = Done (Z.of_nat (length (comps p))).
Proof.
  intros [_ P2 P3 P4 _] Hne Hn. change MAX_PATH_LEN with 512 in P3. apply path_depth_components; try done; [|lia]. eapply Forall_impl; [exact P4|]. intros x Hx. cbn beta in *. lia.
Qed.

Lemma seen_ok p m : path_ok p -> comps p <> [] -> (0 < m)%nat -> path_ok (joined (take m (comps p))) /\ comps (joined (take m (comps p))) = take m (comps p).
Proof.
  intros [P1 P2 P3 P4 _] Hne Hm. pose proof (comps_plain p P2) as Hpl. pose proof (Forall_take _ m _ Hpl) as Hpt. pose proof (comps_joined _ Hpt) as Ec. split; [|done].
  pose proof (joined_comps p) as Hj. rewrite bool_decide_true in Hj by done. rewrite <- (take_drop m (comps p)) in Hj at 1. unfold joined in Hj at 1. rewrite bind_app, length_app in Hj.
  fold (joined (take m (comps p))) in Hj. constructor; [| |lia|rewrite Ec; by apply Forall_take|].
  - destruct (comps p) as [|n ns]; [done|]. destruct m as [|m]; [lia|done].
  - clear -Hpt. induction Hpt as [|n ns [_ Hn] _ IH]; [done|]. unfold joined in *. rewrite bind_cons. apply Forall_app. split; [|done]. apply Forall_cons. split; [done|].
    eapply Forall_impl; [exact Hn|]. by intros c [].
  - rewrite Ec. destruct (comps p) as [|n ns]; [done|]. destruct m; [lia|done].
Qed.

Lemma depth_seen s T p name :
  path_ok p -> comps p <> [] -> length name = 16%nat -> let a := look_up (dsk s) T p in an_type a <> FT_DIRECTORY ->
  path_depth_cnt (joined (an_seen a)) name = Done (Z.of_nat (length (an_seen a))) /\ (length (an_seen a) = length (comps p) <-> an_seen a = comps p).
Proof.
  intros Hp Hne Hn a. unfold a, look_up. destruct (is_root p); [done|]. intros _. destruct (walk_seen (dsk s) T 0 0 [] (comps p)) as (m & -> & Hm). specialize (Hm Hne). cbn [app].
  destruct (seen_ok p m Hp Hne Hm) as [H1 H2]. split; [|apply take_all]. rewrite depth_path; [by rewrite H2|done| |done].
  rewrite H2. destruct (comps p); [done|]. by destruct m; [lia|].
Qed.

Definition creates (flags : Z) : bool := negb (Z.land flags O_CREAT =? 0).

(** What [sys_open] refuses: a directory, a name missing or a file met before the last
    name, a file that is not there, a file that is there when it is to be created. *)
Definition refused (a : answer) (p : list Z) (flags : Z) : Prop :=
  an_type a = FT_DIRECTORY \/ an_seen a <> comps p \/ (an_type a = FT_UNKNOWN /\ creates flags = false) \/ (an_type a <> FT_UNKNOWN /\ creates flags = true).
#[local] Instance refused_dec a p flags : Decision (refused a p flags).
Proof. unfold refused. apply _. Defined.

(** The two tests before the path is looked up. *)
Lemma sys_open_slash s p flags junk name : last p = Some slash -> sys_open s p flags junk name = Done (-1, s).
Proof. intros El. unfold sys_open. by rewrite El. Qed.

Lemma sys_open_flags s p flags junk name : head p = Some slash -> last p <> Some slash -> 7 < flags -> sys_open s p flags junk name = Panic.
Proof.
  intros Hh El Hf. unfold sys_open. destruct (last p) as [c|] eqn:E; [|by apply last_None in E as ->]. destruct (Z.eqb_spec c slash); [congruence|].
  destruct (Z.leb_spec flags 7); [lia|done].
Qed.

Lemma sys_open_ok s T p flags junk name :
  ready s T -> path_ok p -> last p <> Some slash -> flags <= 7 -> length name = 16%nat ->
  let a := look_up (dsk s) T p in
  if decide (refused a p flags) then exists s', sys_open s p flags junk name = Done (-1, s') /\ fs_ok s' /\ calm s s'
  else exists b i ptr s1, last (comps p) = Some b /\ T !! an_dir a = Some i /\ at_dir s i ptr s1 /\ sys_open s p flags junk name =
    if creates flags then r ← file_create s1 ptr b flags; s2 ← dir_close r.2 ptr; Done (r.1, s2) else file_open s1 (an_no a) flags.
Proof.
  intros [Hs HT Hu Hr] Hp Hl Hf Hn. cbv zeta. destruct (search_file_ok s T p junk Hs HT Hu Hr Hp) as (i & ptr & s1 & E & Hi & Ha).
  destruct (last_comp p Hp Hl) as (b & Hb & Hbase & Hne). destruct (ad_close _ _ _ _ Ha s1 (ad_ok _ _ _ _ Ha) (calm_refl s1)) as (s3 & Hc & Hs3 & Hc3).
  unfold sys_open. destruct (last p) as [c|] eqn:El; [|apply last_None in El as ->; by destruct Hp]. destruct (Z.eqb_spec c slash); [congruence|]. assert_ok; [|by apply Z.leb_le].
  rewrite depth_path by done. rewrite bind_done, E, bind_done. cbn [file_type parent_dir searched_path]. pose proof (depth_seen s T p name Hp Hne Hn) as Hds. cbv zeta in Hds.
  pose proof (splits_length slash p) as Hcl. pose proof (pt_len _ Hp) as Hlen. change MAX_PATH_LEN with 512 in Hlen. set (a := look_up (dsk s) T p) in *.
  destruct (Z.eqb_spec (an_type a) FT_DIRECTORY) as [Et|Et]; [rewrite decide_True by (by left); rewrite Hc, bind_done; by exists s3|].
  destruct (Hds Et) as [-> Hlen2]. rewrite bind_done. assert (Hle : (length (an_seen a) <= length (comps p))%nat).
  { unfold a, look_up. destruct (is_root p); [simpl; lia|]. destruct (walk_seen (dsk s) T 0 0 [] (comps p)) as (m & -> & _). cbn [app]. rewrite length_take. lia. }
  rewrite !u32_small by lia. destruct (Z.eqb_spec (Z.of_nat (length (comps p))) (Z.of_nat (length (an_seen a)))) as [Ed|Ed]; cbn [negb].
  2:{ rewrite decide_True by (right; left; intros E2; apply Ed; by rewrite E2). rewrite Hc, bind_done. by exists s3. }
  fold (creates flags). assert (Es : an_seen a = comps p) by (apply Hlen2; lia).
  assert (Hfound : (an_no a =? -1) = bool_decide (an_type a = FT_UNKNOWN)).
  { case_bool_decide as E2; [pose proof (look_up_missing s T p HT E2) as E3; fold a in E3; by rewrite E3|]. destruct (look_up_node s T p Hs HT E2) as [Hr2 _]. fold a in Hr2. apply Z.eqb_neq. lia. }
  rewrite Hfound, negb_involutive. case_bool_decide as E2; destruct (creates flags) eqn:Ecr; cbn [andb negb].
  - rewrite decide_False by (unfold refused; intuition congruence). exists b, i, ptr, s1. split_and!; try done. by rewrite Hbase, bind_done.
  - rewrite decide_True by (unfold refused; intuition congruence). rewrite Hc, bind_done. by exists s3.
  - rewrite decide_True by (unfold refused; intuition congruence). rewrite Hc, bind_done. by exists s3.
  - rewrite decide_False by (unfold refused; intuition congruence). exists b, i, ptr, s1. split_and!; try done. destruct (look_up_node s T p Hs HT E2) as [Hr2 _]. fold a in Hr2. by rewrite u32_small by lia.
Qed.

(** ** Reading a file by its path *)
Lemma file_ok_ext s s' i j :
  file_ok s i -> (forall k, bd_sector (dsk s') k = bd_sector (dsk s) k) -> same_part (cur_part s) (cur_part s') -> inode_wf j -> pure j = pure i ->
  file_ok s' j /\ forall a n, contents (dsk s') j a n = contents (dsk s) i a n.
Proof.
  intros [F1 F2 F3 [B1 B2 B3 B4 B5]] Hsec Hp Hw Hj. destruct (pure_no _ _ Hj) as (_ & Ez & Es). destruct (same_part_fields _ _ Hp) as (P1 & P2 & P3 & P4).
  assert (Eb : forall n, file_block (dsk s') j n = file_block (dsk s) i n) by (intros n; unfold file_block, indirect; by rewrite Es, Hsec).
  assert (Ei : indirect j = indirect i) by (unfold indirect; by rewrite Es). assert (En : nblocks j = nblocks i) by (unfold nblocks; by rewrite Es, Ez).
  assert (Eu : forall b, used_block s b -> used_block s' b) by (intros b; unfold used_block, data_block; by rewrite P1, P2, P3, P4). split.
  - constructor; [done|by rewrite Ez|by rewrite En, Ez|]. rewrite En. constructor.
    + intros n Hn. rewrite Es. by apply B1.
    + by rewrite Ei.
    + rewrite Ei. intros Hn. destruct (B3 Hn) as [C1 C2]. split; [by apply Eu|]. intros k Hk. rewrite Eb. by apply C2.
    + intros k Hk. rewrite Eb. by apply Eu, B4.
    + intros a b Ha Hb. rewrite !Eb. by apply B5.
  - intros a n. unfold contents, fbyte, dbyte. apply list_fmap_ext. intros k x _. by rewrite Eb, Hsec.
Qed.

(** Opening a file for reading: the descriptor leads to an entry with the inode of the
    number, at position 0. *)
Lemma open_reading s1 no j g l :
  fs_ok s1 -> tables_ok s1 -> inode_of s1 no j -> users_below s1 (2 ^ 32 - 1) -> room 3 (mem s1) -> free_slot s1 g -> free_fd s1 l ->
  exists q j' s2, file_open s1 no O_RDONLY = Done (l, s2) /\ fs_ok s2 /\ fd_local2global s2 l = Done g /\ file_table s2 !! Z.to_nat g = Some (mk_file 0 O_RDONLY q) /\
    inodes s2 !! q = Some j' /\ inode_wf j' /\ pure j' = pure j /\ (forall k, bd_sector (dsk s2) k = bd_sector (dsk s1) k) /\ same_part (cur_part s1) (cur_part s2) /\ room 2 (mem s2).
Proof.
  intros Hs Ht Hj Hu Hr Hg Hl. destruct (opening s1 no j Hs Hj Hu ltac:(by apply (room_less 3); [lia|])) as (q & s2 & Ho & [K1 K2 (j' & K3 & K3') K4 K5 K6 K7 K8 K9]).
  pose proof (file_open_spec s1 no O_RDONLY q s2 j' g Ht Hg Ho K3) as Hop. change (wants_write O_RDONLY) with false in Hop. cbn [andb] in Hop.
  destruct (inode_open_tables s1 no q s2 Ho) as [Eft Efd]. assert (Ht2 : tables_ok s2) by (unfold tables_ok; by rewrite Eft, Efd). set (s3 := entered s2 g O_RDONLY q j') in *.
  assert (E3 : s3 = with_file_table (<[Z.to_nat g := mk_file 0 O_RDONLY q]> (file_table s2)) s2) by done.
  assert (Hfd : forall x, free_fd s3 x <-> free_fd s1 x) by (intros x; unfold free_fd; rewrite E3; cbn [fd_table with_file_table]; by rewrite Efd).
  destruct (open_entry s2 q K1 K2) as (j2 & ? & Hj2 & Hw & _). assert (j2 = j') as -> by congruence.
  destruct (pcb_fd_install_spec s3 g (entered_tables s2 g O_RDONLY q j' Ht2)) as [(l' & Hl' & E)|[Hno _]]; [|destruct (Hno l); by apply Hfd].
  assert (l' = l) as -> by (by apply (free_fd_unique s1); [apply Hfd|]). rewrite E in Hop. destruct Hg as (Hg & _), Hl as (Hl & _), Ht as [Ht3 Ht4].
  eexists q, j', _. split; [exact Hop|]. split; [apply with_fd_table_ok, (entered_ok s2); done|]. split.
  { unfold fd_local2global. cbn [fd_table with_fd_table]. erewrite aget_Some; [|lia|apply list_lookup_insert_eq; rewrite E3; cbn [fd_table with_file_table]; rewrite Efd; lia].
    rewrite bind_done. assert_ok; [done|]. apply andb_true_intro. unfold MAX_FILE_OPEN. split; [apply Z.leb_le|apply Z.ltb_lt]; lia. }
  split; [rewrite E3; apply list_lookup_insert_eq; rewrite Eft; lia|]. split_and!; try done; [apply (kp_sec _ _ K4)|apply (kp_part _ _ K4)|by apply K7].
Qed.

Lemma open_read_ok s T p junk name j g l count :
  ready s T -> room 5 (mem s) -> path_ok p -> last p <> Some slash -> length name = 16%nat -> tables_ok s -> free_slot s g -> free_fd s l ->
  let a := look_up (dsk s) T p in
  an_type a = FT_REGULAR -> an_seen a = comps p -> inode_of s (an_no a) j -> file_ok s j -> 0 < count < 2 ^ 32 ->
  let size := Z.min count (i_size j) in
  exists s1, sys_open s p O_RDONLY junk name = Done (l, s1) /\ fs_ok s1 /\ fd_local2global s1 l = Done g /\
    if decide (i_size j = 0) then file_read s1 g count = Done (-1, [], s1)
    else if decide (size / 512 < 139) then exists s2, file_read s1 g count = Done (size, contents (dsk s) j 0 size, s2) /\ fs_ok s2 /\
      forall k, bd_sector (dsk s2) k = bd_sector (dsk s) k
    else file_read s1 g count = Panic.
Proof.
  intros HR Hr5 Hp Hl Hn Ht Hg Hfd a Et Es Hj Hf Hc size. pose proof (sys_open_ok s T p O_RDONLY junk name HR Hp Hl ltac:(done) Hn) as Hop. cbv zeta in Hop. fold a in Hop.
  rewrite decide_False in Hop by (unfold refused; rewrite Et, Es; change (creates O_RDONLY) with false; intuition discriminate).
  destruct Hop as (b & i & ptr & s1 & _ & _ & Ha & Hop). change (creates O_RDONLY) with false in Hop. cbn [andb] in Hop. destruct Ha as [A1 _ _ A4 A5 A6 _].
  assert (Et1 : file_table s1 = file_table s /\ fd_table s1 = fd_table s) by (split; [apply (kp_files _ _ A4)|apply (kp_fds _ _ A4)]). destruct Et1 as [Et1 Et2].
  destruct (open_reading s1 (an_no a) j g l A1) as (q & j' & s2 & Ho & H1 & H2 & H3 & H4 & H5 & H6 & H7 & H8 & H9); try done.
  { unfold tables_ok. by rewrite Et1, Et2. }
  { by apply (kp_node _ _ A4). }
  { by apply A5. }
  { unfold free_slot. by rewrite Et1. }
  { unfold free_fd. by rewrite Et2. }
  assert (Hsec : forall k, bd_sector (dsk s2) k = bd_sector (dsk s) k) by (intros k; rewrite H7; apply (kp_sec _ _ A4)).
  destruct (file_ok_ext s s2 j j' Hf Hsec ltac:(eapply same_part_trans; [apply (kp_part _ _ A4)|done]) H5 H6) as [Hf2 Hcon]. destruct (pure_no _ _ H6) as (_ & Ez & _).
  destruct Hg as (Hg & _). pose proof (file_read_ok s2 g (mk_file 0 O_RDONLY q) j' count H1 ltac:(lia) H3 H4 Hf2) as Hrd. cbn [fd_pos fd_flag fd_inode] in Hrd. rewrite Ez in Hrd.
  pose proof (fk_size _ _ Hf) as Hz. pose proof (fk_wf _ _ Hf) as Hw. unfold inode_wf, is_u32 in Hw. specialize (Hrd ltac:(lia) ltac:(lia) ltac:(lia) ltac:(by apply (room_alloc 2); [apply H1|done|done|repeat constructor; lia])). cbv zeta in Hrd. rewrite Z.sub_0_r in Hrd. fold size in Hrd. rewrite Z.add_0_l in Hrd.
  rewrite (proj2 (Z.ltb_lt 0 count)) in Hrd by lia. cbn [andb] in Hrd. exists s2. rewrite Hop. split_and!; try done.
  destruct (Z.eqb_spec 0 (i_size j)); [by rewrite decide_True|]. rewrite decide_False by lia. destruct (Z.ltb_spec (size / 512) 139); [rewrite decide_True by lia|by rewrite decide_False by lia].
  destruct Hrd as (s3 & Er & Hs3 & _ & _ & _ & _ & _ & Hs3s). exists s3. rewrite Er, Hcon. split_and!; try done. intros k. by rewrite Hs3s.
Qed.

(** ** Properties *)

(** [sys_stat] reports the number, size and type of what the path leads to, whether
    its inode is open or only on disk, and -1 when a name is missing; a regular file met
    before the last name is reported as if the path ended there. Afterwards every inode,
    open directory and block of memory is as before the call. *)
Theorem sys_stat_correct s T p junk :
  ready s T -> path_ok p ->
  let a := look_up (dsk s) T p in
  exists s', fs_ok s' /\ calm s s' /\
    if decide (an_type a = FT_UNKNOWN) then sys_stat s p junk = Done (None, s')
    else exists j, inode_of s (an_no a) j /\ sys_stat s p junk = Done (Some (mk_stat (an_no a) (i_size j) (an_type a)), s').
Proof. apply sys_stat_ok. Qed.

(** [sys_chdir]: when the path leads to a directory, the working directory becomes
    its inode number and the call returns 0; otherwise it returns -1 and the working
    directory stays. Nothing else changes. *)
Theorem sys_chdir_correct s T p junk :
  ready s T -> path_ok p ->
  let a := look_up (dsk s) T p in
  exists s', fs_ok s' /\
    if decide (an_type a = FT_DIRECTORY) then sys_chdir s p junk = Done (0, s') /\ calm (with_cwd (an_no a) s) s'
    else sys_chdir s p junk = Done (-1, s') /\ calm s s'.
Proof. apply sys_chdir_ok. Qed.

(** C14. [sys_open], on every branch, for an absolute path of names shorter than 16
    characters on a partition whose directories are a tree, with memory for the lookup: a path that ends in a slash is refused with -1 and the state stays as it
    is, before anything else is looked at; flags above 7 stop the kernel at the assertion;
    a directory, a path with a name missing or a regular file before its last name, a
    missing file without O_CREAT, and an existing file with O_CREAT are refused with -1, and
    nothing is left open or allocated. Otherwise the file is created under the last name of
    the path in the directory found, which is then closed, or the file found is opened (and
    the directory stays open). *)
Theorem sys_open_correct s T p flags junk name :
  ready s T -> path_ok p -> length name = 16%nat ->
  let a := look_up (dsk s) T p in
  if decide (last p = Some slash) then sys_open s p flags junk name = Done (-1, s)
  else if decide (7 < flags) then sys_open s p flags junk name = Panic
  else if decide (refused a p flags) then exists s', sys_open s p flags junk name = Done (-1, s') /\ fs_ok s' /\ calm s s'
  else exists b i ptr s1, last (comps p) = Some b /\ T !! an_dir a = Some i /\ at_dir s i ptr s1 /\ sys_open s p flags junk name =
    if creates flags then r ← file_create s1 ptr b flags; s2 ← dir_close r.2 ptr; Done (r.1, s2) else file_open s1 (an_no a) flags.
Proof.
  intros HR Hp Hn a. destruct (decide (last p = Some slash)) as [El|El]; [by apply sys_open_slash|].
  destruct (decide (7 < flags)) as [Hf|Hf]; [by apply sys_open_flags; destruct Hp|]. apply sys_open_ok; [done..|lia|done].
Qed.

(** C13. A regular file is read by its path (one that does not end in a slash): with a
    free entry [g] and a free descriptor [l], on a partition whose directories are a tree and
    with memory for what the calls allocate, [sys_open] for reading returns [l], which
    leads to [g]. Reading [count] > 0 bytes from [g] then gives -1 when the file is empty,
    and otherwise the first bytes of the file that the path leads to, as many as asked for
    or as it has, with no sector of the disk changed; when they reach into block 139 the
    assertion on the block indices stops the kernel. *)
Theorem open_read_contents s T p junk name j g l count :
  ready s T -> room 5 (mem s) -> path_ok p -> last p <> Some slash -> length name = 16%nat -> tables_ok s -> free_slot s g -> free_fd s l ->
  let a := look_up (dsk s) T p in
  an_type a = FT_REGULAR -> an_seen a = comps p -> inode_of s (an_no a) j -> file_ok s j -> 0 < count < 2 ^ 32 ->
  let size := Z.min count (i_size j) in
  exists s1, sys_open s p O_RDONLY junk name = Done (l, s1) /\ fs_ok s1 /\ fd_local2global s1 l = Done g /\
    if decide (i_size j = 0) then file_read s1 g count = Done (-1, [], s1)
    else if decide (size / 512 < 139) then exists s2, file_read s1 g count = Done (size, contents (dsk s) j 0 size, s2) /\ fs_ok s2 /\
      forall k, bd_sector (dsk s2) k = bd_sector (dsk s) k
    else file_read s1 g count = Panic.
Proof. apply open_read_ok. Qed.
End PathCalls.

(** ** Witnesses, on the tree of Walk *)
Lemma sample_tree_ready : ready sample_tree sample_dirs.
Proof. constructor; [exact sample_tree_ok|exact sample_tree_tree|exact sample_tree_users|]. apply (room_less 7); [lia|exact sample_tree_room]. Qed.

Lemma sample_look_up : look_up (dsk sample_tree) sample_dirs sample_path = mk_answer 5 FT_REGULAR 6 [name_d; name_g].
Proof. vm_compute. reflexivity. Qed.

Lemma sample_node j : inode_of sample_tree 5 j -> i_size j = 600.
Proof.
  destruct sample_tree_nodes as (_ & _ & [_ [(p & i & Hp & Hi & E)|[Hno Hsl]]]); intros [Hj Hn].
  - destruct (pure_no _ _ E) as (E1 & _). assert (Ho : is_open sample_tree 5) by (exists p, i; split; [exact Hp|split; [exact Hi|exact E1]]). discriminate (sample_tree_open _ Ho).
  - destruct Hn as [(p & i & Hp & Hi & E)|[_ Hsj]].
    + destruct (pure_no _ _ E) as (E1 & _). assert (Ho : is_open sample_tree 5) by (exists p, i; split; [exact Hp|split; [exact Hi|congruence]]). discriminate (sample_tree_open _ Ho).
    + assert (E : pure sample_inode = pure j) by (apply (slot_holds_fun sample_tree); [exact Hsl|exact Hsj|by rewrite Hj]). by destruct (pure_no _ _ E) as (_ & <- & _).
Qed.

Lemma sys_stat_correct_witness : exists s', sys_stat sample_tree sample_path 77 = Done (Some (mk_stat 5 600 FT_REGULAR), s') /\ calm sample_tree s'.
Proof.
  destruct (sys_stat_correct sample_tree sample_dirs sample_path 77) as (s' & _ & Hc & H).
  - exact sample_tree_ready.
  - exact sample_path_ok.
  - rewrite sample_look_up in H. cbn [an_type an_no] in H. rewrite decide_False in H by discriminate. destruct H as (j & Hj & E). exists s'.
    rewrite (sample_node j Hj) in E. split; [exact E|exact Hc].
Defined.

Definition path_d : list Z := slash :: name_d.
Lemma path_d_ok : path_ok path_d.
Proof. constructor; [done|repeat constructor; discriminate|by vm_compute|vm_compute; repeat constructor|discriminate]. Qed.
Lemma look_up_d : look_up (dsk sample_tree) sample_dirs path_d = mk_answer 6 FT_DIRECTORY 0 [name_d].
Proof. vm_compute. reflexivity. Qed.

Lemma sys_chdir_correct_witness : exists s', sys_chdir sample_tree path_d 77 = Done (0, s') /\ cwd_inode_nr s' = 6.
Proof.
  destruct (sys_chdir_correct sample_tree sample_dirs path_d 77) as (s' & _ & H).
  - exact sample_tree_ready.
  - exact path_d_ok.
  - rewrite look_up_d in H. cbn [an_type an_no] in H. rewrite decide_True in H by reflexivity. destruct H as [E [Hc _]]. exists s'. split; [exact E|]. exact (st_cwd _ _ Hc).
Defined.

Lemma sys_open_correct_witness : exists s', sys_open sample_tree path_d O_RDONLY 77 (replicate 16 7) = Done (-1, s') /\ calm sample_tree s'.
Proof.
  pose proof (sys_open_correct sample_tree sample_dirs path_d O_RDONLY 77 (replicate 16 7)) as H. cbv zeta in H. rewrite look_up_d in H.
  rewrite decide_False in H by discriminate. rewrite decide_False in H by discriminate. rewrite decide_True in H by (left; reflexivity). destruct H as (s' & E & _ & Hc).
  - exact sample_tree_ready.
  - exact path_d_ok.
  - reflexivity.
  - exists s'. split; [exact E|exact Hc].
Defined.

Lemma sample_tree_file : file_ok sample_tree sample_inode.
Proof.
  constructor; [exact (proj1 sample_slot)|done|done|]. assert (En : nblocks sample_inode = 2) by (vm_compute; reflexivity). rewrite En.
  assert (Eb : forall j, 0 <= j < 2 -> file_block (dsk sample_tree) sample_inode j = 2661 + j) by (intros j Hj; assert (j = 0 \/ j = 1) as [->| ->] by lia; vm_compute; reflexivity). constructor.
  - intros j Hj. assert (E : forallb (fun j => bool_decide (i_sectors sample_inode !! Z.to_nat (j + 2) = Some 0)) (seqZ 0 10) = true) by (vm_compute; reflexivity).
    pose proof (forall_seqZ _ 10 E (j - 2) ltac:(lia)) as Hb. apply bool_decide_eq_true_1 in Hb. by replace (j - 2 + 2) with j in Hb by lia.
  - done.
  - lia.
  - intros j Hj. rewrite Eb by done. assert (j = 0 \/ j = 1) as [->| ->] by lia; (split; [by vm_compute|vm_compute; reflexivity]).
  - intros j k Hj Hk. rewrite !Eb by done. lia.
Qed.

Lemma open_read_contents_witness :
  exists s1 s2, sys_open sample_tree sample_path O_RDONLY 77 (replicate 16 7) = Done (3, s1) /\ file_read s1 3 100 = Done (100, replicate 100 65, s2).
Proof.
  destruct (open_read_contents sample_tree sample_dirs sample_path 77 (replicate 16 7) sample_inode 3 3 100) as (s1 & E1 & _ & _ & E2).
  - exact sample_tree_ready.
  - apply (room_less 7); [lia|exact sample_tree_room].
  - exact sample_path_ok.
  - discriminate.
  - reflexivity.
  - split; reflexivity.
  - split; [lia|]. split; [exists (mk_file 0 0 0); split; reflexivity|]. lia.
  - split; [lia|]. split; [reflexivity|]. lia.
  - rewrite sample_look_up. reflexivity.
  - rewrite sample_look_up. reflexivity.
  - rewrite sample_look_up. exact (proj2 (proj2 sample_tree_nodes)).
  - exact sample_tree_file.
  - lia.
  - rewrite decide_False in E2 by discriminate. rewrite decide_True in E2 by reflexivity. destruct E2 as (s2 & E2 & _). exists s1, s2. split; [exact E1|]. rewrite E2. apply f_equal. change (Z.min 100 (i_size sample_inode)) with 100. apply f_equal2; [|reflexivity]. apply f_equal2; [reflexivity|]. vm_compute. reflexivity.
Defined.
