(* ===== verification/Cwd.v ===== *)
(** * The working directory (fs/fs.c: sys_getcwd)

    [sys_getcwd] climbs from the working directory to the root: the second entry of a
    directory leads to its parent, the parent's entry with the child's number gives the
    name. For a directory that the tree of Walk locates under the names [ns], it returns
    the path of [ns], and this path leads back to the directory. *)
From stdpp Require Import base numbers list option tactics gmap fin_maps.
From Stdlib Require Import ZArith Lia.
From S2P Require Import Prelude Bitmap Paging Heap Ide Iface Inode File FileIo Dir Node Stock Path Calls Builtin Walk PathCalls.

(** The entries of an inode number. *)
Definition numbered (c : Z) (e : dir_entry) : Prop := de_i_no e = c.
#[global] Instance numbered_dec c e : Decision (numbered c e).
Proof. unfold numbered. apply _. Defined.

(** ** Names in a buffer *)
Lemma cname_take n b : (length (cname (take n b)) < n)%nat -> (n <= length b)%nat -> cname b = cname (take n b) /\ 0 ∈ b.
Proof.
  revert n. induction b as [|c b IH]; intros [|n] Hn Hl; try (simpl in *; lia). cbn [take cname] in *. case_decide as E; [subst c; split; [done|by left]|].
  cbn [length] in *. destruct (IH n) as [-> ?]; [lia|lia|]. split; [done|by right].
Qed.

Lemma str_at_entry buf k : length buf = 512%nat -> 0 <= k < 21 -> (length (cname (filename (entry_at buf k))) < 16)%nat -> str_at buf (24 * k) = Done (cname (filename (entry_at buf k))).
Proof.
  intros Hb Hk Hn. unfold str_at, buf_string, entry_at, bytes_entry in *. cbn [filename] in *. destruct (cname_take 16 (drop (Z.to_nat (24 * k)) buf)) as [E H0]; [done|rewrite length_drop; lia|].
  rewrite decide_True by done. by rewrite E.
Qed.

Lemma find_child_spec buf c k n :
  length buf = 512%nat -> 0 <= k -> k + Z.of_nat n <= 21 ->
  exists r, find_child buf c k n = Done r /\
    match r with
    | Some k' => 0 <= k' < 21 /\ head (filter (numbered c) (entry_at buf <$> seqZ k (Z.of_nat n))) = Some (entry_at buf k')
    | None => filter (numbered c) (entry_at buf <$> seqZ k (Z.of_nat n)) = []
    end.
Proof.
  intros Hb. revert k. induction n as [|n IH]; intros k Hk Hn; cbn [find_child]; [by exists None|].
  rewrite (seqZ_cons k), fmap_cons, filter_cons by lia. replace (Z.pred (Z.of_nat (S n))) with (Z.of_nat n) by lia.
  change DIR_ENTRY_SIZE with 24. rewrite decide_True by lia. fold (entry_at buf k). destruct (Z.eqb_spec (de_i_no (entry_at buf k)) c) as [E|E].
  - exists (Some k). rewrite decide_True by done. split; [done|]. split; [lia|done].
  - rewrite decide_False by done. apply IH; lia.
Qed.

Section Cwd.
Context {D A : Type} `{BlockDev D} `{Alloc A}.
Implicit Types s : fs (D := D) (A := A).

Lemma child_blocks_ok (d : D) c path l e :
  bd_ok d -> (forall b, b ∈ l -> b <> 0 -> 0 <= b <= max_lba) -> head (filter (numbered c) (l ≫= block_entries d)) = Some e ->
  (length (cname (filename e)) < 16)%nat -> Z.of_nat (length path + S (length (cname (filename e)))) < MAX_PATH_LEN ->
  exists d', child_blocks d 21 c path l = Done (d', Some (path ++ slash :: cname (filename e))) /\ bd_ok d' /\ forall k, bd_sector d' k = bd_sector d k.
Proof.
  intros Hd Hl He Hn Hp. revert d Hd He. induction l as [|b l IH]; intros d Hd He; cbn [child_blocks]; [done|].
  assert (Hl' : forall b', b' ∈ l -> b' <> 0 -> 0 <= b' <= max_lba) by (intros b' Hb'; apply Hl; by right). rewrite bind_cons, filter_app in He. destruct (Z.eqb_spec b 0) as [->|Hb]; [by apply IH|].
  destruct (bd_read_ok d b 1) as (d1 & -> & Hd1 & Hs1); [done|apply Hl; [by left|done]|lia|specialize (Hl b ltac:(by left) Hb); lia|].
  rewrite bind_done, sector_one. cbn [fst snd]. unfold block_entries in He at 1. rewrite decide_False in He by done.
  destruct (find_child_spec (bd_sector d b) c 0 21) as (r & Hr & Hm); [by apply bd_sector_len|lia|lia|]. change (Z.to_nat 21) with 21%nat. rewrite Hr, bind_done.
  fold (entries (bd_sector d b)) in Hm. change (Z.of_nat 21) with 21 in Hm. unfold entries in He. destruct r as [k|].
  - destruct Hm as [Hk Hm]. assert (E : entry_at (bd_sector d b) k = e) by (destruct (filter (numbered c) (entry_at _ <$> _)); [done|]; simpl in *; congruence).
    rewrite cat_path_ok by (cbn [length]; lia). rewrite bind_done. change DIR_ENTRY_SIZE with 24. rewrite str_at_entry by first [done|by apply bd_sector_len|by rewrite E].
    rewrite bind_done, E, cat_path_ok by (rewrite length_app; cbn [length]; lia). rewrite bind_done, <- app_assoc. by exists d1.
  - rewrite Hm in He. simpl in He. destruct (IH Hl' d1 Hd1) as (d2 & E2 & Hd2 & Hs2).
    { rewrite <- He. do 2 f_equal. apply list_bind_ext; [|done]. intros x. by apply block_entries_ext. }
    exists d2. split; [exact E2|]. split; [done|]. intros k. by rewrite Hs2.
Qed.

(** The blocks that are looked through. *)
Lemma all_slots (d : D) i : take (if negb (indirect i =? 0) then 140 else 12) (dblocks d i) ≫= block_entries d = slots d i.
Proof. destruct (Z.eqb_spec (indirect i) 0); cbn [negb]; [by apply slots_direct|]. rewrite take_ge; [done|]. by rewrite dblocks_length. Qed.

Lemma dsk_calm s d' : fs_ok s -> bd_ok d' -> (forall k, bd_sector d' k = bd_sector (dsk s) k) -> fs_ok (with_dsk d' s) /\ calm s (with_dsk d' s).
Proof. intros Hs Hd Hsec. split; [by apply with_dsk_ok|]. split; [by constructor|done]. Qed.

(** ** One step up *)
Lemma get_child_name_ok s k c i e path :
  fs_ok s -> inode_of s k i -> dir_ok s i -> users_below s (2 ^ 32 - 1) -> room 2 (mem s) -> head (filter (numbered c) (slots (dsk s) i)) = Some e ->
  (length (cname (filename e)) < 16)%nat -> Z.of_nat (length path + S (length (cname (filename e)))) < MAX_PATH_LEN ->
  exists s', get_child_dir_name s k c path = Done (Some (path ++ slash :: cname (filename e)), s') /\ fs_ok s' /\ calm s s'.
Proof.
  intros Hs Hi Hd Hu Hr He Hn Hp. destruct (opening s k i Hs Hi Hu Hr) as (q & s1 & Ho & [K1 K2 (j & K3 & K3') K4 K5 K6 K7 K8 K9]). unfold get_child_dir_name. rewrite Ho, bind_done. unfold inode_at. rewrite K3, bind_done.
  destruct (open_entry s1 q K1 K2) as (j' & ? & Hj' & Hw & _). assert (j' = j) as -> by congruence. destruct (keeps_dir s s1 i j Hd K4 Hw K3') as [Hd1 _]. destruct (pure_no _ _ K3') as (_ & _ & Es).
  destruct (dir_blocks_ok (dsk s1) j) as (d1 & -> & Hd1' & Hs1); [apply K1|apply Hw|by eapply dir_ok_indirect|]. rewrite bind_done. cbn [fst snd].
  destruct (aget_in (i_sectors j) 12) as (t & Ht & ->); [destruct Hw as (_ & _ & _ & _ & -> & _); lia|]. rewrite bind_done. assert (Et : indirect j = t) by (unfold indirect; change 12%nat with (Z.to_nat 12); by rewrite Ht).
  destruct (dsk_calm s1 d1 K1 Hd1' Hs1) as [Hok1 [Hst1 _]]. destruct (K9 _ Hok1 Hst1) as (s2 & -> & Hs2 & Hst2 & Hdr). rewrite bind_done.
  assert (Hc2 : calm s s2) by (split; [done|]; intros y n _; rewrite Hdr; cbn [dirs with_dsk]; by rewrite K5).
  assert (Hsec2 : forall x, bd_sector (dsk s2) x = bd_sector (dsk s1) x) by (intros y; rewrite (st_sec _ _ Hst2 y); symmetry; apply (kp_sec _ _ K4)).
  unfold per_sec. rewrite (st_part _ _ Hst2), (dk_entry _ _ Hd). change (512 / 24) with 21. rewrite <- Et.
  destruct (child_blocks_ok (dsk s2) c path (take (if negb (indirect j =? 0) then 140 else 12) (dblocks (dsk s1) j)) e) as (d3 & -> & Hd3 & Hs3); [apply Hs2| | |done|done|].
  - intros b Hb. apply (dir_ok_blocks s1 j K1 Hd1). by eapply elem_of_take in Hb as (n & Hn' & _); apply list_elem_of_lookup_2 in Hn'.
  - destruct (slots_ext (dsk s1) (dsk s2) j Hsec2) as [E1 _]. rewrite <- E1, all_slots. rewrite <- He. do 2 f_equal.
    unfold slots, dblocks. rewrite (list_fmap_ext (dblock (dsk s2) j) (dblock (dsk s) i)) by (intros n y _; unfold dblock, file_block, indirect; by rewrite Es, (st_sec _ _ Hst2)).
    apply list_bind_ext; [|done]. intros b. apply block_entries_ext, (st_sec _ _ Hst2).
  - rewrite bind_done. cbn [fst snd]. destruct (dsk_calm s2 d3 Hs2 Hd3 Hs3) as [Hok3 Hc3]. eexists. split; [done|]. split; [done|]. by eapply calm_trans.
Qed.

(** The parent a directory names in its second entry. *)
Definition parent_is (d : D) (i : inode) (k : Z) : Prop :=
  let e := entry_at (bd_sector d (dblock d i 0)) 1 in
  dblock d i 0 <> 0 /\ de_i_no e = k /\ f_type e = FT_DIRECTORY /\ 0 <= k < 4096.

Lemma get_parent_ok s c i k :
  fs_ok s -> inode_of s c i -> dir_ok s i -> users_below s (2 ^ 32 - 1) -> room 2 (mem s) -> parent_is (dsk s) i k ->
  exists s', get_parent_dir_inode_nr s c = Done (k, s') /\ fs_ok s' /\ calm s s'.
Proof.
  intros Hs Hi Hd Hu Hr (Hb0 & Hk & Hty & Hkr). destruct (opening s c i Hs Hi Hu Hr) as (q & s1 & Ho & [K1 K2 (j & K3 & K3') K4 K5 K6 K7 K8 K9]). unfold get_parent_dir_inode_nr. rewrite Ho, bind_done. unfold inode_at. rewrite K3, bind_done.
  destruct (open_entry s1 q K1 K2) as (j' & ? & Hj' & Hw & _). assert (j' = j) as -> by congruence. destruct (pure_no _ _ K3') as (_ & _ & Es).
  destruct (aget_in (i_sectors j) 0) as (b & Hb & ->); [destruct Hw as (_ & _ & _ & _ & -> & _); lia|]. rewrite bind_done.
  assert (Eb : dblock (dsk s) i 0 = b) by (unfold dblock, file_block; rewrite decide_False by lia; rewrite decide_True by lia; rewrite <- Es; by rewrite Hb).
  pose proof (dk_block _ _ Hd 0 ltac:(lia) Hb0) as Htk. rewrite Eb in *. pose proof (taken_lba s b Hs Htk) as Hlba. destruct Htk as [Hlo _]. destruct (same_part_fields _ _ (kp_part _ _ K4)) as (_ & _ & P3 & _).
  assert_ok; [|apply Z.leb_le; rewrite P3; lia]. destruct (K9 s1 K1 (still_refl s1)) as (s2 & -> & Hs2 & Hst2 & Hdr). rewrite bind_done.
  assert (Hc2 : calm s s2) by (split; [done|]; intros y n _; by rewrite Hdr, K5).
  destruct (bd_read_ok (dsk s2) b 1) as (d3 & -> & Hd3 & Hs3); [apply Hs2|lia|lia|lia|]. rewrite bind_done, sector_one. cbn [fst snd]. rewrite (st_sec _ _ Hst2).
  change (bytes_entry (drop (Z.to_nat DIR_ENTRY_SIZE) (bd_sector (dsk s) b))) with (entry_at (bd_sector (dsk s) b) 1). rewrite Hk, Hty.
  assert_ok; [|apply andb_true_intro; split; [apply Z.ltb_lt; lia|done]].
  destruct (dsk_calm s2 d3 Hs2 Hd3 Hs3) as [Hok3 Hc3]. eexists. split; [done|]. split; [done|]. by eapply calm_trans.
Qed.

(** ** Where a directory is

    [located d T k ns]: from the root the names [ns] lead down to directory [k], and each
    directory on the way knows its parent. *)
Inductive located (d : D) (T : gmap Z inode) : Z -> list (list Z) -> Prop :=
  | loc_root : located d T 0 []
  | loc_dir k i c ci ns n e : located d T k ns -> T !! k = Some i -> T !! c = Some ci -> c <> 0 -> parent_is d ci k ->
      head (filter (numbered c) (slots d i)) = Some e -> entry_named d i n = Some e -> f_type e = FT_DIRECTORY ->
      plain n -> (length n < 16)%nat -> n <> dot -> n <> dotdot -> located d T c (ns ++ [n]).

Lemma entry_name (d : D) i n e : entry_named d i n = Some e -> cname (filename e) = n.
Proof.
  unfold entry_named. intros He. assert (Hin : e ∈ filter (named n) (dir_list d i)) by (destruct (filter _ _); [done|]; injection He as ->; by left).
  by apply list_elem_of_filter in Hin as [? _].
Qed.

Lemma entry_number (d : D) i c e : head (filter (numbered c) (slots d i)) = Some e -> de_i_no e = c.
Proof.
  intros He. assert (Hin : e ∈ filter (numbered c) (slots d i)) by (destruct (filter _ _); [done|]; injection He as ->; by left). by apply list_elem_of_filter in Hin as [? _].
Qed.

(** The names lead to it. *)
Lemma located_walk (d : D) T k ns rest : located d T k ns -> exists par, walk d T 0 0 [] (ns ++ rest) = walk d T k par ns rest.
Proof.
  intros Hl. revert rest. induction Hl as [|k i c ci ns n e _ IH Hk _ _ _ He Hn Ht _ _ _ _]; intros rest; [by exists 0|]. rewrite <- app_assoc. cbn [app].
  destruct (IH (n :: rest)) as [par ->]. exists k. cbn [walk]. rewrite Hk. cbn [mbind option_bind]. rewrite Hn, decide_True by done. by rewrite (entry_number _ _ _ _ He).
Qed.

Lemma located_names (d : D) T k ns : located d T k ns -> Forall plain ns /\ Forall (fun n => (length n < 16)%nat /\ n <> dot /\ n <> dotdot) ns /\ (ns = [] <-> k = 0).
Proof.
  induction 1 as [|k i c ci ns n e _ (I1 & I2 & _) _ _ Hc _ _ _ _ Hp Hn H1 H2]; [done|]. split; [by apply Forall_app; split; [|by constructor]|]. split; [by apply Forall_app; split; [|by constructor]|]. split; [by destruct ns|by intros ->].
Qed.

Lemma render_not_root ns : ns <> [] -> Forall plain ns -> Forall (fun n => (length n < 16)%nat /\ n <> dot /\ n <> dotdot) ns -> is_root (joined ns) = false.
Proof.
  intros Hne Hp Hn. pose proof (comps_joined ns Hp) as Ec. unfold is_root.
  assert (E1 : joined ns <> [slash]) by (intros E; rewrite E in Ec; by apply Hne).
  assert (E2 : joined ns <> slash :: dot) by (intros E; rewrite E in Ec; rewrite <- Ec in Hn; apply Forall_cons in Hn as [(_ & Hd & _) _]; by apply Hd).
  assert (E3 : joined ns <> slash :: dotdot) by (intros E; rewrite E in Ec; rewrite <- Ec in Hn; apply Forall_cons in Hn as [(_ & _ & Hd) _]; by apply Hd).
  by rewrite !bool_decide_false.
Qed.

Lemma located_look_up (d : D) T k ns : located d T k ns -> let a := look_up d T (render ns) in an_no a = k /\ an_type a = FT_DIRECTORY.
Proof.
  intros Hl. destruct (located_names d T k ns Hl) as (Hp & Hn & Hk0). unfold look_up. destruct (decide (ns = [])) as [->|Hne]; [cbn; split; [symmetry; by apply Hk0|done]|].
  assert (Er : render ns = joined ns) by (by destruct ns). rewrite Er, render_not_root by done. rewrite comps_joined by done. rewrite <- (app_nil_r ns).
  destruct (located_walk d T k ns [] Hl) as [par ->]. done.
Qed.

(** ** The climb *)
Lemma calm_tree s s1 T k i :
  tree_ok s T -> calm s s1 -> T !! k = Some i -> inode_of s1 k i /\ dir_ok s1 i /\ slots (dsk s1) i = slots (dsk s) i /\ forall p, parent_is (dsk s) i p -> parent_is (dsk s1) i p.
Proof.
  intros HT [Hst _] Hk. destruct (tr_dir _ _ HT k i Hk) as [Hi Hd]. pose proof (st_sec _ _ Hst) as Hsec. split_and!.
  - by apply (still_node s).
  - apply (dir_ok_ext s s1 i i Hd Hsec); [rewrite (st_part _ _ Hst); apply same_part_refl|apply (dk_wf _ _ Hd)|done].
  - by apply slots_ext.
  - intros p. unfold parent_is. assert (E : dblock (dsk s1) i 0 = dblock (dsk s) i 0) by (unfold dblock, file_block; by rewrite Hsec). by rewrite E, Hsec.
Qed.

Lemma climb s T c ns :
  tree_ok s T -> users_below s (2 ^ 32 - 2) -> room 2 (mem s) -> located (dsk s) T c ns ->
  forall fuel s1 path, (length ns < fuel)%nat -> fs_ok s1 -> calm s s1 -> Z.of_nat (length path + length (joined ns)) < MAX_PATH_LEN ->
  exists s2, loop fuel up_turn (s1, c, path) = Done (Some (path ++ joined (reverse ns)), s2) /\ fs_ok s2 /\ calm s s2.
Proof.
  intros HT Hu Hr Hl. induction Hl as [|k i c ci ns n e Hl IH Hk Hc Hc0 Hpar He Hn Ht Hp Hlen _ _]; intros [|fuel] s1 path Hf Hs1 Hc1 Hmax; try (cbn [length] in Hf; lia).
  - exists s1. split; [|done]. change (joined (reverse [])) with (@nil Z). rewrite app_nil_r. by apply loop_done.
  - rewrite length_app in Hf. cbn [length] in Hf. rewrite joined_snoc, length_app in Hmax. cbn [length] in Hmax.
    assert (Hbelow : forall s', calm s s' -> users_below s' (2 ^ 32 - 1) /\ room 2 (mem s')).
    { intros s' [Hst _]. split; [|by apply (room_live 2 (mem s)), (st_live _ _ Hst)]. intros q x Hq Hx. pose proof (users_still s s' _ Hst Hu q x Hq Hx). lia. }
    destruct (calm_tree s s1 T c ci HT Hc1 Hc) as (C1 & C2 & _ & C4). destruct (Hbelow s1 Hc1) as [U1 R1].
    destruct (get_parent_ok s1 c ci k Hs1 C1 C2 U1 R1 (C4 k Hpar)) as (s2 & E2 & Hs2 & Hc2). pose proof (calm_trans _ _ _ Hc1 Hc2) as Hc2'.
    destruct (calm_tree s s2 T k i HT Hc2' Hk) as (D1 & D2 & D3 & _). destruct (Hbelow s2 Hc2') as [U2 R2]. pose proof (entry_name _ _ _ _ Hn) as En.
    destruct (get_child_name_ok s2 k c i e path Hs2 D1 D2 U2 R2) as (s3 & E3 & Hs3 & Hc3); [by rewrite D3|by rewrite En|rewrite En; lia|]. rewrite En in E3.
    assert (Hturn : up_turn (s1, c, path) = Done (inl (s3, k, path ++ slash :: n))) by (unfold up_turn; destruct (Z.eqb_spec c 0); [done|]; by rewrite E2, bind_done, E3, bind_done).
    erewrite loop_next by exact Hturn. destruct (IH fuel s3 (path ++ slash :: n)) as (s4 & -> & Hs4 & Hc4); [lia|done|by eapply calm_trans|rewrite length_app; cbn [length]; lia|].
    exists s4. split; [|done]. rewrite reverse_app. unfold joined at 2. rewrite bind_app. cbn [reverse rev_append mbind list_bind]. rewrite app_nil_r. fold (joined (reverse ns)). by rewrite <- app_assoc.
Qed.

Lemma joined_length ns : (length ns <= length (joined ns))%nat.
Proof. induction ns as [|n ns IH]; [done|]. unfold joined in *. rewrite bind_cons, length_app. cbn [length]. lia. Qed.

(** The loop that puts the names in order. *)
Lemma reverse_loop size ns : forall fuel buf,
  (length ns < fuel)%nat -> Forall plain ns -> Z.of_nat (length buf + length (joined ns)) < size ->
  loop fuel (reverse_turn size) (joined (reverse ns), buf) = Done (buf ++ joined ns).
Proof.
  induction ns as [|n ns IH]; intros [|fuel] buf Hf Hp Hs; cbn [length] in Hf; try lia.
  - rewrite (loop_done _ _ _ buf); [by rewrite app_nil_r|done].
  - apply Forall_cons in Hp as [[_ Hn] Hp]. unfold joined in Hs. rewrite bind_cons, length_app in Hs. cbn [length] in Hs. fold (joined ns) in Hs.
    assert (Hturn : reverse_turn size (joined (reverse (n :: ns)), buf) = Done (inl (joined (reverse ns), buf ++ slash :: n))).
    { unfold reverse_turn. rewrite reverse_cons, joined_snoc, after_slash_app, before_slash_app by done. rewrite decide_True by lia. done. }
    erewrite loop_next by exact Hturn. rewrite IH; [|lia|done|rewrite length_app; cbn [length]; lia]. unfold joined at 2. rewrite bind_cons, <- app_assoc. done.
Qed.

(** A buffer for the time of a call. *)
Lemma scratch s size k :
  fs_ok s -> 0 < size <= 1024 -> room (S k) (mem s) ->
  exists b m0, al_malloc (mem s) size = Done (b, m0) /\ b <> 0 /\ fs_ok (with_mem m0 s) /\ room k m0 /\
    forall s2, fs_ok s2 -> calm (with_mem m0 s) s2 -> exists s3, free_buf s2 b = Done s3 /\ fs_ok s3 /\ calm s s3.
Proof.
  intros Hs Hsz Hr. destruct (Hr (mem s) size (fo_mem s Hs) ltac:(by intros ??) Hsz) as (b & m0 & E & Hb & Hr0). exists b, m0. split; [done|]. split; [done|].
  destruct (al_malloc_ok (mem s) size (fo_mem s Hs) ltac:(lia)) as (b' & m0' & E' & Hok & _ & Hlv). rewrite E in E'. injection E' as <- <-. specialize (Hok (or_introl Hb)). destruct (Hlv Hb) as (n & _ & Hl & Hf).
  assert (Hnb : b ∉ open_inodes (cur_part s)) by (intros Hin; destruct (open_entry s b Hs Hin) as (? & ? & _ & _ & _ & _ & ? & _); by eapply Hf).
  split; [apply with_mem_ok; [done|done|intros; apply Hl; by left]|]. split; [done|]. intros s2 Hs2 [[T1 T2 T3 T4 T5 T6 T7 T8] Hd].
  destruct (al_free_ok (mem s2) b n (fo_mem s2 Hs2)) as (m3 & E3 & Hm3 & Hl3); [apply T4, Hl; by right|]. unfold free_buf. rewrite E3, bind_done. eexists. split; [done|].
  split; [apply (freed_ok s2 b); [done|done|by rewrite T2|done]|]. split.
  - constructor; try done. intros q n'. cbn [mem with_mem]. rewrite Hl3, (T4 q n'). cbn [mem with_mem]. rewrite Hl. split; [intros [[?|[-> _]] ?]; done|]. intros Hq. split; [by left|by eapply Hf].
  - intros q n' Hq. cbn [dirs with_mem]. rewrite (Hd q n'); [done|]. cbn [mem with_mem]. apply Hl. by left.
Qed.

Lemma sys_getcwd_ok fuel s T ns size :
  ready s T -> located (dsk s) T (cwd_inode_nr s) ns -> (length ns < fuel)%nat -> Z.of_nat (length (render ns)) < Z.min size MAX_PATH_LEN ->
  exists s', sys_getcwd fuel s size = Done (Some (render ns), s') /\ fs_ok s' /\ calm s s'.
Proof.
  intros [Hs HT Hu Hr] Hl Hf Hsz. destruct (located_names _ _ _ _ Hl) as (Hp & _ & Hk0). destruct (scratch s 512 2 Hs ltac:(lia) ltac:(by apply (room_less 4); [lia|])) as (b & m0 & E & Hb & Hs0 & Hr0 & Hfree).
  unfold sys_getcwd. rewrite E, bind_done. cbn [fst snd]. destruct (Z.eqb_spec b 0); [done|]. cbn [cwd_inode_nr with_mem].
  assert (Hrange : 0 <= cwd_inode_nr s < 4096).
  { destruct (decide (ns = [])) as [E0|Hne]; [apply Hk0 in E0; lia|]. inversion Hl; [by subst|]. subst. eapply node_range; [exact Hs|]. by eapply (tr_dir _ _ HT). }
  assert_ok; [|apply andb_true_intro; split; [apply Z.leb_le|apply Z.ltb_lt]; lia]. destruct (Z.eqb_spec (cwd_inode_nr s) 0) as [E0|E0].
  - assert (ns = []) as -> by (by apply Hk0). cbn [render length] in Hsz. destruct (Z.ltb_spec size 2); [lia|]. destruct (Hfree _ Hs0 (calm_refl _)) as (s3 & -> & Hs3 & Hc3). by exists s3.
  - assert (Hne : ns <> []) by (intros E1; apply E0; by apply Hk0). assert (Er : render ns = joined ns) by (by destruct ns). rewrite Er in *. change MAX_PATH_LEN with 512 in Hsz.
    assert (HT0 : tree_ok (with_mem m0 s) T).
    { destruct HT as [R1 R2 R3]. constructor; [exact R1| |exact R3]. intros k i Hk. destruct (R2 k i Hk) as [Hi Hd]. split; [exact Hi|].
      apply (dir_ok_ext s (with_mem m0 s) i i Hd); [done|apply same_part_refl|apply (dk_wf _ _ Hd)|done]. }
    destruct (climb (with_mem m0 s) T (cwd_inode_nr s) ns HT0 Hu Hr0 Hl fuel (with_mem m0 s) []) as (s2 & -> & Hs2 & Hc2); [done|done|apply calm_refl|cbn [length]; change MAX_PATH_LEN with 512; lia|].
    rewrite bind_done. cbn [app]. assert (Elen : length (joined (reverse ns)) = length (joined ns)).
    { clear. induction ns as [|n ns IH]; [done|]. rewrite reverse_cons, joined_snoc, length_app, IH. unfold joined at 2. rewrite bind_cons, length_app. cbn [length]. fold (joined ns). lia. }
    assert_ok; [|apply Z.leb_le; lia]. rewrite reverse_loop; [|rewrite Elen; pose proof (joined_length ns); lia|done|cbn [length]; lia]. rewrite bind_done. cbn [app].
    destruct (Hfree s2 Hs2 Hc2) as (s3 & -> & Hs3 & Hc3). rewrite bind_done. by exists s3.
Qed.

(** ** Properties *)

(** C15. [sys_getcwd] returns the path of the working directory, for a directory that lies
    under the names [ns] below the root and a buffer longer than the path; the loop needs
    no more turns than there are names. The path leads back to the same directory, and the
    call leaves everything as it was. *)
Theorem sys_getcwd_path fuel s T ns size :
  ready s T -> located (dsk s) T (cwd_inode_nr s) ns -> (length ns < fuel)%nat -> Z.of_nat (length (render ns)) < Z.min size MAX_PATH_LEN ->
  (exists s', sys_getcwd fuel s size = Done (Some (render ns), s') /\ fs_ok s' /\ calm s s') /\
  an_no (look_up (dsk s) T (render ns)) = cwd_inode_nr s /\ an_type (look_up (dsk s) T (render ns)) = FT_DIRECTORY.
Proof. intros HR Hl Hf Hs. split; [by eapply sys_getcwd_ok|by apply located_look_up]. Qed.
End Cwd.

(** ** Witness: the directory "d" of the sample tree *)
Definition sample_in_d : fs (D := disk) (A := stock vm 8) := with_cwd 6 sample_tree.

Lemma sample_in_d_ready : ready sample_in_d sample_dirs.
Proof.
  destruct sample_tree_ready as [R1 [R2a R2b R2c] R3 R4]. constructor; [by apply cwd_ok| |exact R3|exact R4]. constructor; [exact R2a| |exact R2c].
  intros k i Hk. destruct (R2b k i Hk) as [Hi Hd]. split; [exact Hi|]. apply (dir_ok_ext sample_tree sample_in_d i i Hd); [done|apply same_part_refl|apply (dk_wf _ _ Hd)|done].
Qed.

Lemma sample_located : located (dsk sample_in_d) sample_dirs 6 [name_d].
Proof.
  apply (loc_dir _ _ 0 tree_root 6 tree_sub [] name_d (sample_entry name_d 6 FT_DIRECTORY)).
  - apply loc_root.
  - vm_compute. reflexivity.
  - vm_compute. reflexivity.
  - discriminate.
  - vm_compute. repeat split; discriminate.
  - vm_compute. reflexivity.
  - vm_compute. reflexivity.
  - reflexivity.
  - split; [discriminate|]. repeat constructor; discriminate.
  - vm_compute. lia.
  - discriminate.
  - discriminate.
Qed.

Lemma sys_getcwd_path_witness : exists s', sys_getcwd 2 sample_in_d 16 = Done (Some (slash :: name_d), s') /\ calm sample_in_d s'.
Proof.
  destruct (sys_getcwd_path 2 sample_in_d sample_dirs [name_d] 16) as [(s' & E & _ & Hc) _].
  - exact sample_in_d_ready.
  - exact sample_located.
  - simpl. lia.
  - vm_compute. reflexivity.
  - exists s'. split; [exact E|exact Hc].
Defined.
