(* ===== verification/Stdout.v ===== *)
(** * Output to the standard output (lib/stdio.c: printf; fs/fs.c: sys_help; shell/shell.c: print_prompt)

    What programs print goes through [sys_write] to descriptor 1, which leads to the screen
    or to a pipe. A write to a pipe that sleeps until someone reads does not return to its
    caller: the outcome is [Diverge], the caller being the process that would have to read
    where the shell writes into its own pipe. *)
From stdpp Require Import base numbers list option tactics gmap fin_maps.
From Stdlib Require Import ZArith Lia.
From Stdlib Require String.
Import String.StringSyntax.
From S2P Require Import Prelude Bitmap Cpu Stdio Sched Sync Ioqueue Ide Heap Iface Inode File FileIo Dir Path Calls Io Builtin.

Section Stdout.
Context {D P : Type} `{BlockDev D} `{PageStore P}.
Abbreviation mach := (io (D := D) (P := P)) (only parsing).

Definition write_stdout (x : mach) (bytes : list Z) : outcome mach :=
  r ← sys_write x stdout_no bytes;
  match r.1 with Ret _ => Done r.2 | _ => Diverge end.

(** [printf], and several calls in turn. *)
Definition print (x : mach) (t : text) : outcome mach :=
  s ← printf t.1 t.2;
  write_stdout x s.
Fixpoint print_all (x : mach) (ts : list text) : outcome mach :=
  match ts with [] => Done x | t :: ts => x ← print x t; print_all x ts end.

Definition print_prompt (x : mach) (cwd_cache : list Z) : outcome mach := print x (chars "[rabbit@localhost %s]$ ", [VStr cwd_cache]).

(** [printk] formats like [printf] and shows the text whatever descriptor 1 leads to. *)
Definition help_text : list Z :=
  chars " buildin commands:" ++
  10 :: chars "       ls: show directory or file information" ++
  10 :: chars "       cd: change current work directory" ++
  10 :: chars "       mkdir: create a directory" ++
  10 :: chars "       rmdir: remove a empty directory" ++
  10 :: chars "       rm: remove a regular file" ++
  10 :: chars "       pwd: show current work directory" ++
  10 :: chars "       ps: show process information" ++
  10 :: chars "       clear: clear screen" ++
  10 :: chars " shortcut key:" ++
  10 :: chars "       ctrl+l: clear screen" ++
  10 :: chars "       ctrl+u: clear input" ++ [10; 10].
Definition with_screen (t : list Z) (x : mach) : mach := mk_io (io_fs x) (io_sched x) (pipes x) (kbd_buf x) t.
Definition sys_help (x : mach) : outcome mach :=
  t ← printf help_text [];
  Done (with_screen (screen x ++ t) x).

(** The two commands that only make a system call. *)
Definition buildin_clear (x : mach) (argc : Z) : outcome mach :=
  if negb (argc =? 1) then print x (msg "clear: no argument support!" []) else Done (with_screen [] x).
Definition buildin_help (x : mach) : outcome mach := sys_help x.
End Stdout.

(** ** Lemmas *)

(** Where the standard output is not a pipe, a text reaches the screen up to its first 0. *)
Section Screen.
Context {D P : Type} `{BlockDev D} `{PageStore P}.
Abbreviation mach := (io (D := D) (P := P)) (only parsing).

Lemma no_pipe (s : Inode.fs (D := D) (A := heap (P := P))) fd g f : 0 <= fd -> fd_table s !! Z.to_nat fd = Some g -> 0 <= g < 32 -> file_table s !! Z.to_nat g = Some f -> fd_flag f <> PIPE_FLAG ->
  fd_local2global s fd = Done g /\ is_pipe s fd = Done false.
Proof.
  intros H1 H2 H3 H4 H5. assert (Hl : fd_local2global s fd = Done g).
  { unfold fd_local2global. rewrite (aget_Some _ _ _ H1 H2), bind_done. unfold MAX_FILE_OPEN. assert_ok; [done|lia]. }
  split; [done|]. unfold is_pipe. rewrite Hl, bind_done, (aget_Some (file_table s) g f ltac:(lia) H4), bind_done. by rewrite (proj2 (Z.eqb_neq _ _) H5).
Qed.

Lemma cname_zero n t : Forall (fun c => c <> 0) n -> cname (n ++ 0 :: t) = n.
Proof. induction 1 as [|c n Hc Hn IH]; cbn [cname app]; [by rewrite decide_True|]. by rewrite decide_False, IH. Qed.

Lemma sys_write_screen x g1 f1 bytes : fd_table (io_fs x) !! 1%nat = Some g1 -> 0 <= g1 < 32 -> file_table (io_fs x) !! Z.to_nat g1 = Some f1 -> fd_flag f1 <> PIPE_FLAG ->
  Forall (fun c => c <> 0) bytes ->
  sys_write x stdout_no bytes = if decide (Z.of_nat (length bytes) < 1024) then Done (Ret (Z.of_nat (length bytes)), mk_io (io_fs x) (io_sched x) (pipes x) (kbd_buf x) (screen x ++ bytes)) else Fault.
Proof.
  intros F1 F2 F3 F4 Hb. destruct (no_pipe (io_fs x) 1 g1 f1 ltac:(lia) F1 F2 F3 F4) as [_ Hp]. unfold sys_write, stdout_no.
  change (1 <? 0) with false. change (1 =? 1) with true. cbv iota. rewrite Hp, bind_done. unfold put_text. destruct (decide (Z.of_nat (length bytes) < 1024)) as [E|E].
  - assert (Er : replicate (1024 - length bytes) 0 = 0 :: replicate (1023 - length bytes) 0) by (by replace (1024 - length bytes)%nat with (S (1023 - length bytes)) by lia).
    rewrite Er. rewrite decide_True by lia. rewrite decide_True by (apply elem_of_app; right; left). rewrite bind_done, cname_zero by done. f_equal. f_equal. f_equal. apply i32_small. lia.
  - destruct (decide (Z.of_nat (length bytes) <= 1024)) as [E2|E2]; [|done]. assert (El : (1024 - length bytes)%nat = O) by lia. rewrite El. cbn [replicate]. rewrite app_nil_r.
    rewrite decide_False; [done|]. intros H0'. by apply (proj1 (Forall_forall _ _) Hb 0).
Qed.

End Screen.
