(* ===== verification/Keyboard.v ===== *)
(** * The keyboard (device/keyboard.c)

    The interrupt handler takes one byte of a scan code per interrupt, keeps the state of
    the modifier keys, and puts characters into the queue [kbd_buf] of the shell. *)
From stdpp Require Import base numbers list option tactics gmap fin_maps.
From Stdlib Require Import ZArith Lia.
From S2P Require Import Prelude Bitmap Cpu Sched Sync Ioqueue.

(** ** Data *)

(** The characters of the scan codes 0x00 to 0x3a without and with shift. *)
Definition keymap : list (Z * Z) :=
  [(0, 0); (27, 27); (49, 33); (50, 64); (51, 35); (52, 36); (53, 37); (54, 94); (55, 38); (56, 42); (57, 40);
   (48, 41); (45, 95); (61, 43); (8, 8); (9, 9); (113, 81); (119, 87); (101, 69); (114, 82); (116, 84); (121,
   89); (117, 85); (105, 73); (111, 79); (112, 80); (91, 123); (93, 125); (13, 13); (0, 0); (97, 65); (115, 83);
   (100, 68); (102, 70); (103, 71); (104, 72); (106, 74); (107, 75); (108, 76); (59, 58); (39, 34); (96, 126);
   (0, 0); (92, 124); (122, 90); (120, 88); (99, 67); (118, 86); (98, 66); (110, 78); (109, 77); (44, 60); (46,
   62); (47, 63); (0, 0); (42, 42); (0, 0); (32, 32); (0, 0)].

Definition shift_l_make : Z := 0x2a.
Definition shift_r_make : Z := 0x36.
Definition alt_l_make : Z := 0x38.
Definition alt_r_make : Z := 0xe038.
Definition ctrl_l_make : Z := 0x1d.
Definition ctrl_r_make : Z := 0xe01d.
Definition caps_lock_make : Z := 0x3a.

Record kbd := mk_kbd { ctrl_status : Z; shift_status : Z; alt_status : Z; caps_lock_status : Z; ext_scancode : Z }.

Definition with_ctrl (v : Z) (k : kbd) : kbd := mk_kbd v (shift_status k) (alt_status k) (caps_lock_status k) (ext_scancode k).
Definition with_shift (v : Z) (k : kbd) : kbd := mk_kbd (ctrl_status k) v (alt_status k) (caps_lock_status k) (ext_scancode k).
Definition with_alt (v : Z) (k : kbd) : kbd := mk_kbd (ctrl_status k) (shift_status k) v (caps_lock_status k) (ext_scancode k).
Definition with_caps (v : Z) (k : kbd) : kbd := mk_kbd (ctrl_status k) (shift_status k) (alt_status k) v (ext_scancode k).
Definition with_ext (v : Z) (k : kbd) : kbd := mk_kbd (ctrl_status k) (shift_status k) (alt_status k) (caps_lock_status k) v.

(** The keys whose second character is chosen by shift alone. *)
Definition two_chars (scancode : Z) : bool :=
  (scancode <? 0x0e) || (scancode =? 0x29) || (scancode =? 0x1a) || (scancode =? 0x1b) || (scancode =? 0x2b) || (scancode =? 0x27) ||
  (scancode =? 0x28) || (scancode =? 0x33) || (scancode =? 0x34) || (scancode =? 0x35).

(** The handler for one byte, up to the queue; the character is 0 where it returns
    without one. *)
Definition decode (k : kbd) (byte : Z) : outcome (kbd * Z) :=
  let scancode := byte in
  if scancode =? 0xe0 then Done (with_ext 1 k, 0) else
  let '(scancode, k) := if negb (ext_scancode k =? 0) then (Z.lor 0xe000 scancode, with_ext 0 k) else (scancode, k) in
  if negb (Z.land scancode 0x80 =? 0) then
    let make_code := Z.land scancode 0xff7f in
    if (make_code =? ctrl_l_make) || (make_code =? ctrl_r_make) then Done (with_ctrl 0 k, 0)
    else if (make_code =? shift_l_make) || (make_code =? shift_r_make) then Done (with_shift 0 k, 0)
    else if (make_code =? alt_l_make) || (make_code =? alt_r_make) then Done (with_alt 0 k, 0)
    else Done (k, 0)
  else if ((0 <? scancode) && (scancode <? 0x3b)) || (scancode =? alt_r_make) || (scancode =? ctrl_r_make) then
    let index := Z.land scancode 0xff in
    if (scancode =? ctrl_l_make) || (scancode =? ctrl_r_make) then Done (with_ctrl 1 k, 0)
    else if (scancode =? shift_l_make) || (scancode =? shift_r_make) then Done (with_shift 1 k, 0)
    else if (scancode =? alt_l_make) || (scancode =? alt_r_make) then Done (with_alt 1 k, 0)
    else if scancode =? caps_lock_make then Done (with_caps (if caps_lock_status k =? 0 then 1 else 0) k, 0)
    else
      let shift := if two_chars scancode then negb (shift_status k =? 0) else shift_status k + caps_lock_status k =? 1 in
      row ← aget keymap index;
      let cur_char := if shift then row.2 else row.1 in
      Done (k, if negb (ctrl_status k =? 0) && ((cur_char =? 108) || (cur_char =? 117)) then cur_char - 97 else cur_char)
  else Done (k, 0).

Definition intr_keyboard_handler (k : kbd) (s : sched) (kbd_buf : ioqueue) (byte : Z) : outcome (kbd * sched * ioqueue) :=
  r ← decode k byte;
  let '(k, cur_char) := r in
  if cur_char =? 0 then Done (k, s, kbd_buf) else
  full ← ioq_full s kbd_buf;
  if full : bool then Done (k, s, kbd_buf) else
  r ← ioq_putchar s kbd_buf cur_char;
  Done (k, r.1.2, r.2).

(** The interrupts of a sequence of bytes, with nothing read from the queue in between. *)
Fixpoint interrupts (k : kbd) (s : sched) (kbd_buf : ioqueue) (bytes : list Z) : outcome (kbd * sched * ioqueue) :=
  match bytes with
  | [] => Done (k, s, kbd_buf)
  | b :: bytes => r ← intr_keyboard_handler k s kbd_buf b; let '(k, s, q) := r in interrupts k s q bytes
  end.

(** ** Specification *)

(** A key goes down or up; keys of the extended set send 0xe0 first. *)
Record event := mk_event { extended : bool; code : Z; down : bool }.
Definition event_ok (e : event) : Prop := 0 <= code e < 128 /\ code e <> 0x60.
Definition encode (e : event) : list Z := (if extended e then [0xe0] else []) ++ [if down e then code e else code e + 128].

Record mods := mk_mods { ctrl : bool; shift : bool; alt : bool; caps : bool }.
Definition kbd_of (m : mods) : kbd := mk_kbd (Z.b2z (ctrl m)) (Z.b2z (shift m)) (Z.b2z (alt m)) (Z.b2z (caps m)) 0.

Definition letter (c : Z) : bool := (97 <=? c) && (c <=? 122).

(** The character of a key: caps lock reverses shift for letters and for nothing else. *)
Definition key_char (m : mods) (c : Z) : list Z :=
  match keymap !! Z.to_nat c with
  | None => []
  | Some (lo, hi) =>
      let ch := if (if letter lo then xorb (shift m) (caps m) else shift m) then hi else lo in
      if ch =? 0 then [] else if ctrl m && ((ch =? 108) || (ch =? 117)) then [ch - 97] else [ch]
  end.

Definition key (m : mods) (e : event) : mods * list Z :=
  let d := down e in
  if code e =? 0x1d then (mk_mods d (shift m) (alt m) (caps m), [])
  else if code e =? 0x38 then (mk_mods (ctrl m) (shift m) d (caps m), [])
  else if extended e then (m, [])
  else if (code e =? 0x2a) || (code e =? 0x36) then (mk_mods (ctrl m) d (alt m) (caps m), [])
  else if code e =? 0x3a then (mk_mods (ctrl m) (shift m) (alt m) (if d then negb (caps m) else caps m), [])
  else (m, if d then key_char m (code e) else []).

Fixpoint keys (m : mods) (es : list event) : mods * list Z :=
  match es with
  | [] => (m, [])
  | e :: es => let '(m1, c) := key m e in let '(m2, cs) := keys m1 es in (m2, c ++ cs)
  end.

(** ** Lemmas *)

(** The characters of a sequence of bytes. *)
Fixpoint decodes (k : kbd) (bytes : list Z) : outcome (kbd * list Z) :=
  match bytes with
  | [] => Done (k, [])
  | b :: bytes =>
      r ← decode k b;
      x ← decodes r.1 bytes;
      Done (x.1, (if r.2 =? 0 then [] else [r.2]) ++ x.2)
  end.

#[global] Instance kbd_eq_dec : EqDecision kbd.
Proof. solve_decision. Defined.
#[global] Instance mods_eq_dec : EqDecision mods.
Proof. solve_decision. Defined.

Definition same_keys (r : outcome (kbd * list Z)) (x : mods * list Z) : bool :=
  match r with Done (k, cs) => bool_decide (k = kbd_of x.1) && bool_decide (cs = x.2) | _ => false end.
Definition bools : list bool := [false; true].
Definition all_mods : list mods := c ← bools; s ← bools; a ← bools; l ← bools; [mk_mods c s a l].

Definition checked (x d : bool) (m : mods) (c : Z) : bool :=
  (c =? 0x60) || same_keys (decodes (kbd_of m) (encode (mk_event x c d))) (key m (mk_event x c d)).

Lemma forallb_in {T} (f : T -> bool) l x : forallb f l = true -> x ∈ l -> f x = true.
Proof. intros Hl Hx. rewrite forallb_forall in Hl. apply Hl. by apply list_elem_of_In. Qed.

(** All keys in all states of the modifiers. *)
Lemma keymap_checked :
  forallb (fun x => forallb (fun d => forallb (fun m => forallb (checked x d m) (seqZ 0 128)) all_mods) bools) bools = true.
Proof. vm_compute. reflexivity. Qed.

Lemma decodes_key m e : event_ok e -> decodes (kbd_of m) (encode e) = Done (kbd_of (key m e).1, (key m e).2).
Proof.
  intros [Hc Hn]. destruct e as [x c d]. cbn [code] in *.
  assert (Hb : forall b, b ∈ bools) by (intros []; set_solver).
  assert (Hm : m ∈ all_mods) by (destruct m as [[] [] [] []]; apply (bool_decide_unpack _); by vm_compute).
  assert (Hx : c ∈ seqZ 0 128) by (apply elem_of_seqZ; lia).
  pose proof (forallb_in _ _ _ (forallb_in _ _ _ (forallb_in _ _ _ (forallb_in _ _ x keymap_checked (Hb x)) (Hb d)) Hm) Hx) as Hk.
  unfold checked in Hk. apply orb_prop in Hk as [E%Z.eqb_eq|E]; [done|].
  unfold same_keys in E. destruct (decodes _ _) as [[k cs]| | |]; try done. apply andb_prop in E as [->%bool_decide_eq_true ->%bool_decide_eq_true]. done.
Qed.

Lemma take_take_app {T} n (l k : list T) : take n (take n l ++ k) = take n (l ++ k).
Proof.
  destruct (decide (length l <= n)%nat); [by rewrite (take_ge l)|]. rewrite !take_app_le; try lia; [by rewrite take_take, Nat.min_id|rewrite length_take; lia].
Qed.

(** The state of scheduler and queue that holds between interrupts. *)
Definition queue_inv (s : sched) (q : ioqueue) : Prop := sched_inv s /\ off s /\ ioq_wf q /\ sleeper_ok s (consumer q).

Lemma contents_le q : ioq_wf q -> (length (contents q) <= 2047)%nat.
Proof. intros _. pose proof (length_contents q) as Hl. unfold ioq_len, bufsize in Hl. pose proof (Z.mod_pos_bound (Ioqueue.head q - Ioqueue.tail q) 2048). lia. Qed.

Lemma handler_spec k s q b k' c : queue_inv s q -> decode k b = Done (k', c) ->
  exists s' q', intr_keyboard_handler k s q b = Done (k', s', q') /\ queue_inv s' q' /\ cur s' = cur s /\
    contents q' = take 2047 (contents q ++ (if c =? 0 then [] else [c])).
Proof.
  intros (Hi & Ho & Hw & Hs) Hd. pose proof (contents_le q Hw) as Hle. unfold intr_keyboard_handler. rewrite Hd, bind_done. destruct (Z.eqb_spec c 0) as [->|Hc].
  - exists s, q. rewrite app_nil_r, take_ge by lia. done.
  - unfold ioq_full. rewrite (ASSERT_true (bool_decide _)) by (by apply bool_decide_true). rewrite !bind_done, full_len by done.
    pose proof (length_contents q) as Hl. case_bool_decide as Hf.
    + exists s, q. rewrite take_app_le by (unfold bufsize in Hf; lia). rewrite take_ge by lia. done.
    + destruct (putchar_spec s q c) as (s' & q' & -> & Hc' & Hw' & Hp' & Hz' & _ & Hi' & Ho' & Hcur' & _ & _); [done..|]. rewrite bind_done. exists s', q'.
      split; [done|]. split; [split_and!; try done; by left|]. split; [done|]. rewrite Hc', take_ge; [done|].
      rewrite length_app. cbn [length]. unfold bufsize in Hf. lia.
Qed.

Lemma interrupts_spec bytes : forall k s q k' cs, queue_inv s q -> decodes k bytes = Done (k', cs) ->
  exists s' q', interrupts k s q bytes = Done (k', s', q') /\ queue_inv s' q' /\ cur s' = cur s /\ contents q' = take 2047 (contents q ++ cs).
Proof.
  induction bytes as [|b bytes IH]; intros k s q k' cs Hq Hd; cbn [decodes interrupts] in *.
  - injection Hd as <- <-. exists s, q. rewrite app_nil_r, take_ge by (apply contents_le, Hq). done.
  - apply bind_done_inv in Hd as ([k1 c] & Hd1 & Hd). apply bind_done_inv in Hd as ([k2 cs2] & Hd2 & [= <- <-]). cbn [fst snd] in *.
    destruct (handler_spec k s q b k1 c Hq Hd1) as (s1 & q1 & -> & Hq1 & Hcu1 & Hc1). rewrite bind_done.
    destruct (IH k1 s1 q1 k2 cs2 Hq1 Hd2) as (s2 & q2 & -> & Hq2 & Hcu2 & Hc2). exists s2, q2. split_and!; try done; [congruence|].
    rewrite Hc2, Hc1, take_take_app. by rewrite <- app_assoc.
Qed.

Lemma decodes_app l1 l2 k k1 c1 k2 c2 : decodes k l1 = Done (k1, c1) -> decodes k1 l2 = Done (k2, c2) -> decodes k (l1 ++ l2) = Done (k2, c1 ++ c2).
Proof.
  revert k k1 c1. induction l1 as [|b l1 IH]; intros k k1 c1 H1 H2; cbn [decodes app] in *; [by injection H1 as <- <-|].
  apply bind_done_inv in H1 as (r & -> & H1). apply bind_done_inv in H1 as (x & Hx & [= <- <-]). rewrite bind_done.
  destruct x as [x1 x2]. cbn [fst snd] in *. by rewrite (IH _ _ _ Hx H2), bind_done, <- app_assoc.
Qed.

Lemma decodes_keys es m : Forall event_ok es -> decodes (kbd_of m) (es ≫= encode) = Done (kbd_of (keys m es).1, (keys m es).2).
Proof.
  revert m. induction es as [|e es IH]; intros m Hes; [done|]. apply Forall_cons in Hes as [He Hes]. rewrite bind_cons. cbn [keys].
  pose proof (decodes_key m e He) as H1. destruct (key m e) as [m1 c]. specialize (IH m1 Hes). destruct (keys m1 es) as [m2 cs].
  exact (decodes_app _ _ _ _ _ _ _ H1 IH).
Qed.

(** ** Properties *)

(** C29. Any sequence of key presses and releases, sent byte by byte to the interrupt
    handler, leaves the modifiers as the last event of each modifier key says (caps lock
    toggles on each press) and appends the characters of the pressed keys to the queue in
    their order, up to its capacity of 2047, later ones being dropped: letters are upper
    case when exactly one of shift and caps lock is on, other keys follow shift alone.
    The handler never blocks. *)
Theorem keyboard_types es m s q :
  Forall event_ok es -> queue_inv s q ->
  exists s' q', interrupts (kbd_of m) s q (es ≫= encode) = Done (kbd_of (keys m es).1, s', q') /\ queue_inv s' q' /\ cur s' = cur s /\
    contents q' = take 2047 (contents q ++ (keys m es).2).
Proof. intros Hes Hq. apply interrupts_spec; [done|]. by apply decodes_keys. Qed.

(** Shift down, "a", shift up, "a", with a queue that holds "A". *)
Lemma keyboard_types_witness :
  let es := [mk_event false 0x2a true; mk_event false 0x1e true; mk_event false 0x2a false; mk_event false 0x1e true] in
  exists s' q', interrupts (kbd_of (mk_mods false false false false)) sample_sched sample_ioq (es ≫= encode) = Done (kbd_of (mk_mods false false false false), s', q') /\
    contents q' = [65; 65; 97].
Proof.
  intros es. destruct (keyboard_types es (mk_mods false false false false) sample_sched sample_ioq) as (s' & q' & H1 & _ & _ & H2).
  - repeat constructor; discriminate.
  - split_and!; [exact sample_inv|reflexivity|exact sample_ioq_wf|]. right. split; [apply (bool_decide_unpack _); by vm_compute|reflexivity].
  - exists s', q'. split; [exact H1|]. rewrite H2. vm_compute. reflexivity.
Defined.
