(* ===== verification/Shell.v ===== *)
(** * Reading and parsing commands (shell/shell.c)

    [readline] edits a line in the array [cmd_line] of 128 bytes with the keys it reads;
    [cmd_parse] cuts it into words in place. What they print is not modelled. *)
From stdpp Require Import base numbers list option tactics gmap fin_maps.
From Stdlib Require Import ZArith Lia.
From S2P Require Import Prelude Bitmap Ide Iface Inode File FileIo Dir Path.

Definition cmd_len : Z := 128.
Definition MAX_ARG_NR : Z := 16.

(** ** Reading a line *)

(** The line is complete, the buffer ended without Enter, or the next key is awaited. *)
Inductive line := Entered (buf : list Z) | NoEnter (buf : list Z) | Typing (buf : list Z) (pos : Z).

(** *(pos--) = 0 until pos is buf. *)
Fixpoint clear_back (buf : list Z) (pos : Z) (n : nat) : outcome (list Z) :=
  match n with
  | O => Done buf
  | S n => if pos =? 0 then Done buf else buf ← aset buf pos 0; clear_back buf (pos - 1) n
  end.

(** [keys] are what [read] returns, one after the other. *)
Fixpoint readline (buf : list Z) (pos count : Z) (keys : list Z) : outcome line :=
  match keys with
  | [] => Done (Typing buf pos)
  | c :: keys =>
      buf ← aset buf pos c;
      if negb (pos <? count) then Done (NoEnter buf) else
      if (c =? 10) || (c =? 13) then buf ← aset buf pos 0; Done (Entered buf)
      else if c =? 8 then
        b0 ← aget buf 0;
        readline buf (if negb (b0 =? 8) then pos - 1 else pos) count keys
      else if c =? 11 then buf ← aset buf pos 0; readline buf pos count keys
      else if c =? 20 then buf ← clear_back buf pos (Z.to_nat pos); readline buf 0 count keys
      else readline buf (pos + 1) count keys
  end.

(** ** Cutting it into words *)

(** while ( *next == token) next++; *)
Fixpoint skip_token (buf : list Z) (token next : Z) (n : nat) : outcome Z :=
  match n with
  | O => Diverge
  | S n => c ← aget buf next; if c =? token then skip_token buf token (next + 1) n else Done next
  end.
(** while ( *next && *next != token) next++; *)
Fixpoint end_word (buf : list Z) (token next : Z) (n : nat) : outcome Z :=
  match n with
  | O => Diverge
  | S n => c ← aget buf next; if negb (c =? 0) && negb (c =? token) then end_word buf token (next + 1) n else Done next
  end.

(** One turn of the outer loop; the state is the string, [next], [argc] and [argv]. *)
Definition parse_turn (token : Z) (st : list Z * Z * Z * list (option Z))
    : outcome ((list Z * Z * Z * list (option Z)) + (Z * list (option Z) * list Z)) :=
  let '(buf, next, argc, argv) := st in
  c ← aget buf next;
  if c =? 0 then Done (inr (argc, argv, buf)) else
  next ← skip_token buf token next (length buf);
  c ← aget buf next;
  if c =? 0 then Done (inr (argc, argv, buf)) else
  argv ← aset argv argc (Some next);
  next ← end_word buf token next (length buf);
  c ← aget buf next;
  r ← (if negb (c =? 0) then buf ← aset buf next 0; Done (buf, next + 1) else Done (buf, next));
  let '(buf, next) := r in
  if MAX_ARG_NR <? argc then Done (inr (-1, argv, buf)) else
  Done (inl (buf, next, argc + 1, argv)).

(** [argc], [argv] as offsets into the string, and the string. *)
Definition cmd_parse (cmd_str : list Z) (token : Z) : outcome (Z * list (option Z) * list Z) :=
  loop (S (length cmd_str)) (parse_turn token) (cmd_str, 0, 0, replicate (Z.to_nat MAX_ARG_NR) None).

(** ** Specification *)

(** What the keys make of a line. *)
Inductive edited := Still (l : list Z) | Full | Ended (l : list Z).
Fixpoint edit (l keys : list Z) : edited :=
  match keys with
  | [] => Still l
  | c :: keys =>
      if decide (128 <= length l)%nat then Full else
      if decide (c = 10 \/ c = 13) then Ended l
      else if decide (c = 8) then edit (take (length l - 1) l) keys
      else if decide (c = 11) then edit l keys
      else if decide (c = 20) then edit [] keys
      else edit (l ++ [c]) keys
  end.

(** ** Lemmas *)
Definition text (l : list Z) : Prop := Forall (fun c => c <> 0 /\ c <> 8) l.

Lemma clear_back_ok buf pos n : 0 <= pos -> pos < Z.of_nat (length buf) -> exists b, clear_back buf pos n = Done b /\ length b = length buf.
Proof.
  revert buf pos. induction n as [|n IH]; intros buf pos H1 H2; cbn [clear_back]; [eauto|]. destruct (Z.eqb_spec pos 0); [eauto|].
  rewrite aset_in by lia. rewrite bind_done. destruct (IH (<[Z.to_nat pos := 0]> buf) (pos - 1)) as (b & -> & Hb); [lia|rewrite length_insert; lia|].
  exists b. split; [done|]. by rewrite Hb, length_insert.
Qed.

Lemma cname_text l b : text l -> take (length l) b = l -> b !! length l = Some 0 -> cname b = l.
Proof.
  revert b. induction l as [|c l IH]; intros b Hl Ht Hb.
  - destruct b; [done|]. injection Hb as ->. cbn [cname]. by rewrite decide_True.
  - apply Forall_cons in Hl as [[Hc _] Hl]. destruct b as [|c' b]; [done|]. cbn [take length] in Ht. injection Ht as -> Ht. cbn [cname]. rewrite decide_False by done. f_equal. by apply IH.
Qed.

Lemma readline_ok keys : forall l buf,
  length buf = 128%nat -> Forall (fun c => c <> 0) keys -> text l -> take (length l) buf = l ->
  match edit l keys with
  | Still l' => exists b, readline buf (Z.of_nat (length l)) MAX_PATH_LEN keys = Done (Typing b (Z.of_nat (length l'))) /\ take (length l') b = l'
  | Full => readline buf (Z.of_nat (length l)) MAX_PATH_LEN keys = Fault
  | Ended l' => exists b, readline buf (Z.of_nat (length l)) MAX_PATH_LEN keys = Done (Entered b) /\ cname b = l'
  end.
Proof.
  induction keys as [|c keys IH]; intros l buf Hb Hk Hl Ht; cbn [edit readline]; [by exists buf|]. apply Forall_cons in Hk as [Hc Hk].
  case_decide as Hlen; [by rewrite aset_out by (rewrite Hb; lia)|]. rewrite aset_in by lia. rewrite bind_done, Nat2Z.id.
  set (buf1 := <[length l := c]> buf). assert (Hb1 : length buf1 = 128%nat) by (unfold buf1; by rewrite length_insert).
  assert (Ht1 : take (length l) buf1 = l) by (unfold buf1; by rewrite take_insert_ge).
  assert (Hat : buf1 !! length l = Some c) by (unfold buf1; apply list_lookup_insert_eq; lia).
  destruct (Z.ltb_spec (Z.of_nat (length l)) MAX_PATH_LEN); [|unfold MAX_PATH_LEN in *; lia]. cbn [negb].
  assert (Hzero : take (length l) (<[length l := 0]> buf1) = l) by (by rewrite take_insert_ge).
  case_decide as E1.
  - assert ((c =? 10) || (c =? 13) = true) as -> by lia. rewrite aset_in by lia. rewrite bind_done, Nat2Z.id. eexists. split; [done|].
    apply cname_text; [done|done|]. apply list_lookup_insert_eq. lia.
  - assert ((c =? 10) || (c =? 13) = false) as -> by lia. case_decide as E2.
    + subst c. cbn [Z.eqb]. change (8 =? 8) with true. cbv iota. destruct (aget_in buf1 0) as (b0 & Hb0 & ->); [lia|]. change (Z.to_nat 0) with 0%nat in Hb0. rewrite bind_done.
      destruct l as [|x l].
      * cbn [length] in *. rewrite Hat in Hb0. injection Hb0 as <-. change (8 =? 8) with true. exact (IH [] buf1 Hb1 Hk Hl Ht1).
      * pose proof Hl as [[_ Hx] _]%Forall_cons. pose proof Ht1 as HT. cbn [take length] in Ht1. destruct buf1 as [|x' buf1]; [done|]. injection Ht1 as -> Ht1. injection Hb0 as <-.
        destruct (Z.eqb_spec x 8); [done|]. cbn [negb]. set (l1 := take (length (x :: l) - 1) (x :: l)).
        assert (Hl1 : Z.of_nat (length (x :: l)) - 1 = Z.of_nat (length l1)) by (unfold l1; rewrite length_take; cbn [length]; lia).
        rewrite Hl1. apply IH; [done|done|by apply Forall_take|]. transitivity (take (length (x :: l) - 1) (take (length (x :: l)) (x :: buf1))); [|by rewrite HT].
        rewrite take_take. f_equal. unfold l1. rewrite length_take. lia.
    + destruct (Z.eqb_spec c 8); [done|]. case_decide as E3.
      * subst c. change (11 =? 11) with true. cbv iota. rewrite aset_in by lia. rewrite bind_done, Nat2Z.id. apply IH; try done. by rewrite length_insert.
      * destruct (Z.eqb_spec c 11); [done|]. case_decide as E4.
        -- subst c. change (20 =? 20) with true. cbv iota.
           destruct (clear_back_ok buf1 (Z.of_nat (length l)) (length l)) as (b & -> & Hb2); [lia|lia|]. rewrite bind_done.
           apply (IH [] b); try done; [congruence|constructor].
        -- destruct (Z.eqb_spec c 20); [done|]. replace (Z.of_nat (length l) + 1) with (Z.of_nat (length (l ++ [c]))) by (rewrite length_app; simpl; lia).
           apply IH; try done; [apply Forall_app; split; [done|]; by repeat constructor|]. rewrite length_app. cbn [length].
           rewrite Nat.add_1_r. by rewrite (take_S_r _ _ c), Ht1.
Qed.

Lemma insert_middle {T} (a b : list T) x y : <[length a := x]> (a ++ y :: b) = a ++ x :: b.
Proof. rewrite <- (Nat.add_0_r (length a)) at 1. by rewrite insert_app_r. Qed.

Lemma lookup_middle {T} (a b : list T) x : (a ++ x :: b) !! length a = Some x.
Proof. by rewrite lookup_app_r, Nat.sub_diag. Qed.

Lemma aget_middle {T} (a b : list T) x : aget (a ++ x :: b) (Z.of_nat (length a)) = Done x.
Proof. apply aget_Some; [lia|]. by rewrite Nat2Z.id, lookup_middle. Qed.

Lemma cname_nonzero w x : Forall (fun c => c <> 0) w -> cname (w ++ 0 :: x) = w.
Proof. induction 1 as [|c w Hc Hw IH]; cbn [cname app]; [by rewrite decide_True|]. by rewrite decide_False, IH. Qed.

(** Leading separators are skipped. *)
Lemma skip_token_ok tok rest : forall a t n, tok <> 0 -> Forall (fun c => c <> 0) rest -> (length rest < n)%nat ->
  exists k rest2, rest = replicate k tok ++ rest2 /\ head rest2 <> Some tok /\ splits tok rest = splits tok rest2 /\
    skip_token (a ++ rest ++ 0 :: t) tok (Z.of_nat (length a)) n = Done (Z.of_nat (length (a ++ replicate k tok))).
Proof.
  induction rest as [|c rest IH]; intros a t n Htok Hf Hn; (destruct n as [|n]; [simpl in Hn; lia|]); cbn [skip_token].
  - exists 0%nat, []. cbn [app replicate]. rewrite aget_middle, bind_done. destruct (Z.eqb_spec 0 tok); [congruence|]. by rewrite app_nil_r.
  - cbn [app]. rewrite aget_middle, bind_done. apply Forall_cons in Hf as [Hc Hf]. destruct (Z.eqb_spec c tok) as [->|Hne].
    + destruct (IH (a ++ [tok]) t n Htok Hf) as (k & rest2 & E1 & E2 & E3 & E4); [simpl in Hn; lia|]. exists (S k), rest2. split_and!.
      * by rewrite E1 at 1.
      * done.
      * cbn [splits]. by rewrite decide_True.
      * rewrite <- app_assoc in E4. cbn [app] in E4. replace (Z.of_nat (length a) + 1) with (Z.of_nat (length (a ++ [tok]))) by (rewrite length_app; simpl; lia).
        rewrite E4. cbn [replicate]. by rewrite <- app_assoc.
    + exists 0%nat, (c :: rest). cbn [replicate app]. rewrite app_nil_r. split_and!; try done. cbn [head]. congruence.
Qed.

Lemma end_word_ok tok rest : forall a t n, tok <> 0 -> Forall (fun c => c <> 0) rest -> (length rest < n)%nat ->
  end_word (a ++ rest ++ 0 :: t) tok (Z.of_nat (length a)) n = Done (Z.of_nat (length (a ++ word_of tok rest))).
Proof.
  induction rest as [|c rest IH]; intros a t n Htok Hf Hn; (destruct n as [|n]; [simpl in Hn; lia|]); cbn [end_word word_of].
  - cbn [app]. rewrite aget_middle, bind_done, app_nil_r. done.
  - cbn [app]. rewrite aget_middle, bind_done. apply Forall_cons in Hf as [Hc Hf]. destruct (Z.eqb_spec c 0); [done|]. cbn [negb andb].
    destruct (Z.eqb_spec c tok) as [->|Hne]; [rewrite decide_True by done; by rewrite app_nil_r|]. rewrite decide_False by done. cbn [negb].
    specialize (IH (a ++ [c]) t n Htok Hf). rewrite <- !app_assoc in IH. cbn [app] in IH. rewrite <- IH by (simpl in Hn; lia). f_equal. rewrite length_app. simpl. lia.
Qed.

(** The words found so far are closed strings in the part of the line already passed. *)
Definition words_in (ws : list (list Z)) (argv : list (option Z)) (done : list Z) : Prop :=
  length argv = 16%nat /\
  (forall i w, ws !! i = Some w -> exists off x, argv !! i = Some (Some (Z.of_nat off)) /\ drop off done = w ++ 0 :: x /\ Forall (fun c => c <> 0) w) /\
  (forall i, (length ws <= i < 16)%nat -> argv !! i = Some None).

(** What [cmd_parse] leaves: the strings of [argv] are the words. *)
Definition parsed (ws : list (list Z)) (argv : list (option Z)) (buf : list Z) : Prop :=
  length argv = 16%nat /\
  (forall i w, ws !! i = Some w -> exists off, argv !! i = Some (Some (Z.of_nat off)) /\ cname (drop off buf) = w) /\
  (forall i, (length ws <= i < 16)%nat -> argv !! i = Some None).

Lemma words_in_app ws argv a b : words_in ws argv a -> words_in ws argv (a ++ b).
Proof.
  intros (H1 & H2 & H3). split_and!; try done. intros i w Hi. destruct (H2 i w Hi) as (off & x & E1 & E2 & E3). exists off, (x ++ b). split_and!; try done.
  assert (off < length a)%nat by (pose proof (f_equal length E2) as El; rewrite length_drop, length_app in El; simpl in El; lia).
  rewrite drop_app_le by lia. by rewrite E2, <- app_assoc.
Qed.

Lemma words_in_parsed ws argv a : words_in ws argv a -> parsed ws argv a.
Proof.
  intros (H1 & H2 & H3). split_and!; try done. intros i w Hi. destruct (H2 i w Hi) as (off & x & E1 & E2 & E3). exists off. split; [done|]. by rewrite E2, cname_nonzero.
Qed.

Lemma words_in_snoc ws argv a w : words_in ws argv a -> (length ws < 16)%nat -> Forall (fun c => c <> 0) w ->
  words_in (ws ++ [w]) (<[length ws := Some (Z.of_nat (length a))]> argv) (a ++ w ++ [0]).
Proof.
  intros Hw Hl Hnz. pose proof Hw as (H1 & _ & H3). destruct (words_in_app _ _ _ (w ++ [0]) Hw) as (_ & H2 & _). split_and!.
  - by rewrite length_insert.
  - intros i v Hi. apply lookup_app_Some in Hi as [Hi|[Hi1 Hi]].
    + destruct (H2 i v Hi) as (off & x & E1 & E2 & E3). exists off, x. split; [|done]. rewrite list_lookup_insert_ne; [done|]. apply lookup_lt_Some in Hi. lia.
    + apply list_lookup_singleton_Some in Hi as [Hi <-]. assert (i = length ws) as -> by lia. exists (length a), []. split_and!; [apply list_lookup_insert_eq; lia| |done].
      by rewrite drop_app_length.
  - intros i Hi. rewrite length_app in Hi. cbn [length] in Hi. rewrite list_lookup_insert_ne by lia. apply H3. lia.
Qed.

(** A turn that finds a word: [c :: r] follows the separators. *)
Lemma parse_turn_word tok rest a t (ws : list (list Z)) (argv : list (option Z)) c r k :
  tok <> 0 -> Forall (fun c => c <> 0) rest -> (length ws <= 16)%nat -> length argv = 16%nat -> rest = replicate k tok ++ c :: r -> c <> tok ->
  skip_token (a ++ rest ++ 0 :: t) tok (Z.of_nat (length a)) (length (a ++ rest ++ 0 :: t)) = Done (Z.of_nat (length (a ++ replicate k tok))) ->
  let w := word_of tok (c :: r) in
  let a' := a ++ replicate k tok in
  parse_turn tok (a ++ rest ++ 0 :: t, Z.of_nat (length a), Z.of_nat (length ws), argv) =
  if decide (length ws < 16)%nat then
    Done (inl (match after_word tok (c :: r) with
      | [] => (a' ++ w ++ 0 :: t, Z.of_nat (length (a' ++ w)), Z.of_nat (S (length ws)), <[length ws := Some (Z.of_nat (length a'))]> argv)
      | _ :: r2 => (a' ++ w ++ 0 :: r2 ++ 0 :: t, Z.of_nat (length (a' ++ w ++ [0])), Z.of_nat (S (length ws)), <[length ws := Some (Z.of_nat (length a'))]> argv)
      end))
  else Fault.
Proof.
  intros Htok Hf Hws Hargv Erest Hc Hskip w a'. assert (Hh : exists c0 r0, rest = c0 :: r0 /\ c0 <> 0).
  { destruct rest as [|c0 r0]; [by destruct k|]. exists c0, r0. apply Forall_cons in Hf as [? _]. done. }
  destruct Hh as (c0 & r0 & Ec0 & Hc0). unfold parse_turn. rewrite Ec0 at 1. cbn [app]. rewrite aget_middle, bind_done. destruct (Z.eqb_spec c0 0); [done|].
  rewrite Hskip, bind_done. assert (Eb : a ++ rest ++ 0 :: t = a' ++ c :: r ++ 0 :: t) by (unfold a'; rewrite Erest, <- !app_assoc; done). rewrite Eb.
  assert (Hfr : Forall (fun c => c <> 0) (c :: r)) by (rewrite Erest in Hf; by apply Forall_app in Hf as [_ ?]). pose proof Hfr as [Hcz _]%Forall_cons.
  fold a'. rewrite aget_middle, bind_done. destruct (Z.eqb_spec c 0); [done|]. case_decide as Hlt; [|by rewrite aset_out by (rewrite Hargv; lia)].
  rewrite aset_in by lia. rewrite bind_done, Nat2Z.id. pose proof (end_word_ok tok (c :: r) a' t (length (a' ++ (c :: r) ++ 0 :: t)) Htok Hfr) as He. cbn [app] in He.
  rewrite He by (rewrite length_app; cbn [length]; rewrite length_app; cbn [length]; lia). rewrite bind_done. fold w.
  assert (Es : c :: r = w ++ after_word tok (c :: r)).
  { unfold w. clear. induction (c :: r) as [|x l IH]; [done|]. cbn [word_of after_word]. case_decide; [done|]. cbn [app]. by rewrite <- IH. }
  change (a' ++ c :: r ++ 0 :: t) with (a' ++ (c :: r) ++ 0 :: t). destruct (after_word_head tok (c :: r)) as [Hhead _].
  clearbody w a'. set (R := after_word tok (c :: r)) in *. clearbody R. rewrite Es.
  replace (Z.of_nat (length ws) + 1) with (Z.of_nat (S (length ws))) by lia. unfold MAX_ARG_NR. destruct (Z.ltb_spec 16 (Z.of_nat (length ws))); [lia|].
  destruct R as [|x r2]; rewrite <- !app_assoc; cbn [app]; rewrite (app_assoc a' w), aget_middle, bind_done.
  - change (0 =? 0) with true. cbn [negb]. by rewrite bind_done, <- app_assoc.
  - subst x. destruct (Z.eqb_spec tok 0); [done|]. cbn [negb]. rewrite aset_in by (rewrite (length_app (a' ++ w)); cbn [length]; lia). rewrite !bind_done, Nat2Z.id, insert_middle.
    rewrite <- app_assoc. replace (Z.of_nat (length (a' ++ w)) + 1) with (Z.of_nat (length (a' ++ w ++ [0]))) by (rewrite !length_app; cbn [length]; lia). done.
Qed.

Lemma parse_loop tok : forall fuel rest a t ws argv,
  tok <> 0 -> (length rest < fuel)%nat -> Forall (fun c => c <> 0) rest -> words_in ws argv a -> (length ws <= 16)%nat ->
  let r := loop fuel (parse_turn tok) (a ++ rest ++ 0 :: t, Z.of_nat (length a), Z.of_nat (length ws), argv) in
  if decide (length ws + length (splits tok rest) <= 16)%nat then
    exists argv' buf', r = Done (Z.of_nat (length ws + length (splits tok rest)), argv', buf') /\ parsed (ws ++ splits tok rest) argv' buf'
  else r = Fault.
Proof.
  induction fuel as [|fuel IH]; intros rest a t ws argv Htok Hfu Hf Hw Hws r; [lia|]. pose proof Hw as (Hargv & _ & _).
  destruct (skip_token_ok tok rest a t (length (a ++ rest ++ 0 :: t)) Htok Hf) as (k & rest2 & E1 & E2 & E3 & E4); [rewrite !length_app; cbn [length]; lia|].
  destruct rest2 as [|c r1].
  - (* no word is left *)
    rewrite E3. cbn [splits length]. rewrite Nat.add_0_r, decide_True, app_nil_r by done. exists argv, (a ++ rest ++ 0 :: t). split; [|by apply words_in_parsed, words_in_app].
    unfold r. apply loop_done. unfold parse_turn. destruct rest as [|c0 r0]; [cbn [app]; by rewrite aget_middle|].
    cbn [app]. rewrite aget_middle, bind_done. pose proof Hf as [Hc0 _]%Forall_cons. destruct (Z.eqb_spec c0 0); [done|]. cbn [app] in E4. rewrite E4, bind_done.
    rewrite app_nil_r in E1. replace (a ++ c0 :: r0 ++ 0 :: t) with ((a ++ replicate k tok) ++ 0 :: t) by (rewrite <- app_assoc, <- E1; done). by rewrite aget_middle.
  - assert (Hc : c <> tok) by (cbn [head] in E2; congruence). rewrite E3, (splits_word tok c r1 Hc).
    pose proof (parse_turn_word tok rest a t ws argv c r1 k Htok Hf Hws Hargv E1 Hc E4) as Hturn. cbv zeta in Hturn. cbn [length].
    assert (Hfr : Forall (fun c => c <> 0) (c :: r1)) by (rewrite E1 in Hf; by apply Forall_app in Hf as [_ ?]). destruct (word_of_chars tok (c :: r1) Hfr) as [Hwz Haz].
    destruct (after_word_head tok (c :: r1)) as [Hh Hl]. assert (Hlr : (length rest = k + length (c :: r1))%nat) by (rewrite E1, length_app, length_replicate; done).
    destruct (decide (length ws < 16)%nat) as [Hlt|Hge]; [|rewrite decide_False by lia; unfold r; cbn [loop]; by rewrite Hturn].
    unfold r. rewrite (loop_next _ _ _ _ Hturn). pose proof (words_in_app _ _ _ (replicate k tok) Hw) as Hw1. pose proof (words_in_snoc _ _ _ _ Hw1 Hlt Hwz) as Hw2.
    set (a' := a ++ replicate k tok) in *. set (w := word_of tok (c :: r1)) in *.
    assert (Els : Z.of_nat (S (length ws)) = Z.of_nat (length (ws ++ [w]))) by (rewrite length_app; cbn [length]; lia).
    destruct (after_word tok (c :: r1)) as [|x r2].
    + (* the last word *)
      cbn [splits length]. rewrite decide_True by lia. destruct fuel as [|fuel]; [cbn [length] in *; lia|].
      exists (<[length ws := Some (Z.of_nat (length a'))]> argv), (a' ++ w ++ 0 :: t). split.
      * apply loop_done. unfold parse_turn. rewrite (app_assoc a' w), aget_middle, bind_done. change (0 =? 0) with true. cbv iota. by replace (S (length ws)) with (length ws + 1)%nat by lia.
      * apply words_in_parsed. replace (a' ++ w ++ 0 :: t) with ((a' ++ w ++ [0]) ++ t) by (by rewrite <- !app_assoc). by apply words_in_app.
    + subst x. cbn [splits]. rewrite !(decide_True (P := tok = tok)) by done. apply Forall_cons in Haz as [_ Haz].
      specialize (IH r2 (a' ++ w ++ [0]) t (ws ++ [w]) (<[length ws := Some (Z.of_nat (length a'))]> argv) Htok). cbn [length] in Hl, Hlr.
      replace ((a' ++ w ++ [0]) ++ r2 ++ 0 :: t) with (a' ++ w ++ 0 :: r2 ++ 0 :: t) in IH by (by rewrite <- !app_assoc). rewrite <- Els in IH.
      cbv zeta in IH. rewrite length_app in IH. cbn [length] in IH. rewrite <- app_assoc in IH. cbn [app] in IH.
      replace (length ws + S (length (splits tok r2)))%nat with (length ws + 1 + length (splits tok r2))%nat by lia. apply IH; try done; lia.
Qed.

(** ** Properties *)

(** [readline], as the shell calls it, leaves in [cmd_line] the line that the keys
    make: a character is appended, backspace takes the last one off (and does nothing on
    an empty line), ctrl+u clears the line, ctrl+l leaves it, Enter ends it. A key typed
    when the line has 128 characters is stored outside the array, since the shell passes
    512 for its size. *)
Theorem readline_edits keys :
  Forall (fun c => c <> 0) keys ->
  match edit [] keys with
  | Still l => exists b, readline (replicate 128 0) 0 MAX_PATH_LEN keys = Done (Typing b (Z.of_nat (length l))) /\ take (length l) b = l
  | Full => readline (replicate 128 0) 0 MAX_PATH_LEN keys = Fault
  | Ended l => exists b, readline (replicate 128 0) 0 MAX_PATH_LEN keys = Done (Entered b) /\ cname b = l
  end.
Proof. intros Hk. apply (readline_ok keys [] (replicate 128 0)); try done. constructor. Qed.

(** "lx", backspace, "s", Enter. *)
Lemma readline_edits_witness : exists b, readline (replicate 128 0) 0 MAX_PATH_LEN [108; 120; 8; 115; 13] = Done (Entered b) /\ cname b = [108; 115].
Proof. apply (readline_edits [108; 120; 8; 115; 13]). repeat constructor; discriminate. Defined.

(** C30. [cmd_parse] cuts a line at the separators, in place: with at most 16 words [argc]
    is their number, the strings at [argv] are the words in their order and the rest of
    [argv] is NULL. With more words it stores outside [argv]; the test that is to return -1
    then (its comment says 0) comes after the store. *)
Theorem cmd_parse_words l t token :
  token <> 0 -> Forall (fun c => c <> 0) l ->
  if decide (length (splits token l) <= 16)%nat then
    exists argv buf, cmd_parse (l ++ 0 :: t) token = Done (Z.of_nat (length (splits token l)), argv, buf) /\ parsed (splits token l) argv buf
  else cmd_parse (l ++ 0 :: t) token = Fault.
Proof.
  intros Htok Hf. apply (parse_loop token (S (length (l ++ 0 :: t))) l [] t [] (replicate 16 None)); try done.
  - rewrite length_app. lia.
  - split_and!; [done|done|]. intros i Hi. apply lookup_replicate. split; [done|]. simpl in Hi. lia.
  - simpl. lia.
Qed.

(** "ls  -l " *)
Lemma cmd_parse_words_witness : exists argv buf, cmd_parse ([108; 115; 32; 32; 45; 108; 32] ++ 0 :: [7]) 32 = Done (2, argv, buf) /\ parsed [[108; 115]; [45; 108]] argv buf.
Proof. apply (cmd_parse_words [108; 115; 32; 32; 45; 108; 32] [7] 32); [discriminate|repeat constructor; discriminate]. Defined.
