(* ===== verification/WaitExit.v ===== *)
(** * Waiting for children and exiting (userprog/wait_exit.c)

    [sys_wait] looks for a child that hangs, reaps it, or sleeps until one exits;
    [sys_exit] gives the children to init, releases what the process holds, wakes a
    waiting parent and hangs. A call that sleeps ends where the processor goes to another
    task; the woken task runs the loop of [sys_wait] again. *)
From stdpp Require Import base numbers list option tactics gmap fin_maps.
From Stdlib Require Import ZArith Lia.
From S2P Require Import Prelude Bitmap Cpu Sched Sync Ioqueue Paging Ide Heap Iface Inode File FileIo Dir Io.
Import Intr.

Definition set_parent (n : Z) (t : task_struct) : task_struct :=
  mk_task (self_kstack t) (pid t) (Sched.status t) (priority t) (name t) (ticks t) (elapsed_ticks t) (pgdir t)
    (Sched.fd_table t) (Sched.cwd_inode_nr t) n (exit_status t) (stack_magic t) (kthread_stack t).
Definition set_exit_status (n : Z) (t : task_struct) : task_struct :=
  mk_task (self_kstack t) (pid t) (Sched.status t) (priority t) (name t) (ticks t) (elapsed_ticks t) (pgdir t)
    (Sched.fd_table t) (Sched.cwd_inode_nr t) (parent_pid t) n (stack_magic t) (kthread_stack t).

(** ** The callbacks of [list_traversal] *)
Definition is_child (s : sched) (ppid t : Z) : bool :=
  match threads s !! t with Some p => parent_pid p =? ppid | None => false end.
Definition is_hanging_child (s : sched) (ppid t : Z) : bool :=
  match threads s !! t with Some p => (parent_pid p =? ppid) && bool_decide (Sched.status p = TASK_HANGING) | None => false end.
(** The first task of [thread_all_list] that passes the test. *)
Definition find_task (s : sched) (test : Z -> bool) : option Z := snd <$> list_find (fun t => test t = true) (all s).

Definition init_adopt_a_child (ppid : Z) (p : task_struct) : task_struct := if parent_pid p =? ppid then set_parent 1 p else p.
Fixpoint adopt_children (s : sched) (l : list Z) (ppid : Z) : outcome sched :=
  match l with
  | [] => Done s
  | t :: l => s ← upd_task t (init_adopt_a_child ppid) s; adopt_children s l ppid
  end.

(** ** [sys_wait] *)
Inductive wait_result := Reaped (child_pid child_status : Z) (freed : list Z) | NoChild | Sleeps.

(** One turn of the loop of [sys_wait] by the running task. *)
Definition sys_wait (s : sched) : outcome (wait_result * sched) :=
  parent_thread ← task_at s (cur s);
  match find_task s (is_hanging_child s (pid parent_thread)) with
  | Some child_thread =>
      c ← task_at s child_thread;
      r ← thread_exit s child_thread false;
      Done (Reaped (u16 (pid c)) (exit_status c) r.1, r.2)
  | None =>
      match find_task s (is_child s (pid parent_thread)) with
      | None => Done (NoChild, s)
      | Some _ => r ← thread_block s TASK_WAITING; Done (Sleeps, r.2)
      end
  end.

(** ** [sys_exit] *)

(** Up to the release of the resources, and after it. *)
Definition exit_begin (s : sched) (status : Z) : outcome sched :=
  s ← upd_task (cur s) (set_exit_status (i8 status)) s;
  child_thread ← task_at s (cur s);
  if parent_pid child_thread =? -1 then Panic else adopt_children s (all s) (pid child_thread).

Definition exit_end (s : sched) : outcome sched :=
  child_thread ← task_at s (cur s);
  match pid2thread s (parent_pid child_thread) with
  | None => Fault
  | Some parent_thread =>
      p ← task_at s parent_thread;
      s ← (if bool_decide (Sched.status p = TASK_WAITING) then thread_unblock s parent_thread else Done s);
      r ← thread_block s TASK_HANGING;
      Done r.2
  end.

(** ** Releasing what a process holds *)

(** A frame whose entry is present goes back to its pool. *)
Definition release_entry (x : vm) (e : Z) : outcome vm := if negb (Z.land e 1 =? 0) then free_a_phy_page x (Z.land e 0xfffff000) else Done x.

Fixpoint release_ptes (x : vm) (v_pte_ptr : Z) (n : nat) : outcome vm :=
  match n with
  | O => Done x
  | S n => pte ← vread x v_pte_ptr; x ← release_entry x pte; release_ptes x (u32 (v_pte_ptr + 4)) n
  end.

Fixpoint release_pdes (x : vm) (pgdir_vaddr pde_idx : Z) (n : nat) : outcome vm :=
  match n with
  | O => Done x
  | S n =>
      pde ← vread x (u32 (pgdir_vaddr + 4 * pde_idx));
      x ← (if negb (Z.land pde 1 =? 0) then
             x ← release_ptes x (pte_ptr (u32 (pde_idx * 0x400000))) 1024;
             free_a_phy_page x (Z.land pde 0xfffff000)
           else Done x);
      release_pdes x pgdir_vaddr (pde_idx + 1) n
  end.

Section Release.
Context {D : Type} `{BlockDev D}.
Abbreviation mach := (io (D := D) (P := vm)) (only parsing).

(** The loop over the descriptors. *)
Fixpoint release_fds (x : mach) (local_fd : Z) (n : nat) : outcome mach :=
  match n with
  | O => Done x
  | S n =>
      g ← aget (Inode.fd_table (io_fs x)) local_fd;
      x ← (if negb (g =? -1) then
             b ← is_pipe (io_fs x) local_fd;
             if b : bool then
               global_fd ← fd_local2global (io_fs x) local_fd;
               f ← aget (file_table (io_fs x)) global_fd;
               let fd_pos := u32 (fd_pos f - 1) in
               if fd_pos =? 0 then
                 p ← mfree_page (pages (mem (io_fs x))) PF_KERNEL (fd_inode f) 1;
                 x ← set_file global_fd (mk_file fd_pos (fd_flag f) 0) (with_io_fs (with_mem (with_pages p (mem (io_fs x))) (io_fs x)) x);
                 Done (mk_io (io_fs x) (io_sched x) (delete (fd_inode f) (pipes x)) (kbd_buf x) (screen x))
               else set_file global_fd (mk_file fd_pos (fd_flag f) (fd_inode f)) x
             else r ← sys_close x local_fd; Done r.2
           else Done x);
      release_fds x (local_fd + 1) n
  end.

(** [bits] is the address of the bitmap of the process's virtual pool. *)
Definition release_prog_resource (x : mach) (pgdir_vaddr bits : Z) : outcome mach :=
  let m := mem (io_fs x) in
  v ← release_pdes (pages m) pgdir_vaddr 0 768;
  let bitmap_pg_cnt := btmp_bytes_len (vaddr_bitmap (userprog_vaddr v)) / PG_SIZE in
  v ← mfree_page v PF_KERNEL bits bitmap_pg_cnt;
  release_fds (with_io_fs (with_mem (with_pages v m) (io_fs x)) x) 3 (Z.to_nat (Sched.MAX_FILES_OPEN_PER_PROC - 3)).

Definition sys_exit (x : mach) (status bits : Z) : outcome mach :=
  c ← task_at (io_sched x) (cur (io_sched x));
  s ← exit_begin (io_sched x) status;
  x ← release_prog_resource (mk_io (io_fs x) s (pipes x) (kbd_buf x) (screen x)) (pgdir c) bits;
  s ← exit_end (io_sched x);
  Done (mk_io (io_fs x) s (pipes x) (kbd_buf x) (screen x)).
End Release.

(** ** Forking: what [sys_fork] does to the tasks (userprog/fork.c)

    The PCB is copied with its kernel stack; [child_thread] is the page for it, [dir] the
    new page directory and [intr_exit] the address the child starts at. *)
Definition copy_pcb (p : task_struct) (child_thread child_pid dir intr_exit : Z) : task_struct :=
  mk_task (u32 (child_thread + PG_SIZE - 76 - 20)) child_pid TASK_READY (priority p) (name p) (priority p) 0 dir
    (Sched.fd_table p) (Sched.cwd_inode_nr p) (i16 (pid p)) (exit_status p) (stack_magic p)
    (Some (mk_thread_stack 0 0 0 0 intr_exit 0 0)).

Definition fork_task (s : sched) (child_thread dir intr_exit : Z) : outcome (Z * sched) :=
  p ← task_at s (cur s);
  ASSERT (bool_decide (intr_get_status (eflags s) = INTR_OFF) && negb (pgdir p =? 0));;
  r ← allocate_pid s;
  let s := with_threads (<[child_thread := copy_pcb p child_thread r.1 dir intr_exit]>) r.2 in
  ASSERT (negb (in_list child_thread (Sched.ready s)));;
  let s := with_ready (fun q => q ++ [child_thread]) s in
  ASSERT (negb (in_list child_thread (all s)));;
  Done (r.1, with_all (fun q => q ++ [child_thread]) s).

(** ** What scheduling leaves alone *)
Definition asleep (st : task_status) : Prop := st = TASK_WAITING \/ st = TASK_HANGING.

(** The same tasks with the same family, and nobody begins to wait or to hang. *)
Definition same_family (p p' : task_struct) : Prop :=
  pid p' = pid p /\ parent_pid p' = parent_pid p /\ exit_status p' = exit_status p /\ (asleep (Sched.status p') -> Sched.status p' = Sched.status p).
Record calm (s s' : sched) : Prop := {
  calm_all : all s' = all s;
  calm_pids : pid_bitmap s' = pid_bitmap s;
  calm_old : forall t p', threads s' !! t = Some p' -> exists p, threads s !! t = Some p /\ same_family p p';
  calm_new : forall t p, threads s !! t = Some p -> exists p', threads s' !! t = Some p' /\ same_family p p'
}.

Lemma same_family_refl p : same_family p p.
Proof. done. Qed.

Lemma same_family_trans p q r : same_family p q -> same_family q r -> same_family p r.
Proof. intros (A1 & A2 & A3 & A4) (B1 & B2 & B3 & B4). split_and!; try congruence. intros Hs. specialize (B4 Hs). rewrite B4. apply A4. by rewrite <- B4. Qed.

Lemma calm_nothing s : calm s s.
Proof. constructor; eauto using same_family_refl. Qed.

Lemma calm_then a b c : calm a b -> calm b c -> calm a c.
Proof.
  intros [A1 A2 A3 A4] [B1 B2 B3 B4]. constructor; try congruence.
  - intros t p' Hp. destruct (B3 t p' Hp) as (q & Hq & F1). destruct (A3 t q Hq) as (p & Hp0 & F2). eauto using same_family_trans.
  - intros t p Hp. destruct (A4 t p Hp) as (q & Hq & F1). destruct (B4 t q Hq) as (p' & Hp' & F2). eauto using same_family_trans.
Qed.

Lemma calm_ext s s' : all s' = all s -> threads s' = threads s -> pid_bitmap s' = pid_bitmap s -> calm s s'.
Proof. intros E1 E2 E3. constructor; try done; rewrite E2; eauto using same_family_refl. Qed.

Lemma calm_upd t f s s' : upd_task t f s = Done s' -> (forall p, same_family p (f p)) -> calm s s'.
Proof.
  unfold upd_task, task_at. destruct (threads s !! t) as [q|] eqn:E; [|done]. rewrite bind_done. intros [= <-] Hf. constructor; try done; simpl.
  - intros u p'. destruct (decide (u = t)) as [->|Hne]; [rewrite lookup_insert_eq; intros [= <-]; eauto|rewrite lookup_insert_ne by done; eauto using same_family_refl].
  - intros u p Hu. destruct (decide (u = t)) as [->|Hne]; [rewrite lookup_insert_eq|rewrite lookup_insert_ne by done; eauto using same_family_refl].
    rewrite E in Hu. injection Hu as <-. eauto.
Qed.

Lemma awake_family st p : ~ asleep st -> same_family p (set_status st p).
Proof. intros Hs. split_and!; try done. Qed.

Lemma ready_awake : ~ asleep TASK_READY.
Proof. intros [?|?]; done. Qed.
Lemma running_awake : ~ asleep TASK_RUNNING.
Proof. intros [?|?]; done. Qed.
Lemma blocked_awake : ~ asleep TASK_BLOCKED.
Proof. intros [?|?]; done. Qed.
#[local] Hint Resolve ready_awake running_awake blocked_awake awake_family calm_nothing : core.

Lemma unblock_calm s t s' : thread_unblock s t = Done s' -> calm s s' /\ cur s' = cur s /\ (forall u, u <> t -> threads s' !! u = threads s !! u) /\
  exists p, threads s !! t = Some p /\ (Sched.status p = TASK_BLOCKED \/ asleep (Sched.status p)) /\ threads s' !! t = Some (set_status TASK_READY p).
Proof.
  unfold thread_unblock. rewrite (surjective_pairing (intr_disable (eflags s))). unfold task_at. destruct (threads s !! t) as [p|] eqn:Hp; [|done]. rewrite bind_done.
  intros (u & Ha & E)%bind_done_inv. apply ASSERT_inv in Ha. apply bind_done_inv in E as (s1 & E & [= <-]).
  assert (Hst : Sched.status p = TASK_BLOCKED \/ asleep (Sched.status p)) by (unfold asleep; destruct (Sched.status p); simpl in Ha; try done; tauto).
  rewrite bool_decide_true in E by (intros Er; rewrite Er in Hst; unfold asleep in Hst; naive_solver).
  apply bind_done_inv in E as (? & _ & E). apply bind_done_inv in E as (? & _ & E). pose proof E as E2. apply calm_upd in E2; [|auto].
  unfold upd_task, task_at in E. simpl in E. rewrite Hp in E. injection E as <-. split_and!; try done.
  - eapply calm_then; [|eapply calm_then; [exact E2|]]; by apply calm_ext.
  - intros v Hv. simpl. by rewrite lookup_insert_ne.
  - exists p. split_and!; try done. simpl. by rewrite lookup_insert_eq.
Qed.

Definition runs (s : sched) : Prop := exists p, threads s !! cur s = Some p /\ Sched.status p = TASK_RUNNING.

Lemma schedule_calm s s' : schedule s = Done s' -> calm s s' /\ runs s'.
Proof.
  unfold schedule. intros (u & _ & E)%bind_done_inv. apply bind_done_inv in E as (c & Hc & E). apply bind_done_inv in E as (s1 & E1 & E).
  apply bind_done_inv in E as (s2 & E2 & E). apply bind_done_inv in E as (u2 & _ & E).
  assert (C1 : calm s s1).
  { destruct (bool_decide _); [|by injection E1 as <-]. apply bind_done_inv in E1 as (? & _ & E1). apply calm_upd in E1; [|intros p; split_and!; try done; intros [?|?]; done].
    eapply calm_then; [|exact E1]. by apply calm_ext. }
  assert (C2 : calm s1 s2) by (destruct (bool_decide (Sched.ready s1 = [])); [by apply unblock_calm in E2 as (? & _)|by injection E2 as <-]).
  destruct (Sched.ready s2) as [|n rest]; [done|]. apply bind_done_inv in E as (s3 & E3 & E). pose proof E3 as C3. apply calm_upd in C3; [|auto].
  apply bind_done_inv in E as (s4 & E4 & [= <-]). unfold process_activate in E4. apply bind_done_inv in E4 as (? & _ & E4). apply bind_done_inv in E4 as (p & Hp & [= <-]).
  split.
  - eapply calm_then; [exact C1|]. eapply calm_then; [exact C2|]. eapply calm_then; [|eapply calm_then; [exact C3|]]; by apply calm_ext.
  - unfold upd_task in E3. apply bind_done_inv in E3 as (q & _ & [= <-]). exists (set_status TASK_RUNNING q). split; [|done]. simpl. by rewrite lookup_insert_eq.
Qed.

(** A task that sleeps: it gets the status, then the scheduler runs. *)
Lemma block_calm s st r s' : thread_block s st = Done (r, s') -> exists p, threads s !! cur s = Some p /\
  calm (with_threads (<[cur s := set_status st p]>) s) s' /\ runs s'.
Proof.
  unfold thread_block. rewrite (surjective_pairing (intr_disable (eflags s))). intros (u & _ & E)%bind_done_inv. apply bind_done_inv in E as (s1 & E1 & E).
  apply bind_done_inv in E as (s2 & E2 & [= _ <-]). unfold upd_task in E1. apply bind_done_inv in E1 as (p & Hp & [= <-]). unfold task_at in Hp. simpl in Hp.
  destruct (threads s !! cur s) as [q|]; [|done]. injection Hp as ->. exists p. split; [done|]. apply schedule_calm in E2 as [C R]. split; [|done].
  eapply calm_then; [|exact C]. by apply calm_ext.
Qed.

Lemma yield_calm s r s' : thread_yield s = Done (r, s') -> calm s s' /\ runs s'.
Proof.
  unfold thread_yield. rewrite (surjective_pairing (intr_disable (eflags s))). intros (u & _ & E)%bind_done_inv. apply bind_done_inv in E as (s1 & E1 & E).
  apply bind_done_inv in E as (s2 & E2 & [= _ <-]). apply calm_upd in E1; [|auto]. apply schedule_calm in E2 as [C R]. split; [|done].
  eapply calm_then; [|eapply calm_then; [exact E1|exact C]]. by apply calm_ext.
Qed.

Lemma tick_calm s s' : intr_timer_handler s = Done s' -> runs s -> calm s s' /\ runs s'.
Proof.
  unfold intr_timer_handler. intros (c & Hc & E)%bind_done_inv (p & Hp & Hr). apply bind_done_inv in E as (u & _ & E). apply bind_done_inv in E as (s1 & E1 & E).
  pose proof E1 as C1. apply calm_upd in C1; [|intros q; done]. assert (C : calm s s1) by (eapply calm_then; [|exact C1]; by apply calm_ext).
  unfold upd_task, task_at in E1. simpl in E1. rewrite Hp in E1. injection E1 as <-. destruct (ticks c =? 0).
  - apply schedule_calm in E as [C2 R]. split; [|done]. by eapply calm_then.
  - pose proof E as C2. apply calm_upd in C2; [|intros q; done]. split; [by eapply calm_then|]. unfold upd_task, task_at in E. simpl in E. rewrite lookup_insert_eq in E.
    injection E as <-. eexists. simpl. by rewrite lookup_insert_eq.
Qed.

(** ** Families *)
Definition child_of (s : sched) (c : Z) (q : task_struct) (n : Z) : Prop := c ∈ all s /\ threads s !! c = Some q /\ parent_pid q = n.

(** A task other than init that sleeps in [sys_wait] has a child, and none that hangs. *)
Definition waits_ok (s : sched) (n : Z) : Prop := (exists c q, child_of s c q n) /\ forall c q, child_of s c q n -> Sched.status q <> TASK_HANGING.

Record family_ok (s : sched) : Prop := {
  fo_sched : sched_inv s;
  fo_pids : pids_ok s;
  fo_wait : forall t p, t ∈ all s -> threads s !! t = Some p -> Sched.status p = TASK_WAITING -> pid p <> 1 -> waits_ok s (pid p)
}.

Lemma calm_child s s' n c q' : calm s s' -> child_of s' c q' n -> exists q, child_of s c q n /\ same_family q q'.
Proof.
  intros C (H1 & H2 & H3). destruct (calm_old _ _ C c q' H2) as (q & Hq & F). exists q. split; [|done]. rewrite (calm_all _ _ C) in H1. split_and!; try done.
  destruct F as (_ & F & _). congruence.
Qed.

Lemma waits_calm s s' n : calm s s' -> waits_ok s n -> waits_ok s' n.
Proof.
  intros C [(c & q & Hc) Hn]. split.
  - destruct Hc as (H1 & H2 & H3). destruct (calm_new _ _ C c q H2) as (q' & Hq' & F). exists c, q'. rewrite <- (calm_all _ _ C) in H1. split_and!; try done.
    destruct F as (_ & F & _). congruence.
  - intros c' q' Hc'. destruct (calm_child _ _ _ _ _ C Hc') as (q0 & Hq0 & _ & _ & _ & F). intros E. apply (Hn c' q0 Hq0). rewrite <- F; [done|]. right. done.
Qed.

Lemma pids_calm s s' : calm s s' -> pids_ok s -> pids_ok s'.
Proof.
  intros C [Hwf Hn Hu Hi]. constructor; rewrite ?(calm_pids _ _ C), ?(calm_all _ _ C); try done.
  - intros t p' Ht Hp'. destruct (calm_old _ _ C t p' Hp') as (p & Hp & F & _). rewrite F. by apply (Hu t).
  - intros t1 t2 p1 p2 Ht1 Ht2 Hp1 Hp2 E. destruct (calm_old _ _ C t1 p1 Hp1) as (q1 & Hq1 & F1 & _). destruct (calm_old _ _ C t2 p2 Hp2) as (q2 & Hq2 & F2 & _).
    apply (Hi t1 t2 q1 q2); try done. congruence.
Qed.

(** All of it but the running task is kept. *)
Definition pre_family (s : sched) : Prop :=
  pids_ok s /\ forall t p, t ∈ all s -> threads s !! t = Some p -> Sched.status p = TASK_WAITING -> pid p <> 1 -> waits_ok s (pid p).

Lemma pre_family_calm s s' : calm s s' -> pre_family s -> pre_family s'.
Proof.
  intros C [Hp Hw]. split; [by eapply pids_calm|]. intros t p' Ht Hp' Hs Hn. destruct (calm_old _ _ C t p' Hp') as (p & Hp0 & F1 & _ & _ & F4).
  rewrite F1 in *. eapply waits_calm; [done|]. apply (Hw t); try done; [by rewrite <- (calm_all _ _ C)|]. rewrite <- F4; [done|]. by left.
Qed.

Lemma family_pre s : family_ok s -> pre_family s.
Proof. intros [_ H1 H2]. done. Qed.

Lemma family_from s : sched_inv s -> pre_family s -> family_ok s.
Proof. intros H1 [H2 H3]. by constructor. Qed.

Lemma inv_runs s : sched_inv s -> runs s.
Proof. intros [_ [_ Hc]]. apply stat_lookup in Hc as (p & Hp & Hs). by exists p. Qed.

(** The running task gets another status: nothing changes for the others. *)
Lemma family_status s st p :
  family_ok s -> threads s !! cur s = Some p ->
  (st = TASK_WAITING -> pid p <> 1 -> waits_ok s (pid p)) ->
  (st = TASK_HANGING -> forall t q, t ∈ all s -> threads s !! t = Some q -> pid q = parent_pid p -> Sched.status q <> TASK_WAITING) ->
  pre_family (with_threads (<[cur s := set_status st p]>) s).
Proof.
  intros [Hinv [Hwf Hn Hu Hi] Hw] Hp Hwait Hhang. destruct (inv_cur _ Hinv) as [Hca Hcs]. set (s1 := with_threads _ s).
  assert (Hold : forall t q, threads s1 !! t = Some q -> exists q0, threads s !! t = Some q0 /\ pid q = pid q0 /\ parent_pid q = parent_pid q0 /\
    (t <> cur s -> q = q0) /\ (t = cur s -> q = set_status st p /\ q0 = p)).
  { intros t q. simpl. destruct (decide (t = cur s)) as [->|Hne]; [rewrite lookup_insert_eq; intros [= <-]; exists p; done|].
    rewrite lookup_insert_ne by done. intros Hq. exists q. done. }
  split.
  - constructor; try done.
    + intros t q Ht Hq. destruct (Hold t q Hq) as (q0 & Hq0 & -> & _). by apply (Hu t).
    + intros t1 t2 q1 q2 Ht1 Ht2 Hq1 Hq2 E. destruct (Hold t1 q1 Hq1) as (r1 & Hr1 & E1 & _). destruct (Hold t2 q2 Hq2) as (r2 & Hr2 & E2 & _).
      apply (Hi t1 t2 r1 r2); try done. congruence.
  - intros t q Ht Hq Hs Hn1. destruct (Hold t q Hq) as (q0 & Hq0 & E1 & _ & E3 & E4).
    assert (Hws : waits_ok s (pid q)).
    { destruct (decide (t = cur s)) as [->|Hne]; [destruct (E4 eq_refl) as [-> ->]; by apply Hwait|]. rewrite (E3 Hne) in *. by apply (Hw t). }
    destruct Hws as [(c & r & Hc1 & Hc2 & Hc3) Hno]. split.
    + destruct (decide (c = cur s)) as [->|Hne].
      * exists (cur s), (set_status st p). split_and!; [done|simpl; by rewrite lookup_insert_eq|]. rewrite Hp in Hc2. by injection Hc2 as <-.
      * exists c, r. split_and!; try done. simpl. by rewrite lookup_insert_ne.
    + intros c' r' (D1 & D2 & D3) Eh. destruct (Hold c' r' D2) as (r0 & Hr0 & _ & F2 & F3 & F4). destruct (decide (c' = cur s)) as [->|Hne].
      * destruct (F4 eq_refl) as [-> ->]. simpl in Eh. assert (Hq' : Sched.status q0 <> TASK_WAITING) by (apply (Hhang Eh t q0); try done; simpl in D3; congruence).
        apply Hq'. destruct (decide (t = cur s)) as [->|Hnt]; [|by rewrite <- (E3 Hnt)]. destruct (E4 eq_refl) as [-> _]. simpl in Hs. congruence.
      * rewrite (F3 Hne) in *. apply (Hno c' r0); [|done]. done.
Qed.

Lemma find_task_Some s test t : find_task s test = Some t -> t ∈ all s /\ test t = true.
Proof.
  unfold find_task. destruct (list_find _ (all s)) as [[i x]|] eqn:E; [|done]. intros [= <-]. apply list_find_Some in E as (E1 & E2 & _). split; [|done].
  by apply list_elem_of_lookup_2 in E1.
Qed.
Lemma find_task_None s test t : find_task s test = None -> t ∈ all s -> test t = false.
Proof.
  unfold find_task. destruct (list_find _ (all s)) as [[i x]|] eqn:E; [done|]. intros _ Ht. apply list_find_None in E. rewrite Forall_forall in E. specialize (E t Ht).
  by destruct (test t).
Qed.

Lemma family_wait s r s' : family_ok s -> cur s <> idle_thread s -> sys_wait s = Done (r, s') -> family_ok s'.
Proof.
  intros Hf Hni E. pose proof Hf as [Hinv Hpids Hw]. destruct (inv_runs s Hinv) as (p & Hp & Hr). destruct (inv_cur _ Hinv) as [Hca _].
  unfold sys_wait, task_at in E. rewrite Hp, bind_done in E. destruct (find_task s (is_hanging_child s (pid p))) as [c|] eqn:Ec.
  - apply find_task_Some in Ec as [Hc1 Hc2]. unfold is_hanging_child in Hc2. destruct (threads s !! c) as [q|] eqn:Hq; [|done]. rewrite bind_done in E.
    apply andb_prop in Hc2 as [Hpar%Z.eqb_eq Hst%bool_decide_eq_true]. apply bind_done_inv in E as (x & E & [= _ <-]).
    assert (Hcc : c <> cur s) by (intros ->; rewrite Hp in Hq; injection Hq as <-; congruence).
    assert (Hci : c <> idle_thread s).
    { intros ->. pose proof (pre_idle_st _ (inv_pre _ Hinv)) as Hi. unfold stat in Hi. rewrite Hq in Hi. simpl in Hi. rewrite Hst in Hi. naive_solver. }
    destruct (thread_exit_ok s c q) as (s1 & H1 & H2 & H3 & _ & H5 & H6 & _ & H8 & _ & _ & _ & Hth); [done..|]. rewrite H1 in E. injection E as <-. simpl.
    apply family_from; [done|]. split; [done|]. intros t u Ht Hu Hs Hn1. assert (Htc : t <> c) by (intros ->; done). rewrite Hth in Hu by done. apply H8 in Ht; [|done].
    destruct (Hw t u Ht Hu Hs Hn1) as [(c' & q' & A1 & A2 & A3) Hno]. split.
    + exists c', q'. assert (Hne : c' <> c).
      { intros ->. rewrite Hq in A2. injection A2 as <-. assert (t = cur s) as ->; [|congruence].
        apply (pids_inj _ Hpids t (cur s) u p); try done. congruence. }
      split_and!; [by apply H8|by rewrite Hth|done].
    + intros c2 q2 (A1' & A2' & A3'). assert (Hne : c2 <> c) by (intros ->; done). rewrite Hth in A2' by done. apply H8 in A1'; [|done]. by apply (Hno c2).
  - destruct (find_task s (is_child s (pid p))) as [c|] eqn:Ec2.
    + apply bind_done_inv in E as ([r1 s1] & E & [= _ <-]). simpl. destruct (block_spec s TASK_WAITING) as (s2 & Hb & Hi2 & _); [done|auto|done|].
      rewrite Hb in E. injection E as _ <-. apply family_from; [done|]. apply block_calm in Hb as (p' & Hp' & C & _). rewrite Hp in Hp'. injection Hp' as <-.
      eapply pre_family_calm; [exact C|]. apply family_status; try done. intros _ _. apply find_task_Some in Ec2 as [Hc1 Hc2]. split.
      * unfold is_child in Hc2. destruct (threads s !! c) as [q|] eqn:Hq; [|done]. exists c, q. split_and!; try done. by apply Z.eqb_eq.
      * intros c' q' (A1 & A2 & A3) Eh. pose proof (find_task_None _ _ c' Ec A1) as Hno. unfold is_hanging_child in Hno. rewrite A2, A3, Z.eqb_refl, Eh in Hno. done.
    + by injection E as _ <-.
Qed.

(** What differs between two tables of tasks with the same queues: [f] of each PCB. *)
Record mapped (f : task_struct -> task_struct) (s s' : sched) : Prop := {
  mp_all : all s' = all s; mp_cur : cur s' = cur s; mp_idle : idle_thread s' = idle_thread s; mp_pids : pid_bitmap s' = pid_bitmap s;
  mp_in : forall t, t ∈ all s -> threads s' !! t = f <$> threads s !! t
}.

Lemma adopt_mapped ppid l : forall s s', NoDup l -> sched_inv s -> adopt_children s l ppid = Done s' ->
  sched_inv s' /\ all s' = all s /\ cur s' = cur s /\ idle_thread s' = idle_thread s /\ pid_bitmap s' = pid_bitmap s /\
  forall t, threads s' !! t = if decide (t ∈ l) then init_adopt_a_child ppid <$> threads s !! t else threads s !! t.
Proof.
  induction l as [|x l IH]; intros s s' Hnd Hinv E; cbn [adopt_children] in E.
  - injection E as <-. split_and!; done.
  - apply NoDup_cons in Hnd as [Hx Hnd]. apply bind_done_inv in E as (s1 & E1 & E). unfold upd_task, task_at in E1. destruct (threads s !! x) as [p|] eqn:Hp; [|done]. injection E1 as <-.
    destruct (IH _ _ Hnd (inv_same_status s x p (init_adopt_a_child ppid) Hp ltac:(unfold init_adopt_a_child; by destruct (_ =? _)) Hinv) E) as (H1 & H2 & H3 & H4 & H5 & H6).
    split_and!; try done. intros t. rewrite H6. simpl. destruct (decide (t = x)) as [->|Hne].
    + rewrite decide_False by done. rewrite decide_True by set_solver. by rewrite lookup_insert_eq, Hp.
    + rewrite lookup_insert_ne by done. destruct (decide (t ∈ l)); [rewrite decide_True by set_solver|rewrite decide_False by set_solver]; done.
Qed.

Lemma begin_mapped s st s1 p : family_ok s -> threads s !! cur s = Some p -> exit_begin s st = Done s1 ->
  sched_inv s1 /\ mapped (fun q => init_adopt_a_child (pid p) (if bool_decide (pid q = pid p) then set_exit_status (i8 st) q else q)) s s1.
Proof.
  intros [Hinv Hpids _] Hp E. destruct (inv_cur _ Hinv) as [Hca _]. unfold exit_begin in E. unfold upd_task, task_at in E. rewrite Hp, !bind_done in E. simpl in E. rewrite lookup_insert_eq, bind_done in E.
  destruct (parent_pid _ =? -1); [done|]. pose proof (pre_nodup_all _ (inv_pre _ Hinv)) as Hnd.
  destruct (adopt_mapped _ _ _ _ Hnd (inv_same_status s (cur s) p (set_exit_status (i8 st)) Hp eq_refl Hinv) E) as (H1 & H2 & H3 & H4 & H5 & H6).
  split; [done|]. constructor; try done. intros t Ht. rewrite H6. simpl. rewrite decide_True by done. destruct (decide (t = cur s)) as [->|Hne].
  - rewrite lookup_insert_eq, Hp. simpl. by rewrite bool_decide_true.
  - rewrite lookup_insert_ne by done. destruct (threads s !! t) as [q|] eqn:Hq; [|done]. simpl. rewrite bool_decide_false; [done|].
    intros E2. apply Hne. by apply (pids_inj _ Hpids t (cur s) q p).
Qed.

Lemma family_begin s st s1 : family_ok s -> exit_begin s st = Done s1 -> family_ok s1 /\ cur s1 = cur s /\ idle_thread s1 = idle_thread s.
Proof.
  intros Hf E. pose proof Hf as [Hinv Hpids Hw]. destruct (inv_runs s Hinv) as (p & Hp & Hr). destruct (inv_cur _ Hinv) as [Hca _].
  destruct (begin_mapped s st s1 p Hf Hp E) as [Hinv1 [Ma Mc Mi Mp Mt]]. split_and!; try done.
  set (f := fun q => init_adopt_a_child (pid p) (if bool_decide (pid q = pid p) then set_exit_status (i8 st) q else q)) in *.
  assert (Hfp : forall q, pid (f q) = pid q /\ Sched.status (f q) = Sched.status q /\ parent_pid (f q) = if decide (parent_pid q = pid p) then 1 else parent_pid q).
  { intros q. unfold f, init_adopt_a_child. destruct (bool_decide (pid q = pid p)); simpl; destruct (Z.eqb_spec (parent_pid q) (pid p)); simpl; split_and!; try done;
      by rewrite ?decide_True, ?decide_False by done. }
  assert (Hold : forall t q1, t ∈ all s -> threads s1 !! t = Some q1 -> exists q, threads s !! t = Some q /\ q1 = f q).
  { intros t q1 Ht Hq1. rewrite Mt in Hq1 by done. destruct (threads s !! t) as [q|]; [|done]. injection Hq1 as <-. eauto. }
  apply family_from; [done|]. split.
  - destruct Hpids as [Hwf Hn Hu Hi]. constructor; rewrite ?Mp, ?Ma; try done.
    + intros t q1 Ht Hq1. destruct (Hold t q1 Ht Hq1) as (q & Hq & ->). destruct (Hfp q) as (-> & _). by apply (Hu t).
    + intros t1 t2 q1 q2 Ht1 Ht2 Hq1 Hq2 E2. destruct (Hold t1 q1 Ht1 Hq1) as (r1 & Hr1 & ->). destruct (Hold t2 q2 Ht2 Hq2) as (r2 & Hr2 & ->).
      destruct (Hfp r1) as (F1 & _), (Hfp r2) as (F2 & _). apply (Hi t1 t2 r1 r2); try done. congruence.
  - intros t q1 Ht Hq1 Hs Hn1. rewrite Ma in Ht. destruct (Hold t q1 Ht Hq1) as (q & Hq & ->). destruct (Hfp q) as (F1 & F2 & _). rewrite F1 in *. rewrite F2 in Hs.
    assert (Hne : pid q <> pid p).
    { intros E2. assert (t = cur s) as -> by (by apply (pids_inj _ Hpids t (cur s) q p)). rewrite Hp in Hq. injection Hq as <-. congruence. }
    destruct (Hw t q Ht Hq Hs Hn1) as [(c & r & A1 & A2 & A3) Hno]. split.
    + exists c, (f r). destruct (Hfp r) as (_ & _ & F3). split_and!; [by rewrite Ma|by rewrite Mt, A2|]. rewrite F3, decide_False; [done|congruence].
    + intros c' r1 (B1 & B2 & B3). rewrite Ma in B1. destruct (Hold c' r1 B1 B2) as (r' & Hr' & ->). destruct (Hfp r') as (_ & F4 & F3). rewrite F4. apply (Hno c').
      rewrite F3 in B3. case_decide; [congruence|]. done.
Qed.

Lemma pid2thread_Some s n t : pid2thread s n = Some t -> t ∈ all s /\ exists p, threads s !! t = Some p /\ pid p = n.
Proof.
  unfold pid2thread. destruct (list_find _ (all s)) as [[i x]|] eqn:E; [|done]. intros [= <-]. apply list_find_Some in E as (E1 & E2 & _).
  split; [by apply list_elem_of_lookup_2 in E1|]. destruct (threads s !! x) as [p|]; [|done]. injection E2 as E2. eauto.
Qed.

Lemma family_end s s' : family_ok s -> cur s <> idle_thread s -> exit_end s = Done s' -> family_ok s'.
Proof.
  intros Hf Hni E. pose proof Hf as [Hinv Hpids Hw]. destruct (inv_runs s Hinv) as (p & Hp & Hr). unfold exit_end, task_at in E. rewrite Hp, bind_done in E.
  destruct (pid2thread s (parent_pid p)) as [pt|] eqn:Ept; [|done]. apply pid2thread_Some in Ept as (Hpt & q & Hq & Hqp). rewrite Hq, bind_done in E.
  apply bind_done_inv in E as (s1 & E1 & E). apply bind_done_inv in E as ([r s2] & E & [= <-]). simpl.
  assert (Hs1 : family_ok s1 /\ cur s1 = cur s /\ idle_thread s1 = idle_thread s /\ threads s1 !! cur s = Some p /\ all s1 = all s /\
    exists q1, threads s1 !! pt = Some q1 /\ pid q1 = pid q /\ Sched.status q1 <> TASK_WAITING).
  { case_bool_decide as Hwt; [|injection E1 as <-; split_and!; try done; by exists q].
    destruct (unblock_inv s pt) as (u & Hu & Hi & _ & Hc & _ & Ha & Hid & Hth); [done|done|unfold stat; rewrite Hq; simpl; rewrite Hwt; auto|]. rewrite Hu in E1. injection E1 as <-.
    apply unblock_calm in Hu as (C & _ & _ & q' & Hq' & _ & Hu). rewrite Hq in Hq'. injection Hq' as <-.
    split_and!; try done; [apply family_from; [done|]; eapply pre_family_calm; [exact C|]; by apply family_pre| |by eexists].
    rewrite Hth; [done|]. intros E2. rewrite <- E2 in Hq. rewrite Hp in Hq. injection Hq as <-. congruence. }
  destruct Hs1 as (Hf1 & Hc1 & Hi1 & Hp1 & Ha1 & q1 & Hq1 & Hqp1 & Hnw). pose proof Hf1 as [Hinv1 Hpids1 _]. rewrite <- Hc1 in Hp1.
  destruct (block_spec s1 TASK_HANGING) as (u & Hb & Hi2 & _); [done|auto|congruence|]. rewrite Hb in E. injection E as _ <-. apply family_from; [done|].
  apply block_calm in Hb as (p' & Hp' & C & _). rewrite Hp1 in Hp'. injection Hp' as <-. eapply pre_family_calm; [exact C|]. apply family_status; try done.
  intros _ t v Ht Hv Hvp. assert (t = pt) as ->; [|congruence]. apply (pids_inj _ Hpids1 t pt v q1); try done; congruence.
Qed.

Lemma family_fork s c d e n s' : family_ok s -> c <> 0 -> fork_task s c d e = Done (n, s') -> family_ok s'.
Proof.
  intros Hf Hnz E. pose proof Hf as [Hinv Hpids Hw]. destruct (inv_runs s Hinv) as (p & Hp & Hr). unfold fork_task, task_at in E. rewrite Hp, bind_done in E.
  apply bind_done_inv in E as (u0 & _ & E). apply bind_done_inv in E as ([n1 s1] & Ea & E). cbn [fst snd] in E.
  destruct (allocate_pid_spec s (pids_wf _ Hpids) (pids_nbits _ Hpids)) as [(i & b' & Ha & Hwf' & Hn' & Hir & Hfree & _ & Hb)|[Ha _]]; rewrite Ha in Ea; [|done]. injection Ea as <- <-.
  apply bind_done_inv in E as (u1 & _ & E). apply bind_done_inv in E as (u2 & Hn2 & [= <- <-]). apply ASSERT_inv in Hn2. unfold in_list in Hn2. simpl in Hn2.
  case_bool_decide as Hnew; [done|]. set (q := copy_pcb p c (i + 1) d e).
  apply family_from.
  - by apply (inv_append s _ c q).
  - split; [by apply (pids_append s _ c q b' i)|]. intros t u Ht Hu Hs Hn1. simpl in Ht, Hu. apply elem_of_app in Ht as [Ht|Ht%list_elem_of_singleton].
    + assert (Hne : t <> c) by (intros ->; done). rewrite lookup_insert_ne in Hu by done. destruct (Hw t u Ht Hu Hs Hn1) as [(c1 & q1 & A1 & A2 & A3) Hno]. split.
      * exists c1, q1. split_and!; [simpl; set_solver|simpl; rewrite lookup_insert_ne; [done|intros ->; done]|done].
      * intros c2 q2 (B1 & B2 & B3). simpl in B1, B2. apply elem_of_app in B1 as [B1|B1%list_elem_of_singleton].
        -- rewrite lookup_insert_ne in B2 by (intros ->; done). by apply (Hno c2).
        -- subst c2. rewrite lookup_insert_eq in B2. injection B2 as <-. done.
    + subst t. rewrite lookup_insert_eq in Hu. injection Hu as <-. done.
Qed.

(** ** Steps *)

(** Waiting, exiting and forking by the running task, and whatever else moves tasks about.
    The idle thread neither waits nor exits. An exit is one step: the release of the
    program's resources between [exit_begin] and [exit_end] changes no task, and that its
    locks could block in between is left out. *)
Inductive fstep (s s' : sched) : Prop :=
| fs_wait r : cur s <> idle_thread s -> sys_wait s = Done (r, s') -> fstep s s'
| fs_exit st s1 : cur s <> idle_thread s -> exit_begin s st = Done s1 -> exit_end s1 = Done s' -> fstep s s'
| fs_fork c d e n : c <> 0 -> fork_task s c d e = Done (n, s') -> fstep s s'
| fs_tick : intr_timer_handler s = Done s' -> fstep s s'
| fs_yield r : thread_yield s = Done (r, s') -> fstep s s'
| fs_block r : thread_block s TASK_BLOCKED = Done (r, s') -> fstep s s'
| fs_wake t : t ∈ all s -> stat s t = Some TASK_BLOCKED -> thread_unblock s t = Done s' -> fstep s s'.

Lemma tick_inv s s' : sched_inv s -> intr_timer_handler s = Done s' -> sched_inv s'.
Proof.
  intros Hinv E. destruct (inv_runs s Hinv) as (p & Hp & Hr). unfold intr_timer_handler in E. unfold task_at in E. rewrite Hp, bind_done in E. apply bind_done_inv in E as (u & _ & E).
  apply bind_done_inv in E as (s1 & E1 & E). rewrite (upd_task_done _ _ _ p) in E1 by done. injection E1 as <-. set (s1 := with_threads _ _) in E.
  assert (Hi1 : sched_inv s1).
  { unfold s1. apply (inv_ext (with_threads (<[cur s := set_ticks (ticks p) (u32 (elapsed_ticks p + 1)) p]>) s)); try done.
    by apply (inv_same_status s (cur s) p (fun c => set_ticks (ticks c) (u32 (elapsed_ticks c + 1)) c)). }
  destruct (ticks p =? 0).
  - destruct (decide (intr_get_status (eflags s1) = INTR_OFF)) as [Ho|Ho].
    + destruct (schedule_rotate1 s1 Hi1 Ho) as (s2 & Hs & Hi2 & _). rewrite Hs in E. by injection E as <-.
    + unfold schedule in E. apply bind_done_inv in E as (u1 & Ha & _). apply ASSERT_inv in Ha. by apply bool_decide_eq_true in Ha.
  - assert (Hp1 : threads s1 !! cur s = Some (set_ticks (ticks p) (u32 (elapsed_ticks p + 1)) p)) by (unfold s1; simpl; by rewrite lookup_insert_eq).
    rewrite (upd_task_done _ _ _ _ Hp1) in E. injection E as <-. by apply (inv_same_status s1 (cur s) _ (fun c => set_ticks (u8 (ticks c - 1)) (elapsed_ticks c) c) Hp1).
Qed.

Lemma family_step s s' : family_ok s -> fstep s s' -> family_ok s'.
Proof.
  intros Hf [r Hni E|st s1 Hni E1 E2|c d e n Hc E|E|r E|r E|t Ht Hst E].
  - by eapply family_wait.
  - destruct (family_begin s st s1 Hf E1) as (Hf1 & Hc & Hi). eapply family_end; [done|congruence|done].
  - by eapply family_fork.
  - apply family_from; [by eapply tick_inv; [apply Hf|]|]. apply tick_calm in E as [C _]; [|apply inv_runs, Hf]. eapply pre_family_calm; [done|]. by apply family_pre.
  - destruct (yield_spec s) as (s2 & Hy & Hi2 & _); [apply Hf|]. rewrite Hy in E. injection E as _ <-. apply family_from; [done|]. apply yield_calm in Hy as [C _].
    eapply pre_family_calm; [done|]. by apply family_pre.
  - destruct (block_spec s TASK_BLOCKED) as (s2 & Hb & Hi2 & _); [apply Hf|auto|done|]. rewrite Hb in E. injection E as _ <-. apply family_from; [done|].
    apply block_calm in Hb as (p & Hp & C & _). eapply pre_family_calm; [done|]. by apply family_status.
  - destruct (unblock_inv s t) as (s2 & Hu & Hi2 & _); [apply Hf|done|auto|]. rewrite Hu in E. injection E as <-. apply family_from; [done|].
    apply unblock_calm in Hu as (C & _). eapply pre_family_calm; [done|]. by apply family_pre.
Qed.

(** ** Properties *)

Lemma adopt_done ppid l : forall s, (forall t, t ∈ l -> is_Some (threads s !! t)) -> exists s', adopt_children s l ppid = Done s'.
Proof.
  induction l as [|x l IH]; intros s Hl; cbn [adopt_children]; [eauto|]. destruct (Hl x ltac:(set_solver)) as [p Hp]. rewrite (upd_task_done _ _ _ p Hp), bind_done.
  apply IH. intros t Ht. simpl. rewrite lookup_insert_is_Some'. right. apply Hl. set_solver.
Qed.

Lemma pid2thread_found s t p : pids_ok s -> t ∈ all s -> threads s !! t = Some p -> pid2thread s (pid p) = Some t.
Proof.
  intros Hpids Ht Hp. unfold pid2thread. destruct (list_find _ (all s)) as [[i x]|] eqn:E.
  - apply list_find_Some in E as (E1 & E2 & _). apply list_elem_of_lookup_2 in E1. destruct (threads s !! x) as [q|] eqn:Hq; [|done]. injection E2 as E2. simpl.
    f_equal. by apply (pids_inj _ Hpids x t q p).
  - apply list_find_None in E. rewrite Forall_forall in E. destruct (E t Ht). by rewrite Hp.
Qed.

Lemma find_task_is s test t : t ∈ all s -> test t = true -> (forall u, u ∈ all s -> test u = true -> u = t) -> find_task s test = Some t.
Proof.
  intros Ht Hte Hu. destruct (find_task s test) as [u|] eqn:E.
  - apply find_task_Some in E as [E1 E2]. f_equal. by apply Hu.
  - pose proof (find_task_None _ _ t E Ht). congruence.
Qed.

(** The child of a waiting parent exits: the parent runs, and only this child hangs. *)
Lemma exit_runs_parent s c q t p st :
  family_ok s -> cur s = c -> c <> idle_thread s -> threads s !! c = Some q -> parent_pid q <> -1 -> t ∈ all s -> threads s !! t = Some p ->
  pid p = parent_pid q -> Sched.status p = TASK_WAITING -> pid p <> 1 ->
  exists s1 s2 q2 p2, exit_begin s st = Done s1 /\ exit_end s1 = Done s2 /\ family_ok s2 /\ cur s2 = t /\ idle_thread s2 = idle_thread s /\
    c ∈ all s2 /\ threads s2 !! c = Some q2 /\ pid q2 = pid q /\ parent_pid q2 = pid p /\ exit_status q2 = i8 st /\ Sched.status q2 = TASK_HANGING /\
    threads s2 !! t = Some p2 /\ pid p2 = pid p /\
    forall u v, child_of s2 u v (pid p) -> Sched.status v = TASK_HANGING -> u = c.
Proof.
  intros Hf <- Hni Hq Hpar Ht Hp Epar Hws Hn1. pose proof Hf as [Hinv Hpids Hw]. destruct (inv_cur _ Hinv) as [Hca Hcs].
  assert (Hqr : Sched.status q = TASK_RUNNING) by (unfold stat in Hcs; rewrite Hq in Hcs; by injection Hcs).
  assert (Htc : t <> cur s) by (intros ->; rewrite Hq in Hp; injection Hp as <-; congruence).
  assert (Hpq : pid p <> pid q) by (intros E; apply Htc; by apply (pids_inj _ Hpids t (cur s) p q)).
  assert (Hb : exists s1, exit_begin s st = Done s1).
  { unfold exit_begin. rewrite (upd_task_done _ _ _ q Hq), bind_done. unfold task_at. simpl. rewrite lookup_insert_eq, bind_done. simpl.
    destruct (Z.eqb_spec (parent_pid q) (-1)); [done|]. apply adopt_done. intros u Hu. simpl. rewrite lookup_insert_is_Some'. right. by apply (pre_mapped _ (inv_pre _ Hinv)). }
  destruct Hb as [s1 Hb]. destruct (family_begin s st s1 Hf Hb) as (Hf1 & Hc1 & Hi1). destruct (begin_mapped s st s1 q Hf Hq Hb) as [Hinv1 [Ma Mc Mi Mp Mt]].
  pose proof (Mt (cur s) Hca) as Mq. rewrite Hq in Mq. simpl in Mq. rewrite bool_decide_true in Mq by done. unfold init_adopt_a_child in Mq at 1.
  assert (Hnp : (parent_pid (set_exit_status (i8 st) q) =? pid q) = false) by (apply Z.eqb_neq; simpl; congruence). rewrite Hnp in Mq.
  pose proof (Mt t Ht) as Mp1. rewrite Hp in Mp1. simpl in Mp1. rewrite bool_decide_false in Mp1 by done. set (p1 := init_adopt_a_child (pid q) p) in *.
  assert (Hp1 : pid p1 = pid p /\ Sched.status p1 = TASK_WAITING) by (unfold p1, init_adopt_a_child; destruct (parent_pid p =? pid q); split; done || exact Hws). destruct Hp1 as [Hp1a Hp1b].
  pose proof Hf1 as [_ Hpids1 Hw1]. rewrite <- Ma in Ht. destruct (Hw1 t p1 Ht Mp1 Hp1b ltac:(congruence)) as [_ Hno].
  destruct (unblock_inv s1 t) as (u & Hu & Hiu & _ & Hcu & Hru & Hau & Hidu & Hthu); [done|done|unfold stat; rewrite Mp1; simpl; rewrite Hp1b; auto|].
  pose proof Hu as Hu0. apply unblock_calm in Hu0 as (Cu & _ & _ & p' & Hp' & _ & Hpu). rewrite Mp1 in Hp'. injection Hp' as <-.
  destruct (block_spec u TASK_HANGING) as (s2 & Hbl & Hi2 & Ha2 & Hid2 & _ & Hrq & Hth2 & Hst2); [done|auto|congruence|]. rewrite Hru in Hrq.
  pose proof Hbl as Hbl0. apply block_calm in Hbl0 as (q' & Hq' & C2 & _). rewrite Hcu, Hc1, Hthu, Mq in Hq' by done. injection Hq' as <-.
  set (q1 := set_exit_status (i8 st) q) in *.
  assert (He : exit_end s1 = Done s2).
  { unfold exit_end, task_at. rewrite Hc1, Mq, bind_done. replace (parent_pid q1) with (pid p1) by (simpl; congruence). rewrite (pid2thread_found s1 t p1 Hpids1 Ht Mp1), Mp1, bind_done.
    rewrite bool_decide_true by done. by rewrite Hu, bind_done, Hbl. }
  destruct (calm_new _ _ C2 (cur s) (set_status TASK_HANGING q1)) as (q2 & Hq2 & F1 & F2 & F3 & _); [simpl; rewrite Hcu, Hc1; by rewrite lookup_insert_eq|].
  destruct (calm_new _ _ C2 t (set_status TASK_READY p1)) as (p2 & Hp2 & G1 & _); [simpl; rewrite Hcu, Hc1; by rewrite lookup_insert_ne|].
  exists s1, s2, q2, p2. split_and!; try done.
  - eapply family_end; [exact Hf1|congruence|done].
  - by injection Hrq.
  - congruence.
  - by rewrite Ha2, Hau, Ma.
  - simpl in F2. congruence.
  - unfold stat in Hst2. rewrite Hcu, Hc1, Hq2 in Hst2. simpl in Hst2. by injection (Hst2 ltac:(congruence)).
  - simpl in G1. congruence.
  - intros x v Hx Hv. destruct (calm_child _ _ _ _ _ C2 Hx) as (v1 & (A1 & A2 & A3) & _ & _ & _ & Fs). rewrite Fs in Hv by (right; congruence).
    destruct (decide (x = cur s)) as [|Hne]; [done|]. exfalso. simpl in A1, A2. rewrite Hcu, Hc1, lookup_insert_ne in A2 by done.
    destruct (calm_child s1 u (pid p) x v1 Cu) as (v0 & Hv0 & _ & _ & _ & F0); [done|]. apply (Hno x v0); [by rewrite Hp1a|]. rewrite <- F0; [done|]. right. done.
Qed.

(** C25. No lost wake-up between exit and wait: from a state in which the invariants of the
    scheduler and of the pids hold and nobody waits in vain, whatever sequence of waits,
    exits, forks, timer interrupts, yields, blockings and wake-ups follows, a process
    (other than init) that sleeps in [sys_wait] still has a child, and none of its
    children hangs: a child that exits wakes its parent first. *)
Theorem wait_no_lost_wakeup s s' t p :
  family_ok s -> rtc fstep s s' -> t ∈ all s' -> threads s' !! t = Some p -> Sched.status p = TASK_WAITING -> pid p <> 1 ->
  (exists c q, child_of s' c q (pid p)) /\ forall c q, child_of s' c q (pid p) -> Sched.status q <> TASK_HANGING.
Proof.
  intros Hf Hr. assert (Hf' : family_ok s') by (induction Hr as [|a b c Hab Hbc IH]; [done|]; apply IH; by eapply family_step). apply (fo_wait _ Hf').
Qed.

(** C26. Exit and wait shake hands: when the running process exits with a status and its
    parent (not init) sleeps in [sys_wait], the parent runs next, its [sys_wait] returns
    the pid of the child with the status cut to 8 bits, and the child is gone: it is in
    no list and its pid is free. *)
Theorem exit_wait_handshake s c q t p st :
  family_ok s -> cur s = c -> c <> idle_thread s -> threads s !! c = Some q -> parent_pid q <> -1 -> t ∈ all s -> threads s !! t = Some p ->
  pid p = parent_pid q -> Sched.status p = TASK_WAITING -> pid p <> 1 ->
  exists s1 s2 s3 freed, exit_begin s st = Done s1 /\ exit_end s1 = Done s2 /\ cur s2 = t /\
    sys_wait s2 = Done (Reaped (pid q) (i8 st) freed, s3) /\ cur s3 = t /\ (c ∉ all s3) /\ (c ∉ Sched.ready s3) /\ bit (pid_bitmap s3) (pid q - 1) = false /\ family_ok s3.
Proof.
  intros Hf Hc Hni Hq Hpar Ht Hp Epar Hws Hn1.
  destruct (exit_runs_parent s c q t p st) as (s1 & s2 & q2 & p2 & E1 & E2 & Hf2 & Hc2 & Hi2 & Hca & Hq2 & A1 & A2 & A3 & A4 & Hp2 & A5 & Honly); [done..|].
  pose proof Hf2 as [Hinv2 Hpids2 _]. assert (Hct : c <> cur s2).
  { intros E. destruct (inv_runs s2 Hinv2) as (r & Hr & Hrr). rewrite <- E, Hq2 in Hr. injection Hr as <-. congruence. }
  assert (Hci : c <> idle_thread s2) by congruence.
  destruct (thread_exit_ok s2 c q2) as (s3 & H1 & H2 & H3 & _ & H5 & H6 & H7 & _ & H9 & _ & _ & _); [done..|].
  assert (Hfind : find_task s2 (is_hanging_child s2 (pid p2)) = Some c).
  { apply find_task_is; [done|unfold is_hanging_child; rewrite Hq2, A4, A2, A5, Z.eqb_refl; done|]. intros u Hu Ht2. unfold is_hanging_child in Ht2.
    destruct (threads s2 !! u) as [v|] eqn:Hv; [|done]. apply andb_prop in Ht2 as [B1%Z.eqb_eq B2%bool_decide_eq_true]. apply (Honly u v); [|done]. split_and!; try done. congruence. }
  assert (Hrange : 1 <= pid q2 <= 1024) by (by apply (pids_used _ Hpids2 c)).
  assert (Hwait : sys_wait s2 = Done (Reaped (pid q) (i8 st) ((if pgdir q2 =? 0 then [] else [pgdir q2]) ++ (if c =? main_thread s2 then [] else [c])), s3)).
  { unfold sys_wait, task_at. rewrite Hc2, Hp2, bind_done, Hfind, Hq2, bind_done, H1, bind_done, A3. cbn [fst snd]. unfold u16. rewrite Z.mod_small by lia. by rewrite A1. }
  eexists s1, s2, s3, _. split_and!; try done; [congruence|by rewrite <- A1|]. eapply family_wait; [exact Hf2| |exact Hwait].
  rewrite Hc2, Hi2. intros ->. pose proof (pre_idle_st _ (inv_pre _ (fo_sched _ Hf))) as Hids. unfold stat in Hids. rewrite Hp in Hids. simpl in Hids. rewrite Hws in Hids. naive_solver.
Qed.

(** A process with a child that is ready, and the idle thread. *)
Definition sample_family : sched :=
  mk_sched [0x4000] [0x2000; 0x3000; 0x4000]
    (<[0x2000 := sample_task 2 5 TASK_RUNNING]> (<[0x3000 := sample_task 3 5 TASK_BLOCKED]> (<[0x4000 := set_parent 2 (sample_task 4 5 TASK_READY)]> ∅)))
    0x2000 0x3000 0x2000 0 (mk_bitmap 128 (14 :: replicate 127 0) 0) 0 0 0.
(** The same after the process has called [sys_wait]. *)
Definition sample_waiting : sched :=
  mk_sched [] [0x2000; 0x3000; 0x4000]
    (<[0x2000 := sample_task 2 5 TASK_WAITING]> (<[0x3000 := sample_task 3 5 TASK_BLOCKED]> (<[0x4000 := set_parent 2 (sample_task 4 5 TASK_RUNNING)]> ∅)))
    0x4000 0x3000 0x2000 0 (mk_bitmap 128 (14 :: replicate 127 0) 0) 0 0 0.

Lemma sample_family_all t : t ∈ all sample_family ->
  t = 0x2000 /\ threads sample_family !! t = Some (sample_task 2 5 TASK_RUNNING) \/
  t = 0x3000 /\ threads sample_family !! t = Some (sample_task 3 5 TASK_BLOCKED) \/
  t = 0x4000 /\ threads sample_family !! t = Some (set_parent 2 (sample_task 4 5 TASK_READY)).
Proof. simpl. rewrite !elem_of_cons, elem_of_nil. intros [->|[->|[->|[]]]]; auto. Qed.

Lemma sample_family_ok : family_ok sample_family.
Proof.
  constructor.
  - constructor; [constructor|split]; try (simpl; by eauto); try (apply (bool_decide_unpack _); by vm_compute).
    + intros t Ht. apply sample_family_all in Ht as [(-> & ->)|[(-> & ->)|(-> & ->)]]; by eexists.
    + intros t. simpl. rewrite !elem_of_cons, elem_of_nil. naive_solver.
    + intros t Ht. unfold stat. apply sample_family_all in Ht as [(-> & ->)|[(-> & ->)|(-> & ->)]]; simpl; rewrite elem_of_cons, elem_of_nil; naive_solver lia.
    + intros t Ht. unfold stat. apply sample_family_all in Ht as [(-> & ->)|[(-> & ->)|(-> & ->)]]; done.
  - constructor; try done.
    + intros t p Ht Hp. apply sample_family_all in Ht as [(-> & E)|[(-> & E)|(-> & E)]]; rewrite E in Hp; injection Hp as <-; (split; [simpl; lia|reflexivity]).
    + intros t1 t2 p1 p2 H1 H2 Hp1 Hp2. apply sample_family_all in H1 as [(-> & E1)|[(-> & E1)|(-> & E1)]]; rewrite E1 in Hp1; injection Hp1 as <-;
        apply sample_family_all in H2 as [(-> & E2)|[(-> & E2)|(-> & E2)]]; rewrite E2 in Hp2; injection Hp2 as <-; simpl; done || lia.
  - intros t p Ht Hp Hs. apply sample_family_all in Ht as [(-> & E)|[(-> & E)|(-> & E)]]; rewrite E in Hp; injection Hp as <-; done.
Qed.

Lemma sample_wait_step : fstep sample_family sample_waiting.
Proof. apply (fs_wait _ _ Sleeps); [done|]. vm_compute. reflexivity. Qed.

Lemma sample_waiting_ok : family_ok sample_waiting.
Proof. exact (family_step _ _ sample_family_ok sample_wait_step). Qed.

Lemma wait_no_lost_wakeup_witness :
  (exists c q, child_of sample_waiting c q 2) /\ forall c q, child_of sample_waiting c q 2 -> Sched.status q <> TASK_HANGING.
Proof.
  apply (wait_no_lost_wakeup sample_family sample_waiting 0x2000 (sample_task 2 5 TASK_WAITING)).
  - exact sample_family_ok.
  - eapply rtc_l; [exact sample_wait_step|apply rtc_refl].
  - apply (bool_decide_unpack _). by vm_compute.
  - reflexivity.
  - reflexivity.
  - discriminate.
Defined.

Lemma exit_wait_handshake_witness :
  exists s1 s2 s3 freed, exit_begin sample_waiting 7 = Done s1 /\ exit_end s1 = Done s2 /\ sys_wait s2 = Done (Reaped 4 7 freed, s3) /\ (0x4000 ∉ all s3).
Proof.
  destruct (exit_wait_handshake sample_waiting 0x4000 (set_parent 2 (sample_task 4 5 TASK_RUNNING)) 0x2000 (sample_task 2 5 TASK_WAITING) 7)
    as (s1 & s2 & s3 & freed & H1 & H2 & _ & H3 & _ & H4 & _).
  - exact sample_waiting_ok.
  - reflexivity.
  - discriminate.
  - reflexivity.
  - discriminate.
  - apply (bool_decide_unpack _). by vm_compute.
  - reflexivity.
  - reflexivity.
  - reflexivity.
  - discriminate.
  - exists s1, s2, s3, freed. split; [exact H1|]. split; [exact H2|]. split; [exact H3|exact H4].
Defined.

(** [sys_exit] is the two steps on the tasks, with the release of the resources between. *)
Lemma release_fds_sched {D} `{BlockDev D} n : forall (x x' : io (D := D) (P := vm)) fd, release_fds x fd n = Done x' -> io_sched x' = io_sched x.
Proof.
  induction n as [|n IH]; intros x x' fd E; cbn [release_fds] in E; [by injection E as <-|]. apply bind_done_inv in E as (g & _ & E). apply bind_done_inv in E as (x1 & E1 & E).
  rewrite (IH _ _ _ E). clear -E1. assert (Hset : forall k f (y y' : io (D := D) (P := vm)), set_file k f y = Done y' -> io_sched y' = io_sched y).
  { intros k f y y' Es. unfold set_file in Es. by apply bind_done_inv in Es as (l & _ & [= <-]). }
  destruct (negb (g =? -1)); [|by injection E1 as <-]. apply bind_done_inv in E1 as (b & _ & E1). destruct b.
  - apply bind_done_inv in E1 as (k & _ & E1). apply bind_done_inv in E1 as (f & _ & E1). cbv zeta in E1. destruct (_ =? 0).
    + apply bind_done_inv in E1 as (p & _ & E1). apply bind_done_inv in E1 as (y & E1 & [= <-]). simpl. by rewrite (Hset _ _ _ _ E1).
    + by rewrite (Hset _ _ _ _ E1).
  - apply bind_done_inv in E1 as (r & E1 & [= <-]). unfold sys_close in E1. destruct (2 <? fd); [|by injection E1 as <-].
    apply bind_done_inv in E1 as (k & _ & E1). apply bind_done_inv in E1 as (b & _ & E1). apply bind_done_inv in E1 as ([ret y] & E2 & E1). apply bind_done_inv in E1 as (l & _ & [= <-]). simpl.
    destruct b.
    + apply bind_done_inv in E2 as (f & _ & E2). cbv zeta in E2. destruct (_ =? 0).
      * apply bind_done_inv in E2 as (p & _ & E2). apply bind_done_inv in E2 as (z & E2 & [= _ <-]). simpl. by rewrite (Hset _ _ _ _ E2).
      * apply bind_done_inv in E2 as (z & E2 & [= _ <-]). by rewrite (Hset _ _ _ _ E2).
    + by apply bind_done_inv in E2 as (z & _ & [= _ <-]).
Qed.

Lemma sys_exit_steps {D} `{BlockDev D} (x x' : io (D := D) (P := vm)) st bits :
  cur (io_sched x) <> idle_thread (io_sched x) -> sys_exit x st bits = Done x' -> fstep (io_sched x) (io_sched x').
Proof.
  intros Hni E. unfold sys_exit in E. apply bind_done_inv in E as (c & _ & E). apply bind_done_inv in E as (s & Eb & E). apply bind_done_inv in E as (y & Er & E).
  apply bind_done_inv in E as (s2 & Ee & [= <-]). simpl. unfold release_prog_resource in Er. apply bind_done_inv in Er as (v & _ & Er). apply bind_done_inv in Er as (w & _ & Er).
  apply release_fds_sched in Er. simpl in Er. rewrite Er in Ee. by eapply fs_exit.
Qed.
