(* ===== verification/Fork.v ===== *)
(** * Forking a process (userprog/fork.c)

    [sys_fork] copies the PCB, the bitmap of the virtual pool and, page by page through a
    buffer in the kernel, the user pages; the child gets a page directory of its own. *)
From stdpp Require Import base numbers list option tactics gmap fin_maps.
From Stdlib Require Import ZArith Lia.
From S2P Require Import Prelude Bitmap Cpu Sched Sync Ioqueue Paging PageAlloc Heap AddrSpace.
Import Intr.

(** ** The user pages *)

(** The body of the loop of [copy_body_stack3] for one page; what
    [get_a_page_without_opvaddrbitmap] returns is not tested. *)
Definition copy_page (x : vm) (child_pgdir parent_pgdir buf_page prog_vaddr : Z) : outcome vm :=
  x ← copy_words x buf_page prog_vaddr 1024;
  x ← page_dir_activate x child_pgdir;
  r ← get_a_page_without_opvaddrbitmap x PF_USER prog_vaddr;
  x ← copy_words r.2 prog_vaddr buf_page 1024;
  page_dir_activate x parent_pgdir.

(** The loop over the bits of a byte, from [idx_bit] on. *)
Fixpoint copy_bits (x : vm) (child_pgdir parent_pgdir buf_page start byte idx_byte idx_bit : Z) (n : nat) : outcome vm :=
  match n with
  | O => Done x
  | S n =>
      x ← (if negb (Z.land (Z.shiftl BITMAP_MASK idx_bit) byte =? 0)
           then copy_page x child_pgdir parent_pgdir buf_page (u32 ((idx_byte * 8 + idx_bit) * PG_SIZE + start))
           else Done x);
      copy_bits x child_pgdir parent_pgdir buf_page start byte idx_byte (idx_bit + 1) n
  end.

(** The loop over the bytes. *)
Fixpoint copy_bytes (x : vm) (child_pgdir parent_pgdir buf_page start : Z) (bytes : list Z) (idx_byte : Z) : outcome vm :=
  match bytes with
  | [] => Done x
  | byte :: bytes =>
      x ← (if negb (byte =? 0) then copy_bits x child_pgdir parent_pgdir buf_page start byte idx_byte 0 8 else Done x);
      copy_bytes x child_pgdir parent_pgdir buf_page start bytes (idx_byte + 1)
  end.

Definition copy_body_stack3 (x : vm) (child_pgdir parent_pgdir buf_page : Z) : outcome vm :=
  let vb := vaddr_bitmap (userprog_vaddr x) in
  if decide (btmp_bytes_len vb <= Z.of_nat (length (bits vb))) then
    copy_bytes x child_pgdir parent_pgdir buf_page (vaddr_start (userprog_vaddr x)) (take (Z.to_nat (btmp_bytes_len vb)) (bits vb)) 0
  else Fault.

(** ** The pages one after the other *)
Fixpoint copy_pages (x : vm) (cp pp buf : Z) (vs : list Z) : outcome vm :=
  match vs with
  | [] => Done x
  | v :: vs => x ← copy_page x cp pp buf v; copy_pages x cp pp buf vs
  end.

Lemma copy_pages_app vs1 vs2 : forall x cp pp buf,
  copy_pages x cp pp buf (vs1 ++ vs2) = x ← copy_pages x cp pp buf vs1; copy_pages x cp pp buf vs2.
Proof.
  induction vs1 as [|v vs1 IH]; intros x cp pp buf; [done|]. cbn [copy_pages app]. destruct (copy_page x cp pp buf v); try done. rewrite !bind_done. apply IH.
Qed.

(** The pages whose bits are set. *)
Definition marked (b : bitmap) : list Z := filter (fun i => bit b i = true) (seqZ 0 (nbits b)).

Lemma copy_bits_pages byte ib n : forall x cp pp buf st k, 0 <= k ->
  copy_bits x cp pp buf st byte ib k n =
  copy_pages x cp pp buf ((fun j => u32 ((ib * 8 + j) * PG_SIZE + st)) <$> filter (fun j => Z.testbit byte j = true) (seqZ k (Z.of_nat n))).
Proof.
  induction n as [|n IH]; intros x cp pp buf st k Hk; [done|]. cbn [copy_bits]. rewrite (seqZ_cons k) by lia. rewrite filter_cons.
  replace (Z.pred (Z.of_nat (S n))) with (Z.of_nat n) by lia. change (Z.succ k) with (k + 1).
  rewrite Z.land_comm. unfold BITMAP_MASK. rewrite land_bit by done. destruct (Z.testbit byte k) eqn:E.
  - destruct (Z.eqb_spec (2 ^ k) 0) as [E0|_]; [pose proof (Z.pow_pos_nonneg 2 k); lia|]. cbn [negb]. rewrite decide_True by done. cbn [fmap list_fmap copy_pages].
    destruct (copy_page x cp pp buf _); try done. rewrite !bind_done. rewrite IH by lia. done.
  - cbn [negb Z.eqb]. rewrite bind_done, decide_False by done. rewrite IH by lia. done.
Qed.

Lemma copy_bytes_pages bs : forall x cp pp buf st ib, 0 <= ib ->
  copy_bytes x cp pp buf st bs ib =
  copy_pages x cp pp buf ((fun i => u32 (i * PG_SIZE + st)) <$>
    filter (fun i => Z.testbit (default 0 (bs !! Z.to_nat (i / 8 - ib))) (i mod 8) = true) (seqZ (8 * ib) (8 * Z.of_nat (length bs)))).
Proof.
  induction bs as [|b bs IH]; intros x cp pp buf st ib Hib; [done|]. cbn [copy_bytes length].
  replace (8 * Z.of_nat (S (length bs))) with (8 + 8 * Z.of_nat (length bs)) by lia. rewrite seqZ_app, filter_app, fmap_app, copy_pages_app by lia.
  assert (E1 : (if negb (b =? 0) then copy_bits x cp pp buf st b ib 0 8 else Done x) =
    copy_pages x cp pp buf ((fun i => u32 (i * PG_SIZE + st)) <$> filter (fun i => Z.testbit (default 0 ((b :: bs) !! Z.to_nat (i / 8 - ib))) (i mod 8) = true) (seqZ (8 * ib) 8))).
  { assert (Hl : filter (fun i => Z.testbit (default 0 ((b :: bs) !! Z.to_nat (i / 8 - ib))) (i mod 8) = true) (seqZ (8 * ib) 8) =
      (fun j => 8 * ib + j) <$> filter (fun j => Z.testbit b j = true) (seqZ 0 8)).
    { assert (Hs : seqZ (8 * ib) 8 = (fun j => 8 * ib + j) <$> seqZ 0 8) by (rewrite fmap_add_seqZ; f_equal; lia).
      rewrite Hs. assert (Hin : forall j, j ∈ seqZ 0 8 -> 0 <= j < 8) by (intros j Hj%elem_of_seqZ; lia). revert Hin. generalize (seqZ 0 8). intros l Hin.
      induction l as [|j l IHl]; [done|]. rewrite !fmap_cons, !filter_cons. assert (Hj : 0 <= j < 8) by (apply Hin; left).
      assert (Ei : Z.to_nat ((8 * ib + j) / 8 - ib) = O) by zdiv. assert (Em : (8 * ib + j) mod 8 = j) by zdiv. rewrite Ei, Em. cbn [lookup list_lookup default].
      rewrite IHl by (intros j' Hj'; apply Hin; by right). unfold default, from_option, id. by destruct (decide (Z.testbit b j = true)). }
    rewrite Hl, <- list_fmap_compose. destruct (Z.eqb_spec b 0) as [->|Hne]; cbn [negb].
    - rewrite (filter_ext_in _ (fun _ => False)) by (intros j _; by rewrite Z.testbit_0_l). done.
    - rewrite copy_bits_pages by lia. f_equal. apply list_fmap_ext. intros _ j _. simpl. f_equal. lia. }
  rewrite E1. destruct (copy_pages x cp pp buf _); try done. rewrite !bind_done. rewrite IH by lia. f_equal. f_equal.
  replace (8 * ib + 8) with (8 * (ib + 1)) by lia. apply filter_ext_in. intros i Hi%elem_of_seqZ.
  assert (E : Z.to_nat (i / 8 - ib) = S (Z.to_nat (i / 8 - (ib + 1)))) by zdiv. rewrite E. done.
Qed.

(** ** The invariant of copying

    [x0] is the state before, with the parent's directory active; [d] is the frame of the
    child's directory and [bf] that of the buffer. *)
Definition user_fresh (m : gmap Z Z) (dir : Z) (x : vm) : Prop := forall i, 0 <= i < nbits (pbits PF_USER x) -> fresh_frame m dir (pframe PF_USER x i).

(** The frames that copying may write. *)
Definition fork_writes (x0 : vm) (d bf g : Z) : Prop := g = d \/ g = bf \/ exists pf i, is_free (pbits pf x0) i /\ g = pframe pf x0 i.

Record fork_ready (x0 : vm) (d bf : Z) : Prop := {
  fr_ok : vm_ok x0;
  fr_user : user_fresh (phys x0) (cr3 x0) x0;
  fr_dir : kernel_dir (phys x0) (cr3 x0) d;
  fr_d : fresh_frame (phys x0) (cr3 x0) d;
  fr_bf : fresh_frame (phys x0) (cr3 x0) bf;
  fr_ne : bf <> d;
  fr_taken : forall pf i, is_free (pbits pf x0) i -> pframe pf x0 i <> d /\ pframe pf x0 i <> bf;
  fr_nuser : forall i, 0 <= i < nbits (pbits PF_USER x0) -> pframe PF_USER x0 i <> d
}.

(** [dn] are the pages that have been copied. *)
Record copied (x0 : vm) (d bf : Z) (dn : Z -> Prop) (x : vm) : Prop := {
  cv_ok : vm_ok x;
  cv_cr3 : cr3 x = cr3 x0;
  cv_child : vm_ok (with_cr3 d x);
  cv_vaddr : forall pf, the_vaddr pf x = the_vaddr pf x0;
  cv_pframe : forall pf j, pframe pf x j = pframe pf x0 j;
  cv_grows : forall pf, grows (pbits pf x0) (pbits pf x);
  cv_mem : agree (fork_writes x0 d bf) (phys x0) (phys x);
  cv_kernel : forall j, 768 <= j < 1024 -> pread (phys x) (d + 4 * j) = pread (phys x0) (d + 4 * j);
  cv_tables : forall j, 1 <= j < 768 -> present (pread (phys x) (d + 4 * j)) = true ->
    exists i, is_free (pbits PF_KERNEL x0) i /\ frame_of (pread (phys x) (d + 4 * j)) = pframe PF_KERNEL x0 i;
  cv_pages : forall i a, dn i -> 0 <= i < nbits (vbits PF_USER x0) -> trans x0 (vpage PF_USER x0 i) = Some a ->
    exists f, is_free (pbits PF_USER x0) f /\ bit (pbits PF_USER x) f = true /\ trans (with_cr3 d x) (vpage PF_USER x0 i) = Some (pframe PF_USER x0 f) /\
      forall o, 0 <= o < 1024 -> pread (phys x) (pframe PF_USER x0 f + 4 * o) = pread (phys x0) (a + 4 * o);
  cv_empty : forall w, 2 ^ 22 <= w < 0xc0000000 -> (forall i, dn i -> w / 2 ^ 12 <> vpage PF_USER x0 i / 2 ^ 12) -> trans (with_cr3 d x) w = None
}.

Section Copying.
Context (x0 : vm) (d bf : Z) (Hready : fork_ready x0 d bf).

Lemma writes_no_table : no_table (fork_writes x0 d bf) (phys x0) (cr3 x0).
Proof.
  destruct Hready as [Hok Hu Hkd [D1 D2 D3 D4] [B1 B2 B3 B4] Hne Htk Hnu]. split.
  - intros [E|[E|([] & i & Hi & E)]]; [congruence|congruence| |].
    + destruct (vo_fresh x0 Hok i Hi) as [_ _ F3 _]. congruence.
    + destruct (Hu i (proj1 Hi)) as [_ _ F3 _]. congruence.
  - intros j Hj Hp [E|[E|([] & i & Hi & E)]].
    + by apply (D4 j).
    + by apply (B4 j).
    + destruct (vo_fresh x0 Hok i Hi) as [_ _ _ F4]. by apply (F4 j).
    + destruct (Hu i (proj1 Hi)) as [_ _ _ F4]. by apply (F4 j).
Qed.

Section State.
Context (dn : Z -> Prop) (x : vm) (Hc : copied x0 d bf dn x).

(** The parent's space is as before. *)
Lemma parent_dir j : 0 <= j < 1024 -> pread (phys x) (cr3 x0 + 4 * j) = pread (phys x0) (cr3 x0 + 4 * j).
Proof.
  intros Hj. exact (agree_dir _ _ _ _ _ (proj2 (t_dir _ _ (vo_tables x0 (fr_ok _ _ _ Hready)))) (proj1 writes_no_table) (cv_mem _ _ _ _ _ Hc) Hj).
Qed.

Lemma parent_trans w : 2 ^ 22 <= w < 2 ^ 32 -> trans x w = trans x0 w.
Proof.
  intros Hw. unfold trans. rewrite (cv_cr3 _ _ _ _ _ Hc).
  apply (agree_tables (fork_writes x0 d bf) (phys x0) (phys x) (cr3 x0)); [apply (vo_tables x0 (fr_ok _ _ _ Hready))| |apply Hc|exact writes_no_table|done].
  intros a. apply (t_words _ _ (vo_tables x (cv_ok _ _ _ _ _ Hc))).
Qed.

(** The child's directory has the kernel's entries. *)
Lemma child_kernel j : 768 <= j < 1023 -> pread (phys x) (d + 4 * j) = pread (phys x) (cr3 x0 + 4 * j).
Proof. intros Hj. rewrite (cv_kernel _ _ _ _ _ Hc), parent_dir by lia. by apply (kd_kernel _ _ _ (fr_dir _ _ _ Hready)). Qed.

Lemma child_trans w : 0xc0000000 <= w < 0xffc00000 -> trans (with_cr3 d x) w = trans x w.
Proof.
  intros Hw. assert (Hi : 768 <= w / 2 ^ 22 < 1023) by zdiv. unfold trans, translate, pte_at, pte_addr, pde_at. cbn [phys cr3 with_cr3].
  by rewrite (cv_cr3 _ _ _ _ _ Hc), child_kernel.
Qed.

(** The child's tables: the kernel's, and frames that were free. *)
Lemma child_table j : 1 <= j < 1023 -> present (pread (phys x) (d + 4 * j)) = true ->
  (exists i, is_free (pbits PF_KERNEL x0) i /\ frame_of (pread (phys x) (d + 4 * j)) = pframe PF_KERNEL x0 i) \/
  (present (pread (phys x0) (cr3 x0 + 4 * j)) = true /\ frame_of (pread (phys x) (d + 4 * j)) = frame_of (pread (phys x0) (cr3 x0 + 4 * j))).
Proof.
  intros Hj Hp. destruct (decide (j < 768)); [left; apply (cv_tables _ _ _ _ _ Hc); [lia|done]|]. right.
  rewrite child_kernel, parent_dir in * by lia. done.
Qed.

Lemma child_fresh g : g <> d -> fresh_frame (phys x0) (cr3 x0) g -> (forall i, is_free (pbits PF_KERNEL x0) i -> pframe PF_KERNEL x0 i <> g) ->
  fresh_frame (phys x) d g.
Proof.
  intros Hg [G1 G2 G3 G4] Hn. constructor; try done. intros j Hj Hp. destruct (child_table j Hj Hp) as [(i & Hi & ->)|[Hp0 ->]]; [by apply Hn|by apply G4].
Qed.

Lemma buffer_fresh : fresh_frame (phys x) (cr3 x) bf /\ fresh_frame (phys x) d bf.
Proof.
  destruct Hready as [Hok Hu Hkd Hd Hb Hne Htk Hnu]. split.
  - rewrite (cv_cr3 _ _ _ _ _ Hc). apply (agree_fresh (fork_writes x0 d bf) (phys x0)); [apply (t_dir _ _ (vo_tables x0 Hok))|apply Hc|apply writes_no_table|done].
  - apply child_fresh; [done|done|]. intros i Hi. by apply Htk.
Qed.

Lemma user_frame_fresh i : 0 <= i < nbits (pbits PF_USER x0) -> fresh_frame (phys x) d (pframe PF_USER x0 i).
Proof.
  intros Hi. destruct Hready as [Hok Hu Hkd Hd Hb Hne Htk Hnu]. apply child_fresh; [by apply Hnu|by apply Hu|].
  intros k Hk E. by apply (pframe_inj x0 PF_KERNEL k PF_USER i Hok (proj1 Hk) Hi) in E as [? _].
Qed.

(** ** One page *)
Context (cp pp buf : Z).
Context (Hcp : 0xc0000000 <= cp < 0xffc00000) (Hpp : 0xc0000000 <= pp < 0xffc00000) (Hbuf : 0xc0000000 <= buf < 0xffc00000) (Hbuf_al : buf mod 2 ^ 12 = 0).
Context (Tcp : trans x0 cp = Some d) (Tpp : trans x0 pp = Some (cr3 x0)) (Tbuf : trans x0 buf = Some bf).
Context (i a : Z) (Hi : 0 <= i < nbits (vbits PF_USER x0)) (Hbit : bit (vbits PF_USER x0) i = true) (Hnew : forall k, dn k -> k <> i).
Context (Ta : trans x0 (vpage PF_USER x0 i) = Some a) (Hsrc : ~ fork_writes x0 d bf (a / 2 ^ 12 * 2 ^ 12)).
Context (Hdn : forall k, dn k -> 0 <= k < nbits (vbits PF_USER x0)) (Hnf : forall pf, (0 < nfree (pbits pf x))%nat).

Lemma page_facts : in_range (vpage PF_USER x0 i) /\ vpage PF_USER x0 i mod 2 ^ 12 = 0 /\ vpage PF_USER x0 i < 0xc0000000 /\ a mod 2 ^ 12 = 0.
Proof.
  destruct Hready as [Hok _ _ _ _ _ _ _]. destruct (vpage_in x0 PF_USER i Hok Hi) as [Hr Ha]. destruct (vo_user x0 Hok) as (_ & Hu & _).
  split; [done|]. split; [done|]. split; [unfold vpage, PG_SIZE in *; lia|].
  destruct (trans_pte x0 _ a Hok Hr Ta) as (_ & _ & ->). pose proof (frame_aligned (phys x0) (cr3 x0) (pte_addr (phys x0) (cr3 x0) (vpage PF_USER x0 i)) (vo_tables x0 Hok)) as [_ Hf].
  unfold pte_at. zdiv.
Qed.

(** The buffer holds the page. *)
Lemma copy_to_buffer : exists m1, copy_words x buf (vpage PF_USER x0 i) 1024 = Done (with_phys m1 x) /\ words_ok m1 /\
  agree (fun g => g = bf) (phys x) m1 /\ forall o, 0 <= o < 1024 -> pread m1 (bf + 4 * o) = pread (phys x0) (a + 4 * o).
Proof.
  destruct page_facts as (Hr & Hal & Hlt & Haa). destruct buffer_fresh as [Hbf _]. pose proof Hbf as [B1 B2 B3 B4]. unfold in_range in Hr.
  assert (Hne : a / 2 ^ 12 * 2 ^ 12 <> bf) by (intros E; apply Hsrc; right; by left).
  assert (Eb : bf / 2 ^ 12 * 2 ^ 12 = bf) by zdiv.
  destruct (copy_words_ok 1024 x buf (vpage PF_USER x0 i) bf a) as (m1 & Hrun & Hw & Hag & Hm); try lia.
  { apply (vo_tables x (cv_ok _ _ _ _ _ Hc)). }
  { intros k Hk. rewrite !parent_trans by zdiv. split; (apply trans_offset; [done|zdiv]). }
  { rewrite Eb. by apply fresh_no_table. }
  rewrite Eb in Hag. exists m1. split_and!; try done. intros o Ho. rewrite Hm, decide_True by zdiv. replace (a + (bf + 4 * o - bf)) with (a + 4 * o) by lia.
  apply (cv_mem _ _ _ _ _ Hc). assert (E : (a + 4 * o) / 2 ^ 12 * 2 ^ 12 = a / 2 ^ 12 * 2 ^ 12) by zdiv. by rewrite E.
Qed.

(** The child's space, with the page in the buffer. *)
Section Child.
Context (m1 : gmap Z Z) (Hw1 : words_ok m1) (Hag1 : agree (fun g => g = bf) (phys x) m1).
Context (Hm1 : forall o, 0 <= o < 1024 -> pread m1 (bf + 4 * o) = pread (phys x0) (a + 4 * o)).
Abbreviation y1 := (with_cr3 d (with_phys m1 x)) (only parsing).

Lemma child_ok1 : vm_ok y1 /\ forall w, 2 ^ 22 <= w < 2 ^ 32 -> trans y1 w = trans (with_cr3 d x) w.
Proof.
  destruct buffer_fresh as [_ Hb]. exact (vm_ok_agree (fun g => g = bf) (with_cr3 d x) m1 (cv_child _ _ _ _ _ Hc) Hw1 Hag1 (fresh_no_table _ _ _ Hb)).
Qed.

Lemma parent_ok1 : vm_ok (with_phys m1 x) /\ forall w, 2 ^ 22 <= w < 2 ^ 32 -> trans (with_phys m1 x) w = trans x w.
Proof.
  destruct buffer_fresh as [Hb _]. exact (vm_ok_agree (fun g => g = bf) x m1 (cv_ok _ _ _ _ _ Hc) Hw1 Hag1 (fresh_no_table _ _ _ Hb)).
Qed.

Lemma activate_child : page_dir_activate (with_phys m1 x) cp = Done y1.
Proof.
  destruct parent_ok1 as [Hx1 Htr]. unfold page_dir_activate. destruct (Z.eqb_spec cp 0); [lia|]. cbn [negb].
  rewrite (addr_v2p_spec (with_phys m1 x) cp d); [done|done|unfold in_range; lia|]. by rewrite Htr, parent_trans by lia.
Qed.

(** The directory of the child is written only for its own pages. *)
Lemma child_dir1 j : 0 <= j < 1024 -> pread m1 (d + 4 * j) = pread (phys x) (d + 4 * j).
Proof.
  intros Hj. destruct Hready as [_ _ _ [_ D2 _ _] _ Hne _ _]. exact (agree_dir _ _ _ _ _ D2 (fun E => Hne (eq_sym E)) Hag1 Hj).
Qed.

Lemma child_page : exists f y2, get_a_page_without_opvaddrbitmap y1 PF_USER (vpage PF_USER x0 i) = Done (vpage PF_USER x0 i, y2) /\ user_page y1 y2 (vpage PF_USER x0 i) f.
Proof.
  destruct page_facts as (Hr & Hal & Hlt & Haa). destruct child_ok1 as [Hy1 Htr]. destruct Hready as [Hok _ _ _ _ _ _ _].
  apply get_user_page_ok; [done|done|done| | |done].
  - rewrite Htr by (unfold in_range in Hr; lia). apply (cv_empty _ _ _ _ _ Hc); [unfold in_range in Hr; lia|]. intros k Hk E.
    apply (Hnew k Hk). pose proof (Hdn k Hk) as Hkr. unfold vpage, PG_SIZE in E. zdiv.
  - intros pf j Hj E. change (vbits pf y1) with (vaddr_bitmap (the_vaddr pf x)) in Hj. change (vpage pf y1 j) with (vaddr_start (the_vaddr pf x) + PG_SIZE * j) in E.
    rewrite (cv_vaddr _ _ _ _ _ Hc) in Hj, E. fold (vbits pf x0) in Hj. fold (vpage pf x0 j) in E.
    apply (vpage_inj x0 pf j PF_USER i Hok (proj1 Hj) Hi) in E as [-> ->]. destruct Hj as [_ Hj]. congruence.
Qed.

Section Page.
Context (f : Z) (y2 : vm) (Hup : user_page y1 y2 (vpage PF_USER x0 i) f).

Lemma page_free : is_free (pbits PF_USER x0) f /\ pframe PF_USER y1 f = pframe PF_USER x0 f.
Proof.
  split; [|exact (cv_pframe _ _ _ _ _ Hc PF_USER f)]. apply (grows_free _ _ _ (cv_grows _ _ _ _ _ Hc PF_USER)). exact (up_free _ _ _ _ Hup).
Qed.

Lemma page_aligned : 0 <= pframe PF_USER x0 f < 2 ^ 32 /\ pframe PF_USER x0 f mod 2 ^ 12 = 0.
Proof. destruct page_free as [Hf _]. destruct (frame_aligned_pool x0 PF_USER f (fr_ok _ _ _ Hready) (proj1 Hf)). lia. Qed.

(** An entry of the child's directory: as before, or leading to a table that was free. *)
Lemma child_dir2 j : 0 <= j < 1024 -> pread (phys y2) (d + 4 * j) = pread (phys x) (d + 4 * j) \/
  (j = vpage PF_USER x0 i / 2 ^ 22 /\ exists k, is_free (pbits PF_KERNEL x0) k /\ frame_of (pread (phys y2) (d + 4 * j)) = pframe PF_KERNEL x0 k).
Proof.
  intros Hj. destruct (tw_dir _ _ _ (up_writes _ _ _ _ Hup) j Hj) as [E|(Ej & k & Hk & _ & E)]; cbn [phys cr3 with_cr3 with_phys] in E.
  - left. rewrite E. by apply child_dir1.
  - right. split; [done|]. exists k. change (pbits PF_KERNEL y1) with (pbits PF_KERNEL x) in Hk. change (pframe PF_KERNEL y1 k) with (pframe PF_KERNEL x k) in E.
    rewrite (cv_pframe _ _ _ _ _ Hc) in E. split; [|done]. by apply (grows_free _ _ _ (cv_grows _ _ _ _ _ Hc PF_KERNEL)).
Qed.

(** The table that was written is one of the child's own. *)
Lemma child_table2 : exists k, is_free (pbits PF_KERNEL x0) k /\ frame_of (pde_at (phys y2) (cr3 y2) (vpage PF_USER x0 i)) = pframe PF_KERNEL x0 k.
Proof.
  destruct page_facts as (Hr & Hal & Hlt & Haa). pose proof (tw_table _ _ _ (up_writes _ _ _ _ Hup)) as Hp.
  assert (Hj : 1 <= vpage PF_USER x0 i / 2 ^ 22 < 768) by (unfold in_range in Hr; zdiv).
  unfold pde_at in *. rewrite (up_cr3 _ _ _ _ Hup) in *. cbn [cr3 with_cr3] in *.
  destruct (child_dir2 (vpage PF_USER x0 i / 2 ^ 22)) as [E|(_ & k & Hk & E)]; [lia| |by exists k].
  rewrite E in *. destruct (cv_tables _ _ _ _ _ Hc _ Hj Hp) as (k & Hk & Ek). by exists k.
Qed.

(** What has been written since [m1]. *)
Lemma child_mem2 : agree (fun g => g = d \/ exists k, is_free (pbits PF_KERNEL x0) k /\ g = pframe PF_KERNEL x0 k) m1 (phys y2).
Proof.
  destruct child_table2 as (k & Hk & Ek). intros b Hb. apply (tw_mem _ _ _ (up_writes _ _ _ _ Hup)); cbn [cr3 with_cr3].
  - intros E. apply Hb. by left.
  - rewrite Ek. intros E. apply Hb. right. by exists k.
Qed.

Lemma page_fresh2 : fresh_frame (phys y2) (cr3 y2) (pframe PF_USER x0 f).
Proof.
  destruct page_free as [Hf _]. destruct (user_frame_fresh f (proj1 Hf)) as [F1 F2 F3 F4]. rewrite (up_cr3 _ _ _ _ Hup). cbn [cr3 with_cr3]. constructor; try done.
  intros j Hj Hp E. destruct (child_dir2 j) as [Ej|(_ & k & Hk & Ek)]; [lia|rewrite Ej in *; by apply (F4 j)|].
  rewrite Ek in E. by apply (pframe_inj x0 PF_KERNEL k PF_USER f (fr_ok _ _ _ Hready) (proj1 Hk) (proj1 Hf)) in E as [? _].
Qed.

(** Kernel addresses in the child's space. *)
Lemma child_kernel2 w b : 0xc0000000 <= w < 0xffc00000 -> trans x0 w = Some b -> trans y2 w = Some b.
Proof.
  intros Hw Hb. destruct page_facts as (Hr & Hal & Hlt & Haa). destruct child_ok1 as [_ Htr].
  rewrite (up_trans _ _ _ _ Hup) by (unfold in_range; lia). rewrite decide_False by zdiv. by rewrite Htr, child_trans, parent_trans by lia.
Qed.

Lemma copy_from_buffer : exists m4, copy_words y2 (vpage PF_USER x0 i) buf 1024 = Done (with_phys m4 y2) /\ words_ok m4 /\
  agree (fun g => g = pframe PF_USER x0 f) (phys y2) m4 /\ forall o, 0 <= o < 1024 -> pread m4 (pframe PF_USER x0 f + 4 * o) = pread (phys x0) (a + 4 * o).
Proof.
  destruct page_facts as (Hr & Hal & Hlt & Haa). destruct page_free as [Hf Ef]. destruct page_aligned as [A1 A2]. destruct Hready as [Hok _ _ Hd [B1 B2 _ _] Hne Htk Hnu].
  assert (Hfb : pframe PF_USER x0 f <> bf) by (by apply Htk). set (g := pframe PF_USER x0 f) in *. unfold in_range in Hr.
  assert (Eg : g / 2 ^ 12 * 2 ^ 12 = g) by zdiv. assert (Eb : bf / 2 ^ 12 * 2 ^ 12 = bf) by zdiv.
  destruct (copy_words_ok 1024 y2 (vpage PF_USER x0 i) buf g bf) as (m4 & Hrun & Hw & Hag & Hm); try lia.
  { apply (vo_tables y2 (up_ok _ _ _ _ Hup)). }
  { intros k Hk. split.
    - rewrite (up_trans _ _ _ _ Hup) by (unfold in_range; zdiv). rewrite decide_True by zdiv. rewrite Ef. fold g. f_equal. zdiv.
    - apply trans_offset; [by apply child_kernel2|zdiv]. }
  { rewrite Eg. apply fresh_no_table, page_fresh2. }
  rewrite Eg in Hag. exists m4. split_and!; try done. intros o Ho. rewrite Hm, decide_True by zdiv. replace (bf + (g + 4 * o - g)) with (bf + 4 * o) by lia.
  rewrite child_mem2; [by apply Hm1|]. assert (E : (bf + 4 * o) / 2 ^ 12 * 2 ^ 12 = bf) by zdiv. rewrite E. intros [E'|(k & Hk & E')]; [by apply Hne|].
  symmetry in E'. revert E'. by apply Htk.
Qed.

Section Done.
Context (m4 : gmap Z Z) (Hw4 : words_ok m4) (Hag4 : agree (fun g => g = pframe PF_USER x0 f) (phys y2) m4).
Context (Hm4 : forall o, 0 <= o < 1024 -> pread m4 (pframe PF_USER x0 f + 4 * o) = pread (phys x0) (a + 4 * o)).

Lemma child_ok4 : vm_ok (with_phys m4 y2) /\ forall w, 2 ^ 22 <= w < 2 ^ 32 -> trans (with_phys m4 y2) w = trans y2 w.
Proof. exact (vm_ok_agree (fun g => g = pframe PF_USER x0 f) y2 m4 (up_ok _ _ _ _ Hup) Hw4 Hag4 (fresh_no_table _ _ _ page_fresh2)). Qed.

Lemma activate_parent : page_dir_activate (with_phys m4 y2) pp = Done (with_cr3 (cr3 x0) (with_phys m4 y2)).
Proof.
  destruct child_ok4 as [Hx4 Htr]. unfold page_dir_activate. destruct (Z.eqb_spec pp 0); [lia|]. cbn [negb].
  rewrite (addr_v2p_spec _ pp (cr3 x0) Hx4); [done|unfold in_range; lia|]. rewrite Htr by lia. by apply child_kernel2.
Qed.

Lemma all_writes : agree (fork_writes x0 d bf) (phys x0) m4.
Proof.
  destruct page_free as [Hf _].
  eapply agree_trans; [exact (cv_mem _ _ _ _ _ Hc)|]. eapply agree_trans; [eapply agree_weaken; [|exact Hag1]; intros g ->; right; by left|].
  eapply agree_trans; [eapply agree_weaken; [|exact child_mem2]; intros g [->|(k & Hk & ->)]; [by left|right; right; by exists PF_KERNEL, k]|].
  eapply agree_weaken; [|exact Hag4]. intros g ->. right. right. by exists PF_USER, f.
Qed.

Lemma dir4 j : 0 <= j < 1024 -> pread m4 (d + 4 * j) = pread (phys y2) (d + 4 * j).
Proof.
  intros Hj. destruct page_free as [Hf _]. destruct Hready as [_ _ _ [_ D2 _ _] _ _ _ Hnu]. apply Hag4. rewrite dir_frame by done. intros E. by apply (Hnu f (proj1 Hf)).
Qed.

(** Pages copied before are left alone. *)
Lemma page_kept g : is_free (pbits PF_USER x0) g -> bit (pbits PF_USER x) g = true -> forall o, 0 <= o < 1024 -> pread m4 (pframe PF_USER x0 g + 4 * o) = pread (phys x) (pframe PF_USER x0 g + 4 * o).
Proof.
  intros Hg Hb o Ho. destruct page_free as [Hf _]. pose proof (up_free _ _ _ _ Hup) as [_ Hfb]. change (pbits PF_USER y1) with (pbits PF_USER x) in Hfb.
  destruct (frame_aligned_pool x0 PF_USER g (fr_ok _ _ _ Hready) (proj1 Hg)) as [_ Hga]. destruct Hready as [Hok _ _ _ _ _ Htk Hnu].
  assert (E : (pframe PF_USER x0 g + 4 * o) / 2 ^ 12 * 2 ^ 12 = pframe PF_USER x0 g) by (by apply dir_frame).
  rewrite Hag4, child_mem2, Hag1; [done|rewrite E; by apply Htk| |].
  - rewrite E. intros [Ed|(k & Hk & Ek)]; [by apply (Hnu g (proj1 Hg))|]. by apply (pframe_inj x0 PF_USER g PF_KERNEL k Hok (proj1 Hg) (proj1 Hk)) in Ek as [? _].
  - rewrite E. intros Eg. apply (pframe_inj x0 PF_USER g PF_USER f Hok (proj1 Hg) (proj1 Hf)) in Eg as [_ ->]. congruence.
Qed.

Abbreviation x5 := (with_cr3 (cr3 x0) (with_phys m4 y2)) (only parsing).

Lemma back_to_child : with_cr3 d x5 = with_phys m4 y2.
Proof. pose proof (up_cr3 _ _ _ _ Hup) as E. destruct y2. cbn in *. by subst. Qed.

Lemma parent_ok5 : vm_ok x5.
Proof.
  set (z := mk_vm (phys x0) (cr3 x0) (kernel_pool y2) (user_pool y2) (kernel_vaddr y2) (userprog_vaddr y2) (is_process y2)).
  assert (Hz : vm_ok z).
  { apply (vm_ok_shrinks x0); [apply Hready|].
    assert (Hv : forall pf, the_vaddr pf z = the_vaddr pf x0).
    { intros pf. transitivity (the_vaddr pf y2); [by destruct pf|]. rewrite (up_vaddr _ _ _ _ Hup). transitivity (the_vaddr pf x); [by destruct pf|]. apply Hc. }
    assert (Hp : forall pf, the_pool pf z = the_pool pf y2) by (by intros []). constructor; try done.
    - intros pf. rewrite Hp. pose proof (up_pframe _ _ _ _ Hup pf 0) as E1. pose proof (cv_pframe _ _ _ _ _ Hc pf 0) as E2.
      change (pframe pf y1 0) with (pframe pf x 0) in E1. unfold pframe, frame in E1, E2. lia.
    - intros pf. by rewrite Hv.
    - intros pf. change (pbits pf z) with (pool_bitmap (the_pool pf z)). rewrite Hp. eapply grows_trans; [apply Hc|]. exact (up_grows _ _ _ _ Hup pf).
    - intros pf. unfold vbits. rewrite Hv. apply grows_refl, (vo_vwf x0 (fr_ok _ _ _ Hready) pf). }
  exact (proj1 (vm_ok_agree (fork_writes x0 d bf) z m4 Hz Hw4 all_writes writes_no_table)).
Qed.

Lemma copied_step : copied x0 d bf (fun k => dn k \/ k = i) x5.
Proof.
  destruct page_facts as (Hr & Hal & Hlt & Haa). destruct page_free as [Hf Ef]. destruct child_ok4 as [Hx4 Htr4]. destruct child_ok1 as [_ Htr1].
  assert (Hj : vpage PF_USER x0 i / 2 ^ 22 < 768) by (unfold in_range in Hr; zdiv).
  assert (Hch : forall w, in_range w -> trans (with_cr3 d x5) w = if decide (w / 2 ^ 12 = vpage PF_USER x0 i / 2 ^ 12) then Some (pframe PF_USER x0 f + w mod 2 ^ 12) else trans (with_cr3 d x) w).
  { intros w Hw. rewrite back_to_child, Htr4 by (unfold in_range in Hw; lia). rewrite (up_trans _ _ _ _ Hup) by done. rewrite Ef. case_decide; [done|]. apply Htr1. unfold in_range in Hw; lia. }
  constructor.
  - exact parent_ok5.
  - done.
  - by rewrite back_to_child.
  - intros pf. transitivity (the_vaddr pf y2); [by destruct pf|]. rewrite (up_vaddr _ _ _ _ Hup). transitivity (the_vaddr pf x); [by destruct pf|]. apply Hc.
  - intros pf j. transitivity (pframe pf y2 j); [by destruct pf|]. rewrite (up_pframe _ _ _ _ Hup). exact (cv_pframe _ _ _ _ _ Hc pf j).
  - intros pf. eapply grows_trans; [apply Hc|]. exact (up_grows _ _ _ _ Hup pf).
  - exact all_writes.
  - intros j Hj'. cbn [phys with_cr3 with_phys]. rewrite dir4 by lia. destruct (child_dir2 j) as [->|[-> _]]; [lia|by apply (cv_kernel _ _ _ _ _ Hc)|lia].
  - intros j Hj'. cbn [phys with_cr3 with_phys]. rewrite dir4 by lia. destruct (child_dir2 j) as [->|(_ & k & Hk)]; [lia|by apply (cv_tables _ _ _ _ _ Hc)|intros _; by exists k].
  - intros k b [Hk| ->] Hkr Hb.
    + destruct (cv_pages _ _ _ _ _ Hc k b Hk Hkr Hb) as (g & Hg & Hgt & Ht & Hcont). exists g. split; [done|]. split.
      { exact (grows_taken _ _ _ (up_grows _ _ _ _ Hup PF_USER) (proj1 (proj1 Hg)) Hgt). }
      split; [|intros o Ho; cbn [phys with_cr3 with_phys]; rewrite page_kept by done; by apply Hcont].
      rewrite Hch by (by apply vpage_in; [apply Hready|]). rewrite decide_False; [done|]. pose proof (Hnew k Hk). unfold vpage, PG_SIZE. zdiv.
    + assert (b = a) as -> by congruence. exists f. split; [done|]. split; [exact (up_taken _ _ _ _ Hup)|]. split; [|exact Hm4].
      rewrite Hch by done. rewrite decide_True by done. f_equal. lia.
  - intros w Hw Hno. rewrite Hch by (unfold in_range; lia). rewrite decide_False by (apply Hno; by right). apply (cv_empty _ _ _ _ _ Hc); [done|]. intros k Hk. apply Hno. by left.
Qed.
End Done.
End Page.
End Child.

Lemma copy_page_ok : exists x', copy_page x cp pp buf (vpage PF_USER x0 i) = Done x' /\ copied x0 d bf (fun k => dn k \/ k = i) x' /\
  forall pf, (nfree (pbits pf x) <= S (nfree (pbits pf x')))%nat.
Proof.
  destruct copy_to_buffer as (m1 & H1 & Hw1 & Hag1 & Hm1). destruct (child_page m1 Hw1 Hag1) as (f & y2 & H2 & Hup).
  destruct (copy_from_buffer m1 Hw1 Hag1 Hm1 f y2 Hup) as (m4 & H4 & Hw4 & Hag4 & Hm4). unfold copy_page.
  rewrite H1, bind_done, (activate_child m1 Hw1 Hag1), bind_done, H2, bind_done. cbn [snd]. rewrite H4, bind_done.
  eexists. split; [by apply (activate_parent m1 Hw1 Hag1 f y2 Hup m4 Hw4 Hag4)|]. split; [by apply (copied_step m1 Hw1 Hag1 f y2 Hup m4)|].
  intros pf. exact (up_nfree _ _ _ _ Hup pf).
Qed.
End State.

(** ** All pages *)
Lemma copied_iff (P Q : Z -> Prop) x : (forall k, P k <-> Q k) -> copied x0 d bf P x -> copied x0 d bf Q x.
Proof.
  intros HPQ [C1 C2 C3 C4 C5 C6 C7 C8 C9 C10 C11]. constructor; try done.
  - intros i a Hi. apply C10. by apply HPQ.
  - intros w Hw Hno. apply C11; [done|]. intros i Hi. apply Hno. by apply HPQ.
Qed.

Lemma copied_start : copied x0 d bf (fun _ => False) x0.
Proof.
  destruct Hready as [Hok Hu Hkd Hd Hb Hne Htk Hnu]. destruct (kernel_dir_space x0 d Hok Hd) as (Hc & _ & Hcu); [intros pf i Hi; by apply Htk|done|].
  constructor; try done.
  - intros pf. apply grows_refl, (p_wf _ (vo_pool x0 Hok pf)).
  - intros j Hj. rewrite (kd_user _ _ _ Hkd) by lia. done.
  - intros w Hw _. by apply Hcu.
Qed.

Lemma copy_pages_ok cp pp buf l : forall dn x,
  0xc0000000 <= cp < 0xffc00000 -> 0xc0000000 <= pp < 0xffc00000 -> 0xc0000000 <= buf < 0xffc00000 -> buf mod 2 ^ 12 = 0 ->
  trans x0 cp = Some d -> trans x0 pp = Some (cr3 x0) -> trans x0 buf = Some bf ->
  NoDup l -> (forall i, i ∈ l -> ~ dn i /\ 0 <= i < nbits (vbits PF_USER x0) /\ bit (vbits PF_USER x0) i = true /\
     exists a, trans x0 (vpage PF_USER x0 i) = Some a /\ ~ fork_writes x0 d bf (a / 2 ^ 12 * 2 ^ 12)) ->
  (forall k, dn k -> 0 <= k < nbits (vbits PF_USER x0)) -> (forall pf, (length l <= nfree (pbits pf x))%nat) -> copied x0 d bf dn x ->
  exists x', copy_pages x cp pp buf (vpage PF_USER x0 <$> l) = Done x' /\ copied x0 d bf (fun k => dn k \/ k ∈ l) x'.
Proof.
  induction l as [|i l IH]; intros dn x Hcp Hpp Hbuf Hba Tcp Tpp Tbuf Hnd Hl Hdn Hnf Hc; cbn [fmap list_fmap copy_pages].
  - exists x. split; [done|]. apply (copied_iff dn); [|done]. intros k. rewrite elem_of_nil. tauto.
  - apply NoDup_cons in Hnd as [Hil Hnd]. destruct (Hl i ltac:(left)) as (Hni & Hi & Hbit & a & Ta & Hsrc).
    destruct (copy_page_ok dn x Hc cp pp buf Hcp Hpp Hbuf Hba Tcp Tpp Tbuf i a Hi Hbit) as (x1 & -> & Hc1 & Hn1); try done.
    + intros k Hk ->. done.
    + intros pf. specialize (Hnf pf). simpl in Hnf. lia.
    + rewrite bind_done. destruct (IH (fun k => dn k \/ k = i) x1) as (x' & Hx' & Hc'); try done.
      * intros j Hj. destruct (Hl j ltac:(by right)) as (H1 & H2). split; [|done]. intros [?| ->]; done.
      * intros k [Hk| ->]; [by apply Hdn|done].
      * intros pf. specialize (Hnf pf). specialize (Hn1 pf). simpl in Hnf. lia.
      * exists x'. split; [done|]. apply (copied_iff (fun k => (dn k \/ k = i) \/ k ∈ l)); [|done]. intros k. rewrite elem_of_cons. tauto.
Qed.
End Copying.

(** Copying the body is copying the pages whose bits are set. *)
Lemma copy_body_pages x cp pp buf : vm_ok x ->
  copy_body_stack3 x cp pp buf = copy_pages x cp pp buf (vpage PF_USER x <$> marked (vbits PF_USER x)).
Proof.
  intros Hx. destruct (vo_vwf x Hx PF_USER) as [[Hlen _] _]. unfold copy_body_stack3. change (vaddr_bitmap (userprog_vaddr x)) with (vbits PF_USER x).
  rewrite decide_True by lia. rewrite take_ge by lia. rewrite copy_bytes_pages by lia. f_equal. unfold marked, nbits. rewrite Hlen.
  assert (E : filter (fun i => Z.testbit (default 0 (bits (vbits PF_USER x) !! Z.to_nat (i / 8 - 0))) (i mod 8) = true) (seqZ (8 * 0) (8 * Z.of_nat (length (bits (vbits PF_USER x))))) =
    filter (fun i => bit (vbits PF_USER x) i = true) (seqZ 0 (8 * Z.of_nat (length (bits (vbits PF_USER x)))))).
  { apply filter_ext_in. intros i _. unfold bit. by rewrite Z.sub_0_r. }
  rewrite E. apply list_fmap_ext. intros k i Hi. apply list_elem_of_lookup_2, list_elem_of_filter in Hi as [_ Hi%elem_of_seqZ].
  destruct (vpage_in x PF_USER i Hx) as [Hr _]; [unfold nbits; lia|]. unfold in_range, vpage in Hr |- *. cbn [the_vaddr] in *. rewrite u32_small; lia.
Qed.

(** ** The frames involved *)

(** A kernel page is mapped to a frame of the pool; its frame is not free, no user page
    leads to it, nor does another kernel page. *)
Lemma kernel_page_frame x q : vm_ok x -> kernel_page x q ->
  0xc0000000 <= q < 0xffc00000 /\ q mod 2 ^ 12 = 0 /\ exists g, trans x q = Some g /\ fresh_frame (phys x) (cr3 x) g /\
    (forall pf i, is_free (pbits pf x) i -> pframe pf x i <> g) /\
    (forall i, 0 <= i < nbits (pbits PF_USER x) -> pframe PF_USER x i <> g) /\
    forall w a, in_range w -> trans x w = Some a -> a / 2 ^ 12 * 2 ^ 12 = g -> w / 2 ^ 12 = q / 2 ^ 12.
Proof.
  intros Hx (i & f & -> & Hi & Ht & Hf & Hff). destruct (vpage_in x PF_KERNEL i Hx Hi) as [Hr Ha]. destruct (vo_kernel x Hx) as [K1 K2].
  destruct (frame_aligned_pool x PF_KERNEL f Hx Hf) as [_ Hfa].
  assert (Hq : pframe PF_KERNEL x f / 2 ^ 12 * 2 ^ 12 = pframe PF_KERNEL x f) by zdiv.
  split; [unfold vpage, PG_SIZE in *; lia|]. split; [done|]. exists (pframe PF_KERNEL x f). split; [done|]. split; [done|]. split; [|split].
  - intros pf j Hj E. apply (vo_unmapped x Hx pf j _ _ Hj Hr Ht). congruence.
  - intros j Hj E. by apply (pframe_inj x PF_USER j PF_KERNEL f Hx Hj Hf) in E as [? _].
  - intros w a Hw Hwa E. by apply (vo_inj x Hx PF_KERNEL f w _ a _ Hf Hw Hr Hwa Ht).
Qed.

(** What [copy_body_stack3] starts from: the parent's directory is active, the child's has
    the kernel's entries only, the pages marked in the parent's bitmap are mapped, and
    there are frames for as many pages and page tables. *)
Record body_ready (x : vm) (cp pp buf d : Z) : Prop := {
  br_ok : vm_ok x;
  br_user : user_fresh (phys x) (cr3 x) x;
  br_child : kernel_page x cp /\ trans x cp = Some d /\ kernel_dir (phys x) (cr3 x) d;
  br_buf : kernel_page x buf /\ buf <> cp;
  br_parent : 0xc0000000 <= pp < 0xffc00000 /\ trans x pp = Some (cr3 x);
  br_mapped : forall i, i ∈ marked (vbits PF_USER x) -> is_Some (trans x (vpage PF_USER x i));
  br_frames : forall pf, (length (marked (vbits PF_USER x)) <= nfree (pbits pf x))%nat
}.

Lemma body_ready_fork x cp pp buf d bf : body_ready x cp pp buf d -> trans x buf = Some bf -> fork_ready x d bf.
Proof.
  intros [Hok Hu (Hc1 & Hc2 & Hc3) (Hb1 & Hb2) Hp Hm Hn] Tb.
  destruct (kernel_page_frame x cp Hok Hc1) as (C1 & C2 & g & C3 & C4 & C5 & C6 & C7). assert (g = d) as -> by congruence.
  destruct (kernel_page_frame x buf Hok Hb1) as (B1 & B2 & h & B3 & B4 & B5 & B6 & B7). assert (h = bf) as -> by congruence.
  constructor; try done.
  - intros E. pose proof C4 as [_ Ca _ _]. assert (Ed : d / 2 ^ 12 * 2 ^ 12 = bf) by (rewrite E; zdiv).
    assert (Hcr : in_range cp) by (unfold in_range; lia). specialize (B7 cp d Hcr Hc2 Ed). apply Hb2. zdiv.
  - intros pf i Hi. split; [by apply C5|by apply B5].
Qed.

Lemma body_source x cp pp buf d bf i a : body_ready x cp pp buf d -> trans x buf = Some bf -> 0 <= i < nbits (vbits PF_USER x) -> trans x (vpage PF_USER x i) = Some a ->
  ~ fork_writes x d bf (a / 2 ^ 12 * 2 ^ 12).
Proof.
  intros [Hok Hu (Hc1 & Hc2 & Hc3) (Hb1 & Hb2) Hp Hm Hn] Tb Hi Ta.
  destruct (kernel_page_frame x cp Hok Hc1) as (C1 & C2 & g & C3 & C4 & C5 & C6 & C7). assert (g = d) as -> by congruence.
  destruct (kernel_page_frame x buf Hok Hb1) as (B1 & B2 & h & B3 & B4 & B5 & B6 & B7). assert (h = bf) as -> by congruence.
  destruct (vpage_in x PF_USER i Hok Hi) as [Hr Ha]. destruct (vo_user x Hok) as (_ & Hlt & _).
  assert (Hv : vpage PF_USER x i < 0xc0000000) by (unfold vpage, PG_SIZE in *; lia).
  intros [E|[E|(pf & j & Hj & E)]].
  - specialize (C7 _ a Hr Ta E). zdiv.
  - specialize (B7 _ a Hr Ta E). zdiv.
  - by apply (vo_unmapped x Hok pf j _ a Hj Hr Ta).
Qed.

Lemma copy_body_ok x cp pp buf d bf : body_ready x cp pp buf d -> trans x buf = Some bf ->
  exists x', copy_body_stack3 x cp pp buf = Done x' /\ copied x d bf (fun i => i ∈ marked (vbits PF_USER x)) x'.
Proof.
  intros Hb Tb. pose proof (body_ready_fork x cp pp buf d bf Hb Tb) as Hfr. pose proof Hb as [Hok Hu (Hc1 & Hc2 & Hc3) (Hb1 & Hb2) [Hp1 Hp2] Hm Hn].
  destruct (kernel_page_frame x cp Hok Hc1) as (C1 & _). destruct (kernel_page_frame x buf Hok Hb1) as (B1 & B2 & _).
  rewrite copy_body_pages by done.
  destruct (copy_pages_ok x d bf Hfr cp pp buf (marked (vbits PF_USER x)) (fun _ => False) x) as (x' & Hx' & Hc'); try done.
  - apply NoDup_filter, NoDup_seqZ.
  - intros i Hi. pose proof (Hm i Hi) as [a Ta]. apply list_elem_of_filter in Hi as [Hbit Hi%elem_of_seqZ]. split; [by intros []|]. split; [lia|]. split; [done|].
    exists a. split; [done|]. by eapply body_source.
  - by apply copied_start.
  - exists x'. split; [done|]. eapply copied_iff; [|exact Hc']. intros k. simpl. tauto.
Qed.

(** ** Properties *)

(** C35. A forked process has a copy of its parent's memory: from a state where the pages
    marked in the parent's bitmap are mapped and there are frames for them,
    [copy_body_stack3] ends, with the parent's directory active again. The parent
    translates every address as before, and its pages hold what they held. In the child's
    space every marked page is mapped, to a frame of the user pool that was free, and holds
    word by word what the parent's page holds; no other user page is mapped; the kernel's
    half is shared; and the invariant of the allocator holds in both spaces. *)
Theorem copy_body_stack3_copies x cp pp buf d :
  body_ready x cp pp buf d ->
  exists x', copy_body_stack3 x cp pp buf = Done x' /\ cr3 x' = cr3 x /\ vm_ok x' /\ vm_ok (with_cr3 d x') /\
    (forall w, in_range w -> trans x' w = trans x w) /\
    (forall w, 0xc0000000 <= w < 0xffc00000 -> trans (with_cr3 d x') w = trans x w) /\
    (forall w, 2 ^ 22 <= w < 0xc0000000 -> (forall i, i ∈ marked (vbits PF_USER x) -> w / 2 ^ 12 <> vpage PF_USER x i / 2 ^ 12) -> trans (with_cr3 d x') w = None) /\
    forall i, i ∈ marked (vbits PF_USER x) -> exists a f, trans x (vpage PF_USER x i) = Some a /\ is_free (pbits PF_USER x) f /\
      trans (with_cr3 d x') (vpage PF_USER x i) = Some (pframe PF_USER x f) /\
      forall o, 0 <= o < 1024 -> pread (phys x') (a + 4 * o) = pread (phys x) (a + 4 * o) /\ pread (phys x') (pframe PF_USER x f + 4 * o) = pread (phys x) (a + 4 * o).
Proof.
  intros Hb. pose proof (br_ok _ _ _ _ _ Hb) as Hok. destruct (kernel_page_frame x buf Hok (proj1 (br_buf _ _ _ _ _ Hb))) as (_ & _ & bf & Tb & _).
  pose proof (body_ready_fork x cp pp buf d bf Hb Tb) as Hfr. destruct (copy_body_ok x cp pp buf d bf Hb Tb) as (x' & Hx' & Hc).
  exists x'. split; [done|]. split; [apply (cv_cr3 _ _ _ _ _ Hc)|]. split; [apply (cv_ok _ _ _ _ _ Hc)|]. split; [apply (cv_child _ _ _ _ _ Hc)|].
  assert (Hpar : forall w, in_range w -> trans x' w = trans x w) by (intros w Hw; eapply parent_trans; [exact Hfr|exact Hc|unfold in_range in Hw; lia]).
  split; [exact Hpar|]. split; [|split; [exact (cv_empty _ _ _ _ _ Hc)|]].
  - intros w Hw. rewrite (child_trans x d bf Hfr _ x' Hc w Hw). apply Hpar. unfold in_range. lia.
  - intros i Hi. destruct (br_mapped _ _ _ _ _ Hb i Hi) as [a Ta]. pose proof Hi as [_ Hir%elem_of_seqZ]%list_elem_of_filter.
    destruct (cv_pages _ _ _ _ _ Hc i a Hi ltac:(lia) Ta) as (f & Hf & _ & Ht & Hcont). exists a, f. split_and!; try done. intros o Ho. split; [|by apply Hcont].
    apply (cv_mem _ _ _ _ _ Hc). destruct (vpage_in x PF_USER i Hok ltac:(lia)) as [Hr Ha]. destruct (trans_pte x _ a Hok Hr Ta) as (_ & _ & Ea).
    pose proof (frame_aligned (phys x) (cr3 x) (pte_addr (phys x) (cr3 x) (vpage PF_USER x i)) (vo_tables x Hok)) as [_ Hfa]. unfold pte_at in Ea.
    assert (E : (a + 4 * o) / 2 ^ 12 * 2 ^ 12 = a / 2 ^ 12 * 2 ^ 12) by zdiv. rewrite E. eapply body_source; done || lia.
Qed.

(** ** Witness

    A process with two pages, made on the sample memory: its directory, the pages, a buffer
    and a directory for the child. *)
Definition got {A} (o : outcome A) (a : A) : A := match o with Done r => r | _ => a end.
Definition sample_dir : vm := (got (create_page_dir sample_vm) (0, sample_vm)).2.
Definition sample_space : vm := got (page_dir_activate sample_dir 0xc0100000) sample_dir.
Definition sample_proc : vm := (got (malloc_page sample_space PF_USER 2) (0, sample_space)).2.
Definition sample_buf : vm := (got (get_kernel_pages sample_proc 1) (0, sample_proc)).2.
Definition sample_fork : vm := (got (create_page_dir sample_buf) (0, sample_buf)).2.

Lemma forallb_seqZ (f : Z -> bool) a n : forallb f (seqZ a n) = true -> forall i, a <= i < a + n -> f i = true.
Proof. intros Hf i Hi. rewrite forallb_forall in Hf. apply Hf. apply list_elem_of_In, elem_of_seqZ. lia. Qed.

Definition fresh_b (m : gmap Z Z) (dir f : Z) : bool :=
  (0 <=? f) && (f <? 2 ^ 32) && (f mod 2 ^ 12 =? 0) && negb (f =? dir) &&
  forallb (fun i => negb (present (pread m (dir + 4 * i))) || negb (frame_of (pread m (dir + 4 * i)) =? f)) (seqZ 1 1022).

Lemma fresh_b_ok m dir f : fresh_b m dir f = true -> fresh_frame m dir f.
Proof.
  unfold fresh_b. intros H. repeat (apply andb_true_iff in H as [H ?]). zbool; try done. constructor; try done. intros i Hi Hp E.
  eapply (forallb_seqZ _ 1 1022) with (i := i) in H0; [|lia]. rewrite Hp, E, Z.eqb_refl in H0. done.
Qed.

Lemma sample_space_ok : vm_ok sample_space.
Proof.
  destruct (create_page_dir_ok sample_vm (ho_pages sample_heap sample_heap_ok)) as (p & x' & H1 & H2 & H3).
  assert (E : sample_dir = x') by (unfold sample_dir; by rewrite H1).
  assert (Hp : (got (create_page_dir sample_vm) (0, sample_vm)).1 = 0xc0100000) by (vm_compute; reflexivity). rewrite H1 in Hp. simpl in Hp. subst p.
  destruct H3 as (f & Hf & Hb & Hr & Ha & Hpk & Ht & Hff & Ho & Hkd); [done|]. pose proof (ks_ok _ _ H2) as (Hx' & _).
  assert (Es : sample_space = with_cr3 (pframe PF_KERNEL sample_vm f) x').
  { unfold sample_space. rewrite E. unfold page_dir_activate. cbn [Z.eqb negb]. by rewrite (addr_v2p_spec x' _ _ Hx' Hr Ht). }
  rewrite Es. apply (fun Hnf => proj1 (kernel_dir_space x' _ Hx' Hff Hnf Hkd)). intros pf i Hi E'. rewrite (ks_pframe _ _ H2) in E'.
  apply (pframe_inj sample_vm pf i PF_KERNEL f sample_vm_ok) in E' as [-> ->]; [|rewrite <- (proj1 (proj2 (ks_pbits _ _ H2 pf))); apply Hi|apply Hf].
  destruct Hi as [_ Hi]. congruence.
Qed.

Lemma sample_proc_ok : kernel_ok sample_proc.
Proof.
  destruct (malloc_page_spec sample_space PF_USER 2 sample_space_ok) as (v & x' & H1 & H2 & _); [lia|intros i _; right; split; [done|vm_compute; lia]|].
  assert (E : sample_proc = x') by (unfold sample_proc; by rewrite H1). split; [by rewrite E|]. split; [|vm_compute; split; discriminate].
  intros j Hj. change (nbits (vbits PF_KERNEL sample_proc)) with 8 in Hj. revert j Hj.
  apply (forallb_seqZ (fun j => present (pde_at (phys sample_proc) (cr3 sample_proc) (vpage PF_KERNEL sample_proc j))) 0 8). vm_compute. reflexivity.
Qed.

Lemma sample_fork_ok : vm_ok sample_fork.
Proof.
  destruct (get_kernel_pages_ok sample_proc 1 sample_proc_ok) as (p & x' & H1 & H2 & _); [lia|].
  assert (E : sample_buf = x') by (unfold sample_buf; by rewrite H1).
  destruct (create_page_dir_ok sample_buf) as (q & y & H3 & H4 & _); [rewrite E; apply (ks_ok _ _ H2)|].
  assert (E2 : sample_fork = y) by (unfold sample_fork; by rewrite H3). rewrite E2. apply (ks_ok _ _ H4).
Qed.

Lemma sample_body_ready : body_ready sample_fork 0xc0102000 0xc0100000 0xc0101000 0x203000.
Proof.
  assert (Hm : marked (vbits PF_USER sample_fork) = [0; 1]) by (vm_compute; reflexivity).
  constructor.
  - exact sample_fork_ok.
  - intros i Hi. apply fresh_b_ok. change (nbits (pbits PF_USER sample_fork)) with 8 in Hi. revert i Hi.
    apply (forallb_seqZ (fun i => fresh_b (phys sample_fork) (cr3 sample_fork) (pframe PF_USER sample_fork i)) 0 8). vm_compute. reflexivity.
  - split; [|split; [vm_compute; reflexivity|]].
    + exists 2, 3. split; [vm_compute; reflexivity|]. split; [vm_compute; split; [discriminate|reflexivity]|]. split; [vm_compute; reflexivity|].
      split; [vm_compute; split; [discriminate|reflexivity]|]. apply fresh_b_ok. vm_compute. reflexivity.
    + constructor; [| |vm_compute; reflexivity]; intros j Hj; apply Z.eqb_eq; revert j Hj.
      * apply (forallb_seqZ (fun j => pread (phys sample_fork) (0x203000 + 4 * j) =? 0) 0 768). vm_compute. reflexivity.
      * apply (forallb_seqZ (fun j => pread (phys sample_fork) (0x203000 + 4 * j) =? pread (phys sample_fork) (cr3 sample_fork + 4 * j)) 768 255). vm_compute. reflexivity.
  - split; [|done]. exists 1, 2. split; [vm_compute; reflexivity|]. split; [vm_compute; split; [discriminate|reflexivity]|]. split; [vm_compute; reflexivity|].
      split; [vm_compute; split; [discriminate|reflexivity]|]. apply fresh_b_ok. vm_compute. reflexivity.
  - split; [lia|vm_compute; reflexivity].
  - rewrite Hm. intros i [->|[->|[]%elem_of_nil]%elem_of_cons]%elem_of_cons; vm_compute; eauto.
  - rewrite Hm. intros []; vm_compute; lia.
Qed.

Lemma copy_body_stack3_copies_witness :
  exists x' f, copy_body_stack3 sample_fork 0xc0102000 0xc0100000 0xc0101000 = Done x' /\ vm_ok (with_cr3 0x203000 x') /\
    trans (with_cr3 0x203000 x') 0x8048000 = Some f /\ forall o, 0 <= o < 1024 -> pread (phys x') (f + 4 * o) = pread (phys sample_fork) (0x208000 + 4 * o).
Proof.
  destruct (copy_body_stack3_copies sample_fork 0xc0102000 0xc0100000 0xc0101000 0x203000) as (x' & H1 & _ & _ & H2 & _ & _ & _ & H3).
  - exact sample_body_ready.
  - destruct (H3 0) as (a & f & Ha & _ & Hf & Hc).
    + assert (Hm : marked (vbits PF_USER sample_fork) = [0; 1]) by (vm_compute; reflexivity). rewrite Hm. left.
    + assert (Ha' : trans sample_fork (vpage PF_USER sample_fork 0) = Some 0x208000) by (vm_compute; reflexivity). rewrite Ha' in Ha. injection Ha as <-.
      exists x', (pframe PF_USER sample_fork f). split; [exact H1|]. split; [exact H2|]. split; [exact Hf|]. intros o Ho. apply (Hc o Ho).
Defined.
