(* ===== verification/Process.v ===== *)
(** * Processes (userprog/process.c, userprog/fork.c, userprog/exec.c)

    Starting a process, forking one and replacing one by a program from disk. A user
    process has a virtual pool and block descriptors of its own, which are results here;
    its registers lie in an [intr_stack] on its kernel stack. *)
From stdpp Require Import base numbers list option tactics gmap fin_maps.
From Stdlib Require Import ZArith Lia.
From S2P Require Import Prelude Bitmap Cpu Sched Sync Ioqueue Paging PageAlloc Heap AddrSpace Ide Iface Inode File FileIo Dir Path Calls Io WaitExit Fork.
Import Intr.

(** The registers that [intr_exit] restores. *)
Record intr_stack := mk_intr {
  vec_no : Z; r_edi : Z; r_esi : Z; r_ebp : Z; esp_dummy : Z; r_ebx : Z; r_edx : Z; r_ecx : Z; r_eax : Z;
  r_gs : Z; r_fs : Z; r_es : Z; r_ds : Z; err_code : Z; r_eip : Z; r_cs : Z; r_eflags : Z; r_esp : Z; r_ss : Z
}.

Definition SELECTOR_U_CODE : Z := Z.shiftl 5 3 + Z.shiftl 0 2 + 3.
Definition SELECTOR_U_DATA : Z := Z.shiftl 6 3 + Z.shiftl 0 2 + 3.
Definition EFLAGS_MBS : Z := Z.shiftl 1 1.
Definition EFLAGS_IF_1 : Z := Z.shiftl 1 9.
Definition EFLAGS_IOPL_0 : Z := Z.shiftl 0 12.
Definition default_prio : Z := 31.

Definition set_pgdir (d : Z) (t : task_struct) : task_struct :=
  mk_task (self_kstack t) (pid t) (Sched.status t) (priority t) (name t) (ticks t) (elapsed_ticks t) d
    (Sched.fd_table t) (Sched.cwd_inode_nr t) (parent_pid t) (exit_status t) (stack_magic t) (kthread_stack t).
Definition set_name (n : list Z) (t : task_struct) : task_struct :=
  mk_task (self_kstack t) (pid t) (Sched.status t) (priority t) n (ticks t) (elapsed_ticks t) (pgdir t)
    (Sched.fd_table t) (Sched.cwd_inode_nr t) (parent_pid t) (exit_status t) (stack_magic t) (kthread_stack t).

(** ** Starting a process *)

(** [old] is what the stack holds before; the result is what [intr_exit] pops. The stack
    pointer moves by [uint32_t*] arithmetic. *)
Definition start_process (s : sched) (x : vm) (filename_ : Z) (old : intr_stack) : outcome (intr_stack * sched * vm) :=
  let function := filename_ in
  s ← upd_task (cur s) (fun p => set_kstack (u32 (self_kstack p + 4 * 32)) (kthread_stack p) p) s;
  r ← get_a_page x PF_USER USER_STACK3_VADDR;
  Done (mk_intr (vec_no old) 0 0 0 0 0 0 0 0 0 SELECTOR_U_DATA SELECTOR_U_DATA SELECTOR_U_DATA (err_code old)
          function SELECTOR_U_CODE (Z.lor (Z.lor EFLAGS_IOPL_0 EFLAGS_MBS) EFLAGS_IF_1) (u32 (r.1 + PG_SIZE)) SELECTOR_U_DATA, s, r.2).

(** The PCB, the virtual pool with the address of its bitmap, and the block descriptors
    of the new process. [kernel_thread] and [start] are the addresses of the two functions. *)
Definition process_execute (kernel_thread start : Z) (s : sched) (x : vm) (filename : Z) (nm : list Z)
    : outcome (Z * (Z * virtual_addr) * list mem_block_desc * sched * vm) :=
  g ← get_kernel_pages x 1;
  let '(thread, x) := g in
  s ← init_thread s thread nm default_prio;
  b ← create_user_vaddr_bitmap x;
  let '(va, x) := b in
  s ← thread_create kernel_thread s thread start filename;
  d ← create_page_dir x;
  s ← upd_task thread (set_pgdir d.1) s;
  let u_block_desc := block_desc_init in
  let '(old_status, fl) := intr_disable (eflags s) in
  let s := with_flags fl s in
  ASSERT (negb (in_list thread (Sched.ready s)));;
  let s := with_ready (fun q => q ++ [thread]) s in
  ASSERT (negb (in_list thread (all s)));;
  let s := with_all (fun q => q ++ [thread]) s in
  Done (thread, va, u_block_desc, with_flags (snd (intr_set_status old_status (eflags s))) s, d.2).

Section Processes.
Context {D : Type} `{BlockDev D}.
Abbreviation mach := (io (D := D) (P := vm)) (only parsing).

Definition the_vm (x : mach) : vm := pages (mem (io_fs x)).
Definition with_vm (v : vm) (x : mach) : mach := with_io_fs (with_mem (with_pages v (mem (io_fs x))) (io_fs x)) x.
Definition with_sched (s : sched) (x : mach) : mach := mk_io (io_fs x) s (pipes x) (kbd_buf x) (screen x).

(** ** Forking *)

(** The copy of the PCB. *)
Definition child_pcb (p : task_struct) (child_pid : Z) : task_struct :=
  mk_task (self_kstack p) child_pid TASK_READY (priority p) (name p) (priority p) 0 (pgdir p)
    (Sched.fd_table p) (Sched.cwd_inode_nr p) (i16 (pid p)) (exit_status p) (stack_magic p) (kthread_stack p).

(** The address of the bitmap of the child's virtual pool, which is a copy of the
    parent's; [None] for -1. *)
Definition copy_pcb_vaddrbitmap_stack0 (x : mach) (child_thread : Z) : outcome (option Z * mach) :=
  p ← task_at (io_sched x) (cur (io_sched x));
  r ← allocate_pid (io_sched x);
  let x := with_sched (with_threads (<[child_thread := child_pcb p r.1]>) r.2) x in
  let bitmap_pg_cnt := DIV_ROUND_UP ((0xc0000000 - USER_VADDR_START) / PG_SIZE / 8) PG_SIZE in
  g ← get_kernel_pages (the_vm x) bitmap_pg_cnt;
  let x := with_vm g.2 x in
  if g.1 =? 0 then Done (None, x) else Done (Some g.1, x).

(** The frame that [switch_to] pops lies under the [intr_stack] at the end of the page. *)
Definition build_child_stack (child_thread intr_exit : Z) (p : task_struct) : task_struct :=
  set_kstack (u32 (child_thread + PG_SIZE - 76 - 20)) (Some (mk_thread_stack 0 0 0 0 intr_exit 0 0)) p.
Definition child_registers (r : intr_stack) : intr_stack :=
  mk_intr (vec_no r) (r_edi r) (r_esi r) (r_ebp r) (esp_dummy r) (r_ebx r) (r_edx r) (r_ecx r) 0
    (r_gs r) (r_fs r) (r_es r) (r_ds r) (err_code r) (r_eip r) (r_cs r) (r_eflags r) (r_esp r) (r_ss r).

Fixpoint update_inode_open_cnts (x : mach) (local_fd : Z) (n : nat) : outcome mach :=
  match n with
  | O => Done x
  | S n =>
      global_fd ← aget (Inode.fd_table (io_fs x)) local_fd;
      ASSERT (global_fd <? MAX_FILE_OPEN);;
      x ← (if negb (global_fd =? -1) then
             b ← is_pipe (io_fs x) local_fd;
             f ← aget (file_table (io_fs x)) global_fd;
             if b : bool then set_file global_fd (mk_file (u32 (fd_pos f + 1)) (fd_flag f) (fd_inode f)) x
             else i ← inode_at (io_fs x) (fd_inode f);
                  Done (with_io_fs (set_inode (fd_inode f) (set_open_cnts (u32 (i_open_cnts i + 1)) i) (io_fs x)) x)
           else Done x);
      update_inode_open_cnts x (local_fd + 1) n
  end.

(** The bitmap's address, or [None] for -1. *)
Definition copy_process (x : mach) (child_thread intr_exit : Z) : outcome (option Z * mach) :=
  g ← get_kernel_pages (the_vm x) 1;
  let '(buf_page, v) := g in
  let x := with_vm v x in
  if buf_page =? 0 then Done (None, x) else
  r ← copy_pcb_vaddrbitmap_stack0 x child_thread;
  let '(btmp, x) := r in
  match btmp with
  | None => Done (None, x)
  | Some vaddr_btmp =>
      d ← create_page_dir (the_vm x);
      let x := with_vm d.2 x in
      s ← upd_task child_thread (set_pgdir d.1) (io_sched x);
      let x := with_sched s x in
      if d.1 =? 0 then Done (None, x) else
      p ← task_at (io_sched x) (cur (io_sched x));
      v ← copy_body_stack3 (the_vm x) d.1 (pgdir p) buf_page;
      let x := with_vm v x in
      s ← upd_task child_thread (build_child_stack child_thread intr_exit) (io_sched x);
      x ← update_inode_open_cnts (with_sched s x) 3 (Z.to_nat (Sched.MAX_FILES_OPEN_PER_PROC - 3));
      v ← mfree_page (the_vm x) PF_KERNEL buf_page 1;
      Done (Some vaddr_btmp, with_vm v x)
  end.

(** The pid, [pid_t] being [uint16_t], and the child: its PCB, its virtual pool with the
    address of the bitmap, its block descriptors and its registers. *)
Definition sys_fork (x : mach) (intr_exit : Z) (regs : intr_stack)
    : outcome (Z * option (Z * (Z * virtual_addr) * list mem_block_desc * intr_stack) * mach) :=
  g ← get_kernel_pages (the_vm x) 1;
  let '(child_thread, v) := g in
  let x := with_vm v x in
  if child_thread =? 0 then Done (u16 (-1), None, x) else
  p ← task_at (io_sched x) (cur (io_sched x));
  ASSERT (bool_decide (intr_get_status (eflags (io_sched x)) = INTR_OFF) && negb (pgdir p =? 0));;
  let va := userprog_vaddr (the_vm x) in
  r ← copy_process x child_thread intr_exit;
  let '(btmp, x) := r in
  match btmp with
  | None => Done (u16 (-1), None, x)
  | Some vaddr_btmp =>
      let s := io_sched x in
      ASSERT (negb (in_list child_thread (Sched.ready s)));;
      let s := with_ready (fun q => q ++ [child_thread]) s in
      ASSERT (negb (in_list child_thread (all s)));;
      let s := with_all (fun q => q ++ [child_thread]) s in
      c ← task_at s child_thread;
      Done (pid c, Some (child_thread, (vaddr_btmp, va), block_desc_init, child_registers regs), with_sched s x)
  end.
End Processes.
