(* ===== verification/Exec.v ===== *)
(** * Running a program from disk (userprog/exec.c)

    [load] reads an ELF header and the program headers, maps the pages of the loadable
    segments and reads the segments into them; [sys_execv] lets the process continue at
    the entry point. User memory is addressed in bytes through the page tables. *)
From stdpp Require Import base numbers list option tactics gmap fin_maps.
From Stdlib Require Import ZArith Lia.
From S2P Require Import Prelude Bitmap Cpu Sched Sync Ioqueue Paging PageAlloc Heap AddrSpace Ide Iface Inode File FileIo Dir Path Calls Io WaitExit Fork Process.

(** ** Bytes in memory *)
Definition get_byte (w k : Z) : Z := w / 2 ^ (8 * k) mod 256.
Definition set_byte (w k b : Z) : Z := w + (b - get_byte w k) * 2 ^ (8 * k).

Definition vstore_byte (x : vm) (v b : Z) : outcome vm :=
  match translate (phys x) (cr3 x) v with
  | Some a => Done (with_phys (<[a / 4 * 4 := set_byte (pread (phys x) (a / 4 * 4)) (a mod 4) b]> (phys x)) x)
  | None => Fault
  end.
Fixpoint vstore (x : vm) (v : Z) (bytes : list Z) : outcome vm :=
  match bytes with [] => Done x | b :: bytes => x ← vstore_byte x v b; vstore x (u32 (v + 1)) bytes end.
Definition vload_byte (x : vm) (v : Z) : option Z := a ← trans x v; Some (get_byte (pread (phys x) (a / 4 * 4)) (a mod 4)).

(** ** Headers *)
Record Elf32_Ehdr := mk_ehdr {
  e_ident : list Z; e_type : Z; e_machine : Z; e_version : Z; e_entry : Z; e_phoff : Z; e_shoff : Z; e_flags : Z;
  e_ehsize : Z; e_phentsize : Z; e_phnum : Z; e_shentsize : Z; e_shnum : Z; e_shstrndx : Z
}.
Record Elf32_Phdr := mk_phdr { p_type : Z; p_offset : Z; p_vaddr : Z; p_paddr : Z; p_filesz : Z; p_memsz : Z; p_flags : Z; p_align : Z }.

Definition EHDR_SIZE : Z := 52.
Definition PHDR_SIZE : Z := 32.
Definition PT_LOAD : Z := 1.

(** A 16-bit and a 32-bit word of a byte array. *)
Definition un2 (b : list Z) : Z := default 0 (b !! 0%nat) + 2 ^ 8 * default 0 (b !! 1%nat).
Definition half_at (b : list Z) (off : nat) : Z := un2 (take 2 (drop off b)).
Definition word_at (b : list Z) (off : nat) : Z := un4 (take 4 (drop off b)).

Definition bytes_ehdr (b : list Z) : Elf32_Ehdr :=
  mk_ehdr (take 16 b) (half_at b 16) (half_at b 18) (word_at b 20) (word_at b 24) (word_at b 28) (word_at b 32) (word_at b 36)
    (half_at b 40) (half_at b 42) (half_at b 44) (half_at b 46) (half_at b 48) (half_at b 50).
Definition bytes_phdr (b : list Z) : Elf32_Phdr :=
  mk_phdr (word_at b 0) (word_at b 4) (word_at b 8) (word_at b 12) (word_at b 16) (word_at b 20) (word_at b 24) (word_at b 28).

(** "\177ELF\1\1\1" *)
Definition elf_ident : list Z := [127; 69; 76; 70; 1; 1; 1].

Definition bad_header (h : Elf32_Ehdr) : bool :=
  negb (bool_decide (take 7 (e_ident h) = elf_ident)) || negb (e_type h =? 2) || negb (e_machine h =? 3) || negb (e_version h =? 1) ||
  (1024 <? e_phnum h) || negb (e_phentsize h =? PHDR_SIZE).

(** ** Loading *)

(** The number of pages of a segment. *)
Definition occupy_pages (filesz vaddr : Z) : Z :=
  let size_in_first_page := PG_SIZE - Z.land vaddr 0x00000fff in
  if size_in_first_page <? filesz then
    let left_size := filesz - size_in_first_page in
    u32 (DIV_ROUND_UP left_size PG_SIZE + 1)
  else 1.

(** The loop that maps them; [false] when there is no frame left. *)
Fixpoint load_pages (x : vm) (vaddr_page : Z) (n : nat) : outcome (bool * vm) :=
  match n with
  | O => Done (true, x)
  | S n =>
      pde ← vread x (pde_ptr vaddr_page);
      mapped ← (if Z.land pde 1 =? 0 then Done false else pte ← vread x (pte_ptr vaddr_page); Done (negb (Z.land pte 1 =? 0)));
      if mapped : bool then load_pages x (u32 (vaddr_page + PG_SIZE)) n else
      r ← get_a_page x PF_USER vaddr_page;
      if r.1 =? 0 then Done (false, r.2) else load_pages r.2 (u32 (vaddr_page + PG_SIZE)) n
  end.

Section Exec.
Context {D : Type} `{BlockDev D}.
Abbreviation mach := (io (D := D) (P := vm)) (only parsing).

(** [sys_read] of a file, into a buffer of the kernel: the value and the bytes. Reading a
    file does not block. *)
Definition read_file (x : mach) (fd count : Z) : outcome (Z * list Z * mach) :=
  r ← sys_read x fd count;
  let '(c, bs, x) := r in
  match c with Ret n => Done (n, bs, x) | _ => Fault end.

Definition segment_load (x : mach) (fd offset filesz vaddr : Z) : outcome (bool * mach) :=
  let vaddr_first_page := Z.land vaddr 0xfffff000 in
  r ← load_pages (the_vm x) vaddr_first_page (Z.to_nat (occupy_pages filesz vaddr));
  let x := with_vm r.2 x in
  if negb r.1 then Done (false, x) else
  l ← sys_lseek (io_fs x) fd (i32 offset) SEEK_SET;
  r ← read_file (with_io_fs l.2 x) fd filesz;
  let '(_, bs, x) := r in
  v ← vstore (the_vm x) vaddr bs;
  Done (true, with_vm v x).

(** One turn of the loop over the program headers; it leaves with the value to return. *)
Definition header_turn (fd entry phnum prog_header_size : Z) (st : mach * Z * Z) : outcome ((mach * Z * Z) + (Z * mach)) :=
  let '(x, prog_header_offset, prog_idx) := st in
  if negb (prog_idx <? phnum) then Done (inr (i32 entry, x)) else
  l ← sys_lseek (io_fs x) fd (i32 prog_header_offset) SEEK_SET;
  r ← read_file (with_io_fs l.2 x) fd prog_header_size;
  let '(n, bs, x) := r in
  if negb (n =? prog_header_size) then Done (inr (-1, x)) else
  let prog_header := bytes_phdr bs in
  r ← (if p_type prog_header =? PT_LOAD then segment_load x fd (p_offset prog_header) (p_filesz prog_header) (p_vaddr prog_header) else Done (true, x));
  let '(ok, x) := r in
  if negb ok then Done (inr (-1, x)) else
  Done (inl (x, u32 (prog_header_offset + prog_header_size), prog_idx + 1)).

(** The entry point, or -1. *)
Definition load (x : mach) (pathname : list Z) (junk : Z) (nm : list Z) : outcome (Z * mach) :=
  r ← sys_open (io_fs x) pathname O_RDONLY junk nm;
  let '(fd, s) := r in
  let x := with_io_fs s x in
  if fd =? -1 then Done (-1, x) else
  r ← read_file x fd EHDR_SIZE;
  let '(n, bs, x) := r in
  let elf_header := bytes_ehdr bs in
  r ← (if negb (n =? EHDR_SIZE) then Done (-1, x)
       else if bad_header elf_header then Done (-1, x)
       else loop (S (Z.to_nat (e_phnum elf_header))) (header_turn fd (e_entry elf_header) (e_phnum elf_header) (e_phentsize elf_header)) (x, e_phoff elf_header, 0));
  let '(ret, x) := r in
  c ← sys_close x fd;
  Done (ret, c.2).

(** The registers the process continues with, or [None] for -1. [argv] is the array, by
    its address and its entries up to the NULL; [path] is read up to TASK_NAME_LEN bytes. *)
Definition sys_execv (x : mach) (path : list Z) (argv : Z) (args : list Z) (regs : intr_stack) (junk : Z) (nm : list Z) : outcome (option intr_stack * mach) :=
  let argc := Z.of_nat (length args) in
  r ← load x path junk nm;
  let '(entry_point, x) := r in
  if entry_point =? -1 then Done (None, x) else
  s ← upd_task (cur (io_sched x)) (set_name (take 15 path)) (io_sched x);
  Done (Some (mk_intr (vec_no regs) (r_edi regs) (r_esi regs) (r_ebp regs) (esp_dummy regs) argv (r_edx regs) argc (r_eax regs)
                (r_gs regs) (r_fs regs) (r_es regs) (r_ds regs) (err_code regs) (u32 entry_point) (r_cs regs) (r_eflags regs) 0xc0000000 (r_ss regs)),
        with_sched s x).
End Exec.

(** ** The user's half of an address space *)

(** Its pages are frames of the user pool, none of which is a page table. *)
Record user_space (x : vm) : Prop := {
  us_ok : vm_ok x;
  us_proc : is_process x = true;
  us_fresh : user_fresh (phys x) (cr3 x) x;
  us_pool : forall w a, 2 ^ 22 <= w < 0xc0000000 -> trans x w = Some a -> exists i, 0 <= i < nbits (pbits PF_USER x) /\ a / 2 ^ 12 * 2 ^ 12 = pframe PF_USER x i
}.

(** Memory in frames of the user pool is the same. *)
Definition same_user (x x' : vm) : Prop := forall i a, 0 <= i < nbits (pbits PF_USER x) -> a / 2 ^ 12 * 2 ^ 12 = pframe PF_USER x i -> pread (phys x') a = pread (phys x) a.

Lemma user_page_space x x' v f : user_space x -> is_process x' = is_process x -> in_range v -> user_page x x' v f -> user_space x' /\ same_user x x'.
Proof.
  intros [Hok Hp Hf Hpl] Hproc Hv Hup. pose proof Hup as [U1 U2 U3 U4 U5 U6 U7 U8 U9 [W1 W2 W3]]. destruct (range_idx v Hv) as [Hv32 Hvi].
  assert (Hn : nbits (pbits PF_USER x') = nbits (pbits PF_USER x)) by apply U8.
  assert (Hfr : user_fresh (phys x') (cr3 x') x').
  { intros i Hi. rewrite Hn in Hi. rewrite U7, U2. destruct (Hf i Hi) as [F1 F2 F3 F4]. constructor; try done. intros j Hj Hpj E.
    destruct (W2 j) as [Ej|(_ & k & Hk & _ & Ek)]; [lia|rewrite Ej in *; by apply (F4 j)|]. rewrite Ek in E.
    by apply (pframe_inj x PF_KERNEL k PF_USER i Hok (proj1 Hk) Hi) in E as [? _]. }
  split; [constructor; [done|congruence|done|]|].
  - intros w a Hw. rewrite U5 by (unfold in_range; lia). rewrite Hn. case_decide as E.
    + intros [= <-]. exists f. split; [apply U3|]. rewrite U7. destruct (frame_aligned_pool x PF_USER f Hok (proj1 U3)). zdiv.
    + intros Ha. destruct (Hpl w a Hw Ha) as (i & Hi & Ei). exists i. by rewrite U7.
  - intros i a Hi Ha. pose proof (Hfr i ltac:(by rewrite Hn)) as [_ _ F3 F4]. rewrite U7 in F3, F4. apply W1; rewrite Ha.
    + congruence.
    + intros E. unfold pde_at in *. rewrite U2 in *. by apply (F4 (v / 2 ^ 22)).
Qed.

(** The kernel's pages are still the kernel's. *)
Definition kernel_kept (x x' : vm) : Prop := kernel_ok x -> kernel_ok x' /\ forall q, kernel_page x q -> kernel_page x' q.

Lemma kernel_kept_refl x : kernel_kept x x.
Proof. done. Qed.

Lemma kernel_kept_trans x y z : kernel_kept x y -> kernel_kept y z -> kernel_kept x z.
Proof. intros H1 H2 Hx. destruct (H1 Hx) as [Hy P1]. destruct (H2 Hy) as [Hz P2]. split; [done|]. intros q Hq. by apply P2, P1. Qed.

(** A page of the user's half may need a table, which was a free frame of the kernel. *)
Lemma user_page_kernel x x' v f : in_range v -> v < 0xc0000000 -> user_page x x' v f -> kernel_kept x x'.
Proof.
  intros Hv Hu [U1 U2 U3 U4 U5 U6 U7 U8 U9 [W1 W2 W3]] (Hx & Hp & Hf & Hk). destruct (range_idx v Hv) as [Hv32 Hvi].
  assert (Hvp : forall j, vpage PF_KERNEL x' j = vpage PF_KERNEL x j) by (intros j; unfold vpage; by rewrite U6).
  assert (Hnv : nbits (vbits PF_KERNEL x') = nbits (vbits PF_KERNEL x)) by (unfold vbits; by rewrite U6).
  assert (Hhigh : forall j, 0 <= j < nbits (vbits PF_KERNEL x) -> in_range (vpage PF_KERNEL x j) /\ 0xc0000000 <= vpage PF_KERNEL x j).
  { intros j Hj. split; [by apply vpage_in|]. destruct (vo_kernel x Hx) as [Hk0 _]. unfold vpage, PG_SIZE in *. lia. }
  split; [split; [done|split; [|by rewrite U7, Hvp]]|].
  - intros j Hj. rewrite Hnv in Hj. rewrite Hvp. destruct (Hhigh j Hj) as [Hr Hh]. destruct (range_idx _ Hr) as [_ Hi]. specialize (Hp j Hj). unfold pde_at in *. rewrite U2.
    destruct (W2 (vpage PF_KERNEL x j / 2 ^ 22)) as [->|[E _]]; [lia|done|zdiv].
  - intros q (i & g & -> & Hi & Ht & Hg & [F1 F2 F3 F4]). destruct (Hhigh i Hi) as [Hr Hh]. exists i, g. rewrite Hvp, Hnv, U7, U2.
    pose proof (U8 PF_KERNEL) as (_ & -> & _). split_and!; try done; try lia.
    + rewrite U5, decide_False by (done || zdiv). done.
    + constructor; try done. intros j Hj Hpj E. destruct (W2 j) as [Ej|(_ & k & Hk' & _ & Ek)]; [lia|rewrite Ej in *; by apply (F4 j)|].
      rewrite Ek in E. apply (vo_unmapped x Hx PF_KERNEL k (vpage PF_KERNEL x i) (pframe PF_KERNEL x g) Hk' Hr Ht). rewrite <- E.
      destruct (frame_aligned_pool x PF_KERNEL k Hx (proj1 Hk')). zdiv.
Qed.

Lemma get_a_page_fields x v r x' : get_a_page_without_opvaddrbitmap x PF_USER v = Done (r, x') -> is_process x' = is_process x.
Proof.
  unfold get_a_page_without_opvaddrbitmap. intros (p & _ & E)%bind_done_inv. destruct (_ =? _); [by injection E as _ <-|].
  apply bind_done_inv in E as (x1 & E1 & [= _ <-]). by apply page_table_add_fields in E1 as (m & q & ->).
Qed.

Lemma get_a_page_ok x i :
  user_space x -> 0 <= i < nbits (vbits PF_USER x) -> trans x (vpage PF_USER x i) = None -> (forall pf, (0 < nfree (pbits pf x))%nat) ->
  exists x', get_a_page x PF_USER (vpage PF_USER x i) = Done (vpage PF_USER x i, x') /\ user_space x' /\ same_user x x' /\
    is_Some (trans x' (vpage PF_USER x i)) /\
    (forall w, in_range w -> w / 2 ^ 12 <> vpage PF_USER x i / 2 ^ 12 -> trans x' w = trans x w) /\
    (forall j, vpage PF_USER x' j = vpage PF_USER x j) /\ nbits (vbits PF_USER x') = nbits (vbits PF_USER x) /\
    (forall pf, (nfree (pbits pf x) <= S (nfree (pbits pf x')))%nat) /\
    (forall j, pframe PF_USER x' j = pframe PF_USER x j) /\ nbits (pbits PF_USER x') = nbits (pbits PF_USER x) /\
    kernel_kept x x' /\ kernel_vaddr x' = kernel_vaddr x.
Proof.
  intros [Hok Hp Hf Hpl] Hi Hn Hnf. destruct (vpage_in x PF_USER i Hok Hi) as [Hr Ha]. destruct (vo_vwf x Hok PF_USER) as [Hwf _].
  assert (Hidx : u32 (vpage PF_USER x i - vaddr_start (userprog_vaddr x)) / PG_SIZE = i).
  { destruct (vo_user x Hok) as [Hu _]. unfold in_range, vpage, PG_SIZE in *. cbn [the_vaddr] in *. rewrite u32_small by lia. zdiv. }
  destruct (bitmap_set_spec (vbits PF_USER x) i 1 Hwf Hi) as (b' & Hset & Hwf' & Hn' & _ & Hb); [by right|].
  unfold get_a_page. rewrite Hp. cbn [andb bool_decide negb]. rewrite bool_decide_true by done. rewrite Hidx. assert_ok; [|apply Z.leb_le; lia].
  fold (vbits PF_USER x). change (vaddr_bitmap (userprog_vaddr x)) with (vbits PF_USER x). rewrite Hset, bind_done, bind_done.
  set (x1 := with_uvaddr (mk_vaddr b' (vaddr_start (userprog_vaddr x))) x).
  assert (Hg : grows (vbits PF_USER x) b').
  { split_and!; try done. intros j Hj. destruct (decide (j < 0)); [by right|]. left. rewrite Hb in Hj by lia. case_decide; done. }
  assert (Hsh := shrinks_vaddr x PF_USER b' Hok Hg). change (with_vaddr PF_USER (mk_vaddr b' (vaddr_start (the_vaddr PF_USER x))) x) with x1 in Hsh.
  assert (Hx1 := vm_ok_shrinks _ _ Hok Hsh).
  assert (Hs1 : user_space x1) by (constructor; done).
  destruct (get_user_page_ok x1 (vpage PF_USER x i)) as (f & x' & Hrun & Hup); try done.
  { intros pf j Hj E. change (vpage pf x1 j) with (vpage pf (with_vaddr PF_USER (mk_vaddr b' (vaddr_start (the_vaddr PF_USER x))) x) j) in E.
    assert (E' : vpage pf x j = vpage PF_USER x i) by (by destruct pf). assert (Hj' : 0 <= j < nbits (vbits pf x)).
    { pose proof (proj1 Hj) as Q. rewrite (proj1 (proj2 (sh_vbits _ _ Hsh pf))) in Q. exact Q. }
    apply (vpage_inj x pf j PF_USER i Hok Hj' Hi) in E' as [-> ->]. destruct Hj as [_ Hj]. change (vbits PF_USER x1) with b' in Hj. rewrite Hb, decide_True in Hj by lia. done. }
  exists x'. destruct (user_page_space x1 x' _ f Hs1 (get_a_page_fields _ _ _ _ Hrun) Hr Hup) as [Hs' Hsame]. split; [exact Hrun|].
  pose proof Hup as [U1 U2 U3 U4 U5 U6 U7 U8 U9 U10]. split; [done|]. split; [done|]. split; [rewrite U5, decide_True by done; eauto|].
  split; [intros w Hw Hne; rewrite U5, decide_False by done; done|].
  split; [intros j; unfold vpage; by rewrite U6|]. split; [unfold vbits; rewrite U6; done|]. split; [exact U9|]. split; [intros j; apply U7|]. split; [apply (U8 PF_USER)|].
  split; [|exact (U6 PF_KERNEL)]. apply (kernel_kept_trans _ x1); [by intros (? & ? & ?)|]. apply (user_page_kernel x1 x' (vpage PF_USER x i) f Hr); [|done].
  destruct (vo_user x Hok) as (_ & Hu & _). unfold vpage, PG_SIZE in *. lia.
Qed.

(** [x'] maps more pages than [x], all of them with page numbers in [P]. *)
Record extended (x x' : vm) (P : Z -> Prop) : Prop := {
  ex_ok : user_space x';
  ex_mem : same_user x x';
  ex_mono : forall w a, in_range w -> trans x w = Some a -> trans x' w = Some a;
  ex_other : forall w, in_range w -> ~ P (w / 2 ^ 12) -> trans x' w = trans x w;
  ex_vpage : forall j, vpage PF_USER x' j = vpage PF_USER x j;
  ex_vbits : nbits (vbits PF_USER x') = nbits (vbits PF_USER x);
  ex_pframe : forall j, pframe PF_USER x' j = pframe PF_USER x j;
  ex_pbits : nbits (pbits PF_USER x') = nbits (pbits PF_USER x)
}.

Lemma extended_refl x P : user_space x -> extended x x P.
Proof. by constructor. Qed.

Lemma extended_trans x y z (P Q R : Z -> Prop) : extended x y P -> extended y z Q -> (forall p, P p \/ Q p -> R p) -> extended x z R.
Proof.
  intros [A1 A2 A3 A4 A5 A6 A7 A8] [B1 B2 B3 B4 B5 B6 B7 B8] HR. constructor.
  - done.
  - intros i a Hi Ha. rewrite (B2 i a), (A2 i a); by rewrite ?A8, ?A7.
  - intros w a Hw Ha. apply B3; [done|by apply A3].
  - intros w Hw Hn. rewrite B4, A4; try done; intros Hp; apply Hn, HR; tauto.
  - intros j. by rewrite B5, A5.
  - congruence.
  - intros j. by rewrite B7, A7.
  - congruence.
Qed.

(** The test of the loop is whether the page is mapped. *)
Lemma page_mapped x v : vm_ok x -> in_range v ->
  (pde ← vread x (pde_ptr v); if Z.land pde 1 =? 0 then Done false else pte ← vread x (pte_ptr v); Done (negb (Z.land pte 1 =? 0))) = Done (bool_decide (is_Some (trans x v))).
Proof.
  intros Hx Hv. destruct (range_idx v Hv) as [Hv32 _]. rewrite vread_pde, bind_done by (done || apply (vo_tables x Hx)). rewrite land1_present. unfold trans, translate.
  destruct (present (pde_at _ _ v)) eqn:Hp; cbn [negb]; [|by rewrite bool_decide_false by (intros []%is_Some_None)].
  rewrite vread_pte, bind_done by (done || apply (vo_tables x Hx)). rewrite land1_present, negb_involutive.
  destruct (present (pte_at _ _ v)); [by rewrite bool_decide_true by eauto|by rewrite bool_decide_false by (intros []%is_Some_None)].
Qed.

Lemma load_pages_step x v n : vm_ok x -> in_range v ->
  load_pages x v (S n) = if bool_decide (is_Some (trans x v)) then load_pages x (u32 (v + PG_SIZE)) n
    else r ← get_a_page x PF_USER v; if r.1 =? 0 then Done (false, r.2) else load_pages r.2 (u32 (v + PG_SIZE)) n.
Proof.
  intros Hx Hv. cbn [load_pages]. pose proof (page_mapped x v Hx Hv) as E. apply bind_done_inv in E as (pde & -> & E). rewrite bind_done.
  destruct (Z.land pde 1 =? 0); [injection E as E; by rewrite bind_done, <- E|]. rewrite E, bind_done. done.
Qed.

Lemma load_pages_ok n : forall x i,
  user_space x -> 0 <= i -> i + Z.of_nat n <= nbits (vbits PF_USER x) -> (forall pf, (n <= nfree (pbits pf x))%nat) ->
  exists x', load_pages x (vpage PF_USER x i) n = Done (true, x') /\
    extended x x' (fun p => vpage PF_USER x i / 2 ^ 12 <= p < vpage PF_USER x i / 2 ^ 12 + Z.of_nat n) /\
    (forall k, 0 <= k < Z.of_nat n -> is_Some (trans x' (vpage PF_USER x (i + k)))) /\
    (forall pf, (nfree (pbits pf x) <= n + nfree (pbits pf x'))%nat) /\ kernel_kept x x' /\ kernel_vaddr x' = kernel_vaddr x.
Proof.
  induction n as [|n IH]; intros x i Hs Hi Hn Hf.
  - exists x. split; [done|]. split; [by apply extended_refl|]. split; [lia|]. split; [lia|]. done.
  - pose proof (us_ok x Hs) as Hok. destruct (vpage_in x PF_USER i Hok ltac:(lia)) as [Hr Ha]. rewrite load_pages_step by done.
    assert (Hnext : u32 (vpage PF_USER x i + PG_SIZE) = vpage PF_USER x (i + 1)).
    { unfold in_range, vpage, PG_SIZE in *. rewrite u32_small by lia. lia. }
    assert (Hdiv : vpage PF_USER x (i + 1) / 2 ^ 12 = vpage PF_USER x i / 2 ^ 12 + 1) by (unfold vpage, PG_SIZE in *; zdiv).
    (** the rest of the loop from [y], the page [i] mapped *)
    assert (Hrest : forall y, extended x y (fun p => p = vpage PF_USER x i / 2 ^ 12) -> is_Some (trans y (vpage PF_USER x i)) -> (forall pf, (n <= nfree (pbits pf y))%nat) ->
      (forall pf, (nfree (pbits pf x) <= 1 + nfree (pbits pf y))%nat) -> kernel_kept x y -> kernel_vaddr y = kernel_vaddr x ->
      exists x', load_pages y (u32 (vpage PF_USER x i + PG_SIZE)) n = Done (true, x') /\
        extended x x' (fun p => vpage PF_USER x i / 2 ^ 12 <= p < vpage PF_USER x i / 2 ^ 12 + Z.of_nat (S n)) /\
        (forall k, 0 <= k < Z.of_nat (S n) -> is_Some (trans x' (vpage PF_USER x (i + k)))) /\
        (forall pf, (nfree (pbits pf x) <= S n + nfree (pbits pf x'))%nat) /\ kernel_kept x x' /\ kernel_vaddr x' = kernel_vaddr x).
    { intros y Hxy [a Hy] Hfy Hcy Hky Hvy. rewrite Hnext, <- (ex_vpage _ _ _ Hxy). destruct (IH y (i + 1)) as (x' & -> & Hyx & Hk & Hc' & Hk' & Hv').
      - apply (ex_ok _ _ _ Hxy).
      - lia.
      - rewrite (ex_vbits _ _ _ Hxy). lia.
      - exact Hfy.
      - exists x'. split; [done|]. rewrite (ex_vpage _ _ _ Hxy), Hdiv in Hyx. split; [eapply extended_trans; [exact Hxy|exact Hyx|intros p; simpl; lia]|].
        split; [|split; [intros pf; specialize (Hcy pf); specialize (Hc' pf); lia|split; [by eapply kernel_kept_trans|congruence]]].
        intros k Hk0. destruct (decide (k = 0)) as [->|E]; [rewrite Z.add_0_r; exists a; by apply (ex_mono _ _ _ Hyx)|].
        specialize (Hk (k - 1) ltac:(lia)). rewrite (ex_vpage _ _ _ Hxy) in Hk. by replace (i + 1 + (k - 1)) with (i + k) in Hk by lia. }
    destruct (trans x (vpage PF_USER x i)) as [a|] eqn:Ht.
    + rewrite bool_decide_true by eauto. apply Hrest; [by apply extended_refl|rewrite Ht; eauto|intros pf; specialize (Hf pf); lia|lia|done|done].
    + rewrite bool_decide_false by (intros []%is_Some_None).
      destruct (get_a_page_ok x i Hs ltac:(lia) Ht) as (y & -> & Hy & Hm & Hsome & Hoth & Hvp & Hvb & Hnf & Hpf & Hpb & Hkk & Hkv); [intros pf; specialize (Hf pf); lia|].
      rewrite bind_done. cbn [fst snd]. rewrite (proj2 (Z.eqb_neq _ 0)) by (unfold in_range in Hr; lia). apply Hrest; [|done|intros pf; specialize (Hf pf); specialize (Hnf pf); lia|exact Hnf|done|done].
      constructor; try done. intros w b Hw Hb. destruct (decide (w / 2 ^ 12 = vpage PF_USER x i / 2 ^ 12)) as [E|E]; [|by rewrite Hoth].
      assert (Hcontra : trans x (w + (vpage PF_USER x i - w)) = Some (b + (vpage PF_USER x i - w))).
      { apply trans_offset; [exact Hb|]. replace (w + _) with (vpage PF_USER x i) by lia. congruence. }
      replace (w + _) with (vpage PF_USER x i) in Hcontra by lia. congruence.
Qed.

(** ** Storing bytes *)
Lemma set_byte_spec w k b : 0 <= w < 2 ^ 32 -> 0 <= k < 4 -> 0 <= b < 256 ->
  0 <= set_byte w k b < 2 ^ 32 /\ forall j, 0 <= j < 4 -> get_byte (set_byte w k b) j = if decide (j = k) then b else get_byte w j.
Proof.
  intros Hw Hk Hb. unfold set_byte, get_byte.
  assert (Hc : k = 0 \/ k = 1 \/ k = 2 \/ k = 3) by lia.
  split; [destruct Hc as [->|[->|[->| ->]]]; zdiv|]. intros j Hj. assert (Hd : j = 0 \/ j = 1 \/ j = 2 \/ j = 3) by lia.
  destruct Hc as [->|[->|[->| ->]]], Hd as [->|[->|[->| ->]]]; cbn [Z.mul Pos.mul]; case_decide; try done; zdiv.
Qed.

Lemma trans_low x w a : vm_ok x -> in_range w -> trans x w = Some a -> a mod 2 ^ 12 = w mod 2 ^ 12 /\ 0 <= a.
Proof.
  intros Hx Hw Ha. destruct (trans_pte x w a Hx Hw Ha) as (_ & _ & ->).
  destruct (frame_aligned (phys x) (cr3 x) (pte_addr (phys x) (cr3 x) w) (vo_tables x Hx)). fold (pte_at (phys x) (cr3 x) w) in *. zdiv.
Qed.

Definition is_user (w : Z) : Prop := 2 ^ 22 <= w < 0xc0000000.

(** A byte stored through a user address: that byte changes, and no other byte of memory. *)
Lemma vstore_byte_ok x v b :
  user_space x -> is_user v -> is_Some (trans x v) -> 0 <= b < 256 ->
  exists m, vstore_byte x v b = Done (with_phys m x) /\ user_space (with_phys m x) /\
    (forall w, in_range w -> trans (with_phys m x) w = trans x w) /\
    (forall w, in_range w -> vload_byte (with_phys m x) w = if decide (w = v) then Some b else vload_byte x w) /\ kernel_kept x (with_phys m x).
Proof.
  intros [Hok Hp Hf Hpl] Hv [a Ha] Hb. unfold vstore_byte. unfold trans in Ha. rewrite Ha. fold (trans x v) in Ha.
  assert (Hvr : in_range v) by (unfold is_user, in_range in *; lia). destruct (Hpl v a Hv Ha) as (i & Hi & Ei). destruct (trans_low x v a Hok Hvr Ha) as [Hlow H0].
  set (c := a / 4 * 4). set (m := <[c := set_byte (pread (phys x) c) (a mod 4) b]> (phys x)).
  destruct (set_byte_spec (pread (phys x) c) (a mod 4) b) as [Hsb Hgb]; [apply (t_words _ _ (vo_tables x Hok))|zdiv|done|].
  assert (Hw : words_ok m) by (intros d; unfold m; rewrite pread_insert; case_decide; [done|apply (t_words _ _ (vo_tables x Hok))]).
  assert (Hag : agree (fun g => g = pframe PF_USER x i) (phys x) m).
  { intros d Hd. unfold m. rewrite pread_insert, decide_False; [done|]. intros ->. apply Hd. rewrite <- Ei. unfold c. zdiv. }
  assert (Hno := fresh_no_table _ _ _ (Hf i Hi)). destruct (vm_ok_agree _ x m Hok Hw Hag Hno) as [Hok' Htr].
  assert (Htr' : forall w, in_range w -> trans (with_phys m x) w = trans x w) by (intros w Hw'; apply Htr; unfold in_range in Hw'; lia).
  exists m. split; [done|]. split; [|split; [done|split]].
  - constructor; try done.
    + intros j Hj. eapply agree_fresh; [apply (t_dir _ _ (vo_tables x Hok))|exact Hag|apply Hno|by apply Hf].
    + intros w d Hw'. rewrite Htr' by (unfold in_range; lia). by apply Hpl.
  - intros w Hwr. unfold vload_byte. rewrite Htr' by done. destruct (decide (w = v)) as [->|Hne].
    + rewrite Ha. cbn [mbind option_bind phys with_phys]. fold c. unfold m. rewrite pread_insert, decide_True, Hgb, decide_True; [done|done|zdiv|done].
    + destruct (trans x w) as [d|] eqn:Hd; [|done]. cbn [mbind option_bind phys with_phys]. f_equal. unfold m. rewrite pread_insert. case_decide as Hdc; [|done].
      destruct (trans_low x w d Hok Hwr Hd) as [Hlow' H0']. assert (Hpage : w / 2 ^ 12 = v / 2 ^ 12).
      { apply (vo_inj x Hok PF_USER i w v d a Hi Hwr Hvr Hd Ha); [|done]. rewrite <- Ei. unfold c in Hdc. zdiv. }
      rewrite Hgb by zdiv. rewrite decide_False, Hdc; [done|]. unfold c in Hdc. intros E. apply Hne. zdiv.
  - intros (_ & K2 & K3 & K4). assert (Hda : cr3 x mod 2 ^ 12 = 0) by apply (t_dir _ _ (vo_tables x Hok)). split; [split; [done|split; [|done]]|].
    + intros j Hj. change (nbits (vbits PF_KERNEL x)) with (nbits (vbits PF_KERNEL (with_phys m x))) in K2. rewrite <- (K2 j Hj). f_equal. unfold pde_at. cbn [phys cr3 with_phys].
      destruct (vpage_in x PF_KERNEL j Hok Hj) as [Hr _]. destruct (range_idx _ Hr) as [_ Hi']. apply (agree_dir (fun g => g = pframe PF_USER x i)); [done|apply Hno|exact Hag|]. change (vpage PF_KERNEL (with_phys m x) j) with (vpage PF_KERNEL x j). lia.
    + intros q (j & g & -> & Hj & Ht & Hg & Hfr). exists j, g. split; [done|]. split; [done|]. split; [rewrite Htr' by (by apply vpage_in); exact Ht|]. split; [done|].
      apply (agree_fresh (fun g => g = pframe PF_USER x i) (phys x)); [done|exact Hag|apply Hno|done].
Qed.

Lemma vstore_ok bytes : forall x v,
  user_space x -> 2 ^ 22 <= v -> v + Z.of_nat (length bytes) <= 0xc0000000 ->
  (forall k, 0 <= k < Z.of_nat (length bytes) -> is_Some (trans x (v + k))) -> Forall (fun b => 0 <= b < 256) bytes ->
  exists m, vstore x v bytes = Done (with_phys m x) /\ user_space (with_phys m x) /\
    (forall w, in_range w -> trans (with_phys m x) w = trans x w) /\
    (forall w, in_range w -> vload_byte (with_phys m x) w = if decide (v <= w < v + Z.of_nat (length bytes)) then bytes !! Z.to_nat (w - v) else vload_byte x w) /\
    kernel_kept x (with_phys m x).
Proof.
  induction bytes as [|b bytes IH]; intros x v Hs Hv Hend Hm Hb; cbn [vstore length] in *.
  - exists (phys x). assert (E : with_phys (phys x) x = x) by (by destruct x). rewrite E. split_and!; try done. intros w Hw. by rewrite decide_False by lia.
  - apply Forall_cons in Hb as [Hb1 Hb2]. destruct (vstore_byte_ok x v b Hs) as (m & -> & Hs1 & Ht1 & Hl1 & Hk1); [unfold is_user; lia| |done|].
    { specialize (Hm 0 ltac:(lia)). by rewrite Z.add_0_r in Hm. }
    rewrite bind_done, u32_small by lia. destruct (IH (with_phys m x) (v + 1)) as (m' & -> & Hs2 & Ht2 & Hl2 & Hk2); try done; try lia.
    { intros k Hk. rewrite Ht1 by (unfold in_range; lia). replace (v + 1 + k) with (v + (k + 1)) by lia. apply Hm. lia. }
    exists m'. split; [done|]. split; [done|]. split; [intros w Hw; transitivity (trans (with_phys m x) w); [by apply Ht2|by apply Ht1]|].
    split; [|exact (kernel_kept_trans _ _ _ Hk1 Hk2)].
    intros w Hw. transitivity (vload_byte (with_phys m' (with_phys m x)) w); [done|]. rewrite Hl2, Hl1 by done. destruct (decide (w = v)) as [->|E].
    + rewrite decide_False by lia. rewrite decide_True by lia. by rewrite Z.sub_diag.
    + destruct (decide (v + 1 <= w < v + 1 + Z.of_nat (length bytes))) as [Hin|Hin].
      * rewrite decide_True by lia. replace (Z.to_nat (w - v)) with (S (Z.to_nat (w - (v + 1)))) by lia. done.
      * by rewrite decide_False by lia.
Qed.

(** ** A segment in memory *)
Lemma extended_byte x x' P w a : user_space x -> extended x x' P -> is_user w -> trans x w = Some a -> vload_byte x' w = vload_byte x w.
Proof.
  intros Hs Hx Hw Ha. destruct (us_pool x Hs w a Hw Ha) as (i & Hi & Ei). assert (Hr : in_range w) by (unfold is_user, in_range in *; lia).
  unfold vload_byte. rewrite (ex_mono _ _ _ Hx w a Hr Ha), Ha. cbn [mbind option_bind]. do 2 f_equal. apply (ex_mem _ _ _ Hx i); [done|]. rewrite <- Ei. zdiv.
Qed.

(** The pages counted are those from the one of the first byte to the one of the last. *)
Lemma occupy_pages_eq filesz vaddr : 0 <= vaddr -> 0 < filesz -> vaddr + filesz <= 0xc0000000 ->
  occupy_pages filesz vaddr = (vaddr + filesz - 1) / 2 ^ 12 - vaddr / 2 ^ 12 + 1.
Proof.
  intros Hv Hf He. unfold occupy_pages, PG_SIZE, DIV_ROUND_UP. change 0x00000fff with (Z.ones 12). rewrite Z.land_ones by lia.
  destruct (Z.ltb_spec (4096 - vaddr mod 2 ^ 12) filesz); [|zdiv].
  rewrite (u32_small (filesz - (4096 - vaddr mod 2 ^ 12) + 4096 - 1)) by zdiv. rewrite u32_small; zdiv.
Qed.

Lemma first_page vaddr : 0 <= vaddr < 2 ^ 32 -> Z.land vaddr 0xfffff000 = vaddr / 2 ^ 12 * 2 ^ 12.
Proof. apply frame_of_div. Qed.

(** The loop over the pages of a segment maps all of them; pages that were mapped keep
    their frames. *)
Lemma segment_pages_ok x vaddr filesz :
  user_space x -> vaddr_start (userprog_vaddr x) <= vaddr -> 0 < filesz ->
  vaddr + filesz <= vpage PF_USER x (nbits (vbits PF_USER x)) ->
  (forall pf, occupy_pages filesz vaddr <= Z.of_nat (nfree (pbits pf x))) ->
  exists x1, load_pages x (Z.land vaddr 0xfffff000) (Z.to_nat (occupy_pages filesz vaddr)) = Done (true, x1) /\
    extended x x1 (fun p => vaddr / 2 ^ 12 <= p <= (vaddr + filesz - 1) / 2 ^ 12) /\
    (forall k, 0 <= k < filesz -> is_Some (trans x1 (vaddr + k))) /\
    (forall pf, Z.of_nat (nfree (pbits pf x)) <= occupy_pages filesz vaddr + Z.of_nat (nfree (pbits pf x1))) /\
    kernel_kept x x1 /\ kernel_vaddr x1 = kernel_vaddr x.
Proof.
  intros Hs Hlo Hf Hend Hnf. pose proof (us_ok x Hs) as Hok. destruct (vo_user x Hok) as (Hu1 & Hu2 & _). destruct (vo_vwf x Hok PF_USER) as [_ Hal].
  pose proof (occupy_pages_eq filesz vaddr) as Hocc. unfold vpage in *. cbn [the_vaddr] in *. set (st := vaddr_start (userprog_vaddr x)) in *. unfold PG_SIZE in *.
  specialize (Hocc ltac:(lia) Hf ltac:(lia)). set (n := occupy_pages filesz vaddr) in *.
  set (i := (vaddr / 2 ^ 12 * 2 ^ 12 - st) / 2 ^ 12). assert (Hi : vaddr / 2 ^ 12 * 2 ^ 12 = st + 4096 * i) by (unfold i; zdiv).
  assert (Hp : vpage PF_USER x i / 2 ^ 12 = vaddr / 2 ^ 12) by (unfold vpage, PG_SIZE; cbn [the_vaddr]; fold st; rewrite <- Hi; zdiv).
  rewrite first_page by lia. destruct (load_pages_ok (Z.to_nat n) x i Hs) as (x1 & H1 & H2 & H3 & H4 & H5 & H6).
  - zdiv.
  - zdiv.
  - intros pf. specialize (Hnf pf). lia.
  - unfold vpage in H1. cbn [the_vaddr] in H1. unfold PG_SIZE in H1. fold st in H1. rewrite Hi. exists x1. split; [exact H1|]. split; [|split; [|split_and!; try done]].
    + eapply extended_trans; [exact H2|by apply extended_refl, H2|]. rewrite Hp. instantiate (1 := fun _ => False). intros p [Hp'|[]]. lia.
    + intros k Hk. set (q := (vaddr + k) / 2 ^ 12 - vaddr / 2 ^ 12). destruct (H3 q) as [a Ha]; [unfold q; zdiv|].
      unfold vpage, PG_SIZE in Ha. cbn [the_vaddr] in Ha. fold st in Ha. exists (a + (vaddr + k) mod 2 ^ 12).
      replace (vaddr + k) with (st + 4096 * (i + q) + (vaddr + k) mod 2 ^ 12) at 1 by (unfold q; zdiv). apply trans_offset; [exact Ha|]. unfold q. zdiv.
    + intros pf. specialize (H4 pf). assert (0 <= n) by (rewrite Hocc; zdiv). lia.
Qed.

(** ** A process with two pages *)
Definition user_pages_b (x : vm) : bool :=
  forallb (fun i => let e := pread (phys x) (cr3 x + 4 * i) in
    if present e then forallb (fun j => let t := pread (phys x) (frame_of e + 4 * j) in
      if present t then existsb (fun k => frame_of t =? pframe PF_USER x k) (seqZ 0 (nbits (pbits PF_USER x))) else true) (seqZ 0 1024) else true) (seqZ 1 767).

Lemma user_pages_b_ok x : vm_ok x -> user_pages_b x = true ->
  forall w a, 2 ^ 22 <= w < 0xc0000000 -> trans x w = Some a -> exists i, 0 <= i < nbits (pbits PF_USER x) /\ a / 2 ^ 12 * 2 ^ 12 = pframe PF_USER x i.
Proof.
  intros Hx Hb w a Hw Ha. destruct (trans_pte x w a Hx ltac:(unfold in_range; lia) Ha) as (Hd & Hp & ->).
  apply (forallb_seqZ _ 1 767) with (i := w / 2 ^ 22) in Hb; [|zdiv]. cbv zeta in Hb. fold (pde_at (phys x) (cr3 x) w) in Hb. rewrite Hd in Hb.
  apply (forallb_seqZ _ 0 1024) with (i := (w / 2 ^ 12) mod 2 ^ 10) in Hb; [|zdiv]. fold (pte_addr (phys x) (cr3 x) w) in Hb. fold (pte_at (phys x) (cr3 x) w) in Hb. rewrite Hp in Hb.
  apply existsb_exists in Hb as (k & Hk & E%Z.eqb_eq). apply list_elem_of_In, elem_of_seqZ in Hk. exists k. split; [lia|]. rewrite <- E.
  destruct (frame_aligned (phys x) (cr3 x) (pte_addr (phys x) (cr3 x) w) (vo_tables x Hx)). fold (pte_at (phys x) (cr3 x) w) in *. zdiv.
Qed.

Lemma sample_proc_space : user_space sample_proc.
Proof.
  destruct sample_proc_ok as (Hok & _). constructor; [exact Hok|vm_compute; reflexivity| |].
  - intros i Hi. apply fresh_b_ok. change (nbits (pbits PF_USER sample_proc)) with 8 in Hi. revert i Hi.
    apply (forallb_seqZ (fun i => fresh_b (phys sample_proc) (cr3 sample_proc) (pframe PF_USER sample_proc i)) 0 8). vm_compute. reflexivity.
  - apply user_pages_b_ok; [exact Hok|]. vm_compute. reflexivity.
Qed.
