(* ===== verification/Segment.v ===== *)
(** * Loading a segment of a program (userprog/exec.c: segment_load)

    What the calls of [segment_load] make together: the pages of the segment (Exec), the
    position of the file, the bytes of the file (FileIo) and the user's memory. The buffers
    of the file system come from the heap of Heap; while they are taken and given back the
    user's half of the address space stays as it is. *)
From stdpp Require Import base numbers list option tactics gmap fin_maps.
From Stdlib Require Import ZArith Lia.
From S2P Require Import Prelude Bitmap Cpu Sched Sync Ioqueue Paging PageAlloc Heap AddrSpace Ide Iface Inode File FileIo Dir Node Stock Path Calls Io Builtin Walk PathCalls WaitExit Fork Process Exec.

(** ** The user's half while the kernel allocates *)
Record user_kept (x x' : vm) : Prop := {
  uk_space : user_space x';
  uk_mem : same_user x x';
  uk_trans : forall w, is_user w -> trans x' w = trans x w;
  uk_pframe : forall j, pframe PF_USER x' j = pframe PF_USER x j;
  uk_pbits : nbits (pbits PF_USER x') = nbits (pbits PF_USER x)
}.

Lemma user_kept_refl x : user_space x -> user_kept x x.
Proof. by constructor. Qed.

Lemma user_kept_trans x y z : user_kept x y -> user_kept y z -> user_kept x z.
Proof.
  intros [A1 A2 A3 A4 A5] [B1 B2 B3 B4 B5]. constructor; [done| | | |congruence].
  - intros i a Hi Ha. rewrite (B2 i a), (A2 i a); by rewrite ?A5, ?A4.
  - intros w Hw. by rewrite B3, A3.
  - intros j. by rewrite B4, A4.
Qed.

Lemma user_kept_byte x x' w : user_space x -> user_kept x x' -> is_user w -> vload_byte x' w = vload_byte x w.
Proof.
  intros Hs Hk Hw. unfold vload_byte. rewrite (uk_trans _ _ Hk) by done. destruct (trans x w) as [a|] eqn:Ha; [|done]. cbn [mbind option_bind].
  destruct (us_pool x Hs w a Hw Ha) as (i & Hi & Ei). do 2 f_equal. apply (uk_mem _ _ Hk i); [done|]. rewrite <- Ei. zdiv.
Qed.

(** A change of the kernel's entries in tables that exist. *)
Lemma user_kept_step x x' :
  user_space x -> vm_ok x' -> is_process x' = is_process x -> same_dir x x' -> (forall j, pframe PF_USER x' j = pframe PF_USER x j) ->
  nbits (pbits PF_USER x') = nbits (pbits PF_USER x) -> (forall w, is_user w -> trans x' w = trans x w) -> user_kept x x'.
Proof.
  intros [Hok Hp Hf Hpl] Hx' Hproc Hsd Hpf Hnp Htr. constructor; try done; [constructor; [done|congruence| |]|].
  - intros i Hi. rewrite Hnp in Hi. rewrite Hpf. apply (same_dir_fresh x); [done|by apply Hf].
  - intros w a Hw. rewrite Htr, Hnp by done. intros Ha. destruct (Hpl w a Hw Ha) as (i & Hi & Ei). exists i. by rewrite Hpf.
  - intros i a Hi Ha. destruct Hsd as (_ & _ & Hm). apply Hm. rewrite Ha. destruct (Hf i Hi) as [_ _ F3 F4]. intros [?|(j & Hj & Hpj & E)]; [done|]. by apply (F4 j).
Qed.

Lemma high_page x j w : vm_ok x -> 0 <= j -> is_user w -> ~ vpage PF_KERNEL x j <= w.
Proof. intros Hx Hj [_ Hw]. destruct (vo_kernel x Hx) as [Hk _]. unfold vpage, PG_SIZE in *. lia. Qed.

Lemma kernel_malloc_user x v x' : kernel_ok x -> user_space x -> malloc_page x PF_KERNEL 1 = Done (v, x') -> v <> 0 -> user_kept x x'.
Proof.
  intros (Hx & Hp & _) Hs E Hv. destruct (malloc_page_spec x PF_KERNEL 1 Hx ltac:(lia)) as (v' & y & E' & Hx' & Hnz & Hpf & Hnp & _ & _ & _ & _ & Hsd).
  { intros i (Hi0 & Hi1 & _). left. intros k Hk. replace (vpage PF_KERNEL x i + PG_SIZE * k) with (vpage PF_KERNEL x (i + k)) by (unfold vpage; lia). apply Hp. lia. }
  rewrite E in E'. injection E' as <- <-. destruct (Hnz Hv) as (i & -> & (Hi0 & _) & _ & _ & Htr). destruct (malloc_page_user_side x 1 _ x' E) as (_ & _ & Hproc).
  apply user_kept_step; try done; [by apply Hsd|]. intros w Hw. apply Htr; [unfold is_user, in_range in *; lia|]. pose proof (high_page x i w Hx Hi0 Hw). lia.
Qed.

Lemma unmap_pages_process n : forall x v lo hi x', unmap_pages x v n lo hi = Done x' -> is_process x' = is_process x.
Proof.
  induction n as [|n IH]; intros x v lo hi x'; cbn [unmap_pages]; [by intros [= <-]|]. intros (p & _ & E)%bind_done_inv. apply bind_done_inv in E as ([] & _ & E).
  apply bind_done_inv in E as (x1 & E1 & E). apply bind_done_inv in E as (x2 & E2 & E). apply IH in E as ->.
  unfold page_table_pte_remove in E2. apply bind_done_inv in E2 as (t & _ & E2). apply vwrite_fields in E2 as [m ->]. cbn [is_process with_phys].
  unfold pfree in E1. apply bind_done_inv in E1 as (b & _ & [= <-]). by destruct (if _ <=? _ then PF_USER else PF_KERNEL).
Qed.

Lemma mfree_page_process x v n x' : mfree_page x PF_KERNEL v n = Done x' -> is_process x' = is_process x.
Proof.
  unfold mfree_page. intros ([] & _ & E)%bind_done_inv. apply bind_done_inv in E as (p & _ & E). apply bind_done_inv in E as ([] & _ & E). apply bind_done_inv in E as (x1 & E1 & E).
  unfold vaddr_remove in E. apply bind_done_inv in E as (b & _ & [= <-]). transitivity (is_process x1); [done|]. case_match; by apply unmap_pages_process in E1.
Qed.

Lemma kernel_mfree_user x v n x' :
  kernel_ok x -> user_space x -> 0 < n -> v mod PG_SIZE = 0 -> (forall k, 0 <= k < n -> kernel_page x (v + PG_SIZE * k)) ->
  mfree_page x PF_KERNEL v n = Done x' -> user_kept x x'.
Proof.
  intros Hkx Hs Hn Hal Hpages E. pose proof Hkx as (Hx & _ & Hf & _). destruct (kernel_held x v n Hkx Hn Hal Hpages) as (i & -> & Hi & Hin & Hh).
  destruct (mfree_page_spec x PF_KERNEL i n) as (y & E' & Hx' & _ & _ & Htr & Hpf & Hnp & _ & _ & Hsd & _); [done..|]. rewrite E in E'. injection E' as <-.
  apply user_kept_step; try done; [by eapply mfree_page_process|]. intros w Hw. rewrite Htr by (unfold is_user, in_range in *; lia). rewrite decide_False; [done|].
  pose proof (high_page x i w Hx Hi Hw). lia.
Qed.

(** ** Blocks of the heap *)
Section Blocks.
Context {P : Type} `{PageCount P}.
Implicit Types h : heap (P := P).

Lemma malloc_served h size : heap_ok h -> 0 < size <= 1024 -> size < hpool_size h -> 0 < ps_free (pages h) ->
  exists p h', sys_malloc h size = Done (p, h') /\ p <> 0 /\ hpool_size h' = hpool_size h /\ ps_free (pages h) - 1 <= ps_free (pages h') /\
    (pages h' = pages h \/ exists v, v <> 0 /\ ps_malloc_page (pages h) 1 = Done (v, pages h')).
Proof.
  intros Hh Hs Hp Hf. destruct (malloc_small h size Hh Hs Hp) as (d & Hd & [(b & rest & h2 & _ & E & (ds & r & _ & ->) & Hb)|(v & pg & Em & Hc)]).
  - eexists b, _. split; [exact E|]. split; [done|]. split; [done|]. cbn. split; [lia|by left].
  - pose proof (pc_one (pages h) v pg (ho_pages h Hh) Hf Em) as Hv. rewrite decide_False in Hc by done.
    destruct Hc as (ds & h1 & b & rest & h2 & E1 & _ & _ & _ & E & (ds' & r & _ & ->) & Hb). subst h1. eexists b, _. split; [exact E|]. split; [done|]. split; [done|]. cbn.
    split; [apply (pc_malloc _ _ v _ (ho_pages h Hh)); [lia|done|done]|right; by exists v].
Qed.

Lemma free_released h p n h' : heap_ok h -> Heap.live h p n -> sys_free h p = Done h' ->
  pages h' = pages h \/ exists a k, 0 < k /\ a mod PG_SIZE = 0 /\ (forall j, 0 <= j < k -> ps_page (pages h) (a + PG_SIZE * j)) /\ ps_mfree_page (pages h) a k = Done (pages h').
Proof.
  intros Hh (a & r & Ha & Hc) E. destruct (ho_range h Hh a r Ha) as (R1 & R2 & R3 & R4). pose proof (ho_kind h Hh a r Ha) as Hk.
  assert (Hown : forall k, 0 <= k < npages r -> ps_page (pages h) (a + PG_SIZE * k)) by (intros k Hkk; by apply (ho_owned h Hh a r)).
  unfold sys_free in E. apply bind_done_inv in E as (? & _ & E). apply bind_done_inv in E as (? & _ & E). unfold arena_at in E. destruct (desc r) as [d|] eqn:Hr.
  - destruct Hc as (Hb & _), Hk as (_ & Hd & _). destruct (block_arena h a r d p Hh Ha Hr Hb) as (Eb & _ & Hn1 & _).
    rewrite Eb, Ha, bind_done, Hr, (bool_decide_false (_ = None)) in E by done. cbn [andb] in E. destruct (desc_at h d Hh Hd) as (D & Hg & _). rewrite Hg, bind_done in E.
    destruct (_ =? _).
    + apply bind_done_inv in E as (fl & _ & E). apply bind_done_inv in E as (ds & _ & E). apply bind_done_inv in E as (pg & Em & E). injection E as <-.
      right. exists a, 1. rewrite Hn1 in Hown. split_and!; [lia|done|done|exact Em].
    + apply bind_done_inv in E as (ds & _ & E). injection E as <-. by left.
  - destruct Hc as [-> _]. assert (Eb : block2arena (a + ARENA_SIZE) = a) by (apply block2arena_spec; unfold K_HEAP_START, PG_SIZE, ARENA_SIZE in *; try done; lia).
    rewrite Eb, Ha, bind_done, Hr, bool_decide_true, Hk in E by done. cbn [andb] in E. apply bind_done_inv in E as (pg & Em & E). injection E as <-.
    assert (Hnp : npages r = cnt r) by (unfold npages; by rewrite Hk). rewrite Hnp in *. right. exists a, (cnt r). done.
Qed.
End Blocks.

(** A small block taken and a block given back leave the user's half alone. *)
Lemma malloc_user (h : heap (P := vm)) size :
  heap_ok h -> user_space (pages h) -> 0 < size <= 1024 -> size < hpool_size h -> 0 < kernel_free (pages h) ->
  exists p h' n, sys_malloc h size = Done (p, h') /\ p <> 0 /\ heap_ok h' /\ user_kept (pages h) (pages h') /\ hpool_size h' = hpool_size h /\
    kernel_free (pages h) - 1 <= kernel_free (pages h') /\ Heap.live h' p n /\ forall q m, Heap.live h q m -> Heap.live h' q m /\ q <> p.
Proof.
  intros Hh Hu Hs Hp Hf. destruct (malloc_served h size Hh Hs Hp) as (p & h' & E & Hp0 & Hps & Hfr & Hpg); [exact Hf|].
  destruct (al_malloc_ok (Alloc := heap_alloc) h size Hh ltac:(lia)) as (p' & h1 & E' & Hok & _ & Hl). cbn [al_malloc al_ok al_live heap_alloc] in *. rewrite E in E'. injection E' as <- <-.
  destruct (Hl Hp0) as (n & _ & Hl1 & Hl2). exists p, h', n. split_and!; try done; [apply Hok; by left| |apply Hl1; by right|].
  - destruct Hpg as [->|(v & Hv & Em)]; [by apply user_kept_refl|]. by apply (kernel_malloc_user _ v); [exact (ho_pages h Hh)|..].
  - intros q m Hq. split; [apply Hl1; by left|by eapply Hl2].
Qed.

Lemma free_user (h : heap (P := vm)) p n h' : heap_ok h -> user_space (pages h) -> Heap.live h p n -> sys_free h p = Done h' ->
  heap_ok h' /\ user_kept (pages h) (pages h') /\ forall q m, Heap.live h q m -> q <> p -> Heap.live h' q m.
Proof.
  intros Hh Hu Hl E. destruct (sys_free_spec h p n Hh Hl) as (h1 & E' & Hok & Hl1). rewrite E in E'. injection E' as <-. split; [done|]. split; [|intros q m Hq Hne; by apply Hl1].
  destruct (free_released h p n h' Hh Hl E) as [->|(a & k & Hk & Ha & Hpg & Em)]; [by apply user_kept_refl|]. by apply (kernel_mfree_user _ a k); [exact (ho_pages h Hh)|..].
Qed.

(** ** Reading the file *)
Section Read.
Context {D : Type} `{BlockDev D}.
Abbreviation mach := (io (D := D) (P := vm)) (only parsing).
Abbreviation fsys := (fs (D := D) (A := heap (P := vm))) (only parsing).

(** [file_read] asks for its two buffers and gives them back. *)
Lemma file_read_mem (s : fsys) g count n bs s' : file_read s g count = Done (n, bs, s') ->
  mem s' = mem s \/ exists b1 m1 b2 m2, sys_malloc (mem s) 512 = Done (b1, m1) /\ sys_malloc m1 560 = Done (b2, m2) /\
    ((b2 = 0 /\ mem s' = m2) \/ exists m3, sys_free m2 b2 = Done m3 /\ sys_free m3 b1 = Done (mem s')).
Proof.
  unfold file_read. intros (f & _ & E)%bind_done_inv. apply bind_done_inv in E as (i & _ & E). cbv zeta in E. destruct (_ && _); [injection E as _ _ <-; by left|]. right.
  apply bind_done_inv in E as ([b1 m1] & E1 & E). apply bind_done_inv in E as ([b2 m2] & E2 & E). cbn [fst snd] in E2, E. exists b1, m1, b2, m2. split; [exact E1|]. split; [exact E2|].
  destruct (Z.eqb_spec b2 0) as [->|]; [injection E as _ _ <-; by left|]. right. apply bind_done_inv in E as ([] & _ & E). apply bind_done_inv in E as ([d all] & _ & E).
  apply bind_done_inv in E as ([[d1 pos] out] & _ & E). apply bind_done_inv in E as (l & _ & E). apply bind_done_inv in E as (m3 & F1 & E). apply bind_done_inv in E as (m4 & F2 & E).
  injection E as _ _ <-. by exists m3.
Qed.

Lemma file_read_user (s : fsys) g count n bs s' :
  heap_ok (mem s) -> user_space (pages (mem s)) -> 1024 < hpool_size (mem s) -> 2 <= kernel_free (pages (mem s)) ->
  can_alloc (mem s) [512; 560] /\ (file_read s g count = Done (n, bs, s') -> user_kept (pages (mem s)) (pages (mem s'))).
Proof.
  intros Hh Hu Hp Hf. destruct (malloc_user (mem s) 512 Hh Hu ltac:(lia) ltac:(lia) ltac:(lia)) as (b1 & m1 & n1 & E1 & B1 & H1 & K1 & P1 & F1 & L1 & O1).
  destruct (malloc_user m1 560 H1 (uk_space _ _ K1) ltac:(lia) ltac:(lia) ltac:(lia)) as (b2 & m2 & n2 & E2 & B2 & H2 & K2 & _ & _ & L2 & O2). split.
  - exists b1, m1. split; [exact E1|]. split; [done|]. exists b2, m2. split; [exact E2|]. done.
  - intros [->|(b1' & m1' & b2' & m2' & E1' & E2' & Hm)]%file_read_mem; [by apply user_kept_refl|]. rewrite E1 in E1'. injection E1' as <- <-. rewrite E2 in E2'. injection E2' as <- <-.
    destruct Hm as [[? _]|(m3 & G1 & G2)]; [done|]. destruct (free_user m2 b2 n2 m3 H2 (uk_space _ _ K2) L2 G1) as (H3 & K3 & O3). destruct (O2 _ _ L1) as [L1' Hne].
    destruct (free_user m3 b1 n1 (mem s') H3 (uk_space _ _ K3) (O3 _ _ L1' Hne) G2) as (_ & K4 & _).
    exact (user_kept_trans _ _ _ K1 (user_kept_trans _ _ _ K2 (user_kept_trans _ _ _ K3 K4))).
Qed.

(** An open file: descriptor [fd] leads to entry [g] with a file, not a pipe. *)
Record open_file (s : fsys) (fd g : Z) (f : file) (i : inode) : Prop := {
  of_fd : 3 <= fd;
  of_global : fd_local2global s fd = Done g;
  of_range : 0 <= g;
  of_entry : file_table s !! Z.to_nat g = Some f;
  of_flag : fd_flag f <> PIPE_FLAG;
  of_inode : inodes s !! fd_inode f = Some i;
  of_ok : file_ok s i
}.

Lemma open_file_pages (s : fsys) h fd g f i : open_file s fd g f i -> open_file (with_mem h s) fd g f i.
Proof.
  intros [F1 F2 F3 F4 F5 F6 F7]. constructor; try done.
  exact (proj1 (file_ok_ext s (with_mem h s) i i F7 (fun k => eq_refl) (same_part_refl _) (fk_wf _ _ F7) eq_refl)).
Qed.

(** The position is set, and the bytes from there on are read. *)
Lemma seek_read_ok (x : mach) fd g f i offset count :
  fs_ok (io_fs x) -> open_file (io_fs x) fd g f i -> user_space (the_vm x) -> 1024 < hpool_size (mem (io_fs x)) -> 2 <= kernel_free (the_vm x) ->
  0 <= offset < i_size i -> 0 < count -> offset + count < 2 ^ 32 ->
  let size := Z.min count (i_size i - offset) in (offset + size) / 512 < 139 ->
  exists l s', sys_lseek (io_fs x) fd (i32 offset) SEEK_SET = Done l /\
    read_file (with_io_fs l.2 x) fd count = Done (size, contents (dsk (io_fs x)) i offset size, with_io_fs s' x) /\
    fs_ok s' /\ user_kept (the_vm x) (pages (mem s')) /\ file_table s' !! Z.to_nat g = Some (mk_file (offset + size) (fd_flag f) (fd_inode f)) /\
    forall k, bd_sector (dsk s') k = bd_sector (dsk (io_fs x)) k.
Proof.
  intros Hs [F1 F2 F3 F4 F5 F6 F7] Hu Hp Hk Ho Hc Hoc size Hsz. pose proof (fk_size _ _ F7) as Hz. pose proof (lookup_lt_Some _ _ _ F4) as Hlt.
  set (s := io_fs x) in *. set (f1 := mk_file offset (fd_flag f) (fd_inode f)). set (s1 := with_file_table (<[Z.to_nat g := f1]> (file_table s)) s).
  assert (Hseek : sys_lseek s fd (i32 offset) SEEK_SET = Done (offset, s1)).
  { unfold sys_lseek. destruct (Z.ltb_spec fd 0); [lia|]. assert_ok; [|done]. rewrite F2, bind_done, (aget_Some _ _ _ F3 F4), bind_done. unfold inode_at. rewrite F6, bind_done.
    change (SEEK_SET =? SEEK_SET) with true. cbv iota zeta. rewrite !i32_small by (rewrite ?i32_small; lia). destruct (Z.ltb_spec offset 0); [lia|]. destruct (Z.ltb_spec (i_size i - 1) offset); [lia|].
    cbn [orb]. rewrite aset_in by lia. rewrite bind_done. rewrite !u32_small by lia. by rewrite i32_small by lia. }
  exists (offset, s1). cbn [snd].
  assert (Hs1 : fs_ok s1) by (by apply with_file_table_ok). assert (Ht1 : file_table s1 !! Z.to_nat g = Some f1) by (by apply list_lookup_insert_eq).
  assert (Hf1 : file_ok s1 i) by (exact (proj1 (file_ok_ext s s1 i i F7 (fun k => eq_refl) (same_part_refl _) (fk_wf _ _ F7) eq_refl))).
  destruct (file_read_user s1 g count 0 [] s1 (fo_mem s Hs) Hu Hp Hk) as [Hca _].
  pose proof (file_read_ok s1 g f1 i count Hs1 F3 Ht1 F6 Hf1) as Hrd. cbn [fd_pos fd_flag fd_inode f1] in Hrd.
  specialize (Hrd ltac:(lia) ltac:(lia) Hoc Hca). cbv zeta in Hrd. fold size in Hrd. rewrite (proj2 (Z.eqb_neq offset (i_size i))), andb_false_r in Hrd by lia.
  rewrite (proj2 (Z.ltb_lt _ 139) Hsz) in Hrd. destruct Hrd as (s' & Er & Hs' & Et & _ & _ & _ & _ & Hsec). exists s'. split; [done|].
  destruct (file_read_user s1 g count size (contents (dsk s1) i offset size) s' (fo_mem s Hs) Hu Hp Hk) as [_ Huk]. split; [|split_and!; [done|exact (Huk Er)|rewrite Et; apply list_lookup_insert_eq; unfold s1; cbn [file_table with_file_table]; rewrite length_insert; lia|done]].
  unfold read_file, sys_read. destruct (Z.ltb_spec fd 0); [lia|]. unfold stdout_no, stderr_no, stdin_no.
  rewrite !(proj2 (Z.eqb_neq fd _)) by lia. cbn [orb]. cbn [io_fs with_io_fs]. assert (F2' : fd_local2global s1 fd = Done g) by exact F2.
  unfold is_pipe. rewrite F2', !bind_done, (aget_Some _ _ _ F3 Ht1), !bind_done. cbn [fd_flag f1]. rewrite (proj2 (Z.eqb_neq _ _) F5). by rewrite Er, !bind_done.
Qed.
End Read.

(** ** Properties *)
Section Load.
Context {D : Type} `{BlockDev D}.
Abbreviation mach := (io (D := D) (P := vm)) (only parsing).

Lemma with_vm_ok (x : mach) v : fs_ok (io_fs x) -> kernel_kept (the_vm x) v -> fs_ok (io_fs (with_vm v x)).
Proof.
  intros Hs Hk. pose proof (fo_mem _ Hs) as Hh. cbn [al_ok heap_alloc] in Hh. destruct (Hk (ho_pages _ Hh)) as [Hv Hpg]. apply with_mem_ok; [done| |done]. by apply more_pages.
Qed.

End Load.

(** ** Witness

    The sample process loads 590 bytes of a file of 600 bytes, from position 10 on, into the
    end of its second page and a page it does not have yet. *)
Definition sample_q : Z := 0xc010100c.
Definition sample_uheap0 : heap (P := vm) := with_pages sample_proc sample_heap.
Definition sample_uheap : heap (P := vm) := (got (sys_malloc sample_uheap0 76) (0, sample_uheap0)).2.
Definition sample_exec : io (D := disk) (P := vm) :=
  mk_io (mk_fs sample_disk sample_uheap {[sample_q := sample_file]}
      (mk_part 2048 4708 sample_sb (mk_bitmap 512 sample_bbits 0) (mk_bitmap 512 sample_ibits 0) [sample_q])
      ([mk_file 0 0 0; mk_file 0 0 0; mk_file 0 0 0; mk_file 52 O_RDONLY sample_q] ++ replicate 28 (mk_file 0 0 0)) ([0; 1; 2; 3] ++ replicate 4 (-1)) (mk_dir 0 0) ∅ 0)
    sample_sched ∅ sample_ioq [].

Lemma sample_uheap_ok : heap_ok sample_uheap /\ user_space (pages sample_uheap) /\ exists n, Heap.live sample_uheap sample_q n.
Proof.
  assert (Hh : heap_ok sample_uheap0).
  { apply more_pages; [exact sample_heap_ok|exact sample_proc_ok|]. intros q (i & f & -> & Hi & Ht & _). change (pages sample_heap) with sample_vm in *.
    rewrite sample_trans in Ht; [discriminate Ht|]. by apply vpage_in; [exact sample_vm_ok|]. }
  destruct (malloc_user sample_uheap0 76 Hh sample_proc_space) as (p & h' & n & E & _ & Hok & Hk & _ & _ & Hl & _); [lia|vm_compute; reflexivity|vm_compute; reflexivity|].
  assert (Eh : sample_uheap = h') by (unfold sample_uheap; rewrite E; reflexivity).
  assert (Ep : (got (sys_malloc sample_uheap0 76) (0, sample_uheap0)).1 = sample_q) by (vm_compute; reflexivity). rewrite E in Ep. cbn [got fst] in Ep. subst p.
  rewrite Eh. split; [exact Hok|]. split; [exact (uk_space _ _ Hk)|]. exists n. exact Hl.
Qed.

Lemma sample_exec_ok : fs_ok (io_fs sample_exec).
Proof.
  destruct sample_uheap_ok as (Hh & _ & n & Hl).
  constructor; [exact sample_disk_ok|exact Hh|exact (fo_layout _ sample_fs_ok)|exact (fo_bitmaps _ sample_fs_ok)|]. split_and!.
  - apply NoDup_singleton.
  - intros p Hp. change (p ∈ [sample_q]) in Hp. apply list_elem_of_singleton in Hp as ->. exists sample_file, n. split; [apply lookup_singleton_eq|].
    split; [exact (fk_wf _ _ sample_file_ok)|]. split; [reflexivity|]. split; [reflexivity|]. split; [exact Hl|discriminate].
  - intros p q i j Hp Hq _ _ _. change (p ∈ [sample_q]) in Hp. change (q ∈ [sample_q]) in Hq. apply list_elem_of_singleton in Hp as ->, Hq as ->. done.
Qed.

Lemma sample_exec_file : open_file (io_fs sample_exec) 3 3 (mk_file 52 O_RDONLY sample_q) sample_file.
Proof.
  constructor; [lia|reflexivity|lia|reflexivity|discriminate|apply lookup_singleton_eq|].
  exact (proj1 (file_ok_ext sample_rw (io_fs sample_exec) sample_file sample_file sample_file_ok (fun k => eq_refl) eq_refl (fk_wf _ _ sample_file_ok) eq_refl)).
Qed.

