(* ===== verification/Syscall.v ===== *)
(** * System calls (lib/user/syscall.c, lib/user/syscall.h, userprog/syscall-init.c, kernel/kernel.S)

    A program leaves the number of a call in eax, its arguments in ebx, ecx and edx, and
    interrupts; [syscall_handler] pushes the three registers, calls the entry of
    [syscall_table] and puts its value in the eax of the frame that is restored. What the
    functions of the kernel do is a parameter here: they are defined elsewhere on the
    state they work on. An argument narrower than a register is in its low bits.

    The handler does not test the number: the address [syscall_table + 4 * eax] is computed
    in 32 bits, so the two high bits of eax are lost, and the word there is called even when
    it is an entry that was never set or lies behind the table. What such a call does is a
    second parameter, [wild]. *)
From stdpp Require Import base numbers list option tactics.
From Stdlib Require Import ZArith Lia.
From S2P Require Import Prelude Bitmap Cpu Sched Sync Ioqueue Paging PageAlloc Heap AddrSpace Ide Iface Inode File FileIo Dir Path Calls Io WaitExit Fork Process.

Inductive SYSCALL_NR :=
  | SYS_GETPID | SYS_WRITE | SYS_MALLOC | SYS_FREE | SYS_FORK | SYS_READ | SYS_PUTCHAR | SYS_CLEAR
  | SYS_GETCWD | SYS_OPEN | SYS_CLOSE | SYS_LSEEK | SYS_UNLINK | SYS_MKDIR | SYS_OPENDIR | SYS_CLOSEDIR
  | SYS_CHDIR | SYS_RMDIR | SYS_READDIR | SYS_REWINDDIR | SYS_STAT | SYS_PS | SYS_EXECV | SYS_EXIT | SYS_WAIT
  | SYS_PIPE | SYS_FD_REDIRECT | SYS_HELP.

(** The value of an enumerator. *)
Definition nr (n : SYSCALL_NR) : Z :=
  match n with
  | SYS_GETPID => 0 | SYS_WRITE => 1 | SYS_MALLOC => 2 | SYS_FREE => 3 | SYS_FORK => 4 | SYS_READ => 5
  | SYS_PUTCHAR => 6 | SYS_CLEAR => 7 | SYS_GETCWD => 8 | SYS_OPEN => 9 | SYS_CLOSE => 10 | SYS_LSEEK => 11
  | SYS_UNLINK => 12 | SYS_MKDIR => 13 | SYS_OPENDIR => 14 | SYS_CLOSEDIR => 15 | SYS_CHDIR => 16
  | SYS_RMDIR => 17 | SYS_READDIR => 18 | SYS_REWINDDIR => 19 | SYS_STAT => 20 | SYS_PS => 21
  | SYS_EXECV => 22 | SYS_EXIT => 23 | SYS_WAIT => 24 | SYS_PIPE => 25 | SYS_FD_REDIRECT => 26
  | SYS_HELP => 27
  end.

(** ** The kernel's side *)
Definition sys_getpid (s : sched) : outcome Z := p ← task_at s (cur s); Done (pid p).

Module Kernel.
(** The functions the table points to. *)
Inductive function :=
  | sys_getpid | sys_write | sys_malloc | sys_free | sys_fork | sys_read | sys_putchar | cls_screen
  | sys_getcwd | sys_open | sys_close | sys_lseek | sys_unlink | sys_mkdir | sys_opendir | sys_closedir
  | sys_chdir | sys_rmdir | sys_readdir | sys_rewinddir | sys_stat | sys_ps | sys_execv | sys_exit | sys_wait
  | sys_pipe | sys_fd_redirect | sys_help.

(** How many arguments their declarations have. *)
Definition arity (f : function) : nat :=
  match f with
  | sys_getpid | sys_fork | cls_screen | sys_ps | sys_help => 0
  | sys_getcwd | sys_open | sys_stat | sys_execv | sys_fd_redirect => 2
  | sys_write | sys_read | sys_lseek => 3
  | _ => 1
  end.
End Kernel.
Import Kernel.

Definition syscall_nr : Z := 32.

Definition syscall_init (syscall_table : list (option function)) : outcome (list (option function)) :=
  t ← aset syscall_table (nr SYS_GETPID) (Some sys_getpid);
  t ← aset t (nr SYS_WRITE) (Some sys_write);
  t ← aset t (nr SYS_MALLOC) (Some sys_malloc);
  t ← aset t (nr SYS_FREE) (Some sys_free);
  t ← aset t (nr SYS_FORK) (Some sys_fork);
  t ← aset t (nr SYS_READ) (Some sys_read);
  t ← aset t (nr SYS_PUTCHAR) (Some sys_putchar);
  t ← aset t (nr SYS_CLEAR) (Some cls_screen);
  t ← aset t (nr SYS_GETCWD) (Some sys_getcwd);
  t ← aset t (nr SYS_OPEN) (Some sys_open);
  t ← aset t (nr SYS_CLOSE) (Some sys_close);
  t ← aset t (nr SYS_LSEEK) (Some sys_lseek);
  t ← aset t (nr SYS_UNLINK) (Some sys_unlink);
  t ← aset t (nr SYS_MKDIR) (Some sys_mkdir);
  t ← aset t (nr SYS_OPENDIR) (Some sys_opendir);
  t ← aset t (nr SYS_CLOSEDIR) (Some sys_closedir);
  t ← aset t (nr SYS_CHDIR) (Some sys_chdir);
  t ← aset t (nr SYS_RMDIR) (Some sys_rmdir);
  t ← aset t (nr SYS_READDIR) (Some sys_readdir);
  t ← aset t (nr SYS_REWINDDIR) (Some sys_rewinddir);
  t ← aset t (nr SYS_STAT) (Some sys_stat);
  t ← aset t (nr SYS_PS) (Some sys_ps);
  t ← aset t (nr SYS_EXECV) (Some sys_execv);
  t ← aset t (nr SYS_EXIT) (Some sys_exit);
  t ← aset t (nr SYS_WAIT) (Some sys_wait);
  t ← aset t (nr SYS_PIPE) (Some sys_pipe);
  t ← aset t (nr SYS_FD_REDIRECT) (Some sys_fd_redirect);
  t ← aset t (nr SYS_HELP) (Some sys_help);
  Done t.

(** The registers of the interrupted program with a call's number and arguments. *)
Definition with_call (a b c d : Z) (r : intr_stack) : intr_stack :=
  mk_intr (vec_no r) (r_edi r) (r_esi r) (r_ebp r) (esp_dummy r) b d c a
    (r_gs r) (r_fs r) (r_es r) (r_ds r) (err_code r) (r_eip r) (r_cs r) (r_eflags r) (r_esp r) (r_ss r).
Definition with_eax (a : Z) (r : intr_stack) : intr_stack := with_call a (r_ebx r) (r_ecx r) (r_edx r) r.

Section Calls.
Context {K : Type} (run : function -> list Z -> K -> outcome (Z * K)) (wild : Z -> list Z -> K -> outcome (Z * K)).
Context (syscall_table : list (option function)).

(** The word of memory that is called, counted from the start of the table. *)
Definition called_word (r : intr_stack) : Z := u32 (4 * r_eax r) / 4.

(** A function of the kernel finds as many arguments on the stack as it declares. An
    entry that was never set is NULL. *)
Definition syscall_handler (r : intr_stack) (k : K) : outcome (intr_stack * K) :=
  let i := called_word r in
  let args := [r_ebx r; r_ecx r; r_edx r] in
  v ← match syscall_table !! Z.to_nat i with
      | Some (Some f) => run f (take (arity f) args) k
      | _ => wild i args k
      end;
  Done (with_eax (u32 v.1) r, v.2).

(** ** The program's side

    [r] is what the registers hold before; [retval] is an [int]. *)
Definition int80 (r : intr_stack) (k : K) : outcome (Z * K) := f ← syscall_handler r k; Done (i32 (r_eax f.1), f.2).

Definition _syscall0 (r : intr_stack) (NUMBER : SYSCALL_NR) (k : K) : outcome (Z * K) :=
  int80 (with_call (nr NUMBER) (r_ebx r) (r_ecx r) (r_edx r) r) k.
Definition _syscall1 (r : intr_stack) (NUMBER : SYSCALL_NR) (ARG1 : Z) (k : K) : outcome (Z * K) :=
  int80 (with_call (nr NUMBER) (u32 ARG1) (r_ecx r) (r_edx r) r) k.
Definition _syscall2 (r : intr_stack) (NUMBER : SYSCALL_NR) (ARG1 ARG2 : Z) (k : K) : outcome (Z * K) :=
  int80 (with_call (nr NUMBER) (u32 ARG1) (u32 ARG2) (r_edx r) r) k.
Definition _syscall3 (r : intr_stack) (NUMBER : SYSCALL_NR) (ARG1 ARG2 ARG3 : Z) (k : K) : outcome (Z * K) :=
  int80 (with_call (nr NUMBER) (u32 ARG1) (u32 ARG2) (u32 ARG3) r) k.

(** The conversion of [retval] to the type of the stub, pointers being [uint32_t], and
    a stub without a value. *)
Definition as_type (conv : Z -> Z) (m : outcome (Z * K)) : outcome (Z * K) := r ← m; Done (conv r.1, r.2).
Definition as_void (m : outcome (Z * K)) : outcome K := r ← m; Done r.2.
End Calls.

Module User.
Section Stubs.
Context {K : Type} (run : function -> list Z -> K -> outcome (Z * K)) (wild : Z -> list Z -> K -> outcome (Z * K)).
Context (syscall_table : list (option function)) (r : intr_stack).
Abbreviation call0 := (_syscall0 run wild syscall_table r) (only parsing).
Abbreviation call1 := (_syscall1 run wild syscall_table r) (only parsing).
Abbreviation call2 := (_syscall2 run wild syscall_table r) (only parsing).
Abbreviation call3 := (_syscall3 run wild syscall_table r) (only parsing).

Definition getpid (k : K) : outcome (Z * K) := as_type u32 (call0 SYS_GETPID k).
Definition write (fd buf count : Z) (k : K) : outcome (Z * K) := as_type u32 (call3 SYS_WRITE fd buf count k).
Definition malloc (size : Z) (k : K) : outcome (Z * K) := as_type u32 (call1 SYS_MALLOC size k).
Definition free (ptr : Z) (k : K) : outcome K := as_void (call1 SYS_FREE ptr k).
Definition fork (k : K) : outcome (Z * K) := as_type u16 (call0 SYS_FORK k).
Definition read (fd buf count : Z) (k : K) : outcome (Z * K) := as_type i32 (call3 SYS_READ fd buf count k).
Definition putchar (char_asci : Z) (k : K) : outcome K := as_void (call1 SYS_PUTCHAR char_asci k).
Definition clear (k : K) : outcome K := as_void (call0 SYS_CLEAR k).
Definition getcwd (buf size : Z) (k : K) : outcome (Z * K) := as_type u32 (call2 SYS_GETCWD buf size k).
Definition open (pathname flag : Z) (k : K) : outcome (Z * K) := as_type i32 (call2 SYS_OPEN pathname flag k).
Definition close (fd : Z) (k : K) : outcome (Z * K) := as_type i32 (call1 SYS_CLOSE fd k).
Definition lseek (fd offset whence : Z) (k : K) : outcome (Z * K) := as_type i32 (call3 SYS_LSEEK fd offset whence k).
Definition unlink (pathname : Z) (k : K) : outcome (Z * K) := as_type i32 (call1 SYS_UNLINK pathname k).
Definition mkdir (pathname : Z) (k : K) : outcome (Z * K) := as_type i32 (call1 SYS_MKDIR pathname k).
Definition opendir (name : Z) (k : K) : outcome (Z * K) := as_type u32 (call1 SYS_OPENDIR name k).
Definition closedir (dir : Z) (k : K) : outcome (Z * K) := as_type i32 (call1 SYS_CLOSEDIR dir k).
Definition rmdir (pathname : Z) (k : K) : outcome (Z * K) := as_type i32 (call1 SYS_RMDIR pathname k).
Definition readdir (dir : Z) (k : K) : outcome (Z * K) := as_type u32 (call1 SYS_READDIR dir k).
Definition rewinddir (dir : Z) (k : K) : outcome K := as_void (call1 SYS_REWINDDIR dir k).
Definition stat (path buf : Z) (k : K) : outcome (Z * K) := as_type i32 (call2 SYS_STAT path buf k).
Definition chdir (path : Z) (k : K) : outcome (Z * K) := as_type i32 (call1 SYS_CHDIR path k).
Definition ps (k : K) : outcome K := as_void (call0 SYS_PS k).
Definition execv (pathname argv : Z) (k : K) : outcome (Z * K) := as_type i32 (call2 SYS_EXECV pathname argv k).
Definition exit (status : Z) (k : K) : outcome K := as_void (call1 SYS_EXIT status k).
Definition wait (status : Z) (k : K) : outcome (Z * K) := as_type u16 (call1 SYS_WAIT status k).
Definition pipe (pipefd : Z) (k : K) : outcome (Z * K) := as_type i32 (call1 SYS_PIPE pipefd k).
Definition fd_redirect (old_local_fd new_local_fd : Z) (k : K) : outcome K := as_void (call2 SYS_FD_REDIRECT old_local_fd new_local_fd k).
Definition help (k : K) : outcome K := as_void (call0 SYS_HELP k).
End Stubs.
End User.

(** ** Properties *)

(** A number in the table: the call is the function's, with the registers it declares, and
    every register but eax is as it was. *)
Lemma int80_entry {K} (run : function -> list Z -> K -> outcome (Z * K)) wild t r k f :
  0 <= r_eax r < 2 ^ 30 -> t !! Z.to_nat (r_eax r) = Some (Some f) ->
  int80 run wild t r k = (v ← run f (take (arity f) [r_ebx r; r_ecx r; r_edx r]) k; Done (i32 v.1, v.2)).
Proof.
  intros H0 Hf. unfold int80, syscall_handler, called_word. rewrite u32_small by lia. rewrite Z.mul_comm, Z.div_mul by done. cbv zeta. rewrite Hf.
  destruct (run f _ k) as [v| | |]; try done. cbn. do 2 f_equal. unfold u32, i32. rewrite Zplus_mod_idemp_l. done.
Qed.

(** The two high bits of the number do not count. *)
Lemma called_word_mod r : 0 <= r_eax r < 2 ^ 32 -> called_word r = r_eax r mod 2 ^ 30.
Proof. intros Hr. unfold called_word, u32. zdiv. Qed.

(** What a stub is to mean: a call of [f] with [args], its value converted to its type. *)
Definition calls {K} (run : function -> list Z -> K -> outcome (Z * K)) (f : function) (conv : Z -> Z) (args : list Z) (k : K) : outcome (Z * K) :=
  v ← run f (u32 <$> args) k; Done (conv v.1, v.2).
Definition calls_void {K} (run : function -> list Z -> K -> outcome (Z * K)) (f : function) (args : list Z) (k : K) : outcome K :=
  v ← run f (u32 <$> args) k; Done v.2.

Lemma u32_of_i32 v : u32 (i32 v) = u32 v.
Proof. unfold u32, i32. zdiv. Qed.
Lemma u16_of_i32 v : u16 (i32 v) = u16 v.
Proof. unfold u16, i32. zdiv. Qed.
Lemma i32_of_i32 v : i32 (i32 v) = i32 v.
Proof. unfold i32. zdiv. Qed.

Definition enumerators : list SYSCALL_NR :=
  [SYS_GETPID; SYS_WRITE; SYS_MALLOC; SYS_FREE; SYS_FORK; SYS_READ; SYS_PUTCHAR; SYS_CLEAR; SYS_GETCWD; SYS_OPEN; SYS_CLOSE; SYS_LSEEK; SYS_UNLINK; SYS_MKDIR;
   SYS_OPENDIR; SYS_CLOSEDIR; SYS_CHDIR; SYS_RMDIR; SYS_READDIR; SYS_REWINDDIR; SYS_STAT; SYS_PS; SYS_EXECV; SYS_EXIT; SYS_WAIT; SYS_PIPE; SYS_FD_REDIRECT; SYS_HELP].

Lemma as_type_i32 {K} conv (m : outcome (Z * K)) : (forall v, conv (i32 v) = conv v) -> as_type conv (v ← m; Done (i32 v.1, v.2)) = (v ← m; Done (conv v.1, v.2)).
Proof. intros Hc. destruct m; cbn; [|done..]. by rewrite Hc. Qed.
Lemma as_void_i32 {K} (m : outcome (Z * K)) : as_void (v ← m; Done (i32 v.1, v.2)) = (v ← m; Done v.2).
Proof. by destruct m. Qed.

(** A stub: its entry, its arguments, the conversion. *)
Ltac stub := intros; cbv [User.getpid User.write User.malloc User.free User.fork User.read User.putchar User.clear User.getcwd User.open User.close User.lseek User.unlink
    User.mkdir User.opendir User.closedir User.rmdir User.readdir User.rewinddir User.stat User.chdir User.ps User.execv User.exit User.wait User.pipe User.fd_redirect User.help
    _syscall0 _syscall1 _syscall2 _syscall3];
  erewrite int80_entry; [|cbn; lia|reflexivity]; first [rewrite as_void_i32 | rewrite as_type_i32 by auto using u32_of_i32, u16_of_i32, i32_of_i32]; reflexivity.

(** C37. System calls reach their handlers: [syscall_init] sets the first 28 entries of the
    table and no other; the handler calls the entry of the number modulo 2^30 (the address is
    computed in 32 bits), also when the number itself is not in the table; for every other
    number it calls, without a test, through a word that is NULL or lies behind the table; and
    every stub of the user's library, whatever the registers hold, is a call of the kernel's
    function of its name with exactly the arguments that function declares, in order and as
    32-bit values, its value converted to the type of the stub. *)
Theorem stubs_reach_handlers :
  exists t, syscall_init (replicate (Z.to_nat syscall_nr) None) = Done t /\ length t = Z.to_nat syscall_nr /\
  (forall z, 0 <= z -> (exists f, t !! Z.to_nat z = Some (Some f)) <-> exists n, nr n = z) /\
  forall K (run : function -> list Z -> K -> outcome (Z * K)) (wild : Z -> list Z -> K -> outcome (Z * K)) (r : intr_stack) (k : K),
    (forall z f, 0 <= z < 2 ^ 32 -> t !! Z.to_nat (z mod 2 ^ 30) = Some (Some f) -> syscall_handler run wild t (with_eax z r) k =
       (v ← run f (take (arity f) [r_ebx r; r_ecx r; r_edx r]) k; Done (with_eax (u32 v.1) r, v.2))) /\
    (forall z, 0 <= z < 2 ^ 32 -> (forall n, nr n <> z mod 2 ^ 30) -> syscall_handler run wild t (with_eax z r) k =
       (v ← wild (z mod 2 ^ 30) [r_ebx r; r_ecx r; r_edx r] k; Done (with_eax (u32 v.1) r, v.2))) /\
    (User.getpid run wild t r k = calls run sys_getpid u32 [] k) /\
    (forall fd buf count, User.write run wild t r fd buf count k = calls run sys_write u32 [fd; buf; count] k) /\
    (forall size, User.malloc run wild t r size k = calls run sys_malloc u32 [size] k) /\
    (forall ptr, User.free run wild t r ptr k = calls_void run sys_free [ptr] k) /\
    (User.fork run wild t r k = calls run sys_fork u16 [] k) /\
    (forall fd buf count, User.read run wild t r fd buf count k = calls run sys_read i32 [fd; buf; count] k) /\
    (forall char_asci, User.putchar run wild t r char_asci k = calls_void run sys_putchar [char_asci] k) /\
    (User.clear run wild t r k = calls_void run cls_screen [] k) /\
    (forall buf size, User.getcwd run wild t r buf size k = calls run sys_getcwd u32 [buf; size] k) /\
    (forall pathname flag, User.open run wild t r pathname flag k = calls run sys_open i32 [pathname; flag] k) /\
    (forall fd, User.close run wild t r fd k = calls run sys_close i32 [fd] k) /\
    (forall fd offset whence, User.lseek run wild t r fd offset whence k = calls run sys_lseek i32 [fd; offset; whence] k) /\
    (forall pathname, User.unlink run wild t r pathname k = calls run sys_unlink i32 [pathname] k) /\
    (forall pathname, User.mkdir run wild t r pathname k = calls run sys_mkdir i32 [pathname] k) /\
    (forall name, User.opendir run wild t r name k = calls run sys_opendir u32 [name] k) /\
    (forall dir, User.closedir run wild t r dir k = calls run sys_closedir i32 [dir] k) /\
    (forall pathname, User.rmdir run wild t r pathname k = calls run sys_rmdir i32 [pathname] k) /\
    (forall dir, User.readdir run wild t r dir k = calls run sys_readdir u32 [dir] k) /\
    (forall dir, User.rewinddir run wild t r dir k = calls_void run sys_rewinddir [dir] k) /\
    (forall path buf, User.stat run wild t r path buf k = calls run sys_stat i32 [path; buf] k) /\
    (forall path, User.chdir run wild t r path k = calls run sys_chdir i32 [path] k) /\
    (User.ps run wild t r k = calls_void run sys_ps [] k) /\
    (forall pathname argv, User.execv run wild t r pathname argv k = calls run sys_execv i32 [pathname; argv] k) /\
    (forall status, User.exit run wild t r status k = calls_void run sys_exit [status] k) /\
    (forall status, User.wait run wild t r status k = calls run sys_wait u16 [status] k) /\
    (forall pipefd, User.pipe run wild t r pipefd k = calls run sys_pipe i32 [pipefd] k) /\
    (forall old_local_fd new_local_fd, User.fd_redirect run wild t r old_local_fd new_local_fd k = calls_void run sys_fd_redirect [old_local_fd; new_local_fd] k) /\
    (User.help run wild t r k = calls_void run sys_help [] k).
Proof.
  eexists. split; [reflexivity|]. split; [reflexivity|]. split; [|intros K run wild r k; split; [|split; [|repeat split; stub]]].
  - intros z Hz. split; [|intros [n <-]; destruct n; eexists; reflexivity].
    intros [f Hf]. exists (nth (Z.to_nat z) enumerators SYS_GETPID). rewrite <- (Z2Nat.id z) by done. rewrite Nat2Z.id. revert Hf. generalize (Z.to_nat z). clear.
    intros i. do 28 (destruct i as [|i]; [intros _; reflexivity|]). do 4 (destruct i as [|i]; [discriminate|]). discriminate.
  - intros z f Hz Hf. unfold syscall_handler. rewrite called_word_mod by done. cbn [r_eax with_eax with_call]. cbv zeta. by rewrite Hf.
  - intros z Hz Hn. unfold syscall_handler. rewrite called_word_mod by done. cbn [r_eax r_ebx r_ecx r_edx with_eax with_call]. cbv zeta.
    pose proof (Z.mod_pos_bound z (2 ^ 30) ltac:(lia)) as Hm. revert Hn Hm. generalize (z mod 2 ^ 30). intros y Hy [H0 _].
    assert (Hc : 28 <= y).
    { destruct (decide (28 <= y)) as [|E]; [done|]. exfalso. apply (Hy (nth (Z.to_nat y) enumerators SYS_GETPID)).
      rewrite <- (Z2Nat.id y) by lia. rewrite Nat2Z.id. assert (Hi : (Z.to_nat y < 28)%nat) by lia. revert Hi. generalize (Z.to_nat y). clear.
      intros i. do 28 (destruct i as [|i]; [intros _; reflexivity|]). lia. }
    replace (Z.to_nat y) with (28 + Z.to_nat (y - 28))%nat by lia. generalize (Z.to_nat (y - 28)). intros i. do 4 (destruct i as [|i]; [reflexivity|]). reflexivity.
Qed.
