(* ===== verification/Machine.v ===== *)
(** * Interrupt controller, clock and descriptors (kernel/interrupt.c, device/timer.c, userprog/tss.c)

    What start-up writes to the chips and to the descriptor tables, and sleeping. A port
    write is a pair of port and byte; the chips' side is how an 8259A and an 8253 read
    such writes. Texts are the bytes that go to the screen. *)
From stdpp Require Import base numbers list option tactics.
From Stdlib Require Import ZArith Lia.
From Stdlib Require String.
Import String.StringSyntax.
From S2P Require Import Prelude Bitmap Cpu Pic Screen Sched Process.
Import Idt Gdt.

(** ** Interrupts *)

(** The names of the exceptions, for all vectors. *)
Definition unknown : list Z := chars "unknown".
Definition intr_name : list (list Z) :=
  [chars "#DE Divide Error"; chars "#DB Debug Exception"; chars "NMI Interrupt"; chars "#BP Breakpoint Exception";
   chars "#OF Overflow Exception"; chars "#BR BOUND Range Exceeded Exception"; chars "#UD Invalid Opcode Exception";
   chars "#NM Device Not Available Exception"; chars "#DF Double Fault Exception"; chars "Coprocessor Segment Overrun";
   chars "#TS Invalid TSS Exception"; chars "#NP Segment Not Present"; chars "#SS Stack Fault Exception";
   chars "#GP General Protection Exception"; chars "#PF Page-Fault Exception"; unknown; chars "#MF x87 FPU Floating-Point Error";
   chars "#AC Alignment Check Exception"; chars "#MC Machine-Check Exception"; chars "#XF SIMD Floating-Point Exception"] ++ replicate 109 unknown.

(** The handler returns for a spurious interrupt ([None]); for any other it shows a
    message, of a page fault with the address in cr2, and stays in a loop. *)
Definition general_intr_handler (vec_nr cr2 : Z) (s : Crt.screen) : outcome (option Crt.screen) :=
  if (vec_nr =? 0x27) || (vec_nr =? 0x2f) then Done None else
  let s := Crt.set_cursor 0 s in
  s ← Crt.put_str (replicate 320 32) s;
  let s := Crt.set_cursor 0 s in
  s ← Crt.put_str (chars "!!!!!!!      excetion message begin  !!!!!!!!" ++ [10]) s;
  let s := Crt.set_cursor 88 s in
  name ← aget intr_name vec_nr;
  s ← Crt.put_str name s;
  s ← (if vec_nr =? 14 then s ← Crt.put_str (10 :: chars "page fault addr is ") s; Crt.put_int cr2 s else Done s);
  s ← Crt.put_str (10 :: chars "!!!!!!!      excetion message end    !!!!!!!!" ++ [10]) s;
  Done (Some s).

(** The gates, the table of handlers, the port writes and the operand of lidt; [idt] is
    the address of the gates. *)
Definition idt_init (intr_entry_table : list Z) (syscall_handler general idt : Z) : outcome (list gate_desc * list Z * list (Z * Z) * Z) :=
  gates ← idt_desc_init intr_entry_table syscall_handler;
  let idt_operand := Z.lor (8 * IDT_DESC_CNT - 1) (Z.shiftl (u32 idt) 16) in
  Done (gates, exception_init general, pic_init, idt_operand).

(** ** The clock *)
Definition IRQ0_FREQUENCY : Z := 100.
Definition INPUT_FREQUENCY : Z := 1193180.
Definition COUNTER0_VALUE : Z := INPUT_FREQUENCY / IRQ0_FREQUENCY.
Definition CONTRER0_PORT : Z := 0x40.
Definition COUNTER0_NO : Z := 0.
Definition COUNTER_MODE : Z := 2.
Definition READ_WRITE_LATCH : Z := 3.
Definition PIT_CONTROL_PORT : Z := 0x43.
Definition mil_seconds_per_intr : Z := 1000 / IRQ0_FREQUENCY.

Definition frequency_set (counter_port counter_no rwl counter_mode counter_value : Z) : list (Z * Z) :=
  [(PIT_CONTROL_PORT, u8 (Z.lor (Z.lor (Z.shiftl counter_no 6) (Z.shiftl rwl 4)) (Z.shiftl counter_mode 1)));
   (counter_port, u8 counter_value); (counter_port, u8 (Z.shiftr counter_value 8))].

Definition timer_init (idt_table : list Z) (intr_timer_handler : Z) : outcome (list (Z * Z) * list Z) :=
  t ← register_handler idt_table 0x20 intr_timer_handler;
  Done (frequency_set CONTRER0_PORT COUNTER0_NO READ_WRITE_LATCH COUNTER_MODE (u16 COUNTER0_VALUE), t).

(** How the 8253 reads the three writes: counter, mode and count of a counter that takes
    its low byte first; a count of 0 stands for 2^16. *)
Definition pit_programmed (w : list (Z * Z)) : option (Z * Z * Z) :=
  match w with
  | [(0x43, c); (p1, lo); (p2, hi)] =>
      let n := c / 2 ^ 6 in
      if ((c / 2 ^ 4) mod 4 =? 3) && (p1 =? 0x40 + n) && (p2 =? 0x40 + n) then Some (n, (c / 2) mod 8, if lo + 2 ^ 8 * hi =? 0 then 2 ^ 16 else lo + 2 ^ 8 * hi) else None
  | _ => None
  end.

(** The loop of [ticks_to_sleep]: [now i] is the value of [ticks] at the i-th test, the
    thread having yielded [i] times. The result is the number of yields. *)
Definition sleep_turn (now : nat -> Z) (start_tick sleep_ticks : Z) (i : nat) : outcome (nat + nat) :=
  if u32 (now i - start_tick) <? sleep_ticks then Done (inl (S i)) else Done (inr i).
Definition ticks_to_sleep (fuel : nat) (now : nat -> Z) (start_tick sleep_ticks : Z) : outcome nat :=
  loop fuel (sleep_turn now start_tick sleep_ticks) O.

Definition mtime_sleep (fuel : nat) (now : nat -> Z) (start_tick m_seconds : Z) : outcome nat :=
  let sleep_ticks := DIV_ROUND_UP m_seconds mil_seconds_per_intr in
  ASSERT (0 <? sleep_ticks);;
  ticks_to_sleep fuel now start_tick sleep_ticks.

(** ** The task state segment *)
Definition SELECTOR_K_STACK : Z := Z.shiftl 2 3 + Z.shiftl 0 2 + 0.
Definition SELECTOR_TSS : Z := Z.shiftl 4 3 + Z.shiftl 0 2 + 0.

(** The words from [backlink] to [ldt], then two half words. *)
Record tss := mk_tss {
  backlink : Z; esp0 : Z; ss0 : Z; esp1 : Z; ss1 : Z; esp2 : Z; ss2 : Z; t_cr3 : Z; eip : Z; t_eflags : Z;
  eax : Z; ecx : Z; edx : Z; ebx : Z; esp : Z; ebp : Z; esi : Z; edi : Z; es : Z; cs : Z; ss : Z; ds : Z; fs : Z; gs : Z; ldt : Z;
  trace : Z; io_base : Z
}.
Definition tss_size : Z := 104.

Definition update_tss_esp (pthread : Z) (t : tss) : tss :=
  mk_tss (backlink t) (u32 (pthread + PG_SIZE)) (ss0 t) (esp1 t) (ss1 t) (esp2 t) (ss2 t) (t_cr3 t) (eip t) (t_eflags t)
    (eax t) (ecx t) (edx t) (ebx t) (esp t) (ebp t) (esi t) (edi t) (es t) (cs t) (ss t) (ds t) (fs t) (gs t) (ldt t) (trace t) (io_base t).

(** The segment, the descriptors stored by address, the operand of lgdt and that of ltr. *)
Definition tss_init (tss_addr : Z) : tss * list (Z * gdt_desc) * Z * Z :=
  (mk_tss 0 0 SELECTOR_K_STACK 0 0 0 0 0 0 0 0 0 0 0 0 0 0 0 0 0 0 0 0 0 0 0 tss_size,
   [(0xc0000920, make_gdt_desc tss_addr (tss_size - 1) TSS_ATTR_LOW TSS_ATTR_HIGH);
    (0xc0000928, make_gdt_desc 0 0xfffff GDT_CODE_ATTR_LOW_DPL3 GDT_ATTR_HIGH);
    (0xc0000930, make_gdt_desc 0 0xfffff GDT_DATA_ATTR_LOW_DPL3 GDT_ATTR_HIGH)],
   Z.lor (8 * 7 - 1) (Z.shiftl 0xc0000900 16), SELECTOR_TSS).

(** ** Lemmas *)
Lemma u32_mod_sub a b : u32 (u32 a - u32 b) = u32 (a - b).
Proof. unfold u32. by rewrite Zminus_mod_idemp_l, Zminus_mod_idemp_r. Qed.

Lemma sleep_ticks_eq m : 0 <= m <= 2 ^ 32 - 10 -> DIV_ROUND_UP m mil_seconds_per_intr = (m + 9) / 10.
Proof. intros Hm. unfold DIV_ROUND_UP. change mil_seconds_per_intr with 10. rewrite u32_small by lia. f_equal. lia. Qed.

(** From test [i] on, [n - i] more yields. *)
Lemma sleep_loop now start k n : (forall i, (i < n)%nat -> u32 (now i - start) < k) -> k <= u32 (now n - start) ->
  forall j i fuel, n = (i + j)%nat -> (j < fuel)%nat -> loop fuel (sleep_turn now start k) i = Done n.
Proof.
  intros Hlt Hge. induction j as [|j IH]; intros i fuel Hn Hf; (destruct fuel as [|fuel]; [lia|]).
  - replace i with n by lia. apply loop_done. unfold sleep_turn. rewrite (proj2 (Z.ltb_ge _ _) Hge). done.
  - rewrite (loop_next _ _ _ (S i)); [apply IH; lia|]. unfold sleep_turn. rewrite (proj2 (Z.ltb_lt _ _) (Hlt i ltac:(lia))). done.
Qed.

(** How the processor finds a descriptor, and the offset of the last byte of a segment. *)
Definition gdt_entry (selector : Z) (ds : list (Z * gdt_desc)) : option gdt_desc :=
  snd <$> (snd <$> list_find (fun d => d.1 = 0xc0000900 + selector / 8 * 8) ds).
Definition seg_last (d : gdt_desc) : Z := if Z.testbit (limit_high_attr_high d) 7 then seg_limit d * 2 ^ 12 + (2 ^ 12 - 1) else seg_limit d.
Definition seg_dpl (d : gdt_desc) : Z := (attr_low_byte d / 2 ^ 5) mod 4.

(** The exception's message. The texts of the exceptions fit beside their margin. *)
Lemma intr_names_plain vec : 0 <= vec < IDT_DESC_CNT -> exists name, intr_name !! Z.to_nat vec = Some name /\ plain name /\ (length name <= 40)%nat.
Proof.
  intros Hv. assert (Hf : Forall (fun name => plain name /\ (length name <= 40)%nat) intr_name).
  { unfold intr_name, plain. apply Forall_app. split; [|apply Forall_replicate]; repeat (constructor || (vm_compute; lia)); vm_compute; try lia; done. }
  destruct (lookup_lt_is_Some_2 intr_name (Z.to_nat vec)) as [name Hn]; [change (length intr_name) with (Z.to_nat IDT_DESC_CNT); lia|].
  exists name. split; [done|]. apply (proj1 (Forall_lookup _ _) Hf _ _ Hn).
Qed.

Definition begin_text : list Z := chars "!!!!!!!      excetion message begin  !!!!!!!!".
Definition end_text : list Z := chars "!!!!!!!      excetion message end    !!!!!!!!".

(** The four lines at the top of the screen. *)
Definition exception_lines (vec cr2 : Z) (name : list Z) : list Z :=
  text_line begin_text ++ text_line (replicate 8 32 ++ name) ++
  (if vec =? 14 then text_line (chars "page fault addr is " ++ Crt.int_text cr2) ++ text_line end_text else text_line end_text ++ replicate 80 32).

Lemma plain_literals : plain begin_text /\ plain end_text /\ plain (chars "page fault addr is ") /\ plain (replicate 320 32).
Proof. unfold plain. repeat split; repeat (constructor; [vm_compute; split; congruence|]); constructor. Qed.

(** The four lines are blanked. *)
Lemma blanked s : screen_ok s -> exists s1, Crt.put_str (replicate 320 32) (Crt.set_cursor 0 s) = Done s1 /\ screen_ok s1 /\
  Crt.vram (Crt.set_cursor 0 s1) = Crt.vram s1 /\ view (Crt.set_cursor 0 s1) = (0, replicate 320 32 ++ drop 320 (cells (Crt.vram s))).
Proof.
  intros Hs. destruct (put_str_ok (replicate 320 32) (Crt.set_cursor 0 s)) as (s1 & E & H1 & V).
  - split; [done|apply Hs].
  - apply plain_puts, plain_literals.
  - exists s1. split; [done|]. split; [done|]. split; [done|]. change (view (Crt.set_cursor 0 s1)) with (0, (view s1).2). rewrite V.
    rewrite plain_u8 by apply plain_literals. change (view (Crt.set_cursor 0 s)) with (0, cells (Crt.vram s)).
    rewrite tty_plain; [done|apply plain_literals|lia|rewrite length_replicate; lia|apply length_cells].
Qed.

Lemma general_intr_ok vec cr2 s : screen_ok s -> 0 <= vec < IDT_DESC_CNT -> is_u32 cr2 -> vec <> 0x27 -> vec <> 0x2f ->
  exists s' name, general_intr_handler vec cr2 s = Done (Some s') /\ screen_ok s' /\ intr_name !! Z.to_nat vec = Some name /\
    cells (Crt.vram s') = exception_lines vec cr2 name ++ drop 320 (cells (Crt.vram s)).
Proof.
  intros Hs Hvec Hcr N1 N2. destruct (intr_names_plain vec Hvec) as (name & Hname & Hnp & Hnl).
  destruct plain_literals as (Pb & Pe & Pp & _). destruct (int_text_plain cr2 Hcr) as (Pi & Li).
  destruct (blanked s Hs) as (s1 & E1 & H1 & _ & V1). set (rest := drop 320 (cells (Crt.vram s))) in *.
  destruct (put_line begin_text (Crt.set_cursor 0 s1) 0 [] [] 320 rest) as (s2 & E2 & H2 & V2);
    [split; [done|apply H1]|exact V1|done|lia|done|cbn; lia|cbn; lia|].
  destruct (put_line name (Crt.set_cursor 88 s2) 1 (text_line begin_text) (replicate 8 32) 232 rest) as (s3 & E3 & H3 & V3);
    [split; [done|apply H2]|change (view (Crt.set_cursor 88 s2)) with (88, (view s2).2); rewrite V2; reflexivity|done|lia|done|rewrite length_app, length_replicate; lia|cbn; lia|].
  assert (Lt : length (text_line begin_text ++ text_line (replicate 8 32 ++ name)) = 160%nat).
  { rewrite length_app. unfold text_line at 2. rewrite !length_app, !length_replicate. change (length (text_line begin_text)) with 80%nat. lia. }
  rewrite put_str_app in E3. apply bind_done_inv in E3 as (sa & Ea & E3). rewrite <- (app_nil_r (text_line begin_text ++ _)) in V3.
  assert (Hg : general_intr_handler vec cr2 s =
    (s ← (if vec =? 14 then s ← Crt.put_str (10 :: chars "page fault addr is ") sa; Crt.put_int cr2 s else Done sa);
     s ← Crt.put_str (10 :: end_text ++ [10]) s; Done (Some s))).
  { unfold general_intr_handler. rewrite !(proj2 (Z.eqb_neq _ _)) by done. cbn [orb]. rewrite E1, bind_done. fold begin_text. rewrite E2, bind_done.
    rewrite (aget_Some _ _ name) by (done || lia). rewrite bind_done, Ea, bind_done. done. }
  assert (Hnl10 : forall x sa sb, Crt.put_str [10] sa = Done sb -> Crt.put_str (10 :: x) sa = Crt.put_str x sb).
  { intros x ta tb E. change (10 :: x) with ([10] ++ x). by rewrite put_str_app, E. }
  unfold exception_lines. destruct (vec =? 14).
  - destruct (put_line (chars "page fault addr is " ++ Crt.int_text cr2) s3 2 _ [] 160 rest H3 V3) as (s4 & E4 & H4 & V4);
      [done|lia|by apply Forall_app|rewrite !length_app; cbn [length chars]; lia|cbn; lia|].
    rewrite !put_str_app in E4. apply bind_done_inv in E4 as (sb & Eb & E4). apply bind_done_inv in Eb as (sc & Ec & Eb).
    rewrite <- (app_nil_r ((_ ++ _) ++ text_line _)) in V4.
    destruct (put_line end_text s4 3 _ [] 80 rest H4 V4) as (s5 & E5 & H5 & V5);
      [rewrite length_app, Lt; unfold text_line; rewrite !length_app, length_replicate; cbn [length chars app]; rewrite ?length_app; cbn [length]; lia|lia|done|cbn; lia|cbn; lia|].
    exists s5, name. rewrite Hg, (Hnl10 _ _ _ E3), Ec, bind_done. unfold Crt.put_int. rewrite Eb, bind_done, (Hnl10 _ _ _ E4), E5, bind_done.
    split; [done|]. split; [done|]. split; [done|]. change (cells (Crt.vram s5)) with (view s5).2. rewrite V5. cbn [snd]. rewrite <- !app_assoc. reflexivity.
  - destruct (put_line end_text s3 2 _ [] 160 rest H3 V3) as (s5 & E5 & H5 & V5); [done|lia|done|cbn; lia|cbn; lia|].
    exists s5, name. rewrite Hg, bind_done, (Hnl10 _ _ _ E3), E5, bind_done.
    split; [done|]. split; [done|]. split; [done|]. change (cells (Crt.vram s5)) with (view s5).2. rewrite V5. cbn [snd]. rewrite <- !app_assoc. reflexivity.
Qed.

(** ** Properties *)

(** An exception is reported: for every vector of the table that is not one of the
    two spurious interrupts, the handler finds a name, its calls return, and then the first
    four lines of the screen are the banner, the exception's name, for a page fault the
    address in hexadecimal, and the closing banner; the other 21 lines are as before. *)
Theorem exception_reported vec cr2 s : screen_ok s -> 0 <= vec < IDT_DESC_CNT -> is_u32 cr2 -> vec <> 0x27 -> vec <> 0x2f ->
  exists s' name, general_intr_handler vec cr2 s = Done (Some s') /\ screen_ok s' /\ intr_name !! Z.to_nat vec = Some name /\
    cells (Crt.vram s') = exception_lines vec cr2 name ++ drop 320 (cells (Crt.vram s)).
Proof. apply general_intr_ok. Qed.

Lemma exception_reported_witness : exists s' name, general_intr_handler 14 0xc0100fff sample_screen = Done (Some s') /\ screen_ok s' /\
  intr_name !! Z.to_nat 14 = Some name /\ cells (Crt.vram s') = exception_lines 14 0xc0100fff name ++ drop 320 (cells (Crt.vram sample_screen)).
Proof. apply (exception_reported 14 0xc0100fff sample_screen); [exact sample_screen_ok|done..]. Defined.

(** Whatever the two interrupt controllers hold, after [pic_init] the clock, the
    keyboard and the first disk channel interrupt with vectors 0x20, 0x21 and 0x2e, the
    ones their handlers are registered for, and no other line interrupts; so line 15 of
    the second disk channel does not. *)
Theorem pic_init_vectors m s irq :
  0 <= irq < 16 ->
  vector (fold_left port_write pic_init (m, s)) irq = if decide (irq = 0 \/ irq = 1 \/ irq = 14) then Some (0x20 + irq) else None.
Proof.
  intros Hi. destruct m, s. cbn.
  assert (Hc : irq ∈ [0; 1; 2; 3; 4; 5; 6; 7; 8; 9; 10; 11; 12; 13; 14; 15]).
  { replace [0; 1; 2; 3; 4; 5; 6; 7; 8; 9; 10; 11; 12; 13; 14; 15] with (seqZ 0 16) by reflexivity. apply elem_of_seqZ. lia. }
  repeat (apply elem_of_cons in Hc as [->|Hc]; [reflexivity|]). by apply elem_of_nil in Hc.
Qed.

Lemma pic_init_vectors_witness :
  vector (fold_left port_write pic_init (mk_pic 0 0 0 0 0, mk_pic 2 0 0 0 0)) 14 = Some 0x2e.
Proof. apply (pic_init_vectors (mk_pic 0 0 0 0 0) (mk_pic 2 0 0 0 0) 14). lia. Defined.

(** Sleeping: the counter of ticks is 32 bits wide and may wrap round while a thread
    sleeps. [mtime_sleep] yields as long as fewer than the asked milliseconds have passed,
    at 10 a tick, and returns at the first test at which they have, provided the thread
    gets the processor again within 2^32 ticks. Asked for 0, it stops the kernel. *)
Theorem mtime_sleep_waits fuel clock start m n :
  0 < m <= 2 ^ 32 - 10 ->
  (forall i, (i < n)%nat -> 0 <= clock i - start /\ 10 * (clock i - start) < m) ->
  m <= 10 * (clock n - start) -> clock n - start < 2 ^ 32 -> (n < fuel)%nat ->
  mtime_sleep fuel (fun i => u32 (clock i)) (u32 start) m = Done n /\ mtime_sleep fuel (fun i => u32 (clock i)) (u32 start) 0 = Panic.
Proof.
  intros Hm Hlt Hge Hw Hf. split; [|done]. unfold mtime_sleep. rewrite sleep_ticks_eq by lia. assert_ok; [|apply Z.ltb_lt; zdiv].
  unfold ticks_to_sleep. apply (sleep_loop _ _ _ n) with (j := n); [| |done|done].
  - intros i Hi. destruct (Hlt i Hi). rewrite u32_mod_sub, u32_small by lia. zdiv.
  - rewrite u32_mod_sub, u32_small by zdiv. zdiv.
Qed.

Lemma mtime_sleep_waits_witness :
  mtime_sleep 9 (fun i => u32 (2 ^ 32 - 2 + Z.of_nat i)) (u32 (2 ^ 32 - 2)) 45 = Done 5%nat.
Proof.
  apply (mtime_sleep_waits 9 (fun i => 2 ^ 32 - 2 + Z.of_nat i) (2 ^ 32 - 2) 45 5).
  - lia.
  - intros i Hi. lia.
  - lia.
  - lia.
  - lia.
Defined.

(** The segments of [tss_init]: the selectors a process runs with name code and data
    segments of privilege level 3 that cover all of memory, and the selector given to ltr
    names the task state segment at its address. That segment is declared in units of
    4 KB, so it reaches beyond the 104 bytes of the structure, and the offset given for
    the I/O permission bitmap lies inside it. *)
Theorem tss_init_segments addr :
  is_u32 addr ->
  let '(t, ds, _, tr) := tss_init addr in
  exists code data task, gdt_entry SELECTOR_U_CODE ds = Some code /\ gdt_entry SELECTOR_U_DATA ds = Some data /\ gdt_entry tr ds = Some task /\
    (seg_base code = 0 /\ seg_last code = 2 ^ 32 - 1 /\ seg_dpl code = 3 /\ SELECTOR_U_CODE mod 4 = 3) /\
    (seg_base data = 0 /\ seg_last data = 2 ^ 32 - 1 /\ seg_dpl data = 3 /\ SELECTOR_U_DATA mod 4 = 3) /\
    (seg_base task = addr /\ seg_last task = 104 * 2 ^ 12 - 1 /\ seg_dpl task = 0 /\ ss0 t = SELECTOR_K_STACK /\ io_base t = 104 /\ io_base t < seg_last task).
Proof.
  intros Ha. cbn [tss_init]. eexists _, _, _. split; [reflexivity|]. split; [reflexivity|]. split; [reflexivity|]. split; [by vm_compute|]. split; [by vm_compute|].
  split; [|by vm_compute]. apply make_gdt_desc_decodes; [done|unfold tss_size; lia|vm_compute; split; congruence..|done].
Qed.

Lemma tss_init_segments_witness :
  exists task, gdt_entry SELECTOR_TSS (snd (fst (fst (tss_init 0xc0007000)))) = Some task /\ seg_base task = 0xc0007000.
Proof.
  destruct (tss_init_segments 0xc0007000) as (code & data & task & _ & _ & H1 & _ & _ & H2 & _).
  - unfold is_u32. lia.
  - exists task. split; [exact H1|exact H2].
Defined.
