(* ===== verification/Partition.v ===== *)
(** * Finding disks and partitions (device/ide.c: identify_disk, partition_scan, ide_init)

    [partition_scan] reads the partition table of a sector and calls itself for the
    extended partitions it finds there; [ide_init] sets up the channels and scans the second
    disk of each. The list of partitions holds, for each, its disk and the slot of the
    disk's two arrays it is described in. *)
From stdpp Require Import base numbers list option tactics gmap.
From Stdlib Require Import ZArith Lia.
From Stdlib Require String.
Import String.StringSyntax.
From S2P Require Import Prelude Bitmap Cpu Stdio Sched Sync Ide Heap Iface Inode FileIo Dir Exec Machine.

(** ** Partition tables *)
Record partition_table_entry := mk_pentry {
  bootable : Z; start_head : Z; start_sec : Z; start_chs : Z; fs_type : Z; end_head : Z; end_sec : Z; end_chs : Z;
  e_start_lba : Z; e_sec_cnt : Z
}.
Definition byte_at (b : list Z) (off : nat) : Z := default 0 (b !! off).
Definition bytes_pentry (b : list Z) : partition_table_entry :=
  mk_pentry (byte_at b 0) (byte_at b 1) (byte_at b 2) (byte_at b 3) (byte_at b 4) (byte_at b 5) (byte_at b 6) (byte_at b 7) (word_at b 8) (word_at b 12).

(** The table lies behind 446 bytes of code. *)
Definition partition_table (bs : list Z) : list partition_table_entry := (fun i => bytes_pentry (drop (446 + 16 * i) bs)) <$> [0; 1; 2; 3]%nat.

(** What the scan sets of a [struct partition], and where it is. *)
Record part := mk_ptn { pt_start : Z; pt_cnt : Z; pt_name : list Z }.
Inductive slot := Prim (k : Z) | Logic (k : Z).

Section Scan.
Context {D A : Type} `{BlockDev D} `{Alloc A}.

(** The disk, the heap, the global variables and the two arrays of the disk. *)
Record scan := mk_scan {
  sc_dev : D; sc_mem : A; ext_lba_base : Z; p_no : Z; l_no : Z;
  prim_parts : list part; logic_parts : list part; partition_list : list (nat * slot)
}.
Definition with_sc (d : D) (m : A) (s : scan) : scan := mk_scan d m (ext_lba_base s) (p_no s) (l_no s) (prim_parts s) (logic_parts s) (partition_list s).
Definition with_base (b : Z) (s : scan) : scan := mk_scan (sc_dev s) (sc_mem s) b (p_no s) (l_no s) (prim_parts s) (logic_parts s) (partition_list s).

(** A slot filled in; [no] is the number in the name. *)
Definition fill (ps : list part) (k start cnt : Z) (hd_name : list Z) (no : Z) : outcome (list part) :=
  p ← aget ps k;
  n ← sprintf (pt_name p) (chars "%s%d") [VStr hd_name; VInt no];
  aset ps k (mk_ptn start cnt n.2).

(** The loop over the entries. [rec] is [partition_scan] one level down; the flag tells
    that the loop left with [return]. *)
Fixpoint scan_entries (rec : scan -> Z -> outcome scan) (hd : nat) (hd_name : list Z) (ext_lba : Z) (ps : list partition_table_entry) (s : scan)
    : outcome (bool * scan) :=
  match ps with
  | [] => Done (false, s)
  | p :: ps =>
      if fs_type p =? 0x5 then
        s ← (if negb (ext_lba_base s =? 0) then rec s (u32 (e_start_lba p + ext_lba_base s))
             else rec (with_base (i32 (e_start_lba p)) s) (e_start_lba p));
        scan_entries rec hd hd_name ext_lba ps s
      else if negb (fs_type p =? 0) then
        if ext_lba =? 0 then
          a ← fill (prim_parts s) (p_no s) (u32 (ext_lba + e_start_lba p)) (e_sec_cnt p) hd_name (p_no s + 1);
          let s := mk_scan (sc_dev s) (sc_mem s) (ext_lba_base s) (u8 (p_no s + 1)) (l_no s) a (logic_parts s) (partition_list s ++ [(hd, Prim (p_no s))]) in
          ASSERT (p_no s <? 4);;
          scan_entries rec hd hd_name ext_lba ps s
        else
          a ← fill (logic_parts s) (l_no s) (u32 (ext_lba + e_start_lba p)) (e_sec_cnt p) hd_name (l_no s + 5);
          let s := mk_scan (sc_dev s) (sc_mem s) (ext_lba_base s) (p_no s) (u8 (l_no s + 1)) (prim_parts s) a (partition_list s ++ [(hd, Logic (l_no s))]) in
          if 8 <=? l_no s then Done (true, s) else scan_entries rec hd hd_name ext_lba ps s
      else scan_entries rec hd hd_name ext_lba ps s
  end.

(** A call goes as deep as extended partitions lead to one another. *)
Fixpoint partition_scan (fuel : nat) (hd : nat) (hd_name : list Z) (s : scan) (ext_lba : Z) : outcome scan :=
  match fuel with
  | O => Diverge
  | S fuel =>
      b ← al_malloc (sc_mem s) 512;
      if b.1 =? 0 then Fault else
      r ← bd_read (sc_dev s) ext_lba 1;
      e ← scan_entries (partition_scan fuel hd hd_name) hd hd_name ext_lba (partition_table r.2) (with_sc r.1 b.2 s);
      let '(returned, s) := e in
      if returned : bool then Done s else
      m ← al_free (sc_mem s) b.1;
      Done (with_sc (sc_dev s) m s)
  end.
End Scan.
Arguments scan : clear implicits.

(** ** Disks and channels *)

(** What is printed of a disk. *)
Record disk_info := mk_info { info_sn : list Z; info_module : list Z; info_sectors : Z; info_capacity : Z }.

Definition identify_disk (c : ide_channel) (ch_no dev_no : Z) : outcome (disk_info * ide_channel) :=
  c ← wait_done (cmd_out (select_disk c dev_no) CMD_IDENTIFY) ch_no;
  r ← busy_wait (status c);
  if negb r.1 then Panic else
  id_info ← read_from_sector c 1;
  sn ← swap_pairs_bytes (drop (10 * 2) id_info) 20;
  md ← swap_pairs_bytes (drop (27 * 2) id_info) 40;
  let sectors := word_at id_info (60 * 2) in
  Done (mk_info sn md sectors (u32 (sectors * 512) / 1024 / 1024), c).

(** [struct disk] beside its channel, and [struct ide_channel] beside the port interface. *)
Record hd := mk_hd { hd_name : list Z; hd_prim : list part; hd_logic : list part }.
Record ata := mk_ata { ch_name : list Z; port_base : Z; irq_no : Z; port : ide_channel; hds : list hd }.

Definition blank_part : part := mk_ptn 0 0 (replicate 8 0).
Definition blank_hd : hd := mk_hd (replicate 8 0) (replicate 4 blank_part) (replicate 8 blank_part).

Section Init.
Context {A : Type} `{Alloc A}.

(** The state of [ide_init]: the heap, the table of handlers, [ext_lba_base] and the list. *)
Record ide_state := mk_ide { id_mem : A; id_handlers : list Z; id_ext : Z; id_list : list (nat * slot) }.

(** One disk: [dev_no] of channel [channel_no]. *)
Definition init_disk (fuel : nat) (channel_no dev_no : Z) (c : ide_channel) (h : hd) (x : ide_state)
    : outcome (disk_info * ide_channel * hd * ide_state) :=
  n ← sprintf (hd_name h) (chars "sd%c") [VInt (97 + channel_no * 2 + dev_no)];
  i ← identify_disk c channel_no dev_no;
  let '(info, c) := i in
  if negb (dev_no =? 0) then
    let name := cname n.2 in
    s ← partition_scan fuel (Z.to_nat (channel_no * 2 + dev_no)) name
          (mk_scan (mk_disk c channel_no dev_no) (id_mem x) (id_ext x) 0 0 (hd_prim h) (hd_logic h) (id_list x)) 0;
    Done (info, my_channel (sc_dev s), mk_hd n.2 (prim_parts s) (logic_parts s), mk_ide (sc_mem s) (id_handlers x) (ext_lba_base s) (partition_list s))
  else Done (info, c, mk_hd n.2 (hd_prim h) (hd_logic h), x).

(** A channel and its two disks. *)
Definition init_channel (fuel : nat) (intr_hd_handler channel_no : Z) (a : ata) (x : ide_state) : outcome (ata * ide_state) :=
  n ← sprintf (ch_name a) (chars "ide%d") [VInt channel_no];
  let base := if channel_no =? 0 then 0x1f0 else if channel_no =? 1 then 0x170 else port_base a in
  let irq := if channel_no =? 0 then 0x20 + 14 else if channel_no =? 1 then 0x20 + 15 else irq_no a in
  t ← Idt.register_handler (id_handlers x) irq intr_hd_handler;
  let c := with_lock false (with_intr false 0 (port a)) in
  h0 ← aget (hds a) 0;
  h1 ← aget (hds a) 1;
  r ← init_disk fuel channel_no 0 c h0 (mk_ide (id_mem x) t (id_ext x) (id_list x));
  let '(_, c, h0, x) := r in
  r ← init_disk fuel channel_no 1 c h1 x;
  let '(_, c, h1, x) := r in
  Done (mk_ata n.2 base irq c [h0; h1], x).

(** The loop over the channels from [channel_no] on; there are two in the array. *)
Fixpoint init_all_channels (fuel : nat) (intr_hd_handler channel_no : Z) (n : nat) (chs : list ata) (x : ide_state)
    : outcome (list ata * ide_state) :=
  match n with
  | O => Done (chs, x)
  | S n =>
      a ← aget chs channel_no;
      r ← init_channel fuel intr_hd_handler channel_no a x;
      chs ← aset chs channel_no r.1;
      init_all_channels fuel intr_hd_handler (channel_no + 1) n chs r.2
  end.

(** [hd_cnt] is the byte the BIOS leaves at 0x475; the result begins with [channel_cnt]. *)
Definition ide_init (fuel : nat) (intr_hd_handler hd_cnt : Z) (channels : list ata) (m : A) (idt_table : list Z)
    : outcome (Z * list ata * ide_state) :=
  ASSERT (0 <? hd_cnt);;
  let channel_cnt := u8 (DIV_ROUND_UP hd_cnt 2) in
  r ← init_all_channels fuel intr_hd_handler 0 (Z.to_nat channel_cnt) channels (mk_ide m idt_table 0 []);
  Done (channel_cnt, r.1, r.2).
End Init.

(** ** Specification *)

(** A partition as the tables describe it, with its absolute first sector and its size. *)
Inductive item := Primary (start cnt : Z) | Logical (start cnt : Z).

Definition usable (e : partition_table_entry) : Prop := fs_type e <> 0 /\ fs_type e <> 5.

(** The sectors an extended partition that begins at [base] leads through, from [lba] on:
    the first entry of each is a logical partition, relative to the sector; the second is
    empty or leads to the next sector, relative to [base]. *)
Inductive chain (sec : Z -> list Z) (base : Z) : Z -> list item -> Prop :=
| chain_last lba e e1 e2 e3 :
    0 < lba <= max_lba -> partition_table (sec lba) = [e; e1; e2; e3] -> usable e -> 0 <= e_start_lba e -> lba + e_start_lba e < 2 ^ 32 ->
    fs_type e1 = 0 -> fs_type e2 = 0 -> fs_type e3 = 0 ->
    chain sec base lba [Logical (lba + e_start_lba e) (e_sec_cnt e)]
| chain_next lba e e1 e2 e3 l :
    0 < lba <= max_lba -> partition_table (sec lba) = [e; e1; e2; e3] -> usable e -> 0 <= e_start_lba e -> lba + e_start_lba e < 2 ^ 32 ->
    fs_type e1 = 5 -> chain sec base (e_start_lba e1 + base) l -> fs_type e2 = 0 -> fs_type e3 = 0 ->
    chain sec base lba (Logical (lba + e_start_lba e) (e_sec_cnt e) :: l).

(** The entries of the first sector: primary partitions, free entries, and at most one
    extended partition (none when the flag is set). *)
Inductive described (sec : Z -> list Z) : bool -> list partition_table_entry -> list item -> Prop :=
| ds_nil b : described sec b [] []
| ds_free b e es l : fs_type e = 0 -> described sec b es l -> described sec b (e :: es) l
| ds_prim b e es l : usable e -> 0 <= e_start_lba e < 2 ^ 32 -> described sec b es l -> described sec b (e :: es) (Primary (e_start_lba e) (e_sec_cnt e) :: l)
| ds_ext e es ls l : fs_type e = 5 -> chain sec (e_start_lba e) (e_start_lba e) ls -> described sec true es l -> described sec false (e :: es) (ls ++ l).

Definition primaries (l : list item) : list (Z * Z) := l ≫= fun i => match i with Primary s c => [(s, c)] | _ => [] end.
Definition logicals (l : list item) : list (Z * Z) := l ≫= fun i => match i with Logical s c => [(s, c)] | _ => [] end.

(** The name, in its array of 8 bytes: that of the disk and a number of up to two digits. *)
Definition part_name (disk : list Z) (no : Z) : list Z :=
  let n := disk ++ (if no <? 10 then [48 + no] else [48 + no / 10; 48 + no mod 10]) in n ++ replicate (8 - length n) 0.
Definition slots (disk : list Z) (first : Z) (l : list (Z * Z)) : list part :=
  imap (fun i p => mk_ptn p.1 p.2 (part_name disk (first + Z.of_nat i))) l.

(** The list of partitions: slots in the order they were found. *)
Fixpoint tags (hd : nat) (np nl : Z) (l : list item) : list (nat * slot) :=
  match l with
  | [] => []
  | Primary _ _ :: l => (hd, Prim np) :: tags hd (np + 1) nl l
  | Logical _ _ :: l => (hd, Logic nl) :: tags hd np (nl + 1) l
  end.

Definition disk_name (d : list Z) : Prop := exists c, 97 <= c <= 100 /\ d = [115; 100; c].

(** ** Lemmas *)
Lemma primaries_app l r : primaries (l ++ r) = primaries l ++ primaries r.
Proof. apply bind_app. Qed.
Lemma logicals_app l r : logicals (l ++ r) = logicals l ++ logicals r.
Proof. apply bind_app. Qed.

Lemma tags_app hd l : forall np nl r, tags hd np nl (l ++ r) = tags hd np nl l ++ tags hd (np + Z.of_nat (length (primaries l))) (nl + Z.of_nat (length (logicals l))) r.
Proof.
  induction l as [|[s c|s c] l IH]; intros np nl r; [simpl; by rewrite !Z.add_0_r|..]; cbn [tags app]; rewrite IH; f_equal; f_equal; f_equal;
    unfold primaries, logicals; rewrite !bind_cons, ?length_app; cbn [length app]; lia.
Qed.

Lemma slots_app disk first l s c : slots disk first (l ++ [(s, c)]) = slots disk first l ++ [mk_ptn s c (part_name disk (first + Z.of_nat (length l)))].
Proof. unfold slots. rewrite imap_app. f_equal. cbn. by rewrite Nat.add_0_r. Qed.

Lemma part_slots_length disk first l : length (slots disk first l) = length l.
Proof. apply length_imap. Qed.

(** The names [sprintf] makes, checked for the four disks and the twelve numbers. *)
Lemma part_name_ok disk no : disk_name disk -> 1 <= no <= 12 -> sprintf (replicate 8 0) (chars "%s%d") [VStr disk; VInt no] = Done (Z.of_nat (length (cname (part_name disk no))), part_name disk no).
Proof.
  intros (c & Hc & ->) Hno.
  assert (H : forallb (fun c => forallb (fun no =>
    match sprintf (replicate 8 0) (chars "%s%d") [VStr [115; 100; c]; VInt no] with
    | Done r => bool_decide (r = (Z.of_nat (length (cname (part_name [115; 100; c] no))), part_name [115; 100; c] no)) | _ => false end) (seqZ 1 12)) (seqZ 97 4) = true)
    by (vm_compute; reflexivity).
  apply (Fork.forallb_seqZ _ 97 4) with (i := c) in H; [|lia]. apply (Fork.forallb_seqZ _ 1 12) with (i := no) in H; [|lia].
  destruct (sprintf _ _ _) as [r| | |]; [|done..]. apply bool_decide_eq_true in H. by rewrite H.
Qed.

Lemma fill_ok disk first l n start cnt no :
  disk_name disk -> (length l < n)%nat -> no = first + Z.of_nat (length l) -> 1 <= no <= 12 ->
  fill (slots disk first l ++ replicate (n - length l) blank_part) (Z.of_nat (length l)) start cnt disk no =
  Done (slots disk first (l ++ [(start, cnt)]) ++ replicate (n - S (length l)) blank_part).
Proof.
  intros Hd Hl -> Hno. unfold fill. replace (n - length l)%nat with (S (n - S (length l))) by lia. cbn [replicate].
  rewrite (aget_Some _ _ blank_part); [|lia|rewrite lookup_app_r by (rewrite part_slots_length; lia); rewrite part_slots_length, Nat2Z.id, Nat.sub_diag; done].
  rewrite bind_done. cbn [pt_name blank_part]. rewrite part_name_ok, bind_done by done. rewrite aset_in by (rewrite length_app, part_slots_length; cbn [length]; lia).
  f_equal. rewrite Nat2Z.id, insert_app_r_alt by (rewrite part_slots_length; lia). rewrite part_slots_length, Nat.sub_diag. cbn. by rewrite slots_app, <- app_assoc.
Qed.

Section Found.
Context {D A : Type} `{BlockDev D} `{Alloc A}.
Implicit Types s : scan D A.

(** The arrays, the counters and the list after [l] was found, [tl] having been in the list. *)
Record found (hd : nat) (disk : list Z) (tl : list (nat * slot)) (l : list item) s : Prop := {
  fo_prim : prim_parts s = slots disk 1 (primaries l) ++ replicate (4 - length (primaries l)) blank_part;
  fo_pno : p_no s = Z.of_nat (length (primaries l));
  fo_logic : logic_parts s = slots disk 5 (logicals l) ++ replicate (8 - length (logicals l)) blank_part;
  fo_lno : l_no s = Z.of_nat (length (logicals l));
  fo_list : partition_list s = tl ++ tags hd 0 0 l
}.

(** What a scan leaves as it was. *)
Record kept (s s' : scan D A) : Prop := {
  kp_dev : bd_ok (sc_dev s');
  kp_sec : forall k, bd_sector (sc_dev s') k = bd_sector (sc_dev s) k;
  kp_mem : al_ok (sc_mem s');
  kp_live : forall q n, al_live (sc_mem s') q n <-> al_live (sc_mem s) q n
}.

Lemma kept_refl s : bd_ok (sc_dev s) -> al_ok (sc_mem s) -> kept s s.
Proof. by constructor. Qed.
Lemma kept_trans s s' s'' : kept s s' -> kept s' s'' -> kept s s''.
Proof. intros [A1 A2 A3 A4] [B1 B2 B3 B4]. constructor; [done|intros; by rewrite B2|done|intros; by rewrite B4]. Qed.

(** Filling a slot records an item. *)
Lemma add_primary hd disk tl l s start cnt :
  disk_name disk -> found hd disk tl l s -> (length (primaries l) < 3)%nat ->
  exists a, fill (prim_parts s) (p_no s) start cnt disk (p_no s + 1) = Done a /\ u8 (p_no s + 1) = Z.of_nat (length (primaries l)) + 1 /\
    found hd disk tl (l ++ [Primary start cnt])
      (mk_scan (sc_dev s) (sc_mem s) (ext_lba_base s) (u8 (p_no s + 1)) (l_no s) a (logic_parts s) (partition_list s ++ [(hd, Prim (p_no s))])).
Proof.
  intros Hd [F1 F2 F3 F4 F5] Hn. eexists. rewrite F1, F2, fill_ok by (done || lia). split; [done|]. assert (Hu : u8 (Z.of_nat (length (primaries l)) + 1) = Z.of_nat (length (primaries l)) + 1) by (apply u8_small; lia).
  split; [done|]. constructor; cbn [prim_parts p_no logic_parts l_no partition_list];
    rewrite ?primaries_app, ?logicals_app, ?tags_app; cbn [primaries logicals tags mbind list_bind]; rewrite ?app_nil_r, ?length_app; cbn [length app].
  - by rewrite Nat.add_1_r.
  - rewrite Hu. lia.
  - done.
  - done.
  - rewrite F5, <- app_assoc. done.
Qed.

Lemma add_logical hd disk tl l s start cnt :
  disk_name disk -> found hd disk tl l s -> (length (logicals l) < 8)%nat ->
  exists a, fill (logic_parts s) (l_no s) start cnt disk (l_no s + 5) = Done a /\ u8 (l_no s + 1) = Z.of_nat (length (logicals l)) + 1 /\
    found hd disk tl (l ++ [Logical start cnt])
      (mk_scan (sc_dev s) (sc_mem s) (ext_lba_base s) (p_no s) (u8 (l_no s + 1)) (prim_parts s) a (partition_list s ++ [(hd, Logic (l_no s))])).
Proof.
  intros Hd [F1 F2 F3 F4 F5] Hn. eexists. rewrite F3, F4, fill_ok by (done || lia). split; [done|]. assert (Hu : u8 (Z.of_nat (length (logicals l)) + 1) = Z.of_nat (length (logicals l)) + 1) by (apply u8_small; lia).
  split; [done|]. constructor; cbn [prim_parts p_no logic_parts l_no partition_list];
    rewrite ?primaries_app, ?logicals_app, ?tags_app; cbn [primaries logicals tags mbind list_bind]; rewrite ?app_nil_r, ?length_app; cbn [length app].
  - done.
  - done.
  - by rewrite Nat.add_1_r.
  - rewrite Hu. lia.
  - rewrite F5, <- app_assoc. done.
Qed.

Lemma found_with hd disk tl l s d m : found hd disk tl l s -> found hd disk tl l (with_sc d m s).
Proof. intros []. by constructor. Qed.

(** A call that reaches its end: the sector is read into a block that is given back. *)
Lemma scan_frame fuel hd disk s lba rest (Q : scan D A -> Prop) :
  bd_ok (sc_dev s) -> al_ok (sc_mem s) -> can_alloc (sc_mem s) (512 :: rest) -> 0 <= lba <= max_lba ->
  (forall d m, bd_ok d -> (forall k, bd_sector d k = bd_sector (sc_dev s) k) -> al_ok m -> can_alloc m rest ->
     exists s', scan_entries (partition_scan fuel hd disk) hd disk lba (partition_table (bd_sector (sc_dev s) lba)) (with_sc d m s) = Done (false, s') /\
       kept (with_sc d m s) s' /\ Q s' /\ forall d m, Q (with_sc d m s')) ->
  exists s', partition_scan (S fuel) hd disk s lba = Done s' /\ kept s s' /\ Q s'.
Proof.
  intros Hd Hm (b & m & Em & Hb & Hrest) Hlba Hbody. destruct (al_malloc_ok (sc_mem s) 512 Hm ltac:(lia)) as (b' & m' & Em' & Hm' & _ & Hl).
  rewrite Em in Em'. injection Em' as <- <-. specialize (Hm' (or_introl Hb)). destruct (Hl Hb) as (n & _ & Hlive & Hnew).
  destruct (bd_read_ok (sc_dev s) lba 1 Hd ltac:(lia) ltac:(lia) ltac:(lia)) as (d & Er & Hd' & Hsec).
  cbn [partition_scan]. rewrite Em, bind_done. cbn [fst snd]. rewrite (proj2 (Z.eqb_neq b 0) Hb), Er, bind_done. cbn [fst snd].
  assert (E1 : seqZ lba 1 ≫= bd_sector (sc_dev s) = bd_sector (sc_dev s) lba) by (rewrite seqZ_cons by lia; cbn; by rewrite app_nil_r). rewrite E1.
  destruct (Hbody d m Hd' Hsec Hm' Hrest) as (s' & -> & [K1 K2 K3 K4] & HQ & HQ'). rewrite bind_done.
  destruct (al_free_ok (sc_mem s') b n K3) as (m'' & Ef & Hm'' & Hlive''); [apply K4, Hlive; auto|]. rewrite Ef, bind_done.
  eexists. split; [done|]. split; [|apply HQ'].
  constructor; [done|intros k; rewrite <- Hsec; apply K2|done|]. intros q k. cbn [sc_mem with_sc]. rewrite Hlive'', K4. cbn [sc_mem with_sc]. rewrite Hlive.
  split; [intros [[?|[-> ?]] ?]; done|]. intros Hq. split; [by left|]. by eapply Hnew.
Qed.

(** A free entry is passed over; a logical partition is recorded. *)
Lemma free_step rec hd disk lba e es s : fs_type e = 0 -> scan_entries rec hd disk lba (e :: es) s = scan_entries rec hd disk lba es s.
Proof. intros He. cbn [scan_entries]. by rewrite He. Qed.

Lemma logical_step rec hd disk tl l lba e es s :
  disk_name disk -> found hd disk tl l s -> (length (logicals l) < 7)%nat -> usable e -> lba <> 0 -> 0 <= lba + e_start_lba e < 2 ^ 32 ->
  exists s', scan_entries rec hd disk lba (e :: es) s = scan_entries rec hd disk lba es s' /\
    found hd disk tl (l ++ [Logical (lba + e_start_lba e) (e_sec_cnt e)]) s' /\ sc_dev s' = sc_dev s /\ sc_mem s' = sc_mem s /\ ext_lba_base s' = ext_lba_base s.
Proof.
  intros Hdisk Hfo Hn [Hu1 Hu2] Hlba Hst. cbn [scan_entries]. rewrite (proj2 (Z.eqb_neq _ 5) Hu2), (proj2 (Z.eqb_neq _ 0) Hu1), (proj2 (Z.eqb_neq lba 0) Hlba). cbn [negb].
  rewrite (u32_small (lba + e_start_lba e)) by lia.
  destruct (add_logical hd disk tl l s (lba + e_start_lba e) (e_sec_cnt e) Hdisk Hfo ltac:(lia)) as (a & -> & Hu & Hfo'). rewrite bind_done. cbv zeta. cbn [l_no]. rewrite Hu in *.
  rewrite (proj2 (Z.leb_gt 8 _)) by lia. eexists. split; [reflexivity|]. split; [exact Hfo'|]. done.
Qed.

Lemma kept_same s s' s'' : sc_dev s' = sc_dev s -> sc_mem s' = sc_mem s -> kept s' s'' -> kept s s''.
Proof. intros E1 E2 [A1 A2 A3 A4]. rewrite E1 in A2. rewrite E2 in A4. by constructor. Qed.

(** An extended partition. *)
Lemma chain_scan sec base hd disk tl : disk_name disk -> base <> 0 -> forall lba ls, chain sec base lba ls -> forall fuel l s,
  (length ls <= fuel)%nat -> bd_ok (sc_dev s) -> (forall k, bd_sector (sc_dev s) k = sec k) -> al_ok (sc_mem s) ->
  can_alloc (sc_mem s) (replicate (length ls) 512) -> ext_lba_base s = base -> found hd disk tl l s ->
  (length (logicals l) + length ls <= 7)%nat ->
  exists s', partition_scan fuel hd disk s lba = Done s' /\ kept s s' /\ (found hd disk tl (l ++ ls) s' /\ ext_lba_base s' = base).
Proof.
  intros Hdisk Hbase. induction 1 as [lba e e1 e2 e3 Hlba Ht Hu Hs0 Hs1 H1 H2 H3|lba e e1 e2 e3 ls Hlba Ht Hu Hs0 Hs1 H1 Hch IH H2 H3];
    intros fuel l s Hf Hd Hsec Hm Hca Hb Hfo Hn; (destruct fuel as [|fuel]; [simpl in Hf; lia|]); cbn [length replicate] in *;
    (eapply scan_frame; [exact Hd|exact Hm|exact Hca|lia|]); intros d m Hd' Hsec' Hm' Hca'; rewrite Hsec, Ht;
    (destruct (logical_step (partition_scan fuel hd disk) hd disk tl l lba e [e1; e2; e3] (with_sc d m s)) as (s1 & -> & Hfo1 & E1 & E2 & E3); [done|by apply found_with|lia|done|lia|lia|]).
  - rewrite !free_step by done. exists s1. split; [done|]. split; [apply (kept_same _ s1); [done|done|apply kept_refl; [by rewrite E1|by rewrite E2]]|].
    rewrite <- Hb in *. split; [split; [exact Hfo1|exact E3]|]. intros d' m'. split; [by apply found_with|exact E3].
  - cbn [scan_entries]. rewrite H1. change (5 =? 5) with true. cbv iota. rewrite E3. cbn [ext_lba_base with_sc]. rewrite Hb, (proj2 (Z.eqb_neq base 0) Hbase). cbn [negb].
    assert (Hlt : 0 < e_start_lba e1 + base <= max_lba) by (by inversion Hch). rewrite (u32_small (e_start_lba e1 + base)) by (change max_lba with 163839 in Hlt; lia).
    destruct (IH fuel (l ++ [Logical (lba + e_start_lba e) (e_sec_cnt e)]) s1) as (s' & -> & Hk & Hfo2 & Hb2).
    + lia.
    + by rewrite E1.
    + intros k. rewrite E1. cbn [sc_dev with_sc]. by rewrite Hsec', Hsec.
    + by rewrite E2.
    + rewrite E2. exact Hca'.
    + rewrite E3. exact Hb.
    + exact Hfo1.
    + rewrite logicals_app, length_app. cbn [logicals mbind list_bind length app]. lia.
    + rewrite bind_done, H2, H3. change (0 =? 5) with false. change (0 =? 0) with true. cbn [negb]. cbv iota.
      exists s'. split; [done|]. split; [by apply (kept_same _ s1)|]. rewrite <- app_assoc in Hfo2. split; [split; [exact Hfo2|exact Hb2]|]. intros d' m'. split; [by apply found_with|exact Hb2].
Qed.

Lemma chain_bounds sec base lba ls : chain sec base lba ls -> 0 < lba <= max_lba /\ length (logicals ls) = length ls /\ primaries ls = [].
Proof.
  induction 1 as [|? ? ? ? ? ? ? ? ? ? ? ? ? IH]; [done|]. destruct IH as (_ & IH1 & IH2). split; [done|]. unfold logicals, primaries in *. rewrite !bind_cons. cbn [length app].
  rewrite IH1. done.
Qed.

Lemma can_alloc_app (m : A) l r : can_alloc m (l ++ r) -> can_alloc m l.
Proof. revert m. induction l as [|n l IH]; intros m; [done|]. intros (p & m' & E & Hp & Hr). exists p, m'. eauto. Qed.

(** The entries of the first sector. *)
Lemma described_scan sec hd disk tl fuel : disk_name disk -> forall b es r, described sec b es r -> forall l s,
  (length (logicals r) <= fuel)%nat -> bd_ok (sc_dev s) -> (forall k, bd_sector (sc_dev s) k = sec k) -> al_ok (sc_mem s) ->
  (b = false -> ext_lba_base s = 0 /\ can_alloc (sc_mem s) (replicate (length (logicals r)) 512)) -> found hd disk tl l s ->
  (length (primaries (l ++ r)) <= 3)%nat -> (length (logicals (l ++ r)) <= 7)%nat ->
  exists s', scan_entries (partition_scan fuel hd disk) hd disk 0 es s = Done (false, s') /\ kept s s' /\ found hd disk tl (l ++ r) s'.
Proof.
  intros Hdisk. induction 1 as [b|b e es r Hz _ IH|b e es r [Hu0 Hu5] Hst _ IH|e es ls r H5 Hch _ IH]; intros l s Hf Hd Hsec Hm Hb Hfo Hp Hl; cbn [scan_entries].
  - exists s. rewrite app_nil_r. split; [done|]. split; [by apply kept_refl|done].
  - rewrite Hz. cbn [Z.eqb negb]. by apply IH.
  - rewrite (proj2 (Z.eqb_neq _ 5) Hu5), (proj2 (Z.eqb_neq _ 0) Hu0). change (0 =? 0) with true. cbn [negb]. cbv iota. rewrite Z.add_0_l, u32_small by lia.
    rewrite primaries_app, length_app in Hp. change (primaries (Primary (e_start_lba e) (e_sec_cnt e) :: r)) with ((e_start_lba e, e_sec_cnt e) :: primaries r) in Hp. cbn [length] in Hp.
    destruct (add_primary hd disk tl l s (e_start_lba e) (e_sec_cnt e) Hdisk Hfo ltac:(lia)) as (a & -> & Hu & Hfo'). rewrite bind_done. cbv zeta. cbn [p_no]. assert_ok; [|rewrite Hu; apply Z.ltb_lt; lia].
    pose proof (fun a1 a2 a3 a4 => IH _ _ Hf a1 a2 a3 a4 Hfo') as IH'. destruct (IH' Hd Hsec Hm Hb) as (s' & Hrun & [K1 K2 K3 K4] & Hfo2).
    + rewrite !primaries_app, !length_app. cbn [primaries mbind list_bind length app]. lia.
    + rewrite <- app_assoc. exact Hl.
    + exists s'. split; [exact Hrun|]. split; [by constructor|]. by rewrite <- app_assoc in Hfo2.
  - destruct (Hb eq_refl) as [Hb0 Hca]. destruct (chain_bounds _ _ _ _ Hch) as (Hlba & Hlen & Hnp). rewrite logicals_app, length_app in Hf, Hca. rewrite replicate_add in Hca. apply can_alloc_app in Hca.
    rewrite H5. change (5 =? 5) with true. cbv iota. rewrite Hb0. change (negb (0 =? 0)) with false. cbv iota.
    assert (Hi : i32 (e_start_lba e) = e_start_lba e) by (change max_lba with 163839 in Hlba; unfold i32; zdiv). rewrite Hi.
    assert (Hfo1 : found hd disk tl l (with_base (e_start_lba e) s)) by (destruct Hfo; by constructor).
    rewrite !logicals_app, !length_app in Hl.
    destruct (chain_scan sec (e_start_lba e) hd disk tl Hdisk ltac:(lia) _ _ Hch fuel l (with_base (e_start_lba e) s)) as (s1 & -> & [K1 K2 K3 K4] & Hfo2 & _); try done; try lia.
    { by rewrite Hlen in Hca. }
    rewrite bind_done. destruct (IH (l ++ ls) s1) as (s' & -> & K' & Hfo'); try done; try lia.
    + intros k. by rewrite K2.
    + by rewrite <- app_assoc.
    + rewrite <- app_assoc, !logicals_app, !length_app. lia.
    + exists s'. split; [done|]. split; [by apply (kept_trans s s1); [constructor|]|]. by rewrite <- app_assoc in Hfo'.
Qed.

(** ** Properties *)

(** C39. Scanning a disk: when the first sector describes at most three primary partitions and
    at most one extended partition, whose chain of sectors holds at most seven logical
    ones, and the heap has a block for every sector on the way, [partition_scan] ends.
    It has found exactly the partitions the tables describe, in their order: primary ones
    in the first array and numbered from 1, logical ones in the second and numbered from
    5, each with its absolute first sector, its size and its name; the disk is as it was
    and every block of memory has been given back. It starts with blank arrays and with
    [ext_lba_base] 0. *)
Theorem partition_scan_finds fuel hd disk s l :
  disk_name disk -> bd_ok (sc_dev s) -> al_ok (sc_mem s) -> found hd disk (partition_list s) [] s -> ext_lba_base s = 0 ->
  described (bd_sector (sc_dev s)) false (partition_table (bd_sector (sc_dev s) 0)) l ->
  (length (primaries l) <= 3)%nat -> (length (logicals l) <= 7)%nat -> (length (logicals l) < fuel)%nat ->
  can_alloc (sc_mem s) (replicate (S (length (logicals l))) 512) ->
  exists s', partition_scan fuel hd disk s 0 = Done s' /\
    prim_parts s' = slots disk 1 (primaries l) ++ replicate (4 - length (primaries l)) blank_part /\
    logic_parts s' = slots disk 5 (logicals l) ++ replicate (8 - length (logicals l)) blank_part /\
    partition_list s' = partition_list s ++ tags hd 0 0 l /\
    bd_ok (sc_dev s') /\ (forall k, bd_sector (sc_dev s') k = bd_sector (sc_dev s) k) /\
    al_ok (sc_mem s') /\ forall q n, al_live (sc_mem s') q n <-> al_live (sc_mem s) q n.
Proof.
  intros Hdisk Hd Hm Hfo Hb Hdes Hp Hl Hf Hca. destruct fuel as [|fuel]; [lia|].
  edestruct (scan_frame fuel hd disk s 0) with (Q := found hd disk (partition_list s) l) as (s' & Hrun & [K1 K2 K3 K4] & [F1 F2 F3 F4 F5]); [done|done|exact Hca|done| |exists s'; done].
  intros d m Hd' Hsec Hm' Hca'. destruct (described_scan _ hd disk (partition_list s) fuel Hdisk _ _ _ Hdes [] (with_sc d m s)) as (s' & H1 & H2 & H3); try done; try lia.
  - by apply found_with.
  - exists s'. split; [exact H1|]. split; [done|]. split; [exact H3|]. intros d' m'. apply found_with. exact H3.
Qed.
End Found.

(** ** Witness

    A disk with a primary partition and an extended one that holds two logical ones. *)
Definition pentry_bytes (type start cnt : Z) : list Z := [0; 0; 0; 0; type; 0; 0; 0] ++ le4 start ++ le4 cnt.
Definition table_sector (e1 e2 : list Z) : list Z := replicate 446 0 ++ e1 ++ e2 ++ replicate 32 0 ++ [0x55; 0xaa].
Definition sample_tables : gmap Z (list Z) :=
  <[0 := table_sector (pentry_bytes 0x83 2048 4708) (pentry_bytes 5 8192 9000)]>
    (<[8192 := table_sector (pentry_bytes 0x66 63 3000) (pentry_bytes 5 4000 5000)]>
      (<[12192 := table_sector (pentry_bytes 0x66 63 4000) (replicate 16 0)]> ∅)).
Definition sample_hd : disk := mk_disk (mk_channel 0 0 0 0 0 0 false false 0 (fun k => if k =? 1 then sample_tables else ∅) (fun _ => []) sample_status) 0 1.
Definition sample_scan : scan disk (heap (P := Paging.vm)) :=
  mk_scan sample_hd sample_heap 0 0 0 (replicate 4 blank_part) (replicate 8 blank_part) [].

Lemma sample_hd_ok : bd_ok sample_hd.
Proof.
  split; [done|]. split; [by right|]. split; [exists 2%nat; vm_compute; reflexivity|]. split; [done|].
  intros lba c Hc. change (sample_tables !! lba = Some c) in Hc. unfold sample_tables in Hc.
  repeat (apply lookup_insert_Some in Hc as [[_ <-]|[_ Hc]]; [vm_compute; reflexivity|]). by apply lookup_empty_Some in Hc.
Qed.

Definition sample_items : list item := [Primary 2048 4708; Logical 8255 3000; Logical 12255 4000].

Lemma sample_described : described (bd_sector sample_hd) false (partition_table (bd_sector sample_hd 0)) sample_items.
Proof.
  assert (E0 : partition_table (bd_sector sample_hd 0) = [mk_pentry 0 0 0 0 0x83 0 0 0 2048 4708; mk_pentry 0 0 0 0 5 0 0 0 8192 9000; mk_pentry 0 0 0 0 0 0 0 0 0 0; mk_pentry 0 0 0 0 0 0 0 0 0 0])
    by (vm_compute; reflexivity).
  assert (E1 : partition_table (bd_sector sample_hd 8192) = [mk_pentry 0 0 0 0 0x66 0 0 0 63 3000; mk_pentry 0 0 0 0 5 0 0 0 4000 5000; mk_pentry 0 0 0 0 0 0 0 0 0 0; mk_pentry 0 0 0 0 0 0 0 0 0 0])
    by (vm_compute; reflexivity).
  assert (E2 : partition_table (bd_sector sample_hd 12192) = [mk_pentry 0 0 0 0 0x66 0 0 0 63 4000; mk_pentry 0 0 0 0 0 0 0 0 0 0; mk_pentry 0 0 0 0 0 0 0 0 0 0; mk_pentry 0 0 0 0 0 0 0 0 0 0])
    by (vm_compute; reflexivity).
  rewrite E0. apply (ds_prim _ false (mk_pentry 0 0 0 0 0x83 0 0 0 2048 4708)); [split; discriminate|simpl; lia|].
  apply (ds_ext _ (mk_pentry 0 0 0 0 5 0 0 0 8192 9000) _ [Logical 8255 3000; Logical 12255 4000] []); [done| |apply ds_free; [done|]; apply ds_free; [done|]; apply ds_nil].
  assert (Hmax : max_lba = 163839) by reflexivity.
  eapply (chain_next _ _ 8192 (mk_pentry 0 0 0 0 0x66 0 0 0 63 3000)); [lia|exact E1|split; discriminate|simpl; lia|simpl; lia|done| |done|done].
  eapply (chain_last _ _ 12192 (mk_pentry 0 0 0 0 0x66 0 0 0 63 4000)); [lia|exact E2|split; discriminate|simpl; lia|simpl; lia|done..].
Qed.

Lemma partition_scan_finds_witness :
  exists s', partition_scan 8 1 [115; 100; 98] sample_scan 0 = Done s' /\ partition_list s' = [(1%nat, Prim 0); (1%nat, Logic 0); (1%nat, Logic 1)] /\
    nth 1 (logic_parts s') blank_part = mk_ptn 12255 4000 [115; 100; 98; 54; 0; 0; 0; 0].
Proof.
  destruct (partition_scan_finds 8 1 [115; 100; 98] sample_scan sample_items) as (s' & H1 & _ & H2 & H3 & _).
  - exists 98. split; [lia|reflexivity].
  - exact sample_hd_ok.
  - exact sample_heap_ok.
  - constructor; reflexivity.
  - reflexivity.
  - exact sample_described.
  - vm_compute. lia.
  - vm_compute. lia.
  - vm_compute. lia.
  - apply can_allocb_sound. vm_compute. reflexivity.
  - exists s'. split; [exact H1|]. split; [exact H3|]. rewrite H2. reflexivity.
Defined.
