(* ===== verification/Ps.v ===== *)
(** * Listing the tasks (thread/thread.c: pad_print, elem2thread_info, sys_ps; shell/buildin_cmd.c: buildin_ps)

    Every column is made in a buffer of 16 bytes, filled with spaces, and 15 of them are
    written to the standard output. *)
From stdpp Require Import base numbers list option tactics gmap fin_maps.
From Stdlib Require Import ZArith Lia.
From Stdlib Require String.
Import String.StringSyntax.
From S2P Require Import Prelude Bitmap Cpu Stdio Sched Sync Ioqueue Ide Heap Iface Inode File FileIo Dir Io Builtin Stdout Fork.

(** What [ptr] points to, by the format: a string, the [int16_t] and the [uint32_t] at an
    address, the [uint32_t]. *)
Inductive pad_arg := PadS (s : list Z) | PadD (h w : Z) | PadX (w : Z).

Definition out_pad_len : Z := 16.

(** The [switch]: case d has no [break]. *)
Definition pad_text (a : pad_arg) : outcome (Z * list Z) :=
  let buf := replicate 16 0 in
  match a with
  | PadS s => sprintf buf (chars "%s") [VStr s]
  | PadD h w => r ← sprintf buf (chars "%d") [VInt h]; sprintf r.2 (chars "%x") [VInt w]
  | PadX w => sprintf buf (chars "%x") [VInt w]
  end.

(** while (out_pad_0idx < buf_len) buf[out_pad_0idx++] = ' '; *)
Fixpoint pad_spaces (buf : list Z) (idx : Z) (n : nat) : outcome (list Z) :=
  match n with
  | O => Done buf
  | S n => if idx <? out_pad_len then b ← aset buf idx 32; pad_spaces b (idx + 1) n else Done buf
  end.

(** The bytes it writes. *)
Definition pad_print (a : pad_arg) : outcome (list Z) :=
  r ← pad_text a;
  b ← pad_spaces r.2 (u8 r.1) 16;
  Done (take (Z.to_nat (out_pad_len - 1)) b).

Definition status_text (s : task_status) : list Z :=
  match s with
  | TASK_RUNNING => chars "RUNNING" | TASK_READY => chars "READY" | TASK_BLOCKED => chars "BLOCKED"
  | TASK_WAITING => chars "WAITING" | TASK_HANGING => chars "HANGING" | TASK_DIED => chars "DIED"
  end.

(** The name, [strlen] bytes, and a newline; [strcat] writes a 0 behind it. *)
Definition name_line (name : list Z) : outcome (list Z) :=
  ASSERT (Z.of_nat (length name) <? 17);;
  b ← memcpy_to (replicate 16 0) 0 name;
  b ← aset b (Z.of_nat (length name)) 10;
  b ← aset b (Z.of_nat (length name) + 1) 0;
  Done (name ++ [10]).

(** The five writes for a task; behind [pid] and [parent_pid] lie two bytes of padding. *)
Definition elem2thread_info (p : task_struct) : outcome (list (list Z)) :=
  c1 ← pad_print (PadD (i16 (pid p)) (u16 (pid p)));
  c2 ← (if parent_pid p =? -1 then pad_print (PadS (chars "NULL")) else pad_print (PadD (parent_pid p) (u16 (parent_pid p))));
  c3 ← pad_print (PadS (status_text (Sched.status p)));
  c4 ← pad_print (PadX (elapsed_ticks p));
  c5 ← name_line (name p);
  Done [c1; c2; c3; c4; c5].

Definition ps_title : list Z := chars "PID            PPID           STAT           TICKS          COMMAND" ++ [10].

Section Ps.
Context {D P : Type} `{BlockDev D} `{PageStore P}.
Abbreviation mach := (io (D := D) (P := P)) (only parsing).

Fixpoint write_all (x : mach) (texts : list (list Z)) : outcome mach :=
  match texts with [] => Done x | t :: texts => x ← write_stdout x t; write_all x texts end.

(** [list_traversal] of [elem2thread_info] over the list of all tasks. *)
Fixpoint ps_rows (x : mach) (ts : list Z) : outcome mach :=
  match ts with
  | [] => Done x
  | t :: ts => p ← task_at (io_sched x) t; l ← elem2thread_info p; x ← write_all x l; ps_rows x ts
  end.

Definition sys_ps (x : mach) : outcome mach :=
  x ← write_all x [ps_title];
  ps_rows x (all (io_sched x)).

Definition buildin_ps (x : mach) (argc : Z) : outcome mach :=
  if negb (argc =? 1) then print x (msg "ps: no argument support!" []) else sys_ps x.
End Ps.

(** ** Specification *)

(** A text of up to 15 bytes in a column. *)
Definition column (t : list Z) : list Z := t ++ replicate (15 - length t) 32.

(** A number as the two formats leave it: the hexadecimal numeral over the decimal one. *)
Definition decimal (n : Z) : list Z := digit_char <$> digits itoa_fuel 10 n.
Definition hexadecimal (n : Z) : list Z := digit_char <$> digits itoa_fuel 16 n.
Definition overprinted (n : Z) : list Z := hexadecimal n ++ drop (length (hexadecimal n)) (decimal n).

(** ** Lemmas *)
Lemma pad_spaces_ok n : forall t k, (length t + k = 16)%nat -> (k <= n)%nat -> pad_spaces (t ++ replicate k 0) (Z.of_nat (length t)) n = Done (t ++ replicate k 32).
Proof.
  induction n as [|n IH]; intros t k Hl Hk; [by replace k with 0%nat by lia|]. cbn [pad_spaces]. unfold out_pad_len. destruct k as [|k].
  - destruct (Z.ltb_spec (Z.of_nat (length t)) 16); [lia|done].
  - destruct (Z.ltb_spec (Z.of_nat (length t)) 16); [|lia]. rewrite aset_in by (rewrite length_app, length_replicate; lia). rewrite bind_done, Nat2Z.id.
    cbn [replicate]. rewrite insert_app_r_alt, Nat.sub_diag by done. cbn [list_insert insert]. specialize (IH (t ++ [32]) k). rewrite length_app in IH. cbn [length] in IH.
    replace (Z.of_nat (length t) + 1) with (Z.of_nat (length t + 1)) by lia. change (32 :: replicate k 0) with ([32] ++ replicate k 0). rewrite app_assoc, IH by lia. by rewrite <- app_assoc.
Qed.

Lemma pad_print_ok a t : (length t <= 15)%nat -> pad_text a = Done (Z.of_nat (length t), t ++ replicate (16 - length t) 0) -> pad_print a = Done (column t).
Proof.
  intros Hl Ha. unfold pad_print. rewrite Ha, bind_done. cbn [fst snd]. rewrite u8_small by lia. rewrite pad_spaces_ok, bind_done by lia. f_equal. unfold column, out_pad_len.
  change (Z.to_nat (16 - 1)) with 15%nat. rewrite take_app, take_ge by lia. f_equal. rewrite take_replicate. f_equal. lia.
Qed.

Lemma pad_string s : (length s <= 15)%nat -> Forall (fun c => 0 < c < 256) s -> pad_print (PadS s) = Done (column s).
Proof.
  intros Hl Hs. apply pad_print_ok; [done|]. cbn [pad_text]. unfold sprintf. apply vsprintf_zeroed; [|done|lia|lia].
  change (Some (s ++ []) = Some s). by rewrite app_nil_r.
Qed.

Lemma digits_length fuel base v k : 2 <= base -> 0 <= v < base ^ Z.of_nat (S k) -> (length (digits fuel base v) <= S k)%nat.
Proof.
  intros Hb. revert v k. induction fuel as [|fuel IH]; intros v k Hv; cbn [digits]; [simpl; lia|]. rewrite length_app. cbn [length].
  destruct (Z.eqb_spec (v / base) 0) as [E|E]; [simpl; lia|]. destruct k as [|k].
  - change (Z.of_nat 1) with 1 in Hv. rewrite Z.pow_1_r in Hv. rewrite Z.div_small in E by lia. done.
  - specialize (IH (v / base) k). rewrite Nat2Z.inj_succ, Z.pow_succ_r in Hv by lia.
    assert (0 <= v / base < base ^ Z.of_nat (S k)) by (split; [apply Z.div_pos; lia|apply Z.div_lt_upper_bound; lia]). specialize (IH ltac:(done)). lia.
Qed.

Lemma digit_char_print d : 0 <= d < 16 -> 0 < digit_char d < 256.
Proof. unfold digit_char. intros. zbool; lia. Qed.

Lemma pad_hex w : is_u32 w -> pad_print (PadX w) = Done (column (hexadecimal w)).
Proof.
  unfold is_u32. intros Hw. assert (Hl : (length (hexadecimal w) <= 8)%nat) by (unfold hexadecimal; rewrite length_fmap; apply (digits_length _ 16 w 7); [lia|change (Z.of_nat 8) with 8; lia]).
  apply pad_print_ok; [lia|]. cbn [pad_text]. unfold sprintf. apply vsprintf_zeroed; [| |lia|lia].
  - change (Some ((digit_char <$> digits itoa_fuel 16 (u32 w)) ++ []) = Some (hexadecimal w)). rewrite app_nil_r, u32_small by lia. done.
  - apply Forall_fmap. eapply Forall_impl; [exact (digits_bound itoa_fuel 16 w ltac:(lia) ltac:(lia))|]. intros d Hd. by apply digit_char_print.
Qed.

(** The numbers of processes, checked one by one: there are 1024 of them. *)
Lemma pad_number n : 0 <= n <= 1024 -> pad_print (PadD n n) = Done (column (overprinted n)) /\ (overprinted n = decimal n <-> n < 10).
Proof.
  intros Hn.
  assert (H : forallb (fun n => match pad_print (PadD n n) with Done t => bool_decide (t = column (overprinted n)) | _ => false end &&
    eqb (bool_decide (overprinted n = decimal n)) (n <? 10)) (seqZ 0 1025) = true) by (vm_compute; reflexivity).
  apply (forallb_seqZ _ 0 1025) with (i := n) in H; [|lia]. apply andb_true_iff in H as [H1 H2].
  split; [destruct (pad_print _); [|done..]; apply bool_decide_eq_true in H1; by rewrite H1|]. apply eqb_prop in H2. rewrite <- Z.ltb_lt, <- H2. symmetry. apply bool_decide_eq_true.
Qed.

(** ** Properties *)

(** The row of [ps] for a task. The state, the processor time in hexadecimal and the
    name stand in their columns of 15 characters; the numbers of the task and of its
    parent do not: for want of a [break] the hexadecimal numeral is printed over the decimal one, which
    gives the number itself below 10 only. And a name of 15 characters, the longest a
    task can have, does not fit the buffer with its newline: a byte is written behind it. *)
Theorem ps_row p :
  0 <= pid p <= 1024 -> (parent_pid p = -1 \/ 0 <= parent_pid p <= 1024) -> is_u32 (elapsed_ticks p) ->
  (length (name p) <= 15)%nat ->
  (forall n, 0 <= n <= 1024 -> overprinted n = decimal n <-> n < 10) /\
  if decide (length (name p) = 15%nat) then elem2thread_info p = Fault else
  elem2thread_info p = Done [column (overprinted (pid p)); column (if decide (parent_pid p = -1) then chars "NULL" else overprinted (parent_pid p));
    column (status_text (Sched.status p)); column (hexadecimal (elapsed_ticks p)); name p ++ [10]].
Proof.
  intros Hp Hpp He Hn. split; [intros n Hr; by apply pad_number|]. unfold elem2thread_info.
  assert (E1 : i16 (pid p) = pid p /\ u16 (pid p) = pid p) by (unfold i16, u16; zdiv). destruct E1 as [-> ->].
  rewrite (proj1 (pad_number _ Hp)), bind_done.
  assert (E2 : (if parent_pid p =? -1 then pad_print (PadS (chars "NULL")) else pad_print (PadD (parent_pid p) (u16 (parent_pid p)))) =
    Done (column (if decide (parent_pid p = -1) then chars "NULL" else overprinted (parent_pid p)))).
  { destruct (Z.eqb_spec (parent_pid p) (-1)) as [E|E]; [rewrite decide_True by done; reflexivity|]. rewrite decide_False by done. destruct Hpp as [?|Hpp]; [done|].
    assert (Eu : u16 (parent_pid p) = parent_pid p) by (unfold u16; zdiv). rewrite Eu. apply (pad_number _ Hpp). }
  rewrite E2, bind_done. assert (E3 : pad_print (PadS (status_text (Sched.status p))) = Done (column (status_text (Sched.status p)))) by (by destruct (Sched.status p)).
  rewrite E3, bind_done, pad_hex, bind_done by done. unfold name_line. assert_ok; [|apply Z.ltb_lt; lia].
  assert (Em : exists b, memcpy_to (replicate 16 0) 0 (name p) = Done b /\ length b = 16%nat).
  { unfold memcpy_to. rewrite decide_True by (simpl length; lia). eexists. split; [done|]. rewrite !length_app, length_drop. simpl. lia. }
  destruct Em as (b & -> & Hb). rewrite bind_done.
  rewrite aset_in by lia. rewrite bind_done. destruct (decide (length (name p) = 15%nat)) as [E|E]; [|rewrite aset_in by (rewrite length_insert; lia); done].
  rewrite aset_out; [done|]. rewrite length_insert. lia.
Qed.

Definition sample_row : task_struct := mk_task 0 12 TASK_READY 31 (chars "shell") 31 255 0 [] 0 1 0 STACK_MAGIC None.

Lemma ps_row_witness : exists l, elem2thread_info sample_row = Done l /\ l !! 0%nat = Some (chars "C2             ").
Proof.
  destruct (ps_row sample_row) as [_ H].
  - cbn. lia.
  - right. cbn. lia.
  - unfold is_u32. cbn. lia.
  - cbn. lia.
  - eexists. split; [exact H|]. vm_compute. reflexivity.
Defined.
