(* ===== verification/Pipeline.v ===== *)
(** * Running command lines (shell/shell.c: cmd_execute, my_shell)

    A command line is a command or several joined by [|], which share one pipe. The
    commands the shell runs in other processes are a parameter: what a program does is not
    the shell's code. Clearing [cmd_line] and [cwd_cache] is left out: 512 bytes of arrays
    of 128 and 64 are cleared. *)
From stdpp Require Import base numbers list option tactics gmap fin_maps.
From Stdlib Require Import ZArith Lia.
From Stdlib Require String.
Import String.StringSyntax.
From S2P Require Import Prelude Bitmap Cpu Sched Sync Ioqueue Stdio Ide Heap Iface Inode File FileIo Dir Path Calls Io Builtin Stdout Shell Ps.

Definition bar : Z := 124.
Definition space : Z := 32.

(** [strchr(each_cmd, '|')] and the 0 put there: the command and what follows. *)
Fixpoint cut (cmd : list Z) : option (list Z * list Z) :=
  match cmd with
  | [] => None
  | c :: cmd => if decide (c = bar) then Some ([], cmd) else p ← cut cmd; Some (c :: p.1, p.2)
  end.

(** The strings [argv] points to. *)
Definition argv_strings (argv : list (option Z)) (buf : list Z) : list (list Z) := (fun o => cname (drop (Z.to_nat o) buf)) <$> omap id argv.

Section Pipeline.
Context {D P : Type} `{BlockDev D} `{PageStore P}.
Abbreviation mach := (io (D := D) (P := P)) (only parsing).

(** ** One command *)

(** What the child of [fork] does: leave with a status, or run the program at a path. *)
Inductive child_step := Exit (status : Z) | Execv (path : list Z).
Definition child_command (fuel : nat) (x : mach) (argv0 : list Z) (junk : Z) : outcome (child_step * mach) :=
  r ← make_clear_abs_path fuel (io_fs x) argv0;
  let '(final_path, s) := r in
  r ← sys_stat s final_path junk;
  let x := with_io_fs r.2 x in
  match r.1 with
  | None => x ← print x (msg "my_shell: cannot access %s: No such file or directory" [VStr final_path]); Done (Exit (-1), x)
  | Some _ => Done (Execv final_path, x)
  end.

(** [external argv x]: another process was started, ran and was waited for; what [wait]
    returned, and the status. The second component of the result is [cwd_cache]. [strcmp]
    stops on NULL. What a command prints touches nothing its calls do, and is printed at
    its end. *)
Definition cmd_execute (external : list (list Z) -> mach -> outcome (Z * Z * mach)) (fuel : nat) (junk : Z) (name : list Z) (argc : Z) (argv : list (list Z)) (cwd_cache : list Z) (x : mach)
    : outcome (list Z * mach) :=
  match argv with
  | [] => Panic
  | argv0 :: args =>
      if bool_decide (argv0 = chars "ls") then
        r ← buildin_ls fuel (io_fs x) args junk;
        x ← print_all (with_io_fs r.2 x) r.1; Done (cwd_cache, x)
      else if bool_decide (argv0 = chars "cd") then
        r ← buildin_cd fuel (io_fs x) args junk;
        x ← print_all (with_io_fs r.2 x) r.1.2;
        Done (match r.1.1 with Some final_path => final_path | None => cwd_cache end, x)
      else if bool_decide (argv0 = chars "pwd") then
        r ← buildin_pwd fuel (io_fs x) args;
        x ← print_all (with_io_fs r.2 x) r.1; Done (cwd_cache, x)
      else if bool_decide (argv0 = chars "ps") then
        x ← buildin_ps x argc; Done (cwd_cache, x)
      else if bool_decide (argv0 = chars "clear") then
        x ← buildin_clear x argc; Done (cwd_cache, x)
      else if bool_decide (argv0 = chars "mkdir") then
        r ← buildin_mkdir fuel (io_fs x) args junk name;
        x ← print_all (with_io_fs r.2 x) r.1.2; Done (cwd_cache, x)
      else if bool_decide (argv0 = chars "rmdir") then
        r ← buildin_rmdir fuel (io_fs x) args junk;
        x ← print_all (with_io_fs r.2 x) r.1.2; Done (cwd_cache, x)
      else if bool_decide (argv0 = chars "rm") then
        r ← buildin_rm fuel (io_fs x) args junk;
        x ← print_all (with_io_fs r.2 x) r.1.2; Done (cwd_cache, x)
      else if bool_decide (argv0 = chars "help") then x ← buildin_help x; Done (cwd_cache, x)
      else
        r ← external argv x;
        let '(child_pid, status, x) := r in
        if child_pid =? -1 then Panic else
        x ← print x (msg "child_pid %d, it's status: %d" [VInt child_pid; VInt status]);
        Done (cwd_cache, x)
  end.

(** ** A line *)
Section Line.
(** The command that is run, as [cmd_execute]; the shell's state beside [x] is [C]. *)
Context {C : Type} (execute : Z -> list (list Z) -> C -> mach -> outcome (C * mach)).

Definition run_command (each_cmd : list Z) (st : C * mach) : outcome (C * mach) :=
  r ← cmd_parse (each_cmd ++ [0]) space;
  let '(argc, argv, buf) := r in
  execute argc (argv_strings argv buf) st.1 st.2.

Definition redirect (old_local_fd new_local_fd : Z) (st : C * mach) : outcome (C * mach) :=
  s ← sys_fd_redirect (io_fs st.2) old_local_fd new_local_fd;
  Done (st.1, with_io_fs s st.2).

(** The loop over the commands in the middle: the last command is left. *)
Fixpoint middle_commands (n : nat) (each_cmd : list Z) (st : C * mach) : outcome (list Z * (C * mach)) :=
  match n with
  | O => Diverge
  | S n =>
      match cut each_cmd with
      | None => Done (each_cmd, st)
      | Some (cmd, rest) => st ← run_command cmd st; middle_commands n rest st
      end
  end.

Definition run_pipeline (cmd_line : list Z) (st : C * mach) : outcome (C * mach) :=
  match cut cmd_line with
  | None => Fault
  | Some (each_cmd, rest) =>
      r ← sys_pipe st.2;
      let '(_, (fd0, fd1), x) := r in
      st ← redirect 1 fd1 (st.1, x);
      st ← run_command each_cmd st;
      st ← redirect 0 fd0 st;
      r ← middle_commands (S (length rest)) rest st;
      let '(each_cmd, st) := r in
      st ← redirect 1 1 st;
      st ← run_command each_cmd st;
      st ← redirect 0 0 st;
      r ← sys_close st.2 fd0;
      r ← sys_close r.2 fd1;
      Done (st.1, r.2)
  end.

(** The body of the loop of [my_shell], behind [readline]. *)
Definition my_shell (cmd_line : list Z) (st : C * mach) : outcome (C * mach) :=
  match cmd_line with
  | [] => Done st
  | _ =>
      if decide (bar ∈ cmd_line) then run_pipeline cmd_line st else
      r ← cmd_parse (cmd_line ++ [0]) space;
      let '(argc, argv, buf) := r in
      if argc =? -1 then x ← print st.2 (msg "num of arguments exceed %d" [VInt MAX_ARG_NR]); Done (st.1, x) else execute argc (argv_strings argv buf) st.1 st.2
  end.
End Line.

(** A turn of that loop with [cwd_cache] as the shell's state: [readline] yields [cmd_line]. *)
Definition shell_turn (external : list (list Z) -> mach -> outcome (Z * Z * mach)) (fuel : nat) (junk : Z) (name cmd_line : list Z) (st : list Z * mach) : outcome (list Z * mach) :=
  x ← print_prompt st.2 st.1;
  my_shell (cmd_execute external fuel junk name) cmd_line (st.1, x).
End Pipeline.

(** ** Specification *)

(** The commands of a line. *)
Fixpoint commands (l : list Z) : list (list Z) :=
  match l with
  | [] => [[]]
  | c :: l => if decide (c = bar) then [] :: commands l else match commands l with w :: ws => (c :: w) :: ws | [] => [[c]] end
  end.

Lemma cut_commands l : match cut l with None => commands l = [l] /\ bar ∉ l | Some (a, b) => commands l = a :: commands b /\ (length b < length l)%nat end.
Proof.
  induction l as [|c l IH]; cbn [cut commands]; [split; [done|apply not_elem_of_nil]|]. case_decide as E; [split; [done|simpl; lia]|].
  destruct (cut l) as [[a b]|]; cbn [mbind option_bind]; destruct IH as [-> IH]; [split; [done|simpl; lia]|split; [done|]]. rewrite not_elem_of_cons. done.
Qed.

Section Plumbing.
Context {D P : Type} `{BlockDev D} `{PageStore P} {C : Type}.
Abbreviation mach := (io (D := D) (P := P)) (only parsing).
Variable execute : Z -> list (list Z) -> C -> mach -> outcome (C * mach).

(** Where the standard input and output of a command lead. *)
Definition std (st : C * mach) (gin gout : Z) : Prop := fd_table (io_fs st.2) !! 0%nat = Some gin /\ fd_table (io_fs st.2) !! 1%nat = Some gout.

(** Only descriptors have changed. *)
Definition link (a b : C * mach) : Prop := exists t, b = (a.1, with_io_fs (with_fd_table t (io_fs a.2)) a.2).

(** Commands run one after the other, all with input [gin] and output [gout]. *)
Inductive chained (gin gout : Z) : list (list Z) -> C * mach -> C * mach -> Prop :=
| ch_nil st : chained gin gout [] st st
| ch_cons c cs a b z : std a gin gout -> run_command execute c a = Done b -> chained gin gout cs b z -> chained gin gout (c :: cs) a z.

(** The pipe between its making and its closing: descriptors [r] and [w] and the standard
    ones lead where they are to; file [g] is the pipe in page [p]. *)
Record plumbed (x0 : mach) (g p r w gin gout : Z) (x : mach) : Prop := {
  pl_fds : fd_table (io_fs x) = <[1%nat := gout]> (<[0%nat := gin]> (<[Z.to_nat w := g]> (<[Z.to_nat r := g]> (fd_table (io_fs x0)))));
  pl_file : file_table (io_fs x) !! Z.to_nat g = Some (mk_file 2 PIPE_FLAG p);
  pl_ok : ps_ok (pages (mem (io_fs x)));
  pl_page : ps_page (pages (mem (io_fs x))) p
}.

(** A command that leaves the plumbing alone. *)
Definition harmless (x0 : mach) (g p r w : Z) (c : list Z) : Prop := forall gin gout st, plumbed x0 g p r w gin gout st.2 ->
  exists st', run_command execute c st = Done st' /\ plumbed x0 g p r w gin gout st'.2.

Section Steps.
Context (x0 : mach) (g p r w : Z).
Hypothesis (Ht : length (fd_table (io_fs x0)) = 8%nat) (Hg : 3 <= g < 32) (Hr : 3 <= r < w) (Hw : w < 8).

Lemma plumbed_std gin gout st : plumbed x0 g p r w gin gout st.2 -> std st gin gout.
Proof.
  unfold std. intros [-> _ _ _]. split; [rewrite list_lookup_insert_ne by done|]; apply list_lookup_insert_eq; rewrite !length_insert; lia.
Qed.

(** The two redirections onto the pipe and the two back. *)
Lemma redirect_ok gin gout st (k n v : Z) : plumbed x0 g p r w gin gout st.2 -> (k = 0 \/ k = 1) -> (n = k /\ v = k \/ (n = r \/ n = w) /\ v = g) ->
  exists st', redirect k n st = Done st' /\ link st st' /\ plumbed x0 g p r w (if k =? 0 then v else gin) (if k =? 0 then gout else v) st'.2.
Proof.
  intros [F1 F2 F3 F4] Hk Hn. unfold redirect, sys_fd_redirect.
  assert (Hlen : length (fd_table (io_fs st.2)) = 8%nat) by (rewrite F1, !length_insert; done).
  assert (Hset : (if n <? 3 then l ← aset (fd_table (io_fs st.2)) k n; Done (with_fd_table l (io_fs st.2))
      else new_global_fd ← aget (fd_table (io_fs st.2)) n; l ← aset (fd_table (io_fs st.2)) k new_global_fd; Done (with_fd_table l (io_fs st.2))) =
      Done (with_fd_table (<[Z.to_nat k := v]> (fd_table (io_fs st.2))) (io_fs st.2))).
  { rewrite !aset_in by lia. destruct Hn as [[-> ->]|[Hn ->]].
    - destruct (Z.ltb_spec k 3); [done|lia].
    - destruct (Z.ltb_spec n 3); [lia|]. rewrite (aget_Some _ _ g); [rewrite bind_done, aset_in by lia; done|lia|].
      rewrite F1. rewrite !list_lookup_insert_ne by lia. destruct Hn as [->| ->]; [rewrite list_lookup_insert_ne by lia|];
        apply list_lookup_insert_eq; rewrite ?length_insert; lia. }
  rewrite Hset, bind_done. eexists. split; [done|]. split; [by eexists|]. constructor; try done. cbn [snd io_fs with_io_fs fd_table with_fd_table]. rewrite F1.
  destruct Hk as [->| ->]; cbn [Z.eqb].
  - change (Z.to_nat 0) with 0%nat. rewrite list_insert_insert_ne by done. by rewrite list_insert_insert_eq.
  - change (Z.to_nat 1) with 1%nat. by rewrite list_insert_insert_eq.
Qed.

Lemma middle_ok : forall n each_cmd st, (length each_cmd < n)%nat -> plumbed x0 g p r w g g st.2 -> (forall c, c ∈ commands each_cmd -> harmless x0 g p r w c) ->
  exists cs last st', middle_commands execute n each_cmd st = Done (last, st') /\ commands each_cmd = cs ++ [last] /\ chained g g cs st st' /\ plumbed x0 g p r w g g st'.2.
Proof.
  induction n as [|n IH]; intros each_cmd st Hn Hp Hh; [lia|]. cbn [middle_commands]. pose proof (cut_commands each_cmd) as Hc.
  destruct (cut each_cmd) as [[c rest]|]; destruct Hc as [Hc1 Hc2].
  - rewrite Hc1 in Hh. destruct (Hh c ltac:(by left) g g st Hp) as (st1 & Hrun & Hp1). rewrite Hrun, bind_done.
    destruct (IH rest st1 ltac:(lia) Hp1) as (cs & last & st' & -> & Hcs & Hch & Hp'); [intros c' Hc'; apply Hh; by right|].
    exists (c :: cs), last, st'. split; [done|]. split; [by rewrite Hc1, Hcs|]. split; [|done]. econstructor; [by apply plumbed_std|exact Hrun|done].
  - exists [], each_cmd, st. split; [done|]. split; [done|]. split; [constructor|done].
Qed.

(** Closing one end of the pipe while the other is open, and closing the last one. *)
Lemma close_first (x : mach) : fd_table (io_fs x) !! Z.to_nat r = Some g -> length (fd_table (io_fs x)) = 8%nat ->
  file_table (io_fs x) !! Z.to_nat g = Some (mk_file 2 PIPE_FLAG p) ->
  sys_close x r = Done (0, with_io_fs (with_fd_table (<[Z.to_nat r := -1]> (fd_table (io_fs x)))
    (with_file_table (<[Z.to_nat g := mk_file 1 PIPE_FLAG p]> (file_table (io_fs x))) (io_fs x))) x).
Proof.
  intros Hfd Hlen Hf. pose proof (lookup_lt_Some _ _ _ Hf) as Hl. unfold sys_close. destruct (Z.ltb_spec 2 r); [|lia].
  assert (Hl2g : fd_local2global (io_fs x) r = Done g) by (unfold fd_local2global; rewrite (aget_Some (fd_table (io_fs x)) r g ltac:(lia) Hfd), bind_done; unfold MAX_FILE_OPEN; assert_ok; [done|lia]).
  assert (Hget : aget (file_table (io_fs x)) g = Done (mk_file 2 PIPE_FLAG p)) by (apply aget_Some; [lia|done]).
  rewrite Hl2g, bind_done. unfold is_pipe. rewrite Hl2g, bind_done, Hget, bind_done. cbn [fd_flag fd_pos fd_inode]. change (PIPE_FLAG =? PIPE_FLAG) with true. rewrite bind_done. cbv iota.
  change (u32 (2 - 1)) with 1. change (1 =? 0) with false. cbv iota. rewrite bind_done. cbn [fd_flag fd_pos fd_inode]. change (u32 (2 - 1)) with 1. change (1 =? 0) with false. cbv iota.
  unfold set_file. rewrite aset_in by lia. rewrite !bind_done. change (PIPE_FLAG =? PIPE_FLAG) with true. cbv iota. rewrite bind_done. rewrite aset_in by (cbn; lia). done.
Qed.

Lemma close_last (x : mach) pg : fd_table (io_fs x) !! Z.to_nat w = Some g -> length (fd_table (io_fs x)) = 8%nat ->
  file_table (io_fs x) !! Z.to_nat g = Some (mk_file 1 PIPE_FLAG p) -> ps_mfree_page (pages (mem (io_fs x))) p 1 = Done pg ->
  exists x', sys_close x w = Done (0, x') /\ fd_table (io_fs x') = <[Z.to_nat w := -1]> (fd_table (io_fs x)) /\
    file_table (io_fs x') = <[Z.to_nat g := mk_file 0 PIPE_FLAG 0]> (file_table (io_fs x)) /\ pipes x' = delete p (pipes x) /\ pages (mem (io_fs x')) = pg /\ screen x' = screen x.
Proof.
  intros Hfd Hlen Hf Hpg. pose proof (lookup_lt_Some _ _ _ Hf) as Hl. unfold sys_close. destruct (Z.ltb_spec 2 w); [|lia].
  assert (Hl2g : fd_local2global (io_fs x) w = Done g) by (unfold fd_local2global; rewrite (aget_Some (fd_table (io_fs x)) w g ltac:(lia) Hfd), bind_done; unfold MAX_FILE_OPEN; assert_ok; [done|lia]).
  assert (Hget : aget (file_table (io_fs x)) g = Done (mk_file 1 PIPE_FLAG p)) by (apply aget_Some; [lia|done]).
  rewrite Hl2g, bind_done. unfold is_pipe. rewrite Hl2g, bind_done, Hget, bind_done. cbn [fd_flag fd_pos fd_inode]. change (PIPE_FLAG =? PIPE_FLAG) with true. rewrite bind_done. cbv iota.
  rewrite bind_done. cbn [fd_flag fd_pos fd_inode]. change (u32 (1 - 1)) with 0. change (0 =? 0) with true. cbv iota. rewrite Hpg, bind_done.
  change (PIPE_FLAG =? PIPE_FLAG) with true. cbv iota. unfold set_file. cbn [io_fs with_io_fs file_table with_mem]. rewrite aset_in by lia. rewrite !bind_done. cbn [io_fs with_io_fs fd_table with_mem with_file_table].
  rewrite aset_in by lia. rewrite bind_done. eexists. split; [done|]. done.
Qed.
End Steps.

(** ** Properties *)

(** C40. A command line with pipes: on a state with free descriptors, a free file and a
    page, and commands that leave the plumbing as it is, the shell makes a pipe in that page
    and runs the commands of the line in order. The first runs in the state [sys_pipe]
    leaves, with the keyboard as its input and the pipe as its output; those in the middle
    have the pipe as both, the last has the pipe as its input and the screen as its output;
    between two commands only the descriptors change. Afterwards the process has the
    descriptors it had, the pipe's file is free again, its page has been freed, and no
    longer counts as handed out, and its queue is gone. *)
Theorem pipeline_plumbing line cc x0 g p v l1 l2 :
  tables_ok (io_fs x0) -> free_slot (io_fs x0) g -> 3 <= l1 < l2 -> l2 < 8 ->
  fd_table (io_fs x0) !! Z.to_nat l1 = Some (-1) -> fd_table (io_fs x0) !! Z.to_nat l2 = Some (-1) ->
  fd_table (io_fs x0) !! 0%nat = Some 0 -> fd_table (io_fs x0) !! 1%nat = Some 1 ->
  ps_ok (pages (mem (io_fs x0))) -> ps_malloc_page (pages (mem (io_fs x0))) 1 = Done (p, v) -> p <> 0 ->
  bar ∈ line -> (forall r w c, c ∈ commands line -> harmless x0 g p r w c) ->
  exists r w x1 c1 mid cn a1 b1 a2 b2 an bn x', commands line = c1 :: mid ++ [cn] /\
    my_shell execute line (cc, x0) = Done (bn.1, x') /\
    sys_pipe x0 = Done (0, (r, w), x1) /\ link (cc, x1) a1 /\
    (std a1 0 g /\ run_command execute c1 a1 = Done b1) /\ link b1 a2 /\ chained g g mid a2 b2 /\ link b2 an /\
    (std an g 1 /\ run_command execute cn an = Done bn) /\
    fd_table (io_fs x') = fd_table (io_fs x0) /\ file_table (io_fs x') !! Z.to_nat g = Some (mk_file 0 PIPE_FLAG 0) /\
    pipes x' !! p = None /\ ps_mfree_page (pages (mem (io_fs bn.2))) p 1 = Done (pages (mem (io_fs x'))) /\
    ps_ok (pages (mem (io_fs x'))) /\ ~ ps_page (pages (mem (io_fs x'))) p /\ screen x' = screen bn.2.
Proof.
  intros Ht Hfree Hl1 Hl2 Hf1 Hf2 Hin Hout Hps Hpg Hp Hbar Hh. destruct (some_free_fd _ l1 ltac:(lia) Hf1) as (r & Hrl & Hr).
  pose proof Ht as [Ht1 Ht2]. pose proof Hr as (Hr3 & Hr1 & _). pose proof Hfree as (Hg3 & _).
  destruct (sys_pipe_ok x0 p v g r l2) as (w & x1 & Hs & Hrw & Hw & _ & _ & _ & Efd & Efile & Epg & Hwf); [done|done|done|lia|lia|done|done|done|].
  destruct (ps_malloc_ok _ 1 Hps ltac:(lia)) as (p' & v' & Epg' & Hv & _ & Hpage). rewrite Hpg in Epg'. injection Epg' as <- <-.
  destruct (Hpage Hp) as (Hal & _ & _ & Hpg0). destruct (Hpg0 0 ltac:(lia)) as [_ Hpgp]. rewrite Z.mul_0_r, Z.add_0_r in Hpgp.
  assert (P1 : plumbed x0 g p r w 0 1 x1).
  { constructor; [|rewrite Efile; apply list_lookup_insert_eq; lia|by rewrite Epg|by rewrite Epg].
    rewrite Efd. rewrite (list_insert_id _ 0 0), (list_insert_id _ 1 1); [done| |]; rewrite !list_lookup_insert_ne by lia; done. }
  unfold my_shell. destruct line as [|ch line]; [by apply elem_of_nil in Hbar|]. set (ln := ch :: line) in *. rewrite decide_True by done. unfold run_pipeline.
  pose proof (cut_commands ln) as Hc. destruct (cut ln) as [[c1 rest]|]; [|by destruct Hc]. destruct Hc as [Hc _]. cbn [fst snd]. rewrite Hs, bind_done.
  assert (Hh' : forall c, c ∈ commands ln -> harmless x0 g p r w c) by (intros c Hc'; by apply Hh). rewrite Hc in Hh'.
  destruct (redirect_ok x0 g p r w Ht2 ltac:(lia) Hw 0 1 (cc, x1) 1 w g P1) as (a1 & -> & L1 & A1); [by right|by right; split; [right|]|]. rewrite bind_done. cbn [Z.eqb] in A1.
  destruct (Hh' c1 ltac:(by left) _ _ a1 A1) as (b1 & R1 & B1). rewrite R1, bind_done.
  destruct (redirect_ok x0 g p r w Ht2 ltac:(lia) Hw 0 g b1 0 r g B1) as (a2 & -> & L2 & A2); [by left|by right; split; [left|]|]. rewrite bind_done. cbn [Z.eqb] in A2.
  destruct (middle_ok x0 g p r w Ht2 (S (length rest)) rest a2 ltac:(lia) A2) as (mid & cn & b2 & -> & Hcs & Hch & B2); [intros c Hc'; apply Hh'; by right|]. rewrite bind_done.
  destruct (redirect_ok x0 g p r w Ht2 ltac:(lia) Hw g g b2 1 1 1 B2) as (an & -> & Ln & An); [by right|by left|]. rewrite bind_done. cbn [Z.eqb] in An.
  destruct (Hh' cn ltac:(right; rewrite Hcs; apply elem_of_app; right; by left) _ _ an An) as (bn & Rn & Bn). rewrite Rn, bind_done.
  destruct (redirect_ok x0 g p r w Ht2 ltac:(lia) Hw g 1 bn 0 0 0 Bn) as (z & -> & (tz & ->) & Z1); [by left|by left|]. rewrite bind_done. cbn [Z.eqb] in Z1. cbn [fst snd] in *.
  pose proof Z1 as [F1 F2 F3 F4]. set (xz := with_io_fs (with_fd_table tz (io_fs bn.2)) bn.2) in *.
  assert (Hlen : length (fd_table (io_fs xz)) = 8%nat) by (rewrite F1, !length_insert; done).
  assert (Hfr : fd_table (io_fs xz) !! Z.to_nat r = Some g) by (rewrite F1; do 3 (rewrite list_lookup_insert_ne by lia); apply list_lookup_insert_eq; lia).
  assert (Hfw : fd_table (io_fs xz) !! Z.to_nat w = Some g) by (rewrite F1; do 2 (rewrite list_lookup_insert_ne by lia); apply list_lookup_insert_eq; rewrite length_insert; lia).
  rewrite (close_first x0 g p r w Ht2 ltac:(lia) ltac:(lia) Hw xz Hfr Hlen F2), bind_done. cbn [snd].
  set (xy := with_io_fs (with_fd_table _ _) xz).
  destruct (ps_mfree_ok _ p 1 F3 ltac:(lia) Hal) as (pg & Hfreep & Hpg' & _ & Hgone); [intros k Hk; assert (k = 0) as -> by lia; rewrite Z.mul_0_r, Z.add_0_r; exact F4|].
  destruct (close_last x0 g p r w Ht2 ltac:(lia) ltac:(lia) Hw xy pg) as (x' & -> & E1 & E2 & E3 & E4 & E5).
  { cbn. rewrite list_lookup_insert_ne by lia. exact Hfw. }
  { cbn. rewrite length_insert. exact Hlen. }
  { cbn. apply list_lookup_insert_eq. by eapply lookup_lt_Some. }
  { exact Hfreep. }
  rewrite bind_done. exists r, w, x1, c1, mid, cn, a1, b1, a2, b2, an, bn, x'. split; [by rewrite Hc, Hcs|]. split; [done|]. split; [done|]. split; [done|].
  split; [split; [exact (plumbed_std x0 g p r w Ht2 _ _ _ A1)|done]|]. split; [done|]. split; [done|]. split; [done|].
  split; [split; [exact (plumbed_std x0 g p r w Ht2 _ _ _ An)|done]|]. split; [|split; [|split; [|rewrite E4; split_and!; [exact Hfreep|done| |exact E5]]]].
  - rewrite E1. cbn [xy io_fs with_io_fs fd_table with_fd_table]. rewrite F1. apply list_eq. intros i. destruct (decide (i < 8)%nat) as [Hi|Hi]; [|rewrite !lookup_ge_None_2; rewrite ?length_insert; lia || done].
    rewrite !list_lookup_insert, !length_insert, Ht2. repeat case_decide; naive_solver lia.
  - rewrite E2. cbn. apply list_lookup_insert_eq. rewrite length_insert. by eapply lookup_lt_Some.
  - rewrite E3. apply lookup_delete_eq.
  - specialize (Hgone 0 ltac:(lia)). by rewrite Z.mul_0_r, Z.add_0_r in Hgone.
Qed.
End Plumbing.

(** ** Witness: help|clear|help *)
Abbreviation sample_execute := (cmd_execute (D := disk) (P := Paging.vm) (fun _ x => Done (2, 0, x)) 10 0 []) (only parsing).

Lemma sample_harmless g p r w c : c = chars "help" \/ c = chars "clear" -> harmless sample_execute sample_io g p r w c.
Proof.
  intros Hc gin gout [cc x] Hp. cbn [snd] in Hp.
  assert (E : exists t, run_command sample_execute c (cc, x) = Done (cc, with_screen t x)).
  { destruct Hc as [->| ->]; unfold run_command; eexists.
    - assert (Q : cmd_parse (chars "help" ++ [0]) space = Done (1, Some 0 :: replicate 15 None, chars "help" ++ [0])) by (vm_compute; reflexivity). rewrite Q, bind_done.
      assert (Q2 : printf help_text [] = Done help_text) by (vm_compute; reflexivity). cbn [fst snd].
      assert (Q3 : argv_strings (Some 0 :: replicate 15 None) (chars "help" ++ [0]) = [chars "help"]) by (vm_compute; reflexivity). rewrite Q3.
      transitivity (y ← sys_help x; Done (cc, y)); [reflexivity|]. unfold sys_help. rewrite Q2. reflexivity.
    - assert (Q : cmd_parse (chars "clear" ++ [0]) space = Done (1, Some 0 :: replicate 15 None, chars "clear" ++ [0])) by (vm_compute; reflexivity). rewrite Q, bind_done. reflexivity. }
  destruct E as [t ->]. eexists. split; [done|]. cbn [snd]. destruct Hp; by constructor.
Qed.

Lemma pipeline_plumbing_witness :
  exists bn x', my_shell sample_execute (chars "help|clear|help") ([], sample_io) = Done (bn, x') /\ fd_table (io_fs x') = fd_table (io_fs sample_io) /\
    ~ ps_page (pages (mem (io_fs x'))) sample_page.1.
Proof.
  destruct (pipeline_plumbing sample_execute (chars "help|clear|help") [] sample_io 3 sample_page.1 sample_page.2 3 4) as (r & w & x1 & c1 & mid & cn & a1 & b1 & a2 & b2 & an & bn & x' & _ & H1 & _ & _ & _ & _ & _ & _ & _ & H2 & _ & _ & _ & _ & H3 & _).
  - exact sample_file_tables.
  - exact sample_free_slot.
  - lia.
  - lia.
  - reflexivity.
  - reflexivity.
  - reflexivity.
  - reflexivity.
  - exact (ho_pages sample_heap sample_heap_ok).
  - vm_compute. reflexivity.
  - vm_compute. discriminate.
  - apply list_elem_of_lookup. exists 4%nat. reflexivity.
  - intros r w c Hc. apply sample_harmless. cbn in Hc. apply elem_of_cons in Hc as [->|Hc]; [by left|]. apply elem_of_cons in Hc as [->|Hc]; [by right|].
    apply elem_of_cons in Hc as [->|Hc]; [by left|by apply elem_of_nil in Hc].
  - exists bn.1, x'. split; [exact H1|]. split; [exact H2|exact H3].
Defined.
