(* ===== verification/Cat.v ===== *)
(** * The program cat (command/cat.c)

    [main] with the system calls it makes; its two arrays are lists, [malloc_ok] tells
    whether [malloc] gave it a buffer. *)
From stdpp Require Import base numbers list option tactics gmap fin_maps.
From Stdlib Require Import ZArith Lia.
From Stdlib Require String.
Import String.StringSyntax.
From S2P Require Import Prelude Bitmap Cpu Stdio Sched Sync Ioqueue Ide Heap Iface Inode File FileIo Dir Path Calls Io Builtin Stdout.

Definition buf_size : Z := 1024.

Section Cat.
Context {D P : Type} `{BlockDev D} `{PageStore P}.
Abbreviation mach := (io (D := D) (P := P)) (only parsing).

(** One turn of the loop; a read that would block is not one of a file. *)
Definition cat_turn (fd : Z) (x : mach) : outcome (mach + mach) :=
  r ← sys_read x fd buf_size;
  let '(c, bs, x) := r in
  match c with
  | Ret read_bytes =>
      if read_bytes =? -1 then Done (inr x) else
      x ← write_stdout x (take (Z.to_nat read_bytes) bs);
      Done (inl x)
  | _ => Fault
  end.

(** The path, in an array of 512 bytes: relative to the working directory, or as it is. *)
Definition abs_path (fuel : nat) (s : Inode.fs (D := D) (A := heap (P := P))) (arg : list Z) : outcome (list Z * Inode.fs (D := D) (A := heap (P := P))) :=
  if negb (bool_decide (arg !! 0%nat = Some slash)) then
    r ← sys_getcwd fuel s 512;
    p ← cat_path (default [] r.1) [slash];
    p ← cat_path p arg;
    Done (p, r.2)
  else if decide (Z.of_nat (length arg) < 512) then Done (arg, s) else Fault.

(** The status of the program. *)
Definition cat_main (fuel : nat) (malloc_ok : bool) (junk : Z) (nm : list Z) (argv : list (list Z)) (x : mach) : outcome (Z * mach) :=
  match argv with
  | _ :: _ :: _ :: _ => x ← print x (msg "cat: argument error" []); Done (-2, x)
  | [_] =>
      r ← sys_read x stdin_no 512;
      let '(c, bs, x) := r in
      match c with
      | Ret _ => t ← buf_string (bs ++ replicate (512 - length bs) 0); x ← print x (chars "%s", [VStr t]); Done (0, x)
      | _ => Fault
      end
  | [_; arg] =>
      if negb malloc_ok then x ← print x (msg "cat: malloc memory failed" []); Done (-1, x) else
      a ← abs_path fuel (io_fs x) arg;
      o ← sys_open a.2 a.1 O_RDONLY junk nm;
      let x := with_io_fs o.2 x in
      if o.1 =? -1 then x ← print x (msg "cat: open: open %s failed" [VStr arg]); Done (-1, x) else
      x ← loop fuel (cat_turn o.1) x;
      c ← sys_close x o.1;
      Done (66, c.2)
  | [] => Fault
  end.

(** ** What it prints *)

(** Descriptor [fd] leads to the open file [f] with inode [i]; the output is the screen. *)
Record reading (x : mach) (fd g : Z) (f : file) (i : inode) : Prop := {
  rd_fs : fs_ok (io_fs x);
  rd_fd : 2 < fd /\ fd_table (io_fs x) !! Z.to_nat fd = Some g /\ 0 <= g < 32;
  rd_file : file_table (io_fs x) !! Z.to_nat g = Some f /\ fd_flag f <> PIPE_FLAG /\ inodes (io_fs x) !! fd_inode f = Some i;
  rd_inode : file_ok (io_fs x) i;
  rd_out : exists g1 f1, fd_table (io_fs x) !! 1%nat = Some g1 /\ 0 <= g1 < 32 /\ g1 <> g /\ file_table (io_fs x) !! Z.to_nat g1 = Some f1 /\ fd_flag f1 <> PIPE_FLAG
}.

(** A read of a file goes to [file_read]. *)
Lemma sys_read_file x fd g f count : 2 < fd -> fd_table (io_fs x) !! Z.to_nat fd = Some g -> 0 <= g < 32 -> file_table (io_fs x) !! Z.to_nat g = Some f -> fd_flag f <> PIPE_FLAG ->
  sys_read x fd count = (r ← file_read (io_fs x) g count; Done (Ret r.1.1, r.1.2, with_io_fs r.2 x)).
Proof.
  intros F1 F2 F3 F4 F5. destruct (no_pipe (io_fs x) fd g f ltac:(lia) F2 F3 F4 F5) as [Hl Hp].
  unfold sys_read, stdout_no, stderr_no, stdin_no. destruct (Z.ltb_spec fd 0), (Z.eqb_spec fd 1), (Z.eqb_spec fd 2), (Z.eqb_spec fd 0); try lia. cbn [orb].
  rewrite Hp, bind_done, Hl, bind_done. destruct (file_read _ _ _) as [[[k bs] s']| | |]; done.
Qed.

(** At the end of a file. *)
Lemma file_read_eof (s : Inode.fs (D := D) (A := heap (P := P))) g f i : 0 <= g -> file_table s !! Z.to_nat g = Some f -> inodes s !! fd_inode f = Some i -> 0 <= fd_pos f < 71681 -> fd_pos f = i_size i ->
  file_read s g buf_size = Done (-1, [], s).
Proof.
  intros Hg Hf Hi Hp E. unfold file_read, buf_size. rewrite (aget_Some _ _ _ Hg Hf), bind_done. unfold inode_at. rewrite Hi, bind_done, (u32_small (fd_pos f + 1024)) by lia. rewrite <- E.
  destruct (Z.ltb_spec (fd_pos f) (fd_pos f + 1024)); [|lia]. rewrite Z.sub_diag. done.
Qed.

(** What [cat] prints: reading an open file from its start and with a block of memory for
    the transfer, the loop ends after printing the whole file, byte by byte, when the file
    has fewer than 1024 bytes (none of them 0). When the file is longer, the first 1024
    bytes fill the array in which [sys_write] keeps what goes to the screen and leave no
    room for the 0 at its end, so that it is read beyond it. *)
Theorem cat_prints fuel x fd g f i :
  reading x fd g f i -> fd_pos f = 0 -> can_alloc (mem (io_fs x)) [512; 560] -> (2 < fuel)%nat ->
  Forall (fun c => c <> 0) (contents (dsk (io_fs x)) i 0 (Z.min 1024 (i_size i))) ->
  if decide (i_size i < 1024) then
    exists x', loop fuel (cat_turn fd) x = Done x' /\ screen x' = screen x ++ contents (dsk (io_fs x)) i 0 (i_size i) /\ fs_ok (io_fs x') /\
      file_table (io_fs x') !! Z.to_nat g = Some (mk_file (i_size i) (fd_flag f) (fd_inode f))
  else loop fuel (cat_turn fd) x = Fault.
Proof.
  intros [Hs (F1 & F2 & F3) (F4 & F5 & F6) Hok (g1 & f1 & G1 & G2 & G3 & G4 & G5)] H0' Hca Hfuel Hbytes. pose proof (fk_size (io_fs x) i Hok) as Hsz.
  pose proof (fk_wf (io_fs x) i Hok) as (_ & [Hsz0 _] & _).
  destruct fuel as [|[|fuel]]; [lia|lia|].
  pose proof (file_read_ok (io_fs x) g f i 1024 Hs ltac:(lia) F4 F6 Hok ltac:(lia) ltac:(lia) ltac:(lia) Hca) as Hr. cbv zeta in Hr. rewrite H0' in Hr.
  assert (Hturn : cat_turn fd x = (r ← sys_read x fd 1024; let '(c, bs, y) := r in
    match c with Ret n => if n =? -1 then Done (inr y) else y ← write_stdout y (take (Z.to_nat n) bs); Done (inl y) | _ => Fault end)) by done.
  rewrite (sys_read_file x fd g f 1024 F1 F2 F3 F4 F5) in Hturn.
  destruct (Z.eqb_spec 0 (i_size i)) as [E|E].
  - change (0 <? 1024) with true in Hr. cbn [andb] in Hr. rewrite decide_True by lia. rewrite Hr, !bind_done in Hturn. cbn in Hturn.
    eexists. split; [apply loop_done; exact Hturn|]. cbn. rewrite <- E. split; [by rewrite app_nil_r|]. split; [done|]. destruct f. cbn in *. by subst.
  - rewrite andb_false_r, Z.add_0_l, Z.sub_0_r in Hr. destruct (Z.ltb_spec (Z.min 1024 (i_size i) / 512) 139); [|zdiv].
    destruct Hr as (s' & Hr & Hs' & Eft & Ein & Ecp & Efd & _). rewrite Hr, !bind_done in Hturn. cbn [fst snd] in Hturn.
    set (n := Z.min 1024 (i_size i)) in *. set (bs := contents (dsk (io_fs x)) i 0 n) in *. assert (Hlen : length bs = Z.to_nat n) by (unfold bs, contents; by rewrite length_fmap, length_seqZ).
    rewrite (proj2 (Z.eqb_neq n (-1))), take_ge in Hturn by lia. pose proof (lookup_lt_Some _ _ _ F4) as Hlg.
    unfold write_stdout in Hturn. rewrite (sys_write_screen (with_io_fs s' x) g1 f1) in Hturn; [|by cbn; rewrite Efd|done|cbn; rewrite Eft, list_lookup_insert_ne by lia; exact G4|done|done].
    destruct (decide (i_size i < 1024)) as [Hsm|Hbig].
    + assert (En : n = i_size i) by lia. rewrite decide_True in Hturn by lia. rewrite bind_done in Hturn. cbn [snd] in Hturn. rewrite (loop_next _ _ _ _ Hturn).
      set (y := mk_io _ _ _ _ _) in *. assert (Hg : file_table (io_fs y) !! Z.to_nat g = Some (mk_file (i_size i) (fd_flag f) (fd_inode f))) by (cbn; rewrite Eft, En; apply list_lookup_insert_eq; lia).
      assert (Hend : cat_turn fd y = Done (inr y)).
      { unfold cat_turn. rewrite (sys_read_file y fd g (mk_file (i_size i) (fd_flag f) (fd_inode f)) _ F1) by (done || (cbn; by rewrite Efd)).
        rewrite (file_read_eof (io_fs y) g (mk_file (i_size i) (fd_flag f) (fd_inode f)) i) by (done || (cbn; lia) || (cbn; by rewrite Ein)). done. }
      exists y. split; [by apply loop_done|]. split; [cbn; unfold bs; by rewrite En|]. split; [exact Hs'|exact Hg].
    + rewrite decide_False in Hturn by lia. cbn in Hturn. cbn [loop]. rewrite Hturn. done.
Qed.
End Cat.

(** ** Witness: a file of 600 letters *)
Definition sample_cat : io (D := disk) (P := Paging.vm) := mk_io sample_rw sample_sched ∅ sample_ioq [].

Lemma cat_prints_witness : exists x', loop 3 (cat_turn 3) sample_cat = Done x' /\ screen x' = replicate 512 65 ++ replicate 88 66.
Proof.
  pose proof (cat_prints 3 sample_cat 3 3 (mk_file 0 O_WRONLY sample_p) sample_file) as H. rewrite decide_True in H by (vm_compute; reflexivity).
  destruct H as (x' & H1 & H2 & _).
  - constructor.
    + exact sample_rw_ok.
    + split; [lia|]. split; [reflexivity|lia].
    + split; [reflexivity|]. split; [discriminate|apply lookup_singleton_eq].
    + exact sample_file_ok.
    + exists 1, (mk_file 0 0 0). split; [reflexivity|]. split; [lia|]. split; [lia|]. split; [reflexivity|discriminate].
  - reflexivity.
  - apply can_allocb_sound. vm_compute. reflexivity.
  - lia.
  - assert (E : contents (dsk (io_fs sample_cat)) sample_file 0 (Z.min 1024 (i_size sample_file)) = replicate 512 65 ++ replicate 88 66) by (vm_compute; reflexivity).
    rewrite E. apply Forall_app. split; apply Forall_replicate; lia.
  - exists x'. split; [exact H1|]. rewrite H2. vm_compute. reflexivity.
Defined.
