(* ===== verification/Startup.v ===== *)
(** * Console and start-up (device/console.c, lib/kernel/stdio-kernel.c, kernel/debug.c, lib/user/assert.c, kernel/init.c, kernel/main.c, thread_init, mem_init, keyboard_init)

    The console is a lock and the text on the screen. [init_all] runs the components'
    init functions one after the other; the disks and the file system come last and are
    set up by [ide_init] (Partition) and [filesys_init] (Format). Functions are named by
    their addresses. *)
From stdpp Require Import base numbers list option tactics gmap fin_maps.
From Stdlib Require Import ZArith Lia.
From Stdlib Require String.
Import String.StringSyntax.
From S2P Require Import Prelude Bitmap Cpu Stdio Screen Sched Sync Ioqueue Paging PageAlloc Heap AddrSpace Ide Iface Inode File FileIo FileWrite Dir Path Calls Io Builtin Stdout Process Syscall Machine.

(** ** The console *)
Record console := mk_console { console_lock : lock; shown : list Z }.

Definition console_init (c : console) : console := mk_console lock_init (shown c).

(** The flag is false when the caller sleeps for the lock. *)
Definition console_acquire (s : sched) (c : console) : outcome (bool * sched * console) :=
  r ← lock_acquire_off s (console_lock c);
  let '(taken, s, l) := r in
  Done (taken, s, mk_console l (shown c)).
Definition console_release (s : sched) (c : console) : outcome (sched * console) :=
  r ← lock_release_off s (console_lock c);
  Done (r.1, mk_console r.2 (shown c)).

(** Output between the two; the caller that sleeps has shown nothing yet. *)
Definition console_put (text : list Z) (s : sched) (c : console) : outcome (bool * sched * console) :=
  r ← console_acquire s c;
  let '(taken, s, c) := r in
  if taken : bool then
    r ← console_release s (mk_console (console_lock c) (shown c ++ text));
    Done (true, r.1, r.2)
  else Done (false, s, c).
Definition console_put_str (str : list Z) (s : sched) (c : console) : outcome (bool * sched * console) := console_put str s c.
Definition console_put_char (char_asci : Z) (s : sched) (c : console) : outcome (bool * sched * console) := console_put [u8 char_asci] s c.
Definition console_put_int (num : Z) (s : sched) (c : console) : outcome (bool * sched * console) := console_put (Crt.int_text num) s c.

Definition printk (format : list Z) (args : list varg) (s : sched) (c : console) : outcome (bool * sched * console) :=
  r ← vsprintf (replicate 1024 0) format args;
  n ← buf_strlen r.2;
  console_put_str (take (Z.to_nat n) r.2) s c.

Definition sys_putchar (char_asci : Z) (s : sched) (c : console) : outcome (bool * sched * console) := console_put_char char_asci s c.

(** ** Failed assertions *)

(** The flags and the screen with which the kernel then stays in a loop. *)
Definition panic_spin (filename : list Z) (line : Z) (func condition : list Z) (eflags : Z) (v : Crt.screen) : outcome (Z * Crt.screen) :=
  let eflags := snd (Intr.intr_disable eflags) in
  v ← Crt.put_str ([10; 10; 10] ++ chars "!!!!! error !!!!!" ++ [10]) v;
  v ← Crt.put_str (chars "filename:") v; v ← Crt.put_str filename v; v ← Crt.put_str [10] v;
  v ← Crt.put_str (chars "line:0x") v; v ← Crt.put_int line v; v ← Crt.put_str [10] v;
  v ← Crt.put_str (chars "function:") v; v ← Crt.put_str func v; v ← Crt.put_str [10] v;
  v ← Crt.put_str (chars "condition:") v; v ← Crt.put_str condition v; v ← Crt.put_str [10] v;
  Done (eflags, v).

(** The machine with which a program then stays in a loop. *)
Definition user_spin {D P} `{BlockDev D} `{PageStore P} (filename : list Z) (line : Z) (func condition : list Z) (x : io (D := D) (P := P)) : outcome (io (D := D) (P := P)) :=
  print x ([10; 10; 10; 10] ++ chars "filename %s" ++ [10] ++ chars "line %d" ++ [10] ++ chars "function %s" ++ [10] ++ chars "condition %s" ++ [10],
    [VStr filename; VInt line; VStr func; VStr condition]).

(** ** Memory, threads, keyboard *)

(** The pools and the kernel's block descriptors; [mem_bytes_total] is the word the loader
    leaves at 0xb00. *)
Definition mem_init (junk : Z -> Z) (mem_bytes_total : Z) : outcome (layout * list mem_block_desc) :=
  l ← mem_pool_init junk mem_bytes_total;
  Done (l, block_desc_init).

Definition with_idle (t : Z) (s : sched) : sched :=
  mk_sched (Sched.ready s) (all s) (threads s) (cur s) t (main_thread s) (eflags s) (pid_bitmap s) (active_pgdir s) (tss_esp0 s) (kticks s).

(** What a new thread runs first, with interrupts off: they go on, then its function. *)
Definition kernel_thread {A} (function : sched -> outcome A) (s : sched) : outcome A :=
  function (with_flags (snd (Intr.intr_enable (eflags s))) s).

(** The idle thread's turn: it blocks, which runs another task; run again, when no task is
    ready, it lets interrupts in and halts until one comes. *)
Definition idle_block (s : sched) : outcome (Intr.intr_status * sched) := thread_block s TASK_BLOCKED.
Definition idle_wait (old_status : Intr.intr_status) (s : sched) : sched := with_flags (Intr.sti (snd (Intr.intr_set_status old_status (eflags s)))) s.

(** The first process, the running code as a thread, and the idle thread. *)
Definition thread_init (kernel_thread start init idle past : Z) (s : sched) (x : vm) : outcome (Z * (Z * virtual_addr) * list mem_block_desc * sched * vm) :=
  let s := with_all (fun _ => []) (with_ready (fun _ => []) s) in
  s ← pid_pool_init s past;
  r ← process_execute kernel_thread start s x init (chars "init");
  let '(p, va, descs, s, x) := r in
  s ← make_main_thread s;
  g ← get_kernel_pages x 1;
  s ← thread_start kernel_thread s g.1 (chars "idle") 10 idle 0;
  Done (p, va, descs, with_idle g.1 s, g.2).

Definition keyboard_init (kbd_buf : ioqueue) (idt_table : list Z) (handler : Z) : outcome (ioqueue * list Z) :=
  t ← Idt.register_handler idt_table 0x21 handler;
  Done (ioqueue_init kbd_buf, t).

(** ** Start-up *)

(** The addresses of the functions start-up names, and of the tables it loads. *)
Record symbols := mk_symbols {
  sym_entries : list Z; sym_syscall : Z; sym_general : Z; sym_timer : Z; sym_keyboard : Z;
  sym_kernel_thread : Z; sym_start_process : Z; sym_init : Z; sym_idle : Z; sym_idt : Z; sym_tss : Z
}.

(** What the machine holds: the gates, the handlers, what was written to ports, the
    operands of lidt, lgdt and ltr, the segment and its descriptors, memory, the tasks,
    the console, the keyboard's queue and the table of system calls. *)
Record machine := mk_machine {
  gates : list Idt.gate_desc; handlers : list Z; ports : list (Z * Z); idtr : Z; gdtr : Z; tr : Z;
  the_tss : tss; segments : list (Z * Gdt.gdt_desc); k_block_descs : list mem_block_desc; first : Z; memory : vm; tasks : sched;
  the_console : console; kbd : ioqueue; calls_table : list (option Kernel.function)
}.

(** [init_all] up to [intr_enable]. [x] and [s] are memory and tasks before: no pools, no
    tasks, the running code at [cur s]. *)
Definition init_all (y : symbols) (junk : Z -> Z) (mem_bytes_total past : Z) (x : vm) (s : sched) (c : console) (kbd_buf : ioqueue) : outcome machine :=
  i ← idt_init (sym_entries y) (sym_syscall y) (sym_general y) (sym_idt y);
  let '(gates, idt_table, w, idtr) := i in
  m ← mem_init junk mem_bytes_total;
  let '(l, descs) := m in
  let x := mk_vm (phys x) (cr3 x) (l_kernel l) (l_user l) (l_vaddr l) (userprog_vaddr x) false in
  t ← thread_init (sym_kernel_thread y) (sym_start_process y) (sym_init y) (sym_idle y) past s x;
  let '(first, _, _, s, x) := t in
  p ← timer_init idt_table (sym_timer y);
  let '(w2, idt_table) := p in
  let c := console_init c in
  k ← keyboard_init kbd_buf idt_table (sym_keyboard y);
  let '(kbd_buf, idt_table) := k in
  let '(g, segs, gdtr, tr) := tss_init (sym_tss y) in
  table ← syscall_init (replicate (Z.to_nat syscall_nr) None);
  let s := with_flags (snd (Intr.intr_enable (eflags s))) s in
  Done (mk_machine gates idt_table (w ++ w2) idtr gdtr tr g segs descs first x s c kbd_buf table).

(** What [main] does then: the program read from the raw disk becomes the file /cat. An
    [Inode.fs] whose disk is the mounted one; [sda] is the disk of the kernel. *)
Section Main.
Context {D P : Type} `{BlockDev D} `{PageStore P}.
Definition file_size : Z := 21816.

Definition install_cat (sda : D) (x : io (D := D) (P := P)) (junk : Z) (nm : list Z) : outcome (D * io (D := D) (P := P)) :=
  let sec_cnt := DIV_ROUND_UP file_size 512 in
  b ← sys_malloc (mem (io_fs x)) file_size;
  r ← bd_read sda 300 sec_cnt;
  o ← sys_open (with_mem b.2 (io_fs x)) (chars "/cat") (Z.lor O_CREAT O_RDWR) junk nm;
  let x := with_io_fs o.2 x in
  if negb (o.1 =? -1) then
    w ← sys_write x o.1 (take (Z.to_nat file_size) r.2);
    match w.1 with Ret n => if n =? -1 then Diverge else Done (r.1, w.2) | _ => Fault end
  else Done (r.1, x).

(** The screen then shows the prompt, and the thread of the kernel ends; the pages it gives
    back come first. *)
Definition main_end (x : io (D := D) (P := P)) : outcome (list Z * io (D := D) (P := P)) :=
  let x := with_screen (chars "[rabbit@localhost /]$ ") x in
  e ← thread_exit (io_sched x) (cur (io_sched x)) true;
  Done (e.1, mk_io (io_fs x) e.2 (pipes x) (kbd_buf x) (screen x)).

(** The first process: the child of its [fork] is the shell; the parent collects children,
    of which this is one turn. [wait] yields the child and its status. *)
Definition init_turn (wait : io (D := D) (P := P) -> outcome (Z * Z * io (D := D) (P := P))) (x : io (D := D) (P := P)) : outcome (io (D := D) (P := P)) :=
  r ← wait x;
  let '(child_pid, status, x) := r in
  print x (msg "I`m init, My pid is 1, I recieve a child, It`s pid is %d, status is %d" [VInt child_pid; VInt status]).
End Main.

(** ** Lemmas *)
Lemma bracket_sched s : with_flags (snd (Intr.intr_set_status (fst (Intr.intr_disable (eflags s))) (snd (Intr.intr_disable (eflags s))))) (with_flags (snd (Intr.intr_disable (eflags s))) s) = s.
Proof. pose proof (Intr.intr_bracket_restores (eflags s)) as E. destruct (Intr.intr_disable (eflags s)) as [o f]. destruct E as (_ & _ & E). cbn [fst snd]. rewrite E. by destruct s. Qed.

(** Taking and giving back a lock that is free. *)
Lemma lock_free_pair s : cur s <> 0 -> lock_acquire_off s lock_init = Done (true, s, mk_lock (cur s) (mk_semaphore 0 []) 1) /\
  lock_release_off s (mk_lock (cur s) (mk_semaphore 0 []) 1) = Done (s, lock_init).
Proof.
  intros Hc. pose proof (bracket_sched s) as Hb. split.
  - unfold lock_acquire_off, lock_init. cbn [holder sema]. rewrite (proj2 (Z.eqb_neq 0 (cur s))) by done. cbn [negb]. unfold sema_down, sema_init. cbn [value waiters].
    destruct (Intr.intr_disable (eflags s)) as [o f]. cbn [fst snd] in Hb. change (1 =? 0) with false. change (u8 (1 - 1)) with 0. cbv iota. cbn. rewrite Hb. done.
  - unfold lock_release_off. cbn [holder holder_repeat_nr sema]. unfold sema_up. cbn [value waiters].
    destruct (Intr.intr_disable (eflags s)) as [o f]. cbn [fst snd] in Hb. cbn. rewrite Hb. assert_ok; [reflexivity|apply Z.eqb_refl].
Qed.

(** ** Properties *)

(** The idle thread gives way to the head of the ready queue and, alone, runs on; it halts
    with interrupts on whatever the status it had. *)
Lemma idle_turn_ok s : sched_inv s -> cur s = idle_thread s ->
  exists o s', idle_block s = Done (o, s') /\ sched_inv s' /\ idle_thread s' = idle_thread s /\
    cur s' :: Sched.ready s' = match Sched.ready s with [] => [idle_thread s] | q => q end /\
    forall o s'', Intr.intr_get_status (eflags (idle_wait o s'')) = Intr.INTR_ON.
Proof.
  intros Hi Hc. destruct (block_spec s TASK_BLOCKED) as (s' & E & Hi' & _ & Hd & _ & Hq & _); [done|by left|done|].
  eexists _, s'. split; [exact E|]. split_and!; try done.
  intros o s''. rewrite Intr.get_status_bit. unfold idle_wait. cbn [eflags with_flags]. rewrite Intr.sti_bit by lia. rewrite orb_true_r. done.
Qed.

(** A failed assertion of the kernel: whatever the position on the screen, the report is
    written whole, the line number in hexadecimal, and interrupts stay off. *)
Definition panic_text (filename : list Z) (line : Z) (func condition : list Z) : list Z :=
  [10; 10; 10] ++ chars "!!!!! error !!!!!" ++ [10] ++ chars "filename:" ++ filename ++ [10] ++ chars "line:0x" ++ (digit_char <$> digits itoa_fuel 16 line) ++
  [10] ++ chars "function:" ++ func ++ [10] ++ chars "condition:" ++ condition ++ [10].

Lemma panic_reported filename line func condition eflags v :
  screen_ok v -> is_u32 line -> Screen.plain filename -> Screen.plain func -> Screen.plain condition ->
  exists f v', panic_spin filename line func condition eflags v = Done (f, v') /\ Intr.intr_get_status f = Intr.INTR_OFF /\ screen_ok v' /\
    view v' = tty_str (u8 <$> panic_text filename line func condition) (view v).
Proof.
  intros Hv Hl H1 H2 H3. destruct (put_str_ok (panic_text filename line func condition) v Hv) as (v' & E & Hv' & V).
  { pose proof (proj1 (int_text_plain line Hl)) as Hi. rewrite int_text_digits in Hi by done.
    unfold panic_text. rewrite !Forall_app. split_and!; try (by apply plain_puts); repeat (apply Forall_cons; split; [done|]); apply Forall_nil; done. }
  exists (snd (Intr.intr_disable eflags)), v'. split_and!; [|apply Intr.intr_disable_off|done|done].
  unfold panic_spin, Crt.put_int. rewrite int_text_digits by done. unfold panic_text in E.
  repeat (rewrite ?put_str_app; rewrite put_str_app in E; apply bind_done_inv in E as (? & Ei & E); rewrite Ei, bind_done; clear Ei). rewrite E, bind_done. done.
Qed.

(** Kernel messages: when the console is free and the rendered text fits its buffer,
    [printk] shows exactly that text, and the console is free again. *)
Lemma printk_shows format args out s c :
  console_lock c = lock_init -> cur s <> 0 -> Stdio.render format args = Some out -> Forall (fun ch => 0 < ch < 256) out -> (length out < 1024)%nat ->
  printk format args s c = Done (true, s, mk_console lock_init (shown c ++ out)).
Proof.
  intros Hl Hc Hr Ho Hn. destruct (lock_free_pair s Hc) as [Ha Hrel]. unfold printk. rewrite (vsprintf_zeroed format args out 1024 Hr Ho Hn) by lia. rewrite bind_done. cbn [snd].
  rewrite buf_strlen_ok; [|eapply Forall_impl; [exact Ho|]; simpl; lia|lia]. rewrite bind_done, Nat2Z.id, take_app_length.
  unfold console_put_str, console_put, console_acquire. rewrite Hl, Ha, !bind_done. unfold console_release. cbn [console_lock shown]. rewrite Hrel, !bind_done. done.
Qed.

Lemma intr_enable_on e : Intr.intr_get_status (snd (Intr.intr_enable e)) = Intr.INTR_ON.
Proof.
  unfold Intr.intr_enable. destruct (Intr.intr_get_status e) eqn:E; [|exact E]. change (Intr.intr_get_status (Intr.sti e) = Intr.INTR_ON).
  rewrite Intr.get_status_bit, Intr.sti_bit by lia. rewrite bool_decide_true, orb_true_r by done. done.
Qed.

(** Once the pools and the first tasks could be made, start-up ends with interrupts on, the
    clock and the keyboard each with its handler, every other vector with the general one,
    and the console free. *)
Lemma init_all_wires y junk total past x s c kb l first va descs s' x' :
  length (sym_entries y) = Z.to_nat Idt.IDT_DESC_CNT -> mem_pool_init junk total = Done l ->
  thread_init (sym_kernel_thread y) (sym_start_process y) (sym_init y) (sym_idle y) past s
    (mk_vm (phys x) (cr3 x) (l_kernel l) (l_user l) (l_vaddr l) (userprog_vaddr x) false) = Done (first, va, descs, s', x') ->
  exists z, init_all y junk total past x s c kb = Done z /\
    Intr.intr_get_status (eflags (tasks z)) = Intr.INTR_ON /\ console_lock (the_console z) = lock_init /\
    forall v, 0 <= v < Idt.IDT_DESC_CNT -> handlers z !! Z.to_nat v = Some (if decide (v = 0x20) then sym_timer y else if decide (v = 0x21) then sym_keyboard y else sym_general y).
Proof.
  intros He Hm Ht. unfold init_all, idt_init, Idt.idt_desc_init. rewrite aset_in by (rewrite length_fmap, He; unfold Idt.IDT_DESC_CNT; lia). rewrite !bind_done.
  unfold mem_init. rewrite Hm, !bind_done, Ht, bind_done. unfold timer_init, keyboard_init, Idt.register_handler, Idt.exception_init.
  rewrite aset_in by (rewrite length_replicate; unfold Idt.IDT_DESC_CNT; lia). rewrite !bind_done.
  rewrite aset_in by (rewrite length_insert, length_replicate; unfold Idt.IDT_DESC_CNT; lia). rewrite !bind_done. cbn [tss_init].
  destruct (syscall_init (replicate (Z.to_nat syscall_nr) None)) as [tbl| | |] eqn:Es; [|vm_compute in Es; discriminate..]. rewrite bind_done.
  eexists. split; [reflexivity|]. cbn [tasks the_console handlers console_lock console_init]. split; [|split; [done|]].
  - exact (intr_enable_on (eflags s')).
  - intros v Hv. unfold Idt.IDT_DESC_CNT in Hv. rewrite !list_lookup_insert, !length_insert, length_replicate. change (Z.to_nat 33) with 33%nat. change (Z.to_nat 32) with 32%nat.
    change (Z.to_nat Idt.IDT_DESC_CNT) with 129%nat. repeat case_decide; try lia; try done. apply lookup_replicate_2. lia.
Qed.
